(* ===== verification/_CoqProject ===== *)
-Q . S2P
Prelude.v
GoStrings.v
GoVal.v
ProviderDefs.v
ChainTypes.v
Messages.v
TaskI.v
GoTime.v
GoFloat.v
GoText.v
GoFormat.v
GoBase64.v
Util.v
NodeConfig.v
Genesis.v
NodeOps.v
Peers.v
Chain.v
TaskHeap.v
DockerVolume.v
DockerClient.v
DockerProvider.v
TestnetWorkflow.v
Activities.v
TestnetActivity.v
LoadBalancer.v
LoadTest.v
Keyed.v
Encodings.v
WorkflowStore.v
WorkflowDB.v
Conversions.v
WorkflowService.v
Server.v
DOClient.v
DOTask.v
DOProvider.v
DOResources.v
DOLaunch.v
Cleanup.v
Builder.v
Worker.v
RunnerWindows.v
RunnerMetrics.v
RunnerSignals.v
RunnerLogs.v
RunnerMonitor.v
RunnerTimeline.v
RunnerCadence.v
RunnerAccounting.v
RunnerCounts.v
RunnerAudit.v
RunnerScrape.v
RunnerScenario.v
RunnerProfiles.v
RunnerRun.v
RunnerCelestia.v
RunnerMarkdown.v
RunnerMain.v
