(* ===== verification/Prelude.v ===== *)
(** * ironbird: a verification development

    ironbird launches Cosmos testnets.  A Temporal workflow builds an image,
    creates a provider (Docker, or DigitalOcean droplets), launches a chain
    on it, runs a load test, waits, and tears everything down; a server keeps
    the workflows in a database.  The library [petri] under it has providers
    and their tasks, the nodes that run in tasks, and the chains made of
    nodes.  The Go sources are under [src/].

    ** How the program is modelled

    A component is a program over the calls it makes: a signature ([sig])
    lists the calls that leave it (methods of the interfaces it is given,
    Temporal, Docker, the clock, random numbers) with the type of each
    answer, and an operation is a tree of calls that branches on the answers
    ([prog]), with a state of its own and an outcome ([M]: a value, an error,
    a panic, or [NoFuel] for a polling loop out of rounds).  [let*] is the
    early return on error, [try_] is an error looked at, [defer] runs on every
    way out.  A theorem [wpM m s Q []] holds of every run from state [s],
    whatever the other side answers: [Q] speaks of the trace of calls and
    answers, the final state and the outcome.  [runM] and [runs] run an
    operation under a concrete handler; the witnesses use them.

    Integers are [Z] with the wrap-around of their width where it matters;
    strings are byte strings; a [map[string]interface{}] is the list of its
    entries in the order a [range] yields them ([GoVal]), other maps are
    [gmap]s with a parameter for that order ([MapRange]).  Goroutines of an
    error group take effect in an arbitrary order, each as a whole
    ([Peers.eg_Wait]): this is what their results depend on, since each takes
    the lock it shares once; interleavings inside one goroutine's calls to
    its own node are not modelled.  Where goroutines share more, they run
    interleaved, call by call, as a step relation on the programs that are
    left: the server's process ([Server]) and the collector of TreeDB's
    statistics ([RunnerTimeline]).  Logging and metrics are dropped.

    ** Files

    - [Prelude]: errors, outcomes, programs, weakest preconditions, [emits]
      (the events an operation can cause), [calm] (it ends, with such events),
      notations and tactics.
    - [GoStrings], [GoVal], [GoTime], [GoBase64]: the parts of Go's library the
      program uses: string functions, number parsing, durations
      ([time.ParseDuration] with its overflow tests and binary64
      fractions), base64, dynamic values and maps.
    - [ProviderDefs] ([petri/core/provider/definitions.go], [provider.go]),
      [ChainTypes] ([petri/core/types/*.go]), [Messages] ([messages/*.go],
      [types/config.go]): data and validation.  Each validation is shown to
      accept exactly the values a separate predicate calls valid.
    - [TaskI]: the interface of a task, and the files it promises.
    - [Util] ([util/util.go], [petri/core/util/*.go]): compression of states,
      random names, polling.
    - [NodeConfig] ([petri/cosmos/node/config.go]): the merge of configuration
      trees and the setters of a node's configuration files.  The merge is
      characterised by its lookups, is total on well-formed tables and does
      not depend on map order; it panics on the nil map an empty document
      decodes to.  The setters are functional specifications over a task that
      keeps files.
    - [Genesis] (the genesis part of [petri/cosmos/chain/chain.go],
      [genesis.go], [petri/cosmos/wallet/cosmos.go]): added accounts and
      balances; the bank update keeps supply equal to the sum of balances.
    - [NodeOps] ([petri/cosmos/node/node.go], [genesis.go], [keys.go]): the
      operations of a node over its task, and its clients.
    - [Peers] ([petri/cosmos/chain/peers.go], [configureNode]) and [Chain]
      ([petri/cosmos/chain/chain.go], [chain_wallet.go]): a chain over its
      nodes.  Creation makes exactly the configured nodes under distinct
      names; initialisation starts no node before all have the same genesis
      and their configuration; waiting for a height is sound and, on any
      chain that produces blocks ([Chain.producing]: queries may fail, heights
      may stand still, any node may be drawn), ends.
    - [DockerVolume], [DockerProvider] ([petri/core/provider/docker/*.go]): the
      Docker provider.  Task states are a heap the provider and the tasks
      share by pointer; the address allocator is a class with the laws of an
      allocator.  The provider's invariant, creation, teardown, the round
      trip of its state, and that helper containers do not leak.
    - [DockerClient] ([petri/core/provider/clients/docker_client.go]): the client
      behind the interface of Docker; what holds of a program over the
      interface holds over Docker's own client.
    - [TestnetWorkflow] ([workflows/testnet/testnet.go]): the workflow over
      Temporal.  What is owed is torn down exactly once, last, on every path,
      cancellation included; activities happen in order, at most once, on the
      right context.
    - [Activities]: what the three activities share: the signature of their
      calls (provider tasks, Docker, catalyst, registry, clock), the embedding
      of a chain's operations into it, the restoring of a provider.
    - [TestnetActivity] ([activities/testnet/testnet.go]): creating a provider,
      launching a testnet (what has been created is saved even when a later
      step fails, and what is reported of each node is its own answers), the
      chain configuration the activity builds, registry tokens.
    - [LoadBalancer] ([activities/loadbalancer/loadbalancer.go],
      [petri/core/apps/loadbalancer.go]): the definition's validation, the launch,
      and that the URLs the workflow reports are served by the balancer.
    - [LoadTest] ([activities/loadtest/loadtest.go]): the load test task from
      its specification to its result, the bound on the logs it keeps, and
      the configuration a response shows, without the base mnemonic's entry.
    - [Builder] ([activities/builder/builder.go], [util/aws.go]): tags, build
      arguments and the build.  The image of a response was pushed, loaded or
      found; the tag decides the build arguments, for plain versions and up
      to the overrides of a CometBFT build.
    - [Keyed], [Encodings]: insertion-ordered tables; the data as dynamic
      values and texts.
    - [WorkflowStore] ([server/db/models.go], the interface of
      [sqlite.go]) and [WorkflowDB] ([server/db/sqlite.go], [database.go]): the
      database as an abstract map of workflows and templates, and the SQLite
      operations on tables of rows with JSON columns, which implement it on
      every outcome of the engine; round trip and paging.  Times are ordered
      by the text they are stored as ([time_text]).
    - [Conversions], [WorkflowService] ([server/services/workflow/workflow.go],
      [server/grpc_server.go], messages of [server/proto/ironbird.proto]):
      the handlers over the database's interface and Temporal.  At most one
      workflow starts, for valid requests only, and is recorded where the
      database does not fail; templates run what their configuration would;
      the status updater catches up with Temporal on the first thousand
      workflows of the listing.
    - [Server] ([server/cmd/main.go], [server/grpc_server.go], the opening of
      [sqlite.go]): the server's process, with a goroutine per request.  In
      every interleaving its calls are in their place, from the migrations to
      the shutdown, and a normal end leaves no request half done.
    - [TaskHeap]: task states shared by pointer, as both providers have them.
    - [DOClient], [DOTask], [DOProvider], [DOResources], [DOLaunch]
      ([petri/core/provider/digitalocean/*.go]): the DigitalOcean provider over
      the godo library, Tailscale, Docker on the droplet and SFTP.
      [DOResources] keeps, through every sequence of operations, an account of
      the tag, firewall, droplets and records the provider has made, up to
      a teardown that leaves none; [DOLaunch] has what a launch and a command
      guarantee.
    - [Worker] ([cmd/worker/main.go], [digitalocean/tailscale.go]): the worker's
      process, which registers the workflow and all activities or nothing,
      and runs only on connections that were made.
    - [Cleanup] ([cmd/cleanup/main.go]): the command deletes exactly the listed
      resources outside the groups it spares.

    The report runner ([cmd/local-report-runner/main.go]) launches testnets on
    Docker, loads them and reports on them.

    - [GoFloat], [GoText], [GoFormat]: binary64 arithmetic as Go has it, on the
      Standard Library's [SpecFloat]; [strings.Fields], [strconv.ParseFloat]
      and the fields of log lines; the rendering of numbers.
    - [RunnerScenario], [RunnerProfiles]: the scenarios and what the flags
      change in them; the profiles of validator 0 and the check of its
      databases.  A simapp scenario passes that check on the files it
      configures ([NodeConfig] has the merge).
    - [RunnerRun]: [runScenario], from the image to the teardown, the other
      programs run in place.  Its ledger is the specification: what
      exists until a teardown that did not fail, what runs, and which call is
      in its place.  On every path the run settles it, except for a teardown
      that fails, and a result without an error was measured.
    - [RunnerMonitor]: the window of a load, watched by a goroutine; its counts,
      its target and its intervals.
    - [RunnerTimeline]: the collector of TreeDB's statistics and the monitor,
      interleaved.  It refines a collector that samples and takes snapshots
      atomically; neither goroutine can be stuck; an observation reports
      one sample of its own.
    - [RunnerScrape], [RunnerAudit]: metrics, debug variables, sizes and
      docker's statistics; the audit of the transactions' hashes.
    - [RunnerLogs], [RunnerMetrics], [RunnerSignals]: the load generator's log
      lines and their durations; differences of counters and what they say of
      a node.
    - [RunnerWindows], [RunnerCadence], [RunnerAccounting], [RunnerCounts]: the
      tables of a window (unions of intervals are measured by the instants they
      cover), and the counts and rates of a report.
    - [RunnerCelestia]: the comparison of two databases by Celestia
      synchronisations: environment files a shell reads back to the byte, the
      script that is run, and what is read of it.
    - [RunnerMarkdown]: the report as Markdown; its tables stay aligned.
    - [RunnerMain]: the command line: the flags, the runs they select, which
      [RunnerRun] and [RunnerCelestia] execute, and the artifacts.

    ** Parameters

    gzip, the TOML, JSON, YAML, protobuf and tar libraries, key derivation,
    sjson, catalyst's validation, the address allocator and CIDR parsing,
    the JSON of the database's columns, the text the SQLite driver stores for
    a time and the order of rows a query leaves open ([SqlOrder]), the
    rendering of times and the path functions of the DigitalOcean provider,
    and for the report runner catalyst's result and specification, the
    rendering of numbers and durations in messages and the decoding of
    docker's JSON are classes or variables, with the laws the code
    relies on (what was written is read back; an address handed out was free)
    and a concrete instance for the witnesses.  RFC 3339 times and durations
    are parsed as Go does ([GoTime]).

    ** Bounds and fuel

    Loops over data are structural.  Only polling loops take fuel, the number
    of rounds; a theorem on them holds for every fuel, and where the code is
    meant to return, a theorem gives the fuel that is enough
    ([Chain.WaitForHeight_reaches]).  [ParseDuration] uses the length of its
    input as fuel, which is enough because each round consumes a byte
    ([GoTime.duration_sum_fuel]).

    ** Not modelled

    Generated protocol code and mocks, the example programs, end-to-end tests
    and the front end: generated, or clients of what is modelled.  Joining
    the tailnet and the SSH handshake of droplets, what gRPC, Temporal and
    HTTP do between a call and its answer, [flag.Parse], and the JSON, YAML,
    TOML and CSV libraries: code of others, here calls or parameters.  What
    gRPC promises of a server that is drained is [Server.allowed].  Accessors
    that return a field, and loggers. *)

From stdpp Require Export base tactics list strings gmap numbers fin_maps.
From Stdlib Require Export ZArith Lia.
From Stdlib Require Import DecimalString DecimalZ.

#[global] Open Scope string_scope.
#[global] Open Scope list_scope.
#[global] Open Scope Z_scope.
#[global] Arguments String.append !_ _ : simpl nomatch, assert.

(** ** Errors

    A Go [error] value.  [ENew] is [errors.New] or an [fmt.Errorf] that
    formats its operands with [%s]/[%v]; [EWrap] is [fmt.Errorf("msg: %w")] and
    [ESuffix] [fmt.Errorf("%wmsg")];
    [EJoin] is [errors.Join]; [EExt] is an error a call outside the
    repository returned, with the class the program tests for
    ([errors.Is], [client.IsErrNotFound], [temporal.IsCanceledError], ...);
    [EApp] is a Temporal [ApplicationError]; [EStopped] is
    [loadtest.StoppedByConditionError]. *)
Inductive ext_code :=
| XCanceled
| XNotFound
| XResourceNotFound       (* [digitalocean.ErrorResourceNotFound] *)
| XRepositoryNotFound     (* [ecrtypes.RepositoryNotFoundException] *)
| XImageNotFound          (* [ecrtypes.ImageNotFoundException] *)
| XConnection
| XNoRows
| XDeadline
| XOther.

#[export] Instance ext_code_eq_dec : EqDecision ext_code.
Proof. solve_decision. Defined.

Inductive error :=
| ENew (msg : string)
| EWrap (msg : string) (inner : error)
| ESuffix (inner : error) (msg : string)
| EJoin (es : list error)
| EExt (code : ext_code) (msg : string)
| EApp (msg typ : string) (nonRetryable : bool)
| EStopped (reason : string).

(** [errors.Is] restricted to the classes of external errors. *)
Fixpoint errors_Is (code : ext_code) (e : error) : bool :=
  match e with
  | EWrap _ e' | ESuffix e' _ => errors_Is code e'
  | EJoin es => existsb (errors_Is code) es
  | EExt c _ => bool_decide (c = code)
  | _ => false
  end.

(** [errors.Join]: nil operands are dropped and the join of none is nil. *)
Definition errors_Join (es : list (option error)) : option error :=
  match omap id es with
  | [] => None
  | es' => Some (EJoin es')
  end.

Definition nl : string := String (Ascii.ascii_of_nat 10) EmptyString.

Definition dquote : string := String (Ascii.ascii_of_nat 34) EmptyString.

Fixpoint String_concat (sep : string) (l : list string) : string :=
  match l with
  | [] => ""
  | [s] => s
  | s :: l' => s +:+ sep +:+ String_concat sep l'
  end.

(** The [Error()] method. *)
Fixpoint Error (e : error) : string :=
  match e with
  | ENew m => m
  | EWrap m e' => m +:+ ": " +:+ Error e'
  | ESuffix e' m => Error e' +:+ m
  | EJoin es => String_concat nl (map Error es)
  | EExt _ m => m
  | EApp m _ _ => m
  | EStopped r =>
      if String.eqb r "" then "load test stopped by condition"
      else "load test stopped by condition: " +:+ r
  end.

(** ** Outcomes

    What a Go call ends with: a value, a non-nil error, a panic, or, for
    a polling loop whose model ran out of its bound, [NoFuel]. *)
Inductive outcome (A : Type) :=
| Ok (a : A)
| Err (e : error)
| Panic (msg : string)
| NoFuel.
Arguments Ok {_} _.
Arguments Err {_} _.
Arguments Panic {_} _.
Arguments NoFuel {_}.

(** The answer of a call that can fail: a value or an error. *)
Abbreviation res A := (A + error)%type.

(** Outcomes form a monad: the early return on [err != nil]. *)
#[export] Instance outcome_ret : MRet outcome := fun A a => Ok a.
#[export] Instance outcome_bind : MBind outcome := fun A B f o =>
  match o with
  | Ok a => f a
  | Err e => Err e
  | Panic m => Panic m
  | NoFuel => NoFuel
  end.

(** [if cond { return err }] *)
Definition guard_err (cond : bool) (e : error) : outcome unit :=
  if cond then Err e else Ok tt.

Definition wrap_outcome {A} (msg : string) (o : outcome A) : outcome A :=
  match o with Err e => Err (EWrap msg e) | _ => o end.

Definition is_ok {A} (o : outcome A) : bool :=
  match o with Ok _ => true | _ => false end.

Definition returns {A} (o : outcome A) : bool :=
  match o with Ok _ | Err _ => true | _ => false end.

Lemma outcome_bind_Ok {A B} (o : outcome A) (f : A -> outcome B) b :
  (o ≫= f) = Ok b <-> exists a, o = Ok a /\ f a = Ok b.
Proof.
  split; [|by intros (a & -> & H)].
  destruct o as [a|e|m|]; [by exists a|discriminate..].
Qed.

(** ** Effect trees

    A signature lists the calls a component makes out of the repository
    and the type of the answer of each.  A program is the tree of calls it
    makes, branching on the answers, so a theorem over all branches holds
    whatever the other side answers. *)
Structure sig := Sig { call : Type; ans : call -> Type }.

Inductive prog (E : sig) (A : Type) : Type :=
| Ret (a : A)
| Call (c : call E) (k : ans E c -> prog E A).
Arguments Ret {_ _} _.
Arguments Call {_ _} _ _.

Fixpoint prog_bind {E A B} (p : prog E A) (f : A -> prog E B) : prog E B :=
  match p with
  | Ret a => f a
  | Call c k => Call c (fun x => prog_bind (k x) f)
  end.

(** An event of a run: a call and the answer it got. *)
Definition event (E : sig) : Type := {c : call E & ans E c}.
Definition ev {E : sig} (c : call E) (x : ans E c) : event E := existT c x.

(** [wp p Q t]: every run of [p] started after the events [t] ends with a
    trace and a result that satisfy [Q]. *)
Fixpoint wp {E A} (p : prog E A) (Q : list (event E) -> A -> Prop)
    (t : list (event E)) : Prop :=
  match p with
  | Ret a => Q t a
  | Call c k => forall x, wp (k x) Q (t ++ [ev c x])
  end.

(** A handler answers calls from a state of its own. *)
Definition handler (E : sig) (W : Type) : Type := forall c : call E, W -> ans E c * W.

Fixpoint exec {E A W} (H : handler E W) (p : prog E A) (w : W)
    (t : list (event E)) : A * W * list (event E) :=
  match p with
  | Ret a => (a, w, t)
  | Call c k => let '(x, w') := H c w in exec H (k x) w' (t ++ [ev c x])
  end.

(** The result and the final environment of a run. *)
Fixpoint eval {E A W} (H : handler E W) (p : prog E A) (w : W) : A * W :=
  match p with
  | Ret a => (a, w)
  | Call c k => let '(x, w') := H c w in eval H (k x) w'
  end.

(** A program over one interface run over another that answers its calls. *)
Fixpoint prog_embed {E E' A} (f : call E -> call E') (g : forall c, ans E' (f c) -> ans E c)
    (p : prog E A) : prog E' A :=
  match p with
  | Ret a => Ret a
  | Call c k => Call (f c) (fun x => prog_embed f g (k (g c x)))
  end.

Section effects.
Context {E : sig}.

Lemma wp_mono {A} (p : prog E A) (Q Q' : list (event E) -> A -> Prop) t :
  (forall t' a, Q t' a -> Q' t' a) -> wp p Q t -> wp p Q' t.
Proof. revert t; induction p as [a|c k IH]; simpl; eauto. Qed.

Lemma wp_bind {A B} (p : prog E A) (f : A -> prog E B) Q t :
  wp (prog_bind p f) Q t <-> wp p (fun t' a => wp (f a) Q t') t.
Proof.
  revert t; induction p as [a|c k IH]; intros t; simpl; [done|].
  split; intros Hk x; apply IH, Hk.
Qed.

(** The events before a run do not change it. *)
Lemma wp_frame {A} (p : prog E A) (Q : list (event E) -> A -> Prop) t u :
  wp p (fun l a => Q (t ++ l) a) u <-> wp p Q (t ++ u).
Proof.
  revert u; induction p as [a|c k IH]; intros u; simpl; [done|].
  split; intros Hk x; [rewrite <- app_assoc|specialize (Hk x); rewrite <- app_assoc in Hk]; by apply IH.
Qed.

(** A run only adds events to its trace. *)
Lemma wp_extends {A} (p : prog E A) (Q : list (event E) -> A -> Prop) t :
  wp p Q t -> wp p (fun t' a => Q t' a /\ exists l, t' = t ++ l) t.
Proof.
  revert t; induction p as [a|c k IH]; intros t Hp; simpl in *; [by split; [|exists []; rewrite app_nil_r]|].
  intros x. eapply wp_mono; [|apply IH, Hp]. intros t' a [HQ [l ->]]. split; [done|].
  exists (ev c x :: l). by rewrite <- app_assoc.
Qed.

(** Whatever the handler, a run satisfies what [wp] promises. *)
Lemma wp_exec {A W} (H : handler E W) (p : prog E A) Q w t :
  wp p Q t -> let '(a, _, t') := exec H p w t in Q t' a.
Proof.
  revert w t; induction p as [a|c k IH]; intros w t Hp; simpl; [done|].
  destruct (H c w) as [x w']. apply IH, Hp.
Qed.

(** Conversely, a property of the runs under every handler is a [wp]. *)
Lemma exec_bind {A B W} (H : handler E W) (p : prog E A) (f : A -> prog E B) w t :
  exec H (prog_bind p f) w t =
  let '(a, w', t') := exec H p w t in exec H (f a) w' t'.
Proof.
  revert w t; induction p as [a|c k IH]; intros w t; simpl; [done|].
  destruct (H c w) as [x w']. apply IH.
Qed.

Lemma eval_bind {A B W} (H : handler E W) (p : prog E A) (f : A -> prog E B) w :
  eval H (prog_bind p f) w = let '(a, w') := eval H p w in eval H (f a) w'.
Proof.
  revert w; induction p as [a|c k IH]; intros w; simpl; [done|].
  destruct (H c w) as [x w']. apply IH.
Qed.

Lemma exec_eval {A W} (H : handler E W) (p : prog E A) w t :
  exists t', exec H p w t = (eval H p w, t').
Proof.
  revert w t; induction p as [a|c k IH]; intros w t; simpl; [by eexists|].
  destruct (H c w) as [x w']. apply IH.
Qed.
End effects.

(** ** The monad of the handlers

    A computation over a component's state [S] that makes calls of [E] and
    ends with an outcome; sequencing is the early return on error. *)
Definition M (E : sig) (S A : Type) : Type := S -> prog E (S * outcome A).

Definition embed {E E' S A} (f : call E -> call E') (g : forall c, ans E' (f c) -> ans E c)
    (m : M E S A) : M E' S A := fun s => prog_embed f g (m s).

Section monad.
Context {E : sig} {S : Type}.

Definition retM {A} (a : A) : M E S A := fun s => Ret (s, Ok a).
Definition bindM {A B} (m : M E S A) (f : A -> M E S B) : M E S B := fun s =>
  prog_bind (m s) (fun '(s', o) =>
    match o with
    | Ok a => f a s'
    | Err e => Ret (s', Err e)
    | Panic msg => Ret (s', Panic msg)
    | NoFuel => Ret (s', NoFuel)
    end).

Definition lift_outcome {A} (o : outcome A) : M E S A := fun s => Ret (s, o).
Definition throw {A} (e : error) : M E S A := lift_outcome (Err e).
Definition panic {A} (msg : string) : M E S A := lift_outcome (Panic msg).
Definition lift_res {A} (r : res A) : M E S A :=
  match r with inl a => retM a | inr e => throw e end.

(** A call, and a call whose error is returned to the caller. *)
Definition perform (c : call E) : M E S (ans E c) := fun s => Call c (fun x => Ret (s, Ok x)).

Definition get : M E S S := fun s => Ret (s, Ok s).
Definition put (s : S) : M E S unit := fun _ => Ret (s, Ok tt).
Definition modify (f : S -> S) : M E S unit := fun s => Ret (f s, Ok tt).

(** [v, err := m()] with the error as a value the caller inspects. *)
Definition try_ {A} (m : M E S A) : M E S (res A) := fun s =>
  prog_bind (m s) (fun '(s', o) =>
    match o with
    | Ok a => Ret (s', Ok (inl a))
    | Err e => Ret (s', Ok (inr e))
    | Panic msg => Ret (s', Panic msg)
    | NoFuel => Ret (s', NoFuel)
    end).

(** [if err != nil { return fmt.Errorf("msg: %w", err) }] *)
Definition wrap {A} (msg : string) (m : M E S A) : M E S A := fun s =>
  prog_bind (m s) (fun '(s', o) => Ret (s', wrap_outcome msg o)).

(** [for _, x := range l { ... }] whose body can return early. *)
Fixpoint for_each {A} (l : list A) (f : A -> M E S unit) : M E S unit :=
  match l with
  | [] => retM tt
  | x :: l' => bindM (f x) (fun _ => for_each l' f)
  end.

(** A loop that polls until the body returns a value. *)
Fixpoint poll {A} (fuel : nat) (body : M E S (option A)) : M E S A :=
  match fuel with
  | O => lift_outcome NoFuel
  | Datatypes.S n => bindM body (fun r =>
      match r with Some a => retM a | None => poll n body end)
  end.

(** A callee whose local variables are the state [s0] of its own. *)
Definition scoped {S'} (s0 : S') {A} (m : M E S' A) : M E S A := fun s =>
  prog_bind (m s0) (fun '(_, o) => Ret (s, o)).

(** [defer f()]: [f] runs on every way out of [m], panics included, and
    its own result is dropped. *)
Definition defer (f : M E S unit) {A} (m : M E S A) : M E S A := fun s =>
  prog_bind (m s) (fun '(s', o) => prog_bind (f s') (fun '(s'', _) => Ret (s'', o))).

(** [defer f()] whose panic replaces the outcome. *)
Definition deferring {A} (f : M E S unit) (m : M E S A) : M E S A := fun s =>
  prog_bind (m s) (fun '(s', o) => prog_bind (f s') (fun '(s'', o') =>
    Ret (s'', match o' with Panic msg => Panic msg | _ => o end))).

(** [defer func() { f(); if r := recover(); r != nil { recovered(r) } }()] *)
Definition recovering (f : M E S unit) (recovered : string -> M E S unit) (m : M E S unit) : M E S unit := fun s =>
  prog_bind (m s) (fun '(s', o) =>
    bindM f (fun _ => match o with Panic msg => recovered msg | _ => lift_outcome o end) s').

(** The weakest precondition of a handler run from state [s]. *)
Definition wpM {A} (m : M E S A) (s : S)
    (Q : list (event E) -> S -> outcome A -> Prop) (t : list (event E)) : Prop :=
  wp (m s) (fun t' r => Q t' r.1 r.2) t.

Lemma wpM_mono {A} (m : M E S A) s (Q Q' : list (event E) -> S -> outcome A -> Prop) t :
  (forall t' s' o, Q t' s' o -> Q' t' s' o) -> wpM m s Q t -> wpM m s Q' t.
Proof. intros HQ. apply wp_mono. intros t' [s' o]. apply HQ. Qed.

Lemma wpM_from_nil {A} (m : M E S A) s (Q : list (event E) -> S -> outcome A -> Prop) t :
  wpM m s (fun l s' o => Q (t ++ l) s' o) [] -> wpM m s Q t.
Proof. intros Hm. unfold wpM. rewrite <- (app_nil_r t). by apply wp_frame. Qed.

Lemma wpM_extends {A} (m : M E S A) s (Q : list (event E) -> S -> outcome A -> Prop) t :
  wpM m s Q t -> wpM m s (fun t' s' o => Q t' s' o /\ exists l, t' = t ++ l) t.
Proof. intros Hm. apply (wp_extends _ _ _ Hm). Qed.

Lemma wpM_and {A} (m : M E S A) s (Q1 Q2 : list (event E) -> S -> outcome A -> Prop) t :
  wpM m s Q1 t -> wpM m s Q2 t -> wpM m s (fun t' s' o => Q1 t' s' o /\ Q2 t' s' o) t.
Proof.
  unfold wpM. revert t. induction (m s) as [r|c k IH]; intros t H1 H2; simpl in *; [done|].
  intros x. by apply IH.
Qed.

Lemma wpM_ret {A} (a : A) s (Q : list (event E) -> S -> outcome A -> Prop) t :
  Q t s (Ok a) -> wpM (retM a) s Q t.
Proof. done. Qed.

Lemma wpM_bind {A B} (m : M E S A) (f : A -> M E S B) s
    (Q : list (event E) -> S -> outcome B -> Prop) t :
  wpM m s (fun t' s' o =>
    match o with
    | Ok a => wpM (f a) s' Q t'
    | Err e => Q t' s' (Err e)
    | Panic msg => Q t' s' (Panic msg)
    | NoFuel => Q t' s' NoFuel
    end) t ->
  wpM (bindM m f) s Q t.
Proof.
  intros Hm. unfold wpM, bindM. apply wp_bind.
  eapply wp_mono; [|exact Hm]. intros t' [s' [a|e|msg|]]; done.
Qed.

Lemma wpM_try {A} (m : M E S A) s (Q : list (event E) -> S -> outcome (res A) -> Prop) t :
  wpM m s (fun t' s' o =>
    match o with
    | Ok a => Q t' s' (Ok (inl a))
    | Err e => Q t' s' (Ok (inr e))
    | Panic msg => Q t' s' (Panic msg)
    | NoFuel => Q t' s' NoFuel
    end) t ->
  wpM (try_ m) s Q t.
Proof.
  intros Hm. unfold wpM, try_. apply wp_bind.
  eapply wp_mono; [|exact Hm]. intros t' [s' [a|e|msg|]]; done.
Qed.

Lemma wpM_wrap {A} msg (m : M E S A) s (Q : list (event E) -> S -> outcome A -> Prop) t :
  wpM m s (fun t' s' o => Q t' s' (wrap_outcome msg o)) t -> wpM (wrap msg m) s Q t.
Proof.
  intros Hm. unfold wpM, wrap. apply wp_bind.
  eapply wp_mono; [|exact Hm]. intros t' [s' o]; done.
Qed.

Lemma wpM_perform (c : call E) s (Q : list (event E) -> S -> outcome (ans E c) -> Prop) t :
  (forall x, Q (t ++ [ev c x]) s (Ok x)) -> wpM (perform c) s Q t.
Proof. done. Qed.

Lemma wpM_lift {A} (o : outcome A) s (Q : list (event E) -> S -> outcome A -> Prop) t :
  Q t s o -> wpM (lift_outcome o) s Q t.
Proof. done. Qed.

Lemma wpM_get s (Q : list (event E) -> S -> outcome S -> Prop) t : Q t s (Ok s) -> wpM get s Q t.
Proof. done. Qed.

Lemma wpM_put s' s (Q : list (event E) -> S -> outcome unit -> Prop) t :
  Q t s' (Ok tt) -> wpM (put s') s Q t.
Proof. done. Qed.

Lemma wpM_modify f s (Q : list (event E) -> S -> outcome unit -> Prop) t :
  Q t (f s) (Ok tt) -> wpM (modify f) s Q t.
Proof. done. Qed.

(** A loop keeps an invariant of trace, state and remaining elements. *)
Lemma wpM_for_each {A} (I : list A -> list (event E) -> S -> Prop) (l : list A)
    (f : A -> M E S unit) s (Q : list (event E) -> S -> outcome unit -> Prop) t :
  I l t s ->
  (forall t' s', I [] t' s' -> Q t' s' (Ok tt)) ->
  (forall x l' t' s', I (x :: l') t' s' ->
     wpM (f x) s' (fun t'' s'' o =>
       match o with
       | Ok _ => I l' t'' s''
       | Err e => Q t'' s'' (Err e)
       | Panic msg => Q t'' s'' (Panic msg)
       | NoFuel => Q t'' s'' NoFuel
       end) t') ->
  wpM (for_each l f) s Q t.
Proof.
  intros HI Hend Hstep. revert s t HI. induction l as [|x l IH]; intros s t HI; simpl.
  - by apply Hend.
  - apply wpM_bind. eapply wpM_mono; [|by apply Hstep].
    intros t' s' [u|e|msg|]; simpl; auto.
Qed.

Lemma wpM_defer {A} (f : M E S unit) (m : M E S A) s
    (Q : list (event E) -> S -> outcome A -> Prop) t :
  wpM m s (fun t' s' o => wpM f s' (fun t'' s'' _ => Q t'' s'' o) t') t ->
  wpM (defer f m) s Q t.
Proof.
  intros Hm. unfold wpM, defer. apply wp_bind.
  eapply wp_mono; [|exact Hm]. intros t' [s' o] Hf. simpl in *.
  apply wp_bind. eapply wp_mono; [|exact Hf]. intros t'' [s'' o'']; done.
Qed.

Lemma wpM_deferring {A} (f : M E S unit) (m : M E S A) s (Q : list (event E) -> S -> outcome A -> Prop) t :
  wpM m s (fun t' s' o => wpM f s' (fun t'' s'' o' => Q t'' s'' (match o' with Panic msg => Panic msg | _ => o end)) t') t ->
  wpM (deferring f m) s Q t.
Proof.
  intros Hm. unfold wpM, deferring. apply wp_bind. eapply wp_mono; [|exact Hm]. intros t' [s' o] Hf. cbn in *.
  apply wp_bind. eapply wp_mono; [|exact Hf]. by intros t'' [s'' o'].
Qed.

Lemma wpM_recovering f recovered (m : M E S unit) s (Q : list (event E) -> S -> outcome unit -> Prop) t :
  wpM m s (fun t' s' o =>
    wpM (bindM f (fun _ => match o with Panic msg => recovered msg | _ => lift_outcome o end)) s' Q t') t ->
  wpM (recovering f recovered m) s Q t.
Proof. intros Hm. unfold wpM, recovering. apply wp_bind. eapply wp_mono; [|exact Hm]. by intros t' [s' o]. Qed.

(** The outcome of a handler run under a concrete environment. *)
Definition runM {A W} (H : handler E W) (m : M E S A) (s : S) (w : W)
    : S * outcome A * W * list (event E) :=
  let '(r, w', t) := exec H (m s) w [] in (r.1, r.2, w', t).

Lemma wpM_runM {A W} (H : handler E W) (m : M E S A) s w Q :
  wpM m s Q [] -> let '(s', o, _, t) := runM H m s w in Q t s' o.
Proof.
  intros Hm. unfold runM. pose proof (wp_exec H (m s) _ w [] Hm) as Hr.
  destruct (exec H (m s) w []) as [[r w'] t]. exact Hr.
Qed.

(** [runs H m s w s' w' o]: under [H], from state [s] and environment [w],
    the handler ends with [o] in [s'] and [w']. *)
Definition runs {A W} (H : handler E W) (m : M E S A) (s : S) (w : W)
    (o : outcome A) (s' : S) (w' : W) : Prop := eval H (m s) w = ((s', o), w').

Lemma runs_bind {A B W} (H : handler E W) (m : M E S A) (f : A -> M E S B) s w o s' w' :
  runs H m s w o s' w' ->
  forall o2 s2 w2,
  match o with
  | Ok a => runs H (f a) s' w' o2 s2 w2
  | Err e => o2 = Err e /\ s2 = s' /\ w2 = w'
  | Panic msg => o2 = Panic msg /\ s2 = s' /\ w2 = w'
  | NoFuel => o2 = NoFuel /\ s2 = s' /\ w2 = w'
  end ->
  runs H (bindM m f) s w o2 s2 w2.
Proof.
  unfold runs, bindM. intros Hm o2 s2 w2 Hf. rewrite eval_bind, Hm. cbn beta iota.
  destruct o; [exact Hf|..]; destruct Hf as (-> & -> & ->); done.
Qed.

Lemma runs_wrap {A W} (H : handler E W) msg (m : M E S A) s w o s' w' :
  runs H m s w o s' w' -> runs H (wrap msg m) s w (wrap_outcome msg o) s' w'.
Proof. unfold runs, wrap. intros Hm. rewrite eval_bind, Hm. done. Qed.

Lemma runs_perform {W} (H : handler E W) (c : call E) s w x w' :
  H c w = (x, w') -> runs H (perform c) s w (Ok x) s w'.
Proof. unfold runs, perform. intros Hc. simpl. by rewrite Hc. Qed.

Lemma runs_lift {A W} (H : handler E W) (o : outcome A) (s : S) (w : W) :
  runs H (lift_outcome o) s w o s w.
Proof. done. Qed.

(** An answer that is a result, passed on as the outcome. *)
Lemma runs_lift_res {A W} (H : handler E W) (r : res A) s w :
  runs H (lift_res r) s w (match r with inl a => Ok a | inr e => Err e end) s w.
Proof. by destruct r. Qed.
End monad.

Lemma wpM_scoped {E S S' A} (s0 : S') (m : M E S' A) (s : S)
    (Q : list (event E) -> S -> outcome A -> Prop) t :
  wpM m s0 (fun t' _ o => Q t' s o) t -> wpM (scoped s0 m) s Q t.
Proof.
  intros Hm. unfold wpM, scoped. apply wp_bind.
  eapply wp_mono; [|exact Hm]. intros t' [s' o]; done.
Qed.

Arguments perform {E S} c : simpl never.
Arguments wpM {E S A} m s Q t : simpl never.

(** ** Notations

    [let* x := m in k] sequences two computations and is the early return
    on error; [ask c] is a call out of the repository whose error is
    returned to the caller. *)
Declare Scope go_scope.
Delimit Scope go_scope with go.
#[global] Open Scope go_scope.
Notation "'let*' x ':=' m 'in' k" := (bindM m (fun x => k))
  (at level 10, x name, m at level 100, k at level 200) : go_scope.
Notation "'let*' ' p ':=' m 'in' k" := (bindM m (fun x => match x with p => k end))
  (at level 10, p pattern, m at level 100, k at level 200) : go_scope.
Abbreviation ask c := (bindM (perform c) lift_res).

(** ** Computations that emit only certain events *)
Definition emits {E S A} (P : event E -> Prop) (m : M E S A) : Prop :=
  forall s t, wpM m s (fun t' _ _ => exists l, t' = t ++ l /\ Forall P l) t.

Section emits.
Context {E : sig} {S : Type} (P : event E -> Prop).

Lemma emits_use {A} (m : M E S A) s t (Q : list (event E) -> S -> outcome A -> Prop) :
  emits P m -> (forall l s' o, Forall P l -> Q (t ++ l) s' o) -> wpM m s Q t.
Proof. intros Hm HQ. eapply wpM_mono; [|apply Hm]. intros t' s' o (l & -> & Hl). by apply HQ. Qed.

(** Every computation emits some events. *)
Lemma emits_any {A} (m : M E S A) : emits (fun _ => True) m.
Proof.
  intros s t. eapply wpM_mono; [|apply (wpM_extends m s (fun _ _ _ => True))].
  - intros t' s' o [_ [l ->]]. exists l. split; [done|]. by apply Forall_true.
  - unfold wpM. generalize t. induction (m s) as [r|c k IH]; simpl; auto.
Qed.

Lemma emits_lift {A} (o : outcome A) : emits P (lift_outcome (E := E) (S := S) o).
Proof. intros s t. apply wpM_lift. exists []. by rewrite app_nil_r. Qed.

Lemma emits_ret {A} (a : A) : emits P (retM (E := E) (S := S) a).
Proof. apply (emits_lift (Ok a)). Qed.

Lemma emits_throw {A} e : emits P (throw (E := E) (S := S) (A := A) e).
Proof. apply emits_lift. Qed.

Lemma emits_panic {A} msg : emits P (panic (E := E) (S := S) (A := A) msg).
Proof. apply emits_lift. Qed.

Lemma emits_lift_res {A} (r : res A) : emits P (lift_res (E := E) (S := S) r).
Proof. destruct r; [apply emits_ret|apply emits_throw]. Qed.

Lemma emits_perform c : (forall x, P (ev c x)) -> emits P (perform (S := S) c).
Proof. intros Hc s t x. exists [ev c x]. split; [done|]. by constructor. Qed.

Lemma emits_get : emits P (get (E := E) (S := S)).
Proof. intros s t. exists []. by rewrite app_nil_r. Qed.
Lemma emits_put s' : emits P (put (E := E) (S := S) s').
Proof. intros s t. exists []. by rewrite app_nil_r. Qed.
Lemma emits_modify f : emits P (modify (E := E) (S := S) f).
Proof. intros s t. exists []. by rewrite app_nil_r. Qed.

Lemma emits_after {A} (m : M E S A) s t l :
  Forall P l -> emits P m ->
  wpM m s (fun t' _ _ => exists l, t' = t ++ l /\ Forall P l) (t ++ l).
Proof.
  intros Hl Hm. apply emits_use; [done|]. intros l' s' o Hl'. exists (l ++ l').
  split; [by rewrite app_assoc|]. by apply Forall_app.
Qed.

Lemma emits_bind {A B} (m : M E S A) (f : A -> M E S B) :
  emits P m -> (forall a, emits P (f a)) -> emits P (bindM m f).
Proof.
  intros Hm Hf s t. apply wpM_bind, emits_use; [done|]. intros l s' o Hl.
  destruct o as [a|e|msg|]; [|by exists l..].
  by apply emits_after.
Qed.

Lemma emits_try {A} (m : M E S A) : emits P m -> emits P (try_ m).
Proof.
  intros Hm s t. apply wpM_try, emits_use; [done|]. intros l s' o Hl. destruct o; by exists l.
Qed.

Lemma emits_wrap {A} msg (m : M E S A) : emits P m -> emits P (wrap msg m).
Proof. intros Hm s t. apply wpM_wrap, emits_use; [done|]. intros l s' o Hl. by exists l. Qed.

Lemma emits_for_each {A} (l : list A) (f : A -> M E S unit) :
  (forall x, x ∈ l -> emits P (f x)) -> emits P (for_each l f).
Proof.
  induction l as [|x l IH]; intros Hf; cbn [for_each]; [apply emits_ret|].
  apply emits_bind; [apply Hf; by left|]. intros _. apply IH. intros y Hy. apply Hf. by right.
Qed.

Lemma emits_poll {A} fuel (body : M E S (option A)) : emits P body -> emits P (poll fuel body).
Proof.
  intros Hb. induction fuel as [|n IH]; cbn [poll]; [apply emits_lift|].
  apply emits_bind; [done|]. intros [a|]; [apply emits_ret|done].
Qed.

Lemma emits_defer {A} (f : M E S unit) (m : M E S A) :
  emits P f -> emits P m -> emits P (defer f m).
Proof.
  intros Hf Hm s t. apply wpM_defer, emits_use; [done|]. intros l s' o Hl.
  by apply emits_after.
Qed.
End emits.

(** ** What every value a computation returns satisfies *)
Definition yields {E S A} (Q : A -> Prop) (m : M E S A) : Prop :=
  forall s t, wpM m s (fun _ _ o => match o with Ok a => Q a | _ => True end) t.

Lemma yields_ret {E S A} (Q : A -> Prop) (a : A) : Q a -> yields (E := E) (S := S) Q (retM a).
Proof. intros Ha s t. by apply wpM_ret. Qed.
Lemma yields_bind {E S A B} (Q : B -> Prop) (m : M E S A) (f : A -> M E S B) :
  (forall a, yields Q (f a)) -> yields Q (bindM m f).
Proof.
  intros Hf s t. apply wpM_bind, (emits_use (fun _ => True)); [apply emits_any|]. intros l s' [a|e|msg|] _; [apply Hf|done..].
Qed.
Lemma yields_throw {E S A} (Q : A -> Prop) e : yields (E := E) (S := S) Q (throw e).
Proof. intros s t. by apply wpM_lift. Qed.

Lemma emits_mono {E S A} (P P' : event E -> Prop) (m : M E S A) :
  (forall e, P e -> P' e) -> emits P m -> emits P' m.
Proof.
  intros HP Hm s t. apply (emits_use P); [done|]. intros l s' o Hl. exists l. split; [done|].
  by eapply Forall_impl.
Qed.

Lemma emits_scoped {E S S' A} (P : event E -> Prop) (s0 : S') (m : M E S' A) :
  emits P m -> emits P (scoped (S := S) s0 m).
Proof. intros Hm s t. apply wpM_scoped, (emits_use P); [done|]. intros l s' o Hl. by exists l. Qed.

(** ** Programs over the answers of another layer

    [over g m] runs [m] where each call is answered in a richer form, which
    [g] turns into the answer [m] looks at. *)
Section over.
Context {E : sig} {ans' : call E -> Type} (g : forall c, ans' c -> ans E c).

Definition over {S A} (m : M E S A) : M (Sig (call E) ans') S A :=
  embed (E := E) (E' := Sig (call E) ans') (fun c => c) g m.

Definition answered (e : event (Sig (call E) ans')) : event E := existT (projT1 e) (g (projT1 e) (projT2 e)).

Lemma wp_over {A} (p : prog E A) (Q : list (event (Sig (call E) ans')) -> A -> Prop) t l0 :
  wp p (fun l a => forall l', map answered l' = l -> Q (t ++ l') a) l0 ->
  forall k, map answered k = l0 -> wp (prog_embed (E := E) (E' := Sig (call E) ans') (fun c => c) g p) Q (t ++ k).
Proof.
  revert l0. induction p as [a|c f IH]; intros l0 Hp k Hk; simpl in *; [by apply Hp|].
  intros x. rewrite <- app_assoc. apply (IH (g c x) (l0 ++ [ev c (g c x)])); [by apply Hp|].
  by rewrite map_app, Hk.
Qed.

Lemma wpM_over {S A} (m : M E S A) s (Q : list (event (Sig (call E) ans')) -> S -> outcome A -> Prop) :
  wpM m s (fun l s' o => forall l', map answered l' = l -> Q l' s' o) [] -> wpM (over m) s Q [].
Proof. intros Hm. apply (wp_over (m s) (fun l r => Q l r.1 r.2) [] [] Hm []). done. Qed.
End over.

(** ** Computations that leave the state alone *)

(** They emit only events of [P]. *)
Definition steady {E S A} (P : event E -> Prop) (m : M E S A) : Prop :=
  forall t s, wpM m s (fun t' s' _ => s' = s /\ exists l, t' = t ++ l /\ Forall P l) t.

Section steady.
Context {E : sig} {S : Type} (P : event E -> Prop).

Lemma steady_bind {A B} (m : M E S A) (f : A -> M E S B) :
  steady P m -> (forall a, steady P (f a)) -> steady P (bindM m f).
Proof.
  intros Hm Hf t s. apply wpM_bind. eapply wpM_mono; [|apply Hm].
  intros t' s' o [-> (l & -> & Hl)]. destruct o as [a|e|msg|]; try by (split; [|exists l]).
  eapply wpM_mono; [|apply Hf]. intros t' s' o [-> (l' & -> & Hl')]. split; [done|].
  exists (l ++ l'). split; [by rewrite app_assoc|by apply Forall_app].
Qed.

Lemma steady_lift {A} (o : outcome A) : steady P (lift_outcome (E := E) (S := S) o).
Proof. intros t s. apply wpM_lift. split; [done|]. exists []. by rewrite app_nil_r. Qed.
Lemma steady_ret {A} (a : A) : steady P (retM (E := E) (S := S) a).
Proof. apply (steady_lift (Ok a)). Qed.
Lemma steady_throw {A} e : steady P (throw (E := E) (S := S) (A := A) e).
Proof. apply steady_lift. Qed.
Lemma steady_panic {A} msg : steady P (panic (E := E) (S := S) (A := A) msg).
Proof. apply steady_lift. Qed.
Lemma steady_res {A} (r : res A) : steady P (lift_res (E := E) (S := S) r).
Proof. destruct r; apply steady_lift. Qed.
Lemma steady_get : steady P (get (E := E) (S := S)).
Proof. intros t s. apply wpM_get. split; [done|]. exists []. by rewrite app_nil_r. Qed.
Lemma steady_perform c : (forall x, P (ev c x)) -> steady P (perform (S := S) c).
Proof. intros Hc t s x. split; [done|]. exists [ev c x]. split; [done|]. by constructor. Qed.
Lemma steady_wrap {A} msg (m : M E S A) : steady P m -> steady P (wrap msg m).
Proof. intros Hm t s. apply wpM_wrap. eapply wpM_mono; [|apply Hm]. done. Qed.
Lemma steady_try {A} (m : M E S A) : steady P m -> steady P (try_ m).
Proof. intros Hm t s. apply wpM_try. eapply wpM_mono; [|apply Hm]. by intros t' s' []. Qed.
Lemma steady_poll {A} fuel (body : M E S (option A)) : steady P body -> steady P (poll fuel body).
Proof.
  intros Hb. induction fuel as [|n IH]; cbn [poll]; [apply steady_lift|].
  apply steady_bind; [done|]. intros [a|]; [apply steady_ret|done].
Qed.
End steady.

(** ** Computations that keep an invariant of the trace and the state *)
Definition preserves {E S A} (I : list (event E) -> S -> Prop) (m : M E S A) : Prop :=
  forall s t, I t s -> wpM m s (fun t' s' _ => I t' s') t.

Section preserves.
Context {E : sig} {S : Type} (I : list (event E) -> S -> Prop).

Lemma preserves_lift {A} (o : outcome A) : preserves I (lift_outcome (E := E) (S := S) o).
Proof. intros s t HI. by apply wpM_lift. Qed.
Lemma preserves_ret {A} (a : A) : preserves I (retM (E := E) (S := S) a).
Proof. apply (preserves_lift (Ok a)). Qed.
Lemma preserves_throw {A} e : preserves I (throw (E := E) (S := S) (A := A) e).
Proof. apply preserves_lift. Qed.
Lemma preserves_panic {A} msg : preserves I (panic (E := E) (S := S) (A := A) msg).
Proof. apply preserves_lift. Qed.
Lemma preserves_lift_res {A} (r : res A) : preserves I (lift_res (E := E) (S := S) r).
Proof. destruct r; apply preserves_lift. Qed.
Lemma preserves_get : preserves I (get (E := E) (S := S)).
Proof. intros s t HI. by apply wpM_get. Qed.
Lemma preserves_modify f : (forall t s, I t s -> I t (f s)) -> preserves I (modify (E := E) (S := S) f).
Proof. intros Hf s t HI. apply wpM_modify. by apply Hf. Qed.
Lemma preserves_perform c : (forall t s x, I t s -> I (t ++ [ev c x]) s) -> preserves I (perform (S := S) c).
Proof. intros Hc s t HI x. by apply Hc. Qed.

Lemma preserves_bind {A B} (m : M E S A) (f : A -> M E S B) :
  preserves I m -> (forall a, preserves I (f a)) -> preserves I (bindM m f).
Proof.
  intros Hm Hf s t HI. apply wpM_bind. eapply wpM_mono; [|by apply Hm].
  intros t' s' [a|e|msg|] HI'; [by apply Hf|done..].
Qed.
Lemma preserves_try {A} (m : M E S A) : preserves I m -> preserves I (try_ m).
Proof. intros Hm s t HI. apply wpM_try. eapply wpM_mono; [|by apply Hm]. by intros t' s' []. Qed.
Lemma preserves_wrap {A} msg (m : M E S A) : preserves I m -> preserves I (wrap msg m).
Proof. intros Hm s t HI. apply wpM_wrap. eapply wpM_mono; [|by apply Hm]. done. Qed.
Lemma preserves_defer {A} (f : M E S unit) (m : M E S A) :
  preserves I f -> preserves I m -> preserves I (defer f m).
Proof.
  intros Hf Hm s t HI. apply wpM_defer. eapply wpM_mono; [|by apply Hm]. intros t' s' o HI'.
  eapply wpM_mono; [|by apply Hf]. done.
Qed.
Lemma preserves_for_each {A} (l : list A) (f : A -> M E S unit) :
  (forall x, x ∈ l -> preserves I (f x)) -> preserves I (for_each l f).
Proof.
  induction l as [|x l IH]; intros Hf; cbn [for_each]; [apply preserves_ret|].
  apply preserves_bind; [apply Hf; by left|]. intros _. apply IH. intros y Hy. apply Hf. by right.
Qed.
Lemma preserves_poll {A} fuel (body : M E S (option A)) : preserves I body -> preserves I (poll fuel body).
Proof.
  intros Hb. induction fuel as [|n IH]; cbn [poll]; [apply preserves_lift|].
  apply preserves_bind; [done|]. intros [a|]; [apply preserves_ret|done].
Qed.
End preserves.

Create HintDb ironbird.
#[export] Hint Resolve steady_lift steady_ret steady_throw steady_panic steady_res steady_get : ironbird.
#[export] Hint Resolve preserves_lift preserves_ret preserves_throw preserves_panic preserves_lift_res
  preserves_get : ironbird.

Ltac steady_step :=
  lazymatch goal with
  | |- steady _ (bindM _ _) => apply steady_bind; [|intros ?]
  | |- steady _ (try_ _) => apply steady_try
  | |- steady _ (wrap _ _) => apply steady_wrap
  | |- steady _ (poll _ _) => apply steady_poll
  | |- steady _ (if ?b then _ else _) => destruct b
  | |- steady _ (match ?x with _ => _ end) => destruct x
  | |- steady _ _ => solve [auto with ironbird]
  end.
Ltac steady_go := repeat (cbn beta iota zeta; steady_step).

(** Walks through a computation, leaving one goal per call and change. *)
Ltac preserves_step :=
  lazymatch goal with
  | |- preserves _ (bindM _ _) => apply preserves_bind; [|intros ?]
  | |- preserves _ (try_ _) => apply preserves_try
  | |- preserves _ (wrap _ _) => apply preserves_wrap
  | |- preserves _ (defer _ _) => apply preserves_defer
  | |- preserves _ (poll _ _) => apply preserves_poll
  | |- preserves _ (for_each _ _) => apply preserves_for_each; intros ? ?
  | |- preserves _ (if ?b then _ else _) => destruct b
  | |- preserves _ (match ?x with _ => _ end) => destruct x
  | |- preserves _ _ => solve [auto with ironbird]
  end.
Ltac preserves_go := repeat (cbn beta iota zeta; preserves_step).

#[export] Hint Resolve wpM_ret wpM_perform : ironbird.
#[export] Hint Resolve emits_lift emits_ret emits_throw emits_panic emits_lift_res emits_get emits_put
  emits_modify : ironbird.

(** Walks through a handler, leaving one goal per call it makes. *)
Ltac emits_step :=
  lazymatch goal with
  | |- emits _ (bindM _ _) => apply emits_bind; [|intros ?]
  | |- emits _ (try_ _) => apply emits_try
  | |- emits _ (wrap _ _) => apply emits_wrap
  | |- emits _ (defer _ _) => apply emits_defer
  | |- emits _ (scoped _ _) => apply emits_scoped
  | |- emits _ (poll _ _) => apply emits_poll
  | |- emits _ (for_each _ _) => apply emits_for_each; intros ? ?
  | |- emits _ (perform _) => apply emits_perform; intros ?
  | |- emits _ (if ?b then _ else _) => destruct b
  | |- emits _ (match ?x with _ => _ end) => destruct x
  | |- emits _ _ => solve [auto with ironbird]
  end.
Ltac emits_go := repeat (cbn beta iota; emits_step).

(** Steps through the structure of a handler, leaving one goal per path. *)
Ltac wpM_step :=
  cbn beta iota;
  lazymatch goal with
  | |- wpM (bindM _ _) _ _ _ => apply wpM_bind
  | |- wpM (try_ _) _ _ _ => apply wpM_try
  | |- wpM (wrap _ _) _ _ _ => apply wpM_wrap
  | |- wpM (defer _ _) _ _ _ => apply wpM_defer
  | |- wpM (scoped _ _) _ _ _ => apply wpM_scoped
  | |- wpM (perform ?c) ?s ?Q ?t => refine (wpM_perform c s Q t _); intros ?
  | |- wpM (retM _) _ _ _ => apply wpM_ret
  | |- wpM (throw _) _ _ _ => apply wpM_lift
  | |- wpM (panic _) _ _ _ => apply wpM_lift
  | |- wpM (lift_outcome _) _ _ _ => apply wpM_lift
  | |- wpM get _ _ _ => apply wpM_get
  | |- wpM (put _) _ _ _ => apply wpM_put
  | |- wpM (modify _) _ _ _ => apply wpM_modify
  | |- wpM (lift_res ?r) _ _ _ => destruct r; cbn [lift_res]
  | |- wpM (if ?b then _ else _) _ _ _ => destruct b eqn:?
  | |- wpM (match ?x with _ => _ end) _ _ _ => destruct x eqn:?
  end.
Ltac wpM_go := repeat (wpM_step; cbn [wrap_outcome]).

(** ** Computations that end, with a value or, unless [strict], an error,
    emit only events of [P] and leave the states related by [K] *)
Definition ends {A} (strict : bool) (o : outcome A) : Prop :=
  match o with Ok _ => True | Err _ => strict = false | _ => False end.

Definition calm {E S A} (strict : bool) (P : event E -> Prop) (K : relation S) (m : M E S A) : Prop :=
  forall s t, wpM m s (fun t' s' o => ends strict o /\ K s s' /\ exists l, t' = t ++ l /\ Forall P l) t.

Section calm.
Context {E : sig} {S : Type} (P : event E -> Prop) (K : relation S) `{!PreOrder K}.

Lemma calm_lift {A} strict (o : outcome A) : ends strict o -> calm strict P K (lift_outcome (E := E) (S := S) o).
Proof. intros Ho s t. apply wpM_lift. split_and!; [done|done|]. exists []. by rewrite app_nil_r. Qed.
Lemma calm_ret {A} strict (a : A) : calm strict P K (retM (E := E) (S := S) a).
Proof. by apply (calm_lift strict (Ok a)). Qed.
Lemma calm_throw {A} e : calm false P K (throw (E := E) (S := S) (A := A) e).
Proof. by apply calm_lift. Qed.
Lemma calm_res {A} (r : res A) : calm false P K (lift_res (E := E) (S := S) r).
Proof. destruct r; by apply calm_lift. Qed.
Lemma calm_get strict : calm strict P K (get (E := E) (S := S)).
Proof. intros s t. apply wpM_get. split_and!; [done|done|]. exists []. by rewrite app_nil_r. Qed.
Lemma calm_modify strict f : (forall s, K s (f s)) -> calm strict P K (modify (E := E) (S := S) f).
Proof. intros Hf s t. apply wpM_modify. split_and!; [done|apply Hf|]. exists []. by rewrite app_nil_r. Qed.
Lemma calm_perform strict c : (forall x, P (ev c x)) -> calm strict P K (perform (S := S) c).
Proof. intros Hc s t x. split_and!; [done|reflexivity|]. exists [ev c x]. split; [done|]. by constructor. Qed.

Lemma calm_bind {A B} strict (m : M E S A) (f : A -> M E S B) :
  calm strict P K m -> (forall a, calm strict P K (f a)) -> calm strict P K (bindM m f).
Proof.
  intros Hm Hf s t. apply wpM_bind. eapply wpM_mono; [|apply Hm].
  intros t' s' o (Ho & HK & l & -> & Hl). destruct o as [a|e|msg|]; try by (split_and!; [done|done|exists l]).
  eapply wpM_mono; [|apply Hf]. intros t' s'' o (Ho' & HK' & l' & -> & Hl').
  split_and!; [done|by etrans|]. exists (l ++ l'). split; [by rewrite app_assoc|by apply Forall_app].
Qed.

Lemma calm_weaken {A} (m : M E S A) : calm true P K m -> calm false P K m.
Proof. intros Hm s t. eapply wpM_mono; [|apply Hm]. intros t' s' [a|e|msg|] (Ho & H); by split. Qed.
Lemma calm_try {A} strict (m : M E S A) : calm false P K m -> calm strict P K (try_ m).
Proof. intros Hm s t. apply wpM_try. eapply wpM_mono; [|apply Hm]. intros t' s' [a|e|msg|] (Ho & H); by split. Qed.
Lemma calm_wrap {A} msg (m : M E S A) : calm false P K m -> calm false P K (wrap msg m).
Proof. intros Hm s t. apply wpM_wrap. eapply wpM_mono; [|apply Hm]. by intros t' s' [a|e|msg'|]. Qed.
End calm.

Definition any_state {S} : relation S := fun _ _ => True.
#[export] Instance any_state_preorder {S} : PreOrder (@any_state S).
Proof. by split. Qed.

(** A program run in place of a call of another signature. *)
Lemma wp_embed {E E' : sig} {A} (f : call E -> call E') (g : forall c, ans E' (f c) -> ans E c) (p : prog E A)
    (P : event E' -> Prop) (Q : A -> Prop) t :
  (forall c x, P (ev (f c) x)) -> wp p (fun _ a => Q a) [] ->
  wp (prog_embed f g p) (fun t' a => Q a /\ exists l, t' = t ++ l /\ Forall P l) t.
Proof.
  intros HP. generalize (@nil (event E)). revert t. induction p as [a|c k IH]; intros t u Hp; cbn in *.
  - split; [done|]. exists []. by rewrite app_nil_r.
  - intros x. eapply wp_mono; [|by eapply IH]. intros t' a (Ha & l & -> & Hl). split; [done|].
    exists (ev (f c) x :: l). split; [by rewrite <- app_assoc|by constructor].
Qed.

Lemma calm_embed {E E' : sig} {S S' A} strict (f : call E -> call E') (g : forall c, ans E' (f c) -> ans E c) (s0 : S')
    (P : event E' -> Prop) (K : relation S) `{!PreOrder K} (m : M E S' A) :
  (forall c x, P (ev (f c) x)) -> calm strict (fun _ => True) any_state m ->
  calm strict P K (scoped s0 (embed f g m)).
Proof.
  intros HP Hm s t. apply wpM_scoped. unfold wpM, embed. eapply wp_mono; [|apply (wp_embed f g (m s0) P (fun r => ends strict r.2) t HP)].
  - intros t' [s' o] (Ho & Hl). cbn in *. by split_and!.
  - eapply wp_mono; [|apply Hm]. intros t' [s' o] (Ho & _). exact Ho.
Qed.

Ltac calm_step :=
  match goal with
  | |- calm _ _ _ (bindM _ _) => apply calm_bind; [try apply _| |intros]
  | |- calm _ _ _ (try_ _) => apply calm_try
  | |- calm false _ _ (wrap _ _) => apply calm_wrap
  | |- calm _ _ _ (retM _) => apply calm_ret; try apply _
  | |- calm false _ _ (throw _) => apply calm_throw; try apply _
  | |- calm false _ _ (lift_res _) => apply calm_res; try apply _
  | |- calm _ _ _ get => apply calm_get; try apply _
  | |- calm _ _ _ (perform _) => apply calm_perform; [try apply _|]
  | |- calm _ _ _ (modify _) => apply calm_modify
  | |- calm _ _ _ (match ?x with _ => _ end) => destruct x
  end.
Ltac calm_go := repeat (cbn beta iota zeta; calm_step).
