(* ===== verification/GoStrings.v ===== *)
(** * The parts of Go's [strings], [strconv] and integer types the program uses

    Strings are byte strings ([String.string]); integers are [Z] with the
    wrap-around of their width written out.  Nothing here models a file of
    the repository: this is the language's library, as far as it is used. *)

From S2P Require Import Prelude.
From Stdlib Require Import DecimalString DecimalPos DecimalZ.
From Stdlib Require Import Ascii.

(** ** Fixed-width integers *)
Definition to_int64 (z : Z) : Z := (z + 2^63) mod 2^64 - 2^63.
Definition to_int32 (z : Z) : Z := (z + 2^31) mod 2^32 - 2^31.
Definition to_uint64 (z : Z) : Z := z mod 2^64.

Lemma to_int64_small z : -2^63 <= z < 2^63 -> to_int64 z = z.
Proof. intros Hz. unfold to_int64. rewrite Z.mod_small; lia. Qed.
Lemma to_int32_small z : -2^31 <= z < 2^31 -> to_int32 z = z.
Proof. intros Hz. unfold to_int32. rewrite Z.mod_small; lia. Qed.
Lemma to_uint64_small z : 0 <= z < 2^64 -> to_uint64 z = z.
Proof. intros Hz. unfold to_uint64. by rewrite Z.mod_small. Qed.
Lemma to_uint64_int64 z : 0 <= z < 2^64 -> to_uint64 (to_int64 z) = z.
Proof.
  intros Hz. unfold to_uint64, to_int64.
  rewrite Zminus_mod_idemp_l. replace (z + 2 ^ 63 - 2 ^ 63) with z by lia.
  by rewrite Z.mod_small.
Qed.

(** ** Decimal rendering: [strconv.Itoa], [%d] *)
Definition itoa (z : Z) : string := NilZero.string_of_int (Z.to_int z).

Lemma itoa_parse z : NilZero.int_of_string (itoa z) = Some (Z.to_int z).
Proof.
  unfold itoa. apply NilZero.isi.
  all: destruct z as [|p|p]; simpl; try done.
  all: intros [= H]; by apply (Unsigned.to_uint_nonnil p).
Qed.

#[export] Instance itoa_inj : Inj (=) (=) itoa.
Proof.
  intros x y Hxy. apply DecimalZ.to_int_inj.
  apply (f_equal NilZero.int_of_string) in Hxy. rewrite !itoa_parse in Hxy. congruence.
Qed.

(** ** Parsing: [strconv.ParseUint(s, 10, 64)], [strconv.ParseInt(s, 10, 64)] *)
Definition digit_val (c : ascii) : option Z :=
  let n := Z.of_nat (nat_of_ascii c) in
  if (48 <=? n) && (n <=? 57) then Some (n - 48) else None.

Fixpoint parse_digits (acc : Z) (s : string) : option Z :=
  match s with
  | EmptyString => Some acc
  | String c s' =>
      match digit_val c with
      | Some d => parse_digits (acc * 10 + d) s'
      | None => None
      end
  end.

Definition ParseUint (s : string) : option Z :=
  match s with
  | EmptyString => None
  | _ => match parse_digits 0 s with
         | Some v => if v <? 2^64 then Some v else None
         | None => None
         end
  end.

Definition ParseInt (s : string) : option Z :=
  match s with
  | EmptyString => None
  | String c s' =>
      let neg := Ascii.eqb c "-" in
      let body := if neg || Ascii.eqb c "+" then s' else s in
      match ParseUint body with
      | Some v => if neg then (if v <=? 2^63 then Some (- v) else None)
                  else (if v <? 2^63 then Some v else None)
      | None => None
      end
  end.

Lemma parse_digits_nonneg acc s v : 0 <= acc -> parse_digits acc s = Some v -> 0 <= v.
Proof.
  revert acc. induction s as [|c s IH]; intros acc Hacc Hp; simpl in Hp; [by simplify_eq|].
  unfold digit_val in Hp. repeat case_match; simplify_eq. eapply IH; [|done]. lia.
Qed.

Lemma ParseUint_range s v : ParseUint s = Some v -> 0 <= v < 2^64.
Proof.
  unfold ParseUint. destruct s as [|c s]; [done|].
  destruct (parse_digits 0 (String c s)) as [w|] eqn:Hp; [|done].
  destruct (Z.ltb_spec w (2^64)); intros [= ->].
  split; [|done]. eapply parse_digits_nonneg; [|done]. lia.
Qed.

Lemma ParseInt_range s v : ParseInt s = Some v -> -2^63 <= v < 2^63.
Proof.
  unfold ParseInt. destruct s as [|c s]; [done|].
  destruct (ParseUint _) as [w|] eqn:Hp; [|done]. apply ParseUint_range in Hp.
  repeat case_match; intros [= <-]; lia.
Qed.

(** The two functions are inverse to each other on 64-bit integers. *)
Lemma parse_digits_acc d acc :
  parse_digits (Zpos acc) (NilEmpty.string_of_uint d) = Some (Zpos (Pos.of_uint_acc d acc)).
Proof.
  revert acc. induction d as [|d IH|d IH|d IH|d IH|d IH|d IH|d IH|d IH|d IH|d IH];
    intros acc; cbn [NilEmpty.string_of_uint parse_digits Pos.of_uint_acc]; [done|..];
    cbv [digit_val]; cbn -[Z.add Z.mul Pos.mul Pos.add]; rewrite <- IH; f_equal;
    (lazymatch goal with |- context [Z.of_nat (nat_of_ascii ?c) - 48] =>
       let v := eval vm_compute in (Z.of_nat (nat_of_ascii c) - 48) in
       change (Z.of_nat (nat_of_ascii c) - 48) with v end); lia.
Qed.

Lemma parse_digits_uint d : parse_digits 0 (NilEmpty.string_of_uint d) = Some (Z.of_uint d).
Proof.
  induction d as [|d IH|d _|d _|d _|d _|d _|d _|d _|d _|d _];
    cbn [NilEmpty.string_of_uint parse_digits]; [done|..];
    [exact IH|exact (parse_digits_acc d _)..].
Qed.

Lemma ParseInt_itoa_eq z :
  ParseInt (itoa z) = if (-2^63 <=? z) && (z <? 2^63) then Some z else None.
Proof.
  unfold itoa. destruct z as [|p|p]; [done|..].
  - assert (Hd : parse_digits 0 (NilEmpty.string_of_uint (Pos.to_uint p)) = Some (Zpos p)).
    { rewrite parse_digits_uint. f_equal. exact (DecimalZ.of_to (Zpos p)). }
    pose proof (DecimalPos.Unsigned.to_uint_nonnil p) as Hne.
    cbn [Z.to_int NilZero.string_of_int NilZero.string_of_uint].
    assert (Hs : NilZero.string_of_uint (Pos.to_uint p) = NilEmpty.string_of_uint (Pos.to_uint p))
      by (by destruct (Pos.to_uint p)).
    rewrite Hs. destruct (Pos.to_uint p) as [|d|d|d|d|d|d|d|d|d|d]; [done|..];
      cbn [NilEmpty.string_of_uint] in *; unfold ParseInt; cbn [Ascii.eqb orb Bool.eqb];
      unfold ParseUint; rewrite Hd;
      cbn [negb]; destruct (Z.ltb_spec (Zpos p) (2^64)), (Z.ltb_spec (Zpos p) (2^63)); done || lia.
  - assert (Hd : parse_digits 0 (NilEmpty.string_of_uint (Pos.to_uint p)) = Some (Zpos p)).
    { rewrite parse_digits_uint. f_equal. exact (DecimalZ.of_to (Zpos p)). }
    pose proof (DecimalPos.Unsigned.to_uint_nonnil p) as Hne.
    cbn [Z.to_int NilZero.string_of_int].
    assert (Hs : NilZero.string_of_uint (Pos.to_uint p) = NilEmpty.string_of_uint (Pos.to_uint p))
      by (by destruct (Pos.to_uint p)).
    rewrite Hs. cbn [ParseInt]. unfold ParseInt. cbn [Ascii.eqb orb Bool.eqb]. unfold ParseUint. rewrite Hd.
    destruct (Pos.to_uint p) as [|d|d|d|d|d|d|d|d|d|d] eqn:Hu; [done|..]; cbn [NilEmpty.string_of_uint];
      destruct (Z.ltb_spec (Zpos p) (2^64)), (Z.leb_spec (Zpos p) (2^63)), (Z.leb_spec (-2^63) (Zneg p));
      done || lia.
Qed.

Lemma ParseInt_itoa z : -2^63 <= z < 2^63 -> ParseInt (itoa z) = Some z.
Proof.
  intros Hz. rewrite ParseInt_itoa_eq. destruct (Z.leb_spec (-2^63) z), (Z.ltb_spec z (2^63)); done || lia.
Qed.

Lemma ParseInt_itoa_inv z v : ParseInt (itoa z) = Some v -> v = z.
Proof. rewrite ParseInt_itoa_eq. by destruct (_ && _); [intros [= ->]|]. Qed.

(** ** [big.Int.SetString(s, 10)]: an optional sign and at least one digit. *)
Definition SetString (s : string) : option Z :=
  match s with
  | String c s' =>
      if Ascii.eqb c "+" then option_map (fun d => Z.of_int (Decimal.Pos d)) (NilZero.uint_of_string s')
      else option_map Z.of_int (NilZero.int_of_string s)
  | EmptyString => None
  end.

Lemma SetString_itoa z : SetString (itoa z) = Some z.
Proof.
  pose proof (itoa_parse z) as Hp. unfold SetString. destruct (itoa z) as [|c s] eqn:Hs; [done|].
  destruct (Ascii.eqb_spec c "+") as [->|Hc]; [cbn in Hp; by destruct (NilEmpty.uint_of_string s)|].
  rewrite Hp. simpl. by rewrite DecimalZ.of_to.
Qed.

(** ** [strings] *)
Fixpoint HasPrefix (s p : string) {struct p} : bool :=
  match p, s with
  | EmptyString, _ => true
  | String a p', String b s' => Ascii.eqb a b && HasPrefix s' p'
  | String _ _, EmptyString => false
  end.

Fixpoint Contains (s sub : string) : bool :=
  HasPrefix s sub ||
  match s with
  | EmptyString => false
  | String _ s' => Contains s' sub
  end.

(** [strings.Split] on a one-byte separator: never empty. *)
Fixpoint Split (sep : ascii) (s : string) : list string :=
  match s with
  | EmptyString => [""]
  | String c s' =>
      if Ascii.eqb c sep then "" :: Split sep s'
      else match Split sep s' with
           | [] => [String c EmptyString]
           | h :: t => String c h :: t
           end
  end.

Fixpoint no_byte (c : ascii) (s : string) : bool :=
  match s with EmptyString => true | String d s' => negb (Ascii.eqb d c) && no_byte c s' end.

Definition Join (l : list string) (sep : string) : string := String_concat sep l.

(** [strings.ReplaceAll] of one byte by one byte. *)
Fixpoint ReplaceByte (s : string) (old new : ascii) : string :=
  match s with
  | EmptyString => EmptyString
  | String c s' => String (if Ascii.eqb c old then new else c) (ReplaceByte s' old new)
  end.

(** [s[i:]] and [s[:i]] *)
Fixpoint str_drop (n : nat) (s : string) : string :=
  match n, s with
  | Datatypes.S n', String _ s' => str_drop n' s'
  | _, _ => s
  end.
Fixpoint str_take (n : nat) (s : string) : string :=
  match n, s with
  | Datatypes.S n', String c s' => String c (str_take n' s')
  | _, _ => EmptyString
  end.

Fixpoint str_all (p : ascii -> bool) (s : string) : bool :=
  match s with
  | EmptyString => true
  | String c s' => p c && str_all p s'
  end.

(** ** Lemmas *)
Lemma string_app_nil_r (s : string) : s +:+ "" = s.
Proof. induction s as [|c s IH]; simpl; [done|]. by rewrite IH. Qed.

Lemma string_app_assoc (s1 s2 s3 : string) : (s1 +:+ s2) +:+ s3 = s1 +:+ (s2 +:+ s3).
Proof. induction s1 as [|c s IH]; simpl; [done|]. by rewrite IH. Qed.

Lemma string_length_app (s1 s2 : string) :
  String.length (s1 +:+ s2) = (String.length s1 + String.length s2)%nat.
Proof. induction s1 as [|c s IH]; simpl; [done|]. by rewrite IH. Qed.

Lemma string_app_inj_l (s s1 s2 : string) : s +:+ s1 = s +:+ s2 -> s1 = s2.
Proof. induction s as [|c s IH]; simpl; [done|]. intros [=]. by apply IH. Qed.

Lemma string_app_inv_length (s1 s2 t1 t2 : string) :
  String.length s1 = String.length t1 -> s1 +:+ s2 = t1 +:+ t2 -> s1 = t1 /\ s2 = t2.
Proof.
  revert t1. induction s1 as [|c s IH]; intros [|d t]; simpl; try done.
  intros [= Hl] [= -> H]. destruct (IH t Hl H) as [-> ->]. done.
Qed.

Lemma str_take_drop n (s : string) : str_take n s +:+ str_drop n s = s.
Proof.
  revert n. induction s as [|c s IH]; intros [|n]; simpl; try done. by rewrite IH.
Qed.

Lemma str_take_length n (s : string) :
  String.length (str_take n s) = Nat.min n (String.length s).
Proof. revert n. induction s as [|c s IH]; intros [|n]; simpl; try done. by rewrite IH. Qed.

Lemma str_drop_length n (s : string) :
  String.length (str_drop n s) = (String.length s - n)%nat.
Proof. revert n. induction s as [|c s IH]; intros [|n]; simpl; done. Qed.

Lemma Split_nonempty sep s : Split sep s <> [].
Proof. destruct s as [|c s]; simpl; [done|]. repeat case_match; done. Qed.

(** Splitting and joining again with the separator gives the string back. *)
Lemma Join_Split sep s : Join (Split sep s) (String sep EmptyString) = s.
Proof.
  unfold Join. induction s as [|c s IH]; simpl; [done|].
  pose proof (Split_nonempty sep s) as Hne.
  destruct (Split sep s) as [|h t] eqn:Hs; [done|].
  destruct (Ascii.eqb_spec c sep) as [->|Hc].
  - simpl in *. by rewrite IH.
  - destruct t as [|h' t']; simpl in *; by rewrite IH.
Qed.

Lemma Split_none c s : no_byte c s = true -> Split c s = [s].
Proof.
  induction s as [|d s IH]; cbn [no_byte Split]; [done|]. intros [Hd Hs]%andb_true_iff.
  apply negb_true_iff in Hd. by rewrite Hd, IH.
Qed.

Lemma Split_single c s x : Split c s = [x] -> s = x /\ no_byte c s = true.
Proof.
  revert x. induction s as [|d s IH]; intros x; cbn [no_byte Split]; [by intros [= <-]|].
  destruct (Ascii.eqb d c); [by destruct (Split c s) as [|h t] eqn:Hs; [destruct s; [|cbn in Hs; repeat case_match]|]|].
  destruct (Split c s) as [|h [|]] eqn:Hs; intros [= <-].
  - destruct s; [done|]. cbn in Hs. repeat case_match; done.
  - by destruct (IH h eq_refl) as [-> ->].
Qed.

Lemma Split_pair c s x y :
  Split c s = [x; y] <-> s = x +:+ String c y /\ no_byte c x = true /\ no_byte c y = true.
Proof.
  split.
  - revert x. induction s as [|d s IH]; intros x; cbn [Split]; [done|].
    destruct (Ascii.eqb_spec d c) as [->|Hd].
    + intros [= <- Hs]. apply Split_single in Hs as [-> Hs]. done.
    + destruct (Split c s) as [|h [|h2 t]] eqn:Hs; [done..|]. intros [= <- -> ->].
      destruct (IH h eq_refl) as (-> & Hh & Hy). split; [done|]. split; [|done]. cbn [no_byte].
      apply andb_true_iff. split; [|done]. by apply negb_true_iff, Ascii.eqb_neq.
  - intros (-> & Hx & Hy). induction x as [|d x IH]; cbn [String.append Split].
    + by rewrite Ascii.eqb_refl, Split_none.
    + cbn [no_byte] in Hx. apply andb_true_iff in Hx as [Hd Hx]. apply negb_true_iff in Hd. rewrite Hd.
      by rewrite IH.
Qed.

(** Splitting at a separator between two parts. *)
Lemma Split_app c x y : Split c (x +:+ String c y) = Split c x ++ Split c y.
Proof.
  induction x as [|d x IH]; cbn [String.append Split app]; [by rewrite Ascii.eqb_refl|].
  rewrite IH. destruct (Ascii.eqb d c); [done|]. destruct (Split c x) as [|h t] eqn:Hx; [|done].
  by destruct (Split_nonempty c x).
Qed.

Lemma HasPrefix_spec s p : HasPrefix s p = true <-> exists r, s = p +:+ r.
Proof.
  revert s. induction p as [|a p IH]; intros s; simpl.
  - split; [intros _; by exists s|done].
  - destruct s as [|b s]; [split; [done|by intros [r Hr]]|].
    rewrite andb_true_iff, Ascii.eqb_eq, IH. split.
    + intros [-> [r ->]]. by exists r.
    + intros [r [= -> ->]]. eauto.
Qed.

Lemma HasPrefix_app p s : HasPrefix (p +:+ s) p = true.
Proof. apply HasPrefix_spec. by exists s. Qed.

Lemma ReplaceByte_length s o n : String.length (ReplaceByte s o n) = String.length s.
Proof. induction s; simpl; congruence. Qed.

Create HintDb gostrings.
#[export] Hint Rewrite string_app_nil_r string_app_assoc string_length_app
  str_take_length str_drop_length ReplaceByte_length : gostrings.
