(* ===== verification/GoVal.v ===== *)
(** * Dynamic values ([interface{}]), maps and their iteration order

    [GoVal] is the value of a [map[string]interface{}] as decoding JSON or
    TOML produces it.  A map of that type is the list of its entries in
    the order a [range] over it yields them, its keys pairwise different
    ([wf_map]); two maps are the same map when their lookups agree
    ([map_equiv]).  Maps with string values are [gmap]s, and the order a
    [range] over one yields is a parameter ([MapRange]). *)

From S2P Require Import Prelude GoStrings.

(** ** [interface{}] values *)
Inductive GoVal :=
| VNil
| VBool (b : bool)
| VInt (z : Z)
| VFloat (repr : string)
| VStr (s : string)
| VList (l : list GoVal)
| VMap (m : list (string * GoVal))
| VMapOther (m : list (string * string)).   (* a map that is not a map[string]interface{} *)

Definition gomap : Type := list (string * GoVal).

(** ** Induction and decidable equality *)
Section GoVal_ind'.
Context (P : GoVal -> Prop)
  (HNil : P VNil) (HBool : forall b, P (VBool b)) (HInt : forall z, P (VInt z))
  (HFloat : forall r, P (VFloat r)) (HStr : forall s, P (VStr s))
  (HList : forall l, Forall P l -> P (VList l))
  (HMap : forall m, Forall (fun kv => P kv.2) m -> P (VMap m))
  (HOther : forall m, P (VMapOther m)).

Fixpoint GoVal_ind' (v : GoVal) : P v :=
  match v with
  | VNil => HNil
  | VBool b => HBool b
  | VInt z => HInt z
  | VFloat r => HFloat r
  | VStr s => HStr s
  | VList l => HList l ((fix go (l : list GoVal) : Forall P l :=
      match l with [] => Forall_nil_2 P | v :: l' => Forall_cons_2 P v l' (GoVal_ind' v) (go l') end) l)
  | VMap m => HMap m ((fix go (m : gomap) : Forall (fun kv => P kv.2) m :=
      match m with
      | [] => Forall_nil_2 _
      | kv :: m' => Forall_cons_2 (fun kv => P kv.2) kv m' (GoVal_ind' kv.2) (go m')
      end) m)
  | VMapOther m => HOther m
  end.
End GoVal_ind'.

Fixpoint to_tree (v : GoVal) : gen_tree (string + (Z + (bool + list (string * string)))) :=
  match v with
  | VNil => GenNode 0 []
  | VBool b => GenLeaf (inr (inr (inl b)))
  | VInt z => GenLeaf (inr (inl z))
  | VFloat r => GenNode 1 [GenLeaf (inl r)]
  | VStr s => GenLeaf (inl s)
  | VList l => GenNode 2 (map to_tree l)
  | VMap m => GenNode 3 (map (fun kv => GenNode 0 [GenLeaf (inl kv.1); to_tree kv.2]) m)
  | VMapOther m => GenLeaf (inr (inr (inr m)))
  end.

Fixpoint of_tree (t : gen_tree (string + (Z + (bool + list (string * string))))) : GoVal :=
  match t with
  | GenLeaf (inl s) => VStr s
  | GenLeaf (inr (inl z)) => VInt z
  | GenLeaf (inr (inr (inl b))) => VBool b
  | GenLeaf (inr (inr (inr m))) => VMapOther m
  | GenNode 0 _ => VNil
  | GenNode 1 [GenLeaf (inl r)] => VFloat r
  | GenNode 1 _ => VNil
  | GenNode 2 l => VList (map of_tree l)
  | GenNode _ l => VMap (map (fun t =>
      match t with GenNode 0 [GenLeaf (inl k); t'] => (k, of_tree t') | _ => ("", VNil) end) l)
  end.

Lemma of_to_tree v : of_tree (to_tree v) = v.
Proof.
  induction v as [| | | | |l IH|m IH|] using GoVal_ind'; simpl; try done.
  - f_equal. rewrite map_map. induction IH as [|v l Hv _ IH]; simpl; congruence.
  - f_equal. rewrite map_map. induction IH as [|[k v] m Hv _ IH]; simpl in *; congruence.
Qed.

#[export] Instance GoVal_eq_dec : EqDecision GoVal.
Proof.
  refine (fun v1 v2 => cast_if (decide (to_tree v1 = to_tree v2))).
  - abstract (rewrite <- (of_to_tree v1), <- (of_to_tree v2); congruence).
  - abstract congruence.
Defined.

#[export] Instance GoVal_countable : Countable GoVal := inj_countable' to_tree of_tree of_to_tree.

(** ** Maps *)

(** [m[k]] *)
Fixpoint lookup_map (m : gomap) (k : string) : option GoVal :=
  match m with
  | [] => None
  | (k', v) :: m' => if String.eqb k' k then Some v else lookup_map m' k
  end.

(** [m[k] = v]: in place, at the end when the key is new. *)
Fixpoint set_map (m : gomap) (k : string) (v : GoVal) : gomap :=
  match m with
  | [] => [(k, v)]
  | (k', v') :: m' => if String.eqb k' k then (k, v) :: m' else (k', v') :: set_map m' k v
  end.

Definition wf_map (m : gomap) : Prop := NoDup m.*1.

Definition map_equiv (m1 m2 : gomap) : Prop := forall k, lookup_map m1 k = lookup_map m2 k.

#[export] Instance map_equiv_equivalence : Equivalence map_equiv.
Proof.
  split; unfold map_equiv.
  - by intros m k.
  - intros m1 m2 H k. by rewrite H.
  - intros m1 m2 m3 H1 H2 k. by rewrite H1.
Qed.

#[export] Instance lookup_map_proper : Proper (map_equiv ==> eq ==> eq) lookup_map.
Proof. intros m1 m2 Hm k k' <-. apply Hm. Qed.

Lemma lookup_set_map_eq m k v : lookup_map (set_map m k v) k = Some v.
Proof.
  induction m as [|[k' v'] m IH]; simpl.
  - by rewrite String.eqb_refl.
  - destruct (String.eqb_spec k' k) as [->|Hne]; simpl.
    + by rewrite String.eqb_refl.
    + apply String.eqb_neq in Hne. by rewrite Hne.
Qed.

Lemma lookup_set_map_ne m k k' v : k <> k' -> lookup_map (set_map m k v) k' = lookup_map m k'.
Proof.
  intros Hk. induction m as [|[k0 v0] m IH]; simpl.
  - apply String.eqb_neq in Hk. by rewrite Hk.
  - destruct (String.eqb_spec k0 k) as [->|Hne]; simpl.
    + apply String.eqb_neq in Hk. by rewrite !Hk.
    + by rewrite IH.
Qed.

Lemma lookup_set_map m k v k' :
  lookup_map (set_map m k v) k' = if String.eqb k k' then Some v else lookup_map m k'.
Proof.
  destruct (String.eqb_spec k k') as [->|Hne].
  - apply lookup_set_map_eq.
  - by apply lookup_set_map_ne.
Qed.

#[export] Instance set_map_proper : Proper (map_equiv ==> eq ==> eq ==> map_equiv) set_map.
Proof. intros m1 m2 Hm k ? <- v ? <- k'. rewrite !lookup_set_map. by rewrite (Hm k'). Qed.

Lemma lookup_map_None m k : lookup_map m k = None <-> k ∉ m.*1.
Proof.
  induction m as [|[k' v] m IH]; simpl.
  - split; [intros _; apply not_elem_of_nil|done].
  - rewrite not_elem_of_cons, <- IH.
    destruct (String.eqb_spec k' k) as [->|Hne]; [|naive_solver].
    split; [done|by intros [? _]].
Qed.

Lemma lookup_map_Some_in m k v : lookup_map m k = Some v -> (k, v) ∈ m.
Proof.
  induction m as [|[k' v'] m IH]; simpl; [done|].
  destruct (String.eqb_spec k' k) as [->|Hne].
  - intros [= ->]. by left.
  - intros H. right. by apply IH.
Qed.

Lemma lookup_map_in m k v : wf_map m -> (k, v) ∈ m -> lookup_map m k = Some v.
Proof.
  unfold wf_map. induction m as [|[k' v'] m IH]; simpl; intros Hnd Hin.
  - by apply not_elem_of_nil in Hin.
  - apply NoDup_cons in Hnd as [Hk Hnd].
    apply elem_of_cons in Hin as [[= -> ->]|Hin].
    + by rewrite String.eqb_refl.
    + destruct (String.eqb_spec k' k) as [->|Hne]; [|by apply IH].
      exfalso. apply Hk. apply list_elem_of_fmap. by exists (k, v).
Qed.

(** Two iteration orders of one map give the same lookups. *)
Lemma map_equiv_perm (m1 m2 : gomap) : wf_map m1 -> m1 ≡ₚ m2 -> map_equiv m1 m2.
Proof.
  intros Hwf Hp k.
  assert (wf_map m2) as Hwf2 by (unfold wf_map in *; by rewrite <- Hp).
  destruct (lookup_map m2 k) as [v|] eqn:Hl.
  - apply lookup_map_in; [done|]. rewrite Hp. by apply lookup_map_Some_in.
  - apply lookup_map_None. rewrite Hp. by apply lookup_map_None.
Qed.

Lemma set_map_keys_in m k v : k ∈ m.*1 -> (set_map m k v).*1 = m.*1.
Proof.
  induction m as [|[k' v'] m IH]; intros Hin; [by apply not_elem_of_nil in Hin|].
  cbn [set_map]. destruct (String.eqb_spec k' k) as [->|Hne]; [done|].
  rewrite !fmap_cons. cbn [fst]. f_equal. apply IH.
  apply elem_of_cons in Hin as [Heq|Hin]; [by simpl in Heq|done].
Qed.

Lemma set_map_keys_notin m k v : k ∉ m.*1 -> (set_map m k v).*1 = (m.*1 ++ [k])%list.
Proof.
  induction m as [|[k' v'] m IH]; intros Hin; [done|].
  rewrite fmap_cons in Hin. cbn [fst] in Hin.
  apply not_elem_of_cons in Hin as [Hne Hin].
  cbn [set_map]. destruct (String.eqb_spec k' k) as [->|_]; [done|].
  rewrite !fmap_cons. cbn [fst app]. f_equal. by apply IH.
Qed.

Lemma set_map_wf m k v : wf_map m -> wf_map (set_map m k v).
Proof.
  unfold wf_map. intros Hnd. destruct (decide (k ∈ m.*1)) as [Hin|Hin].
  - by rewrite set_map_keys_in.
  - rewrite set_map_keys_notin by done.
    apply NoDup_app. split; [done|]. split; [|apply NoDup_singleton].
    intros x Hx ->%list_elem_of_singleton. done.
Qed.

#[export] Hint Resolve set_map_wf : ironbird.

(** ** Maps with string keys and the order of a [range] *)
Class MapRange := {
  range_map : forall V : Type, gmap string V -> list (string * V);
  range_map_perm : forall V (m : gmap string V), range_map V m ≡ₚ map_to_list m
}.
Arguments range_map {_ _} _.

(** The order of stdpp's [map_to_list], one possible order. *)
Definition canonical_range : MapRange :=
  {| range_map := fun V m => map_to_list m; range_map_perm := fun V m => reflexivity _ |}.

Section ranges.
Context {R : MapRange} {V : Type}.

Lemma range_map_keys (m : gmap string V) : NoDup (range_map m).*1.
Proof. rewrite (Permutation_map fst (range_map_perm V m)). apply NoDup_fst_map_to_list. Qed.

Lemma list_to_map_range (m : gmap string V) : list_to_map (range_map m) = m.
Proof.
  rewrite <- (list_to_map_to_list m) at 2.
  apply list_to_map_proper; [apply range_map_keys|apply range_map_perm].
Qed.

Lemma elem_of_range_map (m : gmap string V) k v : (k, v) ∈ range_map m <-> m !! k = Some v.
Proof. rewrite (range_map_perm V m). apply elem_of_map_to_list. Qed.
End ranges.

(** [m[k]] on a map with string values: the zero value when absent. *)
Definition lookup_str (m : gmap string string) (k : string) : string := default "" (m !! k).

(** ** A text form of values

    Strings of binary digits that spell the value's code: what examples use
    where the program calls a serialization library. *)
Fixpoint digits_of (p : positive) : string :=
  match p with
  | xH => ""
  | xO q => String (Ascii.ascii_of_nat 48) (digits_of q)
  | xI q => String (Ascii.ascii_of_nat 49) (digits_of q)
  end.

Fixpoint of_digits (s : string) : positive :=
  match s with
  | EmptyString => xH
  | String a s' => if Ascii.eqb a (Ascii.ascii_of_nat 49) then xI (of_digits s') else xO (of_digits s')
  end.

Lemma of_digits_of p : of_digits (digits_of p) = p.
Proof. induction p as [p IH|p IH|]; simpl; [by rewrite IH..|done]. Qed.

Definition encode_val (v : GoVal) : string := digits_of (encode v).
Definition decode_val (s : string) : option GoVal := decode (of_digits s).

Lemma decode_encode_val v : decode_val (encode_val v) = Some v.
Proof. unfold decode_val, encode_val. by rewrite of_digits_of, decode_encode. Qed.
