(* ===== verification/ProviderDefs.v ===== *)
(** * Provider definitions: [petri/core/provider]

    The records of [definitions.go] with their [ValidateBasic] methods, the
    task statuses and [IsECRImage] of [provider.go].  A validation returns
    [Ok tt] for a nil error. *)

From S2P Require Import Prelude GoStrings.

(** ** [VolumeDefinition] *)
Record VolumeDefinition := {
  vd_Name : string;
  vd_MountPath : string;
  vd_Size : string
}.

Definition VolumeDefinition_ValidateBasic (v : VolumeDefinition) : outcome unit :=
  if String.eqb (vd_Name v) "" then Err (ENew "volume name cannot be empty")
  else if String.eqb (vd_MountPath v) "" then Err (ENew "mount path cannot be empty")
  else if String.eqb (vd_Size v) "" then Err (ENew "size cannot be empty")
  else Ok tt.

(** ** [ImageDefinition] *)
Record ImageDefinition := {
  Image : string;
  UID : string;
  GID : string
}.

#[export] Instance ImageDefinition_eq_dec : EqDecision ImageDefinition.
Proof. solve_decision. Defined.

Definition ImageDefinition_ValidateBasic (i : ImageDefinition) : outcome unit :=
  if String.eqb (Image i) "" then Err (ENew "image cannot be empty")
  else if String.eqb (UID i) "" then Err (ENew "uid cannot be empty")
  else match ParseUint (UID i) with
  | None => Err (ENew "uid must be a valid unsigned integer")
  | Some _ =>
      if String.eqb (GID i) "" then Err (ENew "gid cannot be empty")
      else match ParseUint (GID i) with
      | None => Err (ENew "gid must be a valid unsigned integer")
      | Some _ => Ok tt
      end
  end.

(** ** [TaskDefinition]

    [ProviderSpecificConfig] is [None] when the map is nil. *)
Record TaskDefinition := {
  td_Name : string;
  td_Image : ImageDefinition;
  Ports : list string;
  Environment : gmap string string;
  DataDir : string;
  Entrypoint : list string;
  Command : list string;
  Args : list string;
  ProviderSpecificConfig : option (gmap string string)
}.

#[export] Instance TaskDefinition_eq_dec : EqDecision TaskDefinition.
Proof. solve_decision. Defined.

(** The loop over the ports. *)
Fixpoint validate_ports (ports : list string) : outcome unit :=
  match ports with
  | [] => Ok tt
  | port :: ports' =>
      if String.eqb port "" then Err (ENew "port cannot be empty")
      else match ParseUint port with
      | None => Err (ENew "port must be a valid unsigned integer")
      | Some portInt =>
          if 65535 <? portInt then Err (ENew "port must be less than 65535")
          else validate_ports ports'
      end
  end.

Definition TaskDefinition_ValidateBasic (t : TaskDefinition) : outcome unit :=
  if String.eqb (td_Name t) "" then Err (ENew "name cannot be empty")
  else match wrap_outcome "image definition is invalid" (ImageDefinition_ValidateBasic (td_Image t)) with
  | Ok _ => validate_ports (Ports t)
  | o => o
  end.

(** ** [TaskStatus], [IsECRImage] *)
Inductive TaskStatus :=
| TASK_STATUS_UNDEFINED
| TASK_RUNNING
| TASK_STOPPED
| TASK_PAUSED
| TASK_RESTARTING.

#[export] Instance TaskStatus_eq_dec : EqDecision TaskStatus.
Proof. solve_decision. Defined.

(** The [iota] value a status is printed and serialised as. *)
Definition TaskStatus_int (s : TaskStatus) : Z :=
  match s with
  | TASK_STATUS_UNDEFINED => 0
  | TASK_RUNNING => 1
  | TASK_STOPPED => 2
  | TASK_PAUSED => 3
  | TASK_RESTARTING => 4
  end.

Definition IsECRImage (imageName : string) : bool := Contains imageName ".amazonaws.com".

(** ** What a valid definition is *)
Definition valid_port (p : string) : Prop := exists n, ParseUint p = Some n /\ n <= 65535.

Record valid_image (i : ImageDefinition) : Prop := {
  vi_image : Image i <> "";
  vi_uid : is_Some (ParseUint (UID i));
  vi_gid : is_Some (ParseUint (GID i))
}.

Lemma ImageDefinition_ValidateBasic_ok i :
  ImageDefinition_ValidateBasic i = Ok tt <-> valid_image i.
Proof.
  unfold ImageDefinition_ValidateBasic. split.
  - intros H. split.
    + intros Hi. by rewrite Hi in H.
    + repeat case_match; eauto; done.
    + repeat case_match; eauto; done.
  - intros [Hi [u Hu] [g Hg]].
    apply String.eqb_neq in Hi. rewrite Hi, Hu, Hg.
    destruct (String.eqb_spec (UID i) "") as [Hn|_]; [by rewrite Hn in Hu|].
    destruct (String.eqb_spec (GID i) "") as [Hn|_]; [by rewrite Hn in Hg|]. done.
Qed.

Lemma validate_ports_ok ps : validate_ports ps = Ok tt <-> Forall valid_port ps.
Proof.
  induction ps as [|p ps IH]; simpl; [split; [constructor|done]|].
  rewrite Forall_cons. unfold valid_port at 1.
  destruct (String.eqb_spec p "") as [->|_].
  - split; [done|by intros [[n [Hn _]] _]].
  - destruct (ParseUint p) as [n|] eqn:Hp; [|split; [done|by intros [[? [? _]] _]]].
    destruct (Z.ltb_spec 65535 n).
    + split; [done|]. intros [[n' [[= ->] ?]] _]. lia.
    + rewrite IH. naive_solver.
Qed.

(** ** Properties *)

(** A task definition passes validation exactly when its name is not
    empty, its image names an image with numeric user and group ids, and
    every port is a decimal number of at most 65535. *)
Theorem TaskDefinition_ValidateBasic_iff (t : TaskDefinition) :
  TaskDefinition_ValidateBasic t = Ok tt <->
  td_Name t <> "" /\ valid_image (td_Image t) /\ Forall valid_port (Ports t).
Proof.
  unfold TaskDefinition_ValidateBasic.
  destruct (String.eqb_spec (td_Name t) "") as [->|Hn]; [naive_solver|].
  rewrite <- ImageDefinition_ValidateBasic_ok, <- validate_ports_ok.
  destruct (ImageDefinition_ValidateBasic (td_Image t)) as [[]|e|m|]; simpl; naive_solver.
Qed.
