(* ===== verification/ChainTypes.v ===== *)
(** * Chain and node configuration: [petri/core/types]

    [RegionConfig], [ChainConfig], [NodeConfig], [WalletConfig] and their
    validations ([chain.go], [node.go], [wallet.go]), the genesis defaults
    and the libp2p switch.  Function-valued fields are options that hold
    whether they are set; a [*big.Int] field is an option of a [Z]. *)

From S2P Require Import Prelude GoStrings GoVal ProviderDefs.

Definition DigitalOcean : string := "DigitalOcean".
Definition Docker : string := "Docker".

Definition validRegions : list string :=
  ["nyc1"; "nyc2"; "nyc3"; "atl1"; "sfo2"; "ams3"; "fra1"; "sgp1"].

(** ** [RegionConfig] *)
Record RegionConfig := {
  rc_Name : string;
  NumValidators : Z;
  NumNodes : Z
}.

#[export] Instance RegionConfig_eq_dec : EqDecision RegionConfig.
Proof. solve_decision. Defined.

Definition RegionConfig_ValidateBasic (r : RegionConfig) : outcome unit :=
  if String.eqb (rc_Name r) "" then Err (ENew "region cannot be empty")
  else if negb (bool_decide (rc_Name r ∈ validRegions)) then
    Err (ENew ("region '" +:+ rc_Name r +:+
      "' is not supported. Valid regions are: nyc1, nyc2, nyc3, atl1, sfo2, ams3, fra1, sgp1"))
  else if NumValidators r <? 0 then Err (ENew "num validators cannot be negative")
  else if NumNodes r <? 0 then Err (ENew "num nodes cannot be negative")
  else Ok tt.

(** ** [ChainConfig] *)
Record ChainConfig := {
  cc_Name : string;
  Denom : string;
  Decimals : Z;
  cc_NumValidators : Z;
  cc_NumNodes : Z;
  cc_RegionConfig : list RegionConfig;
  BinaryName : string;
  cc_Entrypoint : list string;
  cc_Image : ImageDefinition;
  GasPrices : string;
  Bech32Prefix : string;
  HomeDir : string;
  CoinType : string;
  ChainId : string;
  UseGenesisSubCommand : bool;
  AdditionalStartFlags : list string;
  AdditionalPorts : list string;
  GenesisDelegation : option Z;
  GenesisBalance : option Z;
  IsEVMChain : bool;
  CustomAppConfig : option gomap;
  CustomClientConfig : option gomap;
  CustomConsensusConfig : option gomap;
  SetPersistentPeers : bool;
  SetSeedNode : bool
}.

Definition simapp_chain : ChainConfig :=
  {| cc_Name := "simapp"; Denom := "stake"; Decimals := 6; cc_NumValidators := 2; cc_NumNodes := 1;
     cc_RegionConfig := []; BinaryName := "simd"; cc_Entrypoint := ["/usr/bin/simd"];
     cc_Image := {| Image := "simapp:v50"; UID := "1000"; GID := "1000" |}; GasPrices := "0.0005stake";
     Bech32Prefix := "cosmos"; HomeDir := "/simd"; CoinType := "118"; ChainId := "simapp-1";
     UseGenesisSubCommand := true; AdditionalStartFlags := []; AdditionalPorts := [];
     GenesisDelegation := None; GenesisBalance := None; IsEVMChain := false;
     CustomAppConfig := Some [("pruning", VStr "nothing")]; CustomClientConfig := None;
     CustomConsensusConfig := Some [("log_level", VStr "debug")];
     SetPersistentPeers := true; SetSeedNode := false |}.

Definition GetGenesisBalance (c : ChainConfig) : Z := default 100000000 (GenesisBalance c).
Definition GetGenesisDelegation (c : ChainConfig) : Z := default 5000000 (GenesisDelegation c).

(** The loop over the regions: the index for the message, and whether a
    region with validators was seen. *)
Fixpoint validate_regions (i : Z) (hasValidators : bool) (rs : list RegionConfig) : outcome bool :=
  match rs with
  | [] => Ok hasValidators
  | r :: rs' =>
      match RegionConfig_ValidateBasic r with
      | Ok _ => validate_regions (i + 1)
                  (if negb hasValidators && (0 <? NumValidators r) then true else hasValidators) rs'
      | Err e => Err (EWrap ("regional config " +:+ itoa i +:+ " is invalid") e)
      | Panic m => Panic m
      | NoFuel => NoFuel
      end
  end.

Definition validate_topology (c : ChainConfig) (providerType : string) : outcome unit :=
  if String.eqb providerType DigitalOcean then
    if (length (cc_RegionConfig c) =? 0)%nat then
      Err (ENew "regional distribution cannot be empty")
    else match validate_regions 0 false (cc_RegionConfig c) with
    | Ok true => Ok tt
    | Ok false => Err (ENew "at least one region must have validators")
    | Err e => Err e
    | Panic m => Panic m
    | NoFuel => NoFuel
    end
  else if String.eqb providerType Docker then
    if cc_NumValidators c =? 0 then Err (ENew "num validators cannot be 0") else Ok tt
  else Err (ENew ("invalid provider type: " +:+ providerType)).

Definition ChainConfig_ValidateBasic (c : ChainConfig) (providerType : string) : outcome unit :=
  if String.eqb (cc_Name c) "" then Err (ENew "name cannot be empty")
  else if String.eqb (Denom c) "" then Err (ENew "denom cannot be empty")
  else if Decimals c =? 0 then Err (ENew "decimals cannot be 0")
  else match validate_topology c providerType with
  | Ok _ =>
      if String.eqb (BinaryName c) "" then Err (ENew "binary name cannot be empty")
      else if String.eqb (GasPrices c) "" then Err (ENew "gas prices cannot be empty")
      else match wrap_outcome "image definition is invalid" (ImageDefinition_ValidateBasic (cc_Image c)) with
      | Ok _ =>
          if String.eqb (Bech32Prefix c) "" then Err (ENew "bech32 prefix cannot be empty")
          else if String.eqb (CoinType c) "" then Err (ENew "coin type cannot be empty")
          else if String.eqb (ChainId c) "" then Err (ENew "chain ID cannot be empty")
          else Ok tt
      | o => o
      end
  | o => o
  end.

(** [UseLibP2P]: every type assertion that fails gives [false]. *)
Definition UseLibP2P (c : ChainConfig) : bool :=
  match CustomConsensusConfig c with
  | None | Some [] => false
  | Some cfg =>
      match lookup_map cfg "p2p" with
      | Some (VMap p2p) =>
          match lookup_map p2p "libp2p" with
          | Some (VMap libp2p) =>
              match lookup_map libp2p "enabled" with
              | Some (VBool enabled) => enabled
              | _ => false
              end
          | _ => false
          end
      | _ => false
      end
  end.

(** ** [NodeConfig], [WalletConfig], [ChainOptions] *)
Record NodeConfig := {
  nc_Name : string;
  Index : Z;
  nc_ChainConfig : ChainConfig
}.

Definition NodeConfig_ValidateBasic (c : NodeConfig) (providerType : string) : outcome unit :=
  if String.eqb (nc_Name c) "" then Err (ENew "name cannot be empty")
  else ChainConfig_ValidateBasic (nc_ChainConfig c) providerType.

(** A wallet configuration: the derivation and generation functions are
    the ones of the key library, so only whether they are set is kept. *)
Record WalletConfig := {
  DerivationFn : option unit;
  GenerationFn : option unit;
  wc_Bech32Prefix : string;
  HDPath : option string;
  SigningAlgorithm : string
}.

Definition WalletConfig_ValidateBasic (c : WalletConfig) : outcome unit :=
  match DerivationFn c with
  | None => Err (ENew "derivation function cannot be nil")
  | Some _ =>
  match GenerationFn c with
  | None => Err (ENew "generation function cannot be nil")
  | Some _ =>
  if String.eqb (wc_Bech32Prefix c) "" then Err (ENew "bech32 prefix cannot be empty")
  else match HDPath c with
  | None => Err (ENew "HD path cannot be nil")
  | Some _ =>
      if String.eqb (SigningAlgorithm c) "" then Err (ENew "signing algorithm cannot be empty")
      else Ok tt
  end end end.

(** ** What a valid topology is *)
Definition valid_region (r : RegionConfig) : Prop :=
  rc_Name r ∈ validRegions /\ 0 <= NumValidators r /\ 0 <= NumNodes r.

Lemma RegionConfig_ValidateBasic_ok r :
  RegionConfig_ValidateBasic r = Ok tt <-> valid_region r.
Proof.
  unfold RegionConfig_ValidateBasic, valid_region.
  destruct (String.eqb_spec (rc_Name r) "") as [Hn|_].
  - split; [done|]. rewrite Hn. intros [Hin _]. exfalso.
    assert (bool_decide ("" ∈ validRegions) = false) as Hb by reflexivity.
    by apply bool_decide_eq_false in Hb.
  - case_bool_decide as Hin; simpl; [|naive_solver].
    destruct (Z.ltb_spec (NumValidators r) 0); [naive_solver lia|].
    destruct (Z.ltb_spec (NumNodes r) 0); naive_solver lia.
Qed.

Lemma validate_regions_ok i hv rs b :
  validate_regions i hv rs = Ok b <->
  Forall valid_region rs /\ b = hv || existsb (fun r => 0 <? NumValidators r) rs.
Proof.
  revert i hv. induction rs as [|r rs IH]; intros i hv; simpl.
  - rewrite orb_false_r. split; [intros [= ->]; auto|by intros [_ ->]].
  - rewrite Forall_cons, <- RegionConfig_ValidateBasic_ok.
    destruct (RegionConfig_ValidateBasic r) as [[]|e|m|];
      try (split; [done|by intros [[? _] _]]).
    rewrite IH. destruct hv, (0 <? NumValidators r); simpl; naive_solver.
Qed.

Lemma validate_topology_DO c :
  validate_topology c DigitalOcean = Ok tt <->
  Forall valid_region (cc_RegionConfig c) /\
  Exists (fun r => 0 < NumValidators r) (cc_RegionConfig c).
Proof.
  unfold validate_topology. rewrite String.eqb_refl.
  assert (Exists (fun r => 0 < NumValidators r) (cc_RegionConfig c) <->
          existsb (fun r => 0 <? NumValidators r) (cc_RegionConfig c) = true) as ->.
  { rewrite Exists_exists, existsb_exists. setoid_rewrite Z.ltb_lt.
    setoid_rewrite list_elem_of_In. done. }
  destruct (cc_RegionConfig c) as [|r rs]; [simpl; naive_solver|].
  cbn [length Nat.eqb].
  destruct (validate_regions 0 false (r :: rs)) as [b|e|m|] eqn:Hv.
  - apply validate_regions_ok in Hv as [Hf ->]. rewrite orb_false_l.
    destruct (existsb _ (r :: rs)); naive_solver.
  - split; [done|]. intros [Hf Hb].
    assert (validate_regions 0 false (r :: rs) = Ok true) by (by apply validate_regions_ok). congruence.
  - split; [done|]. intros [Hf Hb].
    assert (validate_regions 0 false (r :: rs) = Ok true) by (by apply validate_regions_ok). congruence.
  - split; [done|]. intros [Hf Hb].
    assert (validate_regions 0 false (r :: rs) = Ok true) by (by apply validate_regions_ok). congruence.
Qed.

Record valid_chain (c : ChainConfig) (p : string) : Prop := {
  vc_name : cc_Name c <> "";
  vc_denom : Denom c <> "";
  vc_decimals : Decimals c <> 0;
  vc_topology :
    (p = DigitalOcean /\ Forall valid_region (cc_RegionConfig c) /\
       Exists (fun r => 0 < NumValidators r) (cc_RegionConfig c)) \/
    (p = Docker /\ cc_NumValidators c <> 0);
  vc_binary : BinaryName c <> "";
  vc_gas : GasPrices c <> "";
  vc_image : valid_image (cc_Image c);
  vc_prefix : Bech32Prefix c <> "";
  vc_coin : CoinType c <> "";
  vc_chainid : ChainId c <> ""
}.

Lemma validate_topology_ok c p :
  validate_topology c p = Ok tt <->
  (p = DigitalOcean /\ Forall valid_region (cc_RegionConfig c) /\
     Exists (fun r => 0 < NumValidators r) (cc_RegionConfig c)) \/
  (p = Docker /\ cc_NumValidators c <> 0).
Proof.
  destruct (String.eqb_spec p DigitalOcean) as [->|Hd].
  - rewrite validate_topology_DO. naive_solver.
  - unfold validate_topology.
    destruct (String.eqb_spec p DigitalOcean) as [|_]; [done|].
    destruct (String.eqb_spec p Docker) as [->|Hk]; [|naive_solver].
    destruct (Z.eqb_spec (cc_NumValidators c) 0); naive_solver.
Qed.

Lemma ChainConfig_ValidateBasic_ok (c : ChainConfig) (p : string) :
  ChainConfig_ValidateBasic c p = Ok tt <-> valid_chain c p.
Proof.
  unfold ChainConfig_ValidateBasic.
  destruct (String.eqb_spec (cc_Name c) ""); [split; [done|by intros []]|].
  destruct (String.eqb_spec (Denom c) ""); [split; [done|by intros []]|].
  destruct (Z.eqb_spec (Decimals c) 0); [split; [done|by intros []]|].
  destruct (validate_topology c p) as [[]|?|?|] eqn:Ht.
  2-4: split; [done|intros []]; by rewrite (proj2 (validate_topology_ok c p)) in Ht.
  apply validate_topology_ok in Ht.
  destruct (String.eqb_spec (BinaryName c) ""); [split; [done|by intros []]|].
  destruct (String.eqb_spec (GasPrices c) ""); [split; [done|by intros []]|].
  destruct (ImageDefinition_ValidateBasic (cc_Image c)) as [[]|?|?|] eqn:Hi; simpl.
  2-4: split; [done|intros []]; by rewrite (proj2 (ImageDefinition_ValidateBasic_ok _)) in Hi.
  apply ImageDefinition_ValidateBasic_ok in Hi.
  destruct (String.eqb_spec (Bech32Prefix c) ""); [split; [done|by intros []]|].
  destruct (String.eqb_spec (CoinType c) ""); [split; [done|by intros []]|].
  destruct (String.eqb_spec (ChainId c) ""); [split; [done|by intros []]|].
  split; [|done]. intros _. by constructor.
Qed.

(** ** Properties *)

(** A chain configuration passes validation for a provider exactly when
    its identifying fields are set, its image is valid, and its topology
    suits the provider: for DigitalOcean only supported regions with
    non-negative counts, at least one of them with a validator; for Docker a
    validator count that is not zero; for any other provider, never. *)
Theorem ChainConfig_ValidateBasic_iff (c : ChainConfig) (p : string) :
  ChainConfig_ValidateBasic c p = Ok tt <-> valid_chain c p.
Proof. apply ChainConfig_ValidateBasic_ok. Qed.
