(* ===== verification/Messages.v ===== *)
(** * Messages and configuration: [messages/*.go], [types/config.go]

    The requests and responses the workflow exchanges with its activities,
    with [TestnetWorkflowRequest.Validate]; the worker's and the server's
    configuration with its parsing, the active registry and the monitoring
    links.  A [[]byte] is a byte string, empty when nil; a pointer to a
    load test specification is an option. *)

From S2P Require Import Prelude GoStrings GoVal ProviderDefs ChainTypes.

(** ** Data shared by the messages *)

(** [pb.Node]: the fields of the generated message. *)
Record Node := {
  n_Name : string;
  Address : string;
  Rpc : string;
  Lcd : string;
  Grpc : string;
  Evmrpc : string;
  Evmws : string
}.

#[export] Instance Node_eq_dec : EqDecision Node.
Proof. solve_decision. Defined.

(** [pb.WalletInfo] *)
Record WalletInfo := {
  FaucetAddress : string;
  FaucetMnemonic : string;
  UserAddresses : list string;
  UserMnemonics : list string
}.

#[export] Instance WalletInfo_eq_dec : EqDecision WalletInfo.
Proof. solve_decision. Defined.

Definition empty_WalletInfo : WalletInfo :=
  {| FaucetAddress := ""; FaucetMnemonic := ""; UserAddresses := []; UserMnemonics := [] |}.

(** [pb.UpdateWorkflowDataRequest] *)
Record UpdateWorkflowDataRequest := {
  ud_WorkflowId : string;
  ud_LoadBalancers : list Node;
  ud_Monitoring : gmap string string;
  ud_Nodes : list Node;
  ud_Validators : list Node;
  ud_Wallets : option WalletInfo;
  ud_Provider : string
}.

(** [petrichain.GenesisKV] *)
Record GenesisKV := {
  gkv_Key : string;
  gkv_Value : GoVal
}.

(** The load test specification of the catalyst library: the fields the
    program reads or writes, and the rest of it as one opaque payload. *)
Record LoadTestSpec := {
  Kind : string;
  ls_ChainID : string;
  ls_BaseMnemonic : string;
  ls_NumWallets : Z;
  ChainCfg : GoVal;
  ls_Rest : string
}.

Record ChainsConfig := {
  ch_Name : string;
  ch_Image : string;
  ch_Version : string;
  GenesisModifications : list GenesisKV;
  ch_NumOfNodes : Z;
  ch_NumOfValidators : Z;
  ch_RegionConfigs : list RegionConfig;
  ch_CustomAppConfig : option gomap;
  ch_CustomConsensusConfig : option gomap;
  ch_CustomClientConfig : option gomap;
  ch_SetSeedNode : bool;
  ch_SetPersistentPeers : bool
}.

Definition empty_ChainsConfig : ChainsConfig :=
  {| ch_Name := ""; ch_Image := ""; ch_Version := ""; GenesisModifications := [];
     ch_NumOfNodes := 0; ch_NumOfValidators := 0; ch_RegionConfigs := [];
     ch_CustomAppConfig := None; ch_CustomConsensusConfig := None; ch_CustomClientConfig := None;
     ch_SetSeedNode := false; ch_SetPersistentPeers := false |}.

(** ** [messages/builder.go] *)
Record ImageConfig := {
  ic_Name : string;
  ic_Image : string;
  ic_Version : string
}.

Record BuildDockerImageRequest := {
  bd_Repo : string;
  bd_SHA : string;
  bd_ImageConfig : ImageConfig;
  bd_CosmosSdkSha : string;
  bd_CometBFTSha : string
}.

Record BuildDockerImageResponse := {
  FQDNTag : string;
  Logs : string
}.

(** ** [messages/testnet.go] *)
Definition RunnerType : Type := string.

Definition DigitalOceanDefaultOpts : gmap string string :=
  {["region" := "nyc3"; "size" := "c-8"; "image_id" := "199449450"]}.

Record CreateProviderRequest := {
  cp_RunnerType : RunnerType;
  cp_Name : string
}.

Record TeardownProviderRequest := {
  tp_RunnerType : RunnerType;
  tp_ProviderState : string
}.

Record LaunchTestnetRequest := {
  lr_Name : string;
  lr_IsEvmChain : bool;
  lr_Repo : string;
  lr_SHA : string;
  lr_Image : string;
  lr_BaseImage : string;
  lr_GenesisModifications : list GenesisKV;
  lr_RunnerType : RunnerType;
  lr_RegionConfigs : list RegionConfig;
  lr_NumOfValidators : Z;
  lr_NumOfNodes : Z;
  lr_CustomAppConfig : option gomap;
  lr_CustomConsensusConfig : option gomap;
  lr_CustomClientConfig : option gomap;
  lr_AdditionalStartFlags : list string;
  lr_ProviderState : string;
  lr_SetPersistentPeers : bool;
  lr_SetSeedNode : bool;
  lr_BaseMnemonic : string;
  lr_NumWallets : Z;
  lr_ProviderSpecificConfig : option (gmap string string)
}.

Record LaunchTestnetResponse := {
  lp_ProviderState : string;
  lp_ChainState : string;
  lp_ChainID : string;
  lp_Nodes : list Node;
  lp_Validators : list Node
}.

Record TestnetWorkflowRequest := {
  Repo : string;
  SHA : string;
  IsEvmChain_ : bool;
  ChainConfig_ : ChainsConfig;
  RunnerType_ : RunnerType;
  CosmosSdkSha : string;
  CometBFTSha : string;
  EthereumLoadTestSpec : option LoadTestSpec;
  CosmosLoadTestSpec : option LoadTestSpec;
  LongRunningTestnet : bool;
  LaunchLoadBalancer_ : bool;
  TestnetDuration : string;
  NumWallets : Z;
  BaseMnemonic : string;
  CatalystVersion : string;
  ProviderSpecificConfig_ : option (gmap string string)
}.

Definition TestnetWorkflowRequest_Validate (r : TestnetWorkflowRequest) : outcome unit :=
  if String.eqb (Repo r) "" then Err (ENew "repo is required")
  else if String.eqb (SHA r) "" then Err (ENew "SHA is required")
  else if String.eqb (ch_Name (ChainConfig_ r)) "" then Err (ENew "chain name is required")
  else if negb (String.eqb (RunnerType_ r) DigitalOcean) && negb (String.eqb (RunnerType_ r) Docker) then
    Err (ENew ("runner type must be one of: " +:+ DigitalOcean +:+ ", " +:+ Docker))
  else if LongRunningTestnet r && negb (String.eqb (TestnetDuration r) "") then
    Err (ENew "can not set duration on long-running testnet")
  else if negb (ch_SetSeedNode (ChainConfig_ r)) && negb (ch_SetPersistentPeers (ChainConfig_ r)) then
    Err (ENew "at least one of SetSeedNode or SetPersistentPeers must be set to true")
  else if String.eqb (RunnerType_ r) Docker && LaunchLoadBalancer_ r then
    Err (ENew "load balancer is not supported for docker runners")
  else if bool_decide (is_Some (EthereumLoadTestSpec r)) && bool_decide (is_Some (CosmosLoadTestSpec r)) then
    Err (ENew "only one of ethereum of cosmos load test can be specified")
  else if IsEvmChain_ r then
    if bool_decide (is_Some (CosmosLoadTestSpec r)) then
      Err (ENew "can not run cosmos load tests for evm chain")
    else Ok tt
  else
    if bool_decide (is_Some (EthereumLoadTestSpec r)) then
      Err (ENew "can not run ethereum load tests for cosmos chain")
    else Ok tt.

(** ** [messages/loadtest.go], [messages/loadbalancer.go] *)
Record RunLoadTestRequest := {
  rl_ChainState : string;
  rl_ProviderState : string;
  rl_LoadTestSpec : LoadTestSpec;
  rl_RunnerType : RunnerType;
  rl_IsEvmChain : bool;
  rl_BaseMnemonic : string;
  rl_NumWallets : Z;
  rl_CatalystVersion : string
}.

Record RunLoadTestResponse := {
  rr_ProviderState : string;
  rr_ChainState : string;
  rr_Result : string;             (* catalyst's LoadTestResult *)
  rr_ResultError : string;        (* its Error field *)
  rr_TaskLogs : string;
  rr_LoadTestConfig : string;
  rr_StoppedReason : string
}.

(** [apps.LoadBalancerDomain] *)
Record LoadBalancerDomain := {
  Domain : string;
  IPs : list string;
  Protocol : string
}.

#[export] Instance LoadBalancerDomain_eq_dec : EqDecision LoadBalancerDomain.
Proof. solve_decision. Defined.

Record LaunchLoadBalancerRequest := {
  lb_ProviderState : string;
  lb_RunnerType : RunnerType;
  lb_Domains : list LoadBalancerDomain;
  lb_WorkflowID : string;
  lb_IsEvmChain : bool
}.

Record LaunchLoadBalancerResponse := {
  lbr_ProviderState : string;
  lbr_LoadBalancerState : string;
  lbr_RootDomain : string
}.

(** ** [types/config.go] *)
Record TailscaleConfig := {
  ServerOauthSecret : string;
  ServerTags : list string;
  NodeAuthKey : string;
  NodeTags : list string
}.

Record LocalRegistryConfig := { local_ImageName : string }.
Record ECRRegistryConfig := { ecr_URL : string; ecr_ImageName : string }.

Record BuilderConfig := {
  BuildKitAddress : string;
  Local : LocalRegistryConfig;
  ECR : ECRRegistryConfig;
  AuthEnvConfigs : gmap string string
}.

Record RegistryConfig := {
  Type_ : string;
  URL : string;
  reg_ImageName : string
}.

Record Dashboard := {
  ID : string;
  db_Name : string;
  HumanName : string
}.

Record GrafanaConfig := {
  gc_URL : string;
  Dashboards : list Dashboard
}.

Record ChainImageConfig := {
  ci_Name : string;
  Dockerfile : string;
  AdditionalFiles : list string;
  ci_GID : string;
  ci_UID : string;
  ci_BinaryName : string;
  ci_Entrypoint : list string;
  ci_HomeDir : string;
  ci_GasPrices : string
}.

Abbreviation Chains := (gmap string ChainImageConfig).

Definition empty_ChainImageConfig : ChainImageConfig :=
  {| ci_Name := ""; Dockerfile := ""; AdditionalFiles := []; ci_GID := ""; ci_UID := "";
     ci_BinaryName := ""; ci_Entrypoint := []; ci_HomeDir := ""; ci_GasPrices := "" |}.

Record LoadBalancerConfig := { lbc_RootDomain : string; SSLKeyPath : string; SSLCertPath : string }.
Record PrometheusConfig := { prom_Username : string; prom_Password : string; prom_URL : string }.
Record LokiConfig := { loki_Username : string; loki_Password : string; loki_URL : string }.
Record PyroscopeConfig := { pyro_URL : string }.
Record TelemetryConfig := { Prometheus : PrometheusConfig; Loki : LokiConfig; Pyroscope : PyroscopeConfig }.
Record TemporalConfig := { Host : string; Namespace : string }.
Record DigitalOceanConfig := { Token : string }.

Record WorkerConfig := {
  Temporal : TemporalConfig;
  Tailscale : TailscaleConfig;
  wk_DigitalOcean : DigitalOceanConfig;
  LoadBalancer : LoadBalancerConfig;
  Telemetry : TelemetryConfig;
  Builder : BuilderConfig;
  wk_Chains : Chains;
  Grafana : GrafanaConfig;
  ServerAddress : string
}.

Record ServerConfig := {
  sv_Temporal : TemporalConfig;
  DatabasePath : string;
  MigrationsPath : string;
  GrpcAddress : string;
  GrpcWebAddress : string
}.

Section parsing.
(** The file system, the YAML library and the process environment. *)
Variable ReadFile : string -> res string.
Variable UnmarshalWorker : string -> res WorkerConfig.
Variable UnmarshalServer : string -> res ServerConfig.
Variable Getenv : string -> string.

Definition ParseWorkerConfig (path : string) : outcome WorkerConfig :=
  match ReadFile path with
  | inr err => Err (EWrap "failed to read config" err)
  | inl file =>
      match UnmarshalWorker file with
      | inr err => Err (EWrap "failed to unmarshal config" err)
      | inl config =>
          Ok {| Temporal := Temporal config;
                Tailscale :=
                  {| ServerOauthSecret := Getenv "TS_SERVER_OAUTH_SECRET";
                     ServerTags := ServerTags (Tailscale config);
                     NodeAuthKey := Getenv "TS_NODE_AUTH_KEY";
                     NodeTags := NodeTags (Tailscale config) |};
                wk_DigitalOcean := {| Token := Getenv "DIGITALOCEAN_TOKEN" |};
                LoadBalancer := LoadBalancer config;
                Telemetry := Telemetry config;
                Builder := Builder config;
                wk_Chains := wk_Chains config;
                Grafana := Grafana config;
                ServerAddress := ServerAddress config |}
      end
  end.

Definition ParseServerConfig (path : string) : outcome ServerConfig :=
  match ReadFile path with
  | inr err => Err (EWrap "failed to read config" err)
  | inl file =>
      match UnmarshalServer file with
      | inr err => Err (EWrap "failed to unmarshal config" err)
      | inl config => Ok config
      end
  end.

Definition GetActiveRegistry (c : BuilderConfig) : RegistryConfig :=
  let mode0 := Getenv "REGISTRY_MODE" in
  let mode := if String.eqb mode0 "" then "local" else mode0 in
  if String.eqb mode "ecr" then
    {| Type_ := "ecr"; URL := ecr_URL (ECR c); reg_ImageName := ecr_ImageName (ECR c) |}
  else
    {| Type_ := "local"; URL := ""; reg_ImageName := local_ImageName (Local c) |}.
End parsing.

(** The URL of one dashboard; times are Unix milliseconds. *)
Definition dashboard_url (chainID : string) (startTime : Z) (toParam provider : string)
    (grafanaURL : string) (d : Dashboard) : string :=
  let url := grafanaURL +:+ "/d/" +:+ ID d +:+ "/" +:+ db_Name d +:+ "?orgId=1&var-chain_id=" +:+
    chainID +:+ "&from=" +:+ itoa startTime +:+ "&to=" +:+ toParam +:+ "&refresh=auto" in
  if negb (String.eqb provider "") then url +:+ "&var-provider=" +:+ provider else url.

Definition GenerateMonitoringLinks (chainID : string) (startTime : Z) (endTime : option Z)
    (provider : string) (grafana : GrafanaConfig) : gmap string string :=
  let toParam := match endTime with None => "now" | Some t => itoa t end in
  fold_left (fun urls d =>
      <[HumanName d := dashboard_url chainID startTime toParam provider (gc_URL grafana) d]> urls)
    (Dashboards grafana) ∅.

(** ** What a valid workflow request is *)
Record valid_request (r : TestnetWorkflowRequest) : Prop := {
  vr_repo : Repo r <> "";
  vr_sha : SHA r <> "";
  vr_name : ch_Name (ChainConfig_ r) <> "";
  vr_runner : RunnerType_ r = DigitalOcean \/ RunnerType_ r = Docker;
  vr_duration : LongRunningTestnet r = true -> TestnetDuration r = "";
  vr_peers : ch_SetSeedNode (ChainConfig_ r) = true \/ ch_SetPersistentPeers (ChainConfig_ r) = true;
  vr_lb : LaunchLoadBalancer_ r = true -> RunnerType_ r = DigitalOcean;
  vr_evm : IsEvmChain_ r = true -> CosmosLoadTestSpec r = None;
  vr_cosmos : IsEvmChain_ r = false -> EthereumLoadTestSpec r = None
}.

Definition simapp_request : TestnetWorkflowRequest :=
  {| Repo := "ironbird"; SHA := "abcdef123456"; IsEvmChain_ := false;
     ChainConfig_ := {| ch_Name := "test-chain"; ch_Image := "simapp-v50"; ch_Version := "";
       GenesisModifications := []; ch_NumOfNodes := 1; ch_NumOfValidators := 1; ch_RegionConfigs := [];
       ch_CustomAppConfig := None; ch_CustomConsensusConfig := None; ch_CustomClientConfig := None;
       ch_SetSeedNode := true; ch_SetPersistentPeers := false |};
     RunnerType_ := Docker; CosmosSdkSha := ""; CometBFTSha := "";
     EthereumLoadTestSpec := None; CosmosLoadTestSpec := None; LongRunningTestnet := false;
     LaunchLoadBalancer_ := false; TestnetDuration := ""; NumWallets := 0; BaseMnemonic := "";
     CatalystVersion := ""; ProviderSpecificConfig_ := None |}.

Lemma is_Some_false {A} (o : option A) : bool_decide (is_Some o) = false <-> o = None.
Proof. rewrite bool_decide_eq_false, eq_None_not_Some. done. Qed.

Lemma fold_links_lookup (f : Dashboard -> string) (ds : list Dashboard) (m : gmap string string) name :
  fold_left (fun urls d => <[HumanName d := f d]> urls) ds m !! name =
  match find (fun d => String.eqb (HumanName d) name) (rev ds) with
  | Some d => Some (f d)
  | None => m !! name
  end.
Proof.
  induction ds as [|d ds IH] using rev_ind; [done|].
  rewrite fold_left_app, rev_app_distr. simpl.
  destruct (String.eqb_spec (HumanName d) name) as [->|Hne].
  - by rewrite lookup_insert_eq.
  - by rewrite lookup_insert_ne.
Qed.

(** ** Properties *)

(** [TestnetWorkflowRequest.Validate] accepts exactly the requests with
    a repository, a revision, a chain name, a known runner, no duration on a
    long-running testnet, some peer discovery, a load balancer only on
    DigitalOcean, and a load test of the chain's own kind (so never both
    kinds). *)
Theorem TestnetWorkflowRequest_Validate_iff (r : TestnetWorkflowRequest) :
  TestnetWorkflowRequest_Validate r = Ok tt <-> valid_request r.
Proof.
  unfold TestnetWorkflowRequest_Validate.
  destruct (String.eqb_spec (Repo r) ""); [split; [done|by intros []]|].
  destruct (String.eqb_spec (SHA r) ""); [split; [done|by intros []]|].
  destruct (String.eqb_spec (ch_Name (ChainConfig_ r)) ""); [split; [done|by intros []]|].
  assert (DigitalOcean <> Docker) as Hne by done.
  destruct (String.eqb_spec (RunnerType_ r) DigitalOcean) as [Hdo|Hdo],
    (String.eqb_spec (RunnerType_ r) Docker) as [Hd|Hd]; [congruence| | |].
  3: { split; [done|]. intros []; simpl in *. naive_solver. }
  all: simpl.
  all: destruct (LongRunningTestnet r) eqn:Hl, (String.eqb_spec (TestnetDuration r) "") as [Ht|Ht];
    simpl; try (split; [done|by intros [? ? ? ? Hdur]; exfalso; apply Ht, Hdur]).
  all: destruct (ch_SetSeedNode (ChainConfig_ r)) eqn:Hs, (ch_SetPersistentPeers (ChainConfig_ r)) eqn:Hp;
    simpl; try (split; [done|intros [? ? ? ? ? [|]]; congruence]).
  all: destruct (LaunchLoadBalancer_ r) eqn:Hlb; simpl;
    try (split; [done|by intros [? ? ? ? ? ? Hx]; specialize (Hx Hlb); congruence]).
  all: destruct (EthereumLoadTestSpec r) eqn:He, (CosmosLoadTestSpec r) eqn:Hc;
    rewrite ?bool_decide_eq_true_2 by eauto;
    rewrite ?(bool_decide_eq_false_2 (is_Some None)) by (by intros []); simpl.
  all: destruct (IsEvmChain_ r) eqn:Hevm; simpl.
  all: try (split; [intros _; constructor; (auto; intros; congruence) || (by intros; auto) | done]).
  all: try (split; [done | intros [? ? ? ? ? ? ? Hx Hy]; try specialize (Hx Hevm); try specialize (Hy Hevm); congruence]).
Qed.

(** The monitoring links name each dashboard's human name once, with
    the URL of the last dashboard of that name, and nothing else. *)
Theorem GenerateMonitoringLinks_lookup chainID startTime endTime provider grafana (name : string) :
  GenerateMonitoringLinks chainID startTime endTime provider grafana !! name =
  (fun d => dashboard_url chainID startTime
      (match endTime with None => "now" | Some t => itoa t end) provider (gc_URL grafana) d) <$>
    find (fun d => String.eqb (HumanName d) name) (rev (Dashboards grafana)).
Proof.
  unfold GenerateMonitoringLinks. rewrite fold_links_lookup.
  by destruct (find _ _).
Qed.
