(* ===== verification/TaskI.v ===== *)
(** * The task interface: [TaskI] of [petri/core/provider/provider.go]

    A Go interface is a signature: node and chain code are programs over
    [task_sig], whatever provider answers.  [FileTask] is what a task
    promises about its files to the code that edits them. *)

From S2P Require Import Prelude GoStrings ProviderDefs.

(** The methods of [TaskI] ([DialContext] hands out a dialler and is not a
    call).  [RunCommand] answers standard output, standard error and the
    exit code. *)
Inductive task_call :=
| Start
| Stop
| Destroy
| GetDefinition
| GetStatus
| Modify (d : TaskDefinition)
| WriteFile (path content : string)
| ReadFile (path : string)
| DownloadDir (relPath localPath : string)
| GetIP
| GetPrivateIP
| GetExternalAddress (port : string)
| RunCommand (cmd : list string).

Definition task_ans (c : task_call) : Type :=
  match c with
  | Start | Stop | Destroy | Modify _ | WriteFile _ _ | DownloadDir _ _ => res unit
  | GetDefinition => TaskDefinition
  | GetStatus => res TaskStatus
  | ReadFile _ => res string
  | GetIP | GetPrivateIP | GetExternalAddress _ => res string
  | RunCommand _ => res (string * string * Z)
  end.

Canonical task_sig : sig := Sig task_call task_ans.

(** ** Files of a task

    A task keeps a file system when a read answers the file's content or
    an error, a write replaces the file and nothing else, and neither
    disturbs the files otherwise. *)
Class FileTask {W : Type} (H : handler task_sig W) := {
  files : W -> gmap string string;
  file_missing : string -> error;
  read_file : forall p w,
    H (ReadFile p) w =
      (match files w !! p with Some s => inl s | None => inr (file_missing p) end, w);
  write_file : forall p s w, exists w',
    H (WriteFile p s) w = (inl tt, w') /\ files w' = <[p := s]> (files w)
}.

(** A task that is nothing but its files: the other methods fail. *)
Definition memory_task : handler task_sig (gmap string string) := fun c w =>
  match c return task_ans c * gmap string string with
  | ReadFile p => (match w !! p with Some s => inl s | None => inr (EExt XNotFound p) end, w)
  | WriteFile p s => (inl tt, <[p := s]> w)
  | GetDefinition =>
      ({| td_Name := "memory"; td_Image := {| Image := ""; UID := ""; GID := "" |}; Ports := [];
          Environment := ∅; DataDir := ""; Entrypoint := []; Command := []; Args := [];
          ProviderSpecificConfig := None |}, w)
  | GetStatus => (inl TASK_STOPPED, w)
  | Start | Stop | Destroy | Modify _ | DownloadDir _ _ => (inr (EExt XOther "not supported"), w)
  | GetIP | GetPrivateIP | GetExternalAddress _ => (inr (EExt XOther "not supported"), w)
  | RunCommand _ => (inr (EExt XOther "not supported"), w)
  end.

#[export] Instance memory_task_files : FileTask memory_task.
Proof.
  refine {| files := fun w => w; file_missing := fun p => EExt XNotFound p |}.
  - done.
  - intros p s w. by eexists.
Defined.
