(* ===== verification/GoTime.v ===== *)
(** * The parts of Go's [time] the program uses

    Durations are nanoseconds at 64 bits, as [Z]; [ParseDuration] is the
    library's, with its overflow checks and its binary64 arithmetic on
    fractions ([SpecFloat]). *)

From S2P Require Import Prelude GoStrings.
From Stdlib Require Import Ascii Floats.SpecFloat.

Definition Nanosecond : Z := 1.
Definition Millisecond : Z := 1000000.
Definition Second : Z := 1000 * Millisecond.
Definition Minute : Z := 60 * Second.
Definition Hour : Z := 60 * Minute.

(** ** [time.ParseDuration] *)
Definition float64 (z : Z) : spec_float := binary_normalize 53 1024 z 0 false.
Definition float64_mul (x y : spec_float) : spec_float := SFmul 53 1024 x y.
Definition float64_div (x y : spec_float) : spec_float := SFdiv 53 1024 x y.

(** Conversion of a non-negative float to an integer, toward zero. *)
Definition float64_trunc (x : spec_float) : Z :=
  match x with
  | S754_finite false m e => if 0 <=? e then Z.shiftl (Zpos m) e else Z.shiftr (Zpos m) (- e)
  | _ => 0
  end.

(** [leadingInt]: the digits' value and the rest; [None] on overflow. *)
Fixpoint leadingInt (x : Z) (s : string) : option (Z * string) :=
  match s with
  | EmptyString => Some (x, s)
  | String c s' =>
      match digit_val c with
      | None => Some (x, s)
      | Some d =>
          if (2^63 / 10 <? x) then None
          else let x' := x * 10 + d in if 2^63 <? x' then None else leadingInt x' s'
      end
  end.

(** [leadingFraction]: digits that overflow are dropped. *)
Fixpoint leadingFraction (x scale : Z) (overflow : bool) (s : string) : Z * Z * string :=
  match s with
  | EmptyString => (x, scale, s)
  | String c s' =>
      match digit_val c with
      | None => (x, scale, s)
      | Some d =>
          if overflow then leadingFraction x scale true s'
          else if (2^63 - 1) / 10 <? x then leadingFraction x scale true s'
          else let y := x * 10 + d in
            if 2^63 <? y then leadingFraction x scale true s'
            else leadingFraction y (scale * 10) false s'
      end
  end.

(** The unit's name: everything up to a period or a digit. *)
Fixpoint span_unit (s : string) : string * string :=
  match s with
  | EmptyString => ("", "")
  | String c s' =>
      if Ascii.eqb c "." || bool_decide (is_Some (digit_val c)) then ("", s)
      else let '(u, r) := span_unit s' in (String c u, r)
  end.

Definition unit_of (u : string) : option Z :=
  let mu b c := String (ascii_of_nat b) (String (ascii_of_nat c) "s") in
  if String.eqb u "ns" then Some 1
  else if String.eqb u "us" || String.eqb u (mu 194%nat 181%nat) || String.eqb u (mu 206%nat 188%nat) then Some 1000
  else if String.eqb u "ms" then Some Millisecond
  else if String.eqb u "s" then Some Second
  else if String.eqb u "m" then Some Minute
  else if String.eqb u "h" then Some Hour
  else None.

(** The fraction, its scale, whether it has a digit, and the rest. *)
Definition fraction_part (s : string) : Z * Z * bool * string :=
  match s with
  | String c s' =>
      if Ascii.eqb c "." then
        let '(f, scale, r) := leadingFraction 0 1 false s' in
        (f, scale, negb (String.eqb r s'), r)
      else (0, 1, false, s)
  | EmptyString => (0, 1, false, s)
  end.

(** One component: a number and its unit. *)
Definition duration_component (s : string) : option (Z * string) :=
  match s with
  | EmptyString => None
  | String c _ =>
      if negb (Ascii.eqb c "." || bool_decide (is_Some (digit_val c))) then None
      else
        match leadingInt 0 s with
        | None => None
        | Some (v, s1) =>
            let pre := negb (String.eqb s1 s) in
            let '(f, scale, post, s2) := fraction_part s1 in
            if negb pre && negb post then None
            else
              let '(u, s3) := span_unit s2 in
              match unit_of u with
              | None => None
              | Some un =>
                  if 2^63 / un <? v then None
                  else
                    let v := v * un in
                    let v := if 0 <? f then
                        to_uint64 (v + float64_trunc
                          (float64_mul (float64 f) (float64_div (float64 un) (float64 scale))))
                      else v in
                    if (0 <? f) && (2^63 <? v) then None else Some (v, s3)
              end
        end
  end.

(** The components' sum; each takes at least one byte, so the string's
    length bounds the loop. *)
Fixpoint duration_sum (fuel : nat) (d : Z) (s : string) : option Z :=
  match s with
  | EmptyString => Some d
  | _ =>
      match fuel with
      | O => None
      | S n =>
          match duration_component s with
          | None => None
          | Some (v, s') =>
              let d' := to_uint64 (d + v) in
              if 2^63 <? d' then None else duration_sum n d' s'
          end
      end
  end.

Definition split_sign (s : string) : bool * string :=
  match s with
  | String c s' =>
      if Ascii.eqb c "-" then (true, s')
      else if Ascii.eqb c "+" then (false, s') else (false, s)
  | EmptyString => (false, s)
  end.

Definition ParseDuration (s : string) : res Z :=
  let invalid := inr (ENew ("time: invalid duration " +:+ dquote +:+ s +:+ dquote)) in
  let '(neg, body) := split_sign s in
  if String.eqb body "0" then inl 0
  else if String.eqb body "" then invalid
  else
    match duration_sum (String.length body) 0 body with
    | None => invalid
    | Some d => if neg then inl (- d) else if 2^63 - 1 <? d then invalid else inl d
    end.

Example ParseDuration_5m : ParseDuration "5m" = inl (5 * Minute).
Proof. reflexivity. Qed.
Example ParseDuration_mixed : ParseDuration "-1h15m30.918s" = inl (- 4530918000000).
Proof. reflexivity. Qed.
Example ParseDuration_fraction : ParseDuration "0.3333333333333333333h" = inl 1200000000000.
Proof. vm_compute. reflexivity. Qed.
Example ParseDuration_bad : is_Some (match ParseDuration "3" with inl z => Some z | _ => None end) -> False.
Proof. vm_compute. by intros [? [=]]. Qed.

(** Each component consumes at least one byte, so the bound on the loop is
    never the reason for a failure. *)
Lemma leadingInt_length x s v r :
  leadingInt x s = Some (v, r) -> (String.length r <= String.length s)%nat.
Proof.
  revert x. induction s as [|c s IH]; intros x Hr; simpl in *; [by simplify_eq|].
  repeat case_match; simplify_eq; simpl; try lia. apply IH in Hr. lia.
Qed.

Lemma leadingFraction_length x sc o s f sc' r :
  leadingFraction x sc o s = (f, sc', r) -> (String.length r <= String.length s)%nat.
Proof.
  revert x sc o. induction s as [|c s IH]; intros x sc o Hr; simpl in *; [by simplify_eq|].
  repeat case_match; simplify_eq; simpl; try lia; apply IH in Hr; lia.
Qed.

Lemma span_unit_length s u r :
  span_unit s = (u, r) -> String.length s = (String.length u + String.length r)%nat.
Proof.
  revert u r. induction s as [|c s IH]; intros u r Hr; simpl in *; [by simplify_eq|].
  case_match; [by simplify_eq|]. destruct (span_unit s) as [u' r'] eqn:Hs. simplify_eq. simpl.
  by rewrite (IH _ _ eq_refl).
Qed.

Lemma unit_of_nonempty u un : unit_of u = Some un -> (0 < String.length u)%nat.
Proof. destruct u; [done|]. simpl. lia. Qed.

Lemma duration_component_length s v r :
  duration_component s = Some (v, r) -> (String.length r < String.length s)%nat.
Proof.
  intros Hc. unfold duration_component in Hc. destruct s as [|c s]; [done|].
  destruct (negb _); [done|].
  destruct (leadingInt 0 (String c s)) as [[v0 s1]|] eqn:Hi; [|done].
  apply leadingInt_length in Hi. remember (String c s) as s0. clear Heqs0.
  destruct (fraction_part s1) as [[[f sc] po] s2] eqn:Hx.
  assert (String.length s2 <= String.length s1)%nat.
  { unfold fraction_part in Hx. destruct s1 as [|d s1']; [by simplify_eq|].
    destruct (leadingFraction 0 1 false s1') as [[f' sc'] r'] eqn:Hf.
    apply leadingFraction_length in Hf.
    destruct (Ascii.eqb d "."); simplify_eq; simpl; lia. }
  destruct (negb _ && negb _); [done|].
  destruct (span_unit s2) as [u s3] eqn:Hu. apply span_unit_length in Hu.
  destruct (unit_of u) as [un|] eqn:Hun; [|done]. apply unit_of_nonempty in Hun.
  repeat case_match; simplify_eq; lia.
Qed.

Lemma duration_sum_fuel s : forall n d,
  (String.length s <= n)%nat -> duration_sum n d s = duration_sum (String.length s) d s.
Proof.
  remember (String.length s) as k eqn:Hk. revert s Hk.
  induction k as [k IH] using lt_wf_ind. intros s Hk n d Hn.
  destruct s as [|c s]; [destruct n; by subst k|].
  destruct n as [|n]; [simpl in Hk; lia|]. destruct k as [|k]; [done|].
  cbn [duration_sum]. destruct (duration_component (String c s)) as [[v r]|] eqn:Hc; [|done].
  apply duration_component_length in Hc. case_match; [done|].
  assert (Hr : (String.length r <= k)%nat) by (simpl in *; lia).
  rewrite (IH (String.length r) ltac:(lia) r eq_refl n) by lia.
  by rewrite (IH (String.length r) ltac:(lia) r eq_refl k) by lia.
Qed.

Lemma ParseDuration_range s d : ParseDuration s = inl d -> -2^63 <= d < 2^63.
Proof.
  assert (Hsum : forall n d0 b r, 0 <= d0 <= 2^63 -> duration_sum n d0 b = Some r -> 0 <= r <= 2^63).
  { induction n as [|n IH]; intros d0 [|c b] r Hd Hs; cbn [duration_sum] in Hs; try by simplify_eq.
    destruct (duration_component (String c b)) as [[v b']|]; [|done].
    destruct (Z.ltb_spec (2^63) (to_uint64 (d0 + v))); [done|]. eapply IH; [|exact Hs].
    pose proof (Z.mod_pos_bound (d0 + v) (2^64) ltac:(lia)). unfold to_uint64 in *. lia. }
  unfold ParseDuration.
  destruct (split_sign s) as [neg body].
  destruct (String.eqb body "0"); [intros [= <-]; lia|].
  destruct (String.eqb body ""); [done|].
  destruct (duration_sum _ 0 body) as [r|] eqn:Hr; [|done].
  apply Hsum in Hr; [|lia]. destruct neg; [intros [= <-]; lia|].
  destruct (Z.ltb_spec (2^63 - 1) r); [done|]. intros [= <-]. lia.
Qed.

(** ** [time.Parse(time.RFC3339, s)]

    The library's general parser on this layout, which is a little more
    lenient than the format: an hour may have one digit, a comma may start
    the fraction, and an offset may be of 24 hours or 60 minutes.  A time is
    its nanoseconds since 1970. *)
Definition is_digit (s : string) : bool :=
  match s with String c _ => bool_decide (is_Some (digit_val c)) | EmptyString => false end.

(** [getnum]: two digits, or one unless [fixed]. *)
Definition getnum (fixed : bool) (s : string) : option (Z * string) :=
  match s with
  | String c s' =>
      match digit_val c with
      | None => None
      | Some d =>
          match s' with
          | String c' s'' =>
              match digit_val c' with
              | Some d' => Some (d * 10 + d', s'')
              | None => if fixed then None else Some (d, s')
              end
          | EmptyString => if fixed then None else Some (d, s')
          end
      end
  | EmptyString => None
  end.

Definition skip (c : ascii) (s : string) : option string :=
  match s with String d s' => if Ascii.eqb d c then Some s' else None | EmptyString => None end.

Definition in_range (lo hi z : Z) : option unit := if (lo <=? z) && (z <=? hi) then Some tt else None.

(** The digits after the seconds, as nanoseconds; those past the ninth are
    dropped. *)
Fixpoint fraction_digits (scale : Z) (s : string) : Z * string :=
  match s with
  | String c s' =>
      match digit_val c with
      | Some d => let '(ns, r) := fraction_digits (scale / 10) s' in (d * scale + ns, r)
      | None => (0, s)
      end
  | EmptyString => (0, s)
  end.

Definition fraction (s : string) : Z * string :=
  match s with
  | String c s' =>
      if (Ascii.eqb c "." || Ascii.eqb c ",") && is_digit s' then fraction_digits 100000000 s' else (0, s)
  | EmptyString => (0, s)
  end.

(** The offset from UTC in seconds, and the rest. *)
Definition zone (s : string) : option (Z * string) :=
  match s with
  | EmptyString => None
  | String c s' =>
      if Ascii.eqb c "Z" then Some (0, s')
      else if (String.length s <? 6)%nat then None
      else
        '(hr, r) ← getnum true s';
        r ← skip ":" r;
        '(mm, r) ← getnum true r;
        _ ← in_range 0 24 hr;
        _ ← in_range 0 60 mm;
        let offset := (hr * 60 + mm) * 60 in
        if Ascii.eqb c "+" then Some (offset, r)
        else if Ascii.eqb c "-" then Some (- offset, r)
        else None
  end.

Definition is_leap (year : Z) : bool :=
  (year mod 4 =? 0) && (negb (year mod 100 =? 0) || (year mod 400 =? 0)).

Definition daysIn (month year : Z) : Z :=
  if month =? 2 then if is_leap year then 29 else 28
  else if existsb (Z.eqb month) [4; 6; 9; 11] then 30 else 31.

(** Days since 1970 of a date of the Gregorian calendar. *)
Definition days_from_civil (year month day : Z) : Z :=
  let y := if month <=? 2 then year - 1 else year in
  let era := y / 400 in
  let yoe := y - era * 400 in
  let doy := (153 * (if 2 <? month then month - 3 else month + 9) + 2) / 5 + day - 1 in
  era * 146097 + (yoe * 365 + yoe / 4 - yoe / 100 + doy) - 719468.

Definition ParseRFC3339 (s : string) : option Z :=
  '(y1, r) ← getnum true s;
  '(y2, r) ← getnum true r;
  let year := y1 * 100 + y2 in
  r ← skip "-" r;
  '(month, r) ← getnum true r;
  _ ← in_range 1 12 month;
  r ← skip "-" r;
  '(day, r) ← getnum true r;
  r ← skip "T" r;
  '(hour, r) ← getnum false r;
  _ ← in_range 0 23 hour;
  r ← skip ":" r;
  '(min, r) ← getnum true r;
  _ ← in_range 0 59 min;
  r ← skip ":" r;
  '(sec, r) ← getnum true r;
  _ ← in_range 0 59 sec;
  let '(nsec, r) := fraction r in
  '(offset, r) ← zone r;
  if String.eqb r "" then
    _ ← in_range 1 (daysIn month year) day;
    Some ((days_from_civil year month day * 86400 + hour * 3600 + min * 60 + sec - offset) * 1000000000 + nsec)
  else None.

Example ParseRFC3339_leap : ParseRFC3339 "2024-02-29T12:00:00Z" = Some (1709208000 * Second).
Proof. reflexivity. Qed.
Example ParseRFC3339_offset : ParseRFC3339 "2024-12-31T23:59:59.5+02:00" = Some (1735682399500 * Millisecond).
Proof. reflexivity. Qed.
Example ParseRFC3339_no_leap : ParseRFC3339 "2023-02-29T12:00:00Z" = None.
Proof. reflexivity. Qed.
