(* ===== verification/GoFloat.v ===== *)
(** * Go's [float64], as far as the program uses it

    Binary64 with round to nearest even ([SpecFloat]): sums, differences,
    comparisons, conversions, and [Duration.Seconds].  The lemmas say that
    rounding keeps the sign of what the program adds up: a positive number of
    nanoseconds is a positive number of seconds. *)

From S2P Require Import Prelude GoStrings GoTime.
From Stdlib Require Import Floats.SpecFloat.

Abbreviation float := spec_float.

Definition fzero : float := S754_zero false.
Definition fadd (x y : float) : float := SFadd 53 1024 x y.
Definition fsub (x y : float) : float := SFsub 53 1024 x y.
Definition flt (x y : float) : bool := SFltb x y.
Definition fle (x y : float) : bool := SFleb x y.
Definition feq (x y : float) : bool := SFeqb x y.

(** [int(x)], toward zero; outside the range of the type it is the least
    integer, as on amd64. *)
Definition int_of_float (x : float) : Z :=
  match x with
  | S754_zero _ => 0
  | S754_finite s m e =>
      let v := if 0 <=? e then Z.shiftl (Zpos m) e else Z.shiftr (Zpos m) (- e) in
      let v := if s then - v else v in
      if (-2^63 <=? v) && (v <? 2^63) then v else -2^63
  | _ => -2^63
  end.

(** [int(math.Ceil(x))]; a float with a fraction is small enough for its
    ceiling to be exact. *)
Definition int_ceil (x : float) : Z :=
  match x with
  | S754_finite s m e =>
      let v := if s then Zneg m else Zpos m in
      let c := if 0 <=? e then Z.shiftl v e else - Z.shiftr (- v) (- e) in
      if (-2^63 <=? c) && (c <? 2^63) then c else -2^63
  | _ => int_of_float x
  end.

(** [Duration.Seconds] *)
Definition Seconds (d : Z) : float :=
  let sec := Z.quot d Second in
  let nsec := Z.rem d Second in
  fadd (float64 sec) (float64_div (float64 nsec) (float64 Second)).

(** [t.Sub(u)], saturated. *)
Definition Sub (t u : Z) : Z := Z.min (2^63 - 1) (Z.max (-2^63) (t - u)).

Lemma Sub_small t u : -2^63 <= t - u < 2^63 -> Sub t u = t - u.
Proof. unfold Sub. lia. Qed.

(** ** Signs *)
Abbreviation least := (-1074).

Definition positive_float (x : float) : Prop :=
  match x with
  | S754_finite false _ e => least <= e
  | S754_infinity false => True
  | _ => False
  end.

Lemma positive_float_lt x : positive_float x -> flt fzero x = true /\ feq x fzero = false.
Proof. by destruct x as [|[]| |[]]. Qed.

Lemma digits_bounds p : 2 ^ (Zpos (digits2_pos p) - 1) <= Zpos p < 2 ^ Zpos (digits2_pos p).
Proof.
  induction p as [p IH|p IH|]; cbn [digits2_pos]; [| |by cbn].
  all: rewrite Pos2Z.inj_succ; replace (Z.succ (Zpos (digits2_pos p)) - 1) with (Z.succ (Zpos (digits2_pos p) - 1)) by lia;
    rewrite !Z.pow_succ_r by lia; lia.
Qed.

Lemma shr_1_m r : 0 <= shr_m r -> shr_m (shr_1 r) = shr_m r / 2.
Proof.
  destruct r as [m b s]. cbn [shr_m]. intros Hm. destruct m as [|p|p]; [done| |lia].
  destruct p as [p|p|]; cbn [shr_1 shr_m]; [| |done].
  - apply (Z.div_unique_pos (Zpos p~1) 2 (Zpos p) 1); lia.
  - apply (Z.div_unique_pos (Zpos p~0) 2 (Zpos p) 0); lia.
Qed.

Lemma shr_iter_m n r : 0 <= shr_m r -> shr_m (iter_pos shr_1 n r) = shr_m r / 2 ^ Zpos n.
Proof.
  revert r. induction n as [n IH|n IH|]; intros r Hr; cbn [iter_pos]; [..|by apply shr_1_m].
  - assert (H1 : 0 <= shr_m (shr_1 r)) by (rewrite shr_1_m by done; apply Z.div_pos; lia).
    assert (H2 : 0 <= shr_m (iter_pos shr_1 n (shr_1 r))) by (rewrite IH by done; apply Z.div_pos; [done|lia]).
    rewrite !IH, shr_1_m by done. rewrite !Z.div_div by lia. f_equal.
    replace (Zpos n~1) with (Z.succ (Zpos n + Zpos n)) by lia. rewrite Z.pow_succ_r, Z.pow_add_r by lia. lia.
  - assert (H2 : 0 <= shr_m (iter_pos shr_1 n r)) by (rewrite IH by done; apply Z.div_pos; [done|lia]).
    rewrite !IH by done. rewrite Z.div_div by lia. f_equal.
    replace (Zpos n~0) with (Zpos n + Zpos n) by lia. by rewrite Z.pow_add_r by lia.
Qed.

Lemma shr_record_m m l : shr_m (shr_record_of_loc m l) = m.
Proof. by destruct l as [|[]]. Qed.

(** Shifting a mantissa to the format leaves it positive. *)
Lemma shr_fexp_pos m e l : 0 < m -> least <= e ->
  0 < shr_m (fst (shr_fexp 53 1024 m e l)) /\ least <= snd (shr_fexp 53 1024 m e l).
Proof.
  intros Hm He. unfold shr_fexp, shr. destruct m as [|p|p]; [done| |lia]. cbn [Zdigits2].
  set (n := fexp 53 1024 _ - e).
  destruct n as [|k|k] eqn:Hn; cbn [fst snd]; rewrite ?shr_record_m; [done| |done].
  rewrite shr_iter_m by (rewrite shr_record_m; lia). rewrite shr_record_m.
  assert (Hk : Zpos k <= Zpos (digits2_pos p) - 1).
  { unfold n, fexp, emin in Hn. lia. }
  split; [|unfold n in Hn; lia]. apply Z.div_str_pos. split; [lia|].
  etransitivity; [|apply digits_bounds]. apply Z.pow_le_mono_r; lia.
Qed.

Lemma round_nearest_even_pos m l : 0 < m -> 0 < round_nearest_even m l.
Proof. unfold round_nearest_even. intros Hm. destruct l as [|[]]; [| destruct (Z.even m)|..]; lia. Qed.

Lemma binary_round_aux_pos m e l : 0 < m -> least <= e -> positive_float (binary_round_aux 53 1024 false m e l).
Proof.
  intros Hm He. unfold binary_round_aux.
  destruct (shr_fexp_pos m e l Hm He) as [Hm1 He1]. destruct (shr_fexp _ _ m e l) as [r1 e1]. cbn [fst snd] in *.
  pose proof (round_nearest_even_pos _ (loc_of_shr_record r1) Hm1) as Hm2.
  destruct (shr_fexp_pos _ e1 loc_Exact Hm2 He1) as [Hm3 He3].
  destruct (shr_fexp _ _ _ e1 _) as [r3 e3]. cbn [fst snd] in *.
  destruct (shr_m r3) as [|p|p]; [done| |done]. by destruct (e3 <=? _).
Qed.

Lemma shl_align_exponent m e e' : snd (shl_align m e e') = Z.min e e'.
Proof. unfold shl_align. destruct (e' - e) eqn:H; cbn [snd]; lia. Qed.

Lemma binary_normalize_pos m e : 0 < m -> least <= e -> positive_float (binary_normalize 53 1024 m e false).
Proof.
  intros Hm He. destruct m as [|p|p]; [done| |done]. cbn [binary_normalize]. unfold binary_round.
  pose proof (shl_align_exponent p e (fexp 53 1024 (Zpos (digits2_pos p) + e))) as Hez.
  destruct (shl_align _ _ _) as [mz ez]. cbn [snd] in Hez. apply binary_round_aux_pos; [done|].
  unfold fexp, emin in Hez. lia.
Qed.

Lemma fadd_pos x y : positive_float x -> positive_float y \/ y = fzero -> positive_float (fadd x y) /\ positive_float (fadd y x).
Proof.
  intros Hx [Hy| ->]; unfold fadd; [|by destruct x as [|[]| |[]]].
  destruct x as [|[]| |[] mx ex], y as [|[]| |[] my ey]; cbn [positive_float] in *; try done.
  cbn [SFadd cond_Zopp]. split; (apply binary_normalize_pos; lia).
Qed.

Lemma iter_xO_value p k : Zpos (Pos.iter xO p k) = Zpos p * 2 ^ Zpos k.
Proof.
  induction k as [|k IH] using Pos.peano_ind; [cbn; lia|]. rewrite Pos.iter_succ, Pos2Z.inj_succ, Z.pow_succ_r by lia.
  change (Zpos (xO (Pos.iter xO p k))) with (2 * Zpos (Pos.iter xO p k)). rewrite IH. lia.
Qed.

Lemma iter_xO_digits p k : Zpos (digits2_pos (Pos.iter xO p k)) = Zpos (digits2_pos p) + Zpos k.
Proof.
  induction k as [|k IH] using Pos.peano_ind; [cbn [Pos.iter digits2_pos]; lia|]. rewrite Pos.iter_succ. cbn [digits2_pos].
  lia.
Qed.

(** A mantissa of 53 digits is kept. *)
Lemma binary_round_aux_exact p e : digits2_pos p = 53%positive -> least <= e <= 971 ->
  binary_round_aux 53 1024 false (Zpos p) e loc_Exact = S754_finite false p e.
Proof.
  intros Hp He. unfold binary_round_aux, shr_fexp. cbn [Zdigits2]. rewrite Hp.
  replace (fexp 53 1024 (53 + e) - e) with 0 by (unfold fexp, emin; lia).
  cbn [shr shr_record_of_loc shr_m loc_of_shr_record round_nearest_even Zdigits2]. rewrite Hp.
  replace (fexp 53 1024 (53 + e) - e) with 0 by (unfold fexp, emin; lia).
  cbn [shr shr_record_of_loc shr_m]. by destruct (Z.leb_spec e (1024 - 53)); [|lia].
Qed.

(** Small integers are exact. *)
Lemma float64_exact p : (digits2_pos p < 53)%positive -> exists m,
  float64 (Zpos p) = S754_finite false m (Zpos (digits2_pos p) - 53) /\ digits2_pos m = 53%positive /\
  Zpos m = Zpos p * 2 ^ (53 - Zpos (digits2_pos p)).
Proof.
  intros Hp. unfold float64. cbn [binary_normalize]. unfold binary_round, shl_align. rewrite !Z.add_0_r, Z.sub_0_r.
  destruct (fexp 53 1024 (Zpos (digits2_pos p))) as [|k|k] eqn:Hk; unfold fexp, emin in Hk; [lia..|].
  cbn beta iota. exists (Pos.iter xO p k).
  assert (Hd : digits2_pos (Pos.iter xO p k) = 53%positive) by (apply Pos2Z.inj; rewrite iter_xO_digits; lia).
  rewrite binary_round_aux_exact by (done || lia). split_and!; [f_equal; lia|done|].
  rewrite iter_xO_value. do 2 f_equal; lia.
Qed.

Lemma float64_pos z : 0 < z -> positive_float (float64 z).
Proof. intros Hz. by apply binary_normalize_pos. Qed.

Lemma digits_small p n : Zpos p < 2 ^ Zpos n -> (digits2_pos p <= n)%positive.
Proof.
  intros Hp. pose proof (digits_bounds p) as [Hd _].
  destruct (Pos.leb_spec (digits2_pos p) n) as [|Hn]; [done|].
  assert (2 ^ Zpos n <= 2 ^ (Zpos (digits2_pos p) - 1)) by (apply Z.pow_le_mono_r; lia). lia.
Qed.

(** The quotient of small positive integers is positive. *)
Lemma float64_div_pos a b : 0 < a < 2^52 -> 0 < b < 2^52 -> positive_float (float64_div (float64 a) (float64 b)).
Proof.
  intros Ha Hb. destruct a as [|p|p], b as [|q|q]; try lia.
  assert (Hp : (digits2_pos p <= 52)%positive) by (apply digits_small; lia).
  assert (Hq : (digits2_pos q <= 52)%positive) by (apply digits_small; lia).
  destruct (float64_exact p) as (m & -> & Hm & _); [lia|]. destruct (float64_exact q) as (n & -> & Hn & _); [lia|].
  unfold float64_div. cbn [SFdiv xorb]. unfold SFdiv_core_binary. cbn [Zdigits2]. rewrite Hm, Hn.
  set (e := Zpos (digits2_pos p) - 53). set (f := Zpos (digits2_pos q) - 53).
  replace (Z.min (fexp 53 1024 (53 + e - (53 + f))) (e - f)) with (e - f - 53) by (unfold fexp, emin, e, f; lia).
  replace (e - f - (e - f - 53)) with 53 by lia. rewrite Z.shiftl_mul_pow2 by lia.
  pose proof (digits_bounds m) as [Hm1 Hm2]. pose proof (digits_bounds n) as [Hn1 Hn2]. rewrite Hm in Hm1. rewrite Hn in Hn2.
  destruct (Z.div_eucl (Zpos m * 2 ^ 53) (Zpos n)) as [quo r] eqn:Hquo.
  apply binary_round_aux_pos; [|unfold e, f; lia].
  assert (quo = Zpos m * 2 ^ 53 / Zpos n) as -> by (unfold Z.div; by rewrite Hquo).
  apply Z.div_str_pos. lia.
Qed.

Lemma Seconds_pos d : 0 < d < 2^63 -> positive_float (Seconds d).
Proof.
  intros Hd. unfold Seconds.
  assert (Hs : 0 <= Z.quot d Second < 2^52) by (unfold Second, Millisecond; Z.to_euclidean_division_equations; lia).
  assert (Hn : 0 <= Z.rem d Second < 2^52) by (unfold Second, Millisecond; Z.to_euclidean_division_equations; lia).
  assert (Hnz : Z.quot d Second <> 0 \/ Z.rem d Second <> 0)
    by (unfold Second, Millisecond; Z.to_euclidean_division_equations; lia).
  revert Hs Hn Hnz. generalize (Z.quot d Second) as q, (Z.rem d Second) as r. intros q r Hs Hn Hnz.
  assert (Hdiv : r <> 0 -> positive_float (float64_div (float64 (r)) (float64 Second))).
  { intros Hr. apply float64_div_pos; [lia|by unfold Second, Millisecond]. }
  assert (Hzero : float64_div (float64 0) (float64 Second) = fzero) by (vm_compute; done).
  destruct (decide (r = 0)) as [->|Hr].
  - rewrite Hzero. apply (fadd_pos (float64 (q)) fzero); [apply float64_pos; lia|by right].
  - destruct (decide (q = 0)) as [->|Hq].
    + apply (fadd_pos _ fzero); [by apply Hdiv|by right].
    + apply (fadd_pos (float64 (q))); [apply float64_pos; lia|left; by apply Hdiv].
Qed.

Lemma Seconds_zero : Seconds 0 = fzero.
Proof. vm_compute. done. Qed.

(** The tests the program makes on seconds are tests on nanoseconds. *)
Lemma Seconds_sign d : 0 <= d < 2^63 ->
  flt fzero (Seconds d) = (0 <? d) /\ feq (Seconds d) fzero = (d =? 0).
Proof.
  intros Hd. destruct (Z.eqb_spec d 0) as [->|Hz]; [by rewrite Seconds_zero|].
  destruct (positive_float_lt (Seconds d)) as [-> ->]; [apply Seconds_pos; lia|].
  split; [|done]. by destruct (Z.ltb_spec 0 d); [|lia].
Qed.

Lemma Seconds_lt d : 0 <= d < 2^63 -> flt fzero (Seconds d) = (0 <? d).
Proof. apply Seconds_sign. Qed.
Lemma Seconds_eq d : 0 <= d < 2^63 -> feq (Seconds d) fzero = (d =? 0).
Proof. apply Seconds_sign. Qed.

Example Seconds_values :
  Seconds 1500000000 = SFdiv 53 1024 (float64 3) (float64 2) /\ flt (Seconds 1) (Seconds 2) = true /\
  int_of_float (fadd (Seconds 2500000000) (Seconds 499999999)) = 2 /\ int_of_float (fsub (float64 1) (Seconds 2500000000)) = -1 /\
  int_of_float (float64 (2^63)) = -2^63 /\
  int_ceil (float64_mul (float64 5) (float64_div (float64 1) (float64 2))) = 3 /\ int_ceil (fsub (float64 1) (Seconds 2500000000)) = -1 /\
  int_ceil (float64 7) = 7.
Proof. vm_compute. done. Qed.

(** ** Products *)
Lemma digits_unique p n : 2 ^ (n - 1) <= Zpos p < 2 ^ n -> Zpos (digits2_pos p) = n.
Proof.
  intros Hp. pose proof (digits_bounds p) as Hd.
  destruct (Z.lt_total (Zpos (digits2_pos p)) n) as [Hlt|[Heq|Hlt]]; [|done|].
  - assert (2 ^ Zpos (digits2_pos p) <= 2 ^ (n - 1)) by (apply Z.pow_le_mono_r; lia). lia.
  - destruct (Z.le_gt_cases 0 n); [|rewrite (Z.pow_neg_r 2 n) in Hp by done; lia].
    assert (2 ^ n <= 2 ^ (Zpos (digits2_pos p) - 1)) by (apply Z.pow_le_mono_r; lia). lia.
Qed.

Lemma shr_iter_exact n m : 0 < m ->
  iter_pos shr_1 n {| shr_m := m * 2 ^ Zpos n; shr_r := false; shr_s := false |} = {| shr_m := m; shr_r := false; shr_s := false |}.
Proof.
  assert (H1 : forall m, 0 < m -> shr_1 {| shr_m := 2 * m; shr_r := false; shr_s := false |} = {| shr_m := m; shr_r := false; shr_s := false |})
    by (intros [|p|p] Hp; [done|done|lia]).
  revert m. induction n as [n IH|n IH|]; intros m Hm; cbn [iter_pos].
  - replace (m * 2 ^ Zpos n~1) with (2 * (m * 2 ^ Zpos n * 2 ^ Zpos n))
      by (replace (Zpos n~1) with (Z.succ (Zpos n + Zpos n)) by lia; rewrite Z.pow_succ_r, Z.pow_add_r by lia; lia).
    rewrite H1 by lia. rewrite !IH by lia. done.
  - replace (m * 2 ^ Zpos n~0) with (m * 2 ^ Zpos n * 2 ^ Zpos n)
      by (replace (Zpos n~0) with (Zpos n + Zpos n) by lia; rewrite Z.pow_add_r by lia; lia).
    rewrite !IH by lia. done.
  - rewrite Z.pow_1_r, Z.mul_comm. by apply H1.
Qed.

(** Rounding to 53 digits is off by less than a unit of the last one, and
    exact when the digits dropped are zeros. *)
Lemma binary_round_aux_near p e s : Zpos (digits2_pos p) = 53 + Zpos s -> least <= e + Zpos s <= 970 ->
  exists r k, binary_round_aux 53 1024 false (Zpos p) e loc_Exact = S754_finite false r (e + Zpos s + k) /\ 0 <= k <= 1 /\
    Zpos p - 2 ^ Zpos s <= Zpos r * 2 ^ (Zpos s + k) <= Zpos p + 2 ^ Zpos s /\
    ((2 ^ Zpos s | Zpos p) -> Zpos r * 2 ^ (Zpos s + k) = Zpos p).
Proof.
  intros Hd He. unfold binary_round_aux. set (q := Zpos p / 2 ^ Zpos s). pose proof (digits_bounds p) as Hp. rewrite Hd in Hp.
  assert (Hpow : 2 ^ (53 + Zpos s) = 2^53 * 2 ^ Zpos s) by (apply Z.pow_add_r; lia).
  assert (Hpow' : 2 ^ (53 + Zpos s - 1) = 2^52 * 2 ^ Zpos s) by (rewrite <- Z.pow_add_r by lia; f_equal; lia).
  assert (Hdm : Zpos p = 2 ^ Zpos s * q + Zpos p mod 2 ^ Zpos s) by (apply Z.div_mod; lia).
  assert (Hm : 0 <= Zpos p mod 2 ^ Zpos s < 2 ^ Zpos s) by (apply Z.mod_pos_bound; lia).
  assert (Hq : 2^52 <= q < 2^53) by nia.
  assert (Hfirst : exists r0, shr_fexp 53 1024 (Zpos p) e loc_Exact = (r0, e + Zpos s) /\ shr_m r0 = q /\
    ((2 ^ Zpos s | Zpos p) -> r0 = {| shr_m := q; shr_r := false; shr_s := false |})).
  { unfold shr_fexp. cbn [Zdigits2]. rewrite Hd. replace (fexp 53 1024 (53 + Zpos s + e) - e) with (Zpos s) by (unfold fexp, emin; lia).
    cbn [shr]. eexists. split; [done|]. split; [rewrite shr_iter_m; cbn; [done|lia]|].
    intros [c Hc]. cbn [shr_record_of_loc]. assert (c = q) as -> by (unfold q; by rewrite Hc, Z.div_mul by lia).
    rewrite Hc. apply shr_iter_exact. lia. }
  destruct Hfirst as (r0 & -> & Hr0 & Hexact).
  set (r1 := round_nearest_even (shr_m r0) (loc_of_shr_record r0)).
  assert (Hr1 : (r1 = q \/ r1 = q + 1) /\ ((2 ^ Zpos s | Zpos p) -> r1 = q)).
  { split; [|intros Hdiv; unfold r1; by rewrite (Hexact Hdiv)]. unfold r1. rewrite Hr0. unfold round_nearest_even.
    destruct (loc_of_shr_record r0) as [|[]]; [by left|destruct (Z.even q)|..]; auto. }
  clearbody r1. destruct Hr1 as [Hr1 Hdiv]. destruct r1 as [|r|r]; [lia| |lia].
  destruct (decide (Zpos r = 9007199254740992)) as [Hcarry|Hno].
  - exists 4503599627370496%positive, 1. injection Hcarry as ->. cbn [shr_fexp shr_record_of_loc].
    unfold shr_fexp. cbn [Zdigits2]. change (Zpos (digits2_pos 9007199254740992)) with 54.
    replace (fexp 53 1024 (54 + (e + Zpos s)) - (e + Zpos s)) with 1 by (unfold fexp, emin; lia).
    change (shr _ _ 1) with ({| shr_m := 4503599627370496; shr_r := false; shr_s := false |}, e + Zpos s + 1). cbn [shr_m].
    destruct (Z.leb_spec (e + Zpos s + 1) (1024 - 53)); [|lia]. split; [reflexivity|]. split; [lia|].
    assert (4503599627370496 * 2 ^ (Zpos s + 1) = 2^53 * 2 ^ Zpos s) as -> by (rewrite Z.pow_add_r by lia; lia).
    split; [nia|]. intros Hd'. specialize (Hdiv Hd'). lia.
  - exists r, 0. unfold shr_fexp. cbn [Zdigits2]. rewrite (digits_unique r 53) by lia.
    replace (fexp 53 1024 (53 + (e + Zpos s)) - (e + Zpos s)) with 0 by (unfold fexp, emin; lia).
    cbn [shr shr_record_of_loc shr_m]. destruct (Z.leb_spec (e + Zpos s) (1024 - 53)); [|lia].
    rewrite !Z.add_0_r. split; [done|]. split; [lia|]. split; [nia|]. intros [c Hc].
    rewrite Hdiv by (by exists c). assert (c = q) as -> by (unfold q; by rewrite Hc, Z.div_mul by lia). lia.
Qed.

Lemma int_ceil_bounds m e : e <= 0 -> Zpos m < 2^63 ->
  let c := int_ceil (S754_finite false m e) in (c - 1) * 2 ^ (- e) < Zpos m <= c * 2 ^ (- e) /\ 1 <= c.
Proof.
  intros He Hm. cbn zeta. set (j := - e). assert (Hj : 0 < 2 ^ j) by (apply Z.pow_pos_nonneg; lia).
  assert (Hc : int_ceil (S754_finite false m e) = - (- Zpos m / 2 ^ j)).
  { unfold int_ceil. destruct (Z.leb_spec 0 e).
    - replace e with 0 by lia. replace j with 0 by lia. rewrite Z.shiftl_0_r, Z.pow_0_r, Z.div_1_r.
      destruct (Z.leb_spec (-2^63) (Zpos m)), (Z.ltb_spec (Zpos m) (2^63)); cbn [andb]; lia.
    - rewrite Z.shiftr_div_pow2 by lia. fold j.
      assert (- Zpos m <= - Zpos m / 2 ^ j <= 0).
      { pose proof (Z.mul_div_le (- Zpos m) (2 ^ j) Hj). pose proof (Z.mul_succ_div_gt (- Zpos m) (2 ^ j) Hj). nia. }
      destruct (Z.leb_spec (-2^63) (- (- Zpos m / 2 ^ j))), (Z.ltb_spec (- (- Zpos m / 2 ^ j)) (2^63)); cbn [andb]; lia. }
  rewrite Hc. pose proof (Z.mul_div_le (- Zpos m) (2 ^ j) Hj). pose proof (Z.mul_succ_div_gt (- Zpos m) (2 ^ j) Hj). nia.
Qed.

(** The ceiling of a fraction [a / 2^53] of a small integer, up to two units
    of the fraction's last digit; a half is exact. *)
Lemma int_ceil_mul a n : digits2_pos a = 53%positive -> 0 < n < 2^52 ->
  let c := int_ceil (float64_mul (S754_finite false a (-53)) (float64 n)) in
  (Zpos a - 2) * n <= c * 2^53 /\ (c - 1) * 2^53 < (Zpos a + 2) * n /\ 1 <= c /\
  (Zpos a = 2^52 -> (c - 1) * 2 < n <= c * 2).
Proof.
  intros Ha Hn. cbn zeta. destruct n as [|n|n]; [lia| |lia].
  assert (Hd : (digits2_pos n <= 52)%positive) by (apply digits_small; lia).
  destruct (float64_exact n) as (m & -> & Hm & Hmv); [lia|]. set (d := Zpos (digits2_pos n)) in *.
  pose proof (digits_bounds n) as Hnb. fold d in Hnb. pose proof (digits_bounds m) as Hmb. rewrite Hm in Hmb.
  pose proof (digits_bounds a) as Hab. rewrite Ha in Hab.
  assert (Hs : exists s, Zpos (digits2_pos (a * m)) = 53 + Zpos s /\ (s = 52 \/ s = 53)%positive /\ (Zpos a = 2^52 -> s = 52%positive)).
  { destruct (Z.lt_ge_cases (Zpos (a * m)) (2^105)) as [Hlt|Hge].
    - exists 52%positive. split; [apply digits_unique; nia|]. split; [by left|done].
    - exists 53%positive. split; [apply digits_unique; nia|]. split; [by right|]. nia. }
  destruct Hs as (s & Hs & Hs53 & Hhalf). unfold float64_mul. cbn [SFmul xorb].
  destruct (binary_round_aux_near (a * m) (-53 + (d - 53)) s Hs) as (r & k & -> & Hk & Hnear & Hexact); [lia|].
  set (e := -53 + (d - 53) + Zpos s + k).
  assert (Hpow : 2 ^ (Zpos s + k) * 2 ^ (- e) = 2 ^ (106 - d)) by (rewrite <- Z.pow_add_r by (unfold e; lia); f_equal; unfold e; lia).
  assert (Hpd : 2 ^ (106 - d) = 2^53 * 2 ^ (53 - d)) by (rewrite <- Z.pow_add_r by lia; f_equal; lia).
  assert (Hp2 : 2 ^ (53 - d) * 2 ^ d = 2^53) by (rewrite <- Z.pow_add_r by lia; f_equal; lia).
  assert (Hdn : 2 ^ d <= 2 * Zpos n) by (replace d with (Z.succ (d - 1)) by lia; rewrite Z.pow_succ_r by lia; lia).
  assert (Hs2 : 2 ^ Zpos s <= 2^53) by (apply Z.pow_le_mono_r; lia).
  assert (Hpos : 0 < 2 ^ (53 - d) /\ 0 < 2 ^ (Zpos s + k) /\ 0 < 2 ^ (- e)) by (split_and!; apply Z.pow_pos_nonneg; unfold e; lia).
  assert (Hr : Zpos r < 2^63).
  { assert (2 ^ 52 <= 2 ^ (Zpos s + k)) by (apply Z.pow_le_mono_r; lia). nia. }
  destruct (int_ceil_bounds r e) as [[Hc1 Hc2] Hc3]; [unfold e; lia|done|]. set (c := int_ceil _) in *.
  clearbody e c. revert Hpow Hpd Hp2 Hpos Hc1 Hc2 Hnear Hexact. rewrite Pos2Z.inj_mul, Hmv.
  generalize (2 ^ (Zpos s + k)) as A, (2 ^ (- e)) as B, (2 ^ (106 - d)) as C, (2 ^ (53 - d)) as w.
  intros A B C w Hpow -> Hp2 (Hw & HA & HB) Hc1 Hc2 Hnear Hexact. generalize dependent (Zpos r). intros v Hr Hc1 Hc2 Hnear Hexact.
  assert (Hv1 : (c - 1) * 2^53 * w < v * A).
  { replace ((c - 1) * 2^53 * w) with ((c - 1) * B * A) by (rewrite <- (Z.mul_assoc (c - 1) (2^53) w), <- Hpow; ring). by apply Z.mul_lt_mono_pos_r. }
  assert (Hv2 : v * A <= c * 2^53 * w).
  { replace (c * 2^53 * w) with (c * B * A) by (rewrite <- (Z.mul_assoc c (2^53) w), <- Hpow; ring). apply Z.mul_le_mono_nonneg_r; lia. }
  assert (Hsw : 2 ^ Zpos s <= 2 * Zpos n * w).
  { transitivity (2^53); [done|]. rewrite <- Hp2, Z.mul_comm. apply Z.mul_le_mono_nonneg_r; lia. }
  split_and!.
  - apply (Z.mul_le_mono_pos_r _ _ w); [done|]. replace ((Zpos a - 2) * Zpos n * w) with (Zpos a * (Zpos n * w) - 2 * Zpos n * w) by ring. lia.
  - apply (Z.mul_lt_mono_pos_r w); [done|]. replace ((Zpos a + 2) * Zpos n * w) with (Zpos a * (Zpos n * w) + 2 * Zpos n * w) by ring. lia.
  - done.
  - intros Hh. rewrite Hh in *. specialize (Hhalf eq_refl) as ->.
    rewrite Hexact in Hv1, Hv2 by (exists (Zpos n * w); change (Zpos 52) with 52; lia).
    split; [apply (Z.mul_lt_mono_pos_r w)|apply (Z.mul_le_mono_pos_r _ _ w)]; lia.
Qed.
