(* ===== verification/GoText.v ===== *)
(** * Texts: whitespace, number parsing and the log field patterns

    The parts of Go's [strings], [strconv] and [regexp] the report runner
    reads texts with.  A string is its UTF-8 bytes: a space is one of the
    encodings of [unicode.IsSpace], and a pattern is written out as the scan
    that its leftmost match is, each of them having one way to match at a
    position. *)

From S2P Require Import Prelude GoStrings GoFloat.
From Stdlib Require Import Ascii Floats.SpecFloat.

Definition byte (n : nat) : ascii := ascii_of_nat n.
Definition code (c : ascii) : Z := Z.of_nat (nat_of_ascii c).
Definition lower (c : ascii) : ascii := if (65 <=? code c) && (code c <=? 90) then ascii_of_nat (nat_of_ascii c + 32) else c.

(** [strings.ToLower] of a text of ASCII letters. *)
Fixpoint ToLower (s : string) : string :=
  match s with EmptyString => "" | String c s' => String (lower c) (ToLower s') end.

(** ** [unicode.IsSpace] *)
Definition ascii_space (c : ascii) : bool := ((9 <=? code c) && (code c <=? 13)) || (code c =? 32).

(** The rest of a text that begins with a space. *)
Definition after_space (s : string) : option string :=
  match s with
  | String a s1 =>
      if ascii_space a then Some s1
      else match s1 with
      | String b s2 =>
          if (code a =? 194) && ((code b =? 133) || (code b =? 160)) then Some s2
          else match s2 with
          | String c s3 =>
              let space :=
                ((code a =? 225) && (code b =? 154) && (code c =? 128)) ||
                ((code a =? 226) && (code b =? 128) &&
                 (((128 <=? code c) && (code c <=? 138)) || (code c =? 168) || (code c =? 169) || (code c =? 175))) ||
                ((code a =? 226) && (code b =? 129) && (code c =? 159)) ||
                ((code a =? 227) && (code b =? 128) && (code c =? 128)) in
              if space then Some s3 else None
          | EmptyString => None
          end
      | EmptyString => None
      end
  | EmptyString => None
  end.

Fixpoint trim_left (fuel : nat) (s : string) : string :=
  match fuel with
  | O => s
  | Datatypes.S n => match after_space s with Some r => trim_left n r | None => s end
  end.
Definition TrimLeftSpace (s : string) : string := trim_left (String.length s) s.

Fixpoint TrimRightSpace (s : string) : string :=
  if String.eqb (TrimLeftSpace s) "" then ""
  else match s with EmptyString => "" | String c s' => String c (TrimRightSpace s') end.

Definition TrimSpace (s : string) : string := TrimRightSpace (TrimLeftSpace s).

(** [strings.Fields] *)
Fixpoint fields_from (fuel : nat) (word s : string) : list string :=
  match fuel with
  | O => []
  | Datatypes.S n =>
      match s with
      | EmptyString => if String.eqb word "" then [] else [word]
      | String c s' =>
          match after_space s with
          | Some r => if String.eqb word "" then fields_from n "" r else word :: fields_from n "" r
          | None => fields_from n (word +:+ String c "") s'
          end
      end
  end.
Definition Fields (s : string) : list string := fields_from (Datatypes.S (String.length s)) "" s.

(** ** Suffixes *)
Definition HasSuffix (s suffix : string) : bool :=
  Nat.leb (String.length suffix) (String.length s) &&
  String.eqb (str_drop (String.length s - String.length suffix) s) suffix.
Definition TrimSuffix (s suffix : string) : string :=
  if HasSuffix s suffix then str_take (String.length s - String.length suffix) s else s.

(** [strings.ReplaceAll] of a text that is not empty. *)
Fixpoint replace_all (fuel : nat) (s old new : string) : string :=
  match fuel with
  | O => s
  | Datatypes.S n =>
      if HasPrefix s old then new +:+ replace_all n (str_drop (String.length old) s) old new
      else match s with EmptyString => "" | String c s' => String c (replace_all n s' old new) end
  end.
Definition ReplaceAll (s old new : string) : string := replace_all (Datatypes.S (String.length s)) s old new.

(** Where the text is a byte, each of its places is replaced. *)
Fixpoint subst_byte (c : ascii) (new s : string) : string :=
  match s with
  | EmptyString => ""
  | String d s' => if Ascii.eqb d c then new +:+ subst_byte c new s' else String d (subst_byte c new s')
  end.

Lemma ReplaceAll_byte s c new : ReplaceAll s (String c "") new = subst_byte c new s.
Proof.
  unfold ReplaceAll. assert (String.length s < Datatypes.S (String.length s))%nat as Hs by lia. revert Hs.
  generalize (Datatypes.S (String.length s)). intros fuel. revert s.
  induction fuel as [|n IH]; intros s Hs; [lia|]. destruct s as [|d s]; [done|].
  cbn [String.length] in Hs. cbn [replace_all HasPrefix subst_byte String.length str_drop].
  rewrite andb_true_r. rewrite (Ascii.eqb_sym d c). destruct (Ascii.eqb c d); rewrite IH by lia; done.
Qed.

Lemma no_byte_app c s1 s2 : no_byte c (s1 +:+ s2) = no_byte c s1 && no_byte c s2.
Proof. induction s1 as [|d s1 IH]; [done|]. cbn [String.append no_byte]. by rewrite IH, andb_assoc. Qed.

Lemma no_byte_subst b c new s : (b = c \/ no_byte b s = true) -> no_byte b new = true -> no_byte b (subst_byte c new s) = true.
Proof.
  intros Hs Hnew. induction s as [|d s IH]; [done|].
  assert (Hs' : b = c \/ no_byte b s = true) by (destruct Hs as [Hs|Hs]; [by left|right; cbn in Hs; by apply andb_true_iff in Hs as [_ Hs]]).
  cbn [subst_byte]. destruct (Ascii.eqb_spec d c) as [->|Hd]; [rewrite no_byte_app, Hnew; by apply IH|].
  cbn [no_byte]. apply andb_true_iff. split; [|by apply IH]. destruct Hs as [-> |Hs].
  - apply negb_true_iff, Ascii.eqb_neq. congruence.
  - cbn in Hs. by apply andb_true_iff in Hs as [Hs _].
Qed.

(** ** [strconv.ParseFloat(s, 64)] *)
Definition hex_val (c : ascii) : option Z :=
  match digit_val c with
  | Some d => Some d
  | None => let l := code (lower c) in if (97 <=? l) && (l <=? 102) then Some (l - 87) else None
  end.

(** The digits of the mantissa: value, digits after the point (once it was
    seen), whether there were digits or underscores, and the rest. *)
Fixpoint mantissa (hex : bool) (m : Z) (frac : option Z) (digits unders : bool) (s : string)
    : Z * option Z * bool * bool * string :=
  match s with
  | EmptyString => (m, frac, digits, unders, s)
  | String c s' =>
      if Ascii.eqb c "_" then mantissa hex m frac digits true s'
      else if Ascii.eqb c "." then
        match frac with Some _ => (m, frac, digits, unders, s) | None => mantissa hex m (Some 0) digits unders s' end
      else match (if hex then hex_val c else digit_val c) with
           | Some d => mantissa hex (m * (if hex then 16 else 10) + d) (Z.succ <$> frac) true unders s'
           | None => (m, frac, digits, unders, s)
           end
  end.

(** The digits of the exponent, which stop counting at five. *)
Fixpoint exponent_digits (e : Z) (unders : bool) (s : string) : Z * bool * string :=
  match s with
  | EmptyString => (e, unders, s)
  | String c s' =>
      if Ascii.eqb c "_" then exponent_digits e true s'
      else match digit_val c with
           | Some d => exponent_digits (if e <? 10000 then e * 10 + d else e) unders s'
           | None => (e, unders, s)
           end
  end.

Definition is_empty (s : string) : bool := String.eqb s "".

Definition exponent (hex unders : bool) (s : string) : option (Z * bool * string) :=
  match s with
  | String c s1 =>
      if Ascii.eqb (lower c) (if hex then "p" else "e") then
        let '(sign, s2) :=
          match s1 with
          | String d s2 => if Ascii.eqb d "+" then (1, s2) else if Ascii.eqb d "-" then (-1, s2) else (1, s1)
          | EmptyString => (1, s1)
          end in
        match s2 with
        | String d _ =>
            match digit_val d with
            | Some _ => let '(e, unders, rest) := exponent_digits 0 unders s2 in Some (sign * e, unders, rest)
            | None => None
            end
        | EmptyString => None
        end
      else if hex then None else Some (0, unders, s)
  | EmptyString => if hex then None else Some (0, unders, s)
  end.

(** Underscores separate digits. *)
Inductive seen := SeenStart | SeenDigit | SeenUnder | SeenOther.
Fixpoint under_ok (hex : bool) (saw : seen) (s : string) : bool :=
  match s with
  | EmptyString => match saw with SeenUnder => false | _ => true end
  | String c s' =>
      match (if hex then hex_val c else digit_val c) with
      | Some _ => under_ok hex SeenDigit s'
      | None =>
          if Ascii.eqb c "_" then match saw with SeenDigit => under_ok hex SeenUnder s' | _ => false end
          else match saw with SeenUnder => false | _ => under_ok hex SeenOther s' end
      end
  end.

(** The binary64 number nearest to [m * 10^e], or [m * 2^e]. *)
Definition round_decimal (m e : Z) : float :=
  if m =? 0 then fzero
  else if 0 <=? e then binary_normalize 53 1024 (m * 10 ^ e) 0 false
  else let '(q, e', l) := SFdiv_core_binary 53 1024 m 0 (10 ^ (- e)) 0 in binary_round_aux 53 1024 false q e' l.
Definition round_binary (m e : Z) : float := binary_normalize 53 1024 m e false.

Definition neg_float (neg : bool) (x : float) : float := if neg then SFopp x else x.

Definition named_float (signed : bool) (s : string) : option float :=
  let l := ToLower s in
  if String.eqb l "inf" || String.eqb l "infinity" then Some (S754_infinity false)
  else if negb signed && String.eqb l "nan" then Some S754_nan
  else None.

(** A number without its sign, infinite when it is out of range. *)
Definition number_float (s : string) : option float :=
  let hex := Nat.ltb 2 (String.length s) && HasPrefix (ToLower s) "0x" in
  let '(m, frac, digits, unders, rest) := mantissa hex 0 None false false (if hex then str_drop 2 s else s) in
  if negb digits then None
  else match exponent hex unders rest with
  | Some (e, unders, rest) =>
      if negb (is_empty rest) then None
      else if unders && negb (under_ok hex (if hex then SeenDigit else SeenStart) (if hex then str_drop 2 s else s)) then None
      else Some (if hex then round_binary m (e - 4 * default 0 frac) else round_decimal m (e - default 0 frac))
  | None => None
  end.

(** What is after the sign: a number, infinity or not a number, and whether it is an error. *)
Definition unsigned_float (signed : bool) (s : string) : float * bool :=
  match named_float signed s with
  | Some x => (x, false)
  | None =>
      match number_float s with
      | Some x => (x, match x with S754_infinity _ => true | _ => false end)
      | None => (fzero, true)
      end
  end.

(** [strconv.ParseFloat(s, 64)]'s value and whether it comes with an error. *)
Definition parse_float (s : string) : float * bool :=
  match s with
  | String c s' =>
      if Ascii.eqb c "+" then unsigned_float true s'
      else if Ascii.eqb c "-" then
        let '(x, err) := unsigned_float true s' in (if err && feq x fzero then fzero else neg_float true x, err)
      else unsigned_float false s
  | EmptyString => (fzero, true)
  end.
Definition ParseFloat (s : string) : option float := let '(x, err) := parse_float s in if err then None else Some x.

(** ** UTF-8 *)
Definition between (lo hi : Z) (s : string) : bool :=
  match s with String c _ => (lo <=? code c) && (code c <=? hi) | EmptyString => false end.

Definition continues (n : nat) (s : string) : bool := between 128 191 (str_drop n s).

(** The length of the rune a text begins with; 0 when its first byte begins none. *)
Definition rune_len (s : string) : nat :=
  match s with
  | EmptyString => 0%nat
  | String _ s1 =>
      if between 0 127 s then 1%nat
      else if between 194 223 s && continues 0 s1 then 2%nat
      else if ((between 224 224 s && between 160 191 s1) || (between 237 237 s && between 128 159 s1) ||
               ((between 225 236 s || between 238 239 s) && continues 0 s1)) && continues 1 s1 then 3%nat
      else if ((between 240 240 s && between 144 191 s1) || (between 244 244 s && between 128 143 s1) ||
               (between 241 243 s && continues 0 s1)) && continues 1 s1 && continues 2 s1 then 4%nat
      else 0%nat
  end.

Definition byte_of (z : Z) : string := String (ascii_of_nat (Z.to_nat z)) "".

(** [utf8.AppendRune] of a valid rune. *)
Definition encode_rune (v : Z) : string :=
  if v <? 128 then byte_of v
  else if v <? 2048 then byte_of (192 + v / 64) +:+ byte_of (128 + v mod 64)
  else if v <? 65536 then byte_of (224 + v / 4096) +:+ byte_of (128 + v / 64 mod 64) +:+ byte_of (128 + v mod 64)
  else byte_of (240 + v / 262144) +:+ byte_of (128 + v / 4096 mod 64) +:+ byte_of (128 + v / 64 mod 64) +:+
       byte_of (128 + v mod 64).
Definition ValidRune (v : Z) : bool := ((0 <=? v) && (v <? 55296)) || ((57343 <? v) && (v <=? 1114111)).
Definition replacement : string := encode_rune 65533.

(** ** [strconv.Unquote] of a double-quoted text, given what is between the quotes *)
Fixpoint hex_digits (n : nat) (v : Z) (s : string) : option (Z * string) :=
  match n with
  | O => Some (v, s)
  | Datatypes.S n' =>
      match s with
      | String c s' => match hex_val c with Some d => hex_digits n' (v * 16 + d) s' | None => None end
      | EmptyString => None
      end
  end.

Definition octal_val (c : ascii) : option Z := match digit_val c with Some d => if d <? 8 then Some d else None | None => None end.

(** What an escape stands for, after the backslash. *)
Definition escape (s : string) : option (string * string) :=
  match s with
  | EmptyString => None
  | String c s' =>
      let rune_of n :=
        match hex_digits n 0 s' with
        | Some (v, r) => if ValidRune v then Some (encode_rune v, r) else None
        | None => None
        end in
      if Ascii.eqb c "a" then Some (byte_of 7, s') else if Ascii.eqb c "b" then Some (byte_of 8, s')
      else if Ascii.eqb c "f" then Some (byte_of 12, s') else if Ascii.eqb c "n" then Some (byte_of 10, s')
      else if Ascii.eqb c "r" then Some (byte_of 13, s') else if Ascii.eqb c "t" then Some (byte_of 9, s')
      else if Ascii.eqb c "v" then Some (byte_of 11, s')
      else if Ascii.eqb c "\" then Some (byte_of 92, s')
      else if code c =? 34 then Some (byte_of 34, s')
      else if Ascii.eqb c "x" then match hex_digits 2 0 s' with Some (v, r) => Some (byte_of v, r) | None => None end
      else if Ascii.eqb c "u" then rune_of 4%nat
      else if Ascii.eqb c "U" then rune_of 8%nat
      else match octal_val c, s' with
           | Some a, String d (String e r) =>
               match octal_val d, octal_val e with
               | Some b, Some c => let v := a * 64 + b * 8 + c in if 255 <? v then None else Some (byte_of v, r)
               | _, _ => None
               end
           | _, _ => None
           end
  end.

Fixpoint unquote_from (fuel : nat) (s : string) : option string :=
  match fuel with
  | O => None
  | Datatypes.S n =>
      match s with
      | EmptyString => Some ""
      | String c s' =>
          if (code c =? 10) || (code c =? 34) then None
          else if Ascii.eqb c "\" then '(text, r) ← escape s'; rest ← unquote_from n r; Some (text +:+ rest)
          else match rune_len s with
               | O => rest ← unquote_from n s'; Some (replacement +:+ rest)
               | len => rest ← unquote_from n (str_drop len s); Some (str_take len s +:+ rest)
               end
      end
  end.
Definition Unquote (s : string) : option string := unquote_from (Datatypes.S (String.length s)) s.

(** ** Patterns *)

(** The leftmost match. *)
Fixpoint find_match {A} (m : string -> option A) (s : string) : option A :=
  match m s with
  | Some a => Some a
  | None => match s with EmptyString => None | String _ s' => find_match m s' end
  end.

(** [\s*] *)
Fixpoint skip_spaces (s : string) : string :=
  match s with
  | String c s' =>
      if (code c =? 9) || (code c =? 10) || (code c =? 12) || (code c =? 13) || (code c =? 32) then skip_spaces s' else s
  | EmptyString => s
  end.

(** The key in its quotes, a colon and spaces. *)
Definition after_key (key s : string) : option string :=
  let label := dquote +:+ key +:+ dquote +:+ ":" in
  if HasPrefix s label then Some (skip_spaces (str_drop (String.length label) s)) else None.

(** An optional character. *)
Definition skip_char (z : Z) (s : string) : bool * string :=
  match s with String c s' => if code c =? z then (true, s') else (false, s) | EmptyString => (false, s) end.

(** [[0-9]+] *)
Fixpoint span_digits (s : string) : string * string :=
  match s with
  | String c s' => match digit_val c with Some _ => let '(d, r) := span_digits s' in (String c d, r) | None => ("", s) end
  | EmptyString => ("", s)
  end.

(** A key and an integer, which may be in quotes, and what follows. *)
Definition number_at (key s : string) : option (bool * string * string) :=
  s ← after_key key s;
  let '(_, s) := skip_char 34 s in
  let '(neg, s) := skip_char 45 s in
  let '(digits, rest) := span_digits s in
  if String.eqb digits "" then None else Some (neg, digits, rest).

(** [strconv.Atoi] clamps what does not fit. *)
Definition clamp_int64 (z : Z) : Z := Z.max (-2^63) (Z.min (2^63 - 1) z).
Definition intField (line key : string) : Z :=
  match find_match (number_at key) line with
  | Some (neg, digits, _) => let v := default 0 (parse_digits 0 digits) in clamp_int64 (if neg : bool then - v else v)
  | None => 0
  end.

Definition floatField (line key : string) : float :=
  match find_match (number_at key) line with
  | Some (neg, digits, rest) =>
      let '(dot, rest') := skip_char 46 rest in
      let frac := if dot then (span_digits rest').1 else "" in
      neg_float neg (round_decimal (default 0 (parse_digits 0 (digits +:+ frac))) (- Z.of_nat (String.length frac)))
  | None => fzero
  end.

(** A text up to its closing quote, with escapes. *)
Fixpoint quoted_body (s : string) : option string :=
  match s with
  | EmptyString => None
  | String c s' =>
      if code c =? 34 then Some ""
      else if Ascii.eqb c "\" then
        match s' with
        | String d s'' => if code d =? 10 then None else (fun r => String c (String d r)) <$> quoted_body s''
        | EmptyString => None
        end
      else String c <$> quoted_body s'
  end.

Definition string_at (key s : string) : option string :=
  s ← after_key key s;
  let '(quote, s) := skip_char 34 s in
  if quote : bool then quoted_body s else None.

Definition stringField (line key : string) : string :=
  match find_match (string_at key) line with
  | Some raw => default raw (Unquote raw)
  | None => ""
  end.

(** [scheme[0-9.]+:[0-9]+], and the rest of the text. *)
Fixpoint span_host (s : string) : string * string :=
  match s with
  | String c s' =>
      if match digit_val c with Some _ => true | None => Ascii.eqb c "." end
      then let '(h, r) := span_host s' in (String c h, r) else ("", s)
  | EmptyString => ("", s)
  end.
Definition address_at (scheme s : string) : option string :=
  if HasPrefix s scheme then
    let '(host, s) := span_host (str_drop (String.length scheme) s) in
    let '(colon, s) := skip_char 58 s in
    let '(port, rest) := span_digits s in
    if negb (String.eqb host "") && (colon : bool) && negb (String.eqb port "") then Some rest else None
  else None.

(** [re.ReplaceAllString] with a text without expansions. *)
Fixpoint replace_addresses (fuel : nat) (scheme with_ s : string) : string :=
  match fuel with
  | O => s
  | Datatypes.S n =>
      match address_at scheme s with
      | Some rest => with_ +:+ replace_addresses n scheme with_ rest
      | None => match s with EmptyString => "" | String c s' => String c (replace_addresses n scheme with_ s') end
      end
  end.
