(* ===== verification/GoFormat.v ===== *)
(** * Numbers and times as text: [strconv], [fmt], [time]

    [strconv.FormatFloat] with a fixed precision, [%.3f], [FormatBool], and
    times in RFC 3339.  A binary64 number is a fraction of integers, rounded
    half to even at the digit asked for. *)

From S2P Require Import Prelude GoStrings GoTime GoFloat GoText.
From Stdlib Require Import Ascii Floats.SpecFloat DecimalString Decimal.

(** ** Decimal digits *)
Definition fraction_of (m : positive) (e : Z) : Z * Z :=
  if 0 <=? e then (Z.shiftl (Zpos m) e, 1) else (Zpos m, Z.shiftl 1 (- e)).

Definition round_half_even (n d : Z) : Z :=
  let q := n / d in
  let r := n mod d in
  if 2 * r <? d then q else if d <? 2 * r then q + 1 else if Z.even q then q else q + 1.

(** The place of the point: [10^(dp-1) <= n/d < 10^dp].  A binary64 number is
    between [10^-324] and [10^309]. *)
Fixpoint point_right (fuel : nat) (n d dp : Z) : Z :=
  match fuel with O => dp | S k => if d <=? n then point_right k n (10 * d) (dp + 1) else dp end.
Fixpoint point_left (fuel : nat) (n d dp : Z) : Z :=
  match fuel with O => dp | S k => if 10 * n <? d then point_left k (10 * n) d (dp - 1) else dp end.
Definition decimal_point (n d : Z) : Z := if d <=? n then point_right 400 n d 0 else point_left 400 n d 0.

Definition scaled (n d s : Z) : Z := if 0 <=? s then round_half_even (n * 10 ^ s) d else round_half_even n (d * 10 ^ (- s)).

Fixpoint trim_zeros (s : string) : string :=
  match s with
  | EmptyString => ""
  | String c s' => if str_all (fun c => Ascii.eqb c "0") s then "" else String c (trim_zeros s')
  end.

(** The [prec] significant digits, without the zeros at their end, and the place of the point. *)
Definition significant (prec : Z) (n d : Z) : string * Z :=
  let dp := decimal_point n d in
  let q := scaled n d (prec - dp) in
  if q =? 10 ^ prec then ("1", dp + 1) else (trim_zeros (itoa q), dp).

Fixpoint zeros (n : nat) : string := match n with O => "" | S k => String "0" (zeros k) end.

(** ** [strconv.FormatFloat(x, 'g', prec, 64)] *)
Definition fmt_e (digits : string) (dp : Z) : string :=
  let exp := dp - 1 in
  str_take 1 digits +:+ (if Nat.ltb 1 (String.length digits) then "." +:+ str_drop 1 digits else "") +:+ "e" +:+
  (if exp <? 0 then "-" else "+") +:+ (if Z.abs exp <? 10 then "0" else "") +:+ itoa (Z.abs exp).
Definition fmt_f (digits : string) (dp : Z) : string :=
  if 0 <? dp then
    let k := Z.to_nat dp in
    str_take k digits +:+ zeros (k - String.length digits) +:+
    (if Nat.ltb k (String.length digits) then "." +:+ str_drop k digits else "")
  else "0." +:+ zeros (Z.to_nat (- dp)) +:+ digits.
Definition fmt_g (prec : Z) (digits : string) (dp : Z) : string :=
  let nd := Z.of_nat (String.length digits) in
  let eprec := if (nd <? prec) && (dp <=? nd) then nd else prec in
  let exp := dp - 1 in
  if (exp <? -4) || (eprec <=? exp) then fmt_e digits dp else fmt_f digits dp.
Definition FormatFloat_g (prec : Z) (x : float) : string :=
  match x with
  | S754_zero s => if s then "-0" else "0"
  | S754_infinity s => if s then "-Inf" else "+Inf"
  | S754_nan => "NaN"
  | S754_finite s m e =>
      let '(n, d) := fraction_of m e in
      let '(digits, dp) := significant prec n d in
      (if s then "-" else "") +:+ fmt_g prec digits dp
  end.

(** ** [%.{prec}f] *)
Definition pad (width : nat) (s : string) : string := zeros (width - String.length s) +:+ s.
Definition format_fixed (prec : nat) (x : float) : string :=
  match x with
  | S754_zero s => (if s then "-0." else "0.") +:+ zeros prec
  | S754_infinity s => if s then "-Inf" else "+Inf"
  | S754_nan => "NaN"
  | S754_finite s m e =>
      let '(n, d) := fraction_of m e in
      let q := round_half_even (n * 10 ^ Z.of_nat prec) d in
      (if s then "-" else "") +:+ itoa (q / 10 ^ Z.of_nat prec) +:+ "." +:+ pad prec (itoa (q mod 10 ^ Z.of_nat prec))
  end.

Definition FormatBool (b : bool) : string := if b then "true" else "false".

(** ** [t.UTC().Format(time.RFC3339)], [time.RFC3339Nano] *)

(** The date of a day since 1970. *)
Definition civil_from_days (days : Z) : Z * Z * Z :=
  let z := days + 719468 in
  let era := z / 146097 in
  let doe := z - era * 146097 in
  let yoe := (doe - doe / 1460 + doe / 36524 - doe / 146096) / 365 in
  let doy := doe - (365 * yoe + yoe / 4 - yoe / 100) in
  let mp := (5 * doy + 2) / 153 in
  let month := if mp <? 10 then mp + 3 else mp - 9 in
  (yoe + era * 400 + (if month <=? 2 then 1 else 0), month, doy - (153 * mp + 2) / 5 + 1).

Definition FormatRFC3339 (nano : bool) (t : Z) : string :=
  let secs := t / Second in
  let nsec := t mod Second in
  let '(year, month, day) := civil_from_days (secs / 86400) in
  let s := secs mod 86400 in
  let fraction := trim_zeros (pad 9 (itoa nsec)) in
  pad 4 (itoa year) +:+ "-" +:+ pad 2 (itoa month) +:+ "-" +:+ pad 2 (itoa day) +:+ "T" +:+
  pad 2 (itoa (s / 3600)) +:+ ":" +:+ pad 2 (itoa (s / 60 mod 60)) +:+ ":" +:+ pad 2 (itoa (s mod 60)) +:+
  (if nano && negb (String.eqb fraction "") then "." +:+ fraction else "") +:+ "Z".

Example formats :
  map (FormatFloat_g 8) [float64 5; float64 100; float64 123456789; float64_div (float64 31) (float64 2);
    float64_div (float64 1) (float64 3); float64_div (float64 1) (float64 100000); float64_div (float64 (-2)) (float64 3000); float64 99999999;
    float64 999999995] =
  ["5"; "100"; "1.2345679e+08"; "15.5"; "0.33333333"; "1e-05"; "-0.00066666667"; "99999999"; "1e+09"] /\
  map (format_fixed 3) [float64 2; float64_div (float64 1) (float64 8); float64_div (float64 1) (float64 2000)] =
  ["2.000"; "0.125"; "0.001"] /\
  FormatRFC3339 true (1719834896 * Second + 120000000) = "2024-07-01T11:54:56.12Z" /\
  ParseRFC3339 (FormatRFC3339 true (1719834896 * Second + 120000000)) = Some (1719834896 * Second + 120000000).
Proof. vm_compute. done. Qed.
