(* ===== verification/GoBase64.v ===== *)
(** * Go's [encoding/base64], standard encoding

    [EncodeToString] and [DecodeString] of [base64.StdEncoding]: padded, not
    strict, line breaks skipped.  The position a decoding error reports is
    dropped. *)

From S2P Require Import Prelude GoStrings.
From Stdlib Require Import Ascii.

Definition byte_of (c : ascii) : Z := Z.of_N (N_of_ascii c).
Definition of_byte (z : Z) : ascii := ascii_of_N (Z.to_N z).

(** The character of a 6-bit value, and back. *)
Definition enc_char (v : Z) : ascii :=
  of_byte (if v <? 26 then 65 + v
           else if v <? 52 then 97 + (v - 26)
           else if v <? 62 then 48 + (v - 52)
           else if v =? 62 then 43 else 47).

Definition dec_char (c : ascii) : option Z :=
  let b := byte_of c in
  if (65 <=? b) && (b <=? 90) then Some (b - 65)
  else if (97 <=? b) && (b <=? 122) then Some (b - 97 + 26)
  else if (48 <=? b) && (b <=? 57) then Some (b - 48 + 52)
  else if b =? 43 then Some 62
  else if b =? 47 then Some 63
  else None.

Definition padChar : ascii := of_byte 61.

Fixpoint EncodeToString (src : string) : string :=
  match src with
  | EmptyString => EmptyString
  | String a EmptyString =>
      let a := byte_of a in
      String (enc_char (a / 4)) (String (enc_char (a mod 4 * 16)) (String padChar (String padChar EmptyString)))
  | String a (String b EmptyString) =>
      let a := byte_of a in let b := byte_of b in
      String (enc_char (a / 4)) (String (enc_char (a mod 4 * 16 + b / 16))
        (String (enc_char (b mod 16 * 4)) (String padChar EmptyString)))
  | String a (String b (String c src')) =>
      let a := byte_of a in let b := byte_of b in let c := byte_of c in
      String (enc_char (a / 4)) (String (enc_char (a mod 4 * 16 + b / 16))
        (String (enc_char (b mod 16 * 4 + c / 64)) (String (enc_char (c mod 64)) (EncodeToString src'))))
  end.

(** The bytes of the characters of one quantum. *)
Definition byte1 (w x : Z) : ascii := of_byte (w * 4 + x / 16).
Definition byte2 (x y : Z) : ascii := of_byte (x mod 16 * 16 + y / 4).
Definition byte3 (y z : Z) : ascii := of_byte (y mod 4 * 64 + z).

Fixpoint decode_quanta (src : string) : option string :=
  match src with
  | EmptyString => Some EmptyString
  | String c1 (String c2 (String c3 (String c4 src'))) =>
      w ← dec_char c1; x ← dec_char c2;
      if Ascii.eqb c3 padChar then
        if Ascii.eqb c4 padChar && String.eqb src' "" then Some (String (byte1 w x) EmptyString) else None
      else
        y ← dec_char c3;
        if Ascii.eqb c4 padChar then
          if String.eqb src' "" then Some (String (byte1 w x) (String (byte2 x y) EmptyString)) else None
        else
          z ← dec_char c4; rest ← decode_quanta src';
          Some (String (byte1 w x) (String (byte2 x y) (String (byte3 y z) rest)))
  | _ => None
  end.

Definition is_newline (c : ascii) : bool := (byte_of c =? 10) || (byte_of c =? 13).

Fixpoint skip_newlines (s : string) : string :=
  match s with
  | EmptyString => EmptyString
  | String c s' => if is_newline c then skip_newlines s' else String c (skip_newlines s')
  end.

Definition DecodeString (s : string) : res string :=
  match decode_quanta (skip_newlines s) with
  | Some d => inl d
  | None => inr (EExt XOther "illegal base64 data")
  end.

(** ** Decoding what was encoded *)

Lemma of_byte_of c : of_byte (byte_of c) = c.
Proof. unfold of_byte, byte_of. by rewrite N2Z.id, ascii_N_embedding. Qed.

Lemma byte_of_range c : 0 <= byte_of c < 256.
Proof. unfold byte_of. pose proof (N_ascii_bounded c). lia. Qed.

(** Every 6-bit value is spelled by a character of the alphabet. *)
Definition enc_ok (v : Z) : bool :=
  bool_decide (dec_char (enc_char v) = Some v) && negb (Ascii.eqb (enc_char v) padChar) &&
  negb (is_newline (enc_char v)).

Lemma enc_all : forallb (fun n => enc_ok (Z.of_nat n)) (seq 0 64) = true.
Proof. vm_compute. reflexivity. Qed.

Lemma enc_char_ok v :
  0 <= v < 64 ->
  dec_char (enc_char v) = Some v /\ Ascii.eqb (enc_char v) padChar = false /\ is_newline (enc_char v) = false.
Proof.
  intros Hv. pose proof (proj1 (forallb_forall _ _) enc_all (Z.to_nat v)) as Hall.
  specialize (Hall (proj2 (in_seq 64 0 (Z.to_nat v)) ltac:(lia))). cbn beta in Hall. rewrite Z2Nat.id in Hall by lia.
  unfold enc_ok in Hall. apply andb_true_iff in Hall as [[H1 H2]%andb_true_iff H3].
  apply bool_decide_eq_true in H1. apply negb_true_iff in H2, H3. done.
Qed.

Lemma string_ind3 (P : string -> Prop) :
  P "" -> (forall a, P (String a "")) -> (forall a b, P (String a (String b ""))) ->
  (forall a b c s, P s -> P (String a (String b (String c s)))) -> forall s, P s.
Proof.
  intros H0 H1 H2 H3. refine (fix go (s : string) : P s := _).
  destruct s as [|a [|b [|c s]]]; [done|apply H1|apply H2|apply H3, go].
Qed.

Ltac enc_chars :=
  repeat match goal with
  | |- context [dec_char (enc_char ?v)] =>
      let H := fresh in
      assert (H : 0 <= v < 64) by (Z.to_euclidean_division_equations; lia);
      rewrite !(proj1 (enc_char_ok v H)); clear H
  | |- context [Ascii.eqb (enc_char ?v) padChar] =>
      let H := fresh in
      assert (H : 0 <= v < 64) by (Z.to_euclidean_division_equations; lia);
      rewrite !(proj1 (proj2 (enc_char_ok v H))); clear H
  | |- context [is_newline (enc_char ?v)] =>
      let H := fresh in
      assert (H : 0 <= v < 64) by (Z.to_euclidean_division_equations; lia);
      rewrite !(proj2 (proj2 (enc_char_ok v H))); clear H
  end.

Lemma byte1_enc a x : 0 <= a < 256 -> 0 <= x < 16 -> byte1 (a / 4) (a mod 4 * 16 + x) = of_byte a.
Proof. intros. unfold byte1. f_equal. Z.to_euclidean_division_equations; lia. Qed.
Lemma byte2_enc a b y : 0 <= b < 256 -> 0 <= y < 4 -> byte2 (a * 16 + b / 16) (b mod 16 * 4 + y) = of_byte b.
Proof. intros. unfold byte2. f_equal. Z.to_euclidean_division_equations; lia. Qed.
Lemma byte3_enc b c : 0 <= c < 256 -> byte3 (b * 4 + c / 64) (c mod 64) = of_byte c.
Proof. intros. unfold byte3. f_equal. Z.to_euclidean_division_equations; lia. Qed.

Lemma skip_newlines_enc s : skip_newlines (EncodeToString s) = EncodeToString s.
Proof.
  assert (Hpad : is_newline padChar = false) by done.
  induction s as [|a|a b|a b c s IH] using string_ind3; cbn [EncodeToString skip_newlines]; [done|..];
    pose proof (byte_of_range a); try pose proof (byte_of_range b); try pose proof (byte_of_range c);
    cbv zeta; cbn [skip_newlines]; enc_chars; rewrite ?Hpad, ?IH; done.
Qed.

Lemma DecodeString_Encode s : DecodeString (EncodeToString s) = inl s.
Proof.
  unfold DecodeString. rewrite skip_newlines_enc.
  enough (decode_quanta (EncodeToString s) = Some s) as -> by done.
  assert (Hpad : Ascii.eqb padChar padChar = true) by done.
  induction s as [|a|a b|a b c s IH] using string_ind3; cbn [EncodeToString]; [done|..];
    pose proof (byte_of_range a); try pose proof (byte_of_range b); try pose proof (byte_of_range c);
    cbv zeta; cbn [decode_quanta]; enc_chars; rewrite ?Hpad, ?IH; cbn.
  - rewrite <- (Z.add_0_r (_ * 16)), byte1_enc by lia. by rewrite of_byte_of.
  - rewrite byte1_enc by (Z.to_euclidean_division_equations; lia).
    rewrite <- (Z.add_0_r (_ * 4)), byte2_enc by lia. by rewrite !of_byte_of.
  - rewrite byte1_enc, byte2_enc, byte3_enc by (Z.to_euclidean_division_equations; lia). by rewrite !of_byte_of.
Qed.

Example Encode_foob : EncodeToString "foob" = "Zm9vYg==" /\ DecodeString "Zm9v
YmFy" = inl "foobar" /\ DecodeString "Zm9vYg=" = inr (EExt XOther "illegal base64 data").
Proof. vm_compute. done. Qed.
