(* ===== verification/Util.v ===== *)
(** * Shared helpers: [util/util.go], [petri/core/util/*.go]

    Compression of states, polling, random names, the archive of a file and
    the cleaning of Docker's output.  gzip is a parameter ([Gzip]): what it
    writes can be read back, and an empty string is not gzip data. *)

From S2P Require Import Prelude GoStrings.

(** ** [CompressData], [DecompressData] *)
Class Gzip := {
  gz_writer : Type;                       (* a writer with its buffer *)
  gz_Write : string -> res gz_writer;     (* one Write on a new writer *)
  gz_Close : gz_writer -> res string;     (* what the buffer then holds *)
  gz_NewReader : string -> res unit;      (* reads the header *)
  gz_ReadAll : string -> res string;
  gz_roundtrip : forall d gz z, gz_Write d = inl gz -> gz_Close gz = inl z ->
    z <> "" /\ gz_NewReader z = inl tt /\ gz_ReadAll z = inl d
}.

Section compress.
Context {G : Gzip}.

Definition CompressData (data : string) : outcome string :=
  if String.eqb data "" then Ok data
  else
    match gz_Write data with
    | inr err => Err (EWrap "failed to compress data" err)
    | inl gz =>
        match gz_Close gz with
        | inr err => Err (EWrap "failed to close gzip writer" err)
        | inl z => Ok z
        end
    end.

Definition DecompressData (data : string) : outcome string :=
  if String.eqb data "" then Ok data
  else
    match gz_NewReader data with
    | inr err => Err (EWrap "failed to create gzip reader" err)
    | inl _ =>
        match gz_ReadAll data with
        | inr err => Err (EWrap "failed to decompress data" err)
        | inl result => Ok result
        end
    end.

Lemma CompressData_empty data z : CompressData data = Ok z -> z = "" <-> data = "".
Proof.
  unfold CompressData. destruct (String.eqb_spec data "") as [->|Hne]; [by intros [= <-]|].
  destruct (gz_Write data) as [gz|e] eqn:Hw; [|done].
  destruct (gz_Close gz) as [z'|e] eqn:Hz; [|done]. intros [= <-].
  destruct (gz_roundtrip _ _ _ Hw Hz) as [Hne' _]. by split.
Qed.

Lemma CompressData_cases data : (exists z, CompressData data = Ok z) \/ (exists e, CompressData data = Err e).
Proof. unfold CompressData. repeat case_match; eauto. Qed.
End compress.

(** gzip for examples: a header byte, then the data. *)
Definition tag : Ascii.ascii := Ascii.ascii_of_nat 31.
Definition tag_Write (d : string) : res string := inl (String tag d).
Definition tag_Close (gz : string) : res string := inl gz.
Definition tag_NewReader (z : string) : res unit :=
  match z with
  | String c _ => if Ascii.eqb c tag then inl tt else inr (EExt XOther "gzip: invalid header")
  | EmptyString => inr (EExt XOther "EOF")
  end.
Definition tag_ReadAll (z : string) : res string :=
  match z with String _ d => inl d | EmptyString => inr (EExt XOther "EOF") end.
Lemma tag_roundtrip d gz z : tag_Write d = inl gz -> tag_Close gz = inl z ->
  z <> "" /\ tag_NewReader z = inl tt /\ tag_ReadAll z = inl d.
Proof. by intros [= <-] [= <-]. Qed.
Definition tag_gzip : Gzip := Build_Gzip string tag_Write tag_Close tag_NewReader tag_ReadAll tag_roundtrip.

(** ** [RandomString] *)
Definition letterRunes : string := "abcdefghijklmnopqrstuvwxyzABCDEFGHIJKLMNOPQRSTUVWXYZ".

(** [Intn] draws a number below the length of the alphabet. *)
Fixpoint RandomString {E S} (Intn : M E S (fin 52)) (n : nat) : M E S string :=
  match n with
  | O => retM ""
  | Datatypes.S n' =>
      let* i := Intn in
      let* rest := RandomString Intn n' in
      retM (String (default (Ascii.ascii_of_nat 97) (String.get (fin_to_nat i) letterRunes)) rest)
  end.

(** ** [WaitForCondition]

    Each round waits on the context and the interval, whichever comes
    first: [select_done] answers whether the context ended. *)
Section wait.
Context {E : sig} {S : Type}.

Definition wait_round (select_done : M E S bool) (timeoutSeconds : Z) (fn : M E S bool) : M E S (option unit) :=
  let* ended := select_done in
  if ended then throw (ENew ("failed waiting for condition after " +:+ itoa timeoutSeconds +:+ ".000000 seconds"))
  else
    let* r := try_ fn in
    match r with
    | inr err => throw (ENew ("error occurred while waiting for condition: " +:+ Error err))
    | inl true => retM (Some tt)
    | inl false => retM None
    end.

Definition WaitForCondition (fuel : nat) (select_done : M E S bool) (timeoutSeconds : Z)
    (fn : M E S bool) : M E S unit :=
  poll fuel (wait_round select_done timeoutSeconds fn).

(** What holds at every round holds at the end, and a wait that succeeds
    ends with a round whose condition was reached. *)
Lemma WaitForCondition_run (I F : list (event E) -> S -> Prop) fuel select_done timeoutSeconds fn :
  preserves I select_done ->
  (forall s t, I t s -> wpM fn s (fun t' s' o => I t' s' /\ (o = Ok true -> F t' s')) t) ->
  forall s t, I t s ->
  wpM (WaitForCondition fuel select_done timeoutSeconds fn) s (fun t' s' o => I t' s' /\ (o = Ok tt -> F t' s')) t.
Proof.
  intros Hsel Hfn. unfold WaitForCondition. induction fuel as [|n IH]; intros s t HI; cbn [poll]; [by apply wpM_lift|].
  apply wpM_bind. unfold wait_round. wpM_step. eapply wpM_mono; [|by apply Hsel].
  intros t1 s1 [[]|e|m|] H1; [by wpM_step| |done..]. do 2 wpM_step. eapply wpM_mono; [|by apply Hfn].
  intros t2 s2 [[]|e|m|] [H2 HF]; try done.
  - do 2 wpM_step. auto.
  - wpM_step. by apply IH.
Qed.
End wait.

(** ** Properties *)

(** A compressed state decompresses to itself, whatever its content,
    and only the empty state compresses to the empty one. *)
Theorem CompressData_roundtrip {G : Gzip} (data z : string) :
  CompressData data = Ok z -> DecompressData z = Ok data /\ (z = "" <-> data = "").
Proof.
  intros Hc. split; [|by apply CompressData_empty].
  unfold CompressData in Hc. destruct (String.eqb_spec data "") as [->|Hne].
  - by injection Hc as <-.
  - destruct (gz_Write data) as [gz|e] eqn:Hw; [|done].
    destruct (gz_Close gz) as [z'|e] eqn:Hz; [|done]. injection Hc as ->.
    destruct (gz_roundtrip _ _ _ Hw Hz) as (Hne' & Hr & Ha). clear Hz. rename Hne' into Hz. unfold DecompressData.
    apply String.eqb_neq in Hz. by rewrite Hz, Hr, Ha.
Qed.

Lemma CompressData_roundtrip_witness :
  @DecompressData tag_gzip (String tag "state") = Ok "state" /\ (String tag "state" = "" <-> "state" = "").
Proof. apply (@CompressData_roundtrip tag_gzip "state" (String tag "state")). reflexivity. Defined.

(** ** [MakeSingleFileTar] and [CleanDockerOutput], which nothing calls *)
Section tar.
Variable WriteHeader : string -> Z -> res string.      (* of archive/tar: what is written *)
Variable Copy : string -> res string.                  (* io.Copy into the archive: what is written *)

(** A reader that does not know its size is refused; the archive is neither
    flushed nor closed. *)
Definition MakeSingleFileTar (name : string) (size : option Z) (file : string) : outcome string :=
  match size with
  | None => Err (ENew "unable to determine file size")
  | Some fileSize =>
      match WriteHeader name fileSize with
      | inr e => Err e
      | inl header => match Copy file with inr e => Err e | inl content => Ok (header +:+ content) end
      end
  end.
End tar.

(** [bytes.TrimFunc] of a predicate that holds of every byte above 0x7f:
    runes of several bytes go byte by byte. *)
Fixpoint trim_left_by (P : Ascii.ascii -> bool) (s : string) : string :=
  match s with EmptyString => "" | String c s' => if P c then trim_left_by P s' else s end.
Fixpoint trim_right_by (P : Ascii.ascii -> bool) (s : string) : string :=
  match s with
  | EmptyString => ""
  | String c s' => let r := trim_right_by P s' in if String.eqb r "" && P c then "" else String c r
  end.
Definition trim_by P s := trim_right_by P (trim_left_by P s).

Definition printable (c : Ascii.ascii) : bool :=
  let n := Z.of_nat (Ascii.nat_of_ascii c) in (32 <=? n) && (n <=? 126).
Definition space_byte (c : Ascii.ascii) : bool :=
  let n := Z.of_nat (Ascii.nat_of_ascii c) in ((9 <=? n) && (n <=? 13)) || (n =? 32).
Definition newline_or_dot (c : Ascii.ascii) : bool :=
  let n := Z.of_nat (Ascii.nat_of_ascii c) in (n =? 10) || (n =? 46).

Definition CleanDockerOutput (stdout : string) : string :=
  trim_by newline_or_dot (trim_by space_byte (trim_by (fun c => negb (printable c)) stdout)).

Lemma trim_left_by_part P s : exists a, s = a +:+ trim_left_by P s /\ Forall (fun c => P c = true) (String.list_ascii_of_string a).
Proof.
  induction s as [|c s (a & IH & Ha)]; [by exists ""|]. cbn. destruct (P c) eqn:Hc; [|by exists ""].
  exists (String c a). cbn. split; [by f_equal|by constructor].
Qed.
Lemma trim_right_by_part P s : exists b, s = trim_right_by P s +:+ b /\ Forall (fun c => P c = true) (String.list_ascii_of_string b).
Proof.
  induction s as [|c s (b & IH & Hb)]; [by exists ""|]. cbn [trim_right_by].
  destruct (String.eqb_spec (trim_right_by P s) "") as [Hr|Hr]; cbn [andb].
  - destruct (P c) eqn:Hc.
    + exists (String c b). rewrite Hr in IH. cbn in IH. subst. split; [done|by constructor].
    + exists b. cbn. split; [by f_equal|done].
  - exists b. cbn. split; [by f_equal|done].
Qed.
Lemma trim_by_part P s : exists a b, s = a +:+ trim_by P s +:+ b /\
  Forall (fun c => P c = true) (String.list_ascii_of_string a) /\ Forall (fun c => P c = true) (String.list_ascii_of_string b).
Proof.
  destruct (trim_left_by_part P s) as (a & Hs & Ha), (trim_right_by_part P (trim_left_by P s)) as (b & Ht & Hb).
  exists a, b. split_and!; [|done..]. unfold trim_by. rewrite Hs at 1. by rewrite Ht at 1.
Qed.

Lemma append_parts a b c : (a +:+ b) +:+ c = a +:+ b +:+ c.
Proof. induction a as [|x a IH]; [done|]. cbn. by rewrite IH. Qed.

Lemma list_ascii_app a b :
  String.list_ascii_of_string (a +:+ b) = String.list_ascii_of_string a ++ String.list_ascii_of_string b.
Proof. induction a as [|c a IH]; [done|]. cbn. by rewrite IH. Qed.

(** The output without bytes at its ends, each unprintable, blank or a dot;
    so both ends are cleaned, the end of a sentence included. *)
Lemma CleanDockerOutput_part s : exists a b, s = a +:+ CleanDockerOutput s +:+ b /\
  Forall (fun c => negb (printable c) || space_byte c || newline_or_dot c = true) (String.list_ascii_of_string (a +:+ b)).
Proof.
  unfold CleanDockerOutput.
  destruct (trim_by_part (fun c => negb (printable c)) s) as (a1 & b1 & H1 & Ha1 & Hb1). set (s1 := trim_by _ s) in *.
  destruct (trim_by_part space_byte s1) as (a2 & b2 & H2 & Ha2 & Hb2). set (s2 := trim_by space_byte s1) in *.
  destruct (trim_by_part newline_or_dot s2) as (a3 & b3 & H3 & Ha3 & Hb3).
  exists (a1 +:+ a2 +:+ a3), (b3 +:+ b2 +:+ b1). split.
  - rewrite H1 at 1. rewrite H2 at 1. rewrite H3 at 1. by rewrite !append_parts.
  - rewrite !list_ascii_app, !Forall_app. repeat split; (eapply Forall_impl; [eassumption|]); intros c ->; by rewrite ?orb_true_r.
Qed.

Example CleanDockerOutput_run : CleanDockerOutput (nl +:+ "done. " +:+ nl +:+ ".") = "done. ".
Proof. reflexivity. Qed.
