(* ===== verification/NodeConfig.v ===== *)
(** * Node configuration files: [petri/cosmos/node/config.go]

    [recursiveModifyToml] over [GoVal] trees, the default configurations,
    [ModifyTomlConfigFile] over a task's files and the setters built on it.
    The TOML library is a parameter ([TomlCodec]). *)

From S2P Require Import Prelude GoStrings GoVal ProviderDefs ChainTypes TaskI.

(** ** [recursiveModifyToml]

    [modify_value value cV] is what the loop body stores at a key whose
    value in the modifications is [value] and in the config is [cV]. The
    type assertion [value.(map[string]interface{})] panics on a map of
    another type. *)
Definition as_map (cV : option GoVal) : gomap :=
  match cV with Some (VMap m) => m | _ => [] end.

Fixpoint modify_value (value : GoVal) (cV : option GoVal) : outcome GoVal :=
  match value with
  | VMap modifications =>
      let cVM := as_map cV in
      (fix loop (mods : gomap) (c : gomap) : outcome GoVal :=
         match mods with
         | [] => Ok (VMap c)
         | (key, v) :: mods' =>
             match modify_value v (lookup_map c key) with
             | Ok v' => loop mods' (set_map c key v')
             | o => o
             end
         end) modifications cVM
  | VMapOther _ => Panic "interface conversion: interface {} is not map[string]interface {}"
  | _ => Ok value
  end.

Fixpoint modify_entries (c : gomap) (modifications : gomap) : outcome gomap :=
  match modifications with
  | [] => Ok c
  | (key, value) :: mods' =>
      match modify_value value (lookup_map c key) with
      | Ok v => modify_entries (set_map c key v) mods'
      | Err e => Err e
      | Panic m => Panic m
      | NoFuel => NoFuel
      end
  end.

(** The configuration is a Go map, which can be nil: reading a nil map
    finds nothing, storing into it panics.  The first entry of the
    modifications is reached with its value, and a nested map, computed. *)
Definition recursiveModifyToml (c : option gomap) (modifications : gomap) : outcome (option gomap) :=
  match c, modifications with
  | Some m, _ => m' ← modify_entries m modifications; mret (Some m')
  | None, [] => Ok None
  | None, (_, value) :: _ => _ ← modify_value value None; Panic "assignment to entry in nil map"
  end.

(** ** Default configurations *)
Section defaults.
(** The keyring backend name is a constant of the Cosmos SDK. *)
Context (BackendTest : string).

Definition GenerateDefaultClientConfig (chainID : string) : gomap :=
  [("chain-id", VStr chainID);
   ("keyring-backend", VStr BackendTest);
   ("output", VStr "text");
   ("node", VStr "http://localhost:26657");
   ("broadcast-mode", VStr "sync")].
End defaults.

Definition GenerateDefaultConsensusConfig (externalAddr : string) : gomap :=
  let blockTime := "2s" in
  [("log_level", VStr "info");
   ("p2p", VMap
     [("allow_duplicate_ip", VBool true);
      ("addr_book_strict", VBool false);
      ("external_address", VStr externalAddr)]);
   ("consensus", VMap
     [("timeout_commit", VStr blockTime);
      ("timeout_propose", VStr blockTime)]);
   ("instrumentation", VMap [("prometheus", VBool true)]);
   ("rpc", VMap
     [("laddr", VStr "tcp://0.0.0.0:26657");
      ("allowed_origins", VList [VStr "*"])])].

Definition GenerateDefaultAppConfig (c : ChainConfig) : gomap :=
  [("minimum-gas-prices", VStr (GasPrices c));
   ("grpc", VMap [("address", VStr "0.0.0.0:9090")]);
   ("api", VMap
     [("enable", VBool true);
      ("swagger", VBool true);
      ("address", VStr "tcp://0.0.0.0:1317")]);
   ("telemetry", VMap
     [("enabled", VBool true);
      ("prometheus-retention-time", VInt 3600)])] ++
  (if IsEVMChain c then
    [("evm", VMap
       [("tracer", VStr "");
        ("max-tx-gas-wanted", VInt 0);
        ("cache-preimage", VBool false)]);
     ("json-rpc", VMap
       [("enable", VBool true);
        ("address", VStr "127.0.0.1:8545");
        ("ws-address", VStr "127.0.0.1:8546");
        ("api", VStr "eth,net,web3");
        ("gas-cap", VInt 25000000);
        ("allow-insecure-unlock", VBool true);
        ("evm-timeout", VStr "5s");
        ("txfee-cap", VInt 1);
        ("filter-cap", VInt 200);
        ("feehistory-cap", VInt 100);
        ("logs-cap", VInt 10000);
        ("block-range-cap", VInt 10000);
        ("http-timeout", VStr "30s");
        ("http-idle-timeout", VStr "2m0s");
        ("allow-unprotected-txs", VBool false);
        ("max-open-connections", VInt 0);
        ("enable-indexer", VBool false);
        ("metrics-address", VStr "127.0.0.1:6065");
        ("fix-revert-gas-refund-height", VInt 0)])]
   else [])%list.

(** ** Paths

    A path names an entry of nested maps; [shape] forgets what a map
    holds, so that two maps with equal shapes at every path are the same
    tree whatever order their keys are kept in. *)
Definition shape (v : GoVal) : GoVal := match v with VMap _ => VMap [] | _ => v end.

Fixpoint lookup_path (m : gomap) (p : list string) : option GoVal :=
  match p with
  | [] => None
  | k :: p' =>
      match p' with
      | [] => lookup_map m k
      | _ =>
          match lookup_map m k with
          | Some (VMap m') => lookup_path m' p'
          | _ => None
          end
      end
  end.

Definition tree_equiv (m1 m2 : gomap) : Prop :=
  forall p, shape <$> lookup_path m1 p = shape <$> lookup_path m2 p.

(** The modifications bind [p] or replace an entry on the way to it. *)
Fixpoint touches (mods : gomap) (p : list string) : bool :=
  match p with
  | [] => false
  | k :: p' =>
      match lookup_map mods k with
      | None => false
      | Some (VMap m) => match p' with [] => true | _ => touches m p' end
      | Some _ => true
      end
  end.

(** No map of another Go type and no key twice, at any depth of maps: the
    configurations decoded from JSON and TOML, and the defaults. *)
Fixpoint deep_wf (v : GoVal) : bool :=
  match v with
  | VMap m => bool_decide (NoDup m.*1) && forallb (fun kv => deep_wf kv.2) m
  | VMapOther _ => false
  | _ => true
  end.

(** ** Files

    The TOML library: decoding into a map variable, and encoding one.  The
    variable is nil at first and the library allocates the map with the
    first key of the document: an empty document decodes to the nil map.
    What the program relies on: decoding what was encoded gives a map with
    the same booleans, integers and strings at the same paths. *)
Definition is_scalar (v : GoVal) : bool :=
  match v with VBool _ | VInt _ | VStr _ => true | _ => false end.

Definition scalar_equiv (m1 m2 : gomap) : Prop :=
  forall p v, is_scalar v = true -> lookup_path m1 p = Some v <-> lookup_path m2 p = Some v.

Class TomlCodec := {
  toml_Unmarshal : string -> res (option gomap);
  toml_Encode : option gomap -> res string;
  toml_roundtrip : forall c s, toml_Encode (Some c) = inl s ->
    exists c', toml_Unmarshal s = inl c' /\ scalar_equiv c (default [] c')
}.

Section files.
Context {TC : TomlCodec} (BackendTest : string).
(** The text [%v] prints for a map. *)
Context (Sprint : gomap -> string).

Abbreviation NodeM := (M task_sig unit).

Definition ModifyTomlConfigFile (filePath : string) (modifications : gomap) : NodeM unit :=
  let* config := wrap ("failed to retrieve " +:+ filePath) (ask (ReadFile filePath)) in
  let* c := wrap ("failed to unmarshal " +:+ filePath) (lift_res (toml_Unmarshal config)) in
  let* c' := lift_outcome (recursiveModifyToml c modifications) in
  let* buf := lift_res (toml_Encode c') in
  wrap ("overwriting " +:+ filePath) (ask (WriteFile filePath buf)).

(** [if len(custom) > 0 { ... }] *)
Definition apply_custom (what filePath : string) (custom : option gomap) : NodeM unit :=
  match custom with
  | None | Some [] => retM tt
  | Some cfg => wrap ("failed to apply custom " +:+ what +:+ " config") (ModifyTomlConfigFile filePath cfg)
  end.

Definition ApplyCustomConfigs (chainConfig : ChainConfig) : NodeM unit :=
  let* _ := apply_custom "app" "config/app.toml" (CustomAppConfig chainConfig) in
  let* _ := apply_custom "consensus" "config/config.toml" (CustomConsensusConfig chainConfig) in
  apply_custom "client" "config/client.toml" (CustomClientConfig chainConfig).

Definition SetChainConfigs (chainConfig : ChainConfig) (chainID p2pExternalAddr : string) : NodeM unit :=
  let appConfig := GenerateDefaultAppConfig chainConfig in
  let consensusConfig := GenerateDefaultConsensusConfig p2pExternalAddr in
  let clientConfig := GenerateDefaultClientConfig BackendTest chainID in
  let* _ := ModifyTomlConfigFile "config/app.toml" appConfig in
  let* _ := ModifyTomlConfigFile "config/config.toml" consensusConfig in
  let* _ := ModifyTomlConfigFile "config/client.toml" clientConfig in
  ApplyCustomConfigs chainConfig.

Definition node_SetPersistentPeers (peers : string) : NodeM unit :=
  ModifyTomlConfigFile "config/config.toml" [("p2p", VMap [("persistent_peers", VStr peers)])].

(** A bootstrap peer is a map with a host and an id. *)
Definition check_peer (bp : gomap) : outcome unit :=
  match lookup_map bp "host" with
  | None => Err (ENew ("bootstrap peer missing host: " +:+ Sprint bp))
  | Some _ =>
      match lookup_map bp "id" with
      | None => Err (ENew ("bootstrap peer missing id: " +:+ Sprint bp))
      | Some _ => Ok tt
      end
  end.

Definition SetLibP2PBootstrapPeers (peers : list gomap) : NodeM unit :=
  let* _ := for_each peers (fun bp => lift_outcome (check_peer bp)) in
  ModifyTomlConfigFile "config/config.toml"
    [("p2p", VMap [("libp2p", VMap [("bootstrap_peers", VList (map VMap peers))])])].

Definition node_SetSeedNode (seedNode : string) : NodeM unit :=
  ModifyTomlConfigFile "config/config.toml" [("p2p", VMap [("seeds", VStr seedNode)])].

Definition SetSeedMode : NodeM unit :=
  ModifyTomlConfigFile "config/config.toml"
    [("p2p", VMap [("seed_mode", VBool true); ("seeds", VStr "")])].
End files.

(** ** The recursive modification *)
Lemma modify_value_map mods cV :
  modify_value (VMap mods) cV =
  (c' ← modify_entries (as_map cV) mods; mret (VMap c')).
Proof.
  cbn [modify_value]. generalize (as_map cV).
  induction mods as [|[k v] mods IH]; intros c; cbn [modify_entries]; [done|].
  destruct (modify_value v (lookup_map c k)); [apply IH|done..].
Qed.

Lemma modify_value_leaf v cV :
  shape v <> VMap [] -> deep_wf v = true -> modify_value v cV = Ok v.
Proof. destruct v; try (intros; done); intros H; by destruct H. Qed.

Lemma deep_wf_cons k v mods :
  deep_wf (VMap ((k, v) :: mods)) = true <->
  deep_wf v = true /\ k ∉ mods.*1 /\ deep_wf (VMap mods) = true.
Proof.
  simpl. rewrite !andb_true_iff, !bool_decide_eq_true, NoDup_cons. tauto.
Qed.

Lemma deep_wf_lookup mods k v :
  deep_wf (VMap mods) = true -> lookup_map mods k = Some v -> deep_wf v = true.
Proof.
  induction mods as [|[k' v'] mods IH]; [done|].
  rewrite deep_wf_cons. intros (Hv & _ & Hm). cbn [lookup_map].
  destruct (String.eqb k' k); [congruence|auto].
Qed.

(** Well-formed modifications apply: no branch panics or fails. *)
Lemma modify_value_total v : deep_wf v = true -> forall cV, exists v', modify_value v cV = Ok v'.
Proof.
  induction v as [| | | | |l _|m IH|m] using GoVal_ind'; intros Hwf cV; try done; try (by eexists).
  rewrite modify_value_map. generalize (as_map cV).
  clear cV. induction IH as [|[k v] m Hv _ IHm]; intros c; cbn [modify_entries]; [by eexists|].
  apply deep_wf_cons in Hwf as (Hwv & _ & Hwm).
  destruct (Hv Hwv (lookup_map c k)) as [v' Hv']. cbn in Hv'. rewrite Hv'. by apply IHm.
Qed.

Lemma modify_entries_total mods :
  deep_wf (VMap mods) = true -> forall c, exists c', modify_entries c mods = Ok c'.
Proof.
  intros Hwf c. destruct (modify_value_total _ Hwf (Some (VMap c))) as [v' Hv].
  rewrite modify_value_map in Hv. apply outcome_bind_Ok in Hv as (c' & Hc' & _). eauto.
Qed.

(** What the result holds at a key. *)
Lemma modify_entries_key mods : forall c c' k,
  deep_wf (VMap mods) = true -> modify_entries c mods = Ok c' ->
  match lookup_map mods k with
  | None => lookup_map c' k = lookup_map c k
  | Some v => exists v', modify_value v (lookup_map c k) = Ok v' /\ lookup_map c' k = Some v'
  end.
Proof.
  induction mods as [|[key value] mods IH]; intros c c' k Hwf Hrun; cbn [modify_entries] in Hrun.
  - by injection Hrun as ->.
  - apply deep_wf_cons in Hwf as (Hwv & Hni & Hwm).
    destruct (modify_value value (lookup_map c key)) as [v'| | |] eqn:Hv; try discriminate.
    pose proof (IH _ _ k Hwm Hrun) as Hk. cbn [lookup_map].
    destruct (String.eqb_spec key k) as [->|Hne].
    + apply lookup_map_None in Hni. rewrite Hni, lookup_set_map_eq in Hk. eauto.
    + by rewrite !lookup_set_map_ne in Hk by done.
Qed.

Lemma shape_eq_map v : shape v = VMap [] -> exists m, v = VMap m.
Proof. destruct v; try discriminate. eauto. Qed.

Lemma lookup_path_nonmap c k k2 p :
  (forall m, lookup_map c k <> Some (VMap m)) -> lookup_path c (k :: k2 :: p) = None.
Proof.
  intros Hn. simpl. destruct (lookup_map c k) as [[]|]; try done. exfalso. by eapply Hn.
Qed.

Lemma lookup_path_empty p : lookup_path [] p = None.
Proof. by destruct p as [|k [|]]. Qed.

Lemma lookup_path_map c k k2 p m :
  lookup_map c k = Some (VMap m) -> lookup_path c (k :: k2 :: p) = lookup_path m (k2 :: p).
Proof. intros H. cbn [lookup_path]. by rewrite H. Qed.

(** The effect of a modification on the tree: the touched paths are those
    of the modifications, the others are those of the config. *)
Lemma modify_entries_path p : forall mods c c',
  deep_wf (VMap mods) = true -> modify_entries c mods = Ok c' ->
  shape <$> lookup_path c' p =
  if touches mods p then shape <$> lookup_path mods p else shape <$> lookup_path c p.
Proof.
  induction p as [|k p IH]; intros mods c c' Hwf Hrun; [done|].
  pose proof (modify_entries_key mods c c' k Hwf Hrun) as Hk.
  cbn [touches]. destruct (lookup_map mods k) as [v|] eqn:Hm.
  2: { destruct p; cbn [lookup_path]; by rewrite Hk. }
  destruct Hk as (v' & Hv & Hc'). pose proof (deep_wf_lookup _ _ _ Hwf Hm) as Hwv.
  destruct (decide (shape v = VMap [])) as [Hs|Hs].
  - apply shape_eq_map in Hs as [m ->]. rewrite modify_value_map in Hv.
    apply outcome_bind_Ok in Hv as (c2 & Hc2 & [= <-]).
    destruct p as [|k2 p]; [cbn [lookup_path]; by rewrite Hc', Hm|].
    rewrite (lookup_path_map _ _ _ _ _ Hc'), (lookup_path_map _ _ _ _ _ Hm), (IH _ _ _ Hwv Hc2).
    destruct (touches m (k2 :: p)); [done|].
    destruct (lookup_map c k) as [[]|] eqn:Hck;
      try (by rewrite lookup_path_empty, lookup_path_nonmap by (intros; congruence)).
    by rewrite (lookup_path_map _ _ _ _ _ Hck).
  - rewrite modify_value_leaf in Hv by done. injection Hv as <-.
    assert (touched : (match v with VMap m => match p with [] => true | _ => touches m p end | _ => true end) = true)
      by (destruct v; done).
    rewrite touched. destruct p as [|k2 p]; [cbn [lookup_path]; by rewrite Hc', Hm|].
    rewrite !lookup_path_nonmap; [done|..]; intros m' Hm'; by simplify_eq.
Qed.

Lemma touches_tree_equiv p : forall m1 m2, tree_equiv m1 m2 -> touches m1 p = touches m2 p.
Proof.
  induction p as [|k p IH]; intros m1 m2 Heq; [done|]. cbn [touches].
  pose proof (Heq [k]) as Hk. cbn [lookup_path] in Hk.
  destruct (lookup_map m1 k) as [v1|] eqn:H1, (lookup_map m2 k) as [v2|] eqn:H2; try done.
  injection Hk as Hk.
  destruct (decide (shape v1 = VMap [])) as [Hs|Hs].
  - pose proof Hs as Hs2. rewrite Hk in Hs2.
    apply shape_eq_map in Hs as [n1 ->]; apply shape_eq_map in Hs2 as [n2 ->].
    destruct p as [|k2 p]; [done|]. apply IH. intros [|j q]; [done|].
    rewrite <- (lookup_path_map _ _ _ _ _ H1), <- (lookup_path_map _ _ _ _ _ H2). apply Heq.
  - destruct v1, v2; try done; by exfalso.
Qed.

#[export] Instance tree_equiv_equivalence : Equivalence tree_equiv.
Proof. split; [by intros ? ?|by intros ? ? ? ?|]. intros m1 m2 m3 H1 H2 p. by rewrite H1. Qed.

Lemma modify_entries_cong mods1 mods2 c1 c2 c1' c2' :
  deep_wf (VMap mods1) = true -> deep_wf (VMap mods2) = true ->
  tree_equiv mods1 mods2 -> tree_equiv c1 c2 ->
  modify_entries c1 mods1 = Ok c1' -> modify_entries c2 mods2 = Ok c2' ->
  tree_equiv c1' c2'.
Proof.
  intros Hw1 Hw2 Hm Hc Hr1 Hr2 p.
  rewrite (modify_entries_path p _ _ _ Hw1 Hr1), (modify_entries_path p _ _ _ Hw2 Hr2).
  by rewrite (touches_tree_equiv p _ _ Hm), (Hm p), (Hc p).
Qed.

Lemma shape_scalar o v : is_scalar v = true -> shape <$> o = Some v <-> o = Some v.
Proof. destruct o as [[]|], v; simpl; intros; split; intros; congruence. Qed.

(** ** The nil map *)
Lemma recursiveModifyToml_table mods m :
  deep_wf (VMap mods) = true ->
  exists m', modify_entries m mods = Ok m' /\ recursiveModifyToml (Some m) mods = Ok (Some m').
Proof.
  intros Hwf. destruct (modify_entries_total mods Hwf m) as [m' Hm']. exists m'.
  split; [done|]. cbn [recursiveModifyToml]. by rewrite Hm'.
Qed.

Lemma recursiveModifyToml_nil mods :
  deep_wf (VMap mods) = true -> mods <> [] ->
  recursiveModifyToml None mods = Panic "assignment to entry in nil map".
Proof.
  destruct mods as [|[k v] mods]; [done|]. intros Hwf _. apply deep_wf_cons in Hwf as (Hv & _ & _).
  destruct (modify_value_total v Hv None) as [v' Hv']. cbn [recursiveModifyToml]. by rewrite Hv'.
Qed.

(** ** Runs over a task's files *)
Section file_runs.
Context {TC : TomlCodec} {W : Type} (H : handler task_sig W) {F : FileTask H}.
Context (BackendTest : string).

(** The encoder can refuse a value the library cannot write. *)
Definition encode_fails : Prop := exists c e, toml_Encode c = inr e.

(** What a file decodes to, and the scalar entries of its configuration:
    an empty document decodes to the nil map, which has none. *)
Definition decodes (w : W) (f : string) (c : option gomap) : Prop :=
  exists s, files w !! f = Some s /\ toml_Unmarshal s = inl c.

Definition tabled (w : W) (f : string) : Prop := exists m, decodes w f (Some m).
Definition blank (w : W) (f : string) : Prop := decodes w f None.

Definition leaves (w : W) (f : string) (P : list string -> GoVal -> Prop) : Prop :=
  exists c, decodes w f c /\
  forall p v, is_scalar v = true -> lookup_path (default [] c) p = Some v <-> P p v.

Definition edit (mods : gomap) (P : list string -> GoVal -> Prop) : list string -> GoVal -> Prop :=
  fun p v => if touches mods p then lookup_path mods p = Some v else P p v.

Definition config_files : list string := ["config/app.toml"; "config/config.toml"; "config/client.toml"].

(** The configuration files hold the leaves [L] and the others are those of [w0]. *)
Definition configured (w0 : W) (L : string -> list string -> GoVal -> Prop) (w : W) : Prop :=
  (forall f, f ∈ config_files -> leaves w f (L f)) /\
  (forall g, g ∉ config_files -> files w !! g = files w0 !! g).


Lemma leaves_iff w f (P P' : list string -> GoVal -> Prop) :
  (forall p v, P p v <-> P' p v) -> leaves w f P -> leaves w f P'.
Proof. intros Heq (c & Hd & Hc). exists c. split; [done|]. intros p v Hv. by rewrite Hc, Heq. Qed.

Lemma configured_iff w0 (L L' : string -> list string -> GoVal -> Prop) w :
  (forall f p v, f ∈ config_files -> L f p v <-> L' f p v) ->
  configured w0 L w -> configured w0 L' w.
Proof.
  intros Heq [HL HF]. split; [|done]. intros f Hf.
  eapply leaves_iff; [|by apply HL]. intros p v. by apply Heq.
Qed.

(** One edit of a file: a decoded map is edited and written back, the nil
    map panics. *)
Lemma ModifyTomlConfigFile_table f mods w m :
  decodes w f (Some m) -> deep_wf (VMap mods) = true ->
  exists m' o w', modify_entries m mods = Ok m' /\
  runs H (ModifyTomlConfigFile f mods) tt w o tt w' /\
  match toml_Encode (Some m') with
  | inl buf => o = Ok tt /\ files w' = <[f := buf]> (files w)
  | inr e => o = Err e /\ w' = w
  end.
Proof.
  intros (s & Hf & Hs) Hwf. destruct (recursiveModifyToml_table mods m Hwf) as (m' & Hm' & Hc').
  destruct (toml_Encode (Some m')) as [buf|e] eqn:He.
  - destruct (write_file f buf w) as (w' & Hw & Hfs).
    exists m', (Ok tt), w'. rewrite He. split_and!; [done| |done..].
    unfold runs, ModifyTomlConfigFile, bindM, wrap, perform.
    cbn -[recursiveModifyToml]. rewrite read_file, Hf. cbn -[recursiveModifyToml].
    rewrite Hs. cbn -[recursiveModifyToml]. rewrite Hc'. cbn. rewrite He. cbn. by rewrite Hw.
  - exists m', (Err e), w. rewrite He. split_and!; [done| |done..].
    unfold runs, ModifyTomlConfigFile, bindM, wrap, perform.
    cbn -[recursiveModifyToml]. rewrite read_file, Hf. cbn -[recursiveModifyToml].
    rewrite Hs. cbn -[recursiveModifyToml]. rewrite Hc'. cbn. by rewrite He.
Qed.

Lemma ModifyTomlConfigFile_blank f mods w :
  blank w f -> deep_wf (VMap mods) = true -> mods <> [] ->
  runs H (ModifyTomlConfigFile f mods) tt w (Panic "assignment to entry in nil map") tt w.
Proof.
  intros (s & Hf & Hs) Hwf Hne. unfold runs, ModifyTomlConfigFile, bindM, wrap, perform.
  cbn -[recursiveModifyToml]. rewrite read_file, Hf. cbn -[recursiveModifyToml].
  rewrite Hs. cbn -[recursiveModifyToml]. by rewrite recursiveModifyToml_nil.
Qed.

Lemma configured_modify w0 L f mods w m :
  f ∈ config_files -> deep_wf (VMap mods) = true -> configured w0 L w -> decodes w f (Some m) ->
  exists o w', runs H (ModifyTomlConfigFile f mods) tt w o tt w' /\
  match o with
  | Ok _ => configured w0 (fun g => if String.eqb g f then edit mods (L f) else L g) w' /\
      (forall g, g <> f -> files w' !! g = files w !! g)
  | Err _ => encode_fails
  | _ => False
  end.
Proof.
  intros Hin Hwf [HL HF] Hm.
  destruct (ModifyTomlConfigFile_table f mods w m Hm Hwf) as (m' & o & w' & Hm' & Hr & Ho).
  exists o, w'. split; [done|]. destruct (toml_Encode (Some m')) as [buf|e] eqn:He.
  2: { destruct Ho as [-> ->]. by exists (Some m'), e. }
  destruct Ho as [-> Hw'].
  assert (Hother : forall g, g <> f -> files w' !! g = files w !! g)
    by (intros g Hg; by rewrite Hw', lookup_insert_ne).
  split; [split|done].
  - intros g Hg. destruct (String.eqb_spec g f) as [->|Hne].
    + destruct (toml_roundtrip _ _ He) as (c2 & Hc2 & Heq), (HL f Hin) as (c & Hd & Hc).
      assert (c = Some m) as ->
        by (destruct Hd as (s1 & ? & ?), Hm as (s2 & ? & ?); congruence).
      exists c2. split; [exists buf; by rewrite Hw', lookup_insert_eq|].
      intros p v Hv. rewrite <- (Heq p v Hv), <- shape_scalar by done.
      rewrite (modify_entries_path p _ _ _ Hwf Hm'). unfold edit.
      destruct (touches mods p); rewrite shape_scalar by done; [done|by apply Hc].
    + destruct (HL g Hg) as (c & (s & ? & ?) & Hc). exists c. split; [|done].
      exists s. by rewrite Hother.
  - intros g Hg. rewrite Hother; [by apply HF|by intros ->].
Qed.














End file_runs.

(** ** Bootstrap peers *)
Definition bootstrap_ok (bp : gomap) : bool :=
  bool_decide (is_Some (lookup_map bp "host")) && bool_decide (is_Some (lookup_map bp "id")).

Lemma check_peer_ok Sprint bp :
  if bootstrap_ok bp then check_peer Sprint bp = Ok tt else exists e, check_peer Sprint bp = Err e.
Proof.
  unfold bootstrap_ok, check_peer.
  destruct (lookup_map bp "host"); simpl; [|by eexists].
  destruct (lookup_map bp "id"); simpl; [done|by eexists].
Qed.

Lemma check_peers_runs {W} (H : handler task_sig W) Sprint peers (w : W) :
  exists o, runs H (for_each peers (fun bp => lift_outcome (check_peer Sprint bp))) tt w o tt w /\
  if forallb bootstrap_ok peers then o = Ok tt else exists e, o = Err e.
Proof.
  induction peers as [|bp peers (o & Hr & Ho)]; simpl; [by exists (Ok tt)|].
  pose proof (check_peer_ok Sprint bp) as Hbp. destruct (bootstrap_ok bp); simpl.
  - exists o. split; [|done].
    eapply runs_bind; [apply runs_lift|]. by rewrite Hbp.
  - destruct Hbp as [e He]. exists (Err e). split; [|by exists e].
    eapply runs_bind; [apply runs_lift|]. by rewrite He.
Qed.

(** ** A codec for examples

    The encoding of the empty map is the empty document, which decodes to
    the nil map. *)
Definition digit_Unmarshal (s : string) : res (option gomap) :=
  match decode_val s with
  | Some (VMap []) => inl None
  | Some (VMap m) => inl (Some m)
  | _ => inr (EExt XOther "syntax")
  end.
Definition digit_Encode (m : option gomap) : res string := inl (encode_val (VMap (default [] m))).

Lemma digit_decode m :
  digit_Unmarshal (encode_val (VMap m)) = inl (match m with [] => None | _ => Some m end).
Proof. unfold digit_Unmarshal. rewrite decode_encode_val. by destruct m. Qed.

Lemma digit_roundtrip c s : digit_Encode (Some c) = inl s ->
  exists c', digit_Unmarshal s = inl c' /\ scalar_equiv c (default [] c').
Proof.
  intros [= <-]. rewrite digit_decode. eexists. split; [done|]. by destruct c.
Qed.

#[export] Instance digit_codec : TomlCodec := Build_TomlCodec digit_Unmarshal digit_Encode digit_roundtrip.

(** A node whose three configuration files hold one entry. *)
Definition one_entry : gomap := [("log_format", VStr "plain")].

Definition fresh_files : gmap string string :=
  let doc := encode_val (VMap one_entry) in
  {["config/app.toml" := doc; "config/config.toml" := doc; "config/client.toml" := doc]}.




(** ** Properties *)

(** [recursiveModifyToml] never fails on well-formed modifications of a
    map, and the tree it leaves is, at every path, the modifications' where
    they touch it and the configuration's elsewhere: every leaf of the
    modifications is set, a table is created where the configuration has
    none, and nothing outside the modified paths changes.  On the nil map
    any modification panics. *)
Theorem recursiveModifyToml_spec (c : option gomap) (mods : gomap) :
  deep_wf (VMap mods) = true ->
  match c with
  | Some m => exists m', recursiveModifyToml c mods = Ok (Some m') /\
      (forall p, shape <$> lookup_path m' p =
         if touches mods p then shape <$> lookup_path mods p else shape <$> lookup_path m p)
  | None => mods <> [] -> recursiveModifyToml c mods = Panic "assignment to entry in nil map"
  end.
Proof.
  intros Hwf. destruct c as [m|]; [|by apply recursiveModifyToml_nil].
  destruct (recursiveModifyToml_table mods m Hwf) as (m' & Hm' & Hc). exists m'.
  split; [done|]. intros p. by apply modify_entries_path.
Qed.

(** Go ranges over a map in no particular order, at every level of the
    modifications; the resulting configuration is the same tree whichever
    orders it takes, and from whichever order the configuration has. *)
Theorem recursiveModifyToml_order (c1 c2 mods1 mods2 : gomap) :
  deep_wf (VMap mods1) = true -> deep_wf (VMap mods2) = true ->
  tree_equiv mods1 mods2 -> tree_equiv c1 c2 ->
  exists c1' c2', recursiveModifyToml (Some c1) mods1 = Ok (Some c1') /\
    recursiveModifyToml (Some c2) mods2 = Ok (Some c2') /\ tree_equiv c1' c2'.
Proof.
  intros Hw1 Hw2 Hm Hc.
  destruct (recursiveModifyToml_table mods1 c1 Hw1) as (c1' & H1 & R1).
  destruct (recursiveModifyToml_table mods2 c2 Hw2) as (c2' & H2 & R2).
  exists c1', c2'. split_and!; [done..|]. by eapply modify_entries_cong; [exact Hw1|exact Hw2|..].
Qed.



(** A node whose application configuration is an empty document: the
    panic, before any file is written. *)
Example blank_file_panics :
  let w := <["config/app.toml" := encode_val (VMap [])]> fresh_files in
  runs memory_task (SetChainConfigs "test" simapp_chain "chain-1" "1.2.3.4:26656") tt w
    (Panic "assignment to entry in nil map") tt w.
Proof.
  cbv zeta. eapply runs_bind; [apply (ModifyTomlConfigFile_blank memory_task)|done].
  - exists (encode_val (VMap [])). split; [reflexivity|exact (digit_decode [])].
  - reflexivity.
  - discriminate.
Qed.

(** [SetLibP2PBootstrapPeers] refuses a peer without a host or an id
    before it reads or writes anything, and otherwise sets the bootstrap
    peers of the consensus configuration and nothing else. *)
Theorem SetLibP2PBootstrapPeers_spec {TC : TomlCodec} {W : Type} (H : handler task_sig W)
    {F : FileTask H} (Sprint : gomap -> string) (peers : list gomap) (w : W)
    (L : string -> list string -> GoVal -> Prop) :
  configured H w L w -> tabled H w "config/config.toml" ->
  exists o w', runs H (SetLibP2PBootstrapPeers Sprint peers) tt w o tt w' /\
  if forallb bootstrap_ok peers
  then match o with
       | Ok _ => configured H w (fun f => if String.eqb f "config/config.toml" then
             edit [("p2p", VMap [("libp2p", VMap [("bootstrap_peers", VList (map VMap peers))])])] (L f)
           else L f) w'
       | Err _ => encode_fails
       | _ => False
       end
  else w' = w /\ exists e, o = Err e.
Proof.
  intros Hw [m Hm]. destruct (check_peers_runs H Sprint peers w) as (o & Hr & Ho).
  unfold SetLibP2PBootstrapPeers. destruct (forallb bootstrap_ok peers).
  - subst o. destruct (configured_modify H w L "config/config.toml"
      [("p2p", VMap [("libp2p", VMap [("bootstrap_peers", VList (map VMap peers))])])] w m
      ltac:(apply list_elem_of_In; simpl; auto) ltac:(reflexivity) Hw Hm) as (o' & w' & Hr' & Ho').
    exists o', w'. split; [by apply (runs_bind _ _ _ _ _ _ _ _ Hr)|].
    destruct o'; [|done..]. eapply configured_iff; [|apply Ho'].
    intros f p v Hf. by apply list_elem_of_In in Hf as [<-|[<-|[<-|[]]]].
  - destruct Ho as [e ->]. exists (Err e), w. split; [by apply (runs_bind _ _ _ _ _ _ _ _ Hr)|eauto].
Qed.
