(* ===== verification/Genesis.v ===== *)
(** * The genesis of a chain: the genesis part of [petri/cosmos/chain/chain.go],
    and [petri/cosmos/chain/genesis.go], [petri/cosmos/wallet/cosmos.go]

    Accounts derived from the base mnemonic, their balances, the updates of
    the auth and bank modules' genesis, and the modifications of the genesis
    file.  The JSON and protobuf libraries, key derivation and [sjson] are
    parameters. *)

From S2P Require Import Prelude GoStrings GoVal ProviderDefs ChainTypes Messages.

(** ** Wallets *)
Record CosmosWallet := {
  mnemonic : string;
  privKey : string;
  keyName : string;
  bech32Prefix : string;
  signingAlgo : string
}.

Class Crypto := {
  derive : WalletConfig -> string -> string -> res string;   (* mnemonic, passphrase, at HDPath *)
  generate : WalletConfig -> string -> string;
  Bech32Address : string -> string -> string;                      (* prefix, private key *)
  NewMnemonic : string -> res string
}.

Section wallets.
Context {Cr : Crypto}.

Definition NewWallet (keyname mnemonic_ passphrase : string) (config : WalletConfig) : outcome CosmosWallet :=
  match derive config mnemonic_ passphrase with
  | inr err => Err err
  | inl derivedPrivKey =>
      Ok {| mnemonic := mnemonic_;
            privKey := generate config derivedPrivKey;
            keyName := keyname;
            bech32Prefix := wc_Bech32Prefix config;
            signingAlgo := SigningAlgorithm config |}
  end.

Definition FormattedAddress (w : CosmosWallet) : string := Bech32Address (bech32Prefix w) (privKey w).
Definition FormattedAddressWithPrefix (prefix : string) (w : CosmosWallet) : string :=
  Bech32Address prefix (privKey w).
End wallets.

(** ** Accounts and balances *)
Record Coin := {
  coin_Denom : string;
  coin_Amount : Z
}.

Record Account := {
  acc_Type : string;
  acc_Address : string;
  AccountNumber : string;
  Sequence : string
}.

Record Balance := {
  bal_Address : string;
  bal_Coins : list Coin
}.

Definition accountType : string := "/cosmos.auth.v1beta1.BaseAccount".

(** [ethsecp256k1.KeyType] of the EVM library. *)
Definition ethsecp256k1_KeyType : string := "eth_secp256k1".

Definition additionalAccountPassphrase (walletCfg : WalletConfig) (index : Z) : string :=
  if (index =? 0) && String.eqb (SigningAlgorithm walletCfg) ethsecp256k1_KeyType then ""
  else itoa index.

Section accounts.
Context {Cr : Crypto}.

Fixpoint build_accounts_from (walletCfg : WalletConfig) (baseMnemonic : string) (startingAccNum : Z)
    (i : Z) (n : nat) : outcome (list Account) :=
  match n with
  | O => Ok []
  | S n' =>
      match NewWallet ("additionalaccount" +:+ itoa i) baseMnemonic
              (additionalAccountPassphrase walletCfg i) walletCfg with
      | Ok w =>
          accounts ← build_accounts_from walletCfg baseMnemonic startingAccNum (i + 1) n';
          mret ({| acc_Type := accountType; acc_Address := FormattedAddress w;
                   AccountNumber := itoa (startingAccNum + i); Sequence := "0" |} :: accounts)
      | Err err => Err (EWrap ("failed to create wallet " +:+ itoa (i + 1)) err)
      | Panic m => Panic m
      | NoFuel => NoFuel
      end
  end.

Definition buildAccounts (walletCfg : WalletConfig) (baseMnemonic : string)
    (startingAccNum numAdditionalAccs : Z) : outcome (list Account) :=
  build_accounts_from walletCfg baseMnemonic startingAccNum 0 (Z.to_nat numAdditionalAccs).
End accounts.

Definition buildBalances (accounts : list Account) (funds : list Coin) : list Balance :=
  map (fun acc => {| bal_Address := acc_Address acc; bal_Coins := funds |}) accounts.

(** ** The auth module *)

(** [m[k].(map[string]any)], which panics on another type or no entry. *)
Definition assert_map (m : gomap) (k : string) : outcome gomap :=
  match lookup_map m k with
  | Some (VMap m') => Ok m'
  | _ => Panic ("interface conversion: " +:+ k)
  end.

Definition assert_list (m : gomap) (k : string) : outcome (list GoVal) :=
  match lookup_map m k with
  | Some (VList l) => Ok l
  | _ => Panic ("interface conversion: " +:+ k)
  end.

Definition account_value (acc : Account) : GoVal :=
  VMap [("@type", VStr (acc_Type acc)); ("address", VStr (acc_Address acc)); ("pub_key", VNil);
        ("account_number", VStr (AccountNumber acc)); ("sequence", VStr (Sequence acc))].

Definition UpdateGenesisAccounts (accounts : list Account) (genesisData : gomap) : outcome gomap :=
  appstate ← assert_map genesisData "app_state";
  auth ← assert_map appstate "auth";
  genesisAccounts ← assert_list auth "accounts";
  let auth := set_map auth "accounts" (VList (genesisAccounts ++ map account_value accounts)) in
  let appstate := set_map appstate "auth" (VMap auth) in
  mret (set_map genesisData "app_state" (VMap appstate)).

(** ** The bank module *)

(** The protobuf messages: amounts are decimal strings. *)
Record pb_Coin := { pb_Denom : string; pb_Amount : string }.
Record pb_Balance := { pb_Address : string; pb_Coins : list pb_Coin }.
Record BankGenesis := {
  bg_Balances : list pb_Balance;
  bg_Supply : list pb_Coin;
  bg_Rest : gomap                     (* params, metadata, send_enabled *)
}.

Class BankCodec := {
  json_Marshal : gomap -> res string;
  protojson_Unmarshal : string -> res BankGenesis;
  protojson_Marshal : BankGenesis -> res string;
  json_Unmarshal : string -> res gomap;
  bank_roundtrip : forall g s m, protojson_Marshal g = inl s -> json_Unmarshal s = inl m ->
    exists s', json_Marshal m = inl s' /\ protojson_Unmarshal s' = inl g
}.

Definition pb_coin_of (coin : Coin) : pb_Coin :=
  {| pb_Denom := coin_Denom coin; pb_Amount := itoa (coin_Amount coin) |}.

Definition add_supply (supply : gmap string Z) (coin : Coin) : gmap string Z :=
  <[coin_Denom coin := default 0 (supply !! coin_Denom coin) + coin_Amount coin]> supply.

(** The amounts the balances add, by denomination. *)
Definition additionalSupply (bals : list Balance) : gmap string Z :=
  fold_left (fun supply bal => fold_left add_supply (bal_Coins bal) supply) bals ∅.

(** The supply as a map: a later entry of a denomination replaces an earlier one. *)
Fixpoint parse_supply (supply : list pb_Coin) (supplyMap : gmap string Z) : outcome (gmap string Z) :=
  match supply with
  | [] => Ok supplyMap
  | coin :: supply' =>
      match SetString (pb_Amount coin) with
      | None => Err (ENew ("failed to parse supply amount: " +:+ pb_Amount coin))
      | Some amount => parse_supply supply' (<[pb_Denom coin := amount]> supplyMap)
      end
  end.

Definition merge_supply (supplyMap additional : gmap string Z) : gmap string Z :=
  union_with (fun existing added => Some (existing + added)) supplyMap additional.

Section balances.
Context {R : MapRange} {BC : BankCodec}.

Definition update_bank (bals : list Balance) (g : BankGenesis) : outcome BankGenesis :=
  supplyMap ← parse_supply (bg_Supply g) ∅;
  mret {| bg_Balances := bg_Balances g ++
            map (fun bal => {| pb_Address := bal_Address bal; pb_Coins := map pb_coin_of (bal_Coins bal) |}) bals;
          bg_Supply := map (fun '(denom, amount) => {| pb_Denom := denom; pb_Amount := itoa amount |})
            (range_map (merge_supply supplyMap (additionalSupply bals)));
          bg_Rest := bg_Rest g |}.

Definition of_res {A} (msg : string) (r : res A) : outcome A :=
  match r with inl a => Ok a | inr err => Err (EWrap msg err) end.

Definition UpdateGenesisBalances (bals : list Balance) (data : gomap) : outcome gomap :=
  appstate ← assert_map data "app_state";
  bankData ← assert_map appstate "bank";
  bankBytes ← of_res "failed to marshal bank data" (json_Marshal bankData);
  bankGenesis ← of_res "failed to unmarshal bank genesis" (protojson_Unmarshal bankBytes);
  bankGenesis ← update_bank bals bankGenesis;
  updatedBankBytes ← of_res "failed to marshal updated bank genesis" (protojson_Marshal bankGenesis);
  updatedBankData ← of_res "failed to unmarshal updated bank data" (json_Unmarshal updatedBankBytes);
  mret (set_map data "app_state" (VMap (set_map appstate "bank" (VMap updatedBankData)))).
End balances.

(** ** [ModifyGenesis] *)
Section modify.
Variable SetBytes : string -> string -> GoVal -> res string.    (* sjson *)

Fixpoint modify_from (idx : Z) (genesisKV : list GenesisKV) (out : string) : outcome string :=
  match genesisKV with
  | [] => Ok out
  | kv :: genesisKV' =>
      match SetBytes out (gkv_Key kv) (gkv_Value kv) with
      | inr err => Err (ENew ("failed to set value (index:" +:+ itoa idx +:+ ") in genesis json: " +:+ Error err))
      | inl out => modify_from (idx + 1) genesisKV' out
      end
  end.

Definition ModifyGenesis (genesisKV : list GenesisKV) (genbz : string) : outcome string :=
  modify_from 0 genesisKV genbz.
End modify.

(** ** Totals by denomination *)
Definition sum_for {A} (denom : A -> string) (amount : A -> Z) (d : string) (l : list A) : Z :=
  foldr (fun x acc => if String.eqb (denom x) d then amount x + acc else acc) 0 l.

(** An amount of the protobuf message; unparsable ones count nothing. *)
Definition pb_amount (c : pb_Coin) : Z := default 0 (SetString (pb_Amount c)).

Definition supply_of (g : BankGenesis) (d : string) : Z := sum_for pb_Denom pb_amount d (bg_Supply g).
Definition balances_of (g : BankGenesis) (d : string) : Z :=
  foldr (fun b acc => sum_for pb_Denom pb_amount d (pb_Coins b) + acc) 0 (bg_Balances g).
Definition added (bals : list Balance) (d : string) : Z :=
  foldr (fun b acc => sum_for coin_Denom coin_Amount d (bal_Coins b) + acc) 0 bals.

(** The bank module's invariant: the supply is the sum of the balances. *)
Definition conserved (g : BankGenesis) : Prop := forall d, supply_of g d = balances_of g d.

(** A supply as the chain binary writes it: one amount per denomination. *)
Definition valid_supply (g : BankGenesis) : Prop :=
  NoDup (map pb_Denom (bg_Supply g)) /\ Forall (fun c => is_Some (SetString (pb_Amount c))) (bg_Supply g).

Lemma sum_for_app {A} (denom : A -> string) amount d l1 l2 :
  sum_for denom amount d (l1 ++ l2) = sum_for denom amount d l1 + sum_for denom amount d l2.
Proof. induction l1 as [|x l1 IH]; simpl; [done|]. case_match; lia. Qed.

Lemma sum_for_notin {A} (denom : A -> string) amount d l :
  d ∉ map denom l -> sum_for denom amount d l = 0.
Proof.
  induction l as [|x l IH]; simpl; [done|]. rewrite not_elem_of_cons. intros [Hne Hni].
  apply not_eq_sym, String.eqb_neq in Hne. rewrite Hne. by apply IH.
Qed.

Lemma pb_amount_itoa d z : pb_amount {| pb_Denom := d; pb_Amount := itoa z |} = z.
Proof. unfold pb_amount. simpl. by rewrite SetString_itoa. Qed.

Lemma sum_for_pb_coin_of d coins :
  sum_for pb_Denom pb_amount d (map pb_coin_of coins) = sum_for coin_Denom coin_Amount d coins.
Proof.
  induction coins as [|c coins IH]; cbn [map sum_for foldr]; [done|].
  fold (sum_for pb_Denom pb_amount d (map pb_coin_of coins)).
  unfold pb_coin_of at 1 2. rewrite pb_amount_itoa, IH. done.
Qed.

Lemma lookup_add_supply m c d :
  default 0 (add_supply m c !! d) = default 0 (m !! d) + (if String.eqb (coin_Denom c) d then coin_Amount c else 0).
Proof.
  unfold add_supply. destruct (String.eqb_spec (coin_Denom c) d) as [<-|Hne].
  - by rewrite lookup_insert_eq.
  - rewrite lookup_insert_ne by done. lia.
Qed.

Lemma fold_add_supply coins m d :
  default 0 (fold_left add_supply coins m !! d) = default 0 (m !! d) + sum_for coin_Denom coin_Amount d coins.
Proof.
  revert m. induction coins as [|c coins IH]; intros m; simpl; [lia|].
  rewrite IH, lookup_add_supply. case_match; lia.
Qed.

Lemma additionalSupply_lookup bals d : default 0 (additionalSupply bals !! d) = added bals d.
Proof.
  enough (Hm : forall m, default 0 (fold_left (fun s b => fold_left add_supply (bal_Coins b) s) bals m !! d)
    = default 0 (m !! d) + added bals d)
    by (unfold additionalSupply; rewrite (Hm ∅), lookup_empty; done).
  induction bals as [|b bals IH]; intros m; simpl; [lia|]. rewrite IH, fold_add_supply. lia.
Qed.

Lemma parse_supply_total l m :
  NoDup (map pb_Denom l) -> Forall (fun c => is_Some (SetString (pb_Amount c))) l ->
  (forall c, c ∈ l -> m !! pb_Denom c = None) ->
  exists m', parse_supply l m = Ok m' /\
    forall d, default 0 (m' !! d) = default 0 (m !! d) + sum_for pb_Denom pb_amount d l.
Proof.
  revert m. induction l as [|c l IH]; intros m Hnd Hall Hm; simpl.
  - exists m. split; [done|]. intros d. lia.
  - apply NoDup_cons in Hnd as [Hni Hnd]. apply Forall_cons in Hall as [[z Hz] Hall].
    rewrite Hz. destruct (IH (<[pb_Denom c := z]> m) Hnd Hall) as (m' & Hp & Hl).
    { intros c' Hc'. rewrite lookup_insert_ne; [apply Hm; by right|].
      intros Heq. apply Hni. rewrite Heq. by apply list_elem_of_fmap_2. }
    exists m'. split; [done|]. intros d. rewrite Hl. unfold pb_amount at 2. rewrite Hz. simpl.
    destruct (String.eqb_spec (pb_Denom c) d) as [<-|Hne].
    + rewrite lookup_insert_eq, Hm by by left. simpl. lia.
    + by rewrite lookup_insert_ne.
Qed.

Lemma merge_supply_lookup m1 m2 d :
  default 0 (merge_supply m1 m2 !! d) = default 0 (m1 !! d) + default 0 (m2 !! d).
Proof.
  unfold merge_supply. rewrite lookup_union_with.
  destruct (m1 !! d), (m2 !! d); simpl; lia.
Qed.

Lemma supply_entries (l : list (string * Z)) d :
  NoDup l.*1 ->
  sum_for pb_Denom pb_amount d
    (map (fun '(denom, amount) => {| pb_Denom := denom; pb_Amount := itoa amount |}) l) =
  default 0 ((list_to_map l : gmap string Z) !! d).
Proof.
  induction l as [|[k v] l IH]; intros Hnd; [done|]. apply NoDup_cons in Hnd as [Hni Hnd].
  cbn [map sum_for foldr list_to_map]. cbn [pb_Denom].
  change (foldr _ 0 ?x) with (sum_for pb_Denom pb_amount d x).
  rewrite pb_amount_itoa, IH by done. destruct (String.eqb_spec k d) as [->|Hne].
  - simpl. rewrite lookup_insert_eq. rewrite not_elem_of_list_to_map_1 by done. simpl. lia.
  - simpl. by rewrite lookup_insert_ne.
Qed.

Section laws.
Context {R : MapRange} {BC : BankCodec}.

Lemma update_bank_total bals g :
  valid_supply g ->
  exists g', update_bank bals g = Ok g' /\
    bg_Balances g' = bg_Balances g ++
      map (fun bal => {| pb_Address := bal_Address bal; pb_Coins := map pb_coin_of (bal_Coins bal) |}) bals /\
    bg_Rest g' = bg_Rest g /\
    (forall d, supply_of g' d = supply_of g d + added bals d) /\
    (forall d, balances_of g' d = balances_of g d + added bals d).
Proof.
  intros [Hnd Hall]. unfold update_bank.
  destruct (parse_supply_total (bg_Supply g) ∅ Hnd Hall) as (m & Hp & Hm); [done|].
  rewrite Hp. eexists. split; [reflexivity|]. cbn [bg_Balances bg_Rest].
  split; [done|split; [done|split]]; intros d.
  - unfold supply_of at 1. cbn [bg_Supply].
    rewrite supply_entries by apply range_map_keys.
    rewrite list_to_map_range, merge_supply_lookup, additionalSupply_lookup, Hm.
    unfold supply_of. done.
  - unfold balances_of. cbn [bg_Balances]. rewrite foldr_app.
    induction (bg_Balances g) as [|b bs IH]; simpl; [|lia].
    induction bals as [|b bals IH]; simpl; [done|]. rewrite IH, sum_for_pb_coin_of. done.
Qed.

Definition app_module (data : gomap) (m : string) : option GoVal :=
  match assert_map data "app_state" with Ok appstate => lookup_map appstate m | _ => None end.

Definition bank_of (data : gomap) : option BankGenesis :=
  match app_module data "bank" with
  | Some (VMap bankData) =>
      match json_Marshal bankData with
      | inl bytes => match protojson_Unmarshal bytes with inl g => Some g | inr _ => None end
      | inr _ => None
      end
  | _ => None
  end.

(** The libraries refuse to write an updated bank state. *)
Definition bank_write_fails : Prop :=
  exists g e, protojson_Marshal g = inr e \/
    exists s, protojson_Marshal g = inl s /\ json_Unmarshal s = inr e.

Lemma assert_map_set m k v k' :
  assert_map (set_map m k (VMap v)) k' = if String.eqb k k' then Ok v else assert_map m k'.
Proof.
  unfold assert_map. rewrite lookup_set_map. by destruct (String.eqb k k').
Qed.

Lemma bank_of_inv data g :
  bank_of data = Some g -> exists appstate bankData bytes,
    assert_map data "app_state" = Ok appstate /\ assert_map appstate "bank" = Ok bankData /\
    json_Marshal bankData = inl bytes /\ protojson_Unmarshal bytes = inl g.
Proof.
  unfold bank_of, app_module. destruct (assert_map data "app_state") as [appstate|e|m|] eqn:Ha; try done.
  destruct (lookup_map appstate "bank") as [v|] eqn:Hb; [|done]. destruct v; try done.
  destruct (json_Marshal m) as [bytes|] eqn:Hj; [|done].
  destruct (protojson_Unmarshal bytes) eqn:Hp; [|done]. intros [= ->].
  exists appstate, m, bytes. split_and!; try done. unfold assert_map. by rewrite Hb.
Qed.
End laws.

(** ** Accounts *)
Section account_laws.
Context {Cr : Crypto}.

Lemma build_accounts_nth walletCfg base start n : forall i accounts (k : nat) acc,
  build_accounts_from walletCfg base start i n = Ok accounts ->
  accounts !! k = Some acc ->
  AccountNumber acc = itoa (start + i + Z.of_nat k) /\ acc_Type acc = accountType /\ Sequence acc = "0" /\
  exists w, NewWallet ("additionalaccount" +:+ itoa (i + Z.of_nat k)) base
      (additionalAccountPassphrase walletCfg (i + Z.of_nat k)) walletCfg = Ok w /\
    acc_Address acc = FormattedAddress w.
Proof.
  induction n as [|n IH]; intros i accounts k acc Hb Hk; cbn [build_accounts_from] in Hb.
  - injection Hb as <-. done.
  - destruct (NewWallet _ _ _ _) as [w|e|m|] eqn:Hw; try done.
    apply outcome_bind_Ok in Hb as (accounts' & Hb & [= <-]).
    destruct k as [|k]; simpl in Hk.
    + injection Hk as <-. cbn [AccountNumber acc_Type Sequence acc_Address].
      rewrite !Z.add_0_r. split_and!; [done..|]. by exists w.
    + specialize (IH _ _ _ _ Hb Hk). replace (start + i + Z.of_nat (S k)) with (start + (i + 1) + Z.of_nat k) by lia.
      replace (i + Z.of_nat (S k)) with (i + 1 + Z.of_nat k) by lia. done.
Qed.

Lemma build_accounts_length walletCfg base start n : forall i accounts,
  build_accounts_from walletCfg base start i n = Ok accounts -> length accounts = n.
Proof.
  induction n as [|n IH]; intros i accounts Hb; cbn [build_accounts_from] in Hb; [by injection Hb as <-|].
  destruct (NewWallet _ _ _ _) as [w|e|m|] eqn:Hw; try done.
  apply outcome_bind_Ok in Hb as (accounts' & Hb & [= <-]). simpl. by rewrite (IH _ _ Hb).
Qed.

Lemma additionalAccountPassphrase_inj walletCfg i j :
  additionalAccountPassphrase walletCfg i = additionalAccountPassphrase walletCfg j -> i = j.
Proof.
  assert (Hne : forall z, itoa z <> "").
  { intros z Hz. pose proof (itoa_parse z) as Hp. by rewrite Hz in Hp. }
  unfold additionalAccountPassphrase.
  destruct (Z.eqb_spec i 0) as [->|], (Z.eqb_spec j 0) as [->|]; simpl;
    try destruct (String.eqb (SigningAlgorithm walletCfg) _); try done; intros Heq;
    try (by apply (inj itoa) in Heq); exfalso; by eapply Hne.
Qed.
End account_laws.

(** ** Libraries for examples *)
Definition pb_coin_val (c : pb_Coin) : GoVal := VList [VStr (pb_Denom c); VStr (pb_Amount c)].
Definition val_pb_coin (v : GoVal) : option pb_Coin :=
  match v with VList [VStr d; VStr a] => Some {| pb_Denom := d; pb_Amount := a |} | _ => None end.
Definition pb_balance_val (b : pb_Balance) : GoVal :=
  VList [VStr (pb_Address b); VList (map pb_coin_val (pb_Coins b))].
Definition val_pb_balance (v : GoVal) : option pb_Balance :=
  match v with
  | VList [VStr a; VList cs] =>
      match mapM val_pb_coin cs with Some cs => Some {| pb_Address := a; pb_Coins := cs |} | None => None end
  | _ => None
  end.
Definition bank_val (g : BankGenesis) : gomap :=
  [("balances", VList (map pb_balance_val (bg_Balances g)));
   ("supply", VList (map pb_coin_val (bg_Supply g))); ("rest", VMap (bg_Rest g))].
Definition val_bank (m : gomap) : option BankGenesis :=
  match m with
  | [(_, VList bs); (_, VList ss); (_, VMap r)] =>
      match mapM val_pb_balance bs, mapM val_pb_coin ss with
      | Some bs, Some ss => Some {| bg_Balances := bs; bg_Supply := ss; bg_Rest := r |}
      | _, _ => None
      end
  | _ => None
  end.

Lemma mapM_map {A B} (f : A -> GoVal) (g : GoVal -> option B) (h : A -> B) l :
  (forall x, g (f x) = Some (h x)) -> mapM g (map f l) = Some (map h l).
Proof. intros Hf. induction l as [|x l IH]; [done|]. simpl. by rewrite Hf, IH. Qed.

Lemma val_bank_val g : val_bank (bank_val g) = Some g.
Proof.
  assert (Hc : forall c, val_pb_coin (pb_coin_val c) = Some (id c)) by by intros [].
  assert (Hb : forall b, val_pb_balance (pb_balance_val b) = Some (id b)).
  { intros [a cs]. simpl. by rewrite (mapM_map _ _ _ _ Hc), map_id. }
  destruct g. simpl. by rewrite (mapM_map _ _ _ _ Hc), (mapM_map _ _ _ _ Hb), !map_id.
Qed.

Definition tree_Marshal (m : gomap) : res string := inl (encode_val (VMap m)).
Definition tree_Unmarshal (s : string) : res gomap :=
  match decode_val s with Some (VMap m) => inl m | _ => inr (EExt XOther "syntax") end.
Definition tree_bank (s : string) : res BankGenesis :=
  match tree_Unmarshal s with
  | inl m => match val_bank m with Some g => inl g | None => inr (EExt XOther "proto") end
  | inr e => inr e
  end.

Lemma tree_roundtrip g s m : tree_Marshal (bank_val g) = inl s -> tree_Unmarshal s = inl m ->
  exists s', tree_Marshal m = inl s' /\ tree_bank s' = inl g.
Proof.
  unfold tree_bank, tree_Unmarshal, tree_Marshal. intros [= <-]. rewrite decode_encode_val. intros [= <-].
  eexists. split; [reflexivity|]. by rewrite decode_encode_val, val_bank_val.
Qed.

Definition tree_bank_codec : BankCodec :=
  Build_BankCodec tree_Marshal tree_bank (fun g => tree_Marshal (bank_val g)) tree_Unmarshal tree_roundtrip.

(** A key derivation that keeps its inputs apart. *)
Definition plain_crypto : Crypto :=
  {| derive := fun _ m p => inl (m +:+ "/" +:+ p); generate := fun _ k => k;
     Bech32Address := fun prefix k => prefix +:+ k; NewMnemonic := fun e => inl e |}.

(** ** Properties *)
Section properties.
Context {R : MapRange} {BC : BankCodec}.

(** C2: [UpdateGenesisBalances] on a genesis whose bank state is valid
    appends the balances and raises the supply of every denomination by
    exactly what they add, so a supply that was the sum of the balances
    still is; nothing outside the bank module changes, and the only way it
    fails is that the libraries refuse to write the updated state. *)
Theorem UpdateGenesisBalances_spec (bals : list Balance) (data : gomap) (g : BankGenesis) :
  bank_of data = Some g -> valid_supply g ->
  match UpdateGenesisBalances bals data with
  | Ok data' => exists g', bank_of data' = Some g' /\
      (forall d, supply_of g' d = supply_of g d + added bals d) /\
      (conserved g -> conserved g') /\
      bg_Balances g' = bg_Balances g ++ map (fun bal =>
        {| pb_Address := bal_Address bal; pb_Coins := map pb_coin_of (bal_Coins bal) |}) bals /\
      bg_Rest g' = bg_Rest g /\
      (forall m, m <> "bank" -> app_module data' m = app_module data m) /\
      (forall k, k <> "app_state" -> lookup_map data' k = lookup_map data k)
  | Err _ => bank_write_fails
  | _ => False
  end.
Proof.
  intros Hg Hvalid. apply bank_of_inv in Hg as (appstate & bankData & bytes & Ha & Hb & Hj & Hp).
  destruct (update_bank_total bals g Hvalid) as (g' & Hu & Hbal & Hrest & Hsup & Hbals).
  unfold UpdateGenesisBalances. rewrite Ha. simpl. rewrite Hb. simpl. rewrite Hj. simpl.
  rewrite Hp. simpl. rewrite Hu. simpl.
  destruct (protojson_Marshal g') as [s|e] eqn:Hs; simpl; [|by exists g', e; left].
  destruct (json_Unmarshal s) as [m|e] eqn:Hm; simpl; [|by exists g', e; right; exists s].
  destruct (bank_roundtrip g' s m Hs Hm) as (s' & Hs' & Hg').
  exists g'. split_and!; [|done| |done|done|..].
  - unfold bank_of, app_module. rewrite assert_map_set. simpl. rewrite lookup_set_map_eq, Hs'.
    by rewrite Hg'.
  - intros Hc d. rewrite Hsup, Hbals. by rewrite Hc.
  - intros n Hn. unfold app_module. rewrite assert_map_set, Ha. simpl.
    by apply lookup_set_map_ne.
  - intros k Hk. by apply lookup_set_map_ne.
Qed.
End properties.

Lemma UpdateGenesisBalances_spec_witness :
  let g := {| bg_Balances := [{| pb_Address := "a"; pb_Coins := [{| pb_Denom := "stake"; pb_Amount := "5" |}] |}];
              bg_Supply := [{| pb_Denom := "stake"; pb_Amount := "5" |}]; bg_Rest := [] |} in
  let data := [("chain_id", VStr "c"); ("app_state", VMap [("bank", VMap (bank_val g))])] in
  let bals := [{| bal_Address := "b"; bal_Coins := [{| coin_Denom := "stake"; coin_Amount := 7 |}] |}] in
  exists data', @UpdateGenesisBalances canonical_range tree_bank_codec bals data = Ok data' /\
  exists g', @bank_of tree_bank_codec data' = Some g' /\ supply_of g' "stake" = 12.
Proof.
  intros g data bals.
  pose proof (@UpdateGenesisBalances_spec canonical_range tree_bank_codec bals data g) as Hspec.
  destruct (@UpdateGenesisBalances canonical_range tree_bank_codec bals data) as [data'|e|m|] eqn:Hu;
    [|vm_compute in Hu; discriminate..].
  exists data'. split; [reflexivity|].
  destruct Hspec as (g' & Hg' & Hs & _).
  - vm_compute. reflexivity.
  - split; [vm_compute; repeat constructor; by intros ?%not_elem_of_nil|].
    repeat constructor. by exists 5.
  - exists g'. split; [exact Hg'|]. rewrite Hs. reflexivity.
Defined.

(** [UpdateGenesisAccounts] appends the accounts, in order, to the auth
    module's and changes nothing else of the genesis. *)
Theorem UpdateGenesisAccounts_spec (accounts : list Account) (data appstate auth : gomap) (old : list GoVal) :
  assert_map data "app_state" = Ok appstate -> assert_map appstate "auth" = Ok auth ->
  assert_list auth "accounts" = Ok old ->
  exists data' auth', UpdateGenesisAccounts accounts data = Ok data' /\
    app_module data' "auth" = Some (VMap auth') /\
    assert_list auth' "accounts" = Ok (old ++ map account_value accounts) /\
    (forall k, k <> "accounts" -> lookup_map auth' k = lookup_map auth k) /\
    (forall m, m <> "auth" -> app_module data' m = app_module data m) /\
    (forall k, k <> "app_state" -> lookup_map data' k = lookup_map data k).
Proof.
  intros Ha Hb Hc. unfold UpdateGenesisAccounts. rewrite Ha. simpl. rewrite Hb. simpl. rewrite Hc. simpl.
  eexists _, (set_map auth "accounts" (VList (old ++ map account_value accounts))).
  split; [reflexivity|]. split_and!.
  - unfold app_module. rewrite assert_map_set. simpl. by rewrite lookup_set_map_eq.
  - unfold assert_list. by rewrite lookup_set_map_eq.
  - intros k Hk. by apply lookup_set_map_ne.
  - intros m Hm. unfold app_module. rewrite assert_map_set, Ha. simpl. by apply lookup_set_map_ne.
  - intros k Hk. by apply lookup_set_map_ne.
Qed.

Lemma UpdateGenesisAccounts_spec_witness :
  let data := [("app_state", VMap [("auth", VMap [("accounts", VList [VNil])])])] in
  exists data' auth', UpdateGenesisAccounts
      [{| acc_Type := accountType; acc_Address := "a"; AccountNumber := "3"; Sequence := "0" |}] data = Ok data' /\
    app_module data' "auth" = Some (VMap auth') /\
    assert_list auth' "accounts" = Ok [VNil; account_value
      {| acc_Type := accountType; acc_Address := "a"; AccountNumber := "3"; Sequence := "0" |}].
Proof.
  intros data.
  destruct (UpdateGenesisAccounts_spec
    [{| acc_Type := accountType; acc_Address := "a"; AccountNumber := "3"; Sequence := "0" |}] data
    [("auth", VMap [("accounts", VList [VNil])])] [("accounts", VList [VNil])] [VNil])
    as (data' & auth' & H1 & H2 & H3 & _); [reflexivity..|].
  exists data', auth'. split; [exact H1|split; [exact H2|exact H3]].
Defined.

(** [buildAccounts] numbers its accounts consecutively from the first
    free number and derives each from the base mnemonic with a passphrase
    of its own, so no two share an account number, nor an address unless
    the key derivation itself collides. *)
Theorem buildAccounts_spec {Cr : Crypto} (walletCfg : WalletConfig) (base : string) (start n : Z)
    (accounts : list Account) :
  0 <= n ->
  (forall k1 k2 p1 p2 w1 w2, NewWallet k1 base p1 walletCfg = Ok w1 -> NewWallet k2 base p2 walletCfg = Ok w2 ->
     FormattedAddress w1 = FormattedAddress w2 -> p1 = p2) ->
  buildAccounts walletCfg base start n = Ok accounts ->
  Z.of_nat (length accounts) = n /\
  (forall (k : nat) acc, accounts !! k = Some acc -> AccountNumber acc = itoa (start + Z.of_nat k)) /\
  NoDup (map AccountNumber accounts) /\ NoDup (map acc_Address accounts).
Proof.
  intros Hn Hinj Hb. unfold buildAccounts in Hb.
  pose proof (build_accounts_length _ _ _ _ _ _ Hb) as Hlen.
  assert (Hnth := fun k acc => build_accounts_nth _ _ _ _ _ _ k acc Hb).
  split; [lia|]. split; [|split].
  - intros k acc Hk. destruct (Hnth k acc Hk) as (-> & _). do 2 f_equal. lia.
  - apply NoDup_alt. intros i j x Hi Hj. rewrite list_lookup_fmap in Hi, Hj.
    apply fmap_Some in Hi as (ai & Hi & ->). apply fmap_Some in Hj as (aj & Hj & Heq).
    destruct (Hnth i ai Hi) as (Hai & _). destruct (Hnth j aj Hj) as (Haj & _).
    rewrite Hai, Haj in Heq. apply (inj itoa) in Heq. lia.
  - apply NoDup_alt. intros i j x Hi Hj. rewrite list_lookup_fmap in Hi, Hj.
    apply fmap_Some in Hi as (ai & Hi & ->). apply fmap_Some in Hj as (aj & Hj & Heq).
    destruct (Hnth i ai Hi) as (_ & _ & _ & w1 & Hw1 & Ha1).
    destruct (Hnth j aj Hj) as (_ & _ & _ & w2 & Hw2 & Ha2).
    rewrite Ha1, Ha2 in Heq. pose proof (Hinj _ _ _ _ _ _ Hw1 Hw2 Heq) as Hp.
    apply additionalAccountPassphrase_inj in Hp. lia.
Qed.

Definition evm_wallet_config : WalletConfig :=
  {| DerivationFn := Some tt; GenerationFn := Some tt; wc_Bech32Prefix := "cosmos";
     HDPath := Some "m/44'/60'/0'/0/0"; SigningAlgorithm := "eth_secp256k1" |}.

Lemma buildAccounts_spec_witness :
  exists accounts, @buildAccounts plain_crypto evm_wallet_config "base" 3 12 = Ok accounts /\
    map AccountNumber accounts =
      ["3"; "4"; "5"; "6"; "7"; "8"; "9"; "10"; "11"; "12"; "13"; "14"] /\
    NoDup (map acc_Address accounts).
Proof.
  eexists. split; [reflexivity|]. split; [reflexivity|].
  apply (@buildAccounts_spec plain_crypto evm_wallet_config "base" 3 12); [lia| |reflexivity].
  intros k1 k2 p1 p2 w1 w2 [= <-] [= <-] Heq. injection Heq as Heq. exact Heq.
Defined.
