(* ===== verification/NodeOps.v ===== *)
(** * Nodes: [petri/cosmos/node/node.go], [genesis.go], [keys.go]

    The operations of a node over its task: setting up a validator or a full
    node, keys, the genesis file, the node key.  The answers of a node's
    task and the entropy of a new wallet are the calls; the Tendermint JSON
    library and key types are parameters. *)

From S2P Require Import Prelude GoStrings GoVal ProviderDefs ChainTypes TaskI NodeConfig Genesis.

Definition ValidatorKeyName : string := "validator".
Definition FaucetAccountKeyName : string := "faucet".

(** ** The provider interface as a node uses it *)
Definition task_ref : Type := nat.

Inductive provider_call :=
| GetType
| CreateTask (d : TaskDefinition)
| SerializeTask (t : task_ref)
| DeserializeTask (state : string).

Definition provider_ans (c : provider_call) : Type :=
  match c with
  | GetType => string
  | CreateTask _ => res task_ref
  | SerializeTask _ => res string
  | DeserializeTask _ => res task_ref
  end.

Canonical provider_sig : sig := Sig provider_call provider_ans.

(** [State] and [Node] *)
Record NodeState := {
  ns_Config : NodeConfig;
  ns_ChainConfig : ChainConfig
}.

Record CosmosNode := {
  nd_task : task_ref;
  nd_state : NodeState
}.

(** [PackagedState] *)
Record NodePackagedState := {
  np_State : NodeState;
  TaskState : string
}.

Record NodeOptions := {
  NodeDefinitionModifier : option (TaskDefinition -> NodeConfig -> TaskDefinition)
}.

Definition node_definition (nodeConfig : NodeConfig) : TaskDefinition :=
  let chainConfig := nc_ChainConfig nodeConfig in
  let entrypoint :=
    match cc_Entrypoint chainConfig with [] => [BinaryName chainConfig] | e => e end in
  {| td_Name := nc_Name nodeConfig;
     td_Image := cc_Image chainConfig;
     Ports := ["9464"; "9090"; "26656"; "26657"; "26660"; "1317"] ++ AdditionalPorts chainConfig;
     Environment := {["GODEBUG" := "blockprofilerate=1";
                      "OTEL_EXPERIMENTAL_CONFIG_FILE" := "/etc/otel.yaml"]};
     DataDir := HomeDir chainConfig;
     Entrypoint := (entrypoint ++ ["--home"; HomeDir chainConfig; "start"]) ++ AdditionalStartFlags chainConfig;
     Command := [];
     Args := [];
     ProviderSpecificConfig := None |}.

Definition CreateNode (nodeConfig : NodeConfig) (opts : NodeOptions) : M provider_sig unit CosmosNode :=
  let* providerType := perform GetType in
  let* _ := wrap "failed to validate node config"
    (lift_outcome (NodeConfig_ValidateBasic nodeConfig providerType)) in
  let def := node_definition nodeConfig in
  let def := match NodeDefinitionModifier opts with Some f => f def nodeConfig | None => def end in
  let* task := ask (CreateTask def) in
  retM {| nd_task := task;
          nd_state := {| ns_Config := nodeConfig; ns_ChainConfig := nc_ChainConfig nodeConfig |} |}.

Section state.
(** [encoding/json] on the packaged state. *)
Variable Marshal : NodePackagedState -> res string.
Variable Unmarshal : string -> res NodePackagedState.

Definition node_Serialize (n : CosmosNode) : M provider_sig unit string :=
  let* taskState := ask (SerializeTask (nd_task n)) in
  lift_res (Marshal {| np_State := nd_state n; TaskState := taskState |}).

Definition RestoreNode (state : string) : M provider_sig unit CosmosNode :=
  let* packagedState := wrap "unmarshaling state" (lift_res (Unmarshal state)) in
  let* task := ask (DeserializeTask (TaskState packagedState)) in
  retM {| nd_task := task; nd_state := np_State packagedState |}.
End state.

(** ** Operations over the node's task *)
Inductive node_call :=
| Task (c : task_call)
| NewEntropy (bits : Z).

Definition node_ans (c : node_call) : Type :=
  match c with
  | Task c => task_ans c
  | NewEntropy _ => res string
  end.

Canonical node_sig : sig := Sig node_call node_ans.

Definition on_task {A} (m : M task_sig unit A) : M node_sig unit A :=
  embed (E := task_sig) (E' := node_sig) Task (fun _ x => x) m.

(** The Tendermint library: the node key file, the ID and public key of a key. *)
Record PubKey := { pk_Type : string; pk_Bytes : string }.
Class NodeKeys := {
  node_key : Type;
  tmjson_Unmarshal : string -> res node_key;
  key_ID : node_key -> string;
  key_PubKey : node_key -> PubKey
}.

Section operations.
Context {TC : TomlCodec} {Cr : Crypto} {NK : NodeKeys}.
(** The keyring's test backend and the quoting of [%q]. *)
Context (BackendTest : string) (Quote : string -> string).
Context (st : NodeState).

Abbreviation NodeOp := (M node_sig unit).

Definition BinCommand (command : list string) : list string :=
  (BinaryName (ns_ChainConfig st) :: command) ++ ["--home"; HomeDir (ns_ChainConfig st)].

(** *** [keys.go] *)
Definition RecoverKey (name mnemonic_ : string) : NodeOp unit :=
  let chain := ns_ChainConfig st in
  let command := ["sh"; "-c";
    "echo " +:+ Quote mnemonic_ +:+ " | " +:+ BinaryName chain +:+ " keys add " +:+ name +:+
    " --recover --keyring-backend " +:+ BackendTest +:+ " --coin-type " +:+ CoinType chain +:+
    " --home " +:+ HomeDir chain +:+ " --output json"] in
  let* _ := ask (Task (RunCommand command)) in
  retM tt.

Definition NewGeneratedWallet (keyname : string) (config : WalletConfig) : NodeOp CosmosWallet :=
  let* entropy := ask (NewEntropy 128) in
  let* mnemonic_ := lift_res (NewMnemonic entropy) in
  lift_outcome (NewWallet keyname mnemonic_ "" config).

Definition CreateWallet (name : string) (walletConfig : WalletConfig) : NodeOp CosmosWallet :=
  let* keyWallet := NewGeneratedWallet name walletConfig in
  let* _ := RecoverKey name (mnemonic keyWallet) in
  retM keyWallet.

(** *** The node key *)
Definition nodeKey : NodeOp node_key :=
  let* j := wrap "getting node_key.json content" (ask (Task (ReadFile "config/node_key.json"))) in
  wrap "unmarshaling node_key.json" (lift_res (tmjson_Unmarshal j)).

Definition NodeId : NodeOp string := let* nk := nodeKey in retM (key_ID nk).
Definition node_PubKey : NodeOp PubKey := let* nk := nodeKey in retM (key_PubKey nk).

(** *** [genesis.go] *)
Definition GenesisFileContent : NodeOp string := ask (Task (ReadFile "config/genesis.json")).
Definition OverwriteGenesisFile (bz : string) : NodeOp unit :=
  ask (Task (WriteFile "config/genesis.json" bz)).

Definition gentx_path (nid : string) : string := "config/gentx/gentx-" +:+ nid +:+ ".json".

(** The source's half of [CopyGenTx]: the path and the transaction, which
    the caller writes to the destination. *)
Definition read_gentx : NodeOp (string * string) :=
  let* nid := NodeId in
  let path := gentx_path nid in
  let* gentx := ask (Task (ReadFile path)) in
  retM (path, gentx).

(** *** [SetupValidator], [SetupNode] *)
Definition run_script (run_failed exit_failed script : string) : NodeOp unit :=
  let* '(stdout, stderr, exitCode) := wrap run_failed
    (ask (Task (RunCommand ["/bin/sh"; "-c"; script]))) in
  if negb (exitCode =? 0) then
    throw (ENew (exit_failed +:+ " (exit code " +:+ itoa exitCode +:+ "): " +:+ stderr +:+
      ", stdout: " +:+ stdout))
  else retM tt.

Definition init_script (name : string) : string :=
  Join (BinCommand ["init"; name; "--chain-id"; ChainId (ns_ChainConfig st)]) " ".

Definition coin_string (coin : Coin) : string := itoa (coin_Amount coin) +:+ coin_Denom coin.

Definition genesis_sub (cmd : list string) : list string :=
  if UseGenesisSubCommand (ns_ChainConfig st) then "genesis" :: cmd else cmd.

Definition gentx_script (address : string) (genesisAmounts : list Coin) (genesisSelfDelegation : Coin) : string :=
  "#!/bin/sh" +:+ nl +:+ "set -e" +:+ nl +:+
  Join (BinCommand (genesis_sub
    ["add-genesis-account"; address; Join (map coin_string genesisAmounts) ",";
     "--keyring-backend"; "test"])) " " +:+ nl +:+
  Join (BinCommand (genesis_sub
    ["gentx"; ValidatorKeyName; coin_string genesisSelfDelegation;
     "--keyring-backend"; "test"; "--chain-id"; ChainId (ns_ChainConfig st)])) " " +:+ nl.

Definition SetupValidator (walletConfig : WalletConfig) (genesisAmounts : list Coin)
    (genesisSelfDelegation : Coin) : NodeOp (CosmosWallet * string) :=
  let* validatorWallet := wrap "failed to generate wallet" (CreateWallet ValidatorKeyName walletConfig) in
  let* def := perform (Task GetDefinition) in
  let* _ := run_script "failed to run validator init" "validator init failed" (init_script (td_Name def)) in
  let* _ := on_task (ModifyTomlConfigFile "config/client.toml"
    (GenerateDefaultClientConfig BackendTest (ChainId (ns_ChainConfig st)))) in
  let* _ := run_script "failed to run validator genesis setup" "validator genesis setup failed"
    (gentx_script (FormattedAddress validatorWallet) genesisAmounts genesisSelfDelegation) in
  retM (validatorWallet, FormattedAddress validatorWallet).

Definition SetupNode : NodeOp unit :=
  let* def := perform (Task GetDefinition) in
  let* _ := run_script "failed to setup node" "node setup failed" (init_script (td_Name def)) in
  on_task (ModifyTomlConfigFile "config/client.toml"
    (GenerateDefaultClientConfig BackendTest (ChainId (ns_ChainConfig st)))).
End operations.

(** ** Clients of a node

    The Tendermint client, whose HTTP transport dials through the task and
    gives up after ten seconds, and the gRPC client; the libraries' are
    calls. *)
Inductive rpc_call :=
| OnTask (c : task_call)
| NewHTTPClient (remote endpoint : string) (timeout : Z)
| LatestBlock (remote : string)
| NewGRPCClient (addr : string).

Definition rpc_ans (c : rpc_call) : Type :=
  match c with OnTask c => task_ans c | LatestBlock _ => res Z | _ => res unit end.

Canonical rpc_sig : sig := Sig rpc_call rpc_ans.

Abbreviation RpcOp := (M rpc_sig unit).

(** A client is its address. *)
Definition GetTMClient : RpcOp string :=
  let* addr := ask (OnTask (GetExternalAddress "26657")) in
  let httpAddr := "http://" +:+ addr in
  let* _ := ask (NewHTTPClient httpAddr "/websocket" (10 * 10 ^ 9)) in
  retM httpAddr.

Definition GetGRPCClient : RpcOp string :=
  let* grpcAddr := ask (OnTask (GetExternalAddress "9090")) in
  let* _ := ask (NewGRPCClient grpcAddr) in
  retM grpcAddr.

Definition Height : RpcOp Z :=
  let* client := GetTMClient in
  let* height := ask (LatestBlock client) in
  retM (to_uint64 height).

(** A height is that of a block the node's own address answered with. *)
Lemma Height_answered : wpM Height tt (fun t _ o => match o with
  | Ok h => exists addr height, t =
      [ev (OnTask (GetExternalAddress "26657") : call rpc_sig) (inl addr);
       ev (NewHTTPClient ("http://" +:+ addr) "/websocket" (10 * 10 ^ 9) : call rpc_sig) (inl tt);
       ev (LatestBlock ("http://" +:+ addr) : call rpc_sig) (inl height)] /\ h = to_uint64 height
  | Err _ => (length t <= 3)%nat
  | _ => False
  end) [].
Proof.
  unfold Height, GetTMClient. intros [addr|e]; [|cbn; lia]. intros [[]|e]; [|cbn; lia]. intros [height|e]; [|cbn; lia].
  by exists addr, height.
Qed.
