(* ===== verification/Peers.v ===== *)
(** * The calls of a chain, and its peers: [petri/core/types/node.go],
    [petri/cosmos/chain/peers.go], [configureNode] of [chain.go]

    A chain drives its nodes through [NodeI]; [chain_sig] has its methods,
    the node constructors, the random choices, the clock and the order in
    which the goroutines of an error group take effect. *)

From S2P Require Import Prelude GoStrings GoVal ProviderDefs ChainTypes NodeConfig Genesis NodeOps.

Definition node_ref : Type := nat.

(** [NodeI], as the chain uses it. *)
Inductive node_method :=
| GetName                                     (* GetDefinition().Name *)
| NStart
| NDestroy
| NRunCommand (cmd : list string)
| NGetIP
| NGetPrivateIP
| NGetExternalAddress (port : string)
| NNodeId
| NPubKey
| NBinCommand (cmd : list string)
| NGenesisFileContent
| NOverwriteGenesisFile (bz : string)
| NCopyGenTx (dst : node_ref)
| NSetupValidator (wc : WalletConfig) (genesisAmounts : list Coin) (selfDelegation : Coin)
| NSetupNode
| NCreateWallet (keyName : string) (wc : WalletConfig)
| NRecoverKey (keyName mnemonic : string)
| NSetChainConfigs (chainID p2pExternalAddr : string)
| NSetPersistentPeers (peers : string)
| NSetLibP2PBootstrapPeers (peers : list gomap)
| NSetSeedNode (seedNode : string)
| NSetSeedMode
| NSerialize
| NStatus.                                    (* GetTMClient and its Status *)

Definition method_ans (m : node_method) : Type :=
  match m with
  | GetName => string
  | NBinCommand _ => list string
  | NRunCommand _ => res (string * string * Z)
  | NGetIP | NGetPrivateIP | NGetExternalAddress _ | NNodeId => res string
  | NPubKey => res PubKey
  | NGenesisFileContent | NSerialize => res string
  | NSetupValidator _ _ _ => res (CosmosWallet * string)
  | NCreateWallet _ _ => res CosmosWallet
  | NStatus => res Z                          (* SyncInfo.LatestBlockHeight *)
  | _ => res unit
  end.

Inductive chain_call :=
| Method (n : node_ref) (m : node_method)
| NodeCreator (cfg : NodeConfig) (opts : NodeOptions)
| NodeRestorer (state : string)
| ProviderType
| RandIntn (n : Z)
| Tick                                        (* a ticker round: is the context done? *)
| Interleave (n : nat).                       (* the order n goroutines take effect in *)

Definition chain_ans (c : chain_call) : Type :=
  match c with
  | Method _ m => method_ans m
  | NodeCreator _ _ => res node_ref
  | NodeRestorer _ => res node_ref
  | ProviderType => string
  | RandIntn _ => Z
  | Tick => option error
  | Interleave n => {o : list nat | o ≡ₚ seq 0 n}
  end.

Canonical chain_sig : sig := Sig chain_call chain_ans.

(** ** Error groups

    Every goroutine runs, one after the other in an order of the
    environment's choice; [Wait] returns the first error. *)
Section errgroup.
Context {S : Type}.

Fixpoint run_all (tasks : list (M chain_sig S unit)) : M chain_sig S (option error) :=
  match tasks with
  | [] => retM None
  | task :: tasks' =>
      let* r := try_ task in
      let* rest := run_all tasks' in
      retM (match r with inr err => Some err | inl _ => rest end)
  end.

Definition eg_Wait (tasks : list (M chain_sig S unit)) : M chain_sig S unit :=
  let* order := perform (Interleave (length tasks)) in
  let* err := run_all (omap (fun i => tasks !! i) (proj1_sig order)) in
  match err with Some err => throw err | None => retM tt end.
End errgroup.

(** ** Peers *)
Class LibP2P := {
  UnmarshalEd25519PublicKey : string -> res string;
  UnmarshalSecp256k1PublicKey : string -> res string;
  IDFromPublicKey : string -> res string;      (* and the ID's String *)
  ed25519_KeyType : string;
  secp256k1_KeyType : string
}.

Definition PeerSet : Type := list node_ref.
Definition cometPort : string := "26656".

Section peers.
Context {LP : LibP2P} {S : Type}.
Abbreviation ChainM := (M chain_sig S).

Definition peerHostExternal (n : node_ref) : ChainM string :=
  ask (Method n (NGetExternalAddress cometPort)).
Definition peerHostInternal (n : node_ref) : ChainM string :=
  let* ip := ask (Method n NGetIP) in retM (ip +:+ ":" +:+ cometPort).
Definition peerHostPrivate (n : node_ref) : ChainM string :=
  let* ip := ask (Method n NGetPrivateIP) in retM (ip +:+ ":" +:+ cometPort).

(** [for _, n := range ps.peers { ...; out = append(out, x) }] *)
Fixpoint collect {A B} (f : A -> ChainM B) (l : list A) : ChainM (list B) :=
  match l with
  | [] => retM []
  | x :: l' => let* y := f x in let* ys := collect f l' in retM (y :: ys)
  end.

Definition comet_peer (useExternal : bool) (n : node_ref) : ChainM string :=
  let* nodeID := wrap "node id" (ask (Method n NNodeId)) in
  let* host := wrap "host" (if useExternal then peerHostExternal n else peerHostInternal n) in
  retM (nodeID +:+ "@" +:+ host).

Definition AsCometPeerString (ps : PeerSet) (useExternal : bool) : ChainM string :=
  let* peerStrings := collect (comet_peer useExternal) ps in
  retM (Join peerStrings ",").

Definition pubKeyFromCosmosKey (key : PubKey) : ChainM string :=
  if String.eqb (pk_Type key) ed25519_KeyType then lift_res (UnmarshalEd25519PublicKey (pk_Bytes key))
  else if String.eqb (pk_Type key) secp256k1_KeyType then lift_res (UnmarshalSecp256k1PublicKey (pk_Bytes key))
  else throw (ENew ("unsupported public key type " +:+ dquote +:+ pk_Type key +:+ dquote)).

Definition peerIDFromNode (n : node_ref) : ChainM string :=
  let* cometPubKey := wrap "comet public key" (ask (Method n NPubKey)) in
  let* pubKey := wrap "libp2p public key" (pubKeyFromCosmosKey cometPubKey) in
  wrap "peer id" (lift_res (IDFromPublicKey pubKey)).

Definition libp2p_peer (isDocker : bool) (n : node_ref) : ChainM gomap :=
  let* host := wrap "host" (if isDocker then peerHostInternal n else peerHostPrivate n) in
  let* peerID := wrap "peer id" (peerIDFromNode n) in
  retM [("host", VStr host); ("id", VStr peerID); ("persistent", VBool true)].

Definition AsLibP2PBootstrapPeers (ps : PeerSet) (isDocker : bool) : ChainM (list gomap) :=
  collect (libp2p_peer isDocker) ps.

Fixpoint composeLibP2PBootstrapPeers (useExternalAddress : bool) (peerSets : list PeerSet)
    : ChainM (list gomap) :=
  match peerSets with
  | [] => retM []
  | peerSet :: peerSets' =>
      match peerSet with
      | [] => composeLibP2PBootstrapPeers useExternalAddress peerSets'
      | _ =>
          let* elements := wrap "failed to get libp2p bootstrap peers for peer set"
            (AsLibP2PBootstrapPeers peerSet (negb useExternalAddress)) in
          let* peers := composeLibP2PBootstrapPeers useExternalAddress peerSets' in
          retM (elements ++ peers)
      end
  end.

Definition configureNode (node : node_ref) (chainConfig : ChainConfig) (genbz : string)
    (persistentPeers seeds : PeerSet) (useExternalAddress : bool) : ChainM unit :=
  let* _ := ask (Method node (NOverwriteGenesisFile genbz)) in
  let* p2pExternalAddr :=
    (if useExternalAddress then
       wrap "failed to get external address for p2p port" (ask (Method node (NGetExternalAddress "26656")))
     else
       let* ip := wrap "failed to get ip for p2p port" (ask (Method node NGetIP)) in
       retM (ip +:+ ":26656")) in
  let* _ := ask (Method node (NSetChainConfigs (ChainId chainConfig) p2pExternalAddr)) in
  let* persistentPeersString := wrap "failed to get comet peer string for persistent peers"
    (AsCometPeerString persistentPeers useExternalAddress) in
  let* _ := ask (Method node (NSetPersistentPeers persistentPeersString)) in
  let* seedPeersString := wrap "failed to get comet peer string for seeds"
    (AsCometPeerString seeds useExternalAddress) in
  let* _ := ask (Method node (NSetSeedNode seedPeersString)) in
  if UseLibP2P chainConfig then
    let* bootstrapPeers := wrap "failed to compose lib-p2p bootstrap peers"
      (composeLibP2PBootstrapPeers useExternalAddress [seeds; persistentPeers]) in
    wrap "failed to set lib-p2p bootstrap peers" (ask (Method node (NSetLibP2PBootstrapPeers bootstrapPeers)))
  else retM tt.
End peers.

(** ** Error groups: what a [Wait] promises

    Tasks that each keep an invariant and, when they succeed, establish a
    fact that later events do not undo: a [Wait] without error has all the
    facts, in whatever order the goroutines ran. *)
Section errgroup_rule.
Context {S : Type} (I : list (event chain_sig) -> S -> Prop).

Definition stable (P : list (event chain_sig) -> Prop) : Prop := forall t l, P t -> P (t ++ l).

Definition task_ok (task : M chain_sig S unit) (P : list (event chain_sig) -> Prop) : Prop :=
  stable P /\
  forall t s, I t s -> wpM task s (fun t' s' o => I t' s' /\ (o = Ok tt -> P t')) t.

Lemma wpM_run_all tasks Ps t s :
  Forall2 task_ok tasks Ps -> I t s ->
  wpM (run_all tasks) s (fun t' s' o => I t' s' /\ (o = Ok None -> Forall (fun P => P t') Ps)) t.
Proof.
  intros HF. revert t s. induction HF as [|task P tasks Ps [Hst Htask] _ IH]; intros t s HI; cbn [run_all].
  - by wpM_step.
  - wpM_step. wpM_step. eapply wpM_mono; [|by apply Htask].
    intros t1 s1 o [HI1 HP]. destruct o as [[]|e|m|]; try done.
    all: wpM_step; eapply wpM_mono; [|apply wpM_extends, IH, HI1].
    all: intros t2 s2 o [[HI2 HPs] [l ->]]; destruct o as [r|e2|m|]; try done; wpM_step; split; try done.
    intros [= ->]. constructor; [by apply Hst, HP|by apply HPs].
Qed.

Lemma omap_lookup_seq_app {A} (l1 l2 : list A) :
  omap (fun i => (l1 ++ l2) !! i) (seq (length l1) (length l2)) = l2.
Proof.
  revert l1. induction l2 as [|x l2 IH]; intros l1; [done|]. cbn [length seq].
  cbn [omap list_omap]. rewrite list_lookup_middle by done. f_equal.
  specialize (IH (l1 ++ [x])). rewrite <- app_assoc, length_app, Nat.add_1_r in IH. exact IH.
Qed.

Lemma omap_lookup_seq {A} (l : list A) : omap (fun i => l !! i) (seq 0 (length l)) = l.
Proof. apply (omap_lookup_seq_app [] l). Qed.

Lemma wpM_eg_Wait tasks Ps t s (Q : list (event chain_sig) -> S -> outcome unit -> Prop) :
  Forall2 task_ok tasks Ps ->
  (forall x, I (t ++ [ev (Interleave (length tasks)) x]) s) ->
  (forall t' s' o, I t' s' -> (o = Ok tt -> Forall (fun P => P t') Ps) -> Q t' s' o) ->
  wpM (eg_Wait tasks) s Q t.
Proof.
  intros HF HI HQ. unfold eg_Wait. wpM_step. wpM_step. destruct x as [order Hperm]. cbn [proj1_sig]. wpM_step.
  set (ps := omap (fun i => Ps !! i) order).
  assert (Hlen : length tasks = length Ps) by by eapply Forall2_length.
  assert (HPs : ps ≡ₚ Ps).
  { unfold ps. rewrite Hperm, Hlen. by rewrite omap_lookup_seq. }
  assert (HF' : Forall2 task_ok (omap (fun i => tasks !! i) order) ps).
  { unfold ps. clear -HF. induction order as [|i order IH]; [constructor|]. simpl.
    destruct (tasks !! i) as [x|] eqn:Hx.
    - destruct (Forall2_lookup_l _ _ _ _ _ HF Hx) as (P & HP & HxP). rewrite HP. by constructor.
    - apply lookup_ge_None in Hx. rewrite (Forall2_length _ _ _ HF) in Hx.
      apply lookup_ge_None in Hx. by rewrite Hx. }
  eapply wpM_mono; [|apply (wpM_run_all _ _ _ _ HF' (HI _))].
  intros t' s' o [HI' Hall]. destruct o as [[e|]|e|m|]; cbn beta iota; [wpM_step|wpM_step|..]; try by apply HQ.
  apply HQ; [done|]. intros _. rewrite <- HPs. by apply Hall.
Qed.
End errgroup_rule.

(** A loop over calls that leave the state alone answers one value per
    element, in order, each related to its element by the trace. *)
Lemma wpM_collect {S A B} (R : list (event chain_sig) -> A -> B -> Prop) (f : A -> M chain_sig S B) l s t :
  (forall t u x y, R t x y -> R (t ++ u) x y) ->
  (forall x t, wpM (f x) s (fun t' s' o => s' = s /\ forall y, o = Ok y -> R t' x y) t) ->
  wpM (collect f l) s (fun t' s' o => s' = s /\ forall ys, o = Ok ys -> Forall2 (R t') l ys) t.
Proof.
  intros Hmono Hf. revert t. induction l as [|x l IH]; intros t; cbn [collect].
  - wpM_step. split; [done|]. by intros ys [= <-].
  - wpM_step. eapply wpM_mono; [|apply Hf]. intros t1 s1 [y|e|m|] [-> Hy]; try done.
    wpM_step. eapply wpM_mono; [|apply wpM_extends, IH]. intros t2 s2 [ys|e|m|] [[-> Hys] [u ->]]; try done.
    wpM_step. split; [done|]. intros zs [= <-]. constructor; [by apply Hmono, Hy|by apply Hys].
Qed.

Section emits.
Context {S : Type} (P : event chain_sig -> Prop).

Lemma emits_collect {A B} (f : A -> M chain_sig S B) l :
  (forall x, emits P (f x)) -> emits P (collect f l).
Proof. intros Hf. induction l as [|x l IH]; cbn [collect]; emits_go; auto. Qed.

Lemma emits_eg_Wait (tasks : list (M chain_sig S unit)) :
  (forall n x, P (ev (Interleave n) x)) -> Forall (emits P) tasks -> emits P (eg_Wait tasks).
Proof.
  intros HI Ht. assert (Hrun : forall ts : list (M chain_sig S unit), Forall (emits P) ts -> emits P (run_all ts)).
  { induction 1; cbn [run_all]; emits_go; auto. }
  unfold eg_Wait. emits_go; [apply HI|]. apply Hrun.
  induction (proj1_sig a) as [|i order IH]; [constructor|]. simpl.
  destruct (tasks !! i) eqn:Hi; [|done]. constructor; [|done].
  by apply (Forall_lookup_1 _ _ _ _ Ht Hi).
Qed.
End emits.

Section preserves.
Context {S : Type} (I : list (event chain_sig) -> S -> Prop).

Lemma preserves_collect {A B} (f : A -> M chain_sig S B) l :
  (forall x, preserves I (f x)) -> preserves I (collect f l).
Proof. intros Hf. induction l as [|x l IH]; cbn [collect]; preserves_go; auto. Qed.

Lemma preserves_eg_Wait (tasks : list (M chain_sig S unit)) :
  (forall t s n x, I t s -> I (t ++ [ev (Interleave n) x]) s) -> Forall (preserves I) tasks ->
  preserves I (eg_Wait tasks).
Proof.
  intros HI Ht. assert (Hrun : forall ts : list (M chain_sig S unit), Forall (preserves I) ts -> preserves I (run_all ts)).
  { induction 1; cbn [run_all]; preserves_go; auto. }
  unfold eg_Wait. preserves_go; [apply preserves_perform; auto|]. apply Hrun.
  induction (proj1_sig a) as [|i order IH]; [constructor|]. simpl.
  destruct (tasks !! i) eqn:Hi; [|done]. constructor; [|done].
  by apply (Forall_lookup_1 _ _ _ _ Ht Hi).
Qed.
End preserves.

(** No event starts a node. *)
Definition not_start (e : event chain_sig) : Prop :=
  forall n, projT1 e <> Method n NStart.

(** Every step of configuring a node, the last of which is not to start it. *)
Record configured_with (config : ChainConfig) (genbz : string) (n : node_ref) (t : list (event chain_sig)) : Prop := {
  cw_genesis : ev (Method n (NOverwriteGenesisFile genbz)) (inl tt) ∈ t;
  cw_configs : exists addr, ev (Method n (NSetChainConfigs (ChainId config) addr)) (inl tt) ∈ t;
  cw_peers : exists peers, ev (Method n (NSetPersistentPeers peers)) (inl tt) ∈ t;
  cw_seeds : exists seeds, ev (Method n (NSetSeedNode seeds)) (inl tt) ∈ t
}.

Lemma configured_with_stable config genbz n : stable (configured_with config genbz n).
Proof.
  intros t l [H1 [a H2] [p H3] [s H4]]. split.
  - apply elem_of_app; auto.
  - exists a. apply elem_of_app; auto.
  - exists p. apply elem_of_app; auto.
  - exists s. apply elem_of_app; auto.
Qed.

Section configure.
Context {LP : LibP2P} {S : Type}.

Lemma emits_AsCometPeerString ps ue : emits not_start (AsCometPeerString (S := S) ps ue).
Proof.
  unfold AsCometPeerString, comet_peer, peerHostExternal, peerHostInternal.
  emits_go; try by intros ?. apply emits_collect. intros x. emits_go; by intros ?.
Qed.

Lemma emits_compose ue sets : emits not_start (composeLibP2PBootstrapPeers (S := S) ue sets).
Proof.
  induction sets as [|[|n s] sets IH]; cbn [composeLibP2PBootstrapPeers]; [emits_go|done|].
  unfold AsLibP2PBootstrapPeers. emits_go.
  apply emits_collect. intros x. unfold libp2p_peer, peerHostInternal, peerHostPrivate, peerIDFromNode,
    pubKeyFromCosmosKey. emits_go; by intros ?.
Qed.

Lemma emits_configureNode n config genbz pp seeds ue :
  emits not_start (configureNode (S := S) n config genbz pp seeds ue).
Proof.
  unfold configureNode. emits_go; try (by intros ?); try apply emits_AsCometPeerString; apply emits_compose.
Qed.

(** A call that answers no value: on an error the handler is over. *)
Ltac ask_unit :=
  do 3 wpM_step; cbn beta iota;
  lazymatch goal with |- wpM (lift_res ?r) _ _ _ => destruct r as [[]|?] end;
  cbn [lift_res]; wpM_step; [|done].

(** A node whose configuration succeeded has every part of it. *)
Lemma configureNode_configures n config genbz pp seeds ue t (s : S) :
  wpM (configureNode n config genbz pp seeds ue) s (fun t' _ o => o = Ok tt -> configured_with config genbz n t') t.
Proof.
  unfold configureNode. ask_unit. set (t1 := t ++ _).
  assert (H1 : ev (Method n (NOverwriteGenesisFile genbz)) (inl tt) ∈ t1) by (apply elem_of_app; right; by left).
  clearbody t1. wpM_step.
  eapply (wpM_mono _ _ (fun t' _ _ => exists l, t' = t1 ++ l)).
  2: { apply (emits_use not_start); [emits_go; by intros ?|eauto]. }
  intros t2 s2 [addr|e|m|] [l ->]; try done.
  ask_unit.
  set (t2 := (t1 ++ l) ++ _).
  assert (H2 : ev (Method n (NSetChainConfigs (ChainId config) addr)) (inl tt) ∈ t2) by (apply elem_of_app; right; by left).
  assert (H1' : ev (Method n (NOverwriteGenesisFile genbz)) (inl tt) ∈ t2) by (unfold t2; rewrite !elem_of_app; auto).
  clearbody t2. wpM_step. wpM_step. apply (emits_use not_start); [apply emits_AsCometPeerString|].
  intros l2 s3 [peers|e|m|] _; try done. cbn [wrap_outcome].
  ask_unit.
  set (t3 := (t2 ++ l2) ++ _).
  assert (H3 : ev (Method n (NSetPersistentPeers peers)) (inl tt) ∈ t3) by (apply elem_of_app; right; by left).
  assert (Hin : forall e, e ∈ t2 -> e ∈ t3) by (intros e He; unfold t3; rewrite !elem_of_app; auto).
  apply Hin in H1', H2. clearbody t3. clear Hin.
  wpM_step. wpM_step. apply (emits_use not_start); [apply emits_AsCometPeerString|].
  intros l3 s4 [seedstr|e|m|] _; try done. cbn [wrap_outcome].
  ask_unit.
  set (t4 := (t3 ++ l3) ++ _).
  assert (Hc : configured_with config genbz n t4).
  { assert (Hin : forall e, e ∈ t3 -> e ∈ t4) by (intros e He; unfold t4; rewrite !elem_of_app; auto).
    split; [by apply Hin|exists addr; by apply Hin|exists peers; by apply Hin|].
    exists seedstr. apply elem_of_app. right. by left. }
  clearbody t4. apply (emits_use not_start).
  - emits_go; try (by intros ?). apply emits_compose.
  - intros l4 s5 o _ _. by apply configured_with_stable.
Qed.
End configure.
