(* ===== verification/Chain.v ===== *)
(** * Chains: [petri/cosmos/chain/chain.go], [chain_wallet.go]

    Creating the nodes of a chain, initialising it, its heights, its state.
    The state is the [Chain] struct; the goroutines of an error group take
    effect in an arbitrary order ([Peers.eg_Wait]). *)

From S2P Require Import Prelude GoStrings GoVal ProviderDefs ChainTypes NodeConfig Genesis NodeOps Peers.
From Stdlib Require Ascii DecimalString.

(** ** State *)
Record Chain := {
  ch_Config : ChainConfig;
  Validators : list node_ref;
  Nodes : list node_ref;
  FaucetWallet : option CosmosWallet;
  ValidatorWallets : list (option CosmosWallet);
  useExternalAddresses : bool
}.

Definition set_FaucetWallet (w : option CosmosWallet) (c : Chain) : Chain :=
  {| ch_Config := ch_Config c; Validators := Validators c; Nodes := Nodes c; FaucetWallet := w;
     ValidatorWallets := ValidatorWallets c; useExternalAddresses := useExternalAddresses c |}.
Definition set_ValidatorWallet (i : nat) (w : CosmosWallet) (c : Chain) : Chain :=
  {| ch_Config := ch_Config c; Validators := Validators c; Nodes := Nodes c; FaucetWallet := FaucetWallet c;
     ValidatorWallets := <[i := Some w]> (ValidatorWallets c);
     useExternalAddresses := useExternalAddresses c |}.

(** [PackagedState] *)
Record ChainPackagedState := {
  cp_Config : ChainConfig;
  ValidatorStates : list string;
  NodeStates : list string;
  cp_ValidatorWallets : list string;
  cp_FaucetWallet : string
}.

(** [ChainOptions]; [ModifyGenesis] and [NodeCreator] may be nil. *)
Record ChainOptions := {
  opt_ModifyGenesis : option (string -> outcome string);
  opt_NodeOptions : NodeOptions;
  opt_NodeCreator : bool;
  opt_WalletConfig : WalletConfig;
  AdditionalAccounts : Z;
  opt_BaseMnemonic : string
}.

Definition ChainOptions_ValidateBasic (o : ChainOptions) : outcome unit :=
  match WalletConfig_ValidateBasic (opt_WalletConfig o) with
  | Err err => Err (EWrap "wallet config is invalid" err)
  | _ => if opt_NodeCreator o then Ok tt else Err (ENew "node creator cannot be nil")
  end.

(** ** Creating the nodes *)

(** [createRegionalNodeOptions]: the region's settings, applied last. *)
Definition applyRegionConfig (region : RegionConfig) (definition : TaskDefinition) : TaskDefinition :=
  let config := default ∅ (ProviderSpecificConfig definition) in
  let config := <["image_id" := "210084437"]> (<["region" := rc_Name region]> config) in
  let config := match config !! "size" with Some _ => config | None => <["size" := "s-4vcpu-8gb"]> config end in
  {| td_Name := td_Name definition; td_Image := td_Image definition; Ports := Ports definition;
     Environment := Environment definition; DataDir := DataDir definition;
     Entrypoint := Entrypoint definition; Command := Command definition; Args := Args definition;
     ProviderSpecificConfig := Some config |}.

Definition createRegionalNodeOptions (baseOpts : NodeOptions) (region : RegionConfig) : NodeOptions :=
  {| NodeDefinitionModifier := Some (fun definition nodeConfig =>
       match NodeDefinitionModifier baseOpts with
       | None => applyRegionConfig region definition
       | Some originalModifier => applyRegionConfig region (originalModifier definition nodeConfig)
       end) |}.

(** One goroutine: what it creates, and in which slice it puts it. *)
Record NodeJob := {
  job_validator : bool;
  job_config : NodeConfig;
  job_options : NodeOptions
}.

Definition region_jobs (config : ChainConfig) (opts : NodeOptions) (region : RegionConfig)
    (validator : bool) (first : Z) (n : nat) : list NodeJob :=
  map (fun i =>
    let index := first + Z.of_nat i in
    {| job_validator := validator;
       job_config :=
         {| nc_Name := cc_Name config +:+ (if validator then "-validator-" else "-node-") +:+
              itoa index +:+ "-" +:+ rc_Name region;
            Index := index;
            nc_ChainConfig := config |};
       job_options := createRegionalNodeOptions opts region |}) (seq 0 n).

Fixpoint regional_jobs (config : ChainConfig) (opts : NodeOptions) (regions : list RegionConfig)
    (validatorIndex nodeIndex : Z) : list NodeJob :=
  match regions with
  | [] => []
  | region :: regions' =>
      let nv := Z.to_nat (NumValidators region) in
      let nn := Z.to_nat (NumNodes region) in
      region_jobs config opts region true validatorIndex nv ++
      region_jobs config opts region false nodeIndex nn ++
      regional_jobs config opts regions' (validatorIndex + Z.of_nat nv) (nodeIndex + Z.of_nat nn)
  end.

Definition local_jobs (config : ChainConfig) (opts : NodeOptions) : list NodeJob :=
  let job validator i :=
    {| job_validator := validator;
       job_config :=
         {| nc_Name := cc_Name config +:+ (if validator then "-validator-" else "-node-") +:+
              itoa (Z.of_nat i);
            Index := Z.of_nat i;
            nc_ChainConfig := config |};
       job_options := opts |} in
  map (job true) (seq 0 (Z.to_nat (cc_NumValidators config))) ++
  map (job false) (seq 0 (Z.to_nat (cc_NumNodes config))).

(** The goroutine's body: the slices are shared, under the chain's lock. *)
Definition run_job (job : NodeJob) : M chain_sig (list node_ref * list node_ref) unit :=
  let* node := ask (NodeCreator (job_config job) (job_options job)) in
  modify (fun '(validators, nodes) =>
    if job_validator job then ((validators ++ [node])%list, nodes) else (validators, (nodes ++ [node])%list)).

Definition create_nodes (jobs : list NodeJob) : M chain_sig (list node_ref * list node_ref) (list node_ref * list node_ref) :=
  let* _ := eg_Wait (map run_job jobs) in
  get.

Definition createRegionalNodes (config : ChainConfig) (opts : ChainOptions) :=
  create_nodes (regional_jobs config (opt_NodeOptions opts) (cc_RegionConfig config) 0 0).
Definition createLocalNodes (config : ChainConfig) (opts : ChainOptions) :=
  create_nodes (local_jobs config (opt_NodeOptions opts)).

Definition CreateChain (config : ChainConfig) (opts : ChainOptions) : M chain_sig unit Chain :=
  let* providerType := perform ProviderType in
  let* _ := wrap "failed to validate chain config" (lift_outcome (ChainConfig_ValidateBasic config providerType)) in
  let* _ := wrap "failed to validate chain options" (lift_outcome (ChainOptions_ValidateBasic opts)) in
  let* '(validators, nodes) := scoped ([], [])
    (if String.eqb providerType DigitalOcean then createRegionalNodes config opts
     else createLocalNodes config opts) in
  retM {| ch_Config := config; Validators := validators; Nodes := nodes; FaucetWallet := None;
          ValidatorWallets := replicate (length validators) None;
          useExternalAddresses := String.eqb providerType DigitalOcean |}.

(** ** Heights *)
Abbreviation ChainOp := (M chain_sig Chain).

(** [l[rand.Intn(len(l))]], which panics on an empty slice. *)
Definition random_element (l : list node_ref) : ChainOp node_ref :=
  match l with
  | [] => panic "invalid argument to Intn"
  | _ =>
      let* i := perform (RandIntn (Z.of_nat (length l))) in
      match l !! Z.to_nat i with
      | Some n => retM n
      | None => panic "index out of range"
      end
  end.

Definition GetFullNode : ChainOp node_ref :=
  let* c := get in
  if (0 <? Z.of_nat (length (Nodes c))) then random_element (Nodes c) else random_element (Validators c).

Definition Height : ChainOp Z :=
  let* node := GetFullNode in
  let* latest := ask (Method node NStatus) in
  retM (to_uint64 latest).

(** One round of a ticker loop whose body's errors are logged. *)
Definition WaitForHeight_round (desiredHeight : Z) : ChainOp (option unit) :=
  let* done := perform Tick in
  match done with
  | Some err => throw err
  | None =>
      let* r := try_ Height in
      match r with
      | inr _ => retM None
      | inl height => if desiredHeight <=? height then retM (Some tt) else retM None
      end
  end.

Definition WaitForHeight (fuel : nat) (desiredHeight : Z) : ChainOp unit :=
  poll fuel (WaitForHeight_round desiredHeight).

Definition WaitForBlocks (fuel : nat) (delta : Z) : ChainOp unit :=
  let* start := Height in
  WaitForHeight fuel (to_uint64 (start + delta)).

Definition WaitForStartup (fuel : nat) : ChainOp unit :=
  poll fuel
    (let* done := perform Tick in
     match done with
     | Some err => throw err
     | None =>
         let* r := try_ (WaitForHeight fuel 1) in
         match r with inr _ => retM None | inl _ => retM (Some tt) end
     end).

(** ** [Teardown] *)
Definition Teardown : ChainOp unit :=
  let* c := get in
  let* _ := for_each (Validators c) (fun v => ask (Method v NDestroy)) in
  for_each (Nodes c) (fun n => ask (Method n NDestroy)).

(** ** Wallets: [chain_wallet.go] *)
Section wallets.
Context {Cr : Crypto}.

Definition chain_RecoverKey (keyName_ mnemonic_ : string) : ChainOp unit :=
  let* n := GetFullNode in ask (Method n (NRecoverKey keyName_ mnemonic_)).

Definition chain_CreateWallet (keyName_ : string) (config : WalletConfig) : ChainOp CosmosWallet :=
  let* n := GetFullNode in ask (Method n (NCreateWallet keyName_ config)).

Definition BuildWallet (keyName_ mnemonic_ : string) (walletConfig : WalletConfig) : ChainOp CosmosWallet :=
  if String.eqb mnemonic_ "" then chain_CreateWallet keyName_ walletConfig
  else
    let* c := get in
    let* _ := wrap ("failed to recover key with name " +:+ dquote +:+ keyName_ +:+ dquote +:+
        " on chain " +:+ ChainId (ch_Config c)) (chain_RecoverKey keyName_ mnemonic_) in
    lift_outcome (NewWallet keyName_ mnemonic_ "" walletConfig).
End wallets.

(** ** State: [Serialize], [RestoreChain] *)
Section state.
Context {Cr : Crypto}.
Variable Marshal : ChainPackagedState -> res string.
Variable Unmarshal : string -> res ChainPackagedState.

(** [w.Mnemonic()]; a nil wallet is dereferenced. *)
Definition wallet_mnemonic (w : option CosmosWallet) : ChainOp string :=
  match w with Some w => retM (mnemonic w) | None => panic "invalid memory address or nil pointer dereference" end.

Definition chain_Serialize : ChainOp string :=
  let* c := get in
  let* vs := collect (fun v => ask (Method v NSerialize)) (Validators c) in
  let* ns := collect (fun n => ask (Method n NSerialize)) (Nodes c) in
  let* ws := collect wallet_mnemonic (ValidatorWallets c) in
  lift_res (Marshal
    {| cp_Config := ch_Config c; ValidatorStates := vs; NodeStates := ns; cp_ValidatorWallets := ws;
       cp_FaucetWallet := match FaucetWallet c with Some w => mnemonic w | None => "" end |}).

(** Each goroutine writes its own index. *)
Definition restore_job (validator : bool) (i : nat) (state : string)
    : M chain_sig (list (option node_ref) * list (option node_ref)) unit :=
  let* v := ask (NodeRestorer state) in
  modify (fun '(vs, ns) => if validator then (<[i := Some v]> vs, ns) else (vs, <[i := Some v]> ns)).

Definition restore_wallets (walletConfig : WalletConfig) (mnemonics : list string) : outcome (list (option CosmosWallet)) :=
  mapM (fun m => w ← wrap_outcome "failed to restore validator wallet" (NewWallet ValidatorKeyName m "" walletConfig);
                 mret (Some w)) mnemonics.

Definition RestoreChain (state : string) (walletConfig : WalletConfig) : M chain_sig unit Chain :=
  let* packagedState := lift_res (Unmarshal state) in
  let vs := ValidatorStates packagedState in
  let ns := NodeStates packagedState in
  let* '(validators, nodes) := scoped (replicate (length vs) None, replicate (length ns) None)
    (let* _ := eg_Wait (imap (restore_job true) vs ++ imap (restore_job false) ns) in get) in
  let* ws := lift_outcome (restore_wallets walletConfig (cp_ValidatorWallets packagedState)) in
  let* faucet :=
    (if negb (String.eqb (cp_FaucetWallet packagedState) "") then
       let* w := wrap "failed to restore faucet wallet"
         (lift_outcome (NewWallet FaucetAccountKeyName (cp_FaucetWallet packagedState) "" walletConfig)) in
       retM (Some w)
     else retM None) in
  retM {| ch_Config := cp_Config packagedState;
          Validators := omap id validators; Nodes := omap id nodes;
          FaucetWallet := faucet; ValidatorWallets := ws; useExternalAddresses := false |}.
End state.

(** ** Genesis operations *)
Section init.
Context {Cr : Crypto} {LP : LibP2P} {R : MapRange} {BC : BankCodec}.

Definition genesis_subcommand (c : Chain) (cmd : list string) : list string :=
  if UseGenesisSubCommand (ch_Config c) then "genesis" :: cmd else cmd.

Definition account_command (c : Chain) (address amounts : string) : list string :=
  genesis_subcommand c ["add-genesis-account"; address; amounts; "--keyring-backend"; "test"].

(** The other validators: their account is a line of the script, their
    gentx is copied to the first validator. *)
Fixpoint validator_lines (c : Chain) (first : node_ref) (amounts : string)
    (others : list (node_ref * option CosmosWallet)) : ChainOp string :=
  match others with
  | [] => retM ""
  | (validator, w) :: others' =>
      match w with
      | None => panic "index out of range or nil pointer dereference"
      | Some w =>
          let* line := perform (Method first (NBinCommand (account_command c (FormattedAddress w) amounts))) in
          let* name := perform (Method validator GetName) in
          let* _ := wrap ("failed to copy gentx from " +:+ name) (ask (Method validator (NCopyGenTx first))) in
          let* lines := validator_lines c first amounts others' in
          retM (Join line " " +:+ nl +:+ lines)
      end
  end.

Definition update_validator_genesis (accounts : list Account) (balances : list Balance) (v : node_ref) : ChainOp unit :=
  let* genesisBz := wrap "failed to get genesis file" (ask (Method v NGenesisFileContent)) in
  let* data := lift_res (json_Unmarshal genesisBz) in
  let* data := wrap "failed to update genesis accounts" (lift_outcome (UpdateGenesisAccounts accounts data)) in
  let* data := wrap "failed to update genesis balances" (lift_outcome (UpdateGenesisBalances balances data)) in
  let* updatedGenesisBz := lift_res (json_Marshal data) in
  wrap "failed to overwrite genesis file for validator"
    (ask (Method v (NOverwriteGenesisFile updatedGenesisBz))).

Definition executeGenesisOperations (walletCfg : WalletConfig) (firstValidator : node_ref)
    (faucetWallet : CosmosWallet) (genesisAmounts : list Coin) (baseMnemonic : string)
    (numAdditionalAccounts : Z) : ChainOp unit :=
  let* c := get in
  let faucetAmount := Join (map coin_string genesisAmounts) "," in
  let* faucetCommand := perform (Method firstValidator
    (NBinCommand (account_command c (FormattedAddress faucetWallet) faucetAmount))) in
  let others := tail (imap (fun i v => (v, mjoin (ValidatorWallets c !! i))) (Validators c)) in
  let* lines := validator_lines c firstValidator faucetAmount others in
  let* collectCommand := perform (Method firstValidator (NBinCommand (genesis_subcommand c ["collect-gentxs"]))) in
  let finalScript := "#!/bin/sh" +:+ nl +:+ "set -e" +:+ nl +:+ Join faucetCommand " " +:+ nl +:+ lines +:+
    Join collectCommand " " +:+ nl in
  let* '(stdout, stderr, exitCode) := wrap "failed to run final genesis script"
    (ask (Method firstValidator (NRunCommand ["/bin/sh"; "-c"; finalScript]))) in
  if negb (exitCode =? 0) then
    throw (ENew ("final genesis script failed (exit code " +:+ itoa exitCode +:+ "): " +:+ stderr +:+
      ", stdout: " +:+ stdout))
  else if 0 <? numAdditionalAccounts then
    if String.eqb baseMnemonic "" then
      throw (ENew "base-mnemonic is required when additional accounts > 0")
    else
      let* accounts := wrap "failed to build additional accounts"
        (lift_outcome (buildAccounts walletCfg baseMnemonic (Z.of_nat (length (Validators c)) + 1) numAdditionalAccounts)) in
      let balances := buildBalances accounts genesisAmounts in
      wrap "failed to add additional accounts"
        (eg_Wait (map (update_validator_genesis accounts balances) (Validators c)))
  else retM tt.

(** ** [Init] *)

(** [int64(math.Pow10(n))]: out of range, the conversion gives the minimum. *)
Definition pow10_int64 (n : Z) : Z := if n <=? 18 then 10 ^ n else - 2 ^ 63.

(** An [sdkmath.Int] has at most 256 bits. *)
Definition sdk_int (z : Z) : outcome Z :=
  if Z.abs z <? 2 ^ 256 then Ok z else Panic "Int overflow".

Definition genesis_coin (config : ChainConfig) (amount : Z) : outcome Coin :=
  base ← sdk_int amount;
  amount ← sdk_int (base * pow10_int64 (Decimals config));
  mret {| coin_Denom := Denom config; coin_Amount := amount |}.

Definition setup_validator (opts : ChainOptions) (genesisAmounts : list Coin) (selfDelegation : Coin)
    (idx : nat) (v : node_ref) : ChainOp unit :=
  let* r := try_ (ask (Method v (NSetupValidator (opt_WalletConfig opts) genesisAmounts selfDelegation))) in
  match r with
  | inr err => throw (ENew ("error in validator setup: " +:+ Error err))
  | inl (validatorWallet, _) => modify (set_ValidatorWallet idx validatorWallet)
  end.

Definition Init (opts : ChainOptions) : ChainOp unit :=
  let* _ := wrap "failed to validate chain options" (lift_outcome (ChainOptions_ValidateBasic opts)) in
  let* c := get in
  let config := ch_Config c in
  let* genesisCoin := lift_outcome (genesis_coin config (GetGenesisBalance config)) in
  let* genesisSelfDelegation := lift_outcome (genesis_coin config (GetGenesisDelegation config)) in
  let genesisAmounts := [genesisCoin] in
  let* _ := eg_Wait (imap (setup_validator opts genesisAmounts genesisSelfDelegation) (Validators c) ++
                     map (fun n => ask (Method n NSetupNode)) (Nodes c)) in
  let* faucetWallet := BuildWallet FaucetAccountKeyName "" (opt_WalletConfig opts) in
  let* _ := modify (set_FaucetWallet (Some faucetWallet)) in
  match Validators c with
  | [] => panic "index out of range [0] with length 0"
  | firstValidator :: _ =>
      let* _ := executeGenesisOperations (opt_WalletConfig opts) firstValidator faucetWallet genesisAmounts
        (opt_BaseMnemonic opts) (AdditionalAccounts opts) in
      let* genbz := ask (Method firstValidator NGenesisFileContent) in
      let* genbz :=
        (match opt_ModifyGenesis opts with
         | Some modifyGenesis => lift_outcome (modifyGenesis genbz)
         | None => retM genbz
         end) in
      let* seedNode :=
        (if SetSeedNode config then
           match Nodes c with
           | n :: _ => retM (Some n)
           | [] => throw (ENew "no nodes available to be used as seed ")
           end
         else retM None) in
      let seeds := match seedNode with Some n => [n] | None => [] end in
      let persistentPeers := if SetPersistentPeers config then (Nodes c ++ Validators c)%list else [] in
      let* _ := eg_Wait (map (fun n => configureNode n config genbz persistentPeers seeds (useExternalAddresses c))
                           (Validators c ++ Nodes c)) in
      let* _ :=
        (match seedNode with
         | Some n =>
             let* name := perform (Method n GetName) in
             wrap ("failed to set seed mode on " +:+ name) (ask (Method n NSetSeedMode))
         | None => retM tt
         end) in
      eg_Wait (map (fun n => ask (Method n NStart)) (Validators c ++ Nodes c))
  end.
End init.

(** ** Names of the nodes *)
Fixpoint no_dash (s : string) : bool :=
  match s with
  | EmptyString => true
  | String c s' => negb (Ascii.eqb c (Ascii.ascii_of_nat 45)) && no_dash s'
  end.

Lemma no_dash_uint d : no_dash (DecimalString.NilEmpty.string_of_uint d) = true.
Proof. induction d; simpl; auto. Qed.

Lemma itoa_no_dash n : no_dash (itoa (Z.of_nat n)) = true.
Proof.
  unfold itoa. destruct (Z.to_int (Z.of_nat n)) as [d|d] eqn:Hd; [|by destruct n].
  cbn [DecimalString.NilZero.string_of_int]. unfold DecimalString.NilZero.string_of_uint.
  pose proof (no_dash_uint d) as H. destruct d; [reflexivity|exact H..].
Qed.

Lemma dash_split a1 a2 b1 b2 :
  no_dash a1 = true -> no_dash a2 = true -> a1 +:+ "-" +:+ b1 = a2 +:+ "-" +:+ b2 -> a1 = a2.
Proof.
  revert a2. induction a1 as [|c a1 IH]; intros [|c2 a2] H1 H2; simpl in *; try done.
  - intros [= <- _]. simpl in H2. done.
  - intros [= -> _]. simpl in H1. done.
  - apply andb_true_iff in H1 as [_ H1], H2 as [_ H2]. intros [= -> Heq]. by rewrite (IH a2 H1 H2 Heq).
Qed.

Definition job_name (j : NodeJob) : string := nc_Name (job_config j).
Definition job_index (j : NodeJob) : Z := Index (job_config j).

(** What the jobs of a chain are: the [i]-th validator and the [i]-th node
    have index [i], and a name made of the chain's name, the kind and the
    index, up to the region. *)
Definition well_named (config : ChainConfig) (j : NodeJob) : Prop :=
  0 <= job_index j /\ nc_ChainConfig (job_config j) = config /\
  exists suffix, job_name j =
    cc_Name config +:+ (if job_validator j then "-validator-" else "-node-") +:+ itoa (job_index j) +:+ suffix /\
    (suffix = "" \/ exists region, suffix = "-" +:+ region).

Lemma well_named_index config j1 j2 :
  well_named config j1 -> well_named config j2 -> job_name j1 = job_name j2 ->
  job_validator j1 = job_validator j2 /\ job_index j1 = job_index j2.
Proof.
  intros (H1 & _ & s1 & Hn1 & Hs1) (H2 & _ & s2 & Hn2 & Hs2) Heq.
  rewrite Hn1, Hn2 in Heq. apply (inj _) in Heq.
  assert (Hidx : forall i1 i2 : Z, 0 <= i1 -> 0 <= i2 -> itoa i1 +:+ s1 = itoa i2 +:+ s2 -> i1 = i2).
  { clear -Hs1 Hs2. intros i1 i2 Hi1 Hi2 Heq.
    rewrite <- (Z2Nat.id i1), <- (Z2Nat.id i2) in Heq by done.
    assert (Hd : forall n s, s = "" \/ (exists r, s = "-" +:+ r) ->
      exists r, (itoa (Z.of_nat n) +:+ s) +:+ "-" = itoa (Z.of_nat n) +:+ "-" +:+ r).
    { intros n s [->|[r ->]]; [exists ""|exists (r +:+ "-")].
      - by rewrite string_app_nil_r.
      - by rewrite !string_app_assoc. }
    destruct (Hd (Z.to_nat i1) s1 Hs1) as [r1 Hr1], (Hd (Z.to_nat i2) s2 Hs2) as [r2 Hr2].
    rewrite Heq, Hr2 in Hr1. apply dash_split in Hr1; [|apply itoa_no_dash..].
    apply (inj itoa) in Hr1. lia. }
  destruct (job_validator j1), (job_validator j2); simpl in Heq; try discriminate;
    (split; [done|]); injection Heq as Heq; by apply Hidx.
Qed.

(** The indices of one kind of job, in order. *)
Definition indices (validator : bool) (jobs : list NodeJob) : list Z :=
  omap (fun j => if Bool.eqb (job_validator j) validator then Some (job_index j) else None) jobs.

Lemma indices_cons v j l :
  indices v (j :: l) = if Bool.eqb (job_validator j) v then job_index j :: indices v l else indices v l.
Proof. unfold indices. simpl. by destruct (Bool.eqb (job_validator j) v). Qed.

Lemma indices_app v l1 l2 : indices v (l1 ++ l2) = indices v l1 ++ indices v l2.
Proof. unfold indices. by rewrite omap_app. Qed.

Lemma region_jobs_indices config opts region v first n w :
  indices w (region_jobs config opts region v first n) =
  if Bool.eqb v w then map (fun i => first + Z.of_nat i) (seq 0 n) else [].
Proof.
  unfold region_jobs. generalize (seq 0 n) as l. intros l.
  induction l as [|i l IH]; [by destruct v, w|]. cbn [map]. rewrite indices_cons, IH. by destruct v, w.
Qed.

Lemma seq_from (a n : nat) : map (fun i => Z.of_nat a + Z.of_nat i) (seq 0 n) = map Z.of_nat (seq a n).
Proof.
  revert a. induction n as [|n IH]; intros a; [done|]. cbn [seq map]. f_equal; [lia|].
  rewrite <- IH, <- fmap_S_seq. change (S <$> seq 0 n) with (map S (seq 0 n)). rewrite map_map.
  apply map_ext. lia.
Qed.

Definition total (f : RegionConfig -> Z) (rs : list RegionConfig) : nat :=
  list_sum (map (fun r => Z.to_nat (f r)) rs).

Lemma total_cons f r rs : total f (r :: rs) = (Z.to_nat (f r) + total f rs)%nat.
Proof. done. Qed.

Lemma regional_jobs_indices config opts rs : forall (vi ni : nat),
  indices true (regional_jobs config opts rs (Z.of_nat vi) (Z.of_nat ni)) =
    map Z.of_nat (seq vi (total NumValidators rs)) /\
  indices false (regional_jobs config opts rs (Z.of_nat vi) (Z.of_nat ni)) =
    map Z.of_nat (seq ni (total NumNodes rs)).
Proof.
  induction rs as [|r rs IH]; intros vi ni; [done|]. cbn [regional_jobs].
  rewrite !total_cons.
  rewrite <- !Nat2Z.inj_add. destruct (IH (vi + Z.to_nat (NumValidators r))%nat (ni + Z.to_nat (NumNodes r))%nat)
    as [IH1 IH2].
  rewrite !indices_app, !region_jobs_indices, IH1, IH2. cbn [Bool.eqb]. rewrite !seq_from.
  rewrite !seq_app, !map_app. done.
Qed.

Lemma local_jobs_indices config opts :
  indices true (local_jobs config opts) = map Z.of_nat (seq 0 (Z.to_nat (cc_NumValidators config))) /\
  indices false (local_jobs config opts) = map Z.of_nat (seq 0 (Z.to_nat (cc_NumNodes config))).
Proof.
  unfold local_jobs. rewrite !indices_app.
  assert (Hm : forall v w (l : list nat), indices w (map (fun i =>
    {| job_validator := v; job_config := {| nc_Name := cc_Name config +:+
         (if v then "-validator-" else "-node-") +:+ itoa (Z.of_nat i);
         Index := Z.of_nat i; nc_ChainConfig := config |}; job_options := opts |}) l) =
    if Bool.eqb v w then map Z.of_nat l else []).
  { intros v w l. induction l as [|i l IH]; [by destruct v, w|].
    cbn [map]. rewrite indices_cons, IH. by destruct v, w. }
  rewrite !Hm. cbn [Bool.eqb]. by rewrite app_nil_r.
Qed.

Lemma regional_jobs_well_named config opts rs : forall vi ni, 0 <= vi -> 0 <= ni ->
  Forall (well_named config) (regional_jobs config opts rs vi ni).
Proof.
  induction rs as [|r rs IH]; intros vi ni Hv Hn; cbn [regional_jobs]; [constructor|].
  assert (Hr : forall v first n, 0 <= first -> Forall (well_named config) (region_jobs config opts r v first n)).
  { intros v first n Hf. apply Forall_map, Forall_true. intros i. unfold well_named, job_index, job_name. simpl.
    split; [lia|]. split; [done|]. exists ("-" +:+ rc_Name r). split; [done|]. right. by eexists. }
  apply Forall_app; split; [by apply Hr|]. apply Forall_app; split; [by apply Hr|]. apply IH; lia.
Qed.

Lemma local_jobs_well_named config opts : Forall (well_named config) (local_jobs config opts).
Proof.
  unfold local_jobs. apply Forall_app; split; apply Forall_map, Forall_true; intros i;
    unfold well_named, job_index, job_name; simpl.
  all: split; [lia|]; split; [done|]; exists ""; split; [|by left].
  all: by rewrite string_app_nil_r.
Qed.

(** Jobs whose indices do not repeat have distinct names. *)
Lemma names_distinct config jobs :
  Forall (well_named config) jobs -> NoDup (indices true jobs) -> NoDup (indices false jobs) ->
  NoDup (map job_name jobs).
Proof.
  induction jobs as [|j jobs IH]; intros Hw Hv Hn; [constructor|].
  apply Forall_cons in Hw as [Hj Hw]. cbn [map]. constructor.
  - intros Hin. apply list_elem_of_fmap in Hin as (j2 & Heq & Hj2).
    pose proof Hw as Hw2. rewrite Forall_forall in Hw2. specialize (Hw2 j2 Hj2).
    destruct (well_named_index config j j2 Hj Hw2 Heq) as [Hkind Hidx].
    assert (Hin : job_index j ∈ indices (job_validator j) jobs).
    { apply list_elem_of_omap. exists j2. split; [done|].
      rewrite <- Hkind, Bool.eqb_reflx, Hidx. done. }
    rewrite !indices_cons in Hv, Hn. destruct (job_validator j); cbn [Bool.eqb] in *.
    + apply NoDup_cons in Hv as [Hv _]. by apply Hv.
    + apply NoDup_cons in Hn as [Hn _]. by apply Hn.
  - rewrite indices_cons in Hv, Hn. apply IH; [done|..]; destruct (job_validator j); cbn [Bool.eqb] in *;
      try done; by eapply NoDup_cons_1_2.
Qed.

(** The jobs [CreateChain] runs on a provider of the given type. *)
Definition chain_jobs (config : ChainConfig) (opts : ChainOptions) (providerType : string) : list NodeJob :=
  if String.eqb providerType DigitalOcean
  then regional_jobs config (opt_NodeOptions opts) (cc_RegionConfig config) 0 0
  else local_jobs config (opt_NodeOptions opts).

Lemma chain_jobs_well_named config opts pt : Forall (well_named config) (chain_jobs config opts pt).
Proof.
  unfold chain_jobs. destruct (String.eqb pt DigitalOcean); [|apply local_jobs_well_named].
  by apply regional_jobs_well_named.
Qed.

Definition validator_count (config : ChainConfig) (pt : string) : nat :=
  if String.eqb pt DigitalOcean then total NumValidators (cc_RegionConfig config)
  else Z.to_nat (cc_NumValidators config).
Definition node_count (config : ChainConfig) (pt : string) : nat :=
  if String.eqb pt DigitalOcean then total NumNodes (cc_RegionConfig config)
  else Z.to_nat (cc_NumNodes config).

Lemma chain_jobs_indices config opts pt :
  indices true (chain_jobs config opts pt) = map Z.of_nat (seq 0 (validator_count config pt)) /\
  indices false (chain_jobs config opts pt) = map Z.of_nat (seq 0 (node_count config pt)).
Proof.
  unfold chain_jobs, validator_count, node_count. destruct (String.eqb pt DigitalOcean).
  - apply (regional_jobs_indices config _ _ 0 0).
  - apply local_jobs_indices.
Qed.

Lemma chain_jobs_names config opts pt : NoDup (map job_name (chain_jobs config opts pt)).
Proof.
  destruct (chain_jobs_indices config opts pt) as [Hv Hn].
  apply (names_distinct config); [apply chain_jobs_well_named|rewrite Hv|rewrite Hn];
    apply (NoDup_fmap_2 Z.of_nat), NoDup_seq.
Qed.

(** ** Runs of the creation *)
Definition create_event (j : NodeJob) (r : res node_ref) : event chain_sig :=
  ev (NodeCreator (job_config j) (job_options j)) r.

(** The references the jobs of one kind were answered, in order. *)
Fixpoint refs (validator : bool) (js : list NodeJob) (rs : list (res node_ref)) : list node_ref :=
  match js, rs with
  | j :: js', inl r :: rs' => if Bool.eqb (job_validator j) validator then r :: refs validator js' rs' else refs validator js' rs'
  | _ :: js', inr _ :: rs' => refs validator js' rs'
  | _, _ => []
  end.

Definition is_inl {A} (r : res A) : Prop := exists a, r = inl a.

Lemma refs_length v js rs :
  length rs = length js -> Forall is_inl rs ->
  length (refs v js rs) = length (indices v js).
Proof.
  revert rs. induction js as [|j js IH]; intros [|[r|e] rs] Hl Hf; try done.
  - apply Forall_cons in Hf as [_ Hf]. cbn [refs]. rewrite indices_cons.
    destruct (Bool.eqb (job_validator j) v); simpl; rewrite IH; auto.
  - by apply Forall_cons in Hf as [[? ?] _].
Qed.

Lemma refs_elem v js : forall rs n, n ∈ refs v js rs ->
  exists j, j ∈ js /\ job_validator j = v /\ create_event j (inl n) ∈ zip_with create_event js rs.
Proof.
  induction js as [|j js IH]; intros [|[r|e] rs] n Hn; cbn [refs] in Hn; try by apply not_elem_of_nil in Hn.
  - destruct (Bool.eqb (job_validator j) v) eqn:Hv.
    + apply elem_of_cons in Hn as [->|Hn].
      * exists j. split; [by left|]. split; [by apply Bool.eqb_prop|by left].
      * destruct (IH rs n Hn) as (j' & H1 & H2 & H3). exists j'. split; [by right|]. split; [done|by right].
    + destruct (IH rs n Hn) as (j' & H1 & H2 & H3). exists j'. split; [by right|]. split; [done|by right].
  - destruct (IH rs n Hn) as (j' & H1 & H2 & H3). exists j'. split; [by right|]. split; [done|by right].
Qed.

Lemma run_jobs js : forall t s,
  wpM (run_all (map run_job js)) s (fun t' s' o => exists rs, length rs = length js /\
    t' = t ++ zip_with create_event js rs /\
    s' = (s.1 ++ refs true js rs, s.2 ++ refs false js rs)%list /\
    exists e, o = Ok e /\
      (e = None -> Forall is_inl rs)) t.
Proof.
  induction js as [|j js IH]; intros t [vs ns]; cbn [map run_all].
  - wpM_step. exists []. rewrite !app_nil_r. split_and!; [done..|]. by exists None.
  - wpM_step. wpM_step. unfold run_job at 1. wpM_step. wpM_step. wpM_step. destruct x as [r|e]; cbn [lift_res].
    + wpM_step. wpM_step. cbn beta iota. wpM_step. eapply wpM_mono; [|apply IH].
      intros t' s' o (rs & Hl & -> & -> & er & -> & Her). wpM_step. cbn beta iota.
      exists (inl r :: rs). simpl. split; [by rewrite Hl|]. split; [by rewrite <- app_assoc|].
      split; [destruct (job_validator j); simpl; by rewrite <- app_assoc|].
      exists er. split; [done|]. intros Hn. constructor; [by eexists|]. by apply Her.
    + wpM_step. cbn beta iota. wpM_step. eapply wpM_mono; [|apply IH].
      intros t' s' o (rs & Hl & -> & -> & er & -> & Her). wpM_step. cbn beta iota.
      exists (inr e :: rs). simpl. split; [by rewrite Hl|]. split; [by rewrite <- app_assoc|].
      split; [done|]. by exists (Some e).
Qed.

(** The names of the nodes a trace creates. *)
Definition created_names (t : list (event chain_sig)) : list string :=
  omap (fun e => match projT1 e with NodeCreator cfg _ => Some (nc_Name cfg) | _ => None end) t.

Lemma created_names_app t1 t2 : created_names (t1 ++ t2) = created_names t1 ++ created_names t2.
Proof. apply omap_app. Qed.

Lemma created_names_events js rs :
  length rs = length js -> created_names (zip_with create_event js rs) = map job_name js.
Proof.
  revert rs. induction js as [|j js IH]; intros [|r rs] Hl; try done. simpl in Hl.
  injection Hl as Hl. change (created_names (zip_with create_event (j :: js) (r :: rs)))
    with (job_name j :: created_names (zip_with create_event js rs)). by rewrite IH.
Qed.

Lemma create_nodes_run jobs t (Q : list (event chain_sig) -> list node_ref * list node_ref -> outcome _ -> Prop) :
  (forall js rs n x, js ≡ₚ jobs -> length rs = length js ->
     let t' := (t ++ [ev (Interleave n) x]) ++ zip_with create_event js rs in
     let s' := (refs true js rs, refs false js rs) in
     (forall e, Q t' s' (Err e)) /\
     (Forall is_inl rs -> Q t' s' (Ok s'))) ->
  wpM (create_nodes jobs) ([], []) Q t.
Proof.
  intros HQ. unfold create_nodes, eg_Wait. wpM_step. wpM_step. wpM_step.
  destruct x as [order Hperm]. cbn beta iota. wpM_step. cbn [proj1_sig].
  set (js := omap (fun i => jobs !! i) order).
  assert (Hjs : js ≡ₚ jobs).
  { unfold js. rewrite Hperm. rewrite (length_map run_job jobs). by rewrite omap_lookup_seq. }
  assert (Hmap : omap (fun i => map run_job jobs !! i) order = map run_job js).
  { unfold js. clear. induction order as [|i order IH]; [done|]. simpl.
    rewrite list_lookup_fmap. destruct (jobs !! i); simpl; [f_equal|]; exact IH. }
  rewrite Hmap. eapply wpM_mono; [|apply run_jobs].
  intros t' s' o (rs & Hl & -> & -> & e & -> & He). cbn [fst snd app].
  destruct (HQ js rs _ (exist _ order Hperm) Hjs Hl) as [Herr Hok].
  destruct e as [e|]; cbn beta iota; wpM_step; [apply Herr|]. cbn beta iota. wpM_step. by apply Hok, He.
Qed.

(** ** Starting nodes *)




Section quiet.
Context {Cr : Crypto} {LP : LibP2P} {R : MapRange} {BC : BankCodec}.







End quiet.

Lemma zip_with_app_l_le {A B C} (f : A -> B -> C) (l1 l2 : list A) (b e : B) k :
  (k < length l1)%nat ->
  zip_with f (l1 ++ l2) (replicate k b ++ [e]) = zip_with f l1 (replicate k b ++ [e]).
Proof.
  revert k. induction l1 as [|x l1 IH]; intros k Hk; simpl in Hk; [lia|].
  destruct k as [|k]; simpl; [by destruct l1, l2|]. f_equal. apply IH. lia.
Qed.

Lemma zip_with_app_replicate {A B C} (f : A -> B -> C) (l1 l2 : list A) (b : B) k2 :
  zip_with f (l1 ++ l2) (replicate (length l1) b ++ k2) =
  zip_with f l1 (replicate (length l1) b) ++ zip_with f l2 k2.
Proof. apply zip_with_app. by rewrite length_replicate. Qed.

(** What [Init] and the waits leave of a chain: its configuration and its
    nodes. *)
Definition same_nodes (c0 : Chain) (_ : list (event chain_sig)) (c : Chain) : Prop :=
  ch_Config c = ch_Config c0 /\ Validators c = Validators c0 /\ Nodes c = Nodes c0.

Section kept.
Context {Cr : Crypto} {LP : LibP2P} {R : MapRange} {BC : BankCodec}.
Variable c0 : Chain.

Lemma kept_perform c : preserves (same_nodes c0) (perform c).
Proof. by apply preserves_perform. Qed.
#[local] Hint Resolve kept_perform : ironbird.

Lemma kept_GetFullNode : preserves (same_nodes c0) GetFullNode.
Proof. unfold GetFullNode, random_element. preserves_go. Qed.
#[local] Hint Resolve kept_GetFullNode : ironbird.

Lemma kept_Height : preserves (same_nodes c0) Height.
Proof. unfold Height. preserves_go. Qed.
#[local] Hint Resolve kept_Height : ironbird.

Lemma kept_WaitForStartup fuel : preserves (same_nodes c0) (WaitForStartup fuel).
Proof. unfold WaitForStartup, WaitForHeight, WaitForHeight_round. preserves_go. Qed.

Lemma kept_eg_Wait (tasks : list (ChainOp unit)) :
  Forall (preserves (same_nodes c0)) tasks -> preserves (same_nodes c0) (eg_Wait tasks).
Proof. by apply preserves_eg_Wait. Qed.

Lemma kept_AsCometPeerString ps ue : preserves (same_nodes c0) (AsCometPeerString ps ue).
Proof.
  unfold AsCometPeerString, comet_peer, peerHostExternal, peerHostInternal. preserves_go.
  apply preserves_collect. intros n. preserves_go.
Qed.
#[local] Hint Resolve kept_AsCometPeerString : ironbird.

Lemma kept_compose ue sets : preserves (same_nodes c0) (composeLibP2PBootstrapPeers ue sets).
Proof.
  induction sets as [|[|n ps] sets IH]; cbn [composeLibP2PBootstrapPeers]; preserves_go; try done.
  unfold AsLibP2PBootstrapPeers. apply preserves_collect. intros m.
  unfold libp2p_peer, peerHostInternal, peerHostPrivate, peerIDFromNode, pubKeyFromCosmosKey. preserves_go.
Qed.
#[local] Hint Resolve kept_compose : ironbird.

Lemma kept_validator_lines c first amounts others : preserves (same_nodes c0) (validator_lines c first amounts others).
Proof. induction others as [|[v [w|]] others IH]; cbn [validator_lines]; preserves_go; done. Qed.
#[local] Hint Resolve kept_validator_lines : ironbird.

Lemma kept_executeGenesisOperations wc first faucet amounts base n :
  preserves (same_nodes c0) (executeGenesisOperations wc first faucet amounts base n).
Proof.
  unfold executeGenesisOperations. preserves_go. apply kept_eg_Wait, Forall_map, Forall_true. intros v.
  unfold update_validator_genesis. preserves_go.
Qed.
#[local] Hint Resolve kept_executeGenesisOperations : ironbird.

Lemma kept_Init opts : preserves (same_nodes c0) (Init opts).
Proof.
  unfold Init, BuildWallet, chain_CreateWallet, chain_RecoverKey, setup_validator, configureNode. preserves_go.
  - apply kept_eg_Wait, Forall_app. split.
    + apply Forall_lookup. intros i m Hi. apply list_lookup_imap_Some in Hi as (v & _ & ->).
      preserves_go. by apply preserves_modify.
    + apply Forall_map, Forall_true. intros n. preserves_go.
  - by apply preserves_modify.
  - apply kept_eg_Wait, Forall_map, Forall_true. intros m. preserves_go.
  - apply kept_eg_Wait, Forall_map, Forall_true. intros m. preserves_go.
Qed.
End kept.

(** ** A chain that makes progress

    An environment of a chain that produces blocks, whatever its worlds are:
    the ticker's context does not end, a random node is one of the list, and
    a status query, of any node, either reports the height [d] or leaves
    fewer queries that can still fail or fall short of it.  Nothing is said
    of which query fails, of the heights in between, or of the nodes the
    random numbers choose. *)
Record producing {W} (H : handler chain_sig W) (d : Z) (inv : W -> Prop) (queries_left : W -> nat) : Prop := {
  pd_tick w : inv w -> exists w', H Tick w = (None, w') /\ inv w' /\ (queries_left w' <= queries_left w)%nat;
  pd_rand n w : inv w -> 0 < n -> exists i w', H (RandIntn n) w = (i, w') /\ 0 <= i < n /\
    inv w' /\ (queries_left w' <= queries_left w)%nat;
  pd_status n w : inv w -> exists x w', H (Method n NStatus) w = (x, w') /\
    ((exists h, x = inl h /\ d <= to_uint64 h) \/ (inv w' /\ (queries_left w' < queries_left w)%nat))
}.

Section progress.
Context {W : Type} (H : handler chain_sig W) (d : Z) (inv : W -> Prop) (queries_left : W -> nat).
Hypothesis Hp : producing H d inv queries_left.

Lemma runs_random_element l (c : Chain) w : l <> [] -> inv w ->
  exists n w', runs H (random_element l) c w (Ok n) c w' /\ inv w' /\ (queries_left w' <= queries_left w)%nat.
Proof.
  intros Hl Hw. destruct l as [|x l]; [done|].
  destruct (pd_rand _ _ _ _ Hp (Z.of_nat (length (x :: l))) w Hw ltac:(cbn; lia)) as (i & w' & Hr & Hi & Hw' & Hle).
  destruct (lookup_lt_is_Some_2 (x :: l) (Z.to_nat i)) as [n Hn]; [lia|].
  exists n, w'. split; [|done]. unfold random_element.
  eapply runs_bind; [apply (runs_perform H (RandIntn _) _ _ _ _ Hr)|]. cbn beta iota. by rewrite Hn.
Qed.

Lemma runs_GetFullNode (c : Chain) w : Validators c ++ Nodes c <> [] -> inv w ->
  exists n w', runs H GetFullNode c w (Ok n) c w' /\ inv w' /\ (queries_left w' <= queries_left w)%nat.
Proof.
  intros Hne Hw.
  destruct (runs_random_element (if 0 <? Z.of_nat (length (Nodes c)) then Nodes c else Validators c) c w) as (n & w' & Hr & Hw');
    [|done|].
  - destruct (Nodes c) as [|n ns]; [by rewrite app_nil_r in Hne|done].
  - exists n, w'. split; [|done]. eapply runs_bind; [reflexivity|]. cbn beta iota. by destruct (0 <? _).
Qed.

(** A query that fails is an error of [Height], which a round passes over. *)
Lemma runs_round (c : Chain) w : Validators c ++ Nodes c <> [] -> inv w ->
  exists r w', runs H (WaitForHeight_round d) c w (Ok r) c w' /\
    (r = Some tt \/ r = None /\ inv w' /\ (queries_left w' < queries_left w)%nat).
Proof.
  intros Hne Hw. destruct (pd_tick _ _ _ _ Hp w Hw) as (w1 & Ht & Hw1 & Hle1).
  destruct (runs_GetFullNode c w1 Hne Hw1) as (n & w2 & Hn & Hw2 & Hle2).
  destruct (pd_status _ _ _ _ Hp n w2 Hw2) as (x & w3 & Hq & Hx).
  assert (Hheight : runs H Height c w1 (match x with inl h => Ok (to_uint64 h) | inr e => Err e end) c w3).
  { eapply runs_bind; [exact Hn|]. cbn beta iota.
    eapply (runs_bind H (ask (Method n NStatus)) _ _ _ (match x with inl h => Ok h | inr e => Err e end) c w3);
      [|by destruct x].
    eapply runs_bind; [apply (runs_perform H (Method n NStatus) _ _ _ _ Hq)|]. cbn beta iota. by destruct x. }
  unfold WaitForHeight_round.
  assert (Htry : runs H (try_ Height) c w1 (Ok (match x with inl h => inl (to_uint64 h) | inr e => inr e end)) c w3).
  { unfold runs, try_ in *. rewrite eval_bind, Hheight. by destruct x. }
  exists (match x with inl h => if d <=? to_uint64 h then Some tt else None | inr _ => None end), w3. split.
  - eapply runs_bind; [apply (runs_perform H Tick _ _ _ _ Ht)|]. cbn beta iota.
    eapply runs_bind; [exact Htry|]. cbn beta iota. destruct x as [h|e]; [|done]. by destruct (d <=? to_uint64 h).
  - destruct Hx as [(h & -> & Hh)|[Hw3 Hlt]].
    + left. by rewrite (proj2 (Z.leb_le _ _) Hh).
    + destruct x as [h|e]; [destruct (d <=? to_uint64 h); [by left|]|]; (right; split_and!; [done..|lia]).
Qed.

Lemma runs_WaitForHeight (c : Chain) fuel : forall w,
  Validators c ++ Nodes c <> [] -> inv w -> (queries_left w < fuel)%nat ->
  exists w', runs H (WaitForHeight fuel d) c w (Ok tt) c w'.
Proof.
  induction fuel as [|fuel IH]; intros w Hne Hw Hf; [lia|].
  destruct (runs_round c w Hne Hw) as (r & w1 & Hr & [->|(-> & Hw1 & Hlt)]).
  - exists w1. by apply (runs_bind _ _ _ _ _ _ _ _ Hr).
  - destruct (IH w1 Hne Hw1 ltac:(lia)) as [w' Hw']. exists w'. by apply (runs_bind _ _ _ _ _ _ _ _ Hr).
Qed.
End progress.

Section heights.
Lemma Height_wp (c : Chain) t (Q : list (event chain_sig) -> Chain -> outcome Z -> Prop) :
  (forall l c', (forall h, (exists n, ev (Method n NStatus) (inl h) ∈ l) -> Q (t ++ l) c' (Ok (to_uint64 h))) /\
     (forall e, Q (t ++ l) c' (Err e)) /\ (forall m, Q (t ++ l) c' (Panic m)) /\ Q (t ++ l) c' NoFuel) ->
  wpM Height c Q t.
Proof.
  intros HQ. unfold Height. wpM_step. apply (emits_use (fun _ => True)); [apply emits_any|].
  intros l c' [n|e|m|] _; try by apply HQ.
  wpM_step. wpM_step. wpM_step. rewrite <- app_assoc. destruct x as [h|e]; cbn [lift_res]; wpM_step; cbn beta iota.
  - wpM_step. apply HQ. exists n. apply elem_of_app. right. by left.
  - by apply HQ.
Qed.

Lemma WaitForHeight_safe fuel d (c : Chain) t :
  wpM (WaitForHeight fuel d) c (fun t' _ o => o = Ok tt ->
    exists n h, ev (Method n NStatus) (inl h) ∈ t' /\ d <= to_uint64 h) t.
Proof.
  unfold WaitForHeight. revert c t. induction fuel as [|fuel IH]; intros c t; cbn [poll]; [by wpM_step|].
  wpM_step. unfold WaitForHeight_round. wpM_step. wpM_step. destruct x as [err|]; [by wpM_step|].
  wpM_step. wpM_step. apply Height_wp. intros l c'. split_and!; intros; try done.
  - cbn beta iota. destruct (Z.leb_spec d (to_uint64 h)) as [Hle|Hgt]; wpM_step; cbn beta iota; [wpM_step|apply IH].
    intros _. destruct H as [n Hn]. exists n, h. split; [|done]. apply elem_of_app. by right.
  - wpM_step. cbn beta iota. apply IH.
Qed.
End heights.

(** ** What a created chain is made of *)

(** The node is the answer to a job of the chain's configuration. *)
Definition made (config : ChainConfig) (opts : ChainOptions) (pt : string) (v : bool)
    (t : list (event chain_sig)) (n : node_ref) : Prop :=
  exists j, j ∈ chain_jobs config opts pt /\ job_validator j = v /\ create_event j (inl n) ∈ t.

Definition created_chain (config : ChainConfig) (opts : ChainOptions) (t : list (event chain_sig)) (c : Chain) : Prop :=
  exists pt, ev ProviderType pt ∈ t /\
    created_names t ≡ₚ map job_name (chain_jobs config opts pt) /\
    length (Validators c) = validator_count config pt /\
    length (Nodes c) = node_count config pt /\
    length (ValidatorWallets c) = length (Validators c) /\
    ch_Config c = config /\
    Forall (made config opts pt true t) (Validators c) /\ Forall (made config opts pt false t) (Nodes c).

Lemma CreateChain_run config opts :
  wpM (CreateChain config opts) tt (fun t _ o =>
    NoDup (created_names t) /\ match o with Ok c => created_chain config opts t c | _ => True end) [].
Proof.
  unfold CreateChain. wpM_step. wpM_step. rename x into pt. wpM_step. wpM_step. wpM_step.
  destruct (ChainConfig_ValidateBasic config pt); try by (split; [constructor|]).
  cbn [wrap_outcome]. wpM_step. wpM_step. wpM_step.
  destruct (ChainOptions_ValidateBasic opts); try by (split; [constructor|]).
  cbn [wrap_outcome]. wpM_step. wpM_step.
  replace (if String.eqb pt DigitalOcean then createRegionalNodes config opts else createLocalNodes config opts)
    with (create_nodes (chain_jobs config opts pt)) by (unfold chain_jobs; by destruct (String.eqb pt DigitalOcean)).
  apply create_nodes_run. intros js rs n x Hjs Hl. cbn zeta. set (t' := _ ++ zip_with _ _ _).
  assert (Hnames : created_names t' = map job_name js).
  { unfold t'. rewrite created_names_app, created_names_events by done. done. }
  assert (Hnd : NoDup (created_names t')).
  { rewrite Hnames, Hjs. apply chain_jobs_names. }
  split; [done|]. intros Hf. wpM_step. split; [done|]. exists pt.
  destruct (chain_jobs_indices config opts pt) as [Hv Hn].
  assert (Hlen : forall v, length (refs v js rs) = length (indices v (chain_jobs config opts pt))).
  { intros v. rewrite refs_length by done. unfold indices. by rewrite Hjs. }
  cbn [Validators Nodes ValidatorWallets ch_Config]. split; [by left|].
  split; [by rewrite Hnames, Hjs|]. split; [by rewrite Hlen, Hv, length_map, length_seq|].
  split; [by rewrite Hlen, Hn, length_map, length_seq|]. split; [apply length_replicate|]. split; [done|].
  split; apply Forall_forall; intros m Hm; destruct (refs_elem _ _ _ _ Hm) as (j & Hj & Hk & Hin);
    (exists j; split; [by rewrite <- Hjs|]; split; [done|]; apply elem_of_app; by right).
Qed.

(** ** Properties *)

(** C4: whatever the provider answers and however the goroutines
    interleave, no two nodes of a chain are created with the same name; a
    chain that is created has exactly the validators and nodes its
    configuration asks for, each the answer to the creation of such a node,
    and one wallet slot per validator. *)
Theorem CreateChain_nodes (config : ChainConfig) (opts : ChainOptions) :
  wpM (CreateChain config opts) tt (fun t _ o =>
    NoDup (created_names t) /\
    match o with
    | Ok c => exists pt, ev ProviderType pt ∈ t /\
        created_names t ≡ₚ map job_name (chain_jobs config opts pt) /\
        length (Validators c) = validator_count config pt /\
        length (Nodes c) = node_count config pt /\
        length (ValidatorWallets c) = length (Validators c) /\
        ch_Config c = config /\
        (forall n, n ∈ Validators c -> exists j, j ∈ chain_jobs config opts pt /\
           job_validator j = true /\ create_event j (inl n) ∈ t)
    | _ => True
    end) [].
Proof.
  eapply wpM_mono; [|apply CreateChain_run]. intros t [] o [Hnd Ho]. split; [done|].
  destruct o as [c|e|m|]; [|done..]. destruct Ho as (pt & Hpt & Hn & Hv & Hnn & Hw & Hc & Hvs & _).
  exists pt. split_and!; [done..|]. by apply Forall_forall.
Qed.

(** The region's settings are the last word on a node's definition:
    whatever the caller's modifier does, a node of a region is created in
    it, on the pinned image, with a size, the caller's if it chose one. *)
Theorem createRegionalNodeOptions_spec (base : NodeOptions) (region : RegionConfig)
    (d : TaskDefinition) (cfg : NodeConfig) :
  exists f config, NodeDefinitionModifier (createRegionalNodeOptions base region) = Some f /\
    ProviderSpecificConfig (f d cfg) = Some config /\
    config !! "region" = Some (rc_Name region) /\
    config !! "image_id" = Some "210084437" /\
    (let chosen := default ∅ (ProviderSpecificConfig
       (match NodeDefinitionModifier base with Some g => g d cfg | None => d end)) in
     config !! "size" = Some (default "s-4vcpu-8gb" (chosen !! "size")) /\
     forall k, k <> "region" -> k <> "image_id" -> k <> "size" -> config !! k = chosen !! k).
Proof.
  assert (H : forall d', exists config, ProviderSpecificConfig (applyRegionConfig region d') = Some config /\
    config !! "region" = Some (rc_Name region) /\ config !! "image_id" = Some "210084437" /\
    let chosen := default ∅ (ProviderSpecificConfig d') in
    config !! "size" = Some (default "s-4vcpu-8gb" (chosen !! "size")) /\
    forall k, k <> "region" -> k <> "image_id" -> k <> "size" -> config !! k = chosen !! k).
  { intros d'. unfold applyRegionConfig. cbn [ProviderSpecificConfig]. eexists. split; [reflexivity|].
    set (chosen := default ∅ (ProviderSpecificConfig d')).
    assert (Hsz : <["image_id":="210084437"]> (<["region":=rc_Name region]> chosen) !! "size" = chosen !! "size")
      by by rewrite !lookup_insert_ne.
    rewrite Hsz. destruct (chosen !! "size") as [sz|]; split_and!; intros; by simplify_map_eq. }
  unfold createRegionalNodeOptions. destruct (NodeDefinitionModifier base) as [g|]; cbn [NodeDefinitionModifier].
  - destruct (H (g d cfg)) as [c Hc]. eexists _, c. split; [reflexivity|exact Hc].
  - destruct (H d) as [c Hc]. eexists _, c. split; [reflexivity|exact Hc].
Qed.


(** [Teardown] destroys the validators and then the nodes, each once
    and in order, and stops at the first failure with its error. *)
Theorem Teardown_destroys (c : Chain) :
  wpM Teardown c (fun t c' o => c' = c /\
    exists rs, t = zip_with (fun n r => ev (Method n NDestroy) r) (Validators c ++ Nodes c) rs /\
      match o with
      | Ok _ => rs = replicate (length (Validators c ++ Nodes c)) (inl tt)
      | Err e => exists k, rs = replicate k (inl tt) ++ [inr e] /\ (k < length (Validators c ++ Nodes c))%nat
      | _ => False
      end) [].
Proof.
  assert (Hloop : forall l t s (Q : list (event chain_sig) -> Chain -> outcome unit -> Prop),
    Q (t ++ zip_with (fun n r => ev (Method n NDestroy) r) l (replicate (length l) (inl tt))) s (Ok tt) ->
    (forall k e, (k < length l)%nat ->
       Q (t ++ zip_with (fun n r => ev (Method n NDestroy) r) l (replicate k (inl tt) ++ [inr e])) s (Err e)) ->
    wpM (for_each l (fun v => ask (Method v NDestroy))) s Q t).
  { induction l as [|v l IH]; intros t s Q Hok Herr; cbn [for_each].
    - wpM_step. by rewrite app_nil_r in Hok.
    - wpM_step. wpM_step. wpM_step. destruct x as [[]|e]; cbn [lift_res]; wpM_step.
      + apply IH; [by rewrite <- app_assoc|]. intros k e Hk. rewrite <- app_assoc.
        apply (Herr (S k) e). simpl. lia.
      + specialize (Herr 0%nat e ltac:(simpl; lia)). by destruct l. }
  unfold Teardown. wpM_step. wpM_step. cbn beta iota. wpM_step. apply Hloop.
  - cbn beta iota. apply Hloop.
    + split; [done|]. exists (replicate (length (Validators c ++ Nodes c)) (inl tt)). split; [|done].
      by rewrite length_app, replicate_add, zip_with_app_replicate.
    + intros k e Hk. split; [done|]. exists (replicate (length (Validators c) + k) (inl tt) ++ [inr e]). split.
      * by rewrite replicate_add, <- (app_assoc (replicate _ _)), zip_with_app_replicate.
      * exists (length (Validators c) + k)%nat. split; [done|]. rewrite length_app. lia.
  - intros k e Hk. split; [done|]. exists (replicate k (inl tt) ++ [inr e]). split.
    + rewrite app_nil_l. symmetry. by apply zip_with_app_l_le.
    + exists k. split; [done|]. rewrite length_app. lia.
Qed.

(** C38: [WaitForHeight] returns without error only after a node reported
    the height; and on a chain that produces blocks, with any nodes chosen at
    random, any heights on the way and any status queries failing in
    between, it does return without error, after at most one round more than
    there are queries that can fail or fall short of the height. *)
Theorem WaitForHeight_reaches (fuel : nat) (d : Z) (c : Chain) :
  wpM (WaitForHeight fuel d) c (fun t _ o => o = Ok tt ->
    exists n h, ev (Method n NStatus) (inl h) ∈ t /\ d <= to_uint64 h) [] /\
  (forall (W : Type) (H : handler chain_sig W) (inv : W -> Prop) (queries_left : W -> nat) (w : W),
   producing H d inv queries_left -> Validators c ++ Nodes c <> [] -> inv w -> (queries_left w < fuel)%nat ->
   exists w', runs H (WaitForHeight fuel d) c w (Ok tt) c w').
Proof. split; [apply WaitForHeight_safe|]. intros. by eapply runs_WaitForHeight. Qed.

(** A chain whose world is its height, the queries to come that fail, and
    the draws so far, which choose the nodes in turn. *)
Definition no_method (m : node_method) : method_ans m :=
  match m return method_ans m with
  | GetName => "node"
  | NBinCommand cmd => cmd
  | _ => inr (EExt XOther "not supported")
  end.

Definition block_chain : handler chain_sig (Z * list bool * Z) := fun c '(h, failing, draws) =>
  match c return chain_ans c * (Z * list bool * Z) with
  | Method _ NStatus =>
      match failing with
      | true :: failing => (inr (EExt XOther "connection refused"), (h, failing, draws))
      | _ => (inl h, (h + 1, tail failing, draws))
      end
  | Method _ m => (no_method m, (h, failing, draws))
  | NodeCreator _ _ => (inr (EExt XOther "not supported"), (h, failing, draws))
  | NodeRestorer _ => (inr (EExt XOther "not supported"), (h, failing, draws))
  | ProviderType => (Docker, (h, failing, draws))
  | RandIntn n => (draws mod n, (h, failing, draws + 1))
  | Tick => (None, (h, failing, draws))
  | Interleave n => (exist (fun o => o ≡ₚ seq 0 n) (seq 0 n) (reflexivity (seq 0 n)), (h, failing, draws))
  end.

Definition short_of (d : Z) (w : Z * list bool * Z) : Prop := 0 <= w.1.1 <= d.
Definition block_queries_left (d : Z) (w : Z * list bool * Z) : nat :=
  length (List.filter id w.1.2) + Z.to_nat (d - w.1.1).

Lemma block_chain_producing d : d < 2 ^ 64 -> producing block_chain d (short_of d) (block_queries_left d).
Proof.
  intros Hd. constructor.
  - intros [[h fs] k] Hw. eexists. by split_and!.
  - intros n [[h fs] k] Hw Hn. eexists _, _. split; [done|]. split; [by apply Z.mod_pos_bound|]. by split.
  - intros n [[h fs] k] Hw. unfold short_of, block_queries_left in *. cbn in Hw. destruct fs as [|[|] fs].
    2: { eexists _, _. split; [done|]. right. cbn. split; [done|lia]. }
    all: eexists _, _; (split; [done|]); destruct (Z.leb_spec d h); [left; exists h; split; [done|]; rewrite to_uint64_small; lia|
      right; cbn; split; lia].
Qed.

Lemma WaitForHeight_reaches_witness :
  let c := {| ch_Config := simapp_chain; Validators := [0%nat]; Nodes := [1%nat; 2%nat]; FaucetWallet := None;
              ValidatorWallets := [None]; useExternalAddresses := false |} in
  let w := (3, [false; true; false; true; true], 1) in
  exists w', runs block_chain (WaitForHeight 11 10) c w (Ok tt) c w'.
Proof.
  cbv zeta. apply (proj2 (WaitForHeight_reaches 11 10 _) _ block_chain (short_of 10) (block_queries_left 10)).
  - by apply block_chain_producing.
  - discriminate.
  - by vm_compute.
  - vm_compute. lia.
Defined.
