(* ===== verification/TaskHeap.v ===== *)
(** * Task states shared by pointer

    Both providers keep a map of pointers to task states that their tasks
    point to as well.  Decoding a provider's state allocates them anew. *)

From S2P Require Import Prelude.

Abbreviation ptr := nat.

Section heap.
Context {T : Type}.

(** Decoding makes a fresh pointer per task. *)
Fixpoint unpack_tasks (tasks : list (string * T)) (n : ptr) : gmap string ptr * gmap ptr T * ptr :=
  match tasks with
  | [] => (∅, ∅, n)
  | (id, s) :: tasks' =>
      let '(m, h, n') := unpack_tasks tasks' (Datatypes.S n) in
      (<[id := n]> m, <[n := s]> h, n')
  end.

Lemma unpack_tasks_spec tasks n m h n' :
  NoDup tasks.*1 -> unpack_tasks tasks n = (m, h, n') ->
  (n <= n')%nat /\
  (forall id t, m !! id = Some t -> exists s, (id, s) ∈ tasks /\ h !! t = Some s /\ (n <= t)%nat) /\
  (forall id s, (id, s) ∈ tasks -> exists t, m !! id = Some t /\ h !! t = Some s) /\
  (forall t, is_Some (h !! t) -> (n <= t < n')%nat).
Proof.
  revert n m h. induction tasks as [|[id s] tasks IH]; intros n m h Hnd Heq; cbn [unpack_tasks] in Heq.
  { injection Heq as <- <- <-. split; [lia|]. split_and!.
    - intros id t. by rewrite lookup_empty.
    - intros id s Hin. by apply not_elem_of_nil in Hin.
    - intros t [s Hs]. by rewrite lookup_empty in Hs. }
  destruct (unpack_tasks tasks (Datatypes.S n)) as [[m1 h1] n1] eqn:Hun. injection Heq as <- <- <-.
  rewrite fmap_cons in Hnd. apply NoDup_cons in Hnd as [Hid Hnd].
  destruct (IH _ _ _ Hnd Hun) as (Hn & Hm & Ht & Hh). split; [lia|]. split_and!.
  - intros id' t [[<- <-]|[Hne Hid']]%lookup_insert_Some.
    + exists s. rewrite lookup_insert_eq. split; [by left|]. split; [done|lia].
    + destruct (Hm _ _ Hid') as (s' & Hin & Hs' & Hle). exists s'. split; [by right|].
      rewrite lookup_insert_ne by lia. split; [done|lia].
  - intros id' s' [[= -> ->]|Hin]%elem_of_cons.
    + exists n. by rewrite !lookup_insert_eq.
    + destruct (Ht _ _ Hin) as (t & Hid' & Hs'). exists t. rewrite lookup_insert_ne.
      * split; [done|]. rewrite lookup_insert_ne; [done|]. pose proof (Hh t ltac:(eauto)). lia.
      * intros <-. apply Hid. apply list_elem_of_fmap. by exists (id, s').
  - intros t. destruct (decide (n = t)) as [<-|Hne]; [lia|]. rewrite lookup_insert_ne by done.
    intros Hs. pose proof (Hh t Hs). lia.
Qed.
End heap.
