(* ===== verification/DockerVolume.v ===== *)
(** * The Docker client, and files in volumes: [petri/core/provider/docker/volume.go]

    The calls of the Docker client, of the clock and of the machine's ports,
    and the operations that run a helper container over a volume: writing
    and reading a file, downloading a directory, setting the owner.  The tar
    format is a parameter. *)

From S2P Require Import Prelude GoStrings ProviderDefs.

(** ** The client *)
Inductive Mount :=
| VolumeMount (source target : string)
| BindMount (source target : string).

Record ContainerSpec := {
  cs_Name : string;
  cs_Image : string;
  cs_Entrypoint : list string;
  cs_Cmd : list string;
  cs_Hostname : string;
  cs_Labels : list (string * string);
  cs_Env : list string;
  cs_User : string;
  cs_Binds : list string;
  cs_AutoRemove : bool;
  cs_Mounts : list Mount;
  cs_ExposedPorts : list string;
  cs_PortBindings : gmap string (list (string * string));  (* host IP, host port *)
  cs_NetworkMode : string;
  cs_IPv4Address : option string
}.

(** A container that runs nothing but what a helper sets. *)
Definition helper_spec (name image user : string) (entrypoint cmd : list string)
    (labels : list (string * string)) (binds : list string) (autoRemove : bool) : ContainerSpec :=
  {| cs_Name := name; cs_Image := image; cs_Entrypoint := entrypoint; cs_Cmd := cmd; cs_Hostname := "";
     cs_Labels := labels; cs_Env := []; cs_User := user; cs_Binds := binds; cs_AutoRemove := autoRemove;
     cs_Mounts := []; cs_ExposedPorts := []; cs_PortBindings := ∅; cs_NetworkMode := "";
     cs_IPv4Address := None |}.

Record NetworkInfo := {
  net_ID : string;
  net_Name : string;
  net_Config : list (string * string)          (* subnet, gateway *)
}.

Record ContainerInfo := {
  ci_Status : string;
  ci_Running : bool;
  ci_ExitCode : Z;
  ci_Name_ : string;
  ci_Networks : gmap string string             (* network, configured IPv4 address *)
}.

(** What the select of [ContainerWait] receives first. *)
Inductive wait_result :=
| WaitCtxDone (e : error)
| WaitErr (e : option error)
| WaitExited (err : option string) (code : Z).

(** A member of a tar stream; reading its content can fail. *)
Definition tar_member : Type := string * res string.

Inductive docker_call :=
| NewDockerClient
| Ping
| ImagePull (img auth : string)
| ImageInspect (img : string)
| NetworkCreate (name label subnet gateway : string)
| NetworkInspect (id : string)
| NetworkRemove (id : string)
| VolumeInspect (name : string)
| VolumeCreate (name label : string)
| VolumeRemove (name : string) (force : bool)
| ContainerCreate (spec : ContainerSpec)
| ContainerStart (id : string)
| ContainerStop (id : string)
| ContainerRemove (id : string) (force volumes : bool)
| ContainerInspect (id : string)
| ContainerList (limit : Z)
| ContainerWait (id : string)
| ContainerLogs (id : string)
| ContainerExecCreate (id : string) (cmd : list string)
| ContainerExecAttach (exec : string)
| ContainerExecInspect (exec : string)
| CopyToContainer (id path archive : string)
| CopyFromContainer (id path : string)
| OpenListener                                  (* a free local port *)
| CloseListener
| RandInt (n : Z)
| UnixNano
| CtxDone                                       (* a poll of the context, and a pause *)
| LocalMkdirAll (path : string)
| LocalWriteFile (path content : string)
| LocalReadFile (path : string).

Definition docker_ans (c : docker_call) : Type :=
  match c with
  | NetworkCreate _ _ _ _ => res string
  | NetworkInspect _ => res NetworkInfo
  | VolumeInspect _ | VolumeCreate _ _ => res string         (* its name *)
  | ContainerCreate _ => res string                          (* its ID *)
  | ContainerInspect _ => res ContainerInfo
  | ContainerList _ => res (list string)                     (* their IDs *)
  | ContainerWait _ => wait_result
  | ContainerLogs _ => res (string * string)                 (* standard output and error *)
  | ContainerExecCreate _ _ => res string
  | ContainerExecAttach _ => res (res (string * string))     (* the stream, copied at the end *)
  | ContainerExecInspect _ => res (bool * Z)                 (* running, exit code *)
  | CopyFromContainer _ _ => res (list tar_member * option error)
  | OpenListener => res Z
  | RandInt _ | UnixNano => Z
  | CtxDone => option error
  | LocalReadFile _ => res string
  | _ => res unit
  end.

Canonical docker_sig : sig := Sig docker_call docker_ans.

(** ** Helper containers

    The deferred removal of a helper: skipped when the wait saw the
    container end and Docker remove it, or when it is found gone already.
    The state is the flag [autoRemoved]. *)
Abbreviation HelperM := (M docker_sig bool).

Definition remove_helper (id : string) : HelperM unit :=
  let* autoRemoved := (get : HelperM bool) in
  if autoRemoved then retM tt
  else
    let* r := perform (ContainerInspect id) in
    match r with
    | inr e =>
        if errors_Is XNotFound e then retM tt
        else let* _ := perform (ContainerRemove id true false) in retM tt
    | inl _ => let* _ := perform (ContainerRemove id true false) in retM tt
    end.

Definition with_helper {A S} (spec : ContainerSpec) (body : string -> HelperM A) : M docker_sig S A :=
  let* id := wrap "creating container" (ask (ContainerCreate spec)) in
  scoped false (defer (remove_helper id) (body id)).

(** Starting a helper and waiting for its end. *)
Definition start_and_wait (id start_failed wait_failed exited : string) : HelperM unit :=
  let* _ := wrap start_failed (ask (ContainerStart id)) in
  let* w := perform (ContainerWait id) in
  match w with
  | WaitCtxDone e => throw e
  | WaitErr (Some e) => throw e
  | WaitErr None => retM tt
  | WaitExited err code =>
      let* _ := put true in
      match err with
      | Some m => throw (ENew (wait_failed +:+ ": " +:+ m))
      | None => if negb (code =? 0) then throw (ENew (exited +:+ " " +:+ itoa code)) else retM tt
      end
  end.

Definition mountPath : string := "/mnt/dockervolume".
Definition providerLabelName : string := "petri-provider".
Definition portsLabelName : string := "petri-ports".
Definition nodeNameLabelName : string := "petri-node-name".

Section volumes.
Context {S : Type}.
(** [archive/tar]: the archive of one file, or a refused header. *)
Variable tar_archive : string -> string -> res string.
(** [path.Join], [path.Base], [filepath.Join] *)
Variable path_Join : string -> string -> string.
Variable path_Base : string -> string.

Definition chown_cmd : list string :=
  ["chown -R " +:+ dquote +:+ "$(stat -c '%u:%g' " +:+ dquote +:+ "$1" +:+ dquote +:+ ")" +:+ dquote +:+ " " +:+
     dquote +:+ "$2" +:+ dquote; "_"; mountPath; mountPath].

(** The archive is copied into the volume, then handed to its owner. *)
Definition write_archive (volumeName builderImage : string)
    (archive : HelperM string) : M docker_sig S unit :=
  let* now := perform UnixNano in
  let* _ := ask (ImagePull builderImage "") in
  with_helper
    (helper_spec ("petri-writefile-" +:+ itoa now) builderImage "0:0" ["sh"; "-c"] chown_cmd []
       [volumeName +:+ ":" +:+ mountPath] true)
    (fun id =>
       let* bytes := archive in
       let* _ := wrap "copying tar to container" (ask (CopyToContainer id mountPath bytes)) in
       start_and_wait id "starting write-file container" "waiting for write-file container"
         "chown on new file exited").

Definition volume_WriteFile (volumeName builderImage relPath content : string) : M docker_sig S unit :=
  write_archive volumeName builderImage (wrap "writing tar header" (lift_res (tar_archive relPath content))).

Definition volume_WriteTar (volumeName builderImage localTarPath : string) : M docker_sig S unit :=
  write_archive volumeName builderImage (wrap "opening file" (ask (LocalReadFile localTarPath))).

(** The first member of the wanted name. *)
Fixpoint find_member (relPath wantPath : string) (members : list tar_member) (end_ : option error)
    : outcome string :=
  match members with
  | [] =>
      match end_ with
      | Some e => Err (EWrap "reading tar from container" e)
      | None => Err (ENew ("path " +:+ dquote +:+ relPath +:+ dquote +:+ " not found in tar from container"))
      end
  | (name, content) :: members' =>
      if negb (String.eqb name wantPath) then find_member relPath wantPath members' end_
      else match content with inl s => Ok s | inr e => Err e end
  end.

Definition volume_ReadFile (volumeName builderImage relPath : string) : M docker_sig S string :=
  let* now := perform UnixNano in
  let* _ := ask (ImagePull builderImage "") in
  with_helper
    (helper_spec ("petri-getfile-" +:+ itoa now) builderImage "0" [] [] []
       [volumeName +:+ ":" +:+ mountPath] false)
    (fun id =>
       let* '(members, end_) := wrap "copying from container"
         (ask (CopyFromContainer id (path_Join mountPath relPath))) in
       lift_outcome (find_member relPath (path_Base relPath) members end_)).

Fixpoint extract_members (localPath : string) (members : list tar_member) (end_ : option error) : HelperM unit :=
  match members with
  | [] => match end_ with Some e => throw e | None => retM tt end
  | (name, content) :: members' =>
      let* content := lift_res content in
      if String.eqb (path_Base name) "" then extract_members localPath members' end_
      else
        let* _ := ask (LocalWriteFile (path_Join localPath (path_Base name)) content) in
        extract_members localPath members' end_
  end.

Definition volume_DownloadDir (volumeName builderImage relPath localPath : string) : M docker_sig S unit :=
  let* now := perform UnixNano in
  let* _ := ask (ImagePull builderImage "") in
  with_helper
    (helper_spec ("petri-getdir-" +:+ itoa now) builderImage "0" [] [] []
       [volumeName +:+ ":" +:+ mountPath] true)
    (fun id =>
       let* '(members, end_) := ask (CopyFromContainer id (path_Join mountPath relPath)) in
       let* _ := ask (LocalMkdirAll localPath) in
       extract_members localPath members end_).

Definition volume_SetOwner (providerName volumeName builderImage uid gid : string) : M docker_sig S unit :=
  let* now := perform UnixNano in
  let* _ := ask (ImagePull builderImage "") in
  with_helper
    (helper_spec ("petri-setowner-" +:+ itoa now) builderImage "0" ["sh"; "-c"]
       ["chown " +:+ dquote +:+ "$2:$3" +:+ dquote +:+ " " +:+ dquote +:+ "$1" +:+ dquote +:+
          " && chmod 0700 " +:+ dquote +:+ "$1" +:+ dquote; "_"; mountPath; uid; gid]
       [(providerLabelName, providerName)] [volumeName +:+ ":" +:+ mountPath] true)
    (fun id =>
       start_and_wait id "starting volume-owner container" "waiting for volume-owner container"
         "configuring volume exited").

(** [CreateVolume]: an existing volume is reused. *)
Definition CreateVolume (providerName : string) (definition : VolumeDefinition) : M docker_sig S string :=
  let* _ := wrap "failed to validate volume definition" (lift_outcome (VolumeDefinition_ValidateBasic definition)) in
  let* existing := perform (VolumeInspect (vd_Name definition)) in
  match existing with
  | inl name => retM name
  | inr _ => ask (VolumeCreate (vd_Name definition) providerName)
  end.

Definition DestroyVolume (id : string) : M docker_sig S unit := ask (VolumeRemove id true).
End volumes.

(** ** Helpers do not leak *)

(** The helper is gone, or its removal was asked for. *)
Definition settles_helper (id : string) (e : event docker_sig) : Prop :=
  let '(existT c x) := e in
  match c return docker_ans c -> Prop with
  | ContainerRemove i _ _ => fun _ => i = id
  | ContainerInspect i => fun x => i = id /\ exists err, x = inr err /\ errors_Is XNotFound err = true
  | ContainerWait i => fun x => i = id /\ exists err code, x = WaitExited err code
  | _ => fun _ => False
  end x.

Definition helpers_settled (l : list (event docker_sig)) : Prop :=
  forall l1 spec id l2, l = l1 ++ ev (ContainerCreate spec) (inl id) :: l2 -> Exists (settles_helper id) l2.

Definition no_create (e : event docker_sig) : Prop := forall spec, projT1 e <> ContainerCreate spec.

Definition create_answer (e : event docker_sig) : option (ContainerSpec * res string) :=
  let '(existT c x) := e in
  match c return docker_ans c -> option (ContainerSpec * res string) with
  | ContainerCreate spec => fun x => Some (spec, x)
  | _ => fun _ => None
  end x.

Lemma create_event_inj spec r spec' r' :
  ev (ContainerCreate spec) r = ev (ContainerCreate spec') r' -> spec = spec' /\ r = r'.
Proof. intros H. apply (f_equal create_answer) in H. simpl in H. by injection H as -> ->. Qed.

Lemma cons_inv {A} (x y : A) l k : x :: l = y :: k -> x = y /\ l = k.
Proof. by intros [= -> ->]. Qed.

Lemma no_create_settled l : Forall no_create l -> helpers_settled l.
Proof.
  intros Hl l1 spec id l2 ->. apply Forall_app in Hl as [_ Hl]. apply Forall_cons in Hl as [Hl _].
  by destruct (Hl spec).
Qed.

(** A failed creation, or one helper that is settled. *)
Lemma one_helper_settled l1 spec r l2 :
  Forall no_create l1 -> Forall no_create l2 -> (forall id, r = inl id -> Exists (settles_helper id) l2) ->
  helpers_settled (l1 ++ ev (ContainerCreate spec) r :: l2).
Proof.
  intros H1 H2 Hs k1 spec' id k2 Heq.
  apply app_eq_inv in Heq as [(k & -> & Hk)|(k & -> & Hk)]; destruct k as [|e k]; simpl in Hk.
  - apply cons_inv in Hk as [Hr <-]. apply create_event_inj in Hr as [_ Hr]. apply Hs. congruence.
  - apply cons_inv in Hk as [<- _]. apply Forall_app in H1 as [_ H1]. apply Forall_cons in H1 as [H1 _].
    by destruct (H1 spec').
  - apply cons_inv in Hk as [Hr <-]. apply create_event_inj in Hr as [_ Hr]. apply Hs. congruence.
  - apply cons_inv in Hk as [_ ->]. apply Forall_app in H2 as [_ H2]. apply Forall_cons in H2 as [H2 _].
    by destruct (H2 spec').
Qed.

(** A body that creates nothing and sets [autoRemoved] only once it has
    seen the helper end. *)
Definition good_body {A} (id : string) (body : HelperM A) : Prop :=
  forall t, wpM body false (fun t' flag _ => exists l, t' = t ++ l /\ Forall no_create l /\
    (flag = true -> Exists (settles_helper id) l)) t.

Lemma good_body_emits {A} id (body : HelperM A) :
  (forall t s (Q : list (event docker_sig) -> bool -> outcome A -> Prop),
     (forall l o, Forall no_create l -> Q (t ++ l) s o) -> wpM body s Q t) -> good_body id body.
Proof. intros Hb t. apply Hb. intros l o Hl. by exists l. Qed.

Lemma remove_helper_settles id flag t (Q : list (event docker_sig) -> bool -> outcome unit -> Prop) :
  (forall l s' o, Forall no_create l -> (flag = false -> Exists (settles_helper id) l) -> Q (t ++ l) s' o) ->
  wpM (remove_helper id) flag Q t.
Proof.
  intros HQ. unfold remove_helper. wpM_step. wpM_step. cbn beta iota. destruct flag.
  - wpM_step. rewrite <- (app_nil_r t). by apply HQ.
  - wpM_step. wpM_step. destruct x as [i|e].
    + wpM_step. wpM_step. wpM_step. rewrite <- app_assoc. apply HQ; [by repeat constructor|].
      intros _. right. left. done.
    + destruct (errors_Is XNotFound e) eqn:He.
      * wpM_step. apply HQ; [by repeat constructor|]. intros _. left. split; [done|]. eauto.
      * wpM_step. wpM_step. wpM_step. rewrite <- app_assoc. apply HQ; [by repeat constructor|].
        intros _. right. left. done.
Qed.

Lemma with_helper_settled {A S} (spec : ContainerSpec) (body : string -> HelperM A) (s : S) t
    (Q : list (event docker_sig) -> S -> outcome A -> Prop) l0 :
  Forall no_create l0 -> (forall id, good_body id (body id)) ->
  (forall l o, helpers_settled (l0 ++ l) -> Q (t ++ l) s o) ->
  wpM (with_helper spec body) s Q t.
Proof.
  intros H0 Hb HQ. unfold with_helper. do 4 wpM_step. cbn beta iota.
  destruct x as [id|e]; cbn [lift_res]; wpM_step; cbn [wrap_outcome]; cbn beta iota.
  2: { apply HQ. by apply one_helper_settled. }
  wpM_step. wpM_step. eapply wpM_mono; [|apply (Hb id)].
  intros t' flag o (l & -> & Hl & Hflag). apply remove_helper_settles.
  intros l2 s' o2 Hl2 Hset. rewrite <- !app_assoc. apply HQ. cbn [app].
  apply one_helper_settled; [done|by apply Forall_app|].
  intros id' [= <-]. apply Exists_app. destruct flag; [left|right]; auto.
Qed.

(** Steps that leave the state alone and create no container. *)
Abbreviation calm m := (steady no_create m).

Lemma good_body_bind {A B} id (m : HelperM A) (f : A -> HelperM B) :
  calm m -> (forall a, good_body id (f a)) -> good_body id (bindM m f).
Proof.
  intros Hm Hf t. wpM_step. eapply wpM_mono; [|apply Hm].
  intros t' s' o [-> (l & -> & Hl)]. destruct o as [a|e|msg|]; try (by exists l).
  eapply wpM_mono; [|apply Hf]. intros t' flag o (l' & -> & Hl' & Hflag).
  exists (l ++ l'). split; [by rewrite app_assoc|]. split; [by apply Forall_app|].
  intros Hfl. apply Exists_app. auto.
Qed.

Lemma calm_good {A} id (m : HelperM A) : calm m -> good_body id m.
Proof.
  intros Hm t. eapply wpM_mono; [|apply Hm]. intros t' s o [-> (l & -> & Hl)]. by exists l.
Qed.

#[export] Hint Resolve steady_bind steady_wrap steady_try steady_poll : ironbird.
#[export] Hint Extern 1 (calm (perform _)) => apply steady_perform; discriminate : ironbird.

(** Computations that leave the state alone and settle the helpers they
    create. *)
Definition settled_run {S A} (m : M docker_sig S A) : Prop :=
  forall s t, wpM m s (fun t' s' _ => s' = s /\ exists l, t' = t ++ l /\ helpers_settled l) t.

Lemma helpers_settled_app l1 l2 : helpers_settled l1 -> helpers_settled l2 -> helpers_settled (l1 ++ l2).
Proof.
  intros H1 H2 k1 spec id k2 Heq.
  apply app_eq_inv in Heq as [(k & -> & Hk)|(k & -> & Hk)].
  - destruct k as [|e k]; simpl in Hk; [by eapply (H2 []); symmetry|].
    apply cons_inv in Hk as [<- ->]. apply Exists_app. left. by eapply H1.
  - by eapply H2.
Qed.

Lemma calm_settled {S A} (m : M docker_sig S A) : calm m -> settled_run m.
Proof.
  intros Hm s t. eapply wpM_mono; [|apply Hm]. intros t' s' o [-> (l & -> & Hl)].
  split; [done|]. exists l. split; [done|]. by apply no_create_settled.
Qed.

Lemma settled_bind {S A B} (m : M docker_sig S A) (f : A -> M docker_sig S B) :
  settled_run m -> (forall a, settled_run (f a)) -> settled_run (bindM m f).
Proof.
  intros Hm Hf s t. wpM_step. eapply wpM_mono; [|apply Hm].
  intros t' s' o [-> (l & -> & Hl)]. destruct o as [a|e|msg|]; try by (split; [|exists l]).
  eapply wpM_mono; [|apply Hf]. intros t' s' o [-> (l' & -> & Hl')]. split; [done|].
  exists (l ++ l'). split; [by rewrite app_assoc|by apply helpers_settled_app].
Qed.

Lemma settled_try {S A} (m : M docker_sig S A) : settled_run m -> settled_run (try_ m).
Proof. intros Hm s t. wpM_step. eapply wpM_mono; [|apply Hm]. by intros t' s' [a|e|msg|]. Qed.

#[export] Hint Resolve calm_settled settled_bind settled_try : ironbird.

Lemma start_and_wait_good id a b c : good_body id (start_and_wait id a b c).
Proof.
  unfold start_and_wait. apply good_body_bind; [steady_go; auto with ironbird|].
  intros _ t. wpM_step. wpM_step. cbn beta iota.
  destruct x as [e|[e|]|err code].
  1-3: wpM_step; eexists; split; [reflexivity|]; split; [by repeat constructor|done].
  wpM_step. wpM_step. cbn beta iota.
  assert (Hend : Forall no_create [ev (ContainerWait id) (WaitExited err code)] /\
    (true = true -> Exists (settles_helper id) [ev (ContainerWait id) (WaitExited err code)])).
  { split; [by repeat constructor|]. intros _. left. simpl. eauto. }
  destruct err as [m|]; [wpM_step; eauto|]. destruct (negb (code =? 0)); wpM_step; eauto.
Qed.

Section properties.
Variable tar_archive : string -> string -> res string.
Variable path_Join : string -> string -> string.
Variable path_Base : string -> string.

Lemma calm_extract lp members end_ : calm (extract_members path_Join path_Base lp members end_).
Proof.
  induction members as [|[n c] members IH]; cbn [extract_members]; [destruct end_; apply steady_lift|].
  apply steady_bind; [auto with ironbird|]. intros content. destruct (String.eqb _ _); [done|].
  apply steady_bind; [|done]. auto with ironbird.
Qed.

Lemma helper_operation {A S} b spec (body : string -> HelperM A) :
  (forall id, good_body id (body id)) ->
  settled_run (S := S) (let* now := perform UnixNano in let* _ := ask (ImagePull b "") in
                        with_helper (spec now) body).
Proof.
  intros Hb s t. apply wpM_from_nil. wpM_step. wpM_step. cbn beta iota. wpM_step. wpM_step. wpM_step.
  cbn beta iota.
  destruct x0 as [[]|e]; cbn [lift_res]; wpM_step; cbn beta iota.
  - eapply (with_helper_settled _ _ _ _ _ [ev UnixNano x; ev (ImagePull b "") (inl tt)]);
      [by repeat constructor|by apply Hb|]. intros l o Hl. eauto.
  - split; [done|]. eexists; split; [done|]. apply no_create_settled. by repeat constructor.
Qed.

Lemma SetOwner_settled {S} (provider volume image uid gid : string) :
  settled_run (S := S) (volume_SetOwner provider volume image uid gid).
Proof. apply helper_operation. intros id. apply start_and_wait_good. Qed.

(** Writing, reading and downloading files and setting a volume's owner
    leave no helper container behind: on every path, after a helper is
    created either Docker was seen to end it (and removes it itself) or
    found to have removed it, or its removal is asked for; nothing of the
    provider's or the task's state changes. *)
Theorem volume_helpers_settled (S : Type) (volume image path local content provider uid gid : string) :
  settled_run (S := S) (volume_WriteFile tar_archive volume image path content) /\
  settled_run (S := S) (volume_WriteTar volume image local) /\
  settled_run (S := S) (volume_ReadFile path_Join path_Base volume image path) /\
  settled_run (S := S) (volume_DownloadDir path_Join path_Base volume image path local) /\
  settled_run (S := S) (volume_SetOwner provider volume image uid gid).
Proof.
  split_and!; [..|apply SetOwner_settled]; apply helper_operation; intros id.
  - apply good_body_bind; [apply steady_wrap, steady_res|]. intros bytes.
    apply good_body_bind; [apply steady_wrap; auto with ironbird|]. intros _. apply start_and_wait_good.
  - apply good_body_bind; [apply steady_wrap; auto with ironbird|]. intros bytes.
    apply good_body_bind; [apply steady_wrap; auto with ironbird|]. intros _. apply start_and_wait_good.
  - apply calm_good, steady_bind; [apply steady_wrap; auto with ironbird|].
    intros [members end_]. apply steady_lift.
  - apply calm_good, steady_bind; [auto with ironbird|].
    intros [members end_]. apply steady_bind; [auto with ironbird|]. intros _. apply calm_extract.
Qed.
End properties.
