(* ===== verification/DockerClient.v ===== *)
(** * The client of Docker: [petri/core/provider/clients/docker_client.go]

    [defaultDockerClient], the implementation of the interface the providers
    use: its methods pass through to Docker's own client, but for the pull
    of an image.  A provider's program over the interface ([docker_sig])
    becomes one over Docker's client, and what is proved of the first holds
    of the second. *)

From S2P Require Import Prelude GoStrings GoVal ProviderDefs TaskHeap DockerVolume.

(** ** Docker's client *)
Inductive client_opt := WithHost (host : string) | WithDialContext.

Inductive raw_call :=
| NewClientWithOpts (opts : list client_opt)
| RawImageInspect (img : string)                (* ImageInspectWithRaw *)
| RawImagePull (img auth : string)              (* its progress, a stream *)
| RawCopy                                       (* io.Copy(io.Discard, resp) *)
| RawCloseBody
| Through (c : docker_call).                    (* the method of the same name *)

Definition raw_ans (c : raw_call) : Type :=
  match c with Through c => docker_ans c | RawCloseBody => unit | _ => res unit end.
Canonical raw_sig : sig := Sig raw_call raw_ans.
Abbreviation RawM := (M raw_sig unit).

(** ** [defaultDockerClient] *)
Definition client_opts (host : string) (dialFunc : bool) : list client_opt :=
  (if String.eqb host "" then [] else [WithHost ("tcp://" +:+ host +:+ ":2375")]) ++ (if dialFunc then [WithDialContext] else []).

Definition newDockerClient (host : string) (dialFunc : bool) : RawM unit :=
  ask (NewClientWithOpts (client_opts host dialFunc)).

Definition imagePull (img auth : string) : RawM unit :=
  let* inspected := perform (RawImageInspect img) in
  match (inspected : res unit) with
  | inl _ => retM tt
  | inr _ =>
      let* _ := wrap "failed to pull docker image" (ask (RawImagePull img auth)) in
      defer (perform RawCloseBody) (wrap "failed to pull docker image" (ask RawCopy))
  end.

Definition answer_of (o : outcome unit) : res unit := match o with Ok _ => inl tt | Err e => inr e | _ => inr (ENew "") end.

(** A method of the interface; the Docker provider's client has neither a
    host nor a dialer. *)
Definition method (c : docker_call) : prog raw_sig (docker_ans c) :=
  match c return prog raw_sig (docker_ans c) with
  | ImagePull img auth => prog_bind (imagePull img auth tt) (fun r => Ret (answer_of r.2))
  | NewDockerClient => prog_bind (newDockerClient "" false tt) (fun r => Ret (answer_of r.2))
  | c => Call (Through c : call raw_sig) (fun x => Ret (x : docker_ans c))
  end.

Fixpoint over_client {A} (p : prog docker_sig A) : prog raw_sig A :=
  match p with
  | Ret a => Ret a
  | Call c k => prog_bind (method c) (fun x => over_client (k x))
  end.

(** ** What the calls of an event of the interface were *)
Abbreviation raw c x := (ev (E := raw_sig) c x).

Definition passes (c : docker_call) : bool := match c with ImagePull _ _ | NewDockerClient => false | _ => true end.

Inductive made_of : event docker_sig -> list (event raw_sig) -> Prop :=
| made_client r : made_of (ev (NewDockerClient : call docker_sig) r) [raw (NewClientWithOpts []) r]
| made_found img auth : made_of (ev (ImagePull img auth : call docker_sig) (inl tt)) [raw (RawImageInspect img) (inl tt)]
| made_pulled img auth e : made_of (ev (ImagePull img auth : call docker_sig) (inl tt))
    [raw (RawImageInspect img) (inr e); raw (RawImagePull img auth) (inl tt); raw RawCopy (inl tt); raw RawCloseBody tt]
| made_refused img auth e e' : made_of (ev (ImagePull img auth : call docker_sig) (inr (EWrap "failed to pull docker image" e')))
    [raw (RawImageInspect img) (inr e); raw (RawImagePull img auth) (inr e')]
| made_cut img auth e e' : made_of (ev (ImagePull img auth : call docker_sig) (inr (EWrap "failed to pull docker image" e')))
    [raw (RawImageInspect img) (inr e); raw (RawImagePull img auth) (inl tt); raw RawCopy (inr e'); raw RawCloseBody tt]
| made_through (c : docker_call) x : passes c = true -> made_of (ev (c : call docker_sig) x) [raw (Through c) x].

(** A call of the interface over Docker's client. *)
Lemma method_made c u (Q : list (event raw_sig) -> docker_ans c -> Prop) :
  (forall x l, made_of (ev (c : call docker_sig) x) l -> Q (u ++ l) x) -> wp (method c) Q u.
Proof.
  intros HQ. destruct c; cbn; try (by intros x; apply HQ, made_through).
  - intros [[]|e]; apply HQ, made_client.
  - intros [[]|e]; cbn; [apply HQ, made_found|]. intros [[]|e']; cbn.
    + intros [[]|e'']; cbn; intros []; rewrite <- !app_assoc; apply HQ; [apply made_pulled|apply made_cut].
    + rewrite <- app_assoc. apply HQ, made_refused.
Qed.

(** What holds of every run over the interface holds over Docker's client,
    of the events the calls make up. *)
Lemma wp_over_client {A} (p : prog docker_sig A) (Q : list (event docker_sig) -> A -> Prop) t u0 :
  wp p Q t ->
  wp (over_client p) (fun u a => exists es ls, u = u0 ++ concat ls /\ Forall2 made_of es ls /\ Q (t ++ es) a) u0.
Proof.
  enough (forall p t u es ls, u = u0 ++ concat ls -> Forall2 made_of es ls -> wp p Q (t ++ es) ->
    wp (over_client p) (fun u a => exists es ls, u = u0 ++ concat ls /\ Forall2 made_of es ls /\ Q (t ++ es) a) u) as H.
  { intros Hp. apply (H p t u0 [] []); [by rewrite app_nil_r|constructor|by rewrite app_nil_r]. }
  clear p t. intros p. induction p as [a|c k IH]; intros t u es ls -> Hes Hp; cbn in *; [by exists es, ls|].
  apply wp_bind, method_made. intros x l Hl. apply (IH x t _ (es ++ [ev c x]) (ls ++ [l])).
  - by rewrite concat_app, app_assoc, concat_cons, app_nil_r.
  - by apply Forall2_app; [|repeat constructor].
  - by rewrite app_assoc.
Qed.

(** An image that was pulled is there, or its progress was read to the end:
    the errors that Docker reports in it are not looked at. *)
Definition of_image (img : string) (e : event docker_sig) : bool :=
  let '(existT c x) := e in
  match c return docker_ans c -> bool with
  | ImagePull img' _ => fun r => String.eqb img' img && match r with inl _ => true | inr _ => false end
  | _ => fun _ => false
  end x.
Lemma pulled_image img e l : made_of e l -> of_image img e = true ->
  raw (RawImageInspect img) (inl tt) ∈ l \/ raw RawCopy (inl tt) ∈ l.
Proof.
  intros [r|img' auth|img' auth e'|img' auth e' e''|img' auth e' e''|c x Hc] Hi; cbn in Hi; try done.
  - apply andb_true_iff in Hi as [->%String.eqb_eq _]. left. by left.
  - right. by do 2 right; left.
  - by rewrite andb_false_r in Hi.
  - by rewrite andb_false_r in Hi.
  - by destruct c.
Qed.

(** Every image a provider's program was told it pulled is such an image. *)
Lemma over_client_pulls {A} (p : prog docker_sig A) :
  wp (over_client p) (fun u _ => exists es ls, u = concat ls /\ Forall2 made_of es ls /\
    forall img i e, es !! i = Some e -> of_image img e = true ->
      exists l, ls !! i = Some l /\ (raw (RawImageInspect img) (inl tt) ∈ l \/ raw RawCopy (inl tt) ∈ l)) [].
Proof.
  assert (Hp : wp p (fun _ _ => True) []).
  { generalize (@nil (event docker_sig)). induction p as [a|c k IH]; [done|]. intros t x. apply IH. }
  eapply wp_mono; [|exact (wp_over_client p _ [] [] Hp)]. intros u a (es & ls & -> & Hes & _). exists es, ls. split_and!; [done..|].
  intros img i e Hi Himg. destruct (Forall2_lookup_l _ _ _ _ _ Hes Hi) as (l & Hl & Hmade). exists l. split; [done|]. by eapply pulled_image.
Qed.
