(* ===== verification/DockerProvider.v ===== *)
(** * The Docker provider: [petri/core/provider/docker/provider.go],
    [task.go], [network.go], [util.go]

    The provider's map of task states holds pointers it shares with the
    tasks it hands out, so the state is a heap of task states, the map of
    pointers, and the address allocator.  The Docker client answers
    arbitrarily; the address allocator and CIDR parsing are parameters. *)

From S2P Require Import Prelude GoStrings GoVal ProviderDefs ChainTypes TaskHeap DockerVolume.

(** ** State *)
Record VolumeState := { vol_Name : string; vol_Size : string }.

Record TaskState := {
  ts_Id : string;
  ts_Name : string;
  ts_Volume : option VolumeState;
  ts_Definition : TaskDefinition;
  ts_Status : TaskStatus;
  ts_IpAddress : string;
  ts_BuilderImageName : string;
  ts_NetworkName : string;
  ts_PortBindings : gmap string (list (string * string))
}.

Record ProviderState := {
  TaskStates : gmap string ptr;
  ps_Name : string;
  NetworkID : string;
  NetworkName : string;
  NetworkCIDR : string;
  NetworkGateway : string;
  BuilderImageName : string
}.

(** The address allocator: an address it hands out was free and is in use
    from then on; nothing else changes. *)
Class IPAllocator := {
  ip_range : Type;
  ParseCIDR : string -> res string;
  NewCIDRRange : string -> res ip_range;
  Allocate : ip_range -> string -> res ip_range;
  AllocateNext : ip_range -> res (string * ip_range);
  in_use : ip_range -> string -> Prop;
  Allocate_spec : forall r ip r', Allocate r ip = inl r' ->
    ~ in_use r ip /\ forall x, in_use r' x <-> x = ip \/ in_use r x;
  AllocateNext_spec : forall r ip r', AllocateNext r = inl (ip, r') ->
    ~ in_use r ip /\ forall x, in_use r' x <-> x = ip \/ in_use r x
}.

Section provider.
Context {A : IPAllocator} {R : MapRange}.

Record Provider := {
  p_state : ProviderState;
  heap : gmap ptr TaskState;
  next_ptr : ptr;
  dockerNetworkAllocator : ip_range
}.

Abbreviation DM := (M docker_sig Provider).

Definition set_heap (h : gmap ptr TaskState) (n : ptr) (p : Provider) : Provider :=
  {| p_state := p_state p; heap := h; next_ptr := n; dockerNetworkAllocator := dockerNetworkAllocator p |}.
Definition set_TaskStates (m : gmap string ptr) (p : Provider) : Provider :=
  let s := p_state p in
  {| p_state := {| TaskStates := m; ps_Name := ps_Name s; NetworkID := NetworkID s; NetworkName := NetworkName s;
                   NetworkCIDR := NetworkCIDR s; NetworkGateway := NetworkGateway s;
                   BuilderImageName := BuilderImageName s |};
     heap := heap p; next_ptr := next_ptr p; dockerNetworkAllocator := dockerNetworkAllocator p |}.
Definition set_allocator (r : ip_range) (p : Provider) : Provider :=
  {| p_state := p_state p; heap := heap p; next_ptr := next_ptr p; dockerNetworkAllocator := r |}.

(** A new [&TaskState{...}]. *)
Definition new_state (s : TaskState) : DM ptr :=
  let* p := get in
  let* _ := put (set_heap (<[next_ptr p := s]> (heap p)) (S (next_ptr p)) p) in
  retM (next_ptr p).

(** [t.GetState()]: a copy of the state the task points to. *)
Definition GetState (t : ptr) : DM TaskState :=
  let* p := get in
  match heap p !! t with
  | Some s => retM s
  | None => panic "invalid memory address or nil pointer dereference"
  end.

Definition with_Status (status : TaskStatus) (s : TaskState) : TaskState :=
  {| ts_Id := ts_Id s; ts_Name := ts_Name s; ts_Volume := ts_Volume s; ts_Definition := ts_Definition s;
     ts_Status := status; ts_IpAddress := ts_IpAddress s; ts_BuilderImageName := ts_BuilderImageName s;
     ts_NetworkName := ts_NetworkName s; ts_PortBindings := ts_PortBindings s |}.

(** [t.state.Status = status], seen through every pointer to the state. *)
Definition set_Status (t : ptr) (status : TaskStatus) : DM unit :=
  modify (fun p => set_heap (alter (with_Status status) t (heap p)) (next_ptr p) p).

(** ** [util.go], [network.go] *)
Definition convertTaskDefinitionPortsToPortSet (definition : TaskDefinition) : gmap string unit :=
  list_to_map (map (fun port => (port +:+ "/tcp", tt)) (Ports definition)).

Definition convertEnvMapToList (env : gmap string string) : list string :=
  map (fun '(key, value) => key +:+ "=" +:+ value) (range_map env).

Definition initNetwork {S} (name networkName : string) : M docker_sig S NetworkInfo :=
  let* subnet1 := perform (RandInt 255) in
  let* subnet2 := perform (RandInt 255) in
  let prefix := "192." +:+ itoa subnet1 +:+ "." +:+ itoa subnet2 in
  let* id := ask (NetworkCreate networkName name (prefix +:+ ".0/24") (prefix +:+ ".1")) in
  ask (NetworkInspect id).

Definition ensureNetwork : DM unit :=
  let* p := get in
  let state := p_state p in
  let* network := ask (NetworkInspect (NetworkID state)) in
  if negb (String.eqb (net_ID network) (NetworkID state)) then
    throw (ENew ("network ID mismatch: " +:+ net_ID network +:+ " != " +:+ NetworkID state))
  else if negb (String.eqb (net_Name network) (NetworkName state)) then
    throw (ENew ("network name mismatch: " +:+ net_Name network +:+ " != " +:+ NetworkName state))
  else
    match net_Config network with
    | [(subnet, _)] =>
        if negb (String.eqb subnet (NetworkCIDR state)) then
          throw (ENew ("network CIDR mismatch: " +:+ subnet +:+ " != " +:+ NetworkCIDR state))
        else retM tt
    | l => throw (ENew ("unexpected number of IPAM configs: " +:+ itoa (Z.of_nat (length l))))
    end.

Definition destroyNetwork : DM unit :=
  let* p := get in ask (NetworkRemove (NetworkID (p_state p))).

Definition nextAvailablePort : DM (string * string) :=
  let* port := ask OpenListener in
  retM ("0.0.0.0", itoa port).

Definition nextAvailableIP : DM string :=
  let* p := get in
  match AllocateNext (dockerNetworkAllocator p) with
  | inr err => throw err
  | inl (ip, r) => let* _ := put (set_allocator r p) in retM ip
  end.

Fixpoint bind_ports (ports : list (string * unit)) (m : gmap string (list (string * string)))
    : DM (gmap string (list (string * string))) :=
  match ports with
  | [] => retM m
  | (port, _) :: ports' =>
      let* pb := nextAvailablePort in
      let* _ := ask CloseListener in
      bind_ports ports' (<[port := [pb]]> m)
  end.

Definition GeneratePortBindings (portSet : gmap string unit) : DM (gmap string (list (string * string))) :=
  bind_ports (range_map portSet) ∅.

(** ** [CreateProvider], [RestoreProvider] *)
Definition CreateProvider (providerName : string) : M docker_sig unit Provider :=
  let* _ := ask NewDockerClient in
  let* _ := ask Ping in
  if String.eqb providerName "" then throw (ENew "provider name cannot be empty")
  else
    let networkName := "petri-" +:+ providerName in
    let* network := initNetwork providerName networkName in
    match net_Config network with
    | [] => throw (ENew "network does not have an IPAM config")
    | (subnet, gateway) :: _ =>
        let* cidr := lift_res (ParseCIDR subnet) in
        match NewCIDRRange cidr with
        | inr _ => panic "invalid memory address or nil pointer dereference"   (* used before its error is looked at *)
        | inl r =>
            let* r := wrap "failed to allocate gateway ip" (lift_res (Allocate r gateway)) in
            retM {| p_state :=
                      {| TaskStates := ∅; ps_Name := providerName; NetworkID := net_ID network;
                         NetworkName := networkName; NetworkCIDR := cidr; NetworkGateway := gateway;
                         BuilderImageName := "busybox:latest" |};
                    heap := ∅; next_ptr := O; dockerNetworkAllocator := r |}
        end
    end.

(** ** Tasks *)
Definition status_of (state : string) : TaskStatus :=
  if String.eqb state "created" then TASK_STOPPED
  else if String.eqb state "running" then TASK_RUNNING
  else if String.eqb state "paused" then TASK_PAUSED
  else if String.eqb state "restarting" then TASK_RESTARTING
  else if String.eqb state "removing" then TASK_STOPPED
  else if String.eqb state "exited" then TASK_STOPPED
  else if String.eqb state "dead" then TASK_STOPPED
  else TASK_STATUS_UNDEFINED.

Definition GetStatus (t : ptr) : DM TaskStatus :=
  let* state := GetState t in
  let* containerJSON := ask (ContainerInspect (ts_Id state)) in
  retM (status_of (ci_Status containerJSON)).

Definition WaitForStatus (fuel : nat) (t : ptr) (desiredStatus : TaskStatus) : DM unit :=
  poll fuel
    (let* ended := perform CtxDone in
     match ended with
     | Some err => throw err
     | None =>
         let* status := GetStatus t in
         if bool_decide (status = desiredStatus) then retM (Some tt) else retM None
     end).

Definition Start (fuel : nat) (t : ptr) : DM unit :=
  let* state := GetState t in
  let* _ := ask (ContainerStart (ts_Id state)) in
  let* _ := WaitForStatus fuel t TASK_RUNNING in
  set_Status t TASK_RUNNING.

Definition Stop (fuel : nat) (t : ptr) : DM unit :=
  let* state := GetState t in
  let* _ := ask (ContainerStop (ts_Id state)) in
  let* _ := WaitForStatus fuel t TASK_STOPPED in
  set_Status t TASK_STOPPED.

Definition removeTask (taskID : string) : DM unit :=
  modify (fun p => set_TaskStates (delete taskID (TaskStates (p_state p))) p).

Definition Destroy (t : ptr) : DM unit :=
  let* state := GetState t in
  let* _ := ask (ContainerRemove (ts_Id state) true true) in
  removeTask (ts_Id state).

Definition Logs (t : ptr) : DM string :=
  let* state := GetState t in
  let* '(stdout, stderr) := ask (ContainerLogs (ts_Id state)) in
  retM (stdout +:+ stderr).

Definition GetExternalAddress (t : ptr) (port : string) : DM string :=
  let* state := GetState t in
  match ts_PortBindings state !! (port +:+ "/tcp") with
  | Some ((_, hostPort) :: _) => retM ("0.0.0.0:" +:+ hostPort)
  | _ => throw (ENew ("port " +:+ port +:+ " not found"))
  end.

Definition GetIP (t : ptr) : DM string :=
  let* state := GetState t in
  let* dockerContainer := ask (ContainerInspect (ts_Id state)) in
  match ci_Networks dockerContainer !! ts_NetworkName state with
  | Some ip => retM ip
  | None => panic "invalid memory address or nil pointer dereference"
  end.

Definition GetPrivateIP (t : ptr) : DM string := GetIP t.

Definition Modify (t : ptr) (td : TaskDefinition) : DM unit := panic "unimplemented".

Definition GetDefinition (t : ptr) : DM TaskDefinition :=
  let* state := GetState t in retM (ts_Definition state).

(** *** Commands *)
Definition runCommand (fuel : nat) (t : ptr) (cmd : list string) : DM (string * string * Z) :=
  let* state := GetState t in
  let* created := perform (ContainerExecCreate (ts_Id state) cmd) in
  match created with
  | inr err => let* _ := perform (ContainerLogs (ts_Id state)) in throw err
  | inl exec =>
      let* stream := ask (ContainerExecAttach exec) in
      let* lastExitCode := poll fuel
        (let* ended := perform CtxDone in
         match ended with
         | Some err => throw err
         | None =>
             let* '(running, exitCode) := ask (ContainerExecInspect exec) in
             if (running : bool) then retM None else retM (Some exitCode)
         end) in
      let* '(stdout, stderr) := lift_res stream in
      retM (stdout, stderr, lastExitCode)
  end.

Definition exec_definition (state : TaskState) (unixTime : Z) : TaskDefinition :=
  let d := ts_Definition state in
  {| td_Name := ts_Name state +:+ "-exec-" +:+ itoa (unixTime mod 3000);
     td_Image := td_Image d; Ports := []; Environment := Environment d; DataDir := DataDir d;
     Entrypoint := ["/bin/sh"; "-c"]; Command := ["sleep 36000"]; Args := Args d;
     ProviderSpecificConfig := ProviderSpecificConfig d |}.

Definition exec_container (state : TaskState) (definition : TaskDefinition) : ContainerSpec :=
  {| cs_Name := td_Name definition; cs_Image := Image (td_Image definition);
     cs_Entrypoint := Entrypoint definition; cs_Cmd := Command definition; cs_Hostname := td_Name definition;
     cs_Labels := []; cs_Env := convertEnvMapToList (Environment definition); cs_User := "";
     cs_Binds := []; cs_AutoRemove := false;
     cs_Mounts := match ts_Volume state with Some v => [VolumeMount (vol_Name v) (DataDir definition)] | None => [] end;
     cs_ExposedPorts := []; cs_PortBindings := ∅; cs_NetworkMode := ts_NetworkName state;
     cs_IPv4Address := None |}.

(** A stopped task runs its command in a temporary task over its volume;
    [runTemp] is [RunCommand] on it. *)
Definition runCommandWhileStopped (fuel : nat) (run : ptr -> DM (string * string * Z)) (t : ptr)
    : DM (string * string * Z) :=
  let* state := GetState t in
  let* _ := wrap "failed to validate task definition"
    (lift_outcome (TaskDefinition_ValidateBasic (ts_Definition state))) in
  let* status := GetStatus t in
  if bool_decide (status = TASK_RUNNING) then run t
  else
    let* now := perform UnixNano in
    let definition := exec_definition state (now / 1000000000) in
    let* id := ask (ContainerCreate (exec_container state definition)) in
    let* tempTask := new_state
      {| ts_Id := id; ts_Name := td_Name definition; ts_Volume := None; ts_Definition := definition;
         ts_Status := TASK_STOPPED; ts_IpAddress := ""; ts_BuilderImageName := "";
         ts_NetworkName := ts_NetworkName state; ts_PortBindings := ∅ |} in
    let* _ := Start fuel tempTask in
    defer (Destroy tempTask) (run tempTask).

Fixpoint RunCommand (fuel : nat) (t : ptr) (cmd : list string) : DM (string * string * Z) :=
  match fuel with
  | O => lift_outcome NoFuel
  | Datatypes.S n =>
      let* status := GetStatus t in
      if negb (bool_decide (status = TASK_RUNNING)) then
        runCommandWhileStopped n (fun t => RunCommand n t cmd) t
      else runCommand n t cmd
  end.

(** *** Files *)
Section files.
Variable tar_archive : string -> string -> res string.
Variable path_Join : string -> string -> string.
Variable path_Base : string -> string.

Definition with_volume {B} (t : ptr) (f : TaskState -> string -> DM B) : DM B :=
  let* state := GetState t in
  match ts_Volume state with
  | None => throw (ENew ("no volumes found for container " +:+ ts_Id state))
  | Some v => f state (vol_Name v)
  end.

Definition WriteFile (t : ptr) (relPath content : string) : DM unit :=
  with_volume t (fun state v => volume_WriteFile tar_archive v (ts_BuilderImageName state) relPath content).
Definition WriteTar (t : ptr) (relPath localTarPath : string) : DM unit :=
  with_volume t (fun state v => volume_WriteTar v (ts_BuilderImageName state) localTarPath).
Definition ReadFile (t : ptr) (relPath : string) : DM string :=
  with_volume t (fun state v => volume_ReadFile path_Join path_Base v (ts_BuilderImageName state) relPath).
Definition DownloadDir (t : ptr) (relPath localPath : string) : DM unit :=
  with_volume t (fun state v =>
    volume_DownloadDir path_Join path_Base v (ts_BuilderImageName state) relPath localPath).
End files.

(** ** [CreateTask] *)
Definition registry_auth (definition : TaskDefinition) : string :=
  match ProviderSpecificConfig definition with
  | Some config => if IsECRImage (Image (td_Image definition)) then lookup_str config "docker_auth" else ""
  | None => ""
  end.

(** [fmt.Errorf("msg: %v", err)]: only the text is kept. *)
Definition retext {B} (msg : string) (m : DM B) : DM B :=
  let* r := try_ m in
  match r with inl b => retM b | inr err => throw (ENew (msg +:+ ": " +:+ Error err)) end.

(** The data volume of a task, owned by the image's user. *)
Definition create_data_volume (providerName volumeName builderImage : string) (definition : TaskDefinition)
    : DM unit :=
  let* _ := retext "failed to create dataDir"
    (CreateVolume providerName {| vd_Name := volumeName; vd_MountPath := DataDir definition; vd_Size := "10GB" |}) in
  retext "failed to set volume owner"
    (volume_SetOwner providerName volumeName builderImage (UID (td_Image definition)) (GID (td_Image definition))).

Definition task_container (state : ProviderState) (definition : TaskDefinition) (name ip : string)
    (mounts : list Mount) (portSet : gmap string unit)
    (portBindings : gmap string (list (string * string))) : ContainerSpec :=
  {| cs_Name := name; cs_Image := Image (td_Image definition); cs_Entrypoint := Entrypoint definition;
     cs_Cmd := Command definition; cs_Hostname := name;
     cs_Labels := [(providerLabelName, ps_Name state); (portsLabelName, Join (Ports definition) ",");
                   (nodeNameLabelName, td_Name definition)];
     cs_Env := convertEnvMapToList (Environment definition); cs_User := ""; cs_Binds := [];
     cs_AutoRemove := false; cs_Mounts := mounts; cs_ExposedPorts := map fst (range_map portSet);
     cs_PortBindings := portBindings; cs_NetworkMode := NetworkName state; cs_IPv4Address := Some ip |}.

Definition data_volume (definition : TaskDefinition) (name : string) : option VolumeState :=
  if String.eqb (DataDir definition) "" then None
  else Some {| vol_Name := name +:+ "-data"; vol_Size := "10GB" |}.

Definition task_record (state : ProviderState) (definition : TaskDefinition) (name id ip : string)
    (portBindings : gmap string (list (string * string))) : TaskState :=
  {| ts_Id := id; ts_Name := name; ts_Volume := data_volume definition name; ts_Definition := definition;
     ts_Status := TASK_STOPPED; ts_IpAddress := ip; ts_BuilderImageName := BuilderImageName state;
     ts_NetworkName := NetworkName state; ts_PortBindings := portBindings |}.

Definition CreateTask (definition : TaskDefinition) : DM ptr :=
  let* _ := wrap "failed to validate task definition" (lift_outcome (TaskDefinition_ValidateBasic definition)) in
  let* p := get in
  let state := p_state p in
  let name := ps_Name state +:+ "-" +:+ td_Name definition in
  let* _ := ask (ImagePull (BuilderImageName state) "") in
  let* found := perform (ImageInspect (Image (td_Image definition))) in
  let* _ :=
    (match found with
     | inl _ => retM tt
     | inr _ => ask (ImagePull (Image (td_Image definition)) (registry_auth definition))
     end) in
  let portSet := convertTaskDefinitionPortsToPortSet definition in
  let* portBindings := retext "failed to allocate task ports" (GeneratePortBindings portSet) in
  let volume := data_volume definition name in
  let* _ :=
    (match volume with
     | Some v => create_data_volume (ps_Name state) (vol_Name v) (BuilderImageName state) definition
     | None => retM tt
     end) in
  let* ip := nextAvailableIP in
  let mounts := match volume with Some v => [VolumeMount (vol_Name v) (DataDir definition)] | None => [] end in
  let* id := ask (ContainerCreate (task_container state definition name ip mounts portSet portBindings)) in
  let* t := new_state (task_record state definition name id ip portBindings) in
  let* _ := modify (fun p => set_TaskStates (<[id := t]> (TaskStates (p_state p))) p) in
  retM t.

(** ** [Teardown] *)
Definition teardown_task (t : ptr) : DM unit :=
  let* task := GetState t in
  let* _ := ask (ContainerRemove (ts_Id task) true false) in
  match ts_Volume task with
  | Some v => ask (VolumeRemove (vol_Name v) true)
  | None => retM tt
  end.

Definition Teardown : DM unit :=
  let* p := get in
  let* _ := for_each (range_map (TaskStates (p_state p))) (fun '(_, t) => teardown_task t) in
  destroyNetwork.

(** ** Serialization *)

(** What is written: the states the pointers lead to. *)
Record PackedProvider := {
  pk_Tasks : gmap string TaskState;
  pk_Name : string;
  pk_NetworkID : string;
  pk_NetworkName : string;
  pk_NetworkCIDR : string;
  pk_NetworkGateway : string;
  pk_BuilderImageName : string
}.

Definition pack (p : Provider) : PackedProvider :=
  let s := p_state p in
  {| pk_Tasks := omap (fun t => heap p !! t) (TaskStates s); pk_Name := ps_Name s; pk_NetworkID := NetworkID s;
     pk_NetworkName := NetworkName s; pk_NetworkCIDR := NetworkCIDR s; pk_NetworkGateway := NetworkGateway s;
     pk_BuilderImageName := BuilderImageName s |}.

Definition unpack (k : PackedProvider) (r : ip_range) : Provider :=
  let '(m, h, n) := unpack_tasks (range_map (pk_Tasks k)) O in
  {| p_state := {| TaskStates := m; ps_Name := pk_Name k; NetworkID := pk_NetworkID k;
                   NetworkName := pk_NetworkName k; NetworkCIDR := pk_NetworkCIDR k;
                   NetworkGateway := pk_NetworkGateway k; BuilderImageName := pk_BuilderImageName k |};
     heap := h; next_ptr := n; dockerNetworkAllocator := r |}.

Fixpoint allocate_all (ips : list string) (r : ip_range) : res ip_range :=
  match ips with
  | [] => inl r
  | ip :: ips' => match Allocate r ip with inl r' => allocate_all ips' r' | inr e => inr e end
  end.

Section json.
Variable Marshal : PackedProvider -> res string.
Variable Unmarshal : string -> res PackedProvider.
Variable MarshalTask : TaskState -> res string.
Variable UnmarshalTask : string -> res TaskState.

Definition SerializeProvider : DM string := let* p := get in lift_res (Marshal (pack p)).

Definition RestoreProvider (state : string) : M docker_sig unit Provider :=
  let* k := lift_res (Unmarshal state) in
  let* _ := ask NewDockerClient in
  let* _ := ask Ping in
  let* cidr := wrap "failed to parse cidr mask from state" (lift_res (ParseCIDR (pk_NetworkCIDR k))) in
  let* r := wrap "failed to create ip allocator from state" (lift_res (NewCIDRRange cidr)) in
  let* r := wrap "failed to allocate gateway ip" (lift_res (Allocate r (pk_NetworkGateway k))) in
  let* r := wrap "failed to restore ip allocator state"
    (lift_res (allocate_all (map (fun '(_, s) => ts_IpAddress s) (range_map (pk_Tasks k))) r)) in
  let p := unpack k r in
  let* _ := wrap "failed to reconcilliate the docker network" (scoped p ensureNetwork) in
  retM p.

Definition SerializeTask (t : ptr) : DM string :=
  let* s := GetState t in lift_res (MarshalTask s).

Definition ensureVolume (t : ptr) : DM unit :=
  let* state := GetState t in
  match ts_Volume state with
  | None => retM tt
  | Some v =>
      let* name := wrap "failed to inspect volume" (ask (VolumeInspect (vol_Name v))) in
      if negb (String.eqb name (vol_Name v)) then
        throw (ENew ("volume name mismatch, expected: " +:+ vol_Name v +:+ ", got: " +:+ name))
      else retM tt
  end.

Definition ensureTask (t : ptr) : DM unit :=
  let* state := GetState t in
  let* dockerContainer := wrap "failed to inspect container" (ask (ContainerInspect (ts_Id state))) in
  let* actualStatus := wrap "failed to get task status" (GetStatus t) in
  if negb (bool_decide (actualStatus = ts_Status state)) then
    throw (ENew ("task status mismatch, expected: " +:+ itoa (TaskStatus_int (ts_Status state)) +:+ ", got: " +:+
      itoa (TaskStatus_int actualStatus)))
  else if negb (String.eqb (ci_Name_ dockerContainer) ("/" +:+ ts_Name state)) then
    throw (ENew ("task name mismatch, expected: " +:+ ts_Name state +:+ ", got: " +:+ ci_Name_ dockerContainer))
  else ensureVolume t.

(** The restored task has a state of its own, not the provider's. *)
Definition DeserializeTask (bz : string) : DM ptr :=
  let* s := lift_res (UnmarshalTask bz) in
  let* t := new_state s in
  let* _ := ensureTask t in
  retM t.
End json.
(** ** Lemmas on the operations *)

Lemma GetState_calm t : calm (GetState t).
Proof.
  unfold GetState. apply steady_bind; [apply steady_get|]. intros p.
  destruct (heap p !! t); [apply steady_ret|apply steady_lift].
Qed.

Lemma GetStatus_calm t : calm (GetStatus t).
Proof. unfold GetStatus. pose proof GetState_calm. auto 10 with ironbird. Qed.

Lemma WaitForStatus_calm fuel t status : calm (WaitForStatus fuel t status).
Proof.
  unfold WaitForStatus. pose proof GetStatus_calm. apply steady_poll, steady_bind; [auto with ironbird|].
  intros [e|]; [auto with ironbird|]. apply steady_bind; [done|]. intros st. case_bool_decide; auto with ironbird.
Qed.

Lemma bind_ports_calm ports m : calm (bind_ports ports m).
Proof.
  revert m. induction ports as [|[port []] ports IH]; intros m; cbn [bind_ports]; [apply steady_ret|].
  apply steady_bind; [unfold nextAvailablePort; auto with ironbird|]. intros pb. auto with ironbird.
Qed.

Lemma retext_settled {B} msg (m : DM B) : settled_run m -> settled_run (retext msg m).
Proof.
  intros Hm. apply settled_bind; [by apply settled_try|]. intros [b|e]; apply calm_settled; auto with ironbird.
Qed.

Lemma CreateVolume_calm {S} name d : steady no_create (CreateVolume (S := S) name d).
Proof.
  unfold CreateVolume. apply steady_bind; [auto with ironbird|]. intros _.
  apply steady_bind; [auto with ironbird|]. intros [n|e]; auto with ironbird.
Qed.

Lemma create_data_volume_settled provider volume image d :
  settled_run (create_data_volume provider volume image d).
Proof.
  apply settled_bind; [apply retext_settled, calm_settled, CreateVolume_calm|]. intros _.
  apply retext_settled, SetOwner_settled.
Qed.

#[local] Hint Resolve GetState_calm GetStatus_calm WaitForStatus_calm bind_ports_calm retext_settled
  CreateVolume_calm create_data_volume_settled : ironbird.

(** A step that settles its helpers, after events that settled theirs. *)
Lemma wpM_settled {B C} (m : DM B) (f : B -> DM C) p t (Q : list (event docker_sig) -> Provider -> outcome C -> Prop) :
  settled_run m -> helpers_settled t ->
  (forall t' o, helpers_settled t' -> is_ok o = false -> Q t' p o) ->
  (forall t' b, helpers_settled t' -> wpM (f b) p Q t') ->
  wpM (bindM m f) p Q t.
Proof.
  intros Hm Ht Hfail Hk. wpM_step. eapply wpM_mono; [|apply Hm]. intros t' s' o [-> (l & -> & Hl)].
  pose proof (helpers_settled_app _ _ Ht Hl). destruct o; auto.
Qed.

Definition task_at (p : Provider) (id : string) (s : TaskState) : Prop :=
  exists t, TaskStates (p_state p) !! id = Some t /\ heap p !! t = Some s.

(** Every recorded task has a live state under its own identifier, with an
    address that is in use, is not the gateway's and is no other task's. *)
Record valid_provider (p : Provider) : Prop := {
  vp_tasks : forall id t, TaskStates (p_state p) !! id = Some t ->
    exists s, heap p !! t = Some s /\ ts_Id s = id /\
      in_use (dockerNetworkAllocator p) (ts_IpAddress s) /\ ts_IpAddress s <> NetworkGateway (p_state p);
  vp_ips : forall id1 id2 s1 s2, task_at p id1 s1 -> task_at p id2 s2 ->
    ts_IpAddress s1 = ts_IpAddress s2 -> id1 = id2;
  vp_gateway : in_use (dockerNetworkAllocator p) (NetworkGateway (p_state p));
  vp_fresh : forall t, is_Some (heap p !! t) -> (t < next_ptr p)%nat
}.

Lemma vp_next p : valid_provider p -> heap p !! next_ptr p = None.
Proof.
  intros Hp. destruct (heap p !! next_ptr p) as [s|] eqn:Hs; [|done].
  pose proof (vp_fresh _ Hp (next_ptr p) ltac:(eauto)). lia.
Qed.

(** More addresses in use. *)
Lemma valid_allocator p r :
  valid_provider p -> (forall x, in_use (dockerNetworkAllocator p) x -> in_use r x) ->
  valid_provider (set_allocator r p).
Proof.
  intros [Ht Hi Hg Hf] Hr. split; simpl; [|apply Hi|by apply Hr|done].
  intros id t Hid. destruct (Ht _ _ Hid) as (s & ? & ? & ? & ?). eauto 10.
Qed.

(** A new task with an address that no recorded task has. *)
Lemma valid_new_task p s :
  valid_provider p -> in_use (dockerNetworkAllocator p) (ts_IpAddress s) ->
  ts_IpAddress s <> NetworkGateway (p_state p) ->
  (forall id s', task_at p id s' -> ts_IpAddress s' <> ts_IpAddress s) ->
  valid_provider (set_TaskStates (<[ts_Id s := next_ptr p]> (TaskStates (p_state p)))
    (set_heap (<[next_ptr p := s]> (heap p)) (Datatypes.S (next_ptr p)) p)).
Proof.
  intros Hp Huse Hgw Hnew. pose proof (vp_next p Hp) as Hnone.
  assert (Hlive : forall id t, TaskStates (p_state p) !! id = Some t -> next_ptr p <> t).
  { intros id t Ht <-. destruct (vp_tasks _ Hp _ _ Ht) as (s' & Hs' & _). congruence. }
  split; simpl.
  - intros id t [[<- <-]|[Hne Ht]]%lookup_insert_Some.
    + rewrite lookup_insert_eq. eauto.
    + rewrite lookup_insert_ne by (by eapply Hlive). by apply (vp_tasks _ Hp).
  - intros id1 id2 s1 s2 (t1 & Ht1 & Hs1) (t2 & Ht2 & Hs2) Heq. simpl in *.
    apply lookup_insert_Some in Ht1 as [[<- <-]|[Hne1 Ht1]], Ht2 as [[<- <-]|[Hne2 Ht2]]; try done.
    + rewrite lookup_insert_eq in Hs1. injection Hs1 as <-.
      rewrite lookup_insert_ne in Hs2 by (by eapply Hlive). exfalso. eapply Hnew; [by exists t2|done].
    + rewrite lookup_insert_eq in Hs2. injection Hs2 as <-.
      rewrite lookup_insert_ne in Hs1 by (by eapply Hlive). exfalso. eapply Hnew; [by exists t1|done].
    + rewrite lookup_insert_ne in Hs1 by (by eapply Hlive).
      rewrite lookup_insert_ne in Hs2 by (by eapply Hlive).
      eapply (vp_ips _ Hp); [by exists t1|by exists t2|done].
  - apply (vp_gateway _ Hp).
  - intros t. destruct (decide (t = next_ptr p)) as [->|Hne]; [lia|].
    rewrite lookup_insert_ne by done. intros Ht. pose proof (vp_fresh _ Hp t Ht). lia.
Qed.

(** What [CreateTask] ends in. *)
Definition task_created (definition : TaskDefinition) (p p' : Provider) (l : list (event docker_sig)) (t : ptr) : Prop :=
  let state := p_state p in
  let name := ps_Name state +:+ "-" +:+ td_Name definition in
  exists id ip pb mounts l0,
    let s := task_record state definition name id ip pb in
    heap p !! t = None /\ heap p' = <[t := s]> (heap p) /\
    p_state p' = p_state (set_TaskStates (<[id := t]> (TaskStates state)) p) /\
    ~ in_use (dockerNetworkAllocator p) ip /\
    l = l0 ++ [ev (ContainerCreate (task_container state definition name ip mounts
                 (convertTaskDefinitionPortsToPortSet definition) pb)) (inl id)] /\
    mounts = match ts_Volume s with Some v => [VolumeMount (vol_Name v) (DataDir definition)] | None => [] end /\
    helpers_settled l0.

Lemma CreateTask_run definition p t0 :
  valid_provider p -> helpers_settled t0 ->
  wpM (CreateTask definition) p (fun l p' o =>
    valid_provider p' /\
    match o with
    | Ok t => task_created definition p p' l t
    | _ => heap p' = heap p /\ p_state p' = p_state p /\ helpers_settled l
    end) t0.
Proof.
  intros Hp Ht0. unfold CreateTask.
  assert (Hfail : forall (t' : list (event docker_sig)) (o : outcome ptr), helpers_settled t' -> is_ok o = false ->
    valid_provider p /\ match o with
      | Ok t => task_created definition p p t' t
      | _ => heap p = heap p /\ p_state p = p_state p /\ helpers_settled t' end)
    by (intros t' [] ?; done).
  apply wpM_settled; [auto with ironbird|done|exact Hfail|]. intros t1 _ H1.
  do 2 wpM_step. cbv zeta.
  apply wpM_settled; [auto with ironbird|done|exact Hfail|]. intros t2 _ H2.
  apply wpM_settled; [auto with ironbird|done|exact Hfail|]. intros t3 found H3.
  apply wpM_settled; [destruct found; auto with ironbird|done|exact Hfail|]. intros t4 _ H4.
  apply wpM_settled; [unfold GeneratePortBindings; auto with ironbird|done|exact Hfail|]. intros t5 pb H5.
  apply wpM_settled; [destruct (data_volume _ _); auto with ironbird|done|exact Hfail|]. intros t6 _ H6.
  unfold nextAvailableIP. do 3 wpM_step. cbn beta iota.
  destruct (AllocateNext (dockerNetworkAllocator p)) as [[ip r]|err] eqn:Hnext; cbn beta iota; [|wpM_step; by apply (Hfail t6 (Err err))].
  destruct (AllocateNext_spec _ _ _ Hnext) as [Hfree Hr].
  do 3 wpM_step. set (p1 := set_allocator r p).
  assert (Hp1 : valid_provider p1) by (apply valid_allocator; [done|]; intros x Hx; apply Hr; by right).
  do 3 wpM_step. cbn beta iota. destruct x as [id|err]; cbn [lift_res]; wpM_step; cbn beta iota.
  2: { split; [done|]. split; [done|]. split; [done|]. apply helpers_settled_app; [done|].
       apply (one_helper_settled []); [constructor..|done]. }
  unfold new_state. do 7 wpM_step. wpM_step. wpM_step.
  split.
  - set (s := task_record _ _ _ _ _ _). apply (valid_new_task p1 s); [done|..].
    + apply Hr. by left.
    + intros Hgw. apply Hfree. simpl in Hgw. rewrite Hgw. apply (vp_gateway _ Hp).
    + intros id' s' (t' & Ht' & Hs') Heq. apply Hfree. simpl in *.
      destruct (vp_tasks _ Hp _ _ Ht') as (s'' & Hs'' & _ & Huse & _). congruence.
  - exists id, ip, pb. eexists _, t6. split; [exact (vp_next p Hp)|]. done.
Qed.

(** *** Operations that keep the provider valid *)
Abbreviation keeps_valid m := (preserves (fun _ p => valid_provider p) m).

Lemma settled_keeps_valid {B} (m : DM B) : settled_run m -> keeps_valid m.
Proof. intros Hm p t Hp. eapply wpM_mono; [|apply Hm]. by intros t' p' o [-> _]. Qed.

Lemma calm_keeps_valid {B} (m : DM B) : calm m -> keeps_valid m.
Proof. intros Hm. by apply settled_keeps_valid, calm_settled. Qed.

Lemma create_keeps_valid spec : keeps_valid (perform (ContainerCreate spec)).
Proof. intros p t Hp x. done. Qed.

Lemma set_Status_keeps_valid t status : keeps_valid (set_Status t status).
Proof.
  intros p t0 [Ht Hi Hg Hf]. apply wpM_modify.
  assert (Hlook : forall t' s', alter (with_Status status) t (heap p) !! t' = Some s' ->
    exists s, heap p !! t' = Some s /\ ts_Id s' = ts_Id s /\ ts_IpAddress s' = ts_IpAddress s).
  { intros t' s' Hs'. destruct (decide (t = t')) as [<-|Hne].
    - rewrite lookup_alter_eq in Hs'. destruct (heap p !! t) as [s|]; [|done]. injection Hs' as <-. by exists s.
    - rewrite lookup_alter_ne in Hs' by done. by exists s'. }
  split; simpl; [| |done|].
  - intros id t' Hid. destruct (Ht _ _ Hid) as (s & Hs & Hs1). destruct (decide (t = t')) as [<-|Hne].
    + rewrite lookup_alter_eq, Hs. by exists (with_Status status s).
    + rewrite lookup_alter_ne by done. by exists s.
  - intros id1 id2 s1 s2 (t1 & Ht1 & Hs1) (t2 & Ht2 & Hs2). simpl in *.
    destruct (Hlook _ _ Hs1) as (s1' & Hs1' & _ & ->), (Hlook _ _ Hs2) as (s2' & Hs2' & _ & ->).
    apply Hi; [by exists t1|by exists t2].
  - intros t' [s' Hs']. destruct (Hlook _ _ Hs') as (s & Hs & _). eauto.
Qed.

Lemma removeTask_keeps_valid id : keeps_valid (removeTask id).
Proof.
  intros p t0 [Ht Hi Hg Hf]. apply wpM_modify.
  split; simpl; [| |done|done].
  - intros id' t' [Hne Hid]%lookup_delete_Some. by apply Ht.
  - intros id1 id2 s1 s2 (t1 & Ht1 & Hs1) (t2 & Ht2 & Hs2). simpl in *.
    apply lookup_delete_Some in Ht1 as [_ Ht1], Ht2 as [_ Ht2]. apply Hi; [by exists t1|by exists t2].
Qed.

(** A state of its own, recorded nowhere. *)
Lemma new_state_keeps_valid s : keeps_valid (new_state s).
Proof.
  intros p t0 Hp. unfold new_state. repeat wpM_step. pose proof (vp_next p Hp) as Hnone.
  assert (Hlive : forall id t, TaskStates (p_state p) !! id = Some t -> next_ptr p <> t).
  { intros id t Ht <-. destruct (vp_tasks _ Hp _ _ Ht) as (s' & Hs' & _). congruence. }
  split; simpl; [| |apply (vp_gateway _ Hp)|].
  - intros id t Hid. rewrite lookup_insert_ne by (by eapply Hlive). by apply (vp_tasks _ Hp).
  - intros id1 id2 s1 s2 (t1 & Ht1 & Hs1) (t2 & Ht2 & Hs2). simpl in *.
    rewrite lookup_insert_ne in Hs1 by (by eapply Hlive). rewrite lookup_insert_ne in Hs2 by (by eapply Hlive).
    apply (vp_ips _ Hp); [by exists t1|by exists t2].
  - intros t. destruct (decide (t = next_ptr p)) as [->|Hne]; [lia|].
    rewrite lookup_insert_ne by done. intros Ht. pose proof (vp_fresh _ Hp t Ht). lia.
Qed.

#[local] Hint Resolve preserves_bind preserves_wrap preserves_try preserves_defer create_keeps_valid
  set_Status_keeps_valid removeTask_keeps_valid new_state_keeps_valid calm_keeps_valid : ironbird.

Lemma Start_keeps_valid fuel t : keeps_valid (Start fuel t).
Proof. unfold Start. auto 10 with ironbird. Qed.
Lemma Stop_keeps_valid fuel t : keeps_valid (Stop fuel t).
Proof. unfold Stop. auto 10 with ironbird. Qed.
Lemma Destroy_keeps_valid t : keeps_valid (Destroy t).
Proof. unfold Destroy. auto 10 with ironbird. Qed.

#[local] Hint Resolve Start_keeps_valid Stop_keeps_valid Destroy_keeps_valid : ironbird.

Lemma runCommand_calm fuel t cmd : calm (runCommand fuel t cmd).
Proof.
  unfold runCommand. apply steady_bind; [apply GetState_calm|]. intros s.
  apply steady_bind; [auto with ironbird|]. intros [exec|e]; [|auto with ironbird].
  apply steady_bind; [auto with ironbird|]. intros stream. apply steady_bind.
  - apply steady_poll, steady_bind; [auto with ironbird|]. intros [e|]; [auto with ironbird|].
    apply steady_bind; [auto with ironbird|]. intros [[] c]; auto with ironbird.
  - intros c. apply steady_bind; [auto with ironbird|]. intros [out err]. auto with ironbird.
Qed.

Lemma runCommandWhileStopped_keeps_valid fuel run t :
  (forall t, keeps_valid (run t)) -> keeps_valid (runCommandWhileStopped fuel run t).
Proof.
  intros Hrun. unfold runCommandWhileStopped.
  apply preserves_bind; [auto with ironbird|]. intros state.
  apply preserves_bind; [auto with ironbird|]. intros _.
  apply preserves_bind; [auto with ironbird|]. intros status. case_bool_decide; [done|].
  apply preserves_bind; [auto with ironbird|]. intros now. cbv zeta.
  apply preserves_bind; [auto with ironbird|]. intros id.
  apply preserves_bind; [auto with ironbird|]. intros temp.
  apply preserves_bind; auto with ironbird.
Qed.

Lemma RunCommand_keeps_valid fuel t cmd : keeps_valid (RunCommand fuel t cmd).
Proof.
  revert t. induction fuel as [|n IH]; intros t; cbn [RunCommand]; [auto with ironbird|].
  apply preserves_bind; [auto with ironbird|]. intros status. destruct (negb _).
  - by apply runCommandWhileStopped_keeps_valid.
  - apply calm_keeps_valid, runCommand_calm.
Qed.

Lemma CreateTask_keeps_valid definition : keeps_valid (CreateTask definition).
Proof.
  intros p t Hp. apply wpM_from_nil. eapply wpM_mono; [|apply CreateTask_run; [done|]].
  - by intros t' p' o [Hp' _].
  - by apply no_create_settled.
Qed.

Lemma DeserializeTask_keeps_valid UnmarshalTask bz : keeps_valid (DeserializeTask UnmarshalTask bz).
Proof.
  unfold DeserializeTask. apply preserves_bind; [auto with ironbird|]. intros s.
  apply preserves_bind; [auto with ironbird|]. intros t.
  apply preserves_bind; [|auto with ironbird]. apply calm_keeps_valid. unfold ensureTask.
  apply steady_bind; [auto with ironbird|]. intros state.
  apply steady_bind; [auto with ironbird|]. intros c.
  apply steady_bind; [auto with ironbird|]. intros actual.
  destruct (negb _); [auto with ironbird|]. destruct (negb _); [auto with ironbird|].
  unfold ensureVolume. apply steady_bind; [auto with ironbird|]. intros state'.
  destruct (ts_Volume state'); [|auto with ironbird]. apply steady_bind; [auto with ironbird|].
  intros name. destruct (negb _); auto with ironbird.
Qed.

(** C30: [CreateTask] keeps the provider valid on every path.  On success it
    returns a new pointer, recorded under the container's identifier, to a
    stopped task with this definition and an address that was free, and the
    container it made last carries that address and the data volume when
    there is one; on failure no task is recorded.  Either way, no helper
    container is left behind. *)
Theorem CreateTask_spec (definition : TaskDefinition) (p : Provider) :
  valid_provider p ->
  wpM (CreateTask definition) p (fun l p' o =>
    valid_provider p' /\
    match o with
    | Ok t => task_created definition p p' l t
    | _ => heap p' = heap p /\ p_state p' = p_state p /\ helpers_settled l
    end) [].
Proof. intros Hp. apply CreateTask_run; [done|]. by apply no_create_settled. Qed.

(** The operations a client has; a failed one leaves the provider in use. *)
Inductive provider_op :=
| OpCreateTask (definition : TaskDefinition)
| OpDeserializeTask (UnmarshalTask : string -> res TaskState) (bz : string)
| OpStart (fuel : nat) (t : ptr)
| OpStop (fuel : nat) (t : ptr)
| OpDestroy (t : ptr)
| OpRunCommand (fuel : nat) (t : ptr) (cmd : list string).

Definition run_op (op : provider_op) : DM unit :=
  match op with
  | OpCreateTask d => let* _ := try_ (CreateTask d) in retM tt
  | OpDeserializeTask U bz => let* _ := try_ (DeserializeTask U bz) in retM tt
  | OpStart n t => let* _ := try_ (Start n t) in retM tt
  | OpStop n t => let* _ := try_ (Stop n t) in retM tt
  | OpDestroy t => let* _ := try_ (Destroy t) in retM tt
  | OpRunCommand n t cmd => let* _ := try_ (RunCommand n t cmd) in retM tt
  end.

(** C29: the provider keeps its invariant through any sequence of
    operations, whatever the Docker daemon answers and whichever of them
    fail: every recorded task has a live state under its own container
    identifier, and the addresses of two recorded tasks differ from each
    other and from the gateway's. *)
Theorem provider_invariant (ops : list provider_op) (p : Provider) :
  valid_provider p ->
  wpM (for_each ops run_op) p (fun _ p' _ => valid_provider p') [].
Proof.
  intros Hp. apply (wpM_for_each (fun _ _ p => valid_provider p)); [done|done|].
  intros op ops' t p' Hp'. assert (Hop : keeps_valid (run_op op)).
  { destruct op; (apply preserves_bind; [apply preserves_try|auto with ironbird]);
      auto using CreateTask_keeps_valid, DeserializeTask_keeps_valid, RunCommand_keeps_valid with ironbird. }
  eapply wpM_mono; [|by apply Hop]. by intros t' p'' [].
Qed.

(** ** [Teardown] *)

(** What is asked for, and done, for one task. *)
Definition removal_events (s : TaskState) : list (event docker_sig) :=
  ev (ContainerRemove (ts_Id s) true false) (inl tt) ::
  match ts_Volume s with Some v => [ev (VolumeRemove (vol_Name v) true) (inl tt)] | None => [] end.

Definition live_tasks (p : Provider) : list TaskState :=
  omap (fun it : string * ptr => heap p !! it.2) (range_map (TaskStates (p_state p))).

Definition no_network_removal (e : event docker_sig) : Prop := forall id, projT1 e <> NetworkRemove id.

Lemma teardown_tasks_run p ts t0 :
  (forall id t, (id, t) ∈ ts -> is_Some (heap p !! t)) ->
  wpM (for_each ts (fun '(_, t) => teardown_task t)) p (fun l p' o =>
    p' = p /\
    match o with
    | Ok _ => l = t0 ++ concat (map removal_events (omap (fun it : string * ptr => heap p !! it.2) ts))
    | Err _ => exists l', l = t0 ++ l' /\ Forall no_network_removal l'
    | _ => False
    end) t0.
Proof.
  revert t0. induction ts as [|[id t] ts IH]; intros t0 Hts; cbn [for_each].
  { wpM_step. by rewrite app_nil_r. }
  destruct (Hts id t) as [s Hs]; [by left|].
  wpM_step. unfold teardown_task, GetState. do 3 wpM_step. rewrite Hs. do 4 wpM_step. cbn beta iota.
  destruct x as [[]|e]; cbn [lift_res]; wpM_step; cbn beta iota.
  2: { split; [done|]. eexists; split; [done|]. by repeat constructor. }
  cbn [omap list_omap]. cbn [snd]. rewrite Hs. cbn [map concat]. unfold removal_events at 1.
  destruct (ts_Volume s) as [v|].
  - do 2 wpM_step. cbn beta iota. destruct x as [[]|e]; cbn [lift_res]; wpM_step; cbn beta iota.
    + eapply wpM_mono; [|apply IH; intros id' t' Ht'; apply (Hts id'); by right].
      intros l p' [[]|e|m|] [-> Hl]; (split; [done|]); [|destruct Hl as (l' & -> & Hl')|done..].
      * rewrite Hl. by rewrite <- !app_assoc.
      * eexists (_ :: _ :: l'). rewrite <- !app_assoc. split; [done|]. by repeat constructor.
    + split; [done|]. rewrite <- app_assoc. eexists; split; [done|]. by repeat constructor.
  - wpM_step. eapply wpM_mono; [|apply IH; intros id' t' Ht'; apply (Hts id'); by right].
    intros l p' [[]|e|m|] [-> Hl]; (split; [done|]); [|destruct Hl as (l' & -> & Hl')|done..].
    + rewrite Hl. by rewrite <- !app_assoc.
    + eexists (_ :: l'). rewrite <- !app_assoc. split; [done|]. by repeat constructor.
Qed.

(** C31: tearing a valid provider down succeeds only after it has removed
    the container of every recorded task, the data volume of every one that
    has it, and, last, the network; it fails only with the error of the
    first removal that failed, and the network is never removed while a
    recorded task may remain. *)
Theorem Teardown_spec (p : Provider) :
  valid_provider p ->
  wpM Teardown p (fun l _ o =>
    match o with
    | Ok _ => l = concat (map removal_events (live_tasks p)) ++
                  [ev (NetworkRemove (NetworkID (p_state p))) (inl tt)]
    | Err e => Forall no_network_removal l \/
               l = concat (map removal_events (live_tasks p)) ++
                   [ev (NetworkRemove (NetworkID (p_state p))) (inr e)]
    | _ => False
    end) [].
Proof.
  intros Hp. unfold Teardown. do 3 wpM_step. eapply wpM_mono; [|apply teardown_tasks_run].
  - intros l p' [[]|e|m|] [-> Hl]; [|destruct Hl as (l' & -> & Hl'); by left|done..].
    unfold destroyNetwork. do 4 wpM_step. cbn beta iota. simpl in Hl. subst l.
    destruct x as [[]|e]; cbn [lift_res]; wpM_step; [done|by right].
  - intros id t Ht%elem_of_range_map. destruct (vp_tasks _ Hp _ _ Ht) as (s & -> & _). done.
Qed.

(** ** Restoring *)

Lemma unpack_at k r id s : task_at (unpack k r) id s <-> pk_Tasks k !! id = Some s.
Proof.
  unfold task_at, unpack. destruct (unpack_tasks (range_map (pk_Tasks k)) O) as [[m h] n] eqn:Hun. simpl.
  destruct (unpack_tasks_spec _ _ _ _ _ (range_map_keys _) Hun) as (_ & Hm & Ht & _).
  rewrite <- elem_of_range_map. split; [|apply Ht].
  intros (t & Hid & Hs). destruct (Hm _ _ Hid) as (s0 & Hin & Hs0 & _). by replace s with s0 by congruence.
Qed.

Lemma unpack_live k r id t : TaskStates (p_state (unpack k r)) !! id = Some t -> is_Some (heap (unpack k r) !! t).
Proof.
  unfold unpack. destruct (unpack_tasks (range_map (pk_Tasks k)) O) as [[m h] n] eqn:Hun. simpl.
  destruct (unpack_tasks_spec _ _ _ _ _ (range_map_keys _) Hun) as (_ & Hm & _).
  intros Hid. destruct (Hm _ _ Hid) as (s & _ & Hs & _). eauto.
Qed.

Lemma pack_at p id : pk_Tasks (pack p) !! id = TaskStates (p_state p) !! id ≫= fun t => heap p !! t.
Proof. unfold pack. simpl. by rewrite lookup_omap. Qed.

Lemma pack_unpack k r : pack (unpack k r) = k.
Proof.
  assert (pk_Tasks (pack (unpack k r)) = pk_Tasks k) as Ht.
  { apply map_eq. intros id. apply option_eq. intros s. rewrite pack_at, <- (unpack_at k r), bind_Some. done. }
  revert Ht. unfold pack, unpack. destruct (unpack_tasks _ _) as [[m h] n]. simpl. intros ->. by destruct k.
Qed.

Lemma allocate_all_spec ips r r' :
  allocate_all ips r = inl r' ->
  NoDup ips /\ (forall ip, ip ∈ ips -> ~ in_use r ip) /\ (forall x, in_use r' x <-> x ∈ ips \/ in_use r x).
Proof.
  revert r. induction ips as [|ip ips IH]; intros r Hall; cbn [allocate_all] in Hall.
  { injection Hall as ->. split; [constructor|]. set_solver. }
  destruct (Allocate r ip) as [r1|e] eqn:Hr; [|done].
  destruct (Allocate_spec _ _ _ Hr) as [Hfree Hin], (IH _ Hall) as (Hnd & Hnot & Huse).
  split_and!.
  - constructor; [|done]. intros Hip. apply (Hnot _ Hip). rewrite Hin. by left.
  - intros x [->|Hx]%elem_of_cons; [done|]. intros Hxr. apply (Hnot _ Hx). rewrite Hin. by right.
  - intros x. rewrite Huse, Hin. set_solver.
Qed.

(** Two entries of a list whose images differ pairwise. *)
Lemma range_ips_inj (m : gmap string TaskState) id1 id2 s1 s2 :
  NoDup (map (fun '(_, s) => ts_IpAddress s) (range_map m)) ->
  m !! id1 = Some s1 -> m !! id2 = Some s2 -> ts_IpAddress s1 = ts_IpAddress s2 -> id1 = id2.
Proof.
  rewrite <- !elem_of_range_map. generalize (range_map m).
  induction l as [|[id s] l IH]; [intros _ Hin; by apply not_elem_of_nil in Hin|].
  cbn [map]. intros [Hs Hnd]%NoDup_cons [[= -> ->]|H1]%elem_of_cons [[= -> ->]|H2]%elem_of_cons Heq; auto.
  - exfalso. apply Hs. apply list_elem_of_fmap. by exists (id2, s2).
  - exfalso. apply Hs. apply list_elem_of_fmap. by exists (id1, s1).
Qed.

(** A packed provider whose addresses the allocator takes back. *)
Lemma unpack_valid k r0 r1 r :
  (forall id s, pk_Tasks k !! id = Some s -> ts_Id s = id) ->
  Allocate r0 (pk_NetworkGateway k) = inl r1 ->
  allocate_all (map (fun '(_, s) => ts_IpAddress s) (range_map (pk_Tasks k))) r1 = inl r ->
  valid_provider (unpack k r).
Proof.
  intros Hids Hgw Hall. destruct (Allocate_spec _ _ _ Hgw) as [_ H1], (allocate_all_spec _ _ _ Hall) as (Hnd & Hnot & Huse).
  assert (Hgate : NetworkGateway (p_state (unpack k r)) = pk_NetworkGateway k /\ dockerNetworkAllocator (unpack k r) = r).
  { unfold unpack. destruct (unpack_tasks _ _) as [[m h] n]. done. }
  destruct Hgate as [Hg Hr]. split; rewrite ?Hg, ?Hr.
  - intros id t Hid. destruct (unpack_live _ _ _ _ Hid) as [s Hs]. exists s.
    assert (Hat : pk_Tasks k !! id = Some s) by (apply (unpack_at k r); by exists t).
    assert (Hip : ts_IpAddress s ∈ map (fun '(_, s) => ts_IpAddress s) (range_map (pk_Tasks k))).
    { apply list_elem_of_fmap. exists (id, s). split; [done|]. by apply elem_of_range_map. }
    split; [done|]. split; [by apply Hids|]. split; [apply Huse; by left|].
    intros Heq. apply (Hnot _ Hip). rewrite Heq. apply H1. by left.
  - intros id1 id2 s1 s2 Ha1%unpack_at Ha2%unpack_at. by eapply range_ips_inj.
  - apply Huse. right. apply H1. by left.
  - unfold unpack. destruct (unpack_tasks (range_map (pk_Tasks k)) O) as [[m h] n] eqn:Hun. simpl.
    destruct (unpack_tasks_spec _ _ _ _ _ (range_map_keys _) Hun) as (_ & _ & _ & Hh). intros t Ht. by apply Hh.
Qed.

Lemma ensureNetwork_run p t :
  wpM ensureNetwork p (fun t' p' o => p' = p /\
    match o with
    | Ok _ => exists gateway, t' = t ++ [ev (NetworkInspect (NetworkID (p_state p)))
        (inl {| net_ID := NetworkID (p_state p); net_Name := NetworkName (p_state p);
                net_Config := [(NetworkCIDR (p_state p), gateway)] |})]
    | Err _ => exists z, t' = t ++ [ev (NetworkInspect (NetworkID (p_state p))) z]
    | _ => False
    end) t.
Proof.
  unfold ensureNetwork. do 2 wpM_step. cbv beta zeta. do 3 wpM_step. cbn beta iota. destruct x as [n|e]; cbn [lift_res]; wpM_step; [|eauto].
  cbn beta iota. destruct (String.eqb_spec (net_ID n) (NetworkID (p_state p))) as [Hid|]; cbn [negb]; [|wpM_step; eauto].
  destruct (String.eqb_spec (net_Name n) (NetworkName (p_state p))) as [Hname|]; cbn [negb]; [|wpM_step; eauto].
  destruct n as [id name [|[subnet gateway] [|]]]; cbn in Hid, Hname |- *; [wpM_step; eauto| |wpM_step; eauto].
  destruct (String.eqb_spec subnet (NetworkCIDR (p_state p))) as [->|]; cbn [negb]; wpM_step; subst; eauto.
Qed.

(** Calls that change nothing of Docker. *)
Definition restore_event (e : event docker_sig) : Prop :=
  match projT1 e with NewDockerClient | Ping | NetworkInspect _ => True | _ => False end.

Section restore.
Variable Marshal : PackedProvider -> res string.
Variable Unmarshal : string -> res PackedProvider.

(** C32: a provider restored from what a valid provider serialized has the
    same settings and the same tasks with the same states, and is valid
    itself: the gateway and every task's address are taken in its fresh
    allocator.  Restoring ends with the provider or an error; it succeeds
    only when the network is there with the recorded identifier, name and
    address range, and it changes nothing of Docker. *)
Theorem RestoreProvider_roundtrip (p : Provider) (bz : string) :
  (forall k text, Marshal k = inl text -> Unmarshal text = inl k) ->
  valid_provider p -> Marshal (pack p) = inl bz ->
  wpM (RestoreProvider Unmarshal bz) tt (fun l _ o =>
    match o with
    | Ok p' => valid_provider p' /\ pack p' = pack p /\
        exists gateway, l = [ev NewDockerClient (inl tt); ev Ping (inl tt);
             ev (NetworkInspect (NetworkID (p_state p)))
               (inl {| net_ID := NetworkID (p_state p); net_Name := NetworkName (p_state p);
                       net_Config := [(NetworkCIDR (p_state p), gateway)] |})]
    | Err _ => Forall restore_event l
    | _ => False
    end) [].
Proof.
  intros Hjson Hp Hbz. unfold RestoreProvider. rewrite (Hjson _ _ Hbz). cbn [lift_res]. wpM_step. wpM_step. cbn beta iota.
  assert (Hids : forall id s, pk_Tasks (pack p) !! id = Some s -> ts_Id s = id).
  { intros id s. rewrite pack_at. intros (t & Ht & Hs)%bind_Some.
    destruct (vp_tasks _ Hp _ _ Ht) as (s' & Hs' & <- & _). congruence. }
  assert (Hfin : forall (x : res unit) (y : option (res unit)) (z : option (res NetworkInfo)),
    Forall restore_event ([ev NewDockerClient x] ++ match y with Some y => [ev Ping y] | None => [] end ++
      match z with Some z => [ev (NetworkInspect (NetworkID (p_state p))) z] | None => [] end)).
  { intros x [y|] [z|]; repeat (apply Forall_cons; split; [done|]); constructor. }
  do 3 wpM_step. wpM_step; wpM_step; cbn beta iota; [|exact (Hfin _ None None)].
  do 3 wpM_step. wpM_step; wpM_step; cbn beta iota; [|exact (Hfin _ (Some _) None)].
  do 2 wpM_step. wpM_step; wpM_step; cbn [wrap_outcome]; cbn beta iota; [|exact (Hfin _ (Some _) None)].
  do 2 wpM_step. wpM_step; wpM_step; cbn [wrap_outcome]; cbn beta iota; [|exact (Hfin _ (Some _) None)].
  rename i into r0. destruct (Allocate r0 _) as [r1|e] eqn:Hgw; cbn [lift_res]; do 3 wpM_step; cbn [wrap_outcome];
    cbn beta iota; [|exact (Hfin _ (Some _) None)].
  destruct (allocate_all _ r1) as [r|e] eqn:Hall; cbn [lift_res]; do 3 wpM_step; cbn [wrap_outcome];
    cbn beta iota; [|exact (Hfin _ (Some _) None)].
  cbv zeta. pose proof (pack_unpack (pack p) r) as Hpack.
  pose proof (unpack_valid _ _ _ _ Hids Hgw Hall) as Hvalid.
  set (p' := unpack (pack p) r) in *.
  assert (NetworkID (p_state p') = NetworkID (p_state p)) as Hid by apply (f_equal pk_NetworkID Hpack).
  assert (NetworkName (p_state p') = NetworkName (p_state p)) as Hname by apply (f_equal pk_NetworkName Hpack).
  assert (NetworkCIDR (p_state p') = NetworkCIDR (p_state p)) as Hcidr by apply (f_equal pk_NetworkCIDR Hpack).
  do 3 wpM_step. eapply wpM_mono; [|apply ensureNetwork_run].
  intros l q o [-> Ho]. destruct o as [[]|e|m|]; [|destruct Ho as (z & ->)|done..]; cbn [wrap_outcome].
  - destruct Ho as [gateway ->]. rewrite Hid, Hname, Hcidr in *. wpM_step. split; [done|]. split; [done|]. destruct u, u0. by exists gateway.
  - rewrite Hid. exact (Hfin _ (Some _) (Some _)).
Qed.
End restore.

End provider.

(** ** A concrete provider *)

(** Addresses of one small range, taken in order. *)
Definition plain_range : list string := map (fun k => "192.1.2." +:+ itoa (Z.of_nat k)) (seq 0 255).

Definition first_free (used : list string) : option string :=
  List.find (fun ip => negb (bool_decide (ip ∈ used))) plain_range.

#[export] Instance plain_allocator : IPAllocator.
Proof.
  refine {| ip_range := list string; ParseCIDR := inl; NewCIDRRange := fun _ => inl [];
    Allocate := fun used ip => if bool_decide (ip ∈ used) then inr (ENew "provided IP is already allocated")
                               else inl (ip :: used);
    AllocateNext := fun used => match first_free used with
                                | Some ip => inl (ip, ip :: used)
                                | None => inr (ENew "range is full") end;
    in_use := fun used ip => ip ∈ used |}.
  - intros r ip r'. case_bool_decide; [done|]. intros [= <-]. set_solver.
  - intros r ip r'. destruct (first_free r) as [ip'|] eqn:Hf; [|done]. intros [= -> <-].
    apply List.find_some in Hf as [_ Hf]. apply negb_true_iff, bool_decide_eq_false in Hf. set_solver.
Defined.

#[export] Instance VolumeState_eq_dec : EqDecision VolumeState.
Proof. solve_decision. Defined.
#[export] Instance TaskState_eq_dec : EqDecision TaskState.
Proof. solve_decision. Defined.
#[export] Instance PackedProvider_eq_dec : EqDecision PackedProvider.
Proof. solve_decision. Defined.

Definition demo_definition : TaskDefinition :=
  {| td_Name := "validator-0"; td_Image := {| Image := "simapp"; UID := "1000"; GID := "1000" |};
     Ports := ["26656"]; Environment := ∅; DataDir := "/simd"; Entrypoint := ["simd"]; Command := ["start"];
     Args := []; ProviderSpecificConfig := None |}.

Definition demo_state : ProviderState :=
  {| TaskStates := {["c1" := O]}; ps_Name := "demo"; NetworkID := "n1"; NetworkName := "petri-demo";
     NetworkCIDR := "192.1.2.0/24"; NetworkGateway := "192.1.2.1"; BuilderImageName := "busybox:latest" |}.

Definition demo_task : TaskState :=
  task_record demo_state demo_definition "demo-validator-0" "c1" "192.1.2.0" ∅.

Definition demo_provider : Provider :=
  {| p_state := demo_state; heap := {[O := demo_task]}; next_ptr := 1%nat;
     dockerNetworkAllocator := ["192.1.2.0"; "192.1.2.1"] : ip_range |}.

Lemma demo_valid : valid_provider demo_provider.
Proof.
  split; simpl.
  - intros id t [<- <-]%lookup_singleton_Some. exists demo_task. rewrite lookup_singleton_eq.
    split; [done|]. split; [done|]. split; [by left|done].
  - intros id1 id2 s1 s2 (t1 & Ht1 & _) (t2 & Ht2 & _). simpl in *.
    apply lookup_singleton_Some in Ht1 as [<- _], Ht2 as [<- _]. done.
  - right. by left.
  - intros t [s [<- _]%lookup_singleton_Some]. lia.
Qed.

(** A daemon that does what it is asked. *)
Definition demo_daemon : handler docker_sig unit := fun c _ =>
  (match c return docker_ans c with
   | NetworkCreate _ _ _ _ => inl "n1"
   | NetworkInspect id => inl {| net_ID := id; net_Name := "petri-demo"; net_Config := [("192.1.2.0/24", "192.1.2.1")] |}
   | VolumeInspect name => inl name
   | VolumeCreate name _ => inl name
   | ContainerCreate _ => inl "c2"
   | ContainerInspect _ => inl {| ci_Status := "running"; ci_Running := true; ci_ExitCode := 0; ci_Name_ := "/demo-validator-0"; ci_Networks := ∅ |}
   | ContainerWait _ => WaitExited None 0
   | ContainerLogs _ => inl ("", "")
   | ContainerExecCreate _ _ => inl "e1"
   | ContainerExecAttach _ => inl (inl ("", ""))
   | ContainerExecInspect _ => inl (false, 0)
   | CopyFromContainer _ _ => inl ([], None)
   | ContainerList _ => inl []
   | OpenListener => inl 40000
   | RandInt _ => 1
   | UnixNano => 0
   | CtxDone => None
   | LocalReadFile _ => inl ""
   | _ => inl tt
   end, tt).

Lemma CreateTask_spec_witness :
  valid_provider demo_provider /\
  is_ok (runM demo_daemon (CreateTask (R := canonical_range) demo_definition) demo_provider tt).1.1.2 = true /\
  wpM (CreateTask (R := canonical_range) demo_definition) demo_provider (fun l p' o =>
    valid_provider p' /\
    match o with
    | Ok t => task_created (R := canonical_range) demo_definition demo_provider p' l t
    | _ => heap p' = heap demo_provider /\ p_state p' = p_state demo_provider /\ helpers_settled l
    end) [].
Proof.
  split; [exact demo_valid|]. split; [vm_compute; reflexivity|].
  exact (CreateTask_spec (R := canonical_range) demo_definition demo_provider demo_valid).
Defined.

Definition demo_ops : list provider_op :=
  [OpCreateTask demo_definition; OpStart 3 1%nat; OpRunCommand 3 1%nat ["ls"]; OpDestroy O].

Lemma provider_invariant_witness :
  valid_provider demo_provider /\
  map fst (map_to_list (TaskStates (p_state
    (runM demo_daemon (for_each demo_ops (run_op (R := canonical_range))) demo_provider tt).1.1.1))) = ["c2"] /\
  wpM (for_each demo_ops (run_op (R := canonical_range))) demo_provider (fun _ p' _ => valid_provider p') [].
Proof.
  split; [exact demo_valid|]. split; [vm_compute; reflexivity|].
  exact (provider_invariant (R := canonical_range) demo_ops demo_provider demo_valid).
Defined.

Lemma Teardown_spec_witness :
  valid_provider demo_provider /\
  live_tasks (R := canonical_range) demo_provider = [demo_task] /\
  wpM (Teardown (R := canonical_range)) demo_provider (fun l _ o =>
    match o with
    | Ok _ => l = concat (map removal_events (live_tasks (R := canonical_range) demo_provider)) ++
                  [ev (NetworkRemove "n1") (inl tt)]
    | Err e => Forall no_network_removal l \/
               l = concat (map removal_events (live_tasks (R := canonical_range) demo_provider)) ++
                   [ev (NetworkRemove "n1") (inr e)]
    | _ => False
    end) [].
Proof.
  split; [exact demo_valid|]. split; [vm_compute; reflexivity|].
  exact (Teardown_spec (R := canonical_range) demo_provider demo_valid).
Defined.

Definition demo_Marshal (k : PackedProvider) : res string :=
  if bool_decide (k = pack demo_provider) then inl "{}" else inr (ENew "json: unsupported value").
Definition demo_Unmarshal (bz : string) : res PackedProvider := inl (pack demo_provider).

Lemma demo_json k text : demo_Marshal k = inl text -> demo_Unmarshal text = inl k.
Proof. unfold demo_Marshal. case_bool_decide; [|done]. by subst. Qed.

Lemma RestoreProvider_roundtrip_witness :
  valid_provider demo_provider /\ demo_Marshal (pack demo_provider) = inl "{}" /\
  is_ok (runM demo_daemon (RestoreProvider (R := canonical_range) demo_Unmarshal "{}") tt tt).1.1.2 = true /\
  wpM (RestoreProvider (R := canonical_range) demo_Unmarshal "{}") tt (fun l _ o =>
    match o with
    | Ok p' => valid_provider p' /\ pack p' = pack demo_provider /\
        exists gateway, l = [ev NewDockerClient (inl tt); ev Ping (inl tt);
             ev (NetworkInspect "n1")
               (inl {| net_ID := "n1"; net_Name := "petri-demo"; net_Config := [("192.1.2.0/24", gateway)] |})]
    | Err _ => Forall restore_event l
    | _ => False
    end) [].
Proof.
  split; [exact demo_valid|]. split; [vm_compute; reflexivity|]. split; [vm_compute; reflexivity|].
  exact (RestoreProvider_roundtrip (R := canonical_range) demo_Marshal demo_Unmarshal demo_provider "{}" demo_json
    demo_valid ltac:(vm_compute; reflexivity)).
Defined.
