(* ===== verification/TestnetWorkflow.v ===== *)
(** * The testnet workflow: [workflows/testnet/testnet.go]

    The workflow is a program over the calls it makes to Temporal:
    activities on a context with options, timers, the selector, the state
    of its context.  Its answers are arbitrary, so a theorem about the
    trace holds whatever activities return, fail with or however the
    workflow is cancelled.  The state of [startWorkflow] is its variable
    [providerState], which the deferred teardown reads.  Logging is
    dropped, and with it the selector's callbacks, which only log. *)

From S2P Require Import Prelude GoStrings GoVal GoTime ProviderDefs ChainTypes Messages Util.

Definition defaultRuntime : Z := Minute * 2.
Definition loadTestTimeout : Z := Hour.

Record ActivityOptions := {
  StartToCloseTimeout : Z;
  MaximumAttempts : Z
}.

Definition defaultWorkflowOptions : ActivityOptions :=
  {| StartToCloseTimeout := Hour * 1; MaximumAttempts := 1 |}.

(** ** The calls *)

(** [Cleanup] is the disconnected context, which a cancellation of the
    workflow does not reach. *)
Inductive wf_ctx := WorkflowCtx | Cleanup.

Inductive activity :=
| ABuildDockerImage (req : BuildDockerImageRequest)
| ACreateProvider (req : CreateProviderRequest)
| ALaunchTestnet (req : LaunchTestnetRequest)
| ALaunchLoadBalancer (req : LaunchLoadBalancerRequest)
| ARunLoadTest (req : RunLoadTestRequest)
| ATeardownProvider (req : TeardownProviderRequest).

(** The value of an activity; Temporal drops it when the activity fails. *)
Definition activity_result (a : activity) : Type :=
  match a with
  | ABuildDockerImage _ => BuildDockerImageResponse
  | ACreateProvider _ => string            (* CreateProviderResponse *)
  | ALaunchTestnet _ => LaunchTestnetResponse
  | ALaunchLoadBalancer _ => LaunchLoadBalancerResponse
  | ARunLoadTest _ => RunLoadTestResponse
  | ATeardownProvider _ => unit
  end.

Inductive future := LoadTestFuture | TimerFuture (d : Z).

Inductive wf_call :=
| GetInfo                                        (* run and workflow ID *)
| Intn                                           (* [util.RandomString] *)
| ExecuteActivity (ctx : wf_ctx) (opts : ActivityOptions) (a : activity)   (* and [Get] *)
| StartActivity (opts : ActivityOptions) (a : activity)                    (* a future *)
| NewTimer (d : Z)
| Select (fs : list future)
| CtxErr
| GetLoadTestFuture.

Definition wf_ans (c : wf_call) : Type :=
  match c with
  | GetInfo => string * string
  | Intn => fin 52
  | ExecuteActivity _ _ a => res (activity_result a)
  | StartActivity _ _ => unit
  | NewTimer _ => unit
  | Select _ => future
  | CtxErr => option error
  | GetLoadTestFuture => res RunLoadTestResponse
  end.

Canonical wf_sig : sig := Sig wf_call wf_ans.

Abbreviation WfM := (M wf_sig string).

Definition IsCanceledError (e : option error) : bool :=
  match e with Some e => errors_Is XCanceled e | None => false end.

Section workflow.
Context {G : Gzip} {R : MapRange}.

(** ** Steps *)
Definition teardownProvider (runnerType : RunnerType) (providerState : string) : WfM unit :=
  let* _ := perform (ExecuteActivity Cleanup defaultWorkflowOptions
    (ATeardownProvider {| tp_RunnerType := runnerType; tp_ProviderState := providerState |})) in
  retM tt.

Definition networkTimeout (req : TestnetWorkflowRequest) : Z :=
  let testnetDuration :=
    if negb (String.eqb (TestnetDuration req) "") then
      match ParseDuration (TestnetDuration req) with
      | inl d => d
      | inr _ => defaultRuntime
      end
    else defaultRuntime in
  Z.max testnetDuration defaultRuntime.

Definition waitForTestnetCompletion (req : TestnetWorkflowRequest) (selector : list future)
    : WfM (list future) :=
  let d := if LongRunningTestnet req then Hour * 24 * 365 * 10 else networkTimeout req in
  let* _ := perform (NewTimer d) in
  retM (selector ++ [TimerFuture d]).

(** The four results of a failed launch come with the error: the provider
    state is still handed to the caller. *)
Definition launchTestnet (req : TestnetWorkflowRequest) (runName : string)
    (buildResult : BuildDockerImageResponse)
    : WfM (string * string * list Node * list Node * option error) :=
  let* created := perform (ExecuteActivity WorkflowCtx defaultWorkflowOptions
    (ACreateProvider {| cp_RunnerType := RunnerType_ req; cp_Name := runName |})) in
  match created with
  | inr err => retM ("", "", [], [], Some err)
  | inl providerState =>
      let* launched := perform (ExecuteActivity WorkflowCtx
        {| StartToCloseTimeout := Hour * 24 * 365; MaximumAttempts := 1 |}
        (ALaunchTestnet
          {| lr_Name := ch_Name (ChainConfig_ req);
             lr_IsEvmChain := IsEvmChain_ req;
             lr_Repo := Repo req;
             lr_SHA := SHA req;
             lr_Image := FQDNTag buildResult;
             lr_BaseImage := ch_Image (ChainConfig_ req);
             lr_GenesisModifications := GenesisModifications (ChainConfig_ req);
             lr_RunnerType := RunnerType_ req;
             lr_RegionConfigs := ch_RegionConfigs (ChainConfig_ req);
             lr_NumOfValidators := ch_NumOfValidators (ChainConfig_ req);
             lr_NumOfNodes := ch_NumOfNodes (ChainConfig_ req);
             lr_CustomAppConfig := ch_CustomAppConfig (ChainConfig_ req);
             lr_CustomConsensusConfig := ch_CustomConsensusConfig (ChainConfig_ req);
             lr_CustomClientConfig := ch_CustomClientConfig (ChainConfig_ req);
             lr_AdditionalStartFlags := [];
             lr_ProviderState := providerState;
             lr_SetPersistentPeers := ch_SetPersistentPeers (ChainConfig_ req);
             lr_SetSeedNode := ch_SetSeedNode (ChainConfig_ req);
             lr_BaseMnemonic := BaseMnemonic req;
             lr_NumWallets := NumWallets req;
             lr_ProviderSpecificConfig := ProviderSpecificConfig_ req |})) in
      match launched with
      | inr err =>
          match CompressData providerState with
          | Ok compressed => retM ("", compressed, [], [], Some err)
          | _ => retM ("", providerState, [], [], Some err)
          end
      | inl resp =>
          retM (lp_ChainState resp, lp_ProviderState resp, lp_Nodes resp, lp_Validators resp, None)
      end
  end.

(** ** Load balancer domains *)
Definition domainTypes (isEvmChain : bool) : gmap string string :=
  let base : gmap string string := {["grpc" := "9090"; "rpc" := "26657"; "lcd" := "1317"]} in
  if isEvmChain then <["evmws" := "8546"]> (<["evmrpc" := "8545"]> base) else base.

Definition domain_for (chainName : string) (nodes validators : list Node) (entry : string * string)
    : LoadBalancerDomain :=
  let '(domainType, port) := entry in
  {| Domain := chainName +:+ "-" +:+ domainType;
     IPs := map (fun node => Address node +:+ ":" +:+ port) (nodes ++ validators)%list;
     Protocol := if String.eqb domainType "grpc" then "grpc" else "http" |}.

Definition processDomainInfo (chainName : string) (nodes validators : list Node) (isEvmChain : bool)
    : list LoadBalancerDomain :=
  map (domain_for chainName nodes validators) (range_map (domainTypes isEvmChain)).

Definition launchLoadBalancer (req : TestnetWorkflowRequest) (providerState : string)
    (nodes validators : list Node) : WfM (string * option error) :=
  let* '(_, workflowID) := perform (GetInfo) in
  if negb (String.eqb (RunnerType_ req) DigitalOcean) then retM (providerState, None)
  else
    let domains := processDomainInfo (ch_Name (ChainConfig_ req)) nodes validators (IsEvmChain_ req) in
    let* launched := perform (ExecuteActivity WorkflowCtx defaultWorkflowOptions
      (ALaunchLoadBalancer
        {| lb_ProviderState := providerState;
           lb_RunnerType := RunnerType_ req;
           lb_Domains := domains;
           lb_WorkflowID := workflowID;
           lb_IsEvmChain := IsEvmChain_ req |})) in
    match launched with
    | inr err => retM (providerState, Some err)
    | inl resp => retM (lbr_ProviderState resp, None)
    end.

(** ** Load test *)
Definition start_load_test (req : TestnetWorkflowRequest) (spec : LoadTestSpec)
    (chainState providerState : string) : WfM unit :=
  perform (StartActivity {| StartToCloseTimeout := loadTestTimeout; MaximumAttempts := 1 |}
    (ARunLoadTest
      {| rl_ChainState := chainState;
         rl_ProviderState := providerState;
         rl_LoadTestSpec := spec;
         rl_RunnerType := RunnerType_ req;
         rl_IsEvmChain := IsEvmChain_ req;
         rl_BaseMnemonic := BaseMnemonic req;
         rl_NumWallets := NumWallets req;
         rl_CatalystVersion := CatalystVersion req |})).

(** The future, and the selector with it. *)
Definition runLoadTest (req : TestnetWorkflowRequest) (chainState providerState : string)
    (selector : list future) : WfM (option future * list future) :=
  match EthereumLoadTestSpec req, CosmosLoadTestSpec req with
  | Some spec, _ | None, Some spec =>
      let* _ := start_load_test req spec chainState providerState in
      retM (Some LoadTestFuture, (selector ++ [LoadTestFuture])%list)
  | None, None => retM (None, selector)
  end.

(** ** The run *)
Definition startWorkflow_body (req : TestnetWorkflowRequest) (runName : string)
    (buildResult : BuildDockerImageResponse) : WfM unit :=
  let* '(chainState, providerState, nodes, validators, err) := launchTestnet req runName buildResult in
  let* _ := put providerState in
  match err with
  | Some err => throw err
  | None =>
      let* err :=
        (if LaunchLoadBalancer_ req then
           let* providerState := get in
           let* '(providerState, err) := launchLoadBalancer req providerState nodes validators in
           let* _ := put providerState in
           retM err
         else retM None) in
      match err with
      | Some err => throw err
      | None =>
          let* providerState := get in
          let* '(loadTestFuture, selector) := runLoadTest req chainState providerState [] in
          let* selector := waitForTestnetCompletion req selector in
          let* _ := perform (Select selector) in
          let* _ :=
            (if bool_decide (is_Some loadTestFuture) then
               let* ctxErr := perform (CtxErr) in
               if negb (IsCanceledError ctxErr) then
                 let* r := perform (GetLoadTestFuture) in
                 match r with inr err => throw err | inl _ => retM tt end
               else retM tt
             else retM tt) in
          (* whether the context was cancelled only decides what is logged *)
          let* _ := perform (CtxErr) in
          retM tt
      end
  end.

Definition startWorkflow (req : TestnetWorkflowRequest) (runName : string)
    (buildResult : BuildDockerImageResponse) : WfM unit :=
  defer
    (let* providerState := get in
     if negb (String.eqb providerState "") then teardownProvider (RunnerType_ req) providerState
     else retM tt)
    (startWorkflow_body req runName buildResult).

Definition Workflow (req : TestnetWorkflowRequest) : M wf_sig unit string :=
  match TestnetWorkflowRequest_Validate req with
  | Err err => throw (EApp "invalid workflow options" (Error err) true)
  | _ =>
      let* '(_, workflowID) := perform (GetInfo) in
      let* name := RandomString (perform (Intn)) 6 in
      let runName := "ib-" +:+ name in
      let* built := perform (ExecuteActivity WorkflowCtx defaultWorkflowOptions
        (ABuildDockerImage
          {| bd_Repo := Repo req;
             bd_SHA := SHA req;
             bd_ImageConfig :=
               {| ic_Name := ch_Name (ChainConfig_ req);
                  ic_Image := ch_Image (ChainConfig_ req);
                  ic_Version := ch_Version (ChainConfig_ req) |};
             bd_CosmosSdkSha := CosmosSdkSha req;
             bd_CometBFTSha := CometBFTSha req |})) in
      match built with
      | inr err => throw err
      | inl buildResult =>
          let* r := try_ (scoped "" (startWorkflow req runName buildResult)) in
          match r with
          | inl _ => retM ""
          | inr err => if errors_Is XCanceled err then retM "" else throw err
          end
      end
  end.
End workflow.

(** ** What a trace owes

    The provider state a run has been given last: the created provider's,
    compressed when the launch failed, the launch's, the load balancer's. *)
Section traces.
Context {G : Gzip}.

Definition compressed_or_raw (s : string) : string :=
  match CompressData s with Ok z => z | _ => s end.

Definition activity_state (acc : string) (a : activity) : res (activity_result a) -> string :=
  match a with
  | ACreateProvider _ => fun x => match x with inl s => s | inr _ => acc end
  | ALaunchTestnet req => fun x =>
      match x with
      | inl resp => lp_ProviderState resp
      | inr _ => compressed_or_raw (lr_ProviderState req)
      end
  | ALaunchLoadBalancer _ => fun x =>
      match x with inl resp => lbr_ProviderState resp | inr _ => acc end
  | _ => fun _ => acc
  end.

Definition owed_step (acc : string) (e : event wf_sig) : string :=
  let '(existT c x) := e in
  match c return wf_ans c -> string with
  | ExecuteActivity _ _ a => activity_state acc a
  | _ => fun _ => acc
  end x.

Definition owed (t : list (event wf_sig)) : string := fold_left owed_step t "".

Definition activity_of (e : event wf_sig) : option (wf_ctx * ActivityOptions * activity) :=
  match projT1 e with
  | ExecuteActivity ctx opts a => Some (ctx, opts, a)
  | StartActivity opts a => Some (WorkflowCtx, opts, a)
  | _ => None
  end.

Definition is_teardown (e : event wf_sig) : bool :=
  match activity_of e with Some (_, _, ATeardownProvider _) => true | _ => false end.

Definition timer_of (e : event wf_sig) : option Z :=
  match projT1 e with NewTimer d => Some d | _ => None end.

(** The events of the teardown the workflow makes at its end. *)
Definition settles (rt : RunnerType) (s : string) (t : list (event wf_sig)) : Prop :=
  if String.eqb s "" then t = []
  else exists x, t = [ev (E := wf_sig) (ExecuteActivity Cleanup defaultWorkflowOptions
         (ATeardownProvider {| tp_RunnerType := rt; tp_ProviderState := s |})) x].
End traces.

(** The phase of an activity in a run. *)
Definition phase (a : activity) : nat :=
  match a with
  | ABuildDockerImage _ => 0
  | ACreateProvider _ => 1
  | ALaunchTestnet _ => 2
  | ALaunchLoadBalancer _ => 3
  | ARunLoadTest _ => 4
  | ATeardownProvider _ => 5
  end.

Definition phases (t : list (event wf_sig)) : list nat :=
  omap (fun e => match activity_of e with Some (_, _, a) => Some (phase a) | None => None end) t.

Definition testnet_timer (req : TestnetWorkflowRequest) : Z :=
  if LongRunningTestnet req then Hour * 24 * 365 * 10 else networkTimeout req.

(** What every event of a run of [req] keeps to. *)
Definition disciplined (req : TestnetWorkflowRequest) (e : event wf_sig) : Prop :=
  match activity_of e with
  | Some (ctx, opts, a) =>
      MaximumAttempts opts = 1 /\
      match a with
      | ATeardownProvider _ => ctx = Cleanup
      | ALaunchLoadBalancer _ =>
          ctx = WorkflowCtx /\ LaunchLoadBalancer_ req = true /\ RunnerType_ req = DigitalOcean
      | ARunLoadTest r =>
          ctx = WorkflowCtx /\
          (EthereumLoadTestSpec req = Some (rl_LoadTestSpec r) \/
           EthereumLoadTestSpec req = None /\ CosmosLoadTestSpec req = Some (rl_LoadTestSpec r))
      | _ => ctx = WorkflowCtx
      end
  | None => forall d, timer_of e = Some d -> d = testnet_timer req
  end.

Definition is_load_test (e : event wf_sig) : bool :=
  match activity_of e with Some (_, _, ARunLoadTest _) => true | _ => false end.
Definition is_create (e : event wf_sig) : bool :=
  match activity_of e with Some (_, _, ACreateProvider _) => true | _ => false end.
Definition is_select (e : event wf_sig) : bool :=
  match projT1 e with Select _ => true | _ => false end.
Definition is_await (e : event wf_sig) : bool :=
  match projT1 e with GetLoadTestFuture => true | _ => false end.

(** What the context's error was when it was first read. *)
Fixpoint ctx_error (t : list (event wf_sig)) : option (option error) :=
  match t with
  | [] => None
  | existT c x :: t' =>
      match c return wf_ans c -> option (option error) with
      | CtxErr => fun x => Some x
      | _ => fun _ => ctx_error t'
      end x
  end.

(** ** Lemmas on runs *)
Section lemmas.
Context {G : Gzip} {R : MapRange}.

Lemma owed_app t1 t2 : owed (t1 ++ t2) = fold_left owed_step t2 (owed t1).
Proof. apply fold_left_app. Qed.

Lemma existsb_app_false {A} (f : A -> bool) l1 l2 :
  existsb f (l1 ++ l2) = false <-> existsb f l1 = false /\ existsb f l2 = false.
Proof. rewrite existsb_app. apply orb_false_iff. Qed.

(** The trace is known up to the answers, so a fact about every path of
    the run is one goal per path. *)
Lemma launchTestnet_owed req runName built s t (Q : list (event wf_sig) -> string -> outcome _ -> Prop) :
  owed t = "" -> existsb is_teardown t = false ->
  (forall t' cs ps ns vs err, owed t' = ps -> existsb is_teardown t' = false ->
     Q t' s (Ok (cs, ps, ns, vs, err))) ->
  wpM (launchTestnet req runName built) s Q t.
Proof.
  intros Ht Hn HQ. unfold launchTestnet.
  wpM_step. wpM_step. destruct x as [ps|e]; simpl.
  - wpM_step. wpM_step. destruct x as [resp|e]; simpl.
    + apply HQ; [by rewrite !owed_app|by rewrite !existsb_app, Hn].
    + destruct (CompressData ps) eqn:Hc; (apply HQ; [|by rewrite !existsb_app, Hn]);
        rewrite !owed_app; simpl; unfold compressed_or_raw; by rewrite Hc.
  - apply HQ; [by rewrite owed_app, Ht|by rewrite existsb_app, Hn].
Qed.

(** What the body of [startWorkflow] keeps: [providerState] is what the
    trace owes, and nothing is torn down. *)
Definition tracks (t : list (event wf_sig)) (s : string) : Prop :=
  owed t = s /\ existsb is_teardown t = false.

Lemma tracks_snoc t s c x :
  tracks t s ->
  (forall acc, owed_step acc (ev c x) = acc) -> is_teardown (ev c x) = false ->
  tracks (t ++ [ev c x]) s.
Proof.
  intros [Ho Hn] Hs Hi. split; [rewrite owed_app; cbn [fold_left]; by rewrite Hs|].
  rewrite existsb_app, Hn. cbn [existsb orb]. by rewrite Hi.
Qed.

Lemma launchLoadBalancer_tracks req s0 ps ns vs t
    (Q : list (event wf_sig) -> string -> outcome (string * option error) -> Prop) :
  tracks t ps -> (forall t' ps' err, tracks t' ps' -> Q t' s0 (Ok (ps', err))) ->
  wpM (launchLoadBalancer req ps ns vs) s0 Q t.
Proof.
  intros Ht HQ. unfold launchLoadBalancer.
  wpM_step. wpM_step. destruct x as [rid wid].
  assert (Ht1 : tracks (t ++ [ev GetInfo (rid, wid)]) ps) by by apply tracks_snoc.
  wpM_step; [by apply HQ|]. wpM_step. wpM_step.
  destruct x as [resp|e]; apply HQ.
  - destruct Ht1 as [Ho Hn]. split; [by rewrite owed_app|by rewrite existsb_app, Hn].
  - by apply tracks_snoc.
Qed.

Lemma startWorkflow_body_tracks req runName built s t :
  tracks t "" -> wpM (startWorkflow_body req runName built) s (fun t' s' _ => s = "" -> tracks t' s') t.
Proof.
  intros [Ho Hn]. unfold startWorkflow_body. wpM_step.
  apply launchTestnet_owed; [done..|]. intros t1 cs ps ns vs err Ho1 Hn1.
  assert (Ht1 : tracks t1 ps) by done. clear Ho1 Hn1.
  wpM_step. wpM_step. destruct err as [e|]; [by wpM_step|].
  wpM_step. eapply (wpM_mono _ _ (fun t' s' o => tracks t' s' /\ exists a, o = Ok a)).
  2: { destruct (LaunchLoadBalancer_ req); [|wpM_step; eauto].
       wpM_step. wpM_step. wpM_step. apply launchLoadBalancer_tracks; [done|].
       intros t2 ps2 err2 Ht2. wpM_step. wpM_step. wpM_step. eauto. }
  intros t2 ps2 o [Ht2 [err2 ->]]. destruct err2 as [e|]; [by wpM_step|].
  wpM_step. wpM_step. wpM_step.
  eapply (wpM_mono _ _ (fun t' s' o => tracks t' ps2 /\ s' = ps2 /\ exists a, o = Ok a)).
  2: { unfold runLoadTest, start_load_test.
       destruct (EthereumLoadTestSpec req), (CosmosLoadTestSpec req); wpM_go;
         (split; [try done; by apply tracks_snoc|eauto]). }
  intros t3 ? o (Ht3 & -> & [[fut sel] ->]).
  unfold waitForTestnetCompletion. wpM_step. wpM_step. wpM_step. wpM_step. wpM_step. wpM_step.
  cbn beta iota. match goal with |- wpM _ _ _ ?u => assert (Ht4 : tracks u ps2)
    by (do 2 (apply tracks_snoc; [|done..]); done); revert Ht4; generalize u end.
  intros t4 Ht4.
  wpM_step. eapply (wpM_mono _ _ (fun t' s' o => tracks t' ps2 /\ s' = ps2)).
  2: { destruct (bool_decide _); [|by wpM_step]. wpM_step. wpM_step.
       wpM_step; [|by split; [apply tracks_snoc|]]. wpM_step. wpM_step.
       destruct x2; wpM_step; (split; [by do 2 (apply tracks_snoc; [|done..])|done]). }
  intros t5 ? o [Ht5 ->]. destruct o as [[]|e|m|]; [|done..].
  wpM_step. wpM_step. wpM_step. intros _. by apply tracks_snoc.
Qed.

Lemma startWorkflow_settles req runName built t
    (Q : list (event wf_sig) -> string -> outcome unit -> Prop) :
  tracks t "" ->
  (forall t0 t1 s o, existsb is_teardown t0 = false ->
     settles (RunnerType_ req) (owed t0) t1 -> Q (t0 ++ t1) s o) ->
  wpM (startWorkflow req runName built) "" Q t.
Proof.
  intros Ht HQ. unfold startWorkflow. wpM_step.
  eapply wpM_mono; [|by apply startWorkflow_body_tracks].
  intros t0 s o Hs. destruct (Hs eq_refl) as [Ho Hn]. wpM_step. wpM_step. cbn beta iota.
  unfold settles in HQ. destruct (String.eqb s "") eqn:Hse; cbn [negb].
  - wpM_step. rewrite <- (app_nil_r t0). apply HQ; [done|]. by rewrite Ho, Hse.
  - unfold teardownProvider. wpM_step. wpM_step. wpM_step. apply HQ; [done|].
    rewrite Ho, Hse. by exists x.
Qed.

(** Drawing the run's name leaves no trace but the draws. *)
Lemma RandomString_wp n t (s : unit)
    (Q : list (event wf_sig) -> unit -> outcome string -> Prop) :
  (forall name draws, Forall (fun e => projT1 e = Intn) draws -> length draws = n ->
     String.length name = n -> Q (t ++ draws) s (Ok name)) ->
  wpM (RandomString (perform Intn) n) s Q t.
Proof.
  revert t Q. induction n as [|n IH]; intros t Q HQ; cbn [RandomString].
  - wpM_step. rewrite <- (app_nil_r t). by apply HQ.
  - wpM_step. wpM_step. wpM_step. apply IH. intros name draws Hd Hl Hn. wpM_step.
    rewrite <- app_assoc. apply HQ; [by constructor|exact (f_equal S Hl)|exact (f_equal S Hn)].
Qed.

Lemma draws_track t s draws :
  tracks t s -> Forall (fun e : event wf_sig => projT1 e = Intn) draws -> tracks (t ++ draws) s.
Proof.
  intros Ht Hd. revert t Ht. induction Hd as [|[c x] draws Hc _ IH]; intros t Ht; [by rewrite app_nil_r|].
  simpl in Hc. subst c. rewrite cons_middle, app_assoc. apply IH. by apply tracks_snoc.
Qed.
End lemmas.

(** A run of [startWorkflow], event by event. *)
Ltac walk_startWorkflow :=
  unfold startWorkflow, startWorkflow_body, launchTestnet, launchLoadBalancer, runLoadTest,
    start_load_test, waitForTestnetCompletion, teardownProvider; wpM_go.

Section runs.
Context {G : Gzip} {R : MapRange}.

Definition body_run (req : TestnetWorkflowRequest) (l : list (event wf_sig)) (o : outcome unit) : Prop :=
  phases l `sublist_of` [1; 2; 3; 4; 5]%nat /\ Forall (disciplined req) l /\
  (existsb is_select l = true -> existsb is_load_test l = true ->
   existsb is_await l = negb (IsCanceledError (default None (ctx_error l)))).

Lemma startWorkflow_run req runName built :
  wpM (startWorkflow req runName built) "" (fun t _ o => body_run req t o) [].
Proof.
  walk_startWorkflow.
  all: repeat match goal with
    | H : negb _ = true |- _ => apply negb_true_iff in H
    | H : negb _ = false |- _ => apply negb_false_iff in H
    | H : String.eqb _ _ = true |- _ => apply String.eqb_eq in H
    | H : (_, _) = (_, _) |- _ => injection H as <- <-
    | H : bool_decide _ = false |- _ => apply bool_decide_eq_false in H; exfalso; apply H; by eexists
    | H : bool_decide _ = true |- _ => apply bool_decide_eq_true in H; try by destruct H
    end; subst.
  all: split; [cbn; repeat constructor|split; [|intros _; cbn -[IsCanceledError]; try done; intros _;
    match goal with H : IsCanceledError _ = _ |- _ => by rewrite H end]].
  all: cbn [app]; repeat apply List.Forall_cons; [..|apply List.Forall_nil];
    first [intros d [= <-]; reflexivity | cbn; intuition congruence].
Qed.

(** A run of the workflow: refused outright, or the draws of the name and
    the build, then a run of [startWorkflow] unless the build failed. *)
Lemma Workflow_shape req (Q : list (event wf_sig) -> unit -> outcome string -> Prop) :
  (forall err, TestnetWorkflowRequest_Validate req = Err err ->
     Q [] tt (Err (EApp "invalid workflow options" (Error err) true))) ->
  (forall ids draws build x, (forall err, TestnetWorkflowRequest_Validate req <> Err err) ->
     Forall (fun e : event wf_sig => projT1 e = Intn) draws ->
     let pre := [ev GetInfo ids] ++ draws ++
       [ev (ExecuteActivity WorkflowCtx defaultWorkflowOptions (ABuildDockerImage build)) x] in
     match x with
     | inr err => Q pre tt (Err err)
     | inl built => forall runName,
         wpM (startWorkflow req runName built) "" (fun l _ o =>
           match o with
           | Ok _ => Q (pre ++ l) tt (Ok "")
           | Err e => Q (pre ++ l) tt (if errors_Is XCanceled e then Ok "" else Err e)
           | Panic m => Q (pre ++ l) tt (Panic m)
           | NoFuel => Q (pre ++ l) tt NoFuel
           end) []
     end) ->
  wpM (Workflow req) tt Q [].
Proof.
  intros Hinv Hrun. unfold Workflow.
  destruct (TestnetWorkflowRequest_Validate req) as [[]|e|m|]; [|wpM_step; by apply Hinv|..].
  all: wpM_step; wpM_step; destruct x as [rid wid]; wpM_step; apply RandomString_wp;
    intros name draws Hd _ _; wpM_step; wpM_step;
    match goal with |- context [ABuildDockerImage ?b] =>
      specialize (Hrun (rid, wid) draws b x ltac:(done) Hd) end;
    rewrite !app_assoc in Hrun; destruct x as [built|e']; [|by wpM_step];
    wpM_step; wpM_step; wpM_step; apply wpM_from_nil; eapply wpM_mono; [|apply Hrun];
    intros l s o Ho; destruct o as [[]|e'|m'|]; cbn beta iota in *;
    first [done | by wpM_step | destruct (errors_Is XCanceled e'); by wpM_step].
Qed.
End runs.

(** ** Properties *)
Section properties.
Context {G : Gzip} {R : MapRange}.

(** C1: whatever the activities answer, in every run of the workflow all
    infrastructure a run still owes is torn down exactly once, last, on the
    disconnected context and with the latest provider state the run was
    given; a run that owes nothing (it was invalid, the build or the
    provider's creation failed) tears nothing down. *)
Theorem Workflow_teardown (req : TestnetWorkflowRequest) :
  wpM (Workflow req) tt (fun t _ _ => exists t0 t1, t = t0 ++ t1 /\
    existsb is_teardown t0 = false /\ settles (RunnerType_ req) (owed t0) t1) [].
Proof.
  assert (Hnone : forall t, tracks t "" -> exists t0 t1, t = t0 ++ t1 /\
    existsb is_teardown t0 = false /\ settles (RunnerType_ req) (owed t0) t1).
  { intros t [Ho Hn]. exists t, []. rewrite app_nil_r, Ho. done. }
  unfold Workflow. destruct (TestnetWorkflowRequest_Validate req); [|by wpM_step; apply Hnone|..].
  all: wpM_step; wpM_step; destruct x as [rid wid]; wpM_step; apply RandomString_wp;
    intros name draws Hd _ _; eapply (draws_track [ev GetInfo (rid, wid)] "") in Hd; [|by split];
    wpM_step; wpM_step;
    destruct x as [built|e]; [|wpM_step; apply Hnone, tracks_snoc; done];
    wpM_step; wpM_step; wpM_step; apply startWorkflow_settles; [by apply tracks_snoc|];
    intros t0 t1 s o Hn Hs; destruct o as [[]|e|m|]; cbn beta iota; [by wpM_step; eauto| |by eauto..];
    destruct (errors_Is XCanceled e); wpM_step; eauto.
Qed.

(** An invalid request is refused with a non-retryable error before
    any call is made. *)
Theorem Workflow_invalid (req : TestnetWorkflowRequest) (err : error) :
  TestnetWorkflowRequest_Validate req = Err err ->
  Workflow req tt = Ret (tt, Err (EApp "invalid workflow options" (Error err) true)).
Proof. intros Hv. unfold Workflow. by rewrite Hv. Qed.

(** C36: in every run of the workflow the build, the provider, the launch,
    the load balancer, the load test and the teardown happen in this order,
    each at most once and each attempted once; only the teardown is on the
    disconnected context; a load balancer is launched only for a
    DigitalOcean run that asked for it, a load test only with the spec the
    request carries, and the only timer is the testnet's. *)
Theorem Workflow_disciplined (req : TestnetWorkflowRequest) :
  wpM (Workflow req) tt (fun t _ _ =>
    phases t `sublist_of` [0; 1; 2; 3; 4; 5]%nat /\ Forall (disciplined req) t) [].
Proof.
  apply Workflow_shape; [by repeat constructor|].
  intros ids draws build x _ Hd pre.
  assert (Hdraws : omap (fun e => match activity_of e with Some (_, _, a) => Some (phase a) | None => None end) draws = []
    /\ Forall (disciplined req) draws).
  { clear -Hd. induction Hd as [|[c y] draws Hc _ [IH1 IH2]]; [done|]. simpl in Hc. subst c.
    split; [exact IH1|by constructor]. }
  destruct Hdraws as [Hp Hf].
  assert (Hpre : forall l, phases l `sublist_of` [1; 2; 3; 4; 5]%nat -> Forall (disciplined req) l ->
    phases (pre ++ l) `sublist_of` [0; 1; 2; 3; 4; 5]%nat /\ Forall (disciplined req) (pre ++ l)).
  { intros l Hl1 Hl2. unfold pre, phases in *. rewrite <- !app_assoc, !omap_app, Hp. split.
    - cbn. by constructor.
    - repeat (apply Forall_app; split); try done; by repeat constructor. }
  destruct x as [built|e].
  - intros runName. eapply wpM_mono; [|apply startWorkflow_run].
    intros l s [[]|e|m|] (H1 & H2 & _); [| destruct (errors_Is XCanceled e)|..]; by apply Hpre.
  - rewrite <- (app_nil_r pre). apply Hpre; by repeat constructor.
Qed.

(** Once the testnet's wait is over, a running load test is awaited
    before the teardown exactly when the workflow was not cancelled. *)
Theorem startWorkflow_awaits_load_test (req : TestnetWorkflowRequest) (runName : string)
    (built : BuildDockerImageResponse) :
  wpM (startWorkflow req runName built) "" (fun t _ _ =>
    existsb is_select t = true -> existsb is_load_test t = true ->
    existsb is_await t = negb (IsCanceledError (default None (ctx_error t)))) [].
Proof. eapply wpM_mono; [|apply startWorkflow_run]. by intros t s o (_ & _ & H). Qed.

(** C37: a cancellation never fails the workflow once the image is built:
    the run ends without an error, whichever call reported it. *)
Theorem Workflow_cancelled (req : TestnetWorkflowRequest) :
  wpM (Workflow req) tt (fun t _ o =>
    forall e, o = Err e -> errors_Is XCanceled e = true ->
      existsb is_create t = false) [].
Proof.
  apply Workflow_shape; [intros err _ e [= <-]; done|].
  intros ids draws build x _ Hd pre. destruct x as [built|err].
  - intros runName. eapply wpM_mono; [|apply startWorkflow_run].
    intros l s [[]|e|m|] _; try done. intros e' He Hc.
    destruct (errors_Is XCanceled e) eqn:Hx; [done|]. injection He as <-. congruence.
  - intros e _ _. unfold pre. rewrite !existsb_app. cbn.
    rewrite orb_false_r. clear -Hd. induction Hd as [|[c y] draws Hc _ IH]; [done|].
    simpl in Hc. by subst c.
Qed.

(** The network timeout of a run is never below the default two
    minutes, is the requested duration when that is longer, and is the
    default when the request has no duration or an unparsable one. *)
Theorem networkTimeout_spec (req : TestnetWorkflowRequest) :
  defaultRuntime <= networkTimeout req < 2^63 /\
  (forall d, ParseDuration (TestnetDuration req) = inl d -> defaultRuntime <= d -> networkTimeout req = d) /\
  (forall e, ParseDuration (TestnetDuration req) = inr e -> networkTimeout req = defaultRuntime).
Proof.
  assert (Hdef : defaultRuntime = 120000000000) by reflexivity.
  unfold networkTimeout. split; [|split].
  - destruct (negb _); [|rewrite Hdef; lia].
    destruct (ParseDuration (TestnetDuration req)) as [d|e] eqn:Hd; [|rewrite Hdef; lia].
    apply ParseDuration_range in Hd. rewrite Hdef. lia.
  - intros d Hd Hle. destruct (String.eqb_spec (TestnetDuration req) "") as [He|He]; cbn [negb].
    + by rewrite He in Hd.
    + rewrite Hd. lia.
  - intros e He. destruct (negb _); [rewrite He|]; apply Z.max_id.
Qed.

(** The load balancer's domains are one per service of the chain, with
    distinct names, whatever order Go ranges over the services in; each
    serves every node and validator on the service's port, in order, and
    only the gRPC one speaks gRPC. *)
Theorem processDomainInfo_spec (chainName : string) (nodes validators : list Node) (isEvmChain : bool) :
  let domains := processDomainInfo chainName nodes validators isEvmChain in
  (forall d, d ∈ domains <-> exists service port, domainTypes isEvmChain !! service = Some port /\
     d = {| Domain := chainName +:+ "-" +:+ service;
            IPs := map (fun node => Address node +:+ ":" +:+ port) (nodes ++ validators)%list;
            Protocol := if String.eqb service "grpc" then "grpc" else "http" |}) /\
  NoDup (map Domain domains) /\
  length domains = if isEvmChain then 5%nat else 3%nat.
Proof.
  cbn zeta. unfold processDomainInfo.
  pose proof (range_map_perm _ (domainTypes isEvmChain)) as Hperm.
  split; [|split].
  - intros d. rewrite list_elem_of_fmap. split.
    + intros ([service port] & -> & Hin). rewrite Hperm in Hin. apply elem_of_map_to_list in Hin.
      by exists service, port.
    + intros (service & port & Hs & ->). exists (service, port). split; [done|].
      rewrite Hperm. by apply elem_of_map_to_list.
  - rewrite map_map.
    rewrite (map_ext _ (fun e => chainName +:+ "-" +:+ e.1)) by by intros [].
    rewrite <- (map_map fst (fun service => chainName +:+ "-" +:+ service)).
    apply NoDup_fmap_2; [by intros a b ?%(inj _)%(inj _)|].
    rewrite (Permutation_map fst Hperm). apply NoDup_fst_map_to_list.
  - rewrite length_map, (Permutation_length Hperm). by destruct isEvmChain.
Qed.
End properties.

Lemma Workflow_invalid_witness :
  let req := {| Repo := "ironbird"; SHA := ""; IsEvmChain_ := false; ChainConfig_ := empty_ChainsConfig;
     RunnerType_ := Docker; CosmosSdkSha := ""; CometBFTSha := "";
     EthereumLoadTestSpec := None; CosmosLoadTestSpec := None; LongRunningTestnet := false;
     LaunchLoadBalancer_ := false; TestnetDuration := ""; NumWallets := 0; BaseMnemonic := "";
     CatalystVersion := ""; ProviderSpecificConfig_ := None |} in
  @Workflow tag_gzip canonical_range req tt =
  Ret (tt, Err (EApp "invalid workflow options" "SHA is required" true)).
Proof.
  intros req. apply (@Workflow_invalid tag_gzip canonical_range req (ENew "SHA is required")). reflexivity.
Defined.
