(* ===== verification/Activities.v ===== *)
(** * What the activities call: [util/util.go], the provider interface

    The activities of the workflow ([activities/*]) restore a provider from
    its state, create tasks and chains on it and report to the server.
    [act_sig] has those calls; a chain's own calls are embedded in it. *)

From S2P Require Import Prelude GoStrings GoVal ProviderDefs ChainTypes Messages TaskI.
From S2P Require Import Util NodeConfig Genesis NodeOps Peers Chain.

Definition provider_ref : Type := nat.

Inductive act_call :=
| DockerCreateProvider (name : string)
| DONewProvider (name : string)
| DockerRestoreProvider (state : string)
| DORestoreProvider (state domain : string)
| PSerializeProvider (p : provider_ref)
| PTeardown (p : provider_ref)
| PGetName (p : provider_ref)
| PCreateTask (p : provider_ref) (d : TaskDefinition)
| PSerializeTask (p : provider_ref) (t : task_ref)
| PCreateDomains (p : provider_ref) (domains : gmap string string)
| TaskCall (t : task_ref) (c : task_call)
| TaskLogs (t : task_ref)                            (* None when its type has no Logs method *)
| DropletIPv4 (t : task_ref)                       (* GetDroplet, then PublicIPv4 *)
| ChainCall (p : provider_ref) (c : chain_call)
| FetchDockerRepoToken
| UpdateWorkflowData (req : UpdateWorkflowDataRequest)
| ActivityWorkflowID                               (* None when the lookup panics *)
| TimeNow                                          (* Unix milliseconds *)
| Ticker                                           (* the context's end, or a tick *)
| StopCondition.

Definition act_ans (c : act_call) : Type :=
  match c with
  | DockerCreateProvider _ | DONewProvider _ => res provider_ref
  | DockerRestoreProvider _ | DORestoreProvider _ _ => res provider_ref
  | PSerializeProvider _ | PSerializeTask _ _ => res string
  | PGetName _ => string
  | PCreateTask _ _ => res task_ref
  | TaskCall _ c => task_ans c
  | TaskLogs _ => option (res string)
  | DropletIPv4 _ => res string
  | ChainCall _ c => chain_ans c
  | FetchDockerRepoToken => res string
  | ActivityWorkflowID => option string
  | TimeNow => Z
  | Ticker => option error
  | StopCondition => bool * string
  | PTeardown _ | PCreateDomains _ _ | UpdateWorkflowData _ => res unit
  end.

Canonical act_sig : sig := Sig act_call act_ans.

(** The events of a chain on its provider. *)
Definition chain_event (p : provider_ref) (e : event chain_sig) : event act_sig :=
  let '(existT c x) := e in ev (E := act_sig) (ChainCall p c) x.

Lemma wp_embed_chain {A} p (m : prog chain_sig A) (Q : list (event act_sig) -> A -> Prop) t :
  wp m (fun l a => Q (t ++ map (chain_event p) l) a) [] ->
  wp (prog_embed (E' := act_sig) (ChainCall p) (fun _ x => x) m) Q t.
Proof.
  enough (H : forall u, wp m (fun l a => Q (t ++ map (chain_event p) l) a) u ->
    wp (prog_embed (E' := act_sig) (ChainCall p) (fun _ x => x) m) Q (t ++ map (chain_event p) u)).
  { intros Hm. specialize (H [] Hm). by rewrite app_nil_r in H. }
  induction m as [a|c k IH]; intros u Hm; cbn [prog_embed wp] in *; [done|].
  intros x. specialize (IH x (u ++ [ev c x]) (Hm x)). rewrite map_app, app_assoc in IH. exact IH.
Qed.

Section act.
Context {S : Type}.
Abbreviation ActM := (M act_sig S).

(** A method of the chain [c], whose error is looked at: the chain it
    leaves, and its result. *)
Definition on_chain (p : provider_ref) {C A} (c : C) (m : M chain_sig C A) : ActM (res A * C) := fun s =>
  prog_bind (prog_embed (E' := act_sig) (ChainCall p) (fun _ x => x) (m c)) (fun '(c', o) =>
    Ret (s, match o with
            | Ok a => Ok (inl a, c')
            | Err e => Ok (inr e, c')
            | Panic msg => Panic msg
            | NoFuel => NoFuel
            end)).

Lemma wpM_on_chain {C A} p (c : C) (m : M chain_sig C A) s
    (Q : list (event act_sig) -> S -> outcome (res A * C) -> Prop) t :
  wpM m c (fun l c' o => Q (t ++ map (chain_event p) l) s
    match o with
    | Ok a => Ok (inl a, c')
    | Err e => Ok (inr e, c')
    | Panic msg => Panic msg
    | NoFuel => NoFuel
    end) [] ->
  wpM (on_chain p c m) s Q t.
Proof.
  intros Hm. unfold wpM, on_chain. apply wp_bind, wp_embed_chain.
  eapply wp_mono; [|exact Hm]. intros l [c' o]. done.
Qed.

(** Whatever the chain does. *)
Lemma wpM_on_chain_any {C A} p (c : C) (m : M chain_sig C A) s
    (Q : list (event act_sig) -> S -> outcome (res A * C) -> Prop) t :
  (forall l r c', Q (t ++ map (chain_event p) l) s (Ok (r, c'))) ->
  (forall l msg, Q (t ++ map (chain_event p) l) s (Panic msg)) ->
  (forall l, Q (t ++ map (chain_event p) l) s NoFuel) ->
  wpM (on_chain p c m) s Q t.
Proof.
  intros HOk HPanic HFuel. apply wpM_on_chain, (emits_use (fun _ => True)); [apply emits_any|].
  intros l c' [a|e|msg|] _; auto.
Qed.

Lemma emits_on_chain {C A} (P : event act_sig -> Prop) (P' : event chain_sig -> Prop) p (c : C)
    (m : M chain_sig C A) :
  emits P' m -> (forall e, P' e -> P (chain_event p e)) -> emits P (on_chain p c m).
Proof.
  intros Hm HP s t. apply wpM_on_chain, (emits_use P'); [done|]. intros l c' o Hl.
  exists (map (chain_event p) l). split; [done|]. apply Forall_map. by eapply Forall_impl.
Qed.

(** [util.RestoreProvider] *)
Definition RestoreProvider (runnerType : RunnerType) (providerState : string) : ActM provider_ref :=
  if String.eqb runnerType Docker then ask (DockerRestoreProvider providerState)
  else ask (DORestoreProvider providerState "").
End act.
