(* ===== verification/TestnetActivity.v ===== *)
(** * The testnet activities: [activities/testnet/testnet.go]

    Creating and tearing down a provider, launching a testnet on it, and the
    chain configuration a launch builds from its request. *)

From S2P Require Import Prelude GoStrings GoVal GoBase64 ProviderDefs ChainTypes Messages TaskI.
From S2P Require Import Util NodeConfig Genesis NodeOps Peers Chain Activities.
From Stdlib Require Ascii.

Definition cosmosDenom : string := "stake".
Definition evmDenom : string := "atest".
Definition cosmosDecimals : Z := 6.
Definition DefaultEvmChainID : string := "262144".

Definition CosmosWalletConfig : WalletConfig :=
  {| SigningAlgorithm := "secp256k1"; wc_Bech32Prefix := "cosmos"; HDPath := Some "m/44'/118'/0'/0/0";
     DerivationFn := Some tt; GenerationFn := Some tt |}.
Definition EvmCosmosWalletConfig : WalletConfig :=
  {| SigningAlgorithm := "eth_secp256k1"; wc_Bech32Prefix := "cosmos"; HDPath := Some "m/44'/60'/0'/0/0";
     DerivationFn := Some tt; GenerationFn := Some tt |}.

Record Activity := {
  act_Chains : Chains;
  act_GrafanaConfig : GrafanaConfig;
  act_GRPCClient : bool;              (* not nil *)
  act_AwsConfig : bool;               (* not nil *)
  act_RegistryType : string
}.

(** ** Registry tokens *)
Section auth.
Variable MarshalAuth : gmap string string -> res string.       (* json.Marshal *)

Definition convertECRTokenToDockerAuth (ecrToken : string) : outcome string :=
  match DecodeString ecrToken with
  | inr err => Err (EWrap "failed to decode ECR token" err)
  | inl decodedToken =>
      match Split (Ascii.ascii_of_nat 58) decodedToken with
      | [username; password] =>
          match MarshalAuth {["username" := username; "password" := password]} with
          | inr err => Err (EWrap "failed to marshal auth config" err)
          | inl authJSON => Ok (EncodeToString authJSON)
          end
      | _ => Err (ENew "invalid ECR token format")
      end
  end.
End auth.

(** ** The chain configuration *)
Definition evm_flags : list string :=
  ["--json-rpc.api"; "eth,net,web3,txpool,debug"; "--json-rpc.address"; "0.0.0.0:8545";
   "--json-rpc.ws-address"; "0.0.0.0:8546"; "--json-rpc.enable"].

(** The custom application configuration with the EVM chain ID in it. *)
Definition evm_app_config (custom : option gomap) (chainID : string) : gomap :=
  let config := default [] custom in
  let config :=
    match lookup_map config "evm" with
    | None | Some VNil => set_map config "evm" (VMap [])
    | Some _ => config
    end in
  match lookup_map config "evm" with
  | Some (VMap evmConfig) => set_map config "evm" (VMap (set_map evmConfig "evm-chain-id" (VStr chainID)))
  | _ => config
  end.

(** [Mul] stores the product in its receiver and returns it: the delegation
    and the balance are one number. *)
Definition evm_genesis (numOfValidators : Z) : Z * Z :=
  let deleg := 10000000000000000000000000 in
  let deleg := deleg * to_int64 (to_uint64 (numOfValidators + 2)) in
  let genBal := deleg in
  (deleg, genBal).

Definition constructChainConfig (req : LaunchTestnetRequest) (chains : Chains) : ChainConfig * WalletConfig :=
  let chainImage := default empty_ChainImageConfig (chains !! lr_BaseImage req) in
  let evm := lr_IsEvmChain req in
  let '(deleg, genBal) := evm_genesis (lr_NumOfValidators req) in
  ({| cc_Name := lr_Name req;
      Denom := if evm then evmDenom else cosmosDenom;
      Decimals := cosmosDecimals;
      cc_NumValidators := to_int64 (lr_NumOfValidators req);
      cc_NumNodes := to_int64 (lr_NumOfNodes req);
      cc_RegionConfig := lr_RegionConfigs req;
      BinaryName := ci_BinaryName chainImage;
      cc_Entrypoint := ci_Entrypoint chainImage;
      cc_Image := {| Image := lr_Image req; UID := ci_UID chainImage; GID := ci_GID chainImage |};
      GasPrices := ci_GasPrices chainImage;
      Bech32Prefix := "cosmos";
      HomeDir := ci_HomeDir chainImage;
      CoinType := if evm then "60" else "118";
      ChainId := if evm then DefaultEvmChainID else lr_Name req;
      UseGenesisSubCommand := true;
      AdditionalStartFlags := lr_AdditionalStartFlags req ++ (if evm then evm_flags else []);
      AdditionalPorts := if evm then ["8545"; "8546"; "8100"] else [];
      GenesisDelegation := if evm then Some deleg else None;
      GenesisBalance := if evm then Some genBal else None;
      IsEVMChain := evm;
      CustomAppConfig :=
        if evm then Some (evm_app_config (lr_CustomAppConfig req) DefaultEvmChainID) else lr_CustomAppConfig req;
      CustomClientConfig := lr_CustomClientConfig req;
      CustomConsensusConfig := lr_CustomConsensusConfig req;
      SetPersistentPeers := lr_SetPersistentPeers req;
      SetSeedNode := lr_SetSeedNode req |},
   if evm then EvmCosmosWalletConfig else CosmosWalletConfig).

(** ** The nodes of the response *)
Definition getNodeExternalAddresses (isEvmChain : bool) (n : node_ref) : M chain_sig Chain Node :=
  let* lcdIp := ask (Method n (NGetExternalAddress "1317")) in
  let* cometIp := ask (Method n (NGetExternalAddress "26657")) in
  let* grpcIp := ask (Method n (NGetExternalAddress "9090")) in
  let* ip := ask (Method n NGetIP) in
  let* name := perform (Method n GetName) in
  let node evmrpc evmws :=
    {| n_Name := name; Address := ip; Rpc := "http://" +:+ cometIp; Lcd := "http://" +:+ lcdIp; Grpc := grpcIp;
       Evmrpc := evmrpc; Evmws := evmws |} in
  if isEvmChain then
    let* evmRpcIp := ask (Method n (NGetExternalAddress "8545")) in
    let* evmWsIp := ask (Method n (NGetExternalAddress "8546")) in
    retM (node ("http://" +:+ evmRpcIp) ("ws://" +:+ evmWsIp))
  else retM (node "" "").

(** ** The activities *)
Section activities.
Context {Cr : Crypto} {LP : LibP2P} {R : MapRange} {BC : BankCodec} {G : Gzip}.
Variable MarshalAuth : gmap string string -> res string.
Variable SetBytes : string -> string -> GoVal -> res string.
Variable MarshalChain : ChainPackagedState -> res string.
Variable fuel : nat.
Variable a : Activity.
Abbreviation ActM := (M act_sig unit).

Definition CreateProvider (req : CreateProviderRequest) : ActM string :=
  let* p := (if String.eqb (cp_RunnerType req) Docker then ask (DockerCreateProvider (cp_Name req))
             else ask (DONewProvider (cp_Name req))) in
  ask (PSerializeProvider p).

Definition TeardownProvider (req : TeardownProviderRequest) : ActM unit :=
  if String.eqb (tp_ProviderState req) "" then retM tt
  else
    let* decompressedProviderState := wrap "failed to decompress provider state"
      (lift_outcome (DecompressData (tp_ProviderState req))) in
    let* p := RestoreProvider (tp_RunnerType req) decompressedProviderState in
    ask (PTeardown p).

Definition updateWorkflowData (workflowID : string) (nodes validators : list Node) (chainID : string)
    (startTime : Z) (provider : string) : ActM unit :=
  if act_GRPCClient a then
    let* _ := perform (UpdateWorkflowData
      {| ud_WorkflowId := workflowID; ud_LoadBalancers := []; ud_Nodes := nodes; ud_Validators := validators;
         ud_Monitoring := GenerateMonitoringLinks chainID startTime None provider (act_GrafanaConfig a);
         ud_Wallets := None; ud_Provider := provider |}) in
    retM tt
  else retM tt.

Definition workflowIDFromActivityContext : ActM string :=
  let* id := perform ActivityWorkflowID in
  let workflowID := default "" id in
  retM (if String.eqb workflowID "" then "local" else workflowID).

Definition fetch_docker_auth : ActM string :=
  if String.eqb (act_RegistryType a) "ecr" && act_AwsConfig a then
    let* token := perform FetchDockerRepoToken in
    match token with
    | inr _ => retM ""
    | inl token => retM (match convertECRTokenToDockerAuth MarshalAuth token with Ok auth => auth | _ => "" end)
    end
  else retM "".

(** The request's settings win over the registry token. *)
Definition launch_modifier (dockerAuth : string) (config : option (gmap string string))
    (definition : TaskDefinition) (nodeConfig : NodeConfig) : TaskDefinition :=
  let psc := default ∅ (ProviderSpecificConfig definition) in
  let psc := if negb (String.eqb dockerAuth "") then <["docker_auth" := dockerAuth]> psc else psc in
  {| td_Name := td_Name definition; td_Image := td_Image definition; Ports := Ports definition;
     Environment := Environment definition; DataDir := DataDir definition; Entrypoint := Entrypoint definition;
     Command := Command definition; Args := Args definition;
     ProviderSpecificConfig := Some (default ∅ config ∪ psc) |}.

Definition app_error (msg : string) (err : error) : error := EApp msg (Error err) true.

Definition empty_response : LaunchTestnetResponse :=
  {| lp_ProviderState := ""; lp_ChainState := ""; lp_ChainID := ""; lp_Nodes := []; lp_Validators := [] |}.
Definition response (chainID providerState chainState : string) (nodes validators : list Node) : LaunchTestnetResponse :=
  {| lp_ProviderState := providerState; lp_ChainState := chainState; lp_ChainID := chainID;
     lp_Nodes := nodes; lp_Validators := validators |}.

Abbreviation LaunchM := (ActM (LaunchTestnetResponse * option error)).

(** The provider's state with a failed launch. *)
Definition failed_launch (p : provider_ref) (chainID msg : string) (err : error) : LaunchM :=
  let resp := response chainID in
  let* serialized := perform (PSerializeProvider p) in
  match serialized with
  | inr e => retM (resp "" "" [] [], Some (app_error "failed to serialize provider" e))
  | inl providerState =>
      let* compressed := try_ (lift_outcome (CompressData providerState)) in
      match compressed with
      | inr e => retM (resp "" "" [] [], Some (app_error "failed to compress provider state" e))
      | inl ps => retM (resp ps "" [] [], Some (app_error msg err))
      end
  end.

(** What is reported once the chain has started. *)
Definition started_launch (req : LaunchTestnetRequest) (workflowID : string) (startTime : Z) (p : provider_ref)
    (chainID : string) (c : Chain) : LaunchM :=
  let fail ps cs err := retM (response chainID ps cs [] [], Some err) in
  let* serialized := perform (PSerializeProvider p) in
  match serialized with
  | inr e => fail "" "" (app_error "failed to serialize provider" e)
  | inl providerState =>
  let* compressed := try_ (lift_outcome (CompressData providerState)) in
  match compressed with
  | inr e => fail "" "" (app_error "failed to compress provider state" e)
  | inl ps =>
  let* '(serialized, c) := on_chain p c (chain_Serialize MarshalChain) in
  match serialized with
  | inr e => fail ps "" (app_error "failed to serialize chain" e)
  | inl chainState =>
  let* compressed := try_ (lift_outcome (CompressData chainState)) in
  match compressed with
  | inr e => fail ps "" (app_error "failed to compress chain state" e)
  | inl cs =>
  let* '(validators, c) := on_chain p c (collect (getNodeExternalAddresses (lr_IsEvmChain req)) (Validators c)) in
  match validators with
  | inr e => fail ps cs e
  | inl validators =>
  let* '(nodes, c) := on_chain p c (collect (getNodeExternalAddresses (lr_IsEvmChain req)) (Nodes c)) in
  match nodes with
  | inr e => fail ps cs e
  | inl nodes =>
      let* _ :=
        (if act_GRPCClient a then
           let* name := perform (PGetName p) in
           updateWorkflowData workflowID nodes validators chainID startTime name
         else retM tt) in
      retM (response chainID ps cs nodes validators, None)
  end end end end end end.

Definition LaunchTestnet (req : LaunchTestnetRequest) : LaunchM :=
  let* workflowID := workflowIDFromActivityContext in
  let* startTime := perform TimeNow in
  let* restored := try_ (RestoreProvider (lr_RunnerType req) (lr_ProviderState req)) in
  match restored with
  | inr err => retM (empty_response, Some err)
  | inl p =>
      let* dockerAuth := fetch_docker_auth in
      let nodeOptions :=
        {| NodeDefinitionModifier := Some (launch_modifier dockerAuth (lr_ProviderSpecificConfig req)) |} in
      let '(chainConfig, walletConfig) := constructChainConfig req (act_Chains a) in
      let options modifyGenesis baseMnemonic accounts :=
        {| opt_ModifyGenesis := modifyGenesis; opt_NodeOptions := nodeOptions; opt_NodeCreator := true;
           opt_WalletConfig := walletConfig; AdditionalAccounts := accounts; opt_BaseMnemonic := baseMnemonic |} in
      let* '(created, _) := on_chain p tt (CreateChain chainConfig (options None "" 0)) in
      match created with
      | inr chainErr => failed_launch p "" "failed to create chain" chainErr
      | inl c =>
          let* '(initialised, c) := on_chain p c
            (Init (options (Some (ModifyGenesis SetBytes (lr_GenesisModifications req))) (lr_BaseMnemonic req)
               (lr_NumWallets req))) in
          match initialised with
          | inr initErr => failed_launch p (ChainId chainConfig) "failed to init chain" initErr
          | inl _ =>
              let* '(started, c) := on_chain p c (WaitForStartup fuel) in
              match started with
              | inr e => retM (response (ChainId chainConfig) "" "" [] [],
                               Some (app_error "failed to wait for chain startup" e))
              | inl _ => started_launch req workflowID startTime p (ChainId chainConfig) c
              end
          end
      end
  end.
End activities.

(** ** What a launch saves *)

(** Events that create no task. *)
Definition not_chain_creation (e : event chain_sig) : Prop :=
  match projT1 e with NodeCreator _ _ | NodeRestorer _ => False | _ => True end.
Definition not_creation (e : event act_sig) : Prop :=
  match projT1 e with
  | PCreateTask _ _ | DockerCreateProvider _ | DONewProvider _ => False
  | ChainCall _ (NodeCreator _ _) | ChainCall _ (NodeRestorer _) => False
  | _ => True
  end.

Lemma not_creation_chain p e : not_chain_creation e -> not_creation (chain_event p e).
Proof. by destruct e as [[]]. Qed.

(** An element of a trace, among its last events. *)
Ltac in_trace := repeat (apply elem_of_app; first [right; apply list_elem_of_here | left]).

Section launch.
Context {Cr : Crypto} {LP : LibP2P} {R : MapRange} {BC : BankCodec} {G : Gzip}.
Variable MarshalAuth : gmap string string -> res string.
Variable SetBytes : string -> string -> GoVal -> res string.
Variable MarshalChain : ChainPackagedState -> res string.
Variable fuel : nat.
Variable a : Activity.

(** The state in a response is the provider's, serialized after the last
    task was created. *)
Definition saved_of (p : provider_ref) (l : list (event act_sig)) (ps : string) : Prop :=
  exists state l1 l2, l = l1 ++ ev (PSerializeProvider p) (inl state) :: l2 /\
    CompressData state = Ok ps /\ Forall not_creation l2.

Definition saved (l : list (event act_sig)) (ps : string) : Prop := exists p, saved_of p l ps.

(** The provider was restored from the state of the request. *)
Definition restored (req : LaunchTestnetRequest) (l : list (event act_sig)) (p : provider_ref) : Prop :=
  (if String.eqb (lr_RunnerType req) Docker
   then ev (E := act_sig) (DockerRestoreProvider (lr_ProviderState req)) (inl p)
   else ev (E := act_sig) (DORestoreProvider (lr_ProviderState req) "") (inl p)) ∈ l.

(** What the nodes of a chain answered in a run, and a node's entry in the
    response: every field is that node's own answer. *)
Definition answers : Type := forall (n : node_ref) (q : node_method), method_ans q -> Prop.

Definition told_chain (l : list (event chain_sig)) : answers := fun n q x => ev (Method n q) x ∈ l.
Definition told (p : provider_ref) (l : list (event act_sig)) : answers :=
  fun n q x => ev (E := act_sig) (ChainCall p (Method n q)) x ∈ l.

Record reported (evm : bool) (said : answers) (n : node_ref) (r : Node) : Prop := {
  rp_name : said n GetName (n_Name r);
  rp_address : said n NGetIP (inl (Address r));
  rp_lcd : exists host, said n (NGetExternalAddress "1317") (inl host) /\ Lcd r = "http://" +:+ host;
  rp_rpc : exists host, said n (NGetExternalAddress "26657") (inl host) /\ Rpc r = "http://" +:+ host;
  rp_grpc : said n (NGetExternalAddress "9090") (inl (Grpc r));
  rp_evm :
    if evm then
      (exists host, said n (NGetExternalAddress "8545") (inl host) /\ Evmrpc r = "http://" +:+ host) /\
      (exists host, said n (NGetExternalAddress "8546") (inl host) /\ Evmws r = "ws://" +:+ host)
    else Evmrpc r = "" /\ Evmws r = ""
}.

(** The chain state is the package of the states its nodes answered, in the
    order of the chain's nodes. *)
Record packaged (said : answers) (c : Chain) (state : string) : Prop := {
  pk_package : exists k, MarshalChain k = inl state /\ cp_Config k = ch_Config c /\
    Forall2 (fun n s => said n NSerialize (inl s)) (Validators c) (ValidatorStates k) /\
    Forall2 (fun n s => said n NSerialize (inl s)) (Nodes c) (NodeStates k)
}.

(** The chain was created in the run, each of its nodes by a job of the
    configuration, and still has the nodes it was created with. *)
Definition created_on (p : provider_ref) (config : ChainConfig) (l : list (event act_sig)) (c : Chain) : Prop :=
  exists opts lc c0, created_chain config opts lc c0 /\ same_nodes c0 [] c /\ map (chain_event p) lc ⊆ l.

(** A node of the chain reported a first block. *)
Definition block_seen (p : provider_ref) (l : list (event act_sig)) : Prop :=
  exists n h, told p l n NStatus (inl h) /\ 1 <= to_uint64 h.

(** The response of a launch, and the report to the server, tell of the
    chain [c] on the provider [p]. *)
Record chain_reported (req : LaunchTestnetRequest) (p : provider_ref) (c : Chain) (l : list (event act_sig))
    (resp : LaunchTestnetResponse) : Prop := {
  cr_state : exists state, packaged (told p l) c state /\ CompressData state = Ok (lp_ChainState resp);
  cr_validators : Forall2 (reported (lr_IsEvmChain req) (told p l)) (Validators c) (lp_Validators resp);
  cr_nodes : Forall2 (reported (lr_IsEvmChain req) (told p l)) (Nodes c) (lp_Nodes resp);
  cr_update : act_GRPCClient a = true -> exists ud x, ev (E := act_sig) (UpdateWorkflowData ud) x ∈ l /\
    ud_Validators ud = lp_Validators resp /\ ud_Nodes ud = lp_Nodes resp
}.

Definition launch_result (req : LaunchTestnetRequest) (l : list (event act_sig))
    (o : outcome (LaunchTestnetResponse * option error)) : Prop :=
  let config := fst (constructChainConfig req (act_Chains a)) in
  match o with
  | Ok (resp, None) => exists p c, restored req l p /\ created_on p config l c /\ block_seen p l /\
      lp_ChainID resp = ChainId config /\ saved_of p l (lp_ProviderState resp) /\ chain_reported req p c l resp
  | Ok (resp, Some err) => lp_Nodes resp = [] /\ lp_Validators resp = [] /\
      (lp_ProviderState resp = "" \/ exists p, restored req l p /\ saved_of p l (lp_ProviderState resp))
  | _ => True
  end.

Lemma saved_of_now t p state ps :
  CompressData state = Ok ps -> saved_of p (t ++ [ev (PSerializeProvider p) (inl state)]) ps.
Proof. intros Hc. exists state, t, []. by split_and!. Qed.

Lemma saved_of_later p t l ps : saved_of p t ps -> Forall not_creation l -> saved_of p (t ++ l) ps.
Proof.
  intros (state & l1 & l2 & -> & Hc & Hl2) Hl. exists state, l1, (l2 ++ l).
  rewrite <- app_assoc. split; [done|]. split; [done|]. by apply Forall_app.
Qed.

Lemma saved_now t p state ps : CompressData state = Ok ps -> saved (t ++ [ev (PSerializeProvider p) (inl state)]) ps.
Proof. intros Hc. exists p. by apply saved_of_now. Qed.

Lemma saved_later t l ps : saved t ps -> Forall not_creation l -> saved (t ++ l) ps.
Proof. intros [p Hp] Hl. exists p. by apply saved_of_later. Qed.

Lemma reported_mono evm (said said' : answers) n r :
  (forall q x, said n q x -> said' n q x) -> reported evm said n r -> reported evm said' n r.
Proof.
  intros Hs [H1 H2 (h3 & H3 & E3) (h4 & H4 & E4) H5 H6]. constructor; eauto.
  destruct evm; [|done]. destruct H6 as [(h6 & H6 & E6) (h7 & H7 & E7)]. split; eauto.
Qed.

Lemma told_app p t l n q x : told p t n q x -> told p (t ++ l) n q x.
Proof. intros H. apply elem_of_app. by left. Qed.

Lemma told_event p l n q x : told_chain l n q x -> told p (map (chain_event p) l) n q x.
Proof. intros H. apply list_elem_of_fmap. by exists (ev (Method n q) x). Qed.

Lemma restored_app req t l p : restored req t p -> restored req (t ++ l) p.
Proof. intros H. apply elem_of_app. by left. Qed.

Definition failed_kept (p : provider_ref) (l : list (event act_sig)) (resp : LaunchTestnetResponse) : Prop :=
  lp_Nodes resp = [] /\ lp_Validators resp = [] /\
  (lp_ProviderState resp = "" \/ saved_of p l (lp_ProviderState resp)).

Definition done_or_kept (req : LaunchTestnetRequest) (p : provider_ref) (c : Chain) (l : list (event act_sig))
    (o : outcome (LaunchTestnetResponse * option error)) : Prop :=
  match o with
  | Ok (resp, None) => lp_ChainID resp = ChainId (ch_Config c) /\ saved_of p l (lp_ProviderState resp) /\
      chain_reported req p c l resp
  | Ok (resp, Some err) => failed_kept p l resp
  | _ => True
  end.

Lemma launch_failed req p c t chainID ps cs err :
  ps = "" \/ saved_of p t ps -> done_or_kept req p c t (Ok (response chainID ps cs [] [], Some err)).
Proof. done. Qed.

#[local] Hint Resolve launch_failed or_introl or_intror : ironbird.

Lemma failed_launch_run p chainID msg err t :
  wpM (failed_launch p chainID msg err) tt (fun l _ o =>
    match o with Ok (resp, Some _) => failed_kept p l resp | Ok (_, None) => False | _ => True end) t.
Proof.
  unfold failed_launch. cbv zeta. wpM_step. wpM_step. cbn beta iota. destruct x as [state|e].
  - do 3 wpM_step. destruct (CompressData state) as [ps|e|m|] eqn:Hc; cbn beta iota; try done; wpM_step;
      split_and!; auto using saved_of_now.
  - wpM_step. split_and!; auto.
Qed.

Lemma emits_getNodeExternalAddresses evm n : emits not_chain_creation (getNodeExternalAddresses evm n).
Proof. unfold getNodeExternalAddresses. emits_go; done. Qed.

Lemma getNodeExternalAddresses_run evm n c t :
  wpM (getNodeExternalAddresses evm n) c (fun t' c' o => c' = c /\
    forall r, o = Ok r -> reported evm (told_chain t') n r) t.
Proof.
  unfold getNodeExternalAddresses. wpM_go; (split; [done|]); intros r [= <-]; constructor; cbn;
    split_and?; try done; repeat eexists; unfold told_chain; in_trace.
Qed.

Lemma emits_chain_Serialize : emits not_chain_creation (chain_Serialize MarshalChain).
Proof.
  unfold chain_Serialize. emits_go; try done.
  1-2: apply emits_collect; intros n; emits_go; done.
  apply emits_collect. intros [w|]; cbn [wallet_mnemonic]; emits_go.
Qed.

(** The chain's serialization: the states its nodes answer, in order. *)
Lemma chain_Serialize_run c :
  wpM (chain_Serialize MarshalChain) c (fun t c' o => c' = c /\
    forall state, o = Ok state -> packaged (told_chain t) c state) [].
Proof.
  assert (Hstates : forall l t, wpM (collect (fun n => ask (Method n NSerialize)) l) c (fun t' c' o => c' = c /\
    forall ys, o = Ok ys -> Forall2 (fun n s => told_chain t' n NSerialize (inl s)) l ys) t).
  { intros l t. apply (wpM_collect (fun t n s => told_chain t n NSerialize (inl s))).
    - intros t1 u n s Hs. apply elem_of_app. by left.
    - intros n t1. wpM_go; (split; [done|]); intros ? [= <-]; unfold told_chain; in_trace. }
  unfold chain_Serialize. do 3 wpM_step. cbn beta iota.
  eapply wpM_mono; [|apply Hstates]. intros t1 c1 [vs|e|m|] [-> Hvs]; try done. wpM_step.
  eapply wpM_mono; [|apply wpM_extends, Hstates]. intros t2 c2 [ns|e|m|] [[-> Hns] [u ->]]; try done. wpM_step.
  eapply wpM_mono; [|apply wpM_extends, (wpM_collect (fun _ _ _ => True)); [done|intros [w|] t; unfold wallet_mnemonic; wpM_go; done]].
  intros t3 c3 [ws|e|m|] [[-> Hws] [u3 ->]]; try done.
  destruct (MarshalChain _) as [state|e] eqn:Hm; cbn [lift_res]; wpM_step; [|done].
  split; [done|]. intros s [= <-]. constructor. eexists. split; [exact Hm|]. cbn. split; [done|].
  split; (eapply Forall2_impl; [by first [apply Hvs|apply Hns]|]); intros n x Hx;
    unfold told_chain in *; rewrite !elem_of_app in *; tauto.
Qed.

(** A loop over nodes of the chain: each is reported as it answered. *)
Lemma reported_run p evm (c : Chain) l t (Q : list (event act_sig) -> unit -> outcome (res (list Node) * Chain) -> Prop) :
  (forall l', Forall not_creation l' ->
    (forall ns, Forall2 (reported evm (told p l')) l ns -> Q (t ++ l') tt (Ok (inl ns, c))) /\
    (forall e, Q (t ++ l') tt (Ok (inr e, c))) /\ (forall m, Q (t ++ l') tt (Panic m)) /\ Q (t ++ l') tt NoFuel) ->
  wpM (on_chain p c (collect (getNodeExternalAddresses evm) l)) tt Q t.
Proof.
  intros HQ. apply wpM_on_chain. eapply wpM_mono; [|apply wpM_and].
  2: { apply (emits_collect not_chain_creation). intros n. apply emits_getNodeExternalAddresses. }
  2: { apply (wpM_collect (fun t n r => reported evm (told_chain t) n r)).
       - intros t1 u n r. apply reported_mono. intros q x Hx. apply elem_of_app. by left.
       - intros n t'. apply getNodeExternalAddresses_run. }
  intros l' c' o [(l1 & -> & Hl1) [-> Hns]]. cbn [app].
  destruct (HQ (map (chain_event p) l1)) as (H1 & H2 & H3 & H4).
  { apply Forall_map. eapply Forall_impl; [exact Hl1|]. apply not_creation_chain. }
  destruct o as [ns|e|m|]; auto. apply H1. eapply Forall2_impl; [by apply Hns|].
  intros n r. apply reported_mono. intros q x. apply told_event.
Qed.

Lemma started_launch_run req workflowID startTime p c t :
  wpM (started_launch MarshalChain a req workflowID startTime p (ChainId (ch_Config c)) c) tt
    (fun l _ o => done_or_kept req p c l o) t.
Proof.
  unfold started_launch. cbv zeta. wpM_step. wpM_step. cbn beta iota. destruct x as [state|e]; [|wpM_step; by auto with ironbird].
  do 3 wpM_step. destruct (CompressData state) as [ps|e|m|] eqn:Hc; cbn beta iota; [|wpM_step; by auto with ironbird|done..].
  pose proof (saved_of_now t p state ps Hc) as Hsaved. set (t1 := t ++ _) in *. clearbody t1.
  wpM_step. apply wpM_on_chain. eapply wpM_mono; [|apply wpM_and; [apply emits_chain_Serialize|apply chain_Serialize_run]].
  intros l1' c1 o [(l1 & -> & Hl1) [-> Hk]]. apply (saved_of_later p t1 (map (chain_event p) l1)) in Hsaved.
  2: { apply Forall_map. eapply Forall_impl; [exact Hl1|]. apply not_creation_chain. }
  destruct o as [cstate|e|m|]; try done; cbn beta iota; [|wpM_step; by auto with ironbird].
  destruct (Hk _ eq_refl) as [(k & Hm & Hcfg & Hv & Hn)].
  do 3 wpM_step. destruct (CompressData cstate) as [cs|e|m|] eqn:Hcs; cbn beta iota; [|wpM_step; by auto with ironbird|done..].
  wpM_step. apply reported_run. intros l2 Hl2. pose proof (saved_of_later _ _ _ _ Hsaved Hl2) as Hsaved2.
  split; [|split; [intros e; wpM_step; by auto with ironbird|done]]. intros vs Hvs.
  cbn beta iota. wpM_step. apply reported_run. intros l3 Hl3. pose proof (saved_of_later _ _ _ _ Hsaved2 Hl3) as Hsaved3.
  split; [|split; [intros e; wpM_step; by auto with ironbird|done]]. intros ns Hns. cbn beta iota.
  set (t4 := _ ++ l3) in *. pose proof (eq_refl : t4 = _ ++ l3) as Ht4. clearbody t4.
  assert (Htail : wpM (if act_GRPCClient a then
        let* name := perform (PGetName p) in
        updateWorkflowData a workflowID ns vs (ChainId (ch_Config c)) startTime name
      else retM tt) tt (fun l _ o => (exists l4, l = t4 ++ l4 /\ Forall not_creation l4) /\
        (o = Ok tt -> act_GRPCClient a = true -> exists ud x, ev (E := act_sig) (UpdateWorkflowData ud) x ∈ l /\
           ud_Validators ud = vs /\ ud_Nodes ud = ns)) t4).
  { apply wpM_and; [apply (emits_use not_creation); [unfold updateWorkflowData; emits_go; done|eauto]|].
    unfold updateWorkflowData. destruct (act_GRPCClient a); [|by wpM_step].
    do 5 wpM_step. intros _ _. eexists _, _. split; [in_trace|done]. }
  wpM_step. eapply wpM_mono; [|exact Htail]. intros t5 [] o [(l4 & -> & Hl4) Hud].
  pose proof (saved_of_later _ _ _ _ Hsaved3 Hl4) as Hsaved4.
  destruct o as [[]|e|m|]; try done. wpM_step. split; [done|]. split; [done|].
  assert (Hsub : forall q x n, told p t4 n q x -> told p (t4 ++ l4) n q x) by (intros; by apply told_app).
  constructor; cbn.
  - exists cstate. split; [|done]. constructor. exists k. split_and!; [done..| |];
      (eapply Forall2_impl; [eassumption|]); intros n s Hs; cbn beta in Hs;
      apply Hsub; rewrite Ht4; do 2 apply told_app; unfold told; apply elem_of_app; right; by apply (told_event p).
  - eapply Forall2_impl; [exact Hvs|]. intros n r. apply reported_mono. intros q x Hx.
    apply Hsub. rewrite Ht4. apply told_app, elem_of_app. by right.
  - eapply Forall2_impl; [exact Hns|]. intros n r. apply reported_mono. intros q x Hx.
    apply Hsub. rewrite Ht4. apply elem_of_app. by right.
  - intros Hg. by apply Hud.
Qed.

Lemma WaitForStartup_safe c t :
  wpM (WaitForStartup fuel) c (fun l _ o => o = Ok tt ->
    exists n h, ev (Method n NStatus) (inl h) ∈ l /\ 1 <= to_uint64 h) t.
Proof.
  unfold WaitForStartup. generalize fuel at 1. intros k. revert t c.
  induction k as [|k IH]; intros t c; cbn [poll]; [by wpM_step|].
  wpM_step. wpM_step. wpM_step. destruct x as [err|]; [by wpM_step|].
  wpM_step. wpM_step. eapply wpM_mono; [|apply WaitForHeight_safe].
  intros l c' [[]|e|m|] Hs; cbn beta iota; try done; try wpM_step; cbn beta iota.
  - apply IH.
Qed.

Lemma block_seen_app p t l : block_seen p t -> block_seen p (t ++ l).
Proof. intros (n & h & Hn & Hh). exists n, h. split; [by apply told_app|done]. Qed.

Lemma created_on_app p config t l c : created_on p config t c -> created_on p config (t ++ l) c.
Proof.
  intros (opts & lc & c0 & Hc & Hs & Hl). exists opts, lc, c0. split_and!; [done|apply Hs..|].
  intros e He. apply elem_of_app. left. by apply Hl.
Qed.

Lemma created_on_same p config l t c c' : created_on p config l c -> same_nodes c t c' -> created_on p config l c'.
Proof.
  intros (opts & lc & c0 & Hc & (H1 & H2 & H3) & Hl) (H4 & H5 & H6). exists opts, lc, c0.
  split; [done|]. split; [|done]. split_and!; congruence.
Qed.

Lemma created_on_config p config l c : created_on p config l c -> ch_Config c = config.
Proof. intros (opts & lc & c0 & (pt & H) & (H1 & _) & _). rewrite H1. apply H. Qed.

Lemma launch_result_failed req p l resp err :
  restored req l p -> failed_kept p l resp -> launch_result req l (Ok (resp, Some err)).
Proof. intros Hr (Hn & Hv & Hs). split_and!; [done..|]. destruct Hs as [|Hs]; [by left|right]. by exists p. Qed.

Lemma failed_launch_result req p chainID msg err t :
  restored req t p -> wpM (failed_launch p chainID msg err) tt (fun l _ o => launch_result req l o) t.
Proof.
  intros Hr. eapply wpM_mono; [|apply wpM_extends, failed_launch_run].
  intros l [] [[resp [e|]]|e|m|] [Hl [u ->]]; try done.
  eapply launch_result_failed; [by apply restored_app|exact Hl].
Qed.

(** The launch once its chain is created: initialised, started, reported. *)
Lemma created_launch_run req workflowID startTime p (c : Chain) opts t :
  let config := fst (constructChainConfig req (act_Chains a)) in
  restored req t p -> created_on p config t c ->
  wpM (let* '(initialised, c) := on_chain p c (Init opts) in
       match initialised with
       | inr initErr => failed_launch p (ChainId config) "failed to init chain" initErr
       | inl _ =>
           let* '(started, c) := on_chain p c (WaitForStartup fuel) in
           match started with
           | inr e => retM (response (ChainId config) "" "" [] [],
                            Some (app_error "failed to wait for chain startup" e))
           | inl _ => started_launch MarshalChain a req workflowID startTime p (ChainId config) c
           end
       end) tt (fun l _ o => launch_result req l o) t.
Proof.
  intros config Hr Hc.
  wpM_step. apply wpM_on_chain. eapply wpM_mono; [|by apply (kept_Init c opts)].
  intros l1 c1 [u|e|m|] Hs1; cbn beta iota; [|by apply failed_launch_result, restored_app|done..].
  apply (fun H => created_on_same _ _ _ _ _ _ H Hs1), (created_on_app _ _ _ (map (chain_event p) l1)) in Hc.
  apply (restored_app _ _ (map (chain_event p) l1)) in Hr. set (t1 := t ++ _) in *. clearbody t1.
  wpM_step. apply wpM_on_chain.
  eapply wpM_mono; [|apply wpM_and; [apply WaitForStartup_safe|by apply (kept_WaitForStartup c1 fuel)]].
  intros l2 c2 [[]|e|m|] [Hb Hs2]; cbn beta iota; try done.
  2: { wpM_step. eapply launch_result_failed; [by apply restored_app|]. split_and!; auto. }
  apply (fun H => created_on_same _ _ _ _ _ _ H Hs2), (created_on_app _ _ _ (map (chain_event p) l2)) in Hc.
  apply (restored_app _ _ (map (chain_event p) l2)) in Hr.
  assert (Hblock : block_seen p (t1 ++ map (chain_event p) l2)).
  { destruct (Hb eq_refl) as (n & h & Hn & Hh). exists n, h. split; [|done].
    unfold told. apply elem_of_app. right. by apply (told_event p). }
  set (t2 := t1 ++ _) in *. clearbody t2. rewrite <- (created_on_config _ _ _ _ Hc).
  eapply wpM_mono; [|apply wpM_extends, started_launch_run].
  intros l [] [[resp [err|]]|e|m|] [Ho [l3 ->]]; try done.
  - eapply launch_result_failed; [by apply restored_app|exact Ho].
  - destruct Ho as (Hid & Hs & Hrep). exists p, c2. split_and!; [by apply restored_app|by apply created_on_app| | |done..].
    + by apply block_seen_app.
    + by rewrite Hid, (created_on_config _ _ _ _ Hc).
Qed.

(** C5: whatever the provider, the nodes and the libraries answer, a launch
    that succeeds has created its chain in this run, by the configuration it
    built, on the provider it restored from the request's state, and has
    seen one of the chain's nodes report a first block.  Its response
    carries the chain's identifier, one entry for each validator and each
    node of the chain, in order, whose name, addresses and ports are that
    node's own answers, and the compressed package of the states the same
    nodes answered; the report to the server has the same entries.  A launch
    that fails reports no nodes.  Whenever a response carries a provider
    state, it is the one that provider answered after the last task of the
    run was created, so a teardown that starts from it knows every task. *)
Theorem LaunchTestnet_spec (req : LaunchTestnetRequest) :
  wpM (LaunchTestnet MarshalAuth SetBytes MarshalChain fuel a req) tt (fun l _ o => launch_result req l o) [].
Proof.
  unfold LaunchTestnet. wpM_step. unfold workflowIDFromActivityContext. do 5 wpM_step. wpM_step. wpM_step.
  set (t := _ ++ _). clearbody t.
  assert (Hres : wpM (RestoreProvider (lr_RunnerType req) (lr_ProviderState req)) (S := unit) tt
    (fun l _ o => forall p, o = Ok p -> restored req l p) t).
  { unfold RestoreProvider, restored. destruct (String.eqb _ _); wpM_go; intros q [= <-]; in_trace. }
  eapply wpM_mono; [|exact Hres]. intros l1 [] [p|e|m|] Hr; try done; cbn beta iota.
  2: { wpM_step. split_and!; auto. }
  specialize (Hr p eq_refl). wpM_step.
  apply (emits_use (fun _ => True)); [apply emits_any|]. intros l2 [] [auth|e|m|] _; try done.
  apply (restored_app _ _ l2) in Hr. set (t2 := l1 ++ l2) in *. clearbody t2.
  cbv zeta. destruct (constructChainConfig req (act_Chains a)) as [chainConfig walletConfig] eqn:Hcfg.
  wpM_step. apply wpM_on_chain. eapply wpM_mono; [|apply CreateChain_run].
  intros l3 [] [c|e|m|] [_ Hc]; cbn beta iota; try done; [|by apply failed_launch_result, restored_app].
  pose proof (created_launch_run req) as Hrun. rewrite Hcfg in Hrun. apply Hrun; [by apply restored_app|].
  eexists _, l3, c. split; [exact Hc|]. split; [by split_and!|]. intros ev' He. apply elem_of_app. by right.
Qed.

End launch.

(** ** The configuration a launch builds *)

(** What the request and its image must bring for the configuration to be
    a valid one. *)
Record buildable (req : LaunchTestnetRequest) (img : ChainImageConfig) : Prop := {
  bl_name : lr_Name req <> "";
  bl_binary : ci_BinaryName img <> "";
  bl_gas : ci_GasPrices img <> "";
  bl_image : valid_image {| Image := lr_Image req; UID := ci_UID img; GID := ci_GID img |};
  bl_topology :
    (lr_RunnerType req = DigitalOcean /\ Forall valid_region (lr_RegionConfigs req) /\
       Exists (fun r => 0 < NumValidators r) (lr_RegionConfigs req)) \/
    (lr_RunnerType req = Docker /\ to_int64 (lr_NumOfValidators req) <> 0)
}.

(** C6: the chain configuration a launch builds passes the chain's
    validation on the request's runner exactly when the request names the
    chain and its image, the base image is a known one with a binary, gas
    prices and numeric user and group ids, and the topology suits the
    runner; everything else the builder fills in is always accepted, the
    wallet configuration with it. *)
Theorem constructChainConfig_valid (req : LaunchTestnetRequest) (chains : Chains) :
  let '(config, wallet) := constructChainConfig req chains in
  (ChainConfig_ValidateBasic config (lr_RunnerType req) = Ok tt <->
   exists img, chains !! lr_BaseImage req = Some img /\ buildable req img) /\
  WalletConfig_ValidateBasic wallet = Ok tt.
Proof.
  unfold constructChainConfig, evm_genesis. cbv zeta. split; [|by destruct (lr_IsEvmChain req)].
  rewrite ChainConfig_ValidateBasic_ok. split.
  - intros [Hname _ _ Htop Hbin Hgas Himg _ _ _]. simpl in *.
    destruct (chains !! lr_BaseImage req) as [img|]; [|done]. exists img. split; [done|]. by constructor.
  - intros (img & Hi & [Hname Hbin Hgas Himg Htop]). rewrite Hi. constructor; simpl; try done;
      by destruct (lr_IsEvmChain req).
Qed.

(** For an EVM chain the configuration has the EVM chain identifier, in
    the application configuration too when its [evm] section is a table or
    is missing, and leaves every other setting alone; its genesis balance
    is 10^25 for each validator and two more, and the self-delegation of
    each validator is that whole balance. *)
Theorem constructChainConfig_evm (req : LaunchTestnetRequest) (chains : Chains) (n : Z) :
  lr_IsEvmChain req = true -> lr_NumOfValidators req = n -> 0 <= n < 2 ^ 63 - 2 ->
  let config := fst (constructChainConfig req chains) in
  let custom := default [] (lr_CustomAppConfig req) in
  ChainId config = DefaultEvmChainID /\
  GetGenesisBalance config = 10 ^ 25 * (n + 2) /\ GetGenesisDelegation config = GetGenesisBalance config /\
  exists app, CustomAppConfig config = Some app /\
    (forall k, k <> "evm" -> lookup_map app k = lookup_map custom k) /\
    match lookup_map custom "evm" with
    | None | Some VNil => lookup_map app "evm" = Some (VMap [("evm-chain-id", VStr DefaultEvmChainID)])
    | Some (VMap section) =>
        exists section', lookup_map app "evm" = Some (VMap section') /\
          lookup_map section' "evm-chain-id" = Some (VStr DefaultEvmChainID) /\
          forall k, k <> "evm-chain-id" -> lookup_map section' k = lookup_map section k
    | Some v => lookup_map app "evm" = Some v
    end.
Proof.
  intros Hevm Hn Hrange. unfold constructChainConfig, evm_genesis. cbv zeta. rewrite Hevm, Hn.
  cbn [fst ChainId CustomAppConfig].
  assert (Hw : to_int64 (to_uint64 (n + 2)) = n + 2).
  { unfold to_int64, to_uint64. rewrite (Z.mod_small (n + 2)) by lia. rewrite Z.mod_small; lia. }
  split; [done|]. split; [unfold GetGenesisBalance; cbn [GenesisBalance default]; rewrite Hw; reflexivity|].
  split; [done|]. eexists. split; [done|]. unfold evm_app_config. cbv zeta.
  set (custom := default [] (lr_CustomAppConfig req)).
  assert (Hset : forall m v k, k <> "evm" -> lookup_map (set_map m "evm" v) k = lookup_map m k)
    by (intros; by apply lookup_set_map_ne, not_eq_sym).
  destruct (lookup_map custom "evm") as [[]|] eqn:He; rewrite ?lookup_set_map_eq, ?He; split; intros;
    rewrite ?Hset by done; try done; rewrite ?lookup_set_map_eq; try done.
  eexists. split; [done|]. rewrite lookup_set_map_eq. split; [done|]. intros. by apply lookup_set_map_ne, not_eq_sym.
Qed.

(** ** Registry tokens *)

(** An ECR token is accepted exactly when it decodes to a user and a
    password around one colon, and what Docker is given is then the base64
    of the JSON object with the two. *)
Theorem convertECRTokenToDockerAuth_spec (MarshalAuth : gmap string string -> res string) (token auth : string) :
  convertECRTokenToDockerAuth MarshalAuth token = Ok auth <->
  exists user password json,
    DecodeString token = inl (user +:+ ":" +:+ password) /\
    no_byte (Ascii.ascii_of_nat 58) user = true /\ no_byte (Ascii.ascii_of_nat 58) password = true /\
    MarshalAuth {["username" := user; "password" := password]} = inl json /\
    auth = EncodeToString json /\ DecodeString auth = inl json.
Proof.
  unfold convertECRTokenToDockerAuth. split.
  - destruct (DecodeString token) as [decoded|e]; [|done].
    destruct (Split _ decoded) as [|user [|password [|]]] eqn:Hs; try done.
    destruct (MarshalAuth _) as [json|e] eqn:Hm; intros [= <-].
    apply Split_pair in Hs as (-> & Hu & Hp). exists user, password, json. by rewrite DecodeString_Encode.
  - intros (user & password & json & -> & Hu & Hp & Hm & -> & _).
    change (user +:+ ":" +:+ password) with (user +:+ String (Ascii.ascii_of_nat 58) password).
    rewrite (proj2 (Split_pair _ _ user password)) by done. by rewrite Hm.
Qed.

Definition demo_launch : LaunchTestnetRequest :=
  {| lr_Name := "evmd"; lr_IsEvmChain := true; lr_Repo := "evm"; lr_SHA := "abc"; lr_Image := "evmd:abc";
     lr_BaseImage := "evmd"; lr_GenesisModifications := []; lr_RunnerType := Docker; lr_RegionConfigs := [];
     lr_NumOfValidators := 2; lr_NumOfNodes := 1;
     lr_CustomAppConfig := Some [("pruning", VStr "nothing"); ("evm", VMap [("tracer", VStr "")])];
     lr_CustomConsensusConfig := None; lr_CustomClientConfig := None; lr_AdditionalStartFlags := [];
     lr_ProviderState := "{}"; lr_SetPersistentPeers := true; lr_SetSeedNode := false; lr_BaseMnemonic := "";
     lr_NumWallets := 0; lr_ProviderSpecificConfig := None |}.

Lemma constructChainConfig_evm_witness :
  lr_IsEvmChain demo_launch = true /\ lr_NumOfValidators demo_launch = 2 /\
  let config := fst (constructChainConfig demo_launch ∅) in
  CustomAppConfig config = Some [("pruning", VStr "nothing");
    ("evm", VMap [("tracer", VStr ""); ("evm-chain-id", VStr "262144")])] /\
  GetGenesisDelegation config = GetGenesisBalance config /\ GetGenesisBalance config = 10 ^ 25 * 4.
Proof.
  split; [reflexivity|]. split; [reflexivity|].
  destruct (constructChainConfig_evm demo_launch ∅ 2 eq_refl eq_refl ltac:(lia)) as (_ & Hb & Hd & _).
  split; [vm_compute; reflexivity|]. split; [exact Hd|exact Hb].
Defined.
