(* ===== verification/LoadBalancer.v ===== *)
(** * The load balancer: [petri/core/apps/loadbalancer.go],
    [activities/loadbalancer/loadbalancer.go]

    The balancer's definition and its validation, its Caddy configuration,
    its launch as a task of a DigitalOcean provider, and the activity that
    reports its addresses. *)

From S2P Require Import Prelude GoStrings GoVal ProviderDefs ChainTypes Messages TaskI Util NodeOps Activities TestnetWorkflow.
From Stdlib Require Ascii.

(** ** Definition *)
Definition LoadBalancerDomain_Validate (lbd : LoadBalancerDomain) : outcome unit :=
  if String.eqb (Domain lbd) "" then Err (ENew "domain must be specified")
  else if (length (IPs lbd) =? 0)%nat then Err (ENew "at least one IP must be specified")
  else if negb (String.eqb (Protocol lbd) "http") && negb (String.eqb (Protocol lbd) "grpc") then
    Err (ENew "protocol must be either 'http' or 'grpc'")
  else Ok tt.

(** A nil slice is [None]. *)
Record LoadBalancerDefinition := {
  lbd_DigitalOceanConfig : gmap string string;
  lbd_Domains : list LoadBalancerDomain;
  lbd_SSLCertificate : option string;
  lbd_SSLKey : option string
}.

Definition no_bytes (s : option string) : bool := String.eqb (default "" s) "".

(** Each round overwrites the error of the one before. *)
Fixpoint validate_domains (domains : list LoadBalancerDomain) (err : option error) : option error :=
  match domains with
  | [] => err
  | domain :: domains' =>
      validate_domains domains'
        (errors_Join [match LoadBalancerDomain_Validate domain with Err e => Some e | _ => None end])
  end.

Definition LoadBalancerDefinition_Validate (lbd : LoadBalancerDefinition) : outcome unit :=
  if (length (lbd_Domains lbd) =? 0)%nat then Err (ENew "at least one domain must be specified")
  else if no_bytes (lbd_SSLKey lbd) && negb (no_bytes (lbd_SSLCertificate lbd)) then
    Err (ENew "SSL key must be provided if SSL certificate is specified")
  else if no_bytes (lbd_SSLCertificate lbd) && negb (no_bytes (lbd_SSLKey lbd)) then
    Err (ENew "SSL certificate must be provided if SSL key is specified")
  else match validate_domains (lbd_Domains lbd) None with Some e => Err e | None => Ok tt end.

(** ** Configuration *)
Definition CaddyTlsTemplate : string := "tls /caddy/cert.pem /caddy/key.pem".

Definition CaddyHttpDomainTemplate (fullDomain ipDirective tls : string) : string :=
  fullDomain +:+ " {
	log
	
	handle {
		reverse_proxy " +:+ ipDirective +:+ " 
	}

	" +:+ tls +:+ "
}
".

Definition CaddyGrpcDomainTemplate (fullDomain ipDirective tls : string) : string :=
  fullDomain +:+ " {
	log

	handle {
		reverse_proxy " +:+ ipDirective +:+ " {
			transport http {
				# Use HTTP/2 cleartext for gRPC
				versions h2c
			}
		}
	}

	" +:+ tls +:+ "
}
".

(** [fmt.Sprintf] with an empty format reports its operands. *)
Definition extra_operands (l : list string) : string :=
  "%!(EXTRA " +:+ Join (map (fun s => "string=" +:+ s) l) ", " +:+ ")".

Definition domain_block (rootDomain tls : string) (domain : LoadBalancerDomain) : string :=
  let fullDomain := Domain domain +:+ "." +:+ rootDomain in
  let ipDirective := Join (IPs domain) " " in
  if String.eqb (Protocol domain) "http" then CaddyHttpDomainTemplate fullDomain ipDirective tls
  else if String.eqb (Protocol domain) "grpc" then CaddyGrpcDomainTemplate fullDomain ipDirective tls
  else extra_operands [fullDomain; ipDirective; tls].

Definition caddy_config (rootDomain tls : string) (domains : list LoadBalancerDomain) : string :=
  fold_left (fun caddyConfig domain => caddyConfig +:+ domain_block rootDomain tls domain) domains "".

(** ** Launch *)
Definition lb_task (config : gmap string string) : TaskDefinition :=
  {| td_Name := "loadbalancer"; td_Image := {| Image := "caddy:2-alpine"; UID := "0"; GID := "0" |};
     Ports := []; Environment := ∅; DataDir := "/caddy";
     Entrypoint := ["caddy"; "run"; "--config"; "/caddy/Caddyfile"]; Command := []; Args := [];
     ProviderSpecificConfig := Some config |}.

(** The certificate and key, and the directive that names them. *)
Definition write_certificates (t : task_ref) (definition : LoadBalancerDefinition) : M act_sig unit string :=
  match lbd_SSLCertificate definition, lbd_SSLKey definition with
  | Some cert, Some key =>
      let* _ := ask (TaskCall t (WriteFile "cert.pem" cert)) in
      let* _ := ask (TaskCall t (WriteFile "key.pem" key)) in
      retM CaddyTlsTemplate
  | _, _ => retM ""
  end.

Definition domain_addresses (domains : list LoadBalancerDomain) (ip : string) : gmap string string :=
  fold_left (fun m domain => <[Domain domain := ip]> m) domains ∅.

(** [apps.LaunchLoadBalancer] *)
Definition launch_balancer (p : provider_ref) (rootDomain : string) (definition : LoadBalancerDefinition)
    : M act_sig unit task_ref :=
  let* task := ask (PCreateTask p (lb_task (lbd_DigitalOceanConfig definition))) in
  let* tlsTemplate := write_certificates task definition in
  let* _ := ask (TaskCall task (WriteFile "Caddyfile" (caddy_config rootDomain tlsTemplate (lbd_Domains definition)))) in
  let* _ := ask (TaskCall task Start) in
  let* ip := ask (DropletIPv4 task) in
  let* _ := ask (PCreateDomains p (domain_addresses (lbd_Domains definition) ip)) in
  retM task.

(** ** The names of the balanced chains

    The first submatch of [^(.+?)(?:-(?:rpc|lcd|grpc))]: the shortest
    non-empty prefix without a line break that one of the suffixes follows. *)
Definition at_suffix (s : string) : bool := HasPrefix s "-rpc" || HasPrefix s "-lcd" || HasPrefix s "-grpc".

Fixpoint name_before (s : string) : option string :=
  match s with
  | EmptyString => None
  | String c s' =>
      if Ascii.eqb c (Ascii.ascii_of_nat 10) then None
      else if at_suffix s' then Some (String c EmptyString)
      else option_map (String c) (name_before s')
  end.

Definition nodeNames (domains : list LoadBalancerDomain) : gmap string unit :=
  fold_left (fun m domain =>
    match name_before (Domain domain) with Some name => <[name := tt]> m | None => m end) domains ∅.

Definition balancer_node (rootDomain : string) (isEvm : bool) (nodeName : string) : Node :=
  {| n_Name := nodeName; Address := rootDomain;
     Rpc := "https://" +:+ nodeName +:+ "-rpc." +:+ rootDomain;
     Lcd := "https://" +:+ nodeName +:+ "-lcd." +:+ rootDomain;
     Grpc := nodeName +:+ "-grpc." +:+ rootDomain;
     Evmrpc := if isEvm then "https://" +:+ nodeName +:+ "-evmrpc." +:+ rootDomain else "";
     Evmws := if isEvm then "wss://" +:+ nodeName +:+ "-evmws." +:+ rootDomain else "" |}.

Record BalancerActivity := {
  ba_RootDomain : string;
  ba_SSLCertificate : option string;
  ba_SSLKey : option string;
  ba_GRPCClient : bool
}.

Section activity.
Context {R : MapRange} {G : Gzip}.
Variable a : BalancerActivity.

Definition balancer_nodes (req : LaunchLoadBalancerRequest) : list Node :=
  map (fun '(name, _) => balancer_node (ba_RootDomain a) (lb_IsEvmChain req) name)
    (range_map (nodeNames (lb_Domains req))).

Definition report_balancers (req : LaunchLoadBalancerRequest) : M act_sig unit unit :=
  if ba_GRPCClient a then
    match balancer_nodes req with
    | [] => retM tt
    | loadBalancers =>
        let* _ := perform (UpdateWorkflowData
          {| ud_WorkflowId := lb_WorkflowID req; ud_LoadBalancers := loadBalancers; ud_Monitoring := ∅;
             ud_Nodes := []; ud_Validators := []; ud_Wallets := None; ud_Provider := "" |}) in
        retM tt
    end
  else retM tt.

Definition empty_balancer_response : LaunchLoadBalancerResponse :=
  {| lbr_ProviderState := ""; lbr_LoadBalancerState := ""; lbr_RootDomain := "" |}.

Definition balancer_definition (req : LaunchLoadBalancerRequest) : LoadBalancerDefinition :=
  {| lbd_SSLKey := ba_SSLKey a; lbd_SSLCertificate := ba_SSLCertificate a;
     lbd_DigitalOceanConfig := DigitalOceanDefaultOpts; lbd_Domains := lb_Domains req |}.

(** The response and the error it comes with. *)
Definition LaunchLoadBalancer (req : LaunchLoadBalancerRequest)
    : M act_sig unit (LaunchLoadBalancerResponse * option error) :=
  let fail (msg : string) (err : error) := retM (empty_balancer_response, Some (EWrap msg err)) in
  if negb (String.eqb (lb_RunnerType req) DigitalOcean) then
    retM (empty_balancer_response, Some (ENew "only digitalocean provider supported for load balancer"))
  else
    let* state := try_ (lift_outcome (DecompressData (lb_ProviderState req))) in
    match state with
    | inr err => fail "failed to decompress provider state" err
    | inl state =>
    let* restored := perform (DORestoreProvider state (ba_RootDomain a)) in
    match restored with
    | inr err => fail "failed to restore provider" err
    | inl p =>
    let* launched := try_ (launch_balancer p (ba_RootDomain a) (balancer_definition req)) in
    match launched with
    | inr err => fail "failed to launch load balancer" err
    | inl lb =>
    let* serialized := perform (PSerializeProvider p) in
    match serialized with
    | inr err => fail "failed to serialize provider" err
    | inl newProviderState =>
    let* compressed := try_ (lift_outcome (CompressData newProviderState)) in
    match compressed with
    | inr err => fail "failed to compress provider state" err
    | inl ps =>
    let* task := perform (PSerializeTask p lb) in
    match task with
    | inr err =>
        retM ({| lbr_ProviderState := ps; lbr_LoadBalancerState := ""; lbr_RootDomain := "" |},
              Some (EWrap "failed to serialize load balancer task" err))
    | inl loadBalancerState =>
        let* _ := report_balancers req in
        retM ({| lbr_ProviderState := ps; lbr_LoadBalancerState := loadBalancerState;
                 lbr_RootDomain := ba_RootDomain a |}, None)
    end end end end end end.
End activity.

(** ** Lemmas *)
Lemma validate_domains_last domains err :
  validate_domains domains err = None <->
  match last domains with Some d => LoadBalancerDomain_Validate d = Ok tt | None => err = None end.
Proof.
  revert err. induction domains as [|d domains IH]; intros err; cbn [validate_domains]; [done|].
  rewrite IH, last_cons. destruct (last domains) as [d'|]; [done|].
  assert (Hd : forall o : outcome unit, o = LoadBalancerDomain_Validate d -> (exists e, o = Err e) \/ o = Ok tt).
  { intros o ->. unfold LoadBalancerDomain_Validate. repeat case_match; eauto. }
  destruct (Hd _ eq_refl) as [[e H]|H]; rewrite H; by unfold errors_Join.
Qed.

Definition dash : Ascii.ascii := Ascii.ascii_of_nat 45.

Lemma HasPrefix_at_suffix b d r p :
  HasPrefix (b +:+ String d r) p = true -> no_byte d p = true -> HasPrefix b p = true.
Proof.
  revert b. induction p as [|a p IH]; intros b Hp Hd; [done|]. cbn [no_byte] in Hd.
  apply andb_true_iff in Hd as [Ha Hd]. apply negb_true_iff in Ha.
  destruct b as [|c b]; cbn [String.append HasPrefix] in *; apply andb_true_iff in Hp as [Hac Hp].
  - by rewrite Hac in Ha.
  - rewrite Hac. simpl. by apply IH.
Qed.

Lemma at_suffix_app c b r : at_suffix (String c b +:+ String dash r) = at_suffix (String c b).
Proof.
  assert (Hadd : forall p, no_byte dash p = true ->
    HasPrefix (String c b +:+ String dash r) (String dash p) = HasPrefix (String c b) (String dash p)).
  { intros p Hp. cbn [String.append HasPrefix]. f_equal. apply Bool.eq_iff_eq_true. split; [by intros H; apply (HasPrefix_at_suffix _ _ _ _ H)|].
    clear. revert b. induction p as [|a p IH]; intros b Hb; [done|]. destruct b as [|x b]; [done|].
    cbn [String.append HasPrefix] in *. apply andb_true_iff in Hb as [-> Hb]. simpl. by apply IH. }
  unfold at_suffix. by rewrite !Hadd.
Qed.

(** A chain name the suffixes of the domains do not occur in. *)
Fixpoint plain_from (s : string) : bool :=
  match s with
  | EmptyString => true
  | String c s' => negb (Ascii.eqb c (Ascii.ascii_of_nat 10)) && negb (at_suffix s') && plain_from s'
  end.
Definition plain_name (s : string) : bool := negb (String.eqb s "") && plain_from s.

Lemma name_before_cons c s :
  name_before (String c s) =
  if Ascii.eqb c (Ascii.ascii_of_nat 10) then None
  else if at_suffix s then Some (String c EmptyString) else option_map (String c) (name_before s).
Proof. done. Qed.

Lemma name_before_app n r :
  plain_name n = true ->
  name_before (n +:+ String dash r) =
  if at_suffix (String dash r) then Some n else option_map (fun s => n +:+ s) (name_before (String dash r)).
Proof.
  unfold plain_name. destruct n as [|c n]; [done|]. simpl negb. rewrite andb_true_l.
  revert c. induction n as [|d n IH]; intros c Hp; cbn [plain_from] in Hp;
    apply andb_true_iff in Hp as [[Hc Hs]%andb_true_iff Hp]; apply negb_true_iff in Hc, Hs.
  - change (String c "" +:+ String dash r) with (String c (String dash r)). by rewrite name_before_cons, Hc.
  - change (String c (String d n) +:+ String dash r) with (String c (String d n +:+ String dash r)).
    rewrite name_before_cons, Hc, at_suffix_app, Hs, (IH d Hp).
    destruct (at_suffix (String dash r)); [done|]. by destruct (name_before (String dash r)).
Qed.

Lemma nodeNames_lookup domains name :
  nodeNames domains !! name = Some tt <-> exists d, d ∈ domains /\ name_before (Domain d) = Some name.
Proof.
  unfold nodeNames.
  assert (H : forall m : gmap string unit, fold_left (fun m domain =>
      match name_before (Domain domain) with Some name => <[name := tt]> m | None => m end) domains m !! name = Some tt <->
    m !! name = Some tt \/ exists d, d ∈ domains /\ name_before (Domain d) = Some name).
  { induction domains as [|d domains IH]; intros m; cbn [fold_left].
    - split; [auto|]. intros [H|(d & Hd & _)]; [done|by apply not_elem_of_nil in Hd].
    - rewrite IH. setoid_rewrite elem_of_cons. destruct (name_before (Domain d)) as [n|] eqn:Hn.
      + destruct (decide (n = name)) as [->|Hne]; [rewrite lookup_insert_eq; naive_solver|].
        rewrite lookup_insert_ne by done. naive_solver.
      + naive_solver. }
  rewrite H, lookup_empty. naive_solver.
Qed.

Section domains.
Context {R : MapRange}.

Lemma processDomainInfo_domain n nodes validators evm d :
  d ∈ processDomainInfo n nodes validators evm <->
  exists t port, domainTypes evm !! t = Some port /\ d = domain_for n nodes validators (t, port).
Proof.
  unfold processDomainInfo. rewrite list_elem_of_fmap. setoid_rewrite <- elem_of_range_map. split.
  - intros ([t port] & -> & Hin). eauto.
  - intros (t & port & Hin & ->). eauto.
Qed.

Lemma domainTypes_keys evm t port :
  domainTypes evm !! t = Some port ->
  t = "grpc" \/ t = "rpc" \/ t = "lcd" \/ (evm = true /\ (t = "evmrpc" \/ t = "evmws")).
Proof.
  unfold domainTypes. destruct evm; intros H; repeat (apply lookup_insert_Some in H as [[<- _]|[_ H]]; [tauto|]);
    apply lookup_singleton_Some in H as [<- _]; tauto.
Qed.

(** The names found in the domains of one chain. *)
Lemma nodeNames_process n nodes validators evm :
  plain_name n = true -> nodeNames (processDomainInfo n nodes validators evm) = {[n := tt]}.
Proof.
  intros Hn. apply map_eq. intros k. apply option_eq. intros [].
  rewrite nodeNames_lookup, lookup_singleton_Some. split.
  - intros (d & (t & port & Ht & ->)%processDomainInfo_domain & Hk). split; [|done].
    unfold domain_for in Hk. cbn [Domain] in Hk.
    change (n +:+ "-" +:+ t) with (n +:+ String dash t) in Hk. rewrite name_before_app in Hk by done.
    destruct (domainTypes_keys _ _ _ Ht) as [->|[->|[->|[_ [->| ->]]]]]; vm_compute in Hk; congruence.
  - intros [-> _]. exists (domain_for k nodes validators ("rpc", "26657")). split.
    + apply processDomainInfo_domain. exists "rpc", "26657". split; [|done]. by destruct evm.
    + unfold domain_for. cbn [Domain]. change (k +:+ "-" +:+ "rpc") with (k +:+ String dash "rpc").
      by rewrite name_before_app.
Qed.

(** A URL of a scheme is served by one of the domains. *)
Definition served (rootDomain : string) (domains : list LoadBalancerDomain) (scheme url : string) : Prop :=
  exists d, d ∈ domains /\ url = scheme +:+ Domain d +:+ "." +:+ rootDomain.

Lemma served_domain n nodes validators evm root scheme t :
  is_Some (domainTypes evm !! t) ->
  served root (processDomainInfo n nodes validators evm) scheme (scheme +:+ n +:+ "-" +:+ t +:+ "." +:+ root).
Proof.
  intros [port Ht]. exists (domain_for n nodes validators (t, port)). split.
  - apply processDomainInfo_domain. eauto.
  - unfold domain_for. cbn [Domain]. by rewrite !string_app_assoc.
Qed.

(** What a successful launch of the balancer asks for, in order. *)
Definition certificate_events (t : task_ref) (d : LoadBalancerDefinition) : list (event act_sig) :=
  match lbd_SSLCertificate d, lbd_SSLKey d with
  | Some cert, Some key =>
      [ev (TaskCall t (WriteFile "cert.pem" cert)) (inl tt); ev (TaskCall t (WriteFile "key.pem" key)) (inl tt)]
  | _, _ => []
  end.
Definition tls_directive (d : LoadBalancerDefinition) : string :=
  match lbd_SSLCertificate d, lbd_SSLKey d with Some _, Some _ => CaddyTlsTemplate | _, _ => "" end.

Definition launch_events (p : provider_ref) (root : string) (d : LoadBalancerDefinition) (t : task_ref) (ip : string)
    : list (event act_sig) :=
  ev (PCreateTask p (lb_task (lbd_DigitalOceanConfig d))) (inl t) :: certificate_events t d ++
  [ev (TaskCall t (WriteFile "Caddyfile" (caddy_config root (tls_directive d) (lbd_Domains d)))) (inl tt);
   ev (TaskCall t Start) (inl tt); ev (DropletIPv4 t) (inl ip);
   ev (PCreateDomains p (domain_addresses (lbd_Domains d) ip)) (inl tt)].

Lemma launch_balancer_run p root d t0 :
  wpM (launch_balancer p root d) tt (fun l _ o =>
    match o with
    | Ok t => exists ip, l = t0 ++ launch_events p root d t ip
    | Err _ => True
    | _ => False
    end) t0.
Proof.
  unfold launch_balancer, launch_events, write_certificates, certificate_events, tls_directive.
  do 3 wpM_step. cbn beta iota. destruct x as [t|e]; cbn [lift_res]; wpM_step; [|done].
  destruct (lbd_SSLCertificate d) as [cert|]; [destruct (lbd_SSLKey d) as [key|]|].
  all: wpM_go; try done; repeat match goal with u : unit |- _ => destruct u end; eexists; by rewrite <- ?app_assoc.
Qed.

End domains.

(** ** Properties *)

(** The definition's validation accepts exactly a definition with a
    domain, a certificate and key given together, and a last domain that
    is valid: the errors of all other domains are dropped. *)
Theorem LoadBalancerDefinition_Validate_spec (lbd : LoadBalancerDefinition) :
  LoadBalancerDefinition_Validate lbd = Ok tt <->
  (no_bytes (lbd_SSLKey lbd) = no_bytes (lbd_SSLCertificate lbd)) /\
  exists d, last (lbd_Domains lbd) = Some d /\
    Domain d <> "" /\ IPs d <> [] /\ (Protocol d = "http" \/ Protocol d = "grpc").
Proof.
  assert (Hd : forall d, LoadBalancerDomain_Validate d = Ok tt <->
    Domain d <> "" /\ IPs d <> [] /\ (Protocol d = "http" \/ Protocol d = "grpc")).
  { intros d. unfold LoadBalancerDomain_Validate.
    destruct (String.eqb_spec (Domain d) ""); [naive_solver|].
    destruct (IPs d) as [|ip ips]; simpl; [naive_solver|].
    destruct (String.eqb_spec (Protocol d) "http"), (String.eqb_spec (Protocol d) "grpc"); naive_solver. }
  unfold LoadBalancerDefinition_Validate.
  destruct (lbd_Domains lbd) as [|d0 ds]; [simpl; naive_solver|]. cbn [length Nat.eqb].
  pose proof (validate_domains_last (d0 :: ds) None) as Hv. destruct (last (d0 :: ds)) as [dl|] eqn:Hl.
  2: { by apply last_None in Hl. }
  setoid_rewrite <- Hd.
  assert (Hex : (exists d, Some dl = Some d /\ LoadBalancerDomain_Validate d = Ok tt) <->
    LoadBalancerDomain_Validate dl = Ok tt) by (split; [by intros (d & [= <-] & H)|eauto]).
  rewrite Hex, <- Hv. clear.
  destruct (no_bytes (lbd_SSLKey lbd)), (no_bytes (lbd_SSLCertificate lbd)); cbn [andb negb];
    destruct (validate_domains (d0 :: ds) None); (split; [try done|by intros [? ?]]).
Qed.

(** For the domains the workflow sends for one chain, the activity
    reports exactly one balanced node, named after the chain, and every URL
    of it is served by one of those domains. *)
Theorem reported_urls_served {R : MapRange} (a : BalancerActivity) (req : LaunchLoadBalancerRequest)
    (n : string) (nodes validators : list Node) :
  plain_name n = true ->
  lb_Domains req = processDomainInfo n nodes validators (lb_IsEvmChain req) ->
  let node := balancer_node (ba_RootDomain a) (lb_IsEvmChain req) n in
  let serves := served (ba_RootDomain a) (lb_Domains req) in
  balancer_nodes a req = [node] /\
  serves "https://" (Rpc node) /\ serves "https://" (Lcd node) /\ serves "" (Grpc node) /\
  (lb_IsEvmChain req = true -> serves "https://" (Evmrpc node) /\ serves "wss://" (Evmws node)).
Proof.
  intros Hn Hd. cbv zeta. rewrite Hd. unfold balancer_nodes. rewrite Hd, nodeNames_process by done.
  assert (Hr : range_map {[n := tt]} = [(n, tt)]).
  { apply Permutation_singleton_r. rewrite range_map_perm. by rewrite map_to_list_singleton. }
  rewrite Hr. split; [done|]. unfold balancer_node. cbn [Rpc Lcd Grpc Evmrpc Evmws].
  pose proof (served_domain n nodes validators (lb_IsEvmChain req) (ba_RootDomain a)) as Hs.
  split; [apply (Hs "https://" "rpc"); by destruct (lb_IsEvmChain req)|].
  split; [apply (Hs "https://" "lcd"); by destruct (lb_IsEvmChain req)|].
  split; [apply (Hs "" "grpc"); by destruct (lb_IsEvmChain req)|].
  intros He. rewrite He in *. split; [by apply (Hs "https://" "evmrpc")|by apply (Hs "wss://" "evmws")].
Qed.

Section launch.
Context {G : Gzip} {R : MapRange}.
Variable a : BalancerActivity.

(** The result of a run, and what it has done when there is no error. *)
Definition balancer_result (req : LaunchLoadBalancerRequest) (l : list (event act_sig))
    (o : outcome (LaunchLoadBalancerResponse * option error)) : Prop :=
  exists resp err, o = Ok (resp, err) /\
    (lb_RunnerType req <> DigitalOcean -> l = [] /\ err <> None) /\
    (err = None -> exists state p t ip ps ts l',
       DecompressData (lb_ProviderState req) = Ok state /\
       l = ev (DORestoreProvider state (ba_RootDomain a)) (inl p) ::
           launch_events p (ba_RootDomain a) (balancer_definition a req) t ip ++
           ev (PSerializeProvider p) (inl ps) :: ev (PSerializeTask p t) (inl ts) :: l' /\
       CompressData ps = Ok (lbr_ProviderState resp) /\ lbr_LoadBalancerState resp = ts /\
       lbr_RootDomain resp = ba_RootDomain a).

Lemma balancer_failed req l resp e :
  lb_RunnerType req = DigitalOcean -> balancer_result req l (Ok (resp, Some e)).
Proof. intros Hdo. exists resp, (Some e). split; [done|]. by split. Qed.

(** The activity only works for DigitalOcean, where without an error it
    has restored the provider from the decompressed state, created the
    balancer's task, written its certificates and its configuration with one
    block per domain, started it, and only then pointed the domains at its
    address; the state it returns was serialized after that.  It never
    panics, and for another runner it makes no call at all. *)
Theorem LaunchLoadBalancer_spec (req : LaunchLoadBalancerRequest) :
  wpM (LaunchLoadBalancer a req) tt (fun l _ o => balancer_result req l o) [].
Proof.
  unfold LaunchLoadBalancer. cbv zeta.
  destruct (String.eqb_spec (lb_RunnerType req) DigitalOcean) as [Hdo|Hdo]; cbn [negb].
  2: { wpM_step. eexists _, _. split; [done|]. split; [done|done]. }
  assert (Hout : forall (o : outcome string), (exists b, o = DecompressData b) \/ (exists b, o = CompressData b) ->
    (exists b, o = Ok b) \/ (exists e, o = Err e)).
  { intros o [[b ->]|[b ->]]; unfold DecompressData, CompressData; repeat case_match; eauto. }
  do 3 wpM_step. destruct (Hout (DecompressData (lb_ProviderState req)) ltac:(eauto)) as [[state Hs]|[e Hs]];
    rewrite Hs in *; [|wpM_step; by apply balancer_failed].
  wpM_step. wpM_step. destruct x as [p|e]; [|wpM_step; by apply balancer_failed].
  do 2 wpM_step. eapply wpM_mono; [|apply launch_balancer_run].
  intros l [] [t|e|m|] Hl; try done; [|wpM_step; by apply balancer_failed]. destruct Hl as [ip ->].
  do 2 wpM_step. destruct x as [ps|e]; [|wpM_step; by apply balancer_failed].
  do 3 wpM_step. destruct (Hout (CompressData ps) ltac:(eauto)) as [[z Hz]|[e Hz]]; rewrite Hz;
    [|wpM_step; by apply balancer_failed].
  do 2 wpM_step. destruct x as [ts|e]; [|wpM_step; by apply balancer_failed].
  wpM_step. set (t1 := _ ++ _).
  assert (Hrep : wpM (report_balancers a req) tt (fun t' _ o => o = Ok tt /\ exists l', t' = t1 ++ l') t1).
  { unfold report_balancers. destruct (ba_GRPCClient a); [destruct (balancer_nodes a req)|].
    1,3: wpM_step; split; [done|]; exists []; by rewrite app_nil_r.
    wpM_step. wpM_step. wpM_step. split; [done|]. by eexists. }
  eapply wpM_mono; [|exact Hrep]. intros t' [] o [-> [l' ->]]. wpM_step.
  eexists _, None. split; [done|]. split; [done|]. intros _. exists state, p, t, ip, ps, ts, l'.
  split; [done|]. split; [unfold t1; by rewrite <- !app_assoc|]. done.
Qed.
End launch.

Definition demo_balancer : BalancerActivity :=
  {| ba_RootDomain := "example.org"; ba_SSLCertificate := None; ba_SSLKey := None; ba_GRPCClient := true |}.

Definition demo_balance : LaunchLoadBalancerRequest :=
  {| lb_ProviderState := ""; lb_RunnerType := DigitalOcean;
     lb_Domains := processDomainInfo (R := canonical_range) "evmd-1" [] [] true; lb_WorkflowID := "w";
     lb_IsEvmChain := true |}.

Lemma reported_urls_served_witness :
  plain_name "evmd-1" = true /\
  balancer_nodes (R := canonical_range) demo_balancer demo_balance = [balancer_node "example.org" true "evmd-1"] /\
  served "example.org" (lb_Domains demo_balance) "https://" "https://evmd-1-rpc.example.org".
Proof.
  split; [reflexivity|].
  destruct (reported_urls_served (R := canonical_range) demo_balancer demo_balance "evmd-1" [] [] eq_refl eq_refl)
    as (H1 & H2 & _).
  split; [exact H1|exact H2].
Defined.
