(* ===== verification/LoadTest.v ===== *)
(** * The load test activity: [activities/loadtest/loadtest.go]

    The activity completes a load test specification with the chain's
    addresses, runs it in a task of the chain's provider, polls the task and
    reads its result.  The catalyst library (its configuration types, the
    validation and YAML form of a specification) is a parameter. *)

From S2P Require Import Prelude GoStrings GoVal ProviderDefs ChainTypes Messages TaskI Util.
From S2P Require Import NodeConfig Genesis NodeOps Peers Chain Activities TestnetActivity.

(** ** Task logs *)
Definition maxLoadTestTaskLogBytes : Z := 256 * 1024.

Definition log_marker : string := "[truncated task logs; showing tail]" +:+ nl.

Definition len (s : string) : Z := Z.of_nat (String.length s).

Definition truncateTaskLogs (logs : string) (maxBytes : Z) : string :=
  if (maxBytes <=? 0) || (len logs <=? maxBytes) then logs
  else if maxBytes <=? len log_marker then str_take (Z.to_nat maxBytes) log_marker
  else
    let keepBytes := maxBytes - len log_marker in
    log_marker +:+ str_drop (Z.to_nat (len logs - keepBytes)) logs.

(** ** The catalyst library *)
Class Catalyst := {
  EthConfig : Type;
  EthConfig_of : GoVal -> option EthConfig;                       (* a configuration or a pointer to one *)
  zero_EthConfig : EthConfig;
  set_EthNodes : list (string * string) -> EthConfig -> GoVal;    (* RPC, websocket *)
  cosmos_ChainConfig : string -> string -> list (string * string) -> GoVal;   (* denom, prefix; GRPC, RPC *)
  LoadTestSpec_Validate : LoadTestSpec -> res unit;
  LoadTestSpec_Marshal : LoadTestSpec -> res string;              (* YAML *)
  LoadTestResult_Unmarshal : string -> res (string * string);     (* the result and its Error field *)
  yaml_Unmarshal : string -> res gomap;
  yaml_Marshal : gomap -> res string
}.

Section load_test.
Context {CT : Catalyst} {G : Gzip}.
Abbreviation ActM := (M act_sig unit).

(** ** The specification *)
Definition complete_spec (spec : LoadTestSpec) (cfg : GoVal) (chainID baseMnemonic : string) (numWallets : Z)
    : LoadTestSpec :=
  {| Kind := Kind spec; ls_ChainID := chainID; ls_BaseMnemonic := baseMnemonic;
     ls_NumWallets := if ls_NumWallets spec =? 0 then numWallets else ls_NumWallets spec;
     ChainCfg := cfg; ls_Rest := ls_Rest spec |}.

Definition catalyst_config (chainConfig : ChainConfig) (spec : LoadTestSpec) (nodes : list string) : option GoVal :=
  if String.eqb (Kind spec) "eth" then
    let ethChainCfg := default zero_EthConfig (EthConfig_of (ChainCfg spec)) in
    Some (set_EthNodes (map (fun addr => ("http://" +:+ addr +:+ ":8545", "ws://" +:+ addr +:+ ":8546")) nodes) ethChainCfg)
  else if String.eqb (Kind spec) "cosmos" then
    Some (cosmos_ChainConfig (Denom chainConfig) (Bech32Prefix chainConfig)
      (map (fun addr => (addr +:+ ":9090", "http://" +:+ addr +:+ ":26657")) nodes))
  else None.

(** The addresses of the nodes, or of the validators when there are none. *)
Definition spec_addresses : M chain_sig Chain (list string) :=
  let* c := get in
  let* nodes := collect (fun v => ask (Method v NGetIP)) (Nodes c) in
  match nodes with
  | [] => collect (fun v => ask (Method v NGetIP)) (Validators c)
  | _ => retM nodes
  end.

Definition generateLoadTestSpec (chainID : string) (loadTestSpec : LoadTestSpec) (baseMnemonic : string)
    (numWallets : Z) : M chain_sig Chain string :=
  let* c := get in
  let* nodes := spec_addresses in
  match catalyst_config (ch_Config c) loadTestSpec nodes with
  | None => throw (ENew ("unknown load test spec kind: " +:+ Kind loadTestSpec))
  | Some cfg =>
      let spec := complete_spec loadTestSpec cfg chainID baseMnemonic numWallets in
      let* _ := wrap "failed to validate custom load test config" (lift_res (LoadTestSpec_Validate spec)) in
      lift_res (LoadTestSpec_Marshal spec)
  end.

Definition redactLoadTestConfig (configBytes : string) : res string :=
  match yaml_Unmarshal configBytes with
  | inr err => inr err
  | inl cfg =>
      let cfg := match lookup_map cfg "base_mnemonic" with
                 | Some _ => set_map cfg "base_mnemonic" (VStr "[REDACTED]")
                 | None => cfg
                 end in
      yaml_Marshal cfg
  end.

(** The configuration as a response shows it. *)
Definition shown_config (configBytes : string) : string :=
  match redactLoadTestConfig configBytes with
  | inl s => s
  | inr err => "failed to redact load test config: " +:+ Error err
  end.

Definition readTaskLogs (t : task_ref) : ActM string :=
  let* logs := perform (TaskLogs t) in
  retM (match logs with Some (inl logs) => truncateTaskLogs logs maxLoadTestTaskLogBytes | _ => "" end).

(** ** Results *)
Definition test_response (ps cs : string) (result : string * string) (logs config reason : string) : RunLoadTestResponse :=
  {| rr_ProviderState := ps; rr_ChainState := cs; rr_Result := fst result; rr_ResultError := snd result;
     rr_TaskLogs := logs; rr_LoadTestConfig := config; rr_StoppedReason := reason |}.

Abbreviation TestM := (ActM (RunLoadTestResponse * option error)).

Variable MarshalChain : ChainPackagedState -> res string.
Variable p : provider_ref.

(** The error, with the states as they are. *)
Definition handleLoadTestError (c : option Chain) (task : option task_ref) (loadTestConfig : string)
    (originalErr : error) (errMsg : string) : TestM :=
  let* logs := (match task with Some t => readTaskLogs t | None => retM "" end) in
  let res ps cs := test_response ps cs ("", "") logs loadTestConfig "" in
  let wrappedErr := EWrap errMsg originalErr in
  let also (what : string) (e : error) := Some (ESuffix wrappedErr ("; also failed to " +:+ what +:+ ": " +:+ Error e)) in
  let* serialized := perform (PSerializeProvider p) in
  match serialized with
  | inr e => retM (res "" "", also "serialize provider" e)
  | inl newProviderState =>
  let* compressed := try_ (lift_outcome (CompressData newProviderState)) in
  match compressed with
  | inr e => retM (res "" "", also "compress provider state" e)
  | inl ps =>
  match c with
  | None => retM (res ps "", Some wrappedErr)
  | Some c =>
  let* '(serialized, _) := on_chain p c (chain_Serialize MarshalChain) in
  match serialized with
  | inr e => retM (res ps "", also "serialize chain" e)
  | inl newChainState =>
  let* compressed := try_ (lift_outcome (CompressData newChainState)) in
  match compressed with
  | inr e => retM (res ps "", also "compress chain state" e)
  | inl cs => retM (res ps cs, Some wrappedErr)
  end end end end end.

(** The states after a run that ended, and what it ended with. *)
Definition finish_load_test (c : Chain) (result : string * string) (logs loadTestConfig prefix_ reason : string)
    (err : option error) : TestM :=
  let* serialized := perform (PSerializeProvider p) in
  match serialized with
  | inr e => retM (test_response "" "" result logs loadTestConfig "",
                   Some (EWrap (prefix_ +:+ ", but failed to serialize provider") e))
  | inl newProviderState =>
  let* compressed := try_ (lift_outcome (CompressData newProviderState)) in
  match compressed with
  | inr e => retM (test_response "" "" result logs loadTestConfig "",
                   Some (EWrap (prefix_ +:+ ", but failed to compress provider state") e))
  | inl ps =>
  let* '(serialized, _) := on_chain p c (chain_Serialize MarshalChain) in
  match serialized with
  | inr e => retM (test_response ps "" result logs loadTestConfig "",
                   Some (EWrap (prefix_ +:+ ", but failed to serialize chain") e))
  | inl newChainState =>
  let* compressed := try_ (lift_outcome (CompressData newChainState)) in
  match compressed with
  | inr e => retM (test_response ps "" result logs loadTestConfig "",
                   Some (EWrap (prefix_ +:+ ", but failed to compress chain state") e))
  | inl cs => retM (test_response ps cs result logs loadTestConfig reason, err)
  end end end end.

Definition stopLoadTestByCondition (c : Chain) (t : task_ref) (loadTestConfig reason : string) : TestM :=
  let* taskLogs := readTaskLogs t in
  let* _ := perform (TaskCall t Destroy) in
  finish_load_test c ("", "") taskLogs loadTestConfig "load test stopped by condition" reason (Some (EStopped reason)).

(** ** The polling loop *)
Definition load_test_round (stopCondition : bool) (c : Chain) (t : task_ref) (loadTestConfig : string)
    : ActM (option (RunLoadTestResponse * option error)) :=
  let some (m : TestM) := let* r := m in retM (Some r) in
  let* ended := perform Ticker in
  match ended with
  | Some err => some (handleLoadTestError (Some c) (Some t) loadTestConfig err "context cancelled")
  | None =>
  let* stop := (if stopCondition then perform StopCondition else retM (false, "")) in
  match stop with
  | (true, reason) => some (stopLoadTestByCondition c t loadTestConfig reason)
  | (false, _) =>
  let* status := perform (TaskCall t GetStatus) in
  match status with
  | inl TASK_STOPPED =>
      let* read := perform (TaskCall t (ReadFile "load_test.json")) in
      match read with
      | inr err => some (handleLoadTestError (Some c) (Some t) loadTestConfig err "failed to read result file")
      | inl resultBytes =>
      match LoadTestResult_Unmarshal resultBytes with
      | inr err => some (handleLoadTestError (Some c) (Some t) loadTestConfig err "failed to parse result file")
      | inl result =>
          let* taskLogs := readTaskLogs t in
          let* _ := perform (TaskCall t Destroy) in
          some (finish_load_test c result taskLogs loadTestConfig "load test succeeded" "" None)
      end
      end
  | _ => retM None
  end end end.

Definition catalyst_task (version : string) : TaskDefinition :=
  {| td_Name := "catalyst";
     td_Image :=
       {| Image := if String.eqb version "" then "ghcr.io/skip-mev/catalyst"
                   else "ghcr.io/skip-mev/catalyst:" +:+ version;
          UID := "100"; GID := "100" |};
     Ports := []; Environment := {["DEV_LOGGING" := "true"]}; DataDir := "/tmp/catalyst"; Entrypoint := [];
     Command := ["/tmp/catalyst/loadtest.yml"]; Args := [];
     ProviderSpecificConfig := Some DigitalOceanDefaultOpts |}.

(** The test on a restored chain. *)
Definition run_on_chain (fuel : nat) (stopCondition : bool) (req : RunLoadTestRequest) (c : Chain) : TestM :=
  let* '(generated, c) := on_chain p c (generateLoadTestSpec (ChainId (ch_Config c)) (rl_LoadTestSpec req)
    (rl_BaseMnemonic req) (rl_NumWallets req)) in
  match generated with
  | inr err => handleLoadTestError (Some c) None "" err "failed to generate load test config"
  | inl configBytes =>
  let loadTestConfig := shown_config configBytes in
  let* created := perform (PCreateTask p (catalyst_task (rl_CatalystVersion req))) in
  match created with
  | inr err => handleLoadTestError (Some c) None loadTestConfig err "failed to create task"
  | inl t =>
  let* written := perform (TaskCall t (WriteFile "loadtest.yml" configBytes)) in
  match written with
  | inr err => handleLoadTestError (Some c) (Some t) loadTestConfig err "failed to write config file to task"
  | inl _ =>
  let* started := perform (TaskCall t Start) in
  match started with
  | inr err => handleLoadTestError (Some c) (Some t) loadTestConfig err "failed to start task"
  | inl _ => poll fuel (load_test_round stopCondition c t loadTestConfig)
  end end end end.
End load_test.

(** ** The activity *)
Section activity.
Context {CT : Catalyst} {G : Gzip} {Cr : Crypto}.
Variable MarshalChain : ChainPackagedState -> res string.
Variable UnmarshalChain : string -> res ChainPackagedState.
Variable fuel : nat.
Variable stopCondition : bool.             (* the activity has one *)

Definition empty_test_response : RunLoadTestResponse := test_response "" "" ("", "") "" "" "".

Definition RunLoadTest (req : RunLoadTestRequest) : M act_sig unit (RunLoadTestResponse * option error) :=
  let fail msg err := retM (empty_test_response, Some (EWrap msg err)) in
  let* providerState := try_ (lift_outcome (DecompressData (rl_ProviderState req))) in
  match providerState with
  | inr err => fail "failed to decompress provider state" err
  | inl providerState =>
  let* restored := try_ (Activities.RestoreProvider (rl_RunnerType req) providerState) in
  match restored with
  | inr err => fail "failed to restore provider" err
  | inl p =>
  let* chainState := try_ (lift_outcome (DecompressData (rl_ChainState req))) in
  match chainState with
  | inr err => fail "failed to decompress chain state" err
  | inl chainState =>
  let walletConfig := if rl_IsEvmChain req then EvmCosmosWalletConfig else CosmosWalletConfig in
  let* '(restored, _) := on_chain p tt (RestoreChain UnmarshalChain chainState walletConfig) in
  match restored with
  | inr err => handleLoadTestError MarshalChain p None None "" err "failed to restore chain"
  | inl c => run_on_chain MarshalChain p fuel stopCondition req c
  end end end end.
End activity.

(** ** Lemmas *)

Lemma truncateTaskLogs_len logs maxBytes : 0 < maxBytes -> len (truncateTaskLogs logs maxBytes) <= maxBytes.
Proof.
  intros Hmax. unfold truncateTaskLogs. destruct (Z.leb_spec maxBytes 0); [lia|]. cbn [orb].
  destruct (Z.leb_spec (len logs) maxBytes) as [|Hlen]; [done|].
  destruct (Z.leb_spec maxBytes (len log_marker)) as [Hm|Hm]; unfold len in *.
  - rewrite str_take_length. lia.
  - rewrite string_length_app, str_drop_length. lia.
Qed.

(** ** Properties *)

(** Task logs are cut to the limit: short ones are kept, and of long
    ones a marker and exactly the last bytes that still fit. *)
Theorem truncateTaskLogs_spec (logs : string) (maxBytes : Z) :
  0 < maxBytes ->
  len (truncateTaskLogs logs maxBytes) <= maxBytes /\
  (len logs <= maxBytes -> truncateTaskLogs logs maxBytes = logs) /\
  (maxBytes < len logs -> len log_marker < maxBytes -> exists dropped kept,
     logs = dropped +:+ kept /\ truncateTaskLogs logs maxBytes = log_marker +:+ kept /\
     len log_marker + len kept = maxBytes).
Proof.
  intros Hmax. split; [by apply truncateTaskLogs_len|]. unfold truncateTaskLogs.
  destruct (Z.leb_spec maxBytes 0); [lia|]. cbn [orb].
  destruct (Z.leb_spec (len logs) maxBytes) as [|Hlen]; [split; [done|lia]|]. split; [lia|].
  intros _ Hm. destruct (Z.leb_spec maxBytes (len log_marker)); [lia|].
  set (n := Z.to_nat (len logs - (maxBytes - len log_marker))).
  exists (str_take n logs), (str_drop n logs). split; [by rewrite str_take_drop|]. split; [done|].
  unfold n, len in *. rewrite str_drop_length. lia.
Qed.

Lemma truncateTaskLogs_spec_witness :
  0 < 40 /\ len (truncateTaskLogs (log_marker +:+ "0123456789") 40) = 40 /\
  len (truncateTaskLogs (log_marker +:+ "0123456789") 40) <= 40.
Proof.
  split; [lia|]. split; [vm_compute; reflexivity|].
  exact (proj1 (truncateTaskLogs_spec (log_marker +:+ "0123456789") 40 ltac:(lia))).
Defined.

Section results.
Context {CT : Catalyst} {G : Gzip} {Cr : Crypto}.

(** A text for a configuration: the library's text of the decoded
    configuration, whose base mnemonic is replaced when it has one and whose
    other entries are the same, or the library's error. *)
Definition redaction_failed : string := "failed to redact load test config: ".

Definition shows (bytes text : string) : Prop :=
  match yaml_Unmarshal bytes with
  | inr err => text = redaction_failed +:+ Error err
  | inl cfg => exists safe,
      lookup_map safe "base_mnemonic" = (fun _ => VStr "[REDACTED]") <$> lookup_map cfg "base_mnemonic" /\
      (forall k, k <> "base_mnemonic" -> lookup_map safe k = lookup_map cfg k) /\
      match yaml_Marshal safe with
      | inl safeText => text = safeText
      | inr err => text = redaction_failed +:+ Error err
      end
  end.

Lemma shown_config_shows bytes : shows bytes (shown_config bytes).
Proof.
  unfold shown_config, redactLoadTestConfig, shows. destruct (yaml_Unmarshal bytes) as [cfg|err]; [|done].
  destruct (lookup_map cfg "base_mnemonic") as [v|] eqn:Hv.
  - exists (set_map cfg "base_mnemonic" (VStr "[REDACTED]")). rewrite lookup_set_map_eq. split; [done|].
    split; [|by destruct (yaml_Marshal _)]. intros k Hk. by apply lookup_set_map_ne, not_eq_sym.
  - exists cfg. split; [done|]. split; [done|]. by destruct (yaml_Marshal _).
Qed.

(** The configuration a request is turned into: its specification,
    completed with the chain's configuration, validated and written out. *)
Definition generated (req : RunLoadTestRequest) (bytes : string) : Prop :=
  exists cfg chainID,
    let spec := complete_spec (rl_LoadTestSpec req) cfg chainID (rl_BaseMnemonic req) (rl_NumWallets req) in
    LoadTestSpec_Validate spec = inl tt /\ LoadTestSpec_Marshal spec = inl bytes.

(** What a response shows of the configuration: nothing when none was
    generated. *)
Definition redacted (req : RunLoadTestRequest) (text : string) : Prop :=
  text = "" \/ exists bytes, generated req bytes /\ shows bytes text.

Lemma generateLoadTestSpec_generated req chainID c t :
  wpM (generateLoadTestSpec chainID (rl_LoadTestSpec req) (rl_BaseMnemonic req) (rl_NumWallets req)) c
    (fun _ _ o => forall bytes, o = Ok bytes -> generated req bytes) t.
Proof.
  unfold generateLoadTestSpec. wpM_step. wpM_step. wpM_step.
  apply (emits_use (fun _ => True)); [apply emits_any|]. intros l c' [nodes|e|m|] _; try done; cbn beta iota.
  destruct (catalyst_config _ _ _) as [cfg|]; [|by wpM_step]. cbv zeta.
  wpM_step. wpM_step. destruct (LoadTestSpec_Validate _) as [[]|e] eqn:Hv; cbn [lift_res]; [|by wpM_step].
  wpM_step. cbn [wrap_outcome]. destruct (LoadTestSpec_Marshal _) as [bytes|e] eqn:Hm; cbn [lift_res]; wpM_step; [|done].
  intros bytes' [= <-]. by exists cfg, chainID.
Qed.

(** Task logs in a response: the tail of the logs a task answered. *)
Definition logs_read (l : list (event act_sig)) (logs : string) : Prop :=
  len logs <= maxLoadTestTaskLogBytes /\
  (logs = "" \/ exists t full, ev (E := act_sig) (TaskLogs t) (Some (inl full)) ∈ l /\
     logs = truncateTaskLogs full maxLoadTestTaskLogBytes).

Lemma logs_read_app t l logs : logs_read t logs -> logs_read (t ++ l) logs.
Proof.
  intros [Hlen Hl]. split; [done|]. destruct Hl as [|(k & full & Hin & He)]; [by left|right].
  exists k, full. split; [|done]. apply elem_of_app. by left.
Qed.

(** Any response: its configuration is redacted, its logs are cut, and the
    provider state in it is current. *)
Definition response_ok (req : RunLoadTestRequest) (l : list (event act_sig)) (resp : RunLoadTestResponse) : Prop :=
  redacted req (rr_LoadTestConfig resp) /\ logs_read l (rr_TaskLogs resp) /\
  (rr_ProviderState resp = "" \/ saved l (rr_ProviderState resp)).

Variable req : RunLoadTestRequest.

Lemma response_ok_intro l ps cs result logs config reason :
  redacted req config -> logs_read l logs -> ps = "" \/ saved l ps ->
  response_ok req l (test_response ps cs result logs config reason).
Proof. done. Qed.
#[local] Hint Resolve logs_read_app : ironbird.

Lemma readTaskLogs_run t (Q : list (event act_sig) -> unit -> outcome string -> Prop) t0 :
  (forall x logs, logs_read (t0 ++ [ev (TaskLogs t) x]) logs ->
     logs = match x with Some (inl full) => truncateTaskLogs full maxLoadTestTaskLogBytes | _ => "" end ->
     Q (t0 ++ [ev (TaskLogs t) x]) tt (Ok logs)) ->
  wpM (readTaskLogs t) tt Q t0.
Proof.
  intros HQ. unfold readTaskLogs. wpM_step. wpM_step. wpM_step. apply HQ; [|done].
  destruct x as [[logs|e]|]; [|by split; [|left]..].
  split; [by apply truncateTaskLogs_len|]. right. exists t, logs. split; [|done]. apply elem_of_app. right. by left.
Qed.

Variable MarshalChain : ChainPackagedState -> res string.
Variable p : provider_ref.

(** The chain's serialization after the provider's. *)
Lemma serialize_chain_run (c : Chain) ps t (Q : list (event act_sig) -> unit -> outcome (res string * Chain) -> Prop) :
  saved t ps ->
  (forall l o, saved (t ++ l) ps -> Forall not_creation l ->
     match o with Ok _ => True | Err _ => False | _ => True end -> Q (t ++ l) tt o) ->
  wpM (on_chain p c (chain_Serialize MarshalChain)) tt Q t.
Proof.
  intros Hs HQ. apply wpM_on_chain, (emits_use not_chain_creation); [apply emits_chain_Serialize|].
  intros l c' o Hl. cbn [app].
  assert (Hl' : Forall not_creation (map (chain_event p) l)).
  { apply Forall_map. eapply Forall_impl; [exact Hl|]. apply not_creation_chain. }
  apply HQ; [by apply saved_later|done|]. by destruct o.
Qed.

Lemma handleLoadTestError_run c task config err msg t :
  redacted req config ->
  wpM (handleLoadTestError MarshalChain p c task config err msg) tt (fun l _ o =>
    match o with Ok (resp, e) => e <> None /\ response_ok req l resp | _ => True end) t.
Proof.
  intros Hc. unfold handleLoadTestError. cbv zeta. wpM_step.
  assert (Hlogs : forall Q : list (event act_sig) -> unit -> outcome string -> Prop,
    (forall l logs, logs_read (t ++ l) logs -> Q (t ++ l) tt (Ok logs)) ->
    wpM (match task with Some t => readTaskLogs t | None => retM "" end) tt Q t).
  { intros Q HQ. destruct task as [k|]; [by apply readTaskLogs_run; intros; apply HQ|].
    wpM_step. pose proof (HQ [] "") as HQ0. rewrite app_nil_r in HQ0. apply HQ0. by split; [|left]. }
  apply Hlogs. intros l logs Hlen. clear Hlogs. set (t1 := t ++ l) in *. clearbody t1. clear t l. rename t1 into t.
  do 2 wpM_step. cbn beta iota. destruct x as [state|e]; [|wpM_step; split; [done|]; apply response_ok_intro; eauto with ironbird].
  do 3 wpM_step. destruct (CompressData state) as [ps|e|m|] eqn:Hz; cbn beta iota; try done.
  2: { wpM_step. split; [done|]. apply response_ok_intro; eauto with ironbird. }
  pose proof (saved_now t p state ps Hz) as Hs. destruct c as [c|].
  2: { wpM_step. split; [done|]. apply response_ok_intro; eauto with ironbird. }
  wpM_step. apply (serialize_chain_run _ ps); [done|]. intros l' o Hs' _ Ho.
  destruct o as [[[cstate|e] c']|e|m|]; try done; cbn beta iota.
  2: { wpM_step. split; [done|]. apply response_ok_intro; eauto with ironbird. }
  do 3 wpM_step. destruct (CompressData cstate); cbn beta iota; try done;
    wpM_step; (split; [done|]); apply response_ok_intro; eauto with ironbird.
Qed.

Lemma finish_load_test_run c result logs config msg reason err t :
  redacted req config -> logs_read t logs ->
  wpM (finish_load_test MarshalChain p c result logs config msg reason err) tt (fun l _ o =>
    match o with
    | Ok (resp, e) => response_ok req l resp /\
        (e = None -> err = None /\ rr_Result resp = fst result /\ rr_ResultError resp = snd result /\
           rr_TaskLogs resp = logs /\ rr_LoadTestConfig resp = config /\
           exists state l', l = t ++ ev (PSerializeProvider p) (inl state) :: l' /\
             CompressData state = Ok (rr_ProviderState resp))
    | _ => True
    end) t.
Proof.
  intros Hc Hlen. unfold finish_load_test.
  do 2 wpM_step. cbn beta iota. destruct x as [state|e]; [|wpM_step; split; [|done]; apply response_ok_intro; eauto with ironbird].
  do 3 wpM_step. destruct (CompressData state) as [ps|e|m|] eqn:Hz; cbn beta iota; try done.
  2: { wpM_step. split; [|done]. apply response_ok_intro; eauto with ironbird. }
  pose proof (saved_now t p state ps Hz) as Hs.
  wpM_step. apply (serialize_chain_run _ ps); [done|]. intros l' o Hs' _ Ho.
  destruct o as [[[cstate|e] c']|e|m|]; try done; cbn beta iota.
  2: { wpM_step. split; [|done]. apply response_ok_intro; eauto with ironbird. }
  do 3 wpM_step. destruct (CompressData cstate); cbn beta iota; try done;
    wpM_step; (split; [apply response_ok_intro; eauto with ironbird|]); intros He; [|done..].
  split_and!; [done..|]. eexists state, l'. by rewrite <- app_assoc.
Qed.

(** The task of a run: created, given the configuration and started. *)
Definition prepared (k : task_ref) (bytes : string) (l : list (event act_sig)) : Prop :=
  ev (E := act_sig) (PCreateTask p (catalyst_task (rl_CatalystVersion req))) (inl k) ∈ l /\
  ev (E := act_sig) (TaskCall k (WriteFile "loadtest.yml" bytes)) (inl tt) ∈ l /\
  ev (E := act_sig) (TaskCall k Start) (inl tt) ∈ l.

Lemma prepared_app k bytes t l : prepared k bytes t -> prepared k bytes (t ++ l).
Proof. intros (H1 & H2 & H3). split_and!; apply elem_of_app; by left. Qed.

(** A run with a result: its task was created, given the configuration that
    the response shows and started; it was seen stopped, its result file
    read after that, and it was destroyed before the states were taken. *)
Definition result_read (l : list (event act_sig)) (resp : RunLoadTestResponse) : Prop :=
  exists k conf bytes logs destroyed state l1 l2,
    generated req conf /\ shows conf (rr_LoadTestConfig resp) /\ prepared k conf l1 /\
    l = l1 ++ [ev (TaskCall k GetStatus) (inl TASK_STOPPED); ev (TaskCall k (ReadFile "load_test.json")) (inl bytes);
               ev (TaskLogs k) logs; ev (TaskCall k Destroy) destroyed; ev (PSerializeProvider p) (inl state)] ++ l2 /\
    LoadTestResult_Unmarshal bytes = inl (rr_Result resp, rr_ResultError resp) /\
    rr_TaskLogs resp =
      match logs with Some (inl full) => truncateTaskLogs full maxLoadTestTaskLogBytes | _ => "" end /\
    CompressData state = Ok (rr_ProviderState resp).

Definition test_result (l : list (event act_sig)) (o : outcome (RunLoadTestResponse * option error)) : Prop :=
  match o with
  | Ok (resp, e) => response_ok req l resp /\ (e = None -> result_read l resp)
  | _ => True
  end.

Lemma error_result c task config err msg t :
  redacted req config ->
  wpM (handleLoadTestError MarshalChain p c task config err msg) tt (fun l _ o => test_result l o) t.
Proof.
  intros Hc. eapply wpM_mono; [|by apply handleLoadTestError_run].
  intros l [] [[resp e]|e|m|] H; [|done..]. destruct H as [He Hr]. by split.
Qed.

Lemma trace_tail {A} (t l : list A) b c d e f :
  ((((t ++ [b]) ++ [c]) ++ [d]) ++ [e]) ++ f :: l = t ++ [b; c; d; e; f] ++ l.
Proof. by rewrite <- !app_assoc. Qed.

Lemma load_test_round_run stop c k conf t
    (Q : list (event act_sig) -> unit -> outcome (option (RunLoadTestResponse * option error)) -> Prop) :
  generated req conf -> prepared k conf t ->
  (forall l o, test_result l o -> Q l tt (match o with Ok r => Ok (Some r) | Err e => Err e | Panic m => Panic m | NoFuel => NoFuel end)) ->
  (forall l, Q (t ++ l) tt (Ok None)) ->
  wpM (load_test_round MarshalChain p stop c k (shown_config conf)) tt Q t.
Proof.
  intros Hg Hprep HQ Hnone. unfold load_test_round. cbv zeta.
  pose proof (shown_config_shows conf) as Hshow. generalize dependent (shown_config conf). intros config Hshow.
  assert (Hc : redacted req config) by (right; eauto).
  assert (Hsome : forall (m : M act_sig unit (RunLoadTestResponse * option error)) t',
    wpM m tt (fun l _ o => test_result l o) t' -> wpM (let* r := m in retM (Some r)) tt Q t').
  { intros m t' Hm. wpM_step. eapply wpM_mono; [|exact Hm]. intros l [] o Ho. specialize (HQ l o Ho).
    destruct o; [wpM_step|..]; done. }
  do 2 wpM_step. destruct x as [err|]; [by apply Hsome, error_result|].
  wpM_step. apply (emits_use (fun _ => True)); [apply emits_any|]. intros l1 [] [[[] reason]|e|m|] _.
  - apply Hsome. unfold stopLoadTestByCondition. wpM_step. apply readTaskLogs_run. intros x logs Hlen _.
    do 2 wpM_step. eapply wpM_mono; [|by apply finish_load_test_run; [|apply logs_read_app]].
    intros l [] [[resp e]|e|m|] Hr; [|done..]. destruct Hr as [Hr He]. split; [done|]. by intros (? & _)%He.
  - do 2 wpM_step. destruct x as [[]|e]; cbn beta iota; try (wpM_step; rewrite <- !app_assoc; apply Hnone).
    do 2 wpM_step. cbn beta iota. destruct x as [bytes|e]; [|by apply Hsome, error_result].
    destruct (LoadTestResult_Unmarshal bytes) as [result|e] eqn:Hres; [|by apply Hsome, error_result].
    wpM_step. apply readTaskLogs_run. intros x logs Hlogs Hread. do 2 wpM_step. apply Hsome.
    eapply wpM_mono; [|by apply finish_load_test_run; [|apply logs_read_app]].
    intros l [] [[resp e]|e|m|] Hr; [|done..]. destruct Hr as [Hr He]. split; [done|].
    intros (_ & H1 & H2 & H3 & H4 & state & l2 & -> & Hz)%He. exists k, conf, bytes, x, x0, state. eexists _, l2.
    rewrite H1, H2, H3, H4. split_and!; [done..| |apply trace_tail|by destruct result|done|done].
    by apply prepared_app, prepared_app.
  - by apply (HQ _ (Err e)).
  - by apply (HQ _ (Panic m)).
  - by apply (HQ _ NoFuel).
Qed.

Lemma run_on_chain_run fuel stop c t :
  wpM (run_on_chain MarshalChain p fuel stop req c) tt (fun l _ o => test_result l o) t.
Proof.
  assert (Hnone : redacted req "") by by left.
  unfold run_on_chain. wpM_step. apply wpM_on_chain. eapply wpM_mono; [|apply (generateLoadTestSpec_generated req)].
  intros l1 c1 [bytes|e|m|] Hg; cbn beta iota; [|by apply error_result|done..]. specialize (Hg _ eq_refl).
  assert (Hc : redacted req (shown_config bytes)) by (right; eauto using shown_config_shows). cbv zeta.
  do 2 wpM_step. destruct x as [k|e]; [|by apply error_result].
  do 2 wpM_step. destruct x as [[]|e]; [|by apply error_result].
  do 2 wpM_step. destruct x as [[]|e]; [|by apply error_result].
  set (t0 := ((((t ++ _) ++ _) ++ _) ++ _)). assert (Hprep : prepared k bytes t0) by (split_and!; in_trace).
  clearbody t0. revert t0 Hprep.
  induction fuel as [|n IH]; intros t1 Hprep; cbn [poll]; [by wpM_step|].
  wpM_step. apply (load_test_round_run stop c1 k bytes); [done..| |].
  - by intros l [r|e|m|] Hr.
  - intros l. by apply IH, prepared_app.
Qed.

End results.

Section activity_results.
Context {CT : Catalyst} {G : Gzip} {Cr : Crypto}.
Variable MarshalChain : ChainPackagedState -> res string.
Variable UnmarshalChain : string -> res ChainPackagedState.

(** C7: a load test reports success only after its task was created, given
    the configuration generated from the request and started, then seen
    stopped; the result is what was then read from it, the logs are its own,
    and it was destroyed before the states were taken.  On every path, errors
    and early stops included, the configuration in a response is empty or a
    text for the generated configuration: the YAML library's text of that
    configuration with its [base_mnemonic] entry replaced and every other
    entry as it was, or the library's error.  The logs in a response are
    empty or the end of a task's logs, within the limit, and a provider state
    in it was serialized after the last task was created. *)
Theorem RunLoadTest_spec (fuel : nat) (stopCondition : bool) (req : RunLoadTestRequest) :
  wpM (RunLoadTest MarshalChain UnmarshalChain fuel stopCondition req) tt (fun l _ o => exists p, test_result req p l o) [].
Proof.
  assert (Hempty : forall l e, exists p, test_result req p l (Ok (empty_test_response, Some e))).
  { intros l e. exists 0%nat. split; [|done]. split; [by left|]. split; [split; [done|by left]|by left]. }
  assert (Hpanic : forall l o, is_ok o = false -> exists p, test_result req p l o).
  { intros l o Ho. exists 0%nat. by destruct o. }
  unfold RunLoadTest. cbv zeta. do 3 wpM_step.
  destruct (DecompressData (rl_ProviderState req)); cbn beta iota; [|by wpM_step|by apply Hpanic|by apply Hpanic].
  do 2 wpM_step. apply (emits_use (fun _ => True)); [apply emits_any|].
  intros l1 [] [p|e|m|] _; [|by wpM_step|by apply Hpanic|by apply Hpanic].
  do 3 wpM_step. destruct (DecompressData (rl_ChainState req)); cbn beta iota; [|by wpM_step|by apply Hpanic|by apply Hpanic].
  wpM_step. apply wpM_on_chain_any; [|intros; by apply Hpanic..]. intros l2 [c|e] []; cbn beta iota.
  - eapply wpM_mono; [|apply run_on_chain_run]. by eexists.
  - eapply wpM_mono; [|by apply error_result; left]. by eexists.
Qed.
End activity_results.
