(* ===== verification/Keyed.v ===== *)
(** * Tables with a key

    A list whose elements have keys, seen as the map from keys to elements:
    what appending, updating and filtering the list do to the map. *)

From S2P Require Import Prelude.

Lemma List_filter_perm {A} (p : A -> bool) (l l' : list A) : l ≡ₚ l' -> List.filter p l ≡ₚ List.filter p l'.
Proof.
  induction 1 as [|x l l' _ IH|x y l|l l2 l3 _ IH1 _ IH2]; cbn; [done|by destruct (p x); rewrite IH| |by rewrite IH1].
  destruct (p x), (p y); try done. apply Permutation_swap.
Qed.

Section keyed.
Context {A : Type} (key : A -> string).

Definition keyed (l : list A) : gmap string A := list_to_map (map (fun a => (key a, a)) l).

Lemma keyed_pairs l : (map (fun a => (key a, a)) l).*1 = map key l.
Proof. induction l as [|a l IH]; [done|]. cbn [map fmap list_fmap fst]. by f_equal. Qed.

Lemma keyed_lookup l k a : NoDup (map key l) -> keyed l !! k = Some a <-> a ∈ l /\ key a = k.
Proof.
  intros Hnd. unfold keyed. rewrite <- elem_of_list_to_map by (by rewrite keyed_pairs).
  rewrite list_elem_of_fmap. split; [intros (b & [= -> ->] & Hb)|intros [Ha <-]]; eauto.
Qed.

Lemma keyed_None l k : keyed l !! k = None <-> k ∉ map key l.
Proof. unfold keyed. by rewrite <- not_elem_of_list_to_map, keyed_pairs. Qed.

Lemma keyed_values l : NoDup (map key l) -> (map_to_list (keyed l)).*2 ≡ₚ l.
Proof.
  intros Hnd. unfold keyed. rewrite map_to_list_to_map by (by rewrite keyed_pairs).
  rewrite <- list_fmap_compose. apply reflexive_eq. induction l as [|a l IH]; [done|].
  cbn. f_equal. apply IH. by apply NoDup_cons in Hnd as [_ ?].
Qed.

Lemma keyed_snoc l a : NoDup (map key l) -> key a ∉ map key l -> keyed (l ++ [a]) = <[key a := a]> (keyed l).
Proof.
  intros Hnd Ha. unfold keyed. rewrite map_app. rewrite list_to_map_app. cbn.
  apply map_eq. intros k. rewrite lookup_union. fold (keyed l).
  destruct (decide (k = key a)) as [->|Hk].
  - rewrite lookup_insert_eq. apply keyed_None in Ha. by rewrite Ha, lookup_insert_eq.
  - rewrite !lookup_insert_ne by done. rewrite lookup_empty. by destruct (keyed l !! k).
Qed.

Lemma map_update_keys (f : A -> A) k l :
  (forall a, key (f a) = key a) -> map key (map (fun a => if String.eqb (key a) k then f a else a) l) = map key l.
Proof. intros Hf. rewrite map_map. apply map_ext. intros a. by destruct (String.eqb _ _). Qed.

Lemma keyed_update (f : A -> A) k l : NoDup (map key l) -> (forall a, key (f a) = key a) ->
  keyed (map (fun a => if String.eqb (key a) k then f a else a) l) = alter f k (keyed l).
Proof.
  intros Hnd Hf. unfold keyed. clear Hnd. induction l as [|a l IH]; cbn; [by rewrite alter_empty|].
  destruct (String.eqb_spec (key a) k) as [<-|Hk].
  - rewrite Hf, IH. apply map_eq. intros k'. destruct (decide (k' = key a)) as [->|Hne].
    + by rewrite lookup_insert_eq, lookup_alter_eq, lookup_insert_eq.
    + rewrite lookup_insert_ne, lookup_alter_ne, lookup_alter_ne, lookup_insert_ne; done.
  - rewrite IH. by rewrite alter_insert_ne by done.
Qed.

Lemma keyed_delete k l : NoDup (map key l) ->
  keyed (List.filter (fun a => negb (String.eqb (key a) k)) l) = delete k (keyed l).
Proof.
  unfold keyed. intros Hnd. induction l as [|a l IH]; cbn; [by rewrite delete_empty|].
  cbn in Hnd. apply NoDup_cons in Hnd as [Ha Hnd].
  destruct (String.eqb_spec (key a) k) as [->|Hk]; cbn.
  - rewrite IH by done. by rewrite delete_insert_eq.
  - rewrite IH by done. by rewrite delete_insert_ne.
Qed.

Lemma filter_keys_NoDup p l : NoDup (map key l) -> NoDup (map key (List.filter p l)).
Proof.
  induction l as [|a l IH]; cbn; [done|]. intros [Ha Hnd]%NoDup_cons. destruct (p a); cbn; [|auto].
  apply NoDup_cons. split; [|auto]. intros Hin. apply Ha. apply list_elem_of_fmap in Hin as (b & Hk & Hb).
  apply list_elem_of_fmap. exists b. split; [done|]. apply list_elem_of_In in Hb. apply filter_In in Hb as [Hb _].
  by apply list_elem_of_In.
Qed.

Lemma existsb_key k l : existsb (fun a => String.eqb (key a) k) l = bool_decide (k ∈ map key l).
Proof.
  induction l as [|a l IH]; cbn; [done|]. rewrite IH. apply Bool.eq_iff_eq_true.
  rewrite orb_true_iff, String.eqb_eq, !bool_decide_eq_true, elem_of_cons. naive_solver.
Qed.
End keyed.
