(* ===== verification/Encodings.v ===== *)
(** * Text forms of the data

    Nodes, wallets and workflow requests as dynamic values, and so as texts
    ([GoVal.encode_val]), with their decoding: the serialization libraries
    of the examples. *)

From S2P Require Import Prelude GoStrings GoVal ProviderDefs ChainTypes Messages.

Definition val_list {A} (dec : GoVal -> option A) (v : GoVal) : option (list A) :=
  match v with VList l => mapM dec l | _ => None end.

Lemma val_list_map {A} (enc : A -> GoVal) dec (l : list A) :
  (forall x, dec (enc x) = Some x) -> val_list dec (VList (map enc l)) = Some l.
Proof. intros H. cbn. induction l as [|x l IH]; [done|]. cbn. by rewrite H, IH. Qed.

Definition opt_val {A} (enc : A -> GoVal) (o : option A) : GoVal :=
  match o with None => VNil | Some x => VList [enc x] end.
Definition val_opt {A} (dec : GoVal -> option A) (v : GoVal) : option (option A) :=
  match v with VNil => Some None | VList [x] => x ← dec x; Some (Some x) | _ => None end.

Lemma val_opt_val {A} (enc : A -> GoVal) dec (o : option A) :
  (forall x, dec (enc x) = Some x) -> val_opt dec (opt_val enc o) = Some o.
Proof. intros H. destruct o as [x|]; [|done]. cbn. by rewrite H. Qed.

Definition val_string (v : GoVal) : option string := match v with VStr s => Some s | _ => None end.
Definition val_gomap (v : GoVal) : option gomap := match v with VMap m => Some m | _ => None end.

Definition strs_val (m : gmap string string) : GoVal := VMapOther (map_to_list m).
Definition val_strs (v : GoVal) : option (gmap string string) :=
  match v with VMapOther m => Some (list_to_map m) | _ => None end.

Lemma val_strs_val m : val_strs (strs_val m) = Some m.
Proof. cbn. by rewrite list_to_map_to_list. Qed.

Definition node_val (n : Node) : GoVal :=
  VList [VStr (n_Name n); VStr (Address n); VStr (Rpc n); VStr (Lcd n); VStr (Grpc n); VStr (Evmrpc n); VStr (Evmws n)].
Definition val_node (v : GoVal) : option Node :=
  match v with
  | VList [VStr a; VStr b; VStr c; VStr d; VStr e; VStr f; VStr g] =>
      Some {| n_Name := a; Address := b; Rpc := c; Lcd := d; Grpc := e; Evmrpc := f; Evmws := g |}
  | _ => None
  end.

Lemma val_node_val n : val_node (node_val n) = Some n.
Proof. by destruct n. Qed.

Definition spec_val (x : LoadTestSpec) : GoVal :=
  VList [VStr (Kind x); VStr (ls_ChainID x); VStr (ls_BaseMnemonic x); VInt (ls_NumWallets x); ChainCfg x; VStr (ls_Rest x)].
Definition val_spec (v : GoVal) : option LoadTestSpec :=
  match v with
  | VList [VStr a; VStr b; VStr c; VInt n; cfg; VStr d] =>
      Some {| Kind := a; ls_ChainID := b; ls_BaseMnemonic := c; ls_NumWallets := n; ChainCfg := cfg; ls_Rest := d |}
  | _ => None
  end.

Lemma val_spec_val x : val_spec (spec_val x) = Some x.
Proof. by destruct x. Qed.

Definition genesis_kv_val (g : GenesisKV) : GoVal := VList [VStr (gkv_Key g); gkv_Value g].
Definition val_genesis_kv (v : GoVal) : option GenesisKV :=
  match v with VList [VStr k; x] => Some {| gkv_Key := k; gkv_Value := x |} | _ => None end.

Lemma val_genesis_kv_val g : val_genesis_kv (genesis_kv_val g) = Some g.
Proof. by destruct g. Qed.

Definition region_val (r : RegionConfig) : GoVal := VList [VStr (rc_Name r); VInt (NumValidators r); VInt (NumNodes r)].
Definition val_region (v : GoVal) : option RegionConfig :=
  match v with
  | VList [VStr k; VInt a; VInt b] => Some {| rc_Name := k; NumValidators := a; NumNodes := b |}
  | _ => None
  end.

Lemma val_region_val r : val_region (region_val r) = Some r.
Proof. by destruct r. Qed.

Definition chains_val (c : ChainsConfig) : GoVal :=
  VList [VStr (ch_Name c); VStr (ch_Image c); VStr (ch_Version c); VList (map genesis_kv_val (GenesisModifications c));
         VInt (ch_NumOfNodes c); VInt (ch_NumOfValidators c); VList (map region_val (ch_RegionConfigs c));
         opt_val VMap (ch_CustomAppConfig c); opt_val VMap (ch_CustomConsensusConfig c);
         opt_val VMap (ch_CustomClientConfig c); VBool (ch_SetSeedNode c); VBool (ch_SetPersistentPeers c)].
Definition val_chains (v : GoVal) : option ChainsConfig :=
  match v with
  | VList [VStr a; VStr b; VStr c; g; VInt n; VInt m; r; x; y; z; VBool p; VBool q] =>
      g ← val_list val_genesis_kv g; r ← val_list val_region r; x ← val_opt val_gomap x; y ← val_opt val_gomap y;
      z ← val_opt val_gomap z;
      Some {| ch_Name := a; ch_Image := b; ch_Version := c; GenesisModifications := g; ch_NumOfNodes := n;
              ch_NumOfValidators := m; ch_RegionConfigs := r; ch_CustomAppConfig := x; ch_CustomConsensusConfig := y;
              ch_CustomClientConfig := z; ch_SetSeedNode := p; ch_SetPersistentPeers := q |}
  | _ => None
  end.

Lemma val_chains_val c : val_chains (chains_val c) = Some c.
Proof.
  unfold chains_val, val_chains. rewrite (val_list_map genesis_kv_val) by apply val_genesis_kv_val.
  cbn [mbind option_bind]. rewrite (val_list_map region_val) by apply val_region_val.
  cbn [mbind option_bind]. rewrite !val_opt_val by done. by destruct c.
Qed.

Definition request_val (r : TestnetWorkflowRequest) : GoVal :=
  VList [VStr (Repo r); VStr (SHA r); VBool (IsEvmChain_ r); chains_val (ChainConfig_ r); VStr (RunnerType_ r);
         VStr (CosmosSdkSha r); VStr (CometBFTSha r); opt_val spec_val (EthereumLoadTestSpec r);
         opt_val spec_val (CosmosLoadTestSpec r); VBool (LongRunningTestnet r); VBool (LaunchLoadBalancer_ r);
         VStr (TestnetDuration r); VInt (NumWallets r); VStr (BaseMnemonic r); VStr (CatalystVersion r);
         opt_val strs_val (ProviderSpecificConfig_ r)].
Definition val_request (v : GoVal) : option TestnetWorkflowRequest :=
  match v with
  | VList [VStr a; VStr b; VBool c; ch; VStr d; VStr e; VStr f; eth; cos; VBool g; VBool h; VStr i; VInt j; VStr k;
           VStr l; m] =>
      ch ← val_chains ch; eth ← val_opt val_spec eth; cos ← val_opt val_spec cos; m ← val_opt val_strs m;
      Some {| Repo := a; SHA := b; IsEvmChain_ := c; ChainConfig_ := ch; RunnerType_ := d; CosmosSdkSha := e;
              CometBFTSha := f; EthereumLoadTestSpec := eth; CosmosLoadTestSpec := cos; LongRunningTestnet := g;
              LaunchLoadBalancer_ := h; TestnetDuration := i; NumWallets := j; BaseMnemonic := k;
              CatalystVersion := l; ProviderSpecificConfig_ := m |}
  | _ => None
  end.

Lemma val_request_val r : val_request (request_val r) = Some r.
Proof.
  unfold request_val, val_request. rewrite val_chains_val. cbn [mbind option_bind].
  rewrite !(val_opt_val spec_val) by apply val_spec_val. cbn [mbind option_bind].
  rewrite (val_opt_val strs_val) by apply val_strs_val. by destruct r.
Qed.

(** A text and back. *)
Definition decode_by {A} (dec : GoVal -> option A) (s : string) : res A :=
  match decode_val s ≫= dec with Some x => inl x | None => inr (ENew "invalid text") end.

Lemma decode_by_encode {A} (enc : A -> GoVal) dec x :
  dec (enc x) = Some x -> decode_by dec (encode_val (enc x)) = inl x.
Proof. intros H. unfold decode_by. rewrite decode_encode_val. cbn. by rewrite H. Qed.
