(* ===== verification/WorkflowStore.v ===== *)
(** * The data and the interface of the workflow database: [server/db/models.go], [sqlite.go]

    The data of [models.go], the interface [DB] the service uses, and what
    it promises ([DBSpec]) on an abstract database, a map from identifiers
    to workflows and one to templates.  A nil slice or map is an empty one. *)

From S2P Require Import Prelude GoStrings GoVal ProviderDefs ChainTypes Messages.
From stdpp Require Import sorting.
#[local] Open Scope Z_scope.

(** ** [server/db/models.go] *)
Definition WorkflowStatus : Type := Z.

Definition STATUS_UNSPECIFIED : WorkflowStatus := 0%Z.
Definition STATUS_RUNNING : WorkflowStatus := 1%Z.
Definition STATUS_COMPLETED : WorkflowStatus := 2%Z.
Definition STATUS_FAILED : WorkflowStatus := 3%Z.
Definition STATUS_CANCELED : WorkflowStatus := 4%Z.
Definition STATUS_TERMINATED : WorkflowStatus := 5%Z.
Definition STATUS_CONTINUED_AS_NEW : WorkflowStatus := 6%Z.
Definition STATUS_TIMED_OUT : WorkflowStatus := 7%Z.

Definition WorkflowStatusToString (status : WorkflowStatus) : string :=
  if status =? STATUS_UNSPECIFIED then "pending"
  else if status =? STATUS_RUNNING then "running"
  else if status =? STATUS_COMPLETED then "completed"
  else if status =? STATUS_FAILED then "failed"
  else if status =? STATUS_CANCELED then "canceled"
  else if status =? STATUS_TERMINATED then "terminated"
  else if status =? STATUS_CONTINUED_AS_NEW then "running"
  else if status =? STATUS_TIMED_OUT then "failed"
  else "unknown".

Definition StringToWorkflowStatus (status : string) : WorkflowStatus :=
  if String.eqb status "pending" then STATUS_UNSPECIFIED
  else if String.eqb status "running" then STATUS_RUNNING
  else if String.eqb status "completed" then STATUS_COMPLETED
  else if String.eqb status "failed" then STATUS_FAILED
  else if String.eqb status "canceled" then STATUS_CANCELED
  else if String.eqb status "terminated" then STATUS_TERMINATED
  else STATUS_UNSPECIFIED.

Record Workflow := {
  w_ID : Z;
  w_WorkflowID : string;
  w_Nodes : list Node;
  w_Validators : list Node;
  w_LoadBalancers : list Node;
  w_Wallets : option WalletInfo;
  w_MonitoringLinks : gmap string string;
  w_Status : WorkflowStatus;
  w_Config : TestnetWorkflowRequest;
  w_LoadTestSpec : option string;          (* json.RawMessage *)
  w_Provider : string;
  w_TemplateID : string;
  w_RunName : string;
  w_CreatedAt : Z;                         (* an instant, in nanoseconds *)
  w_UpdatedAt : Z
}.

Record WorkflowUpdate := {
  wu_Nodes : option (list Node);
  wu_Validators : option (list Node);
  wu_LoadBalancers : option (list Node);
  wu_Wallets : option WalletInfo;
  wu_MonitoringLinks : option (gmap string string);
  wu_Status : option WorkflowStatus;
  wu_Provider : option string;
  wu_TemplateID : option string;
  wu_RunName : option string
}.

Definition empty_WorkflowUpdate : WorkflowUpdate :=
  {| wu_Nodes := None; wu_Validators := None; wu_LoadBalancers := None; wu_Wallets := None;
     wu_MonitoringLinks := None; wu_Status := None; wu_Provider := None; wu_TemplateID := None;
     wu_RunName := None |}.

Record WorkflowTemplate := {
  wt_ID : string;
  wt_Description : string;
  wt_Config : TestnetWorkflowRequest;
  wt_CreatedAt : Z;
  wt_CreatedBy : string
}.

(** The workflow with what the call sets in it. *)
Definition with_row (w : Workflow) (id now : Z) : Workflow :=
  {| w_ID := id; w_WorkflowID := w_WorkflowID w; w_Nodes := w_Nodes w; w_Validators := w_Validators w;
     w_LoadBalancers := w_LoadBalancers w; w_Wallets := w_Wallets w; w_MonitoringLinks := w_MonitoringLinks w;
     w_Status := w_Status w; w_Config := w_Config w; w_LoadTestSpec := w_LoadTestSpec w;
     w_Provider := w_Provider w; w_TemplateID := w_TemplateID w; w_RunName := w_RunName w;
     w_CreatedAt := now; w_UpdatedAt := now |}.

Definition empty_object (s : string) : bool := String.eqb s "" || String.eqb s "{}".

(** [LIMIT limit OFFSET offset] *)
Definition window {A} (limit offset : Z) (l : list A) : list A :=
  let l := drop (Z.to_nat offset) l in
  if limit <? 0 then l else take (Z.to_nat limit) l.

(** ** The interface [DB] *)
Class DB (E : sig) (S : Type) := {
  db_CreateWorkflow : Workflow -> M E S Workflow;
  db_GetWorkflow : string -> M E S Workflow;
  db_UpdateWorkflow : string -> WorkflowUpdate -> M E S unit;
  db_ListWorkflows : Z -> Z -> M E S (list Workflow);
  db_CountWorkflows : M E S Z;
  db_DeleteWorkflow : string -> M E S unit;
  db_CreateWorkflowTemplate : WorkflowTemplate -> M E S unit;
  db_GetWorkflowTemplate : string -> M E S WorkflowTemplate;
  db_UpdateWorkflowTemplate : string -> WorkflowTemplate -> M E S unit;
  db_ListWorkflowTemplates : Z -> Z -> M E S (list WorkflowTemplate);
  db_DeleteWorkflowTemplate : string -> M E S unit;
  db_ListTemplateWorkflows : string -> Z -> Z -> M E S (list Workflow)
}.

(** ** The abstract database *)
Record store := {
  st_workflows : gmap string Workflow;
  st_templates : gmap string WorkflowTemplate
}.

Definition with_st_workflows (st : store) (m : gmap string Workflow) : store :=
  {| st_workflows := m; st_templates := st_templates st |}.
Definition with_st_templates (st : store) (m : gmap string WorkflowTemplate) : store :=
  {| st_workflows := st_workflows st; st_templates := m |}.

(** Empty wallets and an empty specification are read back as none. *)
Definition stored_wallets (i : WalletInfo) : option WalletInfo :=
  if decide (i = empty_WalletInfo) then None else Some i.
Definition stored_spec (s : option string) : option string :=
  match s with Some s => if empty_object s then None else Some s | None => None end.

(** A new workflow as it is read back. *)
Definition stored (w : Workflow) (id now : Z) : Workflow :=
  {| w_ID := id; w_WorkflowID := w_WorkflowID w; w_Nodes := w_Nodes w; w_Validators := w_Validators w;
     w_LoadBalancers := w_LoadBalancers w; w_Wallets := w_Wallets w ≫= stored_wallets;
     w_MonitoringLinks := w_MonitoringLinks w; w_Status := w_Status w; w_Config := w_Config w;
     w_LoadTestSpec := stored_spec (w_LoadTestSpec w); w_Provider := w_Provider w;
     w_TemplateID := w_TemplateID w; w_RunName := w_RunName w; w_CreatedAt := now; w_UpdatedAt := now |}.

(** The given fields replace the workflow's. *)
Definition apply_fields (u : WorkflowUpdate) (w : Workflow) : Workflow :=
  {| w_ID := w_ID w; w_WorkflowID := w_WorkflowID w;
     w_Nodes := default (w_Nodes w) (wu_Nodes u);
     w_Validators := default (w_Validators w) (wu_Validators u);
     w_LoadBalancers := default (w_LoadBalancers w) (wu_LoadBalancers u);
     w_Wallets := match wu_Wallets u with Some i => stored_wallets i | None => w_Wallets w end;
     w_MonitoringLinks := default (w_MonitoringLinks w) (wu_MonitoringLinks u);
     w_Status := default (w_Status w) (wu_Status u);
     w_Config := w_Config w; w_LoadTestSpec := w_LoadTestSpec w;
     w_Provider := default (w_Provider w) (wu_Provider u);
     w_TemplateID := default (w_TemplateID w) (wu_TemplateID u);
     w_RunName := default (w_RunName w) (wu_RunName u);
     w_CreatedAt := w_CreatedAt w; w_UpdatedAt := w_UpdatedAt w |}.

Definition with_updated (at_ : Z) (w : Workflow) : Workflow :=
  {| w_ID := w_ID w; w_WorkflowID := w_WorkflowID w; w_Nodes := w_Nodes w; w_Validators := w_Validators w;
     w_LoadBalancers := w_LoadBalancers w; w_Wallets := w_Wallets w; w_MonitoringLinks := w_MonitoringLinks w;
     w_Status := w_Status w; w_Config := w_Config w; w_LoadTestSpec := w_LoadTestSpec w;
     w_Provider := w_Provider w; w_TemplateID := w_TemplateID w; w_RunName := w_RunName w;
     w_CreatedAt := w_CreatedAt w; w_UpdatedAt := at_ |}.

Definition apply_update (u : WorkflowUpdate) (at_ : Z) (w : Workflow) : Workflow :=
  with_updated at_ (apply_fields u w).

Definition template_update (t : WorkflowTemplate) (old : WorkflowTemplate) : WorkflowTemplate :=
  {| wt_ID := wt_ID old; wt_Description := wt_Description t; wt_Config := wt_Config t;
     wt_CreatedAt := wt_CreatedAt old; wt_CreatedBy := wt_CreatedBy old |}.

Definition template_created (t : WorkflowTemplate) (now : Z) : WorkflowTemplate :=
  {| wt_ID := wt_ID t; wt_Description := wt_Description t; wt_Config := wt_Config t;
     wt_CreatedAt := now; wt_CreatedBy := wt_CreatedBy t |}.

(** The order of the times of creation in which a database lists its
    entries: [newer t1 t2] when what was created at [t1] may come first. *)
Class CreatedOrder := newer : Z -> Z -> Prop.

(** Running workflows first, then the newest first. *)
Definition running_first {N : CreatedOrder} (w1 w2 : Workflow) : Prop :=
  (w_Status w1 = STATUS_RUNNING /\ w_Status w2 <> STATUS_RUNNING) \/
  ((w_Status w1 = STATUS_RUNNING <-> w_Status w2 = STATUS_RUNNING) /\ newer (w_CreatedAt w1) (w_CreatedAt w2)).

(** What a listing of some values is: the window of all of them in order. *)
Definition listing {A} (values : list A) (before : A -> A -> Prop) (limit offset : Z) (l : list A) : Prop :=
  exists all, all ≡ₚ values /\ Sorted before all /\ l = window limit offset all.

Definition values {A} (m : gmap string A) : list A := (map_to_list m).*2.

(** ** What each operation promises: the store before and after, and the outcome *)
Definition create_spec (w : Workflow) (st st' : store) (o : outcome Workflow) : Prop :=
  match o with
  | Ok w' => st_workflows st !! w_WorkflowID w = None /\ exists id now, w' = with_row w id now /\
      map_Forall (fun _ w0 => w_ID w0 < id) (st_workflows st) /\
      st' = with_st_workflows st (<[w_WorkflowID w := stored w id now]> (st_workflows st))
  | Err _ => st' = st
  | _ => False
  end.

Definition get_spec {A} (m : gmap string A) (id missing : string) (o : outcome A) : Prop :=
  match o with
  | Ok w => m !! id = Some w
  | Err e => e = ENew (missing +:+ id) -> m !! id = None
  | _ => False
  end.

(** An update or a deletion of one entry: done, or refused, in which case
    the entry is as before unless only the count of rows failed. *)
Definition change_spec {A} (m m' : gmap string A) (id : string) (changed : gmap string A -> Prop)
    (o : outcome unit) : Prop :=
  match o with
  | Ok _ => is_Some (m !! id) /\ changed m'
  | Err _ => m' = m \/ changed m'
  | _ => False
  end.

Definition list_spec {A} (vs : list A) (before : A -> A -> Prop) (limit offset : Z) (o : outcome (list A)) : Prop :=
  match o with
  | Ok l => listing vs before limit offset l
  | Err _ => True
  | _ => False
  end.

(** [represents s st]: the concrete state [s] holds the store [st]; an
    operation run from it ends in a state that holds the store its
    specification gives. *)
Definition implements {E S A} (represents : S -> store -> Prop) (m : M E S A)
    (spec : store -> store -> outcome A -> Prop) : Prop :=
  forall s st t, represents s st ->
    wpM m s (fun _ s' o => exists st', represents s' st' /\ spec st st' o) t.

Definition empty_store : store := {| st_workflows := ∅; st_templates := ∅ |}.

(** [can_store], [can_update] and [can_store_config] are the workflows, the
    updates and the configurations that can be written at all. *)
Class DBSpec {N : CreatedOrder} (E : sig) (S : Type) (D : DB E S) (represents : S -> store -> Prop)
    (can_store : Workflow -> Prop) (can_update : WorkflowUpdate -> Prop)
    (can_store_config : TestnetWorkflowRequest -> Prop) : Prop := {
  represented_ids s st : represents s st -> map_Forall (fun id w => w_WorkflowID w = id) (st_workflows st);
  CreateWorkflow_implements w : can_store w ->
    implements represents (db_CreateWorkflow w) (create_spec w);
  GetWorkflow_implements id :
    implements represents (db_GetWorkflow id) (fun st st' o =>
      st' = st /\ get_spec (st_workflows st) id "workflow not found: " o);
  UpdateWorkflow_implements id u : can_update u ->
    implements represents (db_UpdateWorkflow id u) (fun st st' o =>
      st_templates st' = st_templates st /\
      (u = empty_WorkflowUpdate -> o = Err (ENew "no fields to update") /\ st' = st) /\
      change_spec (st_workflows st) (st_workflows st') id
        (fun m => exists at_, m = alter (apply_update u at_) id (st_workflows st)) o);
  ListWorkflows_implements limit offset :
    implements represents (db_ListWorkflows limit offset) (fun st st' o =>
      st' = st /\ list_spec (values (st_workflows st)) running_first limit offset o);
  CountWorkflows_implements :
    implements represents db_CountWorkflows (fun st st' o =>
      st' = st /\ match o with Ok n => n = Z.of_nat (size (st_workflows st)) | Err _ => True | _ => False end);
  DeleteWorkflow_implements id :
    implements represents (db_DeleteWorkflow id) (fun st st' o =>
      st_templates st' = st_templates st /\
      change_spec (st_workflows st) (st_workflows st') id (fun m => m = delete id (st_workflows st)) o);
  CreateWorkflowTemplate_implements template : can_store_config (wt_Config template) ->
    implements represents (db_CreateWorkflowTemplate template) (fun st st' o =>
      match o with
      | Ok _ => st_templates st !! wt_ID template = None /\ exists now,
          st' = with_st_templates st (<[wt_ID template := template_created template now]> (st_templates st))
      | Err _ => st' = st
      | _ => False
      end);
  GetWorkflowTemplate_implements id :
    implements represents (db_GetWorkflowTemplate id) (fun st st' o =>
      st' = st /\ get_spec (st_templates st) id "workflow template not found: " o);
  UpdateWorkflowTemplate_implements id template : can_store_config (wt_Config template) ->
    implements represents (db_UpdateWorkflowTemplate id template) (fun st st' o =>
      st_workflows st' = st_workflows st /\
      change_spec (st_templates st) (st_templates st') id
        (fun m => m = alter (template_update template) id (st_templates st)) o);
  ListWorkflowTemplates_implements limit offset :
    implements represents (db_ListWorkflowTemplates limit offset) (fun st st' o =>
      st' = st /\ list_spec (values (st_templates st)) (fun t1 t2 => newer (wt_CreatedAt t1) (wt_CreatedAt t2))
        limit offset o);
  DeleteWorkflowTemplate_implements id :
    implements represents (db_DeleteWorkflowTemplate id) (fun st st' o =>
      st_workflows st' = st_workflows st /\
      change_spec (st_templates st) (st_templates st') id (fun m => m = delete id (st_templates st)) o);
  ListTemplateWorkflows_implements id limit offset :
    implements represents (db_ListTemplateWorkflows id limit offset) (fun st st' o =>
      st' = st /\ list_spec (List.filter (fun w => String.eqb (w_TemplateID w) id) (values (st_workflows st)))
        (fun w1 w2 => newer (w_CreatedAt w1) (w_CreatedAt w2)) limit offset o)
}.

(** An answer is [healthy] when it is no failure, and a database is [full]
    when it has no room for another workflow.  Without failures a listing
    succeeds, and so do an update of a workflow that is there and, unless the
    database is full, the creation of one that is not. *)
Class DBLive (E : sig) (S : Type) (D : DB E S) (represents : S -> store -> Prop)
    (can_store : Workflow -> Prop) (can_update : WorkflowUpdate -> Prop) (full : S -> Prop)
    (healthy : event E -> Prop) : Prop := {
  CreateWorkflow_succeeds w s st t : represents s st -> can_store w -> ~ full s ->
    st_workflows st !! w_WorkflowID w = None ->
    wpM (db_CreateWorkflow w) s (fun l _ o => Forall healthy l -> is_ok o = true) t;
  ListWorkflows_succeeds limit offset s st t : represents s st ->
    wpM (db_ListWorkflows limit offset) s (fun l _ o => Forall healthy l -> is_ok o = true) t;
  UpdateWorkflow_succeeds id u s st t : represents s st -> can_update u -> u <> empty_WorkflowUpdate ->
    is_Some (st_workflows st !! id) ->
    wpM (db_UpdateWorkflow id u) s (fun l _ o => Forall healthy l -> is_ok o = true) t
}.
