(* ===== verification/WorkflowDB.v ===== *)
(** * The workflow database: [server/db/*.go] and the schema in [migrations]

    Workflows and templates are rows of two tables whose lists, maps and
    configurations are JSON text.  The SQL text of each operation is
    translated into what it does to the tables; the engine can fail any
    statement, which then changes nothing.  The JSON of the columns is a
    parameter ([DbJson]), and so are the text a time is stored as, by which
    the engine orders times, and the order it gives to rows a query does not
    order ([SqlOrder]).  A nil slice or map is an empty one.

    The operations are shown to implement the interface of [WorkflowStore]. *)

From S2P Require Import Prelude GoStrings GoVal ProviderDefs ChainTypes Messages Keyed Encodings WorkflowStore.
From stdpp Require Import sorting.
#[local] Open Scope Z_scope.

(** ** The JSON of the columns

    What a library writes of a value it can represent (one made of valid
    UTF-8 text) it reads back. *)
Record codec (T : Type) := {
  Marshal : T -> res string;
  Unmarshal : string -> res T;
  representable : T -> Prop;
  Unmarshal_Marshal : forall x, representable x -> exists s, Marshal x = inl s /\ Unmarshal s = inl x
}.
Arguments Marshal {_} _ _.
Arguments Unmarshal {_} _ _.
Arguments representable {_} _ _.
Arguments Unmarshal_Marshal {_} _ _ _.

(** Wallets are written by [encoding/json] when a workflow is created, by
    [protojson] in an update, and read by [protojson]; both write the empty
    message as an empty object. *)
Class DbJson := {
  nodes_json : codec (list Node);
  links_json : codec (gmap string string);
  config_json : codec TestnetWorkflowRequest;
  wallets_json : codec WalletInfo;
  wallets_protojson : codec WalletInfo;
  wallets_read : Unmarshal wallets_json = Unmarshal wallets_protojson;
  wallets_empty : forall c, c = wallets_json \/ c = wallets_protojson -> forall i s,
    representable c i -> Marshal c i = inl s -> (empty_object s = true <-> i = empty_WalletInfo)
}.

(** ** The tables *)
Record workflow_row := {
  r_id : Z;
  r_workflow_id : string;
  r_nodes : string;
  r_validators : string;
  r_loadbalancers : string;
  r_wallets : string;
  r_monitoring_links : string;
  r_status : Z;
  r_config : string;
  r_load_test_spec : string;
  r_provider : string;
  r_template_id : string;
  r_run_name : string;
  r_created_at : Z;
  r_updated_at : Z
}.

Record template_row := {
  tr_template_id : string;
  tr_description : string;
  tr_config : string;
  tr_created_at : Z;
  tr_created_by : string
}.

(** [last_id] is the largest identifier the table has used. *)
Record database := {
  workflows : list workflow_row;
  last_id : Z;
  workflow_templates : list template_row
}.

Definition empty_database : database :=
  {| workflows := []; last_id := 0; workflow_templates := [] |}.

(** ** The engine *)
Inductive statement :=
| InsertWorkflow (id : string)
| SelectWorkflow (id : string)
| UpdateWorkflowRow (id : string)
| SelectWorkflows (limit offset : Z)
| SelectCount
| DeleteWorkflowRow (id : string)
| InsertTemplate (id : string)
| SelectTemplate (id : string)
| UpdateTemplateRow (id : string)
| SelectTemplates (limit offset : Z)
| DeleteTemplateRow (id : string)
| SelectTemplateWorkflows (id : string) (limit offset : Z).

Inductive db_call :=
| Now                                       (* time.Now *)
| CurrentTimestamp                          (* CURRENT_TIMESTAMP in a trigger *)
| Exec (q : statement)                      (* the engine's failure to run it, if any *)
| RowsAffected
| RowsEnd.                                  (* a failure after some rows, if any *)

Definition db_ans (c : db_call) : Type :=
  match c with
  | Now | CurrentTimestamp => Z
  | Exec _ | RowsAffected => option error
  | RowsEnd => option (nat * error)
  end.

Canonical db_sig : sig := Sig db_call db_ans.

Abbreviation DbM := (M db_sig database).

Definition check (e : option error) : DbM unit :=
  match e with Some e => throw e | None => retM tt end.
Definition run_statement (q : statement) : DbM unit := let* e := perform (Exec q) in check e.
Definition rows_affected : DbM unit :=
  wrap "failed to get rows affected" (let* e := perform RowsAffected in check e).

(** [ORDER BY ... LIMIT ... OFFSET]: a window of the rows in some order that
    respects the one asked for.  The driver stores a time as the text
    [time_text] gives it, in the local zone of the process, and the engine
    compares times by the bytes of this text; a time that is read back is the
    instant again. *)
Class SqlOrder := {
  time_text : Z -> string;
  order_limit : forall A : Type, (A -> A -> bool) -> Z -> Z -> list A -> list A;
  order_limit_spec : forall A (le : A -> A -> bool) limit offset l,
    (forall x y, le x y = true \/ le y x = true) ->
    (forall x y z, le x y = true -> le y z = true -> le x z = true) ->
    exists l', l' ≡ₚ l /\ Sorted (fun x y => le x y = true) l' /\
      order_limit A le limit offset l = window limit offset l'
}.
Arguments order_limit {_ _} _ _ _ _.

(** Texts in the order of their bytes. *)
Lemma string_leb_trans (s1 s2 s3 : string) :
  String.leb s1 s2 = true -> String.leb s2 s3 = true -> String.leb s1 s3 = true.
Proof.
  unfold String.leb, Ascii.compare. revert s2 s3. induction s1 as [|a1 s1 IH]; intros [|a2 s2] [|a3 s3]; try done.
  cbn [String.compare]. unfold Ascii.compare. specialize (IH s2 s3).
  destruct (N.compare_spec (Ascii.N_of_ascii a1) (Ascii.N_of_ascii a2)), (N.compare_spec (Ascii.N_of_ascii a2) (Ascii.N_of_ascii a3)),
    (N.compare_spec (Ascii.N_of_ascii a1) (Ascii.N_of_ascii a3)); (done || lia || auto).
Qed.

Section sqlite.
Context {J : DbJson} {O : SqlOrder}.

(** ** Rows and workflows *)
Definition marshal {T} (c : codec T) (x : T) (what : string) : outcome string :=
  match Marshal c x with
  | inl s => Ok s
  | inr e => Err (EWrap ("failed to marshal " +:+ what) e)
  end.

Definition unmarshal {T} (c : codec T) (s : string) (what suffix : string) : outcome T :=
  match Unmarshal c s with
  | inl x => Ok x
  | inr e => Err (EWrap ("failed to unmarshal " +:+ what +:+ suffix) e)
  end.

Definition WalletsJSON (w : Workflow) : outcome string :=
  match w_Wallets w with
  | None => Ok "{}"
  | Some i => marshal wallets_json i "wallets"
  end.

Definition LoadTestSpecJSON (w : Workflow) : string := default "{}" (w_LoadTestSpec w).

(** The columns of a new row, given the time and its identifier. *)
Definition workflow_columns (w : Workflow) : outcome (Z -> Z -> workflow_row) :=
  nodesJSON ← marshal nodes_json (w_Nodes w) "nodes";
  validatorsJSON ← marshal nodes_json (w_Validators w) "validators";
  loadBalancersJSON ← marshal nodes_json (w_LoadBalancers w) "loadbalancers";
  walletsJSON ← WalletsJSON w;
  configJSON ← marshal config_json (w_Config w) "config";
  monitoringLinksJSON ← marshal links_json (w_MonitoringLinks w) "monitoring links";
  mret (fun now id =>
    {| r_id := id; r_workflow_id := w_WorkflowID w; r_nodes := nodesJSON; r_validators := validatorsJSON;
       r_loadbalancers := loadBalancersJSON; r_wallets := walletsJSON;
       r_monitoring_links := monitoringLinksJSON; r_status := w_Status w; r_config := configJSON;
       r_load_test_spec := LoadTestSpecJSON w; r_provider := w_Provider w; r_template_id := w_TemplateID w;
       r_run_name := w_RunName w; r_created_at := now; r_updated_at := now |}).

Definition decode_wallets (s suffix : string) : outcome (option WalletInfo) :=
  if empty_object s then Ok None else (i ← unmarshal wallets_protojson s "wallets" suffix; mret (Some i)).

Definition decode_workflow (suffix : string) (r : workflow_row) : outcome Workflow :=
  nodes ← unmarshal nodes_json (r_nodes r) "nodes" suffix;
  validators ← unmarshal nodes_json (r_validators r) "validators" suffix;
  loadBalancers ← unmarshal nodes_json (r_loadbalancers r) "loadbalancers" suffix;
  wallets ← decode_wallets (r_wallets r) suffix;
  config ← unmarshal config_json (r_config r) "config" suffix;
  links ← unmarshal links_json (r_monitoring_links r) "monitoring links" suffix;
  mret {| w_ID := r_id r; w_WorkflowID := r_workflow_id r; w_Nodes := nodes; w_Validators := validators;
          w_LoadBalancers := loadBalancers; w_Wallets := wallets; w_MonitoringLinks := links;
          w_Status := r_status r; w_Config := config;
          w_LoadTestSpec := if empty_object (r_load_test_spec r) then None else Some (r_load_test_spec r);
          w_Provider := r_provider r; w_TemplateID := r_template_id r; w_RunName := r_run_name r;
          w_CreatedAt := r_created_at r; w_UpdatedAt := r_updated_at r |}.

Definition with_workflows (db : database) (l : list workflow_row) : database :=
  {| workflows := l; last_id := last_id db; workflow_templates := workflow_templates db |}.
Definition with_templates (db : database) (l : list template_row) : database :=
  {| workflows := workflows db; last_id := last_id db; workflow_templates := l |}.

(** ** Workflows *)
Definition insert_workflow (columns : Z -> workflow_row) : DbM Z :=
  let* db := get in
  let id := last_id db + 1 in
  let r := columns id in
  if existsb (fun r' => String.eqb (r_workflow_id r') (r_workflow_id r)) (workflows db) then
    throw (EExt XOther "UNIQUE constraint failed: workflows.workflow_id")
  else if 2^63 <=? id then throw (EExt XOther "database or disk is full")
  else
    let* _ := put {| workflows := workflows db ++ [r]; last_id := id;
                     workflow_templates := workflow_templates db |} in
    retM id.

Definition CreateWorkflow (w : Workflow) : DbM Workflow :=
  let* columns := lift_outcome (workflow_columns w) in
  let* now := perform Now in
  let* id := wrap "failed to create workflow"
    (let* _ := run_statement (InsertWorkflow (w_WorkflowID w)) in insert_workflow (columns now)) in
  retM (with_row w id now).

Definition GetWorkflow (workflowID : string) : DbM Workflow :=
  let* _ := wrap "failed to get workflow" (run_statement (SelectWorkflow workflowID)) in
  let* db := get in
  match List.find (fun r => String.eqb (r_workflow_id r) workflowID) (workflows db) with
  | None => throw (ENew ("workflow not found: " +:+ workflowID))
  | Some r => lift_outcome (decode_workflow "" r)
  end.

(** [column = ?] *)
Inductive assignment :=
| Set_nodes (v : string)
| Set_validators (v : string)
| Set_loadbalancers (v : string)
| Set_wallets (v : string)
| Set_monitoring_links (v : string)
| Set_status (v : Z)
| Set_provider (v : string)
| Set_template_id (v : string)
| Set_run_name (v : string)
| Set_updated_at (v : Z).

Definition assign (r : workflow_row) (a : assignment) : workflow_row :=
  {| r_id := r_id r; r_workflow_id := r_workflow_id r;
     r_nodes := match a with Set_nodes v => v | _ => r_nodes r end;
     r_validators := match a with Set_validators v => v | _ => r_validators r end;
     r_loadbalancers := match a with Set_loadbalancers v => v | _ => r_loadbalancers r end;
     r_wallets := match a with Set_wallets v => v | _ => r_wallets r end;
     r_monitoring_links := match a with Set_monitoring_links v => v | _ => r_monitoring_links r end;
     r_status := match a with Set_status v => v | _ => r_status r end;
     r_config := r_config r; r_load_test_spec := r_load_test_spec r;
     r_provider := match a with Set_provider v => v | _ => r_provider r end;
     r_template_id := match a with Set_template_id v => v | _ => r_template_id r end;
     r_run_name := match a with Set_run_name v => v | _ => r_run_name r end;
     r_created_at := r_created_at r;
     r_updated_at := match a with Set_updated_at v => v | _ => r_updated_at r end |}.

(** A part of the SET clause for a field that is given. *)
Definition set_part {A} (field : option A) (f : A -> outcome assignment) : outcome (list assignment) :=
  match field with
  | None => Ok []
  | Some x => a ← f x; Ok [a]
  end.

Definition set_parts (u : WorkflowUpdate) : outcome (list assignment) :=
  nodes ← set_part (wu_Nodes u) (fun x => s ← marshal nodes_json x "nodes"; Ok (Set_nodes s));
  validators ← set_part (wu_Validators u) (fun x => s ← marshal nodes_json x "validators"; Ok (Set_validators s));
  loadbalancers ← set_part (wu_LoadBalancers u)
    (fun x => s ← marshal nodes_json x "loadbalancers"; Ok (Set_loadbalancers s));
  wallets ← set_part (wu_Wallets u) (fun x => s ← marshal wallets_protojson x "wallets"; Ok (Set_wallets s));
  links ← set_part (wu_MonitoringLinks u)
    (fun x => s ← marshal links_json x "monitoring links"; Ok (Set_monitoring_links s));
  status ← set_part (wu_Status u) (fun x => Ok (Set_status x));
  provider ← set_part (wu_Provider u) (fun x => Ok (Set_provider x));
  template_id ← set_part (wu_TemplateID u) (fun x => Ok (Set_template_id x));
  run_name ← set_part (wu_RunName u) (fun x => Ok (Set_run_name x));
  Ok (nodes ++ validators ++ loadbalancers ++ wallets ++ links ++ status ++ provider ++ template_id ++ run_name).

(** The trigger [update_workflows_updated_at]. *)
Definition trigger (ts : Z) (old new : workflow_row) : workflow_row :=
  if r_updated_at new =? r_updated_at old then assign new (Set_updated_at ts) else new.

(** [UPDATE workflows SET ... WHERE workflow_id = ?]: the rows it affects. *)
Definition update_workflow_rows (workflowID : string) (parts : list assignment) : DbM nat :=
  let* ts := perform CurrentTimestamp in
  let* db := get in
  let matches r := String.eqb (r_workflow_id r) workflowID in
  let* _ := put (with_workflows db
    (map (fun r => if matches r then trigger ts r (fold_left assign parts r) else r) (workflows db))) in
  retM (length (List.filter matches (workflows db))).

Definition UpdateWorkflow (workflowID : string) (update : WorkflowUpdate) : DbM unit :=
  let* setParts := lift_outcome (set_parts update) in
  match setParts with
  | [] => throw (ENew "no fields to update")
  | _ =>
      let* now := perform Now in
      let* n := wrap "failed to update workflow"
        (let* _ := run_statement (UpdateWorkflowRow workflowID) in
         update_workflow_rows workflowID (setParts ++ [Set_updated_at now])) in
      let* _ := rows_affected in
      if Nat.eqb n 0 then throw (ENew ("workflow not found: " +:+ workflowID)) else retM tt
  end.

(** The rows of a query, each decoded; iterating may fail after some. *)
Definition scan {R A} (rows : list R) (decode : R -> outcome A) : DbM (list A) :=
  let* stop := perform RowsEnd in
  let* l := lift_outcome (mapM decode (match stop with Some (n, _) => take n rows | None => rows end)) in
  match stop with
  | Some (_, e) => throw (EWrap "error iterating rows" e)
  | None => retM l
  end.

(** The order of [created_at DESC]: by the stored text. *)
Definition created_desc (t1 t2 : Z) : bool := String.leb (time_text t2) (time_text t1).
Definition text_order : CreatedOrder := fun t1 t2 => created_desc t1 t2 = true.

(** Running workflows first, then by the time of creation, descending. *)
Definition running_rank (r : workflow_row) : Z := if r_status r =? STATUS_RUNNING then 0 else 1.
Definition listed_before (r1 r2 : workflow_row) : bool :=
  (running_rank r1 <? running_rank r2) ||
  ((running_rank r1 =? running_rank r2) && created_desc (r_created_at r1) (r_created_at r2)).

Definition decode_listed (r : workflow_row) : outcome Workflow :=
  decode_workflow (" for workflow " +:+ r_workflow_id r) r.

Definition ListWorkflows (limit offset : Z) : DbM (list Workflow) :=
  let* _ := wrap "failed to list workflows" (run_statement (SelectWorkflows limit offset)) in
  let* db := get in
  scan (order_limit listed_before limit offset (workflows db)) decode_listed.

Definition CountWorkflows : DbM Z :=
  let* _ := wrap "failed to count workflows" (run_statement SelectCount) in
  let* db := get in
  retM (Z.of_nat (length (workflows db))).

Definition DeleteWorkflow (workflowID : string) : DbM unit :=
  let matches r := String.eqb (r_workflow_id r) workflowID in
  let* _ := wrap "failed to delete workflow" (run_statement (DeleteWorkflowRow workflowID)) in
  let* db := get in
  let* _ := put (with_workflows db (List.filter (fun r => negb (matches r)) (workflows db))) in
  let* _ := rows_affected in
  if existsb matches (workflows db) then retM tt
  else throw (ENew ("workflow not found: " +:+ workflowID)).

(** ** Templates *)
Definition CreateWorkflowTemplate (template : WorkflowTemplate) : DbM unit :=
  let* configJSON := lift_outcome (marshal config_json (wt_Config template) "config") in
  let* now := perform Now in
  wrap "failed to create workflow template"
    (let* _ := run_statement (InsertTemplate (wt_ID template)) in
     let* db := get in
     if existsb (fun r => String.eqb (tr_template_id r) (wt_ID template)) (workflow_templates db) then
       throw (EExt XOther "UNIQUE constraint failed: workflow_templates.template_id")
     else
       put (with_templates db (workflow_templates db ++
         [{| tr_template_id := wt_ID template; tr_description := wt_Description template; tr_config := configJSON;
             tr_created_at := now; tr_created_by := wt_CreatedBy template |}]))).

Definition decode_template (suffix : string) (r : template_row) : outcome WorkflowTemplate :=
  config ← unmarshal config_json (tr_config r) "config" suffix;
  mret {| wt_ID := tr_template_id r; wt_Description := tr_description r; wt_Config := config;
          wt_CreatedAt := tr_created_at r; wt_CreatedBy := tr_created_by r |}.

Definition GetWorkflowTemplate (templateID : string) : DbM WorkflowTemplate :=
  let* _ := wrap "failed to get workflow template" (run_statement (SelectTemplate templateID)) in
  let* db := get in
  match List.find (fun r => String.eqb (tr_template_id r) templateID) (workflow_templates db) with
  | None => throw (ENew ("workflow template not found: " +:+ templateID))
  | Some r => lift_outcome (decode_template "" r)
  end.

Definition UpdateWorkflowTemplate (templateID : string) (template : WorkflowTemplate) : DbM unit :=
  let matches r := String.eqb (tr_template_id r) templateID in
  let* configJSON := lift_outcome (marshal config_json (wt_Config template) "config") in
  let* _ := wrap "failed to update workflow template" (run_statement (UpdateTemplateRow templateID)) in
  let* db := get in
  let* _ := put (with_templates db (map (fun r =>
    if matches r then
      {| tr_template_id := tr_template_id r; tr_description := wt_Description template; tr_config := configJSON;
         tr_created_at := tr_created_at r; tr_created_by := tr_created_by r |}
    else r) (workflow_templates db))) in
  let* _ := rows_affected in
  if existsb matches (workflow_templates db) then retM tt
  else throw (ENew ("workflow template not found: " +:+ templateID)).

Definition newer_template (r1 r2 : template_row) : bool := created_desc (tr_created_at r1) (tr_created_at r2).

Definition ListWorkflowTemplates (limit offset : Z) : DbM (list WorkflowTemplate) :=
  let* _ := wrap "failed to list workflow templates" (run_statement (SelectTemplates limit offset)) in
  let* db := get in
  scan (order_limit newer_template limit offset (workflow_templates db))
    (fun r => decode_template (" for template " +:+ tr_template_id r) r).

Definition DeleteWorkflowTemplate (templateID : string) : DbM unit :=
  let matches r := String.eqb (tr_template_id r) templateID in
  let* _ := wrap "failed to delete workflow template" (run_statement (DeleteTemplateRow templateID)) in
  let* db := get in
  let* _ := put (with_templates db (List.filter (fun r => negb (matches r)) (workflow_templates db))) in
  let* _ := rows_affected in
  if existsb matches (workflow_templates db) then retM tt
  else throw (ENew ("workflow template not found: " +:+ templateID)).

Definition newer_run (r1 r2 : workflow_row) : bool := created_desc (r_created_at r1) (r_created_at r2).

Definition ListTemplateWorkflows (templateID : string) (limit offset : Z) : DbM (list Workflow) :=
  let* _ := wrap "failed to list template workflows" (run_statement (SelectTemplateWorkflows templateID limit offset)) in
  let* db := get in
  scan (order_limit newer_run limit offset
         (List.filter (fun r => String.eqb (r_template_id r) templateID) (workflows db))) decode_listed.

(** ** [server/db/database.go] *)
Definition svc_CreateWorkflow (workflowID : string) (config : TestnetWorkflowRequest) (status : string) : DbM unit :=
  let* _ := wrap "failed to create workflow record" (CreateWorkflow
    {| w_ID := 0; w_WorkflowID := workflowID; w_Nodes := []; w_Validators := []; w_LoadBalancers := [];
       w_Wallets := None; w_MonitoringLinks := ∅; w_Status := StringToWorkflowStatus status;
       w_Config := config; w_LoadTestSpec := None; w_Provider := ""; w_TemplateID := ""; w_RunName := "";
       w_CreatedAt := 0; w_UpdatedAt := 0 |}) in
  retM tt.

Definition UpdateWorkflowStatus (workflowID status : string) : DbM unit :=
  wrap "failed to update workflow status" (UpdateWorkflow workflowID
    {| wu_Nodes := None; wu_Validators := None; wu_LoadBalancers := None; wu_Wallets := None;
       wu_MonitoringLinks := None; wu_Status := Some (StringToWorkflowStatus status); wu_Provider := None;
       wu_TemplateID := None; wu_RunName := None |}).

Definition UpdateWorkflowNodes (workflowID : string) (nodes validators : list Node) : DbM unit :=
  wrap "failed to update workflow nodes" (UpdateWorkflow workflowID
    {| wu_Nodes := Some nodes; wu_Validators := Some validators; wu_LoadBalancers := None; wu_Wallets := None;
       wu_MonitoringLinks := None; wu_Status := None; wu_Provider := None; wu_TemplateID := None;
       wu_RunName := None |}).

Definition UpdateWorkflowMonitoring (workflowID : string) (monitoringLinks : gmap string string) : DbM unit :=
  wrap "failed to update workflow monitoring" (UpdateWorkflow workflowID
    {| wu_Nodes := None; wu_Validators := None; wu_LoadBalancers := None; wu_Wallets := None;
       wu_MonitoringLinks := Some monitoringLinks; wu_Status := None; wu_Provider := None;
       wu_TemplateID := None; wu_RunName := None |}).

Definition UpdateWorkflowLoadBalancers (workflowID : string) (loadbalancers : list Node) : DbM unit :=
  wrap "failed to update workflow loadbalancers" (UpdateWorkflow workflowID
    {| wu_Nodes := None; wu_Validators := None; wu_LoadBalancers := Some loadbalancers; wu_Wallets := None;
       wu_MonitoringLinks := None; wu_Status := None; wu_Provider := None; wu_TemplateID := None;
       wu_RunName := None |}).

Definition svc_CreateWorkflowTemplate (templateID description : string) (config : TestnetWorkflowRequest)
    (createdBy : string) : DbM unit :=
  wrap "failed to create workflow template" (CreateWorkflowTemplate
    {| wt_ID := templateID; wt_Description := description; wt_Config := config; wt_CreatedAt := 0;
       wt_CreatedBy := createdBy |}).
End sqlite.

(** ** Rows and the values they hold *)
Section rows.
Context {J : DbJson} {O : SqlOrder}.

Record reads (r : workflow_row) (w : Workflow) : Prop := {
  rd_id : r_id r = w_ID w;
  rd_workflow_id : r_workflow_id r = w_WorkflowID w;
  rd_nodes : Unmarshal nodes_json (r_nodes r) = inl (w_Nodes w);
  rd_validators : Unmarshal nodes_json (r_validators r) = inl (w_Validators w);
  rd_loadbalancers : Unmarshal nodes_json (r_loadbalancers r) = inl (w_LoadBalancers w);
  rd_wallets : forall suffix, decode_wallets (r_wallets r) suffix = Ok (w_Wallets w);
  rd_links : Unmarshal links_json (r_monitoring_links r) = inl (w_MonitoringLinks w);
  rd_status : r_status r = w_Status w;
  rd_config : Unmarshal config_json (r_config r) = inl (w_Config w);
  rd_spec : (if empty_object (r_load_test_spec r) then None else Some (r_load_test_spec r)) = w_LoadTestSpec w;
  rd_provider : r_provider r = w_Provider w;
  rd_template : r_template_id r = w_TemplateID w;
  rd_run : r_run_name r = w_RunName w;
  rd_created : r_created_at r = w_CreatedAt w;
  rd_updated : r_updated_at r = w_UpdatedAt w
}.

Lemma reads_decode suffix r w : reads r w -> decode_workflow suffix r = Ok w.
Proof.
  intros []. unfold decode_workflow, unmarshal.
  rewrite rd_nodes0, rd_validators0, rd_loadbalancers0, rd_config0, rd_links0. cbn.
  rewrite rd_wallets0. cbn. destruct w; cbn in *. by subst.
Qed.

Record reads_template (r : template_row) (t : WorkflowTemplate) : Prop := {
  rt_id : tr_template_id r = wt_ID t;
  rt_description : tr_description r = wt_Description t;
  rt_config : Unmarshal config_json (tr_config r) = inl (wt_Config t);
  rt_created : tr_created_at r = wt_CreatedAt t;
  rt_by : tr_created_by r = wt_CreatedBy t
}.

Lemma reads_decode_template suffix r t : reads_template r t -> decode_template suffix r = Ok t.
Proof. intros []. unfold decode_template, unmarshal. rewrite rt_config0. destruct t; cbn in *. by subst. Qed.

(** What a workflow, an update is made of can be written. *)
Definition writable (w : Workflow) : Prop :=
  representable nodes_json (w_Nodes w) /\ representable nodes_json (w_Validators w) /\
  representable nodes_json (w_LoadBalancers w) /\
  (forall i, w_Wallets w = Some i -> representable wallets_json i) /\
  representable links_json (w_MonitoringLinks w) /\ representable config_json (w_Config w).

Definition given {A} (c : codec A) (field : option A) : Prop := forall x, field = Some x -> representable c x.

Definition writable_update (u : WorkflowUpdate) : Prop :=
  given nodes_json (wu_Nodes u) /\ given nodes_json (wu_Validators u) /\ given nodes_json (wu_LoadBalancers u) /\
  given wallets_protojson (wu_Wallets u) /\ given links_json (wu_MonitoringLinks u).

Lemma marshal_ok {A} (c : codec A) x what : representable c x ->
  exists s, marshal c x what = Ok s /\ Unmarshal c s = inl x.
Proof. intros (s & Hs & Hu)%(Unmarshal_Marshal c). exists s. unfold marshal. by rewrite Hs. Qed.

Lemma decode_wallets_ok c i what : c = wallets_json \/ c = wallets_protojson -> representable c i ->
  exists s, marshal c i what = Ok s /\ forall suffix, decode_wallets s suffix = Ok (stored_wallets i).
Proof.
  intros Hc Hi. pose proof Hi as (s & Hs & Hu)%(Unmarshal_Marshal c). exists s. unfold marshal. rewrite Hs.
  split; [done|]. intros suffix. pose proof (wallets_empty c Hc i s Hi Hs) as He.
  unfold decode_wallets, stored_wallets. destruct (empty_object s).
  - rewrite decide_True by (by apply He). done.
  - rewrite decide_False by (by intros Hi'%He). unfold unmarshal.
    replace (Unmarshal wallets_protojson s) with (inl i : res WalletInfo); [done|].
    rewrite <- Hu. destruct Hc as [->| ->]; [by rewrite wallets_read|done].
Qed.

Lemma workflow_columns_ok w : writable w -> exists columns, workflow_columns w = Ok columns /\
  forall now id, reads (columns now id) (stored w id now).
Proof.
  intros (Hn & Hv & Hl & Hw & Hm & Hc). unfold workflow_columns, WalletsJSON.
  apply (marshal_ok _ _ "nodes") in Hn as (n & -> & Hn).
  apply (marshal_ok _ _ "validators") in Hv as (v & -> & Hv).
  apply (marshal_ok _ _ "loadbalancers") in Hl as (l & -> & Hl).
  apply (marshal_ok _ _ "config") in Hc as (c & -> & Hc).
  apply (marshal_ok _ _ "monitoring links") in Hm as (m & -> & Hm).
  assert (exists s, match w_Wallets w with None => Ok "{}" | Some i => marshal wallets_json i "wallets" end = Ok s /\
    forall suffix, decode_wallets s suffix = Ok (w_Wallets w ≫= stored_wallets)) as (s & -> & Hs).
  { destruct (w_Wallets w) as [i|]; [apply decode_wallets_ok; auto|by exists "{}"]. }
  cbn. eexists. split; [done|]. intros now id. constructor; try done; cbn.
  unfold LoadTestSpecJSON. by destruct (w_LoadTestSpec w).
Qed.

(** ** Updates *)
Definition only_nodes o : WorkflowUpdate :=
  {| wu_Nodes := o; wu_Validators := None; wu_LoadBalancers := None; wu_Wallets := None; wu_MonitoringLinks := None;
     wu_Status := None; wu_Provider := None; wu_TemplateID := None; wu_RunName := None |}.
Definition only_validators o : WorkflowUpdate :=
  {| wu_Nodes := None; wu_Validators := o; wu_LoadBalancers := None; wu_Wallets := None; wu_MonitoringLinks := None;
     wu_Status := None; wu_Provider := None; wu_TemplateID := None; wu_RunName := None |}.
Definition only_balancers o : WorkflowUpdate :=
  {| wu_Nodes := None; wu_Validators := None; wu_LoadBalancers := o; wu_Wallets := None; wu_MonitoringLinks := None;
     wu_Status := None; wu_Provider := None; wu_TemplateID := None; wu_RunName := None |}.
Definition only_wallets o : WorkflowUpdate :=
  {| wu_Nodes := None; wu_Validators := None; wu_LoadBalancers := None; wu_Wallets := o; wu_MonitoringLinks := None;
     wu_Status := None; wu_Provider := None; wu_TemplateID := None; wu_RunName := None |}.
Definition only_links o : WorkflowUpdate :=
  {| wu_Nodes := None; wu_Validators := None; wu_LoadBalancers := None; wu_Wallets := None; wu_MonitoringLinks := o;
     wu_Status := None; wu_Provider := None; wu_TemplateID := None; wu_RunName := None |}.
Definition only_status o : WorkflowUpdate :=
  {| wu_Nodes := None; wu_Validators := None; wu_LoadBalancers := None; wu_Wallets := None; wu_MonitoringLinks := None;
     wu_Status := o; wu_Provider := None; wu_TemplateID := None; wu_RunName := None |}.
Definition only_provider o : WorkflowUpdate :=
  {| wu_Nodes := None; wu_Validators := None; wu_LoadBalancers := None; wu_Wallets := None; wu_MonitoringLinks := None;
     wu_Status := None; wu_Provider := o; wu_TemplateID := None; wu_RunName := None |}.
Definition only_template o : WorkflowUpdate :=
  {| wu_Nodes := None; wu_Validators := None; wu_LoadBalancers := None; wu_Wallets := None; wu_MonitoringLinks := None;
     wu_Status := None; wu_Provider := None; wu_TemplateID := o; wu_RunName := None |}.
Definition only_run o : WorkflowUpdate :=
  {| wu_Nodes := None; wu_Validators := None; wu_LoadBalancers := None; wu_Wallets := None; wu_MonitoringLinks := None;
     wu_Status := None; wu_Provider := None; wu_TemplateID := None; wu_RunName := o |}.

(** One part of the SET clause does to the row what its field does to the
    workflow. *)
Definition part_writes {A} (only : option A -> WorkflowUpdate) (field : option A) (o : outcome (list assignment)) : Prop :=
  exists parts, o = Ok parts /\ (parts = [] <-> field = None) /\
  forall r w, reads r w -> reads (fold_left assign parts r) (apply_fields (only field) w).

Lemma apply_fields_none w : apply_fields empty_WorkflowUpdate w = w.
Proof. by destruct w. Qed.

Lemma set_part_writes {A} (only : option A -> WorkflowUpdate) (field : option A) (f : A -> outcome assignment) :
  only None = empty_WorkflowUpdate ->
  (forall x, field = Some x -> exists a, f x = Ok a /\
     forall r w, reads r w -> reads (assign r a) (apply_fields (only (Some x)) w)) ->
  part_writes only field (set_part field f).
Proof.
  intros Hnone Hf. unfold part_writes, set_part. destruct field as [x|].
  - destruct (Hf x eq_refl) as (a & -> & Ha). by exists [a].
  - exists []. split; [done|]. split; [done|]. intros r w. by rewrite Hnone, apply_fields_none.
Qed.

(** The fields of an update applied one after the other. *)
Lemma apply_fields_split u w :
  apply_fields u w =
  apply_fields (only_run (wu_RunName u)) (apply_fields (only_template (wu_TemplateID u))
    (apply_fields (only_provider (wu_Provider u)) (apply_fields (only_status (wu_Status u))
      (apply_fields (only_links (wu_MonitoringLinks u)) (apply_fields (only_wallets (wu_Wallets u))
        (apply_fields (only_balancers (wu_LoadBalancers u)) (apply_fields (only_validators (wu_Validators u))
          (apply_fields (only_nodes (wu_Nodes u)) w)))))))).
Proof. reflexivity. Qed.

Ltac write_part := (* a column that takes a codec's text, or a plain value *)
  apply set_part_writes; [done|]; intros x Hx;
  lazymatch goal with
  | Hx : ?f = Some x, H : given _ ?f |- context [marshal ?c x ?what] =>
      let s := fresh "s" in let Hs := fresh "Hs" in
      apply H, (marshal_ok _ _ what) in Hx as (s & -> & Hs); eexists; split; [done|];
      intros r w []; constructor; cbn; done
  | |- _ => eexists; split; [done|]; intros r w []; constructor; cbn; done
  end.

Lemma set_parts_ok u : writable_update u -> exists parts, set_parts u = Ok parts /\
  (parts = [] <-> u = empty_WorkflowUpdate) /\
  forall r w, reads r w -> reads (fold_left assign parts r) (apply_fields u w).
Proof.
  intros (Hn & Hv & Hl & Hw & Hm). unfold set_parts.
  assert (part_writes only_wallets (wu_Wallets u) (set_part (wu_Wallets u)
    (fun x => s ← marshal wallets_protojson x "wallets"; Ok (Set_wallets s)))) as (p4 & -> & E4 & H4).
  { apply set_part_writes; [done|]. intros x Hx%Hw.
    destruct (decode_wallets_ok _ _ "wallets" (or_intror eq_refl) Hx) as (s & -> & Hs). eexists. split; [done|].
    intros r w []. by constructor. }
  assert (part_writes only_nodes (wu_Nodes u) (set_part (wu_Nodes u)
    (fun x => s ← marshal nodes_json x "nodes"; Ok (Set_nodes s)))) as (p1 & -> & E1 & H1) by write_part.
  assert (part_writes only_validators (wu_Validators u) (set_part (wu_Validators u)
    (fun x => s ← marshal nodes_json x "validators"; Ok (Set_validators s)))) as (p2 & -> & E2 & H2) by write_part.
  assert (part_writes only_balancers (wu_LoadBalancers u) (set_part (wu_LoadBalancers u)
    (fun x => s ← marshal nodes_json x "loadbalancers"; Ok (Set_loadbalancers s)))) as (p3 & -> & E3 & H3) by write_part.
  assert (part_writes only_links (wu_MonitoringLinks u) (set_part (wu_MonitoringLinks u)
    (fun x => s ← marshal links_json x "monitoring links"; Ok (Set_monitoring_links s)))) as (p5 & -> & E5 & H5) by write_part.
  assert (part_writes only_status (wu_Status u) (set_part (wu_Status u) (fun x => Ok (Set_status x))))
    as (p6 & -> & E6 & H6) by write_part.
  assert (part_writes only_provider (wu_Provider u) (set_part (wu_Provider u) (fun x => Ok (Set_provider x))))
    as (p7 & -> & E7 & H7) by write_part.
  assert (part_writes only_template (wu_TemplateID u) (set_part (wu_TemplateID u) (fun x => Ok (Set_template_id x))))
    as (p8 & -> & E8 & H8) by write_part.
  assert (part_writes only_run (wu_RunName u) (set_part (wu_RunName u) (fun x => Ok (Set_run_name x))))
    as (p9 & -> & E9 & H9) by write_part.
  cbn. eexists. split; [done|]. split.
  - rewrite !app_nil, E1, E2, E3, E4, E5, E6, E7, E8, E9. clear. destruct u; cbn. split.
    + by intros (-> & -> & -> & -> & -> & -> & -> & -> & ->).
    + by intros [= -> -> -> -> -> -> -> -> ->].
  - intros r w Hr. rewrite !fold_left_app, apply_fields_split. auto 20.
Qed.

Lemma updated_reads u parts now ts r w :
  reads r w -> (forall r w, reads r w -> reads (fold_left assign parts r) (apply_fields u w)) ->
  reads (trigger ts r (fold_left assign (parts ++ [Set_updated_at now]) r))
    (apply_update u (if now =? r_updated_at r then ts else now) w).
Proof.
  intros Hr Hp. rewrite fold_left_app. cbn [fold_left]. specialize (Hp r w Hr).
  assert (H : forall z r w, reads r w -> reads (assign r (Set_updated_at z)) (with_updated z w))
    by (intros z r' w' []; by constructor).
  unfold trigger. cbn [r_updated_at assign]. destruct (now =? r_updated_at r).
  - by apply (H ts _ (with_updated now (apply_fields u w))), H.
  - by apply H.
Qed.
End rows.

(** ** Tables and the values they hold *)
Section tables.
Context {R V : Type} (rel : R -> V -> Prop) (rkey : R -> string) (vkey : V -> string).
Hypothesis same_key : forall r v, rel r v -> rkey r = vkey v.

Lemma find_keyed rows vs id : Forall2 rel rows vs ->
  match List.find (fun r => String.eqb (rkey r) id) rows with
  | Some r => exists v, rel r v /\ keyed vkey vs !! id = Some v
  | None => keyed vkey vs !! id = None
  end.
Proof.
  induction 1 as [|r v rows vs Hr _ IH]; cbn [List.find]; [done|]. rewrite (same_key _ _ Hr).
  change (keyed vkey (v :: vs)) with (<[vkey v := v]> (keyed vkey vs)).
  destruct (String.eqb_spec (vkey v) id) as [<-|Hne].
  - exists v. split; [done|]. by rewrite lookup_insert_eq.
  - by rewrite lookup_insert_ne.
Qed.

Lemma existsb_keyed rows vs id : Forall2 rel rows vs ->
  existsb (fun r => String.eqb (rkey r) id) rows = bool_decide (is_Some (keyed vkey vs !! id)).
Proof.
  intros Hrel. induction Hrel as [|r v rows vs Hr _ IH]; cbn [existsb]; [done|]. rewrite IH, (same_key _ _ Hr).
  change (keyed vkey (v :: vs)) with (<[vkey v := v]> (keyed vkey vs)).
  destruct (String.eqb_spec (vkey v) id) as [<-|Hne].
  - rewrite lookup_insert_eq. symmetry. by apply bool_decide_eq_true.
  - by rewrite lookup_insert_ne.
Qed.

(** The rows with the key changed, and the entry of the map with them. *)
Lemma update_keyed (f : R -> R) (g : V -> V) rows vs id :
  Forall2 rel rows vs -> NoDup (map vkey vs) -> (forall v, vkey (g v) = vkey v) ->
  (forall r v, rel r v -> rel (f r) (g v)) ->
  let vs' := map (fun v => if String.eqb (vkey v) id then g v else v) vs in
  Forall2 rel (map (fun r => if String.eqb (rkey r) id then f r else r) rows) vs' /\
  NoDup (map vkey vs') /\ keyed vkey vs' = alter g id (keyed vkey vs).
Proof.
  intros Hrel Hnd Hkey Hf vs'. split; [|split].
  - unfold vs'. clear vs' Hnd. induction Hrel as [|r v rows vs Hr _ IH]; cbn [map]; constructor; [|done].
    rewrite (same_key _ _ Hr). destruct (String.eqb _ _); auto.
  - unfold vs'. by rewrite map_update_keys.
  - by apply keyed_update.
Qed.

Lemma delete_keyed rows vs id : Forall2 rel rows vs -> NoDup (map vkey vs) ->
  let vs' := List.filter (fun v => negb (String.eqb (vkey v) id)) vs in
  Forall2 rel (List.filter (fun r => negb (String.eqb (rkey r) id)) rows) vs' /\
  NoDup (map vkey vs') /\ keyed vkey vs' = delete id (keyed vkey vs).
Proof.
  intros Hrel Hnd vs'. split; [|split].
  - unfold vs'. clear vs' Hnd. induction Hrel as [|r v rows vs Hr _ IH]; cbn [List.filter]; [done|].
    rewrite (same_key _ _ Hr). destruct (String.eqb _ _); cbn [negb]; [done|by constructor].
  - by apply filter_keys_NoDup.
  - by apply keyed_delete.
Qed.

Lemma insert_keyed rows vs r v : Forall2 rel rows vs -> NoDup (map vkey vs) -> rel r v ->
  keyed vkey vs !! vkey v = None ->
  Forall2 rel (rows ++ [r]) (vs ++ [v]) /\ NoDup (map vkey (vs ++ [v])) /\
  keyed vkey (vs ++ [v]) = <[vkey v := v]> (keyed vkey vs).
Proof.
  intros Hrel Hnd Hr Hnone%keyed_None. split; [apply Forall2_app; auto|]. split; [|by apply keyed_snoc].
  rewrite map_app. apply NoDup_app. split; [done|]. split; [|apply NoDup_singleton].
  by intros x Hx ->%list_elem_of_singleton.
Qed.

(** ** Queries with an order and a window *)
Lemma Sorted_rel (le : R -> R -> bool) (before : V -> V -> Prop) rows vs :
  (forall r1 v1 r2 v2, rel r1 v1 -> rel r2 v2 -> le r1 r2 = true -> before v1 v2) ->
  Forall2 rel rows vs -> Sorted (fun x y => le x y = true) rows -> Sorted before vs.
Proof.
  intros Hle Hrel Hs. revert vs Hrel. induction Hs as [|r rows Hs IH Hhd]; intros vs Hrel;
    apply Forall2_cons_inv_l in Hrel as (v & vs' & Hr & Hrel & ->) || apply Forall2_nil_inv_l in Hrel as ->;
    constructor; [by apply IH|].
  destruct Hhd as [|r2 rows Hle2]; [apply Forall2_nil_inv_l in Hrel as ->; constructor|].
  apply Forall2_cons_inv_l in Hrel as (v2 & vs2 & Hr2 & _ & ->). constructor. by eapply Hle.
Qed.

Lemma window_rel limit offset rows vs : Forall2 rel rows vs -> Forall2 rel (window limit offset rows) (window limit offset vs).
Proof. intros H. unfold window. destruct (limit <? 0); auto using Forall2_drop, Forall2_take. Qed.

Lemma mapM_rel (decode : R -> outcome V) rows vs :
  (forall r v, rel r v -> decode r = Ok v) -> Forall2 rel rows vs -> mapM decode rows = Ok vs.
Proof.
  intros Hd. induction 1 as [|r v rows vs Hr _ IH]; [done|]. cbn. by rewrite (Hd _ _ Hr), IH.
Qed.

Context `{J : DbJson} {O : SqlOrder}.

Lemma query_listing (le : R -> R -> bool) (before : V -> V -> Prop) limit offset rows vs :
  (forall x y, le x y = true \/ le y x = true) ->
  (forall x y z, le x y = true -> le y z = true -> le x z = true) ->
  (forall r1 v1 r2 v2, rel r1 v1 -> rel r2 v2 -> le r1 r2 = true -> before v1 v2) ->
  Forall2 rel rows vs ->
  exists l, Forall2 rel (order_limit le limit offset rows) l /\ listing vs before limit offset l.
Proof.
  intros Htot Htr Hle Hrel.
  destruct (order_limit_spec _ le limit offset rows Htot Htr) as (rows' & Hp & Hs & ->).
  destruct (Permutation_Forall2 (symmetry Hp) Hrel) as (vs' & Hp' & Hrel').
  exists (window limit offset vs'). split; [by apply window_rel|]. exists vs'. split; [done|].
  split; [by eapply Sorted_rel|done].
Qed.

Lemma scan_spec (decode : R -> outcome V) rows vs (db : database) (Q : list (event db_sig) -> database -> outcome (list V) -> Prop) t :
  (forall r v, rel r v -> decode r = Ok v) -> Forall2 rel rows vs ->
  (forall t', Q t' db (Ok vs)) -> (forall t' e, Q t' db (Err e)) ->
  wpM (scan rows decode) db Q t.
Proof.
  intros Hd Hrel HOk HErr. unfold scan. do 2 wpM_step.
  destruct x as [[n e]|]; do 2 wpM_step.
  - rewrite (mapM_rel decode _ (take n vs)) by auto using Forall2_take. wpM_step. apply HErr.
  - rewrite (mapM_rel decode _ vs) by done. wpM_step. apply HOk.
Qed.
End tables.

(** ** The operations implement the interface *)
Ltac db_step := cbn [wrap_outcome]; wpM_step.

Section implementation.
Context {J : DbJson} {O : SqlOrder}.

#[export] Instance sqlite : DB db_sig database := {|
  db_CreateWorkflow := CreateWorkflow;
  db_GetWorkflow := GetWorkflow;
  db_UpdateWorkflow := UpdateWorkflow;
  db_ListWorkflows := ListWorkflows;
  db_CountWorkflows := CountWorkflows;
  db_DeleteWorkflow := DeleteWorkflow;
  db_CreateWorkflowTemplate := CreateWorkflowTemplate;
  db_GetWorkflowTemplate := GetWorkflowTemplate;
  db_UpdateWorkflowTemplate := UpdateWorkflowTemplate;
  db_ListWorkflowTemplates := ListWorkflowTemplates;
  db_DeleteWorkflowTemplate := DeleteWorkflowTemplate;
  db_ListTemplateWorkflows := ListTemplateWorkflows
|}.

(** The database holds the workflows [ws] and the templates [ts]. *)
Record holds (db : database) (ws : list Workflow) (ts : list WorkflowTemplate) : Prop := {
  h_workflows : Forall2 reads (workflows db) ws;
  h_templates : Forall2 reads_template (workflow_templates db) ts;
  h_ids : NoDup (map w_WorkflowID ws);
  h_template_ids : NoDup (map wt_ID ts);
  h_last : Forall (fun w => w_ID w <= last_id db) ws
}.

Definition store_of (ws : list Workflow) (ts : list WorkflowTemplate) : store :=
  {| st_workflows := keyed w_WorkflowID ws; st_templates := keyed wt_ID ts |}.

Definition represents_db (db : database) (st : store) : Prop :=
  exists ws ts, holds db ws ts /\ st = store_of ws ts.

(** To prove of an operation that it implements a specification. *)
Lemma implements_intro {A} (m : DbM A) (spec : store -> store -> outcome A -> Prop) :
  (forall db ws ts t, holds db ws ts ->
     wpM m db (fun _ db' o => exists ws' ts', holds db' ws' ts' /\ spec (store_of ws ts) (store_of ws' ts') o) t) ->
  implements represents_db m spec.
Proof.
  intros Hm db st t (ws & ts & Hh & ->). eapply wpM_mono; [|by apply Hm].
  intros t' db' o (ws' & ts' & Hh' & Hs). exists (store_of ws' ts'). split; [by exists ws', ts'|done].
Qed.

Lemma wpM_statement q db (Q : list (event db_sig) -> database -> outcome unit -> Prop) t :
  (forall t' e, Q t' db (Err e)) -> (forall t', Q t' db (Ok tt)) -> wpM (run_statement q) db Q t.
Proof. intros HE HO. unfold run_statement, check. do 2 db_step. destruct x; db_step; auto. Qed.

Lemma wpM_rows_affected db (Q : list (event db_sig) -> database -> outcome unit -> Prop) t :
  (forall t' e, Q t' db (Err e)) -> (forall t', Q t' db (Ok tt)) -> wpM rows_affected db Q t.
Proof. intros HE HO. unfold rows_affected, check. do 3 db_step. destruct x; db_step; cbn; auto. Qed.

Lemma reads_key r w : reads r w -> r_workflow_id r = w_WorkflowID w.
Proof. by intros []. Qed.
Lemma reads_template_key r t : reads_template r t -> tr_template_id r = wt_ID t.
Proof. by intros []. Qed.
Hint Resolve reads_key reads_template_key : ironbird.

(** Nothing has changed. *)
Ltac unchanged :=
  intros; cbn beta; lazymatch goal with
  | H : holds _ ?ws ?ts |- _ =>
      exists ws, ts; split; [exact H|]; cbn [wrap_outcome]; unfold change_spec, get_spec, list_spec; split_and?; solve [done|by left|by intros]
  end.

Lemma listing_perm {A} (vs vs' : list A) before limit offset l :
  vs ≡ₚ vs' -> listing vs before limit offset l -> listing vs' before limit offset l.
Proof. intros Hp (all & Ha & Hs & ->). exists all. split; [by rewrite Ha|done]. Qed.

(** What the order of the texts implies is the order a listing is in. *)
Context {N : CreatedOrder}.
Hypothesis text_newer : forall t1 t2, created_desc t1 t2 = true -> newer t1 t2.

Lemma created_desc_total t1 t2 : created_desc t1 t2 = true \/ created_desc t2 t1 = true.
Proof. apply String.leb_total. Qed.

Lemma created_desc_trans t1 t2 t3 : created_desc t1 t2 = true -> created_desc t2 t3 = true -> created_desc t1 t3 = true.
Proof. unfold created_desc. intros H12 H23. by eapply string_leb_trans. Qed.

Lemma listed_before_iff x y : listed_before x y = true <->
  running_rank x < running_rank y \/ (running_rank x = running_rank y /\ created_desc (r_created_at x) (r_created_at y) = true).
Proof. unfold listed_before. by rewrite orb_true_iff, andb_true_iff, Z.ltb_lt, Z.eqb_eq. Qed.

Lemma listed_total x y : listed_before x y = true \/ listed_before y x = true.
Proof.
  rewrite !listed_before_iff. destruct (Z.lt_trichotomy (running_rank x) (running_rank y)) as [|[He|]]; [tauto| |tauto].
  rewrite He. destruct (created_desc_total (r_created_at x) (r_created_at y)); tauto.
Qed.

Lemma listed_trans x y z : listed_before x y = true -> listed_before y z = true -> listed_before x z = true.
Proof.
  rewrite !listed_before_iff. intros [H1|[H1 Ht1]] [H2|[H2 Ht2]]; [left; lia..|].
  right. split; [lia|]. by eapply created_desc_trans.
Qed.

Lemma listed_reads r1 w1 r2 w2 :
  reads r1 w1 -> reads r2 w2 -> listed_before r1 r2 = true -> running_first w1 w2.
Proof.
  intros [] []. rewrite listed_before_iff. unfold running_rank, running_first.
  rewrite rd_status0, rd_status1, rd_created0, rd_created1. unfold STATUS_RUNNING, WorkflowStatus in *.
  destruct (Z.eqb_spec (w_Status w1) 1), (Z.eqb_spec (w_Status w2) 1); intros [?|[? ?%text_newer]]; intuition lia.
Qed.

Lemma created_inj (l : list Workflow) w1 w2 :
  NoDup (map (fun w => time_text (w_CreatedAt w)) l) -> w1 ∈ l -> w2 ∈ l ->
  time_text (w_CreatedAt w1) = time_text (w_CreatedAt w2) -> w1 = w2.
Proof.
  induction l as [|w l IH]; intros Hnd H1 H2 He; [by apply not_elem_of_nil in H1|].
  cbn in Hnd. apply NoDup_cons in Hnd as [Hw Hnd]. apply elem_of_cons in H1 as [->|H1], H2 as [->|H2]; [done|..|by apply IH].
  - destruct Hw. rewrite He. by apply (list_elem_of_fmap_2 (fun w => time_text (w_CreatedAt w))).
  - destruct Hw. rewrite <- He. by apply (list_elem_of_fmap_2 (fun w => time_text (w_CreatedAt w))).
Qed.

Lemma window_app {A} limit1 limit2 offset (l : list A) : 0 <= limit1 -> 0 <= limit2 -> 0 <= offset ->
  window limit1 offset l ++ window limit2 (offset + limit1) l = window (limit1 + limit2) offset l.
Proof.
  intros H1 H2 H3. unfold window. rewrite !(proj2 (Z.ltb_ge _ _)) by lia.
  rewrite Z2Nat.inj_add, Z2Nat.inj_add, <- drop_drop by lia. generalize (drop (Z.to_nat offset) l). intros l'.
  apply take_take_drop.
Qed.

Lemma CreateWorkflow_ok w : writable w -> implements represents_db (CreateWorkflow w) (create_spec w).
Proof.
  intros Hw. apply implements_intro. intros db ws ts t Hh. unfold CreateWorkflow.
  destruct (workflow_columns_ok w Hw) as (columns & -> & Hcols). do 4 db_step. rename x into now.
  specialize (Hcols now (last_id db + 1)). do 2 db_step.
  assert (Hfail : exists ws' ts', holds db ws' ts' /\ store_of ws' ts' = store_of ws ts) by by exists ws, ts.
  db_step. apply wpM_statement; [done|]. intros t1. unfold insert_workflow. do 2 db_step.
  rewrite (existsb_keyed reads _ w_WorkflowID reads_key _ ws) by apply Hh.
  rewrite (reads_key _ _ Hcols). case_bool_decide as Hin; [by db_step|]. destruct (2 ^ 63 <=? _); [by db_step|].
  do 3 db_step. db_step. apply eq_None_not_Some in Hin. cbn in Hin.
  destruct (insert_keyed reads w_WorkflowID (workflows db) ws _ _ (h_workflows _ _ _ Hh) (h_ids _ _ _ Hh) Hcols Hin)
    as (H1 & H2 & H3).
  exists (ws ++ [stored w (last_id db + 1) now]), ts. split.
  - destruct Hh. constructor; cbn; try done. apply Forall_app. split; [|constructor; [cbn; lia|done]].
    eapply Forall_impl; [exact h_last0|]. cbn. lia.
  - split; [done|]. exists (last_id db + 1), now. split; [done|]. split; [|by unfold store_of; rewrite H3].
    intros id w0 [Hw0 _]%keyed_lookup; [|apply Hh]. pose proof (h_last _ _ _ Hh) as Hl.
    rewrite Forall_forall in Hl. apply Hl in Hw0. lia.
Qed.

Lemma GetWorkflow_ok id :
  implements represents_db (GetWorkflow id) (fun st st' o =>
    st' = st /\ get_spec (st_workflows st) id "workflow not found: " o).
Proof.
  apply implements_intro. intros db ws ts t Hh. unfold GetWorkflow. do 2 db_step.
  apply wpM_statement; [unchanged|]. intros t1. do 2 db_step.
  pose proof (find_keyed reads r_workflow_id w_WorkflowID reads_key _ _ id (h_workflows _ _ _ Hh)) as Hf.
  destruct (List.find _ _) as [r|].
  - destruct Hf as (w & Hr & Hw). rewrite (reads_decode _ _ _ Hr). db_step. unchanged.
  - db_step. unchanged.
Qed.

(** The update of the rows, without the rows it counts. *)
Lemma update_rows_hold db ws ts id u parts now ts0 :
  holds db ws ts ->
  (forall r w, reads r w -> reads (fold_left assign parts r) (apply_fields u w)) ->
  exists ws', holds (with_workflows db (map (fun r => if String.eqb (r_workflow_id r) id
      then trigger ts0 r (fold_left assign (parts ++ [Set_updated_at now]) r) else r) (workflows db))) ws' ts /\
    exists at_, keyed w_WorkflowID ws' = alter (apply_update u at_) id (keyed w_WorkflowID ws).
Proof.
  intros Hh Hp.
  destruct (update_keyed reads r_workflow_id w_WorkflowID reads_key
    (fun r => trigger ts0 r (fold_left assign (parts ++ [Set_updated_at now]) r))
    (fun w => apply_update u (if now =? w_UpdatedAt w then ts0 else now) w) (workflows db) ws id) as (H1 & H2 & H3);
    [apply Hh|apply Hh|done|by intros r w Hr; rewrite <- (rd_updated _ _ Hr); apply updated_reads|].
  eexists. split; [destruct Hh; constructor; cbn; [exact H1|done|done|done|]|].
  - apply Forall_map. eapply Forall_impl; [exact h_last0|]. intros w Hw. cbn. by destruct (String.eqb _ _).
  - rewrite H3. exists (match keyed w_WorkflowID ws !! id with
      | Some w => if now =? w_UpdatedAt w then ts0 else now | None => now end).
    apply map_eq. intros k. rewrite !lookup_alter. case_decide; [|done]. subst k.
    by destruct (keyed w_WorkflowID ws !! id).
Qed.

Lemma affected_rows db ws ts id : holds db ws ts ->
  Nat.eqb (length (List.filter (fun r => String.eqb (r_workflow_id r) id) (workflows db))) 0
  = negb (bool_decide (is_Some (keyed w_WorkflowID ws !! id))).
Proof.
  intros Hh. rewrite <- (existsb_keyed reads r_workflow_id w_WorkflowID reads_key _ _ id (h_workflows _ _ _ Hh)).
  generalize (workflows db). intros l. induction l as [|r l IH]; [done|]. cbn. by destruct (String.eqb _ _).
Qed.

Lemma UpdateWorkflow_ok id u : writable_update u ->
  implements represents_db (UpdateWorkflow id u) (fun st st' o =>
    st_templates st' = st_templates st /\
    (u = empty_WorkflowUpdate -> o = Err (ENew "no fields to update") /\ st' = st) /\
    change_spec (st_workflows st) (st_workflows st') id
      (fun m => exists at_, m = alter (apply_update u at_) id (st_workflows st)) o).
Proof.
  intros Hu. apply implements_intro. intros db ws ts t Hh. unfold UpdateWorkflow.
  destruct (set_parts_ok u Hu) as (parts & -> & He & Hp). do 2 db_step.
  destruct parts as [|a parts]; [db_step; unchanged|].
  assert (Hne : u = empty_WorkflowUpdate -> False) by (intros Hu'%He; done). clear He.
  generalize dependent (a :: parts). clear a parts. intros parts Hp.
  do 5 db_step. rename x into now.
  apply wpM_statement; [unchanged|]. intros t1.
  unfold update_workflow_rows. do 4 db_step. rename x into ts0.
  destruct (update_rows_hold db ws ts id u parts now ts0 Hh Hp) as (ws' & Hh' & Hat).
  do 4 db_step. apply wpM_rows_affected.
  - intros t2 e. exists ws', ts. do 2 (split; [done|]). split; [done|by right].
  - intros t2. rewrite (affected_rows _ _ _ id Hh).
    case_bool_decide as Hin; cbn [negb]; db_step; exists ws', ts; do 2 (split; [done|]); (split; [done|]);
      [done|by right].
Qed.

Lemma ListWorkflows_ok limit offset :
  implements represents_db (ListWorkflows limit offset) (fun st st' o =>
    st' = st /\ list_spec (values (st_workflows st)) running_first limit offset o).
Proof.
  apply implements_intro. intros db ws ts t Hh. unfold ListWorkflows. do 2 db_step.
  apply wpM_statement; [unchanged|]. intros t1. do 2 db_step.
  destruct (query_listing reads listed_before running_first limit offset _ _
    listed_total listed_trans listed_reads (h_workflows _ _ _ Hh)) as (l & Hl & Hlist).
  apply (scan_spec reads _ _ l); [intros r w; apply reads_decode|done|..]; intros t2; exists ws, ts; [|done]. split; [done|]. split; [done|]. eapply listing_perm; [|exact Hlist]. by rewrite <- (keyed_values w_WorkflowID ws) at 1 by apply Hh.
Qed.

Lemma CountWorkflows_ok :
  implements represents_db CountWorkflows (fun st st' o =>
    st' = st /\ match o with Ok n => n = Z.of_nat (size (st_workflows st)) | Err _ => True | _ => False end).
Proof.
  apply implements_intro. intros db ws ts t Hh. unfold CountWorkflows. do 2 db_step.
  apply wpM_statement; [unchanged|]. intros t1. do 3 db_step. exists ws, ts. split; [done|]. split; [done|].
  rewrite (Forall2_length _ _ _ (h_workflows _ _ _ Hh)). f_equal. cbn.
  rewrite <- (Permutation_length (keyed_values w_WorkflowID ws (h_ids _ _ _ Hh))).
  by rewrite length_fmap, length_map_to_list.
Qed.

Lemma DeleteWorkflow_ok id :
  implements represents_db (DeleteWorkflow id) (fun st st' o =>
    st_templates st' = st_templates st /\
    change_spec (st_workflows st) (st_workflows st') id (fun m => m = delete id (st_workflows st)) o).
Proof.
  apply implements_intro. intros db ws ts t Hh. unfold DeleteWorkflow. do 2 db_step.
  apply wpM_statement; [unchanged|]. intros t1. do 5 db_step.
  destruct (delete_keyed reads r_workflow_id w_WorkflowID reads_key _ _ id (h_workflows _ _ _ Hh) (h_ids _ _ _ Hh))
    as (H1 & H2 & H3).
  rewrite (existsb_keyed reads _ w_WorkflowID reads_key _ ws) by apply Hh.
  assert (Hh' : holds (with_workflows db (List.filter (fun r => negb (String.eqb (r_workflow_id r) id)) (workflows db)))
    (List.filter (fun w => negb (String.eqb (w_WorkflowID w) id)) ws) ts).
  { destruct Hh. constructor; cbn; try done. rewrite Forall_forall in *. intros w Hw. apply h_last0.
    apply list_elem_of_In in Hw. apply filter_In in Hw as [Hw _]. by apply list_elem_of_In. }
  apply wpM_rows_affected; [intros t2 e|intros t2; case_bool_decide as Hin; db_step];
    eexists _, ts; (split; [exact Hh'|]); (split; [done|]); cbn; auto.
Qed.

Lemma CreateWorkflowTemplate_ok template : representable config_json (wt_Config template) ->
  implements represents_db (CreateWorkflowTemplate template) (fun st st' o =>
    match o with
    | Ok _ => st_templates st !! wt_ID template = None /\ exists now,
        st' = with_st_templates st (<[wt_ID template := template_created template now]> (st_templates st))
    | Err _ => st' = st
    | _ => False
    end).
Proof.
  intros Hc. apply implements_intro. intros db ws ts t Hh. unfold CreateWorkflowTemplate.
  destruct (marshal_ok config_json _ "config" Hc) as (config & -> & Hconfig). do 6 db_step. rename x into now.
  apply wpM_statement; [unchanged|]. intros t1. do 2 db_step.
  rewrite (existsb_keyed reads_template _ wt_ID reads_template_key _ ts) by apply Hh.
  case_bool_decide as Hin; db_step; [unchanged|]. apply eq_None_not_Some in Hin. cbn [wrap_outcome].
  destruct (insert_keyed reads_template wt_ID (workflow_templates db) ts
    {| tr_template_id := wt_ID template; tr_description := wt_Description template; tr_config := config;
       tr_created_at := now; tr_created_by := wt_CreatedBy template |} (template_created template now)
    (h_templates _ _ _ Hh) (h_template_ids _ _ _ Hh)) as (H1 & H2 & H3); [|exact Hin|].
  { constructor; try done; exact Hconfig. }
  exists ws, (ts ++ [template_created template now]). split; [destruct Hh; constructor; cbn; [done|exact H1|done..]|].
  split; [done|]. exists now. unfold store_of, with_st_templates. cbn. by rewrite H3.
Qed.

Lemma GetWorkflowTemplate_ok id :
  implements represents_db (GetWorkflowTemplate id) (fun st st' o =>
    st' = st /\ get_spec (st_templates st) id "workflow template not found: " o).
Proof.
  apply implements_intro. intros db ws ts t Hh. unfold GetWorkflowTemplate. do 2 db_step.
  apply wpM_statement; [unchanged|]. intros t1. do 2 db_step.
  pose proof (find_keyed reads_template tr_template_id wt_ID reads_template_key _ _ id (h_templates _ _ _ Hh)) as Hf.
  destruct (List.find _ _) as [r|].
  - destruct Hf as (w & Hr & Hw). rewrite (reads_decode_template _ _ _ Hr). db_step. unchanged.
  - db_step. unchanged.
Qed.

Lemma UpdateWorkflowTemplate_ok id template : representable config_json (wt_Config template) ->
  implements represents_db (UpdateWorkflowTemplate id template) (fun st st' o =>
    st_workflows st' = st_workflows st /\
    change_spec (st_templates st) (st_templates st') id
      (fun m => m = alter (template_update template) id (st_templates st)) o).
Proof.
  intros Hc. apply implements_intro. intros db ws ts t Hh. unfold UpdateWorkflowTemplate. cbv zeta.
  destruct (marshal_ok config_json _ "config" Hc) as (config & -> & Hconfig). do 4 db_step.
  apply wpM_statement; [unchanged|]. intros t1. do 5 db_step.
  edestruct (update_keyed reads_template tr_template_id wt_ID reads_template_key
    (fun r => {| tr_template_id := tr_template_id r; tr_description := wt_Description template; tr_config := config;
                 tr_created_at := tr_created_at r; tr_created_by := tr_created_by r |})
    (template_update template) (workflow_templates db) ts id) as (H1 & H2 & H3); [apply Hh|apply Hh|done| |].
  { intros r v []. by constructor. }
  rewrite (existsb_keyed reads_template _ wt_ID reads_template_key _ ts) by apply Hh.
  apply wpM_rows_affected; [intros t2 e|intros t2; case_bool_decide as Hin; db_step];
    (eexists ws, _; split; [destruct Hh; constructor; cbn; [done|exact H1|done..]|]); (split; [done|]); cbn; auto.
Qed.

Lemma ListWorkflowTemplates_ok limit offset :
  implements represents_db (ListWorkflowTemplates limit offset) (fun st st' o =>
    st' = st /\ list_spec (values (st_templates st)) (fun t1 t2 => newer (wt_CreatedAt t1) (wt_CreatedAt t2))
      limit offset o).
Proof.
  apply implements_intro. intros db ws ts t Hh. unfold ListWorkflowTemplates. do 2 db_step.
  apply wpM_statement; [unchanged|]. intros t1. do 2 db_step.
  destruct (query_listing reads_template newer_template (fun t1 t2 => newer (wt_CreatedAt t1) (wt_CreatedAt t2)) limit offset
    (workflow_templates db) ts (fun _ _ => created_desc_total _ _) (fun _ _ _ => created_desc_trans _ _ _)) as (l & Hl & Hlist); [|apply Hh|].
  { intros r1 v1 r2 v2 [] [] H%text_newer. congruence. }
  apply (scan_spec reads_template _ _ l); [intros r w; apply reads_decode_template|done|..];
    intros t2; exists ws, ts; [|done]. split; [done|]. split; [done|]. eapply listing_perm; [|exact Hlist].
  by rewrite <- (keyed_values wt_ID ts) at 1 by apply Hh.
Qed.

Lemma DeleteWorkflowTemplate_ok id :
  implements represents_db (DeleteWorkflowTemplate id) (fun st st' o =>
    st_workflows st' = st_workflows st /\
    change_spec (st_templates st) (st_templates st') id (fun m => m = delete id (st_templates st)) o).
Proof.
  apply implements_intro. intros db ws ts t Hh. unfold DeleteWorkflowTemplate. do 2 db_step.
  apply wpM_statement; [unchanged|]. intros t1. do 5 db_step.
  destruct (delete_keyed reads_template tr_template_id wt_ID reads_template_key _ _ id (h_templates _ _ _ Hh)
    (h_template_ids _ _ _ Hh)) as (H1 & H2 & H3).
  rewrite (existsb_keyed reads_template _ wt_ID reads_template_key _ ts) by apply Hh.
  apply wpM_rows_affected; [intros t2 e|intros t2; case_bool_decide as Hin; db_step];
    (eexists ws, _; split; [destruct Hh; constructor; cbn; [done|exact H1|done..]|]); (split; [done|]); cbn; auto.
Qed.

Lemma filter_reads id rows ws : Forall2 reads rows ws ->
  Forall2 reads (List.filter (fun r => String.eqb (r_template_id r) id) rows)
    (List.filter (fun w => String.eqb (w_TemplateID w) id) ws).
Proof.
  induction 1 as [|r w rows ws Hr _ IH]; cbn; [constructor|]. rewrite (rd_template _ _ Hr).
  destruct (String.eqb _ _); [by constructor|done].
Qed.

Lemma ListTemplateWorkflows_ok id limit offset :
  implements represents_db (ListTemplateWorkflows id limit offset) (fun st st' o =>
    st' = st /\ list_spec (List.filter (fun w => String.eqb (w_TemplateID w) id) (values (st_workflows st)))
      (fun w1 w2 => newer (w_CreatedAt w1) (w_CreatedAt w2)) limit offset o).
Proof.
  apply implements_intro. intros db ws ts t Hh. unfold ListTemplateWorkflows. do 2 db_step.
  apply wpM_statement; [unchanged|]. intros t1. do 2 db_step.
  destruct (query_listing reads newer_run (fun w1 w2 => newer (w_CreatedAt w1) (w_CreatedAt w2)) limit offset
    (List.filter (fun r => String.eqb (r_template_id r) id) (workflows db))
    (List.filter (fun w => String.eqb (w_TemplateID w) id) ws)
    (fun _ _ => created_desc_total _ _) (fun _ _ _ => created_desc_trans _ _ _)) as (l & Hl & Hlist); [|apply filter_reads, Hh|].
  { intros r1 v1 r2 v2 [] [] H%text_newer. congruence. }
  apply (scan_spec reads _ _ l); [intros r w; apply reads_decode|done|..];
    intros t2; exists ws, ts; [|done]. split; [done|]. split; [done|]. eapply listing_perm; [|exact Hlist].
  apply List_filter_perm. by rewrite <- (keyed_values w_WorkflowID ws) at 1 by apply Hh.
Qed.
Lemma sqlite_DBSpec :
  DBSpec db_sig database sqlite represents_db writable writable_update (representable config_json).
Proof.
  constructor.
  - intros db st (ws & ts & Hh & ->) id w Hw. by apply keyed_lookup in Hw as [_ Hw]; [|apply Hh].
  - exact CreateWorkflow_ok.
  - exact GetWorkflow_ok.
  - intros id u. exact (UpdateWorkflow_ok id u).
  - exact ListWorkflows_ok.
  - exact CountWorkflows_ok.
  - exact DeleteWorkflow_ok.
  - exact CreateWorkflowTemplate_ok.
  - exact GetWorkflowTemplate_ok.
  - exact UpdateWorkflowTemplate_ok.
  - exact ListWorkflowTemplates_ok.
  - exact DeleteWorkflowTemplate_ok.
  - exact ListTemplateWorkflows_ok.
Qed.

(** *** Without failures *)
Definition healthy_db (e : event db_sig) : Prop :=
  match e with
  | existT (Exec _) (Some _) | existT RowsAffected (Some _) | existT RowsEnd (Some _) => False
  | _ => True
  end.

Lemma live_statement q (db : database) (Q : list (event db_sig) -> database -> outcome unit -> Prop) t :
  (forall l e, (Forall healthy_db l -> False) -> Q l db (Err e)) -> (forall l, Q l db (Ok tt)) ->
  wpM (run_statement q) db Q t.
Proof.
  intros HE HO. unfold run_statement, check. do 2 wpM_step. destruct x; wpM_step; [apply HE|apply HO].
  by intros [_ [[] _]%Forall_cons]%Forall_app.
Qed.

Lemma live_rows_affected (db : database) (Q : list (event db_sig) -> database -> outcome unit -> Prop) t :
  (forall l e, (Forall healthy_db l -> False) -> Q l db (Err e)) -> (forall l, Q l db (Ok tt)) ->
  wpM rows_affected db Q t.
Proof.
  intros HE HO. unfold rows_affected, check. do 3 wpM_step. destruct x; wpM_step; cbn; [apply HE|apply HO].
  by intros [_ [[] _]%Forall_cons]%Forall_app.
Qed.

(** Every identifier a row can have has been used. *)
Definition full_db (db : database) : Prop := 2 ^ 63 <= last_id db + 1.

Lemma sqlite_DBLive : DBLive db_sig database sqlite represents_db writable writable_update full_db healthy_db.
Proof.
  constructor.
  - intros w db st t (ws & ts & Hh & ->) Hw Hroom Hnone. cbn [db_CreateWorkflow sqlite]. unfold CreateWorkflow.
    destruct (workflow_columns_ok w Hw) as (columns & -> & Hcols). do 4 db_step. rename x into now.
    specialize (Hcols now (last_id db + 1)). do 3 db_step.
    apply live_statement; [by intros l e Hf Hl%Hf|]. intros l. unfold insert_workflow. do 2 db_step.
    rewrite (existsb_keyed reads _ w_WorkflowID reads_key _ ws) by apply Hh.
    rewrite (reads_key _ _ Hcols). case_bool_decide as Hin; [by apply (eq_None_not_Some _) in Hnone|].
    destruct (Z.leb_spec (2 ^ 63) (last_id db + 1)); [by destruct Hroom|]. by do 4 db_step.
  - intros limit offset db st t (ws & ts & Hh & ->). cbn [db_ListWorkflows sqlite]. unfold ListWorkflows. do 2 db_step.
    apply live_statement; [by intros l e Hf Hl%Hf|]. intros l. do 2 db_step.
    destruct (query_listing reads listed_before (fun _ _ => True) limit offset _ _
      listed_total listed_trans (fun _ _ _ _ _ _ _ => I) (h_workflows _ _ _ Hh)) as (ws' & Hl & _).
    unfold scan. do 2 db_step. destruct x as [[n e]|]; do 2 db_step.
    + rewrite (mapM_rel reads decode_listed _ (take n ws')) by (auto using Forall2_take; intros r w; apply reads_decode).
      db_step. by intros [_ [[] _]%Forall_cons]%Forall_app.
    + rewrite (mapM_rel reads decode_listed _ ws') by (done || (intros r w; apply reads_decode)). by db_step.
  - intros id u db st t (ws & ts & Hh & ->) Hu Hne Hin. cbn [db_UpdateWorkflow sqlite]. unfold UpdateWorkflow.
    destruct (set_parts_ok u Hu) as (parts & -> & He & _). do 2 db_step.
    destruct parts as [|a parts]; [by destruct Hne; apply He|]. generalize (a :: parts). clear a parts He. intros parts.
    do 5 db_step. apply live_statement; [by intros l e Hf Hl%Hf|]. intros l.
    unfold update_workflow_rows. do 8 db_step. apply live_rows_affected; [by intros l' e Hf Hl%Hf|]. intros l'.
    rewrite (affected_rows _ _ _ id Hh), bool_decide_eq_true_2 by done. by db_step.
Qed.
End implementation.

(** ** Properties *)
Section properties.
Context {J : DbJson} {O : SqlOrder}.

(** C23: the SQLite operations implement the interface: on a database that
    holds a set of workflows and templates, each operation ends, whatever
    the engine answers, in one that holds what the operation's specification
    gives, with the outcome it gives, and never panics.  Listings are in any
    order of the times of creation that the order of their stored texts
    implies: the order of the texts itself, and the order of the instants for
    those written under one UTC offset. *)
Theorem sqlite_implements_DB {N : CreatedOrder}
    (text_newer : forall t1 t2, created_desc t1 t2 = true -> newer t1 t2) :
  DBSpec db_sig database sqlite represents_db writable writable_update (representable config_json) /\
  represents_db empty_database empty_store.
Proof. split; [by apply sqlite_DBSpec|]. exists [], []. split; [constructor; try done; constructor|done]. Qed.

(** A workflow that was created is read back as it was given, with the
    identifier and the time of the row; only an empty wallet message and an
    empty load test specification are read back as absent. *)
Theorem CreateWorkflow_GetWorkflow (w : Workflow) (db : database) (st : store) :
  represents_db db st -> writable w ->
  wpM (let* created := CreateWorkflow w in
       let* read := GetWorkflow (w_WorkflowID w) in retM (created, read)) db
    (fun _ _ o => match o with
     | Ok (created, read) => exists id now, created = with_row w id now /\ read = stored w id now
     | Err _ => True
     | _ => False
     end) [].
Proof.
  intros Hr Hw. db_step. eapply wpM_mono; [|by apply (CreateWorkflow_ok w Hw db st)].
  intros t1 db1 [created|e|m|] (st1 & Hr1 & H); try done. destruct H as (_ & id & now & -> & _ & ->).
  db_step. eapply wpM_mono; [|by apply (GetWorkflow_ok (w_WorkflowID w) db1 _ _ Hr1)].
  intros t2 db2 [read|e|m|] (st2 & Hr2 & -> & H); try done. db_step. exists id, now. split; [done|].
  cbn in H. rewrite lookup_insert_eq in H. by injection H as <-.
Qed.

#[local] Existing Instance text_order.

#[local] Instance running_first_trans : Transitive running_first.
Proof.
  intros w1 w2 w3 [[H1 H1']|[H1 H1']] [[H2 H2']|[H2 H2']]; [left; tauto..|].
  right. split; [tauto|]. by eapply created_desc_trans.
Qed.

(** Times whose texts differ leave one order. *)
Lemma running_first_unique vs l1 l2 : NoDup (map (fun w => time_text (w_CreatedAt w)) vs) -> l1 ≡ₚ vs -> l2 ≡ₚ vs ->
  Sorted running_first l1 -> Sorted running_first l2 -> l1 = l2.
Proof.
  intros Hnd H1 H2 Hs1 Hs2. apply (Sorted_unique_strong running_first); [|done|done|by rewrite H1].
  intros w1 w2 Hw1 Hw2 H12 H21. rewrite H1 in Hw1. rewrite H2 in Hw2. apply (created_inj vs); try done.
  unfold running_first, newer, text_order, created_desc in *. apply String.leb_antisym; tauto.
Qed.

(** Consecutive pages of a listing neither skip nor repeat a workflow:
    when no two times of creation have the same text, two pages put together
    are a window of the whole listing in its order. *)
Theorem ListWorkflows_pages (limit1 limit2 offset : Z) (db : database) (st : store) :
  represents_db db st -> NoDup (map (fun w => time_text (w_CreatedAt w)) (values (st_workflows st))) ->
  0 <= limit1 -> 0 <= limit2 -> 0 <= offset ->
  wpM (let* page1 := ListWorkflows limit1 offset in
       let* page2 := ListWorkflows limit2 (offset + limit1) in retM (page1 ++ page2)) db
    (fun _ db' o => represents_db db' st /\ match o with
     | Ok l => listing (values (st_workflows st)) running_first (limit1 + limit2) offset l
     | Err _ => True
     | _ => False
     end) [].
Proof.
  intros Hr Hnd H1 H2 H3. db_step. eapply wpM_mono; [|by apply (ListWorkflows_ok (N := text_order) (fun _ _ H => H) limit1 offset db st)].
  intros t1 db1 [l1|e|m|] (st1 & Hr1 & -> & Hl1); try done. db_step.
  eapply wpM_mono; [|by apply (ListWorkflows_ok (N := text_order) (fun _ _ H => H) limit2 (offset + limit1) db1 st)].
  intros t2 db2 [l2|e|m|] (st2 & Hr2 & -> & Hl2); try done. db_step. split; [done|].
  destruct Hl1 as (all & Hp1 & Hs1 & ->), Hl2 as (all2 & Hp2 & Hs2 & ->).
  rewrite (running_first_unique _ all2 all) by done. exists all. split; [done|]. split; [done|].
  by apply window_app.
Qed.
End properties.

(** ** An instance: texts that spell values, a merge sort *)
Definition codec_by {T} (enc : T -> GoVal) (dec : GoVal -> option T)
    (H : forall x, dec (enc x) = Some x) : codec T.
Proof.
  refine {| Marshal := fun x => inl (encode_val (enc x));
            Unmarshal := decode_by dec; representable := fun _ => True |}.
  intros x _. eexists. split; [reflexivity|]. by apply decode_by_encode.
Defined.

Definition wallet_text (i : WalletInfo) : string :=
  if decide (i = empty_WalletInfo) then "{}"
  else "{" +:+ encode_val (VList [VStr (FaucetAddress i); VStr (FaucetMnemonic i);
    VList (map VStr (UserAddresses i)); VList (map VStr (UserMnemonics i))]).

Definition text_wallet (s : string) : option WalletInfo :=
  if String.eqb s "{}" then Some empty_WalletInfo
  else match decode_val (str_drop 1 s) with
       | Some (VList [VStr a; VStr b; c; d]) =>
           c ← val_list val_string c; d ← val_list val_string d;
           Some {| FaucetAddress := a; FaucetMnemonic := b; UserAddresses := c; UserMnemonics := d |}
       | _ => None
       end.

Lemma digits_not_brace p : digits_of p <> "}".
Proof. destruct p; discriminate. Qed.

Lemma text_wallet_text i : text_wallet (wallet_text i) = Some i.
Proof.
  unfold text_wallet, wallet_text. destruct (decide _) as [->|Hne]; [done|].
  destruct (String.eqb_spec ("{" +:+ encode_val (VList [VStr (FaucetAddress i); VStr (FaucetMnemonic i);
    VList (map VStr (UserAddresses i)); VList (map VStr (UserMnemonics i))])) "{}") as [[= He]|_];
    [by destruct (digits_not_brace _ He)|].
  cbn [String.append str_drop]. rewrite decode_encode_val.
  rewrite (val_list_map VStr val_string) by done. cbn [mbind option_bind].
  rewrite (val_list_map VStr val_string) by done. by destruct i.
Qed.

Definition wallet_codec : codec WalletInfo.
Proof.
  refine {| Marshal := fun i => inl (wallet_text i);
            Unmarshal := fun s => match text_wallet s with Some i => inl i | None => inr (ENew "invalid") end;
            representable := fun _ => True |}.
  intros i _. eexists. split; [reflexivity|]. by rewrite text_wallet_text.
Defined.

Definition demo_request : TestnetWorkflowRequest :=
  {| Repo := "evm"; SHA := "main"; IsEvmChain_ := true; ChainConfig_ := empty_ChainsConfig; RunnerType_ := Docker;
     CosmosSdkSha := ""; CometBFTSha := ""; EthereumLoadTestSpec := None; CosmosLoadTestSpec := None;
     LongRunningTestnet := false; LaunchLoadBalancer_ := false; TestnetDuration := "1h"; NumWallets := 4;
     BaseMnemonic := ""; CatalystVersion := ""; ProviderSpecificConfig_ := None |}.

Definition demo_DbJson : DbJson.
Proof.
  refine {| nodes_json := codec_by (fun l => VList (map node_val l)) (val_list val_node)
              (fun l => val_list_map node_val val_node l val_node_val);
            links_json := codec_by strs_val val_strs val_strs_val;
            config_json := codec_by request_val val_request val_request_val; wallets_json := wallet_codec; wallets_protojson := wallet_codec;
            wallets_read := eq_refl |}.
  intros c Hc i s _ Hs. replace c with wallet_codec in Hs by (by destruct Hc).
  injection Hs as <-. unfold wallet_text. destruct (decide _) as [->|Hne]; [done|]. unfold empty_object.
  destruct (String.eqb_spec ("{" +:+ encode_val (VList [VStr (FaucetAddress i); VStr (FaucetMnemonic i);
    VList (map VStr (UserAddresses i)); VList (map VStr (UserMnemonics i))])) "{}") as [[= He]|_];
    [by destruct (digits_not_brace _ He)|done].
Defined.

Definition ordered {A} (le : A -> A -> bool) : relation A := fun x y => le x y = true.

#[export] Instance ordered_dec {A} (le : A -> A -> bool) x y : Decision (ordered le x y).
Proof. unfold ordered. apply _. Defined.

(** Digits of a time after midnight, as many as the largest has. *)
Definition clock_text (t : Z) : string := if t <? 10 then "0" +:+ itoa t else itoa t.

Definition demo_SqlOrder : SqlOrder.
Proof.
  refine {| time_text := clock_text;
            order_limit := fun A le limit offset l => window limit offset (merge_sort (ordered le) l) |}.
  intros A le limit offset l Htot _. exists (merge_sort (ordered le) l).
  split; [apply merge_sort_Permutation|]. split; [by apply Sorted_merge_sort|done].
Defined.

Definition demo_workflow (id : string) (status : WorkflowStatus) : Workflow :=
  {| w_ID := 0; w_WorkflowID := id; w_Nodes := []; w_Validators := []; w_LoadBalancers := [];
     w_Wallets := Some empty_WalletInfo; w_MonitoringLinks := ∅; w_Status := status; w_Config := demo_request;
     w_LoadTestSpec := None; w_Provider := ""; w_TemplateID := ""; w_RunName := ""; w_CreatedAt := 0; w_UpdatedAt := 0 |}.

Definition demo_engine : handler db_sig Z := fun c now =>
  match c with
  | Now => (now, now + 1)
  | CurrentTimestamp => (now, now)
  | Exec _ => (None, now)
  | RowsAffected => (None, now)
  | RowsEnd => (None, now)
  end.

Definition demo_row (id at_ : Z) (workflow_id : string) (status : WorkflowStatus) : workflow_row :=
  {| r_id := id; r_workflow_id := workflow_id; r_nodes := encode_val (VList []); r_validators := encode_val (VList []);
     r_loadbalancers := encode_val (VList []); r_wallets := "{}"; r_monitoring_links := encode_val (VMapOther []);
     r_status := status; r_config := encode_val (request_val demo_request); r_load_test_spec := "{}"; r_provider := ""; r_template_id := "";
     r_run_name := ""; r_created_at := at_; r_updated_at := at_ |}.

(** A finished workflow and an older one that runs. *)
Definition demo_database : database :=
  {| workflows := [demo_row 1 20 "done" STATUS_COMPLETED; demo_row 2 10 "busy" STATUS_RUNNING];
     last_id := 2; workflow_templates := [] |}.
Definition demo_store : store :=
  store_of [stored (demo_workflow "done" STATUS_COMPLETED) 1 20; stored (demo_workflow "busy" STATUS_RUNNING) 2 10] [].

(** The order of the instants, of the times whose texts are written with two
    digits. *)
Definition demo_order : CreatedOrder := fun t1 t2 => 0 <= t1 < 100 -> 0 <= t2 < 100 -> t2 <= t1.

Lemma below_seqZ n t : 0 <= t < n -> t ∈ seqZ 0 n.
Proof. intros H. apply elem_of_seqZ. lia. Qed.

Lemma demo_text_newer t1 t2 : created_desc (O := demo_SqlOrder) t1 t2 = true -> demo_order t1 t2.
Proof.
  intros H Ht1%below_seqZ Ht2%below_seqZ.
  assert (Hall : forallb (fun t1 => forallb (fun t2 => implb (String.leb (clock_text t2) (clock_text t1)) (t2 <=? t1))
    (seqZ 0 100)) (seqZ 0 100) = true) by (vm_compute; reflexivity).
  rewrite forallb_forall in Hall. specialize (Hall t1 (proj1 (list_elem_of_In _ _) Ht1)). rewrite forallb_forall in Hall.
  specialize (Hall t2 (proj1 (list_elem_of_In _ _) Ht2)). cbv beta in Hall. unfold created_desc in H. cbn in H.
  rewrite H in Hall. by apply Z.leb_le.
Qed.

Lemma sqlite_implements_DB_witness :
  created_desc (O := demo_SqlOrder) 20 10 = true /\
  DBSpec (N := demo_order) db_sig database (sqlite (J := demo_DbJson) (O := demo_SqlOrder))
    (represents_db (J := demo_DbJson)) (writable (J := demo_DbJson)) (writable_update (J := demo_DbJson))
    (representable (@config_json demo_DbJson)).
Proof.
  split; [reflexivity|].
  apply (proj1 (sqlite_implements_DB (J := demo_DbJson) (O := demo_SqlOrder) (N := demo_order) demo_text_newer)).
Defined.

Lemma demo_reads id at_ workflow_id status :
  reads (J := demo_DbJson) (demo_row id at_ workflow_id status) (stored (demo_workflow workflow_id status) id at_).
Proof. constructor; try done; vm_compute; reflexivity. Qed.

Lemma demo_represents : represents_db (J := demo_DbJson) demo_database demo_store.
Proof.
  eexists _, _. split; [|reflexivity]. constructor; cbn [workflows workflow_templates demo_database last_id].
  - repeat constructor; apply demo_reads.
  - constructor.
  - by apply (bool_decide_unpack _); vm_compute.
  - constructor.
  - repeat constructor; vm_compute; discriminate.
Qed.

Lemma demo_writable id status : writable (J := demo_DbJson) (demo_workflow id status).
Proof. by repeat split. Qed.

Lemma CreateWorkflow_GetWorkflow_witness :
  represents_db (J := demo_DbJson) demo_database demo_store /\
  writable (J := demo_DbJson) (demo_workflow "new" STATUS_RUNNING) /\
  exists P, wpM (let* created := @CreateWorkflow demo_DbJson (demo_workflow "new" STATUS_RUNNING) in
    let* read := @GetWorkflow demo_DbJson "new" in retM (created, read)) demo_database P [].
Proof.
  split; [apply demo_represents|]. split; [apply demo_writable|]. eexists.
  exact (@CreateWorkflow_GetWorkflow demo_DbJson (demo_workflow "new" STATUS_RUNNING) demo_database demo_store
    demo_represents (demo_writable _ _)).
Defined.

Definition outcome_map {A B} (f : A -> B) (o : outcome A) : outcome B := a ← o; mret (f a).

Lemma ListWorkflows_pages_witness :
  let pages := (let* page1 := @ListWorkflows demo_DbJson demo_SqlOrder 1 0 in
                let* page2 := @ListWorkflows demo_DbJson demo_SqlOrder 1 (0 + 1) in retM (page1 ++ page2)) in
  outcome_map (map w_WorkflowID) (runM demo_engine pages demo_database 0).1.1.2 = Ok ["busy"; "done"] /\
  exists P, wpM pages demo_database P [].
Proof.
  split; [vm_compute; reflexivity|]. eexists.
  refine (@ListWorkflows_pages demo_DbJson demo_SqlOrder 1 1 0 demo_database demo_store demo_represents _ _ _ _);
    [by apply (bool_decide_unpack _); vm_compute|lia..].
Defined.
