(* ===== verification/Conversions.v ===== *)
(** * Protocol messages and workflow requests: [server/services/workflow/workflow.go], [server/proto/ironbird.proto]

    The protocol's requests, and the conversions between them and workflow
    requests: the one [CreateWorkflow] makes with its checks, and the two of
    the templates.  JSON values and the YAML of load test specifications are
    parameters ([ServiceCodec]).  A repeated field is a list without nil
    elements, as the protocol delivers it; a message field is an option. *)

From S2P Require Import Prelude GoStrings GoVal GoTime ProviderDefs ChainTypes Messages.
From Stdlib Require Import Ascii.
#[local] Open Scope Z_scope.

(** ** Messages *)
Record pb_GenesisKV := {
  pg_Key : string;
  pg_Value : string
}.

Record pb_RegionConfig := {
  pr_Name : string;
  pr_NumOfNodes : Z;                  (* uint64 *)
  pr_NumOfValidators : Z
}.

Record pb_ChainConfig := {
  pc_Name : string;
  pc_NumOfNodes : Z;                  (* uint64 *)
  pc_NumOfValidators : Z;
  pc_GenesisModifications : list pb_GenesisKV;
  pc_Image : string;
  pc_CustomAppConfig : string;
  pc_CustomConsensusConfig : string;
  pc_CustomClientConfig : string;
  pc_SetSeedNode : bool;
  pc_SetPersistentPeers : bool;
  pc_RegionConfigs : list pb_RegionConfig;
  pc_Version : string
}.

Record CreateWorkflowRequest := {
  cw_Repo : string;
  cw_Sha : string;
  cw_IsEvmChain : bool;
  cw_ChainConfig : option pb_ChainConfig;
  cw_RunnerType : string;
  cw_EncodedLoadTestSpec : string;
  cw_LongRunningTestnet : bool;
  cw_TestnetDuration : string;
  cw_NumWallets : Z;                  (* int32 *)
  cw_LaunchLoadBalancer : bool;
  cw_CatalystVersion : string;
  cw_BaseMnemonic : string;
  cw_CosmosSdkSha : string;
  cw_CometbftSha : string;
  cw_ProviderConfig : option (gmap string string)
}.

Definition DefaultBaseMnemonic : string :=
  "copper push brief egg scan entry inform record adjust fossil boss egg comic alien upon aspect dry avoid interest fury window hint race symptom".

(** ** The libraries

    A map that was decoded, and a specification that was, are encoded to a
    text that decodes to the same. *)
Class ServiceCodec := {
  json_decode : string -> res GoVal;                  (* json.Unmarshal into an interface{} *)
  json_encode : GoVal -> res string;
  spec_decode : string -> res LoadTestSpec;           (* yaml.Unmarshal *)
  spec_encode : LoadTestSpec -> res string;
  json_again : forall s m, json_decode s = inl (VMap m) ->
    exists s', json_encode (VMap m) = inl s' /\ s' <> "" /\ json_decode s' = inl (VMap m);
  spec_again : forall s x, spec_decode s = inl x ->
    exists s', spec_encode x = inl s' /\ s' <> "" /\ spec_decode s' = inl x
}.

(** ** Values *)
Definition numeric_byte (first : bool) (c : ascii) : bool :=
  bool_decide (is_Some (digit_val c)) || Ascii.eqb c "." || (first && Ascii.eqb c "-").

Definition numeric_text (s : string) : bool :=
  match s with
  | EmptyString => true
  | String c s' => numeric_byte true c && str_all (numeric_byte false) s'
  end.

Fixpoint last_byte (s : string) : option ascii :=
  match s with
  | EmptyString => None
  | String c EmptyString => Some c
  | String _ s' => last_byte s'
  end.

(** The value without its quotes, when it has both. *)
Definition unquote (s : string) : string :=
  if (2 <=? Z.of_nat (String.length s)) && HasPrefix s dquote
     && bool_decide (last_byte s = Some (ascii_of_nat 34))
  then str_take (String.length s - 2) (str_drop 1 s) else s.

Definition isNumericString (s : string) : bool := numeric_text (unquote s).

Section conversions.
Context {C : ServiceCodec}.

Definition parseJSONConfig (jsonStr : string) : option gomap :=
  if String.eqb jsonStr "" then None
  else match json_decode jsonStr with
       | inl (VMap config) => Some config
       | _ => None
       end.

Definition marshalJSONConfig (config : option gomap) : string :=
  match config with
  | None => ""
  | Some m => match json_encode (VMap m) with inl s => s | inr _ => "" end
  end.

Definition genesis_value (value : string) : GoVal :=
  if isNumericString value then VStr value
  else match json_decode value with
       | inl jsonValue => jsonValue
       | inr _ => VStr value
       end.

Definition region_of (rc : pb_RegionConfig) : RegionConfig :=
  {| rc_Name := pr_Name rc; NumNodes := to_int64 (pr_NumOfNodes rc);
     NumValidators := to_int64 (pr_NumOfValidators rc) |}.

Definition region_to (rc : RegionConfig) : pb_RegionConfig :=
  {| pr_Name := rc_Name rc; pr_NumOfNodes := to_uint64 (NumNodes rc);
     pr_NumOfValidators := to_uint64 (NumValidators rc) |}.

(** The specification of its kind; other kinds are dropped. *)
Definition spec_of_kind (kind : string) (spec : option LoadTestSpec) : option LoadTestSpec :=
  match spec with
  | Some x => if String.eqb (Kind x) kind then Some x else None
  | None => None
  end.

(** ** [CreateWorkflow]: the request it builds *)
Definition chain_config_of (version : string) (value : string -> GoVal) (c : pb_ChainConfig) : ChainsConfig :=
  {| ch_Name := pc_Name c; ch_Image := pc_Image c; ch_Version := version;
     GenesisModifications := map (fun gm => {| gkv_Key := pg_Key gm; gkv_Value := value (pg_Value gm) |})
       (pc_GenesisModifications c);
     ch_NumOfNodes := pc_NumOfNodes c; ch_NumOfValidators := pc_NumOfValidators c;
     ch_RegionConfigs := map region_of (pc_RegionConfigs c);
     ch_CustomAppConfig := parseJSONConfig (pc_CustomAppConfig c);
     ch_CustomConsensusConfig := parseJSONConfig (pc_CustomConsensusConfig c);
     ch_CustomClientConfig := parseJSONConfig (pc_CustomClientConfig c);
     ch_SetSeedNode := pc_SetSeedNode c; ch_SetPersistentPeers := pc_SetPersistentPeers c |}.

Definition request_of (req : CreateWorkflowRequest) (baseMnemonic catalystVersion : string) (chain : ChainsConfig)
    (spec : option LoadTestSpec) : TestnetWorkflowRequest :=
  {| Repo := cw_Repo req; SHA := cw_Sha req; IsEvmChain_ := cw_IsEvmChain req; ChainConfig_ := chain;
     RunnerType_ := cw_RunnerType req; CosmosSdkSha := cw_CosmosSdkSha req; CometBFTSha := cw_CometbftSha req;
     EthereumLoadTestSpec := spec_of_kind "eth" spec; CosmosLoadTestSpec := spec_of_kind "cosmos" spec;
     LongRunningTestnet := cw_LongRunningTestnet req; LaunchLoadBalancer_ := cw_LaunchLoadBalancer req;
     TestnetDuration := cw_TestnetDuration req; NumWallets := cw_NumWallets req; BaseMnemonic := baseMnemonic;
     CatalystVersion := catalystVersion; ProviderSpecificConfig_ := cw_ProviderConfig req |}.

Definition check_duration (duration : string) : outcome unit :=
  if String.eqb duration "" then Ok tt
  else match ParseDuration duration with
       | inl _ => Ok tt
       | inr err => Err (EWrap ("invalid testnet duration format '" +:+ duration +:+ "'") err)
       end.

Definition check_peers (chain : pb_ChainConfig) : outcome unit :=
  guard_err (negb (pc_SetSeedNode chain) && negb (pc_SetPersistentPeers chain))
    (ENew "at least one of SetSeedNode or SetPersistentPeers must be set to true").

Definition decode_spec (encoded : string) : outcome (option LoadTestSpec) :=
  if String.eqb encoded "" then Ok None
  else match spec_decode encoded with inl spec => Ok (Some spec) | inr err => Err err end.

(** The checked request, or the error the call returns. *)
Definition workflow_request (req : CreateWorkflowRequest) : outcome TestnetWorkflowRequest :=
  _ ← check_duration (cw_TestnetDuration req);
  let baseMnemonic := if String.eqb (cw_BaseMnemonic req) "" then DefaultBaseMnemonic else cw_BaseMnemonic req in
  chain ← match cw_ChainConfig req with
          | None => Ok empty_ChainsConfig
          | Some c => _ ← check_peers c; Ok (chain_config_of (pc_Version c) genesis_value c)
          end;
  spec ← decode_spec (cw_EncodedLoadTestSpec req);
  let workflowReq := request_of req baseMnemonic (cw_CatalystVersion req) chain spec in
  _ ← wrap_outcome "workflow request validation failed" (TestnetWorkflowRequest_Validate workflowReq);
  Ok workflowReq.

(** ** Templates *)
Definition convertProtoToWorkflowRequest (req : CreateWorkflowRequest) : TestnetWorkflowRequest :=
  request_of req "" ""
    (match cw_ChainConfig req with
     | None => empty_ChainsConfig
     | Some c => chain_config_of "" VStr c
     end)
    (if String.eqb (cw_EncodedLoadTestSpec req) "" then None
     else match spec_decode (cw_EncodedLoadTestSpec req) with inl spec => Some spec | inr _ => None end).

Definition value_text (v : GoVal) : string :=
  match v with
  | VNil => ""
  | VStr s => s
  | _ => match json_encode v with inl s => s | inr _ => "" end
  end.

Definition encoded_spec (r : TestnetWorkflowRequest) : string :=
  match EthereumLoadTestSpec r, CosmosLoadTestSpec r with
  | Some spec, _ | None, Some spec => match spec_encode spec with inl s => s | inr _ => "" end
  | None, None => ""
  end.

Definition proto_chain (version : string) (text : GenesisKV -> option string) (c : ChainsConfig) : pb_ChainConfig :=
  {| pc_Name := ch_Name c; pc_NumOfNodes := ch_NumOfNodes c; pc_NumOfValidators := ch_NumOfValidators c;
     pc_GenesisModifications := omap (fun gm =>
       option_map (fun s => {| pg_Key := gkv_Key gm; pg_Value := s |}) (text gm)) (GenesisModifications c);
     pc_Image := ch_Image c; pc_CustomAppConfig := marshalJSONConfig (ch_CustomAppConfig c);
     pc_CustomConsensusConfig := marshalJSONConfig (ch_CustomConsensusConfig c);
     pc_CustomClientConfig := marshalJSONConfig (ch_CustomClientConfig c);
     pc_SetSeedNode := ch_SetSeedNode c; pc_SetPersistentPeers := ch_SetPersistentPeers c;
     pc_RegionConfigs := map region_to (ch_RegionConfigs c); pc_Version := version |}.

Definition proto_request (r : TestnetWorkflowRequest) (baseMnemonic catalystVersion : string) (chain : pb_ChainConfig)
    : CreateWorkflowRequest :=
  {| cw_Repo := Repo r; cw_Sha := SHA r; cw_IsEvmChain := IsEvmChain_ r; cw_ChainConfig := Some chain;
     cw_RunnerType := RunnerType_ r; cw_EncodedLoadTestSpec := encoded_spec r;
     cw_LongRunningTestnet := LongRunningTestnet r; cw_TestnetDuration := TestnetDuration r;
     cw_NumWallets := to_int32 (NumWallets r); cw_LaunchLoadBalancer := LaunchLoadBalancer_ r;
     cw_CatalystVersion := catalystVersion; cw_BaseMnemonic := baseMnemonic; cw_CosmosSdkSha := CosmosSdkSha r;
     cw_CometbftSha := CometBFTSha r; cw_ProviderConfig := ProviderSpecificConfig_ r |}.

Definition convertWorkflowRequestToProto (r : TestnetWorkflowRequest) : CreateWorkflowRequest :=
  proto_request r "" "" (proto_chain "" (fun gm => Some (value_text (gkv_Value gm))) (ChainConfig_ r)).

(** [ExecuteWorkflowTemplate] runs the configuration at another commit. *)
Definition with_SHA (r : TestnetWorkflowRequest) (sha : string) : TestnetWorkflowRequest :=
  {| Repo := Repo r; SHA := sha; IsEvmChain_ := IsEvmChain_ r; ChainConfig_ := ChainConfig_ r;
     RunnerType_ := RunnerType_ r; CosmosSdkSha := CosmosSdkSha r; CometBFTSha := CometBFTSha r;
     EthereumLoadTestSpec := EthereumLoadTestSpec r; CosmosLoadTestSpec := CosmosLoadTestSpec r;
     LongRunningTestnet := LongRunningTestnet r; LaunchLoadBalancer_ := LaunchLoadBalancer_ r;
     TestnetDuration := TestnetDuration r; NumWallets := NumWallets r; BaseMnemonic := BaseMnemonic r;
     CatalystVersion := CatalystVersion r; ProviderSpecificConfig_ := ProviderSpecificConfig_ r |}.

(** ** The configuration [GetWorkflow] shows *)
Definition shown_value (gm : GenesisKV) : option string :=
  match gkv_Value gm with
  | VStr s => Some s
  | v => match json_encode v with inl s => Some s | inr _ => None end
  end.

Definition shown_request (r : TestnetWorkflowRequest) : CreateWorkflowRequest :=
  proto_request r (BaseMnemonic r) (CatalystVersion r)
    (proto_chain (ch_Version (ChainConfig_ r)) shown_value (ChainConfig_ r)).
End conversions.

(** ** Lemmas *)
Section facts.
Context {C : ServiceCodec}.

Lemma parse_marshal_parse s : parseJSONConfig (marshalJSONConfig (parseJSONConfig s)) = parseJSONConfig s.
Proof.
  unfold parseJSONConfig at 2 3. destruct (String.eqb s ""); [done|].
  destruct (json_decode s) as [[]|e] eqn:Hd; try done. cbn [marshalJSONConfig].
  destruct (json_again s m Hd) as (s' & -> & Hne & Hs'). unfold parseJSONConfig.
  apply String.eqb_neq in Hne. by rewrite Hne, Hs'.
Qed.

Lemma region_again rc : region_of (region_to (region_of rc)) = region_of rc.
Proof.
  assert (H : forall z, to_int64 (to_uint64 (to_int64 z)) = to_int64 z).
  { intros z. unfold to_int64, to_uint64. rewrite Zplus_mod_idemp_l.
    replace ((z + 2 ^ 63) mod 2 ^ 64 - 2 ^ 63 + 2 ^ 63) with ((z + 2 ^ 63) mod 2 ^ 64) by lia.
    by rewrite Zmod_mod. }
  unfold region_of, region_to. cbn. by rewrite !H.
Qed.

(** The specification survives the way through a template, or was dropped
    for its kind. *)
Lemma spec_again_decoded encoded spec (r : TestnetWorkflowRequest) :
  decode_spec encoded = Ok spec ->
  EthereumLoadTestSpec r = spec_of_kind "eth" spec -> CosmosLoadTestSpec r = spec_of_kind "cosmos" spec ->
  exists spec', decode_spec (encoded_spec r) = Ok spec' /\
    spec_of_kind "eth" spec' = spec_of_kind "eth" spec /\ spec_of_kind "cosmos" spec' = spec_of_kind "cosmos" spec.
Proof.
  unfold encoded_spec. intros Hd -> ->. unfold decode_spec in Hd.
  assert (Hsome : forall x, spec_decode encoded = inl x -> spec = Some x ->
    exists spec', decode_spec (match spec_encode x with inl s => s | inr _ => "" end) = Ok spec' /\ spec' = spec).
  { intros x Hx ->. destruct (spec_again _ _ Hx) as (s' & -> & Hne & Hs'). exists (Some x). split; [|done].
    unfold decode_spec. apply String.eqb_neq in Hne. by rewrite Hne, Hs'. }
  destruct (String.eqb encoded ""); [injection Hd as <-; by exists None|].
  destruct (spec_decode encoded) as [x|e]; [|done]. injection Hd as <-. cbn [spec_of_kind].
  destruct (String.eqb_spec (Kind x) "eth") as [He|He].
  - destruct (Hsome x eq_refl eq_refl) as (spec' & Hs & ->). exists (Some x). cbn. by rewrite Hs, He.
  - destruct (String.eqb_spec (Kind x) "cosmos") as [Hc|Hc].
    + destruct (Hsome x eq_refl eq_refl) as (spec' & Hs & ->). exists (Some x). cbn. by rewrite Hs, Hc.
    + by exists None.
Qed.

Lemma omap_total {A B} (f : A -> B) l : omap (fun x => Some (f x)) l = map f l.
Proof.
  induction l as [|x l IH]; [done|]. change (f x :: omap (fun x => Some (f x)) l = map f (x :: l)). by rewrite IH.
Qed.

Lemma genesis_again l : map (fun gm => {| gkv_Key := pg_Key gm; gkv_Value := genesis_value (pg_Value gm) |})
    (omap (fun gm => option_map (fun s => {| pg_Key := gkv_Key gm; pg_Value := s |}) (Some (value_text (gkv_Value gm))))
       (map (fun gm => {| gkv_Key := pg_Key gm; gkv_Value := VStr (pg_Value gm) |}) l))
  = map (fun gm => {| gkv_Key := pg_Key gm; gkv_Value := genesis_value (pg_Value gm) |}) l.
Proof.
  change (fun gm => option_map _ _) with
    (fun gm => Some {| pg_Key := gkv_Key gm; pg_Value := value_text (gkv_Value gm) |}).
  by rewrite omap_total, !map_map.
Qed.

Lemma chain_again c :
  chain_config_of "" genesis_value
    (proto_chain "" (fun gm => Some (value_text (gkv_Value gm))) (chain_config_of "" VStr c))
  = chain_config_of "" genesis_value c.
Proof.
  unfold chain_config_of, proto_chain. cbn. f_equal; [apply genesis_again| |apply parse_marshal_parse..].
  rewrite !map_map. apply map_ext, region_again.
Qed.

Lemma workflow_request_valid req wreq : workflow_request req = Ok wreq ->
  TestnetWorkflowRequest_Validate wreq = Ok tt /\ BaseMnemonic wreq <> "".
Proof.
  unfold workflow_request. intros ([] & _ & H)%outcome_bind_Ok. cbv zeta in H.
  apply outcome_bind_Ok in H as (chain & _ & H). apply outcome_bind_Ok in H as (spec & _ & H).
  apply outcome_bind_Ok in H as ([] & Hv & [= <-]). split.
  - by destruct (TestnetWorkflowRequest_Validate _) as [[]| | |].
  - cbn. destruct (String.eqb_spec (cw_BaseMnemonic req) ""); done.
Qed.

(** What a request that passes every check submits, as a relation: the
    duration is empty or one that parses, the chain has seeds or persistent
    peers, the encoded load test is absent or decodes, and the workflow's
    request, which has the message's fields and a mnemonic, is a valid one. *)
Record submits (req : CreateWorkflowRequest) (r : TestnetWorkflowRequest) : Prop := {
  sb_duration : cw_TestnetDuration req = "" \/ exists d, ParseDuration (cw_TestnetDuration req) = inl d;
  sb_peers : forall c, cw_ChainConfig req = Some c -> pc_SetSeedNode c = true \/ pc_SetPersistentPeers c = true;
  sb_request : exists spec,
    (cw_EncodedLoadTestSpec req = "" /\ spec = None \/
     cw_EncodedLoadTestSpec req <> "" /\ exists x, spec_decode (cw_EncodedLoadTestSpec req) = inl x /\ spec = Some x) /\
    r = request_of req (if String.eqb (cw_BaseMnemonic req) "" then DefaultBaseMnemonic else cw_BaseMnemonic req)
          (cw_CatalystVersion req)
          match cw_ChainConfig req with
          | None => empty_ChainsConfig
          | Some c => chain_config_of (pc_Version c) genesis_value c
          end spec;
  sb_valid : valid_request r
}.

Lemma check_duration_ok d : check_duration d = Ok tt <-> d = "" \/ exists n, ParseDuration d = inl n.
Proof.
  unfold check_duration. destruct (String.eqb_spec d ""); [by split; [left|]|].
  destruct (ParseDuration d) as [n'|e]; split; try done; [by right; exists n'|by intros [|[? ?]]].
Qed.

Lemma check_peers_ok c : check_peers c = Ok tt <-> pc_SetSeedNode c = true \/ pc_SetPersistentPeers c = true.
Proof.
  unfold check_peers, guard_err. destruct (pc_SetSeedNode c), (pc_SetPersistentPeers c); cbn; split; auto; try done; by intros [].
Qed.

Lemma decode_spec_ok s spec : decode_spec s = Ok spec <->
  s = "" /\ spec = None \/ s <> "" /\ exists x, spec_decode s = inl x /\ spec = Some x.
Proof.
  unfold decode_spec. destruct (String.eqb_spec s "") as [->|Hne].
  - split; [intros [= <-]; by left|]. by intros [[_ ->]|[? _]].
  - destruct (spec_decode s) as [x|e]; split; try done.
    + intros [= <-]. right. split; [done|]. by exists x.
    + by intros [[? _]|[_ (x' & [= <-] & ->)]].
    + by intros [[? _]|[_ (x' & ? & _)]].
Qed.

Lemma workflow_request_submits req r : workflow_request req = Ok r <-> submits req r.
Proof.
  unfold workflow_request. split.
  - intros ([] & Hd & H)%outcome_bind_Ok. cbv zeta in H.
    apply outcome_bind_Ok in H as (chain & Hc & H). apply outcome_bind_Ok in H as (spec & Hs & H).
    apply outcome_bind_Ok in H as ([] & Hv & [= <-]). constructor.
    + by apply check_duration_ok.
    + intros c Ec. rewrite Ec in Hc. apply outcome_bind_Ok in Hc as ([] & Hp & _). by apply check_peers_ok.
    + exists spec. split; [by apply decode_spec_ok|]. f_equal. destruct (cw_ChainConfig req); [|by injection Hc].
      by apply outcome_bind_Ok in Hc as ([] & _ & [= <-]).
    + apply TestnetWorkflowRequest_Validate_iff. by destruct (TestnetWorkflowRequest_Validate _) as [[]| | |].
  - intros [Hd Hp (spec & Hs & ->) Hv]. apply check_duration_ok in Hd. rewrite Hd. cbn.
    apply decode_spec_ok in Hs. apply TestnetWorkflowRequest_Validate_iff in Hv.
    destruct (cw_ChainConfig req) as [c|]; cbn.
    + rewrite (proj2 (check_peers_ok c)) by auto. cbn. rewrite Hs. cbn. by rewrite Hv.
    + rewrite Hs. cbn. by rewrite Hv.
Qed.

Lemma returns_bind {A B} (o : outcome A) (f : A -> outcome B) :
  returns o = true -> (forall a, returns (f a) = true) -> returns (o ≫= f) = true.
Proof. destruct o; cbn; auto. Qed.

Lemma workflow_request_returns req : returns (workflow_request req) = true.
Proof.
  assert (Hv : forall r, returns (wrap_outcome "workflow request validation failed" (TestnetWorkflowRequest_Validate r)) = true).
  { intros r. unfold TestnetWorkflowRequest_Validate. repeat case_match; done. }
  unfold workflow_request. apply returns_bind; [unfold check_duration; by repeat case_match|]. intros _. cbv zeta.
  apply returns_bind.
  { destruct (cw_ChainConfig req); [|done]. unfold check_peers, guard_err. by case_match. }
  intros chain. apply returns_bind; [unfold decode_spec; by repeat case_match|]. intros spec.
  by apply returns_bind.
Qed.

(** The request [p] at the commit [sha], without what a template does not
    keep: the base mnemonic and the versions of catalyst and of the chain. *)
Definition submitted (p : CreateWorkflowRequest) (sha : string) (c : pb_ChainConfig) : CreateWorkflowRequest :=
  {| cw_Repo := cw_Repo p; cw_Sha := sha; cw_IsEvmChain := cw_IsEvmChain p;
     cw_ChainConfig := Some {| pc_Name := pc_Name c; pc_NumOfNodes := pc_NumOfNodes c;
       pc_NumOfValidators := pc_NumOfValidators c; pc_GenesisModifications := pc_GenesisModifications c;
       pc_Image := pc_Image c; pc_CustomAppConfig := pc_CustomAppConfig c;
       pc_CustomConsensusConfig := pc_CustomConsensusConfig c; pc_CustomClientConfig := pc_CustomClientConfig c;
       pc_SetSeedNode := pc_SetSeedNode c; pc_SetPersistentPeers := pc_SetPersistentPeers c;
       pc_RegionConfigs := pc_RegionConfigs c; pc_Version := "" |};
     cw_RunnerType := cw_RunnerType p; cw_EncodedLoadTestSpec := cw_EncodedLoadTestSpec p;
     cw_LongRunningTestnet := cw_LongRunningTestnet p; cw_TestnetDuration := cw_TestnetDuration p;
     cw_NumWallets := cw_NumWallets p; cw_LaunchLoadBalancer := cw_LaunchLoadBalancer p;
     cw_CatalystVersion := ""; cw_BaseMnemonic := ""; cw_CosmosSdkSha := cw_CosmosSdkSha p;
     cw_CometbftSha := cw_CometbftSha p; cw_ProviderConfig := cw_ProviderConfig p |}.

(** A template's configuration asks for the workflow it was made from. *)
Lemma template_again p sha c spec :
  cw_ChainConfig p = Some c -> -2^31 <= cw_NumWallets p < 2^31 ->
  decode_spec (cw_EncodedLoadTestSpec p) = Ok spec ->
  workflow_request (convertWorkflowRequestToProto (with_SHA (convertProtoToWorkflowRequest p) sha))
  = workflow_request (submitted p sha c).
Proof.
  intros Hc Hw Hs. set (r := with_SHA (convertProtoToWorkflowRequest p) sha).
  assert (Hspec : (if String.eqb (cw_EncodedLoadTestSpec p) "" then None
     else match spec_decode (cw_EncodedLoadTestSpec p) with inl spec => Some spec | inr _ => None end) = spec).
  { unfold decode_spec in Hs. destruct (String.eqb _ _); [congruence|]. destruct (spec_decode _); congruence. }
  destruct (spec_again_decoded _ spec r Hs) as (spec' & Hd & Heth & Hcosmos);
    [by cbn; rewrite Hspec..|].
  unfold workflow_request. change (cw_EncodedLoadTestSpec (convertWorkflowRequestToProto r)) with (encoded_spec r).
  change (cw_EncodedLoadTestSpec (submitted p sha c)) with (cw_EncodedLoadTestSpec p).
  change (cw_TestnetDuration (convertWorkflowRequestToProto r)) with (cw_TestnetDuration p).
  change (cw_TestnetDuration (submitted p sha c)) with (cw_TestnetDuration p).
  destruct (check_duration _) as [[]|e|m|]; try done. rewrite Hd, Hs. cbn [mbind outcome_bind].
  assert (Hch : cw_ChainConfig (convertWorkflowRequestToProto r)
    = Some (proto_chain "" (fun gm => Some (value_text (gkv_Value gm))) (chain_config_of "" VStr c))).
  { unfold r, convertWorkflowRequestToProto, proto_request, with_SHA, convertProtoToWorkflowRequest, request_of.
    cbn [cw_ChainConfig ChainConfig_]. by rewrite Hc. }
  rewrite Hch. cbn [cw_ChainConfig submitted].
  change (check_peers (proto_chain _ _ _)) with (check_peers c).
  change (check_peers {| pc_Name := _ |}) with (check_peers c).
  destruct (check_peers c) as [[]|e|m|]; try done. cbn [mbind outcome_bind].
  change (pc_Version (proto_chain _ _ _)) with "". cbn [pc_Version]. rewrite chain_again.
  assert (Hreq : forall m v ch, request_of (convertWorkflowRequestToProto r) m v ch spec'
    = request_of (submitted p sha c) m v ch spec); [|by rewrite Hreq].
  intros m v ch. unfold request_of. rewrite Heth, Hcosmos.
  cbn [cw_NumWallets convertWorkflowRequestToProto proto_request].
  change (NumWallets r) with (cw_NumWallets p). by rewrite to_int32_small by done.
Qed.
End facts.
