(* ===== verification/WorkflowService.v ===== *)
(** * The workflow service: [server/services/workflow/workflow.go], [server/grpc_server.go]

    The handlers of the server, over any implementation of the database
    interface ([WorkflowStore.DB]) and the calls of the Temporal client.
    The theorems use what [WorkflowStore.DBSpec] promises of the database. *)

From S2P Require Import Prelude GoStrings GoVal GoTime ProviderDefs ChainTypes Messages Encodings WorkflowStore WorkflowDB Conversions.
#[local] Open Scope Z_scope.

(** ** The calls *)
Record WorkflowExecutionInfo := {
  wi_Status : WorkflowStatus;
  wi_StartTime : option Z;
  wi_CloseTime : option Z
}.

Inductive svc_call (E : sig) :=
| Db (c : call E)
| ExecuteWorkflow (req : TestnetWorkflowRequest)
| DescribeWorkflowExecution (workflowID : string)
| TemporalCancel (workflowID : string)
| TemporalSignal (workflowID signalName : string)
| TickOrStop.                                       (* true: the server stops *)
Arguments Db {E} c.
Arguments ExecuteWorkflow {E} req.
Arguments DescribeWorkflowExecution {E} workflowID.
Arguments TemporalCancel {E} workflowID.
Arguments TemporalSignal {E} workflowID signalName.
Arguments TickOrStop {E}.

Definition svc_ans {E : sig} (c : svc_call E) : Type :=
  match c with
  | Db c => ans E c
  | ExecuteWorkflow _ => res string                  (* the workflow's identifier *)
  | DescribeWorkflowExecution _ => res WorkflowExecutionInfo
  | TemporalCancel _ | TemporalSignal _ _ => res unit
  | TickOrStop => bool
  end.

Canonical svc_sig (E : sig) : sig := Sig (svc_call E) svc_ans.

(** ** Messages *)
Record pb_Workflow := {
  pw_WorkflowId : string;
  pw_Status : string;
  pw_Nodes : list Node;
  pw_Validators : list Node;
  pw_LoadBalancers : list Node;
  pw_Monitoring : gmap string string;
  pw_Config : CreateWorkflowRequest;
  pw_LoadTestSpec : string;
  pw_Wallets : option WalletInfo;
  pw_Provider : string;
  pw_StartTime : string;
  pw_EndTime : string
}.

Record WorkflowSummary := {
  ws_WorkflowId : string;
  ws_Status : string;
  ws_StartTime : string;
  ws_Repo : string;
  ws_Sha : string;
  ws_Provider : string;
  ws_TemplateId : string;
  ws_RunName : string
}.

Record WorkflowListResponse := {
  wl_Workflows : list WorkflowSummary;
  wl_ReturnedCount : Z;
  wl_Total : Z
}.

Record pb_WorkflowTemplate := {
  pt_Id : string;
  pt_Description : string;
  pt_TemplateConfig : CreateWorkflowRequest;
  pt_CreatedAt : string;
  pt_CreatedBy : string
}.

Record WorkflowTemplateSummary := {
  ts_Id : string;
  ts_Description : string;
  ts_CreatedAt : string;
  ts_RunCount : Z
}.

Record TemplateRun := {
  tn_RunId : string;
  tn_WorkflowId : string;
  tn_TemplateId : string;
  tn_Sha : string;
  tn_RunName : string;
  tn_Status : string;
  tn_StartedAt : string;
  tn_CompletedAt : string;
  tn_MonitoringLinks : gmap string string;
  tn_Provider : string
}.

Definition isWorkflowTerminal (status : WorkflowStatus) : bool :=
  (status =? STATUS_COMPLETED) || (status =? STATUS_FAILED) || (status =? STATUS_CANCELED)
  || (status =? STATUS_TERMINATED).

(** The EVM endpoints are not copied. *)
Definition convertProtoNodes (protoNodes : list Node) : list Node :=
  map (fun n => {| n_Name := n_Name n; Address := Address n; Rpc := Rpc n; Lcd := Lcd n; Grpc := Grpc n;
                   Evmrpc := ""; Evmws := "" |}) protoNodes.

Section service.
Context {E : sig} {S : Type} {D : DB E S} {C : ServiceCodec}.
Variable format_RFC3339 : Z -> string.            (* in the zone of the instant *)
Variable format_UTC : Z -> string.
Variable format_DateTime : Z -> string.           (* "2006-01-02 15:04:05" *)
Variable load_test_json : string -> option LoadTestSpec.    (* json.Unmarshal of a stored specification *)

Abbreviation SvcM := (M (svc_sig E) S).

(** A call of the database. *)
Definition db {A} (m : M E S A) : SvcM A := embed (E' := svc_sig E) Db (fun _ x => x) m.

(** ** Workflows *)
Definition new_workflow (workflowID : string) (config : TestnetWorkflowRequest) : Workflow :=
  {| w_ID := 0; w_WorkflowID := workflowID; w_Nodes := []; w_Validators := []; w_LoadBalancers := [];
     w_Wallets := None; w_MonitoringLinks := ∅; w_Status := STATUS_RUNNING; w_Config := config;
     w_LoadTestSpec := None; w_Provider := ""; w_TemplateID := ""; w_RunName := ""; w_CreatedAt := 0;
     w_UpdatedAt := 0 |}.

(** The identifier of the started workflow; a failure to record it is only
    logged. *)
Definition CreateWorkflow (req : CreateWorkflowRequest) : SvcM string :=
  let* workflowReq := lift_outcome (workflow_request req) in
  let* workflowID := wrap "failed to execute workflow" (ask (ExecuteWorkflow workflowReq)) in
  let* _ := try_ (db (db_CreateWorkflow (new_workflow workflowID workflowReq))) in
  retM workflowID.

Definition shown_load_test (spec : option string) : outcome string :=
  match spec with
  | None => Ok ""
  | Some s =>
      match load_test_json s with
      | None => Ok ""
      | Some spec => match spec_encode spec with inl s => Ok s | inr e => Err e end
      end
  end.

Definition GetWorkflow (workflowID : string) : SvcM pb_Workflow :=
  let* workflow := wrap "failed to get workflow" (db (db_GetWorkflow workflowID)) in
  let* desc := wrap "failed to describe workflow" (ask (DescribeWorkflowExecution workflowID)) in
  let time t := match t with Some z => format_UTC z | None => "" end in
  let* spec := lift_outcome (shown_load_test (w_LoadTestSpec workflow)) in
  retM {| pw_WorkflowId := workflowID; pw_Status := WorkflowStatusToString (wi_Status desc);
          pw_Nodes := w_Nodes workflow; pw_Validators := w_Validators workflow;
          pw_LoadBalancers := w_LoadBalancers workflow; pw_Monitoring := w_MonitoringLinks workflow;
          pw_Config := shown_request (w_Config workflow); pw_LoadTestSpec := spec;
          pw_Wallets := w_Wallets workflow; pw_Provider := w_Provider workflow;
          pw_StartTime := time (wi_StartTime desc); pw_EndTime := time (wi_CloseTime desc) |}.

Definition summary (workflow : Workflow) : WorkflowSummary :=
  {| ws_WorkflowId := w_WorkflowID workflow; ws_Status := WorkflowStatusToString (w_Status workflow);
     ws_StartTime := format_DateTime (w_CreatedAt workflow); ws_Repo := Repo (w_Config workflow);
     ws_Sha := SHA (w_Config workflow); ws_Provider := w_Provider workflow;
     ws_TemplateId := w_TemplateID workflow; ws_RunName := w_RunName workflow |}.

Definition len32 {A} (l : list A) : Z := to_int32 (Z.of_nat (length l)).

Definition ListWorkflows (limit offset : Z) : SvcM WorkflowListResponse :=
  let* totalCount := wrap "failed to count workflows" (db db_CountWorkflows) in
  let* workflows := wrap "failed to list workflows" (db (db_ListWorkflows limit offset)) in
  retM {| wl_Workflows := map summary workflows; wl_ReturnedCount := len32 workflows;
          wl_Total := to_int32 totalCount |}.

Definition CancelWorkflow (workflowID : string) : SvcM string :=
  let* _ := wrap "failed to cancel workflow" (ask (TemporalCancel workflowID)) in retM workflowID.

Definition SignalWorkflow (workflowID signalName : string) : SvcM string :=
  let* _ := wrap "failed to signal workflow" (ask (TemporalSignal workflowID signalName)) in retM workflowID.

Definition RunLoadTest (workflowID : string) : SvcM string := retM workflowID.

Definition given_list {A} (l : list A) : option (list A) := match l with [] => None | _ => Some l end.

Definition data_update (req : UpdateWorkflowDataRequest) : WorkflowUpdate :=
  {| wu_LoadBalancers := given_list (convertProtoNodes (ud_LoadBalancers req));
     wu_MonitoringLinks := if decide (ud_Monitoring req = ∅) then None else Some (ud_Monitoring req);
     wu_Nodes := given_list (convertProtoNodes (ud_Nodes req));
     wu_Validators := given_list (convertProtoNodes (ud_Validators req));
     wu_Wallets := ud_Wallets req;
     wu_Provider := if String.eqb (ud_Provider req) "" then None else Some (ud_Provider req);
     wu_Status := None; wu_TemplateID := None; wu_RunName := None |}.

Definition UpdateWorkflowData (req : UpdateWorkflowDataRequest) : SvcM string :=
  let* _ := wrap "failed to update workflow data" (db (db_UpdateWorkflow (ud_WorkflowId req) (data_update req))) in
  retM (ud_WorkflowId req).

(** ** The status updater *)
Definition status_update (status : WorkflowStatus) : WorkflowUpdate :=
  {| wu_Nodes := None; wu_Validators := None; wu_LoadBalancers := None; wu_Wallets := None;
     wu_MonitoringLinks := None; wu_Status := Some status; wu_Provider := None; wu_TemplateID := None;
     wu_RunName := None |}.

Definition update_status (workflow : Workflow) : SvcM unit :=
  if isWorkflowTerminal (w_Status workflow) then retM tt
  else
    let* desc := perform (DescribeWorkflowExecution (w_WorkflowID workflow)) in
    match desc with
    | inr _ => retM tt
    | inl desc =>
        if wi_Status desc =? w_Status workflow then retM tt
        else
          let* _ := try_ (db (db_UpdateWorkflow (w_WorkflowID workflow) (status_update (wi_Status desc)))) in
          retM tt
    end.

Definition UpdateWorkflowStatuses : SvcM unit :=
  let* workflows := try_ (db (db_ListWorkflows 1000 0)) in
  match workflows with
  | inr _ => retM tt
  | inl workflows => for_each workflows update_status
  end.

(** [GRPCServer.startWorkflowStatusUpdater] *)
Definition startWorkflowStatusUpdater (fuel : nat) : SvcM unit :=
  poll fuel (let* stop := perform TickOrStop in
             if (stop : bool) then retM (Some tt) else let* _ := UpdateWorkflowStatuses in retM None).

(** ** Templates *)
Definition nil_pointer : string := "invalid memory address or nil pointer dereference".

(** The conversion dereferences the message it is given. *)
Definition template_config (config : option CreateWorkflowRequest) : SvcM TestnetWorkflowRequest :=
  match config with
  | None => panic nil_pointer
  | Some c => retM (convertProtoToWorkflowRequest c)
  end.

Definition CreateWorkflowTemplate (id description : string) (templateConfig : option CreateWorkflowRequest) : SvcM string :=
  let* config := template_config templateConfig in
  let* _ := wrap "failed to create workflow template" (db (db_CreateWorkflowTemplate
    {| wt_ID := id; wt_Description := description; wt_Config := config; wt_CreatedAt := 0; wt_CreatedBy := "" |})) in
  retM id.

Definition convertTemplateToProto (template : WorkflowTemplate) : pb_WorkflowTemplate :=
  {| pt_Id := wt_ID template; pt_Description := wt_Description template;
     pt_TemplateConfig := convertWorkflowRequestToProto (wt_Config template);
     pt_CreatedAt := format_RFC3339 (wt_CreatedAt template); pt_CreatedBy := wt_CreatedBy template |}.

Definition GetWorkflowTemplate (id : string) : SvcM pb_WorkflowTemplate :=
  let* template := wrap "failed to get workflow template" (db (db_GetWorkflowTemplate id)) in
  retM (convertTemplateToProto template).

Definition getTemplateRunCount (templateID : string) : SvcM Z :=
  let* workflows := db (db_ListTemplateWorkflows templateID 1000 0) in
  retM (Z.of_nat (length workflows)).

Fixpoint template_summaries (templates : list WorkflowTemplate) : SvcM (list WorkflowTemplateSummary) :=
  match templates with
  | [] => retM []
  | template :: rest =>
      let* runCount := wrap "failed to get template run count" (getTemplateRunCount (wt_ID template)) in
      let* summaries := template_summaries rest in
      retM ({| ts_Id := wt_ID template; ts_Description := wt_Description template;
               ts_CreatedAt := format_RFC3339 (wt_CreatedAt template); ts_RunCount := to_int32 runCount |} :: summaries)
  end.

Definition ListWorkflowTemplates (limit offset : Z) : SvcM (list WorkflowTemplateSummary * Z) :=
  let limit := if limit <=? 0 then 100 else limit in
  let* templates := wrap "failed to list workflow templates" (db (db_ListWorkflowTemplates limit offset)) in
  let* summaries := template_summaries templates in
  retM (summaries, len32 summaries).

Definition UpdateWorkflowTemplate (id description : string) (templateConfig : option CreateWorkflowRequest) : SvcM string :=
  let* config := template_config templateConfig in
  let* _ := wrap "failed to update workflow template" (db (db_UpdateWorkflowTemplate id
    {| wt_ID := ""; wt_Description := description; wt_Config := config; wt_CreatedAt := 0; wt_CreatedBy := "" |})) in
  retM id.

Definition DeleteWorkflowTemplate (id : string) : SvcM string :=
  let* _ := wrap "failed to delete workflow template" (db (db_DeleteWorkflowTemplate id)) in
  retM id.

Definition template_run (templateID runName : string) : WorkflowUpdate :=
  {| wu_Nodes := None; wu_Validators := None; wu_LoadBalancers := None; wu_Wallets := None;
     wu_MonitoringLinks := None; wu_Status := None; wu_Provider := None; wu_TemplateID := Some templateID;
     wu_RunName := Some runName |}.

Definition ExecuteWorkflowTemplate (id sha runName : string) : SvcM string :=
  let* template := wrap "failed to get workflow template" (db (db_GetWorkflowTemplate id)) in
  let workflowReq := with_SHA (wt_Config template) sha in
  let* workflowID := wrap "failed to create workflow from template"
    (CreateWorkflow (convertWorkflowRequestToProto workflowReq)) in
  let* _ := try_ (db (db_UpdateWorkflow workflowID (template_run id runName))) in
  retM workflowID.

Definition run_of (workflow : Workflow) : TemplateRun :=
  {| tn_RunId := w_RunName workflow; tn_WorkflowId := w_WorkflowID workflow; tn_TemplateId := w_TemplateID workflow;
     tn_Sha := SHA (w_Config workflow); tn_RunName := w_RunName workflow;
     tn_Status := WorkflowStatusToString (w_Status workflow);
     tn_StartedAt := format_RFC3339 (w_CreatedAt workflow);
     tn_CompletedAt := if isWorkflowTerminal (w_Status workflow) then format_RFC3339 (w_UpdatedAt workflow) else "";
     tn_MonitoringLinks := w_MonitoringLinks workflow; tn_Provider := w_Provider workflow |}.

Definition GetTemplateRunHistory (id : string) (limit offset : Z) : SvcM (list TemplateRun * Z) :=
  let limit := if limit <=? 0 then 50 else limit in
  let* workflows := wrap "failed to list template workflows" (db (db_ListTemplateWorkflows id limit offset)) in
  retM (map run_of workflows, len32 workflows).
End service.

(** ** Lemmas *)
Section database_calls.
Context {E : sig} {S : Type}.

Definition db_event (e : event E) : event (svc_sig E) := let '(existT c x) := e in ev (E := svc_sig E) (Db c) x.

Lemma wp_db {A} (m : prog E A) (Q : list (event (svc_sig E)) -> A -> Prop) t :
  wp m (fun l a => Q (t ++ map db_event l) a) [] ->
  wp (prog_embed (E' := svc_sig E) Db (fun _ x => x) m) Q t.
Proof.
  enough (H : forall u, wp m (fun l a => Q (t ++ map db_event l) a) u ->
    wp (prog_embed (E' := svc_sig E) Db (fun _ x => x) m) Q (t ++ map db_event u)).
  { intros Hm. specialize (H [] Hm). by rewrite app_nil_r in H. }
  induction m as [a|c k IH]; intros u Hm; cbn [prog_embed wp] in *; [done|].
  intros x. specialize (IH x (u ++ [ev c x]) (Hm x)). rewrite map_app, app_assoc in IH. exact IH.
Qed.

Lemma wpM_db {A} (m : M E S A) s (Q : list (event (svc_sig E)) -> S -> outcome A -> Prop) t :
  wpM m s (fun l s' o => Q (t ++ map db_event l) s' o) [] -> wpM (db m) s Q t.
Proof. intros Hm. unfold wpM, db, embed. by apply wp_db. Qed.

(** The requests sent to Temporal, with their answers. *)
Definition executed (e : event (svc_sig E)) : option (TestnetWorkflowRequest * res string) :=
  match e with
  | existT (ExecuteWorkflow req) r => Some (req, r)
  | _ => None
  end.

Lemma executed_db l : omap executed (map db_event l) = [].
Proof. induction l as [|[c x] l IH]; [done|]. exact IH. Qed.


(** A call of an operation that implements a specification. *)
Lemma db_run {A} (R : S -> store -> Prop) (m : M E S A) spec s st
    (Q : list (event (svc_sig E)) -> S -> outcome A -> Prop) t :
  implements R m spec -> R s st ->
  (forall l s' st' o, R s' st' -> spec st st' o -> Q (t ++ map db_event l) s' o) -> wpM (db m) s Q t.
Proof.
  intros Hm Hs HQ. apply wpM_db. eapply wpM_mono; [|by apply Hm]. intros l s' o (st' & Hs' & Hspec). by eapply HQ.
Qed.
End database_calls.

Lemma alter_known {A} (f : A -> A) (m : gmap string A) k a : m !! k = Some a -> alter f k m = <[k := f a]> m.
Proof.
  intros Ha. apply map_eq. intros k'. rewrite lookup_alter, lookup_insert. case_decide; [|done].
  subst k'. by rewrite Ha.
Qed.

Section properties.
Context {E : sig} {S : Type} {D : DB E S} {C : ServiceCodec}.
Context (R : S -> store -> Prop) (can_store : Workflow -> Prop) (can_update : WorkflowUpdate -> Prop)
  (can_store_config : TestnetWorkflowRequest -> Prop) (full : S -> Prop) (healthy : event E -> Prop).
Context {N : CreatedOrder} {P : DBSpec E S D R can_store can_update can_store_config}
  {L : DBLive E S D R can_store can_update full healthy}.

(** No answer of the database is a failure. *)
Definition db_healthy (e : event (svc_sig E)) : Prop :=
  match e with existT (Db c) x => healthy (ev c x) | _ => True end.

Lemma db_healthy_db l : Forall db_healthy (map db_event l) <-> Forall healthy l.
Proof. rewrite Forall_map. apply Forall_iff. by intros [c x]. Qed.

(** What the database holds of a workflow that was started: its record, or
    nothing new when the database refused: where it has room and no
    workflow under that identifier, one of its answers is a failure. *)
Definition recorded (no_room : Prop) (l : list (event (svc_sig E))) (st st' : store) (id : string)
    (req : TestnetWorkflowRequest) : Prop :=
  (st_workflows st !! id = None /\ exists row now,
     st' = with_st_workflows st (<[id := stored (new_workflow id req) row now]> (st_workflows st))) \/
  (st' = st /\ (~ no_room -> st_workflows st !! id = None -> ~ Forall db_healthy l)).

Lemma recorded_later (no_room no_room' : Prop) l1 l l2 st st' id req :
  (no_room -> no_room') -> recorded no_room l st st' id req -> recorded no_room' (l1 ++ l ++ l2) st st' id req.
Proof.
  intros Hroom [H|[-> H]]; [by left|right]. split; [done|]. intros Hn Hid [_ [Hl _]%Forall_app]%Forall_app.
  by apply H; [intros Hf; apply Hn, Hroom| |].
Qed.

Lemma wpM_impl {E' S' A} (X : Prop) (m : M E' S' A) s (Q : list (event E') -> S' -> outcome A -> Prop) t :
  (X -> wpM m s Q t) -> wpM m s (fun l s' o => X -> Q l s' o) t.
Proof.
  unfold wpM. revert t. induction (m s) as [r|c k IH]; intros t H; cbn [wp] in *; [done|].
  intros x. apply IH. intros HX. by apply H.
Qed.

(** The creation of a workflow by the database. *)
Lemma db_create_run id req s st (Q : list (event (svc_sig E)) -> S -> outcome Workflow -> Prop) t :
  R s st -> can_store (new_workflow id req) ->
  (forall l s' st' o, R s' st' -> recorded (full s) (map db_event l) st st' id req ->
     match o with Ok _ | Err _ => True | _ => False end -> Q (t ++ map db_event l) s' o) ->
  wpM (db (db_CreateWorkflow (new_workflow id req))) s Q t.
Proof.
  intros Hs Hw HQ. apply wpM_db.
  eapply wpM_mono; [|apply wpM_and; [by apply (CreateWorkflow_implements _ Hw)|
    apply (wpM_impl (~ full s)); intros Hroom; apply (wpM_impl (st_workflows st !! id = None)); intros Hnone;
    by apply (CreateWorkflow_succeeds _ s st [])]].
  intros l s' o [(st' & Hs' & Hspec) Hlive]. apply (HQ l s' st'); [done| |by destruct o].
  destruct o as [w|e|m|]; try done.
  - destruct Hspec as (Hnone & row & now & _ & _ & ->). left. split; [done|]. by exists row, now.
  - right. split; [done|]. intros Hn Hid Hl%db_healthy_db. by specialize (Hlive Hn Hid Hl).
Qed.

Lemma CreateWorkflow_run req s st t :
  R s st -> (forall id r, submits req r -> can_store (new_workflow id r)) ->
  wpM (CreateWorkflow req) s (fun l s' o => exists st' l', R s' st' /\ l = t ++ l' /\
    match o with
    | Ok id => exists r, submits req r /\ omap executed l' = [(r, inl id)] /\ recorded (full s) l' st st' id r
    | Err e => st' = st /\
        ((workflow_request req = Err e /\ l' = []) \/
         exists r e', submits req r /\ omap executed l' = [(r, inr e')] /\ e = EWrap "failed to execute workflow" e')
    | _ => False
    end) t.
Proof.
  intros Hs Hcan. unfold CreateWorkflow. pose proof (workflow_request_returns req) as Hret. do 2 wpM_step.
  destruct (workflow_request req) as [r|e|m|] eqn:Hreq; cbn in Hret; try done; cbn beta iota.
  2: { exists st, []. rewrite app_nil_r. split; [done|]. split; [done|]. split; [done|]. by left. }
  pose proof (proj1 (workflow_request_submits req r) Hreq) as Hsub.
  do 4 wpM_step. destruct x as [id|e]; cbn [lift_res]; wpM_step; cbn [wrap_outcome].
  2: { eexists st, [_]. split; [done|]. split; [done|]. split; [done|]. right. by exists r, e. }
  do 2 wpM_step. apply (db_create_run id r s st _ _ Hs (Hcan id r Hsub)).
  intros l s' st' o Hs' Hrec Ho. destruct o as [w|e|m|]; try done; cbn beta iota; wpM_step;
    eexists st', (ev (E := svc_sig E) (ExecuteWorkflow r) (inl id) :: map db_event l);
    (split; [done|]; split; [by rewrite <- app_assoc|]); exists r;
    (split; [done|]; split; [cbn; by rewrite executed_db|]);
    apply (recorded_later (full s) (full s) [ev (E := svc_sig E) (ExecuteWorkflow r) (inl id)] (map db_event l) []) in Hrec;
    rewrite ?app_nil_r in Hrec; done.
Qed.

(** C24: a workflow is started at most once, and only for a request that
    passes every check: its duration is empty or parses, its chain has seeds
    or persistent peers, its load test is absent or decodes, and the
    workflow's request made of it, with the default mnemonic when none is
    given, is a valid one.  Such a request is always sent, exactly so, and
    the call returns the identifier Temporal answered or Temporal's error.
    A workflow that was started is recorded as running with that request,
    unless the database refuses, which, where it has room and no workflow
    under that identifier, takes a failure of the database.  Any other
    request is refused with an error, and starts nothing and changes
    nothing. *)
Theorem CreateWorkflow_spec (req : CreateWorkflowRequest) (s : S) (st : store) :
  R s st -> (forall id r, submits req r -> can_store (new_workflow id r)) ->
  wpM (CreateWorkflow req) s (fun l s' o => exists st', R s' st' /\
    match o with
    | Ok id => exists r, submits req r /\ omap executed l = [(r, inl id)] /\ recorded (full s) l st st' id r
    | Err e => st' = st /\
        (((forall r, ~ submits req r) /\ l = []) \/
         exists r e', submits req r /\ omap executed l = [(r, inr e')] /\ e = EWrap "failed to execute workflow" e')
    | _ => False
    end) [].
Proof.
  intros Hs Hcan. eapply wpM_mono; [|by apply (CreateWorkflow_run req s st [])].
  intros l s' o (st' & l' & Hs' & -> & H). exists st'. split; [done|]. rewrite app_nil_l.
  destruct o as [id|e|m|]; [exact H| |done..]. destruct H as [-> [[Herr ->]|H]]; (split; [done|]); [left|by right].
  split; [|done]. intros r Hr%workflow_request_submits. congruence.
Qed.

(** What an update request leaves of a workflow: a list, map, message or
    name that is not empty replaces the workflow's, with the nodes' EVM
    endpoints dropped; the rest stays. *)
Definition data_updated (req : UpdateWorkflowDataRequest) (w w' : Workflow) : Prop :=
  let nodes (l old : list Node) := match l with [] => old | _ => convertProtoNodes l end in
  w_Nodes w' = nodes (ud_Nodes req) (w_Nodes w) /\
  w_Validators w' = nodes (ud_Validators req) (w_Validators w) /\
  w_LoadBalancers w' = nodes (ud_LoadBalancers req) (w_LoadBalancers w) /\
  w_Wallets w' = match ud_Wallets req with Some i => stored_wallets i | None => w_Wallets w end /\
  w_MonitoringLinks w' = (if decide (ud_Monitoring req = ∅) then w_MonitoringLinks w else ud_Monitoring req) /\
  w_Provider w' = (if String.eqb (ud_Provider req) "" then w_Provider w else ud_Provider req) /\
  w_ID w' = w_ID w /\ w_WorkflowID w' = w_WorkflowID w /\ w_Status w' = w_Status w /\ w_Config w' = w_Config w /\
  w_LoadTestSpec w' = w_LoadTestSpec w /\ w_TemplateID w' = w_TemplateID w /\ w_RunName w' = w_RunName w /\
  w_CreatedAt w' = w_CreatedAt w.

Lemma apply_data_update req at_ w : data_updated req w (apply_update (data_update req) at_ w).
Proof.
  assert (H : forall l old, default old (given_list (convertProtoNodes l)) = match l with [] => old | _ => convertProtoNodes l end)
    by by intros [|n l] old.
  unfold data_updated, apply_update, apply_fields, data_update. cbn. rewrite !H.
  split_and!; try done; [by destruct (decide _)|by destruct (String.eqb _ _)].
Qed.

(** An update of a workflow's data either changes that workflow alone,
    exactly as the request's non-empty fields say and with the EVM endpoints
    of its nodes dropped, or fails; a request with no field fails with its
    own error and changes nothing. *)
Theorem UpdateWorkflowData_spec (req : UpdateWorkflowDataRequest) (s : S) (st : store) :
  R s st -> can_update (data_update req) ->
  wpM (UpdateWorkflowData req) s (fun _ s' o => exists st', R s' st' /\ st_templates st' = st_templates st /\
    (data_update req = empty_WorkflowUpdate ->
       o = Err (EWrap "failed to update workflow data" (ENew "no fields to update")) /\ st' = st) /\
    let changed := exists w w', st_workflows st !! ud_WorkflowId req = Some w /\ data_updated req w w' /\
      st_workflows st' = <[ud_WorkflowId req := w']> (st_workflows st) in
    match o with
    | Ok id => id = ud_WorkflowId req /\ changed
    | Err _ => st_workflows st' = st_workflows st \/ changed
    | _ => False
    end) [].
Proof.
  intros Hs Hu. unfold UpdateWorkflowData. do 2 wpM_step.
  apply (db_run R _ _ _ st _ _ (UpdateWorkflow_implements (ud_WorkflowId req) _ Hu) Hs).
  intros l s' st' o Hs' (Ht & Hempty & Hch).
  assert (Halter : (exists at_, st_workflows st' = alter (apply_update (data_update req) at_) (ud_WorkflowId req) (st_workflows st)) ->
    st_workflows st' = st_workflows st \/ exists w w', st_workflows st !! ud_WorkflowId req = Some w /\
      data_updated req w w' /\ st_workflows st' = <[ud_WorkflowId req := w']> (st_workflows st)).
  { intros [at_ Ha]. destruct (st_workflows st !! ud_WorkflowId req) as [w|] eqn:Hw.
    - right. exists w, (apply_update (data_update req) at_ w). split; [done|]. split; [apply apply_data_update|].
      by rewrite Ha, (alter_known _ _ _ _ Hw).
    - left. rewrite Ha. apply map_eq. intros k. rewrite lookup_alter. case_decide; [|done]. subst k. by rewrite Hw. }
  destruct o as [[]|e|m|]; try done; cbn [wrap_outcome change_spec] in *; cbn beta iota.
  - wpM_step. exists st'. split; [done|]. split; [done|]. split; [by intros [? _]%Hempty|]. split; [done|].
    destruct Hch as [[w Hw] [at_ Ha]]. exists w, (apply_update (data_update req) at_ w). split; [done|].
    split; [apply apply_data_update|]. by rewrite Ha, (alter_known _ _ _ _ Hw).
  - exists st'. split; [done|]. split; [done|]. split; [by intros [[= ->] ->]%Hempty|].
    destruct Hch as [->|Hch]; [by left|by apply Halter].
Qed.
End properties.

(** ** The status updater *)
Section statuses.
Context {E : sig} {S : Type} {D : DB E S}.
Context (R : S -> store -> Prop) (can_store : Workflow -> Prop) (can_update : WorkflowUpdate -> Prop)
  (can_store_config : TestnetWorkflowRequest -> Prop) (full : S -> Prop) (healthy : event E -> Prop).
Context {N : CreatedOrder} {P : DBSpec E S D R can_store can_update can_store_config}
  {L : DBLive E S D R can_store can_update full healthy}.
Hypothesis status_writable : forall status, can_update (status_update status).

(** Neither the database nor Temporal's description failed. *)
Definition answered (e : event (svc_sig E)) : Prop :=
  match e with
  | existT (Db c) x => healthy (ev c x)
  | existT (DescribeWorkflowExecution _) (inr _) => False
  | _ => True
  end.

Definition described (l : list (event (svc_sig E))) (id : string) (info : WorkflowExecutionInfo) : Prop :=
  ev (E := svc_sig E) (DescribeWorkflowExecution id) (inl info) ∈ l.

(** A workflow is as it was or has the status Temporal gave it; one that has
    ended is as it was. *)
Definition status_from (l : list (event (svc_sig E))) (w w' : Workflow) : Prop :=
  w' = w \/
  isWorkflowTerminal (w_Status w) = false /\ exists info at_,
    described l (w_WorkflowID w) info /\ w' = apply_update (status_update (wi_Status info)) at_ w.

Definition in_sync (l : list (event (svc_sig E))) (w w' : Workflow) : Prop :=
  isWorkflowTerminal (w_Status w) = false ->
  exists info, described l (w_WorkflowID w) info /\ w_Status w' = wi_Status info.

Lemma described_app l1 l2 id info : described l1 id info -> described (l1 ++ l2) id info.
Proof. intros H. apply elem_of_app. by left. Qed.

Lemma status_from_app l1 l2 w w' : status_from l1 w w' -> status_from (l1 ++ l2) w w'.
Proof.
  intros [->|(Ht & info & at_ & Hd & ->)]; [by left|right]. split; [done|]. exists info, at_. split; [|done].
  by apply described_app.
Qed.

Lemma in_sync_app l1 l2 w w' : in_sync l1 w w' -> in_sync (l1 ++ l2) w w'.
Proof. intros H Ht. destruct (H Ht) as (info & Hd & Hs). exists info. split; [by apply described_app|done]. Qed.

Lemma answered_db l : Forall answered (map db_event l) -> Forall healthy l.
Proof. rewrite Forall_map. intros H. eapply Forall_impl; [exact H|]. by intros [c x]. Qed.

Lemma implements_and {A} (m : M E S A) spec (Q : list (event E) -> outcome A -> Prop) s st t :
  implements R m spec -> R s st -> wpM m s (fun l _ o => Q l o) t ->
  wpM m s (fun l s' o => Q l o /\ exists st', R s' st' /\ spec st st' o) t.
Proof. intros Hm Hs HQ. apply wpM_and; [done|]. by apply Hm. Qed.

(** One workflow that the database holds. *)
Definition checked (w : Workflow) (st : store) (t l : list (event (svc_sig E))) (s' : S) (o : outcome unit) : Prop :=
  o = Ok tt /\ exists st' w' l', l = t ++ l' /\ R s' st' /\ st_templates st' = st_templates st /\
    st_workflows st' = <[w_WorkflowID w := w']> (st_workflows st) /\ status_from l w w' /\
    (Forall answered l' -> in_sync l w w').

Lemma unchanged_checked w st t l' s' :
  R s' st -> st_workflows st !! w_WorkflowID w = Some w ->
  (Forall answered l' -> in_sync (t ++ l') w w) -> checked w st t (t ++ l') s' (Ok tt).
Proof.
  intros Hs Hw Hsync. split; [done|]. exists st, w, l'. split; [done|]. split; [done|]. split; [done|].
  split; [by rewrite insert_id|]. split; [by left|done].
Qed.

Lemma update_status_run w s st t :
  R s st -> st_workflows st !! w_WorkflowID w = Some w ->
  wpM (update_status w) s (fun l s' o => checked w st t l s' o) t.
Proof.
  intros Hs Hw. unfold update_status. destruct (isWorkflowTerminal (w_Status w)) eqn:Hterm.
  { wpM_step. rewrite <- (app_nil_r t) at 2. apply unchanged_checked; [done..|]. intros _ Hf. congruence. }
  do 2 wpM_step. destruct x as [info|e].
  2: { wpM_step. apply unchanged_checked; [done..|]. by intros [[] _]%Forall_cons. }
  destruct (Z.eqb_spec (wi_Status info) (w_Status w)) as [Heq|Hne].
  { wpM_step. apply unchanged_checked; [done..|]. intros _ _. exists info. split; [|done].
    apply elem_of_app. right. by left. }
  do 2 wpM_step. apply wpM_db. eapply wpM_mono; [|apply (implements_and _ _ (fun l o => Forall healthy l -> is_ok o = true)
    s st [] (UpdateWorkflow_implements (w_WorkflowID w) (status_update (wi_Status info)) (status_writable _)) Hs)].
  2: { apply (UpdateWorkflow_succeeds _ _ s st); [done|apply status_writable|done|by exists w]. }
  intros l s' o [Hlive (st' & Hs' & Htm & _ & Hch)]. cbn beta in *.
  assert (Hd : described ((t ++ [ev (E := svc_sig E) (DescribeWorkflowExecution (w_WorkflowID w)) (inl info)])
    ++ map db_event l) (w_WorkflowID w) info) by (apply elem_of_app; left; apply elem_of_app; right; by left).
  assert (Hchanged : (exists at_, st_workflows st' = alter (apply_update (status_update (wi_Status info)) at_)
      (w_WorkflowID w) (st_workflows st)) ->
    checked w st t ((t ++ [ev (E := svc_sig E) (DescribeWorkflowExecution (w_WorkflowID w)) (inl info)]) ++ map db_event l)
      s' (Ok tt)).
  { intros [at_ Ha]. split; [done|]. eexists st', (apply_update (status_update (wi_Status info)) at_ w), (_ :: _).
    split; [by rewrite <- app_assoc|]. split; [done|]. split; [done|]. split; [by rewrite Ha; apply (alter_known _ _ _ _ Hw)|].
    split; [right; split; [done|]; by exists info, at_|]. intros _ _. by exists info. }
  destruct o as [[]|e|m|]; try done; cbn beta iota; wpM_step; [by apply Hchanged; destruct Hch|].
  destruct Hch as [Hsame|]; [|by apply Hchanged]. rewrite <- app_assoc.
  apply unchanged_checked; [|done|].
  - destruct st, st'; cbn in *. by subst.
  - intros [_ Hl]%Forall_app. apply answered_db in Hl. by apply Hlive in Hl.
Qed.

(** The workflows checked so far, the ones to come untouched. *)
Definition checking (listed : list Workflow) (st : store) (t : list (event (svc_sig E))) (rest : list Workflow)
    (l : list (event (svc_sig E))) (s' : S) : Prop :=
  NoDup (map w_WorkflowID rest) /\
  exists st' l', l = t ++ l' /\ R s' st' /\ st_templates st' = st_templates st /\
    Forall (fun w => st_workflows st !! w_WorkflowID w = Some w) rest /\
    forall id, match st_workflows st !! id, st_workflows st' !! id with
      | Some w, Some w' => status_from l w w' /\ (w ∈ rest -> w' = w) /\
          (Forall answered l' -> w ∈ listed -> w ∉ rest -> in_sync l w w')
      | None, None => True
      | _, _ => False
      end.

Lemma check_next listed st t w rest l1 s1 :
  map_Forall (fun id w => w_WorkflowID w = id) (st_workflows st) ->
  checking listed st t (w :: rest) l1 s1 ->
  wpM (update_status w) s1 (fun l s' o => o = Ok tt /\ checking listed st t rest l s') l1.
Proof.
  intros Hids (Hnd & st1 & l' & -> & Hs1 & Ht1 & Hrest & Hall).
  apply Forall_cons in Hrest as [Hw Hrest]. cbn in Hnd. apply NoDup_cons in Hnd as [Hnin Hnd].
  assert (Hw1 : st_workflows st1 !! w_WorkflowID w = Some w).
  { specialize (Hall (w_WorkflowID w)). rewrite Hw in Hall. destruct (st_workflows st1 !! w_WorkflowID w) as [w'|]; [|done].
    destruct Hall as (_ & -> & _); [done|by left]. }
  eapply wpM_mono; [|by apply (update_status_run w s1 st1)].
  intros l s' o (-> & st2 & w' & l2 & -> & Hs2 & Ht2 & Hst2 & Hof & Hsync).
  split; [done|]. split; [done|]. exists st2, (l' ++ l2). split; [by rewrite app_assoc|]. split; [done|].
  split; [by rewrite Ht2|]. split; [done|]. intros id. specialize (Hall id). rewrite Hst2, lookup_insert.
  case_decide as Hid.
  - subst id. rewrite Hw. split; [done|]. split.
    + intros Hin. destruct Hnin. by apply list_elem_of_fmap_2.
    + intros [_ Hl2]%Forall_app _ _. by apply Hsync.
  - destruct (st_workflows st !! id) as [w0|] eqn:Hw0, (st_workflows st1 !! id) as [w1|]; try done.
    destruct Hall as (H1 & H2 & H3). split; [by apply status_from_app|]. split; [intros Hin; apply H2; by right|].
    intros [Hl' _]%Forall_app Hls Hnot. apply in_sync_app, H3; [done..|]. intros [->|Hin]%elem_of_cons; [|done].
    by apply Hid, (Hids id).
Qed.

Lemma values_ids (m : gmap string Workflow) :
  map_Forall (fun id w => w_WorkflowID w = id) m ->
  NoDup (map w_WorkflowID (values m)) /\ forall w, w ∈ values m <-> m !! w_WorkflowID w = Some w.
Proof.
  intros Hids. unfold values. split.
  - replace (map w_WorkflowID (map_to_list m).*2) with (map_to_list m).*1; [apply NoDup_fst_map_to_list|].
    change (map w_WorkflowID) with (fmap (M := list) w_WorkflowID). rewrite <- list_fmap_compose.
    apply list_fmap_ext. intros i [id w] Hi. cbn. symmetry. apply (Hids id).
    by apply elem_of_map_to_list, list_elem_of_lookup_2 in Hi || (apply elem_of_map_to_list; by eapply list_elem_of_lookup_2).
  - intros w. rewrite list_elem_of_fmap. split.
    + intros ([id w'] & -> & Hin%elem_of_map_to_list). cbn. by rewrite (Hids id _ Hin).
    + intros Hw. exists (w_WorkflowID w, w). split; [done|]. by apply elem_of_map_to_list.
Qed.

(** The first page of a listing of distinct workflows. *)
Lemma first_page (vs : list Workflow) before l : NoDup (map w_WorkflowID vs) -> listing vs before 1000 0 l ->
  (forall w, w ∈ l -> w ∈ vs) /\ NoDup (map w_WorkflowID l) /\
  (Z.of_nat (length vs) <= 1000 -> forall w, w ∈ vs -> w ∈ l).
Proof.
  intros Hnd (all & Hperm & _ & ->). unfold window. change (1000 <? 0) with false. change (drop (Z.to_nat 0) all) with all. cbv zeta iota.
  split; [|split].
  - intros w Hw. rewrite <- Hperm. by apply (subseteq_take _ _ _ Hw).
  - rewrite <- firstn_map. eapply sublist_NoDup; [|apply sublist_take]. by rewrite Hperm.
  - intros Hlen w Hw. rewrite take_ge; [by rewrite Hperm|]. pose proof (Permutation_length Hperm). lia.
Qed.

Lemma values_size {A} (m : gmap string A) : length (values m) = size m.
Proof. unfold values. by rewrite length_fmap, length_map_to_list. Qed.

(** C25: a tick of the updater never fails; it changes nothing of a workflow
    but its status, to what Temporal said it is, and nothing at all of one
    that had ended.  When neither the database nor Temporal fails and there
    are no more than a thousand workflows, each one that had not ended is
    asked about and ends the tick with Temporal's status. *)
Theorem UpdateWorkflowStatuses_syncs (s : S) (st : store) :
  R s st ->
  wpM UpdateWorkflowStatuses s (fun l s' o => o = Ok tt /\ exists st', R s' st' /\ st_templates st' = st_templates st /\
    forall id, match st_workflows st !! id, st_workflows st' !! id with
      | Some w, Some w' => status_from l w w' /\
          (Forall answered l -> Z.of_nat (size (st_workflows st)) <= 1000 -> in_sync l w w')
      | None, None => True
      | _, _ => False
      end) [].
Proof.
  intros Hs. pose proof (represented_ids s st Hs) as Hids. destruct (values_ids _ Hids) as [Hnd Hvals].
  unfold UpdateWorkflowStatuses. do 2 wpM_step. apply wpM_db.
  eapply wpM_mono; [|apply (implements_and _ _ (fun l o => Forall healthy l -> is_ok o = true)
    s st [] (ListWorkflows_implements 1000 0) Hs), (ListWorkflows_succeeds _ _ s st _ Hs)].
  intros l0 s0 o0 [Hlive (st0 & Hs0 & -> & Hlist)]. cbn beta in *. rewrite app_nil_l.
  destruct o0 as [ws|e|m|]; try done; cbn beta iota.
  2: { wpM_step. split; [done|]. exists st. split; [done|]. split; [done|]. intros id.
       destruct (st_workflows st !! id) as [w|]; [|done]. split; [by left|]. intros Hl%answered_db. by apply Hlive in Hl. }
  destruct (first_page _ _ _ Hnd Hlist) as (Hsub & Hnd' & Hall).
  eapply (wpM_for_each (fun rest l s' => checking ws st (map db_event l0) rest l s')).
  - split; [done|]. exists st, []. split; [by rewrite app_nil_r|]. split; [done|]. split; [done|].
    split; [by apply Forall_forall; intros w Hw; apply Hvals, Hsub|].
    intros id. destruct (st_workflows st !! id) as [w|] eqn:Hw; [|done]. split; [by left|]. by split.
  - intros l s' (_ & st' & l' & -> & Hs' & Ht & _ & H). split; [done|]. exists st'. split; [done|]. split; [done|].
    intros id. specialize (H id). destruct (st_workflows st !! id) as [w|] eqn:Hw, (st_workflows st' !! id) as [w'|]; try done.
    destruct H as (H1 & _ & H2). split; [done|]. intros [_ Hl']%Forall_app Hsize. apply H2; [done| |by apply not_elem_of_nil].
    apply Hall; [by rewrite values_size|]. apply Hvals. by rewrite (Hids id w Hw).
  - intros w rest l s' Hck. eapply wpM_mono; [|by apply (check_next ws st (map db_event l0) w rest)]. by intros l' s'' o [-> H].
Qed.
End statuses.

(** ** Examples, over SQLite *)
Definition json_text (v : GoVal) : string := "j" +:+ encode_val v.
Definition text_json (s : string) : res GoVal := decode_by Some (str_drop 1 s).
Definition spec_text (x : LoadTestSpec) : string := "y" +:+ encode_val (spec_val x).
Definition text_spec (s : string) : res LoadTestSpec := decode_by val_spec (str_drop 1 s).

Definition demo_codec : ServiceCodec.
Proof.
  refine {| json_decode := text_json; json_encode := fun v => inl (json_text v);
            spec_decode := text_spec; spec_encode := fun x => inl (spec_text x) |}.
  - intros s m _. eexists. split; [reflexivity|]. split; [discriminate|]. by apply (decode_by_encode (fun v => v) Some).
  - intros s x _. eexists. split; [reflexivity|]. split; [discriminate|]. apply (decode_by_encode spec_val), val_spec_val.
Defined.

Definition demo_chain : pb_ChainConfig :=
  {| pc_Name := "evm"; pc_NumOfNodes := 1; pc_NumOfValidators := 3;
     pc_GenesisModifications := [{| pg_Key := "consensus.params.block.max_gas"; pg_Value := "75000000" |}];
     pc_Image := "evm"; pc_CustomAppConfig := json_text (VMap [("telemetry", VBool true)]); pc_CustomConsensusConfig := "";
     pc_CustomClientConfig := ""; pc_SetSeedNode := false; pc_SetPersistentPeers := true; pc_RegionConfigs := [];
     pc_Version := "v1" |}.

Definition demo_submission : CreateWorkflowRequest :=
  {| cw_Repo := "evm"; cw_Sha := "main"; cw_IsEvmChain := true; cw_ChainConfig := Some demo_chain;
     cw_RunnerType := Docker; cw_EncodedLoadTestSpec := ""; cw_LongRunningTestnet := false; cw_TestnetDuration := "1h30m";
     cw_NumWallets := 4; cw_LaunchLoadBalancer := false; cw_CatalystVersion := "v2"; cw_BaseMnemonic := "";
     cw_CosmosSdkSha := ""; cw_CometbftSha := ""; cw_ProviderConfig := None |}.

#[local] Existing Instance demo_codec.
#[local] Existing Instance demo_DbJson.
#[local] Existing Instance demo_SqlOrder.
#[local] Existing Instance text_order.
#[local] Instance sqlite_in_text_order :
  DBSpec db_sig database sqlite represents_db writable writable_update (representable config_json) :=
  sqlite_DBSpec (fun _ _ H => H).
#[local] Existing Instance sqlite_DBLive.

Definition demo_temporal : handler (svc_sig db_sig) Z := fun c now =>
  match c return svc_ans c * Z with
  | Db c => demo_engine c now
  | ExecuteWorkflow _ => (inl "wf-1", now)
  | DescribeWorkflowExecution _ =>
      (inl {| wi_Status := STATUS_FAILED; wi_StartTime := Some 1; wi_CloseTime := None |}, now)
  | TemporalCancel _ | TemporalSignal _ _ => (inl tt, now)
  | TickOrStop => (false, now)
  end.

Lemma empty_represents : represents_db empty_database empty_store.
Proof. exists [], []. split; [constructor; try done; constructor|done]. Qed.

Lemma new_workflow_writable id r : writable (new_workflow id r).
Proof. by repeat split. Qed.

Lemma CreateWorkflow_spec_witness :
  represents_db empty_database empty_store /\
  (forall id r, submits demo_submission r -> writable (new_workflow id r)) /\
  (runM demo_temporal (CreateWorkflow demo_submission) empty_database 7).1.1.2 = Ok "wf-1" /\
  exists Q, wpM (CreateWorkflow (D := sqlite) demo_submission) empty_database Q [].
Proof.
  split; [apply empty_represents|]. split; [intros; apply new_workflow_writable|]. split; [vm_compute; reflexivity|].
  eexists. apply (CreateWorkflow_spec represents_db writable writable_update (representable config_json) full_db healthy_db
    demo_submission empty_database empty_store empty_represents (fun id r _ => new_workflow_writable id r)).
Defined.




Lemma UpdateWorkflowStatuses_syncs_witness :
  represents_db demo_database demo_store /\
  map r_status (WorkflowDB.workflows (runM demo_temporal UpdateWorkflowStatuses demo_database 7).1.1.1)
    = [STATUS_COMPLETED; STATUS_FAILED] /\
  exists Q, wpM (UpdateWorkflowStatuses (D := sqlite)) demo_database Q [].
Proof.
  split; [apply demo_represents|]. split; [vm_compute; reflexivity|]. eexists.
  apply (UpdateWorkflowStatuses_syncs represents_db writable writable_update (representable config_json) full_db healthy_db
    ltac:(by repeat split) demo_database demo_store demo_represents).
Defined.

Definition demo_data : UpdateWorkflowDataRequest :=
  {| ud_WorkflowId := "busy"; ud_LoadBalancers := []; ud_Monitoring := ∅;
     ud_Nodes := [{| n_Name := "node-0"; Address := "10.0.0.2"; Rpc := ""; Lcd := ""; Grpc := "";
                     Evmrpc := "http://10.0.0.2:8545"; Evmws := "" |}];
     ud_Validators := []; ud_Wallets := None; ud_Provider := "Docker" |}.

Lemma UpdateWorkflowData_spec_witness :
  represents_db demo_database demo_store /\ writable_update (data_update demo_data) /\
  is_ok (runM demo_temporal (UpdateWorkflowData demo_data) demo_database 7).1.1.2 = true /\
  exists Q, wpM (UpdateWorkflowData (D := sqlite) demo_data) demo_database Q [].
Proof.
  split; [apply demo_represents|]. split; [by repeat split|]. split; [vm_compute; reflexivity|]. eexists.
  apply (UpdateWorkflowData_spec represents_db writable writable_update (representable config_json)
    demo_data demo_database demo_store demo_represents ltac:(by repeat split)).
Defined.
