(* ===== verification/Server.v ===== *)
(** * The server's process: [server/cmd/main.go], [server/grpc_server.go], [server/db/sqlite.go] (opening)

    The main goroutine, the status updater, the listeners and a goroutine per
    request, each a program over the process's calls, run interleaved: a step
    is one call of one goroutine.  An operation of the database is one call
    (a statement or a transaction of SQLite), so the handlers of
    [WorkflowService] run over an instance of its interface whose operations
    are calls.  What gRPC promises is in [allowed]: after [GracefulStop] no
    request is accepted, and it returns when none is being handled. *)

From S2P Require Import Prelude GoStrings GoVal GoTime ProviderDefs ChainTypes Messages Encodings WorkflowStore Conversions WorkflowService.

(** ** The database's operations as calls *)
Inductive db_call :=
| QCreateWorkflow (w : Workflow)
| QGetWorkflow (id : string)
| QUpdateWorkflow (id : string) (u : WorkflowUpdate)
| QListWorkflows (limit offset : Z)
| QCountWorkflows
| QDeleteWorkflow (id : string)
| QCreateWorkflowTemplate (tp : WorkflowTemplate)
| QGetWorkflowTemplate (id : string)
| QUpdateWorkflowTemplate (id : string) (tp : WorkflowTemplate)
| QListWorkflowTemplates (limit offset : Z)
| QDeleteWorkflowTemplate (id : string)
| QListTemplateWorkflows (id : string) (limit offset : Z).
Definition db_ans (c : db_call) : Type :=
  match c with
  | QCreateWorkflow _ | QGetWorkflow _ => res Workflow
  | QListWorkflows _ _ | QListTemplateWorkflows _ _ _ => res (list Workflow)
  | QCountWorkflows => res Z
  | QGetWorkflowTemplate _ => res WorkflowTemplate
  | QListWorkflowTemplates _ _ => res (list WorkflowTemplate)
  | _ => res unit
  end.
Canonical db_ops : sig := Sig db_call db_ans.

#[export] Instance connection : DB db_ops unit := {|
  db_CreateWorkflow w := ask (QCreateWorkflow w : call db_ops);
  db_GetWorkflow id := ask (QGetWorkflow id : call db_ops);
  db_UpdateWorkflow id u := ask (QUpdateWorkflow id u : call db_ops);
  db_ListWorkflows limit offset := ask (QListWorkflows limit offset : call db_ops);
  db_CountWorkflows := ask (QCountWorkflows : call db_ops);
  db_DeleteWorkflow id := ask (QDeleteWorkflow id : call db_ops);
  db_CreateWorkflowTemplate tp := ask (QCreateWorkflowTemplate tp : call db_ops);
  db_GetWorkflowTemplate id := ask (QGetWorkflowTemplate id : call db_ops);
  db_UpdateWorkflowTemplate id tp := ask (QUpdateWorkflowTemplate id tp : call db_ops);
  db_ListWorkflowTemplates limit offset := ask (QListWorkflowTemplates limit offset : call db_ops);
  db_DeleteWorkflowTemplate id := ask (QDeleteWorkflowTemplate id : call db_ops);
  db_ListTemplateWorkflows id limit offset := ask (QListTemplateWorkflows id limit offset : call db_ops)
|}.

(** ** Requests and goroutines *)
Inductive rpc :=
| RCreateWorkflow (req : CreateWorkflowRequest)
| RGetWorkflow (workflowID : string)
| RListWorkflows (limit offset : Z)
| RCancelWorkflow (workflowID : string)
| RSignalWorkflow (workflowID signalName : string)
| RRunLoadTest (workflowID : string)
| RUpdateWorkflowData (req : UpdateWorkflowDataRequest)
| RCreateWorkflowTemplate (id description : string) (config : option CreateWorkflowRequest)
| RGetWorkflowTemplate (id : string)
| RListWorkflowTemplates (limit offset : Z)
| RUpdateWorkflowTemplate (id description : string) (config : option CreateWorkflowRequest)
| RDeleteWorkflowTemplate (id : string)
| RExecuteWorkflowTemplate (id sha runName : string)
| RGetTemplateRunHistory (id : string) (limit offset : Z).

Inductive goroutine :=
| MainRoutine
| UpdaterRoutine
| StartRoutine (address webAddress : string)
| ServeRoutine
| HandlerRoutine (r : rpc).

(** ** Calls *)
Inductive migration := Migrated | NoChange | MigrationFailed (e : error).

Inductive server_call :=
| ReadConfigFile (path : string)
| OpenDatabase (path : string)
| PingDatabase
| ExecPragma (statement : string)
| MigrationDriver
| MigrationInstance (source : string)
| MigrationUp
| CloseDatabase
| NewReporter (address : string)
| DialTemporal (cfg : TemporalConfig)
| CloseTemporal
| Go (g : goroutine)
| Listen (address : string)
| AcceptRPC                                       (* a request, or the end of Serve *)
| AcceptWeb                                       (* a request, None for OPTIONS, or the end of Serve *)
| AwaitSignal
| CloseStop                                       (* close(stopCh) *)
| GracefulStop
| Exit (code : Z)
| OfService (c : svc_call db_ops).

Definition server_ans (c : server_call) : Type :=
  match c with
  | ReadConfigFile _ => res string
  | OpenDatabase _ | PingDatabase | ExecPragma _ | MigrationDriver | MigrationInstance _ | NewReporter _ | DialTemporal _
  | Listen _ => res unit
  | MigrationUp => migration
  | AcceptRPC => option rpc
  | AcceptWeb => option rpc + error
  | CloseDatabase | CloseTemporal | Go _ | AwaitSignal | CloseStop | GracefulStop => unit
  | Exit _ => Empty_set
  | OfService c => svc_ans c
  end.
Canonical server_sig : sig := Sig server_call server_ans.

Abbreviation SrvM := (M server_sig unit).
Abbreviation srv c := (perform (c : call server_sig)).
Abbreviation srv_ask c := (ask (c : call server_sig)).

(** [os.Exit], which runs no deferred function. *)
Definition exit {A} (code : Z) : SrvM A := let* x := srv (Exit code) in match (x : Empty_set) with end.

(** ** [server/db/sqlite.go] *)
Definition NewSQLiteDB (dbPath : string) : SrvM unit :=
  let* _ := wrap "failed to open database" (srv_ask (OpenDatabase dbPath)) in
  let* _ := wrap "failed to ping database" (srv_ask PingDatabase) in
  let* _ := wrap "failed to enable foreign keys" (srv_ask (ExecPragma "PRAGMA foreign_keys = ON")) in
  wrap "failed to enable WAL mode" (srv_ask (ExecPragma "PRAGMA journal_mode = WAL")).

Definition RunMigrations (migrationsPath : string) : SrvM unit :=
  let* _ := wrap "failed to create sqlite3 driver" (srv_ask MigrationDriver) in
  let* _ := wrap "failed to create migrate instance" (srv_ask (MigrationInstance ("file://" +:+ migrationsPath))) in
  let* up := srv MigrationUp in
  match (up : migration) with MigrationFailed e => throw (EWrap "failed to run migrations" e) | _ => retM tt end.

(** ** [server/grpc_server.go] *)

(** [util.NewPrometheusScope]: a reporter that cannot be made is fatal. *)
Definition NewPrometheusScope (listenAddress : string) : SrvM unit :=
  let* r := srv (NewReporter listenAddress) in
  match (r : res unit) with inr _ => exit 1 | inl _ => retM tt end.

Definition NewGRPCServer (config : TemporalConfig) : SrvM unit :=
  let* _ := NewPrometheusScope "0.0.0.0:9090" in
  let* _ := wrap "failed to create temporal client" (srv_ask (DialTemporal config)) in
  srv (Go UpdaterRoutine).

Definition serve_rpc (fuel : nat) : SrvM unit :=
  poll fuel (let* r := srv AcceptRPC in retM (match (r : option rpc) with Some _ => None | None => Some tt end)).
Definition serve_web (fuel : nat) : SrvM error :=
  poll fuel (let* r := srv AcceptWeb in retM (match (r : option rpc + error) with inl _ => None | inr e => Some e end)).

Definition Start (fuel : nat) (address webAddress : string) : SrvM unit :=
  let* _ := wrap "failed to listen" (srv_ask (Listen address)) in
  let* _ := srv (Go ServeRoutine) in
  let* web := srv (Listen webAddress) in
  match (web : res unit) with
  | inr _ => retM tt
  | inl _ => let* e := serve_web fuel in throw e
  end.

Definition Stop : SrvM unit :=
  let* _ := srv CloseStop in
  let* _ := srv GracefulStop in
  srv CloseTemporal.

(** ** [server/cmd/main.go] *)
Section process.
Variable Unmarshal : string -> res ServerConfig.         (* yaml.Unmarshal *)
Variable config : string.                                      (* the flag *)
Context {C : ServiceCodec}.
Variable format_RFC3339 format_UTC format_DateTime : Z -> string.
Variable load_test_json : string -> option LoadTestSpec.

Definition after_migrations (cfg : ServerConfig) : SrvM unit :=
  let* created := try_ (NewGRPCServer (sv_Temporal cfg)) in
  match created with
  | inr _ => exit 1
  | inl _ =>
      let* _ := srv (Go (StartRoutine (GrpcAddress cfg) (GrpcWebAddress cfg))) in
      let* _ := srv AwaitSignal in
      Stop
  end.
Definition with_database (cfg : ServerConfig) : SrvM unit :=
  let* migrated := try_ (RunMigrations (MigrationsPath cfg)) in
  match migrated with inr _ => exit 1 | inl _ => after_migrations cfg end.
Definition server_main : SrvM unit :=
  let* file := srv (ReadConfigFile config) in
  match ParseServerConfig (fun _ => file) Unmarshal config with
  | Ok cfg =>
      let* opened := try_ (NewSQLiteDB (DatabasePath cfg)) in
      match opened with inr _ => exit 1 | inl _ => deferring (srv CloseDatabase) (with_database cfg) end
  | o => panic (match o with Err e => Error e | _ => "" end)
  end.

(** ** Goroutines *)
Abbreviation SvcM := (M (svc_sig db_ops) unit).
Definition handler_of (r : rpc) : SvcM unit :=
  let dropping {A} (m : SvcM A) : SvcM unit := let* _ := try_ m in retM tt in
  match r with
  | RCreateWorkflow req => dropping (CreateWorkflow req)
  | RGetWorkflow id => dropping (GetWorkflow format_UTC load_test_json id)
  | RListWorkflows limit offset => dropping (ListWorkflows format_DateTime limit offset)
  | RCancelWorkflow id => dropping (CancelWorkflow id)
  | RSignalWorkflow id signal => dropping (SignalWorkflow id signal)
  | RRunLoadTest id => dropping (RunLoadTest id)
  | RUpdateWorkflowData req => dropping (UpdateWorkflowData req)
  | RCreateWorkflowTemplate id description config => dropping (CreateWorkflowTemplate id description config)
  | RGetWorkflowTemplate id => dropping (GetWorkflowTemplate format_RFC3339 id)
  | RListWorkflowTemplates limit offset => dropping (ListWorkflowTemplates format_RFC3339 limit offset)
  | RUpdateWorkflowTemplate id description config => dropping (UpdateWorkflowTemplate id description config)
  | RDeleteWorkflowTemplate id => dropping (DeleteWorkflowTemplate id)
  | RExecuteWorkflowTemplate id sha runName => dropping (ExecuteWorkflowTemplate id sha runName)
  | RGetTemplateRunHistory id limit offset => dropping (GetTemplateRunHistory format_RFC3339 id limit offset)
  end.

Definition in_service (m : SvcM unit) : SrvM unit := embed (E' := server_sig) OfService (fun _ x => x) m.

Definition body (fuel : nat) (g : goroutine) : SrvM unit :=
  match g with
  | MainRoutine => server_main
  | UpdaterRoutine => in_service (startWorkflowStatusUpdater fuel)
  | StartRoutine address webAddress =>
      let* r := try_ (Start fuel address webAddress) in
      match r with inr _ => exit 1 | inl _ => retM tt end
  | ServeRoutine => serve_rpc fuel
  | HandlerRoutine r => in_service (handler_of r)
  end.
End process.

(** ** The process

    What has happened, read off the trace; only the main goroutine makes
    these calls. *)
Record progress := {
  pg_migrated : bool;
  pg_dialed : bool;
  pg_stopping : bool;
  pg_drained : bool;
  pg_hungup : bool;
  pg_closed : bool
}.
Definition no_progress : progress :=
  {| pg_migrated := false; pg_dialed := false; pg_stopping := false; pg_drained := false; pg_hungup := false; pg_closed := false |}.
Definition mark (f : progress) (e : event server_sig) : progress :=
  let '(existT c x) := e in
  match c return server_ans c -> progress with
  | MigrationUp => fun x =>
      match x with
      | MigrationFailed _ => f
      | _ => {| pg_migrated := true; pg_dialed := pg_dialed f; pg_stopping := pg_stopping f; pg_drained := pg_drained f;
                pg_hungup := pg_hungup f; pg_closed := pg_closed f |}
      end
  | DialTemporal _ => fun x =>
      match x with
      | inr _ => f
      | inl _ => {| pg_migrated := pg_migrated f; pg_dialed := true; pg_stopping := pg_stopping f; pg_drained := pg_drained f;
                    pg_hungup := pg_hungup f; pg_closed := pg_closed f |}
      end
  | CloseStop => fun _ =>
      {| pg_migrated := pg_migrated f; pg_dialed := pg_dialed f; pg_stopping := true; pg_drained := pg_drained f;
         pg_hungup := pg_hungup f; pg_closed := pg_closed f |}
  | GracefulStop => fun _ =>
      {| pg_migrated := pg_migrated f; pg_dialed := pg_dialed f; pg_stopping := pg_stopping f; pg_drained := true;
         pg_hungup := pg_hungup f; pg_closed := pg_closed f |}
  | CloseTemporal => fun _ =>
      {| pg_migrated := pg_migrated f; pg_dialed := pg_dialed f; pg_stopping := pg_stopping f; pg_drained := pg_drained f;
         pg_hungup := true; pg_closed := pg_closed f |}
  | CloseDatabase => fun _ =>
      {| pg_migrated := pg_migrated f; pg_dialed := pg_dialed f; pg_stopping := pg_stopping f; pg_drained := pg_drained f;
         pg_hungup := pg_hungup f; pg_closed := true |}
  | _ => fun _ => f
  end x.

Abbreviation routine_event := (goroutine * event server_sig)%type.
Definition progress_of (t : list routine_event) : progress := foldl (fun f e => mark f e.2) no_progress t.

Abbreviation routine := (prog server_sig (unit * outcome unit)).
Record process := {
  routines : list (goroutine * routine);          (* the main goroutine first *)
  ps_trace : list routine_event;
  ps_exit : option Z                              (* the code given to os.Exit *)
}.

Definition finished (p : routine) : Prop := match p with Ret _ => True | Call _ _ => False end.
Definition panicked (p : routine) : Prop := match p with Ret (_, Panic _) => True | _ => False end.
Definition is_handler (g : goroutine) : Prop := match g with HandlerRoutine _ => True | _ => False end.

(** A process goes on until it exits, the main goroutine returns or one panics. *)
Definition running (ps : process) : Prop :=
  ps_exit ps = None /\ Forall (fun gp => ~ panicked gp.2) (routines ps) /\
  match routines ps with (MainRoutine, p) :: _ => ~ finished p | _ => False end.

(** The answers a call can get. *)
Definition allowed (ps : process) (c : server_call) : server_ans c -> Prop :=
  match c return server_ans c -> Prop with
  | OfService TickOrStop => fun stop => stop = true -> pg_stopping (progress_of (ps_trace ps)) = true
  | GracefulStop => fun _ => Forall (fun gp => is_handler gp.1 -> finished gp.2) (routines ps)
  | AcceptRPC => fun r => is_Some r -> pg_drained (progress_of (ps_trace ps)) = false
  | AcceptWeb => fun r => (exists q, r = inl (Some q)) -> pg_drained (progress_of (ps_trace ps)) = false
  | _ => fun _ => True
  end.

(** The goroutine a call starts: the one of [go], or a request's. *)
Definition started (c : server_call) : server_ans c -> option goroutine :=
  match c return server_ans c -> option goroutine with
  | Go g => fun _ => Some g
  | AcceptRPC => fun r => HandlerRoutine <$> r
  | AcceptWeb => fun r => match r with inl q => HandlerRoutine <$> q | inr _ => None end
  | _ => fun _ => None
  end.

Section steps.
Variable routine_body : nat -> goroutine -> SrvM unit.

Definition spawn (fuel : nat) (g : option goroutine) : list (goroutine * routine) :=
  match g with Some g => [(g, routine_body fuel g tt)] | None => [] end.

Inductive step (ps : process) : process -> Prop :=
| step_call before g c k after x fuel :
    running ps -> routines ps = before ++ (g, Call c k) :: after -> allowed ps c x ->
    step ps {| routines := before ++ (g, k x) :: after ++ spawn fuel (started c x);
               ps_trace := ps_trace ps ++ [(g, ev (E := server_sig) c x)]; ps_exit := None |}
| step_exit before g code k after :
    running ps -> routines ps = before ++ (g, Call (Exit code) k) :: after ->
    step ps {| routines := routines ps; ps_trace := ps_trace ps; ps_exit := Some code |}.

Definition launched : process := {| routines := [(MainRoutine, routine_body 0 MainRoutine tt)]; ps_trace := []; ps_exit := None |}.
Definition reachable (ps : process) : Prop := rtc step launched ps.

(** ** What each goroutine calls *)
Fixpoint within {A} (P : server_call -> Prop) (p : prog server_sig A) : Prop :=
  match p with Ret _ => True | Call c k => P c /\ forall x, within P (k x) end.

(** The main goroutine's calls against the progress they make, and what it ends with. *)
Fixpoint guarded {A} (may : progress -> server_call -> Prop) (ends_with : progress -> A -> Prop) (p : prog server_sig A)
    (f : progress) : Prop :=
  match p with
  | Ret a => ends_with f a
  | Call c k => may f c /\ forall x, guarded may ends_with (k x) (mark f (ev (E := server_sig) c x))
  end.

Definition ready (f : progress) : Prop := pg_migrated f = true /\ pg_dialed f = true.

Definition main_may (f : progress) (c : server_call) : Prop :=
  match c with
  | Go UpdaterRoutine | Go (StartRoutine _ _) => ready f
  | GracefulStop => pg_stopping f = true
  | CloseTemporal => pg_drained f = true
  | CloseDatabase => pg_hungup f = true
  | Exit code => code = 1
  | Go _ | OfService _ | AcceptRPC | AcceptWeb => False
  | _ => True
  end.
Definition main_ended (f : progress) (o : outcome unit) : Prop :=
  match o with Ok _ => pg_closed f = true /\ pg_drained f = true | Panic _ => True | _ => False end.
Definition main_ends (f : progress) (r : unit * outcome unit) : Prop := main_ended f r.2.

Definition routine_may (g : goroutine) (c : server_call) : Prop :=
  match g, c with
  | (UpdaterRoutine | HandlerRoutine _), OfService _ => True
  | ServeRoutine, AcceptRPC => True
  | StartRoutine _ _, (Listen _ | Go ServeRoutine | AcceptWeb) => True
  | StartRoutine _ _, Exit code => code = 1
  | _, _ => False
  end.

(** A call in its place: the main goroutine's in order; another's only once
    the database is migrated and Temporal there, and a request's not after
    the server has stopped. *)
Definition in_place (g : goroutine) (f : progress) (c : server_call) : Prop :=
  match g with
  | MainRoutine => main_may f c
  | _ => routine_may g c /\ ready f /\ (is_handler g -> pg_drained f = false)
  end.
End steps.

(** ** The goroutines' calls *)
Lemma within_prog_bind {A B} P (p : prog server_sig A) (k : A -> prog server_sig B) :
  within P p -> (forall a, within P (k a)) -> within P (prog_bind p k).
Proof. intros Hp Hk. induction p as [a|c k' IH]; cbn in *; [apply Hk|]. destruct Hp as [Hc Hp]. split; [done|]. intros x. apply IH, Hp. Qed.

Lemma within_bind {A B} P (m : SrvM A) (f : A -> SrvM B) :
  (forall s, within P (m s)) -> (forall a s, within P (f a s)) -> forall s, within P (bindM m f s).
Proof. intros Hm Hf s. apply within_prog_bind; [done|]. by intros [s' [a|e|msg|]]. Qed.
Lemma within_wrap {A} P msg (m : SrvM A) : (forall s, within P (m s)) -> forall s, within P (wrap msg m s).
Proof. intros Hm s. apply within_prog_bind; [done|]. by intros [s' o]. Qed.
Lemma within_try {A} P (m : SrvM A) : (forall s, within P (m s)) -> forall s, within P (try_ m s).
Proof. intros Hm s. apply within_prog_bind; [done|]. by intros [s' [a|e|msg|]]. Qed.
Lemma within_perform P (c : server_call) : P c -> forall s, within P (perform (E := server_sig) (S := unit) c s).
Proof. intros Hc s. by split. Qed.
Lemma within_poll {A} P fuel (m : SrvM (option A)) : (forall s, within P (m s)) -> forall s, within P (poll fuel m s).
Proof.
  intros Hm. induction fuel as [|fuel IH]; intros s; [done|]. cbn [poll].
  apply within_bind; [done|]. intros [a|]; [done|exact IH].
Qed.
Lemma within_service {A} (m : M (svc_sig db_ops) unit A) s (P : server_call -> Prop) :
  (forall c, P (OfService c)) -> within P (embed (E' := server_sig) OfService (fun _ x => x) m s).
Proof.
  intros HP. unfold embed. induction (m s) as [a|c k IH]; cbn; [done|]. split; [apply HP|]. intros x. apply IH.
Qed.

Lemma guarded_bind {A B} may (Q : progress -> B -> Prop) (p : prog server_sig A) (k : A -> prog server_sig B) f :
  guarded may (fun f' a => guarded may Q (k a) f') p f -> guarded may Q (prog_bind p k) f.
Proof. revert f. induction p as [a|c k' IH]; intros f; cbn; [done|]. intros [Hc Hk]. split; [done|]. intros x. apply IH, Hk. Qed.
Lemma guarded_mono {A} may (Q Q' : progress -> A -> Prop) (p : prog server_sig A) f :
  (forall f' a, Q f' a -> Q' f' a) -> guarded may Q p f -> guarded may Q' p f.
Proof. intros HQ. revert f. induction p as [a|c k IH]; intros f; cbn; [apply HQ|]. intros [Hc Hk]. split; [done|]. intros x. apply IH, Hk. Qed.

Definition ensures {A} (m : SrvM A) (f : progress) (Q : progress -> outcome A -> Prop) : Prop :=
  guarded main_may (fun f' r => Q f' r.2) (m tt) f.

Section main.
Context {A : Type}.
Lemma ensures_lift (o : outcome A) f (Q : progress -> outcome A -> Prop) : Q f o -> ensures (lift_outcome o) f Q.
Proof. done. Qed.
Lemma ensures_perform c f (Q : progress -> outcome (server_ans c) -> Prop) :
  main_may f c -> (forall x, Q (mark f (ev (E := server_sig) c x)) (Ok x)) -> ensures (perform (c : call server_sig)) f Q.
Proof. by split. Qed.
Lemma ensures_bind {B} (m : SrvM A) (g : A -> SrvM B) f (Q : progress -> outcome B -> Prop) :
  ensures m f (fun f' o =>
    match o with
    | Ok a => ensures (g a) f' Q | Err e => Q f' (Err e) | Panic msg => Q f' (Panic msg) | NoFuel => Q f' NoFuel
    end) ->
  ensures (bindM m g) f Q.
Proof. intros Hm. unfold ensures, bindM in *. apply guarded_bind. eapply guarded_mono; [|exact Hm]. by intros f' [[] [a|e|msg|]]. Qed.
Lemma ensures_try (m : SrvM A) f (Q : progress -> outcome (res A) -> Prop) :
  ensures m f (fun f' o =>
    match o with Ok a => Q f' (Ok (inl a)) | Err e => Q f' (Ok (inr e)) | Panic msg => Q f' (Panic msg) | NoFuel => Q f' NoFuel end) ->
  ensures (try_ m) f Q.
Proof. intros Hm. unfold ensures, try_ in *. apply guarded_bind. eapply guarded_mono; [|exact Hm]. by intros f' [[] [a|e|msg|]]. Qed.
Lemma ensures_wrap msg (m : SrvM A) f (Q : progress -> outcome A -> Prop) :
  ensures m f (fun f' o => Q f' (wrap_outcome msg o)) -> ensures (wrap msg m) f Q.
Proof. intros Hm. unfold ensures, wrap in *. apply guarded_bind. eapply guarded_mono; [|exact Hm]. by intros f' [[] o]. Qed.
Lemma ensures_exit f (Q : progress -> outcome A -> Prop) : ensures (exit (A := A) 1) f Q.
Proof. by split. Qed.
End main.

Lemma ensures_deferring (f m : SrvM unit) g (Q : progress -> outcome unit -> Prop) :
  ensures m g (fun g' o => ensures f g' (fun g'' o' => Q g'' (match o' with Panic msg => Panic msg | _ => o end))) ->
  ensures (deferring f m) g Q.
Proof.
  intros Hm. unfold ensures, deferring in *. apply guarded_bind. eapply guarded_mono; [|exact Hm]. intros g' [[] o] Hf.
  apply guarded_bind. eapply guarded_mono; [|exact Hf]. by intros g'' [[] o'].
Qed.

Ltac ensure :=
  repeat (cbn beta iota zeta delta [wrap_outcome lift_res];
    match goal with
    | |- ensures (bindM _ _) _ _ => apply ensures_bind
    | |- ensures (wrap _ _) _ _ => apply ensures_wrap
    | |- ensures (try_ _) _ _ => apply ensures_try
    | |- ensures (exit _) _ _ => apply ensures_exit
    | |- ensures (deferring _ _) _ _ => apply ensures_deferring
    | |- ensures (perform _) _ _ => apply ensures_perform; [|intros ?]
    | |- ensures (lift_res ?r) _ _ => destruct r
    | |- ensures (retM _) _ _ => apply (ensures_lift (Ok _))
    | |- ensures (throw _) _ _ => apply ensures_lift
    | |- ensures (panic _) _ _ => apply ensures_lift
    | |- ensures (match ?x with _ => _ end) _ _ => destruct x
    end).

Section lifecycle.
Variable Unmarshal : string -> res ServerConfig.
Variable config : string.
Context {C : ServiceCodec}.
Variable format_RFC3339 format_UTC format_DateTime : Z -> string.
Variable load_test_json : string -> option LoadTestSpec.
#[local] Abbreviation routine_body := (body Unmarshal config format_RFC3339 format_UTC format_DateTime load_test_json).

Lemma main_guarded : guarded main_may main_ends (server_main Unmarshal config tt) no_progress.
Proof.
  change (ensures (server_main Unmarshal config) no_progress main_ended).
  unfold server_main, NewSQLiteDB, with_database, RunMigrations, after_migrations, NewGRPCServer, NewPrometheusScope, Stop.
  ensure; done.
Qed.

(** *** Goroutines but the main one *)
Lemma routine_within fuel g s : g <> MainRoutine -> within (routine_may g) (routine_body fuel g s).
Proof.
  intros Hg. destruct g as [| |address webAddress| |r]; [done|..]; cbn [body].
  - by apply within_service.
  - apply within_bind; [|intros [[]|e]; done || (intros s'; by split)]. apply within_try. unfold Start.
    apply within_bind; [apply within_wrap, within_bind; [by apply within_perform|by intros []]|]. intros _.
    apply within_bind; [by apply within_perform|]. intros _. apply within_bind; [by apply within_perform|]. intros [[]|e]; [|done].
    apply within_bind; [|done]. apply within_poll, within_bind; [by apply within_perform|]. by intros [].
  - apply within_poll, within_bind; [by apply within_perform|]. by intros [].
  - by apply within_service.
Qed.

(** Only the main goroutine makes progress. *)
Lemma mark_routine g f (c : server_call) x : g <> MainRoutine -> routine_may g c -> mark f (ev (E := server_sig) c x) = f.
Proof. destruct g, c; done. Qed.

(** What holds of a running process. *)
Record invariant (ps : process) : Prop := {
  inv_main : exists pm rest, routines ps = (MainRoutine, pm) :: rest /\ guarded main_may main_ends pm (progress_of (ps_trace ps)) /\
    Forall (fun gp => gp.1 <> MainRoutine /\ within (routine_may gp.1) gp.2) rest /\
    (rest <> [] -> ready (progress_of (ps_trace ps))) /\
    (pg_drained (progress_of (ps_trace ps)) = true -> Forall (fun gp => is_handler gp.1 -> finished gp.2) rest);
  inv_trace : forall t1 g e t2, ps_trace ps = t1 ++ (g, e) :: t2 -> in_place g (progress_of t1) (projT1 e);
  inv_exit : forall code, ps_exit ps = Some code -> code = 1
}.

Lemma progress_snoc t g e : progress_of (t ++ [(g, e)]) = mark (progress_of t) e.
Proof. unfold progress_of. by rewrite foldl_app. Qed.

Lemma trace_snoc t (P : list routine_event -> goroutine -> event server_sig -> Prop) g e :
  (forall t1 g' e' t2, t = t1 ++ (g', e') :: t2 -> P t1 g' e') -> P t g e ->
  forall t1 g' e' t2, t ++ [(g, e)] = t1 ++ (g', e') :: t2 -> P t1 g' e'.
Proof.
  intros Ht Hg t1 g' e' t2 Heq. destruct t2 as [|y t2] using rev_ind.
  - apply app_inj_tail in Heq as [<- [= <- <-]]. done.
  - rewrite app_comm_cons, app_assoc in Heq. apply app_inj_tail in Heq as [Heq _]. by eapply Ht.
Qed.

Lemma spawned_within fuel g : from_option (fun g => g <> MainRoutine) True g ->
  Forall (fun gp => gp.1 <> MainRoutine /\ within (routine_may gp.1) gp.2) (spawn routine_body fuel g).
Proof. destruct g as [g|]; [|constructor]. intros Hg. repeat constructor; [done|]. by apply routine_within. Qed.

Lemma invariant_launched : invariant (launched routine_body).
Proof.
  split; cbn [launched routines ps_trace ps_exit]; [|by intros [] ? ? ?|done].
  exists (server_main Unmarshal config tt), []. split_and!; [done|apply main_guarded|constructor|done|constructor].
Qed.

(** The goroutines a call may start. *)
Ltac go_case Hm := try match type of Hm with context [Go ?g] => destruct g; try done end.

(** A goroutine that is started: by the main one when all is ready, by another one any time, a request's while the server is not drained. *)
Lemma started_by_other g c x : g <> MainRoutine -> routine_may g c -> from_option (fun g => g <> MainRoutine) True (started c x).
Proof. intros Hg Hm. destruct g; try done; destruct c; try done; go_case Hm; cbn in x |- *; repeat match goal with y : option _ |- _ => destruct y | y : _ + _ |- _ => destruct y end; done. Qed.
Lemma started_by_main f c x : main_may f c -> from_option (fun g => g <> MainRoutine) True (started c x).
Proof. intros Hm. destruct c; try done; go_case Hm. Qed.
Lemma started_ready f c x : main_may f c -> is_Some (started c x) -> ready (mark f (ev (E := server_sig) c x)).
Proof. intros Hm. destruct c; try (by intros []); go_case Hm. Qed.
Lemma started_handler ps g c x : allowed ps c x -> g <> MainRoutine -> routine_may g c ->
  pg_drained (progress_of (ps_trace ps)) = true -> from_option (fun g => ~ is_handler g) True (started c x).
Proof.
  intros Ha Hg Hm Hd. destruct g; try done; destruct c; try done; go_case Hm; cbn in *; [tauto|..].
  - destruct x as [[r|]|e]; [|done..]. rewrite Ha in Hd; [done|eauto].
  - destruct x as [r|]; [|done]. rewrite Ha in Hd; [done|eauto].
Qed.
Lemma spawned_handlers fuel g : from_option (fun g => ~ is_handler g) True g ->
  Forall (fun gp => is_handler gp.1 -> finished gp.2) (spawn routine_body fuel g).
Proof. destruct g as [g|]; [|constructor]. intros Hg. by repeat constructor. Qed.
Lemma started_main_handler f c x : main_may f c -> from_option (fun g => ~ is_handler g) True (started c x).
Proof. intros Hm. destruct c; try done; go_case Hm; cbn; tauto. Qed.

Lemma mark_drained f (c : server_call) x :
  pg_drained (mark f (ev (E := server_sig) c x)) = true -> pg_drained f = true \/ c = GracefulStop.
Proof. destruct c; cbn; auto; destruct x; auto. Qed.
Lemma mark_ready f (c : server_call) x : ready f -> ready (mark f (ev (E := server_sig) c x)).
Proof. destruct c; try done; cbn; destruct x; try done; intros []; by split. Qed.

Lemma invariant_main_step ps c k after x fuel :
  running ps -> routines ps = (MainRoutine, Call c k) :: after -> allowed ps c x -> invariant ps ->
  invariant {| routines := (MainRoutine, k x) :: after ++ spawn routine_body fuel (started c x);
               ps_trace := ps_trace ps ++ [(MainRoutine, ev (E := server_sig) c x)]; ps_exit := None |}.
Proof.
  intros Hrun Hr Ha [(pm & rest & Hr' & Hg & Hrest & Hready & Hdrained) Ht _]. rewrite Hr in Hr'. injection Hr' as <- <-.
  destruct Hg as [Hc Hk]. specialize (Hk x). split; cbn [routines ps_trace ps_exit]; [| |done].
  - exists (k x), (after ++ spawn routine_body fuel (started c x)). rewrite progress_snoc. split_and!; [done|done|..].
    + apply Forall_app. split; [done|]. by eapply spawned_within, started_by_main.
    + intros Hne. destruct after as [|]; [|by apply mark_ready, Hready]. eapply started_ready; [done|].
      destruct (started c x); [eauto|done].
    + intros Hd. apply Forall_app. split; [|by eapply spawned_handlers, started_main_handler].
      apply mark_drained in Hd as [Hd| ->]; [by apply Hdrained|]. cbn in Ha. rewrite Hr in Ha. by apply Forall_cons in Ha as [_ Ha].
  - by apply (trace_snoc _ (fun t1 g e => in_place g (progress_of t1) (projT1 e))).
Qed.

Lemma invariant_routine_step ps pm mid g c k after x fuel :
  running ps -> routines ps = (MainRoutine, pm) :: mid ++ (g, Call c k) :: after -> allowed ps c x -> invariant ps ->
  invariant {| routines := (MainRoutine, pm) :: mid ++ (g, k x) :: after ++ spawn routine_body fuel (started c x);
               ps_trace := ps_trace ps ++ [(g, ev (E := server_sig) c x)]; ps_exit := None |}.
Proof.
  intros Hrun Hr Ha [(pm' & rest & Hr' & Hg & Hrest & Hready & Hdrained) Ht _]. rewrite Hr in Hr'. injection Hr' as <- <-.
  assert (Hf : ready (progress_of (ps_trace ps))) by (apply Hready; by destruct mid).
  apply Forall_app in Hrest as [Hmid Hrest]. apply Forall_cons in Hrest as [[Hne [Hmay Hk]] Hafter]. cbn [fst] in Hne, Hmay.
  split; cbn [routines ps_trace ps_exit]; [| |done].
  - exists pm, (mid ++ (g, k x) :: after ++ spawn routine_body fuel (started c x)).
    rewrite progress_snoc, (mark_routine g) by done. split_and!; [done|done|..|done|].
    + apply Forall_app. split; [done|]. constructor; [split; [done|apply Hk]|]. apply Forall_app. split; [done|].
      by eapply spawned_within, started_by_other.
    + intros Hd. specialize (Hdrained Hd). apply Forall_app in Hdrained as [Hd1 Hd2]. apply Forall_cons in Hd2 as [Hd2 Hd3].
      apply Forall_app. split; [done|]. constructor; [intros Hh; by destruct (Hd2 Hh)|]. apply Forall_app. split; [done|].
      by eapply spawned_handlers, started_handler.
  - apply (trace_snoc _ (fun t1 g e => in_place g (progress_of t1) (projT1 e))); [done|]. destruct g as [| | | |r]; [done|..]; (split_and!; [done|done|try done]).
    intros _. apply not_true_is_false. intros Hd. specialize (Hdrained Hd). apply Forall_app in Hdrained as [_ Hd2].
    apply Forall_cons in Hd2 as [Hd2 _]. by apply Hd2.
Qed.

Lemma invariant_step ps ps' : step routine_body ps ps' -> invariant ps -> invariant ps'.
Proof.
  intros [before g c k after x fuel Hrun Hr Ha|before g code k after Hrun Hr] Hinv.
  - destruct before as [|[g' pm] mid].
    + pose proof Hrun as (_ & _ & Hm). rewrite Hr in Hm. cbn in Hm. destruct g; try done. by eapply invariant_main_step.
    + pose proof Hrun as (_ & _ & Hm). rewrite Hr in Hm. cbn in Hm. destruct g'; try done. by eapply invariant_routine_step.
  - destruct Hinv as [Hm Ht _]. split; [done|done|]. cbn. intros ? [= <-].
    destruct Hm as (pm & rest & Hr' & Hg & Hrest & _). rewrite Hr' in Hr. destruct before as [|gp before]; injection Hr as Hgp Hr.
    + subst. by destruct Hg as [Hc _].
    + rewrite Hr in Hrest. apply Forall_app in Hrest as [_ Hrest]. apply Forall_cons in Hrest as [[Hne [Hmay _]] _].
      by destruct g.
Qed.

Lemma invariant_reachable ps : reachable routine_body ps -> invariant ps.
Proof.
  intros Hps. enough (forall ps0, invariant ps0 -> rtc (step routine_body) ps0 ps -> invariant ps) as H
    by (eapply H; [apply invariant_launched|exact Hps]).
  clear Hps. intros ps0 H0 Hps. induction Hps as [|ps0 ps1 ps2 Hstep _ IH]; [done|]. by eapply IH, invariant_step.
Qed.

(** C27: however its goroutines interleave and whatever its calls answer, the
    server does everything in its place: the updater and the handlers of
    requests call the database and Temporal only once the migrations are
    done and Temporal is dialed, and no handler does after the server was
    drained; the process stops the updater, drains, hangs up and closes the
    database in this order.  When the main goroutine returns, the database
    is closed and no request is left half done; the process exits early
    only with code 1. *)
Theorem server_lifecycle (ps : process) : reachable routine_body ps ->
  (forall t1 g e t2, ps_trace ps = t1 ++ (g, e) :: t2 -> in_place g (progress_of t1) (projT1 e)) /\
  (forall s rest, routines ps = (MainRoutine, Ret (s, Ok tt)) :: rest ->
     pg_closed (progress_of (ps_trace ps)) = true /\ Forall (fun gp => is_handler gp.1 -> finished gp.2) rest) /\
  (forall code, ps_exit ps = Some code -> code = 1).
Proof.
  intros Hps. apply invariant_reachable in Hps as [(pm & rest & Hr & Hg & _ & _ & Hdrained) Ht Hexit]. split_and!; [done| |done].
  intros s rest' Hr'. rewrite Hr' in Hr. injection Hr as <- <-. destruct Hg as (Hclosed & Hd). by split; [|apply Hdrained].
Qed.
End lifecycle.

(** ** A run

    A server started, asked for a template without its configuration, which
    [CreateWorkflowTemplate] dereferences, so that the process is gone; and
    the same server told to stop before it. *)
Section demo.
Definition demo_server : ServerConfig :=
  {| sv_Temporal := {| Host := "temporal:7233"; Namespace := "default" |}; DatabasePath := "ironbird.db";
     MigrationsPath := "./migrations"; GrpcAddress := ":9006"; GrpcWebAddress := ":9007" |}.
Definition demo_codec : ServiceCodec.
Proof.
  refine {| json_decode := fun _ => inr (ENew ""); json_encode := fun _ => inr (ENew "");
            spec_decode := fun _ => inr (ENew ""); spec_encode := fun _ => inr (ENew "") |}; intros; discriminate.
Defined.
#[local] Existing Instance demo_codec.
#[local] Abbreviation demo_body :=
  (body (fun _ => inl demo_server) "conf/server.yaml" (fun _ => "") (fun _ => "") (fun _ => "") (fun _ => None)).

(** The next call of the goroutine at [n], answered with [x]. *)
Lemma step_to n ps g c k x ps' ps'' :
  routines ps !! n = Some (g, Call c k) -> running ps -> allowed ps c x ->
  ps' = {| routines := <[n := (g, k x)]> (routines ps) ++ spawn demo_body 1 (started c x);
           ps_trace := ps_trace ps ++ [(g, ev (E := server_sig) c x)]; ps_exit := None |} ->
  rtc (step demo_body) ps' ps'' -> rtc (step demo_body) ps ps''.
Proof.
  intros Hr Hrun Ha -> Hs. eapply rtc_l; [|exact Hs]. rewrite insert_take_drop by (by eapply lookup_lt_Some).
  rewrite <- app_assoc, <- app_comm_cons. apply step_call; [done| |done]. by rewrite take_drop_middle.
Qed.

Ltac next n c x :=
  eapply (step_to n _ _ c _ x);
    [cbn; reflexivity | split_and!; cbn; [done|by repeat (constructor; [by intros []|])|try tauto] | try done; try (by repeat (constructor; [done|])) | cbn; reflexivity|].
Ltac next_of_main c x := next 0%nat c x.

(** The server until its listeners are started. *)
Ltac start_server :=
  next_of_main (ReadConfigFile "conf/server.yaml") (inl "" : res string);
  next_of_main (OpenDatabase "ironbird.db") (inl tt : res unit);
  next_of_main PingDatabase (inl tt : res unit);
  next_of_main (ExecPragma "PRAGMA foreign_keys = ON") (inl tt : res unit);
  next_of_main (ExecPragma "PRAGMA journal_mode = WAL") (inl tt : res unit);
  next_of_main MigrationDriver (inl tt : res unit);
  next_of_main (MigrationInstance "file://./migrations") (inl tt : res unit);
  next_of_main MigrationUp NoChange;
  next_of_main (NewReporter "0.0.0.0:9090") (inl tt : res unit);
  next_of_main (DialTemporal (sv_Temporal demo_server)) (inl tt : res unit);
  next_of_main (Go UpdaterRoutine) tt;
  next_of_main (Go (StartRoutine ":9006" ":9007")) tt;
  next 2%nat (Listen ":9006") (inl tt : res unit);
  next 2%nat (Go ServeRoutine) tt.

(** The process ends while its main goroutine waits for a signal. *)
Lemma server_crashes : exists ps, reachable demo_body ps /\ ~ running ps /\ ps_exit ps = None /\
  match routines ps with (MainRoutine, p) :: _ => ~ finished p | _ => False end.
Proof.
  unfold reachable, launched. eexists. split.
  - start_server. next 3%nat AcceptRPC (Some (RCreateWorkflowTemplate "t" "" None)). apply rtc_refl.
  - cbn. split_and!; [|done|tauto]. intros (_ & H & _). repeat (apply Forall_cons in H as [? H]). by cbn in *.
Qed.

(** A request and a tick, then a signal. *)
Lemma server_stops : exists ps s rest, reachable demo_body ps /\ routines ps = (MainRoutine, Ret (s, Ok tt)) :: rest /\
  (exists r, HandlerRoutine r ∈ rest.*1).
Proof.
  unfold reachable, launched. eexists _, tt, _. split; [|split].
  - start_server. next 3%nat AcceptRPC (Some (RCancelWorkflow "w")).
    next 4%nat (OfService (TemporalCancel "w")) (inl tt : res unit).
    next 1%nat (OfService TickOrStop) false.
    next 1%nat (OfService (Db (QListWorkflows 1000 0))) (inl [] : res (list Workflow)).
    next_of_main AwaitSignal tt. next_of_main CloseStop tt. next_of_main GracefulStop tt.
    next_of_main CloseTemporal tt. next_of_main CloseDatabase tt. apply rtc_refl.
  - reflexivity.
  - eexists. by do 3 right; left.
Qed.

Lemma server_lifecycle_witness : exists ps, reachable demo_body ps /\ pg_closed (progress_of (ps_trace ps)) = true.
Proof.
  destruct server_stops as (ps & s & rest & Hps & Hr & _). exists ps. split; [exact Hps|].
  exact (proj1 (proj1 (proj2 (server_lifecycle _ _ _ _ _ _ ps Hps)) s rest Hr)).
Defined.
End demo.
