(* ===== verification/DOClient.v ===== *)
(** * The DigitalOcean client: [petri/core/provider/digitalocean/client.go]

    The interface [DoClient] is a signature; [godoClient] implements it over
    the godo library, whose methods answer a value, a response and an error. *)

From S2P Require Import Prelude GoStrings.

(** ** Requests and resources *)
Record DropletCreateRequest := {
  dr_Name : string;
  dr_Region : string;
  dr_Size : string;
  dr_SSHKeys : list Z;
  dr_Image : Z;
  dr_Tags : list string;
  dr_UserData : string
}.

(** [d_PrivateIPv4] is what godo's method of that name returns. *)
Record Droplet := {
  d_ID : Z;
  d_Name : string;
  d_Status : string;
  d_Tags : list string;
  d_Created : string;
  d_PrivateIPv4 : res string
}.

Record Rule := {
  ru_Protocol : string;
  ru_PortRange : string;
  ru_Addresses : list string
}.

Record FirewallRequest := {
  fr_Name : string;
  fr_Tags : list string;
  fr_InboundRules : list Rule;
  fr_OutboundRules : list Rule
}.

Record Firewall := { f_ID : string; f_Name : string }.

Record DomainRecordEditRequest := {
  dm_Type : string;
  dm_Name : string;
  dm_Data : string;
  dm_TTL : Z
}.

Record ListOptions := { lo_Page : Z; lo_PerPage : Z }.

(** ** The interface *)
Inductive do_call :=
| CreateDroplet (req : DropletCreateRequest)
| GetDroplet (id : Z)
| ListDroplets (opts : ListOptions)
| DeleteDropletByTag (tag : string)
| DeleteDropletByID (id : Z)
| CreateFirewall (req : FirewallRequest)
| GetFirewall (id : string)
| ListFirewalls (opts : ListOptions)
| DeleteFirewall (id : string)
| CreateDomain (root : string) (req : DomainRecordEditRequest)
| GetDomain (root : string) (id : Z)
| DeleteDomain (root : string) (id : Z)
| CreateKey (name publicKey : string)
| DeleteKeyByFingerprint (fingerprint : string)
| GetKeyByFingerprint (fingerprint : string)
| CreateTag (name : string)
| ListTags (opts : ListOptions)
| DeleteTag (tag : string).

Definition do_value (c : do_call) : Type :=
  match c with
  | CreateDroplet _ | GetDroplet _ => Droplet
  | ListDroplets _ => list Droplet
  | CreateFirewall _ | GetFirewall _ => Firewall
  | ListFirewalls _ => list Firewall
  | CreateDomain _ _ | GetDomain _ _ => Z                   (* the record's ID *)
  | CreateKey _ _ | GetKeyByFingerprint _ => string         (* the fingerprint *)
  | CreateTag _ => string
  | ListTags _ => list string
  | _ => unit
  end.

Definition do_ans (c : do_call) : Type := res (do_value c).
Canonical do_sig : sig := Sig do_call do_ans.

(** ** The implementation *)
Definition ErrorResourceNotFound : error := EExt XResourceNotFound "resource not found".
Definition ErrorEmptyResponse : error := ENew "unexpected empty response".

(** A response is known by its status code, and may be nil. *)
Definition checkResponse (res_ : option Z) (err : option error) : option error :=
  match err with
  | Some err => Some err
  | None =>
      match res_ with
      | None => Some ErrorEmptyResponse
      | Some status =>
          if status =? 404 then Some ErrorResourceNotFound
          else if (299 <? status) || (status <? 200) then
            Some (ENew ("unexpected status code: " +:+ itoa status))
          else None
      end
  end.

(** The library's answer to the request of the same name. *)
Record godo_ans (c : do_call) := {
  g_value : do_value c;
  g_response : option Z;
  g_err : option error
}.
Arguments g_value {_} _.
Arguments g_response {_} _.
Arguments g_err {_} _.

Definition godoClient (c : do_call) (a : godo_ans c) : do_ans c :=
  match checkResponse (g_response a) (g_err a) with
  | Some err => inr err
  | None => inl (g_value a)
  end.

(** ** Properties *)

(** The library answers an unsuccessful status with an error, as
    [godo.CheckResponse] documents. *)
Definition checked {c} (a : godo_ans c) : Prop :=
  forall status, g_response a = Some status -> (status < 200 \/ 299 < status) -> is_Some (g_err a).

Lemma godoClient_Ok c (a : godo_ans c) v :
  godoClient c a = inl v <->
  v = g_value a /\ g_err a = None /\ exists status, g_response a = Some status /\ 200 <= status <= 299.
Proof.
  unfold godoClient, checkResponse.
  destruct (g_err a) as [e|]; [split; [done|by intros (_ & [=] & _)]|].
  destruct (g_response a) as [st|]; [|split; [done|by intros (_ & _ & st & [=] & _)]].
  assert (Hst : (if st =? 404 then Some ErrorResourceNotFound
                 else if (299 <? st) || (st <? 200) then Some (ENew ("unexpected status code: " +:+ itoa st)) else None)
                = None <-> 200 <= st <= 299).
  { destruct (Z.eqb_spec st 404); [split; [done|lia]|].
    destruct (Z.ltb_spec 299 st), (Z.ltb_spec st 200); simpl; split; try done; lia. }
  destruct (if st =? 404 then _ else _) as [e|].
  - split; [done|]. intros (_ & _ & st' & [= <-] & Hr). by apply Hst in Hr.
  - split; [|by intros (-> & _)]. intros [= <-]. split; [done|]. split; [done|]. exists st. split; [done|]. by apply Hst.
Qed.
