(* ===== verification/DOTask.v ===== *)
(** * Droplet tasks: [petri/core/provider/digitalocean/task.go], with
    [droplet.go], [tailscale.go], [telemetry.go], [types.go], [util.go],
    [options.go]

    A task is a droplet reached over the tailnet, and the one container its
    Docker daemon runs.  The state of a provider holds pointers its tasks
    share; a cell of the heap is a task's state with the clients the task
    keeps.  DigitalOcean, Tailscale, Docker, SSH, SFTP and the clock are the
    calls. *)

From S2P Require Import Prelude GoStrings GoVal ProviderDefs Util TaskHeap DockerVolume DOClient.

(** ** State *)
Record TaskState := {
  ts_ID : string;
  ts_Name : string;
  ts_TailscaleHostname : string;
  ts_Definition : TaskDefinition;
  ts_Status : TaskStatus;
  ts_ProviderName : string
}.

(** A Docker client handed to the provider, or one made for a host. *)
Inductive docker_ref :=
| Override (name : string)
| Remote (host : string).

#[export] Instance docker_ref_eq_dec : EqDecision docker_ref.
Proof. solve_decision. Defined.

(** The state of a task and its clients; [t_sshClient] is a connection. *)
Record Task := {
  t_state : TaskState;
  t_dockerClient : option docker_ref;
  t_sshClient : option nat
}.

Record ProviderState := {
  TaskStates : gmap string ptr;
  ps_Name : string;
  PetriTag : string;
  FirewallID : string;
  DomainIDs : list Z
}.

Record PrometheusSettings := { pr_Username : string; pr_Password : string; pr_URL : string }.
Record LokiSettings := { lk_Username : string; lk_Password : string; lk_URL : string }.
Record PyroscopeSettings := { py_URL : string }.
Record TelemetrySettings := {
  te_Prometheus : PrometheusSettings;
  te_Loki : LokiSettings;
  te_Pyroscope : PyroscopeSettings
}.
Record TelemetryConfig := {
  tc_Settings : TelemetrySettings;           (* its three fields *)
  tc_Provider : string;
  tc_NodeName : string
}.

(** [ts_Server] and [ts_LocalClient] tell whether the clients are there. *)
Record TailscaleSettings := {
  AuthKey : string;
  Tags : list string;
  Server : bool;
  LocalClient : bool
}.

Record Provider := {
  p_state : ProviderState;
  heap : gmap ptr Task;
  next_ptr : ptr;
  tailscaleSettings : TailscaleSettings;
  telemetrySettings : option TelemetrySettings;
  domain : string;
  dockerClientOverrides : gset string
}.

(** ** Calls *)

(** A peer of the tailnet: its addresses with the answer of [Is4]. *)
Record PeerStatus := { HostName : string; TailscaleIPs : list (string * bool) }.

Inductive droplet_call :=
| Do (c : do_call)
| On (d : docker_ref) (c : docker_call)
| DockerClose (d : docker_ref)
| NewClient (host : string)                        (* [clients.NewDockerClient] *)
| TailscaleStatus
| SSHPing (conn : nat)
| SSHDial (addr : string)
| SSHClose (conn : nat)
| SftpNewClient (conn : nat)
| SftpClose (client : nat)
| SftpMkdirAll (client : nat) (path : string)
| SftpCreate (client : nat) (path : string)
| SftpWrite (file : nat) (content : string)
| SftpReadFile (client : nat) (path : string)
| RandLetter
| UnixTime
| Sleep (seconds : Z)
| WaitDone                                         (* the select of [WaitForCondition] *)
| Tick.                                            (* a tick, or the context's end *)

Definition droplet_ans (c : droplet_call) : Type :=
  match c with
  | Do c => do_ans c
  | On _ c => docker_ans c
  | TailscaleStatus => res (list PeerStatus)       (* in the order of the range *)
  | SSHPing _ => res bool
  | SSHDial _ | SftpNewClient _ | SftpCreate _ _ => res nat
  | SftpReadFile _ _ => res string
  | NewClient _ | SftpMkdirAll _ _ | SftpWrite _ _ => res unit
  | DockerClose _ | SSHClose _ | SftpClose _ | Sleep _ => unit
  | RandLetter => fin 52
  | UnixTime => Z
  | WaitDone => bool
  | Tick => option error
  end.

Canonical droplet_sig : sig := Sig droplet_call droplet_ans.

Abbreviation DOM := (M droplet_sig Provider).

(** ** [options.go] *)
Inductive Option :=
| WithDockerClients (names : gset string)
| WithTelemetry (telemetry : TelemetrySettings)
| WithDomain (domain : string).

Definition apply_option (p : Provider) (o : Option) : Provider :=
  {| p_state := p_state p; heap := heap p; next_ptr := next_ptr p; tailscaleSettings := tailscaleSettings p;
     telemetrySettings := match o with WithTelemetry t => Some t | _ => telemetrySettings p end;
     domain := match o with WithDomain d => d | _ => domain p end;
     dockerClientOverrides := match o with WithDockerClients c => c | _ => dockerClientOverrides p end |}.

Definition set_heap (h : gmap ptr Task) (n : ptr) (p : Provider) : Provider :=
  {| p_state := p_state p; heap := h; next_ptr := n; tailscaleSettings := tailscaleSettings p;
     telemetrySettings := telemetrySettings p; domain := domain p;
     dockerClientOverrides := dockerClientOverrides p |}.

Definition set_state (s : ProviderState) (p : Provider) : Provider :=
  {| p_state := s; heap := heap p; next_ptr := next_ptr p; tailscaleSettings := tailscaleSettings p;
     telemetrySettings := telemetrySettings p; domain := domain p;
     dockerClientOverrides := dockerClientOverrides p |}.

Definition set_TaskStates (m : gmap string ptr) (p : Provider) : Provider :=
  let s := p_state p in
  set_state {| TaskStates := m; ps_Name := ps_Name s; PetriTag := PetriTag s; FirewallID := FirewallID s;
               DomainIDs := DomainIDs s |} p.

(** ** [types.go], [util.go] *)
Definition DigitalOceanTaskConfig : Type := gmap string string.

Definition absent_or_empty (d : DigitalOceanTaskConfig) (k : string) : bool :=
  match d !! k with Some v => String.eqb v "" | None => true end.

Definition DigitalOceanTaskConfig_ValidateBasic (d : DigitalOceanTaskConfig) : outcome unit :=
  if absent_or_empty d "region" then Err (ENew "region has to be non-empty and a string")
  else if absent_or_empty d "size" then Err (ENew "size has to be non-empty and a string")
  else if absent_or_empty d "image_id" then Err (ENew "image_id has to be non-empty")
  else match ParseInt (lookup_str d "image_id") with
  | None => Err (ENew "image_id has to be an integer")
  | Some _ => Ok tt
  end.

Definition formatUserData (commands : list string) : string :=
  "#cloud-config" +:+ nl +:+ "runcmd:" +:+
  String_concat "" (map (fun command => nl +:+ "- " +:+ command) commands).

(** ** [tailscale.go], [telemetry.go] *)
Definition TailscaleSettings_GetCommand (ts : TailscaleSettings) (hostname : string) : string :=
  let prefixedTags := map (fun tag => "tag:" +:+ tag) (Tags ts) in
  let command := ["tailscale"; "up"; "--ssh"; "--authkey"; dquote +:+ AuthKey ts +:+ dquote; "--hostname"; hostname] in
  Join (command ++ match prefixedTags with [] => [] | _ => ["--advertise-tags"; Join prefixedTags ","] end) " ".

Definition TailscaleSettings_ValidateBasic (ts : TailscaleSettings) : outcome unit :=
  if String.eqb (AuthKey ts) "" then Err (ENew "auth key cannot be empty")
  else if negb (Server ts) then Err (ENew "tailscale server cannot be nil")
  else if negb (LocalClient ts) then Err (ENew "tailscale client cannot be nil")
  else match Tags ts with [] => Err (ENew "tags cannot be empty") | _ => Ok tt end.

Lemma TailscaleSettings_ValidateBasic_total ts :
  TailscaleSettings_ValidateBasic ts = Ok tt \/ exists e, TailscaleSettings_ValidateBasic ts = Err e.
Proof. unfold TailscaleSettings_ValidateBasic. repeat case_match; eauto. Qed.

Section task.
Context {R : MapRange}.
(** [path.Join], [path.Dir] and [json.Marshal] *)
Variable path_Join : string -> string -> string.
Variable path_Dir : string -> string.
Variable MarshalTelemetry : TelemetryConfig -> res string.

Definition convertEnvMapToList (env : gmap string string) : list string :=
  map (fun '(key, value) => key +:+ "=" +:+ value) (range_map env).

Definition TelemetrySettings_GetCommand (t : TelemetrySettings) (provider nodeName : string) : res (list string) :=
  match MarshalTelemetry {| tc_Settings := t; tc_Provider := provider; tc_NodeName := nodeName |} with
  | inr err => inr err
  | inl config => inl
      ["echo '" +:+ config +:+ "' > /etc/alloy/telemetry.json";
       "echo 'NODE_NAME=" +:+ nodeName +:+ "' >> /etc/environment"; "systemctl restart alloy"]
  end.

(** ** The cell of a task *)
Definition nil_deref {A} : DOM A := panic "invalid memory address or nil pointer dereference".

Definition cell (t : ptr) : DOM Task :=
  let* p := get in
  match heap p !! t with Some c => retM c | None => nil_deref end.

(** [t.GetState()]: a copy of the state. *)
Definition GetState (t : ptr) : DOM TaskState := let* c := cell t in retM (t_state c).

Definition new_task (c : Task) : DOM ptr :=
  let* p := get in
  let* _ := put (set_heap (<[next_ptr p := c]> (heap p)) (S (next_ptr p)) p) in
  retM (next_ptr p).

Definition with_Status (status : TaskStatus) (c : Task) : Task :=
  let s := t_state c in
  {| t_state := {| ts_ID := ts_ID s; ts_Name := ts_Name s; ts_TailscaleHostname := ts_TailscaleHostname s;
                   ts_Definition := ts_Definition s; ts_Status := status; ts_ProviderName := ts_ProviderName s |};
     t_dockerClient := t_dockerClient c; t_sshClient := t_sshClient c |}.

(** [t.state.Status = status], seen through every pointer to the state. *)
Definition set_Status (t : ptr) (status : TaskStatus) : DOM unit :=
  modify (fun p => set_heap (alter (with_Status status) t (heap p)) (next_ptr p) p).

(** [t.dockerClient = d] *)
Definition set_dockerClient (t : ptr) (d : docker_ref) : DOM unit :=
  modify (fun p => set_heap (alter (fun c =>
    {| t_state := t_state c; t_dockerClient := Some d; t_sshClient := t_sshClient c |}) t (heap p)) (next_ptr p) p).

(** A method of a nil client panics. *)
Definition dockerClient (t : ptr) : DOM docker_ref :=
  let* c := cell t in
  match t_dockerClient c with Some d => retM d | None => nil_deref end.

Definition getDockerClientOverride (task : string) : DOM (option docker_ref) :=
  let* p := get in
  retM (if bool_decide (task ∈ dockerClientOverrides p) then Some (Override task) else None).

(** ** The tailnet *)
Definition getTailscalePeer (t : ptr) : DOM PeerStatus :=
  let* status := ask TailscaleStatus in
  let* state := GetState t in
  let hostname := ts_TailscaleHostname state in
  match List.find (fun peer => String.eqb (HostName peer) hostname) status with
  | Some peer => retM peer
  | None => throw (ENew ("no Tailscale peer found for hostname: " +:+ hostname))
  end.

Definition getTailscaleIp (t : ptr) : DOM string :=
  let* self := getTailscalePeer t in
  match List.find snd (TailscaleIPs self) with
  | Some (ip, _) => retM ip
  | None => throw (ENew "no IPv4 Tailscale address found")
  end.

Definition GetIP (t : ptr) : DOM string := getTailscaleIp t.

(** [net.JoinHostPort] *)
Definition JoinHostPort (host port : string) : string :=
  if no_byte (Ascii.ascii_of_nat 58) host then host +:+ ":" +:+ port else "[" +:+ host +:+ "]:" +:+ port.

Definition GetExternalAddress (t : ptr) (port : string) : DOM string :=
  let* ip := GetIP t in retM (JoinHostPort ip port).

(** ** The droplet *)
Definition task_GetDroplet (t : ptr) : DOM Droplet :=
  let* state := GetState t in
  match ParseInt (ts_ID state) with
  | None => throw (EExt XOther ("strconv.Atoi: parsing " +:+ dquote +:+ ts_ID state +:+ dquote +:+ ": invalid syntax"))
  | Some dropletId => ask (Do (GetDroplet dropletId))
  end.

Definition GetPrivateIP (t : ptr) : DOM string :=
  let* droplet := wrap "failed to get droplet" (task_GetDroplet t) in
  lift_res (d_PrivateIPv4 droplet).

Definition deleteDroplet (t : ptr) : DOM unit :=
  let* droplet := task_GetDroplet t in
  ask (Do (DeleteDropletByID (d_ID droplet))).

Definition docker_ready (t : ptr) : DOM bool :=
  let* d := task_GetDroplet t in
  if negb (String.eqb (d_Status d) "active") then retM false
  else
    let* ip := GetIP t in
    let* c := cell t in
    let* _ :=
      (match t_dockerClient c with
       | Some _ => retM tt
       | None => let* _ := ask (NewClient ip) in set_dockerClient t (Remote ip)
       end) in
    let* client := dockerClient t in
    let* pong := perform (On client Ping) in
    match pong with inl _ => retM true | inr _ => retM false end.

Definition waitForDockerStart (fuel : nat) (t : ptr) : DOM unit :=
  wrap "failed to wait for docker in droplet to become active"
    (WaitForCondition fuel (perform WaitDone) 600 (docker_ready t)).

(** ** The container *)

(** The most recent container of the droplet. *)
Definition find_container (t : ptr) : DOM string :=
  let* client := dockerClient t in
  let* containers := wrap "failed to retrieve containers" (ask (On client (ContainerList 1))) in
  match containers with
  | [id] => retM id
  | _ => let* state := GetState t in throw (ENew ("could not find container for " +:+ ts_Name state))
  end.

Definition container_status (state : string) : TaskStatus :=
  if String.eqb state "created" then TASK_STOPPED
  else if String.eqb state "running" then TASK_RUNNING
  else if String.eqb state "paused" then TASK_PAUSED
  else if String.eqb state "removing" then TASK_STOPPED
  else if String.eqb state "restarting" then TASK_RESTARTING
  else if String.eqb state "exited" then TASK_STOPPED
  else if String.eqb state "dead" then TASK_STOPPED
  else TASK_STATUS_UNDEFINED.

Definition GetStatus (t : ptr) : DOM TaskStatus :=
  let* droplet := task_GetDroplet t in
  if negb (String.eqb (d_Status droplet) "active") then retM TASK_STOPPED
  else
    let* id := find_container t in
    let* client := dockerClient t in
    let* c := ask (On client (ContainerInspect id)) in
    retM (container_status (ci_Status c)).

Definition Start (fuel : nat) (t : ptr) : DOM unit :=
  let* containerID := find_container t in
  let* client := dockerClient t in
  let* _ := ask (On client (ContainerStart containerID)) in
  WaitForCondition fuel (perform WaitDone) 300
    (let* status := GetStatus t in
     if negb (bool_decide (status = TASK_RUNNING)) then retM false
     else let* _ := set_Status t TASK_RUNNING in retM true).

Definition Stop (t : ptr) : DOM unit :=
  let* containerID := find_container t in
  let* _ := set_Status t TASK_STOPPED in
  let* client := dockerClient t in
  ask (On client (ContainerStop containerID)).

Definition removeTask (taskID : string) : DOM unit :=
  modify (fun p => set_TaskStates (delete taskID (TaskStates (p_state p))) p).

Definition Destroy (t : ptr) : DOM unit :=
  let* client := dockerClient t in
  defer (perform (DockerClose client))
    (let* _ := deleteDroplet t in
     let* state := GetState t in
     removeTask (ts_ID state)).

Definition Modify (t : ptr) (definition : TaskDefinition) : DOM unit := panic "implement me".
Definition DownloadDir (t : ptr) (s s2 : string) : DOM unit := panic "implement me".
Definition GetDefinition (t : ptr) : DOM TaskDefinition := let* state := GetState t in retM (ts_Definition state).

(** ** Files *)
Definition getDropletSSHClient (t : ptr) : DOM nat :=
  let* c := cell t in
  let* alive :=
    (match t_sshClient c with
     | Some conn =>
         let* r := perform (SSHPing conn) in
         retM (match r with inl true => Some conn | _ => None end)
     | None => retM None
     end) in
  match alive with
  | Some conn => retM conn
  | None => let* ip := GetIP t in ask (SSHDial (ip +:+ ":22"))
  end.

Definition with_sftp {A} (t : ptr) (f : nat -> DOM A) : DOM A :=
  let* sshClient := getDropletSSHClient t in
  defer (perform (SSHClose sshClient))
    (let* sftpClient := ask (SftpNewClient sshClient) in
     defer (perform (SftpClose sftpClient)) (f sftpClient)).

Definition WriteFile (t : ptr) (relPath content : string) : DOM unit :=
  let absPath := path_Join "/docker_volumes" relPath in
  with_sftp t (fun sftpClient =>
    let* _ := ask (SftpMkdirAll sftpClient (path_Dir absPath)) in
    let* file := ask (SftpCreate sftpClient absPath) in
    ask (SftpWrite file content)).

Definition ReadFile (t : ptr) (relPath : string) : DOM string :=
  let absPath := path_Join "/docker_volumes" relPath in
  with_sftp t (fun sftpClient => ask (SftpReadFile sftpClient absPath)).

(** ** Commands *)
Definition waitForExec (fuel : nat) (client : docker_ref) (execID : string) : DOM Z :=
  poll fuel
    (let* ended := perform Tick in
     match ended with
     | Some err => throw err
     | None =>
         let* '(running, exitCode) := ask (On client (ContainerExecInspect execID)) in
         if (running : bool) then retM None else retM (Some exitCode)
     end).

(** Runs a command in a container and collects its output. *)
Definition exec_in (fuel : nat) (client : docker_ref) (id : string) (command : list string) : DOM (string * string * Z) :=
  let* exec := ask (On client (ContainerExecCreate id command)) in
  let* stream := ask (On client (ContainerExecAttach exec)) in
  let* '(stdout, stderr) := lift_res stream in
  let* exitCode := waitForExec fuel client exec in
  retM (stdout, stderr, exitCode).

Definition runCommand (fuel : nat) (t : ptr) (command : list string) : DOM (string * string * Z) :=
  let* id := find_container t in
  let* client := dockerClient t in
  exec_in fuel client id command.

Definition startContainerWithBlock (fuel : nat) (client : docker_ref) (containerID : string) : DOM unit :=
  let* _ := ask (On client (ContainerStart containerID)) in
  poll fuel
    (let* ended := perform Tick in
     match ended with
     | Some err => throw (ENew ("error waiting for container to start: " +:+ Error err))
     | None =>
         let* container := ask (On client (ContainerInspect containerID)) in
         if ci_Running container then retM (Some tt)
         else if String.eqb (ci_Status container) "exited" && negb (ci_ExitCode container =? 0) then
           throw (ENew ("container exited with status " +:+ itoa (ci_ExitCode container)))
         else retM None
     end).

Definition data_mount (definition : TaskDefinition) : list Mount :=
  [BindMount "/docker_volumes" (DataDir definition)].

Definition executor (state : TaskState) (name : string) : ContainerSpec :=
  let definition := ts_Definition state in
  {| cs_Name := name; cs_Image := Image (td_Image definition); cs_Entrypoint := ["sh"; "-c"];
     cs_Cmd := ["sleep 36000"]; cs_Hostname := td_Name definition;
     cs_Labels := [(providerLabelName, ts_ProviderName state)];
     cs_Env := convertEnvMapToList (Environment definition); cs_User := ""; cs_Binds := [];
     cs_AutoRemove := false; cs_Mounts := data_mount definition; cs_ExposedPorts := []; cs_PortBindings := ∅;
     cs_NetworkMode := "host"; cs_IPv4Address := None |}.

Definition remove_executor (t : ptr) (id : string) : DOM unit :=
  let* client := dockerClient t in
  let* r := perform (On client (ContainerInspect id)) in
  let remove := let* _ := perform (On client (ContainerRemove id true false)) in retM tt in
  match r with
  | inr err => if errors_Is XNotFound err then retM tt else remove
  | inl _ => remove
  end.

Definition runCommandWhileStopped (fuel : nat) (t : ptr) (cmd : list string) : DOM (string * string * Z) :=
  let* state := GetState t in
  let* _ := wrap "failed to validate task definition"
    (lift_outcome (TaskDefinition_ValidateBasic (ts_Definition state))) in
  let* random := RandomString (perform RandLetter) 5 in
  let* now := perform UnixTime in
  let containerName := td_Name (ts_Definition state) +:+ "-executor-" +:+ random +:+ "-" +:+ itoa now in
  let* client := dockerClient t in
  let* id := ask (On client (ContainerCreate (executor state containerName))) in
  defer (remove_executor t id)
    (let* _ := startContainerWithBlock fuel client id in
     exec_in fuel client id cmd).

Definition RunCommand (fuel : nat) (t : ptr) (cmd : list string) : DOM (string * string * Z) :=
  let* status := GetStatus t in
  if negb (bool_decide (status = TASK_RUNNING)) then runCommandWhileStopped fuel t cmd
  else runCommand fuel t cmd.
End task.
