(* ===== verification/DOProvider.v ===== *)
(** * The DigitalOcean provider: [petri/core/provider/digitalocean/provider.go],
    [droplet.go], [firewall.go]

    Creation of a provider (its tag and firewall), of tasks and of domain
    records, teardown, serialization and restoration. *)

From S2P Require Import Prelude GoStrings GoVal ProviderDefs Util TaskHeap DockerVolume DOClient DOTask.

Section provider.
Context {R : MapRange}.
(** [json.Marshal] of the telemetry settings. *)
Variable MarshalTelemetry : TelemetryConfig -> res string.

(** ** [NewProvider] *)
Definition anywhere : list string := ["0.0.0.0/0"].
Definition open_port (protocol ports : string) : Rule :=
  {| ru_Protocol := protocol; ru_PortRange := ports; ru_Addresses := anywhere |}.

Definition firewall_request (tag : string) : FirewallRequest :=
  {| fr_Name := tag; fr_Tags := [tag];
     fr_InboundRules := [open_port "tcp" "80"; open_port "tcp" "443"; open_port "tcp" "26656"; open_port "udp" "26656"];
     fr_OutboundRules := [open_port "tcp" "0"; open_port "udp" "0"; open_port "icmp" "0"] |}.

Definition createFirewall : DOM Firewall :=
  let* p := get in ask (Do (CreateFirewall (firewall_request (PetriTag (p_state p))))).

Definition createTag {S} (tagName : string) : M droplet_sig S string := ask (Do (CreateTag tagName)).

Definition set_FirewallID (id : string) (p : Provider) : Provider :=
  let s := p_state p in
  set_state {| TaskStates := TaskStates s; ps_Name := ps_Name s; PetriTag := PetriTag s; FirewallID := id;
               DomainIDs := DomainIDs s |} p.

Definition new_provider (providerName : string) (ts : TailscaleSettings) (opts : list Option) : Provider :=
  foldl apply_option
    {| p_state := {| TaskStates := ∅; ps_Name := providerName; PetriTag := "petri-" +:+ providerName;
                     FirewallID := ""; DomainIDs := [] |};
       heap := ∅; next_ptr := O; tailscaleSettings := ts; telemetrySettings := None; domain := "";
       dockerClientOverrides := ∅ |} opts.

(** [hasClient] tells whether the client is not nil. *)
Definition NewProviderWithClient (providerName : string) (hasClient : bool) (ts : TailscaleSettings)
    (opts : list Option) : M droplet_sig unit Provider :=
  if negb hasClient then throw (ENew "a valid digital ocean client must be passed when creating a provider")
  else
    let* _ := wrap "failed to validate tailscale settings" (lift_outcome (TailscaleSettings_ValidateBasic ts)) in
    let p := new_provider providerName ts opts in
    let* _ := createTag (PetriTag (p_state p)) in
    let* firewall := wrap "failed to create firewall" (scoped p createFirewall) in
    retM (set_FirewallID (f_ID firewall) p).

Definition NewProvider (providerName token : string) (ts : TailscaleSettings) (opts : list Option)
    : M droplet_sig unit Provider :=
  if String.eqb token "" then throw (ENew "a non-empty token must be passed when creating a DigitalOcean provider")
  else NewProviderWithClient providerName true ts opts.

(** ** [CreateTask] *)
Definition droplet_request (state : ProviderState) (doConfig : DigitalOceanTaskConfig) (definition : TaskDefinition)
    (imageId : Z) (userDataCommands : list string) : DropletCreateRequest :=
  {| dr_Name := PetriTag state +:+ "-" +:+ td_Name definition; dr_Region := lookup_str doConfig "region";
     dr_Size := lookup_str doConfig "size"; dr_SSHKeys := [50241382]; dr_Image := imageId;
     dr_Tags := [PetriTag state]; dr_UserData := formatUserData userDataCommands |}.

Definition CreateDroplet (definition : TaskDefinition) : DOM Droplet :=
  let* _ := wrap "failed to validate task definition" (lift_outcome (TaskDefinition_ValidateBasic definition)) in
  let doConfig := default ∅ (ProviderSpecificConfig definition) in
  let* _ := wrap "could not cast digitalocean specific config"
    (lift_outcome (DigitalOceanTaskConfig_ValidateBasic doConfig)) in
  match ParseInt (lookup_str doConfig "image_id") with
  | None => throw (EWrap "failed to parse image ID" (EExt XOther "strconv.ParseInt: invalid syntax"))
  | Some imageId =>
      let* p := get in
      let state := p_state p in
      let up := TailscaleSettings_GetCommand (tailscaleSettings p) (PetriTag state +:+ "-" +:+ td_Name definition) in
      let* telemetryCommand :=
        (match telemetrySettings p with
         | None => retM []
         | Some t => wrap "failed to format telemetry user data"
             (lift_res (TelemetrySettings_GetCommand MarshalTelemetry t (ps_Name state) (td_Name definition)))
         end) in
      ask (Do (DOClient.CreateDroplet
        (droplet_request state doConfig definition imageId (up :: telemetryCommand))))
  end.

Definition record_task (id : string) (t : ptr) : DOM unit :=
  modify (fun p => set_TaskStates (<[id := t]> (TaskStates (p_state p))) p).

(** The image is pulled again after a pause, while there are [retries]. *)
Fixpoint pull_image (retries : nat) (client : docker_ref) (img auth : string) (err : error) : DOM unit :=
  match retries with
  | O => throw err
  | Datatypes.S n =>
      let* r := perform (On client (ImagePull img auth)) in
      match r with
      | inl _ => retM tt
      | inr err => let* _ := perform (Sleep 2) in pull_image n client img auth err
      end
  end.

Definition ensure_image (client : docker_ref) (doConfig : DigitalOceanTaskConfig) (img : string) : DOM unit :=
  let* found := perform (On client (ImageInspect img)) in
  let registryAuth := if IsECRImage img then lookup_str doConfig "docker_auth" else "" in
  match found with
  | inl _ => retM tt
  | inr err => pull_image 5 client img registryAuth err
  end.

Definition task_container (state : ProviderState) (definition : TaskDefinition) (name : string) : ContainerSpec :=
  {| cs_Name := name; cs_Image := Image (td_Image definition); cs_Entrypoint := Entrypoint definition;
     cs_Cmd := Command definition; cs_Hostname := name;
     cs_Labels := [(providerLabelName, ps_Name state); (portsLabelName, Join (Ports definition) ",");
                   (nodeNameLabelName, td_Name definition)];
     cs_Env := convertEnvMapToList (Environment definition); cs_User := ""; cs_Binds := [];
     cs_AutoRemove := false; cs_Mounts := data_mount definition; cs_ExposedPorts := []; cs_PortBindings := ∅;
     cs_NetworkMode := "host"; cs_IPv4Address := None |}.

Definition create_container (client : docker_ref) (spec : ContainerSpec) : DOM bool :=
  let* r := perform (On client (ContainerCreate spec)) in
  match r with
  | inl _ => retM true
  | inr err => if errors_Is XConnection err then retM false else throw err
  end.

Definition peer_found (t : ptr) : DOM bool :=
  let* self := try_ (getTailscalePeer t) in
  match self with inl _ => retM true | inr _ => retM false end.

Definition task_record (state : ProviderState) (definition : TaskDefinition) (droplet : Droplet) : TaskState :=
  {| ts_ID := itoa (d_ID droplet); ts_Name := PetriTag state +:+ "-" +:+ td_Name definition;
     ts_TailscaleHostname := PetriTag state +:+ "-" +:+ td_Name definition;
     ts_Definition := definition; ts_Status := TASK_STOPPED; ts_ProviderName := ps_Name state |}.

(** What follows the recording of the task: the machine joins the tailnet,
    its Docker daemon starts, the image is there, the container is made. *)
Definition setup_task (fuel : nat) (t : ptr) (state : ProviderState) (taskState : TaskState)
    (doConfig : DigitalOceanTaskConfig) (definition : TaskDefinition) : DOM ptr :=
  let* _ := wrap ("failed to wait for tailscale peer in task " +:+ ts_Name taskState)
    (WaitForCondition fuel (perform WaitDone) 900 (peer_found t)) in
  let* ip := GetIP t in
  let* override := getDockerClientOverride (ts_Name taskState) in
  let* client :=
    (match override with
     | Some d => retM d
     | None => let* _ := wrap "failed to create docker client" (ask (NewClient ip)) in retM (Remote ip)
     end) in
  let* _ := set_dockerClient t client in
  let* _ := wrap "failed to wait for docker start" (waitForDockerStart fuel t) in
  let* _ := ensure_image client doConfig (Image (td_Image definition)) in
  let* _ := wrap "failed to create container after retries"
    (WaitForCondition fuel (perform WaitDone) 30
       (create_container client (task_container state definition (ts_Name taskState)))) in
  retM t.

Definition CreateTask (fuel : nat) (definition : TaskDefinition) : DOM ptr :=
  let* _ := wrap "failed to validate task definition" (lift_outcome (TaskDefinition_ValidateBasic definition)) in
  match ProviderSpecificConfig definition with
  | None => throw (ENew ("digitalocean specific config is nil for " +:+ td_Name definition))
  | Some doConfig =>
      let* _ := wrap "could not cast digitalocean specific config"
        (lift_outcome (DigitalOceanTaskConfig_ValidateBasic doConfig)) in
      let* droplet := CreateDroplet definition in
      let* p := get in
      let state := p_state p in
      let taskState := task_record state definition droplet in
      let* t := new_task {| t_state := taskState; t_dockerClient := None; t_sshClient := None |} in
      let* _ := record_task (ts_ID taskState) t in
      setup_task fuel t state taskState doConfig definition
  end.

(** ** [Teardown] *)
Definition teardownTasks : DOM unit :=
  let* p := get in ask (Do (DeleteDropletByTag (PetriTag (p_state p)))).

Definition teardownFirewall : DOM unit :=
  let* p := get in
  let* r := perform (Do (GetFirewall (FirewallID (p_state p)))) in
  if match r with inr err => errors_Is XResourceNotFound err | inl _ => false end then retM tt
  else ask (Do (DeleteFirewall (FirewallID (p_state p)))).

Definition teardownTag : DOM unit :=
  let* p := get in ask (Do (DeleteTag (PetriTag (p_state p)))).

(** Only the last error is kept. *)
Fixpoint delete_domains (root : string) (ids : list Z) (multiErr : option error) : DOM (option error) :=
  match ids with
  | [] => retM multiErr
  | id :: ids' =>
      let* r := perform (Do (DeleteDomain root id)) in
      delete_domains root ids'
        match r with
        | inr err => errors_Join [Some err; Some (EWrap ("failed to delete domain " +:+ itoa id) err)]
        | inl _ => multiErr
        end
  end.

Definition teardownDomains : DOM unit :=
  let* p := get in
  if String.eqb (domain p) "" then retM tt
  else
    let* multiErr := delete_domains (domain p) (DomainIDs (p_state p)) None in
    match multiErr with Some err => throw err | None => retM tt end.

Definition Teardown : DOM unit :=
  let* _ := teardownTasks in
  let* _ := teardownFirewall in
  let* _ := teardownTag in
  teardownDomains.

(** ** [CreateDomains] *)
Definition add_domain (id : Z) (p : Provider) : Provider :=
  let s := p_state p in
  set_state {| TaskStates := TaskStates s; ps_Name := ps_Name s; PetriTag := PetriTag s;
               FirewallID := FirewallID s; DomainIDs := DomainIDs s ++ [id] |} p.

Definition create_domain (root : string) (entry : string * string) : DOM unit :=
  let '(name, ip) := entry in
  let* id := wrap ("failed to create domain " +:+ name)
    (ask (Do (CreateDomain root {| dm_Type := "A"; dm_Name := name; dm_Data := ip; dm_TTL := 300 |}))) in
  modify (add_domain id).

Definition CreateDomains (domains : gmap string string) : DOM unit :=
  let* p := get in
  if String.eqb (domain p) "" then retM tt
  else for_each (range_map domains) (create_domain (domain p)).

(** ** Serialization *)

(** What is written: the states the pointers lead to. *)
Record PackedProvider := {
  pk_Tasks : gmap string TaskState;
  pk_Name : string;
  pk_PetriTag : string;
  pk_FirewallID : string;
  pk_DomainIDs : list Z
}.

Definition pack (p : Provider) : PackedProvider :=
  let s := p_state p in
  {| pk_Tasks := omap (fun t => t_state <$> heap p !! t) (TaskStates s); pk_Name := ps_Name s;
     pk_PetriTag := PetriTag s; pk_FirewallID := FirewallID s; pk_DomainIDs := DomainIDs s |}.

Definition unpack (k : PackedProvider) (ts : TailscaleSettings) : Provider :=
  let '(m, h, n) := unpack_tasks (range_map (pk_Tasks k)) O in
  {| p_state := {| TaskStates := m; ps_Name := pk_Name k; PetriTag := pk_PetriTag k;
                   FirewallID := pk_FirewallID k; DomainIDs := pk_DomainIDs k |};
     heap := (fun s => {| t_state := s; t_dockerClient := None; t_sshClient := None |}) <$> h; next_ptr := n;
     tailscaleSettings := ts; telemetrySettings := None; domain := ""; dockerClientOverrides := ∅ |}.

Section json.
Variable Marshal : PackedProvider -> res string.
Variable Unmarshal : string -> res PackedProvider.
Variable MarshalTask : TaskState -> res string.
Variable UnmarshalTask : string -> res TaskState.

Definition SerializeProvider : DOM string := let* p := get in lift_res (Marshal (pack p)).

Definition RestoreProviderWithClient (state : string) (hasClient : bool) (ts : TailscaleSettings)
    (opts : list Option) : M droplet_sig unit Provider :=
  if negb hasClient then throw (ENew "a valid digital ocean client must be passed when restoring the provider")
  else
    let* k := lift_res (Unmarshal state) in
    retM (foldl apply_option (unpack k ts) opts).

Definition RestoreProvider (state token : string) (ts : TailscaleSettings) (opts : list Option)
    : M droplet_sig unit Provider :=
  if String.eqb token "" then throw (ENew "a non-empty token must be passed when restoring a DigitalOcean provider")
  else RestoreProviderWithClient state true ts opts.

Definition SerializeTask (t : ptr) : DOM string := let* s := GetState t in lift_res (MarshalTask s).

Definition initializeDeserializedTask (t : ptr) : DOM unit :=
  let* taskState := GetState t in
  let* override := getDockerClientOverride (ts_Name taskState) in
  match override with
  | Some d => set_dockerClient t d
  | None =>
      let* ip := GetIP t in
      let* _ := ask (NewClient ip) in
      set_dockerClient t (Remote ip)
  end.

(** The task has a state of its own, not the provider's. *)
Definition DeserializeTask (bz : string) : DOM ptr :=
  let* taskState := lift_res (UnmarshalTask bz) in
  let* t := new_task {| t_state := taskState; t_dockerClient := None; t_sshClient := None |} in
  let* _ := initializeDeserializedTask t in
  retM t.
End json.
End provider.

(** ** The droplet of a task *)

(** The droplet asked for: its tag and name, and the region, size and image
    of the configuration. *)
Definition droplet_for (p : Provider) (definition : TaskDefinition) (req : DropletCreateRequest) : Prop :=
  let config := default ∅ (ProviderSpecificConfig definition) in
  DigitalOceanTaskConfig_ValidateBasic config = Ok tt /\
  exists image commands, ParseInt (lookup_str config "image_id") = Some image /\
    req = droplet_request (p_state p) config definition image commands.

Lemma CreateDroplet_asks {R : MapRange} MarshalTelemetry definition p tr
    (Q : list (event droplet_sig) -> Provider -> outcome Droplet -> Prop) :
  (forall o, is_ok o = false -> Q tr p o) ->
  (forall req r, droplet_for p definition req ->
     Q (tr ++ [ev (Do (DOClient.CreateDroplet req)) r]) p (match r with inl d => Ok d | inr e => Err e end)) ->
  wpM (CreateDroplet MarshalTelemetry definition) p Q tr.
Proof.
  intros Hfail Hask. unfold CreateDroplet. do 3 wpM_step.
  destruct (TaskDefinition_ValidateBasic definition) as [[]|e|m|]; cbn [wrap_outcome]; [|by apply Hfail..].
  cbn beta iota. set (config := default ∅ (ProviderSpecificConfig definition)). cbv zeta.
  do 3 wpM_step. destruct (DigitalOceanTaskConfig_ValidateBasic config) as [[]|e|m|] eqn:Hc; cbn [wrap_outcome];
    [|by apply Hfail..]. cbn beta iota.
  destruct (ParseInt (lookup_str config "image_id")) as [image|] eqn:Himage; [|wpM_step; by apply Hfail].
  do 2 wpM_step. cbn beta iota zeta.
  assert (Hcreate : forall cmds, wpM (ask (Do (DOClient.CreateDroplet
    (droplet_request (p_state p) config definition image cmds)))) p Q tr).
  { intros cmds. do 2 wpM_step. cbn beta iota.
    assert (Hreq : droplet_for p definition (droplet_request (p_state p) config definition image cmds))
      by (split; [done|]; by exists image, cmds).
    destruct x as [d|e]; cbn [lift_res]; wpM_step; [apply (Hask _ (inl d) Hreq)|apply (Hask _ (inr e) Hreq)]. }
  wpM_step. destruct (telemetrySettings p) as [te|]; [|wpM_step; apply Hcreate].
  wpM_step. destruct (TelemetrySettings_GetCommand _ _ _ _) as [cmds|e]; cbn [lift_res]; wpM_step; cbn [wrap_outcome];
    [apply Hcreate|by apply Hfail].
Qed.

(** ** Restoring *)
Section restoring.
Context {R : MapRange}.

Lemma droplet_pack_at p id :
  pk_Tasks (pack p) !! id = TaskStates (p_state p) !! id ≫= fun t => t_state <$> heap p !! t.
Proof. unfold pack. simpl. by rewrite lookup_omap. Qed.

Lemma unpack_fields k ts :
  let p := unpack k ts in
  ps_Name (p_state p) = pk_Name k /\ PetriTag (p_state p) = pk_PetriTag k /\
  FirewallID (p_state p) = pk_FirewallID k /\ DomainIDs (p_state p) = pk_DomainIDs k /\ domain p = "".
Proof. unfold unpack. by destruct (unpack_tasks _ _) as [[m h] n]. Qed.

Lemma droplet_unpack_at k ts id s :
  (exists t, TaskStates (p_state (unpack k ts)) !! id = Some t /\ t_state <$> heap (unpack k ts) !! t = Some s) <->
  pk_Tasks k !! id = Some s.
Proof.
  unfold unpack. destruct (unpack_tasks (range_map (pk_Tasks k)) O) as [[m h] n] eqn:Hun. simpl.
  destruct (unpack_tasks_spec _ _ _ _ _ (range_map_keys _) Hun) as (_ & Hm & Ht & _).
  rewrite <- elem_of_range_map. split.
  - intros (t & Hid & Hs). destruct (Hm _ _ Hid) as (s0 & Hin & Hs0 & _).
    rewrite lookup_fmap, Hs0 in Hs. simpl in Hs. by injection Hs as <-.
  - intros Hin. destruct (Ht _ _ Hin) as (t & Hid & Hs). exists t. split; [done|]. by rewrite lookup_fmap, Hs.
Qed.

Lemma unpack_cell k ts id t :
  TaskStates (p_state (unpack k ts)) !! id = Some t -> is_Some (heap (unpack k ts) !! t).
Proof.
  unfold unpack. destruct (unpack_tasks (range_map (pk_Tasks k)) O) as [[m h] n] eqn:Hun. simpl.
  destruct (unpack_tasks_spec _ _ _ _ _ (range_map_keys _) Hun) as (_ & Hm & _).
  intros Hid. destruct (Hm _ _ Hid) as (s & _ & Hs & _). rewrite lookup_fmap, Hs. by eexists.
Qed.

Lemma unpack_fresh k ts t : is_Some (heap (unpack k ts) !! t) -> (t < next_ptr (unpack k ts))%nat.
Proof.
  unfold unpack. destruct (unpack_tasks (range_map (pk_Tasks k)) O) as [[m h] n] eqn:Hun. simpl.
  destruct (unpack_tasks_spec _ _ _ _ _ (range_map_keys _) Hun) as (_ & _ & _ & Hh).
  rewrite lookup_fmap, fmap_is_Some. intros Hs. by apply Hh.
Qed.

Lemma droplet_pack_unpack k ts : pack (unpack k ts) = k.
Proof.
  destruct (unpack_fields k ts) as (Hn & Ht & Hf & Hd & _).
  assert (Htasks : pk_Tasks (pack (unpack k ts)) = pk_Tasks k).
  { apply map_eq. intros id. apply option_eq. intros s. rewrite droplet_pack_at, <- (droplet_unpack_at k ts), bind_Some. done. }
  revert Htasks. unfold pack. rewrite Hn, Ht, Hf, Hd. cbn [pk_Tasks]. intros ->. by destruct k.
Qed.
End restoring.
