(* ===== verification/DOResources.v ===== *)
(** * What a DigitalOcean provider leaves behind

    The resources alive at DigitalOcean are read off the trace: those whose
    creation was answered, less those whose deletion was.  A provider
    accounts for them when its tag, its firewall and its records are the
    ones alive and every droplet alive carries its tag; it lists them when
    every droplet alive is one of its tasks. *)

From S2P Require Import Prelude GoStrings GoVal ProviderDefs Util TaskHeap DockerVolume DOClient DOTask DOProvider.

(** ** Resources *)
Record resources := {
  r_droplets : gmap Z (list string);             (* with their tags *)
  r_firewalls : gset string;
  r_tags : gset string;
  r_records : gset (string * Z)
}.

Definition no_resources : resources :=
  {| r_droplets := ∅; r_firewalls := ∅; r_tags := ∅; r_records := ∅ |}.

Definition on_droplets (f : gmap Z (list string) -> gmap Z (list string)) (r : resources) : resources :=
  {| r_droplets := f (r_droplets r); r_firewalls := r_firewalls r; r_tags := r_tags r; r_records := r_records r |}.
Definition on_firewalls (f : gset string -> gset string) (r : resources) : resources :=
  {| r_droplets := r_droplets r; r_firewalls := f (r_firewalls r); r_tags := r_tags r; r_records := r_records r |}.
Definition on_tags (f : gset string -> gset string) (r : resources) : resources :=
  {| r_droplets := r_droplets r; r_firewalls := r_firewalls r; r_tags := f (r_tags r); r_records := r_records r |}.
Definition on_records (f : gset (string * Z) -> gset (string * Z)) (r : resources) : resources :=
  {| r_droplets := r_droplets r; r_firewalls := r_firewalls r; r_tags := r_tags r; r_records := f (r_records r) |}.

Definition when_ok {A} (x : res A) (f : A -> resources -> resources) (r : resources) : resources :=
  match x with inl a => f a r | inr _ => r end.

(** A firewall the API does not find is gone. *)
Definition track_call (r : resources) (c : do_call) : do_ans c -> resources :=
  match c return do_ans c -> resources with
  | DOClient.CreateDroplet req => fun x => when_ok x (fun d => on_droplets <[d_ID d := dr_Tags req]>) r
  | DeleteDropletByID id => fun x => when_ok x (fun _ => on_droplets (delete id)) r
  | DeleteDropletByTag tag => fun x => when_ok x (fun _ => on_droplets (filter (fun '(_, tags) => tag ∉ tags))) r
  | CreateFirewall _ => fun x => when_ok x (fun f => on_firewalls (union {[f_ID f]})) r
  | GetFirewall id => fun x =>
      match x with
      | inr e => if errors_Is XResourceNotFound e then on_firewalls (fun s => s ∖ {[id]}) r else r
      | inl _ => r
      end
  | DeleteFirewall id => fun x => when_ok x (fun _ => on_firewalls (fun s => s ∖ {[id]})) r
  | CreateTag tag => fun x => when_ok x (fun _ => on_tags (union {[tag]})) r
  | DeleteTag tag => fun x => when_ok x (fun _ => on_tags (fun s => s ∖ {[tag]})) r
  | CreateDomain root _ => fun x => when_ok x (fun id => on_records (union {[(root, id)]})) r
  | DeleteDomain root id => fun x => when_ok x (fun _ => on_records (fun s => s ∖ {[(root, id)]})) r
  | _ => fun _ => r
  end.

Definition track (r : resources) (e : event droplet_sig) : resources :=
  let '(existT c x) := e in
  match c return droplet_ans c -> resources with
  | Do c => track_call r c
  | _ => fun _ => r
  end x.

Definition live (t : list (event droplet_sig)) : resources := foldl track no_resources t.

Lemma live_snoc t e : live (t ++ [e]) = track (live t) e.
Proof. unfold live. by rewrite foldl_app. Qed.

(** The API answers the droplet that was asked for. *)
Definition right_droplet (e : event droplet_sig) : Prop :=
  let '(existT c x) := e in
  match c return droplet_ans c -> Prop with
  | Do (GetDroplet id) => fun x => forall d, x = inl d -> d_ID d = id
  | _ => fun _ => True
  end x.

(** Every recorded task has a live cell under its own identifier. *)
Record valid_provider (p : Provider) : Prop := {
  vp_tasks : forall id t, TaskStates (p_state p) !! id = Some t ->
    exists c, heap p !! t = Some c /\ ts_ID (t_state c) = id;
  vp_fresh : forall t, is_Some (heap p !! t) -> (t < next_ptr p)%nat
}.

(** [root] is the domain the deployment uses, if any. *)
Record accounted (root : string) (p : Provider) (r : resources) : Prop := {
  ac_tags : forall id tags, r_droplets r !! id = Some tags -> tags = [PetriTag (p_state p)];
  ac_firewall : r_firewalls r ⊆ {[FirewallID (p_state p)]};
  ac_tag : r_tags r ⊆ {[PetriTag (p_state p)]};
  ac_records : forall d id, (d, id) ∈ r_records r -> d = root /\ id ∈ DomainIDs (p_state p);
  ac_domain : domain p = root \/ domain p = ""
}.

(** Every droplet alive is one of the provider's tasks. *)
Definition listed (p : Provider) (r : resources) : Prop :=
  forall id, is_Some (r_droplets r !! id) -> is_Some (TaskStates (p_state p) !! itoa id).

(** The invariant of a run. *)
Definition sound (root : string) (t : list (event droplet_sig)) (p : Provider) : Prop :=
  valid_provider p /\ accounted root p (live t) /\ (Forall right_droplet t -> listed p (live t)).

(** ** Lemmas *)
Section accounts.
Context {R : MapRange} (root : string).
Variable path_Join : string -> string -> string.
Variable path_Dir : string -> string.
Variable MarshalTelemetry : TelemetryConfig -> res string.

(** Fewer resources, and the same account. *)
Record fewer (r' r : resources) : Prop := {
  fw_droplets : r_droplets r' ⊆ r_droplets r;
  fw_firewalls : r_firewalls r' ⊆ r_firewalls r;
  fw_tags : r_tags r' ⊆ r_tags r;
  fw_records : r_records r' ⊆ r_records r
}.

Lemma fewer_refl r : fewer r r.
Proof. by split. Qed.

Lemma accounted_fewer p r r' : accounted root p r -> fewer r' r -> accounted root p r'.
Proof.
  intros [H1 H3 H4 H5 H6] [F1 F2 F3 F4]. split; [..|done].
  - intros id tags Hid. eapply H1, lookup_weaken; eauto.
  - set_solver.
  - set_solver.
  - intros d id Hid. apply H5. set_solver.
Qed.

Lemma listed_fewer p r r' : listed p r -> fewer r' r -> listed p r'.
Proof. intros Hl Hf id [tags Hid]. apply Hl. exists tags. eapply lookup_weaken; [done|apply Hf]. Qed.

Lemma sound_fewer t s e :
  sound root t s -> fewer (track (live t) e) (live t) -> sound root (t ++ [e]) s.
Proof.
  intros (Hv & Ha & Hl) Hf. rewrite <- live_snoc in Hf. split; [done|]. split; [by eapply accounted_fewer|].
  intros [Ht _]%Forall_app. by eapply listed_fewer; [apply Hl|].
Qed.

(** Calls that make no resource. *)
Definition makes_nothing (c : droplet_call) : Prop := forall r x, fewer (track r (ev c x)) r.

Lemma makes_nothing_sound c : makes_nothing c -> preserves (sound root) (perform (S := Provider) c).
Proof. intros Hc. apply preserves_perform. intros t s x Hs. by apply sound_fewer. Qed.

Lemma makes_nothing_quiet c : (forall r x, track r (ev c x) = r) -> makes_nothing c.
Proof. intros Hc r x. rewrite Hc. apply fewer_refl. Qed.

Lemma makes_nothing_DeleteDropletByID id : makes_nothing (Do (DeleteDropletByID id)).
Proof. intros r [[]|e]; [|apply fewer_refl]. split; [apply delete_subseteq|done..]. Qed.

Lemma makes_nothing_DeleteDropletByTag tag : makes_nothing (Do (DeleteDropletByTag tag)).
Proof. intros r [[]|e]; [|apply fewer_refl]. split; [apply map_filter_subseteq|done..]. Qed.

Lemma makes_nothing_GetFirewall id : makes_nothing (Do (GetFirewall id)).
Proof.
  intros r [f|e]; [apply fewer_refl|]. unfold ev. cbn. destruct (errors_Is _ e); [|apply fewer_refl].
  split; [done|simpl; set_solver|done..].
Qed.

Lemma makes_nothing_DeleteFirewall id : makes_nothing (Do (DeleteFirewall id)).
Proof. intros r [[]|e]; [|apply fewer_refl]. split; [done|simpl; set_solver|done..]. Qed.

Lemma makes_nothing_DeleteTag tag : makes_nothing (Do (DeleteTag tag)).
Proof. intros r [[]|e]; [|apply fewer_refl]. split; [done|done|simpl; set_solver|done]. Qed.

Lemma makes_nothing_DeleteDomain d id : makes_nothing (Do (DeleteDomain d id)).
Proof. intros r [[]|e]; [|apply fewer_refl]. split; [done..|simpl; set_solver]. Qed.

Hint Resolve makes_nothing_sound makes_nothing_DeleteDropletByID makes_nothing_DeleteDropletByTag
  makes_nothing_GetFirewall makes_nothing_DeleteFirewall makes_nothing_DeleteTag makes_nothing_DeleteDomain : ironbird.
Hint Extern 2 (makes_nothing _) => apply makes_nothing_quiet; intros; reflexivity : ironbird.
Hint Extern 1 (preserves _ (perform _)) => apply makes_nothing_sound : ironbird.

(** *** Changes of the heap *)
Definition with_clients (c c' : Task) : Prop := ts_ID (t_state c') = ts_ID (t_state c).

Lemma sound_alter f t p tr :
  (forall c, with_clients c (f c)) -> sound root tr p ->
  sound root tr (set_heap (alter f t (heap p)) (next_ptr p) p).
Proof.
  intros Hf ([Ht Hn] & Ha & Hl). split; [|split; [by destruct Ha|done]].
  assert (Hlook : forall t' c', alter f t (heap p) !! t' = Some c' ->
    exists c, heap p !! t' = Some c /\ ts_ID (t_state c') = ts_ID (t_state c)).
  { intros t' c'. destruct (decide (t = t')) as [<-|Hne].
    - rewrite lookup_alter_eq. intros (c & Hc & ->)%fmap_Some. exists c. split; [done|apply Hf].
    - rewrite lookup_alter_ne by done. by exists c'. }
  split; simpl.
  - intros id t' Hid. destruct (Ht _ _ Hid) as (c & Hc & <-).
    destruct (alter f t (heap p) !! t') as [c'|] eqn:Hc'.
    + exists c'. split; [done|]. destruct (Hlook _ _ Hc') as (c0 & Hc0 & ->). congruence.
    + exfalso. destruct (decide (t = t')) as [<-|Hne].
      * rewrite lookup_alter_eq, Hc in Hc'. done.
      * rewrite lookup_alter_ne in Hc' by done. congruence.
  - intros t' [c' Hc']. destruct (Hlook _ _ Hc') as (c & Hc & _). eauto.
Qed.

Lemma set_Status_sound t status : preserves (sound root) (set_Status t status).
Proof. apply preserves_modify. intros tr s Hs. apply sound_alter; [|done]. intros c. done. Qed.

Lemma set_dockerClient_sound t d : preserves (sound root) (set_dockerClient t d).
Proof. apply preserves_modify. intros tr s Hs. apply sound_alter; [|done]. intros c. done. Qed.

Lemma valid_fresh p : valid_provider p -> heap p !! next_ptr p = None.
Proof.
  intros Hp. destruct (heap p !! next_ptr p) as [c|] eqn:Hc; [|done].
  pose proof (vp_fresh _ Hp _ ltac:(eauto)). lia.
Qed.

Definition with_cell (c : Task) (p : Provider) : Provider :=
  set_heap (<[next_ptr p := c]> (heap p)) (S (next_ptr p)) p.

Lemma valid_with_cell c p : valid_provider p -> valid_provider (with_cell c p).
Proof.
  intros Hp. pose proof (valid_fresh p Hp) as Hnone. destruct Hp as [Ht Hn]. split; simpl.
  - intros id t Hid. destruct (Ht _ _ Hid) as (c' & Hc' & Heq). exists c'. split; [|done].
    rewrite lookup_insert_ne; [done|congruence].
  - intros t. destruct (decide (t = next_ptr p)) as [->|Hne]; [lia|].
    rewrite lookup_insert_ne by done. intros Hc. pose proof (Hn t Hc). lia.
Qed.

Lemma new_task_sound c : preserves (sound root) (new_task c).
Proof.
  intros p t (Hv & Ha & Hl). unfold new_task. repeat wpM_step.
  split; [by apply valid_with_cell|]. split; [by destruct Ha|done].
Qed.

Hint Resolve set_Status_sound set_dockerClient_sound new_task_sound : ironbird.
Hint Extern 1 (preserves _ nil_deref) => apply preserves_panic : ironbird.

(** *** The operations of a task *)
Lemma cell_sound t : preserves (sound root) (cell t).
Proof. unfold cell. preserves_go. Qed.
Hint Resolve cell_sound : ironbird.

Lemma GetState_sound t : preserves (sound root) (GetState t).
Proof. unfold GetState. preserves_go. Qed.
Lemma dockerClient_sound t : preserves (sound root) (dockerClient t).
Proof. unfold dockerClient. preserves_go. Qed.
Lemma getDockerClientOverride_sound name : preserves (sound root) (getDockerClientOverride name).
Proof. unfold getDockerClientOverride. preserves_go. Qed.
Hint Resolve GetState_sound dockerClient_sound getDockerClientOverride_sound : ironbird.

Lemma getTailscalePeer_sound t : preserves (sound root) (getTailscalePeer t).
Proof. unfold getTailscalePeer. preserves_go. Qed.
Hint Resolve getTailscalePeer_sound : ironbird.
Lemma GetIP_sound t : preserves (sound root) (GetIP t).
Proof. unfold GetIP, getTailscaleIp. preserves_go. Qed.
Lemma task_GetDroplet_sound t : preserves (sound root) (task_GetDroplet t).
Proof. unfold task_GetDroplet. preserves_go. Qed.
Hint Resolve GetIP_sound task_GetDroplet_sound : ironbird.

Lemma WaitForCondition_sound fuel timeout fn :
  preserves (sound root) fn -> preserves (sound root) (WaitForCondition fuel (perform WaitDone) timeout fn).
Proof. intros Hfn. unfold WaitForCondition, wait_round. preserves_go. Qed.
Hint Resolve WaitForCondition_sound : ironbird.

Lemma docker_ready_sound t : preserves (sound root) (docker_ready t).
Proof. unfold docker_ready. preserves_go. Qed.
Hint Resolve docker_ready_sound : ironbird.
Lemma waitForDockerStart_sound fuel t : preserves (sound root) (waitForDockerStart fuel t).
Proof. unfold waitForDockerStart. preserves_go. Qed.
Lemma find_container_sound t : preserves (sound root) (find_container t).
Proof. unfold find_container. preserves_go. Qed.
Hint Resolve waitForDockerStart_sound find_container_sound : ironbird.
Lemma GetStatus_sound t : preserves (sound root) (GetStatus t).
Proof. unfold GetStatus. preserves_go. Qed.
Hint Resolve GetStatus_sound : ironbird.
Lemma Start_sound fuel t : preserves (sound root) (Start fuel t).
Proof. unfold Start. preserves_go. apply WaitForCondition_sound. preserves_go. Qed.
Lemma Stop_sound t : preserves (sound root) (Stop t).
Proof. unfold Stop. preserves_go. Qed.
Hint Resolve Start_sound Stop_sound : ironbird.

Lemma getDropletSSHClient_sound t : preserves (sound root) (getDropletSSHClient t).
Proof. unfold getDropletSSHClient. preserves_go. Qed.
Hint Resolve getDropletSSHClient_sound : ironbird.
Lemma with_sftp_sound {A} t (f : nat -> DOM A) :
  (forall c, preserves (sound root) (f c)) -> preserves (sound root) (with_sftp t f).
Proof. intros Hf. unfold with_sftp. preserves_go. Qed.
Lemma WriteFile_sound t path content : preserves (sound root) (WriteFile path_Join path_Dir t path content).
Proof. apply with_sftp_sound. intros c. preserves_go. Qed.
Lemma ReadFile_sound t path : preserves (sound root) (ReadFile path_Join t path).
Proof. apply with_sftp_sound. intros c. preserves_go. Qed.

Lemma exec_in_sound fuel client id cmd : preserves (sound root) (exec_in fuel client id cmd).
Proof. unfold exec_in, waitForExec. preserves_go. Qed.
Lemma RandomString_sound n : preserves (sound root) (RandomString (perform RandLetter) n).
Proof. induction n as [|n IH]; cbn [RandomString]; preserves_go. Qed.
Hint Resolve exec_in_sound RandomString_sound : ironbird.
Lemma RunCommand_sound fuel t cmd : preserves (sound root) (RunCommand fuel t cmd).
Proof.
  unfold RunCommand, runCommand, runCommandWhileStopped, startContainerWithBlock, remove_executor. preserves_go.
Qed.

(** *** Destroying a task *)
Lemma removeTask_valid id p : valid_provider p -> valid_provider (set_TaskStates (delete id (TaskStates (p_state p))) p).
Proof. intros [Ht Hn]. split; simpl; [|done]. intros id' t [_ Hid]%lookup_delete_Some. by apply Ht. Qed.

Lemma GetState_run t p tr (Q : list (event droplet_sig) -> Provider -> outcome TaskState -> Prop) :
  (forall c, heap p !! t = Some c -> Q tr p (Ok (t_state c))) ->
  (forall msg, Q tr p (Panic msg)) ->
  wpM (GetState t) p Q tr.
Proof.
  intros Hok Hnil. unfold GetState, cell. repeat wpM_step; [|by apply Hnil]. by apply Hok.
Qed.

(** Deleting a droplet, then forgetting the task of that number. *)
Lemma listed_delete p r n id :
  listed p r -> ParseInt id = Some n ->
  listed (set_TaskStates (delete id (TaskStates (p_state p))) p) (on_droplets (delete n) r).
Proof.
  intros Hl Hid k [tags Hk]. simpl in Hk. apply lookup_delete_Some in Hk as [Hne Hk]. simpl. rewrite lookup_delete_ne.
  - apply Hl. by exists tags.
  - intros ->. apply Hne. by apply ParseInt_itoa_inv.
Qed.

Lemma Destroy_sound t : preserves (sound root) (Destroy t).
Proof.
  unfold Destroy. apply preserves_bind; [auto with ironbird|]. intros client.
  apply preserves_defer; [auto with ironbird|]. intros p tr Hs. unfold deleteDroplet, task_GetDroplet.
  wpM_step. wpM_step. wpM_step. apply GetState_run; [|done]. intros c Hc. cbn beta iota.
  destruct (ParseInt (ts_ID (t_state c))) as [n|] eqn:Hn; [|by wpM_step].
  do 2 wpM_step. assert (Hs1 : forall x, sound root (tr ++ [ev (Do (GetDroplet n)) x]) p).
  { intros x0. apply sound_fewer; [done|]. apply fewer_refl. }
  cbn beta iota. destruct x as [d|e]; cbn [lift_res]; wpM_step; [|apply Hs1]. do 2 wpM_step. cbn beta iota.
  destruct x as [[]|e]; cbn [lift_res]; wpM_step; cbn beta iota;
    [|apply sound_fewer; [apply Hs1|apply makes_nothing_DeleteDropletByID]].
  wpM_step. apply GetState_run; [|intros msg; apply sound_fewer; [apply Hs1|apply makes_nothing_DeleteDropletByID]].
  intros c' Hc'. cbn beta iota. replace c' with c by congruence. unfold removeTask. wpM_step.
  pose proof (sound_fewer _ _ (ev (Do (DeleteDropletByID (d_ID d))) (inl tt)) (Hs1 (inl d))
    (makes_nothing_DeleteDropletByID _ _ _)) as (Hv & Ha & _).
  split; [by apply removeTask_valid|]. split; [by destruct Ha|].
  intros [[Hr Hd]%Forall_app _]%Forall_app. rewrite !live_snoc.
  apply Forall_inv in Hd. specialize (Hd d eq_refl). cbn [track ev track_call when_ok]. rewrite Hd.
  apply listed_delete; [by apply Hs|done].
Qed.

(** *** Creating tasks and records *)
Lemma setup_task_sound fuel t state taskState doConfig definition :
  preserves (sound root) (setup_task fuel t state taskState doConfig definition).
Proof.
  assert (Hpull : forall n client img auth err, preserves (sound root) (pull_image n client img auth err)).
  { intros n client img auth. induction n as [|n IH]; intros err; cbn [pull_image]; preserves_go. }
  unfold setup_task, peer_found, ensure_image, create_container. preserves_go.
  all: apply WaitForCondition_sound; preserves_go.
Qed.

Lemma CreateTask_sound fuel definition : preserves (sound root) (CreateTask MarshalTelemetry fuel definition).
Proof.
  unfold CreateTask. apply preserves_bind; [auto using preserves_wrap with ironbird|]. intros _.
  destruct (ProviderSpecificConfig definition) as [config|]; [|auto with ironbird].
  apply preserves_bind; [auto using preserves_wrap with ironbird|]. intros _ p tr Hs.
  wpM_step. apply CreateDroplet_asks; [by intros []|]. intros req [d|e] (_ & image & commands & _ & ->);
    cbn beta iota; [|apply sound_fewer; [done|apply fewer_refl]]. destruct Hs as (Hv & Ha & Hl).
  do 2 wpM_step. cbn beta iota zeta. unfold new_task, record_task. do 8 wpM_step. cbn beta iota.
  apply setup_task_sound. split.
  - pose proof (valid_with_cell {| t_state := task_record (p_state p) definition d; t_dockerClient := None;
      t_sshClient := None |} p Hv) as [Ht Hn].
    split; simpl; [|apply Hn]. intros id t [[<- <-]|[Hne Hid]]%lookup_insert_Some; [|by apply Ht].
    rewrite lookup_insert_eq. by eexists.
  - destruct Ha as [H1 H3 H4 H5 H6]. rewrite live_snoc. cbn [track ev track_call when_ok]. split; [split; simpl; try done|].
    + intros id tags [[_ <-]|[_ Hid]]%lookup_insert_Some; [done|by eapply H1].
    + intros [Hr _]%Forall_app id [tags Hid]. simpl in Hid |- *. apply lookup_insert_Some in Hid as [[<- _]|[Hne Hid]].
      { rewrite lookup_insert_eq. by eexists. }
      rewrite lookup_insert_ne by (intros ?%(inj itoa); done). apply Hl; [done|]. by exists tags.
Qed.

Lemma CreateDomains_sound domains : root <> "" -> preserves (sound root) (CreateDomains domains).
Proof.
  intros Hroot p tr Hs. unfold CreateDomains. wpM_step. wpM_step. cbn beta iota.
  destruct (String.eqb_spec (domain p) "") as [He|Hne]; [by wpM_step|].
  apply (wpM_for_each (fun _ t q => sound root t q /\ domain q = domain p)); [done|by intros t q []|].
  clear tr Hs. intros [name ip] l tr q [Hs Hdom]. unfold create_domain. do 4 wpM_step. cbn beta iota.
  destruct x as [id|e]; cbn [lift_res]; wpM_step; cbn [wrap_outcome]; cbn beta iota;
    [|apply sound_fewer; [done|apply fewer_refl]].
  wpM_step. split; [|done]. destruct Hs as ([Ht Hn] & Ha & Hl). split; [by split|]. rewrite live_snoc.
  cbn [track ev track_call when_ok]. destruct Ha as [H1 H3 H4 H5 H6].
  split; [split; simpl; try done|by intros [Hr _]%Forall_app; apply Hl].
  intros d i [[= -> ->]%elem_of_singleton|Hin]%elem_of_union.
  - rewrite <- Hdom in Hne |- *. destruct H6; [|done]. split; [done|]. apply elem_of_app. right. by left.
  - destruct (H5 d i Hin). split; [done|]. apply elem_of_app. by left.
Qed.

(** ** Teardown *)
Definition records_without (root : string) (ids : list Z) (s : gset (string * Z)) : gset (string * Z) :=
  foldl (fun s id => s ∖ {[(root, id)]}) s ids.

Lemma elem_of_records_without d ids s x :
  x ∈ records_without d ids s <-> x ∈ s /\ forall id, id ∈ ids -> x <> (d, id).
Proof.
  revert s. induction ids as [|id ids IH]; intros s; unfold records_without in *; cbn [foldl]; [set_solver|].
  rewrite IH. set_solver.
Qed.

Lemma resources_eq r r' :
  r_droplets r = r_droplets r' -> r_firewalls r = r_firewalls r' -> r_tags r = r_tags r' ->
  r_records r = r_records r' -> r = r'.
Proof. destruct r, r'. simpl. by intros -> -> -> ->. Qed.

(** The calls of a teardown name the provider's own resources. *)
Definition own_call (p : Provider) (e : event droplet_sig) : Prop :=
  match projT1 e with
  | Do (DeleteDropletByTag tag) | Do (DeleteTag tag) => tag = PetriTag (p_state p)
  | Do (GetFirewall id) | Do (DeleteFirewall id) => id = FirewallID (p_state p)
  | Do (DeleteDomain d id) => d = domain p /\ id ∈ DomainIDs (p_state p)
  | _ => False
  end.

(** From the events [t] to [t'], only own calls, and fewer resources. *)
Definition deleting (p : Provider) (t t' : list (event droplet_sig)) : Prop :=
  fewer (live t') (live t) /\ exists l, t' = t ++ l /\ Forall (own_call p) l.

Lemma deleting_refl p t : deleting p t t.
Proof. split; [apply fewer_refl|]. exists []. by rewrite app_nil_r. Qed.

Lemma deleting_trans p t1 t2 t3 : deleting p t1 t2 -> deleting p t2 t3 -> deleting p t1 t3.
Proof.
  intros [[] (l & -> & Hl)] [[] (k & -> & Hk)]. split; [split; etrans; eauto|].
  exists (l ++ k). rewrite app_assoc. split; [done|]. by apply Forall_app.
Qed.

Lemma deleting_step p t c x : makes_nothing c -> own_call p (ev c x) -> deleting p t (t ++ [ev c x]).
Proof.
  intros Hc Hown. split; [rewrite live_snoc; apply Hc|]. exists [ev c x]. split; [done|]. by repeat constructor.
Qed.

Lemma accounted_deleting p t t' : accounted root p (live t) -> deleting p t t' -> accounted root p (live t').
Proof. intros Ha [Hf _]. by eapply accounted_fewer. Qed.

(** A loop that ends without an error has deleted every record. *)
Lemma delete_domains_run ids multiErr p tr :
  (forall id, id ∈ ids -> id ∈ DomainIDs (p_state p)) ->
  wpM (delete_domains (domain p) ids multiErr) p (fun t' p' o => p' = p /\ deleting p tr t' /\
    match o with
    | Ok None => multiErr = None /\ live t' = on_records (records_without (domain p) ids) (live tr)
    | Ok (Some _) => True
    | _ => False
    end) tr.
Proof.
  revert multiErr tr. induction ids as [|id ids IH]; intros multiErr tr Hids; cbn [delete_domains].
  { wpM_step. split; [done|]. split; [apply deleting_refl|]. destruct multiErr; [done|]. split; [done|].
    by apply resources_eq. }
  do 2 wpM_step. cbn beta iota. eapply wpM_mono; [|apply IH; intros k Hk; apply Hids; by right].
  intros t' p' o (-> & Hf & Ho). split; [done|]. split.
  - eapply deleting_trans; [apply deleting_step|done]; [auto with ironbird|]. split; [done|]. apply Hids. by left.
  - destruct o as [[e|]|e|m|]; [done| |done..]. destruct Ho as [Hm Hl].
    destruct x as [[]|e]; [|done]. split; [done|]. by rewrite Hl, live_snoc.
Qed.

(** [m] only deletes; when it succeeds [f] is what it deletes. *)
Definition clears (f : Provider -> resources -> resources) (m : DOM unit) : Prop :=
  forall p tr, accounted root p (live tr) ->
  wpM m p (fun t' p' o => p' = p /\ deleting p tr t' /\
    match o with Ok _ => live t' = f p (live tr) | Err _ => True | _ => False end) tr.

Lemma clears_bind f g m k : clears f m -> clears g k -> clears (fun p r => g p (f p r)) (let* _ := m in k).
Proof.
  intros Hm Hk p tr Ha. wpM_step. eapply wpM_mono; [|by apply Hm]. intros t' p' o (-> & Hf & Ho).
  destruct o as [u|e|msg|]; [|done..]. rewrite <- Ho.
  eapply wpM_mono; [|apply Hk; by eapply accounted_deleting]. intros t'' p'' o' (-> & Hf' & Ho').
  split; [done|]. split; [by eapply deleting_trans|done].
Qed.

Lemma teardownTasks_clears : clears (fun _ => on_droplets (fun _ => ∅)) teardownTasks.
Proof.
  intros p tr Ha. unfold teardownTasks. do 4 wpM_step. cbn beta iota.
  destruct x as [[]|e]; cbn [lift_res]; wpM_step; (split; [done|]);
    (split; [by apply deleting_step; [auto with ironbird|]|]); [|done].
  rewrite live_snoc. apply resources_eq; try done. simpl. apply map_empty. intros id.
  apply map_lookup_filter_None. right. intros tags Hid. rewrite (ac_tags _ _ _ Ha _ _ Hid). set_solver.
Qed.

Lemma teardownFirewall_clears : clears (fun _ => on_firewalls (fun _ => ∅)) teardownFirewall.
Proof.
  intros p tr Ha. unfold teardownFirewall. do 4 wpM_step. cbn beta iota.
  set (t1 := tr ++ _). assert (H1 : deleting p tr t1) by (by apply deleting_step; [auto with ironbird|]).
  pose proof (ac_firewall _ _ _ Ha) as Hfw.
  destruct (match x with inl _ => false | inr err => errors_Is XResourceNotFound err end) eqn:Hgone.
  - wpM_step. split; [done|]. split; [done|]. unfold t1. rewrite live_snoc. destruct x as [f|e]; [done|].
    unfold ev. cbn. rewrite Hgone. apply resources_eq; try done. simpl. set_solver.
  - do 2 wpM_step. cbn beta iota.
    destruct x0 as [[]|e]; cbn [lift_res]; wpM_step; (split; [done|]);
      (split; [by eapply deleting_trans; [done|]; apply deleting_step; [auto with ironbird|]|]); [|done].
    assert (Hsame : live t1 = live tr).
    { unfold t1. rewrite live_snoc. destruct x as [f|e]; [done|]. unfold ev. cbn. by rewrite Hgone. }
    rewrite live_snoc, Hsame. apply resources_eq; try done. simpl. set_solver.
Qed.

Lemma teardownTag_clears : clears (fun _ => on_tags (fun _ => ∅)) teardownTag.
Proof.
  intros p tr Ha. unfold teardownTag. do 4 wpM_step. cbn beta iota.
  destruct x as [[]|e]; cbn [lift_res]; wpM_step; (split; [done|]);
    (split; [by apply deleting_step; [auto with ironbird|]|]); [|done].
  rewrite live_snoc. apply resources_eq; try done. simpl. pose proof (ac_tag _ _ _ Ha). set_solver.
Qed.

(** A provider that knows no domain leaves the records. *)
Lemma teardownDomains_clears :
  clears (fun p => on_records (fun s => if String.eqb (domain p) "" then s else ∅)) teardownDomains.
Proof.
  intros p tr Ha. unfold teardownDomains. do 2 wpM_step. cbn beta iota.
  destruct (String.eqb_spec (domain p) "") as [He|Hne].
  { wpM_step. split; [done|]. split; [apply deleting_refl|]. by apply resources_eq. }
  wpM_step. eapply wpM_mono; [|by apply delete_domains_run]. intros t' p' o (-> & Hf & Ho).
  destruct o as [[e|]|e|m|]; [by wpM_step| |done..]. destruct Ho as [_ Ho]. wpM_step.
  split; [done|]. split; [done|]. rewrite Ho. apply resources_eq; try done. simpl.
  apply leibniz_equiv. intros [d id]. rewrite elem_of_records_without. split; [|set_solver]. intros [Hin Hno].
  exfalso. destruct (ac_records _ _ _ Ha _ _ Hin) as [-> Hid]. apply (Hno id Hid). f_equal.
  destruct (ac_domain _ _ _ Ha); congruence.
Qed.

(** What is alive after a teardown: nothing, or the records when the
    provider knows no domain. *)
Definition leftover (p : Provider) (r : resources) : resources :=
  on_records (fun _ => if String.eqb (domain p) "" then r_records r else ∅) no_resources.

Lemma Teardown_clears : clears leftover Teardown.
Proof.
  pose proof (clears_bind _ _ _ _ teardownTasks_clears (clears_bind _ _ _ _ teardownFirewall_clears
    (clears_bind _ _ _ _ teardownTag_clears teardownDomains_clears))) as Hall.
  intros p tr Ha. eapply wpM_mono; [|exact (Hall p tr Ha)]. intros t' p' o (-> & Hf & Ho).
  split; [done|]. split; [done|]. destruct o; [|done..]. rewrite Ho. by apply resources_eq.
Qed.

(** ** Creation *)
Definition domain_of (d : string) (opts : list Option) : string :=
  foldl (fun d o => match o with WithDomain d' => d' | _ => d end) d opts.

Lemma apply_options opts p :
  let p' := foldl apply_option p opts in
  p_state p' = p_state p /\ heap p' = heap p /\ next_ptr p' = next_ptr p /\ domain p' = domain_of (domain p) opts.
Proof.
  revert p. induction opts as [|o opts IH]; intros p; [done|]. cbn [foldl domain_of].
  destruct (IH (apply_option p o)) as (-> & -> & -> & ->). by destruct o.
Qed.

(** The options name no domain but the deployment's. *)
Definition right_domain (opts : list Option) : Prop := domain_of "" opts = root \/ domain_of "" opts = "".

Lemma new_provider_fields name ts opts :
  let p := new_provider name ts opts in
  p_state p = {| TaskStates := ∅; ps_Name := name; PetriTag := "petri-" +:+ name; FirewallID := ""; DomainIDs := [] |} /\
  heap p = ∅ /\ domain p = domain_of "" opts.
Proof.
  unfold new_provider. match goal with |- context [foldl apply_option ?p0 opts] => pose proof (apply_options opts p0) as H end.
  cbv zeta in H |- *. by destruct H as (-> & -> & _ & ->).
Qed.

Lemma new_provider_sound name ts opts id tr :
  right_domain opts -> r_droplets (live tr) = ∅ -> r_firewalls (live tr) ⊆ {[id]} ->
  r_tags (live tr) ⊆ {["petri-" +:+ name]} -> r_records (live tr) = ∅ ->
  sound root tr (set_FirewallID id (new_provider name ts opts)).
Proof.
  intros Hopts Hd Hf Ht Hr. destruct (new_provider_fields name ts opts) as (Hs & Hh & Hdom).
  split; [|split].
  - split; simpl.
    + intros k t. rewrite Hs. simpl. by rewrite lookup_empty.
    + intros t. rewrite Hh. rewrite lookup_empty. by intros [].
  - split; simpl; rewrite ?Hs; simpl; try done.
    + intros k tags. by rewrite Hd, lookup_empty.
    + intros d k. rewrite Hr. set_solver.
    + rewrite Hdom. exact Hopts.
  - intros _ k. rewrite Hd, lookup_empty. by intros [].
Qed.

(** A provider that could not be created leaves at most its tag. *)
Lemma NewProviderWithClient_run name hasClient ts opts :
  right_domain opts ->
  wpM (NewProviderWithClient name hasClient ts opts) tt (fun t _ o =>
    match o with
    | Ok p => sound root t p
    | Err _ => live t = no_resources \/ live t = on_tags (union {["petri-" +:+ name]}) no_resources
    | _ => False
    end) [].
Proof.
  intros Hopts. unfold NewProviderWithClient. destruct hasClient; cbn [negb]; [|wpM_step; by left].
  do 3 wpM_step. destruct (TailscaleSettings_ValidateBasic_total ts) as [->|[e ->]]; cbn [wrap_outcome]; [|by left].
  cbv zeta. destruct (new_provider_fields name ts opts) as (Hs & Hh & Hdom).
  unfold createTag, createFirewall. rewrite Hs. cbn [PetriTag]. do 3 wpM_step. cbn beta iota.
  destruct x as [tag|e]; cbn [lift_res]; wpM_step; cbn beta iota; [|by left].
  do 5 wpM_step. cbn beta iota. rewrite Hs. cbn [PetriTag]. do 2 wpM_step. cbn beta iota.
  destruct x as [f|e]; cbn [lift_res]; wpM_step; cbn [wrap_outcome]; cbn beta iota; [|by right].
  wpM_step. apply new_provider_sound; [done|..]; rewrite ?live_snoc; simpl; set_solver.
Qed.

(** ** Restoring in the middle of a run *)
Section runs.
Variable Marshal : PackedProvider -> res string.
Variable Unmarshal : string -> res PackedProvider.
Variable UnmarshalTask : string -> res TaskState.
Hypothesis Unmarshal_Marshal : forall k text, Marshal k = inl text -> Unmarshal text = inl k.

(** An activity ends and another goes on from the serialized provider. *)
Definition reload (ts : TailscaleSettings) (opts : list Option) : DOM unit :=
  let* bz := SerializeProvider Marshal in
  let* p := scoped tt (RestoreProviderWithClient Unmarshal bz true ts opts) in
  put p.

Lemma restored_sound ts opts tr p :
  right_domain opts -> sound root tr p -> sound root tr (foldl apply_option (unpack (pack p) ts) opts).
Proof.
  intros Hopts ([Ht Hn] & Ha & Hl). destruct (unpack_fields (pack p) ts) as (_ & Htag & Hfw & Hids & Hdom).
  destruct (apply_options opts (unpack (pack p) ts)) as (Hs' & Hh' & Hn' & Hdom').
  assert (Hlook : forall id s, pk_Tasks (pack p) !! id = Some s -> ts_ID s = id).
  { intros id s. rewrite droplet_pack_at. intros (t & Hid & Hs)%bind_Some. destruct (Ht _ _ Hid) as (c & Hc & <-).
    rewrite Hc in Hs. simpl in Hs. by injection Hs as <-. }
  split; [|split].
  - split; rewrite ?Hs', ?Hh', ?Hn'; [|apply unpack_fresh].
    intros id t Hid. destruct (unpack_cell _ _ _ _ Hid) as [c Hc]. exists c. split; [done|].
    apply Hlook, (droplet_unpack_at (pack p) ts). exists t. by rewrite Hc.
  - destruct Ha as [H1 H3 H4 H5 H6]. split; rewrite ?Hs', ?Htag, ?Hfw, ?Hids, ?Hdom', ?Hdom; done.
  - intros Hr id Hid. rewrite Hs'. destruct (Hl Hr id Hid) as [t Hid']. destruct (Ht _ _ Hid') as (c & Hc & _).
    destruct (proj2 (droplet_unpack_at (pack p) ts (itoa id) (t_state c))) as (t' & Ht' & _); [|by eexists].
    rewrite droplet_pack_at, Hid'. simpl. by rewrite Hc.
Qed.

Lemma reload_sound ts opts : right_domain opts -> preserves (sound root) (reload ts opts).
Proof.
  intros Hopts p tr Hs. unfold reload, SerializeProvider. do 3 wpM_step. cbn beta iota.
  destruct (Marshal (pack p)) as [bz|e] eqn:Hbz; cbn [lift_res]; wpM_step; cbn beta iota; [|done].
  wpM_step. unfold RestoreProviderWithClient. cbn [negb]. rewrite (Unmarshal_Marshal _ _ Hbz). cbn [lift_res].
  do 4 wpM_step. wpM_step. by apply restored_sound.
Qed.

(** ** Runs of a provider *)
Inductive operation :=
| OCreateTask (definition : TaskDefinition)
| OCreateDomains (domains : gmap string string)
| ODeserializeTask (bz : string)
| OStart (t : ptr)
| OStop (t : ptr)
| ODestroy (t : ptr)
| OGetStatus (t : ptr)
| OGetIP (t : ptr)
| OWriteFile (t : ptr) (path content : string)
| OReadFile (t : ptr) (path : string)
| ORunCommand (t : ptr) (cmd : list string)
| OReload (ts : TailscaleSettings) (opts : list Option).

Definition ignore {A} (m : DOM A) : DOM unit := let* _ := try_ m in retM tt.

(** An operation, whatever it returns. *)
Definition run_operation (fuel : nat) (o : operation) : DOM unit :=
  match o with
  | OCreateTask definition => ignore (CreateTask MarshalTelemetry fuel definition)
  | OCreateDomains domains => ignore (CreateDomains domains)
  | ODeserializeTask bz => ignore (DeserializeTask UnmarshalTask bz)
  | OStart t => ignore (Start fuel t)
  | OStop t => ignore (Stop t)
  | ODestroy t => ignore (Destroy t)
  | OGetStatus t => ignore (GetStatus t)
  | OGetIP t => ignore (GetIP t)
  | OWriteFile t path content => ignore (WriteFile path_Join path_Dir t path content)
  | OReadFile t path => ignore (ReadFile path_Join t path)
  | ORunCommand t cmd => ignore (RunCommand fuel t cmd)
  | OReload ts opts => ignore (reload ts opts)
  end.

Definition right_operation (o : operation) : Prop :=
  match o with OReload _ opts => right_domain opts | _ => True end.

Lemma DeserializeTask_sound bz : preserves (sound root) (DeserializeTask UnmarshalTask bz).
Proof. unfold DeserializeTask, initializeDeserializedTask. preserves_go. Qed.

Lemma ignore_sound {A} (m : DOM A) : preserves (sound root) m -> preserves (sound root) (ignore m).
Proof. intros Hm. unfold ignore. preserves_go. Qed.

Lemma run_operation_sound fuel o :
  root <> "" -> right_operation o -> preserves (sound root) (run_operation fuel o).
Proof.
  intros Hroot Ho. destruct o; apply ignore_sound; auto using CreateTask_sound, CreateDomains_sound,
    DeserializeTask_sound, Start_sound, Stop_sound, Destroy_sound, GetStatus_sound, GetIP_sound, WriteFile_sound,
    ReadFile_sound, RunCommand_sound, reload_sound.
Qed.

Lemma run_operations_sound fuel ops :
  root <> "" -> Forall right_operation ops -> preserves (sound root) (for_each ops (run_operation fuel)).
Proof.
  intros Hroot Hops. apply preserves_for_each. intros o Ho. apply run_operation_sound; [done|].
  rewrite Forall_forall in Hops. auto.
Qed.

(** C33: a provider accounts for what it makes.  From its creation, through
    any operations in any order with any answers, failures, panics and
    restorations in other activities included, every droplet alive carries
    its tag and is one of its recorded tasks, and the firewall, the tag and
    the records alive are its own.  A teardown, at any point, names nothing
    but these; when it succeeds it leaves nothing alive, except, if the
    provider was restored without its domain, the domain records; when it
    fails, what is left is still accounted for.  A creation that fails
    leaves at most the tag. *)
Theorem provider_leaves_nothing (fuel : nat) (name : string) (hasClient : bool) (ts : TailscaleSettings)
    (opts : list Option) (ops : list operation) :
  root <> "" -> right_domain opts -> Forall right_operation ops ->
  wpM (NewProviderWithClient name hasClient ts opts) tt (fun t0 _ o =>
    match o with
    | Ok p0 =>
        wpM (for_each ops (run_operation fuel)) p0 (fun t1 p1 _ =>
          valid_provider p1 /\ accounted root p1 (live t1) /\ (Forall right_droplet t1 -> listed p1 (live t1)) /\
          wpM Teardown p1 (fun t2 p2 o2 =>
            p2 = p1 /\ deleting p1 t1 t2 /\
            match o2 with
            | Ok _ => live t2 = leftover p1 (live t1)
            | Err _ => accounted root p1 (live t2)
            | _ => False
            end) t1) t0
    | Err _ => live t0 = no_resources \/ live t0 = on_tags (union {["petri-" +:+ name]}) no_resources
    | _ => False
    end) [].
Proof.
  intros Hroot Hopts Hops. eapply wpM_mono; [|by apply NewProviderWithClient_run].
  intros t0 u [p0|e|msg|]; [|done..]. intros Hs0.
  eapply wpM_mono; [|by apply run_operations_sound]. intros t1 p1 _ (Hv & Ha & Hl).
  split; [done|]. split; [done|]. split; [done|].
  eapply wpM_mono; [|by apply Teardown_clears]. intros t2 p2 o2 (-> & Hf & Ho). split; [done|]. split; [done|].
  destruct o2; [done| |done..]. by eapply accounted_deleting.
Qed.
End runs.
End accounts.

(** ** A concrete run *)
#[export] Instance DOTaskState_eq_dec : EqDecision TaskState.
Proof. solve_decision. Defined.
#[export] Instance DOPackedProvider_eq_dec : EqDecision PackedProvider.
Proof. solve_decision. Defined.

Definition demo_definition : TaskDefinition :=
  {| td_Name := "validator-0"; td_Image := {| Image := "simapp"; UID := "1000"; GID := "1000" |};
     Ports := ["26656"]; Environment := {["HOME" := "/simd"]}; DataDir := "/simd"; Entrypoint := ["simd"];
     Command := ["start"]; Args := [];
     ProviderSpecificConfig := Some {["region" := "ams3"; "size" := "s-4vcpu-8gb"; "image_id" := "195881161"]} |}.

Definition demo_tailscale : TailscaleSettings :=
  {| AuthKey := "tskey"; Tags := ["ironbird-nodes"]; Server := true; LocalClient := true |}.

(** DigitalOcean, Tailscale and Docker doing what they are asked. *)
Definition demo_api (c : do_call) : do_value c :=
  match c return do_value c with
  | DOClient.CreateDroplet req => {| d_ID := 7; d_Name := dr_Name req; d_Status := "new";
      d_Tags := dr_Tags req; d_Created := ""; d_PrivateIPv4 := inl "10.0.0.7" |}
  | GetDroplet id => {| d_ID := id; d_Name := "petri-demo-validator-0"; d_Status := "active";
      d_Tags := ["petri-demo"]; d_Created := ""; d_PrivateIPv4 := inl "10.0.0.7" |}
  | ListDroplets _ => []
  | CreateFirewall req => {| f_ID := "fw1"; f_Name := fr_Name req |}
  | GetFirewall id => {| f_ID := id; f_Name := "petri-demo" |}
  | ListFirewalls _ => []
  | CreateDomain _ _ => 11
  | GetDomain _ id => id
  | CreateKey _ _ | GetKeyByFingerprint _ => "aa:bb"
  | CreateTag name => name
  | ListTags _ => []
  | _ => tt
  end.

Definition demo_cloud : handler droplet_sig unit := fun c _ =>
  (match c return droplet_ans c with
   | Do c => inl (demo_api c)
   | On _ c =>
       match c return docker_ans c with
       | NetworkCreate _ _ _ _ => inl "n1"
       | NetworkInspect id => inl {| net_ID := id; net_Name := "host"; net_Config := [] |}
       | VolumeInspect name => inl name
       | VolumeCreate name _ => inl name
       | ContainerCreate _ => inl "c1"
       | ContainerInspect _ => inl {| ci_Status := "running"; ci_Running := true; ci_ExitCode := 0;
                                      ci_Name_ := "/petri-demo-validator-0"; ci_Networks := ∅ |}
       | ContainerList _ => inl ["c1"]
       | ContainerWait _ => WaitExited None 0
       | ContainerLogs _ => inl ("", "")
       | ContainerExecCreate _ _ => inl "e1"
       | ContainerExecAttach _ => inl (inl ("", ""))
       | ContainerExecInspect _ => inl (false, 0)
       | CopyFromContainer _ _ => inl ([], None)
       | OpenListener => inl 40000
       | RandInt _ => 1
       | UnixNano => 0
       | CtxDone => None
       | LocalReadFile _ => inl ""
       | ImageInspect _ => inr (EExt XNotFound "no such image")
       | _ => inl tt
       end
   | TailscaleStatus => inl [{| HostName := "petri-demo-validator-0"; TailscaleIPs := [("fd7a::1", false); ("100.64.0.7", true)] |}]
   | SSHPing _ => inl true
   | SSHDial _ | SftpNewClient _ | SftpCreate _ _ => inl O
   | SftpReadFile _ _ => inl ""
   | NewClient _ | SftpMkdirAll _ _ | SftpWrite _ _ => inl tt
   | DockerClose _ | SSHClose _ | SftpClose _ | Sleep _ => tt
   | RandLetter => 0%fin
   | UnixTime => 1700000000
   | WaitDone => false
   | Tick => None
   end, tt).

Definition demo_fresh : Provider := set_FirewallID "fw1" (new_provider "demo" demo_tailscale [WithDomain "ib.dev"]).

Definition demo_operations : list operation :=
  [OCreateTask demo_definition; OCreateDomains {["rpc" := "100.64.0.7"]}; OStart O; ORunCommand O ["ls"]].

Definition demo_marshal_telemetry : TelemetryConfig -> res string := fun _ => inl "{}".

(** The provider once the operations have run, and its text. *)
Definition demo_run (ops : list operation) : Provider * bool * unit * list (event droplet_sig) :=
  let '(p, o, w, l) := runM demo_cloud (for_each ops (run_operation (R := canonical_range) (fun _ s => s) (fun s => s)
    demo_marshal_telemetry (fun _ => inr ErrorEmptyResponse) (fun _ => inr ErrorEmptyResponse)
    (fun _ => inr ErrorEmptyResponse) 3)) demo_fresh tt in
  (p, is_ok o, w, l).

Definition demo_packed : PackedProvider := pack (demo_run demo_operations).1.1.1.
Definition demo_Marshal (k : PackedProvider) : res string :=
  if decide (k = demo_packed) then inl "demo" else inr (ENew "not the demo").
Definition demo_Unmarshal (s : string) : res PackedProvider :=
  if String.eqb s "demo" then inl demo_packed else inr (ENew "not the demo").

Lemma demo_Unmarshal_Marshal k text : demo_Marshal k = inl text -> demo_Unmarshal text = inl k.
Proof. unfold demo_Marshal. case_decide; [|done]. by intros [= <-]; subst. Qed.

(** Created, used, restored by another activity, torn down. *)
Definition demo_session : M droplet_sig unit unit :=
  let* p := NewProviderWithClient "demo" true demo_tailscale [WithDomain "ib.dev"] in
  scoped p
    (let* _ := for_each (demo_operations ++ [OReload demo_tailscale [WithDomain "ib.dev"]])
       (run_operation (R := canonical_range) (fun _ s => s) (fun s => s) demo_marshal_telemetry demo_Marshal
          demo_Unmarshal (fun _ => inr ErrorEmptyResponse) 3) in
     Teardown).

Lemma provider_leaves_nothing_witness :
  (let '(_, o, _, l) := runM demo_cloud demo_session tt tt in
   (is_ok o, map_to_list (r_droplets (live (take 10 l))), live l)) = (true, [(7, ["petri-demo"])], no_resources) /\
  wpM (NewProviderWithClient "demo" true demo_tailscale [WithDomain "ib.dev"]) tt (fun t0 _ o =>
    match o with
    | Ok p0 =>
        wpM (for_each (demo_operations ++ [OReload demo_tailscale [WithDomain "ib.dev"]])
          (run_operation (R := canonical_range) (fun _ s => s) (fun s => s) demo_marshal_telemetry demo_Marshal
             demo_Unmarshal (fun _ => inr ErrorEmptyResponse) 3)) p0 (fun t1 p1 _ =>
          valid_provider p1 /\ accounted "ib.dev" p1 (live t1) /\ (Forall right_droplet t1 -> listed p1 (live t1)) /\
          wpM Teardown p1 (fun t2 p2 o2 =>
            p2 = p1 /\ deleting p1 t1 t2 /\
            match o2 with
            | Ok _ => live t2 = leftover p1 (live t1)
            | Err _ => accounted "ib.dev" p1 (live t2)
            | _ => False
            end) t1) t0
    | Err _ => live t0 = no_resources \/ live t0 = on_tags (union {["petri-demo"]}) no_resources
    | _ => False
    end) [].
Proof.
  split; [vm_compute; reflexivity|].
  apply (provider_leaves_nothing (R := canonical_range) "ib.dev" (fun _ s => s) (fun s => s) demo_marshal_telemetry
    demo_Marshal demo_Unmarshal (fun _ => inr ErrorEmptyResponse) demo_Unmarshal_Marshal 3 "demo" true demo_tailscale
    [WithDomain "ib.dev"]).
  - done.
  - by left.
  - repeat constructor.
Defined.
