(* ===== verification/DOLaunch.v ===== *)
(** * Launching droplet tasks and running commands in them

    What [CreateTask] has seen and recorded when it returns, that commands
    leave no helper container on a droplet, and what a teardown over the godo
    library does with a firewall that is gone. *)

From S2P Require Import Prelude GoStrings GoVal ProviderDefs Util TaskHeap DockerVolume DOClient DOTask DOProvider.
From S2P Require Import DOResources.

(** ** Helper containers *)

(** The calls made to one Docker client. *)
Definition on_client (d : docker_ref) (e : event droplet_sig) : option (event docker_sig) :=
  let '(existT c x) := e in
  match c return droplet_ans c -> option (event docker_sig) with
  | On d' c => fun x => if decide (d' = d) then Some (ev c x) else None
  | _ => fun _ => None
  end x.

Definition docker_events (d : docker_ref) (l : list (event droplet_sig)) : list (event docker_sig) :=
  omap (on_client d) l.

Lemma docker_events_app d l1 l2 : docker_events d (l1 ++ l2) = docker_events d l1 ++ docker_events d l2.
Proof. apply omap_app. Qed.

Definition creates_none (e : event droplet_sig) : Prop :=
  forall d spec, projT1 e <> On d (ContainerCreate spec).

Lemma docker_events_none d l : Forall creates_none l -> Forall no_create (docker_events d l).
Proof.
  induction 1 as [|[c x] l He _ IH]; [constructor|]. unfold docker_events in *. cbn [omap list_omap].
  destruct c; cbn [on_client]; try done. destruct (decide (d0 = d)) as [->|]; [|done].
  constructor; [|done]. intros spec Hc. cbn in Hc. subst c. by destruct (He d spec).
Qed.

Section commands.
Context {R : MapRange}.

#[local] Hint Extern 1 (steady creates_none (perform _)) => apply steady_perform; discriminate : ironbird.

Lemma cell_steady P t : steady P (cell t).
Proof. unfold cell, nil_deref. steady_go. Qed.
#[local] Hint Resolve cell_steady : ironbird.
Lemma GetState_steady P t : steady P (GetState t).
Proof. unfold GetState. steady_go. Qed.
Lemma dockerClient_steady P t : steady P (dockerClient t).
Proof. unfold dockerClient, nil_deref. steady_go. Qed.
#[local] Hint Resolve GetState_steady dockerClient_steady : ironbird.

Lemma find_container_steady t : steady creates_none (find_container t).
Proof. unfold find_container. steady_go. Qed.
Lemma task_GetDroplet_steady t : steady creates_none (task_GetDroplet t).
Proof. unfold task_GetDroplet. steady_go. Qed.
#[local] Hint Resolve find_container_steady task_GetDroplet_steady : ironbird.
Lemma GetStatus_steady t : steady creates_none (GetStatus t).
Proof. unfold GetStatus. steady_go. Qed.
Lemma RandomString_steady n : steady creates_none (RandomString (S := Provider) (perform RandLetter) n).
Proof. induction n as [|n IH]; cbn [RandomString]; steady_go. Qed.
Lemma exec_in_steady fuel client id cmd : steady creates_none (exec_in fuel client id cmd).
Proof. unfold exec_in, waitForExec. steady_go. Qed.
Lemma startContainerWithBlock_steady fuel client id : steady creates_none (startContainerWithBlock fuel client id).
Proof. unfold startContainerWithBlock. steady_go. Qed.
#[local] Hint Resolve GetStatus_steady RandomString_steady exec_in_steady startContainerWithBlock_steady : ironbird.

(** A run that settles, at every client, the helpers it creates. *)
Definition settles {A} (m : DOM A) : Prop :=
  forall p t, wpM m p (fun t' p' _ => p' = p /\
    exists l, t' = t ++ l /\ forall d, helpers_settled (docker_events d l)) t.

Lemma steady_settles {A} (m : DOM A) : steady creates_none m -> settles m.
Proof.
  intros Hm p t. eapply wpM_mono; [|apply Hm]. intros t' p' o [-> (l & -> & Hl)].
  split; [done|]. exists l. split; [done|]. intros d. by apply no_create_settled, docker_events_none.
Qed.

Lemma settles_bind {A B} (m : DOM A) (f : A -> DOM B) :
  settles m -> (forall a, settles (f a)) -> settles (bindM m f).
Proof.
  intros Hm Hf p t. wpM_step. eapply wpM_mono; [|apply Hm].
  intros t' p' o [-> (l & -> & Hl)]. destruct o as [a|e|msg|]; try by (split; [|exists l]).
  eapply wpM_mono; [|apply Hf]. intros t' p' o [-> (l' & -> & Hl')]. split; [done|].
  exists (l ++ l'). split; [by rewrite app_assoc|]. intros d. rewrite docker_events_app.
  by apply helpers_settled_app.
Qed.

Lemma dockerClient_run t p tr (Q : list (event droplet_sig) -> Provider -> outcome docker_ref -> Prop) :
  (forall c client, heap p !! t = Some c -> t_dockerClient c = Some client -> Q tr p (Ok client)) ->
  (forall msg, Q tr p (Panic msg)) ->
  wpM (dockerClient t) p Q tr.
Proof. intros Hok Hnil. unfold dockerClient, cell, nil_deref. repeat wpM_step; try apply Hnil. by eapply Hok. Qed.

Lemma docker_events_one d c x : docker_events d [ev (On d c) x] = [ev (E := docker_sig) c x].
Proof. unfold docker_events. cbn. by rewrite decide_True. Qed.

Lemma cell_known t p tr c (Q : list (event droplet_sig) -> Provider -> outcome Task -> Prop) :
  heap p !! t = Some c -> Q tr p (Ok c) -> wpM (cell t) p Q tr.
Proof. intros Hc HQ. unfold cell, nil_deref. repeat wpM_step; simplify_eq; done. Qed.

Lemma dockerClient_known t p tr c client (Q : list (event droplet_sig) -> Provider -> outcome docker_ref -> Prop) :
  heap p !! t = Some c -> t_dockerClient c = Some client -> Q tr p (Ok client) -> wpM (dockerClient t) p Q tr.
Proof.
  intros Hc Hclient HQ. unfold dockerClient, cell, nil_deref. repeat wpM_step; simplify_eq; done.
Qed.

(** Removing the executor of a task whose client is [client]. *)
Lemma remove_executor_settles t id client c p tr (Q : list (event droplet_sig) -> Provider -> outcome unit -> Prop) :
  heap p !! t = Some c -> t_dockerClient c = Some client ->
  (forall l o, Forall creates_none l -> Exists (settles_helper id) (docker_events client l) -> Q (tr ++ l) p o) ->
  wpM (remove_executor t id) p Q tr.
Proof.
  intros Hc Hclient HQ. unfold remove_executor. wpM_step. eapply dockerClient_known; [done..|].
  cbn beta iota. do 2 wpM_step. cbn beta iota zeta.
  set (e := ev (On client (ContainerInspect id)) x).
  assert (Hremove : wpM (let* _ := perform (On client (ContainerRemove id true false)) in retM tt) p Q (tr ++ [e])).
  { do 3 wpM_step. rewrite <- app_assoc. apply HQ; [by repeat constructor|].
    rewrite docker_events_app, docker_events_one. apply Exists_app. right. by left. }
  destruct x as [i|err]; [done|]. destruct (errors_Is XNotFound err) eqn:Herr; [|done].
  wpM_step. apply HQ; [by repeat constructor|]. unfold e. rewrite docker_events_one. left. split; [done|]. eauto.
Qed.

Lemma creates_settles d client spec r l :
  Forall creates_none l ->
  (forall id, r = inl id -> Exists (settles_helper id) (docker_events client l)) ->
  helpers_settled (docker_events d (ev (On client (ContainerCreate spec)) r :: l)).
Proof.
  intros Hl Hr. set (e := ev (E := droplet_sig) (On client (ContainerCreate spec)) r).
  change (e :: l) with ([e] ++ l). rewrite docker_events_app.
  destruct (decide (client = d)) as [<-|Hne].
  - unfold e. rewrite docker_events_one. apply (one_helper_settled []); [constructor|by apply docker_events_none|done].
  - replace (docker_events d [e]) with (@nil (event docker_sig)).
    + by apply no_create_settled, docker_events_none.
    + unfold docker_events. cbn. by rewrite decide_False.
Qed.

Lemma runCommandWhileStopped_settles fuel t cmd : settles (runCommandWhileStopped fuel t cmd).
Proof.
  unfold runCommandWhileStopped.
  apply settles_bind; [apply steady_settles; auto with ironbird|]. intros state.
  apply settles_bind; [apply steady_settles; steady_go|]. intros _.
  apply settles_bind; [apply steady_settles; auto with ironbird|]. intros random.
  apply settles_bind; [apply steady_settles; auto with ironbird|]. intros now. cbv zeta. intros p tr.
  wpM_step. apply dockerClient_run; [|intros msg; split; [done|]; exists []; rewrite app_nil_r; split; [done|];
    intros d; by apply no_create_settled].
  intros c client Hc Hclient. cbn beta iota. do 3 wpM_step. cbn beta iota.
  destruct x as [id|e]; cbn [lift_res]; wpM_step; cbn beta iota.
  2: { split; [done|]. eexists. split; [done|]. intros d. by apply creates_settles. }
  wpM_step. set (body := let* _ := startContainerWithBlock fuel client id in exec_in fuel client id cmd).
  assert (Hbody : steady creates_none body) by (unfold body; steady_go).
  eapply wpM_mono; [|apply Hbody]. intros t' p' o [-> (l & -> & Hl)].
  eapply remove_executor_settles; [done..|]. intros l2 o2 Hl2 Hset. split; [done|].
  rewrite <- !app_assoc. eexists. split; [done|]. intros d. cbn [app]. apply creates_settles.
  - by apply Forall_app.
  - intros id' [= <-]. rewrite docker_events_app. apply Exists_app. by right.
Qed.

(** A command leaves no helper container on a droplet: whatever the
    task's state and however the command ends, each executor container it
    created was found gone or its removal was asked of the Docker client
    that made it; and a command changes nothing of the provider's or the
    task's state. *)
Theorem RunCommand_settles (fuel : nat) (t : ptr) (cmd : list string) : settles (RunCommand fuel t cmd).
Proof.
  unfold RunCommand. apply settles_bind; [apply steady_settles; auto with ironbird|]. intros status.
  destruct (negb _); [apply runCommandWhileStopped_settles|].
  apply steady_settles. unfold runCommand. steady_go.
Qed.
End commands.

(** ** Creating a task *)
Definition no_droplet (e : event droplet_sig) : Prop :=
  let '(existT c x) := e in
  match c return droplet_ans c -> Prop with
  | Do (DOClient.CreateDroplet _) => fun x => match x with inl _ => False | inr _ => True end
  | _ => fun _ => True
  end x.

(** A machine of that name was seen on the tailnet with that address. *)
Definition saw_peer (hostname ip : string) (l : list (event droplet_sig)) : Prop :=
  exists peers peer, ev TailscaleStatus (inl peers) ∈ l /\ peer ∈ peers /\ HostName peer = hostname /\
    (ip, true) ∈ TailscaleIPs peer.

Definition has_image (client : docker_ref) (img : string) (l : list (event droplet_sig)) : Prop :=
  ev (On client (ImageInspect img)) (inl tt) ∈ l \/ exists auth, ev (On client (ImagePull img auth)) (inl tt) ∈ l.

Section creating.
Context {R : MapRange}.
Variable MarshalTelemetry : TelemetryConfig -> res string.

(** Facts of a trace that later events do not change. *)
Definition stable (F : list (event droplet_sig) -> Prop) : Prop := forall l e, F l -> F (l ++ [e]).

(** The state is [p], the events since [t0] create no droplet, and [F] holds
    of them. *)
Definition since (t0 : list (event droplet_sig)) (p : Provider) (F : list (event droplet_sig) -> Prop)
    (t : list (event droplet_sig)) (s : Provider) : Prop :=
  s = p /\ exists l, t = t0 ++ l /\ Forall no_droplet l /\ F l.

Definition and_saw (F : list (event droplet_sig) -> Prop) (e : event droplet_sig) (l : list (event droplet_sig)) : Prop :=
  F l /\ e ∈ l.

Lemma since_step t0 p F t s e : stable F -> since t0 p F t s -> no_droplet e -> since t0 p F (t ++ [e]) s.
Proof.
  intros HF [-> (l & -> & Hl & Hf)] He. split; [done|]. exists (l ++ [e]). rewrite app_assoc. split; [done|].
  split; [apply Forall_app; by repeat constructor|by apply HF].
Qed.

Lemma since_saw t0 p F t s e : stable F -> since t0 p F t s -> no_droplet e -> since t0 p (and_saw F e) (t ++ [e]) s.
Proof.
  intros HF Hs He. destruct (since_step _ _ _ _ _ _ HF Hs He) as [-> (l & Heq & Hl & Hf)].
  split; [done|]. exists l. split; [done|]. split; [done|]. split; [done|].
  destruct Hs as [_ (l0 & -> & _)]. rewrite <- app_assoc in Heq. apply app_inv_head in Heq as <-.
  apply elem_of_app. right. by left.
Qed.

Lemma since_mono t0 p (F G : list (event droplet_sig) -> Prop) t s : (forall l, F l -> G l) -> since t0 p F t s -> since t0 p G t s.
Proof. intros HG [-> (l & -> & Hl & Hf)]. split; [done|]. exists l. auto. Qed.

Lemma stable_saw F e : stable F -> stable (and_saw F e).
Proof. intros HF l e' [Hl Hin]. split; [by apply HF|]. apply elem_of_app. by left. Qed.

Lemma stable_and F G : stable F -> stable G -> stable (fun l => F l /\ G l).
Proof. intros HF HG l e [Hf Hg]. split; [by apply HF|by apply HG]. Qed.

Lemma stable_saw_peer hostname ip : stable (saw_peer hostname ip).
Proof. intros l e (ps & q & Hin & H). exists ps, q. split; [apply elem_of_app; by left|done]. Qed.

Lemma stable_has_image client img : stable (has_image client img).
Proof. intros l e [H|[auth H]]; [left|right; exists auth]; apply elem_of_app; by left. Qed.

#[local] Hint Resolve since_step stable_saw stable_and stable_saw_peer stable_has_image : ironbird.

Section phases.
Variable t0 : list (event droplet_sig).
Variable p : Provider.
Variable F : list (event droplet_sig) -> Prop.
Hypothesis HF : stable F.

Lemma getTailscalePeer_run t c tr s :
  heap p !! t = Some c -> since t0 p F tr s ->
  wpM (getTailscalePeer t) s (fun t' s' o => since t0 p F t' s' /\
    match o with
    | Ok peer => HostName peer = ts_TailscaleHostname (t_state c) /\
        exists peers, peer ∈ peers /\ since t0 p (and_saw F (ev TailscaleStatus (inl peers))) t' s'
    | _ => True
    end) tr.
Proof.
  intros Hc Hs. unfold getTailscalePeer. do 3 wpM_step. cbn beta iota.
  destruct x as [peers|e]; cbn [lift_res]; wpM_step; cbn beta iota; [|split; [by apply since_step|done]].
  assert (s = p) as -> by apply Hs. wpM_step. unfold GetState. wpM_step. eapply cell_known; [done|].
  wpM_step. cbn beta iota zeta. wpM_step; wpM_step; (split; [by apply since_step|]); [|done].
  match goal with H : List.find _ _ = Some _ |- _ => apply List.find_some in H as [Hin Heq%String.eqb_eq] end.
  split; [done|]. exists peers. split; [by apply list_elem_of_In|]. by apply since_saw.
Qed.

Lemma peer_found_run t c tr s :
  heap p !! t = Some c -> since t0 p F tr s ->
  wpM (peer_found t) s (fun t' s' o => since t0 p F t' s' /\ (o = Ok true -> True)) tr.
Proof.
  intros Hc Hs. unfold peer_found. do 2 wpM_step. eapply wpM_mono; [|by eapply getTailscalePeer_run].
  intros t' s' [peer|e|m|] [H _]; cbn beta iota; try done; wpM_step; done.
Qed.

Lemma GetIP_run t c tr s :
  heap p !! t = Some c -> since t0 p F tr s ->
  wpM (GetIP t) s (fun t' s' o => since t0 p F t' s' /\
    match o with
    | Ok ip => since t0 p (fun l => F l /\ saw_peer (ts_TailscaleHostname (t_state c)) ip l) t' s'
    | _ => True
    end) tr.
Proof.
  intros Hc Hs. unfold GetIP, getTailscaleIp. wpM_step. eapply wpM_mono; [|by eapply getTailscalePeer_run].
  intros t' s' [peer|e|m|] [H Hp]; cbn beta iota; [|done..]. destruct Hp as (Hname & peers & Hin & Hp).
  destruct (List.find snd (TailscaleIPs peer)) as [[ip b]|] eqn:Hf; [|by wpM_step].
  apply List.find_some in Hf as [Hip Hb]. simpl in Hb. subst b. wpM_step. split; [done|].
  eapply since_mono; [|exact Hp]. intros l [HFl Hl]. split; [done|]. exists peers, peer.
  by rewrite <- list_elem_of_In in Hip.
Qed.

Lemma task_GetDroplet_run t tr s :
  since t0 p F tr s -> wpM (task_GetDroplet t) s (fun t' s' o => since t0 p F t' s') tr.
Proof.
  intros Hs. unfold task_GetDroplet, GetState, cell, nil_deref. repeat (wpM_step; try done); by apply since_step.
Qed.

Lemma docker_ready_run t c client tr s :
  heap p !! t = Some c -> t_dockerClient c = Some client -> since t0 p F tr s ->
  wpM (docker_ready t) s (fun t' s' o => since t0 p F t' s' /\
    (o = Ok true -> since t0 p (and_saw F (ev (On client Ping) (inl tt))) t' s')) tr.
Proof.
  intros Hc Hd Hs. unfold docker_ready. wpM_step. eapply wpM_mono; [|by apply task_GetDroplet_run].
  intros t1 s1 [d|e|m|] H1; [|done..]. destruct (negb _); [by wpM_step|].
  wpM_step. eapply wpM_mono; [|by eapply GetIP_run]. intros t2 s2 [ip|e|m|] [H2 _]; [|done..].
  assert (s2 = p) as -> by apply H2.
  wpM_step. eapply cell_known; [done|]. cbn beta iota. rewrite Hd. do 2 wpM_step. cbn beta iota.
  wpM_step. eapply dockerClient_known; [done..|]. cbn beta iota. do 2 wpM_step. cbn beta iota.
  destruct x as [[]|e]; wpM_step; (split; [by apply since_step|]); [|done]. intros _. by apply since_saw.
Qed.

Lemma WaitDone_since : preserves (since t0 p F) (perform WaitDone).
Proof. apply preserves_perform. intros t s x Hs. by apply since_step. Qed.

Lemma waitForDockerStart_run fuel t c client tr s :
  heap p !! t = Some c -> t_dockerClient c = Some client -> since t0 p F tr s ->
  wpM (waitForDockerStart fuel t) s (fun t' s' o => since t0 p F t' s' /\
    (o = Ok tt -> since t0 p (and_saw F (ev (On client Ping) (inl tt))) t' s')) tr.
Proof.
  intros Hc Hd Hs. unfold waitForDockerStart. wpM_step.
  eapply wpM_mono; [|by eapply (WaitForCondition_run (since t0 p F)); [apply WaitDone_since|
    intros s' l Hl; by eapply docker_ready_run|]].
  intros t' s' [[]|e|m|] [H1 H2]; cbn [wrap_outcome]; (split; [done|]); [|done..]. intros _. by apply H2.
Qed.

Lemma pull_image_run client img auth n err tr s :
  since t0 p F tr s ->
  wpM (pull_image n client img auth err) s (fun t' s' o => since t0 p F t' s' /\
    (o = Ok tt -> since t0 p (fun l => F l /\ has_image client img l) t' s')) tr.
Proof.
  revert err tr. induction n as [|n IH]; intros err tr Hs; cbn [pull_image]; [by wpM_step|].
  do 2 wpM_step. cbn beta iota. destruct x as [[]|e].
  - wpM_step. split; [by apply since_step|]. intros _.
    eapply since_mono; [|apply (since_saw _ _ _ _ _ (ev (On client (ImagePull img auth)) (inl tt)) HF Hs); done].
    intros l [HFl Hin]. split; [done|]. right. by eexists.
  - do 2 wpM_step. cbn beta iota. apply IH. by apply since_step; [|apply since_step|].
Qed.

Lemma ensure_image_run client config img tr s :
  since t0 p F tr s ->
  wpM (ensure_image client config img) s (fun t' s' o => since t0 p F t' s' /\
    (o = Ok tt -> since t0 p (fun l => F l /\ has_image client img l) t' s')) tr.
Proof.
  intros Hs. unfold ensure_image. do 2 wpM_step. cbn beta iota zeta. destruct x as [[]|e].
  - wpM_step. split; [by apply since_step|]. intros _.
    eapply since_mono; [|apply (since_saw _ _ _ _ _ (ev (On client (ImageInspect img)) (inl tt)) HF Hs); done].
    intros l [HFl Hin]. split; [done|]. by left.
  - apply pull_image_run. by apply since_step.
Qed.

(** The last event is the creation. *)
Definition container_made (client : docker_ref) (spec : ContainerSpec) (t : list (event droplet_sig)) : Prop :=
  exists l id, t = t0 ++ l ++ [ev (On client (ContainerCreate spec)) (inl id)] /\ Forall no_droplet l /\ F l.

Lemma create_container_run client spec tr s :
  since t0 p F tr s ->
  wpM (create_container client spec) s (fun t' s' o => since t0 p F t' s' /\
    (o = Ok true -> container_made client spec t')) tr.
Proof.
  intros Hs. unfold create_container. do 2 wpM_step. cbn beta iota.
  assert (H1 : since t0 p F (tr ++ [ev (On client (ContainerCreate spec)) x]) s) by (by apply since_step).
  destruct x as [id|e].
  - wpM_step. split; [done|]. intros _. destruct Hs as [_ (l & -> & Hl & Hf)]. exists l, id. by rewrite <- app_assoc.
  - destruct (errors_Is XConnection e); by wpM_step.
Qed.
End phases.

Definition with_dockerClient (d : docker_ref) (c : Task) : Task :=
  {| t_state := t_state c; t_dockerClient := Some d; t_sshClient := t_sshClient c |}.

(** The task once its client is known. *)
Definition connected (t : ptr) (d : docker_ref) (p : Provider) : Provider :=
  set_heap (alter (with_dockerClient d) t (heap p)) (next_ptr p) p.

(** The client a task of that name gets, at that address. *)
Definition client_of (p : Provider) (name ip : string) : docker_ref :=
  if bool_decide (name ∈ dockerClientOverrides p) then Override name else Remote ip.

(** The machine was seen on the tailnet at the client's address, its Docker
    daemon answered, and the image was found or pulled. *)
Definition machine_ready (p : Provider) (hostname name img : string) (client : docker_ref)
    (l : list (event droplet_sig)) : Prop :=
  (exists ip, client = client_of p name ip /\ saw_peer hostname ip l) /\
  ev (On client Ping) (inl tt) ∈ l /\ has_image client img l.

Lemma finish_task_run fuel t0 p F t c client config img spec tr s :
  stable F -> heap p !! t = Some c -> t_dockerClient c = Some client -> since t0 p F tr s ->
  wpM (let* _ := wrap "failed to wait for docker start" (waitForDockerStart fuel t) in
       let* _ := ensure_image client config img in
       let* _ := wrap "failed to create container after retries"
         (WaitForCondition fuel (perform WaitDone) 30 (create_container client spec)) in
       retM t) s (fun t' s' o => since t0 p F t' s' /\
    match o with
    | Ok t2 => t2 = t /\ container_made t0 (fun l => (F l /\ ev (On client Ping) (inl tt) ∈ l) /\ has_image client img l) client spec t'
    | _ => True
    end) tr.
Proof.
  intros HF Hc Hd Hs. do 2 wpM_step. eapply wpM_mono; [|by eapply waitForDockerStart_run].
  intros t1 s1 [[]|e|m|] [H1 Hping]; cbn [wrap_outcome]; [|done..]. specialize (Hping eq_refl).
  wpM_step. eapply wpM_mono; [|eapply ensure_image_run; [by apply stable_saw|exact Hping]].
  intros t2 s2 o2 [H2 Himg]. assert (H2' : since t0 p F t2 s2) by (eapply since_mono; [|exact H2]; by intros l []).
  destruct o2 as [[]|e|m|]; [|done..]. specialize (Himg eq_refl).
  wpM_step. wpM_step. eapply wpM_mono; [|eapply (WaitForCondition_run
    (since t0 p (fun l => (F l /\ ev (On client Ping) (inl tt) ∈ l) /\ has_image client img l))
    (fun t' _ => container_made t0 (fun l => (F l /\ ev (On client Ping) (inl tt) ∈ l) /\ has_image client img l) client spec t'));
    [apply WaitDone_since|intros s' l Hl; apply create_container_run|]; [..|exact Hl|exact Himg]].
  - intros t3 s3 o3 [H3 Hmade]. assert (H3' : since t0 p F t3 s3) by (eapply since_mono; [|exact H3]; by intros l [[] _]).
    destruct o3 as [[]|e|m|]; cbn [wrap_outcome]; [|done..]. wpM_step. auto.
  - apply stable_and; [by apply stable_saw|apply stable_has_image].
  - apply stable_and; [by apply stable_saw|apply stable_has_image].
Qed.

Lemma setup_task_run fuel t0 p t c state taskState config definition :
  heap p !! t = Some c ->
  let hostname := ts_TailscaleHostname (t_state c) in
  let img := Image (td_Image definition) in
  let spec := task_container state definition (ts_Name taskState) in
  wpM (setup_task fuel t state taskState config definition) p (fun t' p' o =>
    match o with
    | Ok t2 => t2 = t /\ exists client, p' = connected t client p /\
        container_made t0 (machine_ready p hostname (ts_Name taskState) img client) client spec t'
    | _ => p_state p' = p_state p /\ exists l, t' = t0 ++ l /\ Forall no_droplet l
    end) t0.
Proof.
  intros Hc hostname img spec. unfold setup_task.
  assert (HT : stable (fun _ => True)) by done.
  assert (H0 : since t0 p (fun _ => True) t0 p) by (split; [done|]; exists []; rewrite app_nil_r; by repeat constructor).
  assert (Hfail : forall (F : list (event droplet_sig) -> Prop) t' q s', p_state q = p_state p -> since t0 q F t' s' ->
    p_state s' = p_state p /\ exists l, t' = t0 ++ l /\ Forall no_droplet l)
    by (intros F t' q s' Hq [-> (l & -> & Hl & _)]; eauto).
  do 2 wpM_step. eapply wpM_mono; [|eapply (WaitForCondition_run (since t0 p (fun _ => True)) (fun _ _ => True));
    [by apply WaitDone_since|intros s' l Hl; by eapply peer_found_run|exact H0]].
  intros t1 s1 [[]|e|m|] [H1 _]; cbn [wrap_outcome]; [|by eapply Hfail..]. wpM_step.
  eapply wpM_mono; [|by eapply GetIP_run]. intros t2 s2 [ip|e|m|] [H2 Hip]; [|by eapply Hfail..].
  assert (s2 = p) as -> by apply H2. unfold getDockerClientOverride. do 4 wpM_step. cbn beta iota.
  set (F := fun l => True /\ saw_peer _ ip l) in Hip.
  assert (HF : stable F) by (apply stable_and; [done|apply stable_saw_peer]).
  assert (Hconn : forall client tr, client = client_of p (ts_Name taskState) ip -> since t0 p F tr p ->
    wpM (let* _ := set_dockerClient t client in
       let* _ := wrap "failed to wait for docker start" (waitForDockerStart fuel t) in
       let* _ := ensure_image client config img in
       let* _ := wrap "failed to create container after retries"
         (WaitForCondition fuel (perform WaitDone) 30 (create_container client spec)) in
       retM t) p (fun t' p' o =>
      match o with
      | Ok t2 => t2 = t /\ exists client, p' = connected t client p /\
          container_made t0 (machine_ready p hostname (ts_Name taskState) img client) client spec t'
      | _ => p_state p' = p_state p /\ exists l, t' = t0 ++ l /\ Forall no_droplet l
      end) tr).
  { intros client tr Hclient [_ Htr]. unfold set_dockerClient. do 2 wpM_step. cbn beta iota. fold (with_dockerClient client).
    eapply wpM_mono; [|apply (finish_task_run fuel t0 (connected t client p) F t (with_dockerClient client c) client);
      [done|simpl; by rewrite lookup_alter_eq, Hc|done|split; [reflexivity|exact Htr]]].
    intros t3 s3 o3 [H3 Ho]. destruct o3 as [t4|e|m|]; [|by apply (Hfail F _ (connected t client p))..]. destruct Ho as [-> (l & id & -> & Hl & [[_ Hsaw] Hping] & Himg)].
    split; [done|]. exists client. split; [apply H3|]. exists l, id. split; [done|]. split; [done|].
    split; [by exists ip|done]. }
  unfold client_of in Hconn. case_bool_decide; [wpM_step; wpM_step; by apply Hconn|].
  do 5 wpM_step. cbn beta iota. destruct x as [[]|e]; cbn [lift_res]; wpM_step; cbn [wrap_outcome]; cbn beta iota.
  - wpM_step. apply Hconn; [done|]. by apply since_step.
  - eapply (Hfail F); [reflexivity|]. by apply since_step.
Qed.

(** The task as it is recorded for a droplet. *)
Definition recorded (p p' : Provider) (definition : TaskDefinition) (d : Droplet) : Prop :=
  p_state p' = p_state (set_TaskStates (<[itoa (d_ID d) := next_ptr p]> (TaskStates (p_state p))) p).

(** C34: a task is returned only once it works: the droplet asked for, with
    the provider's tag and name and the definition's region, size and image,
    was created; its machine was seen on the tailnet, the Docker daemon at
    that address answered, the image was there or pulled, and the last thing
    done was to create the task's container from the definition.  The task
    is recorded under the droplet's identifier.  When creation fails, either
    no droplet was created and nothing has changed, or exactly one was and
    its task is recorded already, so that it is saved and torn down. *)
Theorem CreateTask_ready (fuel : nat) (definition : TaskDefinition) (p : Provider) :
  let name := PetriTag (p_state p) +:+ "-" +:+ td_Name definition in
  wpM (CreateTask MarshalTelemetry fuel definition) p (fun l p' o =>
    match o with
    | Ok t => exists req d client,
        droplet_for p definition req /\ recorded p p' definition d /\ t = next_ptr p /\
        heap p' !! t = Some {| t_state := task_record (p_state p) definition d; t_dockerClient := Some client;
                               t_sshClient := None |} /\
        container_made [ev (Do (DOClient.CreateDroplet req)) (inl d)]
          (machine_ready p name name (Image (td_Image definition)) client) client
          (task_container (p_state p) definition name) l
    | _ =>
        (p' = p /\ Forall no_droplet l) \/
        exists req d l', droplet_for p definition req /\ recorded p p' definition d /\
          l = ev (Do (DOClient.CreateDroplet req)) (inl d) :: l' /\ Forall no_droplet l'
    end) [].
Proof.
  intros name. unfold CreateTask. do 3 wpM_step.
  destruct (TaskDefinition_ValidateBasic definition) as [[]|e|m|]; cbn [wrap_outcome]; [|by left..].
  destruct (ProviderSpecificConfig definition) as [config|] eqn:Hconfig; [|wpM_step; by left].
  do 3 wpM_step. destruct (DigitalOceanTaskConfig_ValidateBasic config) as [[]|e|m|]; cbn [wrap_outcome]; [|by left..].
  wpM_step. apply CreateDroplet_asks; [by intros [] Ho; [|by left..]|]. intros req [d|e] Hreq; cbn [app];
    [|left; split; [done|by repeat constructor]].
  cbn beta iota. do 2 wpM_step. cbn beta iota zeta. set (taskState := task_record (p_state p) definition d).
  unfold new_task, record_task. do 8 wpM_step. cbn beta iota.
  set (p1 := set_TaskStates _ _). set (c := {| t_state := taskState; t_dockerClient := None; t_sshClient := None |}).
  assert (Hc : heap p1 !! next_ptr p = Some c) by (simpl; apply lookup_insert_eq).
  eapply wpM_mono; [|exact (setup_task_run fuel [ev (Do (DOClient.CreateDroplet req)) (inl d)] p1 (next_ptr p) c (p_state p) taskState config definition Hc)].
  intros l p' o Ho. destruct o as [t|e|m|].
  2-4: destruct Ho as [Hp (l' & -> & Hl)]; right; exists req, d, l'; done.
  destruct Ho as [-> (client & -> & Hmade)]. exists req, d, client. split; [done|]. split; [done|]. split; [done|].
  split; [simpl; rewrite lookup_alter_eq, lookup_insert_eq; done|exact Hmade].
Qed.
End creating.

(** ** Over the library *)
Definition library_ans (c : droplet_call) : Type :=
  match c with Do c => godo_ans c | c => droplet_ans c end.

Definition library_answer (c : droplet_call) : library_ans c -> droplet_ans c :=
  match c return library_ans c -> droplet_ans c with
  | Do c => godoClient c
  | _ => fun x => x
  end.

Abbreviation library_event := (event (Sig droplet_call library_ans)).

(** godo answers an unsuccessful status with an error, and its errors are
    not the provider's own. *)
Definition godo_event (e : library_event) : Prop :=
  let '(existT c x) := e in
  match c return library_ans c -> Prop with
  | Do c => fun a => checked a /\ forall err, g_err a = Some err -> errors_Is XResourceNotFound err = false
  | _ => fun _ => True
  end x.

(** The API has no such firewall. *)
Definition firewall_missing (id : string) (e : library_event) : Prop :=
  let '(existT c x) := e in
  match c return library_ans c -> Prop with
  | Do (GetFirewall i) => fun a => i = id -> g_response a = Some 404
  | Do (DeleteFirewall i) => fun a => i = id -> g_response a = Some 404
  | _ => fun _ => True
  end x.

(** The client then reports errors, of another class. *)
Definition missing_error (id : string) (e : event droplet_sig) : Prop :=
  let '(existT c x) := e in
  match c return droplet_ans c -> Prop with
  | Do (GetFirewall i) => fun x => i = id -> exists err, x = inr err /\ errors_Is XResourceNotFound err = false
  | Do (DeleteFirewall i) => fun x => i = id -> exists err, x = inr err
  | _ => fun _ => True
  end x.

Lemma missing_answered id (e : library_event) :
  godo_event e -> firewall_missing id e -> missing_error id (answered library_answer e).
Proof.
  assert (Hgone : forall c (a : godo_ans c), checked a ->
    (forall err, g_err a = Some err -> errors_Is XResourceNotFound err = false) -> g_response a = Some 404 ->
    exists err, godoClient c a = inr err /\ errors_Is XResourceNotFound err = false).
  { intros c a Hc Hclass Hr. destruct (Hc 404 Hr ltac:(lia)) as [err Herr]. exists err.
    unfold godoClient, checkResponse. rewrite Herr. auto. }
  destruct e as [c x]. destruct c as [[]| | | | | | | | | | | | | | | | | |]; cbn; try done.
  - intros [Hc Hclass] Hm Hid. by apply Hgone; [..|apply Hm].
  - intros [Hc Hclass] Hm Hid. destruct (Hgone _ x Hc Hclass (Hm Hid)) as (err & Herr & _). by exists err.
Qed.

(** No deletion of the tag or of a record. *)
Definition stops_early (e : event droplet_sig) : Prop :=
  match projT1 e with Do (DeleteTag _) | Do (DeleteDomain _ _) => False | _ => True end.

Lemma Teardown_missing_error p :
  wpM Teardown p (fun l _ o => Forall (missing_error (FirewallID (p_state p))) l ->
    (exists e, o = Err e) /\ Forall stops_early l) [].
Proof.
  unfold Teardown, teardownTasks, teardownFirewall. do 5 wpM_step. cbn beta iota.
  destruct x as [[]|e]; cbn [lift_res]; wpM_step; cbn beta iota; [|intros _; split; [eauto|by repeat constructor]].
  do 5 wpM_step. cbn beta iota.
  assert (Hgone : forall l r, Forall (missing_error (FirewallID (p_state p)))
    ((l ++ [ev (Do (GetFirewall (FirewallID (p_state p)))) x]) ++ r) ->
    match x with inl _ => false | inr err => errors_Is XResourceNotFound err end = false).
  { intros l r [[_ Hx]%Forall_app _]%Forall_app. apply Forall_inv in Hx.
    by destruct (Hx eq_refl) as (err & -> & ->). }
  destruct (match x with inl _ => false | inr err => errors_Is XResourceNotFound err end).
  - wpM_step. apply (emits_use (fun _ => True)); [apply emits_any|]. intros r s o _ Hall. exfalso.
    apply diff_true_false. by eapply (Hgone [_] r).
  - do 2 wpM_step. cbn beta iota. destruct x0 as [[]|e]; cbn [lift_res]; wpM_step; cbn beta iota.
    + apply (emits_use (fun _ => True)); [apply emits_any|]. intros r s' o _ [[_ Hx]%Forall_app _]%Forall_app.
      apply Forall_inv in Hx. by destruct (Hx eq_refl).
    + intros _. split; [eauto|]. by repeat constructor.
Qed.

(** Once the firewall is gone, no teardown can succeed.  godo turns the
    404 the API answers into an error of its own, so that the client never
    reports [ErrorResourceNotFound], which is what the provider looks for:
    it goes on to delete the firewall, fails, and leaves the tag and the
    domain records. *)
Theorem Teardown_firewall_missing (p : Provider) :
  wpM (over library_answer Teardown) p (fun l _ o =>
    Forall godo_event l -> Forall (firewall_missing (FirewallID (p_state p))) l ->
    (exists e, o = Err e) /\ Forall (fun e => match projT1 e with
                                               | Do (DeleteTag _) | Do (DeleteDomain _ _) => False
                                               | _ => True
                                               end) l) [].
Proof.
  apply wpM_over. eapply wpM_mono; [|apply Teardown_missing_error]. intros l p' o Hl l' <- Hgodo Hmissing.
  destruct Hl as [Ho Hstop].
  - apply Forall_map. assert (Hboth : Forall (fun e => godo_event e /\ firewall_missing (FirewallID (p_state p)) e) l')
      by (by apply Forall_and). eapply Forall_impl; [exact Hboth|].
    intros e [Hg Hm]. by apply missing_answered.
  - split; [done|]. rewrite Forall_map in Hstop. eapply Forall_impl; [exact Hstop|]. by intros [[] x].
Qed.

(** The library in front of an API that answers every request, and has lost
    the firewall. *)
Definition lost_firewall : handler (Sig droplet_call library_ans) unit := fun c w =>
  (match c return library_ans c with
   | Do c =>
       match c return do_value c -> godo_ans c with
       | GetFirewall _ | DeleteFirewall _ => fun v =>
           {| g_value := v; g_response := Some 404; g_err := Some (EExt XOther "404 the resource was not found") |}
       | _ => fun v => {| g_value := v; g_response := Some 200; g_err := None |}
       end (demo_api c)
   | c => fst (demo_cloud c w)
   end, w).

Definition answer_event (c : do_call) (v : do_value c) (status : Z) (err : option error) : library_event :=
  existT (Do c) {| g_value := v; g_response := Some status; g_err := err |}.

Definition lost_events : list library_event :=
  let gone := Some (EExt XOther "404 the resource was not found") in
  [answer_event (DeleteDropletByTag "petri-demo") tt 200 None;
   answer_event (GetFirewall "fw1") {| f_ID := "fw1"; f_Name := "petri-demo" |} 404 gone;
   answer_event (DeleteFirewall "fw1") tt 404 gone].

Lemma Teardown_firewall_missing_witness :
  (runM lost_firewall (over library_answer Teardown) demo_fresh tt).2 = lost_events /\
  Forall godo_event lost_events /\ Forall (firewall_missing "fw1") lost_events /\
  wpM (over library_answer Teardown) demo_fresh (fun l _ o =>
    Forall godo_event l -> Forall (firewall_missing "fw1") l ->
    (exists e, o = Err e) /\ Forall (fun e => match projT1 e with
                                               | Do (DeleteTag _) | Do (DeleteDomain _ _) => False
                                               | _ => True
                                               end) l) [].
Proof.
  split; [vm_compute; reflexivity|].
  assert (Hall : forall (P : library_event -> Prop) x y z, P x -> P y -> P z -> Forall P [x; y; z])
    by (intros P x y z Hx Hy Hz; repeat constructor; done).
  split; [apply Hall; (split; [intros st [= <-] Hst; first [lia|by eexists]|intros err; first [done|by intros [= <-]]])|].
  split; [by apply Hall|]. exact (Teardown_firewall_missing demo_fresh).
Defined.
