(* ===== verification/Cleanup.v ===== *)
(** * The cleanup command: [cmd/cleanup/main.go]

    The command deletes the droplets and firewalls that crashed runs left
    behind.  Resources are grouped by the first three parts of their names;
    a group with a long-running or a recent droplet is spared.  The
    DigitalOcean client and the clock are the calls. *)

From S2P Require Import Prelude GoStrings GoTime DOClient.

Record Flags := {
  dryRun : bool;
  namePrefix : string;
  longRunning : string
}.

Inductive clean_call :=
| Api (c : do_call)
| Now.

Definition clean_ans (c : clean_call) : Type :=
  match c with Api c => do_ans c | Now => Z end.

Canonical clean_sig : sig := Sig clean_call clean_ans.

Abbreviation CM := (M clean_sig unit).

Definition dash : Ascii.ascii := Ascii.ascii_of_nat 45.

Definition extractPrefix (dropletName : string) : string :=
  match Split dash dropletName with
  | a :: b :: c :: _ => Join [a; b; c] "-"
  | _ => dropletName
  end.

(** ** Listing *)
Definition PerPage : Z := 200.

(** The pages from [page] on; a page that is not full is the last. *)
Fixpoint list_pages {A} (fuel : nat) (fetch : ListOptions -> CM (list A)) (page : Z) : CM (list A) :=
  match fuel with
  | O => lift_outcome NoFuel
  | Datatypes.S n =>
      let* items := fetch {| lo_Page := page; lo_PerPage := PerPage |} in
      if Z.of_nat (length items) <? PerPage then retM items
      else let* rest := list_pages n fetch (page + 1) in retM (items ++ rest)
  end.

Definition fetch_droplets (opts : ListOptions) : CM (list Droplet) :=
  wrap "failed to list droplets" (ask (Api (ListDroplets opts))).
Definition fetch_firewalls (opts : ListOptions) : CM (list Firewall) :=
  wrap "failed to list firewalls" (ask (Api (ListFirewalls opts))).

(** ** Groups to spare *)
Section flags.
Variable flags : Flags.

(** One round of the loop over the droplets. *)
Definition mark_skipped (now : Z) (skippedPrefixes : gset string) (droplet : Droplet) : gset string :=
  if negb (HasPrefix (d_Name droplet) (namePrefix flags)) then skippedPrefixes
  else
    let prefix := extractPrefix (d_Name droplet) in
    if bool_decide (prefix ∈ skippedPrefixes) then skippedPrefixes
    else if bool_decide (longRunning flags ∈ d_Tags droplet) then {[prefix]} ∪ skippedPrefixes
    else
      match ParseRFC3339 (d_Created droplet) with
      | None => {[prefix]} ∪ skippedPrefixes
      | Some createdAt =>
          if now - createdAt <? 30 * Minute then {[prefix]} ∪ skippedPrefixes else skippedPrefixes
      end.

Definition getSkippedDropletPrefixes (fuel : nat) : CM (gset string) :=
  let* allDroplets := list_pages fuel fetch_droplets 1 in
  let* now := perform Now in
  retM (foldl (mark_skipped now) ∅ allDroplets).

Definition shouldSkipResource (resourceName : string) (skippedPrefixes : gset string) : bool :=
  bool_decide (extractPrefix resourceName ∈ skippedPrefixes).

(** The name is the command's to delete. *)
Definition to_delete (skippedPrefixes : gset string) (name : string) : bool :=
  HasPrefix name (namePrefix flags) && negb (shouldSkipResource name skippedPrefixes).

(** ** Deleting; a failed deletion is logged and the loop goes on. *)
Definition cleanupDroplets (fuel : nat) (skippedPrefixes : gset string) : CM unit :=
  let* allDroplets := list_pages fuel fetch_droplets 1 in
  let dropletsToDelete := filter (fun d => to_delete skippedPrefixes (d_Name d) = true) allDroplets in
  if dryRun flags then retM tt
  else for_each dropletsToDelete (fun d => let* _ := perform (Api (DeleteDropletByID (d_ID d))) in retM tt).

Definition cleanupFirewalls (fuel : nat) (skippedPrefixes : gset string) : CM unit :=
  let* allFirewalls := list_pages fuel fetch_firewalls 1 in
  let firewallsToDelete := filter (fun f => to_delete skippedPrefixes (f_Name f) = true) allFirewalls in
  if dryRun flags then retM tt
  else for_each firewallsToDelete (fun f => let* _ := perform (Api (DeleteFirewall (f_ID f))) in retM tt).

(** [main] with the token of the flag and of the environment; a fatal log
    is an error. *)
Definition main (fuel : nat) (token envToken : string) : CM unit :=
  if String.eqb (if String.eqb token "" then envToken else token) "" then
    throw (ENew "DigitalOcean token is required. Set via --token flag or DIGITALOCEAN_TOKEN environment variable")
  else
    let* skippedPrefixes := wrap "Failed to get skipped droplet prefixes" (getSkippedDropletPrefixes fuel) in
    let* _ := wrap "Failed to cleanup droplets" (cleanupDroplets fuel skippedPrefixes) in
    wrap "Failed to cleanup firewalls" (cleanupFirewalls fuel skippedPrefixes).
End flags.

(** ** Pages *)

(** The events of listing consecutive pages that were answered. *)
Fixpoint page_events {A} (e : ListOptions -> res (list A) -> event clean_sig) (page : Z) (pages : list (list A))
    : list (event clean_sig) :=
  match pages with
  | [] => []
  | items :: pages' => e {| lo_Page := page; lo_PerPage := PerPage |} (inl items) :: page_events e (page + 1) pages'
  end.

Definition droplet_page (o : ListOptions) (r : res (list Droplet)) : event clean_sig := ev (Api (ListDroplets o)) r.
Definition firewall_page (o : ListOptions) (r : res (list Firewall)) : event clean_sig := ev (Api (ListFirewalls o)) r.

(** Every page but the last is full. *)
Fixpoint all_pages {A} (pages : list (list A)) : Prop :=
  match pages with
  | [] => False
  | [items] => Z.of_nat (length items) < PerPage
  | items :: pages' => PerPage <= Z.of_nat (length items) /\ all_pages pages'
  end.

(** A listing that ends early: pages, then an error; or more full pages than
    the fuel allows. *)
Definition failed_listing {A} (e : ListOptions -> res (list A) -> event clean_sig) (page : Z) (l : list (event clean_sig)) : Prop :=
  exists pages o err, l = page_events e page pages ++ [e o (inr err)].
Definition endless_listing {A} (e : ListOptions -> res (list A) -> event clean_sig) (page : Z) (fuel : nat)
    (l : list (event clean_sig)) : Prop :=
  exists pages, l = page_events e page pages /\ PerPage * Z.of_nat fuel <= Z.of_nat (length (concat pages)).

Lemma list_pages_run {A} (e : ListOptions -> res (list A) -> event clean_sig) (fetch : ListOptions -> CM (list A)) :
  (forall o t (Q : list (event clean_sig) -> unit -> outcome (list A) -> Prop),
     (forall items, Q (t ++ [e o (inl items)]) tt (Ok items)) ->
     (forall err err', Q (t ++ [e o (inr err)]) tt (Err err')) -> wpM (fetch o) tt Q t) ->
  forall fuel page t,
  wpM (list_pages fuel fetch page) tt (fun t' _ o =>
    match o with
    | Ok all => exists pages, t' = t ++ page_events e page pages /\ all = concat pages /\ all_pages pages
    | Err _ => exists l, t' = t ++ l /\ failed_listing e page l
    | NoFuel => exists l, t' = t ++ l /\ endless_listing e page fuel l
    | Panic _ => False
    end) t.
Proof.
  intros Hfetch fuel. induction fuel as [|n IH]; intros page t; cbn [list_pages].
  { wpM_step. exists []. rewrite app_nil_r. split; [done|]. by exists []. }
  wpM_step. set (opts := {| lo_Page := page; lo_PerPage := PerPage |}).
  apply Hfetch; [|intros err err'; eexists; split; [done|]; by exists [], opts, err].
  intros items. cbn beta iota. destruct (Z.ltb_spec (Z.of_nat (length items)) PerPage) as [Hlt|Hge].
  - wpM_step. exists [items]. split; [done|]. split; [by rewrite concat_cons, app_nil_r|done].
  - wpM_step. eapply wpM_mono; [|apply IH]. intros t' [] [rest|err|m|]; [|intros (l & -> & pages & o & err' & ->)|done|
      intros (l & -> & pages & -> & Hlen)].
    + intros (pages & -> & -> & Hall). wpM_step. exists (items :: pages). rewrite <- app_assoc. split; [done|].
      split; [done|]. destruct pages; [done|]. by split.
    + eexists. rewrite <- app_assoc. split; [done|]. by exists (items :: pages), o, err'.
    + eexists. rewrite <- app_assoc. split; [done|]. exists (items :: pages). split; [done|].
      rewrite concat_cons, length_app. lia.
Qed.

(** ** The groups spared *)
Section properties.
Variable flags : Flags.

(** A droplet that protects its group: one of the command's, tagged as long
    running, or less than half an hour old, or of an age it cannot tell. *)
Definition protects (now : Z) (d : Droplet) : Prop :=
  HasPrefix (d_Name d) (namePrefix flags) = true /\
  (longRunning flags ∈ d_Tags d \/
   forall created, ParseRFC3339 (d_Created d) = Some created -> now - created < 30 * Minute).

Definition spared (ds : list Droplet) (now : Z) (skipped : gset string) : Prop :=
  forall prefix, prefix ∈ skipped <-> exists d, d ∈ ds /\ protects now d /\ extractPrefix (d_Name d) = prefix.

Lemma mark_skipped_spec now skipped d prefix :
  prefix ∈ mark_skipped flags now skipped d <->
  prefix ∈ skipped \/ (protects now d /\ extractPrefix (d_Name d) = prefix).
Proof.
  unfold mark_skipped, protects. destruct (HasPrefix (d_Name d) (namePrefix flags)); cbn [negb];
    [|split; [by left|by intros [|[[[=] _] _]]]].
  case_bool_decide as Hin; [split; [by left|by intros [|[_ <-]]]|].
  case_bool_decide as Htag; [rewrite elem_of_union, elem_of_singleton; split; [intros [->|]; auto|intros [|[_ <-]]; auto]|].
  destruct (ParseRFC3339 (d_Created d)) as [created|].
  - destruct (Z.ltb_spec (now - created) (30 * Minute)) as [Hlt|Hge].
    + rewrite elem_of_union, elem_of_singleton. split; [intros [->|]; [right|by left]|intros [|[_ <-]]; auto].
      split; [|done]. split; [done|]. right. by intros c [= <-].
    + split; [by left|]. intros [|[[_ [|Hc]] _]]; [done..|]. specialize (Hc _ eq_refl). lia.
  - rewrite elem_of_union, elem_of_singleton. split; [intros [->|]; [right|by left]|intros [|[_ <-]]; auto].
    split; [|done]. split; [done|]. by right.
Qed.

Lemma skipped_spec now ds : spared ds now (foldl (mark_skipped flags now) ∅ ds).
Proof.
  assert (Hgen : forall skipped prefix, prefix ∈ foldl (mark_skipped flags now) skipped ds <->
    prefix ∈ skipped \/ exists d, d ∈ ds /\ protects now d /\ extractPrefix (d_Name d) = prefix).
  { induction ds as [|d ds IH]; intros skipped prefix; cbn [foldl].
    - split; [by left|]. intros [|(d & Hd & _)]; [done|]. by apply not_elem_of_nil in Hd.
    - rewrite IH, mark_skipped_spec. setoid_rewrite elem_of_cons. naive_solver. }
  intros prefix. rewrite Hgen. set_solver.
Qed.

(** ** Runs of the command *)

(** The deletions asked for, in order; the answers do not matter. *)
Definition asks_for (l : list (event clean_sig)) (calls : list clean_call) : Prop := map (@projT1 _ _) l = calls.

Definition droplet_deletions (skipped : gset string) (ds : list Droplet) : list clean_call :=
  if dryRun flags then []
  else map (fun d => Api (DeleteDropletByID (d_ID d))) (filter (fun d => to_delete flags skipped (d_Name d) = true) ds).
Definition firewall_deletions (skipped : gset string) (fs : list Firewall) : list clean_call :=
  if dryRun flags then []
  else map (fun f => Api (DeleteFirewall (f_ID f))) (filter (fun f => to_delete flags skipped (f_Name f) = true) fs).

Lemma deletions_run {A} (f : A -> do_call) (xs : list A) t :
  wpM (for_each xs (fun x => let* _ := perform (Api (f x)) in retM tt)) tt (fun t' _ o =>
    o = Ok tt /\ exists l, t' = t ++ l /\ asks_for l (map (fun x => Api (f x)) xs)) t.
Proof.
  revert t. induction xs as [|x xs IH]; intros t; cbn [for_each].
  - wpM_step. split; [done|]. exists []. by rewrite app_nil_r.
  - do 4 wpM_step. cbn beta iota. eapply wpM_mono; [|apply IH]. intros t' [] o [-> (l & -> & Hl)].
    split; [done|]. eexists. rewrite <- app_assoc. split; [done|]. unfold asks_for in *. simpl. f_equal. exact Hl.
Qed.

Lemma fetch_droplets_run o t (Q : list (event clean_sig) -> unit -> outcome (list Droplet) -> Prop) :
  (forall items, Q (t ++ [droplet_page o (inl items)]) tt (Ok items)) ->
  (forall err err', Q (t ++ [droplet_page o (inr err)]) tt (Err err')) -> wpM (fetch_droplets o) tt Q t.
Proof. intros Hok Herr. unfold fetch_droplets. do 3 wpM_step. destruct x; cbn [lift_res]; wpM_step; [apply Hok|apply Herr]. Qed.

Lemma fetch_firewalls_run o t (Q : list (event clean_sig) -> unit -> outcome (list Firewall) -> Prop) :
  (forall items, Q (t ++ [firewall_page o (inl items)]) tt (Ok items)) ->
  (forall err err', Q (t ++ [firewall_page o (inr err)]) tt (Err err')) -> wpM (fetch_firewalls o) tt Q t.
Proof. intros Hok Herr. unfold fetch_firewalls. do 3 wpM_step. destruct x; cbn [lift_res]; wpM_step; [apply Hok|apply Herr]. Qed.

(** The part of a run up to the deletion of the droplets: two listings of
    the droplets with the time in between, and the deletions. *)
Definition droplets_swept (l : list (event clean_sig)) (skipped : gset string) : Prop :=
  exists ps1 now ps2 dels,
    l = (page_events droplet_page 1 ps1 ++ [ev Now now]) ++ page_events droplet_page 1 ps2 ++ dels /\
    all_pages ps1 /\ all_pages ps2 /\ spared (concat ps1) now skipped /\
    asks_for dels (droplet_deletions skipped (concat ps2)).

Lemma asks_for_none : asks_for [] [].
Proof. done. Qed.

Lemma cleanupDroplets_run fuel skipped t :
  wpM (cleanupDroplets flags fuel skipped) tt (fun t' _ o =>
    match o with
    | Ok _ => exists ps dels, t' = t ++ page_events droplet_page 1 ps ++ dels /\ all_pages ps /\
        asks_for dels (droplet_deletions skipped (concat ps))
    | Err _ => exists l, t' = t ++ l /\ failed_listing droplet_page 1 l
    | NoFuel => exists l, t' = t ++ l /\ endless_listing droplet_page 1 fuel l
    | Panic _ => False
    end) t.
Proof.
  unfold cleanupDroplets. wpM_step. eapply wpM_mono; [|apply (list_pages_run droplet_page), fetch_droplets_run].
  intros t1 [] [all|e|m|]; [|done..]. intros (ps & -> & -> & Hps). cbn beta iota zeta. unfold droplet_deletions.
  destruct (dryRun flags).
  - wpM_step. exists ps, []. by rewrite app_nil_r.
  - eapply wpM_mono; [|apply (deletions_run (fun d => DeleteDropletByID (d_ID d)))]. intros t2 [] o [-> (dels & -> & Hd)].
    exists ps, dels. by rewrite <- app_assoc.
Qed.

Lemma cleanupFirewalls_run fuel skipped t :
  wpM (cleanupFirewalls flags fuel skipped) tt (fun t' _ o =>
    match o with
    | Ok _ => exists ps dels, t' = t ++ page_events firewall_page 1 ps ++ dels /\ all_pages ps /\
        asks_for dels (firewall_deletions skipped (concat ps))
    | Err _ => exists l, t' = t ++ l /\ failed_listing firewall_page 1 l
    | NoFuel => exists l, t' = t ++ l /\ endless_listing firewall_page 1 fuel l
    | Panic _ => False
    end) t.
Proof.
  unfold cleanupFirewalls. wpM_step. eapply wpM_mono; [|apply (list_pages_run firewall_page), fetch_firewalls_run].
  intros t1 [] [all|e|m|]; [|done..]. intros (ps & -> & -> & Hps). cbn beta iota zeta. unfold firewall_deletions.
  destruct (dryRun flags).
  - wpM_step. exists ps, []. by rewrite app_nil_r.
  - eapply wpM_mono; [|apply (deletions_run (fun f => DeleteFirewall (f_ID f)))]. intros t2 [] o [-> (dels & -> & Hd)].
    exists ps, dels. by rewrite <- app_assoc.
Qed.

Definition no_deletion (e : event clean_sig) : Prop :=
  match projT1 e with Api (DeleteDropletByID _) | Api (DeleteFirewall _) => False | _ => True end.

(** A listing that did not end well: an error of the API, or more items than
    [fuel] pages hold. *)
Definition gave_up {A B} (e : ListOptions -> res (list A) -> event clean_sig) (fuel : nat) (o : outcome B)
    (l : list (event clean_sig)) : Prop :=
  match o with
  | Err _ => failed_listing e 1 l
  | NoFuel => endless_listing e 1 fuel l
  | _ => False
  end.

(** C35: the command deletes what it should and nothing else.  It lists all
    droplets, page by page, and spares the groups that a droplet of its
    prefix protects; then it lists them again and asks for the deletion of
    every droplet of its prefix outside these groups, once and in order, and
    does the same for the firewalls; a failed deletion stops nothing, and
    a dry run deletes nothing.  It fails only when a listing fails, and what
    it has deleted by then is the same; without a token it does nothing.
    It runs out of [fuel] only on more items than [fuel] full pages. *)
Theorem main_spec (fuel : nat) (token envToken : string) :
  wpM (main flags fuel token envToken) tt (fun l _ o =>
    match o with
    | Ok _ => (token <> "" \/ envToken <> "") /\ exists skipped l1 ps dels, l = l1 ++ page_events firewall_page 1 ps ++ dels /\
        droplets_swept l1 skipped /\ all_pages ps /\ asks_for dels (firewall_deletions skipped (concat ps))
    | Panic _ => False
    | _ => (token = "" /\ envToken = "" /\ l = []) \/
        (exists l1 l2, l = l1 ++ l2 /\ Forall no_deletion l1 /\ gave_up droplet_page fuel o l2) \/
        exists skipped l1 l2, l = l1 ++ l2 /\ droplets_swept l1 skipped /\ gave_up firewall_page fuel o l2
    end) [].
Proof.
  unfold main. destruct (String.eqb_spec (if String.eqb token "" then envToken else token) "") as [Htok|Htok].
  { wpM_step. left. destruct (String.eqb_spec token ""); by subst. }
  assert (Hgiven : token <> "" \/ envToken <> "") by (destruct (String.eqb_spec token ""); auto).
  do 2 wpM_step. unfold getSkippedDropletPrefixes. wpM_step.
  eapply wpM_mono; [|apply (list_pages_run droplet_page), fetch_droplets_run].
  intros t1 [] [ds|e|m|]; cbn [wrap_outcome app]; [|intros (l & -> & Hl); right; left; by exists [], l|done|
    intros (l & -> & Hl); right; left; by exists [], l].
  intros (ps1 & -> & -> & Hps1). do 3 wpM_step. cbn [wrap_outcome]. cbn beta iota.
  set (skipped := foldl _ _ _). assert (Hskip : spared (concat ps1) x skipped) by apply skipped_spec.
  set (t1 := page_events droplet_page 1 ps1 ++ [ev Now x]).
  assert (Hnone : Forall no_deletion t1).
  { apply Forall_app. split; [|by repeat constructor]. generalize 1. clear. induction ps1 as [|p ps1 IH]; intros k;
      [constructor|]. by constructor. }
  do 2 wpM_step. eapply wpM_mono; [|apply cleanupDroplets_run].
  intros t2 [] [[]|e|m|]; cbn [wrap_outcome]; [|intros (l & -> & Hl); right; left; by exists t1, l|done|
    intros (l & -> & Hl); right; left; by exists t1, l].
  intros (ps2 & dels & -> & Hps2 & Hdels). cbn beta iota.
  assert (Hswept : droplets_swept (t1 ++ page_events droplet_page 1 ps2 ++ dels) skipped)
    by (by exists ps1, x, ps2, dels).
  wpM_step. eapply wpM_mono; [|apply cleanupFirewalls_run].
  intros t3 [] [[]|e|m|]; cbn [wrap_outcome]; [|intros (l & -> & Hl); right; right; by eexists skipped, _, l|done|
    intros (l & -> & Hl); right; right; by eexists skipped, _, l].
  intros (ps3 & fdels & -> & Hps3 & Hfdels). split; [done|]. by eexists skipped, _, ps3, fdels.
Qed.
End properties.

(** ** An example *)
Definition demo_flags : Flags := {| dryRun := false; namePrefix := "petri"; longRunning := "LONG_RUNNING" |}.

Definition demo_droplet (id : Z) (name created : string) (tags : list string) : Droplet :=
  {| d_ID := id; d_Name := name; d_Status := "active"; d_Tags := tags; d_Created := created; d_PrivateIPv4 := inl "" |}.

(** One page of droplets and one of firewalls, half an hour into 2024. *)
Definition demo_account : handler clean_sig unit := fun c w =>
  (match c return clean_ans c with
   | Now => 1704069000 * Second
   | Api c =>
       match c return do_ans c with
       | ListDroplets _ => inl
           [demo_droplet 1 "petri-ib-aaaaaa-validator-0" "2023-12-31T12:00:00Z" ["petri-ib-aaaaaa"; "LONG_RUNNING"];
            demo_droplet 2 "petri-ib-aaaaaa-node-0" "2023-12-31T12:00:00Z" ["petri-ib-aaaaaa"];
            demo_droplet 3 "petri-ib-bbbbbb-validator-0" "2023-12-31T12:00:00Z" ["petri-ib-bbbbbb"];
            demo_droplet 4 "petri-ib-cccccc-validator-0" "2024-01-01T00:10:00Z" ["petri-ib-cccccc"];
            demo_droplet 5 "server" "2023-01-01T00:00:00Z" []]
       | ListFirewalls _ => inl [{| f_ID := "fa"; f_Name := "petri-ib-aaaaaa" |}; {| f_ID := "fb"; f_Name := "petri-ib-bbbbbb" |}]
       | _ => inr (EExt XOther "gone already")
       end
   end, w).

Example main_demo :
  map (@projT1 _ _) (runM demo_account (main demo_flags 1 "token" "") tt tt).2 =
  [Api (ListDroplets {| lo_Page := 1; lo_PerPage := 200 |}); Now; Api (ListDroplets {| lo_Page := 1; lo_PerPage := 200 |});
   Api (DeleteDropletByID 3); Api (ListFirewalls {| lo_Page := 1; lo_PerPage := 200 |}); Api (DeleteFirewall "fb")].
Proof. vm_compute. reflexivity. Qed.
