(* ===== verification/Builder.v ===== *)
(** * The builder activity: [activities/builder/builder.go], [util/aws.go]

    The activity builds the image of a chain with BuildKit.  An image for
    ECR is pushed by the build, and not built at all when the registry has
    its tag already; a local one is exported to a temporary file and loaded
    into Docker.  AWS, BuildKit, the files and the [docker] command are the
    calls. *)

From S2P Require Import Prelude GoStrings GoBase64 Messages.
From Stdlib Require Import Ascii.

Record Activity := {
  act_BuilderConfig : BuilderConfig;
  act_AwsConfig : bool;               (* not nil *)
  act_Chains : Chains;
  act_Registry : RegistryConfig
}.

Definition dependencies : gmap string string :=
  {["cometbft/cometbft" := "github.com/cometbft/cometbft"; "cosmos/cosmos-sdk" := "github.com/cosmos/cosmos-sdk";
    "cosmos/evm" := "github.com/cosmos/evm"]}.

Definition repoOwners : gmap string string :=
  {["cometbft" := "cometbft"; "cosmos-sdk" := "cosmos"; "gaia" := "cosmos"; "evm" := "cosmos"]}.

(** ** Replacements and tags *)
Definition generateReplace (dependencies : gmap string string) (owner repo tag : string) : string :=
  let orig := default "" (dependencies !! (owner +:+ "/" +:+ repo)) in
  orig +:+ "=github.com/" +:+ owner +:+ "/" +:+ repo +:+ "@" +:+ tag.

Definition owner_of (repo : string) : string := default "" (repoOwners !! repo).

Definition generateMultipleReplaces (req : BuildDockerImageRequest) : string :=
  let replaceSpecs :=
    if String.eqb (bd_Repo req) "cometbft"
    then [generateReplace dependencies (owner_of (bd_Repo req)) (bd_Repo req) (bd_SHA req)] else [] in
  let replaceSpecs :=
    if negb (String.eqb (bd_CosmosSdkSha req) "")
    then replaceSpecs ++ [generateReplace dependencies (owner_of "cosmos-sdk") "cosmos-sdk" (bd_CosmosSdkSha req)]
    else replaceSpecs in
  let replaceSpecs :=
    if negb (String.eqb (bd_CometBFTSha req) "")
    then replaceSpecs ++ [generateReplace dependencies (owner_of "cometbft") "cometbft" (bd_CometBFTSha req)]
    else replaceSpecs in
  Join replaceSpecs " ".

Definition at_sign : ascii := ascii_of_nat 64.
Definition slash : ascii := ascii_of_nat 47.
Definition hyphen : ascii := ascii_of_nat 45.
Definition colon : ascii := ascii_of_nat 58.

(** The version string in a form a tag may have. *)
Definition tag_version (version : string) : string :=
  ReplaceByte (ReplaceByte version at_sign hyphen) slash hyphen.

Definition generateTag (req : BuildDockerImageRequest) : string :=
  let imageName := ic_Image (bd_ImageConfig req) in
  let version := ic_Version (bd_ImageConfig req) in
  let repo := bd_Repo req in
  let sha := bd_SHA req in
  if String.eqb repo "cometbft" then imageName +:+ "-" +:+ version +:+ "-" +:+ repo +:+ "-" +:+ sha
  else
    let tag := repo +:+ "-" +:+ sha in
    let tag :=
      if negb (String.eqb (bd_CosmosSdkSha req) "")
      then tag +:+ "-sdk-" +:+ tag_version (bd_CosmosSdkSha req) else tag in
    if negb (String.eqb (bd_CometBFTSha req) "")
    then tag +:+ "-comet-" +:+ tag_version (bd_CometBFTSha req) else tag.

(** The arguments of the Dockerfile. *)
Definition buildArguments (req : BuildDockerImageRequest) : gmap string string :=
  let replaceCmd := generateMultipleReplaces req in
  let args := {["GIT_SHA" := generateTag req]} in
  if String.eqb (bd_Repo req) "cometbft" then
    <["REPLACE_CMD" := replaceCmd]> (<["CHAIN_TAG" := ic_Version (bd_ImageConfig req)]>
      (<["CHAIN_SRC" := "https://github.com/cosmos/cosmos-sdk"]> args))
  else
    let args := <["CHAIN_SRC" := "https://github.com/" +:+ owner_of (bd_Repo req) +:+ "/" +:+ bd_Repo req]>
      (<["CHAIN_TAG" := bd_SHA req]> args) in
    if negb (String.eqb replaceCmd "") then <["REPLACE_CMD" := replaceCmd]> args else args.

(** The keys get a prefix, so the order of the loop does not matter. *)
Definition frontendAttrs (req : BuildDockerImageRequest) : gmap string string :=
  map_fold (fun k v attrs => <["build-arg:" +:+ k := v]> attrs)
    {["filename" := "Dockerfile"; "target" := ""; "platform" := "linux/amd64"]} (buildArguments req).

(** [filepath.Base]: the last element of the path. *)
Definition Base (path : string) : string :=
  if String.eqb path "" then "."
  else default "/" (last (filter (fun x => x <> "") (Split slash path))).

(** ** Calls *)
Record ExportEntry := {
  ex_Type : string;
  ex_Attrs : gmap string string;
  ex_Output : option string           (* the file the exporter writes *)
}.

(** [LocalMounts] are the same files for the context and the Dockerfile, in
    the order they were added. *)
Record SolveOpt := {
  Frontend : string;
  FrontendAttrs : gmap string string;
  LocalMounts : list (string * string);
  AuthConfigs : gmap string (string * string);
  Exports : list ExportEntry
}.

Record LogLine := { Timestamp : string; Data : string }.

Definition client_ref : Type := nat.

(** An output pointer of the AWS library comes with an error of its own. *)
Inductive build_call :=
| GetCallerIdentity
| DescribeRepositories (names : list string) (registryId : option string)
| CreateRepository (name : string)
| DescribeImages (repository : string) (registryId : option string) (tag : string)
| GetAuthorizationToken
| NewClient (address : string)
| CloseClient (c : client_ref)
| ReadFile (path : string)
| CreateTemp (pattern : string)
| RemoveFile (path : string)
| Solve (c : client_ref) (opt : SolveOpt)
| LogsSeen                            (* the lines the reader has written so far *)
| DockerLoad (path : string).

Definition build_ans (c : build_call) : Type :=
  match c with
  | GetCallerIdentity => res (option string)
  | DescribeRepositories _ _ => option (list string) * option error
  | CreateRepository _ => res unit
  | DescribeImages _ _ _ => res (list string)
  | GetAuthorizationToken => res (list (option string))
  | NewClient _ => res client_ref
  | ReadFile _ | CreateTemp _ => res string
  | CloseClient _ | RemoveFile _ | Solve _ _ => res unit
  | LogsSeen => list LogLine
  | DockerLoad _ => string * option error
  end.

Canonical build_sig : sig := Sig build_call build_ans.

Abbreviation BM := (M build_sig unit).

(** ** Registry *)
Section activity.
Variable a : Activity.

Definition is_ecr : bool := String.eqb (Type_ (act_Registry a)) "ecr".

(** [*a.AwsConfig] *)
Definition awsConfig : BM unit :=
  if act_AwsConfig a then retM tt else panic "nil pointer dereference".

(** [util.FetchDockerRepoToken] *)
Definition FetchDockerRepoToken : BM string :=
  let* token := ask GetAuthorizationToken in
  match token with
  | [] => throw (ENew "no authorization token found")
  | Some token :: _ => retM token
  | None :: _ => panic "nil pointer dereference"
  end.

Definition getAuthenticationToken : BM (string * string) :=
  let* _ := awsConfig in
  let* token := FetchDockerRepoToken in
  match DecodeString token with
  | inr err => throw (EWrap "failed to decode token" err)
  | inl decodedToken =>
      match Split colon decodedToken with
      | [username; password] => retM (username, password)
      | _ => throw (ENew "invalid token format")
      end
  end.

Definition createRepositoryIfNotExists : BM unit :=
  let* _ := awsConfig in
  let* account := wrap "failed to fetch STS identity" (ask GetCallerIdentity) in
  let* '(repositories, err) := perform (DescribeRepositories [reg_ImageName (act_Registry a)] account) in
  let* _ :=
    match err with
    | Some err => if negb (errors_Is XRepositoryNotFound err) then throw err else retM tt
    | None => retM tt
    end in
  if negb (Nat.eqb (length (default [] repositories)) 0) then retM tt
  else ask (CreateRepository (reg_ImageName (act_Registry a))).

Definition imageExistsInECR (tag : string) : BM bool :=
  let* _ := awsConfig in
  let* account := wrap "failed to fetch STS identity" (ask GetCallerIdentity) in
  let* result := perform (DescribeImages (reg_ImageName (act_Registry a)) account tag) in
  match result with
  | inr err => if errors_Is XImageNotFound err then retM false else throw err
  | inl details => retM (negb (Nat.eqb (length details) 0))
  end.

(** ** Build *)
Definition image_tag (tag : string) : string := reg_ImageName (act_Registry a) +:+ ":" +:+ tag.
Definition ecr_tag (tag : string) : string := URL (act_Registry a) +:+ "/" +:+ image_tag tag.

Definition built (fqdnTag logs : string) : BuildDockerImageResponse := {| FQDNTag := fqdnTag; Logs := logs |}.

(** What the registry says first: the response when the image is there
    already, or the credentials. *)
Definition check_registry (tag : string) : BM (BuildDockerImageResponse + string * string) :=
  if is_ecr then
    let* _ := createRepositoryIfNotExists in
    let* exists_ := wrap "failed to check if image exists" (imageExistsInECR tag) in
    if (exists_ : bool)
    then retM (inl (built (ecr_tag tag) ("Image already exists in ECR, skipped build" +:+ nl)))
    else let* auth := getAuthenticationToken in retM (inr auth)
  else retM (inr ("", "")).

(** The loop over the additional files. *)
Fixpoint add_files (files : list string) (fs : list (string * string)) : BM (list (string * string)) :=
  match files with
  | [] => retM fs
  | additionalFile :: files' =>
      let baseName := Base additionalFile in
      let* fileContent := wrap ("failed to read file " +:+ additionalFile) (ask (ReadFile additionalFile)) in
      add_files files' (fs ++ [(baseName, fileContent)])
  end.

Definition auth_configs (username password : string) : gmap string (string * string) :=
  if is_ecr && negb (String.eqb username "") && negb (String.eqb password "")
  then {[URL (act_Registry a) := (username, password)]} else ∅.

Definition solve_opt (req : BuildDockerImageRequest) (fs : list (string * string)) (auth : string * string)
    (export : ExportEntry) : SolveOpt :=
  {| Frontend := "dockerfile.v0"; FrontendAttrs := frontendAttrs req; LocalMounts := fs;
     AuthConfigs := auth_configs auth.1 auth.2; Exports := [export] |}.

Definition push_export (fqdnTag : string) : ExportEntry :=
  {| ex_Type := "image"; ex_Attrs := {["name" := fqdnTag; "push" := "true"]}; ex_Output := None |}.
Definition tar_export (fqdnTag tmpPath : string) : ExportEntry :=
  {| ex_Type := "docker"; ex_Attrs := {["name" := fqdnTag]}; ex_Output := Some tmpPath |}.

(** What the log buffer holds when it is read; the reader of the status
    channel may be behind. *)
Definition log_text (lines : list LogLine) : string :=
  String_concat "" (map (fun v => "[" +:+ Timestamp v +:+ "]: " +:+ Data v +:+ nl) lines).
Definition logs_Bytes : BM string :=
  let* lines := perform LogsSeen in retM (log_text lines).

Definition load_image (tmpPath : string) : BM unit :=
  let* '(output, err) := perform (DockerLoad tmpPath) in
  match err with
  | Some err => throw (EWrap "failed to load image into docker" (ESuffix err (", output: " +:+ output)))
  | None => retM tt
  end.

(** With a client, which is closed on every way out. *)
Definition build_with (req : BuildDockerImageRequest) (auth : string * string) (bkClient : client_ref)
    : BM BuildDockerImageResponse :=
  let tag := generateTag req in
  let imageName := ic_Image (bd_ImageConfig req) in
  match act_Chains a !! imageName with
  | None => throw (ENew ("image config not found for " +:+ imageName))
  | Some image =>
      let* dockerfileContent := wrap ("failed to read dockerfile from " +:+ Dockerfile image)
        (ask (ReadFile (Dockerfile image))) in
      let* fs := add_files (AdditionalFiles image) [("Dockerfile", dockerfileContent)] in
      if is_ecr then
        let* _ := ask (Solve bkClient (solve_opt req fs auth (push_export (ecr_tag tag)))) in
        let* logs := logs_Bytes in
        retM (built (ecr_tag tag) logs)
      else
        let* tmpPath := wrap "failed to create temp file" (ask (CreateTemp "image-*.tar")) in
        defer (let* _ := perform (RemoveFile tmpPath) in retM tt) (
          let* _ := ask (Solve bkClient (solve_opt req fs auth (tar_export (image_tag tag) tmpPath))) in
          let* _ := load_image tmpPath in
          let* logs := logs_Bytes in
          retM (built (image_tag tag) logs))
  end.

Definition BuildDockerImage (req : BuildDockerImageRequest) : BM BuildDockerImageResponse :=
  let* checked := check_registry (generateTag req) in
  match checked with
  | inl response => retM response
  | inr auth =>
      let* bkClient := ask (NewClient (BuildKitAddress (act_BuilderConfig a))) in
      defer (let* _ := perform (CloseClient bkClient) in retM tt) (build_with req auth bkClient)
  end.
End activity.

(** ** Builds *)
Section properties.
Variable a : Activity.

(** Calls that neither build nor need to be undone. *)
Definition registry_call (e : event build_sig) : Prop :=
  match projT1 e with
  | NewClient _ | CloseClient _ | CreateTemp _ | RemoveFile _ | Solve _ _ | DockerLoad _ => False
  | _ => True
  end.

(** An image becomes available under a tag. *)
Definition publishes (e : event build_sig) : Prop :=
  let '(existT c x) := e in
  match c return build_ans c -> Prop with
  | Solve _ opt => fun x => x = inl tt /\ exists e, e ∈ Exports opt /\ ex_Output e = None
  | DockerLoad _ => fun x => x.2 = None
  | _ => fun _ => False
  end x.

(** Every client is closed and every temporary file removed. *)
Definition opened (e : event build_sig) : option client_ref :=
  let '(existT c x) := e in
  match c return build_ans c -> option client_ref with
  | NewClient _ => fun x => match x with inl c => Some c | inr _ => None end
  | _ => fun _ => None
  end x.
Definition closed (e : event build_sig) : option client_ref :=
  match projT1 e with CloseClient c => Some c | _ => None end.
Definition made (e : event build_sig) : option string :=
  let '(existT c x) := e in
  match c return build_ans c -> option string with
  | CreateTemp _ => fun x => match x with inl path => Some path | inr _ => None end
  | _ => fun _ => None
  end x.
Definition removed (e : event build_sig) : option string :=
  match projT1 e with RemoveFile path => Some path | _ => None end.
Definition tidy (l : list (event build_sig)) : Prop :=
  omap opened l ⊆ omap closed l /\ omap made l ⊆ omap removed l.

Lemma tidy_app l1 l2 : tidy l1 -> tidy l2 -> tidy (l1 ++ l2).
Proof. unfold tidy. rewrite !omap_app. set_solver. Qed.

Lemma tidy_calm l : Forall (fun e => opened e = None /\ made e = None) l -> tidy l.
Proof.
  intros Hl. split; intros x Hx; exfalso; apply list_elem_of_omap in Hx as (e & He & Hx);
    rewrite Forall_forall in Hl; destruct (Hl e He); congruence.
Qed.

Lemma tidy_registry l : Forall registry_call l -> tidy l.
Proof. intros Hl. apply tidy_calm. eapply Forall_impl; [done|]. by intros [[] x]. Qed.

Lemma tidy_client addr c l x : tidy l -> tidy (ev (NewClient addr) (inl c) :: l ++ [ev (CloseClient c) x]).
Proof.
  unfold tidy. change (?a :: l ++ ?b) with ([a] ++ l ++ b). rewrite !omap_app. cbn. set_solver.
Qed.

(** The credentials of the build. *)
Definition credentials (l : list (event build_sig)) (auth : string * string) : Prop :=
  if is_ecr a then exists l' token rest, l = l' ++ [ev GetAuthorizationToken (inl (Some token :: rest))] /\
      DecodeString token = inl (auth.1 +:+ ":" +:+ auth.2) /\ no_byte colon auth.1 = true /\ no_byte colon auth.2 = true
  else auth = ("", "") /\ l = [].

Definition nil_aws (l : list (event build_sig)) : Prop :=
  is_ecr a = true /\ (act_AwsConfig a = false \/ exists rest, ev GetAuthorizationToken (inl (None :: rest)) ∈ l).

(** The registry has an image under the tag. *)
Definition already_there (tag : string) (l : list (event build_sig)) : Prop :=
  is_ecr a = true /\ exists l' account d details,
    l = l' ++ [ev (DescribeImages (reg_ImageName (act_Registry a)) account tag) (inl (d :: details))].

Lemma already_there_last tag l account details :
  is_ecr a = true -> negb (Nat.eqb (length details) 0) = true ->
  already_there tag (l ++ [ev (DescribeImages (reg_ImageName (act_Registry a)) account tag) (inl details)]).
Proof. intros Hecr Hd. destruct details as [|d details]; [done|]. split; [done|]. by exists l, account, d, details. Qed.

Lemma credentials_last l token rest decoded username password :
  is_ecr a = true -> DecodeString token = inl decoded -> Split colon decoded = [username; password] ->
  credentials (l ++ [ev GetAuthorizationToken (inl (Some token :: rest))]) (username, password).
Proof.
  intros Hecr Hd Hs. unfold credentials. rewrite Hecr. apply Split_pair in Hs as (-> & Hu & Hp).
  by exists l, token, rest.
Qed.

Lemma nil_aws_last l rest :
  is_ecr a = true -> nil_aws (l ++ [ev GetAuthorizationToken (inl (None :: rest))]).
Proof. intros Hecr. split; [done|]. right. exists rest. apply elem_of_app. right. by left. Qed.

#[local] Hint Resolve already_there_last credentials_last nil_aws_last : ironbird.

Lemma check_registry_run tag :
  wpM (check_registry a tag) tt (fun l _ o => Forall registry_call l /\
    match o with
    | Ok (inl resp) => already_there tag l /\
        resp = built (ecr_tag a tag) ("Image already exists in ECR, skipped build" +:+ nl)
    | Ok (inr auth) => credentials l auth
    | Err _ => True
    | Panic _ => nil_aws l
    | NoFuel => False
    end) [].
Proof.
  unfold check_registry. destruct (is_ecr a) eqn:Hecr; [|wpM_step; unfold credentials; by rewrite Hecr].
  unfold createRepositoryIfNotExists, imageExistsInECR, getAuthenticationToken, FetchDockerRepoToken, awsConfig.
  destruct (act_AwsConfig a) eqn:Haws; [|repeat wpM_step; split; [constructor|by split; auto]].
  wpM_go; (split; [repeat (apply Forall_app_2); repeat constructor|]); subst; eauto with ironbird.
Qed.

(** The files of a build: the Dockerfile first, each under its last name. *)
Definition file_names (image : ChainImageConfig) : list string := "Dockerfile" :: map Base (AdditionalFiles image).
Definition file_reads (files contents : list string) : list (event build_sig) :=
  zip_with (fun path content => ev (ReadFile path) (inl content)) files contents.

Definition read_call (e : event build_sig) : Prop := match projT1 e with ReadFile _ => True | _ => False end.

Lemma add_files_run files fs t :
  wpM (add_files files fs) tt (fun l _ o => exists l', l = t ++ l' /\
    match o with
    | Ok fs' => exists contents, length contents = length files /\ l' = file_reads files contents /\
        fs' = fs ++ zip (map Base files) contents
    | Err _ => Forall read_call l'
    | _ => False
    end) t.
Proof.
  revert fs t. induction files as [|path files IH]; intros fs t; cbn [add_files].
  { wpM_step. exists []. split; [by rewrite app_nil_r|]. exists []. by rewrite app_nil_r. }
  repeat wpM_step; cbn [wrap_outcome].
  - eapply wpM_mono; [|apply IH]. intros l [] o (l' & -> & Ho). eexists. rewrite <- app_assoc. split; [done|].
    destruct o as [fs'|e|m|]; [|by constructor|done..]. destruct Ho as (contents & Hlen & -> & ->).
    eexists (_ :: contents). split; [cbn; congruence|]. by rewrite <- app_assoc.
  - eexists. split; [done|]. by repeat constructor.
Qed.

Definition unpublished (l : list (event build_sig)) : Prop := Forall (fun e => ~ publishes e) l.

(** A build that succeeded: its files were read, and what was exported under
    the response's tag was pushed, or loaded into Docker. *)
Definition build_run (req : BuildDockerImageRequest) (auth : string * string) (c : client_ref)
    (resp : BuildDockerImageResponse) (l : list (event build_sig)) : Prop :=
  exists image contents lines,
    act_Chains a !! ic_Image (bd_ImageConfig req) = Some image /\
    length contents = length (file_names image) /\
    let files := zip (file_names image) contents in
    let reads := file_reads (Dockerfile image :: AdditionalFiles image) contents in
    if is_ecr a then
      let tag := ecr_tag a (generateTag req) in
      resp = built tag (log_text lines) /\
      l = reads ++ [ev (Solve c (solve_opt a req files auth (push_export tag))) (inl tt); ev LogsSeen lines]
    else
      let tag := image_tag a (generateTag req) in
      resp = built tag (log_text lines) /\ exists tmpPath output x,
      l = reads ++ ev (CreateTemp "image-*.tar") (inl tmpPath) ::
        [ev (Solve c (solve_opt a req files auth (tar_export tag tmpPath))) (inl tt);
         ev (DockerLoad tmpPath) (output, None); ev LogsSeen lines] ++ [ev (RemoveFile tmpPath) x].

Lemma reads_unpublished l : Forall read_call l -> tidy l /\ unpublished l.
Proof.
  intros Hl. split; [apply tidy_calm|]; (eapply Forall_impl; [done|]); [by intros [[] x]|].
  intros [[] x] Hr Hp; done.
Qed.

Lemma file_reads_calls files contents : Forall read_call (file_reads files contents).
Proof.
  revert contents. induction files as [|f files IH]; intros [|c contents]; constructor; [done|apply IH].
Qed.

Lemma tidy_nil : tidy [].
Proof. by apply tidy_calm. Qed.
#[local] Hint Resolve tidy_nil : ironbird.

Lemma tar_unpublished c req files auth tag path x :
  ~ publishes (ev (Solve c (solve_opt a req files auth (tar_export tag path))) x).
Proof. intros [_ (e & He & Hout)]. by apply list_elem_of_singleton in He as ->. Qed.

Lemma build_with_run req auth c :
  wpM (build_with a req auth c) tt (fun l _ o => tidy l /\
    match o with
    | Ok resp => build_run req auth c resp l
    | Err _ => unpublished l
    | _ => False
    end) [].
Proof.
  unfold build_with, build_run. destruct (act_Chains a !! _) as [image|]; [|wpM_step; split; [apply tidy_nil|constructor]].
  do 4 wpM_step. cbn [app]. wpM_step; wpM_step; cbn [wrap_outcome];
    [|apply reads_unpublished; by repeat constructor].
  wpM_step. eapply wpM_mono; [|apply add_files_run].
  intros l1 [] o (l' & -> & Ho). destruct o as [files|e|m|]; [|apply reads_unpublished; by constructor|done..].
  destruct Ho as (contents & Hlen & -> & ->).
  set (reads := [ev (ReadFile _) _] ++ _).
  assert (Hreads : tidy reads /\ unpublished reads).
  { apply reads_unpublished. constructor; [done|apply file_reads_calls]. }
  change ([_] ++ zip _ _) with (zip (file_names image) (s :: contents)).
  assert (Hlen' : length (s :: contents) = length (file_names image)) by (cbn; by rewrite Hlen, length_map).
  unfold logs_Bytes, load_image.
  destruct (is_ecr a); repeat wpM_step; cbn [wrap_outcome]; repeat wpM_step; rewrite <- ?app_assoc; cbn [app].
  all: split; [apply tidy_app; [apply Hreads|split; cbn; set_solver]|].
  all: lazymatch goal with
    | |- unpublished _ => apply Forall_app; split; [apply Hreads|];
        repeat (apply Forall_cons; split; [first [apply tar_unpublished | by intros [] | by intros Hp]|]); apply Forall_nil_2
    | |- _ => eexists image, (s :: contents), _; subst; destruct u; by split_and!; repeat eexists
    end.
Qed.

(** C8: the activity answers with an image that is there.  Either the
    registry has the tag, and nothing is built; or a client was opened, with
    the registry's credentials for ECR, the files of the chain's
    configuration were read and solved under the request's arguments, and
    the image was pushed, or loaded into Docker, under the tag of the
    response.  On an error no image was published, and on every way out the
    client is closed and the temporary file removed.  The only panic is that
    of AWS data that is nil. *)
Theorem BuildDockerImage_spec (req : BuildDockerImageRequest) :
  wpM (BuildDockerImage a req) tt (fun l _ o => tidy l /\
    match o with
    | Ok resp =>
        (Forall registry_call l /\ already_there (generateTag req) l /\
         resp = built (ecr_tag a (generateTag req)) ("Image already exists in ECR, skipped build" +:+ nl)) \/
        exists l0 auth c l1 x,
          l = l0 ++ ev (NewClient (BuildKitAddress (act_BuilderConfig a))) (inl c) :: l1 ++ [ev (CloseClient c) x] /\
          Forall registry_call l0 /\ credentials l0 auth /\ build_run req auth c resp l1
    | Err _ => unpublished l
    | Panic _ => Forall registry_call l /\ nil_aws l
    | NoFuel => False
    end) [].
Proof.
  assert (Hregistry : forall l, Forall registry_call l -> tidy l /\ unpublished l).
  { intros l Hl. split; [by apply tidy_registry|]. eapply Forall_impl; [done|]. intros [[] x] He Hp; done. }
  unfold BuildDockerImage. wpM_step. eapply wpM_mono; [|apply check_registry_run].
  intros l0 [] o [Hl0 Ho]. destruct (Hregistry l0 Hl0) as [Htidy0 Hunpub0].
  destruct o as [[resp|auth]|e|m|]; [wpM_step; split; [done|by left]| |done..].
  repeat wpM_step; [|split; [apply tidy_app; [done|by apply tidy_calm; repeat constructor]|]].
  - apply wpM_from_nil. eapply wpM_mono; [|apply build_with_run]. intros l1 [] o' [Htidy Ho']. repeat wpM_step.
    rewrite <- !app_assoc. cbn [app]. split; [by apply tidy_app, tidy_client|].
    destruct o' as [resp|e|m|]; [right; by eexists l0, auth, _, l1, x|  |done..].
    apply Forall_app; split; [done|]. apply Forall_cons; split; [by intros []|]. apply Forall_app; split; [done|].
    apply Forall_cons; split; [by intros []|done].
  - apply Forall_app; split; [done|]. apply Forall_cons; split; [by intros []|done].
Qed.
End properties.

(** ** Tags *)

(** A version without the bytes that separate or are replaced in tags. *)
Definition plain (version : string) : bool :=
  no_byte hyphen version && no_byte at_sign version && no_byte slash version.

Lemma plain_hyphen v : plain v = true -> no_byte hyphen v = true.
Proof. unfold plain. by intros [[H _]%andb_true_iff _]%andb_true_iff. Qed.

Lemma ReplaceByte_none s old new : no_byte old s = true -> ReplaceByte s old new = s.
Proof.
  induction s as [|c s IH]; cbn [no_byte ReplaceByte]; [done|]. intros [Hc Hs]%andb_true_iff.
  apply negb_true_iff in Hc. by rewrite Hc, IH.
Qed.

Lemma tag_version_plain v : plain v = true -> tag_version v = v.
Proof.
  unfold plain, tag_version. intros [[_ Hat]%andb_true_iff Hslash]%andb_true_iff.
  by rewrite (ReplaceByte_none v at_sign), ReplaceByte_none.
Qed.

(** A request for a known repository whose versions have no hyphen, at sign
    or slash; of a CometBFT build the version of the image is one of them. *)
Definition plainly_tagged (req : BuildDockerImageRequest) : Prop :=
  is_Some (repoOwners !! bd_Repo req) /\
  plain (bd_SHA req) = true /\ plain (bd_CosmosSdkSha req) = true /\ plain (bd_CometBFTSha req) = true /\
  (bd_Repo req = "cometbft" -> plain (ic_Version (bd_ImageConfig req)) = true).

Definition override (name version : string) : list string :=
  if negb (String.eqb version "") then [name; version] else [].

Definition tag_parts (req : BuildDockerImageRequest) : list string :=
  if String.eqb (bd_Repo req) "cometbft"
  then Split hyphen (ic_Image (bd_ImageConfig req)) ++ [ic_Version (bd_ImageConfig req); "cometbft"; bd_SHA req]
  else Split hyphen (bd_Repo req) ++ [bd_SHA req] ++
    override "sdk" (bd_CosmosSdkSha req) ++ override "comet" (bd_CometBFTSha req).

Lemma Split_word s w : Split hyphen (s +:+ "-" +:+ w) = Split hyphen s ++ Split hyphen w.
Proof. apply Split_app. Qed.

Lemma Split_override s name v :
  plain v = true -> no_byte hyphen name = true ->
  Split hyphen (if negb (String.eqb v "") then s +:+ "-" +:+ name +:+ "-" +:+ tag_version v else s) =
  Split hyphen s ++ override name v.
Proof.
  intros Hv Hname. unfold override. destruct (negb _); [|by rewrite app_nil_r].
  rewrite tag_version_plain, !Split_word, (Split_none _ name), (Split_none _ v) by (done || by apply plain_hyphen).
  done.
Qed.

(** The tag is put together from its parts in a way that can be undone. *)
Lemma Split_tag req : plainly_tagged req -> Split hyphen (generateTag req) = tag_parts req.
Proof.
  intros (_ & Hsha & Hsdk & Hcomet & Hver). unfold generateTag, tag_parts. apply plain_hyphen in Hsha. cbv zeta.
  destruct (String.eqb_spec (bd_Repo req) "cometbft") as [Hrepo|_].
  - pose proof (Hver Hrepo) as Hv. apply plain_hyphen in Hv. rewrite Hrepo.
    rewrite !Split_word, (Split_none _ (ic_Version _)), (Split_none _ (bd_SHA req)) by done. done.
  - change "-comet-" with ("-" +:+ "comet" +:+ "-"). change "-sdk-" with ("-" +:+ "sdk" +:+ "-").
    set (tag := bd_Repo req +:+ _).
    rewrite !string_app_assoc, !Split_override by done. unfold tag. rewrite Split_word, (Split_none _ (bd_SHA _)) by done. by rewrite <- !app_assoc.
Qed.

Lemma known_repo repo :
  is_Some (repoOwners !! repo) -> repo = "cometbft" \/ repo = "cosmos-sdk" \/ repo = "gaia" \/ repo = "evm".
Proof. intros [o Ho]. unfold repoOwners in Ho. rewrite !lookup_insert_Some, lookup_singleton_Some in Ho. naive_solver. Qed.

(** The part before the last tells a CometBFT tag from the others. *)
Lemma tag_parts_cometbft req req' :
  is_Some (repoOwners !! bd_Repo req') -> bd_Repo req = "cometbft" -> bd_Repo req' <> "cometbft" ->
  tag_parts req <> tag_parts req'.
Proof.
  intros Hknown' E E' Hparts. unfold tag_parts, override in Hparts. rewrite E in Hparts.
  apply (f_equal (@rev _)) in Hparts. cbn -[rev] in Hparts. rewrite rev_app_distr in Hparts.
  destruct (known_repo _ Hknown') as [E1|[E1|[E1|E1]]]; [done|..]; rewrite E1 in Hparts; cbn -[rev] in Hparts;
    do 2 destruct (negb _); cbn in Hparts; discriminate Hparts.
Qed.

(** What the tag of a request leaves out: the overrides of a CometBFT
    build. *)
Definition same_overrides (req req' : BuildDockerImageRequest) : Prop :=
  bd_CosmosSdkSha req = bd_CosmosSdkSha req' /\ bd_CometBFTSha req = bd_CometBFTSha req'.

(** C22: the tag decides what is built, up to the overrides of a CometBFT
    build.  Two requests for known repositories, whose versions have no
    hyphen, at sign or slash, that have the same tag are for the same
    repository and revision; for a repository other than CometBFT they have
    the same overrides and the same build arguments, so an image found under
    the tag is the one a build would push.  For CometBFT, whose tag has no
    overrides, the build arguments are the same when the overrides are. *)
Theorem generateTag_determines_build (req req' : BuildDockerImageRequest) :
  plainly_tagged req -> plainly_tagged req' -> generateTag req = generateTag req' ->
  bd_Repo req = bd_Repo req' /\ bd_SHA req = bd_SHA req' /\
  (bd_Repo req <> "cometbft" -> same_overrides req req') /\
  (same_overrides req req' -> buildArguments req = buildArguments req').
Proof.
  intros Hreq Hreq' Htag. pose proof (f_equal (Split hyphen) Htag) as Hparts. rewrite !Split_tag in Hparts by done.
  destruct Hreq as (Hrepo & _), Hreq' as (Hrepo' & _). unfold same_overrides.
  destruct (decide (bd_Repo req = "cometbft")) as [E|E], (decide (bd_Repo req' = "cometbft")) as [E'|E'];
    [|by destruct (tag_parts_cometbft req req')|by destruct (tag_parts_cometbft req' req)|].
  all: unfold buildArguments, generateMultipleReplaces; rewrite Htag; unfold tag_parts in Hparts.
  - rewrite E, E', String.eqb_refl in *.
    apply app_inj_2 in Hparts as [_ [= -> ->]]; [|reflexivity]. split_and!; [done..|]. by intros [-> ->].
  - assert (Hsame : bd_Repo req = bd_Repo req' /\ bd_SHA req = bd_SHA req' /\
      bd_CosmosSdkSha req = bd_CosmosSdkSha req' /\ bd_CometBFTSha req = bd_CometBFTSha req').
    { unfold override in Hparts.
      destruct (known_repo _ Hrepo) as [E1|[E1|[E1|E1]]], (known_repo _ Hrepo') as [E2|[E2|[E2|E2]]];
        rewrite E1, E2 in *; try done; cbn in Hparts; try discriminate Hparts;
      destruct (String.eqb_spec (bd_CosmosSdkSha req) ""), (String.eqb_spec (bd_CometBFTSha req) ""),
        (String.eqb_spec (bd_CosmosSdkSha req') ""), (String.eqb_spec (bd_CometBFTSha req') "");
        cbn in Hparts; simplify_eq; split_and!; congruence. }
    destruct Hsame as (-> & -> & -> & ->). by rewrite (proj2 (String.eqb_neq _ _) E').
Qed.

Definition demo_request (sdk comet : string) : BuildDockerImageRequest :=
  {| bd_Repo := "evm"; bd_SHA := "4a1f"; bd_ImageConfig := {| ic_Name := "evm"; ic_Image := "evm"; ic_Version := "" |};
     bd_CosmosSdkSha := sdk; bd_CometBFTSha := comet |}.

Lemma generateTag_determines_build_witness :
  buildArguments (demo_request "v0.53.0" "") = buildArguments
    {| bd_Repo := "evm"; bd_SHA := "4a1f"; bd_ImageConfig := {| ic_Name := "other"; ic_Image := "x"; ic_Version := "1" |};
       bd_CosmosSdkSha := "v0.53.0"; bd_CometBFTSha := "" |}.
Proof.
  refine (proj2 (proj2 (proj2 (generateTag_determines_build (demo_request "v0.53.0" "") _ _ _ _))) _);
    [split_and!; [by eexists|done..]|split_and!; [by eexists|done..]|reflexivity|by split].
Defined.

(** What a tag does not tell: replaced bytes, and the overrides of a CometBFT build. *)
Example tags_shared :
  generateTag (demo_request "a/b@c" "") = generateTag (demo_request "a-b-c" "") /\
  generateTag (demo_request "x-comet-y" "") = generateTag (demo_request "x" "y") /\
  let comet sdk :=
    {| bd_Repo := "cometbft"; bd_SHA := "77"; bd_CosmosSdkSha := sdk; bd_CometBFTSha := "";
       bd_ImageConfig := {| ic_Name := "simapp"; ic_Image := "simapp"; ic_Version := "v0.53.0" |} |} in
  generateTag (comet "v0.50.0") = generateTag (comet "") /\
  generateMultipleReplaces (comet "v0.50.0") <> generateMultipleReplaces (comet "").
Proof. vm_compute. done. Qed.

Example evm_arguments :
  frontendAttrs (demo_request "v0.53.0" "v1/x@2") !! "build-arg:REPLACE_CMD" =
    Some "github.com/cosmos/cosmos-sdk=github.com/cosmos/cosmos-sdk@v0.53.0 github.com/cometbft/cometbft=github.com/cometbft/cometbft@v1/x@2" /\
  generateTag (demo_request "v0.53.0" "v1/x@2") = "evm-4a1f-sdk-v0.53.0-comet-v1-x-2" /\
  map Base ["./hack/otel.yaml"; "otel.yaml"; "hack/"; "/"; ""] = ["otel.yaml"; "otel.yaml"; "hack"; "/"; "."].
Proof. vm_compute. done. Qed.

(** A local build whose loading fails: the file and the client are gone, and
    the error shows Docker's output. *)
Definition demo_activity : Activity :=
  {| act_BuilderConfig := {| BuildKitAddress := "tcp://buildkit:1234"; Local := {| local_ImageName := "ironbird" |};
       ECR := {| ecr_URL := ""; ecr_ImageName := "" |}; AuthEnvConfigs := ∅ |};
     act_AwsConfig := false; act_Registry := {| Type_ := "local"; URL := ""; reg_ImageName := "ironbird" |};
     act_Chains := {["evm" := {| ci_Name := "evm"; Dockerfile := "./hack/evm.Dockerfile";
       AdditionalFiles := ["./hack/otel.yaml"]; ci_GID := "1025"; ci_UID := "1025"; ci_BinaryName := "evmd";
       ci_Entrypoint := []; ci_HomeDir := "/evmd"; ci_GasPrices := "" |}]} |}.

Definition demo_machine (load : option error) : handler build_sig unit := fun c w =>
  (match c return build_ans c with
   | GetCallerIdentity => inl None
   | DescribeRepositories _ _ => (None, None)
   | CreateRepository _ => inl tt
   | DescribeImages _ _ _ => inl []
   | GetAuthorizationToken => inl []
   | NewClient _ => inl 7%nat
   | ReadFile path => inl ("content of " +:+ path)
   | CreateTemp _ => inl "/tmp/image-1.tar"
   | CloseClient _ | RemoveFile _ | Solve _ _ => inl tt
   | LogsSeen => [{| Timestamp := "12:00"; Data := "done" |}]
   | DockerLoad _ => ("no space", load)
   end, w).

Example local_build :
  (runM (demo_machine None) (BuildDockerImage demo_activity (demo_request "" "")) tt tt).1.1.2 =
    Ok (built "ironbird:evm-4a1f" ("[12:00]: done" +:+ nl)) /\
  let '(_, o, _, l) :=
    runM (demo_machine (Some (EExt XOther "exit status 1"))) (BuildDockerImage demo_activity (demo_request "" "")) tt tt in
  o = Err (EWrap "failed to load image into docker" (ESuffix (EExt XOther "exit status 1") ", output: no space")) /\
  omap removed l = ["/tmp/image-1.tar"] /\ omap closed l = [7%nat].
Proof. vm_compute. done. Qed.
