(* ===== verification/Worker.v ===== *)
(** * The worker's process: [cmd/worker/main.go], [digitalocean/tailscale.go] (setup)

    The command that serves the workflow and its activities: it reads its
    configuration, connects, and registers the activities with what they
    share.  A fatal error, which exits without the deferred calls, is an
    error of the model.  Temporal, AWS, gRPC, Tailscale and files are calls. *)

From S2P Require Import Prelude GoStrings GoVal ProviderDefs ChainTypes Messages DOTask LoadBalancer TestnetActivity Builder.

(** [util.ProviderOptions]: what an activity passes to a provider. *)
Record ProviderOptions := {
  po_DOToken : string;
  po_TailscaleSettings : TailscaleSettings;
  po_TelemetrySettings : TelemetrySettings
}.

(** What is registered; the methods of an activity share its value. *)
Inductive registration :=
| TestnetWorkflow_
| LaunchTestnet_ (a : TestnetActivity.Activity) (o : ProviderOptions)
| CreateProvider_ (a : TestnetActivity.Activity) (o : ProviderOptions)
| TeardownProvider_ (a : TestnetActivity.Activity) (o : ProviderOptions)
| RunLoadTest_ (o : ProviderOptions)
| LaunchLoadBalancer_ (a : BalancerActivity) (o : ProviderOptions)
| BuildDockerImage_ (a : Builder.Activity).

(** ** Calls *)
Inductive worker_call :=
| WReadFile (path : string)
| WNewReporter (address : string)
| WDial (cfg : TemporalConfig)
| WCloseClient
| LoadDefaultConfig                               (* of AWS *)
| NewClient (address : string)                    (* of gRPC *)
| WCloseConn
| CreateKey (oauthSecret : string) (tags : list string)   (* single use, ephemeral and preauthorized *)
| StartTailscale (authKey hostname : string)
| GetLocalClient
| TailscaleStatus                                 (* BackendState *)
| WSleep
| WRegister (r : registration)
| RunWorker.

Definition worker_ans (c : worker_call) : Type :=
  match c with
  | WReadFile _ | CreateKey _ _ | TailscaleStatus => res string
  | WNewReporter _ | WDial _ | LoadDefaultConfig | NewClient _ | WCloseConn | StartTailscale _ _ | GetLocalClient | RunWorker =>
      res unit
  | WCloseClient | WSleep | WRegister _ => unit
  end.
Canonical worker_sig : sig := Sig worker_call worker_ans.

Abbreviation WorkM := (M worker_sig unit).
Abbreviation wk c := (perform (c : call worker_sig)).
Abbreviation wk_ask c := (ask (c : call worker_sig)).

(** [log.Fatalln], [os.Exit(1)] *)
Definition or_fatal {A} (msg : string) (r : res A) : WorkM A :=
  match r with inl a => retM a | inr e => throw (EWrap msg e) end.
(** [defer f()]: on a return and on a panic, not on a fatal error. *)
Definition defer_call (f : WorkM unit) {A} (m : WorkM A) : WorkM A := fun s =>
  prog_bind (m s) (fun '(s', o) =>
    match o with Err _ => Ret (s', o) | _ => bindM f (fun _ => lift_outcome o) s' end).
(** [panic(err)] *)
Definition panic_on {A} (o : outcome A) : WorkM A := match o with Err e => panic (Error e) | _ => lift_outcome o end.

(** ** Tailscale *)
Definition GenerateTailscaleAuthKey (oauthSecret : string) (tags : list string) : WorkM string :=
  wk_ask (CreateKey oauthSecret (map (fun tag => "tag:" +:+ tag) tags)).

(** A poll of the status: done once it is Running. *)
Definition tailscale_round : WorkM (option unit) :=
  let* status := wk_ask TailscaleStatus in
  if String.eqb status "Running" then retM (Some tt) else let* _ := wk WSleep in retM None.

Definition SetupTailscale (fuel : nat) (serverOauthSecret nodeAuthKey hostname : string) (serverTags nodeTags : list string)
    : WorkM TailscaleSettings :=
  let* authKey := GenerateTailscaleAuthKey serverOauthSecret serverTags in
  let* _ := wk_ask (StartTailscale authKey hostname) in
  let* _ := wk_ask GetLocalClient in
  let* _ := poll fuel tailscale_round in
  retM {| AuthKey := nodeAuthKey; Tags := nodeTags; Server := true; LocalClient := true |}.

Definition no_tailscale : TailscaleSettings := {| AuthKey := ""; Tags := []; Server := false; LocalClient := false |}.

(** ** [main] *)
Definition telemetry_of (t : Messages.TelemetryConfig) : TelemetrySettings :=
  {| te_Prometheus := {| pr_Username := prom_Username (Prometheus t); pr_Password := prom_Password (Prometheus t);
                         pr_URL := prom_URL (Prometheus t) |};
     te_Loki := {| lk_Username := loki_Username (Loki t); lk_Password := loki_Password (Loki t); lk_URL := loki_URL (Loki t) |};
     te_Pyroscope := {| py_URL := pyro_URL (Pyroscope t) |} |}.

Definition provider_options (cfg : WorkerConfig) (ts : TailscaleSettings) : ProviderOptions :=
  {| po_DOToken := Token (wk_DigitalOcean cfg); po_TailscaleSettings := ts; po_TelemetrySettings := telemetry_of (Telemetry cfg) |}.
Definition builder_activity (cfg : WorkerConfig) (registry : RegistryConfig) (aws : bool) : Builder.Activity :=
  {| Builder.act_BuilderConfig := Builder cfg; Builder.act_AwsConfig := aws; Builder.act_Chains := wk_Chains cfg;
     Builder.act_Registry := registry |}.
Definition testnet_activity (cfg : WorkerConfig) (registry : RegistryConfig) (aws grpcClient : bool) : TestnetActivity.Activity :=
  {| TestnetActivity.act_Chains := wk_Chains cfg; act_GrafanaConfig := Grafana cfg; act_GRPCClient := grpcClient;
     TestnetActivity.act_AwsConfig := aws; act_RegistryType := Type_ registry |}.
Definition balancer_activity (cfg : WorkerConfig) (key cert : option string) (grpcClient : bool) : BalancerActivity :=
  {| ba_RootDomain := lbc_RootDomain (LoadBalancer cfg); ba_SSLCertificate := cert; ba_SSLKey := key; ba_GRPCClient := grpcClient |}.

Definition registrations (cfg : WorkerConfig) (registry : RegistryConfig) (aws grpcClient : bool) (ts : TailscaleSettings)
    (key cert : option string) : list registration :=
  let o := provider_options cfg ts in
  let testnet := testnet_activity cfg registry aws grpcClient in
  [TestnetWorkflow_; LaunchTestnet_ testnet o; CreateProvider_ testnet o; TeardownProvider_ testnet o; RunLoadTest_ o;
   LaunchLoadBalancer_ (balancer_activity cfg key cert grpcClient) o; BuildDockerImage_ (builder_activity cfg registry aws)].

Section worker.
Variable UnmarshalWorker : string -> res WorkerConfig.         (* yaml.Unmarshal *)
Variable Getenv : string -> string.
Variable config : string.                                      (* the flag *)

Definition load_aws (registry : RegistryConfig) : WorkM bool :=
  if String.eqb (Type_ registry) "ecr" then
    let* r := wk LoadDefaultConfig in
    let* _ := or_fatal "Failed to load AWS config (required for ECR registry)" r in retM true
  else retM false.

Definition setup_tailscale (fuel : nat) (cfg : TailscaleConfig) : WorkM TailscaleSettings :=
  if negb (String.eqb (ServerOauthSecret cfg) "") && negb (String.eqb (NodeAuthKey cfg) "") then
    let* ts := try_ (SetupTailscale fuel (ServerOauthSecret cfg) (NodeAuthKey cfg) "ironbird" (ServerTags cfg) (NodeTags cfg)) in
    match ts with inr e => panic (Error e) | inl ts => retM ts end
  else retM no_tailscale.

(** The key and the certificate. *)
Definition load_certificates (cfg : LoadBalancerConfig) : WorkM (option string * option string) :=
  if negb (String.eqb (SSLKeyPath cfg) "") && negb (String.eqb (SSLCertPath cfg) "") then
    let* key := wk (WReadFile (SSLKeyPath cfg)) in
    let* key := or_fatal "Failed to read SSL key" key in
    let* cert := wk (WReadFile (SSLCertPath cfg)) in
    let* cert := or_fatal "Failed to read SSL certificate" cert in
    retM (Some key, Some cert)
  else retM (None, None).

(** The rest of [main], once the server's connection is made or given up. *)
Definition serve (fuel : nat) (cfg : WorkerConfig) (registry : RegistryConfig) (aws grpcClient : bool) : WorkM unit :=
  let* ts := setup_tailscale fuel (Tailscale cfg) in
  let* '(key, cert) := load_certificates (LoadBalancer cfg) in
  let* _ := for_each (registrations cfg registry aws grpcClient ts key cert) (fun r => wk (WRegister r)) in
  let* r := wk RunWorker in
  or_fatal "run" r.

Definition connect_server (fuel : nat) (cfg : WorkerConfig) (registry : RegistryConfig) (aws : bool) : WorkM unit :=
  if String.eqb (ServerAddress cfg) "" then serve fuel cfg registry aws false
  else
    let* conn := wk (NewClient (ServerAddress cfg)) in
    match (conn : res unit) with
    | inr _ => serve fuel cfg registry aws false
    | inl _ => defer_call (let* _ := wk WCloseConn in retM tt) (serve fuel cfg registry aws true)
    end.

Definition with_client (fuel : nat) (cfg : WorkerConfig) : WorkM unit :=
  let registry := GetActiveRegistry Getenv (Builder cfg) in
  let* aws := load_aws registry in
  connect_server fuel cfg registry aws.

Definition worker_main (fuel : nat) : WorkM unit :=
  let* file := wk (WReadFile config) in
  let* cfg := panic_on (ParseWorkerConfig (fun _ => file) UnmarshalWorker Getenv config) in
  let* reporter := wk (WNewReporter "0.0.0.0:9092") in
  let* _ := or_fatal "error creating prometheus reporter" reporter in
  let* dialed := wk (WDial (Temporal cfg)) in
  let* _ := or_fatal "dial" dialed in
  defer_call (wk WCloseClient) (with_client fuel cfg).
End worker.

(** ** A run of the worker *)
Section run.
Variable UnmarshalWorker : string -> res WorkerConfig.
Variable Getenv : string -> string.
Variable config : string.
Abbreviation worker_event := (event worker_sig).
Abbreviation did c x := (ev (E := worker_sig) c x).

(** A call before anything is registered. *)
Definition preparing (e : worker_event) : Prop :=
  match projT1 e with WRegister _ | RunWorker | WCloseConn | WCloseClient => False | _ => True end.

(** What a part of the preparation leaves and returns. *)
Definition prepares {A} (Q : list worker_event -> A -> Prop) (m : WorkM A) : Prop := forall s t,
  wpM m s (fun t' _ o => exists l, t' = t ++ l /\ Forall preparing l /\ match o with Ok a => Q l a | _ => True end) t.

Lemma prepares_use {A} (Q : list worker_event -> A -> Prop) (m : WorkM A) s t (Q' : list worker_event -> unit -> outcome A -> Prop) :
  prepares Q m ->
  (forall l a, Forall preparing l -> Q l a -> Q' (t ++ l) tt (Ok a)) ->
  (forall l o, Forall preparing l -> is_ok o = false -> Q' (t ++ l) tt o) -> wpM m s Q' t.
Proof.
  intros Hm HOk Hrest. eapply wpM_mono; [|apply Hm]. intros t' [] o (l & -> & Hl & Ho). destruct o; [by apply HOk|by apply Hrest..].
Qed.

Lemma prepares_emits {A} (Q : list worker_event -> A -> Prop) (m : WorkM A) :
  emits preparing m -> (forall s t, wpM m s (fun t' _ o => forall l, t' = t ++ l -> match o with Ok a => Q l a | _ => True end) t) ->
  prepares Q m.
Proof.
  intros He Hm s t. eapply wpM_mono; [|apply wpM_and; [apply He|apply Hm]]. intros t' s' o [(l & -> & Hl) Ho].
  exists l. split_and!; [done|done|]. by apply Ho.
Qed.

Ltac quietly := emits_go; first [apply emits_lift|apply emits_lift_res|exact I].

(** The AWS configuration was loaded, for ECR. *)
Definition aws_loaded (registry : RegistryConfig) (l : list worker_event) : Prop :=
  Type_ registry = "ecr" -> did LoadDefaultConfig (inl tt) ∈ l.

Lemma prepares_aws registry :
  prepares (fun l aws => aws = String.eqb (Type_ registry) "ecr" /\ aws_loaded registry l) (load_aws registry).
Proof.
  unfold load_aws, or_fatal, aws_loaded. destruct (String.eqb_spec (Type_ registry) "ecr") as [E|E].
  - apply prepares_emits; [quietly|]. intros s t. apply wpM_bind. refine (wpM_perform (E := worker_sig) _ _ _ _ _).
    intros [[]|e]; wpM_go; [|done]. intros l <-%app_inv_head. split; [done|]. intros _. by left.
  - apply prepares_emits; [quietly|]. intros s t. wpM_go; by intros l _.
Qed.

(** The key and the certificate are what their files held, when both files
    are named. *)
Definition certified (cfg : LoadBalancerConfig) (l : list worker_event) (kc : option string * option string) : Prop :=
  if negb (String.eqb (SSLKeyPath cfg) "") && negb (String.eqb (SSLCertPath cfg) "") then
    exists key cert, kc = (Some key, Some cert) /\
      did (WReadFile (SSLKeyPath cfg)) (inl key) ∈ l /\ did (WReadFile (SSLCertPath cfg)) (inl cert) ∈ l
  else kc = (None, None).

Lemma prepares_certificates cfg : prepares (certified cfg) (load_certificates cfg).
Proof.
  unfold load_certificates, or_fatal, certified. destruct (_ && _).
  - apply prepares_emits; [quietly|]. intros s t. wpM_go; try done.
    intros l Heq. rewrite <- app_assoc in Heq. apply app_inv_head in Heq as <-. eexists _, _. split; [done|].
    split; [by left|right; by left].
  - apply prepares_emits; [quietly|]. intros s t. wpM_go; by intros l _.
Qed.

(** The poll returns once Tailscale said Running. *)
Lemma tailscale_poll fuel s t :
  wpM (poll fuel tailscale_round) s (fun t' _ o => is_ok o = true -> exists l, t' = t ++ l /\ did TailscaleStatus (inl "Running") ∈ l) t.
Proof.
  revert s t. induction fuel as [|fuel IH]; intros s t; [by apply wpM_lift|]. cbn [poll]. unfold tailscale_round.
  apply wpM_bind, wpM_bind, wpM_bind. refine (wpM_perform (E := worker_sig) _ _ _ _ _). intros [status|e]; [|by apply wpM_lift].
  apply wpM_ret. destruct (String.eqb_spec status "Running") as [->|_].
  - apply wpM_ret, wpM_ret. intros _. eexists. split; [done|by left].
  - apply wpM_bind. refine (wpM_perform (E := worker_sig) _ _ _ _ _). intros [].
    apply wpM_ret. eapply wpM_mono; [|apply IH]. intros t' s' o Ho Hok. destruct (Ho Hok) as (l & -> & Hl).
    eexists. rewrite <- !app_assoc. split; [done|]. rewrite !elem_of_app. auto.
Qed.

Definition tailscale_ready (cfg : TailscaleConfig) (l : list worker_event) (ts : TailscaleSettings) : Prop :=
  if negb (String.eqb (ServerOauthSecret cfg) "") && negb (String.eqb (NodeAuthKey cfg) "") then
    ts = {| AuthKey := NodeAuthKey cfg; Tags := NodeTags cfg; Server := true; LocalClient := true |} /\
    did TailscaleStatus (inl "Running") ∈ l
  else ts = no_tailscale.

Lemma prepares_tailscale fuel cfg : prepares (tailscale_ready cfg) (setup_tailscale fuel cfg).
Proof.
  unfold setup_tailscale, tailscale_ready. destruct (_ && _); [|intros s t; apply wpM_ret; exists []; by rewrite app_nil_r].
  unfold SetupTailscale, GenerateTailscaleAuthKey. apply prepares_emits; [unfold tailscale_round; quietly|]. intros s t.
  apply wpM_bind, wpM_try, wpM_bind, wpM_bind. refine (wpM_perform (E := worker_sig) _ _ _ _ _).
  intros [authKey|e]; [|by apply wpM_lift, wpM_lift].
  apply wpM_ret, wpM_bind, wpM_bind. refine (wpM_perform (E := worker_sig) _ _ _ _ _). intros [[]|e]; [|by apply wpM_lift, wpM_lift].
  apply wpM_ret, wpM_bind, wpM_bind. refine (wpM_perform (E := worker_sig) _ _ _ _ _). intros [[]|e]; [|by apply wpM_lift, wpM_lift].
  apply wpM_ret, wpM_bind. eapply wpM_mono; [|apply tailscale_poll]. intros t' s' [[]|e|msg|] Ho; [|done..].
  destruct (Ho eq_refl) as (l & -> & Hl). apply wpM_ret, wpM_ret. intros l' Heq. rewrite <- !app_assoc in Heq.
  apply app_inv_head in Heq as <-. split; [done|]. rewrite !elem_of_app. auto.
Qed.

(** The registrations, then the worker until it is interrupted. *)
Definition serves (regs : list registration) (r : res unit) : list worker_event :=
  map (fun g => did (WRegister g) tt) regs ++ [did RunWorker r].

Lemma register_run regs t (Q : list worker_event -> unit -> outcome unit -> Prop) :
  Q (t ++ map (fun g => did (WRegister g) tt) regs) tt (Ok tt) ->
  wpM (for_each regs (fun g => wk (WRegister g))) tt Q t.
Proof.
  revert t. induction regs as [|g regs IH]; intros t HQ; cbn [for_each map] in *; [by rewrite app_nil_r in HQ|].
  apply wpM_bind. intros []. apply IH. by rewrite <- app_assoc.
Qed.

(** What had been read and connected before: the configuration's file, the
    metrics' reporter, Temporal, AWS for ECR. *)
Record prepared (file : res string) (cfg : WorkerConfig) (l : list worker_event) : Prop := {
  pr_calls : Forall preparing l;
  pr_config : ParseWorkerConfig (fun _ => file) UnmarshalWorker Getenv config = Ok cfg;
  pr_file : did (WReadFile config) file ∈ l;
  pr_reporter : did (WNewReporter "0.0.0.0:9092") (inl tt) ∈ l;
  pr_temporal : did (WDial (Temporal cfg)) (inl tt) ∈ l;
  pr_aws : aws_loaded (GetActiveRegistry Getenv (Builder cfg)) l
}.

(** The server's connection: made, or not asked for, or failed. *)
Definition connected (conn : bool) (cfg : WorkerConfig) (l : list worker_event) : Prop :=
  if conn then did (NewClient (ServerAddress cfg)) (inl tt) ∈ l
  else ServerAddress cfg = "" \/ exists e, did (NewClient (ServerAddress cfg)) (inr e) ∈ l.

Lemma worker_prepared_app file cfg l l' : Forall preparing l' -> prepared file cfg l -> prepared file cfg (l ++ l').
Proof.
  intros Hl' [H1 H2 H3 H4 H5 H6]. constructor; [by rewrite Forall_app|done|apply elem_of_app; auto..|].
  intros E. apply elem_of_app. left. by apply H6.
Qed.

Lemma connected_app conn cfg l l' : connected conn cfg l -> connected conn cfg (l ++ l').
Proof.
  unfold connected. destruct conn; [intros H; apply elem_of_app; by left|].
  intros [H|[e H]]; [by left|right]. exists e. apply elem_of_app. by left.
Qed.

(** How a run of [main] ends: before anything was registered; or the worker
    ran with all of it and then made the calls of [last], unless it failed.
    [conn] tells whether it is connected to the server. *)
Inductive worked (conn : bool) (last : list worker_call) (t : list worker_event) (o : outcome unit) : Prop :=
| Unprepared l closing :
    t = l ++ closing -> Forall preparing l -> Forall (fun e => projT1 e = WCloseConn \/ projT1 e = WCloseClient) closing ->
    is_ok o = false -> worked conn last t o
| Served file cfg ts key cert r before closing :
    prepared file cfg before -> connected conn cfg before ->
    tailscale_ready (Tailscale cfg) before ts -> certified (LoadBalancer cfg) before (key, cert) ->
    t = before ++ serves (registrations cfg (GetActiveRegistry Getenv (Builder cfg))
          (String.eqb (Type_ (GetActiveRegistry Getenv (Builder cfg))) "ecr") conn ts key cert) r ++ closing ->
    match r with
    | inl _ => o = Ok tt /\ map projT1 closing = last
    | inr e => o = Err (EWrap "run" e) /\ closing = []
    end -> worked conn last t o.

Lemma worked_unprepared conn last l o : Forall preparing l -> is_ok o = false -> worked conn last l o.
Proof. intros Hl Ho. apply (Unprepared _ _ _ _ l []); by rewrite ?app_nil_r. Qed.

Lemma serve_run fuel cfg conn l file :
  prepared file cfg l -> connected conn cfg l ->
  let registry := GetActiveRegistry Getenv (Builder cfg) in
  wpM (serve fuel cfg registry (String.eqb (Type_ registry) "ecr") conn) tt (fun t _ o => worked conn [] t o) l.
Proof.
  intros Hp Hconn registry. unfold serve. pose proof (pr_calls _ _ _ Hp) as Hl.
  apply wpM_bind. eapply prepares_use; [apply prepares_tailscale| |].
  2: { intros l' [ts|e|msg|] Hl' Ho; try done; apply worked_unprepared; by rewrite ?Forall_app. }
  intros l1 ts Hl1 Hts. apply wpM_bind. eapply prepares_use; [apply prepares_certificates| |].
  2: { intros l' [ts'|e|msg|] Hl' Ho; try done; apply worked_unprepared; by rewrite ?Forall_app. }
  intros l2 [key cert] Hl2 Hkey. apply wpM_bind, register_run, wpM_bind. intros r.
  assert (Hts' : tailscale_ready (Tailscale cfg) ((l ++ l1) ++ l2) ts).
  { revert Hts. unfold tailscale_ready. destruct (_ && _); [|done]. intros [-> H]. split; [done|]. rewrite !elem_of_app. auto. }
  assert (Hkey' : certified (LoadBalancer cfg) ((l ++ l1) ++ l2) (key, cert)).
  { revert Hkey. unfold certified. destruct (_ && _); [|done]. intros (k & c & E & Hk & Hc). exists k, c.
    rewrite !elem_of_app. auto. }
  apply (worker_prepared_app _ _ _ (l1 ++ l2)) in Hp; [|by rewrite Forall_app]. apply (connected_app _ _ _ (l1 ++ l2)) in Hconn.
  rewrite app_assoc in Hp, Hconn.
  destruct r as [[]|e]; [apply wpM_ret|apply wpM_lift];
    (eapply (Served _ _ _ _ file cfg ts key cert _ ((l ++ l1) ++ l2) []); [done..| |]).
  - unfold serves. by rewrite app_nil_r, <- !app_assoc.
  - done.
  - unfold serves. by rewrite app_nil_r, <- !app_assoc.
  - done.
Qed.

Lemma wpM_defer_call {A} (f : WorkM unit) (m : WorkM A) s (Q : list worker_event -> unit -> outcome A -> Prop) t :
  wpM m s (fun t' s' o => match o with Err _ => Q t' s' o | _ => wpM (bindM f (fun _ => lift_outcome o)) s' Q t' end) t ->
  wpM (defer_call f m) s Q t.
Proof. intros Hm. unfold wpM, defer_call. apply wp_bind. eapply wp_mono; [|exact Hm]. by intros t' [s' []]. Qed.

(** A deferred closing call: made unless the run failed. *)
Lemma worked_close conn c last t o :
  c = WCloseConn \/ c = WCloseClient -> worked conn last t o ->
  match o with Err _ => worked conn (last ++ [c]) t o | _ => forall x, worked conn (last ++ [c]) (t ++ [did c x]) o end.
Proof.
  intros Hc [l closing -> Hl Hclosing Hok|file cfg ts key cert r before closing Hp Hconn Hts Hkey -> Hr].
  - assert (forall x, worked conn (last ++ [c]) ((l ++ closing) ++ [did c x]) o) as H.
    { intros x. apply (Unprepared _ _ _ _ l (closing ++ [did c x])); rewrite ?Forall_app, ?app_assoc; auto. }
    destruct o as [[]|e|msg|]; try done. by apply (Unprepared _ _ _ _ l closing).
  - destruct r as [[]|e]; destruct Hr as [-> Hr].
    + intros x. apply (Served _ _ _ _ file cfg ts key cert (inl tt) before (closing ++ [did c x])); auto; [by rewrite <- !app_assoc|].
      split; [done|]. rewrite map_app. by f_equal.
    + by apply (Served _ _ _ _ file cfg ts key cert (inr e) before closing).
Qed.

Lemma wpM_closing conn c last (m : WorkM unit) s t (f : WorkM unit) :
  c = WCloseConn \/ c = WCloseClient -> (forall s t (Q : list worker_event -> unit -> outcome unit -> Prop),
    (forall x, Q (t ++ [did c x]) tt (Ok tt)) -> wpM f s Q t) ->
  wpM m s (fun t' _ o => worked conn last t' o) t ->
  wpM (defer_call f m) s (fun t' _ o => worked conn (last ++ [c]) t' o) t.
Proof.
  intros Hc Hf Hm. apply wpM_defer_call. eapply wpM_mono; [|exact Hm]. intros t' [] o Ho. apply (worked_close _ c) in Ho; [|done].
  destruct o as [[]|e|msg|]; try done; apply wpM_bind, Hf; intros x; apply wpM_lift, Ho.
Qed.

Lemma connect_run fuel cfg l file :
  prepared file cfg l ->
  let registry := GetActiveRegistry Getenv (Builder cfg) in
  wpM (connect_server fuel cfg registry (String.eqb (Type_ registry) "ecr")) tt (fun t _ o =>
    exists conn : bool, worked conn (if conn then [WCloseConn] else []) t o) l.
Proof.
  intros Hp registry. unfold connect_server.
  assert (forall l', prepared file cfg l' -> connected false cfg l' ->
    wpM (serve fuel cfg registry (String.eqb (Type_ registry) "ecr") false) tt
      (fun t _ o => exists conn : bool, worked conn (if conn then [WCloseConn] else []) t o) l') as Hplain.
  { intros l' Hl' Hc. eapply wpM_mono; [|by apply (serve_run fuel cfg false l' file)]. intros t [] o Ho. by exists false. }
  destruct (String.eqb_spec (ServerAddress cfg) ""); [by apply Hplain; [|left]|]. apply wpM_bind. intros x.
  assert (Hp' : prepared file cfg (l ++ [did (NewClient (ServerAddress cfg)) x]))
    by (apply worker_prepared_app; [by repeat constructor|done]).
  destruct x as [[]|e].
  - eapply (wpM_mono _ _ (fun t _ o => worked true ([] ++ [WCloseConn]) t o)); [intros t s o Ho; by exists true|]. apply (wpM_closing true WCloseConn []); [by left| |].
    + intros [] t Q HQ. apply wpM_bind. intros x. apply wpM_ret, HQ.
    + apply (serve_run _ _ _ _ file); [done|]. apply elem_of_app. right. by left.
  - apply Hplain; [done|]. right. exists e. apply elem_of_app. right. by left.
Qed.

(** C28: the worker registers everything or nothing.  It runs only after the
    metrics' reporter and the connection to Temporal were made, with the
    workflow and its six activities registered, built from the
    configuration it read: the builder and the launch share the chains'
    images, the registry's kind and the AWS credentials, which were loaded
    exactly for ECR; the activities use Tailscale, once it is running,
    exactly when both of its secrets are given, report to a server only
    over a connection that was made, and have as key and certificate what
    the two files held, exactly when both are named.  The connections are
    closed when the worker ends, and not when it fails. *)
Theorem worker_main_spec (fuel : nat) :
  wpM (worker_main UnmarshalWorker Getenv config fuel) tt (fun t _ o =>
    exists conn : bool, worked conn ((if conn then [WCloseConn] else []) ++ [WCloseClient]) t o) [].
Proof.
  assert (Hbad : forall l o, Forall preparing l -> is_ok o = false ->
    exists conn : bool, worked conn ((if conn then [WCloseConn] else []) ++ [WCloseClient]) l o).
  { intros l o Hl Ho. exists false. by apply worked_unprepared. }
  unfold worker_main. apply wpM_bind. intros file. apply wpM_bind.
  destruct (ParseWorkerConfig _ _ _ _) as [cfg|e|msg|] eqn:Hcfg;
    [|by apply wpM_lift, Hbad; [repeat constructor|]..].
  apply wpM_ret, wpM_bind. intros reporter. apply wpM_bind.
  destruct reporter as [[]|e]; [|by apply wpM_lift, Hbad; [repeat constructor|]]. apply wpM_ret, wpM_bind. intros dialed. apply wpM_bind.
  destruct dialed as [[]|e]; [|by apply wpM_lift, Hbad; [repeat constructor|]]. apply wpM_ret. cbn [app].
  apply wpM_defer_call. eapply wpM_mono with (Q := fun t _ o => exists conn : bool, worked conn (if conn then [WCloseConn] else []) t o).
  { intros t [] o [conn Ho]. apply (worked_close _ WCloseClient) in Ho; [|by right].
    destruct o as [[]|e|msg|]; try (by exists conn); intros x; exists conn; apply Ho. }
  unfold with_client. apply wpM_bind. eapply prepares_use; [apply prepares_aws| |].
  - intros l aws Hl [-> Haws]. apply (connect_run _ _ _ file). constructor; [by repeat constructor|done|set_solver..|].
    intros E. rewrite elem_of_app. right. by apply Haws.
  - intros l [aws|e|msg|] Hl Ho; try done; exists false; apply worked_unprepared; try done; by repeat constructor.
Qed.
End run.
