(* ===== verification/RunnerWindows.v ===== *)
(** * The report runner's clock intervals: [cmd/local-report-runner/main.go]

    Phases of a run, intervals seen in the load window, and the time they
    cover together.  A time is in nanoseconds of the Unix epoch; the
    monotonic clock that rides on Go's times is not modelled. *)

From stdpp Require Import sorting.
From S2P Require Import Prelude GoStrings GoTime GoFloat.

(** January 1 of year 1, the zero [time.Time]. *)
Definition zero_time : Z := -62135596800 * Second.
Definition IsZero (t : Z) : bool := t =? zero_time.

Definition minTime (a b : Z) : Z := if a <? b then a else b.
Definition maxTime (a b : Z) : Z := if b <? a then a else b.

Definition overlapSeconds (aStart aEnd bStart bEnd : Z) : float :=
  let start := maxTime aStart bStart in
  let end_ := minTime aEnd bEnd in
  if negb (start <? end_) then fzero else Seconds (Sub end_ start).

(** ** Phases *)
Record phaseSpan := {
  ps_Name : string;
  ps_Started : Z;
  ps_Ended : Z;
  ps_Seconds : float;
  ps_Note : string
}.

(** The end of a phase, at [end_]. *)
Definition endPhase (timeline : list phaseSpan) (name note : string) (start end_ : Z) : list phaseSpan :=
  timeline ++ [{| ps_Name := name; ps_Started := start; ps_Ended := end_; ps_Seconds := Seconds (Sub end_ start);
                  ps_Note := note |}].

Fixpoint phaseSeconds (timeline : list phaseSpan) (name : string) : float :=
  match timeline with
  | [] => fzero
  | span :: timeline' => if String.eqb (ps_Name span) name then ps_Seconds span else phaseSeconds timeline' name
  end.

Fixpoint phaseSpanByName (spans : list phaseSpan) (name : string) : option phaseSpan :=
  match spans with
  | [] => None
  | span :: spans' => if String.eqb (ps_Name span) name then Some span else phaseSpanByName spans' name
  end.

Record loadWindowPhaseOverlap := {
  po_Name : string;
  po_Note : string;
  po_Started : Z;
  po_Ended : Z;
  PhaseSeconds : float;
  BeforeWindowSeconds : float;
  InWindowSeconds : float;
  AfterWindowSeconds : float;
  Classification : string
}.

Definition classifyLoadWindowPhase (before inside after : float) : string :=
  if feq inside fzero && flt fzero before && feq after fzero then "before_window"
  else if feq inside fzero && flt fzero after && feq before fzero then "after_window"
  else if flt fzero before && flt fzero after then "spans_window"
  else if flt fzero before then "crosses_window_start"
  else if flt fzero after then "crosses_window_end"
  else if flt fzero inside then "inside_window"
  else "outside_window".

(** One round of the loop, on a span the tests let pass. *)
Definition phase_row (windowStart windowEnd : Z) (span : phaseSpan) : loadWindowPhaseOverlap :=
  let started := ps_Started span in
  let ended := ps_Ended span in
  let before :=
    if started <? windowStart then
      let beforeEnd := minTime ended windowStart in
      if started <? beforeEnd then Seconds (Sub beforeEnd started) else fzero
    else fzero in
  let inStart := maxTime started windowStart in
  let inEnd := minTime ended windowEnd in
  let inside := if inStart <? inEnd then Seconds (Sub inEnd inStart) else fzero in
  let after :=
    if windowEnd <? ended then
      let afterStart := maxTime started windowEnd in
      if afterStart <? ended then Seconds (Sub ended afterStart) else fzero
    else fzero in
  {| po_Name := ps_Name span; po_Note := ps_Note span; po_Started := started; po_Ended := ended;
     PhaseSeconds := Seconds (Sub ended started); BeforeWindowSeconds := before; InWindowSeconds := inside;
     AfterWindowSeconds := after; Classification := classifyLoadWindowPhase before inside after |}.

Definition usable_span (span : phaseSpan) : bool :=
  negb (IsZero (ps_Started span) || IsZero (ps_Ended span) || negb (ps_Started span <? ps_Ended span)).

Definition summarizeLoadWindowPhaseOverlaps (spans : list phaseSpan) (startedAt endedAt : Z)
    : list loadWindowPhaseOverlap :=
  if Nat.eqb (length spans) 0 || IsZero startedAt || IsZero endedAt || negb (startedAt <? endedAt) then []
  else map (phase_row startedAt endedAt) (filter (fun span => usable_span span = true) spans).

(** ** Intervals *)
Record loadWindowInterval := {
  li_Name : string;
  li_Class : string;
  li_Method : string;
  li_Source : string;
  li_Provenance : string;
  li_Started : Z;
  li_Ended : Z;
  li_Seconds : float;
  li_Note : string
}.

Record clippedClockInterval := { started : Z; ended : Z }.

Record loadWindowIntervalAttribution := {
  ia_Class : string;
  ia_Method : string;
  ia_Source : string;
  ia_Provenance : string;
  ia_IntervalCount : nat;
  ia_UnionSeconds : float
}.

Definition loadWindowIntervalMatchesNode (interval : loadWindowInterval) (nodeName : string) : bool :=
  if String.eqb nodeName "" then true else String.eqb (li_Name interval) nodeName.

Definition clipLoadWindowInterval (interval : loadWindowInterval) (windowStart windowEnd : Z)
    : option clippedClockInterval :=
  if IsZero (li_Started interval) || IsZero (li_Ended interval) || negb (li_Started interval <? li_Ended interval) then None
  else
    let s := maxTime (li_Started interval) windowStart in
    let e := minTime (li_Ended interval) windowEnd in
    if negb (s <? e) then None else Some {| started := s; ended := e |}.

(** The order of the sort; equal elements are the same interval. *)
Definition interval_le (a b : clippedClockInterval) : Prop :=
  if started a =? started b then ended a <= ended b else started a < started b.
#[export] Instance interval_le_dec : RelDecision interval_le.
Proof. intros a b. unfold interval_le. destruct (_ =? _); apply _. Defined.

(** The loop over the ordered intervals; [last] is the last of [merged]. *)
Fixpoint merge_ordered (last : clippedClockInterval) (l : list clippedClockInterval) : list clippedClockInterval :=
  match l with
  | [] => [last]
  | interval :: l' =>
      if negb (ended last <? started interval) then
        merge_ordered
          (if ended last <? ended interval then {| started := started last; ended := ended interval |} else last) l'
      else last :: merge_ordered interval l'
  end.

Definition mergeClippedClockIntervals (intervals : list clippedClockInterval) : list clippedClockInterval :=
  match merge_sort interval_le intervals with
  | [] => []
  | first :: ordered => merge_ordered first ordered
  end.

Definition clippedClockIntervalUnionSeconds (intervals : list clippedClockInterval) : float :=
  foldl (fun total interval => fadd total (Seconds (Sub (ended interval) (started interval)))) fzero
    (mergeClippedClockIntervals intervals).

(** ** By class *)
Definition str_le (a b : string) : Prop := String.leb a b = true.
#[export] Instance str_le_dec : RelDecision str_le.
Proof. intros a b. unfold str_le. apply _. Defined.

(** The keys of a map used as a set, sorted: the order of its range does not
    matter. *)
Definition sortedSetSummary (values : gset string) : string :=
  Join (merge_sort str_le (elements values)) ", ".

Definition interval_provenance (interval : loadWindowInterval) : gset string :=
  let source := li_Provenance interval in
  let source := if String.eqb source "" then li_Source interval else source in
  if negb (String.eqb source "") then {[source]} else ∅.

Definition class_step (nodeName class : string) (windowStart windowEnd : Z)
    (acc : list clippedClockInterval * gset string) (interval : loadWindowInterval)
    : list clippedClockInterval * gset string :=
  if negb (String.eqb (li_Class interval) class) || negb (loadWindowIntervalMatchesNode interval nodeName) then acc
  else
    match clipLoadWindowInterval interval windowStart windowEnd with
    | None => acc
    | Some next => (acc.1 ++ [next], interval_provenance interval ∪ acc.2)
    end.

Definition loadWindowIntervalClassUnion (intervals : list loadWindowInterval) (nodeName class : string)
    (windowStart windowEnd : Z) : float * nat * string :=
  if Nat.eqb (length intervals) 0 || String.eqb class "" || IsZero windowStart || IsZero windowEnd ||
     negb (windowStart <? windowEnd) then (fzero, 0%nat, "")
  else
    let '(clipped, provenance) := foldl (class_step nodeName class windowStart windowEnd) ([], ∅) intervals in
    (clippedClockIntervalUnionSeconds clipped, length clipped, sortedSetSummary provenance).

Abbreviation interval_key := (string * string * string * string)%type.
Definition key_of (interval : loadWindowInterval) : interval_key :=
  (li_Class interval, li_Method interval, li_Source interval, li_Provenance interval).

Definition group_step (nodeName : string) (windowStart windowEnd : Z)
    (groups : gmap interval_key (list clippedClockInterval)) (interval : loadWindowInterval) :=
  if negb (loadWindowIntervalMatchesNode interval nodeName) then groups
  else
    match clipLoadWindowInterval interval windowStart windowEnd with
    | None => groups
    | Some clipped => <[key_of interval := default [] (groups !! key_of interval) ++ [clipped]]> groups
    end.

Definition str_lt (a b : string) : bool := String.ltb a b.

(** The order of the attributions. *)
Definition attribution_before (a b : loadWindowIntervalAttribution) : bool :=
  if negb (String.eqb (ia_Class a) (ia_Class b)) then str_lt (ia_Class a) (ia_Class b)
  else if negb (String.eqb (ia_Method a) (ia_Method b)) then str_lt (ia_Method a) (ia_Method b)
  else if negb (String.eqb (ia_Source a) (ia_Source b)) then str_lt (ia_Source a) (ia_Source b)
  else str_lt (ia_Provenance a) (ia_Provenance b).
Definition attribution_le (a b : loadWindowIntervalAttribution) : Prop := attribution_before b a = false.
#[export] Instance attribution_le_dec : RelDecision attribution_le.
Proof. intros a b. unfold attribution_le. apply _. Defined.

Definition attribution (group : interval_key * list clippedClockInterval) : loadWindowIntervalAttribution :=
  let '(class, method, source, provenance, clipped) := group in
  {| ia_Class := class; ia_Method := method; ia_Source := source; ia_Provenance := provenance;
     ia_IntervalCount := length clipped; ia_UnionSeconds := clippedClockIntervalUnionSeconds clipped |}.

(** The groups have different keys, so the sort leaves one order. *)
Definition summarizeLoadWindowIntervalAttributions (intervals : list loadWindowInterval) (nodeName : string)
    (windowStart windowEnd : Z) : list loadWindowIntervalAttribution :=
  if Nat.eqb (length intervals) 0 || IsZero windowStart || IsZero windowEnd || negb (windowStart <? windowEnd) then []
  else
    merge_sort attribution_le
      (map attribution (map_to_list (foldl (group_step nodeName windowStart windowEnd) ∅ intervals))).

(** ** Merging *)

(** An instant in an interval, and in one of several. *)
Definition inside (t : Z) (i : clippedClockInterval) : bool := (started i <=? t) && (t <? ended i).
Definition covered (l : list clippedClockInterval) (t : Z) : bool := existsb (inside t) l.

Definition proper (i : clippedClockInterval) : Prop := started i < ended i.

(** Intervals in order, with a gap between any two. *)
Definition apart : list clippedClockInterval -> Prop := StronglySorted (fun a b => ended a < started b).

#[export] Instance interval_le_total : Total interval_le.
Proof. intros a b. unfold interval_le. destruct (Z.eqb_spec (started a) (started b)), (Z.eqb_spec (started b) (started a)); lia. Qed.
#[export] Instance interval_le_trans : Transitive interval_le.
Proof.
  intros a b c. unfold interval_le.
  destruct (Z.eqb_spec (started a) (started b)), (Z.eqb_spec (started b) (started c)), (Z.eqb_spec (started a) (started c)); lia.
Qed.

Lemma interval_le_started a b : interval_le a b -> started a <= started b.
Proof. unfold interval_le. destruct (Z.eqb_spec (started a) (started b)); lia. Qed.

Lemma inside_true t i : inside t i = true <-> started i <= t < ended i.
Proof. unfold inside. rewrite andb_true_iff, Z.leb_le, Z.ltb_lt. lia. Qed.

Lemma covered_true l t : covered l t = true <-> exists i, i ∈ l /\ started i <= t < ended i.
Proof.
  unfold covered. rewrite existsb_exists. setoid_rewrite <- list_elem_of_In. by setoid_rewrite inside_true.
Qed.

Lemma covered_cons i l t : covered (i :: l) t = inside t i || covered l t.
Proof. done. Qed.

(** What the loop keeps: the instants, and, of every interval it emits, that it
    starts no earlier than the first. *)
Lemma merge_ordered_spec last l :
  proper last -> Forall proper l -> Forall (fun i => started last <= started i) l -> StronglySorted interval_le l ->
  Forall proper (merge_ordered last l) /\ apart (merge_ordered last l) /\
  Forall (fun i => started last <= started i) (merge_ordered last l) /\
  forall t, covered (merge_ordered last l) t = covered (last :: l) t.
Proof.
  revert last. induction l as [|i l IH]; intros last Hlast Hl Hge Hsorted; cbn [merge_ordered].
  { split_and!; [by repeat constructor|by repeat constructor| |done]. constructor; [lia|constructor]. }
  apply Forall_cons in Hl as [Hi Hl]. apply Forall_cons in Hge as [Hge Hges]. apply StronglySorted_inv in Hsorted as [Hsorted Hle].
  destruct (Z.ltb_spec (ended last) (started i)) as [Hgap|Htouch]; cbn [negb].
  - destruct (IH i Hi Hl) as (Hp & Ha & Hs & Hc); [|done|].
    { eapply Forall_impl; [exact Hle|]. apply interval_le_started. }
    split_and!; [by constructor| | |].
    + constructor; [done|]. eapply Forall_impl; [done|]. cbn. lia.
    + constructor; [lia|]. eapply Forall_impl; [done|]. cbn. lia.
    + intros t. by rewrite covered_cons, Hc.
  - set (last' := if _ <? _ then _ else _).
    assert (Hlast' : started last' = started last /\ ended last' = Z.max (ended last) (ended i))
      by (unfold last'; destruct (Z.ltb_spec (ended last) (ended i)); cbn; lia).
    destruct Hlast' as [Hs' He'].
    destruct (IH last') as (Hp & Ha & Hs & Hc); [unfold proper in *; lia|done|by rewrite Hs'|done|].
    split_and!; [done|done|by rewrite Hs' in Hs|]. intros t. rewrite Hc, !covered_cons, orb_assoc. f_equal.
    apply eq_true_iff_eq. rewrite orb_true_iff, !inside_true, Hs', He'. unfold proper in *. lia.
Qed.

Lemma covered_perm l l' t : l ≡ₚ l' -> covered l t = covered l' t.
Proof. intros Hl. apply eq_true_iff_eq. rewrite !covered_true. by setoid_rewrite Hl. Qed.

Lemma merge_spec intervals : Forall proper intervals ->
  Forall proper (mergeClippedClockIntervals intervals) /\ apart (mergeClippedClockIntervals intervals) /\
  forall t, covered (mergeClippedClockIntervals intervals) t = covered intervals t.
Proof.
  intros Hp. unfold mergeClippedClockIntervals.
  pose proof (merge_sort_Permutation interval_le intervals) as Hperm.
  pose proof (StronglySorted_merge_sort interval_le intervals) as Hsorted.
  destruct (merge_sort interval_le intervals) as [|first l] eqn:Hm.
  { apply Permutation_nil_l in Hperm as <-. split_and!; [done|constructor|done]. }
  assert (Hps : Forall proper (first :: l)) by (by rewrite Hperm). apply Forall_cons in Hps as [Hf Hl].
  apply StronglySorted_inv in Hsorted as [Hsorted Hle].
  destruct (merge_ordered_spec first l Hf Hl) as (H1 & H2 & _ & H3); [|done|].
  { eapply Forall_impl; [exact Hle|]. apply interval_le_started. }
  split_and!; [done|done|]. intros t. rewrite H3. by apply covered_perm.
Qed.

(** ** Measuring *)
Definition nanos (l : list clippedClockInterval) : Z := foldr (fun i n => (ended i - started i) + n) 0 l.

(** The number of nanoseconds of a window that satisfy [p], one by one. *)
Definition count (p : Z -> bool) (windowStart windowEnd : Z) : Z :=
  Z.of_nat (length (List.filter p (seqZ windowStart (windowEnd - windowStart)))).

Lemma filter_all {A} (p : A -> bool) l : (forall x, x ∈ l -> p x = true) -> List.filter p l = l.
Proof.
  induction l as [|x l IH]; intros Hp; cbn; [done|]. rewrite (Hp x) by (by left). f_equal. apply IH. intros y Hy. apply Hp. by right.
Qed.
Lemma filter_none {A} (p : A -> bool) l : (forall x, x ∈ l -> p x = false) -> List.filter p l = [].
Proof.
  induction l as [|x l IH]; intros Hp; cbn; [done|]. rewrite (Hp x) by (by left). apply IH. intros y Hy. apply Hp. by right.
Qed.

Lemma count_split p a b c : a <= b <= c -> count p a c = count p a b + count p b c.
Proof.
  intros H. unfold count. replace (c - a) with ((b - a) + (c - b)) by lia. rewrite seqZ_app by lia.
  rewrite List.filter_app, length_app. replace (a + (b - a)) with b by lia. lia.
Qed.
Lemma count_none p a b : (forall t, a <= t < b -> p t = false) -> count p a b = 0.
Proof. intros H. unfold count. rewrite filter_none; [done|]. intros t Ht. apply elem_of_seqZ in Ht. apply H. lia. Qed.
Lemma count_all p a b : a <= b -> (forall t, a <= t < b -> p t = true) -> count p a b = b - a.
Proof.
  intros Hab H. unfold count. rewrite filter_all, length_seqZ; [lia|]. intros t Ht. apply elem_of_seqZ in Ht. apply H. lia.
Qed.
Lemma count_ext p q a b : (forall t, p t = q t) -> count p a b = count q a b.
Proof. intros H. unfold count. do 2 f_equal. apply filter_ext. done. Qed.

Definition within (windowStart windowEnd : Z) (i : clippedClockInterval) : Prop :=
  windowStart <= started i /\ ended i <= windowEnd.

(** The lengths of separate intervals add up to the instants they cover. *)
Lemma apart_count l ws we :
  ws <= we -> Forall proper l -> Forall (within ws we) l -> apart l -> nanos l = count (covered l) ws we.
Proof.
  revert ws. induction l as [|i l IH]; intros ws Hw Hp Hin Ha; [by rewrite count_none|].
  apply Forall_cons in Hp as [Hi Hp]. apply Forall_cons in Hin as [[Hi1 Hi2] Hin].
  apply StronglySorted_inv in Ha as [Ha Hgap]. unfold proper in Hi. rewrite Forall_forall in Hgap.
  rewrite (count_split _ ws (started i)), (count_split _ (started i) (ended i)) by lia.
  rewrite count_none, (count_all _ (started i)).
  - cbn [nanos foldr]. fold (nanos l). rewrite (IH (ended i)); [|lia|done| |done].
    + rewrite Z.add_0_l. f_equal. unfold count. do 2 f_equal. apply List.filter_ext_in. intros t Ht.
      apply list_elem_of_In, elem_of_seqZ in Ht. rewrite covered_cons.
      assert (inside t i = false) as -> by (unfold inside; lia). done.
    + rewrite Forall_forall in *. intros j Hj. split; [specialize (Hgap j Hj); lia|by apply Hin].
  - lia.
  - intros t Ht. rewrite covered_cons. by rewrite (proj2 (inside_true t i)).
  - intros t Ht. apply not_true_iff_false. rewrite covered_true. intros (j & Hj & Hjt).
    apply elem_of_cons in Hj as [->|Hj]; [lia|]. specialize (Hgap j Hj). lia.
Qed.

Lemma merge_ordered_within ws we last l :
  within ws we last -> Forall (within ws we) l -> Forall (within ws we) (merge_ordered last l).
Proof.
  revert last. induction l as [|i l IH]; intros last Hlast Hl; cbn [merge_ordered]; [by constructor|].
  apply Forall_cons in Hl as [Hi Hl]. destruct (negb _); [|constructor; [done|by apply IH]].
  apply IH; [|done]. destruct (_ <? _); [|done]. unfold within in *. cbn. lia.
Qed.

Lemma merge_within ws we l : Forall (within ws we) l -> Forall (within ws we) (mergeClippedClockIntervals l).
Proof.
  intros Hl. unfold mergeClippedClockIntervals. pose proof (merge_sort_Permutation interval_le l) as Hperm.
  destruct (merge_sort interval_le l) as [|first l']; [done|]. rewrite <- Hperm in Hl. apply Forall_cons in Hl as [H1 H2].
  by apply merge_ordered_within.
Qed.

(** An interval counts in the window: its ends are times, it is not empty,
    and it meets the window. *)
Definition usable_interval (i : loadWindowInterval) : bool :=
  negb (IsZero (li_Started i)) && negb (IsZero (li_Ended i)) && (li_Started i <? li_Ended i).

Lemma clip_spec i ws we c :
  clipLoadWindowInterval i ws we = Some c ->
  usable_interval i = true /\ proper c /\ within ws we c /\
  forall t, inside t c = true <-> ws <= t < we /\ li_Started i <= t < li_Ended i.
Proof.
  unfold clipLoadWindowInterval, usable_interval.
  destruct (IsZero (li_Started i)), (IsZero (li_Ended i)), (Z.ltb_spec (li_Started i) (li_Ended i)); cbn [orb negb andb]; try done.
  unfold maxTime, minTime. destruct (Z.ltb_spec ws (li_Started i)), (Z.ltb_spec (li_Ended i) we);
    (lazymatch goal with |- context [negb (?a <? ?b)] => destruct (Z.ltb_spec a b); cbn [negb]; [|done] end); intros [= <-];
    (split; [done|]); (split; [done|]); (split; [split; cbn; lia|]); intros t; rewrite inside_true; cbn; lia.
Qed.

Lemma clip_none i ws we t :
  clipLoadWindowInterval i ws we = None -> usable_interval i = true -> ws <= t < we -> li_Started i <= t < li_Ended i -> False.
Proof.
  unfold clipLoadWindowInterval, usable_interval.
  destruct (IsZero (li_Started i)), (IsZero (li_Ended i)), (Z.ltb_spec (li_Started i) (li_Ended i)); cbn [orb negb andb]; try done.
  unfold maxTime, minTime. destruct (Z.ltb_spec ws (li_Started i)), (Z.ltb_spec (li_Ended i) we);
    (lazymatch goal with |- context [negb (?a <? ?b)] => destruct (Z.ltb_spec a b); cbn [negb]; [done|] end); lia.
Qed.

Section class.
Variables (nodeName class : string) (ws we : Z).

Definition of_class (i : loadWindowInterval) : bool :=
  String.eqb (li_Class i) class && loadWindowIntervalMatchesNode i nodeName && usable_interval i.
Definition counted (i : loadWindowInterval) : bool :=
  of_class i && (Z.max (li_Started i) ws <? Z.min (li_Ended i) we).
(** An interval of the class is open at an instant. *)
Definition open_at (intervals : list loadWindowInterval) (t : Z) : bool :=
  existsb (fun i => of_class i && (li_Started i <=? t) && (t <? li_Ended i)) intervals.

Definition clipped_of (i : loadWindowInterval) : option clippedClockInterval :=
  if String.eqb (li_Class i) class && loadWindowIntervalMatchesNode i nodeName then clipLoadWindowInterval i ws we else None.

Lemma counted_clipped i : counted i = true <-> is_Some (clipped_of i).
Proof.
  unfold counted, of_class, clipped_of, clipLoadWindowInterval, usable_interval, maxTime, minTime.
  destruct (_ && loadWindowIntervalMatchesNode i nodeName); cbn [andb]; [|by split; [|intros [? ?]]].
  destruct (IsZero (li_Started i)), (IsZero (li_Ended i)), (Z.ltb_spec (li_Started i) (li_Ended i)); cbn [orb negb andb];
    try by (split; [|intros [? ?]]).
  destruct (Z.ltb_spec ws (li_Started i)), (Z.ltb_spec (li_Ended i) we);
    (lazymatch goal with |- context [negb (?a <? ?b)] => destruct (Z.ltb_spec a b); cbn [negb] end);
    rewrite Z.ltb_lt; split; intros Hc; try lia; try (by eexists); by destruct Hc.
Qed.

Lemma class_step_run intervals clipped provenance :
  foldl (class_step nodeName class ws we) (clipped, provenance) intervals =
  (clipped ++ omap clipped_of intervals, ⋃ (map interval_provenance (List.filter counted intervals)) ∪ provenance).
Proof.
  revert clipped provenance. induction intervals as [|i intervals IH]; intros clipped provenance.
  { cbn. rewrite app_nil_r. f_equal. set_solver. }
  cbn [foldl omap list_omap List.filter]. pose proof (counted_clipped i) as Hi.
  assert (class_step nodeName class ws we (clipped, provenance) i =
    match clipped_of i with None => (clipped, provenance)
    | Some c => (clipped ++ [c], interval_provenance i ∪ provenance) end) as ->.
  { unfold class_step, clipped_of. by destruct (String.eqb _ _), (loadWindowIntervalMatchesNode _ _). }
  destruct (clipped_of i) as [c|]; rewrite IH.
  - rewrite (proj2 Hi) by (by eexists). cbn [map union_list foldr]. rewrite <- app_assoc. f_equal. set_solver.
  - destruct (counted i); [by destruct (proj1 Hi eq_refl)|done].
Qed.

Lemma clipped_of_spec intervals :
  ws < we -> Forall proper (omap clipped_of intervals) /\ Forall (within ws we) (omap clipped_of intervals) /\
  forall t, covered (omap clipped_of intervals) t = (ws <=? t) && (t <? we) && open_at intervals t.
Proof.
  intros Hw. assert (Hclip : forall i c, clipped_of i = Some c -> of_class i = true /\ proper c /\ within ws we c /\
    forall t, inside t c = true <-> ws <= t < we /\ li_Started i <= t < li_Ended i).
  { intros i c. unfold clipped_of, of_class. destruct (_ && loadWindowIntervalMatchesNode i nodeName); [|done].
    apply clip_spec. }
  split_and!.
  1,2: apply Forall_forall; intros c (i & _ & Hc)%list_elem_of_omap; by apply Hclip in Hc as (_ & ? & ? & _).
  intros t. unfold open_at. apply eq_true_iff_eq. unfold covered. rewrite !andb_true_iff, !existsb_exists, Z.leb_le, Z.ltb_lt.
  setoid_rewrite <- list_elem_of_In. split.
  - intros (c & (i & Hi & Hc)%list_elem_of_omap & Ht). apply Hclip in Hc as (Hof & _ & _ & Hin). apply Hin in Ht as [Hwin Hi'].
    split; [done|]. exists i. split; [done|]. by rewrite Hof; lia.
  - intros [Hwin (i & Hi & Ht)]. rewrite !andb_true_iff, Z.leb_le, Z.ltb_lt in Ht. destruct Ht as [[Hof Hs] He].
    destruct (clipped_of i) as [c|] eqn:Hc.
    + exists c. split; [apply list_elem_of_omap; by exists i|]. apply Hclip in Hc as (_ & _ & _ & Hin). by apply Hin.
    + exfalso. unfold clipped_of, of_class in *. apply andb_true_iff in Hof as [Hof Hu]. rewrite Hof in Hc.
      by apply (clip_none i ws we t Hc).
Qed.

Lemma class_union_run intervals : class <> "" -> IsZero ws = false -> IsZero we = false -> ws < we ->
  loadWindowIntervalClassUnion intervals nodeName class ws we =
  (clippedClockIntervalUnionSeconds (omap clipped_of intervals), length (List.filter counted intervals),
   sortedSetSummary (⋃ (map interval_provenance (List.filter counted intervals)))).
Proof.
  intros Hclass Hws Hwe Hw. unfold loadWindowIntervalClassUnion.
  rewrite Hws, Hwe, (proj2 (String.eqb_neq class "")), (proj2 (Z.ltb_lt ws we)) by done.
  destruct intervals as [|i intervals]; [done|]. cbn [length Nat.eqb orb negb].
  rewrite class_step_run. cbn [app]. f_equal; [f_equal|f_equal; set_solver].
  generalize (i :: intervals). intros l. induction l as [|j l IH]; [done|]. cbn [omap list_omap List.filter].
  pose proof (counted_clipped j) as Hj. destruct (clipped_of j); [rewrite (proj2 Hj) by (by eexists); cbn; by rewrite IH|].
  destruct (counted j); [by destruct (proj1 Hj eq_refl)|done].
Qed.

(** C21: the union of a class is the time it was active in the window.  The
    merged intervals are separate and cover exactly the instants of the
    window at which some usable interval of the class and node is open;
    their lengths add up to the number of these nanoseconds, and the answer
    is the sum of their seconds, with the number of intervals that meet the
    window and the names of their sources. *)
Theorem loadWindowIntervalClassUnion_spec (intervals : list loadWindowInterval) :
  class <> "" -> IsZero ws = false -> IsZero we = false -> ws < we -> we - ws < 2^63 ->
  exists merged,
    loadWindowIntervalClassUnion intervals nodeName class ws we =
      (foldl fadd fzero (map (fun i => Seconds (ended i - started i)) merged), length (List.filter counted intervals),
       sortedSetSummary (⋃ (map interval_provenance (List.filter counted intervals)))) /\
    apart merged /\ Forall proper merged /\
    (forall t, covered merged t = (ws <=? t) && (t <? we) && open_at intervals t) /\
    nanos merged = count (open_at intervals) ws we.
Proof.
  intros Hclass Hws Hwe Hw Hrange. destruct (clipped_of_spec intervals Hw) as (Hp & Hin & Hc).
  exists (mergeClippedClockIntervals (omap clipped_of intervals)).
  pose proof (merge_within ws we _ Hin) as Hmin. destruct (merge_spec _ Hp) as (Hmp & Hma & Hmc).
  split_and!; [|done|done|intros t; by rewrite Hmc, Hc|].
  - rewrite class_union_run by done. do 2 f_equal.
    unfold clippedClockIntervalUnionSeconds.
    rewrite Forall_forall in Hmin. unfold proper in Hmp. rewrite Forall_forall in Hmp.
    revert Hmin Hmp. generalize fzero. generalize (mergeClippedClockIntervals (omap clipped_of intervals)).
    intros l. induction l as [|c l IH]; intros x Hmin Hmp; [done|]. cbn [foldl map].
    rewrite Sub_small; [apply IH; [intros j Hj; apply Hmin|intros j Hj; apply Hmp]; by right|].
    destruct (Hmin c) as [? ?]; [by left|]. specialize (Hmp c ltac:(by left)). lia.
  - rewrite (apart_count _ ws we) by (done || lia). unfold count. do 2 f_equal. apply List.filter_ext_in.
    intros t Ht%list_elem_of_In%elem_of_seqZ. rewrite Hmc, Hc.
    destruct (Z.leb_spec ws t), (Z.ltb_spec t we); [done|lia..].
Qed.
End class.

(** ** Phases around the window *)

(** A phase's row, from the nanoseconds it spends before, in and after the
    window, and its place by its ends. *)
Definition row_of (ws we : Z) (span : phaseSpan) : loadWindowPhaseOverlap :=
  let s := ps_Started span in
  let e := ps_Ended span in
  {| po_Name := ps_Name span; po_Note := ps_Note span; po_Started := s; po_Ended := e;
     PhaseSeconds := Seconds (e - s);
     BeforeWindowSeconds := Seconds (count (fun t => t <? ws) s e);
     InWindowSeconds := Seconds (count (fun t => (ws <=? t) && (t <? we)) s e);
     AfterWindowSeconds := Seconds (count (fun t => we <=? t) s e);
     Classification :=
       if e <=? ws then "before_window"
       else if we <=? s then "after_window"
       else if (s <? ws) && (we <? e) then "spans_window"
       else if s <? ws then "crosses_window_start"
       else if we <? e then "crosses_window_end"
       else "inside_window" |}.

Lemma count_below ws s e : s <= e -> count (fun t => t <? ws) s e = Z.max 0 (Z.min e ws - s).
Proof.
  intros H. rewrite (count_split _ s (Z.max s (Z.min e ws))) by lia.
  rewrite count_all, count_none by (intros; lia). lia.
Qed.
Lemma count_above we s e : s <= e -> count (fun t => we <=? t) s e = Z.max 0 (e - Z.max s we).
Proof.
  intros H. rewrite (count_split _ s (Z.min e (Z.max s we))) by lia.
  rewrite count_none, (count_all _ (Z.min e _)) by (intros; lia). lia.
Qed.
Lemma count_between ws we s e : s <= e -> ws <= we ->
  count (fun t => (ws <=? t) && (t <? we)) s e = Z.max 0 (Z.min e we - Z.max s ws).
Proof.
  intros H Hw. destruct (Z.le_gt_cases (Z.min e we) (Z.max s ws)) as [Hno|Hyes].
  { rewrite count_none; [lia|]. intros t Ht. lia. }
  rewrite (count_split _ s (Z.max s ws)), (count_split _ (Z.max s ws) (Z.min e we)) by lia.
  rewrite count_none, count_all, count_none by (intros; lia). lia.
Qed.

Lemma parts_add_up ws we s e : s <= e -> ws <= we ->
  count (fun t => t <? ws) s e + count (fun t => (ws <=? t) && (t <? we)) s e + count (fun t => we <=? t) s e = e - s.
Proof. intros H Hw. rewrite count_below, count_above, count_between by done. lia. Qed.

(** Each of the tests on two ends picks one of the signs. *)
Lemma positive_part (c : bool) x d : 0 <= d < 2^63 -> (c = true -> x = d) -> (c = true <-> 0 < d) ->
  (if c then Seconds x else fzero) = Seconds d.
Proof.
  intros Hd Hx Hc. destruct c; [by rewrite Hx|]. destruct (Z.eq_dec d 0) as [->|Hnz]; [by rewrite Seconds_zero|].
  assert (false = true) by (apply Hc; lia). done.
Qed.

Lemma usable_span_proper span : usable_span span = true -> ps_Started span < ps_Ended span.
Proof.
  unfold usable_span. destruct (IsZero _), (IsZero _), (Z.ltb_spec (ps_Started span) (ps_Ended span)); done.
Qed.

Lemma phase_row_of ws we span :
  usable_span span = true -> ws < we -> ps_Ended span - ps_Started span < 2^63 ->
  phase_row ws we span = row_of ws we span.
Proof.
  intros Hspan Hw Hlen. pose proof (usable_span_proper _ Hspan) as Hse.
  unfold phase_row, row_of. set (s := ps_Started span) in *. set (e := ps_Ended span) in *.
  rewrite count_below, count_above, count_between by lia.
  assert (Hb : (if s <? ws then if s <? minTime e ws then Seconds (Sub (minTime e ws) s) else fzero else fzero) =
    Seconds (Z.max 0 (Z.min e ws - s))).
  { destruct (Z.ltb_spec s ws).
    - apply positive_part; rewrite ?Z.ltb_lt; unfold Sub, minTime; destruct (Z.ltb_spec e ws); lia.
    - rewrite Z.max_l by lia. by rewrite Seconds_zero. }
  assert (Hi : (if maxTime s ws <? minTime e we then Seconds (Sub (minTime e we) (maxTime s ws)) else fzero) =
    Seconds (Z.max 0 (Z.min e we - Z.max s ws))).
  { apply positive_part; rewrite ?Z.ltb_lt; unfold Sub, minTime, maxTime; destruct (Z.ltb_spec e we), (Z.ltb_spec ws s); lia. }
  assert (Ha : (if we <? e then if maxTime s we <? e then Seconds (Sub e (maxTime s we)) else fzero else fzero) =
    Seconds (Z.max 0 (e - Z.max s we))).
  { destruct (Z.ltb_spec we e).
    - apply positive_part; rewrite ?Z.ltb_lt; unfold Sub, maxTime; destruct (Z.ltb_spec we s); lia.
    - rewrite Z.max_l by lia. by rewrite Seconds_zero. }
  cbv zeta. rewrite Hb, Hi, Ha, Sub_small by lia. f_equal. unfold classifyLoadWindowPhase.
  rewrite !Seconds_lt, !Seconds_eq by lia.
  destruct (Z.leb_spec e ws), (Z.leb_spec we s), (Z.ltb_spec s ws), (Z.ltb_spec we e); try lia; cbn [andb];
  repeat lazymatch goal with
  | |- context [?a =? 0] => destruct (Z.eqb_spec a 0); try lia; cbn [andb]
  | |- context [0 <? ?a] => destruct (Z.ltb_spec 0 a); try lia; cbn [andb]
  end; done.
Qed.

(** The overlap rows.  For a window that is not empty, there is one row
    per phase whose ends are times, in order; the row has the seconds of the
    nanoseconds the phase spends before, in and after the window, which add
    up to its length, and the class its ends say, never "outside_window". *)
Theorem summarizeLoadWindowPhaseOverlaps_spec (spans : list phaseSpan) (ws we : Z) :
  IsZero ws = false -> IsZero we = false -> ws < we ->
  (forall span, span ∈ spans -> ps_Ended span - ps_Started span < 2^63) ->
  summarizeLoadWindowPhaseOverlaps spans ws we = map (row_of ws we) (List.filter usable_span spans) /\
  forall span, span ∈ spans -> usable_span span = true ->
    let s := ps_Started span in
    let e := ps_Ended span in
    count (fun t => t <? ws) s e + count (fun t => (ws <=? t) && (t <? we)) s e + count (fun t => we <=? t) s e = e - s /\
    Classification (row_of ws we span) <> "outside_window".
Proof.
  intros Hws Hwe Hw Hlen. unfold summarizeLoadWindowPhaseOverlaps. rewrite Hws, Hwe, (proj2 (Z.ltb_lt ws we)) by done.
  split.
  - destruct spans as [|span spans]; [done|]. cbn [length Nat.eqb orb negb].
    revert Hlen. generalize (span :: spans). clear span spans. intros spans Hlen. induction spans as [|span spans IH]; [done|].
    rewrite filter_cons. cbn [List.filter].
    assert (Hrest : forall span, span ∈ spans -> ps_Ended span - ps_Started span < 2^63) by (intros x Hx; apply Hlen; by right).
    destruct (usable_span span) eqn:Hspan; [|by apply IH].
    rewrite decide_True by done. cbn [map]. rewrite IH, phase_row_of; [done|done|done|apply Hlen; by left|done].
  - intros span Hin Hspan. pose proof (usable_span_proper _ Hspan).
    split; [apply parts_add_up; lia|]. cbn. by repeat case_match.
Qed.

(** ** Examples *)
Definition demo_interval (class : string) (s e : Z) : loadWindowInterval :=
  {| li_Name := "validator-0"; li_Class := class; li_Method := "commit"; li_Source := "metrics"; li_Provenance := "";
     li_Started := s * Millisecond; li_Ended := e * Millisecond; li_Seconds := fzero; li_Note := "" |}.

Definition demo_intervals : list loadWindowInterval :=
  [demo_interval "abci" 400 900; demo_interval "abci" 100 300; demo_interval "abci" 200 500; demo_interval "p2p" 0 1000;
   demo_interval "abci" 1200 1300; demo_interval "abci" 50 60].

Lemma loadWindowIntervalClassUnion_spec_witness : exists merged,
  loadWindowIntervalClassUnion demo_intervals "validator-0" "abci" 0 (1250 * Millisecond) =
    (foldl fadd fzero (map (fun i => Seconds (ended i - started i)) merged), 5%nat, "metrics") /\
  nanos merged = count (open_at "validator-0" "abci" demo_intervals) 0 (1250 * Millisecond).
Proof.
  destruct (loadWindowIntervalClassUnion_spec "validator-0" "abci" 0 (1250 * Millisecond) demo_intervals)
    as (merged & Heq & _ & _ & _ & Hnanos); [discriminate|reflexivity|reflexivity|reflexivity|reflexivity|].
  exists merged. split; [exact Heq|exact Hnanos].
Defined.

Example demo_union :
  map (fun i => (started i / Millisecond, ended i / Millisecond))
    (mergeClippedClockIntervals (omap (clipped_of "validator-0" "abci" 0 (1250 * Millisecond)) demo_intervals)) =
    [(50, 60); (100, 900); (1200, 1250)] /\
  map (fun r => (ia_Class r, ia_IntervalCount r))
    (summarizeLoadWindowIntervalAttributions demo_intervals "" 0 (1250 * Millisecond)) = [("abci", 5%nat); ("p2p", 1%nat)].
Proof. vm_compute. done. Qed.

Definition demo_span (name : string) (s e : Z) : phaseSpan :=
  {| ps_Name := name; ps_Started := s * Second; ps_Ended := e * Second; ps_Seconds := fzero; ps_Note := "" |}.

Lemma summarizeLoadWindowPhaseOverlaps_spec_witness :
  map (fun row => (po_Name row, Classification row))
    (summarizeLoadWindowPhaseOverlaps
       [demo_span "build" 1 3; demo_span "launch" 4 12; demo_span "none" 7 7; demo_span "load" 11 19;
        demo_span "drain" 18 25; demo_span "all" 1 30; demo_span "audit" 20 21] (10 * Second) (20 * Second)) =
  [("build", "before_window"); ("launch", "crosses_window_start"); ("load", "inside_window");
   ("drain", "crosses_window_end"); ("all", "spans_window"); ("audit", "after_window")].
Proof.
  refine (eq_trans (f_equal _ (proj1 (summarizeLoadWindowPhaseOverlaps_spec _ _ _ _ _ _ _))) _); try reflexivity.
  intros span Hspan. repeat (apply elem_of_cons in Hspan as [->|Hspan]; [vm_compute; reflexivity|]).
  by apply not_elem_of_nil in Hspan.
Defined.
