(* ===== verification/RunnerMetrics.v ===== *)
(** * The report runner's metrics: [cmd/local-report-runner/main.go]

    Prometheus snapshots of the nodes, their differences over a run, the
    signals computed from them, and the intervals in which counters moved.
    A map is a [gmap], a range over it takes the order [MapRange] gives. *)

From stdpp Require Import sorting.
From S2P Require Import Prelude GoStrings GoVal GoTime GoFloat RunnerWindows.
From Stdlib Require Import Ascii.

(** ** Expressions: [name{label="value",...}] *)

(** [strings.IndexByte], [strings.LastIndexByte], [strings.Index] *)
Fixpoint IndexByte (s : string) (c : ascii) : option nat :=
  match s with
  | EmptyString => None
  | String d s' => if Ascii.eqb d c then Some 0%nat else Datatypes.S <$> IndexByte s' c
  end.
Fixpoint LastIndexByte (s : string) (c : ascii) : option nat :=
  match s with
  | EmptyString => None
  | String d s' =>
      match LastIndexByte s' c with
      | Some i => Some (Datatypes.S i)
      | None => if Ascii.eqb d c then Some 0%nat else None
      end
  end.
Fixpoint Index (s sub : string) : option nat :=
  if HasPrefix s sub then Some 0%nat
  else match s with EmptyString => None | String _ s' => Datatypes.S <$> Index s' sub end.

Definition lbrace : ascii := ascii_of_nat 123.
Definition rbrace : ascii := ascii_of_nat 125.
Definition quote : ascii := ascii_of_nat 34.

Definition prometheusMetricName (expr : string) : string :=
  match IndexByte expr lbrace with Some idx => str_take idx expr | None => expr end.

Definition labelValue (expr label : string) : string :=
  match IndexByte expr lbrace, LastIndexByte expr rbrace with
  | Some start, Some end_ =>
      if Nat.leb end_ start then ""
      else
        let needle := label +:+ "=" +:+ dquote in
        let labels := str_drop (start + 1) (str_take end_ expr) in
        match Index labels needle with
        | None => ""
        | Some idx =>
            let rest := str_drop (idx + String.length needle) labels in
            match IndexByte rest quote with Some valueEnd => str_take valueEnd rest | None => "" end
        end
  | _, _ => ""
  end.

(** ** Snapshots *)
Record metricSnapshot := {
  ms_Name : string;
  ms_URL : string;
  ms_Metrics : gmap string float;
  ms_Error : string
}.

Record metricDeltaValue := { Before : float; After : float; Delta : float }.

Record metricDeltaSnapshot := {
  md_Name : string;
  md_URL : string;
  md_Metrics : gmap string metricDeltaValue;
  md_Error : string
}.

Definition metricSnapshotUsable (snapshot : metricSnapshot) : bool :=
  negb (String.eqb (ms_Name snapshot) "") && String.eqb (ms_Error snapshot) "" &&
  negb (bool_decide (ms_Metrics snapshot = ∅)).

Definition cloneMetricSnapshot (snapshot : metricSnapshot) : metricSnapshot :=
  {| ms_Name := ms_Name snapshot; ms_URL := ms_URL snapshot; ms_Metrics := ms_Metrics snapshot;
     ms_Error := ms_Error snapshot |}.
Definition cloneMetricSnapshots (snapshots : list metricSnapshot) : list metricSnapshot :=
  map cloneMetricSnapshot snapshots.

Definition usableMetricSnapshots (snapshots : list metricSnapshot) : list metricSnapshot :=
  map cloneMetricSnapshot (List.filter metricSnapshotUsable snapshots).

(** The last snapshot of each name. *)
Definition metricSnapshotsByName (snapshots : list metricSnapshot) : gmap string metricSnapshot :=
  foldl (fun out snapshot => <[ms_Name snapshot := snapshot]> out) ∅ snapshots.

(** The rounds of the second loop. *)
Definition append_missing (acc : list metricSnapshot * gset string) (snapshot : metricSnapshot)
    : list metricSnapshot * gset string :=
  if negb (metricSnapshotUsable snapshot) then acc
  else if bool_decide (ms_Name snapshot ∈ acc.2) then acc
  else (acc.1 ++ [cloneMetricSnapshot snapshot], {[ms_Name snapshot]} ∪ acc.2).

(** The index is only asked whether a name is there. *)
Definition appendMissingUsableMetricBaselineSnapshots (baseline current : list metricSnapshot) : list metricSnapshot :=
  let out := cloneMetricSnapshots baseline in
  let indexByName := list_to_set (List.filter (fun name => negb (String.eqb name "")) (map ms_Name out)) in
  (foldl append_missing (out, indexByName) current).1.

(** ** Differences *)
Definition metricDeltas (before after : gmap string float) : gmap string float :=
  map_imap (fun key afterValue => Some (fsub afterValue (default fzero (before !! key)))) after.

Definition appendSnapshotError (current phase errText : string) : string :=
  if String.eqb errText "" then current
  else
    let addition := phase +:+ ": " +:+ errText in
    if String.eqb current "" then addition else current +:+ "; " +:+ addition.

(** The values of the keys both snapshots have. *)
Definition common_deltas (before after : gmap string float) : gmap string metricDeltaValue :=
  merge (fun b a =>
    match b, a with
    | Some b, Some a => Some {| Before := b; After := a; Delta := fsub a b |}
    | _, _ => None
    end) before after.

Definition comparable (errBefore errAfter : string) (before after : gmap string float) : bool :=
  String.eqb errBefore "" && String.eqb errAfter "" &&
  negb (bool_decide (before = ∅)) && negb (bool_decide (after = ∅)).

Definition metricSnapshotsComparable (beforeSnap afterSnap : option metricSnapshot) : bool :=
  match beforeSnap, afterSnap with
  | Some b, Some a => comparable (ms_Error b) (ms_Error a) (ms_Metrics b) (ms_Metrics a)
  | _, _ => false
  end.

(** One round, for a name of either list. *)
Definition metric_delta (name : string) (beforeSnap afterSnap : option metricSnapshot) : metricDeltaSnapshot :=
  let url := match beforeSnap with Some b => ms_URL b | None => "" end in
  let err := match beforeSnap with Some b => appendSnapshotError "" "before" (ms_Error b) | None => "" end in
  let url := match afterSnap with Some a => if String.eqb url "" then ms_URL a else url | None => url end in
  let err := match afterSnap with Some a => appendSnapshotError err "after" (ms_Error a) | None => err end in
  {| md_Name := name; md_URL := url; md_Error := err;
     md_Metrics :=
       if metricSnapshotsComparable beforeSnap afterSnap then
         common_deltas (default ∅ (ms_Metrics <$> beforeSnap)) (default ∅ (ms_Metrics <$> afterSnap))
       else ∅ |}.

Definition delta_shown (delta : metricDeltaSnapshot) : bool :=
  negb (bool_decide (md_Metrics delta = ∅)) || negb (String.eqb (md_Error delta) "").

(** The sorted names of the set. *)
Definition sorted_names (names : list string) : list string := merge_sort str_le (elements (list_to_set names : gset string)).

Definition metricDeltaSnapshots (before after : list metricSnapshot) : list metricDeltaSnapshot :=
  let beforeByName := metricSnapshotsByName before in
  let afterByName := metricSnapshotsByName after in
  let names := sorted_names (map ms_Name before ++ map ms_Name after) in
  List.filter delta_shown (map (fun name => metric_delta name (beforeByName !! name) (afterByName !! name)) names).

(** ** Sums over the differences *)
Definition nonNegative (v : float) : float := if flt v fzero then fzero else v.

Section ranges.
Context {R : MapRange}.

Definition sumMetricDeltas (deltas : gmap string float) (name : string) : float :=
  foldl (fun total kv => if String.eqb (prometheusMetricName kv.1) name then fadd total kv.2 else total) fzero
    (range_map deltas).

Definition metricDelta (deltas : gmap string float) (name : string) : float :=
  match List.find (fun kv => String.eqb (prometheusMetricName kv.1) name) (range_map deltas) with
  | Some kv => kv.2
  | None => fzero
  end.

Definition metricDeltaWithLabel (deltas : gmap string float) (name label value : string) : float :=
  let needle := label +:+ "=" +:+ dquote +:+ value +:+ dquote in
  match List.find (fun kv => String.eqb (prometheusMetricName kv.1) name && Contains kv.1 needle) (range_map deltas) with
  | Some kv => kv.2
  | None => fzero
  end.

(** ** The methods whose counters moved *)
Definition method_timing : string := "cometbft_abci_connection_method_timing_seconds".

Record methodActivity := { ma_count : float; ma_sum : float }.

Definition activity_step (activityByMethod : gmap string methodActivity) (kv : string * float) : gmap string methodActivity :=
  let '(key, delta) := kv in
  if fle delta fzero then activityByMethod
  else
    let method := labelValue key "method" in
    if String.eqb method "" then activityByMethod
    else
      let activity := default {| ma_count := fzero; ma_sum := fzero |} (activityByMethod !! method) in
      let name := prometheusMetricName key in
      if String.eqb name (method_timing +:+ "_count") then
        <[method := {| ma_count := fadd (ma_count activity) delta; ma_sum := ma_sum activity |}]> activityByMethod
      else if String.eqb name (method_timing +:+ "_sum") then
        <[method := {| ma_count := ma_count activity; ma_sum := fadd (ma_sum activity) delta |}]> activityByMethod
      else activityByMethod.

Definition abciMethodsWithActivity (deltas : gmap string float) : list string :=
  let activityByMethod := foldl activity_step ∅ (range_map deltas) in
  merge_sort str_le
    (omap (fun kv => if flt fzero (ma_count kv.2) || flt fzero (ma_sum kv.2) then Some kv.1 else None)
       (range_map activityByMethod)).

(** ** Intervals between samples *)
Record metricSamplePoint := { sp_at : Z; sp_snapshot : metricSnapshot }.

Definition sample_interval (beforeAt afterAt : Z) (after : metricSnapshot) (method : string) : loadWindowInterval :=
  {| li_Name := ms_Name after; li_Class := "abci"; li_Method := method; li_Source := method_timing;
     li_Provenance := "bounded_sample"; li_Started := beforeAt; li_Ended := afterAt;
     li_Seconds := Seconds (Sub afterAt beforeAt);
     li_Note := "Prometheus counter changed during this scrape interval; interval is an upper bound, not an event-level ABCI span" |}.

Definition appendMetricSnapshotDeltaIntervals (out : list loadWindowInterval) (beforeAt : Z) (before : metricSnapshot)
    (afterAt : Z) (after : metricSnapshot) : list loadWindowInterval :=
  if IsZero beforeAt || IsZero afterAt || negb (beforeAt <? afterAt) || negb (metricSnapshotUsable before) ||
     negb (metricSnapshotUsable after) then out
  else
    let deltas := metricDeltas (ms_Metrics before) (ms_Metrics after) in
    out ++ map (sample_interval beforeAt afterAt after) (abciMethodsWithActivity deltas).

Definition seedMetricSamplePoints (at_ : Z) (snapshots : list metricSnapshot) : gmap string metricSamplePoint :=
  if IsZero at_ then ∅
  else
    foldl (fun out snapshot =>
      if negb (metricSnapshotUsable snapshot) then out
      else <[ms_Name snapshot := {| sp_at := at_; sp_snapshot := cloneMetricSnapshot snapshot |}]> out) ∅ snapshots.

Definition sample_step (currentAt : Z) (acc : list loadWindowInterval * gmap string metricSamplePoint)
    (afterSnap : metricSnapshot) : list loadWindowInterval * gmap string metricSamplePoint :=
  let '(out, previous) := acc in
  if negb (metricSnapshotUsable afterSnap) then acc
  else
    let out :=
      match previous !! ms_Name afterSnap with
      | Some prior =>
          if sp_at prior <? currentAt
          then appendMetricSnapshotDeltaIntervals out (sp_at prior) (sp_snapshot prior) currentAt afterSnap
          else out
      | None => out
      end in
    (out, <[ms_Name afterSnap := {| sp_at := currentAt; sp_snapshot := cloneMetricSnapshot afterSnap |}]> previous).

Definition appendMetricDeltaWallClockIntervalsFromSamples (out : list loadWindowInterval)
    (previous : gmap string metricSamplePoint) (currentAt : Z) (current : list metricSnapshot)
    : list loadWindowInterval * gmap string metricSamplePoint :=
  if IsZero currentAt || Nat.eqb (length current) 0 then (out, previous)
  else foldl (sample_step currentAt) (out, previous) current.

Definition appendMetricDeltaWallClockIntervals (out : list loadWindowInterval) (beforeAt : Z) (before : list metricSnapshot)
    (afterAt : Z) (after : list metricSnapshot) : list loadWindowInterval :=
  (appendMetricDeltaWallClockIntervalsFromSamples out (seedMetricSamplePoints beforeAt before) afterAt after).1.
End ranges.

(** ** Intervals of one node and method do not overlap *)
Section samples.
Context {R : MapRange}.

Lemma methods_NoDup deltas : NoDup (abciMethodsWithActivity deltas).
Proof.
  unfold abciMethodsWithActivity. rewrite merge_sort_Permutation.
  generalize (range_map_keys (foldl activity_step ∅ (range_map deltas))).
  generalize (range_map (foldl activity_step ∅ (range_map deltas))). intros l. induction l as [|[m a] l IH]; [constructor|].
  cbn [fmap list_fmap fst omap list_omap snd]. intros [Hm Hl]%NoDup_cons. destruct (_ || _); [|by apply IH].
  constructor; [|by apply IH]. intros ([m' a'] & Hin & Hsome)%list_elem_of_omap. cbn in Hsome.
  destruct (_ || _); simplify_eq. apply Hm. apply list_elem_of_fmap. by exists (m, a').
Qed.

(** Intervals of the same node and method have no instant in common. *)
Definition separate (i j : loadWindowInterval) : Prop :=
  li_Name i = li_Name j -> li_Method i = li_Method j -> li_Ended i <= li_Started j \/ li_Ended j <= li_Started i.

(** After the scrapes up to [now] since [start]. *)
Definition samples_sound (start now : Z) (out : list loadWindowInterval) (previous : gmap string metricSamplePoint) : Prop :=
  ForallOrdPairs separate out /\
  (forall i, i ∈ out -> start <= li_Started i < li_Ended i /\ li_Class i = "abci" /\
     exists p, previous !! li_Name i = Some p /\ li_Ended i <= sp_at p) /\
  (forall name p, previous !! name = Some p -> start <= sp_at p <= now).

Lemma ForallOrdPairs_app {A} (P : A -> A -> Prop) l1 l2 :
  ForallOrdPairs P l1 -> ForallOrdPairs P l2 -> (forall x y, x ∈ l1 -> y ∈ l2 -> P x y) -> ForallOrdPairs P (l1 ++ l2).
Proof.
  intros H1 H2 H. induction H1 as [|x l1 Hx H1 IH]; [done|]. cbn. constructor.
  - apply Forall_app. split; [done|]. apply Forall_forall. intros y Hy. apply H; [by left|done].
  - apply IH. intros y z Hy Hz. apply H; [by right|done].
Qed.

Lemma sample_intervals_separate s e snap methods :
  NoDup methods -> ForallOrdPairs separate (map (sample_interval s e snap) methods).
Proof.
  induction 1 as [|m methods Hm _ IH]; [constructor|]. cbn [map]. constructor; [|done].
  apply Forall_forall. intros i (m' & -> & Hm')%list_elem_of_fmap _ Heq. cbn in Heq. by subst.
Qed.

Lemma sample_step_sound start now acc snap :
  start <= now -> samples_sound start now acc.1 acc.2 ->
  samples_sound start now (sample_step now acc snap).1 (sample_step now acc snap).2.
Proof.
  intros Hnow Hs. destruct acc as [out previous]. cbn [fst snd] in *. unfold sample_step.
  destruct (metricSnapshotUsable snap); cbn [negb]; [|done]. cbn [fst snd].
  destruct Hs as (Hsep & Hin & Hprev).
  set (point := {| sp_at := now; sp_snapshot := _ |}).
  assert (Hold : forall i, i ∈ out -> start <= li_Started i < li_Ended i /\ li_Class i = "abci" /\
    exists p, <[ms_Name snap := point]> previous !! li_Name i = Some p /\ li_Ended i <= sp_at p).
  { intros i Hi. destruct (Hin i Hi) as (Hr & Hc & p & Hp & He). split; [done|]. split; [done|].
    destruct (decide (ms_Name snap = li_Name i)) as [->|Hne].
    - exists point. rewrite lookup_insert_eq. split; [done|]. cbn. destruct (Hprev _ _ Hp). lia.
    - exists p. by rewrite lookup_insert_ne. }
  assert (Hnew : forall name p, <[ms_Name snap := point]> previous !! name = Some p -> start <= sp_at p <= now).
  { intros name p [[_ <-]|[_ Hp]]%lookup_insert_Some; [cbn; lia|by eapply Hprev]. }
  destruct (previous !! ms_Name snap) as [prior|] eqn:Hprior; [|done].
  destruct (Z.ltb_spec (sp_at prior) now) as [Hlt|]; [|done].
  unfold appendMetricSnapshotDeltaIntervals. destruct (_ || _); [done|]. destruct (Hprev _ _ Hprior) as [Hstart _].
  split_and!; [|intros i [Hi|Hi]%elem_of_app; [by apply Hold|]|done].
  - apply ForallOrdPairs_app; [done|apply sample_intervals_separate, methods_NoDup|].
    intros i j Hi (m & -> & _)%list_elem_of_fmap Hname _. cbn in Hname |- *.
    destruct (Hin i Hi) as (_ & _ & p & Hp & He). rewrite Hname in Hp. left. by simplify_eq.
  - apply list_elem_of_fmap in Hi as (m & -> & _). cbn. split; [lia|]. split; [done|].
    exists point. rewrite lookup_insert_eq. split; [done|]. cbn. lia.
Qed.

(** A series of scrapes and their times. *)
Definition observe_all (scrapes : list (Z * list metricSnapshot))
    (acc : list loadWindowInterval * gmap string metricSamplePoint) :=
  foldl (fun acc s => appendMetricDeltaWallClockIntervalsFromSamples acc.1 acc.2 s.1 s.2) acc scrapes.

Lemma samples_sound_later start now now' out previous :
  now <= now' -> samples_sound start now out previous -> samples_sound start now' out previous.
Proof. intros Hle (H1 & H2 & H3). split_and!; [done|done|]. intros name p Hp. destruct (H3 name p Hp). lia. Qed.

Lemma scrape_sound start now out previous snaps :
  start <= now -> samples_sound start now out previous ->
  let r := appendMetricDeltaWallClockIntervalsFromSamples out previous now snaps in samples_sound start now r.1 r.2.
Proof.
  intros Hnow Hs. unfold appendMetricDeltaWallClockIntervalsFromSamples. destruct (_ || _); [done|].
  change out with (out, previous).1 in Hs. change previous with (out, previous).2 in Hs at 2.
  revert Hs. generalize (out, previous). induction snaps as [|s snaps IH]; intros acc Hs; [done|].
  cbn [foldl]. apply IH. by apply sample_step_sound.
Qed.

Lemma observe_all_sound start now scrapes acc :
  start <= now -> samples_sound start now acc.1 acc.2 -> Sorted Z.le (now :: map fst scrapes) ->
  samples_sound start (List.last (map fst scrapes) now) (observe_all scrapes acc).1 (observe_all scrapes acc).2.
Proof.
  revert now acc. induction scrapes as [|[t snaps] scrapes IH]; intros now acc Hnow Hs Hsorted; [done|].
  apply Sorted_inv in Hsorted as [Hsorted Hhd]. cbn [map fst] in *. inversion Hhd as [|? ? Hle]; subst. cbn [observe_all foldl fst snd].
  assert (List.last (t :: map fst scrapes) now = List.last (map fst scrapes) t) as ->.
  { clear. revert t. induction (map fst scrapes) as [|u l IH]; intros t; [done|]. cbn [List.last] in *. by destruct l. }
  apply IH; [lia| |done]. apply scrape_sound; [lia|]. by eapply samples_sound_later.
Qed.

Lemma seed_sound at_ snapshots : samples_sound at_ at_ [] (seedMetricSamplePoints at_ snapshots).
Proof.
  split_and!; [constructor|by intros i ?%not_elem_of_nil|]. unfold seedMetricSamplePoints. destruct (IsZero at_); [done|].
  assert (H : forall m : gmap string metricSamplePoint, (forall name p, m !! name = Some p -> sp_at p = at_) ->
    forall name p, foldl (fun out snapshot => if negb (metricSnapshotUsable snapshot) then out
      else <[ms_Name snapshot := {| sp_at := at_; sp_snapshot := cloneMetricSnapshot snapshot |}]> out) m snapshots !! name = Some p ->
    sp_at p = at_).
  { induction snapshots as [|s snapshots IH]; intros m Hm; [done|]. cbn [foldl]. apply IH. destruct (negb _); [done|].
    intros name p [[_ <-]|[_ Hp]]%lookup_insert_Some; [done|by eapply Hm]. }
  intros name p Hp. rewrite (H ∅) with (name := name) (p := p); [lia|by intros ? ? ?%lookup_empty_Some|done].
Qed.
End samples.
