(* ===== verification/RunnerSignals.v ===== *)
(** * The report runner's signals: [cmd/local-report-runner/main.go]

    What the counters' differences say of a node: the time in the ABCI
    methods, in the stages of a commit, in modules and consensus steps, the
    transactions it counted, and the growth of its data. *)

From stdpp Require Import sorting.
From S2P Require Import Prelude GoStrings GoVal GoTime GoFloat RunnerWindows RunnerMetrics.

Record cadenceStage := {
  cs_Name : string;
  cs_Parent : string;
  cs_Class : string;
  cs_Source : string;
  cs_Provenance : string;
  cs_Seconds : float;
  cs_Count : Z;
  cs_AvgSeconds : float;
  cs_PerBlockSeconds : float;
  cs_IncludedInResidual : bool;
  cs_MissingReason : string;
  cs_Note : string
}.

Record moduleTiming := {
  mt_Phase : string;
  mt_Module : string;
  mt_Seconds : float;
  mt_Count : Z;
  mt_AvgSeconds : float
}.

Record dataPathSize := {
  dp_Name : string;
  dp_Path : string;
  dp_Bytes : Z;
  dp_Error : string
}.

Record storageSignal := {
  ss_Name : string;
  ss_ABCIObservedSeconds : float;
  ss_ABCICommitSeconds : float;
  ss_ABCIFinalizeBlockSeconds : float;
  ss_ABCICheckTxSeconds : float;
  ss_ABCIPrepareProposalSeconds : float;
  ss_ABCIProcessProposalSeconds : float;
  ss_ABCIQuerySeconds : float;
  ss_ABCIFlushSeconds : float;
  ss_ABCIOtherSeconds : float;
  ss_ABCICommitCount : Z;
  ss_ABCIFinalizeBlockCount : Z;
  ss_ABCICheckTxCount : Z;
  ss_ABCIPrepareProposalCount : Z;
  ss_ABCIProcessProposalCount : Z;
  ss_ABCIQueryCount : Z;
  ss_ABCIFlushCount : Z;
  ss_AvgCommitSeconds : float;
  ss_AvgFinalizeBlockSeconds : float;
  ss_CommitShareOfObservedABCI : float;
  ss_CommitShareOfCommitPlusFinalize : float;
  ss_StateBlockProcessingSumRaw : float;
  ss_StateBlockProcessingSeconds : float;
  ss_StateBlockProcessingCount : Z;
  ss_StateBlockProcessingAvgSeconds : float;
  ss_BlockStoreWriteSeconds : float;
  ss_BlockStoreWriteCount : Z;
  ss_BlockStoreWriteAvgSeconds : float;
  ss_TxIndexWriteSeconds : float;
  ss_TxIndexWriteCount : Z;
  ss_TxIndexWriteAvgSeconds : float;
  ss_TxIndexIndexedTxsDelta : float;
  ss_ConsensusBlockIntervalSeconds : float;
  ss_ConsensusBlockIntervalCount : Z;
  ss_ConsensusTotalTxsDelta : float;
  ss_MempoolSuccessfulTxsDelta : float;
  ss_SDKTxCountDelta : float;
  ss_SDKTxSuccessfulDelta : float;
  ss_ProcessCPUSecondsDelta : float;
  ss_DataDirBytesBefore : Z;
  ss_DataDirBytesAfter : Z;
  ss_DataDirBytesDelta : Z;
  ss_ApplicationDBBytesBefore : Z;
  ss_ApplicationDBBytesAfter : Z;
  ss_ApplicationDBBytesDelta : Z;
  ss_ModuleTimings : list moduleTiming;
  ss_ConsensusStepTimings : list cadenceStage;
  ss_ExactCommitStageTimings : list cadenceStage
}.

Record exactCommitMetricSpec := {
  em_Name : string;
  em_Parent : string;
  em_Class : string;
  em_Metric : string;
  em_Note : string
}.

#[local] Definition spec (name parent class metric note : string) : exactCommitMetricSpec :=
  {| em_Name := name; em_Parent := parent; em_Class := class; em_Metric := metric; em_Note := note |}.

Definition exactCommitMetricSpecs : list exactCommitMetricSpec :=
  [spec "consensus commit" "" "consensus_commit"
     "cometbft_consensus_commit_finalize_seconds"
     "full finalizeCommit path before the NewHeight transition completes";
   spec "commit blockstore" "consensus commit" "node_db_blockstore"
     "cometbft_consensus_commit_block_store_seconds"
     "synchronous blockstore SaveBlock inside consensus commit";
   spec "commit blockstore lock" "consensus commit" "consensus_lock"
     "cometbft_consensus_commit_block_store_lock_seconds"
     "Celestia Core consensus lock reacquisition after SaveBlock";
   spec "commit consensus WAL" "consensus commit" "consensus_wal"
     "cometbft_consensus_commit_consensus_wal_seconds"
     "synchronous end-height consensus WAL record";
   spec "commit apply block" "consensus commit" "block_execution"
     "cometbft_consensus_commit_apply_block_seconds"
     "state executor ApplyVerifiedBlock call";
   spec "commit apply block lock" "consensus commit" "consensus_lock"
     "cometbft_consensus_commit_apply_block_lock_seconds"
     "Celestia Core consensus lock reacquisition after ApplyVerifiedBlock";
   spec "commit record metrics" "consensus commit" "consensus_bookkeeping"
     "cometbft_consensus_commit_record_metrics_seconds"
     "post-commit consensus metric recording";
   spec "commit update consensus state" "consensus commit" "consensus_bookkeeping"
     "cometbft_consensus_commit_update_state_seconds"
     "transition to the next consensus NewHeight state";
   spec "state apply block" "commit apply block" "block_execution"
     "cometbft_state_apply_block_seconds"
     "complete state executor ApplyVerifiedBlock path";
   spec "state finalize block" "state apply block" "abci_block_execution"
     "cometbft_state_finalize_block_seconds"
     "FinalizeBlock call through the consensus ABCI connection";
   spec "state save finalize response" "state apply block" "state_persistence"
     "cometbft_state_save_finalize_block_response_seconds"
     "persist FinalizeBlock response";
   spec "state save tx info" "state apply block" "node_db_blockstore"
     "cometbft_state_save_tx_info_seconds"
     "persist Celestia per-transaction blockstore lookup records with one synchronous batch per block";
   spec "state update" "state apply block" "state_transition"
     "cometbft_state_update_state_seconds"
     "derive the next in-memory consensus state";
   spec "state block commit" "state apply block" "app_commit"
     "cometbft_state_block_commit_seconds"
     "BlockExecutor.Commit including mempool synchronization";
   spec "mempool lock wait" "state block commit" "mempool_contention"
     "cometbft_state_mempool_lock_wait_seconds"
     "time waiting to acquire the mempool lock";
   spec "mempool lock held" "state block commit" "mempool_contention"
     "cometbft_state_mempool_lock_held_seconds"
     "inclusive lock hold; overlaps flush, app commit, and mempool update children";
   spec "flush app connection" "mempool lock held" "abci_flush"
     "cometbft_state_flush_app_conn_seconds"
     "flush outstanding mempool ABCI requests before app commit";
   spec "state app commit" "mempool lock held" "abci_commit"
     "cometbft_state_app_commit_seconds"
     "ABCI Commit call";
   spec "mempool update" "mempool lock held" "mempool_update"
     "cometbft_state_mempool_update_seconds"
     "mempool update after app commit";
   spec "evidence update" "state apply block" "evidence"
     "cometbft_state_evidence_update_seconds"
     "evidence pool update after app commit";
   spec "state save" "state apply block" "node_db_state"
     "cometbft_state_state_save_seconds"
     "persist post-commit consensus state";
   spec "fire events" "state apply block" "event_delivery"
     "cometbft_state_fire_events_seconds"
     "publish block and transaction events; unbuffered subscribers can apply backpressure";
   spec "tx index block total" "" "async_tx_index"
     "cometbft_tx_indexer_block_total_seconds"
     "asynchronous end-to-end indexing for one block; not an additive consensus-commit child";
   spec "tx index gather events" "tx index block total" "async_tx_index"
     "cometbft_tx_indexer_gather_events_seconds"
     "receive all block transaction events";
   spec "tx index block write" "tx index block total" "node_db_tx_index"
     "cometbft_tx_indexer_block_index_seconds"
     "write one block to the block index";
   spec "tx index tx write" "tx index block total" "node_db_tx_index"
     "cometbft_tx_indexer_tx_index_seconds"
     "write one transaction batch to the transaction index"].

(** [seconds / float64(count)] when [count > 0] *)
Definition avg (seconds : float) (count : Z) : float :=
  if 0 <? count then float64_div seconds (float64 count) else fzero.

(** ** Sizes *)
Definition pathSizesForName (sizes : list dataPathSize) (name : string) : gmap string Z :=
  foldl (fun out size =>
    if String.eqb (dp_Name size) name && String.eqb (dp_Error size) ""
    then <[dp_Path size := dp_Bytes size]> out else out) ∅ sizes.

(** The three numbers of a path. *)
Definition size_delta (before after : option Z) : Z * Z * Z :=
  (default 0 before, default 0 after,
   match before, after with Some b, Some a => to_int64 (to_int64 a - to_int64 b) | _, _ => 0 end).

Section ranges.
Context {R : MapRange}.

(** ** Stages, modules, steps *)
Definition exact_stage (deltas : gmap string float) (sp : exactCommitMetricSpec) : option cadenceStage :=
  let seconds := sumMetricDeltas deltas (em_Metric sp +:+ "_sum") in
  let count := int_of_float (sumMetricDeltas deltas (em_Metric sp +:+ "_count")) in
  if feq seconds fzero && (count =? 0) then None
  else
    Some {| cs_Name := em_Name sp; cs_Parent := em_Parent sp; cs_Class := em_Class sp; cs_Source := em_Metric sp;
            cs_Provenance := "exact_prometheus_span_delta"; cs_Seconds := seconds; cs_Count := count;
            cs_AvgSeconds := avg seconds count; cs_PerBlockSeconds := fzero; cs_IncludedInResidual := false;
            cs_MissingReason := ""; cs_Note := em_Note sp |}.

Definition summarizeExactCommitStageTimings (deltas : gmap string float) : list cadenceStage :=
  omap (exact_stage deltas) exactCommitMetricSpecs.

Definition or_unknown (label : string) : string := if String.eqb label "" then "unknown" else label.

Definition module_timing (deltas : gmap string float) (phase : string) (kv : string * float) : option moduleTiming :=
  let '(key, seconds) := kv in
  if negb (String.eqb (prometheusMetricName key) (phase +:+ "_sum")) || fle seconds fzero then None
  else
    let module := or_unknown (labelValue key "module") in
    let count := int_of_float (metricDeltaWithLabel deltas (phase +:+ "_count") "module" module) in
    Some {| mt_Phase := phase; mt_Module := module; mt_Seconds := seconds; mt_Count := count;
            mt_AvgSeconds := avg seconds count |}.

(** Longest first, then by phase and module. *)
Definition module_before (a b : moduleTiming) : bool :=
  if feq (mt_Seconds a) (mt_Seconds b) then
    if String.eqb (mt_Phase a) (mt_Phase b) then str_lt (mt_Module a) (mt_Module b)
    else str_lt (mt_Phase a) (mt_Phase b)
  else flt (mt_Seconds b) (mt_Seconds a).
Definition module_le (a b : moduleTiming) : Prop := module_before b a = false.
#[export] Instance module_le_dec : RelDecision module_le.
Proof. intros a b. unfold module_le. apply _. Defined.

Definition summarizeModuleTimings (deltas : gmap string float) : list moduleTiming :=
  merge_sort module_le
    (omap (module_timing deltas "begin_blocker") (range_map deltas) ++
     omap (module_timing deltas "end_blocker") (range_map deltas)).

Definition step_metric : string := "cometbft_consensus_step_duration_seconds".

Definition consensus_step (deltas : gmap string float) (kv : string * float) : option cadenceStage :=
  let '(key, seconds) := kv in
  if negb (String.eqb (prometheusMetricName key) (step_metric +:+ "_sum")) || fle seconds fzero then None
  else
    let step := or_unknown (labelValue key "step") in
    let count := int_of_float (metricDeltaWithLabel deltas (step_metric +:+ "_count") "step" step) in
    Some {| cs_Name := step; cs_Parent := ""; cs_Class := "consensus_step"; cs_Source := step_metric;
            cs_Provenance := "prometheus_counter_delta"; cs_Seconds := seconds; cs_Count := count;
            cs_AvgSeconds := avg seconds count; cs_PerBlockSeconds := fzero; cs_IncludedInResidual := false;
            cs_MissingReason := "";
            cs_Note := "consensus step counters are reported as attribution signals, not exclusive wall-time buckets" |}.

Definition stage_before (a b : cadenceStage) : bool :=
  if feq (cs_Seconds a) (cs_Seconds b) then str_lt (cs_Name a) (cs_Name b) else flt (cs_Seconds b) (cs_Seconds a).
Definition stage_le (a b : cadenceStage) : Prop := stage_before b a = false.
#[export] Instance stage_le_dec : RelDecision stage_le.
Proof. intros a b. unfold stage_le. apply _. Defined.

Definition summarizeConsensusStepTimings (deltas : gmap string float) : list cadenceStage :=
  merge_sort stage_le (omap (consensus_step deltas) (range_map deltas)).

(** ** Signals *)
Definition abci_seconds (deltas : gmap string float) (method : string) : float :=
  metricDeltaWithLabel deltas (method_timing +:+ "_sum") "method" method.
Definition abci_count (deltas : gmap string float) (method : string) : Z :=
  int_of_float (metricDeltaWithLabel deltas (method_timing +:+ "_count") "method" method).

Definition storage_signal (before after : metricSnapshot) (beforeSizes afterSizes : list dataPathSize) : storageSignal :=
  let deltas := metricDeltas (ms_Metrics before) (ms_Metrics after) in
  let name := ms_Name after in
  let observed := sumMetricDeltas deltas (method_timing +:+ "_sum") in
  let commit := abci_seconds deltas "commit" in
  let finalize := abci_seconds deltas "finalize_block" in
  let checkTx := abci_seconds deltas "check_tx" in
  let prepare := abci_seconds deltas "prepare_proposal" in
  let process := abci_seconds deltas "process_proposal" in
  let query := abci_seconds deltas "query" in
  let flush := abci_seconds deltas "flush" in
  let commits := abci_count deltas "commit" in
  let finalizes := abci_count deltas "finalize_block" in
  let total := fadd commit finalize in
  let blockSum := metricDelta deltas "cometbft_state_block_processing_time_sum" in
  let blockSeconds := float64_div blockSum (float64 1000) in
  let blockCount := int_of_float (metricDelta deltas "cometbft_state_block_processing_time_count") in
  let storeSeconds := metricDelta deltas "cometbft_consensus_commit_block_store_seconds_sum" in
  let storeCount := int_of_float (metricDelta deltas "cometbft_consensus_commit_block_store_seconds_count") in
  let indexSeconds := metricDelta deltas "cometbft_tx_indexer_tx_index_seconds_sum" in
  let indexCount := int_of_float (metricDelta deltas "cometbft_tx_indexer_tx_index_seconds_count") in
  let sizes path := size_delta (pathSizesForName beforeSizes name !! path) (pathSizesForName afterSizes name !! path) in
  let '(dataBefore, dataAfter, dataDelta) := sizes "/simd/data" in
  let '(appBefore, appAfter, appDelta) := sizes "/simd/data/application.db" in
  {| ss_Name := name;
     ss_ABCIObservedSeconds := observed; ss_ABCICommitSeconds := commit; ss_ABCIFinalizeBlockSeconds := finalize;
     ss_ABCICheckTxSeconds := checkTx; ss_ABCIPrepareProposalSeconds := prepare;
     ss_ABCIProcessProposalSeconds := process; ss_ABCIQuerySeconds := query; ss_ABCIFlushSeconds := flush;
     ss_ABCIOtherSeconds :=
       nonNegative (fsub (fsub (fsub (fsub (fsub (fsub (fsub observed commit) finalize) checkTx) prepare) process) query) flush);
     ss_ABCICommitCount := commits; ss_ABCIFinalizeBlockCount := finalizes;
     ss_ABCICheckTxCount := abci_count deltas "check_tx";
     ss_ABCIPrepareProposalCount := abci_count deltas "prepare_proposal";
     ss_ABCIProcessProposalCount := abci_count deltas "process_proposal";
     ss_ABCIQueryCount := abci_count deltas "query"; ss_ABCIFlushCount := abci_count deltas "flush";
     ss_AvgCommitSeconds := avg commit commits; ss_AvgFinalizeBlockSeconds := avg finalize finalizes;
     ss_CommitShareOfObservedABCI := if flt fzero observed then float64_div commit observed else fzero;
     ss_CommitShareOfCommitPlusFinalize := if flt fzero total then float64_div commit total else fzero;
     ss_StateBlockProcessingSumRaw := blockSum; ss_StateBlockProcessingSeconds := blockSeconds;
     ss_StateBlockProcessingCount := blockCount; ss_StateBlockProcessingAvgSeconds := avg blockSeconds blockCount;
     ss_BlockStoreWriteSeconds := storeSeconds; ss_BlockStoreWriteCount := storeCount;
     ss_BlockStoreWriteAvgSeconds := avg storeSeconds storeCount;
     ss_TxIndexWriteSeconds := indexSeconds; ss_TxIndexWriteCount := indexCount;
     ss_TxIndexWriteAvgSeconds := avg indexSeconds indexCount;
     ss_TxIndexIndexedTxsDelta := metricDelta deltas "cometbft_tx_indexer_indexed_txs_total";
     ss_ConsensusBlockIntervalSeconds := metricDelta deltas "cometbft_consensus_block_interval_seconds_sum";
     ss_ConsensusBlockIntervalCount := int_of_float (metricDelta deltas "cometbft_consensus_block_interval_seconds_count");
     ss_ConsensusTotalTxsDelta := metricDelta deltas "cometbft_consensus_total_txs";
     ss_MempoolSuccessfulTxsDelta := metricDelta deltas "cometbft_mempool_successful_txs";
     ss_SDKTxCountDelta := metricDelta deltas "tx_count"; ss_SDKTxSuccessfulDelta := metricDelta deltas "tx_successful";
     ss_ProcessCPUSecondsDelta := metricDelta deltas "process_cpu_seconds_total";
     ss_DataDirBytesBefore := dataBefore; ss_DataDirBytesAfter := dataAfter; ss_DataDirBytesDelta := dataDelta;
     ss_ApplicationDBBytesBefore := appBefore; ss_ApplicationDBBytesAfter := appAfter;
     ss_ApplicationDBBytesDelta := appDelta;
     ss_ModuleTimings := summarizeModuleTimings deltas;
     ss_ConsensusStepTimings := summarizeConsensusStepTimings deltas;
     ss_ExactCommitStageTimings := summarizeExactCommitStageTimings deltas |}.

Definition signal_le (a b : storageSignal) : Prop := str_le (ss_Name a) (ss_Name b).
#[export] Instance signal_le_dec : RelDecision signal_le.
Proof. intros a b. unfold signal_le. apply _. Defined.

(** A node without a snapshot before, or without metrics now, has no signal. *)
Definition summarizeStorageSignals (before after : list metricSnapshot) (beforeSizes afterSizes : list dataPathSize)
    : list storageSignal :=
  let beforeByName := metricSnapshotsByName before in
  merge_sort signal_le
    (omap (fun afterSnap =>
       match beforeByName !! ms_Name afterSnap with
       | None => None
       | Some beforeSnap =>
           if bool_decide (ms_Metrics afterSnap = ∅) then None
           else Some (storage_signal beforeSnap afterSnap beforeSizes afterSizes)
       end) after).
End ranges.

(** ** Transactions the nodes counted *)
Definition roundedMetricCount (value : float) : Z :=
  if fle value fzero then 0 else int_of_float (fadd value (SpecFloat.S754_finite false 4503599627370496 (-53))).

Record load_counts := { lc_included : Z; lc_successful : Z; lc_candidates : list string }.

Definition candidate (signal : storageSignal) (name : string) (n : Z) : string :=
  ss_Name signal +:+ "." +:+ name +:+ "=" +:+ itoa n.

Definition addIncluded (signal : storageSignal) (name : string) (value : float) (c : load_counts) : load_counts :=
  let n := roundedMetricCount value in
  if n <=? 0 then c
  else {| lc_included := if lc_included c <? n then n else lc_included c; lc_successful := lc_successful c;
          lc_candidates := lc_candidates c ++ [candidate signal name n] |}.
Definition addSuccessful (signal : storageSignal) (name : string) (value : float) (c : load_counts) : load_counts :=
  let n := roundedMetricCount value in
  if n <=? 0 then c
  else {| lc_included := lc_included c; lc_successful := if lc_successful c <? n then n else lc_successful c;
          lc_candidates := lc_candidates c ++ [candidate signal name n] |}.

Definition count_signal (c : load_counts) (signal : storageSignal) : load_counts :=
  let c := addIncluded signal "sdk_tx_count_delta" (ss_SDKTxCountDelta signal) c in
  let c := addIncluded signal "consensus_total_txs_delta" (ss_ConsensusTotalTxsDelta signal) c in
  let c := addIncluded signal "mempool_successful_txs_delta" (ss_MempoolSuccessfulTxsDelta signal) c in
  let c := addSuccessful signal "sdk_tx_successful_delta" (ss_SDKTxSuccessfulDelta signal) c in
  addSuccessful signal "mempool_successful_txs_delta" (ss_MempoolSuccessfulTxsDelta signal) c.

Definition appMetricLoadCounts (signals : list storageSignal) : Z * Z * list string * bool :=
  let c := foldl count_signal {| lc_included := 0; lc_successful := 0; lc_candidates := [] |} signals in
  let included := if lc_included c <? lc_successful c then lc_successful c else lc_included c in
  (included, lc_successful c, lc_candidates c, (0 <? included) || (0 <? lc_successful c)).

(** ** Properties *)
Definition included_counts (signal : storageSignal) : list Z :=
  map roundedMetricCount [ss_SDKTxCountDelta signal; ss_ConsensusTotalTxsDelta signal; ss_MempoolSuccessfulTxsDelta signal].
Definition successful_counts (signal : storageSignal) : list Z :=
  map roundedMetricCount [ss_SDKTxSuccessfulDelta signal; ss_MempoolSuccessfulTxsDelta signal].

Definition largest (counts : list Z) : Z := foldr Z.max 0 counts.

Lemma largest_app l1 l2 : largest (l1 ++ l2) = Z.max (largest l1) (largest l2).
Proof. unfold largest. induction l1 as [|x l1 IH]; cbn; [|rewrite IH; lia]. induction l2; cbn; lia. Qed.

Lemma largest_nonneg l : 0 <= largest l.
Proof. unfold largest. induction l as [|x l IH]; cbn; lia. Qed.

Lemma addIncluded_counts signal name value c : 0 <= lc_included c ->
  lc_included (addIncluded signal name value c) = Z.max (lc_included c) (roundedMetricCount value) /\
  lc_successful (addIncluded signal name value c) = lc_successful c.
Proof.
  intros H. unfold addIncluded. destruct (Z.leb_spec (roundedMetricCount value) 0); cbn; [lia|].
  destruct (Z.ltb_spec (lc_included c) (roundedMetricCount value)); lia.
Qed.
Lemma addSuccessful_counts signal name value c : 0 <= lc_successful c ->
  lc_included (addSuccessful signal name value c) = lc_included c /\
  lc_successful (addSuccessful signal name value c) = Z.max (lc_successful c) (roundedMetricCount value).
Proof.
  intros H. unfold addSuccessful. destruct (Z.leb_spec (roundedMetricCount value) 0); cbn; [lia|].
  destruct (Z.ltb_spec (lc_successful c) (roundedMetricCount value)); lia.
Qed.

Lemma count_signal_counts signal c : 0 <= lc_included c -> 0 <= lc_successful c ->
  lc_included (count_signal c signal) = Z.max (lc_included c) (largest (included_counts signal)) /\
  lc_successful (count_signal c signal) = Z.max (lc_successful c) (largest (successful_counts signal)).
Proof.
  intros Hi Hs. unfold count_signal, included_counts, successful_counts. cbn [map largest foldr].
  generalize (ss_SDKTxCountDelta signal), (ss_ConsensusTotalTxsDelta signal), (ss_MempoolSuccessfulTxsDelta signal),
    (ss_SDKTxSuccessfulDelta signal). intros v1 v2 v3 v4.
  destruct (addIncluded_counts signal "sdk_tx_count_delta" v1 c) as [I1 S1]; [done|]. revert I1 S1.
  generalize (addIncluded signal "sdk_tx_count_delta" v1 c). intros c1 I1 S1.
  destruct (addIncluded_counts signal "consensus_total_txs_delta" v2 c1) as [I2 S2]; [lia|]. revert I2 S2.
  generalize (addIncluded signal "consensus_total_txs_delta" v2 c1). intros c2 I2 S2.
  destruct (addIncluded_counts signal "mempool_successful_txs_delta" v3 c2) as [I3 S3]; [lia|]. revert I3 S3.
  generalize (addIncluded signal "mempool_successful_txs_delta" v3 c2). intros c3 I3 S3.
  destruct (addSuccessful_counts signal "sdk_tx_successful_delta" v4 c3) as [I4 S4]; [lia|]. revert I4 S4.
  generalize (addSuccessful signal "sdk_tx_successful_delta" v4 c3). intros c4 I4 S4.
  destruct (addSuccessful_counts signal "mempool_successful_txs_delta" v3 c4) as [I5 S5]; [lia|]. lia.
Qed.

(** The counts are the largest any node's counters moved by, and a successful
    transaction is an included one. *)
Lemma appMetricLoadCounts_counts signals :
  let '(included, successful, _, ok) := appMetricLoadCounts signals in
  successful = largest (flat_map successful_counts signals) /\
  included = largest (flat_map included_counts signals ++ flat_map successful_counts signals) /\
  0 <= successful <= included /\ (ok = true <-> 0 < included).
Proof.
  unfold appMetricLoadCounts. rewrite largest_app.
  assert (H : forall c, 0 <= lc_included c -> 0 <= lc_successful c ->
    lc_included (foldl count_signal c signals) = Z.max (lc_included c) (largest (flat_map included_counts signals)) /\
    lc_successful (foldl count_signal c signals) = Z.max (lc_successful c) (largest (flat_map successful_counts signals))).
  { induction signals as [|s signals IH]; intros c Hi Hs; [cbn; lia|]. cbn [foldl flat_map]. rewrite !largest_app.
    destruct (count_signal_counts s c Hi Hs) as [Ei Es]. destruct (IH (count_signal c s)) as [-> ->]; lia. }
  destruct (H {| lc_included := 0; lc_successful := 0; lc_candidates := [] |}) as [Ei Es]; [cbn; lia..|].
  cbn [lc_included lc_successful] in *. rewrite Ei, Es.
  pose proof (largest_nonneg (flat_map successful_counts signals)).
  pose proof (largest_nonneg (flat_map included_counts signals)).
  destruct (Z.ltb_spec (Z.max 0 (largest (flat_map included_counts signals))) (Z.max 0 (largest (flat_map successful_counts signals))));
    rewrite orb_true_iff, !Z.ltb_lt; lia.
Qed.
