(* ===== verification/RunnerLogs.v ===== *)
(** * The report runner's log summaries: [cmd/local-report-runner/main.go]

    What the task logs of the load generator say: transactions sent and
    failed, the collector's blocks, and the spans between the log lines of a
    block.  Sums of parsed numbers wrap at 64 bits; numbers of lines do not
    reach that. *)

From stdpp Require Import sorting.
From S2P Require Import Prelude GoStrings GoVal GoTime GoFloat GoText RunnerWindows RunnerMetrics.
From Stdlib Require Import Ascii Floats.SpecFloat.

(** ** Durations *)
Record durationStats := {
  ds_Count : Z;
  ds_TotalSeconds : float;
  ds_AvgSeconds : float;
  ds_P50Seconds : float;
  ds_P95Seconds : float;
  ds_MaxSeconds : float
}.

(** [sort.Float64s] puts what is not a number first. *)
Definition is_nan (x : float) : bool := negb (feq x x).
Definition float_less (x y : float) : bool := flt x y || (is_nan x && negb (is_nan y)).
Definition float_le (x y : float) : Prop := float_less y x = false.
#[export] Instance float_le_dec : RelDecision float_le.
Proof. intros x y. unfold float_le. apply _. Defined.

Definition half : float := float64_div (float64 1) (float64 2).              (* 0.50 *)
Definition ninety_five : float := float64_div (float64 95) (float64 100).    (* 0.95 *)

Definition percentile_index (n : nat) (percentile : float) : Z :=
  let index := int_ceil (float64_mul percentile (float64 (Z.of_nat n))) - 1 in
  let index := if index <? 0 then 0 else index in
  if Z.of_nat n <=? index then Z.of_nat n - 1 else index.

Definition percentileSorted (sorted : list float) (percentile : float) : float :=
  match sorted with
  | [] => fzero
  | x :: _ =>
      if fle percentile fzero then x
      else if fle (float64 1) percentile then List.last sorted fzero
      else nth (Z.to_nat (percentile_index (length sorted) percentile)) sorted fzero
  end.

Definition summarizeDurations (values : list float) : option durationStats :=
  match values with
  | [] => None
  | _ =>
      let sorted := merge_sort float_le values in
      let total := foldl fadd fzero sorted in
      Some {| ds_Count := Z.of_nat (length sorted); ds_TotalSeconds := total;
              ds_AvgSeconds := float64_div total (float64 (Z.of_nat (length sorted)));
              ds_P50Seconds := percentileSorted sorted half; ds_P95Seconds := percentileSorted sorted ninety_five;
              ds_MaxSeconds := List.last sorted fzero |}
  end.

(** ** The spans of the log lines *)
Record catalystLogTiming := {
  ct_LogTruncated : bool;
  ct_ParsedLines : Z;
  ct_TimestampedLines : Z;
  ct_FirstTimestamp : option Z;
  ct_LastTimestamp : option Z;
  ct_LogSpanSeconds : float;
  ct_SendStartEvents : Z;
  ct_SendCompleteEvents : Z;
  ct_SendExpectedTxsTotal : Z;
  ct_SendTxsSentTotal : Z;
  ct_SendMatchedTxsTotal : Z;
  ct_SendDurations : option durationStats;
  ct_SendTxsPerSecond : float;
  ct_BlockEventEvents : Z;
  ct_BlockProcessingEvents : Z;
  ct_BlockProcessedEvents : Z;
  ct_BlockEventToProcessingDurations : option durationStats;
  ct_BlockProcessingToProcessedDurations : option durationStats;
  ct_ChainTimestampToProcessingDurations : option durationStats;
  ct_Notes : list string
}.

(** The builder, in three parts: lines, sends and blocks. *)
Record line_counts := {
  ParsedLines : Z;
  TimestampedLines : Z;
  FirstTimestamp : option Z;
  LastTimestamp : option Z
}.

Record send_timing := {
  SendStartEvents : Z;
  SendExpectedTxsTotal : Z;
  SendCompleteEvents : Z;
  SendTxsSentTotal : Z;
  SendMatchedTxsTotal : Z;
  sendStarts : gmap Z Z;
  sendExpected : gmap Z Z;
  sendDurations : list float;
  unmatchedSendCompletes : Z
}.

Record block_timing := {
  BlockEventEvents : Z;
  BlockProcessingEvents : Z;
  BlockProcessedEvents : Z;
  blockEvents : gmap Z Z;
  blockProcessing : gmap Z Z;
  eventToProcessing : list float;
  processingToProcessed : list float;
  chainTimestampToProcess : list float
}.

Record catalystLogTimingBuilder := {
  LogTruncated : bool;
  b_lines : line_counts;
  b_sends : send_timing;
  b_blocks : block_timing
}.

Definition newCatalystLogTiming (logs : string) : catalystLogTimingBuilder :=
  {| LogTruncated := HasPrefix logs "[truncated task logs; showing tail]";
     b_lines := {| ParsedLines := 0; TimestampedLines := 0; FirstTimestamp := None; LastTimestamp := None |};
     b_sends := {| SendStartEvents := 0; SendExpectedTxsTotal := 0; SendCompleteEvents := 0; SendTxsSentTotal := 0;
                   SendMatchedTxsTotal := 0; sendStarts := ∅; sendExpected := ∅; sendDurations := [];
                   unmatchedSendCompletes := 0 |};
     b_blocks := {| BlockEventEvents := 0; BlockProcessingEvents := 0; BlockProcessedEvents := 0; blockEvents := ∅;
                    blockProcessing := ∅; eventToProcessing := []; processingToProcessed := [];
                    chainTimestampToProcess := [] |} |}.

Definition tab : ascii := ascii_of_nat 9.

(** [strings.Cut] at a tab, or the first field. *)
Definition catalystLogTimestamp (line : string) : option Z :=
  match IndexByte line tab with
  | Some i => ParseRFC3339 (str_take i line)
  | None => match Fields line with [] => None | field :: _ => ParseRFC3339 field end
  end.

Definition catalystLogStringTimestamp (line key : string) : option Z :=
  let text := stringField line key in
  if String.eqb text "" then None else ParseRFC3339 text.

Definition note_line (at_ : option Z) (l : line_counts) : line_counts :=
  match at_ with
  | None => {| ParsedLines := ParsedLines l + 1; TimestampedLines := TimestampedLines l;
               FirstTimestamp := FirstTimestamp l; LastTimestamp := LastTimestamp l |}
  | Some at_ =>
      {| ParsedLines := ParsedLines l + 1; TimestampedLines := TimestampedLines l + 1;
         FirstTimestamp := match FirstTimestamp l with Some t => if at_ <? t then Some at_ else Some t | None => Some at_ end;
         LastTimestamp := match LastTimestamp l with Some t => if t <? at_ then Some at_ else Some t | None => Some at_ end |}
  end.

Definition send_start (at_ block expected : Z) (s : send_timing) : send_timing :=
  {| SendStartEvents := SendStartEvents s + 1; SendExpectedTxsTotal := to_int64 (SendExpectedTxsTotal s + expected);
     SendCompleteEvents := SendCompleteEvents s; SendTxsSentTotal := SendTxsSentTotal s;
     SendMatchedTxsTotal := SendMatchedTxsTotal s; sendStarts := <[block := at_]> (sendStarts s);
     sendExpected := <[block := expected]> (sendExpected s); sendDurations := sendDurations s;
     unmatchedSendCompletes := unmatchedSendCompletes s |}.

Definition send_complete (at_ block sent : Z) (s : send_timing) : send_timing :=
  let '(matched, starts, expected, durations, unmatched) :=
    match sendStarts s !! block with
    | Some started =>
        if negb (at_ <? started) then
          (to_int64 (SendMatchedTxsTotal s + sent), delete block (sendStarts s), delete block (sendExpected s),
           sendDurations s ++ [Seconds (Sub at_ started)], unmatchedSendCompletes s)
        else (SendMatchedTxsTotal s, sendStarts s, sendExpected s, sendDurations s, unmatchedSendCompletes s + 1)
    | None => (SendMatchedTxsTotal s, sendStarts s, sendExpected s, sendDurations s, unmatchedSendCompletes s + 1)
    end in
  {| SendStartEvents := SendStartEvents s; SendExpectedTxsTotal := SendExpectedTxsTotal s;
     SendCompleteEvents := SendCompleteEvents s + 1; SendTxsSentTotal := to_int64 (SendTxsSentTotal s + sent);
     SendMatchedTxsTotal := matched; sendStarts := starts; sendExpected := expected; sendDurations := durations;
     unmatchedSendCompletes := unmatched |}.

Definition block_event (at_ height : Z) (b : block_timing) : block_timing :=
  {| BlockEventEvents := BlockEventEvents b + 1; BlockProcessingEvents := BlockProcessingEvents b;
     BlockProcessedEvents := BlockProcessedEvents b; blockEvents := <[height := at_]> (blockEvents b);
     blockProcessing := blockProcessing b; eventToProcessing := eventToProcessing b;
     processingToProcessed := processingToProcessed b; chainTimestampToProcess := chainTimestampToProcess b |}.

(** The seconds since [since], if it is not later. *)
Definition span_since (since : option Z) (at_ : Z) : list float :=
  match since with Some t => if negb (at_ <? t) then [Seconds (Sub at_ t)] else [] | None => [] end.

Definition block_start (at_ height : Z) (chain : option Z) (b : block_timing) : block_timing :=
  {| BlockEventEvents := BlockEventEvents b; BlockProcessingEvents := BlockProcessingEvents b + 1;
     BlockProcessedEvents := BlockProcessedEvents b; blockEvents := blockEvents b;
     blockProcessing := <[height := at_]> (blockProcessing b);
     eventToProcessing := eventToProcessing b ++ span_since (blockEvents b !! height) at_;
     processingToProcessed := processingToProcessed b;
     chainTimestampToProcess := chainTimestampToProcess b ++ span_since chain at_ |}.

Definition block_processed (at_ height : Z) (b : block_timing) : block_timing :=
  {| BlockEventEvents := BlockEventEvents b; BlockProcessingEvents := BlockProcessingEvents b;
     BlockProcessedEvents := BlockProcessedEvents b + 1; blockEvents := delete height (blockEvents b);
     blockProcessing :=
       match blockProcessing b !! height with
       | Some t => if negb (at_ <? t) then delete height (blockProcessing b) else blockProcessing b
       | None => blockProcessing b
       end;
     eventToProcessing := eventToProcessing b;
     processingToProcessed := processingToProcessed b ++ span_since (blockProcessing b !! height) at_;
     chainTimestampToProcess := chainTimestampToProcess b |}.

(** What a line with a timestamp says. *)
Inductive log_event :=
| EvSendStart (block expected : Z)
| EvSendComplete (block sent : Z)
| EvBlock (height : Z)
| EvProcessing (height : Z) (chain : option Z)
| EvProcessed (height : Z).

Definition unless_zero (n : Z) (e : log_event) : option log_event := if n =? 0 then None else Some e.

Definition log_event_of (line : string) : option log_event :=
  if Contains line "starting to send transactions for block" then
    let block := intField line "block_number" in unless_zero block (EvSendStart block (intField line "expected_txs"))
  else if Contains line "completed sending transactions for block" then
    let block := intField line "block_number" in unless_zero block (EvSendComplete block (intField line "txs_sent"))
  else if Contains line "received new block event" then
    let height := intField line "height" in unless_zero height (EvBlock height)
  else if Contains line "processing block" then
    let height := intField line "height" in
    unless_zero height (EvProcessing height (catalystLogStringTimestamp line "timestamp"))
  else if Contains line "processed block" then
    let height := intField line "height" in unless_zero height (EvProcessed height)
  else None.

Definition send_event (at_ : Z) (e : log_event) (s : send_timing) : send_timing :=
  match e with
  | EvSendStart block expected => send_start at_ block expected s
  | EvSendComplete block sent => send_complete at_ block sent s
  | _ => s
  end.

Definition block_event_of (at_ : Z) (e : log_event) (b : block_timing) : block_timing :=
  match e with
  | EvBlock height => block_event at_ height b
  | EvProcessing height chain => block_start at_ height chain b
  | EvProcessed height => block_processed at_ height b
  | _ => b
  end.

Definition observe_line (b : catalystLogTimingBuilder) (line : string) : catalystLogTimingBuilder :=
  let line := TrimSpace line in
  if String.eqb line "" then b
  else
    let stamp := catalystLogTimestamp line in
    let b := {| LogTruncated := LogTruncated b; b_lines := note_line stamp (b_lines b); b_sends := b_sends b;
                b_blocks := b_blocks b |} in
    match stamp, log_event_of line with
    | Some at_, Some e =>
        {| LogTruncated := LogTruncated b; b_lines := b_lines b; b_sends := send_event at_ e (b_sends b);
           b_blocks := block_event_of at_ e (b_blocks b) |}
    | _, _ => b
    end.

Definition note_if (c : bool) (note : string) : list string := if c then [note] else [].
Definition size_of (m : gmap Z Z) : Z := Z.of_nat (size m).

Definition build_notes (b : catalystLogTimingBuilder) : list string :=
  note_if (LogTruncated b) "task logs were truncated before parsing; counts and totals cover retained log lines only" ++
  note_if (0 <? size_of (sendStarts (b_sends b)))
    (itoa (size_of (sendStarts (b_sends b))) +:+ " send start events did not have retained completion events") ++
  note_if (0 <? unmatchedSendCompletes (b_sends b))
    (itoa (unmatchedSendCompletes (b_sends b)) +:+
     " send completion events did not have retained start events and were excluded from send tx/s") ++
  note_if (0 <? size_of (blockProcessing (b_blocks b)))
    (itoa (size_of (blockProcessing (b_blocks b))) +:+ " block processing events did not have retained processed events").

Definition log_span (l : line_counts) : float :=
  match FirstTimestamp l, LastTimestamp l with
  | Some first, Some last => if negb (last <? first) then Seconds (Sub last first) else fzero
  | _, _ => fzero
  end.

Definition build (b : catalystLogTimingBuilder) : option catalystLogTiming :=
  let l := b_lines b in
  let s := b_sends b in
  let k := b_blocks b in
  let durations := summarizeDurations (sendDurations s) in
  let rate :=
    match durations with
    | Some d => if flt fzero (ds_TotalSeconds d) then float64_div (float64 (SendMatchedTxsTotal s)) (ds_TotalSeconds d) else fzero
    | None => fzero
    end in
  if (TimestampedLines l =? 0) ||
     ((SendStartEvents s =? 0) && (SendCompleteEvents s =? 0) && (BlockEventEvents k =? 0) &&
      (BlockProcessingEvents k =? 0) && (BlockProcessedEvents k =? 0)) then None
  else Some
    {| ct_LogTruncated := LogTruncated b; ct_ParsedLines := ParsedLines l; ct_TimestampedLines := TimestampedLines l;
       ct_FirstTimestamp := FirstTimestamp l; ct_LastTimestamp := LastTimestamp l; ct_LogSpanSeconds := log_span l;
       ct_SendStartEvents := SendStartEvents s; ct_SendCompleteEvents := SendCompleteEvents s;
       ct_SendExpectedTxsTotal := SendExpectedTxsTotal s; ct_SendTxsSentTotal := SendTxsSentTotal s;
       ct_SendMatchedTxsTotal := SendMatchedTxsTotal s; ct_SendDurations := durations; ct_SendTxsPerSecond := rate;
       ct_BlockEventEvents := BlockEventEvents k; ct_BlockProcessingEvents := BlockProcessingEvents k;
       ct_BlockProcessedEvents := BlockProcessedEvents k;
       ct_BlockEventToProcessingDurations := summarizeDurations (eventToProcessing k);
       ct_BlockProcessingToProcessedDurations := summarizeDurations (processingToProcessed k);
       ct_ChainTimestampToProcessingDurations := summarizeDurations (chainTimestampToProcess k);
       ct_Notes := build_notes b |}.

(** ** Counts in the logs *)
Record logErrorCount := { le_Error : string; le_Count : Z }.

Record runnerLogOverall := {
  ro_TotalTransactions : Z;
  ro_TotalIncludedTransactions : Z;
  ro_SuccessfulTransactions : Z;
  ro_FailedTransactions : Z;
  ro_TPS : float
}.

Record loadTestLogSummary := {
  lg_SendingEvents : Z;
  lg_SendingTxsTotal : Z;
  lg_BuiltBatchEvents : Z;
  lg_FailedSendTotal : Z;
  lg_FailedSendErrors : list logErrorCount;
  lg_GoRoutinesCompletedTotal : Z;
  lg_CollectorTxs : Z;
  lg_CollectorStartingBlock : Z;
  lg_CollectorEndingBlock : Z;
  lg_RunnerOverall : option runnerLogOverall;
  lg_CatalystTiming : option catalystLogTiming
}.

Definition no_logs : loadTestLogSummary :=
  {| lg_SendingEvents := 0; lg_SendingTxsTotal := 0; lg_BuiltBatchEvents := 0; lg_FailedSendTotal := 0;
     lg_FailedSendErrors := []; lg_GoRoutinesCompletedTotal := 0; lg_CollectorTxs := 0; lg_CollectorStartingBlock := 0;
     lg_CollectorEndingBlock := 0; lg_RunnerOverall := None; lg_CatalystTiming := None |}.

Definition parseRunnerOverall (line : string) : option runnerLogOverall :=
  let out := {| ro_TotalTransactions := intField line "TotalTransactions";
                ro_TotalIncludedTransactions := intField line "TotalIncludedTransactions";
                ro_SuccessfulTransactions := intField line "SuccessfulTransactions";
                ro_FailedTransactions := intField line "FailedTransactions"; ro_TPS := floatField line "TPS" |} in
  if (ro_TotalTransactions out =? 0) && (ro_TotalIncludedTransactions out =? 0) && feq (ro_TPS out) fzero then None
  else Some out.

Definition normalizeLogError (errText : string) : string :=
  let n := Datatypes.S (String.length errText) in
  let errText := replace_addresses n "http://" "http://<rpc>" errText in
  let errText := replace_addresses (Datatypes.S (String.length errText)) "ws://" "ws://<rpc>" errText in
  if Nat.ltb 300 (String.length errText) then str_take 300 errText else errText.

(** More frequent first, then by their text. *)
Definition error_before (a b : logErrorCount) : bool :=
  if le_Count a =? le_Count b then str_lt (le_Error a) (le_Error b) else le_Count b <? le_Count a.
Definition error_le (a b : logErrorCount) : Prop := error_before b a = false.
#[export] Instance error_le_dec : RelDecision error_le.
Proof. intros a b. unfold error_le. apply _. Defined.

Definition topLogErrors (counts : gmap string Z) (limit : nat) : list logErrorCount :=
  firstn limit (merge_sort error_le (map (fun '(e, n) => {| le_Error := e; le_Count := n |}) (map_to_list counts))).

(** A line's part of the summary, the errors counted apart. *)
Definition summary_line (acc : loadTestLogSummary * gmap string Z) (line : string) : loadTestLogSummary * gmap string Z :=
  let '(s, errors) := acc in
  let sending := Contains line "Sending txs" in
  let failed := Contains line "failed to send tx" in
  let errText := let e := stringField line "error" in if String.eqb e "" then "unknown" else e in
  let err := normalizeLogError errText in
  let collected := if Contains line "Collecting metrics" then intField line "num_txs" else 0 in
  let blocks := Contains line "starting_block" in
  ({| lg_SendingEvents := lg_SendingEvents s + (if sending then 1 else 0);
      lg_SendingTxsTotal :=
        if sending then to_int64 (lg_SendingTxsTotal s + intField line "num_txs") else lg_SendingTxsTotal s;
      lg_BuiltBatchEvents := lg_BuiltBatchEvents s + (if Contains line "built batch " then 1 else 0);
      lg_FailedSendTotal := lg_FailedSendTotal s + (if failed then 1 else 0);
      lg_FailedSendErrors := lg_FailedSendErrors s;
      lg_GoRoutinesCompletedTotal :=
        if Contains line "go routines have completed" then intField line "total_txs" else lg_GoRoutinesCompletedTotal s;
      lg_CollectorTxs := if 0 <? collected then collected else lg_CollectorTxs s;
      lg_CollectorStartingBlock :=
        if blocks then to_uint64 (intField line "starting_block") else lg_CollectorStartingBlock s;
      lg_CollectorEndingBlock := if blocks then to_uint64 (intField line "ending_block") else lg_CollectorEndingBlock s;
      lg_RunnerOverall := if Contains line "runner results" then parseRunnerOverall line else lg_RunnerOverall s;
      lg_CatalystTiming := lg_CatalystTiming s |},
   if failed then <[err := default 0 (errors !! err) + 1]> errors else errors).

Definition newline : ascii := ascii_of_nat 10.

Definition summarizeLoadTestLogs (logs : string) : loadTestLogSummary :=
  if String.eqb logs "" then no_logs
  else
    let lines := Split newline logs in
    let '(s, errors) := foldl summary_line (no_logs, ∅) lines in
    {| lg_SendingEvents := lg_SendingEvents s; lg_SendingTxsTotal := lg_SendingTxsTotal s;
       lg_BuiltBatchEvents := lg_BuiltBatchEvents s; lg_FailedSendTotal := lg_FailedSendTotal s;
       lg_FailedSendErrors := topLogErrors errors 8;
       lg_GoRoutinesCompletedTotal := lg_GoRoutinesCompletedTotal s; lg_CollectorTxs := lg_CollectorTxs s;
       lg_CollectorStartingBlock := lg_CollectorStartingBlock s; lg_CollectorEndingBlock := lg_CollectorEndingBlock s;
       lg_RunnerOverall := lg_RunnerOverall s;
       lg_CatalystTiming := build (foldl observe_line (newCatalystLogTiming logs) lines) |}.

(** ** Sends and their spans *)

(** The events of a log, each with its time. *)
Definition event_at (line : string) : option (Z * log_event) :=
  let line := TrimSpace line in
  if String.eqb line "" then None
  else match catalystLogTimestamp line, log_event_of line with Some at_, Some e => Some (at_, e) | _, _ => None end.
Definition events_of (lines : list string) : list (Z * log_event) := omap event_at lines.

Lemma observe_sends lines : forall b,
  b_sends (foldl observe_line b lines) = foldl (fun s e => send_event e.1 e.2 s) (b_sends b) (events_of lines).
Proof.
  induction lines as [|line lines IH]; intros b; [done|]. cbn [foldl]. rewrite IH. unfold events_of. cbn [omap list_omap].
  unfold event_at, observe_line. destruct (String.eqb (TrimSpace line) EmptyString); [done|].
  destruct (catalystLogTimestamp (TrimSpace line)), (log_event_of (TrimSpace line)); done.
Qed.

Section sends.
Context (evs : list (Z * log_event)).

Definition started_at (b : Z) (i : nat) (a : Z) : Prop := exists x, evs !! i = Some (a, EvSendStart b x).

(** The completion [p.2] of a block and its last start [p.1] before it. *)
Definition is_send (p : nat * nat) : Prop :=
  exists b a a' sent, started_at b p.1 a /\ evs !! p.2 = Some (a', EvSendComplete b sent) /\ a <= a' /\
    (p.1 < p.2)%nat /\ forall k a'', (p.1 < k < p.2)%nat -> ~ started_at b k a''.

Definition send_seconds (p : nat * nat) : float :=
  match evs !! p.1, evs !! p.2 with Some (a, _), Some (a', _) => Seconds (Sub a' a) | _, _ => fzero end.
Definition send_txs (p : nat * nat) : Z :=
  match evs !! p.2 with Some (_, EvSendComplete _ sent) => sent | _ => 0 end.
Definition is_completion (e : Z * log_event) : bool := match e.2 with EvSendComplete _ _ => true | _ => false end.
Definition sum (l : list Z) : Z := foldr Z.add 0 l.

(** A start the builder still waits on. *)
Definition waiting (pairs : list (nat * nat)) (b a : Z) : Prop :=
  exists i, started_at b i a /\ i ∉ pairs.*1 /\ forall k a'', (i < k)%nat -> ~ started_at b k a''.


(** Every start with a completion is matched, and the last start of a block
    that is not is waited on. *)
Definition last_start (b : Z) (i : nat) (a : Z) : Prop :=
  started_at b i a /\ forall k a'', (i < k)%nat -> ~ started_at b k a''.
Definition complete_sends (pairs : list (nat * nat)) : Prop := forall p, is_send p -> p.1 ∈ pairs.*1.
Definition waits (starts : gmap Z Z) (pairs : list (nat * nat)) : Prop :=
  forall b i a, last_start b i a -> i ∉ pairs.*1 -> starts !! b = Some a.

Definition sends_of (s : send_timing) (pairs : list (nat * nat)) : Prop :=
  Forall is_send pairs /\ NoDup pairs.*1 /\ NoDup pairs.*2 /\ sendDurations s = map send_seconds pairs /\
  SendMatchedTxsTotal s = to_int64 (sum (map send_txs pairs)) /\
  SendCompleteEvents s = Z.of_nat (length (List.filter is_completion evs)) /\
  (0 <= unmatchedSendCompletes s /\ SendCompleteEvents s = Z.of_nat (length pairs) + unmatchedSendCompletes s) /\
  map_Forall (waiting pairs) (sendStarts s).
End sends.

Lemma lookup_snoc_length {A} (l : list A) x : (l ++ [x]) !! length l = Some x.
Proof. by apply list_lookup_middle. Qed.

Lemma to_int64_add_l a b : to_int64 (to_int64 a + b) = to_int64 (a + b).
Proof.
  unfold to_int64. replace ((a + 2^63) mod 2^64 - 2^63 + b + 2^63) with ((a + 2^63) mod 2^64 + b) by lia.
  rewrite Zplus_mod_idemp_l. do 2 f_equal. lia.
Qed.

Lemma sum_snoc l x : sum (l ++ [x]) = sum l + x.
Proof. induction l as [|y l IH]; cbn; [lia|]. unfold sum in *. lia. Qed.

Lemma started_at_app evs e b i a : (i < length evs)%nat -> started_at (evs ++ [e]) b i a <-> started_at evs b i a.
Proof. intros Hi. unfold started_at. by rewrite lookup_app_l. Qed.
Lemma started_at_lt evs b i a : started_at evs b i a -> (i < length evs)%nat.
Proof. intros [x Hx]. by eapply lookup_lt_Some. Qed.
Lemma started_at_snoc evs e b i a : started_at (evs ++ [e]) b i a ->
  started_at evs b i a \/ i = length evs /\ exists x, e = (a, EvSendStart b x).
Proof.
  intros [x Hx]. apply lookup_app_Some in Hx as [Hx|[Hle Hx]]; [left; by exists x|right].
  destruct (i - length evs)%nat eqn:Hi; [|done]. cbn in Hx. simplify_eq. split; [lia|]. by eexists.
Qed.

Lemma is_send_app evs e p : is_send evs p -> is_send (evs ++ [e]) p.
Proof.
  intros (b & a & a' & sent & Hs & Hc & Hle & Hlt & Hno). exists b, a, a', sent. pose proof (lookup_lt_Some _ _ _ Hc).
  split_and!; [apply started_at_app; [lia|done]|by rewrite lookup_app_l|done|done|].
  intros k a'' Hk Hst. apply (Hno k a'' Hk). apply (started_at_app evs e); [lia|done].
Qed.

Lemma is_send_lt evs p : is_send evs p -> (p.1 < length evs)%nat /\ (p.2 < length evs)%nat.
Proof. intros (b & a & a' & sent & Hs & Hc & Hle & Hlt & Hno). apply lookup_lt_Some in Hc. lia. Qed.

Lemma send_values_app evs e pairs : Forall (is_send evs) pairs ->
  map (send_seconds (evs ++ [e])) pairs = map (send_seconds evs) pairs /\
  map (send_txs (evs ++ [e])) pairs = map (send_txs evs) pairs.
Proof.
  intros H. split; apply map_ext_Forall; eapply Forall_impl; try exact H; intros p [H1 H2]%is_send_lt;
    unfold send_seconds, send_txs; by rewrite ?lookup_app_l by lia.
Qed.

Lemma completions_snoc evs e :
  Z.of_nat (length (List.filter is_completion (evs ++ [e]))) =
  Z.of_nat (length (List.filter is_completion evs)) + (if is_completion e then 1 else 0).
Proof. rewrite List.filter_app, length_app. cbn [List.filter]. destruct (is_completion e); cbn; lia. Qed.

Lemma waiting_app evs e pairs b a : (forall t x, e <> (t, EvSendStart b x)) ->
  waiting evs pairs b a -> waiting (evs ++ [e]) pairs b a.
Proof.
  intros He (i & Hst & Hin & Hno). pose proof (started_at_lt _ _ _ _ Hst). exists i.
  split_and!; [by apply started_at_app|done|]. intros k a'' Hk [Hk'|(-> & x & ->)]%started_at_snoc; [by eapply Hno|by eapply He].
Qed.

(** An event that starts and completes nothing. *)
Lemma sends_of_other evs e s pairs : sends_of evs s pairs -> is_completion e = false ->
  (forall b t x, e <> (t, EvSendStart b x)) -> sends_of (evs ++ [e]) s pairs.
Proof.
  intros (Hsend & H1 & H2 & Hd & Ht & Hc & [Hu0 Hu] & Hw) Hcomp He. destruct (send_values_app evs e pairs Hsend) as [E1 E2].
  unfold sends_of. rewrite E1, E2, completions_snoc, Hcomp, Z.add_0_r. split_and!; try done.
  - eapply Forall_impl; [exact Hsend|]. intros p. apply is_send_app.
  - intros b a Hb. apply waiting_app; [by intros|by apply Hw].
Qed.

Lemma sends_of_start evs at_ b x s pairs : sends_of evs s pairs ->
  sends_of (evs ++ [(at_, EvSendStart b x)]) (send_start at_ b x s) pairs.
Proof.
  intros (Hsend & H1 & H2 & Hd & Ht & Hc & [Hu0 Hu] & Hw). destruct (send_values_app evs (at_, EvSendStart b x) pairs Hsend) as [E1 E2].
  unfold sends_of. rewrite E1, E2, completions_snoc, Z.add_0_r. split_and!; try done.
  - eapply Forall_impl; [exact Hsend|]. intros p. apply is_send_app.
  - intros b' a Hb'. cbn [send_start sendStarts] in Hb'. apply lookup_insert_Some in Hb' as [[<- <-]|[Hne Hb]].
    + exists (length evs). split_and!; [exists x; by rewrite lookup_snoc_length| |].
      * intros (p & Heq & Hp)%list_elem_of_fmap. rewrite Forall_forall in Hsend. apply Hsend, is_send_lt in Hp. lia.
      * intros k a'' Hk Hst. apply started_at_lt in Hst. rewrite length_app in Hst. cbn in Hst. lia.
    + apply waiting_app; [congruence|by apply Hw].
Qed.

(** ** Nothing is left unmatched *)
Lemma last_start_unique evs b i a j a' : last_start evs b i a -> last_start evs b j a' -> i = j /\ a = a'.
Proof.
  intros [Hi Hno] [Hj Hno']. assert (i = j) as <-.
  { destruct (Nat.lt_total i j) as [Hlt|[Heq|Hlt]]; [|done|]; exfalso; [by eapply Hno|by eapply Hno']. }
  destruct Hi as [x Hx], Hj as [y Hy]. by simplify_eq.
Qed.

Lemma last_start_snoc evs e b i a : (forall t x, e <> (t, EvSendStart b x)) ->
  last_start (evs ++ [e]) b i a -> last_start evs b i a.
Proof.
  intros He [[Hst|(-> & x & ->)]%started_at_snoc Hno]; [|by edestruct He]. split; [done|]. intros k a'' Hk Hst'.
  apply (Hno k a'' Hk). apply started_at_app; [by eapply started_at_lt|done].
Qed.

Lemma is_send_snoc evs e p : is_send (evs ++ [e]) p -> is_send evs p \/
  exists b t sent a, e = (t, EvSendComplete b sent) /\ a <= t /\ last_start evs b p.1 a.
Proof.
  intros (b & a & a' & sent & Hst & Hc & Hle & Hlt & Hno). apply lookup_app_Some in Hc as [Hc|[Hge Hc]].
  - left. exists b, a, a', sent. pose proof (lookup_lt_Some _ _ _ Hc). apply started_at_app in Hst; [|lia].
    split_and!; try done. intros k a'' Hk Hst'. apply (Hno k a'' Hk). apply started_at_app; [lia|done].
  - right. destruct (p.2 - length evs)%nat eqn:Hp2; [|done]. cbn in Hc. injection Hc as ->. exists b, a', sent, a.
    split_and!; [done|done|]. apply started_at_app in Hst; [|lia]. split; [done|]. intros k a'' Hk Hst'.
    pose proof (started_at_lt _ _ _ _ Hst'). apply (Hno k a''); [lia|]. by apply started_at_app.
Qed.

Lemma matched_other evs e s pairs : is_completion e = false -> (forall b t x, e <> (t, EvSendStart b x)) ->
  complete_sends evs pairs -> waits evs (sendStarts s) pairs ->
  complete_sends (evs ++ [e]) pairs /\ waits (evs ++ [e]) (sendStarts s) pairs.
Proof.
  intros Hcomp He Hall Hw. split.
  - intros p [Hp|(b & t & sent & a & -> & _)]%is_send_snoc; [by apply Hall|done].
  - intros b i a Hl%last_start_snoc; [by eapply Hw|by intros].
Qed.

Lemma matched_start evs at_ b x s pairs :
  complete_sends evs pairs -> waits evs (sendStarts s) pairs ->
  let evs' := evs ++ [(at_, EvSendStart b x)] in
  complete_sends evs' pairs /\ waits evs' (sendStarts (send_start at_ b x s)) pairs.
Proof.
  intros Hall Hw evs'. split.
  - intros p [Hp|(? & ? & ? & ? & Heq & _)]%is_send_snoc; [by apply Hall|done].
  - intros b' i a Hl Hin. cbn. destruct (decide (b = b')) as [<-|Hne].
    + rewrite lookup_insert_eq. f_equal. eapply last_start_unique; [|exact Hl]. split; [exists x; apply lookup_snoc_length|].
      intros k a'' Hk Hst%started_at_lt. unfold evs' in Hst. rewrite length_app in Hst. cbn in Hst. lia.
    + rewrite lookup_insert_ne by done. apply (Hw b' i a); [|done]. eapply last_start_snoc; [|exact Hl]. congruence.
Qed.
Lemma sends_of_complete evs at_ b sent s pairs : sends_of evs s pairs ->
  let evs' := evs ++ [(at_, EvSendComplete b sent)] in
  let s' := send_complete at_ b sent s in
  exists pairs', sends_of evs' s' pairs' /\
    ((pairs' = pairs /\ sendStarts s' = sendStarts s /\ (forall a, sendStarts s !! b = Some a -> at_ < a)) \/
     exists i a, last_start evs b i a /\ pairs' = pairs ++ [(i, length evs)] /\ sendStarts s' = delete b (sendStarts s)).
Proof.
  cbn zeta. remember (at_, EvSendComplete b sent) as e eqn:He.
  intros (Hsend & H1 & H2 & Hd & Ht & Hc & [Hu0 Hu] & Hw). destruct (send_values_app evs e pairs Hsend) as [E1 E2].
  assert (Hmono : Forall (is_send (evs ++ [e])) pairs) by (eapply Forall_impl; [exact Hsend|intros p; apply is_send_app]).
  assert (Hkeep : forall b' a, sendStarts s !! b' = Some a -> waiting (evs ++ [e]) pairs b' a)
    by (intros b' a Hb; apply waiting_app; [by subst|by apply Hw]).
  unfold send_complete. destruct (sendStarts s !! b) as [a|] eqn:Hb; [destruct (Z.ltb_spec at_ a)|]; cbn [negb].
  1,3: exists pairs; cbn zeta; split; [|by left; split_and!; [..|intros a' [= <-]]]; unfold sends_of; rewrite E1, E2, completions_snoc; subst e; cbn; split_and!; try done; lia.
  destruct (Hkeep b a Hb) as (i & Hst & Hin & Hno).
  assert (Hi : (i < length evs)%nat).
  { apply started_at_snoc in Hst as [Hst|(_ & x & Hx)]; [by eapply started_at_lt|by subst]. }
  exists (pairs ++ [(i, length evs)]). split; [|right; exists i, a; split_and!; [|done..]].
  2: { apply (last_start_snoc evs e); [by subst|done]. }
  unfold sends_of. cbn [sendDurations SendMatchedTxsTotal SendCompleteEvents unmatchedSendCompletes sendStarts is_completion snd].
  rewrite !map_app, E1, E2, completions_snoc. split_and!.
  - apply Forall_app. split; [done|]. apply Forall_singleton. exists b, a, at_, sent. cbn [fst snd].
    split_and!; [done|by rewrite lookup_snoc_length, He|lia|done|]. intros k a'' Hk. apply Hno. lia.
  - apply NoDup_app. split_and!; [done| |apply NoDup_singleton]. intros j Hj ->%list_elem_of_singleton. done.
  - apply NoDup_app. split_and!; [done| |apply NoDup_singleton]. intros j (p & -> & Hp)%list_elem_of_fmap Heq%list_elem_of_singleton.
    rewrite Forall_forall in Hsend. apply Hsend, is_send_lt in Hp. cbn in Heq. lia.
  - rewrite Hd. f_equal. unfold send_seconds. cbn [fst snd map]. destruct Hst as [x ->]. by rewrite lookup_snoc_length, He.
  - rewrite Ht, to_int64_add_l. cbn [map]. rewrite sum_snoc. do 2 f_equal.
    unfold send_txs. cbn [fst snd]. by rewrite lookup_snoc_length, He.
  - rewrite He. cbn. lia.
  - lia.
  - rewrite length_app. cbn. lia.
  - intros b' a' Hb'. cbn [sendStarts] in Hb'. apply lookup_delete_Some in Hb' as [Hne Hb']. destruct (Hkeep b' a' Hb') as (i' & Hst' & Hin' & Hno'). exists i'.
    split_and!; [done| |done]. rewrite fmap_app, not_elem_of_app. split; [done|]. intros Heq%list_elem_of_singleton.
    destruct Hst as [? Hx], Hst' as [? Hx']. cbn in Heq. subst i'. rewrite Hx in Hx'. congruence.
Qed.


Lemma matched_complete evs at_ b sent s pairs :
  sends_of evs s pairs -> complete_sends evs pairs -> waits evs (sendStarts s) pairs ->
  let evs' := evs ++ [(at_, EvSendComplete b sent)] in
  let s' := send_complete at_ b sent s in
  exists pairs', sends_of evs' s' pairs' /\ complete_sends evs' pairs' /\ waits evs' (sendStarts s') pairs'.
Proof.
  intros Hs Hall Hw. cbn zeta.
  destruct (sends_of_complete evs at_ b sent s pairs Hs) as (pairs' & Hs' & Hcase). exists pairs'. split; [done|].
  destruct Hcase as [(-> & -> & Hnone)|(i & a & Hi & -> & ->)].
  - split.
    + intros p [Hp|(b' & t & sent' & a & Heq & Hle & Hl)]%is_send_snoc; [by apply Hall|]. injection Heq as <- <- <-.
      destruct (decide (p.1 ∈ pairs.*1)) as [|Hin]; [done|]. apply (Hw b p.1 a Hl) in Hin. apply Hnone in Hin. lia.
    + intros b' j a Hl%last_start_snoc; [by apply Hw|done].
  - split.
    + intros p [Hp|(b' & t & sent' & a' & Heq & Hle & Hl)]%is_send_snoc; rewrite fmap_app, elem_of_app; [left; by apply Hall|].
      injection Heq as <- <- <-. right. apply list_elem_of_singleton. cbn. by eapply last_start_unique.
    + intros b' j a' Hl%last_start_snoc; [|done]. rewrite fmap_app, not_elem_of_app. intros [Hin Hne].
      destruct (decide (b = b')) as [<-|Hb]; [|rewrite lookup_delete_ne by done; by eapply Hw].
      destruct Hne. apply list_elem_of_singleton. cbn. by eapply last_start_unique.
Qed.

Lemma send_events_matched evs : exists pairs,
  let s := foldl (fun s e => send_event e.1 e.2 s) (b_sends (newCatalystLogTiming "")) evs in
  sends_of evs s pairs /\ complete_sends evs pairs /\ waits evs (sendStarts s) pairs.
Proof.
  induction evs as [|[at_ e] evs (pairs & Hs & Hall & Hw)] using rev_ind.
  - exists []. cbn zeta. split_and!; [unfold sends_of; cbn; split_and!; try done; by constructor|..].
    + intros p (b & a & a' & sent & [x Hx] & _). done.
    + intros b i a [[x Hx] _]. done.
  - cbn zeta. rewrite foldl_snoc. cbn [fst snd]. destruct e as [b x|b sent|h|h c|h]; cbn [send_event].
    2: by apply (matched_complete evs at_ b sent _ pairs).
    all: exists pairs; split; [first [by apply sends_of_start | by apply sends_of_other]|].
    + by apply matched_start.
    + by apply matched_other.
    + by apply matched_other.
    + by apply matched_other.
Qed.

(** The load generator's sends, as its logs tell them.  The durations
    and the transaction total come from pairs of log lines, a completion and
    the last start of its block before it, not later than it; no line is in
    two pairs, and every start that has such a completion is in one.  The
    completions are the pairs' and the ones counted as unmatched. *)
Theorem summarizeLoadTestLogs_sends (logs : string) (timing : catalystLogTiming) :
  lg_CatalystTiming (summarizeLoadTestLogs logs) = Some timing ->
  let evs := events_of (Split newline logs) in
  exists pairs, Forall (is_send evs) pairs /\ NoDup pairs.*1 /\ NoDup pairs.*2 /\ complete_sends evs pairs /\
    ct_SendDurations timing = summarizeDurations (map (send_seconds evs) pairs) /\
    ct_SendMatchedTxsTotal timing = to_int64 (sum (map (send_txs evs) pairs)) /\
    ct_SendCompleteEvents timing = Z.of_nat (length (List.filter is_completion evs)) /\
    Z.of_nat (length pairs) <= ct_SendCompleteEvents timing.
Proof.
  unfold summarizeLoadTestLogs. destruct (String.eqb logs "") eqn:Hlogs; [done|].
  destruct (foldl summary_line _ _) as [s errors]. cbn [lg_CatalystTiming]. unfold build. rewrite observe_sends.
  change (b_sends (newCatalystLogTiming logs)) with (b_sends (newCatalystLogTiming "")).
  destruct (send_events_matched (events_of (Split newline logs))) as (pairs & Hs).
  revert Hs. cbn zeta. generalize (foldl (fun s e => send_event e.1 e.2 s) (b_sends (newCatalystLogTiming "")) (events_of (Split newline logs))).
  intros sends ((H1 & H2 & H3 & H4 & H5 & H6 & H7 & H8) & Hall & _). destruct (_ || _); [done|]. intros [= <-].
  exists pairs. cbn [ct_SendDurations ct_SendMatchedTxsTotal ct_SendCompleteEvents]. split_and!; try done; [by rewrite H4|lia].
Qed.

Definition in_quotes (s : string) : string := dquote +:+ s +:+ dquote.
Definition log_line (time text : string) (fields : list (string * string)) : string :=
  time +:+ String tab text +:+ Join (map (fun '(k, v) => in_quotes k +:+ ": " +:+ v) fields) ", ".
Definition demo_logs : string := Join
  [log_line "2024-02-29T12:00:00Z" "starting to send transactions for block " [("block_number", "7"); ("expected_txs", "100")];
   log_line "2024-02-29T12:00:01Z" "failed to send tx " [("error", in_quotes "dial http://10.0.0.1:26657 refused")];
   log_line "2024-02-29T12:00:02.5Z" "completed sending transactions for block " [("block_number", "7"); ("txs_sent", "99")];
   log_line "2024-02-29T12:00:03Z" "completed sending transactions for block " [("block_number", "8"); ("txs_sent", "5")]] nl.

Lemma summarizeLoadTestLogs_sends_witness : exists timing pairs,
  lg_CatalystTiming (summarizeLoadTestLogs demo_logs) = Some timing /\
  Forall (is_send (events_of (Split newline demo_logs))) pairs /\
  ct_SendMatchedTxsTotal timing = 99 /\ ct_SendCompleteEvents timing = 2 /\ (length pairs <= 2)%nat.
Proof.
  destruct (lg_CatalystTiming (summarizeLoadTestLogs demo_logs)) as [timing|] eqn:Ht; [|vm_compute in Ht; discriminate].
  destruct (summarizeLoadTestLogs_sends demo_logs timing Ht) as (pairs & Hp & _ & _ & _ & _ & _ & _ & Hle).
  assert (Hc : ct_SendMatchedTxsTotal timing = 99 /\ ct_SendCompleteEvents timing = 2).
  { vm_compute in Ht. injection Ht as <-. split; reflexivity. }
  exists timing, pairs. destruct Hc as [-> Hc]. rewrite Hc in *. split_and!; [reflexivity|exact Hp|reflexivity|reflexivity|lia].
Defined.

Example demo_errors :
  lg_FailedSendErrors (summarizeLoadTestLogs demo_logs) = [{| le_Error := "dial http://<rpc> refused"; le_Count := 1 |}].
Proof. vm_compute. done. Qed.

(** ** The order of [sort.Float64s] *)
Definition float_key (x : float) : Z * Z * Z :=
  match x with
  | S754_nan => (-3, 0, 0)
  | S754_infinity true => (-2, 0, 0)
  | S754_finite true m e => (-1, - e, - Zpos m)
  | S754_zero _ => (0, 0, 0)
  | S754_finite false m e => (1, e, Zpos m)
  | S754_infinity false => (2, 0, 0)
  end.
Definition key_lt (a b : Z * Z * Z) : Prop :=
  let '(a1, a2, a3) := a in
  let '(b1, b2, b3) := b in
  a1 < b1 \/ (a1 = b1 /\ (a2 < b2 \/ (a2 = b2 /\ a3 < b3))).

Lemma float_less_key x y : float_less x y = true <-> key_lt (float_key x) (float_key y).
Proof.
  unfold float_less, is_nan, flt, feq, SFltb, SFeqb.
  destruct x as [[]|[]| |[] m e], y as [[]|[]| |[] m' e']; cbn [SFcompare float_key key_lt andb orb negb];
    rewrite ?Z.compare_refl; change (@Pos.compare_cont Eq) with Pos.compare; rewrite ?Pos.compare_refl;
    try (split; (done || lia)); destruct (Z.compare_spec e e'), (Pos.compare_spec m m'); cbn; split; (done || lia).
Qed.

Lemma float_le_key x y : float_le x y <-> ~ key_lt (float_key y) (float_key x).
Proof. unfold float_le. rewrite <- float_less_key. by destruct (float_less y x). Qed.

#[export] Instance float_le_trans : Transitive float_le.
Proof.
  intros x y z. rewrite !float_le_key. unfold key_lt.
  destruct (float_key x) as [[? ?] ?], (float_key y) as [[? ?] ?], (float_key z) as [[? ?] ?]. lia.
Qed.
#[export] Instance float_le_total : Total float_le.
Proof.
  intros x y. rewrite !float_le_key. unfold key_lt. destruct (float_key x) as [[? ?] ?], (float_key y) as [[? ?] ?]. lia.
Qed.

(** ** Ranks *)
Lemma percentile_half n : 0 < Z.of_nat n < 2^52 -> let i := percentile_index n half in
  0 <= i < Z.of_nat n /\ i * 2 < Z.of_nat n <= (i + 1) * 2.
Proof.
  intros Hn. cbn zeta. unfold percentile_index.
  change half with (S754_finite false 4503599627370496 (-53)).
  destruct (int_ceil_mul 4503599627370496 (Z.of_nat n) eq_refl Hn) as (_ & _ & H1 & H2).
  specialize (H2 eq_refl). generalize dependent (int_ceil (float64_mul (S754_finite false 4503599627370496 (-53)) (float64 (Z.of_nat n)))).
  intros c H1 H2. destruct (Z.ltb_spec (c - 1) 0); [lia|]. destruct (Z.leb_spec (Z.of_nat n) (c - 1)); lia.
Qed.

Lemma percentile_ninety_five n : 0 < Z.of_nat n < 2^44 -> let i := percentile_index n ninety_five in
  0 <= i < Z.of_nat n /\ 100 * i <= 95 * Z.of_nat n <= 100 * (i + 1).
Proof.
  intros Hn. cbn zeta. unfold percentile_index.
  assert (ninety_five = S754_finite false 8556839292003942 (-53)) as -> by (vm_compute; done).
  destruct (int_ceil_mul 8556839292003942 (Z.of_nat n) eq_refl) as (H1 & H2 & H3 & _); [lia|].
  generalize dependent (int_ceil (float64_mul (S754_finite false 8556839292003942 (-53)) (float64 (Z.of_nat n)))).
  intros c H1 H2 H3. destruct (Z.ltb_spec (c - 1) 0); [lia|]. destruct (Z.leb_spec (Z.of_nat n) (c - 1)); lia.
Qed.

Lemma nth_lookup_lt {A} (l : list A) i d : (i < length l)%nat -> l !! i = Some (nth i l d).
Proof.
  revert i. induction l as [|x l IH]; intros [|i] Hi; cbn in *; [lia..|done|]. apply IH. lia.
Qed.

Lemma percentile_lookup sorted p : fle p fzero = false -> fle (float64 1) p = false ->
  0 <= percentile_index (length sorted) p < Z.of_nat (length sorted) ->
  sorted !! Z.to_nat (percentile_index (length sorted) p) = Some (percentileSorted sorted p).
Proof.
  intros H0 H1 Hi. unfold percentileSorted. destruct sorted as [|x sorted]; [cbn in Hi; lia|]. rewrite H0, H1.
  apply nth_lookup_lt. lia.
Qed.

Lemma float_le_refl x : float_le x x.
Proof. by destruct (total float_le x x). Qed.

Lemma sorted_lookup_le (l : list float) i j x y : StronglySorted float_le l -> (i <= j)%nat ->
  l !! i = Some x -> l !! j = Some y -> float_le x y.
Proof.
  intros Hs. revert i j. induction Hs as [|z l Hs IH Hz]; intros [|i] [|j] Hij Hi Hj; cbn in *; try done; try lia.
  - simplify_eq. apply float_le_refl.
  - simplify_eq. rewrite Forall_forall in Hz. apply Hz. by eapply list_elem_of_lookup_2.
  - by eapply (IH i j); [lia|..].
Qed.

Lemma last_lookup_length {A} (l : list A) d : l <> [] -> l !! (length l - 1)%nat = Some (List.last l d).
Proof.
  induction l as [|x l IH]; [done|]. intros _. destruct l as [|y l]; [done|]. cbn [length List.last] in *.
  replace (Datatypes.S (Datatypes.S (length l)) - 1)%nat with (Datatypes.S (Datatypes.S (length l) - 1)) by lia. by apply IH.
Qed.

(** C40: the statistics of durations are order statistics.  The values in
    order, the largest is the last; the 50th percentile is the lower median,
    the 95th is at a rank within one of 95 hundredths of their number, and
    the three do not decrease.  No index leaves the list. *)
Theorem summarizeDurations_ranks (values : list float) (stats : durationStats) :
  Z.of_nat (length values) < 2^44 -> summarizeDurations values = Some stats ->
  exists sorted i j,
    let n := Z.of_nat (length values) in
    sorted ≡ₚ values /\ StronglySorted float_le sorted /\ ds_Count stats = n /\
    (forall x, x ∈ values -> float_le x (ds_MaxSeconds stats)) /\ ds_MaxSeconds stats ∈ values /\
    sorted !! i = Some (ds_P50Seconds stats) /\ Z.of_nat i * 2 < n <= (Z.of_nat i + 1) * 2 /\
    sorted !! j = Some (ds_P95Seconds stats) /\ 100 * Z.of_nat j <= 95 * n <= 100 * (Z.of_nat j + 1) /\
    float_le (ds_P50Seconds stats) (ds_P95Seconds stats) /\ float_le (ds_P95Seconds stats) (ds_MaxSeconds stats).
Proof.
  intros Hn Hstats. unfold summarizeDurations in Hstats. destruct values as [|v values]; [done|].
  remember (v :: values) as vs eqn:Evs. assert (Hlen : (0 < length vs)%nat) by (subst; cbn; lia). clear Evs. injection Hstats as <-.
  pose proof (merge_sort_Permutation float_le vs) as Hperm.
  pose proof (StronglySorted_merge_sort float_le vs) as Hsorted. set (sorted := merge_sort float_le vs) in *. clearbody sorted.
  assert (Hl : length sorted = length vs) by by rewrite Hperm.
  destruct (percentile_half (length sorted)) as [Hi Hhalf]; [lia|].
  destruct (percentile_ninety_five (length sorted)) as [Hj H95]; [lia|].
  pose proof (percentile_lookup sorted half eq_refl eq_refl Hi) as L50.
  pose proof (percentile_lookup sorted ninety_five eq_refl eq_refl Hj) as L95.
  pose proof (last_lookup_length sorted fzero) as Lmax. specialize (Lmax ltac:(by intros ->)).
  exists sorted, (Z.to_nat (percentile_index (length sorted) half)), (Z.to_nat (percentile_index (length sorted) ninety_five)).
  cbn [ds_Count ds_MaxSeconds ds_P50Seconds ds_P95Seconds]. rewrite !Z2Nat.id by lia. rewrite <- Hl. split_and!; try done; try lia.
  - intros x Hx. rewrite <- Hperm in Hx. apply list_elem_of_lookup_1 in Hx as [k Hk]. pose proof (lookup_lt_Some _ _ _ Hk).
    apply (sorted_lookup_le sorted k (length sorted - 1)); [done|lia|done|done].
  - rewrite <- Hperm. by eapply list_elem_of_lookup_2.
  - eapply sorted_lookup_le; [done| |exact L50|exact L95]. lia.
  - eapply sorted_lookup_le; [done| |exact L95|exact Lmax]. lia.
Qed.

Definition demo_durations : list float := map (fun n => Seconds (n * Second)) [5; 1; 4; 2; 3; 9].

Lemma summarizeDurations_ranks_witness : exists stats,
  summarizeDurations demo_durations = Some stats /\ ds_Count stats = 6 /\ ds_P50Seconds stats = Seconds (3 * Second) /\
  float_le (ds_P95Seconds stats) (ds_MaxSeconds stats).
Proof.
  destruct (summarizeDurations demo_durations) as [stats|] eqn:Hs; [|discriminate]. exists stats.
  destruct (summarizeDurations_ranks demo_durations stats) as (sorted & i & j & _ & _ & Hc & _ & _ & _ & _ & _ & _ & _ & Hmax);
    [reflexivity|exact Hs|].
  split; [reflexivity|]. split; [exact Hc|]. split; [|exact Hmax]. vm_compute in Hs. injection Hs as <-. reflexivity.
Defined.
