(* ===== verification/RunnerMonitor.v ===== *)
(** * The report runner's load window: [cmd/local-report-runner/main.go]

    The monitor samples the nodes' metrics while a load test runs, until they
    have counted the target number of transactions.  It runs as a goroutine
    of its own; scrapes, the clock, its ticker and the cancellation are the
    calls, and so is the timeline of the collector that samples TreeDB beside
    it, whose samples come when its own ticker says ([RunnerTimeline]). *)

From stdpp Require Import sorting.
From S2P Require Import Prelude GoStrings GoVal GoTime GoFloat RunnerWindows RunnerMetrics RunnerSignals.

(** ** TreeDB snapshots *)
Record treeDBStatsSnapshot := {
  td_Name : string;
  td_URL : string;
  td_Instance : string;
  td_Store : string;
  td_WALDir : string;
  td_Metrics : gmap string float;
  td_Error : string
}.

Record treeDBStatsDelta := {
  tdd_Name : string;
  tdd_URL : string;
  tdd_Instance : string;
  tdd_Store : string;
  tdd_WALDir : string;
  tdd_Metrics : gmap string metricDeltaValue;
  tdd_Error : string
}.

Record treeDBStatsTimelineSample := {
  tl_Label : string;
  tl_At : Z;
  tl_ElapsedSeconds : float;
  tl_Stats : list treeDBStatsSnapshot
}.

Definition zero_byte : string := String Ascii.zero EmptyString.

Definition treeDBStatsSnapshotID (snapshot : treeDBStatsSnapshot) : string :=
  td_Name snapshot +:+ zero_byte +:+ td_Instance snapshot.

Definition treeDBStatsSnapshotsByID (snapshots : list treeDBStatsSnapshot) : gmap string treeDBStatsSnapshot :=
  foldl (fun out snapshot => <[treeDBStatsSnapshotID snapshot := snapshot]> out) ∅ snapshots.

Definition cloneTreeDBStatsSnapshots (snapshots : list treeDBStatsSnapshot) : list treeDBStatsSnapshot :=
  map (fun snapshot =>
    {| td_Name := td_Name snapshot; td_URL := td_URL snapshot; td_Instance := td_Instance snapshot;
       td_Store := td_Store snapshot; td_WALDir := td_WALDir snapshot; td_Metrics := td_Metrics snapshot;
       td_Error := td_Error snapshot |}) snapshots.

Definition cloneTreeDBStatsTimeline (samples : list treeDBStatsTimelineSample) : list treeDBStatsTimelineSample :=
  map (fun sample =>
    {| tl_Label := tl_Label sample; tl_At := tl_At sample; tl_ElapsedSeconds := tl_ElapsedSeconds sample;
       tl_Stats := cloneTreeDBStatsSnapshots (tl_Stats sample) |}) samples.

Definition initialTreeDBStatsTimeline (started : Z) (stats : list treeDBStatsSnapshot) : list treeDBStatsTimelineSample :=
  if Nat.eqb (length stats) 0 then []
  else [{| tl_Label := "load_start_proxy"; tl_At := started; tl_ElapsedSeconds := fzero;
           tl_Stats := cloneTreeDBStatsSnapshots stats |}].

Definition treeDBStatsSnapshotsComparable (beforeSnap afterSnap : option treeDBStatsSnapshot) : bool :=
  match beforeSnap, afterSnap with
  | Some b, Some a => comparable (td_Error b) (td_Error a) (td_Metrics b) (td_Metrics a)
  | _, _ => false
  end.

(** A field is the first snapshot's, or the second's when that is empty. *)
Definition first_field (field : treeDBStatsSnapshot -> string) (beforeSnap afterSnap : option treeDBStatsSnapshot) : string :=
  let value := match beforeSnap with Some b => field b | None => "" end in
  match afterSnap with Some a => if String.eqb value "" then field a else value | None => value end.

Definition treedb_delta (beforeSnap afterSnap : option treeDBStatsSnapshot) : treeDBStatsDelta :=
  let err := match beforeSnap with Some b => appendSnapshotError "" "before" (td_Error b) | None => "" end in
  let err := match afterSnap with Some a => appendSnapshotError err "after" (td_Error a) | None => err end in
  {| tdd_Name := first_field td_Name beforeSnap afterSnap; tdd_URL := first_field td_URL beforeSnap afterSnap;
     tdd_Instance := first_field td_Instance beforeSnap afterSnap; tdd_Store := first_field td_Store beforeSnap afterSnap;
     tdd_WALDir := first_field td_WALDir beforeSnap afterSnap; tdd_Error := err;
     tdd_Metrics :=
       if treeDBStatsSnapshotsComparable beforeSnap afterSnap then
         common_deltas (default ∅ (td_Metrics <$> beforeSnap)) (default ∅ (td_Metrics <$> afterSnap))
       else ∅ |}.

Definition treeDBStatsDeltaSnapshots (before after : list treeDBStatsSnapshot) : list treeDBStatsDelta :=
  let beforeByID := treeDBStatsSnapshotsByID before in
  let afterByID := treeDBStatsSnapshotsByID after in
  let ids := sorted_names (map treeDBStatsSnapshotID before ++ map treeDBStatsSnapshotID after) in
  List.filter (fun delta => negb (bool_decide (tdd_Metrics delta = ∅)) || negb (String.eqb (tdd_Error delta) ""))
    (map (fun id => treedb_delta (beforeByID !! id) (afterByID !! id)) ids).

(** ** The observation

    The monitor's fields; the reports fill the others later. *)
Record loadWindowObservation := {
  TargetTransactions : Z;
  MinimumSeconds : float;
  DurationSatisfied : bool;
  Reached : bool;
  StartedAt : Z;
  EndedAt : Z;
  ob_Seconds : float;
  IncludedTransactions : Z;
  SuccessfulTransactions : Z;
  AppMetricCandidates : list string;
  MetricsBefore : list metricSnapshot;
  MetricsAfter : list metricSnapshot;
  MetricDeltas : list metricDeltaSnapshot;
  TreeDBStatsBefore : list treeDBStatsSnapshot;
  TreeDBStatsAfter : list treeDBStatsSnapshot;
  TreeDBStatDeltas : list treeDBStatsDelta;
  TreeDBStatsTimeline : list treeDBStatsTimelineSample;
  StorageSignals : list storageSignal;
  WallClockIntervals : list loadWindowInterval;
  ob_Error : string
}.

Definition set_Error (err : string) (obs : loadWindowObservation) : loadWindowObservation :=
  {| TargetTransactions := TargetTransactions obs; MinimumSeconds := MinimumSeconds obs;
     DurationSatisfied := DurationSatisfied obs; Reached := Reached obs; StartedAt := StartedAt obs; EndedAt := EndedAt obs;
     ob_Seconds := ob_Seconds obs; IncludedTransactions := IncludedTransactions obs;
     SuccessfulTransactions := SuccessfulTransactions obs; AppMetricCandidates := AppMetricCandidates obs;
     MetricsBefore := MetricsBefore obs; MetricsAfter := MetricsAfter obs; MetricDeltas := MetricDeltas obs;
     TreeDBStatsBefore := TreeDBStatsBefore obs; TreeDBStatsAfter := TreeDBStatsAfter obs;
     TreeDBStatDeltas := TreeDBStatDeltas obs; TreeDBStatsTimeline := TreeDBStatsTimeline obs;
     StorageSignals := StorageSignals obs; WallClockIntervals := WallClockIntervals obs; ob_Error := err |}.

Definition set_TreeDB (before after : list treeDBStatsSnapshot) (timeline : list treeDBStatsTimelineSample)
    (obs : loadWindowObservation) : loadWindowObservation :=
  {| TargetTransactions := TargetTransactions obs; MinimumSeconds := MinimumSeconds obs;
     DurationSatisfied := DurationSatisfied obs; Reached := Reached obs; StartedAt := StartedAt obs; EndedAt := EndedAt obs;
     ob_Seconds := ob_Seconds obs; IncludedTransactions := IncludedTransactions obs;
     SuccessfulTransactions := SuccessfulTransactions obs; AppMetricCandidates := AppMetricCandidates obs;
     MetricsBefore := MetricsBefore obs; MetricsAfter := MetricsAfter obs; MetricDeltas := MetricDeltas obs;
     TreeDBStatsBefore := before; TreeDBStatsAfter := after; TreeDBStatDeltas := treeDBStatsDeltaSnapshots before after;
     TreeDBStatsTimeline := timeline; StorageSignals := StorageSignals obs;
     WallClockIntervals := WallClockIntervals obs; ob_Error := ob_Error obs |}.

Lemma set_Error_id obs : set_Error (ob_Error obs) obs = obs.
Proof. by destruct obs. Qed.

(** The reports use an observation only when this holds. *)
Definition loadWindowAccepted (obs : option loadWindowObservation) : bool :=
  match obs with
  | None => false
  | Some obs => if negb (Reached obs) then false else fle (MinimumSeconds obs) fzero || DurationSatisfied obs
  end.

Definition loadWindowTargetTransactions (intended : Z) (fraction : float) : Z :=
  if intended <=? 0 then intended
  else if fle fraction fzero || flt (float64 1) fraction then intended
  else
    let target := int_ceil (float64_mul (float64 intended) fraction) in
    if target <? 1 then 1 else if intended <? target then intended else target.

(** ** The monitor *)
Inductive ctx_end := Canceled | DeadlineExceeded.
Definition ctx_Error (e : ctx_end) : string :=
  match e with Canceled => "context canceled" | DeadlineExceeded => "context deadline exceeded" end.

Inductive mon_call :=
| Scrape
| Clock
| Wake                                          (* None: a tick; Some: the context's end *)
| SampleTreeDB (label : string) (at_ : Z)       (* the collector's [sample] *)
| Timeline.                                     (* the collector's [snapshot] *)

Definition mon_ans (c : mon_call) : Type :=
  match c with
  | Scrape => list metricSnapshot
  | Clock => Z
  | Wake => option ctx_end
  | SampleTreeDB _ _ => list treeDBStatsSnapshot
  | Timeline => list treeDBStatsTimelineSample
  end.

Canonical mon_sig : sig := Sig mon_call mon_ans.

(** The goroutine's variables and the observation it shares. *)
Record monitor := {
  m_baseline : list metricSnapshot;
  m_previous : gmap string metricSamplePoint;
  m_wallClockIntervals : list loadWindowInterval;
  m_last : loadWindowObservation
}.

Abbreviation MonM := (M mon_sig monitor).

Section monitor.
Context {R : MapRange}.
Variable format3 : float -> string.              (* %.3f *)
Variable durationString : Z -> string.           (* Duration.String *)
Variable collectTreeDBStats : bool.
Variable treeDBBaseline : list treeDBStatsSnapshot.
Variable targetTransactions : Z.
Variable minDuration : Z.
Variable started : Z.

(** A nil collector has no samples. *)
Definition timeline {S} : M mon_sig S (list treeDBStatsTimelineSample) :=
  if collectTreeDBStats then perform Timeline else retM [].

Definition attachTreeDBStats (obs : loadWindowObservation) (label : string) : MonM loadWindowObservation :=
  if negb collectTreeDBStats then retM obs
  else
    let* after := perform (SampleTreeDB label (EndedAt obs)) in
    let* samples := timeline in
    retM (set_TreeDB (cloneTreeDBStatsSnapshots treeDBBaseline) after samples obs).

Definition observation (baseline metrics : list metricSnapshot) (intervals : list loadWindowInterval)
    (samples : list treeDBStatsTimelineSample) (ended : Z) : loadWindowObservation :=
  let signals := summarizeStorageSignals baseline metrics [] [] in
  let '(included, successful, candidates, ok) := appMetricLoadCounts signals in
  let satisfied := (minDuration <=? 0) || (minDuration <=? Sub ended started) in
  let seconds := Seconds (Sub ended started) in
  let reached := ok && (targetTransactions <=? successful) in
  {| TargetTransactions := targetTransactions; MinimumSeconds := Seconds minDuration; DurationSatisfied := satisfied;
     Reached := reached; StartedAt := started; EndedAt := ended; ob_Seconds := seconds;
     IncludedTransactions := included; SuccessfulTransactions := successful; AppMetricCandidates := candidates;
     MetricsBefore := cloneMetricSnapshots baseline; MetricsAfter := metrics;
     MetricDeltas := metricDeltaSnapshots baseline metrics;
     TreeDBStatsBefore := []; TreeDBStatsAfter := []; TreeDBStatDeltas := []; TreeDBStatsTimeline := samples;
     StorageSignals := signals; WallClockIntervals := intervals;
     ob_Error :=
       if reached && negb satisfied then
         "load window reached in " +:+ format3 seconds +:+ "s, below minimum duration " +:+
         durationString minDuration +:+ "; increase offered workload"
       else "" |}.

Definition observe : MonM loadWindowObservation :=
  let* metrics := perform Scrape in
  let* m := get in
  let baseline := appendMissingUsableMetricBaselineSnapshots (m_baseline m) metrics in
  let* ended := perform Clock in
  let '(intervals, previous) :=
    appendMetricDeltaWallClockIntervalsFromSamples (m_wallClockIntervals m) (m_previous m) ended metrics in
  let* _ := put {| m_baseline := baseline; m_previous := previous; m_wallClockIntervals := intervals; m_last := m_last m |} in
  let* samples := timeline in
  let obs := observation baseline metrics intervals samples ended in
  if Reached obs then attachTreeDBStats obs "load_end" else retM obs.

Definition setLast (obs : loadWindowObservation) : MonM unit :=
  modify (fun m => {| m_baseline := m_baseline m; m_previous := m_previous m;
                      m_wallClockIntervals := m_wallClockIntervals m; m_last := obs |}).

(** One round of the loop: [Some] when the observation is sent to [done]. *)
Definition monitor_round : MonM (option loadWindowObservation) :=
  let* last := observe in
  let* _ := setLast last in
  if Reached last then retM (Some last)
  else
    let* wake := perform Wake in
    match wake with
    | None => retM None
    | Some err =>
        let last := if String.eqb (ob_Error last) "" then set_Error (ctx_Error err) last else last in
        let* last := attachTreeDBStats last "monitor_stop" in
        let* _ := setLast last in
        retM (Some last)
    end.

(** What the goroutine sends to [done]. *)
Definition run_monitor (fuel : nat) : MonM loadWindowObservation := poll fuel monitor_round.

Definition empty_observation (ended : Z) (baseline : list metricSnapshot) (samples : list treeDBStatsTimelineSample)
    (treeDBBefore : list treeDBStatsSnapshot) (err : string) : loadWindowObservation :=
  {| TargetTransactions := targetTransactions; MinimumSeconds := Seconds minDuration;
     DurationSatisfied := minDuration <=? 0; Reached := false; StartedAt := started; EndedAt := ended; ob_Seconds := fzero;
     IncludedTransactions := 0; SuccessfulTransactions := 0; AppMetricCandidates := [];
     MetricsBefore := cloneMetricSnapshots baseline; MetricsAfter := []; MetricDeltas := [];
     TreeDBStatsBefore := cloneTreeDBStatsSnapshots treeDBBefore; TreeDBStatsAfter := []; TreeDBStatDeltas := [];
     TreeDBStatsTimeline := samples; StorageSignals := []; WallClockIntervals := []; ob_Error := err |}.

End monitor.

(** The zero value, what [Last] gives before the first observation. *)
Definition no_observation : loadWindowObservation :=
  {| TargetTransactions := 0; MinimumSeconds := fzero; DurationSatisfied := false; Reached := false;
     StartedAt := zero_time; EndedAt := zero_time; ob_Seconds := fzero; IncludedTransactions := 0;
     SuccessfulTransactions := 0; AppMetricCandidates := []; MetricsBefore := []; MetricsAfter := []; MetricDeltas := [];
     TreeDBStatsBefore := []; TreeDBStatsAfter := []; TreeDBStatDeltas := []; TreeDBStatsTimeline := [];
     StorageSignals := []; WallClockIntervals := []; ob_Error := "" |}.

(** The variables of the goroutine when it starts; the local observation it
    begins with is replaced before it is used. *)
Definition initial_monitor (started : Z) (baseline : list metricSnapshot) : monitor :=
  {| m_baseline := baseline; m_previous := seedMetricSamplePoints started baseline; m_wallClockIntervals := [];
     m_last := no_observation |}.

(** [Wait]: [done], or the timer and then, after a cancellation, [done]. *)
Inductive wait_call :=
| DoneOrTimer
| CancelThenDone.
Definition wait_ans (c : wait_call) : Type :=
  match c with DoneOrTimer => option loadWindowObservation | CancelThenDone => loadWindowObservation end.
Canonical wait_sig : sig := Sig wait_call wait_ans.

Definition Stop : M wait_sig unit loadWindowObservation := perform CancelThenDone.

Definition Wait (durationString : Z -> string) (timeout : Z) : M wait_sig unit loadWindowObservation :=
  if timeout <=? 0 then Stop
  else
    let* done_ := perform DoneOrTimer in
    match done_ with
    | Some obs => retM obs
    | None =>
        let* obs := perform CancelThenDone in
        retM (if String.eqb (ob_Error obs) "" && negb (Reached obs)
              then set_Error ("load window target not reached before drain timeout " +:+ durationString timeout) obs
              else obs)
    end.

(** The goroutine of a monitor, up to what it sends to [done]. *)
Definition monitor_goroutine {R : MapRange} (format3 : float -> string) (durationString : Z -> string) (fuel : nat)
    (baseline : list metricSnapshot) (treeDBBaseline : list treeDBStatsSnapshot) (collectTreeDBStats : bool)
    (targetTransactions minDuration started : Z) : M mon_sig unit loadWindowObservation :=
  let* _ := timeline collectTreeDBStats in
  scoped (initial_monitor started baseline)
    (run_monitor format3 durationString collectTreeDBStats treeDBBaseline targetTransactions minDuration started fuel).

(** [startLoadWindowMonitor] and its goroutine, up to what it sends to
    [done]; the [baseline] it is given is not used. *)
Definition startLoadWindowMonitor {R : MapRange} (format3 : float -> string) (durationString : Z -> string) (fuel : nat)
    (baseline : list metricSnapshot) (treeDBBaseline : list treeDBStatsSnapshot) (collectTreeDBStats : bool)
    (targetTransactions minDuration : Z) : M mon_sig unit loadWindowObservation :=
  let* metrics := perform Scrape in
  let baseline := usableMetricSnapshots metrics in
  let* started := perform Clock in
  if targetTransactions <=? 0 then
    let* ended := perform Clock in
    retM (empty_observation targetTransactions minDuration started ended baseline
      (initialTreeDBStatsTimeline started treeDBBaseline) treeDBBaseline "target transaction count is not positive")
  else monitor_goroutine format3 durationString fuel baseline treeDBBaseline collectTreeDBStats targetTransactions minDuration started.

(** ** What an observation says *)

(** The answers of the clock, and the number of ticks. *)
Definition clock_of (e : event mon_sig) : option Z :=
  let '(existT c x) := e in
  match c return mon_ans c -> option Z with Clock => fun x => Some x | _ => fun _ => None end x.
Definition clocks (l : list (event mon_sig)) : list Z := omap clock_of l.
Definition is_tick (e : event mon_sig) : bool :=
  let '(existT c x) := e in
  match c return mon_ans c -> bool with
  | Wake => fun x => match x with None => true | _ => false end
  | _ => fun _ => false
  end x.
Definition ticks (l : list (event mon_sig)) : nat := length (List.filter is_tick l).

Lemma clocks_app l1 l2 : clocks (l1 ++ l2) = clocks l1 ++ clocks l2.
Proof. apply omap_app. Qed.
Lemma ticks_app l1 l2 : ticks (l1 ++ l2) = (ticks l1 + ticks l2)%nat.
Proof. unfold ticks. by rewrite List.filter_app, length_app. Qed.

Lemma last_cons {A} (x : A) l d : List.last (x :: l) d = List.last l x.
Proof. revert x d. induction l as [|y l IH]; intros x d; [done|]. change (List.last (x :: y :: l) d) with (List.last (y :: l) d). by rewrite (IH y d), (IH y x). Qed.
Lemma sorted_snoc_last x l y : Sorted Z.le (x :: l ++ [y]) ->
  Sorted Z.le (x :: l) /\ x <= List.last l x /\ List.last l x <= y.
Proof.
  revert x. induction l as [|z l IH]; intros x [Hl Hx]%Sorted_inv; inversion Hx; subst.
  - split_and!; [by repeat constructor|done|done].
  - rewrite last_cons. destruct (IH z Hl) as (Hs & Hz & Hy). split_and!; [by constructor; [|constructor]|lia|done].
Qed.
Lemma last_snoc_default {A} (l : list A) x d : List.last (l ++ [x]) d = x.
Proof. apply List.last_last. Qed.

Lemma positive_float_not_le x : positive_float x -> fle x fzero = false.
Proof. by destruct x as [|[]| |[]]. Qed.

(** Two observations of the same window, TreeDB aside. *)
Definition same_window (obs obs' : loadWindowObservation) : Prop := set_TreeDB [] [] [] obs = set_TreeDB [] [] [] obs'.

#[local] Ltac obs_cbn := cbn [TargetTransactions StartedAt EndedAt IncludedTransactions SuccessfulTransactions StorageSignals MetricsBefore MetricsAfter
    Reached DurationSatisfied WallClockIntervals ob_Error MinimumSeconds negb andb orb].

Section properties.
Context {R : MapRange}.
Variable format3 : float -> string.
Variable durationString : Z -> string.
Variable collectTreeDBStats : bool.
Variable treeDBBaseline : list treeDBStatsSnapshot.
Variables targetTransactions minDuration started : Z.

(** The counts are the largest of any node's counters, a window is reached
    when the successful transactions are the target's, and when the clock
    [cs] never goes back, the intervals are inside the window and those of a
    method on a node have no instant in common. *)
Definition sound_window (cs : list Z) (obs : loadWindowObservation) : Prop :=
  TargetTransactions obs = targetTransactions /\ StartedAt obs = started /\
  EndedAt obs = List.last cs started /\
  IncludedTransactions obs = largest (flat_map included_counts (StorageSignals obs) ++ flat_map successful_counts (StorageSignals obs)) /\
  SuccessfulTransactions obs = largest (flat_map successful_counts (StorageSignals obs)) /\
  StorageSignals obs = summarizeStorageSignals (MetricsBefore obs) (MetricsAfter obs) [] [] /\
  Reached obs = (0 <? IncludedTransactions obs) && (targetTransactions <=? SuccessfulTransactions obs) /\
  DurationSatisfied obs = (minDuration <=? 0) || (minDuration <=? Sub (EndedAt obs) started) /\
  (Sorted Z.le (started :: cs) ->
   ForallOrdPairs separate (WallClockIntervals obs) /\
   Forall (fun i => started <= li_Started i < li_Ended i /\ li_Ended i <= EndedAt obs) (WallClockIntervals obs)).

(** There is an error exactly when the reports do not accept the window. *)
Definition explained (obs : loadWindowObservation) : Prop :=
  loadWindowAccepted (Some obs) = true <-> ob_Error obs = "".

Lemma same_window_sound cs obs obs' : same_window obs' obs ->
  (sound_window cs obs <-> sound_window cs obs') /\ (explained obs <-> explained obs') /\ Reached obs = Reached obs'.
Proof.
  unfold same_window, set_TreeDB. destruct obs, obs'; cbn. intros [= -> -> -> -> -> -> -> -> -> -> -> -> -> -> -> ->].
  done.
Qed.

Lemma set_Error_sound cs err obs : sound_window cs (set_Error err obs) <-> sound_window cs obs.
Proof. by destruct obs. Qed.

(** What holds between two rounds of the loop. *)
Definition monitor_inv (cs : list Z) (m : monitor) : Prop :=
  Sorted Z.le (started :: cs) -> samples_sound started (List.last cs started) (m_wallClockIntervals m) (m_previous m).

Lemma timeline_run {S} (m : S) t :
  wpM (timeline collectTreeDBStats) m (fun t' m' o =>
    m' = m /\ clocks t' = clocks t /\ ticks t' = ticks t /\ exists samples, o = Ok samples) t.
Proof.
  unfold timeline. destruct collectTreeDBStats; wpM_go; rewrite ?clocks_app, ?ticks_app, ?app_nil_r, ?Nat.add_0_r;
    split_and!; try done; by eexists.
Qed.

Lemma attachTreeDBStats_run obs label m t :
  wpM (attachTreeDBStats collectTreeDBStats treeDBBaseline obs label) m (fun t' m' o =>
    m' = m /\ clocks t' = clocks t /\ ticks t' = ticks t /\ exists obs', o = Ok obs' /\ same_window obs' obs) t.
Proof.
  unfold attachTreeDBStats. destruct (negb _); [wpM_go; split_and!; [done..|]; by eexists|].
  repeat wpM_step. eapply wpM_mono; [|apply timeline_run]. intros t' m' o (-> & Hc & Ht & samples & ->).
  apply wpM_ret. rewrite Hc, Ht, clocks_app, ticks_app, app_nil_r, Nat.add_0_r. split_and!; [done..|]. by eexists.
Qed.

Lemma cloneMetricSnapshots_id l : cloneMetricSnapshots l = l.
Proof. unfold cloneMetricSnapshots. induction l as [|[] l IH]; [done|]. cbn [map]. by rewrite IH. Qed.

Lemma observation_sound baseline metrics intervals samples previous cs :
  (Sorted Z.le (started :: cs) -> samples_sound started (List.last cs started) intervals previous) ->
  sound_window cs (observation format3 durationString targetTransactions minDuration started baseline metrics intervals samples
    (List.last cs started)).
Proof.
  intros Hs. unfold observation, sound_window. remember (summarizeStorageSignals baseline metrics [] []) as signals eqn:Esig.
  pose proof (appMetricLoadCounts_counts signals) as Hc.
  destruct (appMetricLoadCounts _) as [[[included successful] candidates] ok]. destruct Hc as (Es & Ei & Hle & Hok).
  obs_cbn. rewrite cloneMetricSnapshots_id. split_and!; [exact eq_refl..|exact Ei|exact Es|exact Esig| |exact eq_refl|].
  - f_equal. apply eq_true_iff_eq. by rewrite Hok, Z.ltb_lt.
  - intros (Hsep & Hin & Hprev)%Hs. split; [done|]. apply Forall_forall. intros i Hi.
    destruct (Hin i Hi) as (Hr & _ & p & Hp & He). split; [done|]. destruct (Hprev _ _ Hp). lia.
Qed.

Lemma observation_explained baseline metrics intervals samples ended : minDuration < 2^63 ->
  let obs := observation format3 durationString targetTransactions minDuration started baseline metrics intervals samples ended in
  if Reached obs then explained obs else ob_Error obs = "".
Proof.
  intros Hmin. unfold observation, explained, loadWindowAccepted. generalize (summarizeStorageSignals baseline metrics [] []). intros signals.
  destruct (appMetricLoadCounts _) as [[[included successful] candidates] ok].
  obs_cbn. destruct (ok && _); obs_cbn; [|done].
  destruct (Z.leb_spec minDuration 0); [by rewrite orb_true_r|]. obs_cbn.
  destruct (Z.leb_spec minDuration (Sub ended started)); obs_cbn; [by rewrite orb_true_r|].
  rewrite orb_false_r. split; [intros Hle; exfalso; revert Hle|done].
  rewrite positive_float_not_le; [done|]. apply Seconds_pos. lia.
Qed.

Hypothesis (Hmin : minDuration < 2^63).

#[local] Abbreviation observe_ := (observe format3 durationString collectTreeDBStats treeDBBaseline targetTransactions minDuration started).
#[local] Abbreviation round := (monitor_round format3 durationString collectTreeDBStats treeDBBaseline targetTransactions
  minDuration started).

Lemma monitor_inv_scrape cs m ended metrics : monitor_inv cs m ->
  let r := appendMetricDeltaWallClockIntervalsFromSamples (m_wallClockIntervals m) (m_previous m) ended metrics in
  Sorted Z.le (started :: cs ++ [ended]) -> samples_sound started ended r.1 r.2.
Proof.
  intros Hinv r (Hs & Hstart & Hle)%sorted_snoc_last. apply scrape_sound; [lia|].
  by eapply samples_sound_later, Hinv.
Qed.

Lemma observe_run m t : monitor_inv (clocks t) m ->
  wpM observe_ m (fun t' m' o => monitor_inv (clocks t') m' /\ ticks t' = ticks t /\
    exists obs, o = Ok obs /\ sound_window (clocks t') obs /\
      if Reached obs then explained obs else ob_Error obs = "") t.
Proof.
  intros Hinv. unfold observe. do 6 wpM_step.
  destruct (appendMetricDeltaWallClockIntervalsFromSamples _ _ _ _) as [intervals previous] eqn:Er.
  pose proof (monitor_inv_scrape _ _ x0 x Hinv) as Hr. rewrite Er in Hr. cbn [fst snd] in Hr.
  do 2 wpM_step. apply wpM_bind. eapply wpM_mono; [|apply timeline_run]. intros t' m' o (-> & Hc & Ht & samples & ->).
  assert (Hcs : clocks t' = clocks t ++ [x0]) by (rewrite Hc, !clocks_app; cbn; by rewrite app_nil_r).
  assert (Hts : ticks t' = ticks t) by (rewrite Ht, !ticks_app; cbn; by rewrite !Nat.add_0_r).
  assert (Hlast : List.last (clocks t') started = x0) by (rewrite Hcs; apply last_snoc_default).
  assert (Hinv' : Sorted Z.le (started :: clocks t') -> samples_sound started (List.last (clocks t') started) intervals previous)
    by (rewrite Hlast, Hcs; exact Hr).
  set (baseline := appendMissingUsableMetricBaselineSnapshots _ _).
  pose proof (observation_sound baseline x intervals samples previous (clocks t') Hinv') as Hsound.
  pose proof (observation_explained baseline x intervals samples x0 Hmin) as Hexp. rewrite Hlast in Hsound.
  cbn zeta in Hexp |- *. generalize dependent (observation format3 durationString targetTransactions minDuration started baseline x
    intervals samples x0). intros obs Hsound Hexp.
  destruct (Reached obs) eqn:Hreached; [|apply wpM_ret; split_and!; [exact Hinv'|done|]; exists obs; by rewrite Hreached].
  eapply wpM_mono; [|apply attachTreeDBStats_run]. intros t'' m' o (-> & -> & -> & obs' & -> & Hsame).
  split_and!; [exact Hinv'|done|]. exists obs'. destruct (same_window_sound (clocks t') _ _ Hsame) as (H1 & H2 & H3).
  rewrite <- H3, Hreached. split_and!; [done|by apply H1|by apply H2].
Qed.

Lemma wake_clocks t w : clocks (t ++ [ev Wake w]) = clocks t.
Proof. rewrite clocks_app. cbn. by rewrite app_nil_r. Qed.
Lemma wake_ticks t w : ticks (t ++ [ev Wake w]) = (ticks t + if w then 0 else 1)%nat.
Proof. rewrite ticks_app. by destruct w. Qed.

Lemma round_run m t : monitor_inv (clocks t) m ->
  wpM round m (fun t' m' o => monitor_inv (clocks t') m' /\
    ((o = Ok None /\ ticks t' = Datatypes.S (ticks t)) \/
     exists obs, o = Ok (Some obs) /\ ticks t' = ticks t /\ sound_window (clocks t') obs /\ explained obs)) t.
Proof.
  intros Hinv. unfold monitor_round. wpM_step. eapply wpM_mono; [|by apply observe_run].
  intros t1 m1 o (Hinv1 & Ht1 & obs & -> & Hsound & Hexp). unfold setLast. do 2 wpM_step.
  destruct (Reached obs) eqn:Hreached; [wpM_step; split; [done|]; right; by eexists|].
  do 2 wpM_step. rewrite Hexp. change (String.eqb "" "") with true. destruct x as [err|].
  - wpM_step. eapply wpM_mono; [|apply attachTreeDBStats_run]. intros t2 m2 o (-> & Hc & Ht & obs' & -> & Hsame).
    do 3 wpM_step. rewrite wake_clocks in Hc. rewrite wake_ticks, Nat.add_0_r in Ht. rewrite Hc. split; [done|]. right. exists obs'.
    destruct (same_window_sound (clocks t1) _ _ Hsame) as (H1 & H2 & H3). split_and!; [done|by rewrite Ht|by apply H1, set_Error_sound|].
    apply H2. unfold explained, loadWindowAccepted. destruct obs; cbn in *. rewrite Hreached. by destruct err.
  - wpM_step. rewrite wake_clocks, wake_ticks, Ht1. split; [done|]. left. split; [done|lia].
Qed.

Lemma run_monitor_run fuel m t : monitor_inv (clocks t) m ->
  wpM (poll fuel round) m (fun t' _ o => match o with
    | Ok obs => sound_window (clocks t') obs /\ explained obs /\ (ticks t' < ticks t + fuel)%nat
    | NoFuel => ticks t' = (ticks t + fuel)%nat
    | _ => False
    end) t.
Proof.
  revert m t. induction fuel as [|n IH]; intros m t Hinv; cbn [poll]; [apply wpM_lift; lia|].
  wpM_step. eapply wpM_mono; [|by apply round_run]. intros t' m' o (Hinv' & [[-> Ht]|(obs & -> & Ht & Hs & He)]).
  - eapply wpM_mono; [|by apply IH]. intros t'' m'' o. rewrite Ht. destruct o; [intros (? & ? & ?); split_and!; [done..|lia]|done|done|lia].
  - wpM_step. rewrite Ht. split_and!; [done..|lia].
Qed.
End properties.

(** C18: whatever the nodes, the clock, the ticker and the context answer, a
    monitor that ends gives an observation of its own window, which carries an
    error exactly when the reports do not accept it: its counts are the largest
    any node's counters moved by since the baseline, it is reached exactly when
    something was included and the successful transactions are the target's,
    and while the clock does not go back its intervals lie in the window, those
    of a method on a node without an instant in common.  A target that is not
    positive is never watched, and a monitor that has not ended is one whose
    ticker has woken it once per round. *)
Theorem startLoadWindowMonitor_spec {R : MapRange} format3 durationString fuel baseline treeDBBaseline collectTreeDBStats
    targetTransactions minDuration : minDuration < 2^63 ->
  wpM (startLoadWindowMonitor format3 durationString fuel baseline treeDBBaseline collectTreeDBStats targetTransactions minDuration) tt
    (fun t _ o => exists metrics started l, t = [ev Scrape metrics; ev Clock started] ++ l /\
      match o with
      | Ok obs =>
          explained obs /\
          (if targetTransactions <=? 0 then Reached obs = false /\ ticks l = 0%nat
           else sound_window targetTransactions minDuration started (clocks l) obs /\ (ticks l < fuel)%nat)
      | NoFuel => 0 < targetTransactions /\ ticks l = fuel
      | _ => False
      end) [].
Proof.
  intros Hmin. unfold startLoadWindowMonitor, monitor_goroutine. do 2 wpM_step. rename x into metrics. do 2 wpM_step. rename x into started.
  destruct (Z.leb_spec targetTransactions 0).
  - do 3 wpM_step. exists metrics, started, [ev Clock x]. by split_and!.
  - apply wpM_from_nil. wpM_step. eapply wpM_mono; [|apply timeline_run]. intros t m o (_ & Hc & Ht & samples & ->).
    wpM_step. eapply wpM_mono; [|apply run_monitor_run; [done|]].
    + intros t' m' o Ho. exists metrics, started, t'. split; [done|]. rewrite Ht in Ho.
      destruct o; [destruct Ho as (? & ? & ?)|..]; [split_and!|..]; done.
    + rewrite Hc. intros _. apply seed_sound.
Qed.

(** A node's counters, and an environment that scrapes [scrapes] in turn with a
    clock that moves two seconds a scrape. *)
Definition example_metrics (successful count : Z) : list metricSnapshot :=
  [{| ms_Name := "validator-0"; ms_URL := "http://127.0.0.1:26660/metrics"; ms_Error := "";
      ms_Metrics := list_to_map [("tx_successful", float64 successful); ("tx_count", float64 count)] |}].
Definition example_env : handler mon_sig (list (list metricSnapshot) * Z) := fun c w =>
  match c return mon_ans c * _ with
  | Scrape => (default [] (head w.1), (tail w.1, w.2 + 2 * Second))
  | Clock => (w.2, w)
  | Wake => (None, w)
  | SampleTreeDB _ _ => ([], w)
  | Timeline => ([], w)
  end.
Definition example_run (minDuration : Z) (scrapes : list (list metricSnapshot)) :=
  runM example_env (startLoadWindowMonitor (R := canonical_range) (fun _ => "4.000") (fun _ => "5s") 5 [] [] false 100 minDuration)
    tt (scrapes, 1000 * Second).

Lemma startLoadWindowMonitor_spec_witness :
  let '(_, o, _, _) := example_run (3 * Second) [example_metrics 10 10; example_metrics 60 60; example_metrics 110 111] in
  exists obs, o = Ok obs /\ Reached obs = true /\ IncludedTransactions obs = 101 /\ ob_Error obs = "".
Proof.
  pose proof (wpM_runM example_env _ tt ([example_metrics 10 10; example_metrics 60 60; example_metrics 110 111], 1000 * Second) _
    (startLoadWindowMonitor_spec (R := canonical_range) (fun _ => "4.000") (fun _ => "5s") 5 [] [] false 100 (3 * Second) eq_refl)) as H.
  revert H. fold (example_run (3 * Second) [example_metrics 10 10; example_metrics 60 60; example_metrics 110 111]).
  assert (Ho : exists s obs w t, example_run (3 * Second) [example_metrics 10 10; example_metrics 60 60; example_metrics 110 111]
      = (s, Ok obs, w, t) /\ Reached obs = true /\ IncludedTransactions obs = 101 /\ loadWindowAccepted (Some obs) = true).
  { eexists _, _, _, _. split; [vm_compute; reflexivity|]. vm_compute. done. }
  destruct Ho as (s & obs & w & t & -> & Hreached & Hincluded & Haccepted). intros (metrics & started & l & _ & Hexp & _).
  exists obs. split_and!; [done..|by apply Hexp].
Defined.

(** A window reached before its minimum duration is no evidence. *)
Example monitor_short :
  let '(_, o, _, _) := example_run (5 * Second) [example_metrics 10 10; example_metrics 60 60; example_metrics 110 111] in
  match o with
  | Ok obs => Reached obs = true /\ loadWindowAccepted (Some obs) = false /\
      ob_Error obs = "load window reached in 4.000s, below minimum duration 5s; increase offered workload"
  | _ => False
  end.
Proof. vm_compute. done. Qed.
