(* ===== verification/RunnerTimeline.v ===== *)
(** * The timeline of TreeDB's statistics: [cmd/local-report-runner/main.go]

    [treeDBStatsTimelineCollector]: samples of TreeDB's debug variables, taken
    by a goroutine of its own at every tick and by the monitor's goroutine
    when it wants one, in a slice under a mutex, with another mutex around
    each sample.  The two goroutines run interleaved over the shared
    collector, a lock, a scrape or an access of the slice at a time.  The
    abstract collector takes a sample and a snapshot in one step; the monitor
    of [RunnerMonitor] is a client of it. *)

From S2P Require Import Prelude GoStrings GoVal GoTime GoFloat RunnerWindows RunnerMetrics RunnerSignals RunnerMonitor.

(** ** The goroutines' calls *)
Inductive col_call :=
| LockSampleMu
| UnlockSampleMu
| LockMu
| UnlockMu
| ScrapeDebugVars                                (* scrapeTreeDBDebugVars *)
| AppendSample (sample : treeDBStatsTimelineSample)
| ReadSamples
| TickOrCancel                                   (* Some: a tick; None: the context's end *)
| CloseDone
| CancelCollector
| AwaitDone
| OfMonitor (c : mon_call).                      (* a call that is not the collector's *)

Definition col_ans (c : col_call) : Type :=
  match c with
  | ScrapeDebugVars => list treeDBStatsSnapshot
  | ReadSamples => list treeDBStatsTimelineSample
  | TickOrCancel => option Z
  | OfMonitor c => mon_ans c
  | _ => unit
  end.
Canonical col_sig : sig := Sig col_call col_ans.

#[local] Notation "'do' x <- c ; p" := (Call (c : call col_sig) (fun x => p)) (at level 200, x binder, c at level 100, p at level 200).

(** ** The collector *)
Section collector.
Variable started : Z.

Definition new_sample (label : string) (at_ : Z) (stats : list treeDBStatsSnapshot) : treeDBStatsTimelineSample :=
  {| tl_Label := label; tl_At := at_; tl_ElapsedSeconds := Seconds (Sub at_ started); tl_Stats := cloneTreeDBStatsSnapshots stats |}.

Definition sample (label : string) (at_ : Z) : prog col_sig (list treeDBStatsSnapshot) :=
  do _ <- LockSampleMu;
  do stats <- ScrapeDebugVars;
  do _ <- LockMu;
  do _ <- AppendSample (new_sample label at_ stats);
  do _ <- UnlockMu;
  do _ <- UnlockSampleMu;
  Ret (stats : list treeDBStatsSnapshot).

Definition snapshot : prog col_sig (list treeDBStatsTimelineSample) :=
  do _ <- LockMu;
  do samples <- ReadSamples;
  do _ <- UnlockMu;
  Ret (cloneTreeDBStatsTimeline samples).

(** One round of the collector's goroutine: it ends with [Some]. *)
Definition collector_round : prog col_sig (option unit) :=
  do tick <- TickOrCancel;
  match (tick : option Z) with
  | Some at_ => prog_bind (sample "interval" at_) (fun _ => Ret None)
  | None => do _ <- CloseDone; Ret (Some tt)
  end.

Definition stop : prog col_sig unit :=
  do _ <- CancelCollector;
  do _ <- AwaitDone;
  Ret tt.

(** A goroutine that uses the collector, and stops it when it ends. *)
Definition serve_call (c : mon_call) : prog col_sig (mon_ans c) :=
  match c return prog col_sig (mon_ans c) with
  | SampleTreeDB label at_ => sample label at_
  | Timeline => snapshot
  | Scrape => Call (OfMonitor Scrape : call col_sig) Ret
  | Clock => Call (OfMonitor Clock : call col_sig) Ret
  | Wake => Call (OfMonitor Wake : call col_sig) Ret
  end.
Fixpoint with_collector {A} (p : prog mon_sig A) : prog col_sig A :=
  match p with
  | Ret a => Ret a
  | Call c k => prog_bind (serve_call c) (fun x => with_collector (k x))
  end.
Definition collector_user {A} (p : prog mon_sig A) : prog col_sig A :=
  prog_bind (with_collector p) (fun a => prog_bind stop (fun _ => Ret a)).
End collector.

(** ** Goroutines interleaved *)
Record collector := {
  co_sampleMu : bool;
  co_mu : bool;
  co_samples : list treeDBStatsTimelineSample;
  co_cancelled : bool;
  co_done : bool
}.

(** What a call can be answered, with the collector after it; none when it
    blocks. *)
Definition answers (c : col_call) (s : collector) : col_ans c -> collector -> Prop :=
  let '{| co_sampleMu := sampleMu; co_mu := mu; co_samples := samples; co_cancelled := cancelled; co_done := done_ |} := s in
  match c return col_ans c -> collector -> Prop with
  | LockSampleMu => fun _ s' => sampleMu = false /\ s' = Build_collector true mu samples cancelled done_
  | UnlockSampleMu => fun _ s' => sampleMu = true /\ s' = Build_collector false mu samples cancelled done_
  | LockMu => fun _ s' => mu = false /\ s' = Build_collector sampleMu true samples cancelled done_
  | UnlockMu => fun _ s' => mu = true /\ s' = Build_collector sampleMu false samples cancelled done_
  | AppendSample x => fun _ s' => s' = Build_collector sampleMu mu (samples ++ [x]) cancelled done_
  | ReadSamples => fun r s' => r = samples /\ s' = s
  | TickOrCancel => fun r s' => (r = None -> cancelled = true) /\ s' = s
  | CancelCollector => fun _ s' => s' = Build_collector sampleMu mu samples true done_
  | CloseDone => fun _ s' => s' = Build_collector sampleMu mu samples cancelled true
  | AwaitDone => fun _ s' => done_ = true /\ s' = s
  | ScrapeDebugVars | OfMonitor _ => fun _ s' => s' = s
  end.

Definition thread_step {X} (s : collector) (q : prog col_sig X) (s' : collector) (q' : prog col_sig X) : Prop :=
  match q with Ret _ => False | Call c k => exists x, answers c s x s' /\ q' = k x end.

Record system (A : Type) := {
  sy_shared : collector;
  sy_ticker : prog col_sig (option unit);
  sy_user : prog col_sig A
}.
Arguments Build_system {_} _ _ _.
Arguments sy_shared {_} _.
Arguments sy_ticker {_} _.
Arguments sy_user {_} _.

Section interleaving.
Variable started : Z.
Context {A : Type}.

Inductive sys_step : system A -> system A -> Prop :=
| step_ticker s q o s' q' : thread_step s q s' q' -> sys_step (Build_system s q o) (Build_system s' q' o)
| step_again s o : sys_step (Build_system s (Ret None) o) (Build_system s (collector_round started) o)
| step_user s q o s' o' : thread_step s o s' o' -> sys_step (Build_system s q o) (Build_system s' q o').

(** [startTreeDBStatsTimelineCollector], and its user. *)
Definition collecting (baseline : list treeDBStatsSnapshot) (p : prog mon_sig A) : system A :=
  {| sy_shared := {| co_sampleMu := false; co_mu := false; co_samples := initialTreeDBStatsTimeline started baseline;
                     co_cancelled := false; co_done := false |};
     sy_ticker := collector_round started;
     sy_user := collector_user started p |}.

(** ** The abstract collector *)
Record atomic := {
  at_samples : list treeDBStatsTimelineSample;
  at_user : prog mon_sig A;
  at_trace : list (event mon_sig);
  at_stopped : bool
}.
Definition of_collector (c : mon_call) : bool := match c with SampleTreeDB _ _ | Timeline => true | _ => false end.

Inductive atomic_step : atomic -> atomic -> Prop :=
| atomic_tick ss p t at_ stats :
    atomic_step (Build_atomic ss p t false) (Build_atomic (ss ++ [new_sample started "interval" at_ stats]) p t false)
| atomic_sample ss label at_ k t b stats :
    atomic_step (Build_atomic ss (Call (SampleTreeDB label at_ : call mon_sig) k) t b)
      (Build_atomic (ss ++ [new_sample started label at_ stats]) (k stats) (t ++ [ev (SampleTreeDB label at_ : call mon_sig) stats]) b)
| atomic_snapshot ss k t b :
    let x := cloneTreeDBStatsTimeline ss in
    atomic_step (Build_atomic ss (Call (Timeline : call mon_sig) k) t b)
      (Build_atomic ss (k x) (t ++ [ev (Timeline : call mon_sig) x]) b)
| atomic_other ss (c : call mon_sig) k x t b :
    of_collector c = false -> atomic_step (Build_atomic ss (Call c k) t b) (Build_atomic ss (k x) (t ++ [ev c x]) b)
| atomic_stop ss a t b : atomic_step (Build_atomic ss (Ret a) t b) (Build_atomic ss (Ret a) t true).

Definition atomically (baseline : list treeDBStatsSnapshot) (p : prog mon_sig A) : atomic :=
  {| at_samples := initialTreeDBStatsTimeline started baseline; at_user := p; at_trace := []; at_stopped := false |}.
End interleaving.
Arguments Build_atomic {_} _ _ _ _.
Arguments at_samples {_} _.
Arguments at_user {_} _.
Arguments at_trace {_} _.
Arguments at_stopped {_} _.

(** ** Where a goroutine is

    The two mutexes it holds and what it has done of the operation it is in:
    [Some] once the collector has the sample, or the snapshot is read. *)
Section positions.
Variable started : Z.

Inductive sampling {X} (label : string) (at_ : Z) (k : list treeDBStatsSnapshot -> prog col_sig X) :
    bool -> option (list treeDBStatsSnapshot) -> prog col_sig X -> Prop :=
| sampling_locked : sampling label at_ k false None
    (do stats <- ScrapeDebugVars; do _ <- LockMu; do _ <- AppendSample (new_sample started label at_ stats);
     do _ <- UnlockMu; do _ <- UnlockSampleMu; k stats)
| sampling_scraped stats : sampling label at_ k false None
    (do _ <- LockMu; do _ <- AppendSample (new_sample started label at_ stats);
     do _ <- UnlockMu; do _ <- UnlockSampleMu; k stats)
| sampling_mu stats : sampling label at_ k true None
    (do _ <- AppendSample (new_sample started label at_ stats); do _ <- UnlockMu; do _ <- UnlockSampleMu; k stats)
| sampling_appended stats : sampling label at_ k true (Some stats) (do _ <- UnlockMu; do _ <- UnlockSampleMu; k stats)
| sampling_unlocked stats : sampling label at_ k false (Some stats) (do _ <- UnlockSampleMu; k stats).

Inductive reading {X} (k : list treeDBStatsTimelineSample -> prog col_sig X) :
    option (list treeDBStatsTimelineSample) -> prog col_sig X -> Prop :=
| reading_locked : reading k None (do samples <- ReadSamples; do _ <- UnlockMu; k (cloneTreeDBStatsTimeline samples))
| reading_read samples : reading k (Some samples) (do _ <- UnlockMu; k (cloneTreeDBStatsTimeline samples)).

Inductive phase := Ticking | Leaving | Left.
Definition is_left (ph : phase) : bool := match ph with Left => true | _ => false end.

Inductive ticker_at : bool -> bool -> phase -> prog col_sig (option unit) -> Prop :=
| ticker_round : ticker_at false false Ticking (collector_round started)
| ticker_again : ticker_at false false Ticking (Ret None)
| ticker_start at_ : ticker_at false false Ticking (prog_bind (sample started "interval" at_) (fun _ => Ret None))
| ticker_sampling at_ mu r q : sampling "interval" at_ (fun _ => Ret None) mu r q -> ticker_at true mu Ticking q
| ticker_leaving : ticker_at false false Leaving (do _ <- CloseDone; Ret (Some tt))
| ticker_left : ticker_at false false Left (Ret (Some tt)).

(** The user against the program it is abstractly at. *)
Inductive user_at {A} : prog mon_sig A -> bool -> bool -> phase -> prog col_sig A -> Prop :=
| user_program p : user_at p false false Ticking (collector_user started p)
| user_sampling label at_ k mu q :
    sampling label at_ (fun stats => collector_user started (k stats)) mu None q ->
    user_at (Call (SampleTreeDB label at_ : call mon_sig) k) true mu Ticking q
| user_sampled label at_ (k : list treeDBStatsSnapshot -> prog mon_sig A) mu stats q :
    sampling label at_ (fun stats => collector_user started (k stats)) mu (Some stats) q -> user_at (k stats) true mu Ticking q
| user_reading k q :
    reading (fun x => collector_user started (k x)) None q -> user_at (Call (Timeline : call mon_sig) k) false true Ticking q
| user_read (k : list treeDBStatsTimelineSample -> prog mon_sig A) samples q :
    reading (fun x => collector_user started (k x)) (Some samples) q ->
    user_at (k (cloneTreeDBStatsTimeline samples)) false true Ticking q
| user_leaving a : user_at (Ret a) false false Leaving (do _ <- AwaitDone; Ret a)
| user_left a : user_at (Ret a) false false Left (Ret a).

(** ** The simulation *)
Definition sim {A} (cs : system A) (ac : atomic) : Prop := exists ts tm ph us um uph,
  ticker_at ts tm ph (sy_ticker cs) /\ user_at (at_user ac) us um uph (sy_user cs) /\
  sy_shared cs = {| co_sampleMu := ts || us; co_mu := tm || um; co_samples := at_samples ac;
                    co_cancelled := match uph with Ticking => false | _ => true end; co_done := is_left ph |} /\
  ts && us = false /\ tm && um = false /\ at_stopped ac = is_left ph /\
  (ph <> Ticking -> uph <> Ticking) /\ (uph = Left -> ph = Left).

Ltac sim_exists ts tm ph us um uph :=
  exists ts, tm, ph, us, um, uph; cbn; rewrite ?orb_false_r, ?andb_false_r, ?andb_false_l, ?orb_true_r;
  split_and!; try done; try (by econstructor); try (econstructor; by econstructor); try (by destruct ph).

Lemma sim_init {A} baseline (p : prog mon_sig A) : sim (collecting started baseline p) (atomically started baseline p).
Proof. exists false, false, Ticking, false, false, Ticking. split_and!; try done; constructor. Qed.

Lemma sim_ticker {A} s q (o : prog col_sig A) s' q' ac : thread_step s q s' q' -> sim (Build_system s q o) ac ->
  exists ac', rtc (atomic_step started) ac ac' /\ sim (Build_system s' q' o) ac'.
Proof.
  intros Hstep (ts & tm & ph & us & um & uph & Ht & Hu & E & Hs & Hm & Hb & Hph & Hleft). destruct ac as [ss p t b]. cbn in *. subst s b.
  destruct Ht as [| |at_|at_ mu r q Hr| |]; cbn in Hstep; try done.
  - destruct Hstep as ([at_|] & [Hc ->] & ->); eexists; (split; [apply rtc_refl|]).
    + by sim_exists false false Ticking us um uph.
    + specialize (Hc eq_refl). sim_exists false false Leaving us um uph; destruct uph; first [done|by intros _|by discriminate (Hleft eq_refl)].
  - destruct Hstep as (_ & [Hfree ->] & ->). cbn in Hfree. subst us. eexists; (split; [apply rtc_refl|]).
    by sim_exists true false Ticking false um uph.
  - cbn in Hs. subst us. destruct Hr as [|stats|stats|stats|stats]; destruct Hstep as (x & Hx & ->); cbn in Hx.
    + subst s'. eexists; (split; [apply rtc_refl|]). by sim_exists true false Ticking false um uph.
    + destruct Hx as [-> ->]. eexists; (split; [apply rtc_refl|]). by sim_exists true true Ticking false false uph.
    + subst s'. cbn in Hm. subst um. eexists. split; [eapply rtc_once, atomic_tick|].
      sim_exists true true Ticking false false uph. apply (ticker_sampling at_ _ _ _ (sampling_appended _ _ _ stats)).
    + destruct Hx as [_ ->]. cbn in Hm. subst um. eexists; (split; [apply rtc_refl|]).
      sim_exists true false Ticking false false uph. apply (ticker_sampling at_ _ _ _ (sampling_unlocked _ _ _ stats)).
    + destruct Hx as [_ ->]. eexists; (split; [apply rtc_refl|]). by sim_exists false false Ticking false um uph.
  - destruct Hstep as (_ & -> & ->).
    assert (exists a, p = Ret a) as [a ->] by (destruct Hu; first [by eexists|exfalso; by apply Hph]).
    eexists. split; [eapply rtc_once, atomic_stop|]. sim_exists false false Left us um uph. intros _. by apply Hph.
Qed.

Lemma sim_user {A} s q (o : prog col_sig A) s' o' ac : thread_step s o s' o' -> sim (Build_system s q o) ac ->
  exists ac', rtc (atomic_step started) ac ac' /\ sim (Build_system s' q o') ac'.
Proof.
  intros Hstep (ts & tm & ph & us & um & uph & Ht & Hu & E & Hs & Hm & Hb & Hph & Hleft). destruct ac as [ss p t b]. cbn in *. subst s b.
  destruct Hu as [p|label at_ k mu q' Hr|label at_ k mu stats q' Hr|k q' Hr|k samples q' Hr|a|a]; cbn in Hstep; try done.
  - rewrite !andb_false_r in *. assert (ph = Ticking) as -> by (destruct ph; [done|exfalso; by apply Hph..]).
    destruct p as [a|c k].
    + destruct Hstep as (_ & -> & ->). eexists; (split; [apply rtc_refl|]). by sim_exists ts tm Ticking false false Leaving.
    + destruct c; destruct Hstep as (x & Hx & ->); cbn in Hx; try (subst s'; eexists; split; [by eapply rtc_once, atomic_other|];
        by sim_exists ts tm Ticking false false Ticking).
      * destruct Hx as [Hfree ->]. rewrite orb_false_r in Hfree. subst ts. eexists; (split; [apply rtc_refl|]).
        sim_exists false tm Ticking true false Ticking.
      * destruct Hx as [Hfree ->]. rewrite orb_false_r in Hfree. subst tm. eexists; (split; [apply rtc_refl|]).
        sim_exists ts false Ticking false true Ticking.
  - assert (ph = Ticking) as -> by (destruct ph; [done|exfalso; by apply Hph..]). rewrite andb_true_r in Hs. subst ts.
    inversion Hr; subst; destruct Hstep as (x & Hx & ->); cbn in Hx.
    + subst s'. eexists; (split; [apply rtc_refl|]). sim_exists false tm Ticking true false Ticking.
    + destruct Hx as [Hfree ->]. rewrite orb_false_r in Hfree. subst tm. eexists; (split; [apply rtc_refl|]).
      sim_exists false false Ticking true true Ticking.
    + subst s'. rewrite andb_true_r in Hm. subst tm. eexists. split; [eapply rtc_once, (atomic_sample _ _ _ _ _ _ _ stats)|].
      pose proof (user_sampled label at_ k true stats _ (sampling_appended _ _ _ stats)).
      sim_exists false false Ticking true true Ticking.
  - assert (ph = Ticking) as -> by (destruct ph; [done|exfalso; by apply Hph..]). rewrite andb_true_r in Hs. subst ts.
    inversion Hr; subst; destruct Hstep as (x & [_ Hx] & ->); subst s'; (eexists; split; [apply rtc_refl|]).
    + rewrite andb_true_r in Hm. subst tm. pose proof (user_sampled label at_ k false stats _ (sampling_unlocked _ _ _ stats)).
      sim_exists false false Ticking true false Ticking.
    + sim_exists false tm Ticking false false Ticking.
  - assert (ph = Ticking) as -> by (destruct ph; [done|exfalso; by apply Hph..]). rewrite andb_true_r in Hm. subst tm.
    inversion Hr; subst; destruct Hstep as (x & [-> Hx] & ->); subst s'. eexists. split; [eapply rtc_once, atomic_snapshot|].
    sim_exists ts false Ticking false true Ticking.
  - assert (ph = Ticking) as -> by (destruct ph; [done|exfalso; by apply Hph..]). rewrite andb_true_r in Hm. subst tm.
    inversion Hr; subst; destruct Hstep as (x & [_ Hx] & ->); subst s'. (eexists; split; [apply rtc_refl|]).
    sim_exists ts false Ticking false false Ticking.
  - destruct Hstep as (_ & [Hd ->] & ->). destruct ph; try done. (eexists; split; [apply rtc_refl|]).
    sim_exists ts tm Left false false Left.
Qed.

Lemma sim_step {A} (cs cs' : system A) ac : sys_step started cs cs' -> sim cs ac ->
  exists ac', rtc (atomic_step started) ac ac' /\ sim cs' ac'.
Proof.
  intros [s q o s' q' Hstep|s o|s q o s' o' Hstep] Hsim; [by eapply sim_ticker|..|by eapply sim_user].
  exists ac. split; [apply rtc_refl|]. destruct Hsim as (ts & tm & ph & us & um & uph & Ht & H). cbn in *.
  inversion Ht as [| | |at_ mu r q Hr| |]; subst; [|by inversion Hr]. exists false, false, Ticking, us, um, uph. split; [constructor|done].
Qed.

Lemma user_returned {A} (p : prog mon_sig A) us um uph a : user_at p us um uph (Ret a) -> p = Ret a /\ uph = Left.
Proof.
  intros H. inversion H; subst; try done;
    first [by match goal with Hr : sampling _ _ _ _ _ _ |- _ => inversion Hr end|by match goal with Hr : reading _ _ _ |- _ => inversion Hr end
          |by destruct p as [|[]]].
Qed.

Lemma sim_returned {A} (cs : system A) ac : sim cs ac ->
  at_samples ac = co_samples (sy_shared cs) /\
  (forall a, sy_user cs = Ret a -> at_user ac = Ret a /\ sy_ticker cs = Ret (Some tt)).
Proof.
  intros (ts & tm & ph & us & um & uph & Ht & Hu & E & _ & _ & _ & _ & Hleft). rewrite E. split; [done|].
  intros a Ha. rewrite Ha in Hu. apply user_returned in Hu as [-> ->]. split; [done|]. specialize (Hleft eq_refl). subst ph.
  by inversion Ht.
Qed.

Lemma sim_reachable {A} baseline (p : prog mon_sig A) cs : rtc (sys_step started) (collecting started baseline p) cs ->
  exists ac, rtc (atomic_step started) (atomically started baseline p) ac /\ sim cs ac.
Proof.
  intros Hcs. enough (forall cs0 ac0, rtc (atomic_step started) (atomically started baseline p) ac0 -> sim cs0 ac0 ->
    rtc (sys_step started) cs0 cs -> exists ac, rtc (atomic_step started) (atomically started baseline p) ac /\ sim cs ac) as H.
  { eapply H; [apply rtc_refl|apply sim_init|exact Hcs]. }
  clear Hcs. intros cs0 ac0 Hac Hsim Hcs. revert ac0 Hac Hsim. induction Hcs as [|cs0 cs1 cs2 Hstep _ IH]; intros ac0 Hac Hsim; [by eexists|].
  destruct (sim_step _ _ _ Hstep Hsim) as (ac1 & Hac1 & Hsim1). eapply IH; [|done]. by etrans.
Qed.

(** ** Mutual exclusion *)
Definition touches {X} (q : prog col_sig X) : Prop :=
  match q with Call (AppendSample _) _ | Call ReadSamples _ => True | _ => False end.
Definition scrapes {X} (q : prog col_sig X) : Prop := match q with Call ScrapeDebugVars _ => True | _ => False end.

(** The slice is touched under its mutex, and nothing overlaps a sample. *)
Definition exclusive {A} (cs : system A) : Prop :=
  (touches (sy_ticker cs) \/ touches (sy_user cs) -> co_mu (sy_shared cs) = true) /\
  ~ (touches (sy_ticker cs) /\ touches (sy_user cs)) /\ ~ (scrapes (sy_ticker cs) /\ scrapes (sy_user cs)).

Lemma sampling_holds {X} label at_ (k : _ -> prog col_sig X) mu r q : sampling label at_ k mu r q -> touches q -> mu = true.
Proof. by destruct 1. Qed.
Lemma ticker_holds ts tm ph q : ticker_at ts tm ph q -> (touches q -> tm = true) /\ (scrapes q -> ts = true).
Proof. destruct 1 as [| | |? ? ? ? H| |]; split; try done. by eapply sampling_holds. Qed.
Lemma user_holds {A} (p : prog mon_sig A) us um ph q : user_at p us um ph q -> (touches q -> um = true) /\ (scrapes q -> us = true).
Proof.
  destruct 1 as [p|? ? ? ? ? H|? ? ? ? ? ? H|? ? H|? ? ? H| |]; split; try done;
    first [by eapply sampling_holds|by destruct p as [|[]]|by destruct H].
Qed.
Lemma sim_exclusive {A} (cs : system A) ac : sim cs ac -> exclusive cs.
Proof.
  intros (ts & tm & ph & us & um & uph & Ht & Hu & E & Hs & Hm & _). unfold exclusive. rewrite E. cbn.
  destruct (ticker_holds _ _ _ _ Ht) as [H1 H2], (user_holds _ _ _ _ _ Hu) as [H3 H4]. split_and!.
  - intros [H|H]; [by rewrite H1|by rewrite H3, orb_true_r].
  - intros [Ha Hb]. by rewrite H1, H3 in Hm.
  - intros [Ha Hb]. by rewrite H2, H4 in Hs.
Qed.

(** ** Completion: a goroutine run alone *)
Definition alone {X} : relation (collector * prog col_sig X) := rtc (fun x y => thread_step x.1 x.2 y.1 y.2).
Definition free (s : collector) : Prop := co_sampleMu s = false /\ co_mu s = false.
Definition keeps (s s' : collector) : Prop := co_cancelled s' = co_cancelled s /\ co_done s' = co_done s.

Lemma alone_call {X} s (c : col_call) (k : col_ans c -> prog col_sig X) x s1 s' q' :
  answers c s x s1 -> alone (s1, k x) (s', q') -> alone (s, Call (c : call col_sig) k) (s', q').
Proof. intros Hx. eapply rtc_l. by exists x. Qed.
Lemma alone_ticker {A} (o : prog col_sig A) s q s' q' :
  alone (s, q) (s', q') -> rtc (sys_step started) (Build_system s q o) (Build_system s' q' o).
Proof. intros H. refine (rtc_congruence (fun x => Build_system x.1 x.2 o) _ _ _ _ H). intros [] [] H'. by apply step_ticker. Qed.
Lemma alone_user {A} q s (o : prog col_sig A) s' o' :
  alone (s, o) (s', o') -> rtc (sys_step started) (Build_system s q o) (Build_system s' q o').
Proof. intros H. refine (rtc_congruence (fun x => Build_system x.1 q x.2) _ _ _ _ H). intros [] [] H'. by apply step_user. Qed.

Ltac run_alone :=
  repeat (cbv beta; match goal with |- alone (_, Call ?c _) _ => eapply (alone_call _ c _ tt); [by cbn|] end); apply rtc_refl.

Lemma sampling_runs {X} label at_ (k : _ -> prog col_sig X) mu r q s : sampling label at_ k mu r q ->
  co_sampleMu s = true -> co_mu s = mu -> exists stats s', alone (s, q) (s', k stats) /\ free s' /\ keeps s s'.
Proof.
  destruct s as [sm m ss c d]. cbn. intros H -> ->. destruct H as [|stats|stats|stats|stats].
  - exists [], (Build_collector false false (ss ++ [new_sample started label at_ []]) c d). split; [|done].
    eapply (alone_call _ ScrapeDebugVars _ ([] : list treeDBStatsSnapshot)); [done|]. run_alone.
  - eexists stats, _. split; [run_alone|done].
  - eexists stats, _. split; [run_alone|done].
  - eexists stats, _. split; [run_alone|done].
  - eexists stats, _. split; [run_alone|done].
Qed.

Lemma sampling_starts {X} label at_ (k : _ -> prog col_sig X) s : free s ->
  exists stats s', alone (s, prog_bind (sample started label at_) k) (s', k stats) /\ free s' /\ keeps s s'.
Proof.
  destruct s as [sm m ss c d]. intros [Hs Hm]. cbn in *. subst.
  destruct (sampling_runs label at_ k false None _ (Build_collector true false ss c d) (sampling_locked _ _ _) eq_refl eq_refl)
    as (stats & s' & Hrun & Hfree & Hk).
  exists stats, s'. split_and!; [|done..]. by eapply (alone_call _ LockSampleMu _ tt).
Qed.

Lemma reading_runs {X} (k : _ -> prog col_sig X) r q s : reading k r q -> co_mu s = true ->
  exists x s', alone (s, q) (s', k x) /\ co_sampleMu s' = co_sampleMu s /\ co_mu s' = false /\ keeps s s'.
Proof.
  destruct s as [sm m ss c d]. cbn. intros H ->. destruct H as [|samples].
  - eexists _, _. split; [eapply (alone_call _ ReadSamples _ ss); [done|]; run_alone|done].
  - eexists _, _. split; [run_alone|done].
Qed.

Lemma keeps_trans s1 s2 s3 : keeps s1 s2 -> keeps s2 s3 -> keeps s1 s3.
Proof. intros [] []. split; congruence. Qed.

(** The user alone, from between two operations: it cancels in the end. *)
Lemma user_runs {A} (p : prog mon_sig A) s : free s -> exists s' a,
  alone (s, collector_user started p) (s', do _ <- AwaitDone; Ret a) /\ free s' /\ co_cancelled s' = true /\ co_done s' = co_done s.
Proof.
  revert s. induction p as [a|c k IH]; intros s Hfree.
  - destruct s as [sm m ss c d]. eexists _, a. split; [eapply (alone_call _ CancelCollector _ tt); [done|apply rtc_refl]|done].
  - assert (Hgo : forall x s1, alone (s, collector_user started (Call c k)) (s1, collector_user started (k x)) -> free s1 -> keeps s s1 ->
      exists s' a, alone (s, collector_user started (Call c k)) (s', do _ <- AwaitDone; Ret a) /\ free s' /\
        co_cancelled s' = true /\ co_done s' = co_done s).
    { intros x s1 Hrun Hfree1 [_ Hd]. destruct (IH x s1 Hfree1) as (s' & a & Hrun' & Hs' & Hc & Hd').
      exists s', a. split_and!; [by etrans|done|done|congruence]. }
    destruct s as [sm m ss c' d]. destruct c as [| | |label at_|].
    + apply (Hgo ([] : list metricSnapshot) (Build_collector sm m ss c' d)); [|done..].
      eapply (alone_call _ (OfMonitor Scrape) _ ([] : list metricSnapshot)); [done|apply rtc_refl].
    + apply (Hgo 0 (Build_collector sm m ss c' d)); [|done..]. eapply (alone_call _ (OfMonitor Clock) _ 0); [done|apply rtc_refl].
    + apply (Hgo None (Build_collector sm m ss c' d)); [|done..].
      eapply (alone_call _ (OfMonitor Wake) _ (None : option ctx_end)); [done|apply rtc_refl].
    + destruct (sampling_starts label at_ (fun stats => collector_user started (k stats)) _ Hfree) as (stats & s' & Hrun & Hs' & Hk).
      by apply (Hgo stats s').
    + destruct Hfree as [Hs Hm]. cbn in Hs, Hm. subst.
      destruct (reading_runs (fun x => collector_user started (k x)) None _ (Build_collector false true ss c' d) (reading_locked _) eq_refl)
        as (x & s' & Hrun & Hs' & Hm' & Hk).
      apply (Hgo x s'); [by eapply (alone_call _ LockMu _ tt)|done|done].
Qed.

(** The collector's goroutine alone, cancelled: it ends. *)
Lemma ticker_ends {A} (o : prog col_sig A) q ph s : ticker_at false false ph q -> free s -> co_cancelled s = true ->
  (ph = Left -> co_done s = true) -> exists s', rtc (sys_step started) (Build_system s q o) (Build_system s' (Ret (Some tt)) o) /\ co_done s' = true.
Proof.
  assert (Hround : forall s, co_cancelled s = true -> exists s',
    rtc (sys_step started) (Build_system s (collector_round started) o) (Build_system s' (Ret (Some tt)) o) /\ co_done s' = true).
  { clear s. intros [sm m ss c d] Hc. cbn in Hc. subst c. exists (Build_collector sm m ss true true). split; [|done].
    apply alone_ticker. eapply (alone_call _ TickOrCancel _ (None : option Z)); [done|]. run_alone. }
  intros Hq Hfree Hc Hleft. inversion Hq; subst.
  - by apply Hround.
  - destruct (Hround s Hc) as (s' & Hrun & Hd). exists s'. split; [|done]. eapply rtc_l; [apply step_again|done].
  - destruct (sampling_starts "interval" at_ (fun _ => Ret None : prog col_sig (option unit)) _ Hfree) as (stats & s1 & Hrun & _ & [Hc1 _]).
    destruct (Hround s1) as (s' & Hrun' & Hd); [congruence|]. exists s'. split; [|done].
    etrans; [by eapply alone_ticker|]. eapply rtc_l; [apply step_again|done].
  - destruct s as [sm m ss c d]. eexists. split; [apply alone_ticker; run_alone|done].
  - exists s. split; [apply rtc_refl|by apply Hleft].
Qed.

(** The goroutines between two operations of theirs. *)
Definition settled {A} (cs : system A) : Prop := exists ph uph p,
  ticker_at false false ph (sy_ticker cs) /\ user_at p false false uph (sy_user cs) /\ free (sy_shared cs) /\
  co_cancelled (sy_shared cs) = match uph with Ticking => false | _ => true end /\ co_done (sy_shared cs) = is_left ph /\
  (uph = Left -> ph = Left).

(** A goroutine with the mutexes it has, while the other holds none of those
    it still needs, gets to the end of its operation. *)
Lemma ticker_releases {A} ts tm ph q s (o : prog col_sig A) : ticker_at ts tm ph q ->
  co_sampleMu s = ts -> co_mu s = tm -> exists s' q', rtc (sys_step started) (Build_system s q o) (Build_system s' q' o) /\
    ticker_at false false ph q' /\ free s' /\ keeps s s'.
Proof.
  intros Hq Hs Hm. destruct Hq as [| |at_|at_ mu r q Hr| |]; try (eexists s, _; split_and!; [apply rtc_refl|by constructor|done..]).
  destruct (sampling_runs _ _ _ _ _ _ _ Hr Hs Hm) as (stats & s' & Hrun & Hfree & Hk).
  exists s', (Ret None). split_and!; [by apply alone_ticker|constructor|done..].
Qed.

Lemma user_releases {A} (p : prog mon_sig A) us um uph q s o : user_at p us um uph o ->
  (us = true -> co_sampleMu s = true) -> co_mu s = um -> exists s' o' p', rtc (sys_step started) (Build_system s q o) (Build_system s' q o') /\
    user_at p' false false uph o' /\ co_mu s' = false /\ co_sampleMu s' = (if us then false else co_sampleMu s) /\ keeps s s'.
Proof.
  intros Ho Hs Hm. destruct Ho as [p|label at_ k mu o Hr|label at_ k mu stats o Hr|k o Hr|k samples o Hr|a|a];
    try (eexists s, _, _; split_and!; [apply rtc_refl|by constructor|done..]);
    first [destruct (sampling_runs _ _ _ _ _ _ _ Hr (Hs eq_refl) Hm) as (x & s' & Hrun & [Hs' Hm'] & Hk)
          |destruct (reading_runs _ _ _ _ Hr Hm) as (x & s' & Hrun & Hs' & Hm' & Hk)];
    (eexists s', _, _; split_and!; [by eapply alone_user|by constructor|done..]).
Qed.

Lemma sim_settles {A} (cs : system A) ac : sim cs ac -> exists cs', rtc (sys_step started) cs cs' /\ settled cs'.
Proof.
  destruct cs as [s q o]. intros (ts & tm & ph & us & um & uph & Ht & Hu & E & Hs & Hm & Hb & Hph & Hleft). cbn in *.
  assert (Hend : forall s' q' o' p', rtc (sys_step started) (Build_system s q o) (Build_system s' q' o') ->
    ticker_at false false ph q' -> user_at p' false false uph o' -> free s' -> keeps s s' ->
    exists cs', rtc (sys_step started) (Build_system s q o) cs' /\ settled cs').
  { intros s' q' o' p' Hrun Hq' Ho' Hfree [Hc Hd]. eexists. split; [exact Hrun|]. exists ph, uph, p'. cbn. split_and!; try done.
    - rewrite Hc, E. done.
    - rewrite Hd, E. done. }
  destruct ts; cbn in Hs.
  - subst us. destruct um.
    + (* the user has the slice's mutex, the collector's goroutine waits or scrapes *)
      rewrite andb_true_r in Hm. subst tm.
      destruct (user_releases ac.(at_user) false true uph q s o) as (s1 & o1 & p1 & Hrun1 & Ho1 & Hm1 & Hs1 & Hk1); [done|done|by rewrite E|].
      destruct (ticker_releases true false ph q s1 o1) as (s2 & q2 & Hrun2 & Hq2 & Hfree2 & Hk2); [done|by rewrite Hs1, E|done|].
      eapply (Hend s2 q2 o1 p1); [by etrans|done..|]. by eapply keeps_trans.
    + destruct (ticker_releases true tm ph q s o) as (s1 & q1 & Hrun1 & Hq1 & Hfree1 & Hk1); [done|by rewrite E|rewrite E; apply orb_false_r|].
      by eapply (Hend s1 q1 o).
  - assert (tm = false) as -> by (inversion Ht; done).
    destruct (user_releases ac.(at_user) us um uph q s o) as (s1 & o1 & p1 & Hrun1 & Ho1 & Hm1 & Hs1 & Hk1);
      [done|by intros ->; rewrite E|by rewrite E|].
    eapply (Hend s1 q o1 p1); [done..| |done]. split; [|done]. rewrite Hs1. destruct us; [done|]. by rewrite E.
Qed.

Lemma settled_completes {A} (cs : system A) : settled cs ->
  exists cs' a, rtc (sys_step started) cs cs' /\ sy_ticker cs' = Ret (Some tt) /\ sy_user cs' = Ret a.
Proof.
  destruct cs as [s q o]. intros (ph & uph & p & Ht & Hu & Hfree & Hc & Hd & Hleft). cbn in *.
  assert (Hdone : forall s1 (a : A), rtc (sys_step started) (Build_system s q o) (Build_system s1 q (do _ <- AwaitDone; Ret a)) ->
    free s1 -> co_cancelled s1 = true -> co_done s1 = is_left ph ->
    exists cs' b, rtc (sys_step started) (Build_system s q o) cs' /\ sy_ticker cs' = Ret (Some tt) /\ sy_user cs' = Ret b).
  { intros s1 a Hrun Hfree1 Hc1 Hd1.
    destruct (ticker_ends (do _ <- AwaitDone; Ret a) q ph s1) as (s2 & Hrun2 & Hd2); [done..|by intros ->|].
    eexists (Build_system s2 (Ret (Some tt)) (Ret a)), a. split; [|done]. etrans; [exact Hrun|]. etrans; [exact Hrun2|].
    apply rtc_once, step_user. exists tt. destruct s2. by cbn in *; subst. }
  inversion Hu; subst.
  - destruct (user_runs p s Hfree) as (s1 & a & Hrun & Hfree1 & Hc1 & Hd1).
    apply (Hdone s1 a); [by apply alone_user|done|done|congruence].
  - by apply (Hdone s a).
  - specialize (Hleft eq_refl). subst ph. inversion Ht; subst. eexists _, _. split; [apply rtc_refl|]. by split.
Qed.
End positions.

(** ** What the abstract collector records *)
Section recorded.
Variable started : Z.
Variable initial : list treeDBStatsTimelineSample.
#[local] Abbreviation fresh := (new_sample started).
#[local] Abbreviation sampled label at_ stats := (ev (SampleTreeDB label at_ : call mon_sig) stats).
#[local] Abbreviation snapped x := (ev (Timeline : call mon_sig) x).

(** The samples against what the user did: its own, and ticks between them. *)
Inductive recorded : list (event mon_sig) -> list treeDBStatsTimelineSample -> Prop :=
| recorded_initial : recorded [] initial
| recorded_tick t ss at_ stats : recorded t ss -> recorded t (ss ++ [fresh "interval" at_ stats])
| recorded_sample t ss label at_ stats :
    recorded t ss -> recorded (t ++ [sampled label at_ stats]) (ss ++ [fresh label at_ stats])
| recorded_snapshot t ss : recorded t ss -> recorded (t ++ [snapped (cloneTreeDBStatsTimeline ss)]) ss
| recorded_other t ss c x : of_collector c = false -> recorded t ss -> recorded (t ++ [ev (c : call mon_sig) x]) ss.

Definition is_tick_sample (s : treeDBStatsTimelineSample) : Prop := exists at_ stats, s = fresh "interval" at_ stats.

Definition sampled_of (e : event mon_sig) : option (string * Z * list treeDBStatsSnapshot) :=
  let '(existT c x) := e in
  match c return mon_ans c -> option (string * Z * list treeDBStatsSnapshot) with
  | SampleTreeDB label at_ => fun x => Some (label, at_, x)
  | _ => fun _ => None
  end x.
Definition snapped_of (e : event mon_sig) : option (list treeDBStatsTimelineSample) :=
  let '(existT c x) := e in
  match c return mon_ans c -> option (list treeDBStatsTimelineSample) with Timeline => fun x => Some x | _ => fun _ => None end x.

Lemma recorded_from t ss : recorded t ss -> initial `prefix_of` ss.
Proof. induction 1; try done; by apply prefix_app_r. Qed.

Lemma ticks_snoc ticks at_ stats : Forall is_tick_sample ticks -> Forall is_tick_sample (ticks ++ [fresh "interval" at_ stats]).
Proof. intros H. apply Forall_app. split; [done|]. repeat constructor. by eexists _, _. Qed.

Lemma recorded_snapshot_inv t x ss : recorded (t ++ [snapped x]) ss -> exists ss0 ticks,
  ss = ss0 ++ ticks /\ x = cloneTreeDBStatsTimeline ss0 /\ recorded t ss0 /\ Forall is_tick_sample ticks.
Proof.
  intros H. remember (t ++ [snapped x]) as u eqn:Hu. revert t x Hu.
  induction H as [|u ss at_ stats H IH|u ss label at_ stats H IH|u ss H IH|u ss c y Hc H IH]; intros t x Hu.
  - by destruct t.
  - destruct (IH t x Hu) as (ss0 & ticks & -> & -> & Ht & Hticks). exists ss0, (ticks ++ [fresh "interval" at_ stats]).
    split_and!; [by rewrite app_assoc|done|done|by apply ticks_snoc].
  - apply app_inj_tail in Hu as [_ Hu]. by apply (f_equal snapped_of) in Hu.
  - apply app_inj_tail in Hu as [-> Hu]. exists ss, []. rewrite app_nil_r. apply (f_equal snapped_of) in Hu. by injection Hu as <-.
  - apply app_inj_tail in Hu as [_ Hu]. apply (f_equal snapped_of) in Hu. by destruct c.
Qed.

Lemma recorded_sample_inv t label at_ stats ss : recorded (t ++ [sampled label at_ stats]) ss -> exists ss0 ticks,
  ss = ss0 ++ fresh label at_ stats :: ticks /\ recorded t ss0 /\ Forall is_tick_sample ticks.
Proof.
  intros H. remember (t ++ [sampled label at_ stats]) as u eqn:Hu. revert t Hu.
  induction H as [|u ss at' stats' H IH|u ss label' at' stats' H IH|u ss H IH|u ss c y Hc H IH]; intros t Hu.
  - by destruct t.
  - destruct (IH t Hu) as (ss0 & ticks & -> & Ht & Hticks). exists ss0, (ticks ++ [fresh "interval" at' stats']).
    split_and!; [by rewrite <- app_assoc|done|by apply ticks_snoc].
  - apply app_inj_tail in Hu as [-> Hu]. apply (f_equal sampled_of) in Hu. injection Hu as -> -> ->. by exists ss, [].
  - apply app_inj_tail in Hu as [_ Hu]. by apply (f_equal sampled_of) in Hu.
  - apply app_inj_tail in Hu as [_ Hu]. apply (f_equal sampled_of) in Hu. by destruct c.
Qed.

(** A user's program satisfies of its run what it does of every trace. *)
Lemma atomic_recorded {A} (p : prog mon_sig A) ac :
  rtc (atomic_step started) (Build_atomic initial p [] false) ac ->
  recorded (at_trace ac) (at_samples ac) /\ (forall Q, wp p Q [] -> wp (at_user ac) Q (at_trace ac)).
Proof.
  intros H. enough (forall ac0, recorded (at_trace ac0) (at_samples ac0) /\ (forall Q, wp p Q [] -> wp (at_user ac0) Q (at_trace ac0)) ->
    rtc (atomic_step started) ac0 ac -> recorded (at_trace ac) (at_samples ac) /\ (forall Q, wp p Q [] -> wp (at_user ac) Q (at_trace ac))) as Hgo
    by (eapply Hgo; [|exact H]; split; [apply recorded_initial|done]).
  clear H. intros ac0 Hac0 H. induction H as [|ac0 ac1 ac2 Hstep _ IH]; [done|]. apply IH. destruct Hac0 as [Hr Hwp].
  destruct Hstep; cbn in *; (split; [first [done|by apply recorded_tick|by constructor]|intros Q HQ; try exact (Hwp Q HQ); exact (Hwp Q HQ _)]).
Qed.
End recorded.

(** ** The monitor as the user *)
Section monitoring.
Context {R : MapRange}.
Variable format3 : float -> string.
Variable durationString : Z -> string.
Variable treeDBBaseline : list treeDBStatsSnapshot.
Variable targetTransactions minDuration started : Z.
#[local] Abbreviation before := (cloneTreeDBStatsSnapshots treeDBBaseline).
#[local] Abbreviation sampled label at_ stats := (ev (SampleTreeDB label at_ : call mon_sig) stats).
#[local] Abbreviation snapped x := (ev (Timeline : call mon_sig) x).

Lemma wpM_timeline {S} (m : S) t (Q : list (event mon_sig) -> S -> outcome (list treeDBStatsTimelineSample) -> Prop) :
  (forall samples, Q (t ++ [snapped samples]) m (Ok samples)) -> wpM (timeline true) m Q t.
Proof. intros H samples. exact (H samples). Qed.

(** An observation with what was sampled for it, its last two calls. *)
Definition attached (t : list (event mon_sig)) (obs : loadWindowObservation) : Prop := exists l after samples,
  t = (l ++ [sampled (if Reached obs then "load_end" else "monitor_stop") (EndedAt obs) after]) ++ [snapped samples] /\
  TreeDBStatsTimeline obs = samples /\ TreeDBStatsAfter obs = after /\ TreeDBStatsBefore obs = before /\
  TreeDBStatDeltas obs = treeDBStatsDeltaSnapshots before after.

Lemma attach_run obs label m t : label = (if Reached obs then "load_end" else "monitor_stop") ->
  wpM (attachTreeDBStats true treeDBBaseline obs label) m
    (fun t' _ o => exists obs', o = Ok obs' /\ attached t' obs' /\ Reached obs' = Reached obs) t.
Proof.
  intros ->. unfold attachTreeDBStats. cbn [negb]. apply wpM_bind. intros after.
  apply wpM_bind, wpM_timeline. intros samples. apply wpM_ret. eexists. split_and!; [done| |done].
  by exists t, after, samples.
Qed.

#[local] Abbreviation observe_ := (observe format3 durationString true treeDBBaseline targetTransactions minDuration started).
#[local] Abbreviation round := (monitor_round format3 durationString true treeDBBaseline targetTransactions minDuration started).

Lemma observe_attaches m t :
  wpM observe_ m (fun t' _ o => exists obs, o = Ok obs /\ (Reached obs = true -> attached t' obs)) t.
Proof.
  unfold observe. do 6 wpM_step. rename x into metrics, x0 into ended.
  destruct (appendMetricDeltaWallClockIntervalsFromSamples _ _ _ _) as [intervals previous].
  do 2 wpM_step. apply wpM_bind, wpM_timeline. intros samples. cbv zeta.
  generalize (observation format3 durationString targetTransactions minDuration started
    (appendMissingUsableMetricBaselineSnapshots (m_baseline m) metrics) metrics intervals samples ended). intros obs.
  destruct (Reached obs) eqn:Hr; [|apply wpM_ret; exists obs; split; [done|congruence]].
  eapply wpM_mono; [|apply attach_run; by rewrite Hr]. intros t' s o (obs' & -> & Ha & _). by exists obs'.
Qed.

Lemma round_attaches m t :
  wpM round m (fun t' _ o => o = Ok None \/ exists obs, o = Ok (Some obs) /\ attached t' obs) t.
Proof.
  unfold monitor_round, setLast. apply wpM_bind. eapply wpM_mono; [|apply observe_attaches]. intros t' m' o (obs & -> & Hobs).
  apply wpM_bind, wpM_modify. destruct (Reached obs) eqn:Hr; [apply wpM_ret; right; exists obs; split; [done|by apply Hobs]|].
  apply wpM_bind. refine (wpM_perform (E := mon_sig) _ _ _ _ _). intros [err|]; cbn beta iota zeta; [|apply wpM_ret; by left].
  assert (Hlast : Reached (if String.eqb (ob_Error obs) "" then set_Error (ctx_Error err) obs else obs) = false)
    by (by destruct (String.eqb _ _)).
  revert Hlast. generalize (if String.eqb (ob_Error obs) "" then set_Error (ctx_Error err) obs else obs). intros last Hlast.
  apply wpM_bind. eapply wpM_mono; [|apply attach_run; by rewrite Hlast]. intros t'' m'' o (obs' & -> & Ha & _).
  apply wpM_bind, wpM_modify, wpM_ret. right. by exists obs'.
Qed.

Lemma goroutine_attaches fuel baseline :
  wpM (monitor_goroutine format3 durationString fuel baseline treeDBBaseline true targetTransactions minDuration started) tt
    (fun t _ o => forall obs, o = Ok obs -> attached t obs) [].
Proof.
  unfold monitor_goroutine, run_monitor. apply wpM_bind, wpM_timeline. intros samples. apply wpM_scoped. cbn [app].
  generalize [snapped samples] (initial_monitor started baseline). induction fuel as [|fuel IH]; intros t m; cbn [poll]; [by apply wpM_lift|].
  apply wpM_bind. eapply wpM_mono; [|apply round_attaches]. intros t' m' o [->|(obs & -> & Ha)]; [apply IH|].
  apply wpM_ret. by intros obs' [= <-].
Qed.
End monitoring.

(** C19: however the collector's goroutine and its user interleave, every
    state of theirs is one of the abstract collector, which takes a sample
    and a snapshot in one step: the samples are the same, and what the user
    returns.  The slice is only touched under its mutex, by one goroutine at
    a time, and no two samples are scraped at once.  The user is never stuck:
    from every state both can end, and when the user has, the collector's
    goroutine has too. *)
Theorem collector_refines_atomic {A} (started : Z) (baseline : list treeDBStatsSnapshot) (p : prog mon_sig A) (cs : system A) :
  rtc (sys_step started) (collecting started baseline p) cs ->
  exclusive cs /\
  (exists ac, rtc (atomic_step started) (atomically started baseline p) ac /\
     at_samples ac = co_samples (sy_shared cs) /\ (forall a, sy_user cs = Ret a -> at_user ac = Ret a)) /\
  (forall a, sy_user cs = Ret a -> sy_ticker cs = Ret (Some tt)) /\
  (exists cs' a, rtc (sys_step started) cs cs' /\ sy_user cs' = Ret a).
Proof.
  intros Hcs. destruct (sim_reachable started baseline p cs Hcs) as (ac & Hac & Hsim).
  destruct (sim_returned started cs ac Hsim) as [Hsamples Hret]. split_and!.
  - by eapply sim_exclusive.
  - exists ac. split_and!; [done..|]. intros a Ha. by apply Hret.
  - intros a Ha. by eapply Hret.
  - destruct (sim_settles started cs ac Hsim) as (cs1 & Hrun1 & Hset). destruct (settled_completes started cs1 Hset) as (cs2 & a & Hrun2 & _ & Ha).
    exists cs2, a. split; [by etrans|done].
Qed.

(** C20: however the collector's ticks interleave with its monitor, what the
    monitor reports of TreeDB is of one sample of its own, the one labelled
    load_end when the target was reached and monitor_stop otherwise, at the
    instant the observation ends: the statistics after and their deltas from
    the baseline are that sample's, and the timeline it reports is the
    collector's up to that sample and the ticks since, to the last one. *)
Theorem monitor_reports_its_sample {R : MapRange} format3 durationString fuel baseline treeDBBaseline targetTransactions minDuration
    started (cs : system (unit * outcome loadWindowObservation)) s obs :
  rtc (sys_step started) (collecting started treeDBBaseline
    (monitor_goroutine format3 durationString fuel baseline treeDBBaseline true targetTransactions minDuration started tt)) cs ->
  sy_user cs = Ret (s, Ok obs) ->
  exists earlier after ticks later,
    co_samples (sy_shared cs) =
      (earlier ++ new_sample started (if Reached obs then "load_end" else "monitor_stop") (EndedAt obs) after :: ticks) ++ later /\
    initialTreeDBStatsTimeline started treeDBBaseline `prefix_of` earlier /\
    Forall (is_tick_sample started) ticks /\ Forall (is_tick_sample started) later /\
    TreeDBStatsTimeline obs =
      cloneTreeDBStatsTimeline (earlier ++ new_sample started (if Reached obs then "load_end" else "monitor_stop") (EndedAt obs) after :: ticks) /\
    TreeDBStatsAfter obs = after /\ TreeDBStatsBefore obs = cloneTreeDBStatsSnapshots treeDBBaseline /\
    TreeDBStatDeltas obs = treeDBStatsDeltaSnapshots (cloneTreeDBStatsSnapshots treeDBBaseline) after.
Proof.
  intros Hcs Huser. destruct (sim_reachable _ _ _ _ Hcs) as (ac & Hac & Hsim). destruct (sim_returned _ _ _ Hsim) as [<- Hret].
  destruct (Hret _ Huser) as [Hp _]. destruct (atomic_recorded _ _ _ _ Hac) as [Hrec Hwp].
  specialize (Hwp _ (goroutine_attaches format3 durationString treeDBBaseline targetTransactions minDuration started fuel baseline)).
  rewrite Hp in Hwp. destruct (Hwp obs eq_refl) as (l & after & samples & Ht & Htl & Hafter & Hbefore & Hdeltas).
  rewrite Ht in Hrec.
  apply recorded_snapshot_inv in Hrec as (ss0 & later & -> & -> & Hrec & Hlater).
  apply recorded_sample_inv in Hrec as (earlier & ticks & -> & Hrec & Hticks).
  exists earlier, after, ticks, later. split_and!; try done. by eapply recorded_from.
Qed.

(** ** A run

    The goroutines take turns; the nodes answer nothing, the clock says five
    seconds and the monitor is cancelled when it first waits. *)
Section demo.
Inductive turn := TickerTurn (tick : option Z) | UserTurn.

Definition demo_answer (c : mon_call) : mon_ans c :=
  match c with
  | Scrape => []
  | Clock => 5 * Second
  | Wake => Some Canceled
  | SampleTreeDB _ _ => []
  | Timeline => []
  end.

(** A call's answer, none when it blocks. *)
Definition reply (tick : option Z) (c : col_call) (s : collector) : option (col_ans c * collector) :=
  let '{| co_sampleMu := sampleMu; co_mu := mu; co_samples := samples; co_cancelled := cancelled; co_done := done_ |} := s in
  match c return option (col_ans c * collector) with
  | LockSampleMu => if sampleMu then None else Some (tt, Build_collector true mu samples cancelled done_)
  | UnlockSampleMu => if sampleMu then Some (tt, Build_collector false mu samples cancelled done_) else None
  | LockMu => if mu then None else Some (tt, Build_collector sampleMu true samples cancelled done_)
  | UnlockMu => if mu then Some (tt, Build_collector sampleMu false samples cancelled done_) else None
  | ScrapeDebugVars => Some ([], s)
  | AppendSample x => Some (tt, Build_collector sampleMu mu (samples ++ [x]) cancelled done_)
  | ReadSamples => Some (samples, s)
  | TickOrCancel => match tick with Some at_ => Some (Some at_, s) | None => if cancelled then Some (None, s) else None end
  | CloseDone => Some (tt, Build_collector sampleMu mu samples cancelled true)
  | CancelCollector => Some (tt, Build_collector sampleMu mu samples true done_)
  | AwaitDone => if done_ then Some (tt, s) else None
  | OfMonitor c => Some (demo_answer c, s)
  end.

Definition take {X} (tick : option Z) (s : collector) (q : prog col_sig X) : collector * prog col_sig X :=
  match q with
  | Ret x => (s, Ret x)
  | Call c k => match reply tick c s with Some (x, s') => (s', k x) | None => (s, Call c k) end
  end.

Definition take_turn {A} (started : Z) (cs : system A) (t : turn) : system A :=
  match t with
  | TickerTurn tick =>
      match sy_ticker cs with
      | Ret None => Build_system (sy_shared cs) (collector_round started) (sy_user cs)
      | q => let '(s, q') := take tick (sy_shared cs) q in Build_system s q' (sy_user cs)
      end
  | UserTurn => let '(s, o) := take None (sy_shared cs) (sy_user cs) in Build_system s (sy_ticker cs) o
  end.

Lemma reply_answers tick c s x s' : reply tick c s = Some (x, s') -> answers c s x s'.
Proof.
  destruct s as [sm m ss c' d], c; cbn; try destruct sm; try destruct m; try destruct d; try destruct c'; try destruct tick; by intros [= <- <-].
Qed.

Lemma take_step {X} tick s (q : prog col_sig X) :
  take tick s q = (s, q) \/ thread_step s q (take tick s q).1 (take tick s q).2.
Proof.
  destruct q as [x|c k]; [by left|]. cbn. destruct (reply tick c s) as [[x s']|] eqn:E; [|by left].
  right. exists x. split; [by eapply reply_answers|done].
Qed.

Lemma turns_run {A} started ts (cs : system A) : rtc (sys_step started) cs (foldl (take_turn started) cs ts).
Proof.
  revert cs. induction ts as [|t ts IH]; intros cs; [apply rtc_refl|]. cbn [foldl]. etrans; [|apply IH]. clear IH.
  destruct cs as [s q o], t as [tick|]; cbn [take_turn sy_ticker sy_user sy_shared].
  - destruct q as [[[]|]|c k]; [apply rtc_refl|apply rtc_once, step_again|].
    destruct (take_step tick s (Call c k)) as [->|H]; [apply rtc_refl|]. destruct (take _ _ _) as [s' q']. by apply rtc_once, step_ticker.
  - destruct (take_step None s o) as [->|H]; [apply rtc_refl|]. destruct (take _ _ _) as [s' o']. by apply rtc_once, step_user.
Qed.

Definition demo_started : system (unit * outcome loadWindowObservation) :=
  collecting 0 [] (monitor_goroutine (R := canonical_range) (fun _ => "") (fun _ => "") 1 [] [] true 100 0 0 tt).
(** A tick at seven seconds comes in while the monitor waits for its sample,
    whose own time is older: the timeline is not in the order of its times. *)
Definition demo_turns : list turn :=
  replicate 9 UserTurn ++ TickerTurn (Some (7 * Second)) :: replicate 6 (TickerTurn None) ++ replicate 20 UserTurn ++
  replicate 4 (TickerTurn None) ++ [UserTurn].
Definition demo_ended : system (unit * outcome loadWindowObservation) := foldl (take_turn 0) demo_started demo_turns.

Lemma demo_returns : exists s obs, sy_user demo_ended = Ret (s, Ok obs) /\ ob_Error obs = "context canceled" /\
  map (fun x => (tl_Label x, tl_At x)) (co_samples (sy_shared demo_ended)) = [("interval", 7 * Second); ("monitor_stop", 5 * Second)].
Proof. vm_compute. eexists _, _. split; [reflexivity|done]. Qed.

Lemma collector_refines_atomic_witness : exists ac, rtc (atomic_step 0) (atomically 0 []
    (monitor_goroutine (R := canonical_range) (fun _ => "") (fun _ => "") 1 [] [] true 100 0 0 tt)) ac /\
  at_samples ac = co_samples (sy_shared demo_ended).
Proof.
  destruct (collector_refines_atomic 0 [] _ demo_ended (turns_run 0 demo_turns demo_started)) as (_ & (ac & Hac & Hs & _) & _).
  exists ac. split; [exact Hac|exact Hs].
Defined.

Lemma monitor_reports_its_sample_witness : exists s obs earlier after ticks later,
  sy_user demo_ended = Ret (s, Ok obs) /\
  co_samples (sy_shared demo_ended) =
    (earlier ++ new_sample 0 (if Reached obs then "load_end" else "monitor_stop") (EndedAt obs) after :: ticks) ++ later.
Proof.
  destruct demo_returns as (s & obs & Hobs & _).
  destruct (monitor_reports_its_sample (R := canonical_range) (fun _ => "") (fun _ => "") 1 [] [] 100 0 0 demo_ended s obs
    (turns_run 0 demo_turns demo_started) Hobs) as (earlier & after & ticks & later & Hs & _).
  exists s, obs, earlier, after, ticks, later. split; [exact Hobs|exact Hs].
Defined.
End demo.
