(* ===== verification/RunnerCadence.v ===== *)
(** * The report runner's pipeline and cadence tables: [cmd/local-report-runner/main.go]

    What an accepted load window says about each node: transactions from the
    load generator to the blocks, and where the time of a block goes. *)

From stdpp Require Import sorting.
From S2P Require Import Prelude GoStrings GoVal GoTime GoFloat GoText RunnerWindows RunnerMetrics RunnerSignals RunnerLogs RunnerMonitor.

Definition maxInt (a b : Z) : Z := if b <? a then a else b.

(** A name's last row. *)
Definition by_name {A} (name : A -> string) (rows : list A) : gmap string A :=
  foldl (fun m row => <[name row := row]> m) ∅ rows.

(** [x / float64(n)] where [n] is positive, else zero. *)
Definition per (x : float) (n : Z) : float := if 0 <? n then float64_div x (float64 n) else fzero.

(** ** The pipeline *)
Record pipelineSignal := {
  pl_Name : string;
  pl_WindowSeconds : float;
  pl_SubmittedTransactions : Z;
  pl_IncludedTransactions : Z;
  pl_SuccessfulTransactions : Z;
  pl_FailedSendTotal : Z;
  pl_SubmittedMinusIncluded : Z;
  pl_CatalystSendBlocks : Z;
  pl_CatalystSendTxs : Z;
  pl_CatalystSendSeconds : float;
  pl_AvgCatalystSendSeconds : float;
  pl_MaxCatalystSendSeconds : float;
  pl_CatalystSendTxsPerSecond : float;
  pl_CatalystBlockProcessBlocks : Z;
  pl_AvgCatalystBlockProcessSeconds : float;
  pl_MaxCatalystBlockProcessSeconds : float;
  pl_CollectorStartingBlock : Z;
  pl_CollectorEndingBlock : Z;
  pl_CollectorBlockSpan : Z;
  pl_ConsensusTotalTxsDelta : float;
  pl_MempoolSuccessfulTxsDelta : float;
  pl_SDKTxCountDelta : float;
  pl_SDKTxSuccessfulDelta : float;
  pl_ABCICheckTxSeconds : float;
  pl_ABCICheckTxCount : Z;
  pl_AvgCheckTxSeconds : float;
  pl_ABCIFinalizeBlockSeconds : float;
  pl_ABCIFinalizeBlockCount : Z;
  pl_AvgFinalizeBlockSeconds : float;
  pl_ABCICommitSeconds : float;
  pl_ABCICommitCount : Z;
  pl_AvgCommitSeconds : float;
  pl_ConsensusBlockIntervalSeconds : float;
  pl_ConsensusBlockIntervalCount : Z;
  pl_AvgBlockIntervalSeconds : float;
  pl_AvgTxsPerCommit : float;
  pl_AvgTxsPerFinalizeBlock : float;
  pl_AvgTxsPerConsensusBlock : float;
  pl_Notes : list string
}.

(** The counts [cadenceBlockCount] chooses from; a missing row has zeros. *)
Record block_counts := { bc_finalize : Z; bc_commit : Z; bc_interval : Z }.
Definition signal_counts (s : storageSignal) : block_counts :=
  {| bc_finalize := ss_ABCIFinalizeBlockCount s; bc_commit := ss_ABCICommitCount s;
     bc_interval := ss_ConsensusBlockIntervalCount s |}.
Definition pipeline_counts (p : option pipelineSignal) : block_counts :=
  match p with
  | Some p => {| bc_finalize := pl_ABCIFinalizeBlockCount p; bc_commit := pl_ABCICommitCount p;
                 bc_interval := pl_ConsensusBlockIntervalCount p |}
  | None => {| bc_finalize := 0; bc_commit := 0; bc_interval := 0 |}
  end.

Definition cadenceBlockCount (signal pipeline : block_counts) : Z :=
  if 0 <? bc_finalize signal then bc_finalize signal
  else if 0 <? bc_commit signal then bc_commit signal
  else if 0 <? bc_finalize pipeline then bc_finalize pipeline
  else if 0 <? bc_commit pipeline then bc_commit pipeline
  else if 0 <? bc_interval signal then bc_interval signal
  else if 0 <? bc_interval pipeline then bc_interval pipeline
  else 0.

Definition submitted_transactions (logs : loadTestLogSummary) : Z :=
  let submitted := maxInt (lg_SendingTxsTotal logs) (lg_GoRoutinesCompletedTotal logs) in
  match lg_RunnerOverall logs with Some o => maxInt submitted (ro_TotalTransactions o) | None => submitted end.

Definition collector_span (logs : loadTestLogSummary) : Z :=
  let first := lg_CollectorStartingBlock logs in
  let last := lg_CollectorEndingBlock logs in
  if (first <=? last) && negb (last =? 0) then to_uint64 (last - first + 1) else 0.

(** The average block interval and the note on where it comes from. *)
Definition pipeline_interval (obs : loadWindowObservation) (signal : storageSignal) : float * list string :=
  let counts := signal_counts signal in
  let blockCount := cadenceBlockCount counts counts in
  if flt fzero (ob_Seconds obs) && (0 <? blockCount) then
    (float64_div (ob_Seconds obs) (float64 blockCount),
     ["average block interval is accepted-window wall time per finalized block; raw consensus interval metrics are block-header timestamp deltas"])
  else if 0 <? ss_ConsensusBlockIntervalCount signal then
    (float64_div (ss_ConsensusBlockIntervalSeconds signal) (float64 (ss_ConsensusBlockIntervalCount signal)),
     ["accepted-window wall cadence unavailable; average block interval falls back to block-header timestamp deltas"])
  else (fzero, []).

Definition txs_per_consensus_block (signal : storageSignal) : float :=
  if 0 <? ss_ABCIFinalizeBlockCount signal then per (ss_ConsensusTotalTxsDelta signal) (ss_ABCIFinalizeBlockCount signal)
  else if 0 <? ss_ABCICommitCount signal then per (ss_ConsensusTotalTxsDelta signal) (ss_ABCICommitCount signal)
  else per (ss_ConsensusTotalTxsDelta signal) (ss_ConsensusBlockIntervalCount signal).

Definition of_stats {A} (field : durationStats -> A) (zero : A) (stats : option durationStats) : A :=
  match stats with Some d => field d | None => zero end.

Definition pipeline_row (obs : loadWindowObservation) (logs : loadTestLogSummary) (signal : storageSignal) : pipelineSignal :=
  let submitted := submitted_transactions logs in
  let included := IncludedTransactions obs in
  let '(interval, interval_notes) := pipeline_interval obs signal in
  let sends := lg_CatalystTiming logs ≫= ct_SendDurations in
  let blocks := lg_CatalystTiming logs ≫= ct_BlockProcessingToProcessedDurations in
  {| pl_Name := ss_Name signal; pl_WindowSeconds := ob_Seconds obs; pl_SubmittedTransactions := submitted;
     pl_IncludedTransactions := included; pl_SuccessfulTransactions := SuccessfulTransactions obs;
     pl_FailedSendTotal := lg_FailedSendTotal logs;
     pl_SubmittedMinusIncluded := if included <? submitted then to_int64 (submitted - included) else 0;
     pl_CatalystSendBlocks := of_stats ds_Count 0 sends;
     pl_CatalystSendTxs := match lg_CatalystTiming logs with Some t => ct_SendMatchedTxsTotal t | None => 0 end;
     pl_CatalystSendSeconds := of_stats ds_TotalSeconds fzero sends;
     pl_AvgCatalystSendSeconds := of_stats ds_AvgSeconds fzero sends;
     pl_MaxCatalystSendSeconds := of_stats ds_MaxSeconds fzero sends;
     pl_CatalystSendTxsPerSecond := match lg_CatalystTiming logs with Some t => ct_SendTxsPerSecond t | None => fzero end;
     pl_CatalystBlockProcessBlocks := of_stats ds_Count 0 blocks;
     pl_AvgCatalystBlockProcessSeconds := of_stats ds_AvgSeconds fzero blocks;
     pl_MaxCatalystBlockProcessSeconds := of_stats ds_MaxSeconds fzero blocks;
     pl_CollectorStartingBlock := lg_CollectorStartingBlock logs; pl_CollectorEndingBlock := lg_CollectorEndingBlock logs;
     pl_CollectorBlockSpan := collector_span logs;
     pl_ConsensusTotalTxsDelta := ss_ConsensusTotalTxsDelta signal;
     pl_MempoolSuccessfulTxsDelta := ss_MempoolSuccessfulTxsDelta signal;
     pl_SDKTxCountDelta := ss_SDKTxCountDelta signal; pl_SDKTxSuccessfulDelta := ss_SDKTxSuccessfulDelta signal;
     pl_ABCICheckTxSeconds := ss_ABCICheckTxSeconds signal; pl_ABCICheckTxCount := ss_ABCICheckTxCount signal;
     pl_AvgCheckTxSeconds := per (ss_ABCICheckTxSeconds signal) (ss_ABCICheckTxCount signal);
     pl_ABCIFinalizeBlockSeconds := ss_ABCIFinalizeBlockSeconds signal;
     pl_ABCIFinalizeBlockCount := ss_ABCIFinalizeBlockCount signal;
     pl_AvgFinalizeBlockSeconds := per (ss_ABCIFinalizeBlockSeconds signal) (ss_ABCIFinalizeBlockCount signal);
     pl_ABCICommitSeconds := ss_ABCICommitSeconds signal; pl_ABCICommitCount := ss_ABCICommitCount signal;
     pl_AvgCommitSeconds := per (ss_ABCICommitSeconds signal) (ss_ABCICommitCount signal);
     pl_ConsensusBlockIntervalSeconds := ss_ConsensusBlockIntervalSeconds signal;
     pl_ConsensusBlockIntervalCount := ss_ConsensusBlockIntervalCount signal;
     pl_AvgBlockIntervalSeconds := interval;
     pl_AvgTxsPerCommit := per (float64 included) (ss_ABCICommitCount signal);
     pl_AvgTxsPerFinalizeBlock := per (float64 included) (ss_ABCIFinalizeBlockCount signal);
     pl_AvgTxsPerConsensusBlock := txs_per_consensus_block signal;
     pl_Notes :=
       interval_notes ++
       note_if (included <? submitted) "submitted transactions exceeded accepted-window included transactions" ++
       note_if (feq (ss_ConsensusTotalTxsDelta signal) fzero && (0 <? included))
         "consensus tx counter was unavailable or did not move" ++
       note_if ((ss_ConsensusBlockIntervalCount signal =? 0) && (0 <? ss_ABCICommitCount signal))
         "consensus block interval histogram was unavailable or did not move" |}.

Definition pipeline_le (a b : pipelineSignal) : Prop := str_lt (pl_Name b) (pl_Name a) = false.
#[export] Instance pipeline_le_dec : RelDecision pipeline_le.
Proof. intros a b. unfold pipeline_le. apply _. Defined.

Definition summarizePipelineSignals (obs : loadWindowObservation) (logs : loadTestLogSummary) : list pipelineSignal :=
  merge_sort pipeline_le (map (pipeline_row obs logs) (StorageSignals obs)).

(** ** TreeDB timings *)
Record treeDBTimingSummaryRow := {
  tt_Container : string;
  tt_Store : string;
  tt_Group : string;
  tt_Seconds : float
}.

Definition treeDBMetricDeltaSeconds (metric : string) (delta : float) : option float :=
  if Contains metric "ns_total" || HasSuffix metric ".ns" then Some (float64_div delta (float64 1000000000))
  else if Contains metric "ms_total" || HasSuffix metric ".ms" || HasSuffix metric "total_ms" then
    Some (float64_div delta (float64 1000))
  else if Contains metric "seconds_total" || HasSuffix metric ".seconds" then Some delta
  else None.

Definition treeDBMetricGroup (metric : string) : string :=
  if Contains metric "treedb.public.batch.write_sync" then "public batch WriteSync"
  else if Contains metric "treedb.public.batch.write" then "public batch Write"
  else if Contains metric "treedb.public.checkpoint" then "public checkpoint"
  else if Contains metric "command_wal" then "command WAL"
  else if Contains metric "checkpoint" then "checkpoint"
  else if Contains metric "flush_apply" || Contains metric "flush_span" || Contains metric "flush_backlog" then "flush/apply"
  else if Contains metric "vlog" || Contains metric "value_log" then "value log"
  else if Contains metric "maintenance" || Contains metric "bg_vacuum" then "maintenance"
  else if Contains metric "wait" then "foreground wait"
  else "other TreeDB timing".

Definition timing_before (a b : treeDBTimingSummaryRow) : bool :=
  if String.eqb (tt_Container a) (tt_Container b) then
    if String.eqb (tt_Store a) (tt_Store b) then
      if feq (tt_Seconds a) (tt_Seconds b) then str_lt (tt_Group a) (tt_Group b) else flt (tt_Seconds b) (tt_Seconds a)
    else str_lt (tt_Store a) (tt_Store b)
  else str_lt (tt_Container a) (tt_Container b).
Definition timing_le (a b : treeDBTimingSummaryRow) : Prop := timing_before b a = false.
#[export] Instance timing_le_dec : RelDecision timing_le.
Proof. intros a b. unfold timing_le. apply _. Defined.

Definition timing_row (entry : string * string * string * float) : treeDBTimingSummaryRow :=
  let '(container, store, group, seconds) := entry in
  {| tt_Container := container; tt_Store := store; tt_Group := group; tt_Seconds := seconds |}.

Section ranges.
Context {R : MapRange}.

Definition metric_total (snapshot : treeDBStatsDelta) (totals : gmap (string * string * string) float)
    (kv : string * metricDeltaValue) : gmap (string * string * string) float :=
  match treeDBMetricDeltaSeconds kv.1 (Delta kv.2) with
  | None => totals
  | Some seconds =>
      if feq seconds fzero then totals
      else
        let key := (tdd_Name snapshot, tdd_Store snapshot, treeDBMetricGroup kv.1) in
        <[key := fadd (default fzero (totals !! key)) seconds]> totals
  end.

(** The keys differ, so the sort leaves one order where the totals are numbers. *)
Definition treeDBTimingSummaryRows (snapshots : list treeDBStatsDelta) : list treeDBTimingSummaryRow :=
  merge_sort timing_le
    (map timing_row
      (map_to_list
        (foldl (fun totals snapshot => foldl (metric_total snapshot) totals (range_map (tdd_Metrics snapshot))) ∅ snapshots))).

(** ** What the deltas and stages show *)
Definition hasTreeDBStatsForNode (snapshots : list treeDBStatsDelta) (node : string) : bool :=
  existsb (fun snapshot => String.eqb (tdd_Name snapshot) node && negb (bool_decide (tdd_Metrics snapshot = ∅)) &&
                           String.eqb (tdd_Error snapshot) "") snapshots.

Definition hasTreeDBTimingForStore (snapshots : list treeDBStatsDelta) (node store : string) : bool :=
  existsb (fun snapshot =>
    if negb (String.eqb (tdd_Name snapshot) node) || negb (String.eqb (tdd_Store snapshot) store) ||
       negb (String.eqb (tdd_Error snapshot) "") then false
    else
      existsb (fun kv =>
        match treeDBMetricDeltaSeconds kv.1 (Delta kv.2) with
        | Some seconds => negb (feq seconds fzero)
        | None => false
        end) (range_map (tdd_Metrics snapshot))) snapshots.

Definition hasExactStage (stages : list cadenceStage) (name : string) : bool :=
  existsb (fun stage => String.eqb (cs_Name stage) name && (negb (feq (cs_Seconds stage) fzero) || negb (cs_Count stage =? 0)))
    stages.

Definition hasExactCommitSpanCoverage (signal : storageSignal) : bool :=
  forallb (hasExactStage (ss_ExactCommitStageTimings signal))
    ["consensus commit"; "commit blockstore"; "commit blockstore lock"; "commit consensus WAL"; "commit apply block";
     "commit apply block lock"; "commit record metrics"; "commit update consensus state"].

Definition cadenceMissingEventSpans (signal : storageSignal) (treedbDeltas : list treeDBStatsDelta)
    (logs : loadTestLogSummary) : list string :=
  (if hasTreeDBStatsForNode treedbDeltas (ss_Name signal) then
     ["DB adapter exact start/end spans remain unavailable; TreeDB debug-var deltas provide overlapping timing attribution only"]
   else
     ["DB adapter WriteSync / command-WAL / value-log / checkpoint timing unavailable; TreeDB debug vars were not collected for this node"]) ++
  note_if (negb (hasExactStage (ss_ExactCommitStageTimings signal) "mempool lock wait") ||
           negb (hasExactStage (ss_ExactCommitStageTimings signal) "mempool lock held"))
    "CometBFT mempool lock wait and lock hold spans unavailable" ++
  (match lg_CatalystTiming logs ≫= ct_SendDurations with
   | Some d =>
       if ds_Count d =? 0 then ["local broadcast admission spans unavailable from retained Catalyst logs"]
       else ["per-transaction BroadcastTxSync wait and inclusion latency unavailable; retained Catalyst send spans are block-level aggregates"]
   | None => ["local broadcast admission spans unavailable from retained Catalyst logs"]
   end) ++
  note_if (feq (ss_BlockStoreWriteSeconds signal) fzero &&
           negb (hasTreeDBTimingForStore treedbDeltas (ss_Name signal) "blockstore.db"))
    "blockstore write timing spans unavailable; state/block-processing counters may include this work" ++
  (if feq (ss_TxIndexWriteSeconds signal) fzero && negb (hasTreeDBTimingForStore treedbDeltas (ss_Name signal) "tx_index.db")
   then if flt fzero (ss_TxIndexIndexedTxsDelta signal)
        then ["tx-index write timing spans unavailable; only indexed transaction counts were exported"]
        else ["tx-index write timing spans unavailable"]
   else []).

(** ** Stages *)
Definition newCadenceStage (name class source provenance : string) (seconds : float) (count blockCount : Z)
    (included : bool) (note : string) : cadenceStage :=
  {| cs_Name := name; cs_Parent := ""; cs_Class := class; cs_Source := source; cs_Provenance := provenance;
     cs_Seconds := seconds; cs_Count := count;
     cs_AvgSeconds := if (0 <? count) && flt fzero seconds then float64_div seconds (float64 count) else fzero;
     cs_PerBlockSeconds := if (0 <? blockCount) && flt fzero seconds then float64_div seconds (float64 blockCount) else fzero;
     cs_IncludedInResidual := included;
     cs_MissingReason :=
       if (0 <? blockCount) && flt fzero seconds then ""
       else if flt fzero seconds then "block count unavailable" else "";
     cs_Note := note |}.

Definition abciCadenceStage (name : string) (seconds : float) (count blockCount : Z) (included : bool) : cadenceStage :=
  {| cs_Name := name; cs_Parent := "";
     cs_Class := if included then "abci_block_stage" else "abci_transaction_intake";
     cs_Source := "cometbft_abci_connection_method_timing_seconds"; cs_Provenance := "prometheus_counter_delta";
     cs_Seconds := seconds; cs_Count := count; cs_AvgSeconds := per seconds count;
     cs_PerBlockSeconds := per seconds blockCount; cs_IncludedInResidual := included;
     cs_MissingReason := if 0 <? blockCount then "" else if flt fzero seconds then "block count unavailable" else "";
     cs_Note :=
       if included then ""
       else "reported separately; CheckTx can run on the transaction intake path and is not an exclusive block-stage bucket" |}.

(** [step.PerBlockSeconds = v], and its missing reason. *)
Definition set_PerBlock (v : float) (reason : string) (stage : cadenceStage) : cadenceStage :=
  {| cs_Name := cs_Name stage; cs_Parent := cs_Parent stage; cs_Class := cs_Class stage; cs_Source := cs_Source stage;
     cs_Provenance := cs_Provenance stage; cs_Seconds := cs_Seconds stage; cs_Count := cs_Count stage;
     cs_AvgSeconds := cs_AvgSeconds stage; cs_PerBlockSeconds := v; cs_IncludedInResidual := cs_IncludedInResidual stage;
     cs_MissingReason := reason; cs_Note := cs_Note stage |}.

Definition step_stage (blockCount : Z) (step : cadenceStage) : cadenceStage :=
  if 0 <? blockCount then set_PerBlock (float64_div (cs_Seconds step) (float64 blockCount)) (cs_MissingReason step) step
  else step.

Definition cadenceStages (signal : storageSignal) (blockCount : Z) : list cadenceStage :=
  [abciCadenceStage "commit" (ss_ABCICommitSeconds signal) (ss_ABCICommitCount signal) blockCount true;
   abciCadenceStage "finalize_block" (ss_ABCIFinalizeBlockSeconds signal) (ss_ABCIFinalizeBlockCount signal) blockCount true;
   abciCadenceStage "prepare_proposal" (ss_ABCIPrepareProposalSeconds signal) (ss_ABCIPrepareProposalCount signal) blockCount true;
   abciCadenceStage "process_proposal" (ss_ABCIProcessProposalSeconds signal) (ss_ABCIProcessProposalCount signal) blockCount true;
   abciCadenceStage "check_tx" (ss_ABCICheckTxSeconds signal) (ss_ABCICheckTxCount signal) blockCount false] ++
  map (step_stage blockCount) (ss_ConsensusStepTimings signal).

Definition exact_cadence_stage (blockCount : Z) (exact : cadenceStage) : cadenceStage :=
  if 0 <? blockCount then set_PerBlock (float64_div (cs_Seconds exact) (float64 blockCount)) (cs_MissingReason exact) exact
  else if flt fzero (cs_Seconds exact) then set_PerBlock (cs_PerBlockSeconds exact) "block count unavailable" exact
  else exact.

Definition stage_if (c : bool) (stage : cadenceStage) : list cadenceStage := if c then [stage] else [].

Definition metricAttributionCadenceStages (signal : storageSignal) (blockCount : Z) : list cadenceStage :=
  stage_if (negb (feq (ss_StateBlockProcessingSeconds signal) fzero) || negb (ss_StateBlockProcessingCount signal =? 0))
    (newCadenceStage "state block processing" "block_execution_cadence" "cometbft_state_block_processing_time"
       "prometheus_counter_delta" (ss_StateBlockProcessingSeconds signal) (ss_StateBlockProcessingCount signal) blockCount false
       "CometBFT state block-processing counter; may include block execution, blockstore, tx-index, and consensus bookkeeping") ++
  map (exact_cadence_stage blockCount) (ss_ExactCommitStageTimings signal) ++
  stage_if (negb (feq (ss_TxIndexIndexedTxsDelta signal) fzero))
    (newCadenceStage "tx-index indexed txs" "node_db_tx_index" "tx_index_indexed_txs_total" "prometheus_counter_delta"
       fzero (int_of_float (ss_TxIndexIndexedTxsDelta signal)) blockCount false
       "count-only tx-index signal; timing is reported separately only when tx-index duration metrics exist") ++
  stage_if (negb (feq (ss_MempoolSuccessfulTxsDelta signal) fzero))
    (newCadenceStage "mempool successful txs" "local_broadcast_admission" "cometbft_mempool_successful_txs"
       "prometheus_counter_delta" fzero (int_of_float (ss_MempoolSuccessfulTxsDelta signal)) blockCount false
       "count-only CAT/local-admission signal; lock wait and per-transaction broadcast wait are not exposed here").

Definition treeDBCadenceStageClass (row : treeDBTimingSummaryRow) : string :=
  if String.eqb (tt_Store row) "blockstore.db" then "node_db_blockstore"
  else if String.eqb (tt_Store row) "tx_index.db" then "node_db_tx_index"
  else if bool_decide (tt_Store row ∈ ["state.db"; "evidence.db"]) then "node_db_" +:+ TrimSuffix (tt_Store row) ".db"
  else if bool_decide (tt_Group row ∈
            ["public batch WriteSync"; "public batch Write"; "public checkpoint"; "command WAL"; "checkpoint"; "flush/apply";
             "value log"; "foreground wait"]) then "db_adapter_commit_internal"
  else "db_adapter_internal".

Definition treedb_stage (blockCount : Z) (row : treeDBTimingSummaryRow) : cadenceStage :=
  newCadenceStage ("treedb " +:+ tt_Store row +:+ " " +:+ tt_Group row) (treeDBCadenceStageClass row) "treedb_debug_vars"
    "treedb_debug_vars_delta" (tt_Seconds row) 0 blockCount false
    ("TreeDB timing counter delta for " +:+ tt_Store row +:+
     "; may overlap ABCI commit/finalize, blockstore, or tx-index stages").

Definition treeDBCadenceStages (snapshots : list treeDBStatsDelta) (node : string) (blockCount : Z) : list cadenceStage :=
  let filtered := List.filter (fun snapshot => String.eqb (tdd_Name snapshot) node) snapshots in
  if Nat.eqb (length filtered) 0 then []
  else map (treedb_stage blockCount) (treeDBTimingSummaryRows filtered).

Definition catalyst_stage (timing : catalystLogTiming) (blockCount : Z) (name class : string)
    (stats : option durationStats) (note : string) : list cadenceStage :=
  match stats with
  | None => []
  | Some d =>
      if feq (ds_TotalSeconds d) fzero && (ds_Count d =? 0) then []
      else
        let note :=
          if ct_LogTruncated timing
          then note +:+ "; task logs were truncated, so counts and totals cover retained log lines only" else note in
        [newCadenceStage name class "retained Catalyst task logs" "retained_catalyst_log_span" (ds_TotalSeconds d) (ds_Count d)
           blockCount false note]
  end.

Definition catalystCadenceStages (timing : option catalystLogTiming) (blockCount : Z) : list cadenceStage :=
  match timing with
  | None => []
  | Some timing =>
      catalyst_stage timing blockCount "catalyst send transactions" "local_broadcast_admission" (ct_SendDurations timing)
        "block-level send span from retained Catalyst logs; not per-transaction RPC wait" ++
      catalyst_stage timing blockCount "catalyst block event to processing" "block_execution_cadence"
        (ct_BlockEventToProcessingDurations timing)
        "retained log span from new-block event to Catalyst processing start" ++
      catalyst_stage timing blockCount "catalyst block processing to processed" "block_execution_cadence"
        (ct_BlockProcessingToProcessedDurations timing)
        "retained log span from Catalyst block processing start to completion" ++
      catalyst_stage timing blockCount "catalyst chain timestamp to processing" "block_execution_cadence"
        (ct_ChainTimestampToProcessingDurations timing)
        "block timestamp to local Catalyst processing lag; cadence signal, not a local execution duration"
  end.

(** ** Diagnostics *)
Record cadenceDiagnostic := {
  cd_Name : string;
  cd_WindowSeconds : float;
  cd_BlockCount : Z;
  cd_AvgBlockIntervalSeconds : float;
  cd_AvgTxsPerBlock : float;
  cd_ABCIBlockStageSecondsPerBlock : float;
  cd_CheckTxSecondsPerBlockEquivalent : float;
  cd_ConsensusStepSecondsPerBlock : float;
  cd_CadenceResidualAfterABCIBlockStagesSeconds : float;
  cd_CadenceResidualPctOfBlockInterval : float;
  cd_ResidualFormula : string;
  cd_ExactEventSpanCoverage : bool;
  cd_Stages : list cadenceStage;
  cd_MissingEventSpans : list string;
  cd_Notes : list string
}.

Definition cadenceAvgBlockInterval (windowSeconds : float) (blockCount : Z) (pipeline : option pipelineSignal) : float :=
  let average := match pipeline with Some p => pl_AvgBlockIntervalSeconds p | None => fzero end in
  if flt fzero windowSeconds && (0 <? blockCount) then float64_div windowSeconds (float64 blockCount)
  else if flt fzero average then average
  else fzero.

Definition cadenceAvgTxsPerBlock (obs : loadWindowObservation) (signal : storageSignal) (pipeline : option pipelineSignal)
    (blockCount : Z) : float :=
  let average := match pipeline with Some p => pl_AvgTxsPerConsensusBlock p | None => fzero end in
  if flt fzero average then average
  else if (0 <? blockCount) && flt fzero (ss_ConsensusTotalTxsDelta signal) then
    float64_div (ss_ConsensusTotalTxsDelta signal) (float64 blockCount)
  else if (0 <? blockCount) && (0 <? IncludedTransactions obs) then
    float64_div (float64 (IncludedTransactions obs)) (float64 blockCount)
  else fzero.

(** The sums the loop over the stages keeps, and the last check_tx row. *)
Record stage_sums := { sm_abci : float; sm_check : float; sm_steps : float }.

Definition add_stage (sums : stage_sums) (stage : cadenceStage) : stage_sums :=
  {| sm_abci := if cs_IncludedInResidual stage then fadd (sm_abci sums) (cs_PerBlockSeconds stage) else sm_abci sums;
     sm_check := if String.eqb (cs_Name stage) "check_tx" then cs_PerBlockSeconds stage else sm_check sums;
     sm_steps := if String.eqb (cs_Class stage) "consensus_step" then fadd (sm_steps sums) (cs_PerBlockSeconds stage)
                 else sm_steps sums |}.

Definition hundred : float := float64 100.

Definition diagnostic_stages (obs : loadWindowObservation) (logs : loadTestLogSummary) (signal : storageSignal)
    (blockCount : Z) : list cadenceStage :=
  cadenceStages signal blockCount ++ metricAttributionCadenceStages signal blockCount ++
  treeDBCadenceStages (TreeDBStatDeltas obs) (ss_Name signal) blockCount ++
  catalystCadenceStages (lg_CatalystTiming logs) blockCount.

Definition diagnostic (obs : loadWindowObservation) (logs : loadTestLogSummary) (pipelines : gmap string pipelineSignal)
    (signal : storageSignal) : cadenceDiagnostic :=
  let pipeline := pipelines !! ss_Name signal in
  let blockCount := cadenceBlockCount (signal_counts signal) (pipeline_counts pipeline) in
  let interval := cadenceAvgBlockInterval (ob_Seconds obs) blockCount pipeline in
  let stages := diagnostic_stages obs logs signal blockCount in
  let sums := foldl add_stage {| sm_abci := fzero; sm_check := fzero; sm_steps := fzero |} stages in
  let residual := if flt fzero interval then nonNegative (fsub interval (sm_abci sums)) else fzero in
  let steps := negb (Nat.eqb (length (ss_ConsensusStepTimings signal)) 0) in
  {| cd_Name := ss_Name signal; cd_WindowSeconds := ob_Seconds obs; cd_BlockCount := blockCount;
     cd_AvgBlockIntervalSeconds := interval;
     cd_AvgTxsPerBlock := cadenceAvgTxsPerBlock obs signal pipeline blockCount;
     cd_ABCIBlockStageSecondsPerBlock := sm_abci sums; cd_CheckTxSecondsPerBlockEquivalent := sm_check sums;
     cd_ConsensusStepSecondsPerBlock := sm_steps sums;
     cd_CadenceResidualAfterABCIBlockStagesSeconds := residual;
     cd_CadenceResidualPctOfBlockInterval :=
       if flt fzero interval then float64_div (float64_mul hundred residual) interval else fzero;
     cd_ResidualFormula := "max(0, avg_block_interval_seconds - (commit + finalize_block + prepare_proposal + process_proposal seconds per block))";
     cd_ExactEventSpanCoverage := hasExactCommitSpanCoverage signal;
     cd_Stages := stages;
     cd_MissingEventSpans :=
       cadenceMissingEventSpans signal (TreeDBStatDeltas obs) logs ++
       note_if (blockCount =? 0) "block count unavailable; cannot compute per-block cadence residual" ++
       note_if (feq interval fzero) "average block interval unavailable; cannot compute cadence residual" ++
       note_if (negb steps) "CometBFT consensus step duration counters unavailable in accepted-window metrics";
     cd_Notes :=
       ["block-stage residual is derived from ABCI Prometheus counter deltas, not exact event-level wall-clock tracing";
        "CheckTx is reported as transaction-intake pressure and is not subtracted from block-stage residual";
        "exact CometBFT commit spans are nested; compare siblings under the same parent and do not add parent and child rows";
        "the asynchronous tx-index block total is not an additive child of consensus commit, but fire-events can expose subscriber backpressure"] ++
       note_if (blockCount =? 0) "consensus block interval count, commit count, and finalize count were unavailable" ++
       note_if steps "consensus step counters are attribution signals and may overlap other cadence measurements" ++
       note_if (hasTreeDBStatsForNode (TreeDBStatDeltas obs) (ss_Name signal))
         "TreeDB debug-var timing deltas expose commit/storage internals, but they are counters and may overlap ABCI, blockstore, or tx-index timing" ++
       note_if (match lg_CatalystTiming logs with Some _ => true | None => false end)
         "Catalyst timing rows are retained task-log spans at run scope; truncated logs can undercount them" |}.

Definition diagnostic_le (a b : cadenceDiagnostic) : Prop := str_lt (cd_Name b) (cd_Name a) = false.
#[export] Instance diagnostic_le_dec : RelDecision diagnostic_le.
Proof. intros a b. unfold diagnostic_le. apply _. Defined.

(** With the rows of the pipeline, which the runner fills in first. *)
Definition summarizeCadenceDiagnostics (obs : loadWindowObservation) (pipelines : list pipelineSignal)
    (logs : loadTestLogSummary) : list cadenceDiagnostic :=
  merge_sort diagnostic_le (map (diagnostic obs logs (by_name pl_Name pipelines)) (StorageSignals obs)).
End ranges.
