(* ===== verification/RunnerAccounting.v ===== *)
(** * The report runner's accounting table: [cmd/local-report-runner/main.go]

    The time of an accepted load window set against the time its ABCI methods
    cover, and the three tables of a window together: the pipeline's, the
    cadence's and the accounting's. *)

From stdpp Require Import sorting.
From S2P Require Import Prelude GoStrings GoVal GoTime GoFloat GoText RunnerWindows RunnerMetrics RunnerSignals RunnerLogs RunnerMonitor RunnerCadence.

Record loadWindowAccounting := {
  ac_Name : string;
  ac_LoadWindowStart : Z;
  ac_LoadWindowEnd : Z;
  ac_LoadWindowSeconds : float;
  ac_LoadGeneratorStart : option Z;
  ac_LoadGeneratorEnd : option Z;
  ac_LoadGeneratorWallSeconds : float;
  ac_ValidatorProcessCPUSecondsDelta : float;
  ac_ValidatorCoreEquivalent : float;
  ac_ABCIObservedSumSeconds : float;
  ac_ABCIByMethodSeconds : gmap string float;
  ac_ABCIBusyUnionSeconds : option float;
  ac_ABCIIntervalCount : nat;
  ac_ABCIIntervalProvenance : string;
  ac_ABCIBusyUnionMissingReason : string;
  ac_ABCIOverlapSeconds : option float;
  ac_ABCIOverlapMissingReason : string;
  ac_ValidatorNonABCIWallSeconds : option float;
  ac_ValidatorNonABCIWallMissingReason : string;
  ac_ValidatorNonABCIApproxSeconds : float;
  ac_ValidatorNonABCIPctApprox : float;
  ac_LoadgenClientWaitSeconds : option float;
  ac_LoadgenClientWaitMissingReason : string;
  ac_ConsensusBlockCadenceSeconds : float;
  ac_MempoolBacklogSummary : string;
  ac_UnaccountedResidualSeconds : float;
  ac_UnaccountedResidualFormula : string;
  ac_UnaccountedResidualClassification : string;
  ac_IntervalAttribution : list loadWindowIntervalAttribution;
  ac_Notes : list string
}.

(** The fields that depend on the intervals of the node's ABCI methods. *)
Record busy_union := {
  bu_seconds : option float;
  bu_count : nat;
  bu_provenance : string;
  bu_missing : string;
  bu_overlap : option float;
  bu_overlap_missing : string;
  bu_wall : option float;
  bu_wall_missing : string;
  bu_residual : float;
  bu_formula : string;
  bu_classification : string;
  bu_notes : list string
}.

Definition exact_union (obs : loadWindowObservation) (signal : storageSignal) (union : float) (count : nat)
    (provenance : string) : busy_union :=
  let provenance := if String.eqb provenance "" then "wall_clock_intervals" else provenance in
  let wall := nonNegative (fsub (ob_Seconds obs) union) in
  let exact := String.eqb provenance "exact_event" in
  {| bu_seconds := Some union; bu_count := count; bu_provenance := provenance; bu_missing := "";
     bu_overlap := if exact then Some (nonNegative (fsub (ss_ABCIObservedSeconds signal) union)) else None;
     bu_overlap_missing :=
       if exact then ""
       else "ABCI interval union is scrape-bounded rather than event-exact; overlap with summed method timers is not meaningful";
     bu_wall := Some wall; bu_wall_missing := ""; bu_residual := wall;
     bu_formula := "max(0, load_window_seconds - abci_busy_union_seconds)";
     bu_classification := if exact then "exact_interval_union" else "bounded_sample_lower_bound";
     bu_notes :=
       if exact then []
       else ["ABCI activity expands to the full scrape interval; the busy union is an upper bound and interval-derived non-ABCI time is only a lower bound"] |}.

Definition no_union (approx : float) : busy_union :=
  {| bu_seconds := None; bu_count := 0; bu_provenance := "";
     bu_missing := "ABCI method interval start/end samples are not exported by this harness";
     bu_overlap := None;
     bu_overlap_missing := "ABCI busy union unavailable; overlap cannot be computed from summed method counters";
     bu_wall := None; bu_wall_missing := "exact non-ABCI wall time requires ABCI busy union intervals";
     bu_residual := approx; bu_formula := "max(0, load_window_seconds - abci_observed_sum_seconds)";
     bu_classification := "approximate_sum_based"; bu_notes := [] |}.

Definition busy_union_of (obs : loadWindowObservation) (signal : storageSignal) : busy_union :=
  let '(union, count, provenance) :=
    loadWindowIntervalClassUnion (WallClockIntervals obs) (ss_Name signal) "abci" (StartedAt obs) (EndedAt obs) in
  if Nat.ltb 0 count then exact_union obs signal union count provenance
  else no_union (nonNegative (fsub (ob_Seconds obs) (ss_ABCIObservedSeconds signal))).

Definition backlog (pipeline : option pipelineSignal) : string :=
  match pipeline with
  | Some p =>
      "submitted=" +:+ itoa (pl_SubmittedTransactions p) +:+ " included=" +:+ itoa (pl_IncludedTransactions p) +:+
      " successful=" +:+ itoa (pl_SuccessfulTransactions p) +:+ " send_gap=" +:+ itoa (pl_SubmittedMinusIncluded p) +:+
      " failed_send=" +:+ itoa (pl_FailedSendTotal p)
  | None => "pipeline summary unavailable"
  end.

Definition by_method (signal : storageSignal) : gmap string float :=
  list_to_map
    [("commit", ss_ABCICommitSeconds signal); ("finalize_block", ss_ABCIFinalizeBlockSeconds signal);
     ("check_tx", ss_ABCICheckTxSeconds signal); ("prepare_proposal", ss_ABCIPrepareProposalSeconds signal);
     ("process_proposal", ss_ABCIProcessProposalSeconds signal); ("query", ss_ABCIQuerySeconds signal);
     ("flush", ss_ABCIFlushSeconds signal); ("other", ss_ABCIOtherSeconds signal)].

Definition accounting_row (timeline : list phaseSpan) (logs : loadTestLogSummary) (obs : loadWindowObservation)
    (pipelines : gmap string pipelineSignal) (signal : storageSignal) : loadWindowAccounting :=
  let span := phaseSpanByName timeline "run_load_test" in
  let pipeline := pipelines !! ss_Name signal in
  let busy := busy_union_of obs signal in
  let approx := nonNegative (fsub (ob_Seconds obs) (ss_ABCIObservedSeconds signal)) in
  let blockCount := cadenceBlockCount (signal_counts signal) (pipeline_counts pipeline) in
  let open := flt fzero (ob_Seconds obs) in
  {| ac_Name := ss_Name signal; ac_LoadWindowStart := StartedAt obs; ac_LoadWindowEnd := EndedAt obs;
     ac_LoadWindowSeconds := ob_Seconds obs;
     ac_LoadGeneratorStart := ps_Started <$> span; ac_LoadGeneratorEnd := ps_Ended <$> span;
     ac_LoadGeneratorWallSeconds := default fzero (ps_Seconds <$> span);
     ac_ValidatorProcessCPUSecondsDelta := ss_ProcessCPUSecondsDelta signal;
     ac_ValidatorCoreEquivalent := if open then float64_div (ss_ProcessCPUSecondsDelta signal) (ob_Seconds obs) else fzero;
     ac_ABCIObservedSumSeconds := ss_ABCIObservedSeconds signal; ac_ABCIByMethodSeconds := by_method signal;
     ac_ABCIBusyUnionSeconds := bu_seconds busy; ac_ABCIIntervalCount := bu_count busy;
     ac_ABCIIntervalProvenance := bu_provenance busy; ac_ABCIBusyUnionMissingReason := bu_missing busy;
     ac_ABCIOverlapSeconds := bu_overlap busy; ac_ABCIOverlapMissingReason := bu_overlap_missing busy;
     ac_ValidatorNonABCIWallSeconds := bu_wall busy; ac_ValidatorNonABCIWallMissingReason := bu_wall_missing busy;
     ac_ValidatorNonABCIApproxSeconds := approx;
     ac_ValidatorNonABCIPctApprox := if open then float64_div (float64_mul hundred approx) (ob_Seconds obs) else fzero;
     ac_LoadgenClientWaitSeconds := None;
     ac_LoadgenClientWaitMissingReason :=
       match lg_CatalystTiming logs with
       | Some _ => "per-transaction client RPC wait is unavailable; Catalyst per-block send and block-processing durations are reported separately from retained task logs"
       | None => "Catalyst aggregate logs do not export per-client wait or broadcast latency"
       end;
     ac_ConsensusBlockCadenceSeconds :=
       if open && (0 <? blockCount) then float64_div (ob_Seconds obs) (float64 blockCount) else fzero;
     ac_MempoolBacklogSummary := backlog pipeline;
     ac_UnaccountedResidualSeconds := bu_residual busy; ac_UnaccountedResidualFormula := bu_formula busy;
     ac_UnaccountedResidualClassification := bu_classification busy;
     ac_IntervalAttribution :=
       summarizeLoadWindowIntervalAttributions (WallClockIntervals obs) (ss_Name signal) (StartedAt obs) (EndedAt obs);
     ac_Notes :=
       bu_notes busy ++
       note_if (open && (0 <? blockCount))
         "block cadence is accepted-window wall time divided by finalized block count; cometbft_consensus_block_interval_seconds measures block-header timestamp deltas instead" ++
       note_if (flt (ob_Seconds obs) (ss_ABCIObservedSeconds signal) && open)
         "ABCI summed method seconds exceed wall seconds; methods may overlap or include concurrent connections" |}.

Definition accounting_le (a b : loadWindowAccounting) : Prop := str_lt (ac_Name b) (ac_Name a) = false.
#[export] Instance accounting_le_dec : RelDecision accounting_le.
Proof. intros a b. unfold accounting_le. apply _. Defined.

Definition summarizeLoadWindowAccounting (timeline : list phaseSpan) (logs : loadTestLogSummary)
    (obs : loadWindowObservation) (pipelines : list pipelineSignal) : list loadWindowAccounting :=
  merge_sort accounting_le
    (map (accounting_row timeline logs obs (by_name pl_Name pipelines)) (StorageSignals obs)).

(** ** The tables of a window *)
Record window_tables := {
  PipelineSignals : list pipelineSignal;
  CadenceDiagnostics : list cadenceDiagnostic;
  Accounting : list loadWindowAccounting
}.

(** The three [populate] calls of [runScenario], in their order; a run without a window has no tables. *)
Definition populate {R : MapRange} (timeline : list phaseSpan) (logs : loadTestLogSummary)
    (window : option loadWindowObservation) : option window_tables :=
  match window with
  | None => None
  | Some obs =>
      let pipelines := summarizePipelineSignals obs logs in
      Some {| PipelineSignals := pipelines; CadenceDiagnostics := summarizeCadenceDiagnostics obs pipelines logs;
              Accounting := summarizeLoadWindowAccounting timeline logs obs pipelines |}
  end.

(** ** Sorting rows is sorting what they are made from *)
Section sort_map.
Context {A B} (f : A -> B) (RA : relation A) (RB : relation B) `{!RelDecision RA, !RelDecision RB}.
Hypothesis same : forall x y, RB (f x) (f y) <-> RA x y.

Lemma list_merge_map l1 l2 : list_merge RB (map f l1) (map f l2) = map f (list_merge RA l1 l2).
Proof.
  revert l2. induction l1 as [|x l1 IH1]; intros l2; [by destruct l2|].
  induction l2 as [|y l2 IH2]; [done|]. cbn [map list_merge].
  destruct (decide (RB (f x) (f y))) as [H|H], (decide (RA x y)) as [H'|H']; try (rewrite same in H; contradiction); cbn [map]; f_equal.
  - apply (IH1 (y :: l2)).
  - apply IH2.
Qed.

Lemma merge_list_to_stack_map st l :
  merge_list_to_stack RB (map (fmap (map f)) st) (map f l) = map (fmap (map f)) (merge_list_to_stack RA st l).
Proof. revert l. induction st as [|[l'|] st IH]; intros l; [done| |done]. cbn. f_equal. by rewrite list_merge_map. Qed.

Lemma merge_stack_map st : merge_stack RB (map (fmap (map f)) st) = map f (merge_stack RA st).
Proof. induction st as [|[l|] st IH]; [done| |done]. cbn. by rewrite IH, list_merge_map. Qed.

Lemma merge_sort_map l : merge_sort RB (map f l) = map f (merge_sort RA l).
Proof.
  unfold merge_sort. change (@nil (option (list B))) with (map (fmap (map f)) (@nil (option (list A)))).
  generalize (@nil (option (list A))). induction l as [|x l IH]; intros st; cbn [map merge_sort_aux]; [apply merge_stack_map|].
  change [f x] with (map f [x]). by rewrite merge_list_to_stack_map.
Qed.
End sort_map.

(** ** The rows of a name *)
Lemma by_name_notin {A} (name : A -> string) rows (m : gmap string A) n : n ∉ map name rows -> foldl (fun m row => <[name row := row]> m) m rows !! n = m !! n.
Proof.
  revert m. induction rows as [|r rows IH]; intros m Hn; [done|]. cbn in Hn |- *. apply not_elem_of_cons in Hn as [Hne Hn].
  rewrite IH by done. by rewrite lookup_insert_ne.
Qed.

Lemma by_name_lookup {A} (name : A -> string) rows row :
  NoDup (map name rows) -> row ∈ rows -> by_name name rows !! name row = Some row.
Proof.
  unfold by_name. generalize (∅ : gmap string A). induction rows as [|r rows IH]; intros m; [by intros _ ?%not_elem_of_nil|].
  cbn. intros [Hr Hrows]%NoDup_cons [->|Hin]%elem_of_cons; [|by apply IH].
  by rewrite by_name_notin, lookup_insert_eq.
Qed.

(** ** What the tables say of a node *)
Definition name_le (a b : storageSignal) : Prop := str_lt (ss_Name b) (ss_Name a) = false.
#[export] Instance name_le_dec : RelDecision name_le.
Proof. intros a b. unfold name_le. apply _. Defined.

(** Finalized blocks, or commits, or block intervals: the first the node counted. *)
Definition block_count (signal : storageSignal) : Z :=
  default 0 (head (List.filter (fun n => 0 <? n)
    [ss_ABCIFinalizeBlockCount signal; ss_ABCICommitCount signal; ss_ConsensusBlockIntervalCount signal])).

Lemma pipeline_same_count obs logs signal :
  cadenceBlockCount (signal_counts signal) (pipeline_counts (Some (pipeline_row obs logs signal))) = block_count signal.
Proof.
  unfold cadenceBlockCount, block_count, pipeline_row. destruct (pipeline_interval _ _). cbn.
  destruct (0 <? ss_ABCIFinalizeBlockCount signal), (0 <? ss_ABCICommitCount signal), (0 <? ss_ConsensusBlockIntervalCount signal); done.
Qed.

Lemma signal_same_count signal : cadenceBlockCount (signal_counts signal) (signal_counts signal) = block_count signal.
Proof.
  unfold cadenceBlockCount, block_count. cbn.
  destruct (0 <? ss_ABCIFinalizeBlockCount signal), (0 <? ss_ABCICommitCount signal), (0 <? ss_ConsensusBlockIntervalCount signal); done.
Qed.

Lemma pipeline_row_name obs logs signal : pl_Name (pipeline_row obs logs signal) = ss_Name signal.
Proof. unfold pipeline_row. by destruct (pipeline_interval _ _). Qed.

Lemma pipeline_row_interval obs logs signal :
  pl_AvgBlockIntervalSeconds (pipeline_row obs logs signal) = (pipeline_interval obs signal).1.
Proof. unfold pipeline_row. by destruct (pipeline_interval _ _). Qed.

Lemma flt_nonNegative v : flt (nonNegative v) fzero = false.
Proof. unfold nonNegative. by destruct (flt v fzero) eqn:E. Qed.

(** Only the block stages of the ABCI connection count towards the residual. *)
Definition outside_residual (stage : cadenceStage) : Prop := cs_IncludedInResidual stage = false.

Lemma outside_sum stages sums : Forall outside_residual stages -> sm_abci (foldl add_stage sums stages) = sm_abci sums.
Proof.
  intros H. revert sums. induction H as [|s stages Hs _ IH]; intros sums; [done|]. cbn [foldl]. rewrite IH. cbn. by rewrite Hs.
Qed.

Lemma catalyst_outside timing blockCount : Forall outside_residual (catalystCadenceStages timing blockCount).
Proof.
  destruct timing as [timing|]; [|constructor]. unfold catalystCadenceStages, catalyst_stage.
  rewrite !Forall_app. split_and!; (case_match; [case_match; by repeat constructor|constructor]).
Qed.

Section agree.
Context {R : MapRange}.

Lemma treedb_outside snapshots node blockCount : Forall outside_residual (treeDBCadenceStages snapshots node blockCount).
Proof.
  unfold treeDBCadenceStages. destruct (Nat.eqb _ _); [constructor|]. apply Forall_map, Forall_true. by intros ?.
Qed.

Lemma metric_outside signal blockCount : Forall outside_residual (ss_ExactCommitStageTimings signal) ->
  Forall outside_residual (metricAttributionCadenceStages signal blockCount).
Proof.
  intros H. unfold metricAttributionCadenceStages, stage_if. rewrite !Forall_app. split_and!.
  1,3,4: destruct (_ : bool); by repeat constructor.
  apply Forall_map. eapply Forall_impl; [exact H|]. intros s Hs. unfold exact_cadence_stage, set_PerBlock.
  destruct (0 <? blockCount); [done|]. by destruct (flt fzero (cs_Seconds s)).
Qed.

Lemma storage_signal_steps before after beforeSizes afterSizes :
  ss_ConsensusStepTimings (storage_signal before after beforeSizes afterSizes) =
  summarizeConsensusStepTimings (metricDeltas (ms_Metrics before) (ms_Metrics after)).
Proof. unfold storage_signal. by destruct (size_delta _ _) as [[? ?] ?], (size_delta _ _) as [[? ?] ?]. Qed.

Lemma storage_signal_exact before after beforeSizes afterSizes :
  ss_ExactCommitStageTimings (storage_signal before after beforeSizes afterSizes) =
  summarizeExactCommitStageTimings (metricDeltas (ms_Metrics before) (ms_Metrics after)).
Proof. unfold storage_signal. by destruct (size_delta _ _) as [[? ?] ?], (size_delta _ _) as [[? ?] ?]. Qed.

Lemma steps_outside deltas : Forall outside_residual (summarizeConsensusStepTimings deltas).
Proof.
  unfold summarizeConsensusStepTimings. apply Forall_forall. intros stage. rewrite merge_sort_Permutation.
  intros ([key v] & _ & Hk)%list_elem_of_omap. unfold consensus_step in Hk. destruct (_ || _); [done|]. by apply Some_inj in Hk as <-.
Qed.

Lemma exact_stage_outside deltas sp stage : exact_stage deltas sp = Some stage -> outside_residual stage.
Proof. unfold exact_stage. cbv zeta. destruct (_ && _); [discriminate|]. intros H. apply Some_inj in H as <-. reflexivity. Qed.

Lemma exact_outside deltas : Forall outside_residual (summarizeExactCommitStageTimings deltas).
Proof.
  unfold summarizeExactCommitStageTimings. generalize exactCommitMetricSpecs. intros specs.
  apply Forall_forall. intros stage. rewrite list_elem_of_omap. intros (sp & _ & Hk). apply (exact_stage_outside _ _ _ Hk).
Qed.

Lemma summarized_row before after beforeSizes afterSizes signal :
  signal ∈ summarizeStorageSignals before after beforeSizes afterSizes ->
  exists b a, signal = storage_signal b a beforeSizes afterSizes.
Proof.
  unfold summarizeStorageSignals. rewrite merge_sort_Permutation.
  intros (s & _ & Hs)%list_elem_of_omap. destruct (metricSnapshotsByName before !! ms_Name s) as [b|]; [|discriminate Hs].
  destruct (bool_decide _); [discriminate Hs|]. exists b, s. by apply Some_inj in Hs.
Qed.

Lemma summarized_outside before after beforeSizes afterSizes signal :
  signal ∈ summarizeStorageSignals before after beforeSizes afterSizes ->
  Forall outside_residual (ss_ConsensusStepTimings signal) /\ Forall outside_residual (ss_ExactCommitStageTimings signal).
Proof.
  intros (b & a & ->)%summarized_row. rewrite storage_signal_steps, storage_signal_exact.
  split; [apply steps_outside|apply exact_outside].
Qed.

(** Per block of the node's count, summed in the order of the stages. *)
Definition abci_per_block (signal : storageSignal) : float :=
  foldl (fun sum seconds => fadd sum (per seconds (block_count signal))) fzero
    [ss_ABCICommitSeconds signal; ss_ABCIFinalizeBlockSeconds signal; ss_ABCIPrepareProposalSeconds signal;
     ss_ABCIProcessProposalSeconds signal].

(** The node's intervals of ABCI methods that meet the window. *)
Definition abci_intervals (obs : loadWindowObservation) (signal : storageSignal) : list loadWindowInterval :=
  List.filter (counted (ss_Name signal) "abci" (StartedAt obs) (EndedAt obs)) (WallClockIntervals obs).

(** The rows of a node in the three tables. *)
Definition tables_agree (obs : loadWindowObservation) (signal : storageSignal) (p : pipelineSignal) (c : cadenceDiagnostic)
    (a : loadWindowAccounting) : Prop :=
  let n := block_count signal in
  (pl_Name p = ss_Name signal /\ cd_Name c = ss_Name signal /\ ac_Name a = ss_Name signal) /\
  cd_BlockCount c = n /\
  (if flt fzero (ob_Seconds obs) && (0 <? n) then
     let interval := float64_div (ob_Seconds obs) (float64 n) in
     pl_AvgBlockIntervalSeconds p = interval /\ cd_AvgBlockIntervalSeconds c = interval /\
     ac_ConsensusBlockCadenceSeconds a = interval
   else
     ac_ConsensusBlockCadenceSeconds a = fzero /\
     cd_AvgBlockIntervalSeconds c = if flt fzero (pl_AvgBlockIntervalSeconds p) then pl_AvgBlockIntervalSeconds p else fzero) /\
  cd_ABCIBlockStageSecondsPerBlock c = abci_per_block signal /\
  cd_CadenceResidualAfterABCIBlockStagesSeconds c =
    (if flt fzero (cd_AvgBlockIntervalSeconds c)
     then nonNegative (fsub (cd_AvgBlockIntervalSeconds c) (abci_per_block signal)) else fzero) /\
  flt (cd_CadenceResidualAfterABCIBlockStagesSeconds c) fzero = false /\
  flt (ac_UnaccountedResidualSeconds a) fzero = false.

(** How the accounting classes a node: by its intervals and their sources. *)
Definition class_agrees (obs : loadWindowObservation) (signal : storageSignal) (a : loadWindowAccounting) : Prop :=
  let seen := abci_intervals obs signal in
  ac_ABCIIntervalCount a = length seen /\
  (match seen with
   | [] => ac_ABCIBusyUnionSeconds a = None /\ ac_ValidatorNonABCIWallSeconds a = None /\
           ac_UnaccountedResidualClassification a = "approximate_sum_based" /\
           ac_UnaccountedResidualSeconds a = nonNegative (fsub (ob_Seconds obs) (ss_ABCIObservedSeconds signal))
   | _ =>
       exists union, ac_ABCIBusyUnionSeconds a = Some union /\
         ac_UnaccountedResidualSeconds a = nonNegative (fsub (ob_Seconds obs) union) /\
         ac_ValidatorNonABCIWallSeconds a = Some (ac_UnaccountedResidualSeconds a) /\
         (ac_UnaccountedResidualClassification a = "exact_interval_union" <-> ⋃ (map interval_provenance seen) = {["exact_event"]})
   end) /\
  (is_Some (ac_ABCIOverlapSeconds a) <-> ac_UnaccountedResidualClassification a = "exact_interval_union").
End agree.

(** The summary of a set is one name only when the set has just that name. *)
Lemma summary_exact (names : gset string) : sortedSetSummary names = "exact_event" <-> names = {["exact_event"]}.
Proof.
  unfold sortedSetSummary. split.
  - intros Hj. pose proof (merge_sort_Permutation str_le (elements names)) as Hp.
    destruct (merge_sort str_le (elements names)) as [|x [|y l]]; [done| |].
    + cbn in Hj. subst x. apply set_eq. intros n. rewrite <- elem_of_elements, <- Hp, elem_of_singleton. apply list_elem_of_singleton.
    + exfalso. assert (no_byte (Ascii.ascii_of_nat 44) (Join (x :: y :: l) ", ") = true) as Hc by by rewrite Hj.
      cbn [Join String_concat] in Hc. revert Hc. clear. generalize (Join (y :: l) ", "). intros tail. 
      induction x as [|c x IH]; [done|]. cbn. intros [_ Hc]%andb_true_iff. by apply IH.
  - intros ->. by rewrite elements_singleton.
Qed.

Lemma class_agrees_row timeline logs obs pipelines signal :
  IsZero (StartedAt obs) = false -> IsZero (EndedAt obs) = false -> StartedAt obs < EndedAt obs ->
  class_agrees obs signal (accounting_row timeline logs obs pipelines signal).
Proof.
  intros Hs He Hlt.
  assert (exists union, loadWindowIntervalClassUnion (WallClockIntervals obs) (ss_Name signal) "abci" (StartedAt obs) (EndedAt obs) =
    (union, length (abci_intervals obs signal), sortedSetSummary (⋃ (map interval_provenance (abci_intervals obs signal)))))
    as [union Hu] by (eexists; by apply class_union_run).
  assert (busy_union_of obs signal = match abci_intervals obs signal with
    | [] => no_union (nonNegative (fsub (ob_Seconds obs) (ss_ABCIObservedSeconds signal)))
    | _ => exact_union obs signal union (length (abci_intervals obs signal))
             (sortedSetSummary (⋃ (map interval_provenance (abci_intervals obs signal)))) end) as Hb.
  { unfold busy_union_of. rewrite Hu. by destruct (abci_intervals obs signal). }
  unfold class_agrees, accounting_row. cbn [ac_ABCIIntervalCount ac_ABCIBusyUnionSeconds ac_ValidatorNonABCIWallSeconds
    ac_UnaccountedResidualClassification ac_UnaccountedResidualSeconds ac_ABCIOverlapSeconds]. rewrite Hb.
  destruct (abci_intervals obs signal) as [|i seen]; [cbn; split_and!; try done; by split; [intros [? ?]|]|].
  set (names := ⋃ _). unfold exact_union. cbn [bu_seconds bu_count bu_overlap bu_wall bu_residual bu_classification].
  assert (String.eqb (if String.eqb (sortedSetSummary names) "" then "wall_clock_intervals" else sortedSetSummary names) "exact_event" = true
    <-> names = {["exact_event"]}) as Hn.
  { rewrite <- summary_exact, String.eqb_eq. by destruct (String.eqb_spec (sortedSetSummary names) "") as [->|]. }
  destruct (String.eqb (if _ : bool then _ else _) "exact_event").
  - split_and!; [done| |done]. exists union. split_and!; [done..|]. by rewrite <- Hn.
  - split_and!; [done| |by split; [intros [? ?]|]]. exists union. split_and!; [done..|]. by rewrite <- Hn.
Qed.

Lemma stages_sum {R : MapRange} obs logs signal :
  Forall outside_residual (ss_ConsensusStepTimings signal) -> Forall outside_residual (ss_ExactCommitStageTimings signal) ->
  sm_abci (foldl add_stage {| sm_abci := fzero; sm_check := fzero; sm_steps := fzero |}
    (diagnostic_stages obs logs signal (block_count signal))) = abci_per_block signal.
Proof.
  intros Hsteps Hexact. unfold diagnostic_stages. rewrite !foldl_app.
  rewrite outside_sum by apply catalyst_outside. rewrite outside_sum by apply treedb_outside.
  rewrite outside_sum by by apply metric_outside. unfold cadenceStages. rewrite foldl_app.
  rewrite outside_sum; [done|]. apply Forall_map. eapply Forall_impl; [exact Hsteps|]. intros s Hs.
  unfold step_stage. by destruct (0 <? block_count signal).
Qed.

Lemma tables_agree_rows {R : MapRange} timeline logs obs pipelines signal :
  pipelines !! ss_Name signal = Some (pipeline_row obs logs signal) ->
  Forall outside_residual (ss_ConsensusStepTimings signal) -> Forall outside_residual (ss_ExactCommitStageTimings signal) ->
  tables_agree obs signal (pipeline_row obs logs signal) (diagnostic obs logs pipelines signal)
    (accounting_row timeline logs obs pipelines signal).
Proof.
  intros Hp Hsteps Hexact. unfold tables_agree, diagnostic, accounting_row. rewrite Hp, pipeline_same_count.
  cbv zeta. cbn [cd_Name cd_BlockCount cd_AvgBlockIntervalSeconds cd_ABCIBlockStageSecondsPerBlock
    cd_CadenceResidualAfterABCIBlockStagesSeconds ac_Name ac_ConsensusBlockCadenceSeconds ac_UnaccountedResidualSeconds].
  rewrite pipeline_row_name. split_and!; [done..| | | | |].
  - rewrite pipeline_row_interval. unfold cadenceAvgBlockInterval, pipeline_interval.
    rewrite pipeline_row_interval, signal_same_count. unfold pipeline_interval. rewrite signal_same_count.
    by destruct (flt fzero (ob_Seconds obs) && (0 <? block_count signal)).
  - by apply stages_sum.
  - by rewrite stages_sum.
  - destruct (flt fzero _); [apply flt_nonNegative|done].
  - unfold busy_union_of. destruct (loadWindowIntervalClassUnion _ _ _ _ _) as [[union count] provenance].
    destruct (Nat.ltb 0 count); apply flt_nonNegative.
Qed.

Lemma name_le_total : Total name_le.
Proof.
  intros x y. unfold name_le, str_lt, String.ltb. rewrite (String.compare_antisym (ss_Name x) (ss_Name y)).
  destruct (String.compare (ss_Name y) (ss_Name x)); [by left|by right|by left].
Qed.

(** The tables of a window describe the same nodes, in the order of their
    names, and agree on each: the blocks they divide by are the first positive
    of the node's finalized blocks, commits and block intervals; while the
    window is open and has blocks its average block interval is the same in
    all three; the time per block set against it is that of the four block
    stages of the ABCI connection and of no other stage, and no residual is
    negative.  The accounting counts the node's ABCI intervals that meet the
    window, calls their union exact only when each comes from exact events,
    and without an interval falls back to the sum of the methods. *)
Theorem populate_tables_agree {R : MapRange} timeline logs obs before after beforeSizes afterSizes :
  StorageSignals obs = summarizeStorageSignals before after beforeSizes afterSizes ->
  NoDup (map ss_Name (StorageSignals obs)) ->
  IsZero (StartedAt obs) = false -> IsZero (EndedAt obs) = false -> StartedAt obs < EndedAt obs ->
  exists tables signals, populate timeline logs (Some obs) = Some tables /\
    signals ≡ₚ StorageSignals obs /\ Sorted name_le signals /\
    length (PipelineSignals tables) = length signals /\
    length (CadenceDiagnostics tables) = length signals /\ length (Accounting tables) = length signals /\
    forall i signal, signals !! i = Some signal -> exists p c a,
      PipelineSignals tables !! i = Some p /\ CadenceDiagnostics tables !! i = Some c /\ Accounting tables !! i = Some a /\
      tables_agree obs signal p c a /\ class_agrees obs signal a.
Proof.
  intros Hsignals Hnames Hs He Hlt. set (signals := merge_sort name_le (StorageSignals obs)).
  pose proof (merge_sort_Permutation name_le (StorageSignals obs)) as Hperm. fold signals in Hperm.
  set (pipelines := summarizePipelineSignals obs logs). set (m := by_name pl_Name pipelines).
  assert (pipelines = map (pipeline_row obs logs) signals) as Hp.
  { apply merge_sort_map. intros x y. unfold pipeline_le, name_le. by rewrite !pipeline_row_name. }
  assert (summarizeCadenceDiagnostics obs pipelines logs = map (diagnostic obs logs m) signals) as Hc.
  { apply merge_sort_map. by intros x y. }
  assert (summarizeLoadWindowAccounting timeline logs obs pipelines = map (accounting_row timeline logs obs m) signals) as Ha.
  { apply merge_sort_map. by intros x y. }
  eexists _, signals. split; [reflexivity|]. fold pipelines. rewrite Hc, Ha, Hp. cbn [PipelineSignals CadenceDiagnostics Accounting].
  rewrite !length_map. split_and!; [done| |done..|]; [apply Sorted_merge_sort, name_le_total|].
  intros i signal Hi. rewrite !list_lookup_fmap, Hi. eexists _, _, _. do 3 (split; [reflexivity|]).
  assert (signal ∈ StorageSignals obs) as Hin by (rewrite <- Hperm; by apply list_elem_of_lookup_2 in Hi).
  split; [|by apply class_agrees_row].
  rewrite Hsignals in Hin. pose proof (summarized_outside _ _ _ _ _ Hin) as [Hsteps Hexact]. rewrite <- Hsignals in Hin.
  apply tables_agree_rows; [|done..].
  rewrite <- (pipeline_row_name obs logs signal). apply by_name_lookup.
  - rewrite Hp, map_map. rewrite (map_ext _ ss_Name) by apply pipeline_row_name. by rewrite Hperm.
  - rewrite Hp. apply list_elem_of_fmap. exists signal. split; [done|]. by rewrite Hperm.
Qed.

(** Two nodes over four seconds: one finalized blocks through its ABCI
    connection, the other only counted block intervals. *)
Definition label (metric method : string) : string :=
  metric +:+ "{method=" +:+ dquote +:+ method +:+ dquote +:+ "}".
Definition demo_snapshot (name : string) (metrics : list (string * Z)) : metricSnapshot :=
  {| ms_Name := name; ms_URL := ""; ms_Error := "";
     ms_Metrics := list_to_map (map (fun kv => (kv.1, float64 kv.2)) metrics) |}.
Definition demo_scrape (n : Z) : list metricSnapshot :=
  [demo_snapshot "validator-1" [("cometbft_consensus_block_interval_seconds_count", n);
                                ("cometbft_consensus_block_interval_seconds_sum", 2 * n)];
   demo_snapshot "validator-0" [(label (method_timing +:+ "_sum") "finalize_block", n);
                                (label (method_timing +:+ "_count") "finalize_block", 2 * n);
                                (label (method_timing +:+ "_sum") "check_tx", 3 * n)]].
#[local] Existing Instance canonical_range.
Definition demo_window : loadWindowObservation :=
  observation (fun _ => "") (fun _ => "") 100 0 (1000 * Second) (demo_scrape 1) (demo_scrape 2)
    (appendMetricDeltaWallClockIntervals [] (1000 * Second) (demo_scrape 1) (1004 * Second) (demo_scrape 2)) [] (1004 * Second).

Lemma populate_tables_agree_witness : exists tables signals,
  populate [] no_logs (Some demo_window) = Some tables /\ signals ≡ₚ StorageSignals demo_window /\
  map ac_UnaccountedResidualClassification (Accounting tables) = ["bounded_sample_lower_bound"; "approximate_sum_based"] /\
  map cd_BlockCount (CadenceDiagnostics tables) = [2; 1] /\
  map pl_AvgBlockIntervalSeconds (PipelineSignals tables) = [float64 2; float64 4].
Proof.
  destruct (populate_tables_agree [] no_logs demo_window (demo_scrape 1) (demo_scrape 2) [] [])
    as (tables & signals & Ht & Hperm & _).
  - vm_compute. reflexivity.
  - apply (bool_decide_eq_true_1 (NoDup _)). vm_compute. reflexivity.
  - reflexivity.
  - reflexivity.
  - reflexivity.
  - exists tables, signals. split; [exact Ht|]. split; [exact Hperm|]. clear Hperm.
    assert (option_map (fun t => (map ac_UnaccountedResidualClassification (Accounting t),
      map cd_BlockCount (CadenceDiagnostics t), map pl_AvgBlockIntervalSeconds (PipelineSignals t)))
      (populate [] no_logs (Some demo_window)) =
      Some (["bounded_sample_lower_bound"; "approximate_sum_based"], [2; 1], [float64 2; float64 4])) as H by (vm_compute; reflexivity).
    rewrite Ht in H. cbn [option_map] in H. injection H as H1 H2 H3. auto.
Defined.
