(* ===== verification/RunnerCounts.v ===== *)
(** * The report runner's counts: [cmd/local-report-runner/main.go]

    How many transactions a run intended, included and executed, and at what
    rate: from catalyst's result, from the audit of the transactions' hashes,
    from the nodes' counters, or from the accepted load window, and what the
    report derives from them.  Numbers of audits and messages do not reach 64
    bits; products and sums of the others wrap. *)

From S2P Require Import Prelude GoStrings GoVal GoTime GoFloat RunnerWindows RunnerMetrics RunnerSignals RunnerMonitor RunnerCadence.

(** What the runner reads of catalyst's result and specification. *)
Class Catalyst := {
  OverallStats : Type;
  os_TotalTransactions : OverallStats -> Z;
  os_TotalIncludedTransactions : OverallStats -> Z;
  os_SuccessfulTransactions : OverallStats -> Z;
  os_FailedTransactions : OverallStats -> Z;
  os_Runtime : OverallStats -> Z;
  os_TPS : OverallStats -> float;
  LoadTestMsg : Type;
  lm_Type : LoadTestMsg -> string;                            (* msg.Type.String() *)
  lm_ContainedType : LoadTestMsg -> string;
  lm_NumMsgs : LoadTestMsg -> Z;
  lm_NumOfIterations : LoadTestMsg -> Z;
  lm_CalldataSize : LoadTestMsg -> Z;
  lm_NumOfRecipients : LoadTestMsg -> Z;
  LoadTestSpec : Type;
  sp_Msgs : LoadTestSpec -> list LoadTestMsg;
  sp_NumOfBlocks : LoadTestSpec -> Z;
  sp_NumOfTxs : LoadTestSpec -> Z;
  sp_NumBatches : LoadTestSpec -> Z
}.

(** ** The audit of the hashes *)
Record txAudit := {
  ta_Hash : string;
  ta_RPC : string;
  ta_Found : bool;
  ta_Height : Z;
  ta_Code : Z;
  ta_GasUsed : Z;
  ta_Error : string
}.

Record txAuditSummary := {
  as_Queried : Z;
  as_Found : Z;
  as_Successful : Z;
  as_Failed : Z;
  as_TotalGasUsed : Z;
  as_TPS : float
}.

Definition add_audit (summary : txAuditSummary) (audit : txAudit) : txAuditSummary :=
  if negb (ta_Found audit) then summary
  else
    {| as_Queried := as_Queried summary; as_Found := as_Found summary + 1;
       as_Successful := if ta_Code audit =? 0 then as_Successful summary + 1 else as_Successful summary;
       as_Failed := if ta_Code audit =? 0 then as_Failed summary else as_Failed summary + 1;
       as_TotalGasUsed := to_int64 (as_TotalGasUsed summary + ta_GasUsed audit); as_TPS := as_TPS summary |}.

Definition summarizeTxAudit (audits : list txAudit) (runtime : Z) : option txAuditSummary :=
  match audits with
  | [] => None
  | _ =>
      let summary :=
        foldl add_audit {| as_Queried := Z.of_nat (length audits); as_Found := 0; as_Successful := 0; as_Failed := 0;
                           as_TotalGasUsed := 0; as_TPS := fzero |} audits in
      Some {| as_Queried := as_Queried summary; as_Found := as_Found summary; as_Successful := as_Successful summary;
              as_Failed := as_Failed summary; as_TotalGasUsed := as_TotalGasUsed summary;
              as_TPS := if 0 <? runtime then float64_div (float64 (as_Successful summary)) (Seconds runtime)
                        else as_TPS summary |}
  end.

(** ** A run's counts *)
Record correctedLoadTest := {
  cl_Source : string;
  cl_TotalTransactions : Z;
  cl_IncludedTransactions : Z;
  cl_SuccessfulTransactions : Z;
  cl_FailedTransactions : Z;
  cl_TotalGasUsed : Z;
  cl_RuntimeSeconds : float;
  cl_TPS : float;
  cl_CatalystMismatch : bool;
  cl_Notes : list string;
  cl_AppMetricsIncludedCandidates : list string
}.

Section catalyst.
Context `{Cat : Catalyst}.

(** The fields of [runResult] the counts read. *)
Record runResult := {
  rr_TxIndexer : string;                                      (* Scenario.TxIndexer *)
  rr_WallSeconds : float;
  rr_LaunchSeconds : float;
  rr_PhaseTimeline : list phaseSpan;
  rr_StorageSignals : list storageSignal;
  rr_LoadWindow : option loadWindowObservation;
  rr_Overall : OverallStats;                                  (* LoadTestResult.Overall *)
  rr_LoadTestStopped : string;
  rr_RawTxSummary : option txAuditSummary;
  rr_RawTxAuditSkipped : string;
  rr_CorrectedLoadTest : option correctedLoadTest
}.

Definition usableRawTxSummary (result : runResult) : option txAuditSummary :=
  if String.eqb (rr_TxIndexer result) "null" then None else rr_RawTxSummary result.

Definition shouldUseAppMetricLoadCounts (overall : OverallStats) (included successful : Z) : bool :=
  if (included <=? 0) && (successful <=? 0) then false
  else if os_TotalTransactions overall =? 0 then true
  else if os_SuccessfulTransactions overall <? successful then true
  else (os_TotalIncludedTransactions overall =? 0) && (0 <? included) && (0 <? os_FailedTransactions overall).

Definition nonNegativeInt (value : Z) : Z := if value <? 0 then 0 else value.

Definition from_catalyst (overall : OverallStats) : correctedLoadTest :=
  {| cl_Source := "catalyst"; cl_TotalTransactions := os_TotalTransactions overall;
     cl_IncludedTransactions := os_TotalIncludedTransactions overall;
     cl_SuccessfulTransactions := os_SuccessfulTransactions overall;
     cl_FailedTransactions := os_FailedTransactions overall; cl_TotalGasUsed := 0;
     cl_RuntimeSeconds := Seconds (os_Runtime overall); cl_TPS := os_TPS overall; cl_CatalystMismatch := false;
     cl_Notes := []; cl_AppMetricsIncludedCandidates := [] |}.

Definition from_audit (raw : txAuditSummary) (out : correctedLoadTest) : correctedLoadTest :=
  {| cl_Source := "raw_tx_audit"; cl_TotalTransactions := as_Queried raw; cl_IncludedTransactions := as_Found raw;
     cl_SuccessfulTransactions := as_Successful raw; cl_FailedTransactions := as_Failed raw;
     cl_TotalGasUsed := as_TotalGasUsed raw; cl_RuntimeSeconds := cl_RuntimeSeconds out;
     cl_TPS := if flt fzero (as_TPS raw) then as_TPS raw else cl_TPS out;
     cl_CatalystMismatch := cl_CatalystMismatch out; cl_Notes := cl_Notes out;
     cl_AppMetricsIncludedCandidates := cl_AppMetricsIncludedCandidates out |}.

Definition from_metrics (included successful : Z) (candidates : list string) (out : correctedLoadTest) : correctedLoadTest :=
  let total := cl_TotalTransactions out in
  let total := if total <? included then included else total in
  let total := if total <? successful then successful else total in
  {| cl_Source := "app_metrics"; cl_TotalTransactions := total; cl_IncludedTransactions := included;
     cl_SuccessfulTransactions := successful; cl_FailedTransactions := nonNegativeInt (to_int64 (total - successful));
     cl_TotalGasUsed := cl_TotalGasUsed out; cl_RuntimeSeconds := cl_RuntimeSeconds out; cl_TPS := cl_TPS out;
     cl_CatalystMismatch := cl_CatalystMismatch out; cl_Notes := cl_Notes out;
     cl_AppMetricsIncludedCandidates := candidates |}.

Definition from_window (obs : loadWindowObservation) (out : correctedLoadTest) : correctedLoadTest :=
  let included := if 0 <? IncludedTransactions obs then IncludedTransactions obs else cl_IncludedTransactions out in
  let successful := if 0 <? SuccessfulTransactions obs then SuccessfulTransactions obs else cl_SuccessfulTransactions out in
  let windowTotal := if included <? successful then successful else included in
  let total := if 0 <? windowTotal then windowTotal else cl_TotalTransactions out in
  {| cl_Source := cl_Source out; cl_TotalTransactions := total; cl_IncludedTransactions := included;
     cl_SuccessfulTransactions := successful; cl_FailedTransactions := nonNegativeInt (to_int64 (total - successful));
     cl_TotalGasUsed := cl_TotalGasUsed out; cl_RuntimeSeconds := ob_Seconds obs;
     cl_TPS := float64_div (float64 successful) (ob_Seconds obs); cl_CatalystMismatch := cl_CatalystMismatch out;
     cl_Notes := cl_Notes out ++
       ["runtime and counts use accepted app-metric load-window because Catalyst was stopped before result collection"];
     cl_AppMetricsIncludedCandidates := cl_AppMetricsIncludedCandidates out |}.

Definition add_note (note : string) (out : correctedLoadTest) : correctedLoadTest :=
  {| cl_Source := cl_Source out; cl_TotalTransactions := cl_TotalTransactions out;
     cl_IncludedTransactions := cl_IncludedTransactions out; cl_SuccessfulTransactions := cl_SuccessfulTransactions out;
     cl_FailedTransactions := cl_FailedTransactions out; cl_TotalGasUsed := cl_TotalGasUsed out;
     cl_RuntimeSeconds := cl_RuntimeSeconds out; cl_TPS := cl_TPS out; cl_CatalystMismatch := cl_CatalystMismatch out;
     cl_Notes := cl_Notes out ++ [note]; cl_AppMetricsIncludedCandidates := cl_AppMetricsIncludedCandidates out |}.

(** Fill a missing runtime from the rate, then a missing rate from the runtime. *)
Definition fill_rates (out : correctedLoadTest) : correctedLoadTest :=
  let successful := cl_SuccessfulTransactions out in
  let runtime :=
    if feq (cl_RuntimeSeconds out) fzero && flt fzero (cl_TPS out) && (0 <? successful)
    then float64_div (float64 successful) (cl_TPS out) else cl_RuntimeSeconds out in
  let tps :=
    if feq (cl_TPS out) fzero && flt fzero runtime && (0 <? successful)
    then float64_div (float64 successful) runtime else cl_TPS out in
  {| cl_Source := cl_Source out; cl_TotalTransactions := cl_TotalTransactions out;
     cl_IncludedTransactions := cl_IncludedTransactions out; cl_SuccessfulTransactions := successful;
     cl_FailedTransactions := cl_FailedTransactions out; cl_TotalGasUsed := cl_TotalGasUsed out;
     cl_RuntimeSeconds := runtime; cl_TPS := tps; cl_CatalystMismatch := cl_CatalystMismatch out;
     cl_Notes := cl_Notes out; cl_AppMetricsIncludedCandidates := cl_AppMetricsIncludedCandidates out |}.

Definition mismatch (overall : OverallStats) (out : correctedLoadTest) : bool :=
  negb (os_TotalIncludedTransactions overall =? cl_IncludedTransactions out) ||
  negb (os_SuccessfulTransactions overall =? cl_SuccessfulTransactions out) ||
  negb (os_FailedTransactions overall =? cl_FailedTransactions out).

Definition compare_catalyst (overall : OverallStats) (out : correctedLoadTest) : correctedLoadTest :=
  let differs := mismatch overall out in
  {| cl_Source := cl_Source out; cl_TotalTransactions := cl_TotalTransactions out;
     cl_IncludedTransactions := cl_IncludedTransactions out; cl_SuccessfulTransactions := cl_SuccessfulTransactions out;
     cl_FailedTransactions := cl_FailedTransactions out; cl_TotalGasUsed := cl_TotalGasUsed out;
     cl_RuntimeSeconds := cl_RuntimeSeconds out; cl_TPS := cl_TPS out; cl_CatalystMismatch := differs;
     cl_Notes := cl_Notes out ++ (if differs then ["catalyst result differs from corrected counts"] else []);
     cl_AppMetricsIncludedCandidates := cl_AppMetricsIncludedCandidates out |}.

(** Where the counts come from first. *)
Definition counted_load (result : runResult) : correctedLoadTest :=
  let overall := rr_Overall result in
  let out := from_catalyst overall in
  let metrics :=
    let '(included, successful, candidates, ok) := appMetricLoadCounts (rr_StorageSignals result) in
    if ok && shouldUseAppMetricLoadCounts overall included successful
    then from_metrics included successful candidates out else out in
  match usableRawTxSummary result with
  | Some raw => if 0 <? as_Queried raw then from_audit raw out else metrics
  | None => metrics
  end.

Definition corrected (result : runResult) : correctedLoadTest :=
  let out := counted_load result in
  let out := if String.eqb (rr_RawTxAuditSkipped result) "" then out else add_note (rr_RawTxAuditSkipped result) out in
  let out :=
    match rr_LoadWindow result with
    | Some obs =>
        if feq (cl_RuntimeSeconds out) fzero && negb (String.eqb (rr_LoadTestStopped result) "") &&
           loadWindowAccepted (Some obs) then from_window obs out else out
    | None => out
    end in
  compare_catalyst (rr_Overall result) (fill_rates out).

Definition summarizeCorrectedLoadTest (result : runResult) : option correctedLoadTest :=
  match usableRawTxSummary result, rr_StorageSignals result with
  | None, [] => if os_TotalTransactions (rr_Overall result) =? 0 then None else Some (corrected result)
  | _, _ => Some (corrected result)
  end.

(** ** Counts and rates of a report *)
Record load_figures := { lf_included : Z; lf_successful : Z; lf_runtime : float; lf_tps : float }.

Definition loadCounts (result : runResult) : load_figures :=
  let overall := rr_Overall result in
  let runtime := Seconds (os_Runtime overall) in
  match rr_CorrectedLoadTest result with
  | Some c => {| lf_included := cl_IncludedTransactions c; lf_successful := cl_SuccessfulTransactions c;
                 lf_runtime := cl_RuntimeSeconds c; lf_tps := cl_TPS c |}
  | None =>
      match usableRawTxSummary result with
      | Some raw =>
          if flt fzero (as_TPS raw) then
            {| lf_included := as_Found raw; lf_successful := as_Successful raw;
               lf_runtime := if feq runtime fzero && (0 <? as_Successful raw)
                             then float64_div (float64 (as_Successful raw)) (as_TPS raw) else runtime;
               lf_tps := as_TPS raw |}
          else {| lf_included := as_Found raw; lf_successful := as_Successful raw; lf_runtime := runtime;
                  lf_tps := os_TPS overall |}
      | None => {| lf_included := os_TotalIncludedTransactions overall; lf_successful := os_SuccessfulTransactions overall;
                   lf_runtime := runtime; lf_tps := os_TPS overall |}
      end
  end.

Definition loadRuntimeSeconds (result : runResult) : float := lf_runtime (loadCounts result).

Definition intendedTransactions (isEVM : bool) (spec : LoadTestSpec) : Z :=
  if isEVM then
    let totalPerBatch := foldl (fun n msg => to_int64 (n + Z.max 1 (lm_NumMsgs msg))) 0 (sp_Msgs spec) in
    if 0 <? sp_NumOfBlocks spec then to_int64 (sp_NumOfBlocks spec * totalPerBatch)
    else to_int64 (sp_NumBatches spec * totalPerBatch)
  else if (0 <? sp_NumOfBlocks spec) && (0 <? sp_NumOfTxs spec) then to_int64 (sp_NumOfBlocks spec * sp_NumOfTxs spec)
  else 0.

Definition effectiveOperations (spec : LoadTestSpec) (successfulTxs : Z) : Z * string :=
  match sp_Msgs spec with
  | [] => (0, "")
  | msg :: _ =>
      let iterations := Z.max 1 (lm_NumOfIterations msg) in
      let calldataSize := Z.max 1 (lm_CalldataSize msg) in
      let recipients := Z.max 1 (lm_NumOfRecipients msg) in
      let messages := Z.max 1 (lm_NumMsgs msg) in
      let times := "successful transactions * " in
      if successfulTxs =? 0 then (0, "")
      else if String.eqb (lm_Type msg) "MsgWriteTo" then
        (to_int64 (successfulTxs * iterations), times +:+ itoa iterations +:+ " storage-write iterations")
      else if String.eqb (lm_Type msg) "MsgCrossContractCall" then
        (to_int64 (successfulTxs * iterations), times +:+ itoa iterations +:+ " cross-contract storage iterations")
      else if String.eqb (lm_Type msg) "MsgCallDataBlast" then
        (to_int64 (successfulTxs * calldataSize), times +:+ itoa calldataSize +:+ " calldata bytes processed")
      else if String.eqb (lm_Type msg) "MsgMultiSend" then
        (to_int64 (successfulTxs * recipients), times +:+ itoa recipients +:+ " MsgMultiSend recipients")
      else if String.eqb (lm_Type msg) "MsgArr" then
        if String.eqb (lm_ContainedType msg) "MsgMultiSend" then
          (to_int64 (to_int64 (successfulTxs * messages) * recipients),
           times +:+ itoa messages +:+ " contained messages * " +:+ itoa recipients +:+ " MsgMultiSend recipients")
        else (to_int64 (successfulTxs * messages), times +:+ itoa messages +:+ " contained messages")
      else (0, "")
  end.

Record derivedMetrics := {
  dm_IntendedTransactions : Z;
  dm_IncludedFraction : float;
  dm_SuccessfulFraction : float;
  dm_RuntimeIncludedTPS : float;
  dm_WallIncludedTPS : float;
  dm_LoadPhaseWallIncludedTPS : float;
  dm_LoadWindowIncludedTPS : float;
  dm_EffectiveOperations : Z;
  dm_RuntimeEffectiveOperationsPerSec : float;
  dm_WallEffectiveOperationsPerSec : float;
  dm_LoadPhaseEffectiveOperationsPerSec : float;
  dm_LoadWindowEffectiveOperationsPerSec : float;
  dm_EffectiveOperationNote : string
}.

(** [float64(n) / seconds] where [seconds] is positive, else zero. *)
Definition per_second (n : Z) (seconds : float) : float :=
  if flt fzero seconds then float64_div (float64 n) seconds else fzero.

(** The window's figure where it has one. *)
Definition window_count (count : loadWindowObservation -> Z) (window : option loadWindowObservation) (otherwise : Z) : Z :=
  match window with Some obs => if 0 <? count obs then count obs else otherwise | None => otherwise end.

(** The seconds of an accepted window, else zero. *)
Definition window_seconds (window : option loadWindowObservation) : float :=
  match window with Some obs => if loadWindowAccepted window then ob_Seconds obs else fzero | None => fzero end.

Definition deriveMetrics (isEVM : bool) (spec : LoadTestSpec) (result : runResult) : derivedMetrics :=
  let figures := loadCounts result in
  let included := lf_included figures in
  let window := rr_LoadWindow result in
  let intended := intendedTransactions isEVM spec in
  let fraction n := if 0 <? intended then float64_div (float64 n) (float64 intended) else fzero in
  let phase := phaseSeconds (rr_PhaseTimeline result) "run_load_test" in
  let '(ops, note) := effectiveOperations spec (lf_successful figures) in
  let windowOps := (effectiveOperations spec (window_count SuccessfulTransactions window (lf_successful figures))).1 in
  let some_ops := 0 <? ops in
  {| dm_IntendedTransactions := intended; dm_IncludedFraction := fraction included;
     dm_SuccessfulFraction := fraction (lf_successful figures); dm_RuntimeIncludedTPS := lf_tps figures;
     dm_WallIncludedTPS := per_second included (rr_WallSeconds result);
     dm_LoadPhaseWallIncludedTPS := per_second included phase;
     dm_LoadWindowIncludedTPS := per_second (window_count IncludedTransactions window included) (window_seconds window);
     dm_EffectiveOperations := if some_ops then ops else 0;
     dm_RuntimeEffectiveOperationsPerSec := if some_ops then per_second ops (lf_runtime figures) else fzero;
     dm_WallEffectiveOperationsPerSec := if some_ops then per_second ops (rr_WallSeconds result) else fzero;
     dm_LoadPhaseEffectiveOperationsPerSec := if some_ops then per_second ops phase else fzero;
     dm_LoadWindowEffectiveOperationsPerSec :=
       if some_ops && (0 <? windowOps) then per_second windowOps (window_seconds window) else fzero;
     dm_EffectiveOperationNote := if some_ops then note else "" |}.

(** ** Where the time of a run went *)
Record runtimeBreakdown := {
  rb_Name : string;
  rb_WallSeconds : float;
  rb_LaunchSeconds : float;
  rb_WorkloadRuntimeSeconds : float;
  rb_PostLaunchNonWorkloadSeconds : float;
  rb_ABCIObservedSeconds : float;
  rb_ABCICommitSeconds : float;
  rb_ABCIFinalizeBlockSeconds : float;
  rb_ABCICheckTxSeconds : float;
  rb_ABCIProposalSeconds : float;
  rb_ABCIQuerySeconds : float;
  rb_ABCIFlushSeconds : float;
  rb_ABCIOtherSeconds : float;
  rb_NonABCIWorkloadSeconds : float;
  rb_CommitPctOfWorkload : float;
  rb_FinalizeBlockPctOfWorkload : float;
  rb_CommitPlusFinalizePctOfWorkload : float;
  rb_ObservedABCIPctOfWorkload : float;
  rb_NonABCIPctOfWorkload : float;
  rb_MaxRuntimeSpeedupIfCommitFree : float;
  rb_MaxRuntimeSpeedupIfCommitHalf : float
}.

Definition workload_runtime (result : runResult) : float :=
  let runtime := loadRuntimeSeconds result in
  match usableRawTxSummary result with
  | Some raw =>
      if feq runtime fzero && flt fzero (as_TPS raw) then float64_div (float64 (as_Successful raw)) (as_TPS raw) else runtime
  | None => runtime
  end.

Definition breakdown (result : runResult) (signal : storageSignal) : runtimeBreakdown :=
  let workload := workload_runtime result in
  let some := flt fzero workload in
  let percent x := if some then float64_div (float64_mul hundred x) workload else fzero in
  let other := if some then nonNegative (fsub workload (ss_ABCIObservedSeconds signal)) else fzero in
  let commit := ss_ABCICommitSeconds signal in
  let halfCommit := float64_div commit (float64 2) in
  let speedup saved := if some && flt saved workload then float64_div workload (fsub workload saved) else fzero in
  {| rb_Name := ss_Name signal; rb_WallSeconds := rr_WallSeconds result; rb_LaunchSeconds := rr_LaunchSeconds result;
     rb_WorkloadRuntimeSeconds := workload;
     rb_PostLaunchNonWorkloadSeconds :=
       nonNegative (fsub (fsub (rr_WallSeconds result) (rr_LaunchSeconds result)) workload);
     rb_ABCIObservedSeconds := ss_ABCIObservedSeconds signal; rb_ABCICommitSeconds := commit;
     rb_ABCIFinalizeBlockSeconds := ss_ABCIFinalizeBlockSeconds signal;
     rb_ABCICheckTxSeconds := ss_ABCICheckTxSeconds signal;
     rb_ABCIProposalSeconds := fadd (ss_ABCIPrepareProposalSeconds signal) (ss_ABCIProcessProposalSeconds signal);
     rb_ABCIQuerySeconds := ss_ABCIQuerySeconds signal; rb_ABCIFlushSeconds := ss_ABCIFlushSeconds signal;
     rb_ABCIOtherSeconds := ss_ABCIOtherSeconds signal; rb_NonABCIWorkloadSeconds := other;
     rb_CommitPctOfWorkload := percent commit;
     rb_FinalizeBlockPctOfWorkload := percent (ss_ABCIFinalizeBlockSeconds signal);
     rb_CommitPlusFinalizePctOfWorkload := percent (fadd commit (ss_ABCIFinalizeBlockSeconds signal));
     rb_ObservedABCIPctOfWorkload := percent (ss_ABCIObservedSeconds signal); rb_NonABCIPctOfWorkload := percent other;
     rb_MaxRuntimeSpeedupIfCommitFree := speedup commit; rb_MaxRuntimeSpeedupIfCommitHalf := speedup halfCommit |}.

Definition summarizeRuntimeBreakdown (result : runResult) : list runtimeBreakdown :=
  map (breakdown result) (rr_StorageSignals result).
End catalyst.

(** ** Properties *)
Definition found (audits : list txAudit) : Z := Z.of_nat (length (List.filter ta_Found audits)).
Definition executed (audits : list txAudit) : Z :=
  Z.of_nat (length (List.filter (fun a => ta_Found a && (ta_Code a =? 0)) audits)).
Definition failed (audits : list txAudit) : Z :=
  Z.of_nat (length (List.filter (fun a => ta_Found a && negb (ta_Code a =? 0)) audits)).

Lemma add_audit_run audits s :
  let s' := foldl add_audit s audits in
  as_Queried s' = as_Queried s /\ as_Found s' = as_Found s + found audits /\
  as_Successful s' = as_Successful s + executed audits /\ as_Failed s' = as_Failed s + failed audits.
Proof.
  unfold found, executed, failed. revert s. induction audits as [|a audits IH]; intros s; cbn zeta; [cbn; lia|].
  cbn [foldl List.filter]. destruct (IH (add_audit s a)) as (-> & -> & -> & ->). unfold add_audit.
  destruct (ta_Found a), (ta_Code a =? 0); cbn; lia.
Qed.

Lemma audits_add_up audits : executed audits + failed audits = found audits /\ found audits <= Z.of_nat (length audits).
Proof.
  unfold found, executed, failed. induction audits as [|a audits [IH1 IH2]]; [done|]. cbn [List.filter].
  destruct (ta_Found a), (ta_Code a =? 0); cbn [andb negb length]; lia.
Qed.

Lemma summarizeTxAudit_counts audits runtime summary : summarizeTxAudit audits runtime = Some summary ->
  audits <> [] /\ as_Queried summary = Z.of_nat (length audits) /\ as_Found summary = found audits /\
  as_Successful summary = executed audits /\ as_Failed summary = failed audits.
Proof.
  unfold summarizeTxAudit. destruct audits as [|a audits]; [discriminate|]. intros H. apply Some_inj in H as <-.
  cbn [as_Queried as_Found as_Successful as_Failed].
  destruct (add_audit_run (a :: audits) {| as_Queried := Z.of_nat (length (a :: audits)); as_Found := 0; as_Successful := 0;
    as_Failed := 0; as_TotalGasUsed := 0; as_TPS := fzero |}) as (-> & -> & -> & ->). by split_and!.
Qed.

Lemma int_of_float_lt x : int_of_float x < 2^63.
Proof.
  unfold int_of_float. destruct x as [[]|[]| |s m e]; try lia.
  destruct (Z.leb_spec (-2^63) (if s then - (if 0 <=? e then Z.shiftl (Z.pos m) e else Z.shiftr (Z.pos m) (- e))
                               else if 0 <=? e then Z.shiftl (Z.pos m) e else Z.shiftr (Z.pos m) (- e))); cbn [andb]; [|lia].
  destruct (Z.ltb_spec (if s then - (if 0 <=? e then Z.shiftl (Z.pos m) e else Z.shiftr (Z.pos m) (- e))
                               else if 0 <=? e then Z.shiftl (Z.pos m) e else Z.shiftr (Z.pos m) (- e)) (2^63)); lia.
Qed.

Lemma roundedMetricCount_lt x : roundedMetricCount x < 2^63.
Proof. unfold roundedMetricCount. destruct (fle x fzero); [lia|apply int_of_float_lt]. Qed.

Lemma largest_lt l : Forall (fun n => n < 2^63) l -> largest l < 2^63.
Proof. unfold largest. induction 1; cbn; lia. Qed.

Lemma counts_lt signals :
  largest (flat_map included_counts signals ++ flat_map successful_counts signals) < 2^63.
Proof.
  apply largest_lt, Forall_app. split; apply Forall_flat_map, Forall_true; intros signal;
    apply Forall_map, Forall_true; intros; apply roundedMetricCount_lt.
Qed.

Section catalyst.
Context `{Cat : Catalyst}.

(** A run stopped before catalyst had a result, in an accepted window. *)
Definition from_accepted_window (result : runResult) : option loadWindowObservation :=
  if (os_Runtime (rr_Overall result) =? 0) && negb (String.eqb (rr_LoadTestStopped result) "") &&
     loadWindowAccepted (rr_LoadWindow result) then rr_LoadWindow result else None.

(** What the counts of a report are, by where they come from. *)
Definition explained_counts (result : runResult) (audits : list txAudit) (out : correctedLoadTest) : Prop :=
  let overall := rr_Overall result in
  let included := largest (flat_map included_counts (rr_StorageSignals result) ++ flat_map successful_counts (rr_StorageSignals result)) in
  let successful := largest (flat_map successful_counts (rr_StorageSignals result)) in
  match from_accepted_window result with
  | Some obs =>
      cl_TotalTransactions out = IncludedTransactions obs /\ cl_IncludedTransactions out = IncludedTransactions obs /\
      cl_SuccessfulTransactions out = SuccessfulTransactions obs /\
      cl_FailedTransactions out = IncludedTransactions obs - SuccessfulTransactions obs
  | None =>
      if negb (String.eqb (rr_TxIndexer result) "null") && negb (Nat.eqb (length audits) 0) then
        cl_Source out = "raw_tx_audit" /\ cl_TotalTransactions out = Z.of_nat (length audits) /\
        cl_IncludedTransactions out = found audits /\ cl_SuccessfulTransactions out = executed audits /\
        cl_FailedTransactions out = failed audits
      else if shouldUseAppMetricLoadCounts overall included successful then
        cl_Source out = "app_metrics" /\ cl_TotalTransactions out = Z.max (os_TotalTransactions overall) included /\
        cl_IncludedTransactions out = included /\ cl_SuccessfulTransactions out = successful /\
        cl_FailedTransactions out = cl_TotalTransactions out - successful
      else
        cl_Source out = "catalyst" /\ cl_TotalTransactions out = os_TotalTransactions overall /\
        cl_IncludedTransactions out = os_TotalIncludedTransactions overall /\
        cl_SuccessfulTransactions out = os_SuccessfulTransactions overall /\
        cl_FailedTransactions out = os_FailedTransactions overall
  end.

(** The four counts and the source, which notes and rates leave alone. *)
Definition same_counts (out out' : correctedLoadTest) : Prop :=
  cl_Source out = cl_Source out' /\ cl_TotalTransactions out = cl_TotalTransactions out' /\
  cl_IncludedTransactions out = cl_IncludedTransactions out' /\
  cl_SuccessfulTransactions out = cl_SuccessfulTransactions out' /\ cl_FailedTransactions out = cl_FailedTransactions out'.

Lemma to_int64_sub a b : 0 <= a < 2^63 -> 0 <= b < 2^63 -> to_int64 (a - b) = a - b.
Proof. intros. unfold to_int64. rewrite Z.mod_small; lia. Qed.

Lemma nonNegativeInt_pos n : 0 <= n -> nonNegativeInt n = n.
Proof. intros. unfold nonNegativeInt. destruct (Z.ltb_spec n 0); lia. Qed.

Lemma counted_runtime result : cl_RuntimeSeconds (counted_load result) = Seconds (os_Runtime (rr_Overall result)).
Proof.
  unfold counted_load. destruct (appMetricLoadCounts _) as [[[i s] c] ok].
  destruct (usableRawTxSummary result) as [raw|]; [destruct (0 <? as_Queried raw); [done|]|];
    by destruct (ok && shouldUseAppMetricLoadCounts (rr_Overall result) i s).
Qed.

Lemma counted_load_counts result audits runtime : rr_RawTxSummary result = summarizeTxAudit audits runtime ->
  0 <= os_TotalTransactions (rr_Overall result) < 2^63 -> from_accepted_window result = None ->
  explained_counts result audits (counted_load result).
Proof.
  intros Haudits Htotal Hw. unfold explained_counts. rewrite Hw. unfold counted_load, usableRawTxSummary.
  pose proof (appMetricLoadCounts_counts (rr_StorageSignals result)) as Hc. pose proof (counts_lt (rr_StorageSignals result)) as Hlt.
  destruct (appMetricLoadCounts _) as [[[i s] c] ok]. destruct Hc as (Es & Ei & Hle & Hok). rewrite <- Ei in Hlt. rewrite <- Es, <- Ei.
  assert (ok && shouldUseAppMetricLoadCounts (rr_Overall result) i s = shouldUseAppMetricLoadCounts (rr_Overall result) i s) as ->.
  { unfold shouldUseAppMetricLoadCounts. destruct ok; [done|]. destruct (Z.leb_spec i 0), (Z.leb_spec s 0); try done; exfalso.
    1: lia. all: by assert (false = true) by (apply Hok; lia). }
  assert (Hmetrics : negb (String.eqb (rr_TxIndexer result) "null") && negb (Nat.eqb (length audits) 0) = false ->
    explained_counts result audits (if shouldUseAppMetricLoadCounts (rr_Overall result) i s
      then from_metrics i s c (from_catalyst (rr_Overall result)) else from_catalyst (rr_Overall result))).
  { intros Hno. unfold explained_counts. rewrite Hw, Hno, <- Es, <- Ei. destruct (shouldUseAppMetricLoadCounts _ _ _); [|done].
    unfold from_metrics. cbn [cl_Source cl_TotalTransactions cl_IncludedTransactions cl_SuccessfulTransactions cl_FailedTransactions
      from_catalyst]. set (total := os_TotalTransactions (rr_Overall result)) in *.
    destruct (Z.ltb_spec total i); [destruct (Z.ltb_spec i s)|destruct (Z.ltb_spec total s)]; try lia;
      rewrite to_int64_sub, nonNegativeInt_pos by lia; split_and!; try done; lia. }
  unfold explained_counts in Hmetrics. rewrite Hw, <- Es, <- Ei in Hmetrics. rewrite Haudits.
  destruct (String.eqb (rr_TxIndexer result) "null"); [by apply Hmetrics|].
  destruct (summarizeTxAudit audits runtime) as [raw|] eqn:Hraw.
  - apply summarizeTxAudit_counts in Hraw as (Hne & Hq & Hf & He & Hfail).
    destruct audits as [|a audits]; [done|]. rewrite Hq. rewrite (proj2 (Z.ltb_lt 0 _)) by (cbn [length]; lia).
    cbn [length Nat.eqb negb andb]. unfold from_audit. cbn. split_and!; done.
  - destruct audits as [|a audits]; [by apply Hmetrics|done].
Qed.

Lemma same_counts_explained result audits out out' :
  same_counts out out' -> explained_counts result audits out' -> explained_counts result audits out.
Proof.
  unfold same_counts, explained_counts. destruct out, out'. cbn. intros (-> & -> & -> & -> & ->). done.
Qed.

Lemma corrected_counts result audits runtime :
  rr_RawTxSummary result = summarizeTxAudit audits runtime ->
  0 <= os_TotalTransactions (rr_Overall result) < 2^63 -> 0 <= os_Runtime (rr_Overall result) < 2^63 ->
  (forall obs, rr_LoadWindow result = Some obs -> loadWindowAccepted (Some obs) = true ->
     1 <= SuccessfulTransactions obs <= IncludedTransactions obs /\ IncludedTransactions obs < 2^63) ->
  explained_counts result audits (corrected result).
Proof.
  intros Haudits Htotal Hruntime Hwindow. unfold corrected. cbv zeta.
  set (noted := if String.eqb _ "" then counted_load result else _).
  assert (same_counts noted (counted_load result) /\ cl_RuntimeSeconds noted = Seconds (os_Runtime (rr_Overall result))) as [Hnoted Hrun].
  { rewrite <- counted_runtime. unfold noted. by destruct (String.eqb _ ""). }
  apply (same_counts_explained _ _ _ (match from_accepted_window result with Some obs => from_window obs noted | None => noted end)).
  { rewrite Hrun, Seconds_eq by lia. unfold from_accepted_window.
    destruct (rr_LoadWindow result) as [obs|]; [|by destruct (_ && _)]. by destruct (_ && loadWindowAccepted (Some obs)). }
  destruct (from_accepted_window result) as [obs|] eqn:Hw.
  - assert (rr_LoadWindow result = Some obs /\ loadWindowAccepted (Some obs) = true) as [Hobs Hacc].
    { unfold from_accepted_window in Hw. destruct (_ && _) eqn:Hc; [|done]. rewrite Hw in Hc. split; [done|].
      by apply andb_true_iff in Hc as [_ Hc]. }
    destruct (Hwindow obs Hobs Hacc) as [[Hs Hi] Hlt]. unfold explained_counts. rewrite Hw. unfold from_window.
    rewrite (proj2 (Z.ltb_lt 0 (IncludedTransactions obs))), (proj2 (Z.ltb_lt 0 (SuccessfulTransactions obs))) by lia.
    cbn [cl_TotalTransactions cl_IncludedTransactions cl_SuccessfulTransactions cl_FailedTransactions].
    destruct (Z.ltb_spec (IncludedTransactions obs) (SuccessfulTransactions obs)); [lia|].
    rewrite (proj2 (Z.ltb_lt 0 (IncludedTransactions obs))) by lia. rewrite to_int64_sub, nonNegativeInt_pos by lia. done.
  - apply (same_counts_explained _ _ _ _ Hnoted). by eapply counted_load_counts.
Qed.

Lemma explained_add_up result audits out :
  (forall obs, rr_LoadWindow result = Some obs -> loadWindowAccepted (Some obs) = true ->
     1 <= SuccessfulTransactions obs <= IncludedTransactions obs /\ IncludedTransactions obs < 2^63) ->
  cl_Source out <> "catalyst" \/ is_Some (from_accepted_window result) ->
  explained_counts result audits out ->
  0 <= cl_SuccessfulTransactions out <= cl_IncludedTransactions out /\
  cl_IncludedTransactions out <= cl_TotalTransactions out /\ 0 <= cl_FailedTransactions out /\
  (cl_SuccessfulTransactions out + cl_FailedTransactions out = cl_IncludedTransactions out \/
   cl_SuccessfulTransactions out + cl_FailedTransactions out = cl_TotalTransactions out).
Proof.
  intros Hwindow Hsource. unfold explained_counts. destruct (from_accepted_window result) as [obs|] eqn:Hw.
  - unfold from_accepted_window in Hw. destruct (_ && _) eqn:Hc; [|done]. rewrite Hw in Hc.
    apply andb_true_iff in Hc as [_ Hc]. destruct (Hwindow obs Hw Hc). intros (-> & -> & -> & ->). lia.
  - destruct Hsource as [Hsource|[? ?]]; [|done]. destruct (_ && _).
    + intros (_ & -> & -> & -> & ->). destruct (audits_add_up audits). unfold executed, failed in *. lia.
    + destruct (shouldUseAppMetricLoadCounts _ _ _); [|by intros [? _]]. intros (_ & Ht & -> & -> & ->). rewrite Ht.
      pose proof (appMetricLoadCounts_counts (rr_StorageSignals result)) as Hcounts.
      destruct (appMetricLoadCounts _) as [[[i s] c] ok]. destruct Hcounts as (<- & <- & Hle & _). lia.
Qed.

(** C16: the corrected counts of a report come from one source each run: from
    the accepted load window when catalyst was stopped before it had a result,
    else from the audit of the transactions' hashes when there was one, else
    from the nodes' counters when they are to be preferred, else from
    catalyst.  Outside catalyst's own figures successful transactions are
    included ones and included ones are in the total, none is negative, and
    the ones that failed make up the rest: of the included for an audit, of
    the total otherwise.  The report says there is a mismatch exactly when one
    of catalyst's figures differs. *)
Theorem summarizeCorrectedLoadTest_counts result audits runtime out :
  rr_RawTxSummary result = summarizeTxAudit audits runtime ->
  0 <= os_TotalTransactions (rr_Overall result) < 2^63 -> 0 <= os_Runtime (rr_Overall result) < 2^63 ->
  (forall obs, rr_LoadWindow result = Some obs -> loadWindowAccepted (Some obs) = true ->
     1 <= SuccessfulTransactions obs <= IncludedTransactions obs /\ IncludedTransactions obs < 2^63) ->
  summarizeCorrectedLoadTest result = Some out ->
  explained_counts result audits out /\
  (cl_Source out <> "catalyst" \/ is_Some (from_accepted_window result) ->
     0 <= cl_SuccessfulTransactions out <= cl_IncludedTransactions out /\
     cl_IncludedTransactions out <= cl_TotalTransactions out /\ 0 <= cl_FailedTransactions out /\
     (cl_SuccessfulTransactions out + cl_FailedTransactions out = cl_IncludedTransactions out \/
      cl_SuccessfulTransactions out + cl_FailedTransactions out = cl_TotalTransactions out)) /\
  (cl_CatalystMismatch out = true <->
     os_TotalIncludedTransactions (rr_Overall result) <> cl_IncludedTransactions out \/
     os_SuccessfulTransactions (rr_Overall result) <> cl_SuccessfulTransactions out \/
     os_FailedTransactions (rr_Overall result) <> cl_FailedTransactions out).
Proof.
  intros Haudits Htotal Hruntime Hwindow Hout. assert (out = corrected result) as ->.
  { unfold summarizeCorrectedLoadTest in Hout. destruct (usableRawTxSummary result), (rr_StorageSignals result);
      try (by apply Some_inj in Hout). destruct (_ =? 0); [done|]. by apply Some_inj in Hout. }
  clear Hout. assert (Hexp : explained_counts result audits (corrected result)) by by eapply corrected_counts.
  split_and!; [done| |].
  - intros Hsource. revert Hsource Hexp. generalize (corrected result). intros out Hsource. by eapply explained_add_up.
  - unfold corrected. cbn zeta. cbn [cl_CatalystMismatch compare_catalyst cl_IncludedTransactions cl_SuccessfulTransactions cl_FailedTransactions].
    unfold mismatch. rewrite !orb_true_iff, !negb_true_iff, !Z.eqb_neq. tauto.
Qed.
End catalyst.

(** A result and a specification with the fields the runner reads. *)
Definition demo_catalyst : Catalyst :=
  {| OverallStats := Z * Z * Z * Z * Z;
     os_TotalTransactions := fun o => o.1.1.1.1; os_TotalIncludedTransactions := fun o => o.1.1.1.2;
     os_SuccessfulTransactions := fun o => o.1.1.2; os_FailedTransactions := fun o => o.1.2; os_Runtime := fun o => o.2;
     os_TPS := fun _ => fzero;
     LoadTestMsg := string * Z; lm_Type := fst; lm_ContainedType := fun _ => ""; lm_NumMsgs := snd;
     lm_NumOfIterations := snd; lm_CalldataSize := snd; lm_NumOfRecipients := snd;
     LoadTestSpec := list (string * Z); sp_Msgs := fun l => l; sp_NumOfBlocks := fun _ => 10; sp_NumOfTxs := fun _ => 5;
     sp_NumBatches := fun _ => 0 |}.
#[local] Existing Instance demo_catalyst.

Definition demo_audit (found_ : bool) (code : Z) : txAudit :=
  {| ta_Hash := "AB"; ta_RPC := ""; ta_Found := found_; ta_Height := 7; ta_Code := code; ta_GasUsed := 21000; ta_Error := "" |}.
Definition demo_audits : list txAudit := [demo_audit true 0; demo_audit true 5; demo_audit false 0; demo_audit true 0].
Definition demo_result : runResult :=
  {| rr_TxIndexer := "kv"; rr_WallSeconds := float64 20; rr_LaunchSeconds := float64 5; rr_PhaseTimeline := [];
     rr_StorageSignals := []; rr_LoadWindow := None; rr_Overall := (4, 0, 0, 4, 2 * Second); rr_LoadTestStopped := "";
     rr_RawTxSummary := summarizeTxAudit demo_audits (2 * Second); rr_RawTxAuditSkipped := ""; rr_CorrectedLoadTest := None |}.

Lemma summarizeCorrectedLoadTest_counts_witness : exists out,
  summarizeCorrectedLoadTest demo_result = Some out /\ cl_SuccessfulTransactions out = 2 /\ cl_FailedTransactions out = 1 /\
  cl_IncludedTransactions out = 3 /\ cl_TotalTransactions out = 4 /\ cl_CatalystMismatch out = true.
Proof.
  destruct (summarizeCorrectedLoadTest_counts demo_result demo_audits (2 * Second) (corrected demo_result))
    as ((Hs & Ht & Hi & Hok & Hf) & _ & Hm); [reflexivity|split; [discriminate|reflexivity]|split; [discriminate|reflexivity]|
    intros obs Hobs; discriminate Hobs|reflexivity|].
  exists (corrected demo_result). split; [reflexivity|]. rewrite Hok, Hf, Hi, Ht. split; [reflexivity|]. split; [reflexivity|].
  split; [reflexivity|]. split; [reflexivity|]. apply Hm. left. rewrite Hi. discriminate.
Defined.

(** The operations of a multi-send and what the messages intend. *)
Example derived_operations :
  let derived := deriveMetrics false [("MsgMultiSend", 3)] demo_result in
  dm_IntendedTransactions derived = 50 /\ dm_EffectiveOperations derived = 6 /\
  dm_EffectiveOperationNote derived = "successful transactions * 3 MsgMultiSend recipients" /\
  dm_RuntimeIncludedTPS derived = float64 1.
Proof. vm_compute. done. Qed.
