(* ===== verification/RunnerAudit.v ===== *)
(** * The report runner's transaction audit: [cmd/local-report-runner/main.go]

    The hashes in the load generator's logs, looked up one by one at the RPC
    addresses of the nodes.  [docker] and the HTTP queries are the calls; a
    query is answered with the decoded JSON body, or with the error of the
    request, the connection or the decoder. *)

From stdpp Require Import sorting.
From S2P Require Import Prelude GoStrings GoVal GoTime GoFloat GoText RunnerWindows RunnerCounts.
From Stdlib Require Import Ascii.

(** ** Hashes in a text *)
Definition upper_hex (c : ascii) : bool := ((48 <=? code c) && (code c <=? 57)) || ((65 <=? code c) && (code c <=? 70)).
(** The characters of a word, for the boundaries of the pattern. *)
Definition word_char (c : ascii) : bool :=
  ((48 <=? code c) && (code c <=? 57)) || ((65 <=? code c) && (code c <=? 90)) || ((97 <=? code c) && (code c <=? 122)) ||
  (code c =? 95).

Definition starts_word (s : string) : bool := match s with String c _ => word_char c | EmptyString => false end.

(** Sixty-four digits and no word character behind them. *)
Definition hash_at (s : string) : bool :=
  Nat.eqb (String.length (str_take 64 s)) 64 && str_all upper_hex (str_take 64 s) && negb (starts_word (str_drop 64 s)).

(** The matches from here on: [skip] characters belong to the last match, and
    [prev] says whether the character before is one of a word. *)
Fixpoint hashes_from (skip : nat) (prev : bool) (s : string) : list string :=
  match s with
  | EmptyString => []
  | String c s' =>
      match skip with
      | Datatypes.S k => hashes_from k (word_char c) s'
      | O =>
          if negb prev && hash_at s then str_take 64 s :: hashes_from 63 (word_char c) s'
          else hashes_from 0 (word_char c) s'
      end
  end.

Definition add_unseen (hashes : list string) (hash : string) : list string :=
  if existsb (String.eqb hash) hashes then hashes else hashes ++ [hash].

Definition txHashesFromLogs (logs : string) : list string := foldl add_unseen [] (hashes_from 0 false logs).

(** ** Calls *)
Inductive audit_call :=
| DockerNames (filter : string)               (* docker ps --filter name=... *)
| DockerRPCPort (name : string)               (* docker inspect, the host's port of 26657 *)
| GetJSON (url : string).
Definition audit_ans (c : audit_call) : Type :=
  match c with DockerNames _ | DockerRPCPort _ => option string | GetJSON _ => gomap + string end.
Canonical audit_sig : sig := Sig audit_call audit_ans.
Abbreviation AuditM := (M audit_sig unit).

Fixpoint TrimRightSlash (s : string) : string :=
  if str_all (fun c => Ascii.eqb c (ascii_of_nat 47)) s then ""
  else match s with EmptyString => "" | String c s' => String c (TrimRightSlash s') end.

Section audit.
Variable Sprint : GoVal -> string.

(** [strconv.ParseInt]'s number, also out of range. *)
Definition int64_text (s : string) : Z :=
  let '(neg, digits) := skip_char 45 s in
  let digits := if neg then digits else (skip_char 43 s).2 in
  if String.eqb digits "" then 0
  else match parse_digits 0 digits with Some n => clamp_int64 (if neg then - n else n) | None => 0 end.

(** A number decoded from JSON is a [float64]. *)
Definition int64FromAny (v : option GoVal) : Z :=
  match v with
  | Some (VFloat repr) => int_of_float (default fzero (ParseFloat repr))
  | Some (VStr s) => int64_text s
  | _ => 0
  end.

Definition map_of (v : option GoVal) : option gomap := match v with Some (VMap m) => Some m | _ => None end.

Definition no_audit (hash rpc err : string) : txAudit :=
  {| ta_Hash := hash; ta_RPC := rpc; ta_Found := false; ta_Height := 0; ta_Code := 0; ta_GasUsed := 0; ta_Error := err |}.

Definition answered_audit (hash rpc : string) (answer : gomap + string) : txAudit :=
  match answer with
  | inr err => no_audit hash rpc err
  | inl body =>
      match lookup_map body "error" with
      | Some errVal => no_audit hash rpc (Sprint errVal)
      | None =>
          match map_of (lookup_map body "result") with
          | None => no_audit hash rpc "missing result"
          | Some result =>
              match map_of (lookup_map result "tx_result") with
              | None => no_audit hash rpc "missing tx_result"
              | Some txResult =>
                  {| ta_Hash := hash; ta_RPC := rpc; ta_Found := true;
                     ta_Height := int64FromAny (lookup_map result "height");
                     ta_Code := int64FromAny (lookup_map txResult "code") mod 2^32;
                     ta_GasUsed := int64FromAny (lookup_map txResult "gas_used"); ta_Error := "" |}
              end
          end
      end
  end.

Definition tx_url (rpc hash prefix : string) : string := TrimRightSlash rpc +:+ "/tx?hash=" +:+ prefix +:+ hash.

Definition queryRawTxOnce (rpc hash prefix : string) : AuditM txAudit :=
  let* answer := perform (GetJSON (tx_url rpc hash prefix)) in
  retM (answered_audit hash rpc answer).

(** The prefixes in turn, until one is found or fails for another reason. *)
Fixpoint query_prefixes (rpc hash : string) (prefixes : list string) : AuditM txAudit :=
  match prefixes with
  | [] => retM (no_audit hash rpc "not found")
  | prefix :: prefixes' =>
      let* audit := queryRawTxOnce rpc hash prefix in
      if ta_Found audit then retM audit
      else if negb (String.eqb (ta_Error audit) "") && negb (Contains (ta_Error audit) "not found") then retM audit
      else query_prefixes rpc hash prefixes'
  end.
Definition queryRawTx (rpc hash : string) : AuditM txAudit := query_prefixes rpc hash ["0x"; ""].

(** ** Addresses *)
Fixpoint external_rpcs (names : list string) : AuditM (list string) :=
  match names with
  | [] => retM []
  | name :: names' =>
      if negb (Contains name "-node-") && negb (Contains name "-validator-") then external_rpcs names'
      else
        let* out := perform (DockerRPCPort name) in
        let port := TrimSpace (default "" out) in
        let* rpcs := external_rpcs names' in
        retM (match out with
              | Some _ => if String.eqb port "" || String.eqb port "<no value>" then rpcs
                          else ("http://127.0.0.1:" +:+ port) :: rpcs
              | None => rpcs
              end)
  end.

Definition dockerExternalRPCs (providerName chainName : string) : AuditM (list string) :=
  let* out := perform (DockerNames (providerName +:+ "-" +:+ chainName +:+ "-")) in
  match out with
  | None => retM []
  | Some names => external_rpcs (Fields names)
  end.

(** The addresses of the result's map, in the order of its range, are all different. *)
Definition candidateRPCs (providerName chainName : string) (byNode : list string) : AuditM (list string) :=
  let seen := List.filter (fun rpc => HasPrefix rpc "http://" || HasPrefix rpc "https://") byNode in
  let* external := dockerExternalRPCs providerName chainName in
  retM (merge_sort str_le (foldl add_unseen seen external)).

(** ** The audit *)

(** The loop over the addresses: the first that has the transaction, or the
    last one's answer. *)
Fixpoint search_rpcs (hash : string) (last : txAudit) (rpcs : list string) : AuditM txAudit :=
  match rpcs with
  | [] => retM last
  | rpc :: rpcs' =>
      let* audit := queryRawTx rpc hash in
      if ta_Found audit then retM audit else search_rpcs hash audit rpcs'
  end.

Definition empty_audit : txAudit := no_audit "" "" "".

Fixpoint audit_hashes (rpcs hashes : list string) : AuditM (list txAudit) :=
  match hashes with
  | [] => retM []
  | hash :: hashes' =>
      let* audit := search_rpcs hash empty_audit rpcs in
      let* audits := audit_hashes rpcs hashes' in
      retM (if ta_Found audit || negb (String.eqb (ta_Hash audit) "") then audit :: audits else audits)
  end.

Definition auditRawTxs (providerName chainName logs : string) (byNode : list string) : AuditM (list txAudit) :=
  let hashes := txHashesFromLogs logs in
  if Nat.eqb (length hashes) 0 then retM []
  else
    let* rpcs := candidateRPCs providerName chainName byNode in
    if Nat.eqb (length rpcs) 0 then retM (map (fun hash => no_audit hash "" "no RPC addresses available") hashes)
    else audit_hashes rpcs hashes.
End audit.

(** ** The hashes are the words of the text that look like one *)

(** The runs of word characters of a text, [word] being the one so far. *)
Fixpoint words_from (word s : string) : list string :=
  let done_ := if String.eqb word "" then [] else [word] in
  match s with
  | EmptyString => done_
  | String c s' => if word_char c then words_from (word +:+ String c "") s' else done_ ++ words_from "" s'
  end.
Definition words (s : string) : list string := words_from "" s.
Definition is_hash (word : string) : bool := Nat.eqb (String.length word) 64 && str_all upper_hex word.

Lemma upper_hex_word c : upper_hex c = true -> word_char c = true.
Proof. unfold upper_hex, word_char. intros H. apply orb_true_iff in H as [H|H]; apply andb_true_iff in H as [H1 H2]; lia. Qed.

(** A text is its first word and what follows it. *)
Fixpoint span_word (s : string) : string * string :=
  match s with
  | String c s' => if word_char c then let '(w, r) := span_word s' in (String c w, r) else ("", s)
  | EmptyString => ("", "")
  end.

Lemma span_word_spec s : let '(w, r) := span_word s in
  s = w +:+ r /\ str_all word_char w = true /\ starts_word r = false.
Proof.
  induction s as [|c s IH]; [done|]. cbn [span_word]. destruct (word_char c) eqn:Hc; [|done].
  destruct (span_word s) as [w r]. destruct IH as (-> & Hw & Hr). split; [done|]. split; [|done]. cbn. by rewrite Hc.
Qed.

(** What [hash_at] tests, for any number of digits. *)
Definition digits_at (n : nat) (s : string) : bool :=
  Nat.eqb (String.length (str_take n s)) n && str_all upper_hex (str_take n s) && negb (starts_word (str_drop n s)).

Lemma digits_at_word n w r : str_all word_char w = true -> starts_word r = false ->
  digits_at n (w +:+ r) = Nat.eqb (String.length w) n && str_all upper_hex w.
Proof.
  unfold digits_at. intros Hw Hr. revert n. induction w as [|c w IH]; intros n.
  - destruct n as [|n]; [cbn; by rewrite Hr|]. destruct r as [|c r]; [done|]. cbn in Hr |- *.
    destruct (upper_hex c) eqn:Hc; [by rewrite (upper_hex_word c Hc) in Hr|]. by rewrite andb_false_r.
  - cbn in Hw. apply andb_true_iff in Hw as [Hc Hw]. destruct n as [|n]; [cbn; by rewrite Hc|].
    specialize (IH Hw n). cbn. destruct (upper_hex c); [exact IH|]. by rewrite !andb_false_r.
Qed.

Lemma hashes_after_word w r : str_all word_char w = true -> starts_word r = false ->
  hashes_from 0 true (w +:+ r) = hashes_from 0 false r.
Proof.
  intros Hw Hr. induction w as [|c w IH].
  - change ("" +:+ r) with r. destruct r as [|c r]; [done|]. cbn in Hr |- *. rewrite Hr.
    pose proof (digits_at_word 64 "" (String c r) eq_refl Hr) as Hd. cbn [andb negb].
    change (hash_at (String c r)) with (digits_at 64 ("" +:+ String c r)). by rewrite Hd.
  - cbn in Hw. apply andb_true_iff in Hw as [Hc Hw]. cbn. rewrite Hc. by apply IH.
Qed.

Lemma hashes_skip k w r : String.length w = k -> (0 < k)%nat -> str_all word_char w = true -> starts_word r = false ->
  forall p, hashes_from k p (w +:+ r) = hashes_from 0 false r.
Proof.
  revert w. induction k as [|k IH]; intros w Hk Hpos Hw Hr p; [lia|]. destruct w as [|c w]; [done|].
  cbn in Hk, Hw |- *. injection Hk as Hk. apply andb_true_iff in Hw as [Hc Hw]. rewrite Hc.
  destruct k as [|k]; [|apply IH; (done || lia)]. destruct w; [|done]. by apply (hashes_after_word "").
Qed.

Lemma words_from_app word w r : str_all word_char w = true -> starts_word r = false ->
  words_from word (w +:+ r) = (if String.eqb (word +:+ w) "" then [] else [word +:+ w]) ++ words_from "" r.
Proof.
  intros Hw Hr. revert word. induction w as [|c w IH]; intros word.
  - rewrite string_app_nil_r. destruct r as [|c r]; [cbn; by rewrite app_nil_r|]. cbn in Hr |- *. by rewrite Hr.
  - cbn in Hw. apply andb_true_iff in Hw as [Hc Hw]. change (String c w +:+ r) with (String c (w +:+ r)). cbn [words_from].
    rewrite Hc, IH by done. by rewrite string_app_assoc.
Qed.

Lemma str_take_app w r : str_take (String.length w) (w +:+ r) = w.
Proof. induction w as [|c w IH]; [by destruct r|]. cbn. by rewrite IH. Qed.

Lemma hashes_words s : hashes_from 0 false s = List.filter is_hash (words s).
Proof.
  unfold words. remember (String.length s) as n eqn:Hn. revert s Hn.
  induction n as [n IH] using lt_wf_ind. intros s Hn. pose proof (span_word_spec s) as Hs.
  destruct (span_word s) as [w r]. destruct Hs as (-> & Hw & Hr). rewrite words_from_app by done.
  change ("" +:+ w) with w. destruct w as [|c w].
  - change ("" +:+ r) with r in *. destruct r as [|d r]; [done|]. cbn in Hr |- *. rewrite Hr.
    assert (hash_at (String d r) = false) as ->.
    { change (digits_at 64 ("" +:+ String d r) = false). by rewrite digits_at_word. }
    cbn in Hn. rewrite (IH (String.length r)) by (done || lia). done.
  - assert (Hrest : hashes_from 0 false r = List.filter is_hash (words_from "" r)).
    { apply (IH (String.length r)); [|done]. rewrite Hn. cbn. rewrite string_length_app. lia. }
    cbn [String.eqb app List.filter]. rewrite <- Hrest.
    pose proof (digits_at_word 64 (String c w) r Hw Hr) as Hd. unfold is_hash. rewrite <- Hd.
    cbn in Hw. apply andb_true_iff in Hw as [Hc Hw].
    change (String c w +:+ r) with (String c (w +:+ r)) in *. cbn [hashes_from negb andb]. rewrite Hc.
    change (hash_at (String c (w +:+ r))) with (digits_at 64 (String c (w +:+ r))).
    destruct (digits_at 64 (String c (w +:+ r))) eqn:E; [|by apply hashes_after_word].
    symmetry in Hd. apply andb_true_iff in Hd as [Hlen _]. apply Nat.eqb_eq in Hlen. f_equal.
    + rewrite <- Hlen. apply (str_take_app (String c w) r).
    + apply hashes_skip; [cbn in Hlen; lia|lia|done|done].
Qed.

Lemma add_unseen_spec acc l : exists k, foldl add_unseen acc l = acc ++ k /\ sublist k l /\
  (NoDup acc -> NoDup (acc ++ k)) /\ forall x, x ∈ l -> x ∈ acc ++ k.
Proof.
  revert acc. induction l as [|x l IH]; intros acc.
  - exists []. rewrite app_nil_r. split_and!; [done|constructor|done|by intros ? ?%not_elem_of_nil].
  - cbn [foldl]. unfold add_unseen at 2. destruct (existsb (String.eqb x) acc) eqn:Hx.
    + destruct (IH acc) as (k & -> & Hk & Hn & Hin). exists k. split_and!; [done|by apply sublist_cons|done|].
      intros y [->|Hy]%elem_of_cons; [|by apply Hin]. apply existsb_exists in Hx as (z & Hz & ->%String.eqb_eq).
      apply elem_of_app. left. by apply list_elem_of_In.
    + destruct (IH (acc ++ [x])) as (k & -> & Hk & Hn & Hin). exists (x :: k). rewrite <- app_assoc in *. cbn [app] in *.
      split_and!; [done|by apply sublist_skip| |].
      * intros Hacc. apply Hn. apply NoDup_app. split_and!; [done| |apply NoDup_singleton].
        intros y Hy ->%list_elem_of_singleton. enough (true = false) by done. rewrite <- Hx. symmetry.
        apply existsb_exists. exists x. split; [by apply list_elem_of_In|by apply String.eqb_eq].
      * intros y [->|Hy]%elem_of_cons; [apply elem_of_app; right; by left|by apply Hin].
Qed.

Lemma txHashesFromLogs_words logs :
  NoDup (txHashesFromLogs logs) /\ sublist (txHashesFromLogs logs) (List.filter is_hash (words logs)) /\
  forall hash, hash ∈ txHashesFromLogs logs <-> hash ∈ words logs /\ is_hash hash = true.
Proof.
  unfold txHashesFromLogs. rewrite hashes_words.
  destruct (add_unseen_spec [] (List.filter is_hash (words logs))) as (k & -> & Hk & Hn & Hin). cbn [app] in *.
  split_and!; [by apply Hn, NoDup_nil_2|done|]. intros hash. rewrite (list_elem_of_In (words logs)), <- filter_In, <- list_elem_of_In.
  split; [intros Hh; by eapply elem_of_sublist|apply Hin].
Qed.

(** ** Searching the addresses *)
Section search.
Variable Sprint : GoVal -> string.

(** The answer has the transaction, whatever was asked. *)
Definition has_tx (answer : gomap + string) : bool := ta_Found (answered_audit Sprint "" "" answer).

Lemma has_tx_found hash rpc answer : ta_Found (answered_audit Sprint hash rpc answer) = has_tx answer.
Proof. unfold has_tx, answered_audit. repeat case_match; done. Qed.

Lemma answered_hash hash rpc answer : ta_Hash (answered_audit Sprint hash rpc answer) = hash.
Proof. unfold answered_audit. repeat case_match; done. Qed.

(** A query that did not find the transaction. *)
Definition lacks (e : event audit_sig) : Prop :=
  let '(existT c x) := e in
  match c return audit_ans c -> Prop with GetJSON _ => fun answer => has_tx answer = false | _ => fun _ => False end x.

(** The queries for a hash at the addresses [rpcs], and the audit they end with. *)
Definition settled (rpcs : list string) (hash : string) (audit : txAudit) (queries : list (event audit_sig)) : Prop :=
  ta_Hash audit = hash /\
  if ta_Found audit then
    exists rpc prefix body before, rpc ∈ rpcs /\ (prefix = "0x" \/ prefix = "") /\
      queries = before ++ [ev (GetJSON (tx_url rpc hash prefix)) (inl body)] /\ Forall lacks before /\
      audit = answered_audit Sprint hash rpc (inl body)
  else
    Forall lacks queries /\ ta_Error audit <> "" /\
    forall rpc, rpc ∈ rpcs -> exists answer, ev (GetJSON (tx_url rpc hash "0x")) answer ∈ queries.

Lemma has_tx_body answer : has_tx answer = true -> exists body, answer = inl body.
Proof. destruct answer as [body|err]; [by exists body|done]. Qed.

Lemma queryRawTx_run rpc hash t :
  wpM (queryRawTx Sprint rpc hash) tt (fun t' _ o => exists audit l, o = Ok audit /\ t' = t ++ l /\ settled [rpc] hash audit l) t.
Proof.
  unfold queryRawTx. cbn [query_prefixes]. unfold queryRawTxOnce.
  do 2 wpM_step. wpM_step. rename x into first. wpM_step. cbn beta iota. rewrite has_tx_found.
  destruct (has_tx first) eqn:Hfirst.
  { wpM_step. destruct (has_tx_body _ Hfirst) as [body ->]. eexists _, _. do 2 (split; [done|]).
    split; [apply answered_hash|]. rewrite has_tx_found, Hfirst. exists rpc, "0x", body, [].
    split_and!; [by left|by left|done|constructor|done]. }
  assert (Hlast : forall audit l, ta_Hash audit = hash -> ta_Found audit = false -> ta_Error audit <> "" -> Forall lacks l ->
    settled [rpc] hash audit (ev (GetJSON (tx_url rpc hash "0x")) first :: l)).
  { intros audit l Hh Hf He Hl. split; [done|]. rewrite Hf. split_and!; [by constructor|done|].
    intros r ->%list_elem_of_singleton. exists first. by left. }
  destruct (negb (String.eqb (ta_Error (answered_audit Sprint hash rpc first)) "") && _) eqn:Hstop.
  { wpM_step. eexists _, _. do 2 (split; [done|]). apply Hlast; [apply answered_hash|by rewrite has_tx_found| |constructor].
    apply andb_true_iff in Hstop as [Hstop%negb_true_iff%String.eqb_neq _]. done. }
  do 2 wpM_step. wpM_step. rename x into second. wpM_step. cbn beta iota. rewrite has_tx_found.
  destruct (has_tx second) eqn:Hsecond.
  { wpM_step. destruct (has_tx_body _ Hsecond) as [body ->]. eexists _, _. split; [done|]. rewrite <- app_assoc. split; [done|].
    split; [apply answered_hash|]. rewrite has_tx_found, Hsecond. eexists rpc, "", body, [_].
    split_and!; [by left|by right|done|by repeat constructor|done]. }
  destruct (negb (String.eqb (ta_Error (answered_audit Sprint hash rpc second)) "") && _) eqn:Hstop'.
  - wpM_step. eexists _, _. split; [done|]. rewrite <- app_assoc. split; [done|].
    apply Hlast; [apply answered_hash|by rewrite has_tx_found| |by repeat constructor].
    apply andb_true_iff in Hstop' as [Hstop'%negb_true_iff%String.eqb_neq _]. done.
  - wpM_step. eexists _, _. split; [done|]. rewrite <- app_assoc. split; [done|]. apply Hlast; [done..|by repeat constructor].
Qed.

Lemma search_rpcs_run hash last rpcs t : rpcs <> [] ->
  wpM (search_rpcs Sprint hash last rpcs) tt
    (fun t' _ o => exists audit l, o = Ok audit /\ t' = t ++ l /\ settled rpcs hash audit l) t.
Proof.
  revert last t. induction rpcs as [|rpc rpcs IH]; intros last t Hne; [done|]. cbn [search_rpcs].
  wpM_step. eapply wpM_mono; [|apply queryRawTx_run]. intros t' [] o (audit & l & -> & -> & Hh & Hs). cbn beta iota.
  destruct (ta_Found audit) eqn:Hf.
  - wpM_step. exists audit, l. do 2 (split; [done|]). split; [done|]. rewrite Hf.
    destruct Hs as (r & prefix & body & before & Hr & Hp & -> & Hb & Ha). exists r, prefix, body, before.
    split_and!; [|done..]. apply list_elem_of_singleton in Hr as ->. by left.
  - destruct Hs as (Hl & He & Hasked). destruct rpcs as [|rpc' rpcs].
    { cbn [search_rpcs]. wpM_step. exists audit, l. do 2 (split; [done|]). split; [done|]. by rewrite Hf. }
    eapply wpM_mono; [|by apply IH]. intros t' [] o (audit' & l' & -> & -> & Hh' & Hs').
    exists audit', (l ++ l'). split; [done|]. rewrite <- app_assoc. split; [done|]. split; [done|].
    destruct (ta_Found audit').
    + destruct Hs' as (r & prefix & body & before & Hr & Hp & -> & Hb & Ha). exists r, prefix, body, (l ++ before).
      split_and!; [by right|done|by rewrite app_assoc|by apply Forall_app|done].
    + destruct Hs' as (Hl' & He' & Hasked'). split_and!; [by apply Forall_app|done|].
      intros r [->|Hr]%elem_of_cons.
      * destruct (Hasked rpc) as [answer Ha]; [by left|]. exists answer. apply elem_of_app. by left.
      * destruct (Hasked' r Hr) as [answer Ha]. exists answer. apply elem_of_app. by right.
Qed.

(** Calls of docker. *)
Definition of_docker (e : event audit_sig) : Prop := match projT1 e with GetJSON _ => False | _ => True end.

Lemma external_rpcs_run names t :
  wpM (external_rpcs names) tt (fun t' _ o => exists rpcs l, o = Ok rpcs /\ t' = t ++ l /\ Forall of_docker l) t.
Proof.
  revert t. induction names as [|name names IH]; intros t; cbn [external_rpcs].
  - wpM_step. exists [], []. by rewrite app_nil_r.
  - destruct (_ && _); [apply IH|]. do 2 wpM_step. wpM_step. eapply wpM_mono; [|apply IH].
    intros t' [] o (rpcs & l & -> & -> & Hl). cbn beta iota. wpM_step. eexists _, _. split; [done|].
    rewrite <- app_assoc. split; [done|]. by constructor.
Qed.

Lemma candidateRPCs_run providerName chainName byNode t :
  wpM (candidateRPCs providerName chainName byNode) tt
    (fun t' _ o => exists rpcs l, o = Ok rpcs /\ t' = t ++ l /\ Forall of_docker l) t.
Proof.
  unfold candidateRPCs, dockerExternalRPCs. do 3 wpM_step. destruct x as [names|].
  - eapply wpM_mono; [|apply external_rpcs_run]. intros t' [] o (rpcs & l & -> & -> & Hl). cbn beta iota.
    wpM_step. eexists _, _. split; [done|]. rewrite <- app_assoc. split; [done|]. by constructor.
  - do 2 wpM_step. eexists _, _. do 2 (split; [done|]). by repeat constructor.
Qed.

Lemma is_hash_nonempty hash : is_hash hash = true -> hash <> "".
Proof. by intros H ->. Qed.

Lemma audit_hashes_run rpcs hashes t : rpcs <> [] -> Forall (fun hash => hash <> "") hashes ->
  wpM (audit_hashes Sprint rpcs hashes) tt (fun t' _ o => exists audits searches, o = Ok audits /\
    t' = t ++ concat searches /\ Forall3 (fun hash audit queries => settled rpcs hash audit queries) hashes audits searches) t.
Proof.
  intros Hne Hhashes. revert t. induction Hhashes as [|hash hashes Hhash _ IH]; intros t; cbn [audit_hashes].
  - wpM_step. exists [], []. rewrite app_nil_r. split_and!; [done|done|constructor].
  - wpM_step. eapply wpM_mono; [|by apply search_rpcs_run]. intros t' [] o (audit & l & -> & -> & Hs). cbn beta iota.
    wpM_step. eapply wpM_mono; [|apply IH]. intros t' [] o (audits & searches & -> & -> & Hall). cbn beta iota.
    wpM_step. assert (ta_Found audit || negb (String.eqb (ta_Hash audit) "") = true) as ->.
    { destruct Hs as [-> _]. apply orb_true_iff. right. by apply negb_true_iff, String.eqb_neq. }
    exists (audit :: audits), (l :: searches). split; [done|]. cbn [concat]. rewrite <- app_assoc. split; [done|by constructor].
Qed.

(** C17: the audit answers once for each hash in the logs: each word of
    sixty-four capital hexadecimal digits, once, in the order of the words.
    The addresses are asked in turn until one has the transaction, which ends
    that hash's queries; the audit is then what that answer says.  A
    transaction no address has was asked for at each of them, and its audit
    has an error.  Without an address nothing is asked and each hash has an
    error that says so. *)
Theorem auditRawTxs_spec providerName chainName logs byNode :
  wpM (auditRawTxs Sprint providerName chainName logs byNode) tt (fun t _ o =>
    exists audits docker searches, o = Ok audits /\ t = docker ++ concat searches /\ Forall of_docker docker /\
      map ta_Hash audits = txHashesFromLogs logs /\
      (NoDup (txHashesFromLogs logs) /\ sublist (txHashesFromLogs logs) (List.filter is_hash (words logs)) /\
       forall hash, hash ∈ txHashesFromLogs logs <-> hash ∈ words logs /\ is_hash hash = true) /\
      ((searches = [] /\ Forall (fun a => ta_Found a = false /\ ta_Error a = "no RPC addresses available") audits) \/
       exists rpcs, rpcs <> [] /\
         Forall3 (fun hash audit queries => settled rpcs hash audit queries) (txHashesFromLogs logs) audits searches)) [].
Proof.
  unfold auditRawTxs. pose proof (txHashesFromLogs_words logs) as Hwords.
  destruct (txHashesFromLogs logs) as [|h hashes] eqn:Eh.
  { cbn [length Nat.eqb]. wpM_step. exists [], [], []. do 2 (split; [done|]). split; [constructor|]. split; [done|]. split; [exact Hwords|]. left. by split. }
  cbn [length Nat.eqb]. rewrite <- Eh in *. clear Eh h hashes. set (hashes := txHashesFromLogs logs) in *.
  wpM_step. eapply wpM_mono; [|apply candidateRPCs_run]. intros t [] o (rpcs & l & -> & -> & Hl). cbn beta iota.
  destruct rpcs as [|rpc rpcs].
  - cbn [length Nat.eqb]. wpM_step. exists (map (fun hash => no_audit hash "" "no RPC addresses available") hashes), l, [].
    split; [done|]. split; [by rewrite app_nil_r|]. split; [done|]. split; [by rewrite map_map, map_id|]. split; [exact Hwords|].
    left. split; [done|]. apply Forall_map, Forall_true. done.
  - cbn [length Nat.eqb]. eapply wpM_mono; [|apply audit_hashes_run; [done|]].
    + intros t [] o (audits & searches & -> & -> & Hall). exists audits, l, searches.
      do 3 (split; [done|]). split; [|split; [exact Hwords|]].
      * clear Hwords. induction Hall as [|hash audit queries ? ? ? [Hh _] _ IH]; [done|]. cbn [map]. by rewrite Hh, IH.
      * right. by exists (rpc :: rpcs).
    + apply Forall_forall. intros hash Hh. apply is_hash_nonempty. by apply Hwords.
Qed.
End search.

(** Two hashes in the logs, one of them repeated; only the second address has
    a transaction, and only the first one. *)
Definition hex_word (c : string) : string := String.concat "" (repeat c 64).
Definition audit_logs : string :=
  "sent " +:+ hex_word "A" +:+ " and " +:+ hex_word "B" +:+ ", again " +:+ hex_word "A" +:+ " not " +:+ hex_word "C" +:+ "F".
Definition audit_env : handler audit_sig unit := fun c w =>
  (match c return audit_ans c with
   | DockerNames _ => Some "demo-chain-validator-0 demo-chain-catalyst"
   | DockerRPCPort _ => Some "26000"
   | GetJSON url =>
       if String.eqb url (tx_url "http://127.0.0.1:26000" (hex_word "A") "") then
         inl [("result", VMap [("height", VStr "7"); ("tx_result", VMap [("code", VFloat "5"); ("gas_used", VStr "21000")])])]
       else inl [("error", VStr "tx not found")]
   end, w).

Example audit_two_hashes :
  let '(_, o, _, t) := runM audit_env (auditRawTxs (fun v => match v with VStr s => s | _ => "" end) "demo" "chain" audit_logs ["http://10.0.0.2:26657"]) tt tt in
  o = Ok [{| ta_Hash := hex_word "A"; ta_RPC := "http://127.0.0.1:26000"; ta_Found := true; ta_Height := 7; ta_Code := 5;
             ta_GasUsed := 21000; ta_Error := "" |};
          no_audit (hex_word "B") "http://127.0.0.1:26000" "not found"] /\ length t = 10%nat.
Proof. vm_compute. done. Qed.
