(* ===== verification/RunnerScrape.v ===== *)
(** * The report runner's scrapes: [cmd/local-report-runner/main.go]

    Metrics, debug variables and sizes of the containers of a run, and the
    samples of their resources.  [docker] and HTTP are the calls; JSON comes
    decoded in their answers, as in [RunnerAudit]. *)

From stdpp Require Import sorting.
From S2P Require Import Prelude GoStrings GoVal GoTime GoFloat GoText RunnerWindows RunnerMetrics RunnerSignals RunnerLogs RunnerMonitor.
From Stdlib Require Import Ascii Floats.SpecFloat.

Definition slash : ascii := ascii_of_nat 47.

(** ** Prometheus text *)
Definition interesting_prefixes : list string :=
  ["treedb_"; "tree_db_"; "cometbft_"; "tendermint_"; "process_"; "go_"; "runtime_"; "mempool_"; "consensus_"; "abci_";
   "blockstore_"; "block_store_"; "tx_index_"; "indexer_"; "sdk_"; "cosmos_"; "app_"; "tx_"; "begin_blocker_";
   "end_blocker_"].
Definition interestingMetric (name : string) : bool :=
  if String.eqb name "" then false else existsb (HasPrefix name) interesting_prefixes.

Definition finite (x : float) : bool := match x with S754_nan | S754_infinity _ => false | _ => true end.

(** The metric and the value of a line, if it is kept. *)
Definition metric_line (line : string) : option (string * float) :=
  let line := TrimSpace line in
  if String.eqb line "" || HasPrefix line "#" then None
  else
    match Fields line with
    | metric :: text :: _ =>
        if negb (interestingMetric (prometheusMetricName metric)) then None
        else match ParseFloat text with
        | None => None
        | Some value => if finite value then Some (metric, value) else None
        end
    | _ => None
    end.

Definition parsePrometheusMetrics (text : string) : gmap string float :=
  foldl (fun metrics line => match metric_line line with Some (metric, value) => <[metric := value]> metrics | None => metrics end)
    ∅ (Split newline text).

(** ** Debug variables *)
Definition treeDBExpvarFloat (raw : GoVal) : option float :=
  match raw with
  | VFloat repr => ParseFloat repr
  | VInt z => Some (float64 z)
  | VStr s => ParseFloat (TrimSpace s)
  | _ => None
  end.

(** The keys of a map are different, so the order of the loop does not matter. *)
Definition numericTreeDBExpvarMetrics (stats : gomap) : gmap string float :=
  foldl (fun out kv =>
    if negb (HasPrefix kv.1 "treedb.") || String.eqb kv.1 "treedb.expvar.wal_dir" ||
       String.eqb kv.1 "treedb.process.identity.wal_dir" then out
    else match treeDBExpvarFloat kv.2 with
    | Some value => if finite value then <[kv.1 := value]> out else out
    | None => out
    end) ∅ stats.

(** [filepath.Clean], [filepath.Dir], [filepath.Base] of Unix paths. *)
Definition clean_step (rooted : bool) (acc : list string) (part : string) : list string :=
  if String.eqb part "" || String.eqb part "." then acc
  else if String.eqb part ".." then
    match acc with
    | last :: acc' => if String.eqb last ".." then part :: acc else acc'
    | [] => if rooted then [] else [part]
    end
  else part :: acc.
Definition Clean (path : string) : string :=
  let rooted := HasPrefix path "/" in
  let joined := Join (rev (foldl (clean_step rooted) [] (Split slash path))) "/" in
  if rooted then "/" +:+ joined else if String.eqb joined "" then "." else joined.
Definition Dir (path : string) : string :=
  match LastIndexByte path slash with Some i => Clean (str_take (i + 1) path) | None => "." end.
Definition Base (path : string) : string :=
  if String.eqb path "" then "."
  else default "/" (last (List.filter (fun x => negb (String.eqb x "")) (Split slash path))).

Definition treeDBStoreFromWALDir (walDir : string) : string :=
  let normalized := ReplaceByte walDir (ascii_of_nat 92) slash in
  let parts := Split slash normalized in
  match List.find (fun part => bool_decide (part ∈ ["application.db"; "blockstore.db"; "state.db"; "tx_index.db"; "evidence.db"])) parts with
  | Some part => part
  | None =>
      match List.find (fun part => HasSuffix part ".db") parts with
      | Some part => part
      | None => if String.eqb walDir "" then "unknown" else Base (Dir normalized)
      end
  end.

(** [%T] of a value decoded from JSON. *)
Definition type_name (v : GoVal) : string :=
  match v with
  | VNil => "<nil>" | VBool _ => "bool" | VInt _ => "int" | VFloat _ => "float64" | VStr _ => "string"
  | VList _ => "[]interface {}" | VMap _ => "map[string]interface {}" | VMapOther _ => "map[string]string"
  end.

Section debug_vars.
Variable Sprint : GoVal -> string.

Fixpoint stringTreeDBExpvarValue (stats : gomap) (keys : list string) : string :=
  match keys with
  | [] => ""
  | key :: keys' =>
      match lookup_map stats key with
      | Some raw =>
          let value := TrimSpace (Sprint raw) in
          if negb (String.eqb value "") then value else stringTreeDBExpvarValue stats keys'
      | None => stringTreeDBExpvarValue stats keys'
      end
  end.

Definition error_snapshot (name url instance err : string) : treeDBStatsSnapshot :=
  {| td_Name := name; td_URL := url; td_Instance := instance; td_Store := ""; td_WALDir := ""; td_Metrics := ∅;
     td_Error := err |}.

Definition stats_snapshot (name url instance walKey : string) (stats : gomap) : treeDBStatsSnapshot :=
  let walDir := stringTreeDBExpvarValue stats [walKey; "treedb.process.identity.wal_dir"] in
  {| td_Name := name; td_URL := url; td_Instance := instance; td_Store := treeDBStoreFromWALDir walDir; td_WALDir := walDir;
     td_Metrics := numericTreeDBExpvarMetrics stats; td_Error := "" |}.

Definition instance_snapshot (name url : string) (instance : string * GoVal) : list treeDBStatsSnapshot :=
  match instance.2 with
  | VMap stats =>
      let snapshot := stats_snapshot name url instance.1 "treedb.expvar.wal_dir" stats in
      if bool_decide (td_Metrics snapshot = ∅) then [] else [snapshot]
  | raw => [error_snapshot name url instance.1 ("treedb instance has type " +:+ type_name raw +:+ ", want object")]
  end.

(** From the decoded root, or the decoder's error. *)
Definition parseTreeDBDebugVars (name url : string) (root : gomap + string) : list treeDBStatsSnapshot + string :=
  match root with
  | inr err => inr ("parse debug vars JSON: " +:+ err)
  | inl root =>
      match lookup_map root "treedb" with
      | None => inl []
      | Some (VMap treedb) =>
          match lookup_map treedb "instances" with
          | Some (VMap (i :: instances)) => inl (flat_map (instance_snapshot name url) (i :: instances))
          | _ =>
              let snapshot := stats_snapshot name url "current" "treedb.expvar.current_wal_dir" treedb in
              inl (if bool_decide (td_Metrics snapshot = ∅) then [] else [snapshot])
          end
      | Some raw => inr ("debug vars treedb value has type " +:+ type_name raw +:+ ", want object")
      end
  end.
End debug_vars.

(** ** Sizes in docker's tables *)

(** [value, _ := strconv.ParseFloat(s, 64)] *)
Definition float_text (s : string) : float := (parse_float s).1.

Definition percentValue (s : string) : float := float_text (TrimSpace (TrimSuffix s "%")).

(** [uint64(x)], as on amd64. *)
Definition uint64_of_float (x : float) : Z :=
  match x with
  | S754_zero _ => 0
  | S754_finite s m e =>
      let v := if 0 <=? e then Z.shiftl (Zpos m) e else Z.shiftr (Zpos m) (- e) in
      if s then to_uint64 (- v) else if v <? 2^64 then v else 2^63
  | _ => 2^63
  end.

(** Digits, perhaps with a fraction, and a unit of ASCII letters. *)
Definition size_pattern (s : string) : option (string * string) :=
  let '(digits, rest) := span_digits s in
  if String.eqb digits "" then None
  else
    let '(dot, rest') := skip_char 46 rest in
    let '(frac, rest'') := if dot then span_digits rest' else ("", rest) in
    let '(number, rest) := if String.eqb frac "" then (digits, rest) else (digits +:+ "." +:+ frac, rest'') in
    let unit_ := ToLower (skip_spaces rest) in
    let after := match unit_ with String c u => if bool_decide (c ∈ ["k"; "m"; "g"; "t"; "p"]%char) then u else unit_ | _ => unit_ end in
    let after := (skip_char 98 (skip_char 105 after).2).2 in
    if String.eqb after "" then Some (number, unit_) else None.

Definition multiplier (unit_ : string) : Z :=
  if String.eqb unit_ "kib" then 1024
  else if String.eqb unit_ "mib" then 1024 * 1024
  else if String.eqb unit_ "gib" then 1024 * 1024 * 1024
  else if String.eqb unit_ "tib" then 1024 * 1024 * 1024 * 1024
  else if String.eqb unit_ "kb" || String.eqb unit_ "k" then 1000
  else if String.eqb unit_ "mb" || String.eqb unit_ "m" then 1000 * 1000
  else if String.eqb unit_ "gb" || String.eqb unit_ "g" then 1000 * 1000 * 1000
  else if String.eqb unit_ "tb" || String.eqb unit_ "t" then 1000 * 1000 * 1000 * 1000
  else 1.

Definition parseDockerSize (s : string) : Z :=
  let s := TrimSpace s in
  if String.eqb s "" then 0
  else match size_pattern s with
  | None => 0
  | Some (number, unit_) => uint64_of_float (float64_mul (float_text number) (float64 (multiplier unit_)))
  end.

Definition memoryUsage (s : string) : Z * string :=
  match Split slash s with
  | [] => (0, "")
  | part :: _ => (parseDockerSize (TrimSpace part), TrimSpace part)
  end.

Definition ioPairBytes (s : string) : Z * Z :=
  match Split slash s with
  | [a; b] => (parseDockerSize (TrimSpace a), parseDockerSize (TrimSpace b))
  | _ => (0, 0)
  end.

(** ** Samples of resources *)
Record resourceSample := { rs_At : Z; rs_Stats : list string }.

Record resourceSummary := {
  rm_Name : string;
  rm_Samples : Z;
  rm_MaxCPUPerc : float;
  rm_MaxMemUsageBytes : Z;
  rm_MaxMemUsage : string;
  rm_MaxMemPerc : float;
  rm_LastNetIO : string;
  rm_LastBlockIO : string;
  rm_MaxBlockReadBytes : Z;
  rm_MaxBlockWriteBytes : Z
}.

Section resources.
Variable decode_row : string -> option (gmap string string).   (* json.Unmarshal into a map of strings *)

Definition column (row : gmap string string) (key : string) : string := default "" (row !! key).
Definition row_name (row : gmap string string) : string :=
  if String.eqb (column row "Name") "" then column row "Container" else column row "Name".

Definition new_summary (name : string) : resourceSummary :=
  {| rm_Name := name; rm_Samples := 0; rm_MaxCPUPerc := fzero; rm_MaxMemUsageBytes := 0; rm_MaxMemUsage := "";
     rm_MaxMemPerc := fzero; rm_LastNetIO := ""; rm_LastBlockIO := ""; rm_MaxBlockReadBytes := 0;
     rm_MaxBlockWriteBytes := 0 |}.

Definition greater (current candidate : float) : float := if flt current candidate then candidate else current.

Definition add_row (row : gmap string string) (s : resourceSummary) : resourceSummary :=
  let '(usage, usageText) := memoryUsage (column row "MemUsage") in
  let more := rm_MaxMemUsageBytes s <? usage in
  let io := column row "BlockIO" in
  let '(readBytes, writeBytes) := ioPairBytes io in
  let some_io := negb (String.eqb io "") in
  {| rm_Name := rm_Name s; rm_Samples := rm_Samples s + 1;
     rm_MaxCPUPerc := greater (rm_MaxCPUPerc s) (percentValue (column row "CPUPerc"));
     rm_MaxMemUsageBytes := if more then usage else rm_MaxMemUsageBytes s;
     rm_MaxMemUsage := if more then usageText else rm_MaxMemUsage s;
     rm_MaxMemPerc := greater (rm_MaxMemPerc s) (percentValue (column row "MemPerc"));
     rm_LastNetIO := if String.eqb (column row "NetIO") "" then rm_LastNetIO s else column row "NetIO";
     rm_LastBlockIO := if some_io then io else rm_LastBlockIO s;
     rm_MaxBlockReadBytes := if some_io && (rm_MaxBlockReadBytes s <? readBytes) then readBytes else rm_MaxBlockReadBytes s;
     rm_MaxBlockWriteBytes := if some_io && (rm_MaxBlockWriteBytes s <? writeBytes) then writeBytes
                              else rm_MaxBlockWriteBytes s |}.

Definition add_stats (byName : gmap string resourceSummary) (raw : string) : gmap string resourceSummary :=
  match decode_row raw with
  | None => byName
  | Some row =>
      let name := row_name row in
      if String.eqb name "" then byName
      else <[name := add_row row (default (new_summary name) (byName !! name))]> byName
  end.

Definition summary_le (a b : resourceSummary) : Prop := str_lt (rm_Name b) (rm_Name a) = false.
#[export] Instance summary_le_dec : RelDecision summary_le.
Proof. intros a b. unfold summary_le. apply _. Defined.

(** One summary a name, so the sort leaves one order. *)
Definition summarizeResourceSamples (samples : list resourceSample) : list resourceSummary :=
  merge_sort summary_le
    (map snd (map_to_list (foldl (fun byName sample => foldl add_stats byName (rs_Stats sample)) ∅ samples))).
End resources.

(** ** Sizes of paths *)
Record dataPathSizeDelta := {
  dd_Name : string;
  dd_Path : string;
  dd_Before : Z;
  dd_After : Z;
  dd_Delta : Z;
  dd_Error : string
}.

Definition size_paths : list string :=
  ["/simd/config/genesis.json"; "/simd/data"; "/simd/data/application.db"; "/simd/data/blockstore.db"; "/simd/data/state.db";
   "/simd/data/tx_index.db"].

Definition size_line (name line : string) : option dataPathSize :=
  match Fields line with
  | count :: path :: _ =>
      match ParseUint count with
      | Some bytes => Some {| dp_Name := name; dp_Path := path; dp_Bytes := bytes; dp_Error := "" |}
      | None => None
      end
  | _ => None
  end.

Definition cloneDataPathSizes (sizes : list dataPathSize) : list dataPathSize := sizes.

Definition sizes_by_key (sizes : list dataPathSize) : gmap (string * string) dataPathSize :=
  foldl (fun m size => <[(dp_Name size, dp_Path size) := size]> m) ∅ sizes.

Definition key_before (a b : string * string) : bool :=
  if String.eqb a.1 b.1 then str_lt a.2 b.2 else str_lt a.1 b.1.
Definition key_le (a b : string * string) : Prop := key_before b a = false.
#[export] Instance key_le_dec : RelDecision key_le.
Proof. intros a b. unfold key_le. apply _. Defined.

Definition path_delta (key : string * string) (before after : option dataPathSize) : dataPathSizeDelta :=
  let err := match before with Some b => appendSnapshotError "" "before" (dp_Error b) | None => "" end in
  let err := match after with Some a => appendSnapshotError err "after" (dp_Error a) | None => err end in
  {| dd_Name := key.1; dd_Path := key.2; dd_Before := match before with Some b => dp_Bytes b | None => 0 end;
     dd_After := match after with Some a => dp_Bytes a | None => 0 end;
     dd_Delta :=
       match before, after with
       | Some b, Some a =>
           if String.eqb (dp_Error b) "" && String.eqb (dp_Error a) "" then to_int64 (to_int64 (dp_Bytes a) - to_int64 (dp_Bytes b))
           else 0
       | _, _ => 0
       end;
     dd_Error := err |}.

Definition dataPathSizeDeltas (before after : list dataPathSize) : list dataPathSizeDelta :=
  let beforeByKey := sizes_by_key before in
  let afterByKey := sizes_by_key after in
  let keys := merge_sort key_le (elements (dom beforeByKey ∪ dom afterByKey)) in
  map (fun key => path_delta key (beforeByKey !! key) (afterByKey !! key)) keys.

(** ** Calls *)
Inductive scrape_call :=
| DockerPs (all : bool)                        (* docker ps, with the provider's label *)
| InspectIP (name : string)
| InspectMetricsPort (name : string)           (* the host's port of 26660 *)
| GetMetrics (url : string)                    (* inr: an error, or a status that is not a success *)
| DebugVars (name : string)                    (* wget in the container, decoded *)
| DiskUsage (name script : string)             (* the output, and whether du failed *)
| DockerStats (names : list string)
| DockerLogs (name : string)                   (* the output and the error *)
| Now
| Sleep (d : Z)
| WakeSampler.                                 (* true: a tick; false: the context's end *)

(** The answer of [DebugVars]: the command failed, or its output decoded. *)
Inductive vars_answer :=
| VarsFailed (text : string)
| VarsRoot (root : gomap + string).

Definition scrape_ans (c : scrape_call) : Type :=
  match c with
  | DockerPs _ | InspectIP _ | InspectMetricsPort _ | DockerStats _ => option string
  | GetMetrics _ => string + string
  | DebugVars _ => vars_answer
  | DiskUsage _ _ => string * bool
  | DockerLogs _ => string * option string
  | Now => Z
  | Sleep _ => unit
  | WakeSampler => bool
  end.
Canonical scrape_sig : sig := Sig scrape_call scrape_ans.
Abbreviation ScrapeM := (M scrape_sig unit).

Definition dockerContainerNames {S} (all : bool) : M scrape_sig S (list string) :=
  let* out := perform (DockerPs all) in
  retM (match out with None => [] | Some names => Fields names end).

(** The nodes' containers: the load generator's is left out. *)
Definition nodes_of (names : list string) : list string := List.filter (fun name => negb (Contains name "catalyst")) names.

Fixpoint collect {S A} (names : list string) (f : string -> M scrape_sig S (list A)) : M scrape_sig S (list A) :=
  match names with
  | [] => retM []
  | name :: names' =>
      let* here := f name in
      let* rest := collect names' f in
      retM (here ++ rest)
  end.

Definition containerMetricsURL (name : string) : ScrapeM string :=
  let* out := perform (InspectIP name) in
  let ip := TrimSpace (default "" out) in
  if negb (String.eqb ip "") then retM ("http://" +:+ ip +:+ ":26660/metrics")
  else
    let* out := perform (InspectMetricsPort name) in
    let port := TrimSpace (default "" out) in
    retM (if String.eqb port "" then "" else "http://127.0.0.1:" +:+ port +:+ "/metrics").

Definition scrape_node (name : string) : ScrapeM (list metricSnapshot) :=
  let* url := containerMetricsURL name in
  if String.eqb url "" then retM []
  else
    let* answer := perform (GetMetrics url) in
    retM [match answer with
          | inl text => {| ms_Name := name; ms_URL := url; ms_Metrics := parsePrometheusMetrics text; ms_Error := "" |}
          | inr err => {| ms_Name := name; ms_URL := url; ms_Metrics := ∅; ms_Error := err |}
          end].

Definition scrapeMetrics : ScrapeM (list metricSnapshot) :=
  let* names := dockerContainerNames false in
  collect (nodes_of names) scrape_node.

Definition debugVarsURL : string := "http://127.0.0.1:6060/debug/vars".

Definition snapshot_before (a b : treeDBStatsSnapshot) : bool :=
  if String.eqb (td_Name a) (td_Name b) then
    if String.eqb (td_Store a) (td_Store b) then str_lt (td_Instance a) (td_Instance b) else str_lt (td_Store a) (td_Store b)
  else str_lt (td_Name a) (td_Name b).
Definition snapshot_le (a b : treeDBStatsSnapshot) : Prop := snapshot_before b a = false.
#[export] Instance snapshot_le_dec : RelDecision snapshot_le.
Proof. intros a b. unfold snapshot_le. apply _. Defined.

Definition vars_node (Sprint : GoVal -> string) (name : string) : ScrapeM (list treeDBStatsSnapshot) :=
  let* answer := perform (DebugVars name) in
  retM (match answer with
        | VarsFailed text => [error_snapshot name debugVarsURL "" text]
        | VarsRoot root =>
            match parseTreeDBDebugVars Sprint name debugVarsURL root with
            | inl snapshots => snapshots
            | inr err => [error_snapshot name debugVarsURL "" err]
            end
        end).

Definition scrapeTreeDBDebugVars (Sprint : GoVal -> string) : ScrapeM (list treeDBStatsSnapshot) :=
  let* names := dockerContainerNames false in
  let* out := collect (nodes_of names) (vars_node Sprint) in
  retM (merge_sort snapshot_le out).

Definition size_script : string :=
  "for p in " +:+ Join size_paths " " +:+ "; do if [ -e " +:+ dquote +:+ "$p" +:+ dquote +:+ " ]; then du -sb " +:+ dquote +:+
  "$p" +:+ dquote +:+ "; fi; done".

Definition sizes_node (name : string) : ScrapeM (list dataPathSize) :=
  let* '(raw, failed) := perform (DiskUsage name size_script) in
  retM (if failed : bool then [{| dp_Name := name; dp_Path := "/simd/data"; dp_Bytes := 0; dp_Error := TrimSpace raw |}]
        else omap (size_line name) (Split newline (TrimSpace raw))).

Definition collectDataSizes (baseImage : string) : ScrapeM (list dataPathSize) :=
  if negb (String.eqb baseImage "simapp") then retM []
  else
    let* names := dockerContainerNames false in
    collect (nodes_of names) sizes_node.

Definition trimLog (s : string) (limit : nat) : string :=
  if Nat.leb (String.length s) limit then s else str_drop (String.length s - limit) s.

Definition dockerLogs (limit : nat) : ScrapeM (gmap string string) :=
  let* names := dockerContainerNames true in
  let* logs := collect names (fun name =>
    let* '(out, err) := perform (DockerLogs name) in
    let text := TrimSpace out in
    let text := match err with Some e => if String.eqb text "" then e else text | None => text end in
    retM (if String.eqb text "" then [] else [(name, trimLog text limit)])) in
  retM (list_to_map (rev logs)).

(** A line of the stats is kept as it is. *)
Definition dockerStats {S} : M scrape_sig S (list string) :=
  let* names := dockerContainerNames false in
  if Nat.eqb (length names) 0 then retM []
  else
    let* out := perform (DockerStats names) in
    retM (match out with
          | None => []
          | Some text => List.filter (fun line => negb (String.eqb (TrimSpace line) "")) (Split newline (TrimSpace text))
          end).

(** ** The sampler: a goroutine whose state is the samples it has *)
Definition take : M scrape_sig (list resourceSample) unit :=
  let* stats := dockerStats in
  if Nat.eqb (length stats) 0 then retM tt
  else
    let* at_ := perform Now in
    modify (fun samples => samples ++ [{| rs_At := at_; rs_Stats := stats |}]).

Definition sampler_round : M scrape_sig (list resourceSample) (option (list resourceSample)) :=
  let* tick := perform WakeSampler in
  let* _ := take in
  if tick : bool then retM None else let* samples := get in retM (Some samples).

(** What the goroutine sends to [done]. *)
Definition startDockerStatsSampler (fuel : nat) : M scrape_sig unit (list resourceSample) :=
  scoped [] (let* _ := take in poll fuel sampler_round).

(** ** TreeDB after the load *)
Record treeDBDwellSnapshot := {
  dw_Label : string;
  dw_At : Z;
  dw_ElapsedSeconds : float;
  dw_TreeDBStats : list treeDBStatsSnapshot;
  dw_TreeDBStatDeltas : list treeDBStatsDelta;
  dw_DataSizes : list dataPathSize;
  dw_DataSizeDeltas : list dataPathSizeDelta
}.

Definition shouldCollectTreeDBDwell (appDBBackend nodeDBBackend : string) (debugVars : bool) (dwell : Z) : bool :=
  if (dwell <=? 0) || negb debugVars then false
  else String.eqb appDBBackend "treedb" || String.eqb nodeDBBackend "treedb".

Definition dwell_snapshot (label : string) (at_ : Z) (elapsed : float) (before after : list treeDBStatsSnapshot)
    (sizesBefore sizesAfter : list dataPathSize) : treeDBDwellSnapshot :=
  {| dw_Label := label; dw_At := at_; dw_ElapsedSeconds := elapsed; dw_TreeDBStats := cloneTreeDBStatsSnapshots after;
     dw_TreeDBStatDeltas := treeDBStatsDeltaSnapshots before after; dw_DataSizes := cloneDataPathSizes sizesAfter;
     dw_DataSizeDeltas := dataPathSizeDeltas sizesBefore sizesAfter |}.

Definition collectTreeDBDwellSnapshots (Sprint : GoVal -> string) (baseImage : string)
    (loadEndStats : list treeDBStatsSnapshot) (loadEndSizes : list dataPathSize) (dwell : Z)
    : ScrapeM (list treeDBDwellSnapshot) :=
  let* started := perform Now in
  let first := dwell_snapshot "load_end" started fzero loadEndStats loadEndStats loadEndSizes loadEndSizes in
  let* _ := perform (Sleep dwell) in
  let* ended := perform Now in
  let* postStats := scrapeTreeDBDebugVars Sprint in
  let* postSizes := collectDataSizes baseImage in
  retM [first; dwell_snapshot "post_dwell" ended (Seconds (Sub ended started)) loadEndStats postStats loadEndSizes postSizes].

(** ** What a summary says of the rows of its name *)
Lemma flt_key x y : is_nan x = false -> flt x y = true <-> key_lt (float_key x) (float_key y).
Proof. intros Hx. rewrite <- float_less_key. unfold float_less. rewrite Hx. cbn [andb]. by rewrite orb_false_r. Qed.

Lemma flt_nan x y : flt x y = true -> is_nan x = false /\ is_nan y = false.
Proof.
  unfold flt, is_nan, feq, SFltb, SFeqb. destruct x as [[]|[]| |[] m e], y as [[]|[]| |[] m' e']; try done; cbn;
    rewrite ?Z.compare_refl; change (@Pos.compare_cont Eq) with Pos.compare; by rewrite ?Pos.compare_refl.
Qed.

(** [m] is not a [NaN], and none of [xs] is greater. *)
Definition upper_bound (m : float) (xs : list float) : Prop := is_nan m = false /\ Forall (fun x => flt m x = false) xs.

Lemma greater_bound m x xs : upper_bound m xs -> upper_bound (greater m x) (xs ++ [x]).
Proof.
  intros [Hm Hxs]. unfold greater. destruct (flt m x) eqn:Hlt.
  - destruct (flt_nan m x Hlt) as [_ Hx]. split; [done|]. apply Forall_app. split.
    + eapply Forall_impl; [exact Hxs|]. intros y Hy. destruct (flt x y) eqn:Hxy; [|done]. exfalso.
      enough (flt m y = true) by congruence. rewrite flt_key in Hlt, Hxy |- * by done. unfold key_lt in *.
      destruct (float_key m) as [[? ?] ?], (float_key x) as [[? ?] ?], (float_key y) as [[? ?] ?]. lia.
    + repeat constructor. destruct (flt x x) eqn:Hxx; [|done]. exfalso. rewrite flt_key in Hxx by done. unfold key_lt in *.
      destruct (float_key x) as [[? ?] ?]. lia.
  - split; [done|]. apply Forall_app. split; [done|]. by repeat constructor.
Qed.

Section resources.
Variable decode_row : string -> option (gmap string string).

(** The rows of a name, in the order of the samples. *)
Definition row_of (name raw : string) : option (gmap string string) :=
  match decode_row raw with Some row => if String.eqb (row_name row) name then Some row else None | None => None end.
Definition rows_of (name : string) (samples : list resourceSample) : list (gmap string string) :=
  omap (row_of name) (flat_map rs_Stats samples).

Lemma add_stats_lookup raws byName name : name <> "" ->
  foldl (add_stats decode_row) byName raws !! name =
  match omap (row_of name) raws with
  | [] => byName !! name
  | rows => Some (foldl (fun s row => add_row row s) (default (new_summary name) (byName !! name)) rows)
  end.
Proof.
  intros Hname. revert byName. induction raws as [|raw raws IH]; intros byName; [done|].
  cbn [foldl omap list_omap]. rewrite IH. unfold add_stats, row_of. destruct (decode_row raw) as [row|]; [|done].
  destruct (String.eqb_spec (row_name row) name) as [<-|Hne].
  - rewrite (proj2 (String.eqb_neq (row_name row) "")) by done. rewrite lookup_insert_eq.
    change (omap (fun raw => _) raws) with (omap (row_of (row_name row)) raws).
    destruct (omap (row_of (row_name row)) raws); done.
  - destruct (String.eqb (row_name row) ""); [done|]. by rewrite lookup_insert_ne.
Qed.

Lemma add_stats_empty raws byName : byName !! "" = None -> foldl (add_stats decode_row) byName raws !! "" = None.
Proof.
  revert byName. induction raws as [|raw raws IH]; intros byName Hb; [done|]. cbn [foldl]. apply IH. unfold add_stats.
  destruct (decode_row raw) as [row|]; [|done]. destruct (String.eqb_spec (row_name row) "") as [|Hne]; [done|].
  by rewrite lookup_insert_ne.
Qed.

Lemma samples_foldl byName samples :
  foldl (fun byName sample => foldl (add_stats decode_row) byName (rs_Stats sample)) byName samples =
  foldl (add_stats decode_row) byName (flat_map rs_Stats samples).
Proof. revert byName. induction samples as [|s samples IH]; intros byName; [done|]. cbn [foldl flat_map]. by rewrite IH, foldl_app. Qed.

(** The summary of the rows [rows]. *)
Definition summary_of (rows : list (gmap string string)) (s : resourceSummary) : Prop :=
  rm_Samples s = Z.of_nat (length rows) /\
  rm_MaxMemUsageBytes s = largest (map (fun row => (memoryUsage (column row "MemUsage")).1) rows) /\
  (0 < rm_MaxMemUsageBytes s -> exists row, row ∈ rows /\
     memoryUsage (column row "MemUsage") = (rm_MaxMemUsageBytes s, rm_MaxMemUsage s)) /\
  rm_MaxBlockReadBytes s = largest (map (fun row => (ioPairBytes (column row "BlockIO")).1) rows) /\
  rm_MaxBlockWriteBytes s = largest (map (fun row => (ioPairBytes (column row "BlockIO")).2) rows) /\
  upper_bound (rm_MaxCPUPerc s) (map (fun row => percentValue (column row "CPUPerc")) rows) /\
  upper_bound (rm_MaxMemPerc s) (map (fun row => percentValue (column row "MemPerc")) rows) /\
  rm_LastNetIO s = List.last (List.filter (fun text => negb (String.eqb text "")) (map (fun row => column row "NetIO") rows)) "" /\
  rm_LastBlockIO s = List.last (List.filter (fun text => negb (String.eqb text "")) (map (fun row => column row "BlockIO") rows)) "".

Lemma largest_snoc l x : largest (l ++ [x]) = Z.max (largest l) x.
Proof. rewrite largest_app. cbn. pose proof (largest_nonneg l). lia. Qed.

Lemma last_nonempty (l : list string) x :
  List.last (List.filter (fun text => negb (String.eqb text "")) (l ++ [x])) "" =
  if String.eqb x "" then List.last (List.filter (fun text => negb (String.eqb text "")) l) "" else x.
Proof.
  rewrite List.filter_app. cbn [List.filter]. destruct (String.eqb x ""); cbn [negb]; [by rewrite app_nil_r|]. apply List.last_last.
Qed.

Lemma add_row_summary rows row s : summary_of rows s -> summary_of (rows ++ [row]) (add_row row s).
Proof.
  intros (Hn & Hm & Ht & Hr & Hw & Hc & Hp & Hnet & Hio). unfold summary_of, add_row. rewrite !map_app. cbn [map].
  rewrite !largest_snoc, !last_nonempty, <- Hm, <- Hr, <- Hw, <- Hnet, <- Hio.
  destruct (memoryUsage (column row "MemUsage")) as [usage text] eqn:Emem.
  assert (Hio0 : column row "BlockIO" = "" -> ioPairBytes (column row "BlockIO") = (0, 0)) by by intros ->.
  assert (Hpos : 0 <= rm_MaxBlockReadBytes s /\ 0 <= rm_MaxBlockWriteBytes s /\ 0 <= rm_MaxMemUsageBytes s).
  { rewrite Hm, Hr, Hw. auto using largest_nonneg. }
  destruct (ioPairBytes (column row "BlockIO")) as [r w].
  cbn [rm_Samples rm_MaxMemUsageBytes rm_MaxMemUsage rm_MaxBlockReadBytes rm_MaxBlockWriteBytes rm_MaxCPUPerc rm_MaxMemPerc
    rm_LastNetIO rm_LastBlockIO fst snd].
  split_and!.
  - rewrite length_app. cbn [length]. lia.
  - destruct (Z.ltb_spec (rm_MaxMemUsageBytes s) usage); lia.
  - destruct (Z.ltb_spec (rm_MaxMemUsageBytes s) usage) as [Hlt|Hge]; intros H.
    + exists row. split; [apply elem_of_app; right; by left|]. by rewrite Emem.
    + destruct (Ht H) as (row' & Hrow' & Hu). exists row'. split; [apply elem_of_app; by left|done].
  - destruct (String.eqb_spec (column row "BlockIO") "") as [E|E]; cbn [negb andb];
      [apply Hio0 in E as [= -> ->]; lia|destruct (Z.ltb_spec (rm_MaxBlockReadBytes s) r); lia].
  - destruct (String.eqb_spec (column row "BlockIO") "") as [E|E]; cbn [negb andb];
      [apply Hio0 in E as [= -> ->]; lia|destruct (Z.ltb_spec (rm_MaxBlockWriteBytes s) w); lia].
  - by apply greater_bound.
  - by apply greater_bound.
  - done.
  - by destruct (String.eqb (column row "BlockIO") "").
Qed.

Lemma summary_of_new name : summary_of [] (new_summary name).
Proof. unfold summary_of, upper_bound. cbn. split_and!; try done; lia. Qed.

Lemma summary_of_rows name rows0 rows s : summary_of rows0 s -> rm_Name s = name ->
  summary_of (rows0 ++ rows) (foldl (fun s row => add_row row s) s rows) /\
  rm_Name (foldl (fun s row => add_row row s) s rows) = name.
Proof.
  revert rows0 s. induction rows as [|row rows IH]; intros rows0 s Hs Hn; [by rewrite app_nil_r|].
  cbn [foldl]. replace (rows0 ++ row :: rows) with ((rows0 ++ [row]) ++ rows) by by rewrite <- app_assoc.
  apply IH; [by apply add_row_summary|]. unfold add_row. by destruct (memoryUsage _), (ioPairBytes _).
Qed.

Lemma summaries_lookup samples name s :
  foldl (fun byName sample => foldl (add_stats decode_row) byName (rs_Stats sample)) ∅ samples !! name = Some s <->
  name <> "" /\ rows_of name samples <> [] /\ s = foldl (fun s row => add_row row s) (new_summary name) (rows_of name samples).
Proof.
  rewrite samples_foldl. destruct (decide (name = "")) as [->|Hname].
  { rewrite add_stats_empty by apply lookup_empty. split; [done|by intros [? _]]. }
  rewrite add_stats_lookup, lookup_empty by done. fold (rows_of name samples).
  destruct (rows_of name samples) as [|row rows]; [by split; [|intros (_ & ? & _)]|].
  cbn [default]. split; [intros H; apply Some_inj in H as <-; by split_and!|by intros (_ & _ & ->)].
Qed.

Lemma summary_le_total : Total summary_le.
Proof.
  intros x y. unfold summary_le, str_lt, String.ltb. rewrite (String.compare_antisym (rm_Name x) (rm_Name y)).
  destruct (String.compare (rm_Name y) (rm_Name x)); [by left|by right|by left].
Qed.

(** A run's resource report has one summary for each container that has a
    row in its samples, in the order of their names, and each summary is what
    its rows say: how many they are, the most memory with the text of a row
    that has it, the largest sizes of block reads and writes, percentages that
    no row exceeds and that are numbers whatever the rows say, and the last
    counters that are not empty. *)
Theorem summarizeResourceSamples_spec (samples : list resourceSample) :
  let out := summarizeResourceSamples decode_row samples in
  Sorted summary_le out /\ NoDup (map rm_Name out) /\
  (forall name, name ∈ map rm_Name out <-> name <> "" /\ rows_of name samples <> []) /\
  forall s, s ∈ out -> summary_of (rows_of (rm_Name s) samples) s.
Proof.
  cbn zeta. unfold summarizeResourceSamples.
  pose proof (summaries_lookup samples) as Hl. set (m := foldl _ ∅ samples) in *. clearbody m.
  assert (Hname : forall name s, m !! name = Some s -> rm_Name s = name /\ summary_of (rows_of name samples) s).
  { intros name s (_ & _ & ->)%Hl.
    destruct (summary_of_rows name [] (rows_of name samples) (new_summary name)); [apply summary_of_new|done|by split]. }
  assert (Hin : forall s, s ∈ map snd (map_to_list m) <-> m !! rm_Name s = Some s).
  { intros s. rewrite list_elem_of_fmap. split.
    - intros ([name s'] & -> & Hs%elem_of_map_to_list). cbn [snd]. by destruct (Hname _ _ Hs) as [-> _].
    - intros Hs. exists (rm_Name s, s). split; [done|]. by apply elem_of_map_to_list. }
  assert (Hnames : map rm_Name (map snd (map_to_list m)) = (map_to_list m).*1).
  { rewrite map_map. apply list_fmap_ext. intros i [name s] Hi%list_elem_of_lookup_2%elem_of_map_to_list.
    by destruct (Hname _ _ Hi). }
  pose proof (merge_sort_Permutation summary_le (map snd (map_to_list m))) as Hperm.
  split; [apply Sorted_merge_sort, summary_le_total|]. split; [|split].
  - rewrite Hperm, Hnames. apply NoDup_fst_map_to_list.
  - intros name. rewrite Hperm, list_elem_of_fmap. setoid_rewrite Hin. split.
    + intros (s & -> & (Hne & Hrows & _)%Hl). done.
    + intros [Hne Hrows]. eexists. assert (Hs := proj2 (Hl name _) (conj Hne (conj Hrows eq_refl))).
      destruct (Hname _ _ Hs) as [Hn _]. split; [by symmetry|]. by rewrite Hn.
  - intros s. rewrite Hperm, Hin. intros Hs. by destruct (Hname _ _ Hs).
Qed.
End resources.

(** A metric in a text, a debug variable's store and docker's units. *)
Example scrape_texts :
  parsePrometheusMetrics ("# HELP tx_count" +:+ String newline "tx_count{a=1} 12.5 1700000000" +:+ String newline "go_threads NaN" +:+
    String newline "other 1" +:+ String newline "tx_count{a=1} 13") = {["tx_count{a=1}" := float64 13]} /\
  treeDBStoreFromWALDir "/simd/data/application.db/wal" = "application.db" /\
  treeDBStoreFromWALDir "/var/store/x/../wal" = "store" /\
  parseDockerSize "1.5MiB" = 1572864 /\ parseDockerSize " 20kB" = 20000 /\ parseDockerSize "3PB" = 3 /\
  ioPairBytes "4.1MB / 0B" = (4099999, 0) /\ percentValue "12.50%" = float64_div (float64 25) (float64 2).
Proof. vm_compute. done. Qed.
