(* ===== verification/RunnerScenario.v ===== *)
(** * The report runner's scenarios: [cmd/local-report-runner/main.go]

    What a scenario configures, how the flags change it, and what of a run it
    decides.  Names are ASCII. *)

From S2P Require Import Prelude GoStrings GoVal GoText RunnerCounts.
From Stdlib Require Import Ascii.

(** ** Names *)
Definition sanitize_char (c : ascii) : ascii :=
  if ((97 <=? code c) && (code c <=? 122)) || ((48 <=? code c) && (code c <=? 57)) || (code c =? 45) || (code c =? 95) then c
  else ascii_of_nat 45.
Fixpoint map_chars (f : ascii -> ascii) (s : string) : string :=
  match s with EmptyString => "" | String c s' => String (f c) (map_chars f s') end.
Definition is_dash (c : ascii) : bool := code c =? 45.
Fixpoint trim_dashes_left (s : string) : string :=
  match s with String c s' => if is_dash c then trim_dashes_left s' else s | EmptyString => "" end.
Fixpoint trim_dashes_right (s : string) : string :=
  if str_all is_dash s then "" else match s with EmptyString => "" | String c s' => String c (trim_dashes_right s') end.
Definition sanitize (s : string) : string := trim_dashes_right (trim_dashes_left (map_chars sanitize_char (ToLower s))).

Definition shortRef (ref : string) : string := if Nat.leb (String.length ref) 12 then ref else str_take 12 ref.

Definition shortChainName (name : string) : string :=
  if String.eqb name "evm-blog" then "evmblog"
  else if String.eqb name "simapp-goleveldb" then "sgldb"
  else if String.eqb name "simapp-treedb" then "streedb"
  else if String.eqb name "simapp-goleveldb-all" then "sgldball"
  else if String.eqb name "simapp-treedb-all" then "streedba"
  else
    let clean := sanitize name in
    if Nat.ltb 8 (String.length clean) then str_take 8 clean else clean.

(** ** Scenarios *)
Record dependencyPin := { dp_Module : string; dp_Version : string; dp_Ref : string }.

Record preseedConfig := {
  pre_Profile : string;
  pre_Accounts : Z;
  pre_ActiveWallets : Z;
  pre_GenesisAccounts : Z;
  pre_DeterministicSource : string
}.
Definition no_preseed : preseedConfig :=
  {| pre_Profile := ""; pre_Accounts := 0; pre_ActiveWallets := 0; pre_GenesisAccounts := 0; pre_DeterministicSource := "" |}.

(** The comparison of Celestia synchronisations, and its zero value. *)
Record celestiaSyncConfig := {
  cs_RunnerScript : string;
  cs_RunCommand : string;
  cs_OutputDir : string;
  cs_ControlEnvFile : string;
  cs_CandidateEnvFile : string;
  cs_MaxPairs : Z;
  cs_PairRunMode : string;
  cs_RunTimeoutSeconds : Z;
  cs_PostSyncDwellSeconds : Z;
  cs_RequiredAcceptedSnapshotHeight : string;
  cs_TrustHeight : string;
  cs_TrustHash : string;
  cs_StopAtLocalHeight : string;
  cs_FreezeRemoteHeightAtStart : bool;
  cs_RunHomeBase : string;
  cs_GoCacheRoot : string;
  cs_TempDir : string;
  cs_CelestiaAppDir : string;
  cs_GomapDir : string;
  cs_CosmosDBDir : string;
  cs_CometDBDir : string;
  cs_CosmosStoreDir : string;
  cs_CosmosLogDir : string;
  cs_CosmosCoreDir : string;
  cs_IAVLDir : string;
  cs_TreeDBOpenProfile : string;
  cs_UseLocalTreeStack : bool;
  cs_UseLocalCosmosStore : bool;
  cs_UseLocalIAVL : bool;
  cs_DryRun : bool
}.
Definition no_celestia : celestiaSyncConfig :=
  {| cs_RunnerScript := ""; cs_RunCommand := ""; cs_OutputDir := ""; cs_ControlEnvFile := ""; cs_CandidateEnvFile := "";
     cs_MaxPairs := 0; cs_PairRunMode := ""; cs_RunTimeoutSeconds := 0; cs_PostSyncDwellSeconds := 0;
     cs_RequiredAcceptedSnapshotHeight := ""; cs_TrustHeight := ""; cs_TrustHash := ""; cs_StopAtLocalHeight := "";
     cs_FreezeRemoteHeightAtStart := false; cs_RunHomeBase := ""; cs_GoCacheRoot := ""; cs_TempDir := "";
     cs_CelestiaAppDir := ""; cs_GomapDir := ""; cs_CosmosDBDir := ""; cs_CometDBDir := ""; cs_CosmosStoreDir := "";
     cs_CosmosLogDir := ""; cs_CosmosCoreDir := ""; cs_IAVLDir := ""; cs_TreeDBOpenProfile := "";
     cs_UseLocalTreeStack := false; cs_UseLocalCosmosStore := false; cs_UseLocalIAVL := false; cs_DryRun := false |}.

(** Literals of catalyst's specification and messages, with the fields the runner sets. *)
Class CatalystLiterals (Cat : Catalyst) := {
  cosmos_msg : forall (type contained : string) (numMsgs recipients : Z), LoadTestMsg;
  cosmos_spec : forall (name desc : string) (blocks txs : Z) (msgs : list LoadTestMsg), LoadTestSpec;
  eth_msg : forall (type : string) (numMsgs iterations calldataSize : Z), LoadTestMsg;
  eth_spec : forall (sendInterval batches blocks initialWallets initialContracts gasFeeCap gasTipCap : Z)
    (msgs : list LoadTestMsg), LoadTestSpec;
  cosmos_spec_blocks : forall name desc blocks txs msgs, sp_NumOfBlocks (cosmos_spec name desc blocks txs msgs) = blocks;
  cosmos_spec_txs : forall name desc blocks txs msgs, sp_NumOfTxs (cosmos_spec name desc blocks txs msgs) = txs;
  cosmos_spec_msgs : forall name desc blocks txs msgs, sp_Msgs (cosmos_spec name desc blocks txs msgs) = msgs
}.

Section scenarios.
Context `{Lit : CatalystLiterals}.

Record scenario := {
  sc_Name : string;
  sc_Runner : string;
  sc_IncludeInAll : bool;
  sc_ChainName : string;
  sc_Description : string;
  sc_Repo : string;
  sc_ChainSource : string;
  sc_ChainRef : string;
  sc_Dockerfile : string;
  sc_ReplaceCmd : string;
  sc_BaseImage : string;
  sc_ImageTag : string;
  sc_DependencyPins : list dependencyPin;
  sc_Preseed : preseedConfig;
  sc_IsEVMChain : bool;
  sc_NumValidators : Z;
  sc_NumNodes : Z;
  sc_NumWallets : Z;
  sc_CatalystVersion : string;
  sc_AppDBBackend : string;
  sc_NodeDBBackend : string;
  sc_TxIndexer : string;
  sc_Genesis : list (string * GoVal);
  sc_CustomAppConfig : gomap;
  sc_CustomConfig : gomap;
  sc_CustomClient : gomap;
  sc_AdditionalFlags : list string;
  sc_AppCPUProfile : string;
  sc_AppHeapProfile : string;
  sc_AppPprofListen : string;
  sc_LoadTestSpec : LoadTestSpec;
  sc_CelestiaSync : celestiaSyncConfig
}.

(** A scenario with other profile settings. *)
Definition set_profiles (config : gomap) (flags : list string) (cpu heap listen : string) (sc : scenario) : scenario :=
  {| sc_Name := sc_Name sc; sc_Runner := sc_Runner sc; sc_IncludeInAll := sc_IncludeInAll sc; sc_ChainName := sc_ChainName sc;
     sc_Description := sc_Description sc; sc_Repo := sc_Repo sc; sc_ChainSource := sc_ChainSource sc;
     sc_ChainRef := sc_ChainRef sc; sc_Dockerfile := sc_Dockerfile sc; sc_ReplaceCmd := sc_ReplaceCmd sc;
     sc_BaseImage := sc_BaseImage sc; sc_ImageTag := sc_ImageTag sc; sc_DependencyPins := sc_DependencyPins sc;
     sc_Preseed := sc_Preseed sc; sc_IsEVMChain := sc_IsEVMChain sc; sc_NumValidators := sc_NumValidators sc;
     sc_NumNodes := sc_NumNodes sc; sc_NumWallets := sc_NumWallets sc; sc_CatalystVersion := sc_CatalystVersion sc;
     sc_AppDBBackend := sc_AppDBBackend sc; sc_NodeDBBackend := sc_NodeDBBackend sc; sc_TxIndexer := sc_TxIndexer sc;
     sc_Genesis := sc_Genesis sc; sc_CustomAppConfig := sc_CustomAppConfig sc; sc_CustomConfig := config;
     sc_CustomClient := sc_CustomClient sc; sc_AdditionalFlags := flags; sc_AppCPUProfile := cpu; sc_AppHeapProfile := heap;
     sc_AppPprofListen := listen; sc_LoadTestSpec := sc_LoadTestSpec sc;
     sc_CelestiaSync := sc_CelestiaSync sc |}.

(** A copy is the same entries. *)
Definition cloneStringMap (m : gomap) : gomap := m.
Definition asStringMap (v : option GoVal) : gomap := match v with Some (VMap m) => m | _ => [] end.

Definition withRPCPprofListen (cfg : gomap) (listen : string) : gomap :=
  let out := cloneStringMap cfg in
  let rpc := cloneStringMap (asStringMap (lookup_map out "rpc")) in
  set_map out "rpc" (VMap (set_map rpc "pprof_laddr" (VStr listen))).

Definition withAppCPUProfile (sc : scenario) : scenario :=
  if negb (String.eqb (sc_BaseImage sc) "simapp") then sc
  else
    let name := sanitize (sc_Name sc) +:+ "-validator-0-cpu.pprof" in
    set_profiles (sc_CustomConfig sc) (sc_AdditionalFlags sc ++ ["--cpu-profile"; "/simd/" +:+ name]) name
      (sc_AppHeapProfile sc) (sc_AppPprofListen sc) sc.

Definition withAppHeapProfile (sc : scenario) : scenario :=
  if negb (String.eqb (sc_BaseImage sc) "simapp") then sc
  else
    let name := sanitize (sc_Name sc) +:+ "-validator-0-heap.pprof" in
    set_profiles (withRPCPprofListen (sc_CustomConfig sc) "localhost:6060") (sc_AdditionalFlags sc) (sc_AppCPUProfile sc) name
      "localhost:6060" sc.

Definition withAppDiagnosticProfileFlags (sc : scenario) : scenario :=
  if negb (String.eqb (sc_BaseImage sc) "simapp") then sc
  else
    set_profiles (sc_CustomConfig sc)
      (sc_AdditionalFlags sc ++ ["--block-profile-rate"; "1"; "--mutex-profile-fraction"; "1"])
      (sc_AppCPUProfile sc) (sc_AppHeapProfile sc) (sc_AppPprofListen sc) sc.

(** ** Preseeding; an error ends the runner *)
Definition makePreseedConfig (quote_ : string -> string) (profile : string) (accounts activeWallets : Z)
    : preseedConfig + string :=
  let profile := ToLower (TrimSpace profile) in
  let profile := if String.eqb profile "" then "none" else profile in
  if accounts <? 0 then inr "preseed-accounts must be >= 0"
  else if String.eqb profile "none" then
    if negb (accounts =? 0) then inr "preseed-accounts requires -preseed-profile accounts"
    else inl {| pre_Profile := "none"; pre_Accounts := 0; pre_ActiveWallets := activeWallets;
                pre_GenesisAccounts := activeWallets; pre_DeterministicSource := "" |}
  else if String.eqb profile "accounts" then
    if accounts =? 0 then inr "preseed-profile accounts requires -preseed-accounts > 0"
    else inl {| pre_Profile := "accounts"; pre_Accounts := accounts; pre_ActiveWallets := activeWallets;
                pre_GenesisAccounts := to_int64 (activeWallets + accounts);
                pre_DeterministicSource := "base mnemonic plus integer account passphrases" |}
  else inr ("unknown preseed-profile " +:+ quote_ profile).

(** ** The simapp's modules *)
Record simappGomapModulePin := { gp_Version : string; gp_Ref : string }.

Definition is_hex (c : ascii) : bool :=
  ((48 <=? code c) && (code c <=? 57)) || ((97 <=? code c) && (code c <=? 102)) || ((65 <=? code c) && (code c <=? 70)).

Definition newSimappGomapPin (quote_ : string -> string) (hexError : string -> string) (version ref : string)
    : simappGomapModulePin + string :=
  let version := TrimSpace version in
  let ref := ToLower (TrimSpace ref) in
  if String.eqb version "" then inr "version is empty"
  else if negb (Nat.eqb (String.length ref) 40) then inr ("ref " +:+ quote_ ref +:+ " must be a full 40-character commit")
  else if negb (str_all is_hex ref) then inr ("ref " +:+ quote_ ref +:+ " is not hexadecimal: " +:+ hexError ref)
  else if negb (HasSuffix version ("-" +:+ str_take 12 ref)) then
    inr ("version " +:+ quote_ version +:+ " does not resolve suffix " +:+ str_take 12 ref)
  else inl {| gp_Version := version; gp_Ref := ref |}.

Definition simappCosmosDBVersion : string := "v0.0.0-20260701184343-6ddcb75557e5".
Definition simappCosmosDBRef : string := "6ddcb75557e59bc4e6668ac7699cd52b63b3e402".
Definition simappIAVLVersion : string := "v0.0.0-20260701072929-12a26715119b".
Definition simappIAVLRef : string := "12a26715119bb3ea55289ffd7b256161effc7b8b".
Definition simappCometDBVersion : string := "v0.0.0-20260701074104-b4f87847a725".
Definition simappCometDBRef : string := "b4f87847a725f92a046d927ce4a0f5b08b965995".
Definition simappCometBFTVersion : string := "87379c903cc82c03874b24a6e3f9045784ba4681".
Definition simappCometBFTRef : string := "87379c903cc82c03874b24a6e3f9045784ba4681".

Definition pin (module version ref : string) : dependencyPin := {| dp_Module := module; dp_Version := version; dp_Ref := ref |}.

Definition simappDependencyPins (includeCometDB : bool) (gomapPin : simappGomapModulePin) : list dependencyPin :=
  [pin "github.com/cosmos/cosmos-db" simappCosmosDBVersion simappCosmosDBRef;
   pin "github.com/snissn/gomap" (gp_Version gomapPin) (gp_Ref gomapPin);
   pin "github.com/cosmos/iavl" simappIAVLVersion simappIAVLRef] ++
  (if includeCometDB then
     [pin "github.com/cometbft/cometbft-db" simappCometDBVersion simappCometDBRef;
      pin "github.com/cometbft/cometbft" simappCometBFTVersion simappCometBFTRef]
   else []).

Definition simappReplaceCmd (includeCometDB : bool) (gomapPin : simappGomapModulePin) : string :=
  Join
    (["github.com/cosmos/cosmos-db=github.com/snissn/cosmos-db@" +:+ simappCosmosDBVersion;
      "github.com/snissn/gomap=github.com/snissn/gomap@" +:+ gp_Version gomapPin;
      "github.com/cosmos/iavl=github.com/snissn/iavl@" +:+ simappIAVLVersion] ++
     (if includeCometDB then
        ["github.com/cometbft/cometbft-db=github.com/snissn/cometbft-db@" +:+ simappCometDBVersion;
         "github.com/cometbft/cometbft=github.com/snissn/cometbft@" +:+ simappCometBFTVersion]
      else [])) " ".

Definition simappImageTag (includeCometDB : bool) (gomapPin : simappGomapModulePin) : string :=
  let gomapShortRef := str_take 7 (gp_Ref gomapPin) in
  if includeCometDB then
    "ironbird-report:snissn-sdk-4948247-fullstack-cosmosdb-6ddcb75-cometdb-b4f878-gomap-" +:+ gomapShortRef +:+ "-comet-87379c9"
  else "ironbird-report:snissn-sdk-4948247-cosmosdb-6ddcb75-gomap-" +:+ gomapShortRef.

(** ** The scenarios of the runner *)
Definition lowLatencyConsensusConfig : gomap :=
  [("consensus", VMap [("timeout_commit", VStr "0ms"); ("peer_gossip_sleep_duration", VStr "0s")]);
   ("mempool", VMap [("size", VInt 1000000)]);
   ("p2p", VMap [("flush_throttle_timeout", VStr "0ms")])].

Record workload := {
  wl_validators : Z;
  wl_nodes : Z;
  wl_wallets : Z;
  wl_preseed : preseedConfig;
  wl_blocks : Z;
  wl_txs : Z;
  wl_cosmosMsg : string;
  wl_containedMsg : string;
  wl_msgsPerTx : Z;
  wl_recipients : Z;
  wl_maxGas : Z;
  wl_catalyst : string
}.

Definition simapp_msg (w : workload) : LoadTestMsg :=
  if String.eqb (wl_cosmosMsg w) "MsgMultiSend" then cosmos_msg (wl_cosmosMsg w) "" 0 (wl_recipients w)
  else if String.eqb (wl_cosmosMsg w) "MsgArr" then
    cosmos_msg (wl_cosmosMsg w) (wl_containedMsg w) (wl_msgsPerTx w) (wl_recipients w)
  else cosmos_msg (wl_cosmosMsg w) "" 0 0.

Definition simappScenarioWithBackends (name desc appBackend nodeBackend txIndexer : string) (includeCometDB : bool)
    (w : workload) (gomapPin : simappGomapModulePin) : scenario :=
  let appConfig := if String.eqb appBackend "" then [] else [("app-db-backend", VStr appBackend)] in
  let consensus := lowLatencyConsensusConfig in
  let consensus := if String.eqb nodeBackend "" then consensus else set_map consensus "db_backend" (VStr nodeBackend) in
  let consensus :=
    if String.eqb txIndexer "" then consensus else set_map consensus "tx_index" (VMap [("indexer", VStr txIndexer)]) in
  {| sc_Name := name; sc_Runner := ""; sc_IncludeInAll := true; sc_ChainName := shortChainName name; sc_Description := desc;
     sc_Repo := "cosmos-sdk"; sc_ChainSource := "https://github.com/snissn/celestia-cosmos-sdk";
     sc_ChainRef := "494824795d0b9eabf318aba755ee3320462df7ad"; sc_Dockerfile := "hack/simapp.Dockerfile";
     sc_ReplaceCmd := simappReplaceCmd includeCometDB gomapPin; sc_BaseImage := "simapp";
     sc_ImageTag := simappImageTag includeCometDB gomapPin;
     sc_DependencyPins := simappDependencyPins includeCometDB gomapPin; sc_Preseed := wl_preseed w; sc_IsEVMChain := false;
     sc_NumValidators := wl_validators w; sc_NumNodes := wl_nodes w; sc_NumWallets := wl_wallets w;
     sc_CatalystVersion := wl_catalyst w; sc_AppDBBackend := appBackend; sc_NodeDBBackend := nodeBackend;
     sc_TxIndexer := txIndexer; sc_Genesis := [("consensus.params.block.max_gas", VStr (itoa (wl_maxGas w)))];
     sc_CustomAppConfig := appConfig; sc_CustomConfig := consensus; sc_CustomClient := []; sc_AdditionalFlags := [];
     sc_AppCPUProfile := ""; sc_AppHeapProfile := ""; sc_AppPprofListen := "";
     sc_LoadTestSpec := cosmos_spec name desc (wl_blocks w) (wl_txs w) [simapp_msg w];
     sc_CelestiaSync := no_celestia |}.

Definition simappScenario (name desc backend : string) (w : workload) (gomapPin : simappGomapModulePin) : scenario :=
  simappScenarioWithBackends name desc backend "" "" false w gomapPin.
Definition simappFullStackScenario (name desc backend txIndexer : string) (w : workload) (gomapPin : simappGomapModulePin)
    : scenario :=
  simappScenarioWithBackends name desc backend backend txIndexer true w gomapPin.

Definition native_token : string := "0xEeeeeEeeeEeEeeEeEeEeeEEEeeeeEeeeeeeeEEeE".

Definition evm_blog_genesis : list (string * GoVal) :=
  [("app_state.staking.params.bond_denom", VStr "atest");
   ("app_state.gov.params.expedited_voting_period", VStr "120s");
   ("app_state.gov.params.voting_period", VStr "300s");
   ("app_state.gov.params.expedited_min_deposit.0.amount", VStr "1");
   ("app_state.gov.params.expedited_min_deposit.0.denom", VStr "atest");
   ("app_state.gov.params.min_deposit.0.amount", VStr "1");
   ("app_state.gov.params.min_deposit.0.denom", VStr "atest");
   ("app_state.evm.params.evm_denom", VStr "atest");
   ("app_state.mint.params.mint_denom", VStr "atest");
   ("app_state.bank.denom_metadata", VList [VMap
      [("description", VStr "The native staking token for evmd.");
       ("denom_units", VList
          [VMap [("denom", VStr "atest"); ("exponent", VInt 0); ("aliases", VList [VStr "attotest"])];
           VMap [("denom", VStr "test"); ("exponent", VInt 18); ("aliases", VList [])]]);
       ("base", VStr "atest"); ("display", VStr "test"); ("name", VStr "Test Token"); ("symbol", VStr "TEST");
       ("uri", VStr ""); ("uri_hash", VStr "")]]);
   ("app_state.erc20.native_precompiles", VList [VStr native_token]);
   ("app_state.evm.params.active_static_precompiles", VList
      [VStr "0x0000000000000000000000000000000000000100"; VStr "0x0000000000000000000000000000000000000400";
       VStr "0x0000000000000000000000000000000000000800"; VStr "0x0000000000000000000000000000000000000801";
       VStr "0x0000000000000000000000000000000000000802"; VStr "0x0000000000000000000000000000000000000803";
       VStr "0x0000000000000000000000000000000000000804"; VStr "0x0000000000000000000000000000000000000805"]);
   ("app_state.erc20.token_pairs", VList [VMap
      [("contract_owner", VInt 1); ("erc20_address", VStr native_token); ("denom", VStr "atest"); ("enabled", VBool true)]]);
   ("consensus.params.block.max_gas", VStr "550000000");
   ("consensus.params.block.max_bytes", VStr "104857600");
   ("app_state.feemarket.params.no_base_fee", VBool true)].

Definition evmBlogScenario (validators nodes wallets blocks batches msgs : Z) (msgType : string)
    (sendInterval initialWallets initialContracts iterations calldataSize gasFeeCap gasTipCap : Z) (catalyst : string)
    : scenario :=
  let loadMsg := eth_msg msgType msgs (if 0 <? iterations then iterations else 0) (if 0 <? calldataSize then calldataSize else 0) in
  let spec :=
    if 0 <? blocks then eth_spec 0 0 blocks initialWallets initialContracts gasFeeCap gasTipCap [loadMsg]
    else eth_spec sendInterval batches 0 initialWallets initialContracts gasFeeCap gasTipCap [loadMsg] in
  {| sc_Name := "evm-blog"; sc_Runner := ""; sc_IncludeInAll := true; sc_ChainName := "evmblog";
     sc_Description := "Cosmos EVM blog-style native ERC20 transfer load"; sc_Repo := "evm";
     sc_ChainSource := "https://github.com/cosmos/evm"; sc_ChainRef := "f90a5c79c0052e0f5cd670a367f24967d1120650";
     sc_Dockerfile := "hack/evm.Dockerfile"; sc_ReplaceCmd := ""; sc_BaseImage := "evm";
     sc_ImageTag := "ironbird-report:evm-blog-f90a5c79"; sc_DependencyPins := []; sc_Preseed := no_preseed;
     sc_IsEVMChain := true; sc_NumValidators := validators; sc_NumNodes := nodes; sc_NumWallets := wallets;
     sc_CatalystVersion := catalyst; sc_AppDBBackend := ""; sc_NodeDBBackend := ""; sc_TxIndexer := "";
     sc_Genesis := evm_blog_genesis; sc_CustomAppConfig := [("json-rpc", VMap [("enable-profiling", VBool true)])];
     sc_CustomConfig := lowLatencyConsensusConfig; sc_CustomClient := [("chain-id", VStr "262144")]; sc_AdditionalFlags := [];
     sc_AppCPUProfile := ""; sc_AppHeapProfile := ""; sc_AppPprofListen := ""; sc_LoadTestSpec := spec;
     sc_CelestiaSync := no_celestia |}.

(** [no_spec] is the zero value of a specification. *)
Definition celestiaSyncScenario (no_spec : LoadTestSpec) (cfg : celestiaSyncConfig) : scenario :=
  {| sc_Name := "celestia-sync-ab"; sc_Runner := "celestia-sync-ab"; sc_IncludeInAll := false; sc_ChainName := "celestia-mainnet";
     sc_Description := "Celestia mainnet production-shaped state-sync comparison: goleveldb control versus TreeDB candidate";
     sc_Repo := "celestia-app"; sc_ChainSource := "https://github.com/snissn/celestia-app"; sc_ChainRef := "local";
     sc_Dockerfile := ""; sc_ReplaceCmd := ""; sc_BaseImage := ""; sc_ImageTag := ""; sc_DependencyPins := [];
     sc_Preseed := no_preseed; sc_IsEVMChain := false; sc_NumValidators := 0; sc_NumNodes := 0; sc_NumWallets := 0;
     sc_CatalystVersion := ""; sc_AppDBBackend := "goleveldb-vs-treedb"; sc_NodeDBBackend := ""; sc_TxIndexer := "";
     sc_Genesis := []; sc_CustomAppConfig := []; sc_CustomConfig := []; sc_CustomClient := []; sc_AdditionalFlags := [];
     sc_AppCPUProfile := ""; sc_AppHeapProfile := ""; sc_AppPprofListen := ""; sc_LoadTestSpec := no_spec;
     sc_CelestiaSync := cfg |}.

(** ** Selection and decisions; an unknown name ends the runner *)
Definition selectScenarios (all : list scenario) (want : string) : option (list scenario) :=
  if String.eqb want "all" then Some (List.filter sc_IncludeInAll all)
  else if String.eqb want "all-with-celestia" then Some all
  else
    match List.find (fun sc => String.eqb (sc_Name sc) want) all with
    | Some sc => Some [sc]
    | None => None
    end.

Definition needsWorkerConfig (scenarios : list scenario) : bool :=
  existsb (fun sc => negb (String.eqb (sc_Runner sc) "celestia-sync-ab")) scenarios.

Definition launchGenesisAccounts (sc : scenario) : Z :=
  if 0 <? pre_GenesisAccounts (sc_Preseed sc) then pre_GenesisAccounts (sc_Preseed sc) else sc_NumWallets sc.

Definition rawTxAuditDecision (sc : scenario) (requested : bool) : bool * string :=
  if sc_IsEVMChain sc then (false, "")
  else if negb requested then (false, "disabled by -raw-tx-audit=false")
  else if String.eqb (sc_TxIndexer sc) "null" then
    (false, "disabled because tx_index.indexer=null does not support CometBFT /tx queries")
  else (true, "").

Definition intended (sc : scenario) : Z := intendedTransactions (sc_IsEVMChain sc) (sc_LoadTestSpec sc).

(** ** The image *)
Definition build_args (sc : scenario) : list string :=
  ["build"; "-f"; sc_Dockerfile sc; "-t"; sc_ImageTag sc;
   "--build-arg"; "GIT_SHA=" +:+ sanitize (sc_Name sc) +:+ "-" +:+ shortRef (sc_ChainRef sc);
   "--build-arg"; "CHAIN_SRC=" +:+ sc_ChainSource sc; "--build-arg"; "CHAIN_TAG=" +:+ sc_ChainRef sc] ++
  (if String.eqb (sc_BaseImage sc) "simapp" && Contains (sc_ChainSource sc) "snissn/celestia-cosmos-sdk"
   then ["--build-arg"; "GO_IMAGE=golang:1.26-alpine"] else []) ++
  (if String.eqb (sc_ReplaceCmd sc) "" then [] else ["--build-arg"; "REPLACE_CMD=" +:+ sc_ReplaceCmd sc]) ++
  ["hack"].
End scenarios.
Arguments scenario {Cat}.
