(* ===== verification/RunnerProfiles.v ===== *)
(** * The report runner's profiles and backend checks: [cmd/local-report-runner/main.go]

    Which profiles a run asks validator 0 for, how each is fetched and
    stored, and whether the databases a scenario asks for are the ones the
    validator's files name.  Restoring the testnet, commands in the container,
    files and the [go] tool are the calls; [GetValidators] is the number of
    validators, the profiles being the first one's. *)

From S2P Require Import Prelude GoStrings GoVal GoTime GoFloat GoText NodeConfig RunnerWindows RunnerMonitor RunnerCounts RunnerScrape RunnerScenario.

Definition profileBoundaryActiveWindow : string := "active-window".
Definition profileBoundaryLoadWindowAdjacent : string := "load-window-adjacent".
Definition profileBoundaryWholeRun : string := "whole-run".
Definition profileCommandTimeout : Z := 30 * Second.

Record profileArtifact := {
  pa_Name : string;
  pa_Kind : string;
  pa_Boundary : string;
  pa_Endpoint : string;
  pa_RequestedSeconds : float;
  pa_StartedAt : option Z;
  pa_FinishedAt : option Z;
  pa_CollectionSeconds : float;
  pa_StartedOffset : option float;
  pa_FinishedOffset : option float;
  pa_Overlap : option float;
  pa_Path : string;
  pa_TopSummaryPath : string;
  pa_TopSummaryError : string;
  pa_Error : string
}.

Record appProfileCaptureConfig := {
  CPUOutDir : string;
  HeapOutDir : string;
  PprofOutDir : string;
  DiagnosticOutDir : string;
  DiagnosticDuration : Z;
  ActiveWindowOutDir : string;
  ActiveWindowDuration : Z;
  DebugVars : bool
}.

Definition nonempty (s : string) : bool := negb (String.eqb s "").

Definition needsPprof (cfg : appProfileCaptureConfig) : bool :=
  nonempty (HeapOutDir cfg) || nonempty (PprofOutDir cfg) || nonempty (DiagnosticOutDir cfg) ||
  nonempty (ActiveWindowOutDir cfg) || DebugVars cfg.
Definition needsDiagnosticProfileFlags (cfg : appProfileCaptureConfig) : bool :=
  nonempty (DiagnosticOutDir cfg) || nonempty (ActiveWindowOutDir cfg).

Record appProfileRequest := {
  pr_Kind : string;
  pr_Endpoint : string;
  pr_FileName : string;
  pr_OutDir : string;
  pr_Boundary : string;
  pr_Duration : Z
}.

Definition durationSeconds (duration : Z) : float := if duration <=? 0 then fzero else Seconds duration.

Definition artifact (req : appProfileRequest) (scenarioName : string) : profileArtifact :=
  {| pa_Name := scenarioName; pa_Kind := pr_Kind req; pa_Boundary := pr_Boundary req; pa_Endpoint := pr_Endpoint req;
     pa_RequestedSeconds := durationSeconds (pr_Duration req); pa_StartedAt := None; pa_FinishedAt := None;
     pa_CollectionSeconds := fzero; pa_StartedOffset := None; pa_FinishedOffset := None; pa_Overlap := None; pa_Path := "";
     pa_TopSummaryPath := ""; pa_TopSummaryError := ""; pa_Error := "" |}.

(** ** Requests *)
Definition timedPprofEndpoint (profile : string) (duration : Z) : string :=
  let seconds := int_ceil (Seconds duration) in
  profile +:+ "?seconds=" +:+ itoa (if seconds <? 1 then 1 else seconds).

Section requests.
Context `{Cat : Catalyst}.

Definition appProfileFileName (sc : scenario) (suffix ext : string) : string :=
  sanitize (sc_Name sc) +:+ "-validator-0-" +:+ suffix +:+ ext.
Definition appPprofFileName (sc : scenario) (suffix : string) : string := appProfileFileName sc suffix ".pprof".
Definition appActiveWindowProfileFileName (sc : scenario) (suffix ext : string) : string :=
  appProfileFileName sc ("active-window-" +:+ suffix) ext.

Definition request (kind endpoint fileName outDir boundary : string) (duration : Z) : appProfileRequest :=
  {| pr_Kind := kind; pr_Endpoint := endpoint; pr_FileName := fileName; pr_OutDir := outDir; pr_Boundary := boundary;
     pr_Duration := duration |}.

Definition pprof_request (sc : scenario) (cfg : appProfileCaptureConfig) (kind endpoint suffix boundary : string)
    : list appProfileRequest :=
  let fileName := appPprofFileName sc suffix in
  if String.eqb kind "validator_heap" && String.eqb (HeapOutDir cfg) (PprofOutDir cfg) && String.eqb fileName (sc_AppHeapProfile sc)
  then []
  else [request kind endpoint fileName (PprofOutDir cfg) boundary 0].

Definition diagnostic_request (sc : scenario) (cfg : appProfileCaptureConfig) (kind suffix ext : string) : appProfileRequest :=
  request kind (timedPprofEndpoint suffix (DiagnosticDuration cfg)) (appProfileFileName sc suffix ext) (DiagnosticOutDir cfg)
    profileBoundaryLoadWindowAdjacent (DiagnosticDuration cfg).

Definition appProfileRequests (sc : scenario) (cfg : appProfileCaptureConfig) : list appProfileRequest :=
  (if nonempty (HeapOutDir cfg) && nonempty (sc_AppHeapProfile sc) then
     [request "validator_heap" "heap?gc=1" (sc_AppHeapProfile sc) (HeapOutDir cfg) profileBoundaryLoadWindowAdjacent 0]
   else []) ++
  (if nonempty (PprofOutDir cfg) && nonempty (sc_AppPprofListen sc) then
     pprof_request sc cfg "validator_heap" "heap?gc=1" "heap" profileBoundaryLoadWindowAdjacent ++
     pprof_request sc cfg "validator_allocs" "allocs" "allocs" profileBoundaryWholeRun ++
     pprof_request sc cfg "validator_goroutine" "goroutine" "goroutine" profileBoundaryLoadWindowAdjacent
   else []) ++
  (if nonempty (DiagnosticOutDir cfg) && nonempty (sc_AppPprofListen sc) then
     [diagnostic_request sc cfg "validator_block" "block" ".pprof";
      diagnostic_request sc cfg "validator_mutex" "mutex" ".pprof";
      diagnostic_request sc cfg "validator_trace" "trace" ".out"]
   else []) ++
  (if nonempty (CPUOutDir cfg) && nonempty (sc_AppCPUProfile sc) then
     [request "validator_cpu" "" (sc_AppCPUProfile sc) (CPUOutDir cfg) profileBoundaryWholeRun 0]
   else []).

Definition appActiveWindowProfileRequests (sc : scenario) (cfg : appProfileCaptureConfig) : list appProfileRequest :=
  if String.eqb (ActiveWindowOutDir cfg) "" || String.eqb (sc_AppPprofListen sc) "" then []
  else
    let d := ActiveWindowDuration cfg in
    let active kind endpoint suffix ext duration :=
      request kind endpoint (appActiveWindowProfileFileName sc suffix ext) (ActiveWindowOutDir cfg)
        profileBoundaryActiveWindow duration in
    [active "validator_cpu" (timedPprofEndpoint "profile" d) "cpu" ".pprof" d;
     active "validator_heap" "heap?gc=1" "heap" ".pprof" 0;
     active "validator_allocs" "allocs" "allocs" ".pprof" 0;
     active "validator_goroutine" "goroutine" "goroutine" ".pprof" 0;
     active "validator_block" (timedPprofEndpoint "block" d) "block" ".pprof" d;
     active "validator_mutex" (timedPprofEndpoint "mutex" d) "mutex" ".pprof" d;
     active "validator_trace" (timedPprofEndpoint "trace" d) "trace" ".out" d].
End requests.

(** Before the audit, and the CPU profile, which stops the validator, after it. *)
Definition splitAppProfileRequestsForRawTxAudit (requests : list appProfileRequest)
    : list appProfileRequest * list appProfileRequest :=
  (List.filter (fun req => negb (String.eqb (pr_Kind req) "validator_cpu")) requests,
   List.filter (fun req => String.eqb (pr_Kind req) "validator_cpu") requests).

(** ** Collection *)
Inductive profile_call :=
| DecompressData (state : string)
| RestoreProvider (state : string)
| RestoreChain (state : string) (isEVM : bool)       (* the number of validators *)
| MkdirAll (dir : string)
| ProfileNow
| RunInValidator (cmd : list string) (timeout : Z)
| ReadValidatorFile (path : string)
| StopValidator
| WriteLocal (path body : string)
| PprofTop (path : string) (timeout : Z).            (* the output and the error *)

Definition profile_ans (c : profile_call) : Type :=
  match c with
  | DecompressData _ | ReadValidatorFile _ => res string
  | RestoreProvider _ | MkdirAll _ | StopValidator | WriteLocal _ _ => res unit
  | RestoreChain _ _ => res Z
  | ProfileNow => Z
  | RunInValidator _ _ => res Z * (string * string)
  | PprofTop _ _ => string * option error
  end.
Canonical profile_sig : sig := Sig profile_call profile_ans.
Abbreviation ProfileM := (M profile_sig unit).

Definition set_error (err : string) (a : profileArtifact) : profileArtifact :=
  {| pa_Name := pa_Name a; pa_Kind := pa_Kind a; pa_Boundary := pa_Boundary a; pa_Endpoint := pa_Endpoint a;
     pa_RequestedSeconds := pa_RequestedSeconds a; pa_StartedAt := pa_StartedAt a; pa_FinishedAt := pa_FinishedAt a;
     pa_CollectionSeconds := pa_CollectionSeconds a; pa_StartedOffset := pa_StartedOffset a;
     pa_FinishedOffset := pa_FinishedOffset a; pa_Overlap := pa_Overlap a; pa_Path := pa_Path a;
     pa_TopSummaryPath := pa_TopSummaryPath a; pa_TopSummaryError := pa_TopSummaryError a; pa_Error := err |}.
Definition set_path (path : string) (a : profileArtifact) : profileArtifact :=
  {| pa_Name := pa_Name a; pa_Kind := pa_Kind a; pa_Boundary := pa_Boundary a; pa_Endpoint := pa_Endpoint a;
     pa_RequestedSeconds := pa_RequestedSeconds a; pa_StartedAt := pa_StartedAt a; pa_FinishedAt := pa_FinishedAt a;
     pa_CollectionSeconds := pa_CollectionSeconds a; pa_StartedOffset := pa_StartedOffset a;
     pa_FinishedOffset := pa_FinishedOffset a; pa_Overlap := pa_Overlap a; pa_Path := path;
     pa_TopSummaryPath := pa_TopSummaryPath a; pa_TopSummaryError := pa_TopSummaryError a; pa_Error := pa_Error a |}.
Definition set_times (started finished : Z) (a : profileArtifact) : profileArtifact :=
  {| pa_Name := pa_Name a; pa_Kind := pa_Kind a; pa_Boundary := pa_Boundary a; pa_Endpoint := pa_Endpoint a;
     pa_RequestedSeconds := pa_RequestedSeconds a; pa_StartedAt := Some started; pa_FinishedAt := Some finished;
     pa_CollectionSeconds := Seconds (Sub finished started); pa_StartedOffset := pa_StartedOffset a;
     pa_FinishedOffset := pa_FinishedOffset a; pa_Overlap := pa_Overlap a; pa_Path := pa_Path a;
     pa_TopSummaryPath := pa_TopSummaryPath a; pa_TopSummaryError := pa_TopSummaryError a; pa_Error := pa_Error a |}.
Definition set_summary (path err : string) (a : profileArtifact) : profileArtifact :=
  {| pa_Name := pa_Name a; pa_Kind := pa_Kind a; pa_Boundary := pa_Boundary a; pa_Endpoint := pa_Endpoint a;
     pa_RequestedSeconds := pa_RequestedSeconds a; pa_StartedAt := pa_StartedAt a; pa_FinishedAt := pa_FinishedAt a;
     pa_CollectionSeconds := pa_CollectionSeconds a; pa_StartedOffset := pa_StartedOffset a;
     pa_FinishedOffset := pa_FinishedOffset a; pa_Overlap := pa_Overlap a; pa_Path := pa_Path a;
     pa_TopSummaryPath := path; pa_TopSummaryError := err; pa_Error := pa_Error a |}.
Definition set_offsets (started finished overlap : option float) (a : profileArtifact) : profileArtifact :=
  {| pa_Name := pa_Name a; pa_Kind := pa_Kind a; pa_Boundary := pa_Boundary a; pa_Endpoint := pa_Endpoint a;
     pa_RequestedSeconds := pa_RequestedSeconds a; pa_StartedAt := pa_StartedAt a; pa_FinishedAt := pa_FinishedAt a;
     pa_CollectionSeconds := pa_CollectionSeconds a; pa_StartedOffset := started; pa_FinishedOffset := finished;
     pa_Overlap := overlap; pa_Path := pa_Path a; pa_TopSummaryPath := pa_TopSummaryPath a;
     pa_TopSummaryError := pa_TopSummaryError a; pa_Error := pa_Error a |}.

Definition failProfileArtifacts (artifacts : list profileArtifact) (message : string) : list profileArtifact :=
  map (set_error message) artifacts.

Definition appProfileRequestTimeout (req : appProfileRequest) : Z :=
  if pr_Duration req <=? 0 then profileCommandTimeout
  else
    let timeout := to_int64 (pr_Duration req + 10 * Second) in
    if timeout <? profileCommandTimeout then profileCommandTimeout else timeout.

Definition profileSupportsPprofTop (kind : string) : bool := negb (String.eqb kind "validator_trace").

Definition shellQuote (s : string) : string :=
  if String.eqb s "" then "''" else "'" +:+ ReplaceAll s "'" ("'" +:+ dquote +:+ "'" +:+ dquote +:+ "'") +:+ "'".

(** [filepath.Join] of a directory and a name. *)
Definition path_join (dir name : string) : string :=
  if String.eqb dir "" then if String.eqb name "" then "" else Clean name
  else if String.eqb name "" then Clean dir else Clean (dir +:+ "/" +:+ name).

Section collection.
Variable quote_ : string -> string.               (* %q *)

(** A profile's file, from the validator to the directory of the profiles. *)
Definition store_profile (kind : string) (req : appProfileRequest) (a : profileArtifact) : ProfileM profileArtifact :=
  let* body := perform (ReadValidatorFile (pr_FileName req)) in
  match body with
  | inr err => retM (set_error ("read " +:+ kind +:+ " profile: " +:+ Error err) a)
  | inl body =>
      let localPath := path_join (pr_OutDir req) (pr_FileName req) in
      let* written := perform (WriteLocal localPath body) in
      retM (match written with
            | inr err => set_error ("write " +:+ kind +:+ " profile: " +:+ Error err) a
            | inl _ => set_path localPath a
            end)
  end.

(** The directory, and the times of what follows. *)
Definition timed_collection (req : appProfileRequest) (a : profileArtifact)
    (body : profileArtifact -> ProfileM profileArtifact) : ProfileM profileArtifact :=
  let* made := perform (MkdirAll (pr_OutDir req)) in
  match made with
  | inr err => retM (set_error ("create profile dir: " +:+ Error err) a)
  | inl _ =>
      let* started := perform ProfileNow in
      let* a := body a in
      let* finished := perform ProfileNow in
      retM (set_times started finished a)
  end.

Definition outputs (stdout stderr : string) : string :=
  "stdout=" +:+ quote_ (trimLog stdout 2000) +:+ " stderr=" +:+ quote_ (trimLog stderr 2000).

Definition collectAppPprofEndpointProfile (scenarioName : string) (req : appProfileRequest) : ProfileM profileArtifact :=
  timed_collection req (artifact req scenarioName) (fun a =>
    let remotePath := path_join "/simd" (pr_FileName req) in
    let endpointURL := "http://127.0.0.1:6060/debug/pprof/" +:+ pr_Endpoint req in
    let cmd := ["sh"; "-c"; "wget -q -O " +:+ shellQuote remotePath +:+ " " +:+ shellQuote endpointURL] in
    let* '(code, (stdout, stderr)) := perform (RunInValidator cmd (appProfileRequestTimeout req)) in
    match code with
    | inr err => retM (set_error ("fetch " +:+ pr_Kind req +:+ " profile: " +:+ Error err +:+ " " +:+ outputs stdout stderr) a)
    | inl code =>
        if negb (code =? 0) then
          retM (set_error ("fetch " +:+ pr_Kind req +:+ " profile exit " +:+ itoa code +:+ " " +:+ outputs stdout stderr) a)
        else store_profile (pr_Kind req) req a
    end).

Definition collectAppCPUProfile (scenarioName : string) (req : appProfileRequest) : ProfileM profileArtifact :=
  timed_collection req (artifact req scenarioName) (fun a =>
    let* stopped := perform StopValidator in
    match stopped with
    | inr err => retM (set_error ("stop validator: " +:+ Error err) a)
    | inl _ => store_profile "validator" req a
    end).

Definition collect_request (scenarioName : string) (req : appProfileRequest) : ProfileM profileArtifact :=
  if String.eqb (pr_Kind req) "validator_cpu" && String.eqb (pr_Endpoint req) "" then collectAppCPUProfile scenarioName req
  else collectAppPprofEndpointProfile scenarioName req.

Definition top_summary (a : profileArtifact) : ProfileM profileArtifact :=
  if String.eqb (pa_Path a) "" || negb (String.eqb (pa_Error a) "") || negb (profileSupportsPprofTop (pa_Kind a)) then retM a
  else
    let summaryPath := pa_Path a +:+ ".top.txt" in
    let* '(out, err) := perform (PprofTop (pa_Path a) profileCommandTimeout) in
    match err with
    | Some err =>
        retM (set_summary "" ("go tool pprof -top: " +:+ Error err +:+ " output=" +:+ quote_ (trimLog out 2000)) a)
    | None =>
        let* written := perform (WriteLocal summaryPath out) in
        retM (match written with
              | inr err => set_summary "" ("write pprof top summary: " +:+ Error err) a
              | inl _ => set_summary summaryPath "" a
              end)
    end.

(** One after another. *)
Fixpoint each_in_turn {A B} (l : list A) (f : A -> ProfileM B) : ProfileM (list B) :=
  match l with
  | [] => retM []
  | x :: l' =>
      let* y := f x in
      let* ys := each_in_turn l' f in
      retM (y :: ys)
  end.

Definition attachPprofTopSummaries (artifacts : list profileArtifact) : ProfileM (list profileArtifact) :=
  each_in_turn artifacts top_summary.

(** The testnet a run left, restored; the number of its validators. *)
Definition restore_validators (providerState chainState : string) (isEVM : bool) : ProfileM Z :=
  let* provider := wrap "decompress provider state" (ask (DecompressData providerState)) in
  let* chain := wrap "decompress chain state" (ask (DecompressData chainState)) in
  let* _ := wrap "restore provider" (ask (RestoreProvider provider)) in
  wrap "restore chain" (ask (RestoreChain chain isEVM)).

Definition collectAppProfileRequests (scenarioName : string) (isEVM : bool) (providerState chainState : string)
    (requests : list appProfileRequest) : ProfileM (list profileArtifact) :=
  if Nat.eqb (length requests) 0 then retM []
  else
    let artifacts := map (fun req => artifact req scenarioName) requests in
    let* validators := try_ (restore_validators providerState chainState isEVM) in
    match validators with
    | inr err => retM (failProfileArtifacts artifacts (Error err))
    | inl n =>
        if n =? 0 then retM (failProfileArtifacts artifacts "no validators")
        else
          let* artifacts := each_in_turn requests (collect_request scenarioName) in
          attachPprofTopSummaries artifacts
    end.
End collection.

(** ** Against the load window *)
Definition annotate (started ended : Z) (a : profileArtifact) : profileArtifact :=
  let offset t := Seconds (Sub t started) in
  set_offsets
    (match pa_StartedAt a with Some t => Some (offset t) | None => pa_StartedOffset a end)
    (match pa_FinishedAt a with Some t => Some (offset t) | None => pa_FinishedOffset a end)
    (match pa_StartedAt a, pa_FinishedAt a with
     | Some s, Some e => if IsZero ended then pa_Overlap a else Some (overlapSeconds s e started ended)
     | _, _ => pa_Overlap a
     end) a.

Definition annotateProfileArtifactsWithLoadWindowTiming (artifacts : list profileArtifact)
    (window : option loadWindowObservation) : list profileArtifact :=
  match window with
  | None => artifacts
  | Some obs => if IsZero (StartedAt obs) then artifacts else map (annotate (StartedAt obs) (EndedAt obs)) artifacts
  end.

(** ** The databases of a validator *)
Record backendVerification := {
  bv_ExpectedAppDBBackend : string;
  bv_ExpectedNodeDBBackend : string;
  bv_ExpectedTxIndexer : string;
  bv_ObservedAppDBBackend : string;
  bv_ObservedNodeDBBackend : string;
  bv_ObservedTxIndexer : string;
  bv_AppConfigPath : string;
  bv_NodeConfigPath : string;
  bv_Valid : bool;
  bv_Error : string
}.

Section verification.
Variable quote_ : string -> string.               (* %q *)
Variable Sprint : GoVal -> string.                (* fmt.Sprint *)
Variable Unmarshal : string -> res gomap.         (* toml.Unmarshal *)

Definition tomlString (cfg : gomap) (key : string) : string :=
  match lookup_map cfg key with
  | None | Some VNil => ""
  | Some (VStr s) => s
  | Some v => Sprint v
  end.
Definition tomlNestedString (cfg : gomap) (section key : string) : string :=
  match lookup_map cfg section with Some (VMap nested) => tomlString nested key | _ => "" end.

Definition problem (setting observed expected : string) : list string :=
  if negb (String.eqb expected "") && negb (String.eqb observed expected)
  then [setting +:+ " observed " +:+ quote_ observed +:+ ", want " +:+ quote_ expected] else [].

Definition validateBackendVerification (v : backendVerification) : bool * string :=
  let problems :=
    problem "app-db-backend" (bv_ObservedAppDBBackend v) (bv_ExpectedAppDBBackend v) ++
    problem "db_backend" (bv_ObservedNodeDBBackend v) (bv_ExpectedNodeDBBackend v) ++
    problem "tx_index.indexer" (bv_ObservedTxIndexer v) (bv_ExpectedTxIndexer v) in
  if Nat.ltb 0 (length problems) then (false, Join problems "; ") else (true, "").

Definition expected_backends `{Cat : Catalyst} (sc : scenario) : backendVerification :=
  {| bv_ExpectedAppDBBackend := sc_AppDBBackend sc; bv_ExpectedNodeDBBackend := sc_NodeDBBackend sc;
     bv_ExpectedTxIndexer := sc_TxIndexer sc; bv_ObservedAppDBBackend := ""; bv_ObservedNodeDBBackend := "";
     bv_ObservedTxIndexer := ""; bv_AppConfigPath := "config/app.toml"; bv_NodeConfigPath := "config/config.toml";
     bv_Valid := false; bv_Error := "" |}.

Definition verification_failed (err : string) (v : backendVerification) : backendVerification :=
  {| bv_ExpectedAppDBBackend := bv_ExpectedAppDBBackend v; bv_ExpectedNodeDBBackend := bv_ExpectedNodeDBBackend v;
     bv_ExpectedTxIndexer := bv_ExpectedTxIndexer v; bv_ObservedAppDBBackend := bv_ObservedAppDBBackend v;
     bv_ObservedNodeDBBackend := bv_ObservedNodeDBBackend v; bv_ObservedTxIndexer := bv_ObservedTxIndexer v;
     bv_AppConfigPath := bv_AppConfigPath v; bv_NodeConfigPath := bv_NodeConfigPath v; bv_Valid := false; bv_Error := err |}.

(** What the two files say, and whether it is what was expected. *)
Definition observe_backends (appConfig nodeConfig : gomap) (v : backendVerification) : backendVerification :=
  let seen valid err :=
    {| bv_ExpectedAppDBBackend := bv_ExpectedAppDBBackend v; bv_ExpectedNodeDBBackend := bv_ExpectedNodeDBBackend v;
       bv_ExpectedTxIndexer := bv_ExpectedTxIndexer v;
       bv_ObservedAppDBBackend := tomlString appConfig "app-db-backend";
       bv_ObservedNodeDBBackend := tomlString nodeConfig "db_backend";
       bv_ObservedTxIndexer := tomlNestedString nodeConfig "tx_index" "indexer";
       bv_AppConfigPath := bv_AppConfigPath v; bv_NodeConfigPath := bv_NodeConfigPath v; bv_Valid := valid; bv_Error := err |} in
  let '(valid, err) := validateBackendVerification (seen false "") in seen valid err.

Definition readValidatorToml (path : string) : ProfileM gomap :=
  let* body := ask (ReadValidatorFile path) in
  lift_res (Unmarshal body).

Definition restoreFirstValidator (providerState chainState : string) (isEVM : bool) : ProfileM unit :=
  let* n := restore_validators providerState chainState isEVM in
  if n =? 0 then throw (ENew "no validators") else retM tt.

Definition verifySimappBackends `{Cat : Catalyst} (providerState chainState : string) (sc : scenario)
    : ProfileM backendVerification :=
  let v := expected_backends sc in
  let* validator := try_ (restoreFirstValidator providerState chainState (sc_IsEVMChain sc)) in
  match validator with
  | inr err => retM (verification_failed (Error err) v)
  | inl _ =>
      let* appConfig := try_ (readValidatorToml (bv_AppConfigPath v)) in
      match appConfig with
      | inr err => retM (verification_failed ("read app backend config: " +:+ Error err) v)
      | inl appConfig =>
          let* nodeConfig := try_ (readValidatorToml (bv_NodeConfigPath v)) in
          match nodeConfig with
          | inr err => retM (verification_failed ("read node backend config: " +:+ Error err) v)
          | inl nodeConfig => retM (observe_backends appConfig nodeConfig v)
          end
      end
  end.
End verification.

(** ** The databases a scenario asks for are those its files get *)
Lemma touches_lookup p : forall m v, lookup_path m p = Some v -> touches m p = true.
Proof.
  induction p as [|k p IH]; intros m v Hm; [done|]. cbn [lookup_path] in Hm. cbn [touches].
  destruct p as [|k2 p]; [rewrite Hm; by destruct v|]. destruct (lookup_map m k) as [[]|]; try done. by eapply IH.
Qed.




Section backends.
Context `{Lit : CatalystLiterals}.
Variable quote_ : string -> string.
Variable Sprint : GoVal -> string.








End backends.
