(* ===== verification/RunnerRun.v ===== *)
(** * A run of the report runner: [runScenario] of [cmd/local-report-runner/main.go]

    A scenario from its image to its result: provider, launch, scrapes, load
    under a sampler and a monitor, or a benchmark of commits, what is
    collected afterwards, and the teardown.  The activities, the sampler, the
    monitor and the collector of profiles are calls; the scrapes, the audit and
    the profiles are the programs of the other files, run in place. *)

From S2P Require Import Prelude GoStrings GoVal GoTime GoFloat GoText GoFormat ProviderDefs ChainTypes Messages Util RunnerWindows RunnerMetrics RunnerSignals RunnerLogs RunnerMonitor RunnerCadence RunnerAccounting RunnerCounts RunnerAudit RunnerScrape RunnerScenario RunnerProfiles.
From coqutil Require Import Datatypes.RecordSetters.
Import DoubleBraceUpdate.

Record commitBenchmark := { bm_Blocks : Z; bm_StartHeight : Z; bm_EndHeight : Z }.

Definition defaultMnemonic : string :=
  "copper push brief egg scan entry inform record adjust fossil boss egg comic alien upon aspect dry avoid interest fury window hint race symptom".

(** The flags [runScenario] is given. *)
Record run_options := {
  op_skipBuild : bool;
  op_keep : bool;
  op_commitBenchBlocks : Z;
  op_appProfiles : appProfileCaptureConfig;
  op_rawTxAudit : bool;
  op_loadWindowDrainTimeout : Z;
  op_loadWindowMinDuration : Z;
  op_loadWindowTargetFraction : float;
  op_stopCatalystAfterLoadWindow : bool;
  op_treeDBStatsSampleInterval : Z;
  op_treeDBPostLoadDwell : Z
}.

Section run.
Context {R : MapRange} {Cat : Catalyst} {G : Gzip}.
Variable durationString : Z -> string.            (* Duration.String *)
Variable quote_ : string -> string.               (* %q *)
Variable Sprint : GoVal -> string.                (* fmt.Sprint *)
Variable Unmarshal : string -> res gomap.         (* toml.Unmarshal *)
Variable decode_row : string -> option (gmap string string).   (* json.Unmarshal of a row of docker stats *)
Variable no_stats : OverallStats.                 (* the zero value *)

(** ** Catalyst's result and the load test's messages, with catalyst's specification *)
Record load_result := { lr_Overall : OverallStats; lr_Error : string; lr_RPCs : list string (* by node, in the order of the range *) }.
Definition no_result : load_result := {| lr_Overall := no_stats; lr_Error := ""; lr_RPCs := [] |}.

Record load_request := {
  lq_ChainState : string;
  lq_ProviderState : string;
  lq_LoadTestSpec : LoadTestSpec;
  lq_IsEvmChain : bool;
  lq_BaseMnemonic : string;
  lq_NumWallets : Z;
  lq_CatalystVersion : string
}.
Record load_response := {
  lx_ProviderState : string;
  lx_Result : load_result;
  lx_TaskLogs : string;
  lx_LoadTestConfig : string;
  lx_StoppedReason : string
}.

(** ** Results: the fields of [runResult] a scenario fills *)
Record run_result := {
  run_StartedAt : Z;
  run_FinishedAt : Z;
  run_WallSeconds : float;
  run_LaunchSeconds : float;
  run_PhaseTimeline : list phaseSpan;
  run_ImageBuildCommand : list string;
  run_ImageBuildLog : string;
  run_ProviderName : string;
  run_ContainerStats : list string;
  run_ResourceSamples : list resourceSample;
  run_ResourceSummary : list resourceSummary;
  run_MetricsBefore : list metricSnapshot;
  run_MetricsAfter : list metricSnapshot;
  run_TreeDBStatsBefore : list treeDBStatsSnapshot;
  run_TreeDBStatsAfter : list treeDBStatsSnapshot;
  run_TreeDBStatDeltas : list treeDBStatsDelta;
  run_TreeDBDwellSnapshots : list treeDBDwellSnapshot;
  run_BackendVerification : option backendVerification;
  run_DataSizesBefore : list dataPathSize;
  run_DataSizesAfter : list dataPathSize;
  run_StorageSignals : list storageSignal;
  run_LoadWindow : option loadWindowObservation;
  run_PhaseOverlaps : list loadWindowPhaseOverlap;            (* LoadWindow.PhaseOverlaps *)
  run_WindowTables : option window_tables;                    (* LoadWindow's tables *)
  run_RuntimeBreakdown : list runtimeBreakdown;
  run_ContainerLogs : gmap string string;
  run_LoadTestResult : load_result;
  run_LoadTestConfig : string;
  run_LoadTestLogs : string;
  run_LoadTestStopped : string;
  run_LoadTestLogSummary : loadTestLogSummary;
  run_CorrectedLoadTest : option correctedLoadTest;
  run_CommitBenchmark : option commitBenchmark;
  run_ProfileArtifacts : list profileArtifact;
  run_Derived : option derivedMetrics;
  run_RawTxAudit : list txAudit;
  run_RawTxSummary : option txAuditSummary;
  run_RawTxAuditSkipped : string;
  run_Error : string
}.

Definition new_result : run_result :=
  {| run_StartedAt := zero_time; run_FinishedAt := zero_time; run_WallSeconds := fzero; run_LaunchSeconds := fzero;
     run_PhaseTimeline := []; run_ImageBuildCommand := []; run_ImageBuildLog := ""; run_ProviderName := "";
     run_ContainerStats := []; run_ResourceSamples := []; run_ResourceSummary := []; run_MetricsBefore := [];
     run_MetricsAfter := []; run_TreeDBStatsBefore := []; run_TreeDBStatsAfter := []; run_TreeDBStatDeltas := [];
     run_TreeDBDwellSnapshots := []; run_BackendVerification := None; run_DataSizesBefore := []; run_DataSizesAfter := [];
     run_StorageSignals := []; run_LoadWindow := None; run_PhaseOverlaps := []; run_WindowTables := None;
     run_RuntimeBreakdown := []; run_ContainerLogs := ∅; run_LoadTestResult := no_result; run_LoadTestConfig := "";
     run_LoadTestLogs := ""; run_LoadTestStopped := ""; run_LoadTestLogSummary := no_logs; run_CorrectedLoadTest := None;
     run_CommitBenchmark := None; run_ProfileArtifacts := []; run_Derived := None; run_RawTxAudit := [];
     run_RawTxSummary := None; run_RawTxAuditSkipped := ""; run_Error := "" |}.

(** What the counts read of a result. *)
Definition counts_of (sc : scenario) (r : run_result) : runResult :=
  {| rr_TxIndexer := sc_TxIndexer sc; rr_WallSeconds := run_WallSeconds r; rr_LaunchSeconds := run_LaunchSeconds r;
     rr_PhaseTimeline := run_PhaseTimeline r; rr_StorageSignals := run_StorageSignals r; rr_LoadWindow := run_LoadWindow r;
     rr_Overall := lr_Overall (run_LoadTestResult r); rr_LoadTestStopped := run_LoadTestStopped r;
     rr_RawTxSummary := run_RawTxSummary r; rr_RawTxAuditSkipped := run_RawTxAuditSkipped r;
     rr_CorrectedLoadTest := run_CorrectedLoadTest r |}.

(** ** Calls *)

(** What an activity answers, or its panic. *)
Abbreviation activity_answer A := (A * option error + string)%type.

Inductive run_call :=
| ClockNow
| RandomSuffix (n : Z)
| DockerBuild (args : list string)                            (* the output and the error *)
| ActCreateProvider (req : CreateProviderRequest)             (* the provider's state *)
| ActLaunchTestnet (req : LaunchTestnetRequest)
| ActRunLoadTest (req : load_request) (stopCondition : bool)
| ActTeardownProvider (req : TeardownProviderRequest)
| StartSampler (interval : Z)
| StopSampler
| StartMonitor (baseline : list metricSnapshot) (treeDBBaseline : list treeDBStatsSnapshot) (collectTreeDBStats : bool)
    (targetTransactions minDuration interval treeDBStatsSampleInterval : Z)
| OfMonitor (c : wait_call)
| StartCollector (providerState chainState : string) (requests : list appProfileRequest)
| CollectorDone
| ChainHeight
| ChainWaitForBlocks (blocks : Z)
| OfScrape (c : scrape_call)
| OfAudit (c : audit_call)
| OfProfile (c : profile_call).

Definition run_ans (c : run_call) : Type :=
  match c with
  | ClockNow => Z
  | RandomSuffix _ => string
  | DockerBuild _ => string * option error
  | ActCreateProvider _ => activity_answer string
  | ActLaunchTestnet _ => activity_answer LaunchTestnetResponse
  | ActRunLoadTest _ _ => activity_answer load_response
  | ActTeardownProvider _ => activity_answer unit
  | StartSampler _ | StartMonitor _ _ _ _ _ _ _ | StartCollector _ _ _ => unit
  | StopSampler => list resourceSample
  | OfMonitor c => wait_ans c
  | CollectorDone => list profileArtifact
  | ChainHeight => res Z
  | ChainWaitForBlocks _ => res unit
  | OfScrape c => scrape_ans c
  | OfAudit c => audit_ans c
  | OfProfile c => profile_ans c
  end.
Canonical run_sig : sig := Sig run_call run_ans.

(** The locals the deferred functions share with the body. *)
Record run_state := {
  st_teardown : string;                 (* providerStateForTeardown *)
  st_sampler : bool;                    (* sampler != nil *)
  st_result : run_result
}.
Abbreviation RunM := (M run_sig run_state).

Definition on_scrape {A} (m : ScrapeM A) : RunM A := scoped tt (embed (E' := run_sig) OfScrape (fun _ x => x) m).
Definition on_audit {A} (m : AuditM A) : RunM A := scoped tt (embed (E' := run_sig) OfAudit (fun _ x => x) m).
Definition on_profile {A} (m : ProfileM A) : RunM A := scoped tt (embed (E' := run_sig) OfProfile (fun _ x => x) m).
Definition on_monitor {A} (m : M wait_sig unit A) : RunM A := scoped tt (embed (E' := run_sig) OfMonitor (fun _ x => x) m).

(** An activity called in place: its response and error, or its panic. *)
Definition call_activity {A} (m : RunM (activity_answer A)) : RunM (A * option error) :=
  let* answer := m in
  match answer with inl x => retM x | inr msg => panic msg end.

Definition update (f : run_result -> run_result) : RunM unit := modify (fun s => s {{ st_result ::= f }}).
Definition result : RunM run_result := let* s := get in retM (st_result s).
Definition fail_run (msg : string) : RunM unit := update (fun r => r {{ run_Error := msg }}).

(** [endPhase := startPhase(...)], the body, [endPhase()]. *)
Definition phase {A} (name note : string) (m : RunM A) : RunM A :=
  let* start := perform ClockNow in
  let* x := m in
  let* stop := perform ClockNow in
  let* _ := update (fun r => r {{ run_PhaseTimeline := endPhase (run_PhaseTimeline r) name note start stop }}) in
  retM x.

(** ** The image *)
Definition buildImage (sc : scenario) : RunM (list string * string * option error) :=
  let args := build_args sc in
  let* '(out, err) := perform (DockerBuild args) in
  retM ("docker" :: args, out, err).

(** ** The benchmark of commits *)
Definition runCommitBenchmark (providerState chainState : string) (sc : scenario) (blocks : Z) : RunM (option commitBenchmark) :=
  if blocks =? 0 then retM None
  else
    let* _ := on_profile (restore_validators providerState chainState (sc_IsEVMChain sc)) in
    let* startHeight := wrap "read start height" (ask (ChainHeight : call run_sig)) in
    let* _ := wrap ("wait for " +:+ itoa blocks +:+ " blocks from height " +:+ itoa startHeight)
                (ask (ChainWaitForBlocks blocks : call run_sig)) in
    let* endHeight := wrap "read end height" (ask (ChainHeight : call run_sig)) in
    retM (Some {| bm_Blocks := blocks; bm_StartHeight := startHeight; bm_EndHeight := endHeight |}).

(** ** The load test's stop condition *)
Definition stop_condition (obs : loadWindowObservation) : bool * string :=
  if negb (Reached obs) then (false, "")
  else
    let counted := itoa (SuccessfulTransactions obs) +:+ " successful tx in " +:+ format_fixed 3 (ob_Seconds obs) +:+ "s" in
    if DurationSatisfied obs then (true, "load window reached: " +:+ counted)
    else (true, "load window reached too quickly: " +:+ counted +:+ " below " +:+ format_fixed 3 (MinimumSeconds obs) +:+ "s minimum").

(** [errors.As(err, &stopped)] *)
Fixpoint stopped_reason (e : error) : option string :=
  match e with
  | EStopped reason => Some reason
  | EWrap _ e' | ESuffix e' _ => stopped_reason e'
  | EJoin es =>
      (fix first (es : list error) : option string :=
         match es with
         | [] => None
         | e' :: es' => match stopped_reason e' with Some reason => Some reason | None => first es' end
         end) es
  | _ => None
  end.

(** ** What the deferred functions do *)

(** The first defer, before it recovers: the times, the phases in the window, the counts, the breakdown. *)
Definition finish_times (finished : Z) (r : run_result) : run_result :=
  r {{ run_FinishedAt := finished; run_WallSeconds := Seconds (Sub finished (run_StartedAt r)) }}.
Definition set_overlaps (r : run_result) : run_result :=
  match run_LoadWindow r with
  | Some obs =>
      r {{ run_PhaseOverlaps := summarizeLoadWindowPhaseOverlaps (run_PhaseTimeline r) (StartedAt obs) (EndedAt obs) }}
  | None => r
  end.
Definition set_derived (sc : scenario) (r : run_result) : run_result :=
  r {{ run_Derived := Some (deriveMetrics (sc_IsEVMChain sc) (sc_LoadTestSpec sc) (counts_of sc r)) }}.
Definition set_derived_if_counted (sc : scenario) (r : run_result) : run_result :=
  if negb (os_TotalTransactions (lr_Overall (run_LoadTestResult r)) =? 0) ||
     bool_decide (is_Some (usableRawTxSummary (counts_of sc r))) || bool_decide (is_Some (run_CorrectedLoadTest r))
  then set_derived sc r else r.
Definition set_breakdown (sc : scenario) (r : run_result) : run_result :=
  r {{ run_RuntimeBreakdown := summarizeRuntimeBreakdown (counts_of sc r) }}.

Definition finish_run (sc : scenario) : RunM unit :=
  let* finished := perform ClockNow in
  update (fun r => set_breakdown sc (set_derived_if_counted sc (set_overlaps (finish_times finished r)))).

(** The second: what the containers say, and the teardown. *)
Definition teardown_run (keep : bool) : RunM unit :=
  let* stats := on_scrape dockerStats in
  let* _ := update (fun r => r {{ run_ContainerStats := stats }}) in
  let* logs := on_scrape (dockerLogs 16000) in
  let* _ := update (fun r => r {{ run_ContainerLogs := logs }}) in
  if keep then retM tt
  else
    let* s := get in
    if String.eqb (st_teardown s) "" then retM tt
    else
      let* _ := call_activity (perform (ActTeardownProvider {| tp_RunnerType := Docker; tp_ProviderState := st_teardown s |})) in
      retM tt.

(** The third, and what the body does where it stops the sampler itself. *)
Definition stop_sampler : RunM unit :=
  let* s := get in
  if st_sampler s then
    let* samples := perform StopSampler in
    modify (fun s => s {{ st_result ::= fun r => r {{ run_ResourceSamples := samples;
                                                     run_ResourceSummary := summarizeResourceSamples decode_row samples }};
                          st_sampler := false }})
  else retM tt.
Definition stop_sampler_phase : RunM unit :=
  let* s := get in
  if st_sampler s then phase "stop_resource_sampler" "" stop_sampler else retM tt.

Definition start_sampler : RunM unit :=
  let* _ := perform (StartSampler Second) in
  modify (fun s => s {{ st_sampler := true }}).

(** ** What is collected before and after the load *)
Definition collect_before (sc : scenario) (opts : run_options) : RunM unit :=
  let* _ := phase "collect_before_metrics" "" (
    let* metrics := on_scrape scrapeMetrics in update (fun r => r {{ run_MetricsBefore := metrics }})) in
  let* _ := (if DebugVars (op_appProfiles opts) then
    phase "collect_before_treedb_debug_vars" "" (
      let* stats := on_scrape (scrapeTreeDBDebugVars Sprint) in update (fun r => r {{ run_TreeDBStatsBefore := stats }}))
    else retM tt) in
  phase "collect_before_data_sizes" "" (
    let* sizes := on_scrape (collectDataSizes (sc_BaseImage sc)) in update (fun r => r {{ run_DataSizesBefore := sizes }})).

Definition collect_after (sc : scenario) (opts : run_options) : RunM unit :=
  let* _ := phase "collect_after_metrics" "" (
    let* metrics := on_scrape scrapeMetrics in update (fun r => r {{ run_MetricsAfter := metrics }})) in
  let* _ := (if DebugVars (op_appProfiles opts) then
    phase "collect_after_treedb_debug_vars" "" (
      let* stats := on_scrape (scrapeTreeDBDebugVars Sprint) in
      update (fun r => r {{ run_TreeDBStatsAfter := stats;
                            run_TreeDBStatDeltas := treeDBStatsDeltaSnapshots (run_TreeDBStatsBefore r) stats }}))
    else retM tt) in
  let* _ := phase "collect_after_data_sizes" "" (
    let* sizes := on_scrape (collectDataSizes (sc_BaseImage sc)) in update (fun r => r {{ run_DataSizesAfter := sizes }})) in
  update (fun r => r {{ run_StorageSignals := summarizeStorageSignals (run_MetricsBefore r) (run_MetricsAfter r)
                                               (run_DataSizesBefore r) (run_DataSizesAfter r) }}).

(** The profiles of some requests, after those the result has. *)
Definition collect_profiles (phaseName : string) (launched : LaunchTestnetResponse) (sc : scenario)
    (requests : list appProfileRequest) : RunM unit :=
  phase phaseName "" (
    let* artifacts := on_profile (collectAppProfileRequests quote_ (sc_Name sc) (sc_IsEVMChain sc)
      (lp_ProviderState launched) (lp_ChainState launched) requests) in
    update (fun r => r {{ run_ProfileArtifacts ::= fun l => l ++ artifacts }})).

(** ** The load *)
Definition start_monitor (sc : scenario) (opts : run_options) : RunM bool :=
  let intendedTxs := intended sc in
  if negb (sc_IsEVMChain sc) && (0 <? intendedTxs) then
    let targetTxs := loadWindowTargetTransactions intendedTxs (op_loadWindowTargetFraction opts) in
    let* r := result in
    let* _ := perform (StartMonitor (run_MetricsBefore r) (run_TreeDBStatsBefore r) (DebugVars (op_appProfiles opts)) targetTxs
                         (op_loadWindowMinDuration opts) (500 * Millisecond) (op_treeDBStatsSampleInterval opts)) in
    retM true
  else retM false.

Definition start_collector (launched : LaunchTestnetResponse) (requests : list appProfileRequest) : RunM bool :=
  match requests with
  | [] => retM false
  | _ => let* _ := perform (StartCollector (lp_ProviderState launched) (lp_ChainState launched) requests) in retM true
  end.

Definition load_request_of (sc : scenario) (launched : LaunchTestnetResponse) : load_request :=
  {| lq_ChainState := lp_ChainState launched; lq_ProviderState := lp_ProviderState launched;
     lq_LoadTestSpec := sc_LoadTestSpec sc; lq_IsEvmChain := sc_IsEVMChain sc; lq_BaseMnemonic := defaultMnemonic;
     lq_NumWallets := sc_NumWallets sc; lq_CatalystVersion := sc_CatalystVersion sc |}.

Definition end_monitor (opts : run_options) (monitored : bool) : RunM unit :=
  if monitored then
    let timeout := op_loadWindowDrainTimeout opts in
    let* obs :=
      (if 0 <? timeout then
         phase "load_window_drain" ("timeout=" +:+ durationString timeout) (on_monitor (Wait durationString timeout))
       else on_monitor Stop) in
    update (fun r => r {{ run_LoadWindow := Some obs }})
  else retM tt.

Definition end_collector (collecting : bool) : RunM unit :=
  if collecting then
    phase "collect_active_window_app_profiles" "" (
      let* artifacts := perform CollectorDone in
      update (fun r => r {{ run_ProfileArtifacts ::= fun l =>
        l ++ annotateProfileArtifactsWithLoadWindowTiming artifacts (run_LoadWindow r) }}))
  else retM tt.

(** The load test's response in the result, and the tables of its window. *)
Definition record_load (loadResp : load_response) : RunM unit :=
  update (fun r =>
    let logs := summarizeLoadTestLogs (lx_TaskLogs loadResp) in
    r {{ run_LoadTestResult := lx_Result loadResp; run_LoadTestConfig := lx_LoadTestConfig loadResp;
         run_LoadTestLogs := trimLog (lx_TaskLogs loadResp) 40000; run_LoadTestStopped := lx_StoppedReason loadResp;
         run_LoadTestLogSummary := logs;
         run_WindowTables := populate (run_PhaseTimeline r) logs (run_LoadWindow r) }}).

Definition dwell (sc : scenario) (opts : run_options) : RunM unit :=
  let duration := op_treeDBPostLoadDwell opts in
  if shouldCollectTreeDBDwell (sc_AppDBBackend sc) (sc_NodeDBBackend sc) (DebugVars (op_appProfiles opts)) duration then
    phase "treedb_post_load_dwell" ("duration=" +:+ durationString duration) (
      let* r := result in
      let* snapshots := on_scrape (collectTreeDBDwellSnapshots Sprint (sc_BaseImage sc) (run_TreeDBStatsAfter r)
                                     (run_DataSizesAfter r) duration) in
      update (fun r => r {{ run_TreeDBDwellSnapshots := snapshots }}))
  else retM tt.

(** The profiles and the audit: the CPU profile stops the validator, so it is taken after the audit. *)
Definition audit_and_profile (sc : scenario) (opts : run_options) (launched : LaunchTestnetResponse) (loadResp : load_response)
    : RunM unit :=
  let '(runRawTxAudit, skipReason) := rawTxAuditDecision sc (op_rawTxAudit opts) in
  let requests := appProfileRequests sc (op_appProfiles opts) in
  let '(preAudit, postAudit) := if runRawTxAudit then splitAppProfileRequestsForRawTxAudit requests else (requests, []) in
  let* _ := collect_profiles "collect_app_profiles" launched sc preAudit in
  let* _ :=
    (if runRawTxAudit then
       phase "raw_tx_audit" "" (
         let* r := result in
         let* audits := on_audit (auditRawTxs Sprint (run_ProviderName r) (sc_ChainName sc) (lx_TaskLogs loadResp)
                                    (lr_RPCs (lx_Result loadResp))) in
         update (fun r => r {{ run_RawTxAudit := audits;
                               run_RawTxSummary := summarizeTxAudit audits (os_Runtime (lr_Overall (lx_Result loadResp))) }}))
     else if negb (String.eqb skipReason "") then update (fun r => r {{ run_RawTxAuditSkipped := skipReason }})
     else retM tt) in
  if Nat.eqb (length postAudit) 0 then retM tt else collect_profiles "collect_app_cpu_profile" launched sc postAudit.

Definition derive (sc : scenario) : RunM unit :=
  update (fun r => set_derived sc (r {{ run_CorrectedLoadTest := summarizeCorrectedLoadTest (counts_of sc r) }})).

(** The error of the run, from the load test's. *)
Definition conclude (opts : run_options) (loadResp : load_response) (err : option error) : RunM unit :=
  let* r := result in
  match err with
  | Some e =>
      let failed := fail_run ("run load test: " +:+ Error e) in
      match stopped_reason e with
      | Some reason =>
          if op_stopCatalystAfterLoadWindow opts && loadWindowAccepted (run_LoadWindow r) then
            if String.eqb (run_LoadTestStopped r) "" then update (fun r => r {{ run_LoadTestStopped := reason }}) else retM tt
          else failed
      | None => failed
      end
  | None =>
      if String.eqb (lr_Error (lx_Result loadResp)) "" then retM tt
      else fail_run ("load test result error: " +:+ lr_Error (lx_Result loadResp))
  end.

(** After the load test's answer. *)
Definition end_load (sc : scenario) (opts : run_options) (launched : LaunchTestnetResponse) (monitored collecting : bool)
    (loadResp : load_response) (err : option error) : RunM unit :=
  let* _ := end_monitor opts monitored in
  let* _ := end_collector collecting in
  let* _ := stop_sampler_phase in
  let* _ := collect_after sc opts in
  let* _ := record_load loadResp in
  let* _ := dwell sc opts in
  let* _ := audit_and_profile sc opts launched loadResp in
  let* _ := derive sc in
  let* _ := (if String.eqb (lx_ProviderState loadResp) "" then retM tt
             else modify (fun s => s {{ st_teardown := lx_ProviderState loadResp }})) in
  conclude opts loadResp err.

Definition run_load (sc : scenario) (opts : run_options) (launched : LaunchTestnetResponse) : RunM unit :=
  let* monitored := start_monitor sc opts in
  let* collecting := start_collector launched (appActiveWindowProfileRequests sc (op_appProfiles opts)) in
  let* '(loadResp, err) := phase "run_load_test" ("wallets=" +:+ itoa (sc_NumWallets sc))
    (call_activity (perform (ActRunLoadTest (load_request_of sc launched) (op_stopCatalystAfterLoadWindow opts && monitored)))) in
  end_load sc opts launched monitored collecting loadResp err.

(** After the benchmark. *)
Definition end_benchmark (sc : scenario) (opts : run_options) (launched : LaunchTestnetResponse)
    (bench : res (option commitBenchmark)) : RunM unit :=
  let* _ := stop_sampler_phase in
  let* _ := collect_after sc opts in
  let* _ := update (fun r => r {{ run_CommitBenchmark := match bench with inl b => b | inr _ => None end }}) in
  let* _ := collect_profiles "collect_app_cpu_profile" launched sc (appProfileRequests sc (op_appProfiles opts)) in
  match bench with
  | inl _ => retM tt
  | inr err => fail_run ("run commit benchmark: " +:+ Error err)
  end.

(** The benchmark of commits in the place of a load. *)
Definition run_benchmark (sc : scenario) (opts : run_options) (launched : LaunchTestnetResponse) : RunM unit :=
  let blocks := op_commitBenchBlocks opts in
  let* bench := phase "commit_benchmark" ("blocks=" +:+ itoa blocks)
    (try_ (runCommitBenchmark (lp_ProviderState launched) (lp_ChainState launched) sc blocks)) in
  end_benchmark sc opts launched bench.

(** ** The testnet *)
Definition launch_request (sc : scenario) (providerState : string) : LaunchTestnetRequest :=
  {| lr_Name := sc_ChainName sc; lr_IsEvmChain := sc_IsEVMChain sc; lr_Repo := sc_Repo sc; lr_SHA := sc_ChainRef sc;
     lr_Image := sc_ImageTag sc; lr_BaseImage := sc_BaseImage sc;
     lr_GenesisModifications := map (fun kv => {| gkv_Key := kv.1; gkv_Value := kv.2 |}) (sc_Genesis sc);
     lr_RunnerType := Docker; lr_RegionConfigs := []; lr_NumOfValidators := sc_NumValidators sc;
     lr_NumOfNodes := sc_NumNodes sc; lr_CustomAppConfig := Some (sc_CustomAppConfig sc);
     lr_CustomConsensusConfig := Some (sc_CustomConfig sc); lr_CustomClientConfig := Some (sc_CustomClient sc);
     lr_AdditionalStartFlags := sc_AdditionalFlags sc; lr_ProviderState := providerState; lr_SetPersistentPeers := true;
     lr_SetSeedNode := false; lr_BaseMnemonic := defaultMnemonic; lr_NumWallets := launchGenesisAccounts sc;
     lr_ProviderSpecificConfig := None |}.

Definition launch (sc : scenario) (providerState : string) : RunM (LaunchTestnetResponse * option error) :=
  let* launchStart := perform ClockNow in
  let* '(launched, err) := phase "launch_testnet" ("genesis_accounts=" +:+ itoa (launchGenesisAccounts sc))
    (call_activity (perform (ActLaunchTestnet (launch_request sc providerState)))) in
  let* launchEnd := perform ClockNow in
  let* _ := update (fun r => r {{ run_LaunchSeconds := Seconds (Sub launchEnd launchStart) }}) in
  retM (launched, err).

(** Whether the scenario's databases are checked, and the check; true: the run goes on. *)
Definition checks_backends (sc : scenario) : bool :=
  String.eqb (sc_BaseImage sc) "simapp" && (nonempty (sc_AppDBBackend sc) || nonempty (sc_NodeDBBackend sc)).
Definition check_backends (sc : scenario) (launched : LaunchTestnetResponse) : RunM bool :=
  if checks_backends sc then
    let* verification := phase "verify_backend_config" "" (
      let* v := on_profile (verifySimappBackends quote_ Sprint Unmarshal (lp_ProviderState launched) (lp_ChainState launched) sc) in
      let* _ := update (fun r => r {{ run_BackendVerification := Some v }}) in
      retM v) in
    if bv_Valid verification then retM true
    else let* _ := fail_run ("backend verification failed: " +:+ bv_Error verification) in retM false
  else retM true.

Definition run_testnet (sc : scenario) (opts : run_options) (providerState : string) : RunM unit :=
  let* '(launched, err) := launch sc providerState in
  let* _ := (if String.eqb (lp_ProviderState launched) "" then retM tt
             else modify (fun s => s {{ st_teardown := lp_ProviderState launched }})) in
  match err with
  | Some e => fail_run ("launch testnet: " +:+ Error e)
  | None =>
      let* _ := modify (fun s => s {{ st_teardown := lp_ProviderState launched }}) in
      let* valid := check_backends sc launched in
      if valid : bool then
        let* _ := collect_before sc opts in
        let* _ := start_sampler in
        deferring stop_sampler
          (if 0 <? op_commitBenchBlocks opts then run_benchmark sc opts launched else run_load sc opts launched)
      else retM tt
  end.

(** ** The run *)
Definition build_image (sc : scenario) : RunM (option error) :=
  let* '(cmd, logText, err) := phase "build_image" (sc_ImageTag sc) (buildImage sc) in
  let* _ := update (fun r => r {{ run_ImageBuildCommand := cmd; run_ImageBuildLog := trimLog logText 20000 }}) in
  retM err.

Definition run_provider (sc : scenario) (opts : run_options) : RunM unit :=
  let* r := result in
  let name := run_ProviderName r in
  let* '(providerState, err) := phase "create_provider" name
    (call_activity (perform (ActCreateProvider {| cp_RunnerType := Docker; cp_Name := name |}))) in
  match err with
  | Some e => fail_run ("create provider: " +:+ Error e)
  | None =>
      let* compressed := try_ (lift_outcome (CompressData providerState)) in
      match compressed with
      | inr e => fail_run ("compress provider state for teardown: " +:+ Error e)
      | inl compressed =>
          let* _ := modify (fun s => s {{ st_teardown := compressed }}) in
          deferring (teardown_run (op_keep opts)) (run_testnet sc opts providerState)
      end
  end.

Definition run_body (sc : scenario) (opts : run_options) : RunM unit :=
  let* err := (if op_skipBuild opts then retM None else build_image sc) in
  match err with
  | Some e => fail_run ("build image: " +:+ Error e)
  | None => run_provider sc opts
  end.

Definition runScenario (sc : scenario) (opts : run_options) : RunM run_result :=
  let* started := perform ClockNow in
  let* suffix := perform (RandomSuffix 4) in
  let* _ := update (fun r => r {{ run_StartedAt := started;
                                  run_ProviderName := "ib" +:+ shortChainName (sc_Name sc) +:+ ToLower suffix }}) in
  let* _ := recovering (finish_run sc) fail_run (run_body sc opts) in
  result.

(** A run has its own locals. *)
Definition run_scenario (sc : scenario) (opts : run_options) : M run_sig unit run_result :=
  scoped {| st_teardown := ""; st_sampler := false; st_result := new_result |} (runScenario sc opts).
End run.

(** ** What the collections do: they end, with a value *)
Section collections.
Context {R : MapRange} {Cat : Catalyst}.
Variable quote_ : string -> string.
Variable Sprint : GoVal -> string.
Variable Unmarshal : string -> res gomap.

#[local] Abbreviation gentle strict m := (calm strict (fun _ => True) any_state m).

#[local] Ltac gentle_go := calm_go; auto; try done.

Lemma collect_gentle {A} names (f : string -> ScrapeM (list A)) :
  (forall name, gentle true (f name)) -> gentle true (collect names f).
Proof. intros Hf. induction names as [|name names IH]; cbn [collect]; gentle_go. Qed.

Lemma dockerStats_gentle : gentle true (dockerStats (S := unit)).
Proof. unfold dockerStats, dockerContainerNames. gentle_go. Qed.
Lemma dockerLogs_gentle limit : gentle true (dockerLogs limit).
Proof.
  unfold dockerLogs, dockerContainerNames. calm_step; [gentle_go|]. calm_step; [|gentle_go].
  apply collect_gentle. intros name. gentle_go.
Qed.
Lemma scrapeMetrics_gentle : gentle true scrapeMetrics.
Proof.
  unfold scrapeMetrics, dockerContainerNames. calm_step; [gentle_go|]. apply collect_gentle. intros name.
  unfold scrape_node, containerMetricsURL. gentle_go.
Qed.
Lemma scrapeTreeDBDebugVars_gentle : gentle true (scrapeTreeDBDebugVars Sprint).
Proof.
  unfold scrapeTreeDBDebugVars, dockerContainerNames. calm_step; [gentle_go|]. calm_step; [|gentle_go].
  apply collect_gentle. intros name. unfold vars_node. gentle_go.
Qed.
Lemma collectDataSizes_gentle image : gentle true (collectDataSizes image).
Proof.
  unfold collectDataSizes, dockerContainerNames. calm_step; [gentle_go|]. calm_step; [gentle_go|].
  apply collect_gentle. intros name. unfold sizes_node. gentle_go.
Qed.
Lemma collectTreeDBDwellSnapshots_gentle image stats sizes d :
  gentle true (collectTreeDBDwellSnapshots Sprint image stats sizes d).
Proof.
  unfold collectTreeDBDwellSnapshots.
  repeat (calm_step; [first [apply scrapeTreeDBDebugVars_gentle|apply collectDataSizes_gentle|gentle_go]|]). gentle_go.
Qed.

Lemma query_prefixes_gentle rpc hash prefixes : gentle true (query_prefixes Sprint rpc hash prefixes).
Proof. induction prefixes as [|prefix prefixes IH]; cbn [query_prefixes]; unfold queryRawTxOnce; gentle_go. Qed.
Lemma search_rpcs_gentle hash last rpcs : gentle true (search_rpcs Sprint hash last rpcs).
Proof.
  revert last. induction rpcs as [|rpc rpcs IH]; intros last; cbn [search_rpcs]; [gentle_go|].
  calm_step; [apply query_prefixes_gentle|]. gentle_go.
Qed.
Lemma external_rpcs_gentle names : gentle true (external_rpcs names).
Proof. induction names as [|name names IH]; cbn [external_rpcs]; gentle_go. Qed.
Lemma auditRawTxs_gentle provider chain logs byNode : gentle true (auditRawTxs Sprint provider chain logs byNode).
Proof.
  unfold auditRawTxs, candidateRPCs, dockerExternalRPCs. calm_step; [gentle_go|].
  calm_step; [calm_step; [|gentle_go]; calm_step; [gentle_go|]; destruct a; [apply external_rpcs_gentle|gentle_go]|].
  calm_step; [gentle_go|]. generalize (txHashesFromLogs logs). intros hashes.
  induction hashes as [|hash hashes IH]; cbn [audit_hashes]; [gentle_go|].
  calm_step; [apply search_rpcs_gentle|]. gentle_go.
Qed.

Lemma restore_validators_gentle providerState chainState evm : gentle false (restore_validators providerState chainState evm).
Proof. unfold restore_validators. gentle_go. Qed.
Lemma store_profile_gentle kind req a : gentle true (store_profile kind req a).
Proof. unfold store_profile. gentle_go. Qed.
Lemma collect_request_gentle name req : gentle true (collect_request quote_ name req).
Proof.
  unfold collect_request, collectAppCPUProfile, collectAppPprofEndpointProfile, timed_collection.
  gentle_go; apply store_profile_gentle.
Qed.
Lemma each_in_turn_gentle {A B} (l : list A) (f : A -> ProfileM B) :
  (forall x, gentle true (f x)) -> gentle true (each_in_turn l f).
Proof. intros Hf. induction l as [|x l IH]; cbn [each_in_turn]; gentle_go. Qed.
Lemma collectAppProfileRequests_gentle name evm providerState chainState requests :
  gentle true (collectAppProfileRequests quote_ name evm providerState chainState requests).
Proof.
  unfold collectAppProfileRequests. calm_step; [gentle_go|].
  calm_step; [apply calm_try, restore_validators_gentle|]. destruct a as [n|e]; [|gentle_go]. calm_step; [gentle_go|].
  calm_step; [apply each_in_turn_gentle, collect_request_gentle|]. apply each_in_turn_gentle.
  intros x. unfold top_summary. gentle_go.
Qed.
Lemma verifySimappBackends_gentle providerState chainState sc :
  gentle true (verifySimappBackends quote_ Sprint Unmarshal providerState chainState sc).
Proof.
  unfold verifySimappBackends, restoreFirstValidator, readValidatorToml.
  calm_step; [apply calm_try; calm_step; [apply restore_validators_gentle|gentle_go]|]. gentle_go.
Qed.
End collections.

(** ** What a run owes: a ledger of its calls *)
Section ledger.
Context {R : MapRange} {Cat : Catalyst} {G : Gzip}.
Variable durationString : Z -> string.
Variable quote_ : string -> string.
Variable Sprint : GoVal -> string.
Variable Unmarshal : string -> res gomap.
Variable decode_row : string -> option (gmap string string).
Variable no_stats : OverallStats.

Record ledger := {
  lg_exists : bool;                     (* a provider was created and has not been torn down *)
  lg_owed : string;                     (* the newest state of the provider the run has; empty: none *)
  lg_sampling : bool;
  lg_watching : bool;
  lg_closed : bool;                     (* the teardown has been called *)
  lg_failed : bool;                     (* and it answered an error, or panicked *)
  lg_ok : bool;                         (* every call so far was in place *)
  lg_launched : bool;
  lg_loaded : option (load_result * option error + string);
  lg_panicked : option string
}.
Definition no_ledger : ledger :=
  {| lg_exists := false; lg_owed := ""; lg_sampling := false; lg_watching := false; lg_closed := false; lg_failed := false; lg_ok := true; lg_launched := false;
     lg_loaded := None; lg_panicked := None |}.

(** A call in place: nothing but the clock is used after the teardown. *)
Definition placed (ok : bool) (L : ledger) : ledger := L {{ lg_ok := lg_ok L && negb (lg_closed L) && ok }}.

(** The provider's state in an answer. *)
Definition owes (state : string) (L : ledger) : ledger := if String.eqb state "" then L else L {{ lg_owed := state }}.

Definition account (L : ledger) (e : event run_sig) : ledger :=
  match projT1 e as c return run_ans c -> ledger with
  | ClockNow => fun _ => L
  | ActCreateProvider _ => fun x =>
      let L := placed (negb (lg_exists L)) L in
      match x with
      | inl (state, None) =>
          let L := L {{ lg_exists := true }} in
          match CompressData state with Ok z => L {{ lg_owed := z }} | _ => L end
      | inl (_, Some _) => L
      | inr msg => L {{ lg_panicked := Some msg }}
      end
  | ActLaunchTestnet _ => fun x =>
      let L := placed true L in
      match x with
      | inl (resp, None) => L {{ lg_owed := lp_ProviderState resp; lg_launched := true }}
      | inl (resp, Some _) => owes (lp_ProviderState resp) L
      | inr msg => L {{ lg_panicked := Some msg }}
      end
  | ActRunLoadTest _ _ => fun x =>
      let L := placed (lg_launched L && lg_sampling L) L in
      match x with
      | inl (resp, err) => owes (lx_ProviderState resp) (L {{ lg_loaded := Some (inl (lx_Result resp, err)) }})
      | inr msg => L {{ lg_loaded := Some (inr msg); lg_panicked := Some msg }}
      end
  | ActTeardownProvider req => fun x =>
      let state := tp_ProviderState req in
      let L := placed (negb (String.eqb state "") && String.eqb state (lg_owed L) && negb (lg_sampling L)) L in
      let L := L {{ lg_closed := true }} in
      match x with
      | inl (_, None) => L {{ lg_exists := false }}
      | inl (_, Some _) => L {{ lg_failed := true }}
      | inr msg => L {{ lg_failed := true; lg_panicked := Some msg }}
      end
  | StartSampler _ => fun _ => placed (negb (lg_sampling L)) L {{ lg_sampling := true }}
  | StopSampler => fun _ => placed (lg_sampling L) L {{ lg_sampling := false }}
  | StartMonitor _ _ _ _ _ _ _ => fun _ => placed (negb (lg_watching L)) L {{ lg_watching := true }}
  | OfMonitor DoneOrTimer => fun x =>
      let L := placed (lg_watching L) L in
      match x with Some _ => L {{ lg_watching := false }} | None => L end
  | OfMonitor CancelThenDone => fun _ => placed (lg_watching L) L {{ lg_watching := false }}
  | _ => fun _ => placed true L
  end (projT2 e).

Definition ledger_of (t : list (event run_sig)) : ledger := foldl account no_ledger t.

(** A load test the run accepts. *)
Definition accepted (opts : run_options) (err : option error) (r : run_result) : Prop :=
  match err with
  | None => lr_Error (run_LoadTestResult r) = ""
  | Some e => is_Some (stopped_reason e) /\ op_stopCatalystAfterLoadWindow opts = true /\
              loadWindowAccepted (run_LoadWindow r) = true
  end.

(** What an error-free result says of the calls. *)
Definition succeeded (sc : scenario) (opts : run_options) (L : ledger) (r : run_result) : Prop :=
  lg_launched L = true /\
  (checks_backends sc = true -> exists v, run_BackendVerification r = Some v /\ bv_Valid v = true) /\
  (if 0 <? op_commitBenchBlocks opts then exists b, run_CommitBenchmark r = Some b
   else exists err, lg_loaded L = Some (inl (run_LoadTestResult r, err)) /\ accepted opts err r).

#[local] Abbreviation RunM := (M run_sig run_state).

(** *** Calls that change nothing the ledger keeps *)
Definition facts (r : run_result) :=
  (run_Error r, run_BackendVerification r, run_LoadTestResult r, run_LoadWindow r, run_CommitBenchmark r).
Definition core (s : run_state) := (st_teardown s, st_sampler s, facts (st_result s)).
Definition same_core (s s' : run_state) : Prop := core s = core s'.
#[local] Instance same_core_preorder : PreOrder same_core.
Proof. split; [by intros s|by intros s1 s2 s3; apply eq_trans]. Qed.

Definition quiet (e : event run_sig) : Prop := forall L, lg_closed L = false -> lg_ok L = true -> account L e = L.

Lemma placed_quiet L : lg_closed L = false -> lg_ok L = true -> placed true L = L.
Proof. destruct L; cbn. intros -> ->. done. Qed.

#[local] Abbreviation quietly strict m := (calm strict quiet same_core m).

Lemma quiet_scrape c x : quiet (ev (E := run_sig) (OfScrape c) x).
Proof. intros L. apply placed_quiet. Qed.
Lemma quiet_audit c x : quiet (ev (E := run_sig) (OfAudit c) x).
Proof. intros L. apply placed_quiet. Qed.
Lemma quiet_profile c x : quiet (ev (E := run_sig) (OfProfile c) x).
Proof. intros L. apply placed_quiet. Qed.

Lemma on_scrape_quietly {A} strict (m : ScrapeM A) :
  calm strict (fun _ => True) any_state m -> quietly strict (on_scrape m).
Proof. apply calm_embed; [apply _|apply quiet_scrape]. Qed.
Lemma on_audit_quietly {A} strict (m : AuditM A) :
  calm strict (fun _ => True) any_state m -> quietly strict (on_audit m).
Proof. apply calm_embed; [apply _|apply quiet_audit]. Qed.
Lemma on_profile_quietly {A} strict (m : ProfileM A) :
  calm strict (fun _ => True) any_state m -> quietly strict (on_profile m).
Proof. apply calm_embed; [apply _|apply quiet_profile]. Qed.

Lemma perform_quietly strict (c : run_call) : (forall x, quiet (ev (E := run_sig) c x)) -> quietly strict (perform (E := run_sig) c).
Proof. apply calm_perform, _. Qed.
Lemma update_quietly strict f : (forall r, facts (f r) = facts r) -> quietly strict (update f).
Proof. intros Hf. apply calm_modify. intros s. unfold same_core, core. cbn. by rewrite Hf. Qed.
Lemma phase_quietly {A} strict name note (m : RunM A) : quietly strict m -> quietly strict (phase name note m).
Proof.
  intros Hm. unfold phase. calm_step; [by apply perform_quietly|]. calm_step; [done|].
  calm_step; [by apply perform_quietly|]. calm_step; [by apply update_quietly|]. calm_go.
Qed.

(** *** The ledger follows the locals *)
Definition tracks (L : ledger) (s : run_state) (t : list (event run_sig)) : Prop :=
  ledger_of t = L /\ lg_ok L = true /\ lg_closed L = false /\ lg_sampling L = st_sampler s.

Lemma ledger_snoc t e : ledger_of (t ++ [e]) = account (ledger_of t) e.
Proof. unfold ledger_of. by rewrite foldl_app. Qed.

Lemma ledger_quiet t l : lg_closed (ledger_of t) = false -> lg_ok (ledger_of t) = true -> Forall quiet l -> ledger_of (t ++ l) = ledger_of t.
Proof.
  intros Hc Ho Hl. revert t Hc Ho. induction Hl as [|e l He Hl IH]; intros t Hc Ho; [by rewrite app_nil_r|].
  rewrite (app_assoc t [e] l : t ++ e :: l = _). rewrite IH; rewrite ledger_snoc, He by done; done.
Qed.

Lemma quietly_tracks {A} strict (m : RunM A) L s t (Q : list (event run_sig) -> run_state -> outcome A -> Prop) :
  quietly strict m -> tracks L s t ->
  (forall t' s' o, ends strict o -> same_core s s' -> tracks L s' t' -> Q t' s' o) -> wpM m s Q t.
Proof.
  intros Hm (HL & Hok & Hcl & Hsa) HQ. eapply wpM_mono; [|apply Hm]. intros t' s' o (Ho & HK & l & -> & Hl).
  apply HQ; [done|done|]. injection HK as _ H2 _. split_and!; [by rewrite ledger_quiet; rewrite ?HL|done|done|by rewrite <- H2].
Qed.

Lemma tracks_core L s s' t : same_core s s' -> tracks L s t -> tracks L s' t.
Proof. intros HK. injection HK as _ H2 _. unfold tracks. by rewrite H2. Qed.

Lemma quietly_then {A B} (m : RunM A) (f : A -> RunM B) L s t (Q : list (event run_sig) -> run_state -> outcome B -> Prop) :
  quietly true m -> tracks L s t ->
  (forall a s' t', same_core s s' -> tracks L s' t' -> wpM (f a) s' Q t') -> wpM (bindM m f) s Q t.
Proof.
  intros Hm HL HQ. apply wpM_bind. eapply quietly_tracks; [done|done|]. intros t' s' [a|e|msg|] Ho HK HL'; try done.
  by apply HQ.
Qed.

(** A phase is its body between two looks at the clock. *)
Lemma wpM_phase {A} name note (m : RunM A) L s t (Q : list (event run_sig) -> run_state -> outcome A -> Prop) :
  tracks L s t ->
  (forall t0, tracks L s t0 -> wpM m s (fun t' s' o => exists L', tracks L' s' t' /\
     match o with Ok a => forall s'' t'', same_core s' s'' -> tracks L' s'' t'' -> Q t'' s'' (Ok a) | _ => Q t' s' o end) t0) ->
  wpM (phase name note m) s Q t.
Proof.
  intros HL Hm. unfold phase. apply wpM_bind, wpM_perform. intros start. apply wpM_bind.
  assert (HL0 : tracks L s (t ++ [ev (E := run_sig) ClockNow start])).
  { destruct HL as (HL & Hrest). split; [by rewrite ledger_snoc, HL|done]. }
  eapply wpM_mono; [|by apply Hm]. intros t' s' [a|e|msg|] (L' & HL' & HQ); try done.
  eapply quietly_then; [by apply perform_quietly|done|]. intros stop s1 t1 HK1 HL1.
  eapply quietly_then; [by apply update_quietly|done|]. intros [] s2 t2 HK2 HL2.
  apply wpM_ret, HQ; [by etrans|done].
Qed.

(** *** The sampler *)
Definition settled (s s' : run_state) : Prop :=
  st_teardown s' = st_teardown s /\ st_sampler s' = false /\ facts (st_result s') = facts (st_result s).
Definition unsampled (L : ledger) : ledger := L {{ lg_sampling := false }}.

Lemma unsampled_id L : lg_sampling L = false -> unsampled L = L.
Proof. destruct L; cbn. by intros ->. Qed.

Lemma stop_sampler_run L s t (Q : list (event run_sig) -> run_state -> outcome unit -> Prop) :
  tracks L s t ->
  (forall s' t', settled s s' -> tracks (unsampled L) s' t' -> Q t' s' (Ok tt)) ->
  wpM (stop_sampler decode_row) s Q t.
Proof.
  intros HL HQ. pose proof HL as (Ht & Hok & Hcl & Hsa). unfold stop_sampler. apply wpM_bind, wpM_get.
  destruct (st_sampler s) eqn:Hs.
  - apply wpM_bind, wpM_perform. intros samples. apply wpM_modify, HQ; [by split_and!|].
    unfold tracks. rewrite ledger_snoc, Ht. clear Ht HL. destruct L; cbn in *. by subst.
  - apply wpM_ret, HQ; [by split_and!|]. by rewrite unsampled_id.
Qed.

Lemma stop_sampler_phase_run L s t (Q : list (event run_sig) -> run_state -> outcome unit -> Prop) :
  tracks L s t ->
  (forall s' t', settled s s' -> tracks (unsampled L) s' t' -> Q t' s' (Ok tt)) ->
  wpM (stop_sampler_phase decode_row) s Q t.
Proof.
  intros HL HQ. pose proof HL as (_ & _ & _ & Hsa). unfold stop_sampler_phase. apply wpM_bind, wpM_get.
  destruct (st_sampler s) eqn:Hs.
  - eapply wpM_phase; [done|]. intros t0 HL0. eapply stop_sampler_run; [done|]. intros s' t' Hset HL'.
    exists (unsampled L). split; [done|]. intros s'' t'' HK HL''. apply HQ; [|done].
    unfold same_core, core in HK. destruct Hset as (Htd & Hsp & Hf). revert HK Hf. unfold settled. generalize (facts (st_result s)) (facts (st_result s')) (facts (st_result s'')).
    intros f f' f'' HK Hff. injection HK. intros. split_and!; congruence.
  - apply wpM_ret, HQ; [by split_and!|]. by rewrite unsampled_id.
Qed.

(** *** The quiet parts *)
Lemma collect_before_quietly sc opts : quietly true (collect_before Sprint sc opts).
Proof.
  unfold collect_before. calm_step; [apply phase_quietly|].
  { calm_step; [apply on_scrape_quietly, scrapeMetrics_gentle|by apply update_quietly]. }
  calm_step; [calm_step; [apply phase_quietly|calm_go]|apply phase_quietly].
  { calm_step; [apply on_scrape_quietly, scrapeTreeDBDebugVars_gentle|by apply update_quietly]. }
  calm_step; [apply on_scrape_quietly, collectDataSizes_gentle|by apply update_quietly].
Qed.

Lemma collect_after_quietly sc opts : quietly true (collect_after Sprint sc opts).
Proof.
  unfold collect_after. calm_step; [apply phase_quietly|].
  { calm_step; [apply on_scrape_quietly, scrapeMetrics_gentle|by apply update_quietly]. }
  calm_step; [calm_step; [apply phase_quietly|calm_go]|calm_step; [apply phase_quietly|by apply update_quietly]].
  { calm_step; [apply on_scrape_quietly, scrapeTreeDBDebugVars_gentle|by apply update_quietly]. }
  calm_step; [apply on_scrape_quietly, collectDataSizes_gentle|by apply update_quietly].
Qed.

Lemma collect_profiles_quietly name launched sc requests : quietly true (collect_profiles quote_ name launched sc requests).
Proof.
  apply phase_quietly. calm_step; [apply on_profile_quietly, collectAppProfileRequests_gentle|by apply update_quietly].
Qed.

Lemma dwell_quietly sc opts : quietly true (dwell durationString Sprint sc opts).
Proof.
  unfold dwell. calm_step; [apply phase_quietly|calm_go]. unfold result. calm_step; [calm_go|].
  calm_step; [apply on_scrape_quietly, collectTreeDBDwellSnapshots_gentle|by apply update_quietly].
Qed.

Lemma audit_and_profile_quietly sc opts launched loadResp :
  quietly true (audit_and_profile quote_ Sprint sc opts launched loadResp).
Proof.
  unfold audit_and_profile. destruct (rawTxAuditDecision sc (op_rawTxAudit opts)) as [audits reason].
  destruct (if audits then _ else _) as [preAudit postAudit].
  calm_step; [apply collect_profiles_quietly|]. calm_step.
  - destruct audits; [apply phase_quietly|calm_step; [by apply update_quietly|calm_go]]. unfold result.
    calm_step; [calm_go|]. calm_step; [apply on_audit_quietly, auditRawTxs_gentle|by apply update_quietly].
  - calm_step; [calm_go|apply collect_profiles_quietly].
Qed.

Lemma runCommitBenchmark_quietly providerState chainState sc blocks :
  quietly false (runCommitBenchmark providerState chainState sc blocks).
Proof.
  unfold runCommitBenchmark. calm_step; [calm_go|].
  calm_step; [apply on_profile_quietly, restore_validators_gentle|].
  calm_go; by intros x L; apply placed_quiet.
Qed.

Lemma start_collector_quietly launched requests : quietly true (start_collector launched requests).
Proof. unfold start_collector. calm_go. by intros x L; apply placed_quiet. Qed.
Lemma end_collector_quietly collecting : quietly true (end_collector collecting).
Proof.
  unfold end_collector. calm_step; [apply phase_quietly|calm_go].
  calm_step; [apply perform_quietly; by intros x L; apply placed_quiet|by apply update_quietly].
Qed.
(** *** The load *)
Lemma tracks_perform L s t (c : run_call) x :
  tracks L s t -> ledger_of (t ++ [ev (E := run_sig) c x]) = account L (ev (E := run_sig) c x).
Proof. intros [HL _]. by rewrite ledger_snoc, HL. Qed.

Definition watched (L : ledger) : ledger := L {{ lg_watching := true }}.
Definition unwatched (L : ledger) : ledger := L {{ lg_watching := false }}.

Lemma start_monitor_run sc opts L s t (Q : list (event run_sig) -> run_state -> outcome bool -> Prop) :
  tracks L s t -> lg_watching L = false ->
  (forall b t', tracks (L {{ lg_watching := b }}) s t' -> Q t' s (Ok b)) -> wpM (start_monitor sc opts) s Q t.
Proof.
  intros HL Hw HQ. unfold start_monitor. destruct (_ && _).
  - unfold result. apply wpM_bind, wpM_bind, wpM_get, wpM_ret, wpM_bind, wpM_perform. intros []. apply wpM_ret, HQ.
    unfold tracks. rewrite (tracks_perform L s) by done. destruct HL as (_ & HL). destruct L; cbn in *.
    destruct HL as (-> & -> & ->). by subst.
  - apply wpM_ret, HQ. destruct L; cbn in *. by subst.
Qed.

(** The locals and facts of [s'] are those of [s], but for the window. *)
Definition windowed (s s' : run_state) : Prop :=
  st_teardown s' = st_teardown s /\ st_sampler s' = st_sampler s /\ run_Error (st_result s') = run_Error (st_result s) /\
  run_BackendVerification (st_result s') = run_BackendVerification (st_result s).

Lemma same_windowed s s' : same_core s s' -> windowed s s'.
Proof. intros HK. unfold same_core, core, facts in HK. injection HK. intros. unfold windowed. by split_and!. Qed.
Lemma windowed_trans s s' s'' : windowed s s' -> windowed s' s'' -> windowed s s''.
Proof. unfold windowed. intros (? & ? & ? & ?) (? & ? & ? & ?). split_and!; congruence. Qed.

Lemma wait_run L s t timeout (Q : list (event run_sig) -> run_state -> outcome loadWindowObservation -> Prop) :
  tracks L s t -> lg_watching L = true ->
  (forall obs t', tracks (unwatched L) s t' -> Q t' s (Ok obs)) -> wpM (on_monitor (Wait durationString timeout)) s Q t.
Proof.
  intros HL Hw HQ. unfold on_monitor. apply wpM_scoped. unfold wpM, Wait, Stop. pose proof HL as (Ht & Hok & Hcl & Hrest).
  assert (Hdone : forall t0 obs, tracks L s t0 -> tracks (unwatched L) s (t0 ++ [ev (E := run_sig) (OfMonitor CancelThenDone) obs])).
  { intros t0 obs HL0. unfold tracks. rewrite (tracks_perform L s) by done. clear -Hok Hcl Hw Hrest.
    destruct L; cbn in *. by subst. }
  destruct (timeout <=? 0); cbn; [intros obs; by apply HQ, Hdone|]. intros [obs|].
  - apply HQ. unfold tracks. rewrite (tracks_perform L s) by done. clear -Hok Hcl Hw Hrest. destruct L; cbn in *. by subst.
  - intros obs. apply HQ, Hdone. unfold tracks. rewrite (tracks_perform L s) by done. clear -Hok Hcl Hw Hrest.
    destruct L; cbn in *. by subst.
Qed.
Lemma stop_run L s t (Q : list (event run_sig) -> run_state -> outcome loadWindowObservation -> Prop) :
  tracks L s t -> lg_watching L = true ->
  (forall obs t', tracks (unwatched L) s t' -> Q t' s (Ok obs)) -> wpM (on_monitor Stop) s Q t.
Proof. apply (wait_run L s t 0). Qed.

Lemma end_monitor_run opts monitored L s t (Q : list (event run_sig) -> run_state -> outcome unit -> Prop) :
  tracks L s t -> lg_watching L = monitored ->
  (forall s' t', windowed s s' -> tracks (unwatched L) s' t' -> Q t' s' (Ok tt)) ->
  wpM (end_monitor durationString opts monitored) s Q t.
Proof.
  intros HL Hw HQ. unfold end_monitor. destruct monitored.
  - apply wpM_bind. cbn zeta.
    assert (Hend : forall obs s' t', same_core s s' -> tracks (unwatched L) s' t' ->
      wpM (update (fun r => r {{ run_LoadWindow := Some obs }})) s' Q t').
    { intros obs s' t' HK HL'. unfold update. apply wpM_modify, HQ; [|exact HL'].
      apply same_windowed in HK. destruct HK as (? & ? & ? & ?). by split_and!. }
    destruct (0 <? _).
    + eapply wpM_phase; [done|]. intros t0 HL0. eapply wait_run; [done..|]. intros obs t' HL'.
      exists (unwatched L). split; [done|]. intros s'' t'' HK HL''. by apply Hend.
    + eapply stop_run; [done..|]. intros obs t' HL'. by apply Hend.
  - apply wpM_ret, HQ; [by apply same_windowed|]. destruct L; cbn in *. by subst.
Qed.
Lemma fail_run_error msg s (Q : list (event run_sig) -> run_state -> outcome unit -> Prop) t :
  (forall s', st_teardown s' = st_teardown s -> st_sampler s' = st_sampler s ->
     run_BackendVerification (st_result s') = run_BackendVerification (st_result s) ->
     run_LoadTestResult (st_result s') = run_LoadTestResult (st_result s) -> run_Error (st_result s') = msg -> Q t s' (Ok tt)) ->
  wpM (fail_run msg) s Q t.
Proof. intros HQ. unfold fail_run, update. by apply wpM_modify, HQ. Qed.

Lemma conclude_run opts loadResp err s (Q : list (event run_sig) -> run_state -> outcome unit -> Prop) t :
  run_LoadTestResult (st_result s) = lx_Result loadResp ->
  (forall s', st_teardown s' = st_teardown s -> st_sampler s' = st_sampler s ->
     run_BackendVerification (st_result s') = run_BackendVerification (st_result s) ->
     run_LoadTestResult (st_result s') = lx_Result loadResp ->
     (run_Error (st_result s') = "" -> accepted opts err (st_result s')) -> Q t s' (Ok tt)) ->
  wpM (conclude opts loadResp err) s Q t.
Proof.
  intros Hres HQ. unfold conclude, result. apply wpM_bind, wpM_bind, wpM_get, wpM_ret.
  assert (Hfail : forall text, text <> "" -> wpM (fail_run text) s Q t).
  { intros text Hne. apply fail_run_error. intros s' ? ? ? Hr He. apply HQ; [done|done|done|by rewrite Hr|].
    by rewrite He. }
  destruct err as [e|].
  - cbn zeta. destruct (stopped_reason e) as [reason|] eqn:Hreason; [|by apply Hfail].
    destruct (_ && _) eqn:Hok; [|by apply Hfail]. apply andb_true_iff in Hok as [Hstop Hacc].
    destruct (String.eqb _ _); [|by apply wpM_ret, HQ].
    by apply wpM_modify, HQ.
  - destruct (String.eqb_spec (lr_Error (lx_Result loadResp)) "") as [He|He]; [|by apply Hfail].
    apply wpM_ret, HQ; try done. intros _. unfold accepted. by rewrite Hres.
Qed.

(** What the ledger says where the load has ended. *)
Definition after_load (opts : run_options) (L : ledger) (verified : option backendVerification)
    (t : list (event run_sig)) (s : run_state) (o : outcome unit) : Prop :=
  exists L', tracks L' s t /\ lg_owed L' = st_teardown s /\ lg_launched L' = lg_launched L /\
    run_BackendVerification (st_result s) = verified /\
    match o with
    | Ok _ => lg_watching L' = false /\ lg_panicked L' = lg_panicked L /\
        (run_Error (st_result s) = "" -> exists err,
           lg_loaded L' = Some (inl (run_LoadTestResult (st_result s), err)) /\ accepted opts err (st_result s))
    | Panic msg => lg_panicked L' = Some msg /\ lg_loaded L' = Some (inr msg)
    | _ => False
    end.

Lemma end_load_run sc opts launched monitored collecting loadResp err L s t :
  tracks L s t -> lg_watching L = monitored -> lg_loaded L = Some (inl (lx_Result loadResp, err)) ->
  lg_owed L = (if String.eqb (lx_ProviderState loadResp) "" then st_teardown s else lx_ProviderState loadResp) ->
  wpM (end_load durationString quote_ Sprint decode_row sc opts launched monitored collecting loadResp err) s
    (after_load opts L (run_BackendVerification (st_result s))) t.
Proof.
  intros HL Hw Hloaded How. unfold end_load. apply wpM_bind. eapply end_monitor_run; [done..|]. intros s1 t1 HK1 HL1.
  eapply quietly_then; [apply end_collector_quietly|done|]. intros [] s2 t2 HK2 HL2.
  apply same_windowed, (windowed_trans _ _ _ HK1) in HK2. clear HK1.
  apply wpM_bind. eapply stop_sampler_phase_run; [done|]. intros s3 t3 HK3 HL3.
  eapply quietly_then; [apply collect_after_quietly|done|]. intros [] s4 t4 HK4 HL4.
  unfold record_load, update. apply wpM_bind, wpM_modify.
  set (s5 := apply_update _ s4).
  assert (Htd : st_teardown s5 = st_teardown s /\ run_BackendVerification (st_result s5) = run_BackendVerification (st_result s)
    /\ run_LoadTestResult (st_result s5) = lx_Result loadResp).
  { destruct HK2 as (? & ? & ? & ?), HK3 as (? & ? & HK3). unfold same_core, core, facts in HK3, HK4. injection HK3. injection HK4.
    intros. change (st_teardown s4 = st_teardown s /\ run_BackendVerification (st_result s4) = run_BackendVerification (st_result s)
      /\ lx_Result loadResp = lx_Result loadResp). split_and!; congruence. }
  assert (HL5 : tracks (unsampled (unwatched L)) s5 t4) by exact HL4. clearbody s5. clear HK2 HK3 HK4 HL1 HL2 HL3 HL4 s1 s2 s3 s4 t1 t2 t3.
  eapply quietly_then; [apply dwell_quietly|done|]. intros [] s6 t6 HK6 HL6.
  eapply quietly_then; [apply audit_and_profile_quietly|done|]. intros [] s7 t7 HK7 HL7.
  assert (HK : same_core s5 s7) by (by etrans). clear HK6 HK7.
  eapply quietly_then; [by apply update_quietly|done|]. intros [] s8 t8 HK8 HL8.
  assert (HK' : same_core s5 s8) by (by etrans). clear HK HK8 HL5 HL6 HL7 s6 s7 t4 t6 t7.
  unfold same_core, core, facts in HK'. injection HK' as Htd8 Hs8 He8 Hb8 Hr8 Hw8 Hc8. destruct Htd as (Htd & Hb & Hr).
  set (state := lx_ProviderState loadResp) in *.
  assert (Hend : forall s9, tracks (unsampled (unwatched L)) s9 t8 -> lg_owed L = st_teardown s9 -> st_result s9 = st_result s8 ->
    wpM (conclude opts loadResp err) s9 (after_load opts L (run_BackendVerification (st_result s))) t8).
  { intros s9 HL9 How9 Hr9. apply conclude_run; [by rewrite Hr9, <- Hr8|]. intros s' Htd' Hs' Hb' Hres' Hacc.
    exists (unsampled (unwatched L)). destruct HL9 as (? & ? & ? & HL9).
    split_and!; [split_and!; [done..|by rewrite Hs']| | | | |done|].
    - rewrite Htd', <- How9. by destruct L.
    - by destruct L.
    - by rewrite Hb', Hr9, <- Hb8.
    - by destruct L.
    - intros He. exists err. split; [|by apply Hacc]. rewrite Hres', <- Hloaded. by destruct L. }
  apply wpM_bind. destruct (String.eqb state "").
  - apply wpM_ret, Hend; [done| |done]. by rewrite How, <- Htd8.
  - apply wpM_modify, Hend; [|done|done]. destruct HL8 as (? & ? & ? & ?). by split_and!.
Qed.

Lemma account_load L req stops resp err :
  let L' := account L (ev (E := run_sig) (ActRunLoadTest req stops) (inl (resp, err))) in
  lg_owed L' = (if String.eqb (lx_ProviderState resp) "" then lg_owed L else lx_ProviderState resp) /\
  lg_sampling L' = lg_sampling L /\ lg_watching L' = lg_watching L /\ lg_closed L' = lg_closed L /\
  lg_ok L' = lg_ok L && negb (lg_closed L) && (lg_launched L && lg_sampling L) /\ lg_launched L' = lg_launched L /\
  lg_loaded L' = Some (inl (lx_Result resp, err)) /\ lg_panicked L' = lg_panicked L.
Proof. destruct L. cbn. unfold owes. by destruct (String.eqb (lx_ProviderState resp) ""). Qed.

Lemma run_load_run sc opts launched L s t :
  tracks L s t -> lg_owed L = st_teardown s -> lg_watching L = false -> lg_launched L = true -> st_sampler s = true ->
  wpM (run_load durationString quote_ Sprint decode_row sc opts launched) s
    (after_load opts L (run_BackendVerification (st_result s))) t.
Proof.
  intros HL How Hw Hla Hs. unfold run_load. apply wpM_bind. eapply start_monitor_run; [done..|]. intros monitored t1 HL1.
  eapply quietly_then; [apply start_collector_quietly|done|]. intros collecting s2 t2 HK2 HL2.
  set (L1 := L {{ lg_watching := monitored }}) in *.
  assert (H1 : lg_owed L1 = st_teardown s2 /\ lg_watching L1 = monitored /\ lg_launched L1 = true /\ st_sampler s2 = true /\
    run_BackendVerification (st_result s2) = run_BackendVerification (st_result s)).
  { unfold same_core, core, facts in HK2. injection HK2. intros.
    change (lg_owed L = st_teardown s2 /\ monitored = monitored /\ lg_launched L = true /\ st_sampler s2 = true /\
      run_BackendVerification (st_result s2) = run_BackendVerification (st_result s)). split_and!; congruence. }
  clear Hw.
  assert (Hsame : forall v u s' o, after_load opts L1 v u s' o -> after_load opts L v u s' o). { by destruct L. }
  clearbody L1. clear HL HL1 How Hla Hs HK2 t1. destruct H1 as (How & Hw & Hla & Hs & Hb). rewrite <- Hb. clear Hb.
  apply wpM_bind. eapply wpM_phase; [done|]. intros t3 HL3. unfold call_activity.
  apply wpM_bind, (wpM_perform (E := run_sig) (ActRunLoadTest _ _)). intros [[loadResp err]|msg].
  - apply wpM_ret. set (e := ev _ _). exists (account L1 e).
    pose proof (account_load L1 (load_request_of sc launched) (op_stopCatalystAfterLoadWindow opts && monitored) loadResp err)
      as (Ho' & Hs' & Hw' & Hc' & Hok' & Hla' & Hlo' & Hp').
    fold e in Ho', Hs', Hw', Hc', Hok', Hla', Hlo', Hp'. destruct HL3 as (Ht3 & Hok & Hcl & Hsa). split.
    + unfold tracks. rewrite ledger_snoc, Ht3. fold e. rewrite Hc', Hs', Hok', Hok, Hcl, Hla, Hsa, Hs. done.
    + intros s' t' HK' HL'. unfold same_core, core, facts in HK'. injection HK'. intros.
      replace (run_BackendVerification (st_result s2)) with (run_BackendVerification (st_result s')) by done.
      eapply wpM_mono; [|eapply end_load_run; [done|congruence|done|]].
      * intros t'' s'' o (L' & HL'' & Ho & Hl & Hb & H'). apply Hsame. exists L'. split_and!; try done; [by rewrite Hl|].
        destruct o; try done. by rewrite <- Hp'.
      * rewrite Ho', How. by destruct (String.eqb _ _).
  - set (e := ev _ _). exists (account L1 e). destruct HL3 as (Ht3 & Hok & Hcl & Hsa).
    assert (Htr : tracks (account L1 e) s2 (t3 ++ [e])).
    { unfold tracks. rewrite ledger_snoc, Ht3. subst e. destruct L1; cbn in *. subst. done. }
    split; [exact Htr|]. apply Hsame. exists (account L1 e). split_and!; try done.
Qed.

(** *** The benchmark *)
Lemma runCommitBenchmark_some providerState chainState sc blocks s t : 0 < blocks ->
  wpM (runCommitBenchmark providerState chainState sc blocks) s (fun _ _ o => forall b, o = Ok b -> is_Some b) t.
Proof.
  intros Hb. unfold runCommitBenchmark. rewrite (proj2 (Z.eqb_neq blocks 0)) by lia.
  apply wpM_bind. eapply wpM_mono; [|apply (on_profile_quietly false), restore_validators_gentle].
  intros t' s' [n|e|msg|] _; try done. wpM_go; intros b' [= <-]; by eexists.
Qed.

Lemma end_benchmark_run sc opts launched bench L s t (Q : list (event run_sig) -> run_state -> outcome unit -> Prop) :
  tracks L s t -> (forall b, bench = inl b -> is_Some b) ->
  (forall s' t', tracks (unsampled L) s' t' -> st_teardown s' = st_teardown s ->
     run_BackendVerification (st_result s') = run_BackendVerification (st_result s) ->
     (run_Error (st_result s') = "" -> is_Some (run_CommitBenchmark (st_result s'))) -> Q t' s' (Ok tt)) ->
  wpM (end_benchmark quote_ Sprint decode_row sc opts launched bench) s Q t.
Proof.
  intros HL Hsome HQ. apply wpM_bind. eapply stop_sampler_phase_run; [done|]. intros s3 t3 HK3 HL3.
  eapply quietly_then; [apply collect_after_quietly|done|]. intros [] s4 t4 HK4 HL4.
  unfold update. apply wpM_bind, wpM_modify. set (s5 := apply_update _ s4).
  assert (H5 : st_teardown s5 = st_teardown s /\ run_BackendVerification (st_result s5) = run_BackendVerification (st_result s)
    /\ run_CommitBenchmark (st_result s5) = match bench with inl b => b | inr _ => None end).
  { destruct HK3 as (? & ? & HK3). unfold same_core, core, facts in HK3, HK4. injection HK3. injection HK4. intros.
    change (st_teardown s4 = st_teardown s /\ run_BackendVerification (st_result s4) = run_BackendVerification (st_result s)
      /\ match bench with inl b => b | inr _ => None end = match bench with inl b => b | inr _ => None end).
    split_and!; congruence. }
  assert (HL5 : tracks (unsampled L) s5 t4) by exact HL4. clearbody s5. clear HK3 HK4 HL HL3 HL4.
  eapply quietly_then; [apply collect_profiles_quietly|done|]. intros [] s6 t6 HK6 HL6.
  unfold same_core, core, facts in HK6. injection HK6 as Htd _ _ Hbv _ _ Hcb. destruct H5 as (H51 & H52 & H53).
  destruct bench as [b|e].
  - apply wpM_ret, HQ; [done|congruence|congruence|]. intros _. rewrite <- Hcb, H53. by apply Hsome.
  - unfold fail_run, update. apply wpM_modify, HQ; [done| | |done].
    + change (st_teardown s6 = st_teardown s). congruence.
    + change (run_BackendVerification (st_result s6) = run_BackendVerification (st_result s)). congruence.
Qed.

Lemma run_benchmark_run sc opts launched L s t (Q : list (event run_sig) -> run_state -> outcome unit -> Prop) :
  tracks L s t -> 0 < op_commitBenchBlocks opts ->
  (forall s' t', tracks (unsampled L) s' t' -> st_teardown s' = st_teardown s ->
     run_BackendVerification (st_result s') = run_BackendVerification (st_result s) ->
     (run_Error (st_result s') = "" -> is_Some (run_CommitBenchmark (st_result s'))) -> Q t' s' (Ok tt)) ->
  wpM (run_benchmark quote_ Sprint decode_row sc opts launched) s Q t.
Proof.
  intros HL Hb HQ. apply wpM_bind. eapply wpM_phase; [done|]. intros t0 HL0.
  apply wpM_try. eapply wpM_mono; [|apply wpM_and; [apply runCommitBenchmark_quietly|by apply runCommitBenchmark_some]].
  intros t1 s1 o ((Ho & HK1 & l & -> & Hl) & Hsome).
  assert (HL1 : tracks L s1 (t0 ++ l)).
  { apply (tracks_core _ s); [done|]. destruct HL0 as (Ht & ? & ? & ?). split_and!; [by rewrite ledger_quiet; rewrite ?Ht|done..]. }
  unfold same_core, core, facts in HK1. injection HK1 as Htd1 _ _ Hbv1 _ _ _.
  destruct o as [b|e|msg|]; try done; exists L; (split; [done|]); intros s2 t2 HK2 HL2;
    unfold same_core, core, facts in HK2; injection HK2 as Htd2 _ _ Hbv2 _ _ _;
    (eapply end_benchmark_run; [done|by intros b' [= <-]; apply Hsome|]);
    intros s' t' HL' Htd' Hbv' He; (apply HQ; [done|congruence|congruence|done]).
Qed.

(** *** The testnet *)
Lemma check_backends_run sc launched L s t (Q : list (event run_sig) -> run_state -> outcome bool -> Prop) :
  tracks L s t ->
  (forall b s' t', tracks L s' t' -> st_teardown s' = st_teardown s -> st_sampler s' = st_sampler s ->
     (if b : bool then checks_backends sc = true -> exists v, run_BackendVerification (st_result s') = Some v /\ bv_Valid v = true
      else run_Error (st_result s') <> "") -> Q t' s' (Ok b)) ->
  wpM (check_backends quote_ Sprint Unmarshal sc launched) s Q t.
Proof.
  intros HL HQ. unfold check_backends. destruct (checks_backends sc) eqn:Hc; [|by apply wpM_ret, HQ].
  apply wpM_bind. eapply wpM_phase; [done|]. intros t0 HL0.
  eapply quietly_then; [apply on_profile_quietly, verifySimappBackends_gentle|done|]. intros v s1 t1 HK1 HL1.
  unfold update. apply wpM_bind, wpM_modify, wpM_ret. exists L. split; [exact HL1|]. intros s2 t2 HK2 HL2.
  unfold same_core, core, facts in HK1, HK2. injection HK1 as Htd1 Hsa1 _ _ _ _ _.
  assert (H2 : st_teardown s2 = st_teardown s1 /\ st_sampler s2 = st_sampler s1 /\ run_BackendVerification (st_result s2) = Some v).
  { change ((st_teardown s1, st_sampler s1, (run_Error (st_result s1), Some v, run_LoadTestResult (st_result s1),
      run_LoadWindow (st_result s1), run_CommitBenchmark (st_result s1))) = core s2) in HK2.
    unfold core, facts in HK2. injection HK2. intros. split_and!; congruence. }
  clear HK2. destruct H2 as (Htd2 & Hsa2 & Hv).
  destruct (bv_Valid v) eqn:Hvalid; [apply wpM_ret, HQ; [done|congruence|congruence|by eexists]|].
  apply wpM_bind, fail_run_error. intros s3 Htd3 Hsa3 _ _ He. apply wpM_ret, HQ; [|congruence|congruence|by rewrite He].
  destruct HL2 as (? & ? & ? & ?). split_and!; congruence.
Qed.

(** What the ledger says where the testnet's part has ended. *)
Definition after_testnet (sc : scenario) (opts : run_options) (L : ledger) (t : list (event run_sig)) (s : run_state)
    (o : outcome unit) : Prop :=
  exists L', tracks L' s t /\ lg_owed L' = st_teardown s /\ st_sampler s = false /\
    (lg_watching L' = true -> exists msg, lg_loaded L' = Some (inr msg)) /\
    match o with
    | Ok _ => lg_panicked L' = lg_panicked L /\
        (run_Error (st_result s) = "" -> succeeded sc opts L' (st_result s))
    | Panic msg => lg_panicked L' = Some msg
    | _ => False
    end.

Lemma loaded_run sc opts launched L s t :
  tracks L s t -> lg_owed L = st_teardown s -> lg_watching L = false -> lg_launched L = true -> st_sampler s = true ->
  (checks_backends sc = true -> exists v, run_BackendVerification (st_result s) = Some v /\ bv_Valid v = true) ->
  wpM (deferring (stop_sampler decode_row)
         (if 0 <? op_commitBenchBlocks opts then run_benchmark quote_ Sprint decode_row sc opts launched
          else run_load durationString quote_ Sprint decode_row sc opts launched)) s (after_testnet sc opts L) t.
Proof.
  intros HL How Hw Hla Hs Hv. apply wpM_deferring. destruct (0 <? _) eqn:Hb.
  - eapply run_benchmark_run; [done|by apply Z.ltb_lt|]. intros s1 t1 HL1 Htd1 Hbv1 Hsome.
    eapply stop_sampler_run; [done|]. intros s2 t2 (Htd2 & Hs2 & Hf2) HL2. exists (unsampled (unsampled L)).
    unfold facts in Hf2. injection Hf2 as He2 Hbv2 Hr2 Hlw2 Hcb2.
    split_and!; [done| |done|by destruct L; cbn in *; subst|by destruct L|].
    + rewrite Htd2, Htd1, <- How. by destruct L.
    + intros He. unfold succeeded. rewrite Hb, Hcb2, Hbv2, Hbv1. split_and!; [by destruct L|done|].
      destruct Hsome as [b Hb']; [by rewrite <- He2|]. by exists b.
  - eapply wpM_mono; [|by eapply run_load_run]. intros t1 s1 o (L1 & HL1 & How1 & Hla1 & Hbv1 & Ho).
    eapply stop_sampler_run; [done|]. intros s2 t2 (Htd2 & Hs2 & Hf2) HL2. exists (unsampled L1).
    unfold facts in Hf2. injection Hf2 as He2 Hbv2 Hr2 Hlw2 Hcb2. split_and!; [done| |done| |].
    + rewrite Htd2, <- How1. by destruct L1.
    + destruct o as [u|e|msg|]; [|done| |done]; [destruct Ho as (Hw1 & _); by destruct L1; cbn in *; subst|].
      intros _. exists msg. destruct Ho as (_ & Ho). by destruct L1.
    + destruct o as [u|e|msg|]; [|done| |done]; [|destruct Ho as (Ho & _); by destruct L1].
      destruct Ho as (Hw1 & Hp1 & Hload). split; [rewrite <- Hp1; by destruct L1|]. intros He.
      unfold succeeded. rewrite Hb, Hbv2, Hbv1. split_and!; [rewrite <- Hla, <- Hla1; by destruct L1|done|].
      destruct Hload as (err & Hload & Hacc); [by rewrite <- He2|]. exists err.
      split; [rewrite Hr2, <- Hload; by destruct L1|]. revert Hacc. unfold accepted. by rewrite Hr2, Hlw2.
Qed.

(** What a launch's answer makes of the ledger. *)
Definition launched_state (launched : LaunchTestnetResponse) (err : option error) (old : string) : string :=
  match err with
  | None => lp_ProviderState launched
  | Some _ => if String.eqb (lp_ProviderState launched) "" then old else lp_ProviderState launched
  end.

Lemma account_launch L req launched err :
  let L' := account L (ev (E := run_sig) (ActLaunchTestnet req) (inl (launched, err))) in
  lg_owed L' = launched_state launched err (lg_owed L) /\ lg_sampling L' = lg_sampling L /\ lg_watching L' = lg_watching L /\
  lg_closed L' = lg_closed L /\ lg_ok L' = lg_ok L && negb (lg_closed L) && true /\ (err = None -> lg_launched L' = true) /\
  lg_loaded L' = lg_loaded L /\ lg_panicked L' = lg_panicked L.
Proof. destruct L, err; cbn; [unfold owes; by destruct (String.eqb (lp_ProviderState launched) "")|done]. Qed.

Lemma launch_run sc providerState L s t
    (Q : list (event run_sig) -> run_state -> outcome (LaunchTestnetResponse * option error) -> Prop) :
  tracks L s t ->
  (forall launched err L' s' t', tracks L' s' t' -> st_teardown s' = st_teardown s -> st_sampler s' = st_sampler s ->
     lg_owed L' = launched_state launched err (lg_owed L) -> lg_watching L' = lg_watching L ->
     (err = None -> lg_launched L' = true) -> lg_panicked L' = lg_panicked L -> Q t' s' (Ok (launched, err))) ->
  (forall msg L' t', tracks L' s t' -> lg_owed L' = lg_owed L -> lg_watching L' = lg_watching L ->
     lg_panicked L' = Some msg -> Q t' s (Panic msg)) ->
  wpM (launch sc providerState) s Q t.
Proof.
  intros HL HQ HP. unfold launch. apply wpM_bind, wpM_perform. intros launchStart. apply wpM_bind.
  apply (wpM_phase _ _ _ L); [destruct HL as (HL & HL0); split; [by rewrite ledger_snoc, HL|exact HL0]|]. intros t1 HL1.
  apply wpM_bind, (wpM_perform (E := run_sig) (ActLaunchTestnet _)). intros [[launched err]|msg].
  - apply wpM_ret. set (e := ev _ _). exists (account L e).
    pose proof (account_launch L (launch_request sc providerState) launched err) as (Ho & Hs & Hw & Hc & Hok' & Hla & _ & Hp).
    fold e in Ho, Hs, Hw, Hc, Hok', Hla, Hp. destruct HL1 as (Ht1 & Hok & Hcl & Hsa). split.
    + unfold tracks. rewrite ledger_snoc, Ht1. fold e. by rewrite Hc, Hs, Hok', Hok, Hcl.
    + intros s2 t2 HK2 HL2. unfold same_core, core, facts in HK2. injection HK2 as Htd2 Hs2 _ _ _ _ _.
      eapply quietly_then; [by apply perform_quietly|done|]. intros launchEnd s3 t3 HK3 HL3.
      eapply quietly_then; [by apply update_quietly|done|]. intros [] s4 t4 HK4 HL4.
      apply (same_core_preorder.(PreOrder_Transitive) _ _ _ HK3) in HK4.
      unfold same_core, core, facts in HK4. injection HK4 as Htd4 Hs4 _ _ _ _ _.
      apply wpM_ret, (HQ _ _ (account L e)); [exact HL4|congruence|congruence|done..].
  - set (e := ev _ _). exists (account L e). destruct HL1 as (Ht1 & Hok & Hcl & Hsa).
    assert (Htr : tracks (account L e) s (t1 ++ [e])).
    { unfold tracks. rewrite ledger_snoc, Ht1. subst e. destruct L; cbn in *. by subst. }
    split; [exact Htr|]. by eapply HP.
Qed.

Lemma run_testnet_run sc opts providerState L s t :
  tracks L s t -> lg_owed L = st_teardown s -> lg_watching L = false -> st_sampler s = false ->
  wpM (run_testnet durationString quote_ Sprint Unmarshal decode_row sc opts providerState) s (after_testnet sc opts L) t.
Proof.
  intros HL How Hw Hs. unfold run_testnet. apply wpM_bind. eapply launch_run; [done| |].
  2: { intros msg L1 t1 HL1 How1 Hw1 Hp1. exists L1. split_and!; [done|congruence|done|congruence|done]. }
  intros launched err L1 s1 t1 HL1 Htd1 Hs1 How1 Hw1 Hla1 Hp1. rewrite How, <- Htd1 in How1.
  assert (Hfail : forall s2 t2 text, tracks L1 s2 t2 -> st_sampler s2 = false -> lg_owed L1 = st_teardown s2 -> text <> "" ->
    wpM (fail_run text) s2 (after_testnet sc opts L) t2).
  { intros s2 t2 text HL2 Hs2 How2 Hne. apply fail_run_error. intros s3 Htd3 Hs3 _ _ He3. exists L1.
    split_and!; [|congruence|congruence|congruence|done|by rewrite He3].
    destruct HL2 as (? & ? & ? & ?). split_and!; congruence. }
  apply wpM_bind. destruct err as [e|]; cbn [launched_state] in How1.
  - revert How1. destruct (String.eqb (lp_ProviderState launched) ""); intros How1; [apply wpM_ret|apply wpM_modify];
      (apply Hfail; [exact HL1|change (st_sampler s1 = false); congruence|exact How1|done]).
  - assert (Hgo : forall s2, tracks L1 s2 t1 -> st_sampler s2 = false -> lg_owed L1 = st_teardown s2 ->
      wpM (let* valid := check_backends quote_ Sprint Unmarshal sc launched in
           if valid : bool then
             let* _ := collect_before Sprint sc opts in
             let* _ := start_sampler in
             deferring (stop_sampler decode_row)
               (if 0 <? op_commitBenchBlocks opts then run_benchmark quote_ Sprint decode_row sc opts launched
                else run_load durationString quote_ Sprint decode_row sc opts launched)
           else retM tt) s2 (after_testnet sc opts L) t1).
    { intros s2 HL2 Hs2 How2. apply wpM_bind. eapply check_backends_run; [done|].
      intros valid s3 t3 HL3 Htd3 Hs3 Hv. destruct valid.
      - eapply quietly_then; [apply collect_before_quietly|done|]. intros [] s4 t4 HK4 HL4.
        unfold same_core, core, facts in HK4. injection HK4 as Htd4 Hs4 _ Hbv4 _ _ _.
        unfold start_sampler. apply wpM_bind, wpM_bind, wpM_perform. intros []. apply wpM_modify.
        set (e := ev _ _). set (s5 := apply_update _ s4). destruct HL4 as (Ht4 & Hok & Hcl & Hsa).
        assert (H5 : st_teardown s5 = st_teardown s4 /\ st_sampler s5 = true /\
          run_BackendVerification (st_result s5) = run_BackendVerification (st_result s4)) by done.
        clearbody s5. destruct H5 as (Htd5 & Hs5 & Hbv5).
        eapply wpM_mono; [|apply (loaded_run sc opts launched (account L1 e))].
        + intros t' s' o (L' & ? & ? & ? & ? & Ho). exists L'. split_and!; try done.
          assert (Hpe : lg_panicked (account L1 e) = lg_panicked L1) by by destruct L1.
          destruct o; try done. by rewrite <- Hp1, <- Hpe.
        + unfold tracks. rewrite ledger_snoc, Ht4. subst e. rewrite Hs5. assert (Hns : lg_sampling L1 = false) by congruence.
          clear -Hok Hcl Hns. destruct L1; cbn in *. by subst.
        + transitivity (lg_owed L1); [by destruct L1|congruence].
        + transitivity (lg_watching L1); [by destruct L1|congruence].
        + transitivity (lg_launched L1); [by destruct L1|by apply Hla1].
        + done.
        + intros Hc. rewrite Hbv5, <- Hbv4. by apply Hv.
      - apply wpM_ret. exists L1. split_and!; [done|congruence|congruence|congruence|done|done]. }
    destruct (String.eqb (lp_ProviderState launched) ""); [apply wpM_ret|apply wpM_modify]; cbv beta iota zeta;
      apply wpM_bind, wpM_modify; (apply Hgo; [exact HL1|change (st_sampler s1 = false); congruence|exact How1]).
Qed.

(** *** The run *)

(** What a run's ledger says at its end of the provider: it is gone, or its
    one teardown failed, or there was no state to tear it down with. *)
Definition provider_settled (L : ledger) : Prop :=
  lg_exists L = false \/ (lg_closed L = true /\ lg_failed L = true) \/ (lg_closed L = false /\ lg_owed L = "").

Definition books_closed (opts : run_options) (L : ledger) : Prop :=
  lg_ok L = true /\ lg_sampling L = false /\
  (lg_watching L = true -> exists msg, lg_loaded L = Some (inr msg)) /\
  (if op_keep opts then lg_closed L = false else provider_settled L).

Definition ends_well (sc : scenario) (opts : run_options) (L : ledger) (s : run_state) (o : outcome unit) : Prop :=
  books_closed opts L /\
  match o with
  | Ok _ => run_Error (st_result s) = "" -> succeeded sc opts L (st_result s)
  | Panic msg => lg_panicked L = Some msg
  | _ => False
  end.
Definition after_body (sc : scenario) (opts : run_options) (t : list (event run_sig)) (s : run_state) (o : outcome unit) : Prop :=
  ends_well sc opts (ledger_of t) s o.

Lemma succeeded_facts sc opts L r r' : facts r = facts r' -> succeeded sc opts L r -> succeeded sc opts L r'.
Proof. unfold facts, succeeded, accepted. intros [= He -> -> -> ->]. done. Qed.

Lemma teardown_run_spec sc opts L s t o :
  after_testnet sc opts L t s o ->
  wpM (teardown_run (op_keep opts)) s (fun t' s' o' =>
    after_body sc opts t' s' (match o' with Panic msg => Panic msg | _ => o end)) t.
Proof.
  intros (L1 & HL1 & How1 & Hs1 & Hw1 & Ho). unfold teardown_run.
  eapply quietly_then; [apply on_scrape_quietly, dockerStats_gentle|done|]. intros stats s2 t2 HK2 HL2.
  eapply quietly_then; [by apply update_quietly|done|]. intros [] s3 t3 HK3 HL3.
  eapply quietly_then; [apply on_scrape_quietly, dockerLogs_gentle|done|]. intros logs s4 t4 HK4 HL4.
  eapply quietly_then; [by apply update_quietly|done|]. intros [] s5 t5 HK5 HL5.
  assert (HK : same_core s s5) by (do 3 (etrans; [eassumption|]); done). clear HK2 HK3 HK4 HK5 HL1 HL2 HL3 HL4.
  assert (Hf : facts (st_result s) = facts (st_result s5) /\ run_Error (st_result s) = run_Error (st_result s5)
    /\ st_teardown s = st_teardown s5 /\ st_sampler s5 = false).
  { unfold same_core, core, facts in HK. injection HK. intros. unfold facts. split_and!; congruence. }
  destruct Hf as (Hf & Hfe & Htd & Hs5). destruct HL5 as (Ht5 & Hok & Hcl & Hsa).
  assert (Hdone : (if op_keep opts then True else lg_owed L1 = "") -> after_body sc opts t5 s5 o).
  { intros Hk. split.
    - rewrite Ht5. split_and!; [done|congruence|done|]. destruct (op_keep opts); [done|]. by right; right.
    - rewrite Ht5. destruct o; try done. rewrite <- Hfe. destruct Ho as (_ & Ho). intros He. by eapply succeeded_facts, Ho. }
  destruct (op_keep opts) eqn:Hkeep; [by apply wpM_ret, Hdone|].
  apply wpM_bind, wpM_get. destruct (String.eqb_spec (st_teardown s5) "") as [He|Hne].
  { apply wpM_ret, Hdone. congruence. }
  unfold call_activity. apply wpM_bind, wpM_bind, (wpM_perform (E := run_sig) (ActTeardownProvider _)). intros answer.
  set (e := ev _ _).
  assert (Hend : ledger_of (t5 ++ [e]) = account L1 e) by by rewrite ledger_snoc, Ht5.
  assert (Hbooks : books_closed opts (account L1 e)).
  { unfold books_closed. rewrite Hkeep. subst e. assert (Hns : lg_sampling L1 = false) by congruence.
    assert (Hst : lg_owed L1 = st_teardown s5) by congruence. clear -Hok Hcl Hns Hst Hne Hw1. unfold provider_settled.
    destruct L1, answer as [[[] [err|]]|msg]; cbn in *; subst; rewrite String.eqb_refl, (proj2 (String.eqb_neq _ _) Hne);
      split_and!; auto. }
  destruct answer as [[[] err]|msg].
  - apply wpM_ret, wpM_ret. refine (eq_ind_r (fun L => ends_well sc opts L s5 o) _ Hend). split; [done|]. destruct o as [u|e'|msg|]; [|done| |done].
    + intros He. destruct Ho as (_ & Ho). rewrite <- Hfe in He. specialize (Ho He). eapply succeeded_facts in Ho; [|exact Hf].
      subst e. by destruct L1, err.
    + subst e. by destruct L1, err.
  - refine (eq_ind_r (fun L => ends_well sc opts L s5 (Panic msg)) _ Hend). split; [done|]. subst e. by destruct L1.
Qed.

(** A ledger of a run without a provider, or without a state of it. *)
Definition early (L : ledger) : Prop :=
  lg_owed L = "" /\ lg_sampling L = false /\ lg_watching L = false.

Lemma early_end sc opts L s t :
  early L -> tracks L s t -> run_Error (st_result s) <> "" -> after_body sc opts t s (Ok tt).
Proof.
  intros (Ho & Hs & Hw) (Ht & Hok & Hcl & _) He. split; [rewrite Ht|done]. split_and!; [done..|by rewrite Hw|].
  destruct (op_keep opts); [done|]. by right; right.
Qed.

Lemma fail_early sc opts text L s t :
  early L -> tracks L s t -> text <> "" -> wpM (fail_run text) s (after_body sc opts) t.
Proof.
  intros HE HL Hne. apply fail_run_error. intros s' _ Hs _ _ He. apply (early_end _ _ L); [done| |by rewrite He].
  destruct HL as (? & ? & ? & ?). split_and!; congruence.
Qed.

Lemma run_provider_run sc opts s t :
  tracks no_ledger s t -> wpM (run_provider durationString quote_ Sprint Unmarshal decode_row sc opts) s (after_body sc opts) t.
Proof.
  intros HL. unfold run_provider, result. apply wpM_bind, wpM_bind, wpM_get, wpM_ret, wpM_bind.
  eapply wpM_phase; [done|]. intros t1 HL1. unfold call_activity.
  apply wpM_bind, (wpM_perform (E := run_sig) (ActCreateProvider _)). set (name := {| cp_RunnerType := _; cp_Name := _ |}).
  destruct HL1 as (Ht1 & _ & _ & Hs). intros [[providerState err]|msg].
  - apply wpM_ret. set (e := ev _ _). exists (account no_ledger e).
    assert (He : tracks (account no_ledger e) s (t1 ++ [e])).
    { unfold tracks. rewrite ledger_snoc, Ht1. subst e. destruct err; cbn; [done|]. by destruct (CompressData providerState). }
    split; [exact He|]. intros s2 t2 HK2 HL2. unfold same_core, core, facts in HK2. injection HK2 as Htd2 Hs2 _ _ _ _ _.
    destruct err as [err|]; [by eapply fail_early; [|exact HL2|]|]. apply wpM_bind, wpM_try, wpM_lift.
    subst e. cbn in HL2. destruct (CompressData providerState) as [z|err|msg|] eqn:Hz; [|by eapply fail_early; [|exact HL2|]| |].
    + apply wpM_bind, wpM_modify, wpM_deferring. set (s3 := apply_update _ s2).
      eapply wpM_mono; [|eapply run_testnet_run; [exact HL2|done|done|by change (st_sampler s2 = false); rewrite <- Hs2]].
      intros t' s' o Ho. by eapply teardown_run_spec.
    + exfalso. by destruct (CompressData_cases providerState) as [[? ?]|[? ?]]; congruence.
    + exfalso. by destruct (CompressData_cases providerState) as [[? ?]|[? ?]]; congruence.
  - set (e := ev _ _). exists (account no_ledger e).
    assert (He : ledger_of (t1 ++ [e]) = account no_ledger e) by by rewrite ledger_snoc, Ht1.
    split; [by split|]. refine (eq_ind_r (fun L => ends_well sc opts L s (Panic msg)) _ He). split; [|done]. split_and!; try done. destruct (op_keep opts); [done|by left].
Qed.

Lemma run_body_run sc opts s t :
  tracks no_ledger s t -> wpM (run_body durationString quote_ Sprint Unmarshal decode_row sc opts) s (after_body sc opts) t.
Proof.
  intros HL. unfold run_body, build_image, buildImage.
  assert (Hq : quietly true (if op_skipBuild opts then retM None
    else let* '(cmd, logText, err) := phase "build_image" (sc_ImageTag sc)
           (let* '(out, err) := perform (DockerBuild (build_args sc)) in retM ("docker" :: build_args sc, out, err)) in
         let* _ := update (fun r => r {{ run_ImageBuildCommand := cmd; run_ImageBuildLog := trimLog logText 20000 }}) in
         retM (S := run_state) err)).
  { calm_step; [calm_go|]. calm_step; [apply phase_quietly|].
    - calm_step; [apply perform_quietly; by intros x L; apply placed_quiet|calm_go].
    - destruct a as [[cmd text] err]. calm_step; [by apply update_quietly|calm_go]. }
  eapply quietly_then; [exact Hq|done|]. intros [err|] s1 t1 _ HL1; [by eapply fail_early; [|exact HL1|]|by apply run_provider_run].
Qed.

Lemma finish_facts sc s (Q : list (event run_sig) -> run_state -> outcome unit -> Prop) t :
  (forall n s', facts (st_result s') = facts (st_result s) -> Q (t ++ [ev (E := run_sig) ClockNow n]) s' (Ok tt)) ->
  wpM (finish_run sc) s Q t.
Proof.
  intros HQ. unfold finish_run. apply wpM_bind, (wpM_perform (E := run_sig) ClockNow). intros finished.
  apply wpM_modify, HQ. cbn [st_result].
  change (facts (set_breakdown sc (set_derived_if_counted sc (set_overlaps (finish_times finished (st_result s))))) = facts (st_result s)).
  assert (Ho : forall r, facts (set_overlaps r) = facts r) by (intros r; unfold set_overlaps; by destruct (run_LoadWindow r)).
  assert (Hd : forall r, facts (set_derived_if_counted sc r) = facts r) by (intros r; unfold set_derived_if_counted; by destruct (_ || _)).
  transitivity (facts (set_derived_if_counted sc (set_overlaps (finish_times finished (st_result s))))); [done|].
  by rewrite Hd, Ho.
Qed.

Lemma run_scenario_run sc opts :
  wpM (run_scenario durationString quote_ Sprint Unmarshal decode_row no_stats sc opts) tt (fun t _ o =>
    exists r, o = Ok r /\ books_closed opts (ledger_of t) /\
      (run_Error r = "" -> lg_panicked (ledger_of t) = Some "" \/ succeeded sc opts (ledger_of t) r)) [].
Proof.
  unfold run_scenario. apply wpM_scoped. set (s0 := {| st_teardown := ""; st_sampler := false; st_result := _ |}).
  assert (HL0 : tracks no_ledger s0 []) by done. unfold runScenario.
  eapply quietly_then; [by apply perform_quietly|exact HL0|]. intros started s1 t1 _ HL1.
  eapply quietly_then; [apply perform_quietly; by intros x L; apply placed_quiet|done|]. intros suffix s2 t2 _ HL2.
  eapply quietly_then; [by apply update_quietly|done|]. intros [] s3 t3 _ HL3.
  apply wpM_bind, wpM_recovering. eapply wpM_mono; [|exact (run_body_run sc opts s3 t3 HL3)].
  intros t4 s4 o (Hbooks & Ho). apply wpM_bind, finish_facts. intros n s5 Hf.
  assert (Hend : ledger_of (t4 ++ [ev (E := run_sig) ClockNow n]) = ledger_of t4) by by rewrite ledger_snoc.
  assert (Hfin : forall s6, (run_Error (st_result s6) = "" ->
      lg_panicked (ledger_of t4) = Some "" \/ succeeded sc opts (ledger_of t4) (st_result s6)) ->
    wpM result s6 (fun t _ o => exists r, o = Ok r /\ books_closed opts (ledger_of t) /\
      (run_Error r = "" -> lg_panicked (ledger_of t) = Some "" \/ succeeded sc opts (ledger_of t) r))
      (t4 ++ [ev (E := run_sig) ClockNow n])).
  { intros s6 Hs6. apply wpM_bind, wpM_get, wpM_ret. exists (st_result s6). by rewrite Hend. }
  destruct o as [u|e|msg|]; try done.
  - apply wpM_lift, Hfin. intros He. right. assert (He4 : run_Error (st_result s4) = "").
    { unfold facts in Hf. injection Hf. intros. congruence. }
    eapply succeeded_facts, Ho, He4. done.
  - apply fail_run_error. intros s6 _ _ _ _ He6. apply Hfin. rewrite He6. intros ->. by left.
Qed.

(** C10: a run cleans up, on every path and whatever the calls answer.  Every
    call is in its place in the ledger: a provider is created once, a
    load test needs a launched testnet and the sampler, a sampler or a
    monitor is stopped only while it runs, the provider is torn down at most
    once, with the newest state an activity returned and after the sampler,
    and after it only the clock is read.  At the end the sampler has been
    stopped, and the monitor too unless the load test panicked.  A provider
    that was to be kept has not been torn down; otherwise a provider that
    was created is gone, its teardown having answered without an error,
    unless that teardown failed, which the run ignores, or the run had no
    state to tear it down with, its state not compressing or an activity
    having answered an empty one.  The run returns a result: panics do not
    escape. *)
Theorem runScenario_cleans_up (sc : scenario) (opts : run_options) :
  wpM (run_scenario durationString quote_ Sprint Unmarshal decode_row no_stats sc opts) tt (fun t _ o =>
    is_ok o = true /\ let L := ledger_of t in
    lg_ok L = true /\ lg_sampling L = false /\
    (lg_watching L = true -> exists msg, lg_loaded L = Some (inr msg)) /\
    (if op_keep opts then lg_closed L = false
     else lg_exists L = false \/ (lg_closed L = true /\ lg_failed L = true) \/ (lg_closed L = false /\ lg_owed L = ""))) [].
Proof. eapply wpM_mono; [|apply run_scenario_run]. by intros t s o (r & -> & Hbooks & _). Qed.

(** C11: a result without an error is one of a testnet that was launched, on
    databases that were seen to be the scenario's where it names any, and
    that was measured: the benchmark ran to its end, or the result is the load
    test's, which ended without an error of its own or was stopped with an
    accepted load window, where the run was to stop it.  (A panic with an
    empty message also leaves no error.) *)
Theorem runScenario_success (sc : scenario) (opts : run_options) :
  wpM (run_scenario durationString quote_ Sprint Unmarshal decode_row no_stats sc opts) tt (fun t _ o =>
    exists r, o = Ok r /\ (run_Error r = "" -> lg_panicked (ledger_of t) = Some "" \/ succeeded sc opts (ledger_of t) r)) [].
Proof. eapply wpM_mono; [|apply run_scenario_run]. intros t s o (r & -> & _ & Hr). by exists r. Qed.
End ledger.

(** ** A run, and one whose load test panics *)
Definition demo_scenario : @scenario demo_catalyst :=
  {| sc_Name := "simapp-treedb"; sc_Runner := ""; sc_IncludeInAll := true; sc_ChainName := "streedb"; sc_Description := "";
     sc_Repo := "cosmos-sdk"; sc_ChainSource := ""; sc_ChainRef := "main"; sc_Dockerfile := ""; sc_ReplaceCmd := "";
     sc_BaseImage := "evm"; sc_ImageTag := "t"; sc_DependencyPins := []; sc_Preseed := no_preseed; sc_IsEVMChain := false;
     sc_NumValidators := 1; sc_NumNodes := 0; sc_NumWallets := 3; sc_CatalystVersion := ""; sc_AppDBBackend := "";
     sc_NodeDBBackend := ""; sc_TxIndexer := "null"; sc_Genesis := []; sc_CustomAppConfig := []; sc_CustomConfig := [];
     sc_CustomClient := []; sc_AdditionalFlags := []; sc_AppCPUProfile := ""; sc_AppHeapProfile := ""; sc_AppPprofListen := "";
     sc_LoadTestSpec := ([("MsgSend", 1)] : @LoadTestSpec demo_catalyst);
     sc_CelestiaSync := no_celestia |}.
Definition demo_options (keep : bool) : run_options :=
  {| op_skipBuild := true; op_keep := keep; op_commitBenchBlocks := 0;
     op_appProfiles := {| CPUOutDir := ""; HeapOutDir := ""; PprofOutDir := ""; DiagnosticOutDir := ""; DiagnosticDuration := 0;
                          ActiveWindowOutDir := ""; ActiveWindowDuration := 0; DebugVars := false |};
     op_rawTxAudit := true; op_loadWindowDrainTimeout := 0; op_loadWindowMinDuration := 0;
     op_loadWindowTargetFraction := fzero; op_stopCatalystAfterLoadWindow := false; op_treeDBStatsSampleInterval := Second;
     op_treeDBPostLoadDwell := 0 |}.

Definition demo_answer (loaded : option string) (c : @run_call demo_catalyst) : run_ans c :=
  match c with
  | ClockNow => 5 | RandomSuffix _ => "AbCd" | DockerBuild _ => ("", None)
  | ActCreateProvider _ => inl ("created", None)
  | ActLaunchTestnet _ => inl ({| lp_ProviderState := "launched"; lp_ChainState := "chain"; lp_ChainID := ""; lp_Nodes := [];
                                  lp_Validators := [] |}, None)
  | ActRunLoadTest _ _ =>
      match loaded with
      | Some state => inl ({| lx_ProviderState := state; lx_Result := no_result ((10, 9, 8, 1, Second) : @OverallStats demo_catalyst);
                              lx_TaskLogs := ""; lx_LoadTestConfig := ""; lx_StoppedReason := "" |}, None)
      | None => inr "nil map"
      end
  | ActTeardownProvider _ => inl (tt, None)
  | StartSampler _ | StartMonitor _ _ _ _ _ _ _ | StartCollector _ _ _ => tt
  | StopSampler => [] | CollectorDone => []
  | OfMonitor c => match c with DoneOrTimer => None | CancelThenDone => no_observation end
  | ChainHeight => inl 5 | ChainWaitForBlocks _ => inl tt
  | OfScrape c =>
      match c with
      | DockerPs _ | InspectIP _ | InspectMetricsPort _ | DockerStats _ => None
      | GetMetrics _ => inr "" | RunnerScrape.DebugVars _ => VarsFailed "" | DiskUsage _ _ => ("", true) | DockerLogs _ => ("", None)
      | Now => 5 | Sleep _ => tt | WakeSampler => false
      end
  | OfAudit c => match c with DockerNames _ | DockerRPCPort _ => None | GetJSON _ => inr "" end
  | OfProfile c =>
      match c with
      | DecompressData _ | ReadValidatorFile _ => inl ""
      | RestoreProvider _ | MkdirAll _ | StopValidator | WriteLocal _ _ => inl tt
      | RestoreChain _ _ => inl 1 | ProfileNow => 5 | RunInValidator _ _ => (inl 0, ("", "")) | PprofTop _ _ => ("", None)
      end
  end.

Definition teardowns (t : list (event (@run_sig demo_catalyst))) : list string :=
  omap (fun e => match projT1 e with ActTeardownProvider req => Some (tp_ProviderState req) | _ => None end) t.
Definition demo_run (keep : bool) (loaded : option string) : option (string * string * list string) :=
  let '(_, o, _, t) := runM (fun c w => (demo_answer loaded c, w))
    (run_scenario (R := canonical_range) (G := tag_gzip) (fun _ => "") (fun s => s) (fun _ => "") (fun _ => inl []) (fun _ => None)
       ((0, 0, 0, 0, 0) : @OverallStats demo_catalyst) demo_scenario (demo_options keep)) tt tt in
  match o with Ok r => Some (run_ProviderName r, run_Error r, teardowns t) | _ => None end.

Example demo_runs :
  demo_run false (Some "loaded") = Some ("ibstreedbabcd", "", ["loaded"]) /\
  demo_run false (Some "") = Some ("ibstreedbabcd", "", ["launched"]) /\
  demo_run true (Some "loaded") = Some ("ibstreedbabcd", "", []) /\
  demo_run false None = Some ("ibstreedbabcd", "nil map", ["launched"]).
Proof. vm_compute. done. Qed.
