(* ===== verification/RunnerCelestia.v ===== *)
(** * The comparison of Celestia synchronisations: [cmd/local-report-runner/main.go]

    [runCelestiaSyncScenario] writes the environment files of the two
    variants, runs the script that compares them, and reads what the script
    left.  A file that is written is shown to be read by a shell as exactly
    the settings.  Files, [git], the script, the clock, JSON and the rows of a
    CSV file are outside.  [sort.Slice] orders runs of the same pair and
    variant as [merge_sort] does. *)

From stdpp Require Import sorting.
From S2P Require Import Prelude GoStrings GoVal GoFloat GoText RunnerMetrics RunnerWindows RunnerCounts RunnerScrape RunnerScenario RunnerProfiles.
From Stdlib Require Import Ascii.
From coqutil Require Import Datatypes.RecordSetters.
Import DoubleBraceUpdate.

(** ** The library *)

(** [filepath.Join], [filepath.IsAbs] *)
Fixpoint path_Join (elem : list string) : string :=
  match elem with
  | [] => ""
  | e :: elem' => if String.eqb e "" then path_Join elem' else Clean (Join elem "/")
  end.
Definition IsAbs (path : string) : bool := HasPrefix path "/".

(** [strings.EqualFold] with [t] of lower-case ASCII letters, which long s and the Kelvin sign fold to too. *)
Fixpoint EqualFold (s t : string) {struct t} : bool :=
  match t, s with
  | EmptyString, EmptyString => true
  | String d t', String c s' =>
      if Ascii.eqb (lower c) d then EqualFold s' t'
      else if Ascii.eqb d "s" && HasPrefix s (encode_rune 383) then EqualFold (str_drop 2 s) t'
      else if Ascii.eqb d "k" && HasPrefix s (encode_rune 8490) then EqualFold (str_drop 3 s) t'
      else false
  | _, _ => false
  end.

(** [strings.Cut] at a byte. *)
Fixpoint Cut (s : string) (sep : ascii) : option (string * string) :=
  match s with
  | EmptyString => None
  | String c s' => if Ascii.eqb c sep then Some ("", s') else (fun '(before, after) => (String c before, after)) <$> Cut s' sep
  end.

(** [map[string]string] literals and the assignments after them. *)
Definition put_all (entries : list (string * string)) (env : gmap string string) : gmap string string :=
  foldl (fun env kv => <[kv.1 := kv.2]> env) env entries.

Definition sort_Strings (l : list string) : list string := merge_sort str_le l.

Section celestia.
Context {R : MapRange}.

(** ** Environments *)
Definition boolEnv (v : bool) : string := if v then "1" else "0".

Definition envMapToList (env : gmap string string) : list string :=
  sort_Strings (map (fun '(key, value) => key +:+ "=" +:+ value) (range_map env)).

Definition shell_line (key value : string) : string := key +:+ "=" +:+ shellQuote value +:+ nl.
Definition shell_keys (env : gmap string string) : list string :=
  sort_Strings (List.filter (fun key => negb (String.eqb (TrimSpace key) "") && negb (String.eqb (TrimSpace (lookup_str env key)) ""))
                  (range_map env).*1).
Definition shellEnvFile (env : gmap string string) : string :=
  "# generated by ironbird cmd/local-report-runner" +:+ nl +:+
  String_concat "" (map (fun key => shell_line key (lookup_str env key)) (shell_keys env)).

Definition variant_ports (backend : string) : list (string * string) :=
  if String.eqb backend "treedb" then
    [("P2P_PORT", "37656"); ("RPC_PORT", "37657"); ("RPC_GRPC_PORT", "37658"); ("PRIV_VALIDATOR_GRPC_PORT", "37659");
     ("PROMETHEUS_PORT", "37660"); ("API_PORT", "37317"); ("APP_GRPC_PORT", "39091"); ("PPROF_LADDR", "localhost:6162");
     ("AB_LIVE_DEBUG_VARS_URL", "http://127.0.0.1:6162/debug/vars")]
  else
    [("P2P_PORT", "36656"); ("RPC_PORT", "36657"); ("RPC_GRPC_PORT", "36658"); ("PRIV_VALIDATOR_GRPC_PORT", "36659");
     ("PROMETHEUS_PORT", "36660"); ("API_PORT", "36317"); ("APP_GRPC_PORT", "39090"); ("PPROF_LADDR", "localhost:6062");
     ("AB_LIVE_DEBUG_VARS_URL", "http://127.0.0.1:6062/debug/vars")].

(** The entries a variant's environment is given, in order; a later one replaces an earlier. *)
Definition variant_entries (cfg : celestiaSyncConfig) (backend : string) : list (string * string) :=
  [("RUN_CELESTIA_REPO", cs_CelestiaAppDir cfg); ("DB_BACKEND", backend); ("APP_DB_BACKEND", backend);
   ("HOME", cs_RunHomeBase cfg); ("CELESTIA_RUN_HOME_BASE", cs_RunHomeBase cfg); ("TMPDIR", cs_TempDir cfg);
   ("USE_LOCAL_TREE_STACK", boolEnv (cs_UseLocalTreeStack cfg)); ("USE_LOCAL_COSMOS_STORE", boolEnv (cs_UseLocalCosmosStore cfg));
   ("USE_LOCAL_IAVL", boolEnv (cs_UseLocalIAVL cfg)); ("LOCAL_GOMAP_DIR", cs_GomapDir cfg);
   ("LOCAL_COSMOS_DB_DIR", cs_CosmosDBDir cfg); ("LOCAL_COMET_DB_DIR", cs_CometDBDir cfg);
   ("LOCAL_COSMOS_STORE_DIR", cs_CosmosStoreDir cfg); ("LOCAL_COSMOS_LOG_DIR", cs_CosmosLogDir cfg);
   ("LOCAL_COSMOS_CORE_DIR", cs_CosmosCoreDir cfg); ("LOCAL_IAVL_DIR", cs_IAVLDir cfg);
   ("POST_SYNC_DWELL_SECONDS", itoa (cs_PostSyncDwellSeconds cfg));
   ("FREEZE_REMOTE_HEIGHT_AT_START", boolEnv (cs_FreezeRemoteHeightAtStart cfg));
   ("CAPTURE_HEAP_ON_MAX_RSS", "0"); ("CAPTURE_PPROF_ON_STUCK", "0"); ("CAPTURE_FULL_SMAPS_ON_MAX_RSS", "0");
   ("CAPTURE_DEBUG_VARS_ON_MAX_RSS", "0"); ("TREEDB_FORCE_CHECKPOINT_ON_WRITE", "0");
   ("RUN_HOME_GLOB", path_Join [cs_RunHomeBase cfg; ".celestia-app-mainnet-" +:+ backend +:+ "-*"]);
   ("CELESTIA_APPD_BIN", path_Join [cs_CelestiaAppDir cfg; "build"; "celestia-appd-" +:+ backend])] ++
  variant_ports backend ++
  (if nonempty (cs_GoCacheRoot cfg) then
     [("GOCACHE", path_Join [cs_GoCacheRoot cfg; "build-cache"]); ("GOMODCACHE", path_Join [cs_GoCacheRoot cfg; "mod-cache"]);
      ("GOPATH", path_Join [cs_GoCacheRoot cfg; "gopath"])] else []) ++
  (if nonempty (cs_RequiredAcceptedSnapshotHeight cfg) then
     [("REQUIRED_ACCEPTED_SNAPSHOT_HEIGHT", cs_RequiredAcceptedSnapshotHeight cfg)] else []) ++
  (if nonempty (cs_TrustHeight cfg) then [("TRUST_HEIGHT", cs_TrustHeight cfg); ("TRUST_HASH", cs_TrustHash cfg)] else []) ++
  (if nonempty (cs_StopAtLocalHeight cfg) then [("STOP_AT_LOCAL_HEIGHT", cs_StopAtLocalHeight cfg)] else []) ++
  (if String.eqb backend "treedb" then
     [("TREEDB_OPEN_PROFILE", cs_TreeDBOpenProfile cfg); ("TREEDB_ENABLE_LEAF_GENERATION_PACK_MAINTENANCE", "1")] else []).
Definition variant_env (cfg : celestiaSyncConfig) (backend : string) : gmap string string := put_all (variant_entries cfg backend) ∅.
Definition celestiaVariantEnv (cfg : celestiaSyncConfig) (backend : string) : string := shellEnvFile (variant_env cfg backend).

Definition celestiaABEnvironment (cfg : celestiaSyncConfig) : gmap string string :=
  let maxPairs := if cs_MaxPairs cfg <=? 0 then 1 else cs_MaxPairs cfg in
  let pairRunMode := if String.eqb (cs_PairRunMode cfg) "" then "concurrent" else cs_PairRunMode cfg in
  let runTimeout := if cs_RunTimeoutSeconds cfg <? 0 then 0 else cs_RunTimeoutSeconds cfg in
  put_all (
    [("PAIR_RUN_MODE", pairRunMode); ("MAX_PAIRS", itoa maxPairs); ("MIN_PAIRS", "1"); ("CLEAR_WIN_PAIRS", "1");
     ("CLEAR_LOSS_PAIRS", "1"); ("STOP_ON_CLEAR", "0"); ("RUN_TIMEOUT_SECONDS", itoa runTimeout);
     ("RUN_MAX_ATTEMPTS_PER_VARIANT", "1"); ("RUN_RETRY_SLEEP_SECONDS", "0"); ("SLEEP_BETWEEN_RUNS_SECONDS", "5");
     ("REWRITE_ENABLED", "0"); ("STOP_PAIR_ON_FIRST_INVALID", "1"); ("AB_CAPTURE_LIGHT_VLOG_STATS", "0");
     ("AB_DISABLE_HEAVY_DIAGNOSTICS", "1"); ("AB_CAPTURE_HEAP_ON_MAX_RSS", "0"); ("AB_CAPTURE_PPROF_ON_STUCK", "0");
     ("AB_CAPTURE_FULL_SMAPS_ON_MAX_RSS", "0"); ("AB_CAPTURE_DEBUG_VARS_ON_MAX_RSS", "0"); ("AB_CAPTURE_LIVE_DEBUG_VARS", "1");
     ("PAIR_ALIGN_TRUST_FROM_FIRST", "0"); ("PAIR_ALIGN_STOP_HEIGHT_FROM_FIRST", "0"); ("PAIR_ALIGN_STOP_MARGIN", "0");
     ("BLOCK_DRIFT_TOLERANCE", "0"); ("SCORING_MODE", "per_block"); ("ALLOW_DRIFT_SCORING", "0");
     ("RUN_HOME_GLOB", path_Join [cs_RunHomeBase cfg; ".celestia-app-mainnet-*"])] ++
    (if nonempty (cs_TempDir cfg) then [("TMPDIR", cs_TempDir cfg)] else []) ++
    (if nonempty (cs_TrustHeight cfg) then [("PAIR_ALIGN_TRUST_FROM_FIRST", "0")] else []) ++
    (if nonempty (cs_StopAtLocalHeight cfg) then [("PAIR_ALIGN_STOP_HEIGHT_FROM_FIRST", "0")] else [])) ∅.
End celestia.

(** ** What the script reports of a run *)
Record celestiaABStatus := {
  as_Valid : bool;
  as_InvalidReason : string;
  as_RunExitCode : Z;
  as_Attempt : Z;
  as_MaxAttempts : Z;
  as_RunTimeoutSeconds : Z;
  as_SyncTimePresent : bool
}.
Definition no_status : celestiaABStatus :=
  {| as_Valid := false; as_InvalidReason := ""; as_RunExitCode := 0; as_Attempt := 0; as_MaxAttempts := 0;
     as_RunTimeoutSeconds := 0; as_SyncTimePresent := false |}.
Record celestiaABSync := {
  sy_StartUTC : string;
  sy_EndUTC : string;
  sy_DBBackend : string;
  sy_AppDBBackend : string;
  sy_DurationSeconds : float;
  sy_MaxRSSKB : Z;
  sy_MaxHWMKB : Z;
  sy_FreezeRemoteHeightAtStart : Z;
  sy_TrustHeight : Z;
  sy_TrustHash : string;
  sy_StopAtLocalHeight : Z;
  sy_FinalLocalHeight : Z;
  sy_FinalRemoteHeight : Z;
  sy_FinalRemoteHeightActual : Z;
  sy_BlocksSynced : Z;
  sy_RemoteMinusStopHeight : option Z;
  sy_EndAppBytes : Z;
  sy_EndDataBytes : Z;
  sy_EndHomeBytes : Z;
  sy_RequiredAcceptedSnapshotHeight : Z;
  sy_AcceptedSnapshotHeight : Z;
  sy_AcceptedSnapshotActualHeight : Z;
  sy_AcceptedSnapshotRequiredHeight : Z;
  sy_AcceptedSnapshotFormat : Z;
  sy_AcceptedSnapshotSource : string;
  sy_AcceptedSnapshotHash : string;
  sy_AcceptedSnapshotObservedUTC : string;
  sy_AcceptedSnapshotMismatch : bool
}.
Definition no_sync : celestiaABSync :=
  {| sy_StartUTC := ""; sy_EndUTC := ""; sy_DBBackend := ""; sy_AppDBBackend := ""; sy_DurationSeconds := fzero;
     sy_MaxRSSKB := 0; sy_MaxHWMKB := 0; sy_FreezeRemoteHeightAtStart := 0; sy_TrustHeight := 0; sy_TrustHash := "";
     sy_StopAtLocalHeight := 0; sy_FinalLocalHeight := 0; sy_FinalRemoteHeight := 0; sy_FinalRemoteHeightActual := 0;
     sy_BlocksSynced := 0; sy_RemoteMinusStopHeight := None; sy_EndAppBytes := 0; sy_EndDataBytes := 0;
     sy_EndHomeBytes := 0; sy_RequiredAcceptedSnapshotHeight := 0; sy_AcceptedSnapshotHeight := 0;
     sy_AcceptedSnapshotActualHeight := 0; sy_AcceptedSnapshotRequiredHeight := 0; sy_AcceptedSnapshotFormat := 0;
     sy_AcceptedSnapshotSource := ""; sy_AcceptedSnapshotHash := ""; sy_AcceptedSnapshotObservedUTC := "";
     sy_AcceptedSnapshotMismatch := false |}.
Record celestiaABRewrite := {
  rw_Attempted : bool;
  rw_Seconds : float;
  rw_ExitCode : Z
}.
Definition no_rewrite : celestiaABRewrite :=
  {| rw_Attempted := false; rw_Seconds := fzero; rw_ExitCode := 0 |}.
Record celestiaABSizes := {
  sz_SyncAppBytes : Z;
  sz_DuSyncAppBytes : Z;
  sz_SyncWALBytes : Z;
  sz_PostAppBytes : Z;
  sz_PostWALBytes : Z
}.
Definition no_sizes : celestiaABSizes :=
  {| sz_SyncAppBytes := 0; sz_DuSyncAppBytes := 0; sz_SyncWALBytes := 0; sz_PostAppBytes := 0; sz_PostWALBytes := 0 |}.
Record celestiaABMetrics := {
  mt_TSyncSeconds : float;
  mt_TRewriteSeconds : float;
  mt_TTotalSeconds : float;
  mt_SSyncAppBytes : Z;
  mt_SDuSyncAppBytes : Z;
  mt_SSyncWALBytes : Z;
  mt_SPostAppBytes : Z;
  mt_SPostWALBytes : Z;
  mt_SSyncAppBytesPerBlock : float;
  mt_SPostAppBytesPerBlock : float;
  mt_MaxRSSKB : Z;
  mt_BlocksSynced : Z;
  mt_TSyncSecondsPerBlock : float;
  mt_TTotalSecondsPerBlock : float
}.
Definition no_metrics : celestiaABMetrics :=
  {| mt_TSyncSeconds := fzero; mt_TRewriteSeconds := fzero; mt_TTotalSeconds := fzero; mt_SSyncAppBytes := 0;
     mt_SDuSyncAppBytes := 0; mt_SSyncWALBytes := 0; mt_SPostAppBytes := 0; mt_SPostWALBytes := 0;
     mt_SSyncAppBytesPerBlock := fzero; mt_SPostAppBytesPerBlock := fzero; mt_MaxRSSKB := 0; mt_BlocksSynced := 0;
     mt_TSyncSecondsPerBlock := fzero; mt_TTotalSecondsPerBlock := fzero |}.
Record celestiaABRunSummary := {
  ab_PairIndex : Z;
  ab_Variant : string;
  ab_RunHome : string;
  ab_SyncTimePath : string;
  ab_SyncTime : gmap string string;
  ab_Build : gmap string string;
  ab_Status : celestiaABStatus;
  ab_Sync : celestiaABSync;
  ab_Rewrite : celestiaABRewrite;
  ab_Sizes : celestiaABSizes;
  ab_Metrics : celestiaABMetrics;
  ab_MaintenanceSummarySource : string;
  ab_MaintenanceSummaryIsLiveRuntime : bool;
  ab_MaintenanceSummary : gomap;
  ab_Path : string;
  ab_Error : string
}.
Definition no_runsummary : celestiaABRunSummary :=
  {| ab_PairIndex := 0; ab_Variant := ""; ab_RunHome := ""; ab_SyncTimePath := ""; ab_SyncTime := ∅; ab_Build := ∅;
     ab_Status := no_status; ab_Sync := no_sync; ab_Rewrite := no_rewrite; ab_Sizes := no_sizes; ab_Metrics := no_metrics;
     ab_MaintenanceSummarySource := ""; ab_MaintenanceSummaryIsLiveRuntime := false; ab_MaintenanceSummary := [];
     ab_Path := ""; ab_Error := "" |}.

Record celestiaSyncResult := {
  sr_Config : celestiaSyncConfig;
  sr_Command : list string;
  sr_Environment : gmap string string;
  sr_OutputDir : string;
  sr_ControlEnvFile : string;
  sr_CandidateEnvFile : string;
  sr_ExitCode : Z;
  sr_CommandLog : string;
  sr_SummaryMarkdown : string;
  sr_Decision : gomap;
  sr_RunsCSV : list (gmap string string);
  sr_PairsCSV : list (gmap string string);
  sr_Runs : list celestiaABRunSummary;
  sr_Artifacts : gmap string string;
  sr_RepoGit : gmap string (gmap string string)
}.

(** ** The log of a synchronisation *)
Definition parseInt64Value (raw : string) : option Z :=
  let raw := TrimSpace raw in
  if String.eqb raw "" || EqualFold raw "disabled" || EqualFold raw "unset" then None else ParseInt raw.

(** [setStringIfPresent], [setInt64IfPresent] *)
Definition string_if_present (values : gmap string string) (key dst : string) : string :=
  let value := TrimSpace (lookup_str values key) in if nonempty value then value else dst.
Definition int64_if_present (values : gmap string string) (key : string) (dst : Z) : Z :=
  default dst (parseInt64Value (lookup_str values key)).

Definition enrichCelestiaSyncFromKV (sync : celestiaABSync) (values : gmap string string) : celestiaABSync :=
  {| sy_StartUTC := string_if_present values "start_utc" (sy_StartUTC sync);
     sy_EndUTC := string_if_present values "end_utc" (sy_EndUTC sync);
     sy_DBBackend := string_if_present values "db_backend" (sy_DBBackend sync);
     sy_AppDBBackend := string_if_present values "app_db_backend" (sy_AppDBBackend sync);
     sy_DurationSeconds := sy_DurationSeconds sync;
     sy_MaxRSSKB := int64_if_present values "max_rss_kb" (sy_MaxRSSKB sync);
     sy_MaxHWMKB := int64_if_present values "max_hwm_kb" (sy_MaxHWMKB sync);
     sy_FreezeRemoteHeightAtStart := sy_FreezeRemoteHeightAtStart sync;
     sy_TrustHeight := int64_if_present values "trust_height" (sy_TrustHeight sync);
     sy_TrustHash := string_if_present values "trust_hash" (sy_TrustHash sync);
     sy_StopAtLocalHeight := int64_if_present values "stop_at_local_height" (sy_StopAtLocalHeight sync);
     sy_FinalLocalHeight := int64_if_present values "final_local_height" (sy_FinalLocalHeight sync);
     sy_FinalRemoteHeight := int64_if_present values "final_remote_height" (sy_FinalRemoteHeight sync);
     sy_FinalRemoteHeightActual := int64_if_present values "final_remote_height_actual" (sy_FinalRemoteHeightActual sync);
     sy_BlocksSynced := int64_if_present values "blocks_synced" (sy_BlocksSynced sync);
     sy_RemoteMinusStopHeight := sy_RemoteMinusStopHeight sync;
     sy_EndAppBytes := int64_if_present values "end_app_bytes" (sy_EndAppBytes sync);
     sy_EndDataBytes := int64_if_present values "end_data_bytes" (sy_EndDataBytes sync);
     sy_EndHomeBytes := int64_if_present values "end_home_bytes" (sy_EndHomeBytes sync);
     sy_RequiredAcceptedSnapshotHeight := int64_if_present values "required_accepted_snapshot_height" (sy_RequiredAcceptedSnapshotHeight sync);
     sy_AcceptedSnapshotHeight := int64_if_present values "accepted_snapshot_height" (sy_AcceptedSnapshotHeight sync);
     sy_AcceptedSnapshotActualHeight := int64_if_present values "accepted_snapshot_actual_height" (sy_AcceptedSnapshotActualHeight sync);
     sy_AcceptedSnapshotRequiredHeight := int64_if_present values "accepted_snapshot_required_height" (sy_AcceptedSnapshotRequiredHeight sync);
     sy_AcceptedSnapshotFormat := int64_if_present values "accepted_snapshot_format" (sy_AcceptedSnapshotFormat sync);
     sy_AcceptedSnapshotSource := string_if_present values "accepted_snapshot_source" (sy_AcceptedSnapshotSource sync);
     sy_AcceptedSnapshotHash := string_if_present values "accepted_snapshot_hash" (sy_AcceptedSnapshotHash sync);
     sy_AcceptedSnapshotObservedUTC := string_if_present values "accepted_snapshot_observed_utc" (sy_AcceptedSnapshotObservedUTC sync);
     sy_AcceptedSnapshotMismatch :=
       let value := TrimSpace (lookup_str values "accepted_snapshot_mismatch") in
       if nonempty value then String.eqb value "1" || EqualFold value "true" else sy_AcceptedSnapshotMismatch sync |}.

(** A line of [readKeyValueFile]. *)
Definition key_value (line : string) : option (string * string) :=
  let line := TrimSpace line in
  if String.eqb line "" || HasPrefix line "#" then None
  else
    match Cut line "=" with
    | Some (key, value) => let key := TrimSpace key in if String.eqb key "" then None else Some (key, TrimSpace value)
    | None => None
    end.
Definition key_values (body : string) : gmap string string := put_all (omap key_value (Split (ascii_of_nat 10) body)) ∅.

(** The rows of a CSV file, as records of its header. *)
Definition csv_record (header row : list string) : gmap string string :=
  put_all (imap (fun i key => (key, nth i row "")) header) ∅.
Definition csv_records (rows : list (list string)) : list (gmap string string) :=
  match rows with header :: (_ :: _) as rows' => map (csv_record header) rows' | _ => [] end.

Definition run_le (a b : celestiaABRunSummary) : Prop :=
  (if ab_PairIndex a =? ab_PairIndex b then String.leb (ab_Variant a) (ab_Variant b) else ab_PairIndex a <? ab_PairIndex b) = true.
#[export] Instance run_le_dec : RelDecision run_le.
Proof. intros a b. unfold run_le. apply _. Defined.

(** ** Calls *)
Inductive exec_error := ExitError (code : Z) (msg : string) | ExecError (msg : string).
Definition exec_message (e : exec_error) : string := match e with ExitError _ msg | ExecError msg => msg end.

Definition commandExitCode (err : option exec_error) : Z :=
  match err with None => 0 | Some (ExitError code _) => code | Some (ExecError _) => -1 end.

Inductive celestia_call :=
| WallClock                                       (* time.Now *)
| WorkingDir                                      (* os.Getwd *)
| StatPath (path : string)                        (* whether a directory, if there *)
| MakeDirs (path : string)
| WritePath (path body : string)
| ReadPath (path : string)
| ListDir (path : string)                         (* names, with whether directories *)
| Environ
| GitIn (dir : string) (args : list string)       (* the output and the error *)
| RunScript (command : list string) (dir : string) (env : list string).

Definition celestia_ans (c : celestia_call) : Type :=
  match c with
  | WallClock => Z
  | WorkingDir => option string
  | StatPath _ => option bool
  | MakeDirs _ | WritePath _ _ => res unit
  | ReadPath _ => option string
  | ListDir _ => option (list (string * bool))
  | Environ => list string
  | GitIn _ _ => string * option exec_error
  | RunScript _ _ _ => string * option exec_error
  end.
Canonical celestia_sig : sig := Sig celestia_call celestia_ans.

(** The fields of [runResult] the comparison fills, its scenario apart. *)
Record celestia_run := {
  cr_StartedAt : Z;
  cr_FinishedAt : Z;
  cr_WallSeconds : float;
  cr_ProviderName : string;
  cr_PhaseTimeline : list phaseSpan;
  cr_CelestiaSync : option celestiaSyncResult;
  cr_Error : string
}.
Definition new_celestia_run : celestia_run :=
  {| cr_StartedAt := zero_time; cr_FinishedAt := zero_time; cr_WallSeconds := fzero; cr_ProviderName := "";
     cr_PhaseTimeline := []; cr_CelestiaSync := None; cr_Error := "" |}.

Section calls.
Context {R : MapRange}.
Variable decode_run : string -> celestiaABRunSummary + string.    (* json.Unmarshal of run.json *)
Variable decode_decision : string -> option gomap.                (* json.Unmarshal of decision.json *)
Variable csv_ReadAll : string -> option (list (list string)).     (* the rows of a CSV file *)

Section state.
Context {S : Type}.
Abbreviation CelM := (M celestia_sig S).

(** ** Paths of the configuration *)
Definition absPathIfRelative (path : string) : CelM string :=
  if String.eqb path "" || IsAbs path then retM path
  else
    let* wd := perform (WorkingDir : call celestia_sig) in
    retM (match wd with Some wd => path_Join [wd; path] | None => path end).

Definition normalizeCelestiaConfig (cfg : celestiaSyncConfig) : CelM celestiaSyncConfig :=
  let cfg := if String.eqb (cs_PairRunMode cfg) "" then cfg {{ cs_PairRunMode := "concurrent" }} else cfg in
  let* runnerScript := absPathIfRelative (cs_RunnerScript cfg) in
  let* outputDir := absPathIfRelative (cs_OutputDir cfg) in
  let* controlEnvFile := absPathIfRelative (cs_ControlEnvFile cfg) in
  let* candidateEnvFile := absPathIfRelative (cs_CandidateEnvFile cfg) in
  let* runHomeBase := absPathIfRelative (cs_RunHomeBase cfg) in
  let* goCacheRoot := absPathIfRelative (cs_GoCacheRoot cfg) in
  let* tempDir := absPathIfRelative (cs_TempDir cfg) in
  let* celestiaAppDir := absPathIfRelative (cs_CelestiaAppDir cfg) in
  let* gomapDir := absPathIfRelative (cs_GomapDir cfg) in
  let* cosmosDBDir := absPathIfRelative (cs_CosmosDBDir cfg) in
  let* cometDBDir := absPathIfRelative (cs_CometDBDir cfg) in
  let* cosmosStoreDir := absPathIfRelative (cs_CosmosStoreDir cfg) in
  let* cosmosLogDir := absPathIfRelative (cs_CosmosLogDir cfg) in
  let* cosmosCoreDir := absPathIfRelative (cs_CosmosCoreDir cfg) in
  let* iavlDir := absPathIfRelative (cs_IAVLDir cfg) in
  retM (cfg {{ cs_RunnerScript := runnerScript; cs_OutputDir := outputDir; cs_ControlEnvFile := controlEnvFile;
               cs_CandidateEnvFile := candidateEnvFile; cs_RunHomeBase := runHomeBase; cs_GoCacheRoot := goCacheRoot;
               cs_TempDir := tempDir; cs_CelestiaAppDir := celestiaAppDir; cs_GomapDir := gomapDir;
               cs_CosmosDBDir := cosmosDBDir; cs_CometDBDir := cometDBDir; cs_CosmosStoreDir := cosmosStoreDir;
               cs_CosmosLogDir := cosmosLogDir; cs_CosmosCoreDir := cosmosCoreDir; cs_IAVLDir := iavlDir }}).

(** ** The environment files *)
Definition env_file (given name : string) (dir body : string) : CelM string :=
  if String.eqb given "" then
    let path := path_Join [dir; name] in
    let* _ := ask (WritePath path body : call celestia_sig) in retM path
  else retM given.

Definition prepareCelestiaEnvFiles (cfg : celestiaSyncConfig) : CelM (string * string) :=
  if String.eqb (cs_OutputDir cfg) "" then throw (ENew "celestia output dir is required")
  else if xorb (String.eqb (cs_TrustHeight cfg) "") (String.eqb (cs_TrustHash cfg) "") then
    throw (ENew "celestia trust height and trust hash must be set together")
  else
    let envDir := path_Join [cs_OutputDir cfg; "env"] in
    let* _ := ask (MakeDirs envDir : call celestia_sig) in
    let* controlEnv := env_file (cs_ControlEnvFile cfg) "control-goleveldb.env" envDir (celestiaVariantEnv cfg "goleveldb") in
    let* candidateEnv := env_file (cs_CandidateEnvFile cfg) "candidate-treedb.env" envDir (celestiaVariantEnv cfg "treedb") in
    retM (controlEnv, candidateEnv).

(** ** The checkouts *)
Definition gitCommandString (dir : string) (args : list string) : CelM string :=
  let* '(out, err) := perform (GitIn dir args : call celestia_sig) in
  retM (match err with Some e => if String.eqb out "" then exec_message e else TrimSpace out | None => TrimSpace out end).

Definition git_queries : gmap string (list string) :=
  list_to_map
    [("branch", ["branch"; "--show-current"]); ("head", ["rev-parse"; "HEAD"]); ("describe", ["describe"; "--always"; "--dirty"]);
     ("status", ["status"; "--short"]); ("remote", ["remote"; "get-url"; "origin"])].

(** [for key, x := range m { out = body(key, x, out) }] *)
Fixpoint range_fold {A B} (l : list (string * A)) (body : string -> A -> B -> CelM B) (out : B) : CelM B :=
  match l with
  | [] => retM out
  | (key, x) :: l' => let* out := body key x out in range_fold l' body out
  end.

Definition gitMetadataForDir (dir : string) : CelM (gmap string string) :=
  range_fold (range_map git_queries)
    (fun key args meta => let* text := gitCommandString dir args in retM (<[key := text]> meta)) {[ "path" := dir ]}.

Definition celestia_repos (cfg : celestiaSyncConfig) : gmap string string :=
  list_to_map
    [("celestia_app", cs_CelestiaAppDir cfg); ("gomap", cs_GomapDir cfg); ("cosmos_db", cs_CosmosDBDir cfg);
     ("comet_db", cs_CometDBDir cfg); ("cosmos_store", cs_CosmosStoreDir cfg); ("cosmos_log", cs_CosmosLogDir cfg);
     ("cosmos_core", cs_CosmosCoreDir cfg); ("iavl", cs_IAVLDir cfg)].

(** None is the empty map. *)
Definition celestiaRepoMetadata (cfg : celestiaSyncConfig) : CelM (gmap string (gmap string string)) :=
  range_fold (range_map (celestia_repos cfg))
    (fun name path out =>
       if String.eqb path "" then retM out
       else
         let* st := perform (StatPath path : call celestia_sig) in
         match st with
         | Some true => let* meta := gitMetadataForDir path in retM (<[name := meta]> out)
         | _ => retM out
         end) ∅.

(** ** What the script left *)
Definition readKeyValueFile (path : string) : CelM (option (gmap string string)) :=
  let* body := perform (ReadPath path : call celestia_sig) in retM (key_values <$> body).

Definition attachCelestiaSyncTime (run : celestiaABRunSummary) : CelM celestiaABRunSummary :=
  if String.eqb (ab_RunHome run) "" then retM run
  else
    let syncTimePath := path_Join [ab_RunHome run; "sync"; "sync-time.log"] in
    let* values := readKeyValueFile syncTimePath in
    match values with
    | Some values =>
        if bool_decide (values = ∅) then retM run
        else retM (run {{ ab_SyncTimePath := syncTimePath; ab_SyncTime := values;
                          ab_Sync := enrichCelestiaSyncFromKV (ab_Sync run) values }})
    | None => retM run
    end.

Definition read_run (runsDir : string) (entry : string * bool) : CelM (option celestiaABRunSummary) :=
  if negb entry.2 then retM None
  else
    let path := path_Join [runsDir; entry.1; "run.json"] in
    let* body := perform (ReadPath path : call celestia_sig) in
    match body with
    | None => retM None
    | Some body =>
        let run := match decode_run body with inl run => run | inr msg => no_runsummary {{ ab_Path := path; ab_Error := msg }} end in
        let* run := attachCelestiaSyncTime (run {{ ab_Path := path }}) in
        retM (Some run)
    end.
Fixpoint read_runs (runsDir : string) (entries : list (string * bool)) : CelM (list celestiaABRunSummary) :=
  match entries with
  | [] => retM []
  | entry :: entries' =>
      let* run := read_run runsDir entry in
      let* out := read_runs runsDir entries' in
      retM (match run with Some run => run :: out | None => out end)
  end.
Definition readCelestiaRunSummaries (runsDir : string) : CelM (list celestiaABRunSummary) :=
  let* entries := perform (ListDir runsDir : call celestia_sig) in
  match entries with
  | None => retM []
  | Some entries => let* out := read_runs runsDir entries in retM (merge_sort run_le out)
  end.

Definition readCSVRecords (path : string) : CelM (option (list (gmap string string))) :=
  let* body := perform (ReadPath path : call celestia_sig) in
  retM (csv_records <$> (body ≫= csv_ReadAll)).

Definition artifact_paths (outDir : string) : gmap string string :=
  list_to_map
    [("summary", path_Join [outDir; "summary.md"]); ("decision", path_Join [outDir; "decision.json"]);
     ("runs_csv", path_Join [outDir; "runs.csv"]); ("pairs_csv", path_Join [outDir; "pairs.csv"]);
     ("runs_dir", path_Join [outDir; "runs"]); ("meta", path_Join [outDir; "meta.txt"])].

Definition collectCelestiaArtifacts (result : celestiaSyncResult) : CelM celestiaSyncResult :=
  let outDir := sr_OutputDir result in
  if String.eqb outDir "" then retM result
  else
    let* artifacts := range_fold (range_map (artifact_paths outDir))
      (fun name path out =>
         let* st := perform (StatPath path : call celestia_sig) in
         retM (match st with Some _ => <[name := path]> out | None => out end)) ∅ in
    let* summary := perform (ReadPath (path_Join [outDir; "summary.md"]) : call celestia_sig) in
    let* decision := perform (ReadPath (path_Join [outDir; "decision.json"]) : call celestia_sig) in
    let* runsCSV := readCSVRecords (path_Join [outDir; "runs.csv"]) in
    let* pairsCSV := readCSVRecords (path_Join [outDir; "pairs.csv"]) in
    let* runs := readCelestiaRunSummaries (path_Join [outDir; "runs"]) in
    retM (result {{ sr_Artifacts := if bool_decide (artifacts = ∅) then sr_Artifacts result else artifacts;
                    sr_SummaryMarkdown := default (sr_SummaryMarkdown result) summary;
                    sr_Decision := default (sr_Decision result) (decision ≫= decode_decision);
                    sr_RunsCSV := default (sr_RunsCSV result) runsCSV;
                    sr_PairsCSV := default (sr_PairsCSV result) pairsCSV;
                    sr_Runs := runs }}).
End state.

(** ** The run *)
Abbreviation RunM := (M celestia_sig celestia_run).

Definition fail_celestia (msg : string) : RunM unit := modify (fun r => r {{ cr_Error := msg }}).
Definition celestia_phase {A} (name note : string) (m : RunM A) : RunM A :=
  let* start := perform WallClock in
  let* x := m in
  let* stop := perform WallClock in
  let* _ := modify (fun r => r {{ cr_PhaseTimeline := endPhase (cr_PhaseTimeline r) name note start stop }}) in
  retM x.
Definition finish_celestia : RunM unit :=
  let* finished := perform WallClock in
  modify (fun r => r {{ cr_FinishedAt := finished; cr_WallSeconds := Seconds (Sub finished (cr_StartedAt r)) }}).

Definition celestia_command (cfg : celestiaSyncConfig) (control candidate : string) : list string :=
  [cs_RunnerScript cfg; cs_OutputDir cfg; cs_RunCommand cfg; control; candidate].

Definition new_sync_result (cfg : celestiaSyncConfig) (control candidate : string) (repos : gmap string (gmap string string))
    : celestiaSyncResult :=
  {| sr_Config := cfg; sr_Command := celestia_command cfg control candidate; sr_Environment := celestiaABEnvironment cfg;
     sr_OutputDir := cs_OutputDir cfg; sr_ControlEnvFile := control; sr_CandidateEnvFile := candidate; sr_ExitCode := 0;
     sr_CommandLog := ""; sr_SummaryMarkdown := ""; sr_Decision := []; sr_RunsCSV := []; sr_PairsCSV := []; sr_Runs := [];
     sr_Artifacts := ∅; sr_RepoGit := repos |}.

Definition set_sync (syncResult : celestiaSyncResult) : RunM unit := modify (fun r => r {{ cr_CelestiaSync := Some syncResult }}).

(** The script, once the files are there. *)
Definition run_comparison (cfg : celestiaSyncConfig) (syncResult : celestiaSyncResult) : RunM unit :=
  let* '(out, runErr) := celestia_phase "run_celestia_sync_ab" ("pairs=" +:+ itoa (cs_MaxPairs cfg)) (
    let* environ := perform Environ in
    perform (RunScript (sr_Command syncResult) (if nonempty (cs_RunnerScript cfg) then Dir (cs_RunnerScript cfg) else "")
               (environ ++ envMapToList (sr_Environment syncResult)))) in
  let syncResult := syncResult {{ sr_CommandLog := trimLog out 60000; sr_ExitCode := commandExitCode runErr }} in
  let* _ := set_sync syncResult in
  let* syncResult := collectCelestiaArtifacts syncResult in
  let* _ := set_sync syncResult in
  match runErr with Some e => fail_celestia ("run celestia sync A/B: " +:+ exec_message e) | None => retM tt end.

Definition celestia_body (cfg : celestiaSyncConfig) : RunM unit :=
  let* files := celestia_phase "prepare_celestia_sync" (cs_OutputDir cfg) (try_ (prepareCelestiaEnvFiles cfg)) in
  match files with
  | inr e => fail_celestia ("prepare celestia env files: " +:+ Error e)
  | inl (controlEnv, candidateEnv) =>
      let* repos := celestiaRepoMetadata cfg in
      let syncResult := new_sync_result cfg controlEnv candidateEnv repos in
      let* _ := set_sync syncResult in
      if cs_DryRun cfg then
        let* _ := celestia_phase "celestia_sync_dry_run" "" (retM tt) in
        set_sync (syncResult {{ sr_CommandLog := "dry run: Celestia sync command was not executed" }})
      else run_comparison cfg syncResult
  end.

Definition runCelestiaSyncScenario (cfg : celestiaSyncConfig) : M celestia_sig unit celestia_run :=
  scoped new_celestia_run (
    let* started := perform WallClock in
    let* _ := modify (fun r => r {{ cr_StartedAt := started; cr_ProviderName := "external-celestia-sync" }}) in
    let* _ := recovering finish_celestia fail_celestia (celestia_body cfg) in
    get).
End calls.

(** ** A shell reading an environment file

    The part of a shell's grammar that only assigns: comments, and names
    with words made of quoted and harmless characters.  Everything a shell
    would expand, run or reject is rejected.  (Values have no NUL byte: no
    flag has.) *)
Inductive sh_mode :=
| LineStart
| InComment
| InName (name : string)
| InWord (name value : string)
| InSingle (name value : string)
| InDouble (name value : string).

Definition newline : ascii := ascii_of_nat 10.
Definition dquote_char : ascii := ascii_of_nat 34.
Definition letter (c : ascii) : bool :=
  ((65 <=? code c) && (code c <=? 90)) || ((97 <=? code c) && (code c <=? 122)) || (code c =? 95).
Definition name_char (c : ascii) : bool := letter c || ((48 <=? code c) && (code c <=? 57)).
Definition harmless (c : ascii) : bool :=
  name_char c || Ascii.eqb c "-" || Ascii.eqb c "." || Ascii.eqb c "/" || Ascii.eqb c ":" || Ascii.eqb c ",".
Definition expanded (c : ascii) : bool := Ascii.eqb c "$" || (code c =? 96) || (code c =? 92).
Definition snoc (s : string) (c : ascii) : string := s +:+ String c "".

Definition sh_step (mode : sh_mode) (env : gmap string string) (c : ascii) : option (sh_mode * gmap string string) :=
  match mode with
  | LineStart =>
      if Ascii.eqb c newline then Some (LineStart, env)
      else if Ascii.eqb c "#" then Some (InComment, env)
      else if letter c then Some (InName (String c ""), env) else None
  | InComment => Some (if Ascii.eqb c newline then LineStart else InComment, env)
  | InName name =>
      if Ascii.eqb c "=" then Some (InWord name "", env) else if name_char c then Some (InName (snoc name c), env) else None
  | InWord name value =>
      if Ascii.eqb c newline then Some (LineStart, <[name := value]> env)
      else if Ascii.eqb c "'" then Some (InSingle name value, env)
      else if Ascii.eqb c dquote_char then Some (InDouble name value, env)
      else if harmless c then Some (InWord name (snoc value c), env) else None
  | InSingle name value => Some (if Ascii.eqb c "'" then InWord name value else InSingle name (snoc value c), env)
  | InDouble name value =>
      if Ascii.eqb c dquote_char then Some (InWord name value, env)
      else if expanded c then None else Some (InDouble name (snoc value c), env)
  end.
Fixpoint sh_run (mode : sh_mode) (env : gmap string string) (s : string) : option (gmap string string) :=
  match s with
  | EmptyString =>
      match mode with
      | LineStart | InComment => Some env
      | InWord name value => Some (<[name := value]> env)
      | _ => None
      end
  | String c s' => match sh_step mode env c with Some (mode', env') => sh_run mode' env' s' | None => None end
  end.
Definition sh_source (s : string) : option (gmap string string) := sh_run LineStart ∅ s.

Definition is_name (s : string) : bool := match s with String c s' => letter c && str_all name_char s' | EmptyString => false end.

Lemma snoc_app s c t : snoc s c +:+ t = s +:+ String c t.
Proof. unfold snoc. by rewrite string_app_assoc. Qed.

(** *** Quoting *)
Definition quote_seq : string := "'" +:+ dquote +:+ "'" +:+ dquote +:+ "'".
Definition quoted_text (s : string) : string := subst_byte "'" quote_seq s.

Lemma shellQuote_text s : shellQuote s = "'" +:+ quoted_text s +:+ "'".
Proof.
  unfold shellQuote. destruct (String.eqb_spec s "") as [->|_]; [done|].
  fold quote_seq. by rewrite ReplaceAll_byte.
Qed.

Lemma sh_single s name value env rest :
  sh_run (InSingle name value) env (quoted_text s +:+ "'" +:+ rest) = sh_run (InWord name (value +:+ s)) env rest.
Proof.
  revert value. induction s as [|c s IH]; intros value; [by rewrite string_app_nil_r|].
  unfold quoted_text. cbn [subst_byte]. fold (quoted_text s). destruct (Ascii.eqb c "'") eqn:Hc.
  - apply Ascii.eqb_eq in Hc as ->. rewrite <- (snoc_app value "'" s), <- IH.
    by rewrite string_app_assoc.
  - cbn [String.append sh_run sh_step]. rewrite Hc, IH. by rewrite snoc_app.
Qed.

Lemma sh_name k name env rest :
  str_all name_char k = true -> sh_run (InName name) env (k +:+ "=" +:+ rest) = sh_run (InWord (name +:+ k) "") env rest.
Proof.
  revert name. induction k as [|c k IH]; intros name Hk; [by rewrite string_app_nil_r|].
  cbn [str_all] in Hk. apply andb_true_iff in Hk as [Hc Hk]. cbn [String.append sh_run sh_step].
  assert (Ascii.eqb c "=" = false) as -> by (destruct (Ascii.eqb_spec c "=") as [->|]; done).
  rewrite Hc, IH by done. by rewrite snoc_app.
Qed.

Lemma sh_line key value env rest :
  is_name key = true -> sh_run LineStart env (shell_line key value +:+ rest) = sh_run LineStart (<[key := value]> env) rest.
Proof.
  destruct key as [|c k]; [done|]. cbn [is_name]. intros [Hc Hk]%andb_true_iff.
  unfold shell_line. rewrite shellQuote_text, !string_app_assoc. cbn [String.append sh_run sh_step].
  assert (Ascii.eqb c newline = false) as -> by (destruct (Ascii.eqb_spec c newline) as [->|]; done).
  assert (Ascii.eqb c "#" = false) as -> by (destruct (Ascii.eqb_spec c "#") as [->|]; done).
  rewrite Hc. change (k +:+ String "=" ?x) with (k +:+ "=" +:+ x). rewrite sh_name by done.
  etrans; [exact (sh_single value (String c k) "" env (nl +:+ rest))|done].
Qed.

(** *** Files *)
Lemma sh_lines (f : string -> string) keys env :
  Forall (fun key => is_name key = true) keys ->
  sh_run LineStart env (String_concat "" (map (fun key => shell_line key (f key)) keys)) =
  Some (foldl (fun env key => <[key := f key]> env) env keys).
Proof.
  intros Hk. revert env. induction Hk as [|key keys Hkey _ IH]; intros env; [done|].
  assert (forall l, String_concat "" (shell_line key (f key) :: l) = shell_line key (f key) +:+ String_concat "" l) as Hcons.
  { intros [|x l]; [by rewrite string_app_nil_r|done]. }
  cbn [map]. rewrite Hcons, sh_line by done. apply IH.
Qed.

Lemma sh_header env rest :
  sh_run LineStart env ("# generated by ironbird cmd/local-report-runner" +:+ nl +:+ rest) = sh_run LineStart env rest.
Proof. reflexivity. Qed.

Lemma lookup_foldl_insert (f : string -> string) keys (env : gmap string string) k :
  foldl (fun env key => <[key := f key]> env) env keys !! k = if bool_decide (k ∈ keys) then Some (f k) else env !! k.
Proof.
  revert env. induction keys as [|key keys IH]; intros env; [done|]. cbn [foldl]. rewrite IH.
  destruct (decide (k = key)) as [->|Hne]; [|rewrite lookup_insert_ne by done]; repeat case_bool_decide; try set_solver.
  by rewrite lookup_insert_eq.
Qed.

Lemma name_not_blank s : is_name s = true -> TrimSpace s <> "".
Proof.
  destruct s as [|c s]; [done|]. cbn [is_name]. intros [Hc _]%andb_true_iff.
  assert (after_space (String c s) = None) as Hs.
  { clear -Hc. destruct c as [[] [] [] [] [] [] [] []]; try discriminate Hc; by destruct s as [|? [|? s]]. }
  assert (forall n, trim_left n (String c s) = String c s) as Ht by (intros [|n]; cbn [trim_left]; by rewrite ?Hs).
  unfold TrimSpace, TrimLeftSpace. rewrite Ht. cbn [TrimRightSpace]. unfold TrimLeftSpace. rewrite Ht. done.
Qed.

Section sourcing.
Context {R : MapRange}.

Definition blank (s : string) : bool := String.eqb (TrimSpace s) "".

(** A shell reads the entries of a map that are not blank. *)
Lemma shellEnvFile_sourced (env : gmap string string) :
  map_Forall (fun key _ => is_name key = true) env ->
  sh_source (shellEnvFile env) = Some (filter (fun kv => blank kv.2 = false) env).
Proof.
  intros Hnames. unfold sh_source, shellEnvFile. rewrite sh_header.
  assert (Hin : forall k, k ∈ shell_keys env <-> exists v, env !! k = Some v /\ blank v = false).
  { intros k. unfold shell_keys, sort_Strings. rewrite merge_sort_Permutation, list_elem_of_In, filter_In, <- list_elem_of_In.
    rewrite list_elem_of_fmap, andb_true_iff, !negb_true_iff. unfold lookup_str. split.
    - intros ([[k' v] [-> Hv]] & _ & Hb). apply elem_of_range_map in Hv. cbn in *. rewrite Hv in Hb. by exists v.
    - intros (v & Hv & Hb). rewrite Hv. split_and!; [|by apply String.eqb_neq, name_not_blank, (Hnames k v)|done].
      exists (k, v). by rewrite elem_of_range_map. }
  rewrite sh_lines.
  - f_equal. apply map_eq. intros k. rewrite lookup_foldl_insert, lookup_empty, map_lookup_filter. unfold lookup_str.
    case_bool_decide as Hk.
    + apply Hin in Hk as (v & -> & Hb). cbn. by rewrite option_guard_True.
    + destruct (env !! k) as [v|] eqn:Hv; [|done]. cbn. rewrite option_guard_False; [done|].
      intros Hb. apply Hk, Hin. by exists v.
  - apply Forall_forall. intros k (v & Hv & _)%Hin. by apply (Hnames k v).
Qed.

Lemma lookup_put_all entries (env : gmap string string) k :
  k ∉ entries.*1 -> put_all entries env !! k = env !! k.
Proof.
  unfold put_all. revert env. induction entries as [|[key v] entries IH]; intros env Hk; [done|]. cbn [foldl].
  rewrite IH by set_solver. rewrite lookup_insert_ne; set_solver.
Qed.
Lemma put_all_keys entries (env : gmap string string) (P : string -> Prop) :
  map_Forall (fun k _ => P k) env -> Forall P entries.*1 -> map_Forall (fun k _ => P k) (put_all entries env).
Proof.
  unfold put_all. intros He Hl. revert env He.
  induction entries as [|[key v] entries IH]; intros env He; [done|]. cbn in Hl. apply Forall_cons in Hl as [Hkey Hl].
  cbn [foldl]. apply IH; [done|]. by apply map_Forall_insert_2.
Qed.

Lemma variant_names cfg backend : Forall (fun key => is_name key = true) (variant_entries cfg backend).*1.
Proof.
  unfold variant_entries, variant_ports. rewrite !fmap_app, !Forall_app. split_and!;
    repeat match goal with |- context [if ?b then _ else _] => destruct b end; by repeat constructor.
Qed.

(** C13: whatever the configuration, a shell that reads the environment file
    of a variant only assigns: it ends up with exactly the variant's
    entries that are not blank, each with its value to the byte, quotes and
    line breaks included; no value is expanded or run. *)
Theorem celestiaVariantEnv_sourced (cfg : celestiaSyncConfig) (backend : string) :
  sh_source (celestiaVariantEnv cfg backend) = Some (filter (fun kv => blank kv.2 = false) (variant_env cfg backend)).
Proof. apply shellEnvFile_sourced, put_all_keys; [apply map_Forall_empty|apply variant_names]. Qed.
End sourcing.

(** ** The two variants *)
Lemma put_all_app l1 l2 env : put_all (l1 ++ l2) env = put_all l2 (put_all l1 env).
Proof. apply foldl_app. Qed.

Lemma lookup_put_all_in entries (env : gmap string string) k v :
  NoDup entries.*1 -> (k, v) ∈ entries -> put_all entries env !! k = Some v.
Proof.
  revert env. induction entries as [|[key w] entries IH]; intros env Hd Hin; [by apply not_elem_of_nil in Hin|].
  cbn in Hd. apply NoDup_cons in Hd as [Hkey Hd]. change (put_all ((key, w) :: entries) env) with (put_all entries (<[key := w]> env)).
  apply elem_of_cons in Hin as [[= -> ->]|Hin]; [|by apply IH].
  by rewrite lookup_put_all, lookup_insert_eq.
Qed.

Lemma lookup_put_all_filter (D : list string) entries (env : gmap string string) k :
  k ∉ D -> put_all entries env !! k = put_all (List.filter (fun kv => negb (bool_decide (kv.1 ∈ D))) entries) env !! k.
Proof.
  intros Hk. revert env. assert (forall l env env', env !! k = env' !! k -> put_all l env !! k = put_all l env' !! k) as Hext.
  { induction l as [|[key v] l IH]; intros env env' He; [done|]. apply IH. cbn. destruct (decide (key = k)) as [->|].
    - by rewrite !lookup_insert_eq.
    - by rewrite !lookup_insert_ne. }
  induction entries as [|[key v] entries IH]; intros env; [done|]. cbn [List.filter fst].
  change (put_all ((key, v) :: entries) env) with (put_all entries (<[key := v]> env)). case_bool_decide as HD; cbn [negb].
  - rewrite <- IH. apply Hext. rewrite lookup_insert_ne; [done|]. by intros ->.
  - apply IH.
Qed.

(** The settings in which the variants may differ. *)
Definition port_keys : list string := (variant_ports "").*1.
Definition backend_keys : list string :=
  ["DB_BACKEND"; "APP_DB_BACKEND"; "RUN_HOME_GLOB"; "CELESTIA_APPD_BIN"; "TREEDB_OPEN_PROFILE";
   "TREEDB_ENABLE_LEAF_GENERATION_PACK_MAINTENANCE"].

Lemma variants_same_settings cfg key :
  key ∉ port_keys ++ backend_keys -> variant_env cfg "goleveldb" !! key = variant_env cfg "treedb" !! key.
Proof.
  intros Hk. unfold variant_env. rewrite (lookup_put_all_filter _ (variant_entries cfg "goleveldb") _ _ Hk).
  rewrite (lookup_put_all_filter _ (variant_entries cfg "treedb") _ _ Hk).
  apply (f_equal (fun l => put_all l ∅ !! key)). unfold variant_entries. rewrite !List.filter_app.
  repeat match goal with |- context [path_Join ?l] => generalize (path_Join l); intros ? end.
  repeat match goal with |- context [boolEnv ?b] => generalize (boolEnv b); intros ? end. generalize (itoa (cs_PostSyncDwellSeconds cfg)). intros dwell.
  apply (f_equal2 app); [vm_compute; reflexivity|]. apply (f_equal2 app); [vm_compute; reflexivity|].
  do 4 apply (f_equal2 app eq_refl). vm_compute. reflexivity.
Qed.

Lemma variant_entries_split cfg backend :
  exists before after, variant_entries cfg backend = before ++ variant_ports backend ++ after /\
    Forall (fun key => key ∉ port_keys) after.*1.
Proof.
  unfold variant_entries. eexists _, _. split; [done|]. rewrite !fmap_app.
  repeat match goal with |- context [if ?b then _ else _] => destruct b end; apply (bool_decide_unpack _); vm_compute; exact I.
Qed.

Lemma variant_ports_keys backend : (variant_ports backend).*1 = port_keys.
Proof. unfold variant_ports. by destruct (String.eqb _ _). Qed.

Lemma variant_port cfg backend key port : (key, port) ∈ variant_ports backend -> variant_env cfg backend !! key = Some port.
Proof.
  intros Hin. destruct (variant_entries_split cfg backend) as (before & after & Hs & Hafter).
  assert (key ∈ port_keys) as Hkey by (rewrite <- (variant_ports_keys backend); by apply (list_elem_of_fmap_2' _ _ (key, port))).
  unfold variant_env. rewrite Hs, !put_all_app, lookup_put_all.
  - apply lookup_put_all_in; [|done]. rewrite variant_ports_keys. apply (bool_decide_unpack _); vm_compute; exact I.
  - intros Hin'. rewrite Forall_forall in Hafter. by apply (Hafter _ Hin').
Qed.

(** The two variants of a comparison can run side by side and differ
    only in what is compared: every port and address of one is set, and
    unequal to every one of the other, and outside them and the settings of
    the databases and their binaries and homes the environments are the same. *)
Theorem celestia_variants_comparable (cfg : celestiaSyncConfig) :
  (forall p q, p ∈ port_keys -> q ∈ port_keys -> exists x y,
     variant_env cfg "goleveldb" !! p = Some x /\ variant_env cfg "treedb" !! q = Some y /\ x <> y) /\
  (forall key, key ∉ port_keys ++ backend_keys -> variant_env cfg "goleveldb" !! key = variant_env cfg "treedb" !! key).
Proof.
  split; [|intros key; apply variants_same_settings]. intros p q Hp Hq.
  rewrite <- (variant_ports_keys "goleveldb") in Hp. rewrite <- (variant_ports_keys "treedb") in Hq.
  apply list_elem_of_fmap in Hp as ([p' x] & -> & Hp). apply list_elem_of_fmap in Hq as ([q' y] & -> & Hq).
  exists x, y. rewrite (variant_port _ _ _ _ Hp), (variant_port _ _ _ _ Hq). split_and!; [done..|].
  assert (Forall (fun kv => Forall (fun kv' => kv.2 <> kv'.2) (variant_ports "treedb")) (variant_ports "goleveldb")) as Hall
    by (apply (bool_decide_unpack _); vm_compute; exact I).
  rewrite Forall_forall in Hall. pose proof (Hall _ Hp) as Hx. rewrite Forall_forall in Hx. exact (Hx _ Hq).
Qed.

(** ** A run of the comparison *)
Section runs.
Context {R : MapRange}.
Variable decode_run : string -> celestiaABRunSummary + string.
Variable decode_decision : string -> option gomap.
Variable csv_ReadAll : string -> option (list (list string)).
Abbreviation cel_event := (event celestia_sig).
Abbreviation cel c x := (ev (E := celestia_sig) c x).

(** A call that neither runs the script nor writes. *)
Definition looks (e : cel_event) : Prop :=
  match projT1 e with RunScript _ _ _ | WritePath _ _ | MakeDirs _ => False | _ => True end.

(** The files a run may write, and a call that runs no script and writes no others. *)
Definition env_dir (cfg : celestiaSyncConfig) : string := path_Join [cs_OutputDir cfg; "env"].
Definition env_files (cfg : celestiaSyncConfig) : list (string * string) :=
  (if nonempty (cs_ControlEnvFile cfg) then []
   else [(path_Join [env_dir cfg; "control-goleveldb.env"], celestiaVariantEnv cfg "goleveldb")]) ++
  (if nonempty (cs_CandidateEnvFile cfg) then []
   else [(path_Join [env_dir cfg; "candidate-treedb.env"], celestiaVariantEnv cfg "treedb")]).
Definition prepares (cfg : celestiaSyncConfig) (e : cel_event) : Prop :=
  match projT1 e with
  | RunScript _ _ _ => False
  | WritePath path body => (path, body) ∈ env_files cfg
  | MakeDirs path => path = env_dir cfg
  | _ => True
  end.
Lemma looks_prepares cfg e : looks e -> prepares cfg e.
Proof. destruct e as [[] x]; by cbn. Qed.

(** The files the script is given are there: given ones, or written with a variant's environment. *)
Definition file_ready (given name : string) (cfg : celestiaSyncConfig) (backend path : string) (t : list cel_event) : Prop :=
  if String.eqb given "" then
    path = path_Join [env_dir cfg; name] /\ cel (WritePath path (celestiaVariantEnv cfg backend)) (inl tt) ∈ t
  else path = given.
Definition files_ready (cfg : celestiaSyncConfig) (control candidate : string) (t : list cel_event) : Prop :=
  cs_OutputDir cfg <> "" /\ (cs_TrustHeight cfg = "" <-> cs_TrustHash cfg = "") /\
  file_ready (cs_ControlEnvFile cfg) "control-goleveldb.env" cfg "goleveldb" control t /\
  file_ready (cs_CandidateEnvFile cfg) "candidate-treedb.env" cfg "treedb" candidate t.

Lemma file_ready_app given name cfg backend path t l :
  file_ready given name cfg backend path t -> file_ready given name cfg backend path (t ++ l).
Proof. unfold file_ready. destruct (String.eqb _ _); [|done]. intros [-> Hin]. split; [done|]. apply elem_of_app. by left. Qed.
Lemma files_ready_app cfg control candidate t l : files_ready cfg control candidate t -> files_ready cfg control candidate (t ++ l).
Proof. intros (? & ? & ? & ?). split_and!; [done|done|by apply file_ready_app..]. Qed.

(** What a part of a run adds to the trace. *)
Definition adds (P : cel_event -> Prop) (t t' : list cel_event) : Prop := exists l, t' = t ++ l /\ Forall P l.
Lemma adds_refl P t : adds P t t.
Proof. exists []. by rewrite app_nil_r. Qed.
Lemma adds_trans P t1 t2 t3 : adds P t1 t2 -> adds P t2 t3 -> adds P t1 t3.
Proof. intros (l & -> & Hl) (l' & -> & Hl'). exists (l ++ l'). split; [by rewrite app_assoc|by apply Forall_app]. Qed.
Lemma adds_one (P : cel_event -> Prop) t e : P e -> adds P t (t ++ [e]).
Proof. intros He. exists [e]. split; [done|by constructor]. Qed.
Lemma adds_mono (P P' : cel_event -> Prop) t t' : (forall e, P e -> P' e) -> adds P t t' -> adds P' t t'.
Proof. intros HP (l & -> & Hl). exists l. split; [done|]. by eapply Forall_impl. Qed.

Lemma env_file_run {S} (s : S) cfg given name backend t :
  (given = "" -> (path_Join [env_dir cfg; name], celestiaVariantEnv cfg backend) ∈ env_files cfg) ->
  wpM (env_file given name (env_dir cfg) (celestiaVariantEnv cfg backend)) s (fun t' s' o =>
    s' = s /\ adds (prepares cfg) t t' /\
    match o with Ok path => file_ready given name cfg backend path t' | Err _ => True | _ => False end) t.
Proof.
  intros Hin. unfold env_file, file_ready. destruct (String.eqb_spec given "") as [->|Hg].
  - apply wpM_bind, wpM_bind. refine (wpM_perform (E := celestia_sig) _ _ _ _ _). intros [[]|e]; cbn [lift_res].
    + apply wpM_ret, wpM_ret. split_and!; [done|by apply adds_one, Hin|done|]. apply elem_of_app. right. apply list_elem_of_here.
    + apply wpM_lift. split_and!; [done|by apply adds_one, Hin|done].
  - apply wpM_ret. split_and!; [done|apply adds_refl|done].
Qed.

Lemma prepare_run {S} (s : S) cfg t :
  wpM (prepareCelestiaEnvFiles cfg) s (fun t' s' o =>
    s' = s /\ adds (prepares cfg) t t' /\
    match o with Ok (control, candidate) => files_ready cfg control candidate t' | Err _ => True | _ => False end) t.
Proof.
  unfold prepareCelestiaEnvFiles. destruct (String.eqb_spec (cs_OutputDir cfg) "") as [_|Hdir].
  { apply wpM_lift. split_and!; [done|apply adds_refl|done]. }
  destruct (xorb _ _) eqn:Hx. { apply wpM_lift. split_and!; [done|apply adds_refl|done]. }
  fold (env_dir cfg). apply wpM_bind, wpM_bind. refine (wpM_perform (E := celestia_sig) _ _ _ _ _). intros [[]|e]; cbn [lift_res].
  2: { apply wpM_lift. split_and!; [done|by apply adds_one|done]. }
  apply wpM_ret, wpM_bind. eapply wpM_mono; [|apply (env_file_run s cfg (cs_ControlEnvFile cfg) "control-goleveldb.env" "goleveldb")].
  2: { intros Hg. unfold env_files. rewrite Hg. apply elem_of_app. left. apply list_elem_of_here. }
  intros t1 s1 [control|e|msg|] (-> & Ht1 & Hf1); try done.
  2: { split_and!; [done| |done]. eapply adds_trans; [|exact Ht1]. by apply adds_one. }
  apply wpM_bind. eapply wpM_mono; [|apply (env_file_run s cfg (cs_CandidateEnvFile cfg) "candidate-treedb.env" "treedb")].
  2: { intros Hg. unfold env_files. rewrite Hg. apply elem_of_app. right. apply list_elem_of_here. }
  intros t2 s2 [candidate|e|msg|] (-> & Ht2 & Hf2); try done.
  2: { split_and!; [done| |done]. eapply adds_trans; [|exact (adds_trans _ _ _ _ Ht1 Ht2)]. by apply adds_one. }
  apply wpM_ret. split_and!; [done| |].
  - eapply adds_trans; [|exact (adds_trans _ _ _ _ Ht1 Ht2)]. by apply adds_one.
  - split_and!; [done| | |done].
    + revert Hx. by destruct (String.eqb_spec (cs_TrustHeight cfg) ""), (String.eqb_spec (cs_TrustHash cfg) "").
    + destruct Ht2 as (l & -> & _). by apply file_ready_app.
Qed.

(** *** Looking at checkouts and at results *)
Lemma calm_range_fold {S A B} (P : cel_event -> Prop) (K : relation S) `{!PreOrder K} (l : list (string * A)) body (out : B) :
  (forall key x out, calm true P K (body key x out)) -> calm true P K (range_fold (S := S) l body out).
Proof.
  intros Hb. revert out. induction l as [|[key x] l IH]; intros out; cbn [range_fold]; [by apply calm_ret|].
  apply calm_bind; [done|apply Hb|intros; apply IH].
Qed.

Ltac look := intros; exact I.

Lemma calm_repos {S} cfg : calm true looks (@eq S) (celestiaRepoMetadata cfg).
Proof.
  apply calm_range_fold; [apply _|]. intros name path out. destruct (String.eqb path ""); [apply calm_ret; apply _|].
  calm_step; [apply calm_perform; [apply _|look]|]. destruct a as [[]|]; calm_go.
  apply calm_range_fold; [apply _|]. intros key args meta. unfold gitCommandString. calm_go; look.
Qed.

Lemma calm_artifacts {S} r :
  calm true looks (@eq S) (collectCelestiaArtifacts decode_run decode_decision csv_ReadAll r).
Proof.
  unfold collectCelestiaArtifacts. destruct (String.eqb _ _); [apply calm_ret; apply _|]. calm_step.
  { apply calm_range_fold; [apply _|]. intros. calm_go; look. }
  unfold readCSVRecords, readCelestiaRunSummaries. calm_go; try look.
  induction l as [|entry l IH]; cbn [read_runs]; [apply calm_ret; apply _|].
  calm_step; [|calm_step; [exact IH|calm_go]]. unfold read_run. destruct entry as [name []]; cbn [negb snd]; [|apply calm_ret; apply _].
  calm_go; try look. unfold attachCelestiaSyncTime, readKeyValueFile. calm_go; look.
Qed.

Lemma calm_then {S A B} strict P (m : M celestia_sig S A) (f : A -> M celestia_sig S B) s t
    (Q : list cel_event -> S -> outcome B -> Prop) :
  calm strict P eq m -> strict = true -> (forall a t', adds P t t' -> wpM (f a) s Q t') -> wpM (bindM m f) s Q t.
Proof.
  intros Hm -> Hf. apply wpM_bind. eapply wpM_mono; [|apply Hm]. intros t' s' o (Ho & <- & Ht).
  destruct o as [a|e|msg|]; try done. by apply Hf.
Qed.

Lemma wpM_celestia_phase {A} name note (m : M celestia_sig celestia_run A) s t
    (Q : list cel_event -> celestia_run -> outcome A -> Prop) :
  (forall start, wpM m s (fun t' s' o =>
     match o with
     | Ok x => forall stop, Q (t' ++ [cel WallClock stop])
         (s' {{ cr_PhaseTimeline := endPhase (cr_PhaseTimeline s') name note start stop }}) (Ok x)
     | Err e => Q t' s' (Err e) | Panic msg => Q t' s' (Panic msg) | NoFuel => Q t' s' NoFuel
     end) (t ++ [cel WallClock start])) ->
  wpM (celestia_phase name note m) s Q t.
Proof.
  intros Hm. unfold celestia_phase. apply wpM_bind. refine (wpM_perform (E := celestia_sig) _ _ _ _ _). intros start.
  apply wpM_bind. eapply wpM_mono; [|apply Hm]. intros t' s' [x|e|msg|] Ho; exact Ho.
Qed.

(** How a comparison ends.  The files could not be prepared and nothing ran;
    or they are ready and nothing else runs, in a dry run; or the script ran
    once on them, with the comparison's settings last in its environment. *)
Inductive comparison (cfg : celestiaSyncConfig) (t : list cel_event) (r : celestia_run) : Prop :=
| Unprepared msg :
    Forall (prepares cfg) t -> cr_CelestiaSync r = None -> cr_Error r = "prepare celestia env files: " +:+ msg -> comparison cfg t r
| DryRun control candidate sync :
    cs_DryRun cfg = true -> Forall (prepares cfg) t -> files_ready cfg control candidate t ->
    cr_CelestiaSync r = Some sync -> sr_Config sync = cfg -> sr_Command sync = celestia_command cfg control candidate ->
    cr_Error r = "" -> comparison cfg t r
| Compared control candidate sync t1 t2 dir environ out err :
    cs_DryRun cfg = false ->
    t = t1 ++ cel (RunScript (celestia_command cfg control candidate) dir (environ ++ envMapToList (celestiaABEnvironment cfg)))
                (out, err) :: t2 ->
    Forall (prepares cfg) t1 -> files_ready cfg control candidate t1 -> Forall looks t2 ->
    cr_CelestiaSync r = Some sync -> sr_Config sync = cfg -> sr_Command sync = celestia_command cfg control candidate ->
    sr_ExitCode sync = commandExitCode err -> sr_CommandLog sync = trimLog out 60000 ->
    cr_Error r = match err with Some e => "run celestia sync A/B: " +:+ exec_message e | None => "" end ->
    comparison cfg t r.

Lemma collect_keeps {S} r :
  yields (S := S) (fun r' => sr_Config r' = sr_Config r /\ sr_Command r' = sr_Command r /\ sr_ExitCode r' = sr_ExitCode r /\
      sr_CommandLog r' = sr_CommandLog r)
    (collectCelestiaArtifacts decode_run decode_decision csv_ReadAll r).
Proof.
  unfold collectCelestiaArtifacts. destruct (String.eqb _ _); [by intros s t; apply wpM_ret|].
  repeat (apply yields_bind; intros ?). by intros s t; apply wpM_ret.
Qed.

Lemma comparison_run cfg control candidate repos s t :
  cs_DryRun cfg = false -> cr_Error s = "" -> Forall (prepares cfg) t -> files_ready cfg control candidate t ->
  wpM (run_comparison decode_run decode_decision csv_ReadAll cfg (new_sync_result cfg control candidate repos)) s
    (fun t' s' o => o = Ok tt /\ comparison cfg t' s') t.
Proof.
  intros Hdry Herr Ht Hready. unfold run_comparison. set (sync := new_sync_result _ _ _ _).
  apply wpM_bind, wpM_celestia_phase. intros start.
  apply wpM_bind. refine (wpM_perform (E := celestia_sig) _ _ _ _ _). intros environ.
  match goal with |- wpM (perform ?c) ?s ?Q ?t => refine (wpM_perform c s Q t _) end. intros [out err] stop.
  set (t1 := _ ++ [cel Environ environ]). set (e := ev _ _). apply wpM_bind, wpM_modify.
  set (sync1 := apply_update _ (apply_update _ sync)). set (s1 := apply_update _ (apply_update _ s)).
  apply wpM_bind. eapply wpM_mono; [|apply wpM_and; [apply calm_artifacts|apply collect_keeps]].
  intros t2 s2 o ((Ho & <- & l & -> & Hl) & Hkeep). destruct o as [sync2|?|?|]; try done.
  destruct Hkeep as (Hcfg & Hcmd & Hexit & Hlog). apply wpM_bind, wpM_modify. set (s3 := apply_update _ s1).
  assert (Hend : forall s4, cr_CelestiaSync s4 = Some sync2 ->
    cr_Error s4 = match err with Some e => "run celestia sync A/B: " +:+ exec_message e | None => "" end ->
    comparison cfg (((t1 ++ [e]) ++ [cel WallClock stop]) ++ l) s4).
  { intros s4 Hs4 He4.
    refine (Compared cfg _ s4 control candidate sync2 t1 ([cel WallClock stop] ++ l) _ environ out err Hdry _ _ _ _ Hs4 Hcfg Hcmd Hexit Hlog He4).
    - rewrite <- !app_assoc. reflexivity.
    - subst t1. rewrite !Forall_app. split_and!; [done|by constructor..].
    - subst t1. rewrite <- app_assoc. by apply files_ready_app.
    - by constructor. }
  destruct err as [err|]; [apply wpM_modify|apply wpM_ret]; by split; [|apply Hend].
Qed.

(** The deferred function only sets the times. *)
Lemma comparison_end cfg t r r' n :
  comparison cfg t r -> cr_CelestiaSync r' = cr_CelestiaSync r -> cr_Error r' = cr_Error r ->
  comparison cfg (t ++ [cel WallClock n]) r'.
Proof.
  intros [msg Ht Hs He|control candidate sync Hdry Ht Hf Hs Hc Hcmd He
         |control candidate sync t1 t2 dir environ out err Hdry -> Ht Hf Hl Hs Hc Hcmd Hexit Hlog He] Hs' He'.
  - apply (Unprepared _ _ _ msg); [|congruence..]. apply Forall_app. split; [done|by repeat constructor].
  - apply (DryRun _ _ _ control candidate sync); [done| |by apply files_ready_app|congruence..].
    apply Forall_app. split; [done|by repeat constructor].
  - refine (Compared cfg _ r' control candidate sync t1 (t2 ++ [cel WallClock n]) dir environ out err Hdry _ Ht Hf _ _ Hc Hcmd Hexit Hlog _);
      [by rewrite <- app_assoc| |congruence..]. apply Forall_app. split; [done|by repeat constructor].
Qed.

Lemma adds_forall P Q t t' : Forall Q t -> adds P t t' -> (forall e, P e -> Q e) -> Forall Q t'.
Proof. intros Ht (l & -> & Hl) HPQ. apply Forall_app. split; [done|]. by eapply Forall_impl. Qed.

Lemma celestia_body_run cfg s t :
  cr_CelestiaSync s = None -> cr_Error s = "" -> Forall (prepares cfg) t ->
  wpM (celestia_body decode_run decode_decision csv_ReadAll cfg) s (fun t' s' o => o = Ok tt /\ comparison cfg t' s') t.
Proof.
  intros Hs He Ht. unfold celestia_body. apply wpM_bind, wpM_celestia_phase. intros start. apply wpM_try.
  eapply wpM_mono; [|apply prepare_run]. intros t1 s1 o (-> & Ht1 & Ho).
  assert (Hstart : Forall (prepares cfg) (t ++ [cel WallClock start])) by (apply Forall_app; split; [done|by repeat constructor]).
  pose proof (adds_forall _ _ _ _ Hstart Ht1 (fun e He => He)) as Ht1'.
  destruct o as [[control candidate]|e|msg|]; try done; intros stop.
  2: { apply wpM_modify. split; [done|]. eapply Unprepared; [|exact Hs|done]. apply Forall_app. split; [done|by repeat constructor]. }
  set (s1 := apply_update _ s). eapply calm_then; [apply calm_repos|done|]. intros repos t2 Ht2. apply wpM_bind, wpM_modify.
  assert (Ht2' : Forall (prepares cfg) t2).
  { refine (adds_forall _ _ _ _ _ Ht2 (looks_prepares cfg)). apply Forall_app. split; [done|by repeat constructor]. }
  assert (Hf : files_ready cfg control candidate t2).
  { destruct Ht2 as (l & -> & _). rewrite <- app_assoc. by apply files_ready_app. }
  set (s2 := apply_update _ s1). destruct (cs_DryRun cfg) eqn:Hdry; [|by apply comparison_run].
  apply wpM_bind, wpM_celestia_phase. intros start'. apply wpM_ret. intros stop'. apply wpM_modify. split; [done|].
  eapply (DryRun _ _ _ control candidate); [done| |by rewrite <- app_assoc; apply files_ready_app|reflexivity..|done].
  rewrite !Forall_app. split_and!; [done|by repeat constructor..].
Qed.

Lemma celestia_scenario_run (cfg : celestiaSyncConfig) :
  wpM (runCelestiaSyncScenario decode_run decode_decision csv_ReadAll cfg) tt (fun t _ o =>
    exists r, o = Ok r /\ comparison cfg t r) [].
Proof.
  unfold runCelestiaSyncScenario. apply wpM_scoped, wpM_bind. refine (wpM_perform (E := celestia_sig) _ _ _ _ _). intros started.
  apply wpM_bind, wpM_modify. set (s0 := apply_update _ _). apply wpM_bind, wpM_recovering.
  eapply wpM_mono; [|apply (celestia_body_run cfg s0); [done|done|by repeat constructor]].
  intros t s o (-> & Hc). apply wpM_bind, wpM_bind. refine (wpM_perform (E := celestia_sig) _ _ _ _ _). intros finished.
  apply wpM_modify, wpM_lift, wpM_get. eexists. split; [done|]. by eapply comparison_end.
Qed.
(** C12: a run of the comparison returns a result, whatever the calls answer,
    and ends in one of three ways.  When the files could not be prepared the
    script does not run; in a dry run nothing but the two environment files
    is written and the script does not run; else it runs once, when the files
    are ready, and the result has its exit code, the end of its output and
    an error exactly when it failed. *)
Theorem runCelestiaSyncScenario_spec (cfg : celestiaSyncConfig) :
  wpM (runCelestiaSyncScenario decode_run decode_decision csv_ReadAll cfg) tt (fun t _ o =>
    exists r, o = Ok r /\ comparison cfg t r) [].
Proof. apply celestia_scenario_run. Qed.
End runs.
