(* ===== verification/RunnerMarkdown.v ===== *)
(** * The report of the runner as Markdown: [cmd/local-report-runner/main.go]

    [renderReportMarkdown] and the functions that write its sections.  In the
    report every row of a table has as many cells as the table's header,
    whatever the names, errors and figures.  [sort.Slice] orders rows that
    compare equal as [merge_sort] does. *)

From stdpp Require Import sorting.
From S2P Require Import Prelude GoStrings GoVal GoTime GoFloat GoText GoFormat RunnerWindows RunnerMetrics RunnerSignals RunnerLogs RunnerMonitor RunnerCadence RunnerAccounting RunnerCounts RunnerScrape RunnerScenario RunnerProfiles RunnerRun RunnerCelestia.
From Stdlib Require Import Ascii Floats.SpecFloat DecimalString.

(** ** Texts *)
Definition is_nan_or_inf (x : float) : bool := match x with S754_nan | S754_infinity _ => true | _ => false end.
Definition metricFloat (value : float) : string :=
  if is_nan_or_inf value then FormatFloat_g 8 value else if feq value fzero then "0" else FormatFloat_g 8 value.
Definition optionalMetricFloat (value : option float) : string := match value with None => "" | Some x => metricFloat x end.

Definition carriage_return : string := String (ascii_of_nat 13) "".
Definition backslash : string := String (ascii_of_nat 92) "".
Definition mdCell (s : string) : string :=
  let s := TrimSpace s in
  let s := ReplaceAll s nl " " in
  let s := ReplaceAll s carriage_return " " in
  ReplaceAll s "|" (backslash +:+ "|").

Definition markdownPathForJSON (path : string) : string :=
  let name := default path (last (Split slash path)) in
  match LastIndexByte name "." with
  | None => path +:+ ".md"
  | Some i => TrimSuffix path (str_drop i name) +:+ ".md"
  end.

Definition optionalProfileTime (value : option Z) : string :=
  match value with None => "" | Some t => if IsZero t then "" else FormatRFC3339 true t end.
Definition optionalProfileSeconds (seconds : float) : string := if fle seconds fzero then "" else metricFloat seconds.
Definition optionalProfileFloat (value : option float) : string := match value with None => "" | Some x => metricFloat x end.

Definition optionalDurationCount (stats : option durationStats) : string :=
  match stats with None => "" | Some s => itoa (ds_Count s) end.
Definition optionalDurationTotal (stats : option durationStats) : string :=
  match stats with None => "" | Some s => metricFloat (ds_TotalSeconds s) end.
Definition optionalDurationAvg (stats : option durationStats) : string :=
  match stats with None => "" | Some s => metricFloat (ds_AvgSeconds s) end.
Definition optionalDurationP95 (stats : option durationStats) : string :=
  match stats with None => "" | Some s => metricFloat (ds_P95Seconds s) end.
Definition optionalDurationMax (stats : option durationStats) : string :=
  match stats with None => "" | Some s => metricFloat (ds_MaxSeconds s) end.

(** A row, and a table with the blank line after it. *)
Definition md_row (cells : list string) : string := "| " +:+ Join cells " | " +:+ " |" +:+ nl.
Definition md_table (header align : string) (rows : list (list string)) : string :=
  header +:+ nl +:+ align +:+ nl +:+ String_concat "" (map md_row rows) +:+ nl.
Definition md_paragraph (s : string) : string := s +:+ nl +:+ nl.

(** ** Rows of the window's counters *)
Record metricDeltaRow := { mr_Container : string; mr_Metric : string; mr_Before : float; mr_After : float; mr_Delta : float }.
Definition metric_row_le (a b : metricDeltaRow) : Prop :=
  (if String.eqb (mr_Container a) (mr_Container b) then String.leb (mr_Metric a) (mr_Metric b)
   else String.leb (mr_Container a) (mr_Container b)) = true.
#[export] Instance metric_row_le_dec : RelDecision metric_row_le.
Proof. intros a b. unfold metric_row_le. apply _. Defined.

Record treeDBStatDeltaRow := {
  tr_Container : string;
  tr_Store : string;
  tr_WALDir : string;
  tr_Metric : string;
  tr_Before : float;
  tr_After : float;
  tr_Delta : float;
  tr_DeltaSeconds : float;
  tr_DeltaSecondsOK : bool
}.
Definition stat_row_le (a b : treeDBStatDeltaRow) : Prop :=
  (if String.eqb (tr_Container a) (tr_Container b) then
     if String.eqb (tr_Store a) (tr_Store b) then String.leb (tr_Metric a) (tr_Metric b) else String.leb (tr_Store a) (tr_Store b)
   else String.leb (tr_Container a) (tr_Container b)) = true.
#[export] Instance stat_row_le_dec : RelDecision stat_row_le.
Proof. intros a b. unfold stat_row_le. apply _. Defined.

(** A row of an error: its container, its instance where it has one, and the error. *)
Record errorRow := { er_Container : string; er_Instance : string; er_Error : string }.
Definition error_row_le (a b : errorRow) : Prop :=
  (if String.eqb (er_Container a) (er_Container b) then String.leb (er_Instance a) (er_Instance b)
   else String.leb (er_Container a) (er_Container b)) = true.
#[export] Instance error_row_le_dec : RelDecision error_row_le.
Proof. intros a b. unfold error_row_le. apply _. Defined.

Section rows.
Context {R : MapRange}.

Definition metricDeltaRows (snapshots : list metricDeltaSnapshot) : list metricDeltaRow :=
  merge_sort metric_row_le (snapshots ≫= fun snapshot =>
    map (fun '(metric, values) =>
      {| mr_Container := md_Name snapshot; mr_Metric := metric; mr_Before := Before values; mr_After := After values;
         mr_Delta := Delta values |}) (range_map (md_Metrics snapshot))).

Definition treeDBStatDeltaRows (snapshots : list treeDBStatsDelta) : list treeDBStatDeltaRow :=
  merge_sort stat_row_le (snapshots ≫= fun snapshot =>
    omap (fun '(metric, values) =>
      if feq (Delta values) fzero then None
      else
        let seconds := treeDBMetricDeltaSeconds metric (Delta values) in
        Some {| tr_Container := tdd_Name snapshot; tr_Store := tdd_Store snapshot; tr_WALDir := tdd_WALDir snapshot;
                tr_Metric := metric; tr_Before := Before values; tr_After := After values; tr_Delta := Delta values;
                tr_DeltaSeconds := default fzero seconds; tr_DeltaSecondsOK := bool_decide (is_Some seconds) |})
      (range_map (tdd_Metrics snapshot))).

Definition treeDBStatDeltaErrors (snapshots : list treeDBStatsDelta) : list errorRow :=
  merge_sort error_row_le (omap (fun snapshot =>
    if nonempty (tdd_Error snapshot) then
      Some {| er_Container := tdd_Name snapshot; er_Instance := tdd_Instance snapshot; er_Error := tdd_Error snapshot |}
    else None) snapshots).
Definition metricDeltaErrors (snapshots : list metricDeltaSnapshot) : list errorRow :=
  merge_sort error_row_le (omap (fun snapshot =>
    if nonempty (md_Error snapshot) then
      Some {| er_Container := md_Name snapshot; er_Instance := ""; er_Error := md_Error snapshot |}
    else None) snapshots).
End rows.

(** ** Sections *)
Section sections.
Context {R : MapRange} {Cat : Catalyst}.

Definition writeRuntimeBreakdownMarkdown (name : string) (rows : list runtimeBreakdown) : string :=
  match rows with
  | [] => ""
  | _ =>
      md_paragraph ("## " +:+ mdCell name +:+ " Runtime Breakdown") +:+
      md_table "| Node | Workload s | ABCI s | Commit s | Finalize s | Non-ABCI s | Non-ABCI % |"
               "| --- | ---: | ---: | ---: | ---: | ---: | ---: |"
        (map (fun row =>
           [mdCell (rb_Name row); metricFloat (rb_WorkloadRuntimeSeconds row); metricFloat (rb_ABCIObservedSeconds row);
            metricFloat (rb_ABCICommitSeconds row); metricFloat (rb_ABCIFinalizeBlockSeconds row);
            metricFloat (rb_NonABCIWorkloadSeconds row); metricFloat (rb_NonABCIPctOfWorkload row)]) rows)
  end.

Definition writeLoadWindowPhaseOverlapsMarkdown (rows : list loadWindowPhaseOverlap) : string :=
  match rows with
  | [] => ""
  | _ =>
      md_paragraph "### Accepted-Window Phase Overlap" +:+
      md_table "| Phase | Class | Phase s | Before s | In-window s | After s | Note |"
               "| --- | --- | ---: | ---: | ---: | ---: | --- |"
        (map (fun row =>
           [mdCell (po_Name row); mdCell (Classification row); metricFloat (PhaseSeconds row); metricFloat (BeforeWindowSeconds row);
            metricFloat (InWindowSeconds row); metricFloat (AfterWindowSeconds row); mdCell (po_Note row)]) rows)
  end.

Definition accountingMissingSummary (row : loadWindowAccounting) : string :=
  let part {A} (value : option A) (reason name : string) :=
    match value with None => if nonempty reason then [name +:+ ": " +:+ reason] else [] | Some _ => [] end in
  Join (part (ac_ABCIBusyUnionSeconds row) (ac_ABCIBusyUnionMissingReason row) "abci_busy_union" ++
        part (ac_ABCIOverlapSeconds row) (ac_ABCIOverlapMissingReason row) "abci_overlap" ++
        part (ac_ValidatorNonABCIWallSeconds row) (ac_ValidatorNonABCIWallMissingReason row) "non_abci_wall" ++
        part (ac_LoadgenClientWaitSeconds row) (ac_LoadgenClientWaitMissingReason row) "loadgen_wait") "; ".

(** The zero value of a method that is not there. *)
Definition method_seconds (row : loadWindowAccounting) (method : string) : float := default fzero (ac_ABCIByMethodSeconds row !! method).

Definition writeLoadWindowAccountingMarkdown (rows : list loadWindowAccounting) : string :=
  match rows with
  | [] => ""
  | _ =>
      md_paragraph "### Accepted-Window Non-ABCI Accounting" +:+
      md_paragraph "Event-exact intervals produce exact non-ABCI wall time. Scrape-bounded intervals only show that an ABCI counter changed somewhere inside each scrape interval: their ABCI union is an upper bound, so interval-derived non-ABCI time is a lower bound. The sum-based residual remains approximate because ABCI methods can overlap." +:+
      md_table "| Node | Window s | Loadgen s | ABCI sum s | ABCI union s | ABCI overlap s | Commit s | Finalize s | CheckTx s | Interval-derived non-ABCI s | Approx sum residual s | Approx residual % | Process CPU s | Core equiv | Observed block cadence s | Interval source | Residual class | Missing exact fields | Residual formula |"
               "| --- | ---: | ---: | ---: | ---: | ---: | ---: | ---: | ---: | ---: | ---: | ---: | ---: | ---: | ---: | --- | --- | --- | --- |"
        (map (fun row =>
           [mdCell (ac_Name row); metricFloat (ac_LoadWindowSeconds row); metricFloat (ac_LoadGeneratorWallSeconds row);
            metricFloat (ac_ABCIObservedSumSeconds row); optionalMetricFloat (ac_ABCIBusyUnionSeconds row);
            optionalMetricFloat (ac_ABCIOverlapSeconds row); metricFloat (method_seconds row "commit");
            metricFloat (method_seconds row "finalize_block"); metricFloat (method_seconds row "check_tx");
            optionalMetricFloat (ac_ValidatorNonABCIWallSeconds row); metricFloat (ac_ValidatorNonABCIApproxSeconds row);
            metricFloat (ac_ValidatorNonABCIPctApprox row); metricFloat (ac_ValidatorProcessCPUSecondsDelta row);
            metricFloat (ac_ValidatorCoreEquivalent row); metricFloat (ac_ConsensusBlockCadenceSeconds row);
            mdCell (ac_ABCIIntervalProvenance row); mdCell (ac_UnaccountedResidualClassification row);
            mdCell (accountingMissingSummary row); mdCell (ac_UnaccountedResidualFormula row)]) rows)
  end.

(** The number of blocks, a [uint64]. *)
Definition pipeline_blocks (row : pipelineSignal) : Z :=
  if 0 <? pl_ABCIFinalizeBlockCount row then to_uint64 (pl_ABCIFinalizeBlockCount row)
  else if 0 <? pl_ABCICommitCount row then to_uint64 (pl_ABCICommitCount row)
  else if 0 <? pl_ConsensusBlockIntervalCount row then to_uint64 (pl_ConsensusBlockIntervalCount row)
  else pl_CollectorBlockSpan row.
Definition pipeline_txs_per_block (row : pipelineSignal) : float :=
  let blocks := pipeline_blocks row in
  if feq (pl_AvgTxsPerConsensusBlock row) fzero && (0 <? blocks) then
    float64_div (float64 (pl_IncludedTransactions row)) (float64 blocks)
  else pl_AvgTxsPerConsensusBlock row.

Definition writePipelineSignalsMarkdown (rows : list pipelineSignal) : string :=
  match rows with
  | [] => ""
  | _ =>
      md_paragraph "### Accepted-Window Transaction Pipeline Summary" +:+
      md_paragraph "This summary promotes node metrics and Catalyst aggregate logs. Observed cadence is accepted-window wall time per finalized block; the raw CometBFT block-interval histogram instead measures block-header timestamp deltas. This summary does not include per-transaction broadcast or inclusion latency unless Catalyst exports those timings." +:+
      md_table "| Node | Submitted | Included | Successful | Send gap | Blocks | Txs/block | Observed cadence s | CheckTx avg s | Finalize avg s | Commit avg s |"
               "| --- | ---: | ---: | ---: | ---: | ---: | ---: | ---: | ---: | ---: | ---: |"
        (map (fun row =>
           [mdCell (pl_Name row); itoa (pl_SubmittedTransactions row); itoa (pl_IncludedTransactions row);
            itoa (pl_SuccessfulTransactions row); itoa (pl_SubmittedMinusIncluded row); itoa (pipeline_blocks row);
            metricFloat (pipeline_txs_per_block row); metricFloat (pl_AvgBlockIntervalSeconds row);
            metricFloat (pl_AvgCheckTxSeconds row); metricFloat (pl_AvgFinalizeBlockSeconds row);
            metricFloat (pl_AvgCommitSeconds row)]) rows)
  end.

(** The stages that say something, with their nodes. *)
Definition shown_stages (rows : list cadenceDiagnostic) : list (string * cadenceStage) :=
  rows ≫= fun row =>
    map (pair (cd_Name row)) (List.filter (fun stage =>
      negb (feq (cs_Seconds stage) fzero && (cs_Count stage =? 0) && String.eqb (cs_MissingReason stage) "")) (cd_Stages row)).
Definition stage_note (stage : cadenceStage) : string :=
  if nonempty (cs_MissingReason stage) then
    cs_Note stage +:+ (if nonempty (cs_Note stage) then "; " else "") +:+ cs_MissingReason stage
  else cs_Note stage.

Definition writeCadenceDiagnosticsMarkdown (rows : list cadenceDiagnostic) : string :=
  match rows with
  | [] => ""
  | _ =>
      md_paragraph "### Accepted-Window Cadence Diagnostics" +:+
      md_paragraph "The block-stage residual is accepted-window wall time per finalized block minus measured ABCI block-stage averages: commit, finalize_block, prepare_proposal, and process_proposal. CometBFT's block-interval histogram measures block-header timestamp deltas and is not used as wall cadence. CheckTx is reported separately as transaction-intake pressure and is not subtracted from the block-stage residual. Exact CometBFT commit rows are nested spans; compare siblings under one parent rather than summing parents and children. The async tx-index rows can overlap consensus work." +:+
      md_table "| Node | Finalized blocks | Observed wall cadence s | Avg tx/block | ABCI block-stage s/block | CheckTx equiv s/block | Consensus step s/block | Residual s/block | Residual % | Exact commit coverage | Missing spans |"
               "| --- | ---: | ---: | ---: | ---: | ---: | ---: | ---: | ---: | --- | --- |"
        (map (fun row =>
           [mdCell (cd_Name row); itoa (cd_BlockCount row); metricFloat (cd_AvgBlockIntervalSeconds row);
            metricFloat (cd_AvgTxsPerBlock row); metricFloat (cd_ABCIBlockStageSecondsPerBlock row);
            metricFloat (cd_CheckTxSecondsPerBlockEquivalent row); metricFloat (cd_ConsensusStepSecondsPerBlock row);
            metricFloat (cd_CadenceResidualAfterABCIBlockStagesSeconds row); metricFloat (cd_CadenceResidualPctOfBlockInterval row);
            FormatBool (cd_ExactEventSpanCoverage row); mdCell (Join (cd_MissingEventSpans row) "; ")]) rows) +:+
      match shown_stages rows with
      | [] => ""
      | stages =>
          md_paragraph "### Accepted-Window Cadence Diagnostic Stages" +:+
          md_table "| Node | Stage | Parent | Class | Source | Provenance | Total s | Count | Avg s | Per-block s | Residual bucket | Note |"
                   "| --- | --- | --- | --- | --- | --- | ---: | ---: | ---: | ---: | --- | --- |"
            (map (fun '(node, stage) =>
               [mdCell node; mdCell (cs_Name stage); mdCell (cs_Parent stage); mdCell (cs_Class stage); mdCell (cs_Source stage);
                mdCell (cs_Provenance stage); metricFloat (cs_Seconds stage); itoa (cs_Count stage);
                metricFloat (cs_AvgSeconds stage); metricFloat (cs_PerBlockSeconds stage);
                FormatBool (cs_IncludedInResidual stage); mdCell (stage_note stage)]) stages)
      end
  end.

Definition writeTreeDBStatsTimelineMarkdown (samples : list treeDBStatsTimelineSample) : string :=
  match samples with
  | [] => ""
  | _ =>
      md_paragraph "### Accepted-Window TreeDB Stats Timeline" +:+
      md_table "| Label | At | Elapsed s | Snapshots |" "| --- | --- | ---: | ---: |"
        (map (fun sample =>
           [mdCell (tl_Label sample); mdCell (FormatRFC3339 true (tl_At sample)); metricFloat (tl_ElapsedSeconds sample);
            itoa (Z.of_nat (length (tl_Stats sample)))]) samples)
  end.

(** The tables of the window's counters, each where it has rows. *)
Definition write_window_deltas (metrics : list metricDeltaSnapshot) (stats : list treeDBStatsDelta) : string :=
  let rows := metricDeltaRows metrics in
  let errors := metricDeltaErrors metrics in
  let treeDBRows := treeDBStatDeltaRows stats in
  let treeDBTimingRows := treeDBTimingSummaryRows stats in
  let treeDBErrors := treeDBStatDeltaErrors stats in
  match rows, errors, treeDBRows, treeDBTimingRows, treeDBErrors with
  | [], [], [], [], [] => md_paragraph "No accepted-window metric deltas were recorded."
  | _, _, _, _, _ =>
      (match rows with
       | [] => ""
       | _ =>
           md_paragraph "### Accepted-Window Metric Deltas" +:+
           md_table "| Container | Metric | Before | After | Delta |" "| --- | --- | ---: | ---: | ---: |"
             (map (fun row => [mdCell (mr_Container row); mdCell (mr_Metric row); metricFloat (mr_Before row);
                               metricFloat (mr_After row); metricFloat (mr_Delta row)]) rows)
       end) +:+
      (match errors with
       | [] => ""
       | _ =>
           md_paragraph "### Accepted-Window Metric Scrape Errors" +:+
           md_table "| Container | Error |" "| --- | --- |"
             (map (fun row => [mdCell (er_Container row); mdCell (er_Error row)]) errors)
       end) +:+
      (match treeDBTimingRows with
       | [] => ""
       | _ =>
           md_paragraph "### Accepted-Window TreeDB Timing Counter Deltas" +:+
           md_paragraph "These are TreeDB-owned timing counters grouped by metric family. They are useful attribution signals, but may overlap and are not an exclusive wall-time decomposition." +:+
           md_table "| Container | Store | Group | Counter seconds |" "| --- | --- | --- | ---: |"
             (map (fun row => [mdCell (tt_Container row); mdCell (tt_Store row); mdCell (tt_Group row);
                               metricFloat (tt_Seconds row)]) treeDBTimingRows)
       end) +:+
      (match treeDBRows with
       | [] => ""
       | _ =>
           md_paragraph "### Accepted-Window TreeDB Store Counter Deltas" +:+
           md_table "| Container | Store | WAL dir | Metric | Before | After | Delta | Delta s |"
                    "| --- | --- | --- | --- | ---: | ---: | ---: | ---: |"
             (map (fun row => [mdCell (tr_Container row); mdCell (tr_Store row); mdCell (tr_WALDir row); mdCell (tr_Metric row);
                               metricFloat (tr_Before row); metricFloat (tr_After row); metricFloat (tr_Delta row);
                               if tr_DeltaSecondsOK row then metricFloat (tr_DeltaSeconds row) else ""]) treeDBRows)
       end) +:+
      (match treeDBErrors with
       | [] => ""
       | _ =>
           md_paragraph "### Accepted-Window TreeDB Debug Vars Errors" +:+
           md_table "| Container | Instance | Error |" "| --- | --- | --- |"
             (map (fun row => [mdCell (er_Container row); mdCell (er_Instance row); mdCell (er_Error row)]) treeDBErrors)
       end)
  end.

Definition profileBoundaryAcceptedWindow : string := "accepted-window".

Definition writeAcceptedWindowMarkdown (name : string) (window : option loadWindowObservation)
    (overlaps : list loadWindowPhaseOverlap) (tables : option window_tables) : string :=
  match window with
  | None => ""
  | Some obs =>
      let table {A} (field : window_tables -> list A) := match tables with Some t => field t | None => [] end in
      md_paragraph ("## " +:+ mdCell name +:+ " Accepted Window") +:+
      md_table "| Boundary | Reached | Duration ok | Seconds | Included | Successful | Target |"
               "| --- | --- | --- | ---: | ---: | ---: | ---: |"
        [[profileBoundaryAcceptedWindow; FormatBool (Reached obs); FormatBool (DurationSatisfied obs); metricFloat (ob_Seconds obs);
          itoa (IncludedTransactions obs); itoa (SuccessfulTransactions obs); itoa (TargetTransactions obs)]] +:+
      (if nonempty (ob_Error obs) then md_paragraph ("- Window note: " +:+ mdCell (ob_Error obs)) else "") +:+
      writeLoadWindowPhaseOverlapsMarkdown overlaps +:+
      writeLoadWindowAccountingMarkdown (table Accounting) +:+
      writePipelineSignalsMarkdown (table PipelineSignals) +:+
      writeCadenceDiagnosticsMarkdown (table CadenceDiagnostics) +:+
      writeTreeDBStatsTimelineMarkdown (TreeDBStatsTimeline obs) +:+
      write_window_deltas (MetricDeltas obs) (TreeDBStatDeltas obs)
  end.

Definition writeCatalystLogTimingMarkdown (timing : catalystLogTiming) : string :=
  let send := ct_SendDurations timing in
  let process := ct_BlockProcessingToProcessedDurations timing in
  md_paragraph "### Catalyst Log Timing Summary" +:+
  md_paragraph "This summary is parsed from retained Catalyst task logs. It reports per-block send and block-processing spans; per-transaction RPC wait and inclusion latency still require explicit Catalyst instrumentation." +:+
  (match ct_Notes timing with
   | [] => ""
   | notes => String_concat "" (map (fun note => "- " +:+ mdCell note +:+ nl) notes) +:+ nl
   end) +:+
  md_table "| Log span s | Timestamped lines | Send blocks | Txs sent | Matched send txs | Send total s | Send avg s | Send p95 s | Send max s | Matched send tx/s | Process blocks | Process total s | Process avg s | Process p95 s | Process max s | Event->process avg s | Chain ts->process avg s |"
           "| ---: | ---: | ---: | ---: | ---: | ---: | ---: | ---: | ---: | ---: | ---: | ---: | ---: | ---: | ---: | ---: | ---: |"
    [[metricFloat (ct_LogSpanSeconds timing); itoa (ct_TimestampedLines timing); optionalDurationCount send;
      itoa (ct_SendTxsSentTotal timing); itoa (ct_SendMatchedTxsTotal timing); optionalDurationTotal send; optionalDurationAvg send;
      optionalDurationP95 send; optionalDurationMax send; metricFloat (ct_SendTxsPerSecond timing);
      optionalDurationCount process; optionalDurationTotal process; optionalDurationAvg process; optionalDurationP95 process;
      optionalDurationMax process; optionalDurationAvg (ct_BlockEventToProcessingDurations timing);
      optionalDurationAvg (ct_ChainTimestampToProcessingDurations timing)]].

Definition writeScenarioCatalystLogTimingMarkdown (name : string) (logs : loadTestLogSummary) : string :=
  match lg_CatalystTiming logs with
  | None => ""
  | Some timing => md_paragraph ("## " +:+ mdCell name +:+ " Catalyst Log Timing") +:+ writeCatalystLogTimingMarkdown timing
  end.

Definition writeTreeDBDwellMarkdown (name : string) (snapshots : list treeDBDwellSnapshot) : string :=
  match snapshots with
  | [] => ""
  | _ =>
      md_paragraph ("## " +:+ mdCell name +:+ " TreeDB Post-Load Dwell") +:+
      md_table "| Snapshot | Elapsed s | TreeDB snapshots | Data paths |" "| --- | ---: | ---: | ---: |"
        (map (fun snapshot =>
           [mdCell (dw_Label snapshot); metricFloat (dw_ElapsedSeconds snapshot); itoa (Z.of_nat (length (dw_TreeDBStats snapshot)));
            itoa (Z.of_nat (length (dw_DataSizes snapshot)))]) snapshots) +:+
      match List.filter (fun snapshot => String.eqb (dw_Label snapshot) "post_dwell") snapshots ≫= dw_DataSizeDeltas with
      | [] => ""
      | rows =>
          md_paragraph "### TreeDB Dwell Data Size Deltas" +:+
          md_table "| Container | Path | Before | After | Delta |" "| --- | --- | ---: | ---: | ---: |"
            (map (fun row => [mdCell (dd_Name row); mdCell (dd_Path row); itoa (dd_Before row); itoa (dd_After row);
                              itoa (dd_Delta row)])
               (List.filter (fun row => String.eqb (dd_Error row) "") rows))
      end
  end.

Definition profile_status (artifact : profileArtifact) : string :=
  if nonempty (pa_Error artifact) then pa_Error artifact
  else if nonempty (pa_TopSummaryError artifact) then pa_TopSummaryError artifact else "ok".

Definition writeProfileArtifactsMarkdown (name : string) (artifacts : list profileArtifact) : string :=
  match artifacts with
  | [] => ""
  | _ =>
      md_paragraph ("## " +:+ mdCell name +:+ " Profile Manifest") +:+
      md_table "| Kind | Timing boundary | Endpoint | Requested s | Started | Finished | Collected s | Load-window start s | Load-window end s | Load-window overlap s | Profile path | Top summary | Status |"
               "| --- | --- | --- | ---: | --- | --- | ---: | ---: | ---: | ---: | --- | --- | --- |"
        (map (fun artifact =>
           [mdCell (pa_Kind artifact); mdCell (pa_Boundary artifact); mdCell (pa_Endpoint artifact);
            optionalProfileSeconds (pa_RequestedSeconds artifact); mdCell (optionalProfileTime (pa_StartedAt artifact));
            mdCell (optionalProfileTime (pa_FinishedAt artifact)); optionalProfileSeconds (pa_CollectionSeconds artifact);
            optionalProfileFloat (pa_StartedOffset artifact); optionalProfileFloat (pa_FinishedOffset artifact);
            optionalProfileFloat (pa_Overlap artifact); mdCell (pa_Path artifact); mdCell (pa_TopSummaryPath artifact);
            mdCell (profile_status artifact)]) artifacts)
  end.

(** ** The report *)

(** A result of the artifact; a comparison of synchronisations has no more of a run than [celestia_run]. *)
Record artifact_result := {
  ar_Scenario : scenario;
  ar_Run : run_result;
  ar_CelestiaSync : option celestiaSyncResult
}.
Record reportArtifact := {
  ra_GeneratedAt : Z;
  ra_Host : gmap string string;
  ra_Git : gmap string string;
  ra_Flags : gmap string string;
  ra_Results : list artifact_result;
  ra_Errors : gmap string string
}.

Definition summary_row (result : artifact_result) : list string :=
  let run := ar_Run result in
  let counts := loadCounts (counts_of (ar_Scenario result) run) in
  let window := match run_LoadWindow run with Some obs => format_fixed 3 (ob_Seconds obs) +:+ "s" | None => "" end in
  let tps :=
    match run_LoadWindow run, run_Derived run with
    | Some _, Some derived =>
        if flt fzero (dm_LoadWindowIncludedTPS derived) then metricFloat (dm_LoadWindowIncludedTPS derived) else ""
    | _, _ => ""
    end in
  [mdCell (sc_Name (ar_Scenario result)); mdCell (run_Error run); mdCell window; itoa (lf_included counts);
   itoa (lf_successful counts); mdCell tps; itoa (Z.of_nat (length (run_ProfileArtifacts run)))].

Definition result_sections (result : artifact_result) : string :=
  let name := sc_Name (ar_Scenario result) in
  let run := ar_Run result in
  writeRuntimeBreakdownMarkdown name (run_RuntimeBreakdown run) +:+
  writeAcceptedWindowMarkdown name (run_LoadWindow run) (run_PhaseOverlaps run) (run_WindowTables run) +:+
  writeScenarioCatalystLogTimingMarkdown name (run_LoadTestLogSummary run) +:+
  writeTreeDBDwellMarkdown name (run_TreeDBDwellSnapshots run) +:+
  writeProfileArtifactsMarkdown name (run_ProfileArtifacts run).

Definition renderReportMarkdown (artifact : reportArtifact) : string :=
  let branch := lookup_str (ra_Git artifact) "branch" in
  let head := lookup_str (ra_Git artifact) "head" in
  md_paragraph "# Ironbird Local Report" +:+
  (if IsZero (ra_GeneratedAt artifact) then "" else "- Generated: " +:+ FormatRFC3339 false (ra_GeneratedAt artifact) +:+ nl) +:+
  (if nonempty branch then "- Branch: `" +:+ mdCell branch +:+ "`" +:+ nl else "") +:+
  (if nonempty head then "- Head: `" +:+ mdCell head +:+ "`" +:+ nl else "") +:+
  nl +:+
  md_paragraph "## Scenario Summary" +:+
  md_table "| Scenario | Error | Load window | Included | Successful | Load-window TPS | Profiles |"
           "| --- | --- | ---: | ---: | ---: | ---: | ---: |"
    (map summary_row (ra_Results artifact)) +:+
  String_concat "" (map result_sections (ra_Results artifact)).
End sections.

(** ** Tables as a reader of Markdown splits them

    A pipe ends a cell unless a backslash is before it.  A table is a run of
    lines that begin with a pipe, up to an empty line. *)
Definition pipe : ascii := "|".
Definition escapes (c : ascii) : bool := Ascii.eqb c (ascii_of_nat 92).
Fixpoint bare_pipes (escaped : bool) (s : string) : nat :=
  match s with
  | EmptyString => 0
  | String c s' => (if Ascii.eqb c pipe && negb escaped then 1 else 0) + bare_pipes (escapes c) s'
  end.
Definition table_line (line : string) : bool := HasPrefix line "|".

(** Every line of a table has as many cells as its first, [width], and the table ends at an empty line. *)
Fixpoint aligned (width : option nat) (lines : list string) : bool :=
  match lines with
  | [] => true
  | line :: lines' =>
      if table_line line then
        let n := bare_pipes false line in
        match width with Some w => Nat.eqb n w | None => true end && aligned (Some n) lines'
      else match width with Some _ => String.eqb line "" | None => true end && aligned None lines'
  end.

(** *** Cells *)
Definition cell_ok (s : string) : bool := Nat.eqb (bare_pipes false s) 0 && no_byte newline s.
Definition figure_char (c : ascii) : bool := negb (Ascii.eqb c pipe) && negb (Ascii.eqb c newline).
Definition figure (s : string) : bool := str_all figure_char s.

Lemma figure_app s t : figure (s +:+ t) = figure s && figure t.
Proof. unfold figure. induction s as [|c s IH]; [done|]. cbn [String.append str_all]. by rewrite IH, andb_assoc. Qed.

Lemma figure_no_pipe s e : figure s = true -> bare_pipes e s = 0%nat.
Proof.
  revert e. induction s as [|c s IH]; intros e; [done|]. unfold figure. cbn [str_all bare_pipes]. unfold figure_char.
  rewrite !andb_true_iff, !negb_true_iff. intros [[-> _] Hs]. by apply IH.
Qed.
Lemma figure_no_newline s : figure s = true -> no_byte newline s = true.
Proof.
  induction s as [|c s IH]; [done|]. unfold figure. cbn [str_all no_byte]. unfold figure_char. rewrite !andb_true_iff.
  intros [[_ Hc] Hs]. split; [done|by apply IH].
Qed.
Lemma figure_cell s : figure s = true -> cell_ok s = true.
Proof. intros Hs. unfold cell_ok. by rewrite figure_no_pipe, figure_no_newline. Qed.

Lemma escaped_no_pipe s e : bare_pipes e (subst_byte pipe (backslash +:+ "|") s) = 0%nat.
Proof.
  revert e. induction s as [|c s IH]; intros e; [done|]. cbn [subst_byte].
  destruct (Ascii.eqb c pipe) eqn:Hc; [by apply IH|]. cbn [bare_pipes]. rewrite Hc. by apply IH.
Qed.

Lemma mdCell_ok s : cell_ok (mdCell s) = true.
Proof.
  unfold cell_ok, mdCell, nl, carriage_return. rewrite !ReplaceAll_byte, escaped_no_pipe. cbn [Nat.eqb andb].
  apply no_byte_subst; [right|done]. apply no_byte_subst; [right|done]. apply no_byte_subst; [by left|done].
Qed.

(** *** Figures *)
Lemma figure_take n s : figure s = true -> figure (str_take n s) = true.
Proof.
  unfold figure. revert s. induction n as [|n IH]; intros [|c s] Hs; try done. cbn in *. apply andb_true_iff in Hs as [-> Hs]. by apply IH.
Qed.
Lemma figure_drop n s : figure s = true -> figure (str_drop n s) = true.
Proof.
  unfold figure. revert s. induction n as [|n IH]; intros [|c s] Hs; try done. cbn in *. apply andb_true_iff in Hs as [_ Hs]. by apply IH.
Qed.
Lemma figure_zeros n : figure (zeros n) = true.
Proof. by induction n as [|n IH]. Qed.
Lemma figure_trim s : figure s = true -> figure (trim_zeros s) = true.
Proof.
  induction s as [|c s IH]; [done|]. intros Hs. cbn [trim_zeros]. destruct (str_all _ _); [done|].
  unfold figure in *. cbn in *. apply andb_true_iff in Hs as [-> Hs]. by apply IH.
Qed.
Lemma figure_uint d : figure (NilEmpty.string_of_uint d) = true.
Proof. induction d; [done|..]; exact IHd. Qed.
Lemma figure_itoa z : figure (itoa z) = true.
Proof.
  unfold itoa, NilZero.string_of_int, NilZero.string_of_uint. destruct (Z.to_int z) as [d|d]; destruct d; try done; apply figure_uint.
Qed.

#[local] Hint Resolve figure_take figure_drop figure_zeros figure_trim figure_itoa : figures.
Ltac figure_go := rewrite ?figure_app, ?andb_true_iff; split_and?; auto with figures.

Lemma figure_significant prec n d : figure (significant prec n d).1 = true.
Proof. unfold significant. destruct (_ =? _); [done|]. cbn [fst]. auto with figures. Qed.
Lemma figure_g prec x : figure (FormatFloat_g prec x) = true.
Proof.
  destruct x as [[]|[]| |s m e]; try done. unfold FormatFloat_g. destruct (fraction_of m e) as [n d].
  pose proof (figure_significant prec n d) as Hd. destruct (significant prec n d) as [digits dp]. cbn [fst] in Hd.
  rewrite figure_app. apply andb_true_iff. split; [by destruct s|]. unfold fmt_g, fmt_e, fmt_f.
  repeat match goal with |- context [if ?b then _ else _] => destruct b end; figure_go.
Qed.
Lemma figure_metric x : figure (metricFloat x) = true.
Proof. unfold metricFloat. destruct (is_nan_or_inf x); [apply figure_g|]. destruct (feq _ _); [done|apply figure_g]. Qed.

Lemma figure_pad n s : figure s = true -> figure (pad n s) = true.
Proof. intros Hs. unfold pad. figure_go. Qed.
#[local] Hint Resolve figure_pad : figures.
Lemma figure_time nano t : figure (FormatRFC3339 nano t) = true.
Proof.
  unfold FormatRFC3339. destruct (civil_from_days _) as [[year month] day].
  repeat match goal with |- context [if ?b then _ else _] => destruct b end; figure_go.
Qed.

(** *** Rows *)
Lemma bare_pipes_space e s t : bare_pipes e (s +:+ String " " t) = (bare_pipes e s + bare_pipes false t)%nat.
Proof. revert e. induction s as [|c s IH]; intros e; [done|]. cbn [String.append bare_pipes]. rewrite IH. lia. Qed.

Lemma cell_pipes s t : cell_ok s = true -> bare_pipes false (s +:+ String " " t) = bare_pipes false t.
Proof. unfold cell_ok. intros [Hs%Nat.eqb_eq _]%andb_true_iff. by rewrite bare_pipes_space, Hs. Qed.

Lemma row_pipes cells : cells <> [] -> Forall (fun s => cell_ok s = true) cells ->
  bare_pipes false (Join cells " | " +:+ " |") = length cells.
Proof.
  intros Hne Hok. destruct cells as [|s cells]; [done|]. clear Hne. revert s Hok.
  induction cells as [|s' cells IH]; intros s [Hs Hok]%Forall_cons.
  - change (bare_pipes false (s +:+ String " " "|") = 1%nat). by rewrite cell_pipes.
  - change (Join (s :: s' :: cells) " | ") with (s +:+ " | " +:+ Join (s' :: cells) " | ").
    rewrite !string_app_assoc. change (" | " +:+ ?x) with (String " " (String pipe (String " " x))).
    rewrite cell_pipes by done.
    transitivity (Datatypes.S (bare_pipes false (Join (s' :: cells) " | " +:+ " |"))); [done|]. by rewrite IH.
Qed.

Lemma cell_line s : cell_ok s = true -> no_byte newline s = true.
Proof. unfold cell_ok. by intros [_ Hs]%andb_true_iff. Qed.

Lemma row_line cells : Forall (fun s => cell_ok s = true) cells -> no_byte newline ("| " +:+ Join cells " | " +:+ " |") = true.
Proof.
  intros Hok. rewrite !no_byte_app. change (no_byte newline "| ") with true. change (no_byte newline " |") with true.
  rewrite andb_true_r. cbn [andb]. induction Hok as [|s cells Hs Hok IH]; [done|].
  destruct cells as [|s' cells]; [by apply cell_line|].
  change (Join (s :: s' :: cells) " | ") with (s +:+ " | " +:+ Join (s' :: cells) " | ").
  rewrite !no_byte_app, IH, cell_line by done. reflexivity.
Qed.

(** *** Blocks of whole lines, with aligned tables that end in them *)
Definition unlines (lines : list string) : string := String_concat "" (map (fun line => line +:+ nl) lines).
Definition ended (lines : list string) : Prop := forall line, last lines = Some line -> table_line line = false.
Definition block (s : string) : Prop :=
  exists lines, s = unlines lines /\ Forall (fun line => no_byte newline line = true) lines /\ aligned None lines = true /\ ended lines.

Lemma concat_cons s l : String_concat "" (s :: l) = s +:+ String_concat "" l.
Proof. destruct l; [by rewrite string_app_nil_r|done]. Qed.
Lemma concat_app l1 l2 : String_concat "" (l1 ++ l2) = String_concat "" l1 +:+ String_concat "" l2.
Proof. induction l1 as [|s l1 IH]; [done|]. cbn [app]. by rewrite !concat_cons, IH, string_app_assoc. Qed.
Lemma unlines_app l1 l2 : unlines (l1 ++ l2) = unlines l1 +:+ unlines l2.
Proof. unfold unlines. by rewrite map_app, concat_app. Qed.

Lemma aligned_app w l1 l2 : ended l1 -> l1 <> [] -> aligned w (l1 ++ l2) = aligned w l1 && aligned None l2.
Proof.
  revert w. induction l1 as [|line l1 IH]; intros w He Hne; [done|]. cbn [app aligned]. destruct l1 as [|line' l1].
  - specialize (He line eq_refl). cbn [app aligned]. rewrite He. by rewrite andb_true_r.
  - rewrite !IH; [|intros x Hx; by apply He|done..]. by destruct (table_line line); rewrite andb_assoc.
Qed.
Lemma block_app s1 s2 : block s1 -> block s2 -> block (s1 +:+ s2).
Proof.
  intros (l1 & -> & Hn1 & Ha1 & He1) (l2 & -> & Hn2 & Ha2 & He2). exists (l1 ++ l2). split_and!.
  - by rewrite unlines_app.
  - by apply Forall_app.
  - destruct l1 as [|x l1]; [done|]. by rewrite aligned_app, Ha1.
  - intros line. rewrite last_app. destruct (last l2) eqn:Hl; [intros [= <-]; by apply He2|apply He1].
Qed.
Lemma block_nil : block "".
Proof. exists []. by split_and!. Qed.
Lemma block_lines lines :
  Forall (fun line => no_byte newline line = true) lines -> Forall (fun line => table_line line = false) lines -> block (unlines lines).
Proof.
  intros Hn Ht. exists lines. split_and!; [done|done| |].
  - clear Hn. induction Ht as [|line lines Hl _ IH]; [done|]. cbn [aligned]. by rewrite Hl, IH.
  - intros line Hl. rewrite Forall_forall in Ht. by apply Ht, last_Some_elem_of.
Qed.
Lemma block_line s : no_byte newline s = true -> table_line s = false -> block (s +:+ nl).
Proof. intros Hn Ht. by apply (block_lines [s]); constructor. Qed.
Lemma block_paragraph s : no_byte newline s = true -> table_line s = false -> block (md_paragraph s).
Proof. intros Hn Ht. unfold md_paragraph. rewrite <- string_app_assoc. apply (block_app (s +:+ nl) nl); [by apply block_line|by apply (block_line "")]. Qed.
Lemma block_concat l : Forall block l -> block (String_concat "" l).
Proof. induction 1 as [|s l Hs _ IH]; [apply block_nil|]. rewrite concat_cons. by apply block_app. Qed.

Lemma aligned_rows n lines :
  Forall (fun line => table_line line = true /\ bare_pipes false line = n) lines -> aligned (Some n) (lines ++ [""]) = true.
Proof. induction 1 as [|line lines [Ht Hn] _ IH]; [done|]. cbn [app aligned]. by rewrite Ht, Hn, Nat.eqb_refl. Qed.

(** A table whose header and alignments have a cell for each cell of a row. *)
Lemma block_table header align rows :
  table_line header && table_line align && no_byte newline header && no_byte newline align &&
    Nat.eqb (bare_pipes false header) (bare_pipes false align) = true ->
  Forall (fun cells => bare_pipes false header = Datatypes.S (length cells) /\ cells <> [] /\ Forall (fun s => cell_ok s = true) cells) rows ->
  block (md_table header align rows).
Proof.
  rewrite !andb_true_iff. intros ((((Hh & Ha) & Hnh) & Hna) & Hw%Nat.eqb_eq) Hrows.
  set (lines := map (fun cells => "| " +:+ Join cells " | " +:+ " |") rows).
  exists ((header :: align :: lines) ++ [""]). split_and!.
  - rewrite unlines_app. unfold unlines. cbn [map]. rewrite !concat_cons. unfold md_table. rewrite !string_app_assoc.
    do 4 f_equal. subst lines. rewrite map_map. f_equal. f_equal. apply map_ext. intros cells. unfold md_row. by rewrite !string_app_assoc.
  - apply Forall_app. split; [|by constructor]. repeat constructor; [done..|]. apply Forall_map.
    eapply Forall_impl; [exact Hrows|]. intros cells (_ & _ & Hok). by apply row_line.
  - assert (Hl : Forall (fun line => table_line line = true /\ bare_pipes false line = bare_pipes false header) lines).
    { apply Forall_map. eapply Forall_impl; [exact Hrows|]. intros cells (Hn & Hne & Hok). split; [done|].
      rewrite Hn. change (bare_pipes false ("| " +:+ ?x)) with (Datatypes.S (bare_pipes false x)). by rewrite row_pipes. }
    cbn [app aligned]. rewrite Hh, Ha, Hw, Nat.eqb_refl. cbn [andb]. apply aligned_rows. by rewrite <- Hw.
  - intros line. rewrite last_snoc. by intros [= <-].
Qed.

Lemma block_aligned s : block s -> aligned None (Split newline s) = true.
Proof.
  intros (lines & -> & Hn & Ha & He). assert (Split newline (unlines lines) = lines ++ [""]) as ->.
  { clear Ha He. induction Hn as [|line lines Hl _ IH]; [done|]. unfold unlines. cbn [map]. rewrite concat_cons, string_app_assoc.
    change (nl +:+ ?x) with (String newline x). rewrite Split_app, Split_none by done. cbn [app]. f_equal. exact IH. }
  destruct lines as [|line lines]; [done|]. by rewrite aligned_app, Ha.
Qed.

(** *** The sections *)
#[local] Hint Resolve figure_metric figure_g figure_cell mdCell_ok block_nil : figures.

Lemma optional_metric_ok x : cell_ok (optionalMetricFloat x) = true.
Proof. destruct x; cbn [optionalMetricFloat]; auto with figures. Qed.
Lemma optional_profile_ok x : cell_ok (optionalProfileFloat x) = true.
Proof. destruct x; cbn [optionalProfileFloat]; auto with figures. Qed.
Lemma optional_seconds_ok x : cell_ok (optionalProfileSeconds x) = true.
Proof. unfold optionalProfileSeconds. destruct (fle _ _); auto with figures. Qed.
Lemma duration_count_ok x : cell_ok (optionalDurationCount x) = true.
Proof. destruct x; cbn [optionalDurationCount]; auto with figures. Qed.
Lemma duration_total_ok x : cell_ok (optionalDurationTotal x) = true.
Proof. destruct x; cbn [optionalDurationTotal]; auto with figures. Qed.
Lemma duration_avg_ok x : cell_ok (optionalDurationAvg x) = true.
Proof. destruct x; cbn [optionalDurationAvg]; auto with figures. Qed.
Lemma duration_p95_ok x : cell_ok (optionalDurationP95 x) = true.
Proof. destruct x; cbn [optionalDurationP95]; auto with figures. Qed.
Lemma duration_max_ok x : cell_ok (optionalDurationMax x) = true.
Proof. destruct x; cbn [optionalDurationMax]; auto with figures. Qed.
Lemma bool_ok b : cell_ok (FormatBool b) = true.
Proof. by destruct b. Qed.
Lemma metric_if_ok (b : bool) x : cell_ok (if b then metricFloat x else "") = true.
Proof. destruct b; auto with figures. Qed.
#[local] Hint Resolve optional_metric_ok optional_profile_ok optional_seconds_ok duration_count_ok duration_total_ok duration_avg_ok
  duration_p95_ok duration_max_ok bool_ok metric_if_ok : figures.

Lemma heading_line name rest : no_byte newline rest = true -> block (md_paragraph ("## " +:+ mdCell name +:+ rest)).
Proof. intros Hr. apply block_paragraph; [|done]. rewrite !no_byte_app, Hr, (cell_line _ (mdCell_ok name)). done. Qed.

Lemma note_block start e : no_byte newline start = true -> table_line (start +:+ mdCell e) = false ->
  block (md_paragraph (start +:+ mdCell e)).
Proof. intros Hs Ht. apply block_paragraph; [|done]. by rewrite no_byte_app, Hs, (cell_line _ (mdCell_ok e)). Qed.
Lemma item_line start s rest : figure s = true \/ cell_ok s = true -> no_byte newline start = true -> no_byte newline rest = true ->
  table_line (start +:+ s +:+ rest +:+ nl) = false -> block (start +:+ s +:+ rest +:+ nl).
Proof.
  intros Hs Hst Hr Ht. rewrite <- (string_app_assoc s), <- string_app_assoc. apply block_line.
  - rewrite !no_byte_app, Hst, Hr. destruct Hs as [Hs|Hs]; [by rewrite (figure_no_newline _ Hs)|by rewrite (cell_line _ Hs)].
  - revert Ht. unfold table_line. destruct (start +:+ s +:+ rest) as [|c x] eqn:Hx; [done|].
    rewrite <- (string_app_assoc s), <- string_app_assoc, Hx. done.
Qed.

Ltac row_go := split_and!; [reflexivity|done|repeat (apply Forall_cons; split); [..|by apply Forall_nil]; auto with figures].
Ltac rows_go := apply block_table; [vm_compute; reflexivity|]; first
  [apply Forall_map, Forall_true; intros ?; row_go | apply Forall_cons; split; [row_go|by apply Forall_nil]].
Ltac block_go := repeat lazymatch goal with
  | |- block (String.append _ _) => apply block_app
  | |- block (md_paragraph (String.append "## " _)) => apply heading_line; reflexivity
  | |- block (md_paragraph (String.append "- Window note: " _)) => apply note_block; reflexivity
  | |- block (md_paragraph _) => apply block_paragraph; reflexivity
  | |- block (md_table _ _ _) => rows_go
  | |- block (if ?b then _ else _) => destruct b
  | |- block (match ?x with _ => _ end) => destruct x
  | |- block _ => solve [auto with figures]
  end.

Section report.
Context {R : MapRange} {Cat : Catalyst}.

Lemma breakdown_block name rows : block (writeRuntimeBreakdownMarkdown name rows).
Proof. unfold writeRuntimeBreakdownMarkdown. destruct rows as [|row rows]; block_go. Qed.
Lemma overlaps_block rows : block (writeLoadWindowPhaseOverlapsMarkdown rows).
Proof. unfold writeLoadWindowPhaseOverlapsMarkdown. destruct rows as [|row rows]; block_go. Qed.
Lemma accounting_block rows : block (writeLoadWindowAccountingMarkdown rows).
Proof. unfold writeLoadWindowAccountingMarkdown. destruct rows as [|row rows]; block_go. Qed.
Lemma pipeline_block rows : block (writePipelineSignalsMarkdown rows).
Proof. unfold writePipelineSignalsMarkdown. destruct rows as [|row rows]; block_go. Qed.
Lemma cadence_block rows : block (writeCadenceDiagnosticsMarkdown rows).
Proof.
  unfold writeCadenceDiagnosticsMarkdown. destruct rows as [|row rows]; [block_go|]. generalize (shown_stages (row :: rows)).
  intros stages. block_go. apply block_table; [vm_compute; reflexivity|]. apply Forall_map, Forall_true. intros [node stage]. row_go.
Qed.
Lemma timeline_block samples : block (writeTreeDBStatsTimelineMarkdown samples).
Proof. unfold writeTreeDBStatsTimelineMarkdown. destruct samples as [|sample samples]; block_go. Qed.
Lemma window_deltas_block metrics stats : block (write_window_deltas metrics stats).
Proof.
  unfold write_window_deltas. generalize (metricDeltaRows metrics), (metricDeltaErrors metrics), (treeDBStatDeltaRows stats),
    (treeDBTimingSummaryRows stats), (treeDBStatDeltaErrors stats). intros rows errors treeDBRows timing treeDBErrors.
  assert (block (md_paragraph "No accepted-window metric deltas were recorded.")) as Hnone by block_go.
  destruct rows, errors, treeDBRows, timing, treeDBErrors; first [exact Hnone|block_go].
Qed.
Lemma accepted_block name window overlaps tables : block (writeAcceptedWindowMarkdown name window overlaps tables).
Proof.
  unfold writeAcceptedWindowMarkdown. destruct window as [obs|]; [|block_go].
  pose proof overlaps_block. pose proof accounting_block. pose proof pipeline_block. pose proof cadence_block.
  pose proof timeline_block. pose proof window_deltas_block. block_go.
Qed.
Lemma catalyst_block name logs : block (writeScenarioCatalystLogTimingMarkdown name logs).
Proof.
  unfold writeScenarioCatalystLogTimingMarkdown, writeCatalystLogTimingMarkdown. destruct (lg_CatalystTiming logs) as [timing|]; [|block_go].
  assert (forall notes, block (String_concat "" (map (fun note => "- " +:+ mdCell note +:+ nl) notes))) as Hnotes.
  { intros notes. apply block_concat, Forall_map, Forall_true. intros note. apply (item_line "- " _ ""); auto with figures. }
  block_go; try exact (block_line "" eq_refl eq_refl).
Qed.
Lemma dwell_block name snapshots : block (writeTreeDBDwellMarkdown name snapshots).
Proof.
  unfold writeTreeDBDwellMarkdown. destruct snapshots as [|snapshot snapshots]; [block_go|].
  generalize (List.filter (fun s => String.eqb (dw_Label s) "post_dwell") (snapshot :: snapshots) ≫= dw_DataSizeDeltas).
  intros rows. block_go.
Qed.
Lemma profiles_block name artifacts : block (writeProfileArtifactsMarkdown name artifacts).
Proof. unfold writeProfileArtifactsMarkdown. destruct artifacts as [|a artifacts]; block_go. Qed.

(** C14: in the report, whatever the results hold (names, errors and notes
    with pipes, backslashes and line breaks, figures that are not numbers),
    every line of a table has as many cells as the table's header and no
    table runs into the text after it. *)
Theorem report_tables_aligned (artifact : reportArtifact) : aligned None (Split newline (renderReportMarkdown artifact)) = true.
Proof.
  apply block_aligned. unfold renderReportMarkdown.
  pose proof breakdown_block. pose proof accepted_block. pose proof catalyst_block. pose proof dwell_block. pose proof profiles_block.
  apply block_app; [block_go|]. apply block_app.
  { destruct (IsZero _); [block_go|]. apply (item_line "- Generated: " _ ""); [left; apply figure_time|done..]. }
  apply block_app; [destruct (nonempty _); [apply (item_line "- Branch: `" _ "`")|]; auto with figures|].
  apply block_app; [destruct (nonempty _); [apply (item_line "- Head: `" _ "`")|]; auto with figures|].
  apply block_app; [exact (block_line "" eq_refl eq_refl)|]. apply block_app; [block_go|]. apply block_app.
  - apply block_table; [vm_compute; reflexivity|]. apply Forall_map, Forall_true. intros result. unfold summary_row. row_go.
  - apply block_concat, Forall_map, Forall_true. intros result. unfold result_sections. block_go.
Qed.
End report.

Example cells : md_row [mdCell (" a|b" +:+ nl); metricFloat (float64 3)] = "| a\|b | 3 |" +:+ nl /\
  aligned None ["| a | b |"; "| 1 |"] = false /\ aligned None ["| a | b |"; "text"] = false /\
  map markdownPathForJSON ["out/run.json"; "out.d/run"; "run.tar.json"] = ["out/run.md"; "out.d/run.md"; "run.tar.md"].
Proof. by vm_compute. Qed.
