(* ===== verification/RunnerMain.v ===== *)
(** * The report runner's command line: [main] of [cmd/local-report-runner/main.go]

    The flags and their checks, the scenarios the flags select and change, a
    run per scenario, and the artifacts.  A run of a scenario is the program of
    [RunnerRun] or [RunnerCelestia], run in place.  A fatal error, which exits
    without the deferred functions, is an error of the model.  [flag.Parse] is
    an argument that turns the defaults into the values given; commands, the
    runtime's profiles and JSON are outside, and the worker's configuration is
    only read by the activities. *)

From S2P Require Import Prelude GoStrings GoVal GoTime GoFloat GoText GoFormat ProviderDefs Util RunnerWindows RunnerMetrics RunnerMonitor RunnerCounts RunnerScrape RunnerScenario RunnerProfiles RunnerRun RunnerCelestia RunnerMarkdown.
From coqutil Require Import Datatypes.RecordSetters.
Import DoubleBraceUpdate.
From Stdlib Require Import Floats.SpecFloat.

(** ** Flags; those of the comparison and of the profiles are kept as the configurations [main] makes of them *)
Record main_flags := {
  fl_scenario : string;
  fl_outPath : string;
  fl_markdownPath : string;
  fl_keepTestnets : bool;
  fl_skipBuild : bool;
  fl_commitBenchBlocks : Z;
  fl_appProfiles : appProfileCaptureConfig;
  fl_rawTxAudit : bool;
  fl_loadWindowDrainTimeout : Z;
  fl_loadWindowMinDuration : Z;
  fl_loadWindowTargetFraction : float;
  fl_stopCatalystAfterLoadWindow : bool;
  fl_treeDBStatsSampleInterval : Z;
  fl_treeDBPostLoadDwell : Z;
  fl_cpuprofile : string;
  fl_memprofile : string;
  fl_blockprofile : string;
  fl_mutexprofile : string;
  fl_evmBlocks : Z;
  fl_evmBatches : Z;
  fl_evmMsgs : Z;
  fl_evmMsgType : string;
  fl_evmSendInterval : Z;
  fl_evmInitialWallets : Z;
  fl_evmInitialContracts : Z;
  fl_evmIterations : Z;
  fl_evmCalldataSize : Z;
  fl_evmGasFeeCap : Z;
  fl_evmGasTipCap : Z;
  fl_cosmosMsg : string;
  fl_cosmosContained : string;
  fl_cosmosMsgsPerTx : Z;
  fl_cosmosBlocks : Z;
  fl_cosmosTxs : Z;
  fl_cosmosMaxGas : Z;
  fl_cosmosRecipients : Z;
  fl_txIndexer : string;
  fl_validators : Z;
  fl_nodes : Z;
  fl_wallets : Z;
  fl_preseedProfile : string;
  fl_preseedAccounts : Z;
  fl_simappGomapVersion : string;
  fl_simappGomapRef : string;
  fl_catalyst : string;
  fl_celestia : celestiaSyncConfig
}.

Definition defaultSimappGomapVersion : string := "v0.6.2-0.20260709230517-9cd9c6874860".
Definition defaultSimappGomapRef : string := "9cd9c6874860d2988002701bef042e50ba142cd0".

(** ** Calls *)
Inductive runtime_call :=
| SetBlockProfileRate
| SetMutexProfileFraction
| CreateProfile (path : string)
| StartCPUProfile
| StopCPUProfile
| CloseProfile
| RunGC
| WriteHeapProfile
| LookupProfile (name : string)
| WriteProfile (name : string).
Definition runtime_ans (c : runtime_call) : Type :=
  match c with
  | SetBlockProfileRate | SetMutexProfileFraction | StopCPUProfile | RunGC => unit
  | CreateProfile _ | StartCPUProfile | CloseProfile | WriteHeapProfile | WriteProfile _ => res unit
  | LookupProfile _ => bool
  end.

Section calls.
Context {Cat : Catalyst}.
Inductive main_call :=
| TimeStamp                                       (* time.Now().Format("20060102-150405") *)
| TempDir
| Command (args : list string)                    (* the output and the error *)
| OfRuntime (c : runtime_call)
| ReadWorkerConfig (path : string)                (* types.ParseWorkerConfig *)
| OfDocker (sc : scenario) (c : run_call)         (* a call of the scenario's run *)
| OfComparison (sc : scenario) (c : celestia_call)
| OfFiles (c : celestia_call)                     (* main's own calls of these kinds *)
| Printed (line : string).
Definition main_ans (c : main_call) : Type :=
  match c with
  | TimeStamp | TempDir => string
  | Command _ => string * option exec_error
  | OfRuntime c => runtime_ans c
  | ReadWorkerConfig _ => res unit
  | OfDocker _ c => run_ans c
  | OfComparison _ c | OfFiles c => celestia_ans c
  | Printed _ => unit
  end.
Canonical main_sig : sig := Sig main_call main_ans.
End calls.

Section main.
Context {R : MapRange} {Cat : Catalyst} {Lit : CatalystLiterals Cat} {G : Gzip}.
Variable durationString : Z -> string.            (* Duration.String *)
Variable quote_ : string -> string.               (* %q *)
Variable format_v : float -> string.              (* %v *)
Variable hexError : string -> string.             (* hex.DecodeString's error *)
Variable Sprint : GoVal -> string.                (* fmt.Sprint *)
Variable Unmarshal : string -> res gomap.         (* toml.Unmarshal *)
Variable decode_row : string -> option (gmap string string).
Variable no_stats : OverallStats.                 (* the zero values *)
Variable no_spec : LoadTestSpec.
Variable decode_run : string -> celestiaABRunSummary + string.
Variable decode_decision : string -> option gomap.
Variable csv_ReadAll : string -> option (list (list string)).
Variable MarshalIndent : reportArtifact -> res string.         (* json.MarshalIndent *)
Variable Parse : main_flags -> main_flags.                     (* flag.Parse, over the defaults *)
Variable VisitAll : main_flags -> list (string * string).      (* flag.VisitAll: names and values *)
Variable GOOS GOARCH go_version : string.

Abbreviation MainM := (M main_sig unit).
Definition fatalf {A} (msg : string) : MainM A := throw (ENew msg).
Definition fatal_on {A} (msg : string) (r : res A) : MainM A :=
  match r with inl a => retM a | inr e => fatalf (msg +:+ ": " +:+ Error e) end.
Definition fs {A} (m : M celestia_sig unit A) : MainM A := embed (E' := main_sig) OfFiles (fun _ x => x) m.

(** ** Defaults *)
Fixpoint defaultExistingPath (candidates : list string) : MainM string :=
  match candidates with
  | [] => retM ""
  | path :: candidates' =>
      let otherwise := match candidates' with [] => retM path | _ => defaultExistingPath candidates' end in
      if String.eqb path "" then otherwise
      else
        let* st := perform (OfFiles (StatPath path) : call main_sig) in
        match (st : option bool) with Some _ => retM path | None => otherwise end
  end.

Definition defaultFastPath (name : string) : MainM string :=
  let base := "/mnt/fast4tb/tmp" in
  let* st := perform (OfFiles (StatPath base) : call main_sig) in
  match (st : option bool) with
  | Some true => retM (path_Join [base; name])
  | _ => let* tmp := perform (TempDir : call main_sig) in retM (path_Join [tmp; name])
  end.

Definition default_celestia (appDir stamp runHomeBase goCacheRoot tempDir gomapDir cosmosDBDir : string) : celestiaSyncConfig :=
  {| cs_RunnerScript := "/home/mikers/dev/snissn/gomap-human/scripts/run_celestia_ab.sh";
     cs_RunCommand := path_Join [appDir; "run_celestia.sh"];
     cs_OutputDir := path_Join ["reports"; "artifacts"; "celestia-sync"; stamp]; cs_ControlEnvFile := "";
     cs_CandidateEnvFile := ""; cs_MaxPairs := 1; cs_PairRunMode := "concurrent"; cs_RunTimeoutSeconds := 1800;
     cs_PostSyncDwellSeconds := 300; cs_RequiredAcceptedSnapshotHeight := "11758500"; cs_TrustHeight := "";
     cs_TrustHash := ""; cs_StopAtLocalHeight := ""; cs_FreezeRemoteHeightAtStart := true; cs_RunHomeBase := runHomeBase;
     cs_GoCacheRoot := goCacheRoot; cs_TempDir := tempDir; cs_CelestiaAppDir := appDir; cs_GomapDir := gomapDir;
     cs_CosmosDBDir := cosmosDBDir; cs_CometDBDir := "/home/mikers/dev/snissn/cometbft-db";
     cs_CosmosStoreDir := "/home/mikers/dev/snissn/celestia-cosmos-sdk/store";
     cs_CosmosLogDir := "/home/mikers/dev/snissn/celestia-cosmos-sdk/log";
     cs_CosmosCoreDir := "/home/mikers/dev/snissn/celestia-cosmos-sdk/core"; cs_IAVLDir := "/home/mikers/dev/snissn/iavl";
     cs_TreeDBOpenProfile := "command_wal_durable"; cs_UseLocalTreeStack := true; cs_UseLocalCosmosStore := true;
     cs_UseLocalIAVL := false; cs_DryRun := false |}.

Definition default_values (celestia : celestiaSyncConfig) : main_flags :=
  {| fl_scenario := "all"; fl_outPath := ""; fl_markdownPath := ""; fl_keepTestnets := false; fl_skipBuild := false;
     fl_commitBenchBlocks := 0;
     fl_appProfiles := {| CPUOutDir := ""; HeapOutDir := ""; PprofOutDir := ""; DiagnosticOutDir := "";
                          DiagnosticDuration := 5 * Second; ActiveWindowOutDir := ""; ActiveWindowDuration := 5 * Second;
                          DebugVars := false |};
     fl_rawTxAudit := true; fl_loadWindowDrainTimeout := 0; fl_loadWindowMinDuration := 0;
     fl_loadWindowTargetFraction := float64 1; fl_stopCatalystAfterLoadWindow := false;
     fl_treeDBStatsSampleInterval := 10 * Second; fl_treeDBPostLoadDwell := 0; fl_cpuprofile := ""; fl_memprofile := "";
     fl_blockprofile := ""; fl_mutexprofile := ""; fl_evmBlocks := 0; fl_evmBatches := 30; fl_evmMsgs := 1000;
     fl_evmMsgType := "MsgNativeTransferERC20"; fl_evmSendInterval := Second; fl_evmInitialWallets := 0;
     fl_evmInitialContracts := 5; fl_evmIterations := 0; fl_evmCalldataSize := 0; fl_evmGasFeeCap := 100000000000;
     fl_evmGasTipCap := 100000000000; fl_cosmosMsg := "MsgSend"; fl_cosmosContained := "MsgSend"; fl_cosmosMsgsPerTx := 10;
     fl_cosmosBlocks := 50; fl_cosmosTxs := 200; fl_cosmosMaxGas := 75000000; fl_cosmosRecipients := 20; fl_txIndexer := "kv";
     fl_validators := 1; fl_nodes := 1; fl_wallets := 5000; fl_preseedProfile := "none"; fl_preseedAccounts := 0;
     fl_simappGomapVersion := defaultSimappGomapVersion; fl_simappGomapRef := defaultSimappGomapRef; fl_catalyst := "";
     fl_celestia := celestia |}.

Definition default_flags : MainM main_flags :=
  let* appDir := defaultExistingPath
    ["/home/mikers/dev/snissn/celestia-app-3128-mainnet"; "/home/mikers/dev/snissn/celestia-app-native-iavl-harness"] in
  let* stamp := perform (TimeStamp : call main_sig) in
  let* runHomeBase := defaultFastPath "ironbird-celestia-runs" in
  let* goCacheRoot := defaultFastPath "ironbird-go-cache" in
  let* tempDir := defaultFastPath "tmp" in
  let* gomapDir := defaultExistingPath ["/mnt/fast4tb/worktrees/gomap-ironbird-wal-sync"; "/home/mikers/dev/snissn/gomap"] in
  let* cosmosDBDir := defaultExistingPath
    ["/mnt/fast4tb/worktrees/cosmos-db-ironbird-wal-sync"; "/home/mikers/dev/snissn/cosmos-db"] in
  retM (default_values (default_celestia appDir stamp runHomeBase goCacheRoot tempDir gomapDir cosmosDBDir)).

(** ** Checks; the message that ends the command *)
Definition check_flags (fl : main_flags) : option string :=
  let profiles := fl_appProfiles fl in
  if negb (String.eqb (fl_txIndexer fl) "kv") && negb (String.eqb (fl_txIndexer fl) "null") then
    Some ("-tx-indexer must be kv or null, got " +:+ quote_ (fl_txIndexer fl))
  else if fle (fl_loadWindowTargetFraction fl) fzero || flt (float64 1) (fl_loadWindowTargetFraction fl) then
    Some ("-load-window-target-fraction must be > 0 and <= 1, got " +:+ format_v (fl_loadWindowTargetFraction fl))
  else if nonempty (DiagnosticOutDir profiles) && (DiagnosticDuration profiles <=? 0) then
    Some ("-app-diagnostic-profile-duration must be > 0 when -app-diagnostic-profile-dir is set, got " +:+
          durationString (DiagnosticDuration profiles))
  else if nonempty (ActiveWindowOutDir profiles) && (ActiveWindowDuration profiles <=? 0) then
    Some ("-app-active-window-profile-duration must be > 0 when -app-active-window-profile-dir is set, got " +:+
          durationString (ActiveWindowDuration profiles))
  else if fl_treeDBStatsSampleInterval fl <=? 0 then
    Some ("-treedb-stats-sample-interval must be > 0, got " +:+ durationString (fl_treeDBStatsSampleInterval fl))
  else if fl_treeDBPostLoadDwell fl <? 0 then
    Some ("-treedb-post-load-dwell must be >= 0, got " +:+ durationString (fl_treeDBPostLoadDwell fl))
  else None.

(** ** The scenarios *)
Definition workload_of (fl : main_flags) (preseed : preseedConfig) : workload :=
  {| wl_validators := fl_validators fl; wl_nodes := fl_nodes fl; wl_wallets := fl_wallets fl; wl_preseed := preseed;
     wl_blocks := fl_cosmosBlocks fl; wl_txs := fl_cosmosTxs fl; wl_cosmosMsg := fl_cosmosMsg fl;
     wl_containedMsg := fl_cosmosContained fl; wl_msgsPerTx := fl_cosmosMsgsPerTx fl; wl_recipients := fl_cosmosRecipients fl;
     wl_maxGas := fl_cosmosMaxGas fl; wl_catalyst := fl_catalyst fl |}.

Definition allScenarios (fl : main_flags) (preseed : preseedConfig) (gomapPin : simappGomapModulePin)
    (celestiaConfig : celestiaSyncConfig) : list scenario :=
  let w := workload_of fl preseed in
  [evmBlogScenario (fl_validators fl) (fl_nodes fl) (fl_wallets fl) (fl_evmBlocks fl) (fl_evmBatches fl) (fl_evmMsgs fl)
     (fl_evmMsgType fl) (fl_evmSendInterval fl) (fl_evmInitialWallets fl) (fl_evmInitialContracts fl) (fl_evmIterations fl)
     (fl_evmCalldataSize fl) (fl_evmGasFeeCap fl) (fl_evmGasTipCap fl) (fl_catalyst fl);
   simappScenario "simapp-goleveldb" "SDK simapp with goleveldb app state" "goleveldb" w gomapPin;
   simappScenario "simapp-treedb" "SDK simapp with TreeDB app state" "treedb" w gomapPin;
   simappFullStackScenario "simapp-goleveldb-all" "SDK simapp with goleveldb app state and CometBFT node DBs" "goleveldb"
     (fl_txIndexer fl) w gomapPin;
   simappFullStackScenario "simapp-treedb-all" "SDK simapp with TreeDB app state and CometBFT node DBs" "treedb"
     (fl_txIndexer fl) w gomapPin;
   celestiaSyncScenario no_spec celestiaConfig].

Definition with_profiles (profiles : appProfileCaptureConfig) (sc : scenario) : scenario :=
  let sc := if nonempty (CPUOutDir profiles) then withAppCPUProfile sc else sc in
  let sc := if needsPprof profiles then withAppHeapProfile sc else sc in
  if needsDiagnosticProfileFlags profiles then withAppDiagnosticProfileFlags sc else sc.

Definition options_of (fl : main_flags) : run_options :=
  {| op_skipBuild := fl_skipBuild fl; op_keep := fl_keepTestnets fl; op_commitBenchBlocks := fl_commitBenchBlocks fl;
     op_appProfiles := fl_appProfiles fl; op_rawTxAudit := fl_rawTxAudit fl;
     op_loadWindowDrainTimeout := fl_loadWindowDrainTimeout fl; op_loadWindowMinDuration := fl_loadWindowMinDuration fl;
     op_loadWindowTargetFraction := fl_loadWindowTargetFraction fl;
     op_stopCatalystAfterLoadWindow := fl_stopCatalystAfterLoadWindow fl;
     op_treeDBStatsSampleInterval := fl_treeDBStatsSampleInterval fl; op_treeDBPostLoadDwell := fl_treeDBPostLoadDwell fl |}.

(** ** The runtime's profiles *)
Definition create (what path : string) : MainM unit :=
  let* r := perform (OfRuntime (CreateProfile path) : call main_sig) in fatal_on ("create " +:+ what +:+ " profile") r.
Definition close (what : string) : MainM unit :=
  let* r := perform (OfRuntime CloseProfile : call main_sig) in fatal_on ("close " +:+ what +:+ " profile") r.
(** [_ = f.Close()] and the fatal error. *)
Definition close_and_fail {A} (msg : string) : MainM A :=
  let* _ := perform (OfRuntime CloseProfile : call main_sig) in fatalf msg.

Definition write_profile (path name : string) : MainM unit :=
  if String.eqb path "" then retM tt
  else
    let* _ := create name path in
    let* found := perform (OfRuntime (LookupProfile name) : call main_sig) in
    if negb found then close_and_fail ("lookup " +:+ name +:+ " profile: not found")
    else
      let* r := perform (OfRuntime (WriteProfile name) : call main_sig) in
      match (r : res unit) with
      | inr e => close_and_fail ("write " +:+ name +:+ " profile: " +:+ Error e)
      | inl _ => close name
      end.
Definition writeRuntimeProfiles (heapPath blockPath mutexPath : string) : MainM unit :=
  let* _ := (if String.eqb heapPath "" then retM tt
    else
      let* _ := create "heap" heapPath in
      let* _ := perform (OfRuntime RunGC : call main_sig) in
      let* r := perform (OfRuntime WriteHeapProfile : call main_sig) in
      match (r : res unit) with
      | inr e => close_and_fail ("write heap profile: " +:+ Error e)
      | inl _ => close "heap"
      end) in
  let* _ := write_profile blockPath "block" in
  write_profile mutexPath "mutex".

(** The profiles are started; the result is what stops them. *)
Definition startRuntimeProfiles (cpuPath heapPath blockPath mutexPath : string) : MainM (MainM unit) :=
  let* _ := (if String.eqb blockPath "" then retM tt else perform (OfRuntime SetBlockProfileRate : call main_sig)) in
  let* _ := (if String.eqb mutexPath "" then retM tt else perform (OfRuntime SetMutexProfileFraction : call main_sig)) in
  if String.eqb cpuPath "" then retM (writeRuntimeProfiles heapPath blockPath mutexPath)
  else
    let* _ := create "CPU" cpuPath in
    let* r := perform (OfRuntime StartCPUProfile : call main_sig) in
    match (r : res unit) with
    | inr e => close_and_fail ("start CPU profile: " +:+ Error e)
    | inl _ =>
        retM (let* _ := perform (OfRuntime StopCPUProfile : call main_sig) in
              let* _ := perform (OfRuntime CloseProfile : call main_sig) in
              writeRuntimeProfiles heapPath blockPath mutexPath)
    end.

(** [defer f()] in a command: [os.Exit] runs no deferred function. *)
Definition main_defer (f m : MainM unit) : MainM unit := fun s =>
  prog_bind (m s) (fun '(s', o) => match o with Err _ => Ret (s', o) | _ => bindM f (fun _ => lift_outcome o) s' end).

(** ** Metadata *)
Definition commandString (args : list string) : MainM string :=
  let* '(out, err) := perform (Command args : call main_sig) in
  retM (match err with Some e => if String.eqb out "" then exec_message e else TrimSpace out | None => TrimSpace out end).
Definition commandStringSlice (cmd : list string) : MainM string :=
  match cmd with [] => retM "" | _ => commandString cmd end.
Fixpoint command_metadata (commands : list (string * list string)) (meta : gmap string string) : MainM (gmap string string) :=
  match commands with
  | [] => retM meta
  | (key, cmd) :: commands' => let* text := commandStringSlice cmd in command_metadata commands' (<[key := text]> meta)
  end.
Definition host_commands : gmap string (list string) :=
  list_to_map
    [("uname", ["uname"; "-a"]); ("docker_version", ["docker"; "--version"]);
     ("lscpu_model", ["sh"; "-c"; "lscpu | sed -n 's/^Model name:[[:space:]]*//p' | head -1"]); ("cpu_count", ["sh"; "-c"; "nproc"]);
     ("memory", ["sh"; "-c"; "free -h | sed -n '2p'"]); ("root_disk", ["sh"; "-c"; "df -h / | tail -1"]);
     ("fast4tb_disk", ["sh"; "-c"; "df -h /mnt/fast4tb 2>/dev/null | tail -1 || true"])].
Definition hostMetadata : MainM (gmap string string) :=
  command_metadata (range_map host_commands) (put_all [("goos", GOOS); ("goarch", GOARCH); ("go_version", go_version)] ∅).
Definition git_commands : gmap string (list string) :=
  list_to_map
    [("branch", ["git"; "branch"; "--show-current"]); ("head", ["git"; "rev-parse"; "HEAD"]); ("status", ["git"; "status"; "--short"])].
Definition gitMetadata : MainM (gmap string string) := command_metadata (range_map git_commands) ∅.
Definition flagMetadata (fl : main_flags) : gmap string string := put_all (VisitAll fl) ∅.

(** ** The runs *)

(** A comparison's result as a run's. *)
Definition comparison_result (r : celestia_run) : run_result :=
  (new_result no_stats) {{ run_StartedAt := cr_StartedAt r; run_FinishedAt := cr_FinishedAt r; run_WallSeconds := cr_WallSeconds r;
                           run_ProviderName := cr_ProviderName r; run_PhaseTimeline := cr_PhaseTimeline r; run_Error := cr_Error r }}.

Definition is_comparison (sc : scenario) : bool := String.eqb (sc_Runner sc) "celestia-sync-ab".

Definition run_one (fl : main_flags) (sc : scenario) : MainM artifact_result :=
  if is_comparison sc then
    let* r := embed (E' := main_sig) (OfComparison sc) (fun _ x => x)
                (runCelestiaSyncScenario decode_run decode_decision csv_ReadAll (sc_CelestiaSync sc)) in
    retM {| ar_Scenario := sc; ar_Run := comparison_result r; ar_CelestiaSync := cr_CelestiaSync r |}
  else
    let* r := embed (E' := main_sig) (OfDocker sc) (fun _ x => x)
                (run_scenario durationString quote_ Sprint Unmarshal decode_row no_stats sc (options_of fl)) in
    retM {| ar_Scenario := sc; ar_Run := r; ar_CelestiaSync := None |}.

(** The loop over the scenarios, with the artifact's errors. *)
Fixpoint run_selected (fl : main_flags) (scenarios : list scenario) : MainM (list artifact_result) :=
  match scenarios with
  | [] => retM []
  | sc :: scenarios' =>
      let* result := run_one fl (with_profiles (fl_appProfiles fl) sc) in
      let* results := run_selected fl scenarios' in
      retM (result :: results)
  end.
Definition errors_of (results : list artifact_result) : gmap string string :=
  foldl (fun errors result =>
    if nonempty (run_Error (ar_Run result)) then <[sc_Name (ar_Scenario result) := run_Error (ar_Run result)]> errors else errors)
    ∅ results.

(** ** The artifacts *)
Definition markdown_path (fl : main_flags) (outPath : string) : string :=
  if String.eqb (fl_markdownPath fl) "" then markdownPathForJSON outPath else fl_markdownPath fl.

Definition write_artifacts (fl : main_flags) (outPath : string) (artifact : reportArtifact) : MainM unit :=
  let* r := fs (perform (MakeDirs (Dir outPath) : call celestia_sig)) in
  let* _ := fatal_on "create artifact dir" r in
  let* body := fatal_on "marshal artifact" (MarshalIndent artifact) in
  let* r := fs (perform (WritePath outPath (body +:+ nl) : call celestia_sig)) in
  let* _ := fatal_on "write artifact" r in
  let* _ := perform (Printed ("wrote " +:+ outPath) : call main_sig) in
  let path := markdown_path fl outPath in
  let* r := fs (perform (MakeDirs (Dir path) : call celestia_sig)) in
  let* _ := fatal_on "create markdown artifact dir" r in
  let* r := fs (perform (WritePath path (renderReportMarkdown artifact) : call celestia_sig)) in
  let* _ := fatal_on "write markdown artifact" r in
  perform (Printed ("wrote " +:+ path) : call main_sig).

(** ** The command *)

(** After the flags' own checks: what they configure, fatal errors included. *)
Definition configure (fl : main_flags) : res (simappGomapModulePin * preseedConfig) :=
  match newSimappGomapPin quote_ hexError (fl_simappGomapVersion fl) (fl_simappGomapRef fl) with
  | inr msg => inr (ENew ("invalid simapp gomap pin: " +:+ msg))
  | inl gomapPin =>
      match makePreseedConfig quote_ (fl_preseedProfile fl) (fl_preseedAccounts fl) (fl_wallets fl) with
      | inr msg => inr (ENew msg)
      | inl preseed => inl (gomapPin, preseed)
      end
  end.

Definition run_report (fl : main_flags) (gomapPin : simappGomapModulePin) (preseed : preseedConfig)
    (celestiaConfig : celestiaSyncConfig) : MainM unit :=
  let* outPath := (if String.eqb (fl_outPath fl) "" then
      let* stamp := perform (TimeStamp : call main_sig) in
      retM (path_Join ["reports"; "artifacts"; "ironbird-local-run-" +:+ stamp +:+ ".json"])
    else retM (fl_outPath fl)) in
  let* generated := fs (perform (WallClock : call celestia_sig)) in
  let* host := hostMetadata in
  let* git := gitMetadata in
  match selectScenarios (allScenarios fl preseed gomapPin celestiaConfig) (fl_scenario fl) with
  | None => fatalf ("unknown scenario " +:+ quote_ (fl_scenario fl))
  | Some selected =>
      let* _ := (if needsWorkerConfig selected then
          let* r := perform (ReadWorkerConfig "conf/worker.yaml" : call main_sig) in fatal_on "parse worker config" r
        else retM tt) in
      let* results := run_selected fl selected in
      write_artifacts fl outPath
        {| ra_GeneratedAt := generated; ra_Host := host; ra_Git := git; ra_Flags := flagMetadata (fl {{ fl_outPath := outPath }}); ra_Results := results;
           ra_Errors := errors_of results |}
  end.

Definition main : MainM unit :=
  let* defaults := default_flags in
  let fl := Parse defaults in
  match check_flags fl with
  | Some msg => fatalf msg
  | None =>
      let* '(gomapPin, preseed) := lift_res (configure fl) in
      let* celestiaConfig := fs (normalizeCelestiaConfig (fl_celestia fl)) in
      let* stopRuntimeProfiles := startRuntimeProfiles (fl_cpuprofile fl) (fl_memprofile fl) (fl_blockprofile fl) (fl_mutexprofile fl) in
      main_defer stopRuntimeProfiles (run_report fl gomapPin preseed celestiaConfig)
  end.
End main.

(** ** A run of the command *)

(** A program run in place, with the trace it has of its own. *)
Section embedded.
Context {E E' : sig} (f : call E -> call E') (put_ans : forall c, ans E c -> ans E' (f c)) (g : forall c, ans E' (f c) -> ans E c).
Hypothesis put_g : forall c x, put_ans c (g c x) = x.

Definition lift_event (e : event E) : event E' := existT (f (projT1 e)) (put_ans (projT1 e) (projT2 e)).

Lemma wp_embed_trace {A} (p : prog E A) (Q : list (event E) -> A -> Prop) t u :
  wp p Q u -> wp (prog_embed f g p) (fun t' a => exists l, t' = t ++ map lift_event l /\ Q (u ++ l) a) t.
Proof.
  revert t u. induction p as [a|c k IH]; intros t u Hp; cbn in *.
  - exists []. by rewrite !app_nil_r.
  - intros x. eapply wp_mono; [|apply (IH _ (t ++ [ev (f c) x])), Hp]. intros t' a (l & -> & HQ).
    exists (ev c (g c x) :: l). rewrite <- !app_assoc in *. split; [|done]. cbn [map app]. do 2 f_equal.
    unfold lift_event. cbn. by rewrite put_g.
Qed.

Lemma wpM_embed_trace {S A} (m : M E S A) s (Q : list (event E) -> S -> outcome A -> Prop) t :
  wpM m s Q [] -> wpM (embed f g m) s (fun t' s' o => exists l, t' = t ++ map lift_event l /\ Q l s' o) t.
Proof. intros Hm. exact (wp_embed_trace (m s) (fun l r => Q l r.1 r.2) t [] Hm). Qed.
End embedded.

Section command.
Context {R : MapRange} {Cat : Catalyst} {Lit : CatalystLiterals Cat} {G : Gzip}.
Variable durationString : Z -> string.
Variable quote_ : string -> string.
Variable format_v : float -> string.
Variable hexError : string -> string.
Variable Sprint : GoVal -> string.
Variable Unmarshal : string -> res gomap.
Variable decode_row : string -> option (gmap string string).
Variable no_stats : OverallStats.
Variable no_spec : LoadTestSpec.
Variable decode_run : string -> celestiaABRunSummary + string.
Variable decode_decision : string -> option gomap.
Variable csv_ReadAll : string -> option (list (list string)).
Variable MarshalIndent : reportArtifact -> res string.
Variable Parse : main_flags -> main_flags.
Variable VisitAll : main_flags -> list (string * string).
Variable GOOS GOARCH go_version : string.
Abbreviation main_event := (event main_sig).
Abbreviation MainM := (M main_sig unit).
#[local] Abbreviation one := (run_one durationString quote_ Sprint Unmarshal decode_row no_stats decode_run decode_decision csv_ReadAll).
#[local] Abbreviation selected_runs :=
  (run_selected durationString quote_ Sprint Unmarshal decode_row no_stats decode_run decode_decision csv_ReadAll).

(** A call that belongs to no scenario's run. *)
Definition setup (e : main_event) : Prop := match projT1 e with OfDocker _ _ | OfComparison _ _ => False | _ => True end.

Definition docker_event (sc : scenario) : event run_sig -> main_event := lift_event (OfDocker sc) (fun _ x => x).
Definition comparison_event (sc : scenario) : event celestia_sig -> main_event := lift_event (OfComparison sc) (fun _ x => x).

(** The run of one scenario: its calls, and the result with what is promised of it. *)
Definition ran_one (fl : main_flags) (sc : scenario) (result : artifact_result) (t : list main_event) : Prop :=
  ar_Scenario result = sc /\
  if is_comparison sc then
    exists r l, t = map (comparison_event sc) l /\ comparison (sc_CelestiaSync sc) l r /\
      ar_Run result = comparison_result no_stats r /\ ar_CelestiaSync result = cr_CelestiaSync r
  else
    exists l, t = map (docker_event sc) l /\ books_closed (options_of fl) (ledger_of l) /\ ar_CelestiaSync result = None /\
      (run_Error (ar_Run result) = "" ->
       lg_panicked (ledger_of l) = Some "" \/ succeeded sc (options_of fl) (ledger_of l) (ar_Run result)).

(** The scenarios one after the other, each with its own result. *)
Inductive ran (fl : main_flags) : list scenario -> list artifact_result -> list main_event -> Prop :=
| ran_none : ran fl [] [] []
| ran_next sc scs result results t t' :
    ran_one fl sc result t -> ran fl scs results t' -> ran fl (sc :: scs) (result :: results) (t ++ t').

Lemma run_one_run fl sc t :
  wpM (one fl sc) tt (fun t' _ o => exists result l, o = Ok result /\ t' = t ++ l /\ ran_one fl sc result l) t.
Proof.
  unfold run_one, ran_one. destruct (is_comparison sc).
  - apply wpM_bind. eapply wpM_mono; [|apply (wpM_embed_trace (E' := main_sig) (OfComparison sc) (fun _ x => x) (fun _ x => x) (fun _ _ => eq_refl)), celestia_scenario_run].
    intros t' [] o (l & -> & r & -> & Hr). apply wpM_ret. eexists _, _. split_and!; [done|done|done|]. by exists r, l.
  - apply wpM_bind. eapply wpM_mono; [|apply (wpM_embed_trace (E' := main_sig) (OfDocker sc) (fun _ x => x) (fun _ x => x) (fun _ _ => eq_refl)), run_scenario_run].
    intros t' [] o (l & -> & r & -> & Hb & Hr). apply wpM_ret. eexists _, _. split_and!; [done|done|done|]. by exists l.
Qed.

Lemma run_selected_run fl scs t :
  wpM (selected_runs fl scs) tt (fun t' _ o =>
    exists results l, o = Ok results /\ t' = t ++ l /\ ran fl (map (with_profiles (fl_appProfiles fl)) scs) results l) t.
Proof.
  revert t. induction scs as [|sc scs IH]; intros t; cbn [run_selected].
  - apply wpM_ret. exists [], []. rewrite app_nil_r. split_and!; [done|done|constructor].
  - apply wpM_bind. eapply wpM_mono; [|apply run_one_run]. intros t1 [] o (result & l & -> & -> & Hone).
    apply wpM_bind. eapply wpM_mono; [|apply IH]. intros t2 [] o (results & l' & -> & -> & Hran).
    apply wpM_ret. exists (result :: results), (l ++ l'). split_and!; [done|by rewrite app_assoc|by constructor].
Qed.

(** *** The rest of the command makes no call of a run *)
#[local] Abbreviation quiet strict := (calm strict setup (@eq unit)).

Lemma quiet_perform strict (c : main_call) :
  match c with OfDocker _ _ | OfComparison _ _ => False | _ => True end -> quiet strict (perform (c : call main_sig)).
Proof. intros Hc. apply calm_perform; [apply _|]. by intros x. Qed.
Lemma quiet_ret {A} strict (x : A) : quiet strict (retM x).
Proof. apply calm_ret, _. Qed.
Lemma quiet_bind {A B} strict (m : MainM A) (f : A -> MainM B) : quiet strict m -> (forall x, quiet strict (f x)) -> quiet strict (bindM m f).
Proof. apply calm_bind, _. Qed.
Lemma quiet_fatalf {A} msg : quiet false (fatalf (A := A) msg).
Proof. apply calm_throw, _. Qed.
Lemma quiet_fatal_on {A} msg (r : res A) : quiet false (fatal_on msg r).
Proof. destruct r; [apply quiet_ret|apply quiet_fatalf]. Qed.

Ltac quiet_step :=
  match goal with
  | |- quiet _ (bindM _ _) => apply quiet_bind; [|intros ?]
  | |- quiet _ (retM _) => apply quiet_ret
  | |- quiet _ (perform _) => apply quiet_perform; exact I
  | |- quiet false (fatalf _) => apply quiet_fatalf
  | |- quiet false (fatal_on _ _) => apply quiet_fatal_on
  | |- quiet _ (match ?x with _ => _ end) => destruct x
  end.
Ltac quiet_go := repeat (cbn beta iota zeta; quiet_step).

Lemma quiet_files {A} strict (m : M celestia_sig unit A) : calm strict (fun _ => True) eq m -> quiet strict (fs m).
Proof.
  intros Hm s t. unfold fs. eapply wpM_mono; [|apply (wpM_embed_trace (E' := main_sig) OfFiles (fun _ x => x) (fun _ x => x) (fun _ _ => eq_refl)), Hm].
  intros t' s' o (l & -> & Ho & Hs & _). split_and!; [done|done|]. exists (map (lift_event OfFiles (fun _ x => x)) l).
  split; [done|]. apply Forall_map, Forall_true. by intros [c x].
Qed.

Lemma quiet_default_flags : quiet true default_flags.
Proof.
  assert (forall l, quiet true (defaultExistingPath l)) as Hex.
  { induction l as [|path l IH]; cbn [defaultExistingPath]; quiet_go; exact IH. }
  assert (forall name, quiet true (defaultFastPath name)) as Hfast by (intros name; unfold defaultFastPath; quiet_go).
  unfold default_flags. quiet_go; auto.
Qed.

Lemma quiet_normalize cfg : quiet true (fs (normalizeCelestiaConfig cfg)).
Proof.
  apply quiet_files. unfold normalizeCelestiaConfig.
  assert (forall path, calm true (fun _ => True) eq (absPathIfRelative (S := unit) path)) as Hp.
  { intros path. unfold absPathIfRelative. calm_go. done. }
  repeat (apply calm_bind; [apply _|apply Hp|intros ?]). apply calm_ret, _.
Qed.

Lemma quiet_metadata commands meta : quiet true (command_metadata commands meta).
Proof.
  revert meta. induction commands as [|[key cmd] commands IH]; intros meta; cbn [command_metadata]; [apply quiet_ret|].
  unfold commandStringSlice, commandString. quiet_go; apply IH.
Qed.

Lemma quiet_write heap block mutex : quiet false (writeRuntimeProfiles heap block mutex).
Proof. unfold writeRuntimeProfiles, write_profile, create, close, close_and_fail. quiet_go. Qed.

Lemma quiet_start cpu heap block mutex : quiet false (startRuntimeProfiles cpu heap block mutex).
Proof. unfold startRuntimeProfiles, create, close_and_fail. quiet_go. Qed.

(** What starting the profiles returns only stops them. *)
Lemma start_yields cpu heap block mutex : yields (fun stop => quiet false stop) (startRuntimeProfiles cpu heap block mutex).
Proof.
  unfold startRuntimeProfiles. do 2 (apply yields_bind; intros _). destruct (String.eqb cpu ""); [apply yields_ret, quiet_write|].
  apply yields_bind; intros _. apply yields_bind; intros [[]|e].
  - apply yields_ret. quiet_step; [quiet_go|]. quiet_step; [quiet_go|]. apply quiet_write.
  - apply yields_bind; intros ?. apply yields_throw.
Qed.

(** *** The artifact's errors *)
Lemma errors_of_lookup results (name msg : string) :
  NoDup (map (fun result => sc_Name (ar_Scenario result)) results) ->
  errors_of results !! name = Some msg <->
  exists result, result ∈ results /\ sc_Name (ar_Scenario result) = name /\ run_Error (ar_Run result) = msg /\ msg <> "".
Proof.
  unfold errors_of. intros Hd.
  assert (forall errors : gmap string string, (forall result, result ∈ results -> errors !! sc_Name (ar_Scenario result) = None) ->
    foldl (fun errors result => if nonempty (run_Error (ar_Run result))
      then <[sc_Name (ar_Scenario result) := run_Error (ar_Run result)]> errors else errors) errors results !! name = Some msg <->
    errors !! name = Some msg \/
    exists result, result ∈ results /\ sc_Name (ar_Scenario result) = name /\ run_Error (ar_Run result) = msg /\ msg <> "") as H.
  2: { rewrite H by (intros; apply lookup_empty). rewrite lookup_empty. naive_solver. }
  induction results as [|result results IH]; intros errors He; cbn [foldl]; [set_solver|].
  cbn [map] in Hd. apply NoDup_cons in Hd as [Hnew Hd].
  assert (forall r, r ∈ results -> sc_Name (ar_Scenario r) <> sc_Name (ar_Scenario result)) as Hne.
  { intros r Hr Heq. apply Hnew. rewrite <- Heq. by apply (list_elem_of_fmap_2 (fun r => sc_Name (ar_Scenario r))). }
  rewrite IH; [|done|].
  - unfold nonempty. destruct (String.eqb_spec (run_Error (ar_Run result)) "") as [H0|H0]; cbn [negb].
    + set_solver.
    + rewrite lookup_insert_Some. specialize (He result). set_solver.
  - intros r Hr. destruct (nonempty _); [rewrite lookup_insert_ne by (symmetry; by apply Hne)|]; apply He; set_solver.
Qed.

(** *** The scenarios' names *)
Lemma with_profiles_name profiles sc : sc_Name (with_profiles profiles sc) = sc_Name sc.
Proof.
  unfold with_profiles, withAppCPUProfile, withAppHeapProfile, withAppDiagnosticProfileFlags.
  repeat match goal with |- context [if ?b then _ else _] => destruct b end; done.
Qed.
Lemma ran_names fl scs results t : ran fl scs results t -> map (fun result => sc_Name (ar_Scenario result)) results = map sc_Name scs.
Proof. induction 1 as [|sc scs result results t t' [<- _] _ IH]; [done|]. cbn [map]. by rewrite IH. Qed.
Lemma selected_names fl preseed pin cfg selected :
  selectScenarios (allScenarios no_spec fl preseed pin cfg) (fl_scenario fl) = Some selected -> NoDup (map sc_Name selected).
Proof.
  set (all := allScenarios no_spec fl preseed pin cfg).
  assert (Hall : map sc_Name all = ["evm-blog"; "simapp-goleveldb"; "simapp-treedb"; "simapp-goleveldb-all"; "simapp-treedb-all"; "celestia-sync-ab"]).
  { unfold all, allScenarios, evmBlogScenario. by destruct (0 <? fl_evmBlocks fl). }
  assert (Hnd : NoDup (map sc_Name all)) by (rewrite Hall; apply (bool_decide_unpack _); vm_compute; exact I).
  clearbody all. unfold selectScenarios. destruct (String.eqb _ "all"); [|destruct (String.eqb _ _)].
  - intros [= <-]. clear Hall. induction all as [|sc all IH]; [done|]. cbn [map] in Hnd. apply NoDup_cons in Hnd as [Hn Hnd].
    cbn [List.filter]. destruct (sc_IncludeInAll sc); [|by apply IH]. cbn [map]. apply NoDup_cons. split; [|by apply IH].
    intros Hin. apply Hn. apply list_elem_of_fmap in Hin as (sc' & -> & Hin). apply list_elem_of_In, filter_In in Hin as [Hin _].
    apply list_elem_of_fmap_2. by apply list_elem_of_In.
  - by intros [= <-].
  - destruct (List.find _ all); [|done]. intros [= <-]. apply NoDup_singleton.
Qed.

(** *** The command *)
#[local] Abbreviation main_ := (main durationString quote_ format_v hexError Sprint Unmarshal decode_row no_stats no_spec decode_run
  decode_decision csv_ReadAll MarshalIndent Parse VisitAll GOOS GOARCH go_version).
#[local] Abbreviation report := (run_report durationString quote_ Sprint Unmarshal decode_row no_stats no_spec decode_run
  decode_decision csv_ReadAll MarshalIndent VisitAll GOOS GOARCH go_version).
Abbreviation file c x := (ev (E := main_sig) (OfFiles c) x).

(** The flags were accepted and select these scenarios. *)
Definition configured (fl : main_flags) (selected : list scenario) : Prop :=
  check_flags durationString quote_ format_v fl = None /\
  exists gomapPin preseed celestiaConfig, configure quote_ hexError fl = inl (gomapPin, preseed) /\
    selectScenarios (allScenarios no_spec fl preseed gomapPin celestiaConfig) (fl_scenario fl) = Some selected.

(** Both artifacts were written, from all the results and with the error of each that failed. *)
Definition reported (fl : main_flags) (results : list artifact_result) (t : list main_event) : Prop :=
  exists artifact body outPath,
    ra_Results artifact = results /\
    (forall name msg, ra_Errors artifact !! name = Some msg <->
       exists result, result ∈ results /\ sc_Name (ar_Scenario result) = name /\ run_Error (ar_Run result) = msg /\ msg <> "") /\
    (fl_outPath fl <> "" -> outPath = fl_outPath fl) /\ MarshalIndent artifact = inl body /\
    file (WritePath outPath (body +:+ nl)) (inl tt) ∈ t /\
    file (WritePath (markdown_path fl outPath) (renderReportMarkdown artifact)) (inl tt) ∈ t.

Lemma files_perform (c : celestia_call) t (Q : list main_event -> unit -> outcome (celestia_ans c) -> Prop) :
  (forall x, Q (t ++ [file c x]) tt (Ok x)) -> wpM (fs (perform (c : call celestia_sig))) tt Q t.
Proof. intros HQ x. apply HQ. Qed.

Lemma fatal_on_run {A} msg (r : res A) t (Q : list main_event -> unit -> outcome A -> Prop) :
  (forall a, r = inl a -> Q t tt (Ok a)) -> (forall e, Q t tt (Err e)) -> wpM (fatal_on msg r) tt Q t.
Proof. intros Ha He. destruct r as [a|e]; [by apply wpM_ret, Ha|apply wpM_lift, He]. Qed.

Lemma write_artifacts_run fl outPath artifact t :
  wpM (write_artifacts MarshalIndent fl outPath artifact) tt (fun t' _ o =>
    exists l, t' = t ++ l /\ Forall setup l /\
    match o with
    | Ok _ => exists body, MarshalIndent artifact = inl body /\ file (WritePath outPath (body +:+ nl)) (inl tt) ∈ l /\
        file (WritePath (markdown_path fl outPath) (renderReportMarkdown artifact)) (inl tt) ∈ l
    | Err _ => True
    | _ => False
    end) t.
Proof.
  unfold write_artifacts. apply wpM_bind, files_perform. intros r. apply wpM_bind, fatal_on_run.
  2: { intros e. eexists. by split_and!; [|repeat constructor|]. }
  intros _ _. apply wpM_bind, fatal_on_run. 2: { intros e. eexists. by split_and!; [|repeat constructor|]. }
  intros body Hbody. apply wpM_bind, files_perform. intros r2. apply wpM_bind, fatal_on_run.
  2: { intros e. eexists. rewrite <- app_assoc. by split_and!; [|repeat constructor|]. }
  intros [] ->. apply wpM_bind. intros []. apply wpM_bind, files_perform. intros r3. apply wpM_bind, fatal_on_run.
  2: { intros e. eexists. rewrite <- !app_assoc. by split_and!; [|repeat constructor|]. }
  intros _ _. apply wpM_bind, files_perform. intros r4. apply wpM_bind, fatal_on_run.
  2: { intros e. eexists. rewrite <- !app_assoc. by split_and!; [|repeat constructor|]. }
  intros [] ->. intros []. eexists. rewrite <- !app_assoc. split_and!; [done|by repeat constructor|].
  exists body. split_and!; [done|..]; rewrite !elem_of_app, !list_elem_of_singleton; auto 10.
Qed.

(** A command's trace: its setup, the runs, and what comes after them. *)
Definition told (fl : main_flags) (selection : option (list scenario)) (o : outcome unit) (t : list main_event) : Prop :=
  exists before middle after, t = before ++ middle ++ after /\ Forall setup (before ++ after) /\
    ((middle = [] /\ exists e, o = Err e) \/
     exists selected results, selection = Some selected /\ ran fl (map (with_profiles (fl_appProfiles fl)) selected) results middle /\
       match o with Ok _ => reported fl results after | Err _ => True | _ => False end).

Lemma told_before fl selection o l t : Forall setup l -> told fl selection o t -> told fl selection o (l ++ t).
Proof.
  intros Hl (before & middle & after & -> & Hs & H). exists (l ++ before), middle, after.
  rewrite <- !app_assoc. split_and!; [done|by rewrite Forall_app|done].
Qed.
Lemma told_fatal fl selection e t : Forall setup t -> told fl selection (Err e) t.
Proof. intros Ht. exists t, [], []. rewrite !app_nil_r. split_and!; [done|done|]. left. eauto. Qed.
Lemma reported_after fl results t l : reported fl results t -> reported fl results (t ++ l).
Proof.
  intros (artifact & body & outPath & ? & ? & ? & ? & ? & ?). exists artifact, body, outPath. rewrite !elem_of_app. by split_and!; auto.
Qed.
Lemma told_after fl selection t l o : Forall setup l -> told fl selection (Ok tt) t ->
  o = Ok tt \/ (exists e, o = Err e) -> told fl selection o (t ++ l).
Proof.
  intros Hl (before & middle & after & -> & Hs & [[_ [e He]]|(selected & results & Hsel & Hran & Hrep)]) Ho; [done|].
  exists before, middle, (after ++ l). rewrite <- !app_assoc. split_and!; [done|by rewrite app_assoc, Forall_app|].
  right. exists selected, results. split_and!; [done|done|]. destruct Ho as [->|[e ->]]; [by apply reported_after|done].
Qed.

Lemma quiet_then {A B} strict (m : MainM A) (f : A -> MainM B) t (Q : list main_event -> outcome B -> Prop) :
  quiet strict m ->
  (forall e l, Forall setup l -> strict = false -> Q (t ++ l) (Err e)) ->
  (forall a l, Forall setup l -> wpM (f a) tt (fun t' _ o => Q t' o) (t ++ l)) ->
  wpM (bindM m f) tt (fun t' _ o => Q t' o) t.
Proof.
  intros Hm He Hf. apply wpM_bind. eapply wpM_mono; [|apply Hm]. intros t' [] o (Ho & _ & l & -> & Hl).
  destruct o as [a|e|msg|]; try done; [by apply Hf|by apply He].
Qed.

Lemma run_report_run fl gomapPin preseed celestiaConfig t :
  wpM (report fl gomapPin preseed celestiaConfig) tt (fun t' _ o => exists l, t' = t ++ l /\
    told fl (selectScenarios (allScenarios no_spec fl preseed gomapPin celestiaConfig) (fl_scenario fl)) o l) t.
Proof.
  unfold run_report. set (selection := selectScenarios _ _).
  assert (Hnames : forall selected, selection = Some selected -> NoDup (map sc_Name selected)) by (intros; by eapply selected_names).
  apply wpM_bind. eapply wpM_mono with (Q := fun t' _ o => exists outPath l, o = Ok outPath /\ t' = t ++ l /\ Forall setup l /\
    (fl_outPath fl <> "" -> outPath = fl_outPath fl)).
  2: { destruct (String.eqb_spec (fl_outPath fl) "") as [Hp|Hp].
       - intros stamp. eexists _, _. split_and!; [done|done|by repeat constructor|done].
       - eexists _, []. rewrite app_nil_r. by split_and!. }
  intros t1 [] o (outPath & l1 & -> & -> & Hl1 & Hout).
  apply wpM_bind, files_perform. intros generated.
  eapply (quiet_then true); [apply quiet_metadata|done|]. intros host l2 Hl2.
  eapply (quiet_then true); [apply quiet_metadata|done|]. intros git l3 Hl3.
  set (before := l1 ++ [file WallClock generated] ++ l2 ++ l3).
  assert (Hbefore : Forall setup before) by (unfold before; rewrite !Forall_app; split_and!; [done|by repeat constructor|done|done]).
  replace ((((t ++ l1) ++ [file WallClock generated]) ++ l2) ++ l3) with (t ++ before) by (unfold before; by rewrite !app_assoc).
  clearbody before. destruct selection as [selected|] eqn:Hsel.
  2: { apply wpM_lift. exists before. split; [done|by apply told_fatal]. }
  eapply (quiet_then false).
  { destruct (needsWorkerConfig selected); quiet_go. }
  { intros e l Hl _. exists (before ++ l). rewrite app_assoc. split; [done|]. apply told_fatal, Forall_app. done. }
  intros _ l4 Hl4. apply wpM_bind. eapply wpM_mono; [|apply run_selected_run]. intros t2 [] o (results & middle & -> & -> & Hran).
  eapply wpM_mono; [|apply write_artifacts_run]. intros t3 [] o (after & -> & Hafter & Ho).
  exists ((before ++ l4) ++ middle ++ after). rewrite <- !app_assoc. split; [done|]. exists (before ++ l4), middle, after.
  rewrite !Forall_app, <- !app_assoc. split_and!; [done..|]. right. exists selected, results. split_and!; [done|done|].
  destruct o as [[]|e|msg|]; try done. destruct Ho as (body & Hbody & Hj & Hm). eexists _, body, outPath. split_and!; [..|exact Hout|exact Hbody|exact Hj|exact Hm].
  - done.
  - intros name msg. apply errors_of_lookup. rewrite (ran_names _ _ _ _ Hran), map_map.
    rewrite (map_ext _ sc_Name) by apply with_profiles_name. by apply Hnames.
Qed.

Lemma default_flags_yields : yields (fun fl => exists celestia, fl = default_values celestia) default_flags.
Proof. unfold default_flags. repeat (apply yields_bind; intros ?). apply yields_ret. by eexists. Qed.

Lemma wpM_main_defer (f m : MainM unit) t (Q : list main_event -> unit -> outcome unit -> Prop) :
  wpM m tt (fun t' s' o => match o with Err _ => Q t' s' o | _ => wpM (bindM f (fun _ => lift_outcome o)) s' Q t' end) t ->
  wpM (main_defer f m) tt Q t.
Proof. intros Hm. unfold wpM, main_defer. apply wp_bind. eapply wp_mono; [|exact Hm]. by intros t' [s' []]. Qed.

(** C9: the command runs the scenarios its flags select, in order and each
    once, with the profiles' settings, and nothing at all when a flag is
    refused.  Each result is the one of the scenario's own run, whose calls
    are together in the command's trace: a run on Docker has closed its books
    before the next begins, and a comparison has ended as one does.  When
    the command succeeds, the two artifacts were written, the first from
    all the results, with the error of each that failed; a fatal error
    comes before the first run or after the last. *)
Theorem main_runs_selected :
  wpM main_ tt (fun t _ o => exists celestia,
    let fl := Parse (default_values celestia) in
    (exists e, o = Err e /\ Forall setup t) \/
    exists selected, configured fl selected /\ told fl (Some selected) o t) [].
Proof.
  unfold main. apply wpM_bind. eapply wpM_mono; [|apply wpM_and; [apply quiet_default_flags|apply default_flags_yields]].
  intros t1 [] o ((Ho & _ & l1 & -> & Hl1) & Hfl). destruct o as [defaults|e|msg|]; try done. destruct Hfl as [celestia ->].
  assert (Hfatal : forall e l, Forall setup l -> exists celestia', let fl := Parse (default_values celestia') in
    (exists e', Err (A := unit) e = Err e' /\ Forall setup l) \/ exists selected, configured fl selected /\ told fl (Some selected) (Err e) l).
  { intros e l Hl. exists celestia. left. by exists e. }
  cbn zeta. destruct (check_flags _ _ _ _) as [msg|] eqn:Hcheck; [by apply wpM_lift, Hfatal|].
  destruct (configure _ _ _) as [[gomapPin preseed]|e] eqn:Hconf; [|by apply wpM_bind, wpM_lift, Hfatal].
  apply wpM_bind, wpM_ret. eapply (quiet_then true); [apply quiet_normalize|done|]. intros celestiaConfig l2 Hl2.
  apply wpM_bind. eapply wpM_mono; [|apply wpM_and; [apply quiet_start|apply start_yields]].
  intros t3 [] o ((Ho' & _ & l3 & -> & Hl3) & Hstop).
  assert (Hl : Forall setup ((l1 ++ l2) ++ l3)) by (by rewrite !Forall_app). destruct o as [stop|e|msg|]; try done; [|by apply Hfatal].
  apply wpM_main_defer. eapply wpM_mono; [|apply run_report_run]. intros t4 [] o (l4 & -> & Hl4).
  destruct (selectScenarios _ _) as [selected|] eqn:Hsel.
  2: { destruct Hl4 as (before & middle & after & -> & Hs & [[-> [e ->]]|(selected & results & Hs' & _)]); [|done].
       apply Hfatal. by rewrite Forall_app. }
  assert (Hc : configured (Parse (default_values celestia)) selected) by (split; [done|by exists gomapPin, preseed, celestiaConfig]).
  apply (told_before _ _ _ _ _ Hl) in Hl4. destruct o as [[]|e|msg|].
  - apply wpM_bind. eapply wpM_mono; [|apply Hstop]. intros t5 [] o (Ho5 & _ & l5 & -> & Hl5).
    destruct o as [[]|e|msg|]; try done; [apply wpM_lift|]; exists celestia; right; exists selected; split; try done;
      (eapply told_after; [done|done|]; [by left|right; by eexists]) || (eapply told_after; [done|done|eauto]).
  - exists celestia. right. by exists selected.
  - destruct Hl4 as (? & ? & ? & _ & _ & [[_ [? ?]]|(? & ? & _ & _ & [])]); done.
  - destruct Hl4 as (? & ? & ? & _ & _ & [[_ [? ?]]|(? & ? & _ & _ & [])]); done.
Qed.

(** The defaults are accepted, and so is a fraction that is not a number. *)
Lemma defaults_accepted celestia : check_flags durationString quote_ format_v (default_values celestia) = None.
Proof. reflexivity. Qed.
Lemma nan_fraction_accepted celestia :
  check_flags durationString quote_ format_v ((default_values celestia) {{ fl_loadWindowTargetFraction := S754_nan }}) = None.
Proof. reflexivity. Qed.
End command.
